(* ===== verification/_CoqProject ===== *)
-Q . S2P
Prelude.v
Ports.v
Partial.v
Preserve.v
Memory.v
Common.v
Text.v
Array.v
Ring.v
Pmm.v
Heap.v
HeapInv.v
HeapSpec.v
HeapRun.v
Disk.v
Fat.v
FatFile.v
FatSpec.v
FatTable.v
FatAlloc.v
FatFormat.v
FatData.v
FatChain.v
FatDir.v
FatVolume.v
FatFiles.v
Scheduler.v
SchedSpec.v
SchedRun.v
Paging.v
PagingSpec.v
Net.v
NetSpec.v
NetRun.v
Serial.v
SerialTx.v
Timer.v
Klog.v
Rtc.v
Pic.v
Descriptors.v
Cpu.v
Pci.v
Nic.v
NicSafe.v
NicRing.v
NicRun.v
Font.v
Vbe.v
VbeSpec.v
Mouse.v
MouseSpec.v
Keyboard.v
KeyboardSpec.v
Calc.v
Console.v
ConsoleGrid.v
ConsoleSpec.v
ConsolePaper.v
ConsoleClear.v
Panic.v
PanicSpec.v
Editor.v
EditorDoc.v
EditorView.v
Shell.v
ShellLine.v
ShellView.v
ShellExec.v
ShellInfo.v
ShellNet.v
Isr.v
ShellGui.v
ShellFiles.v
ShellScript.v
IsrSpec.v
ShellNetSpec.v
ShellIfSpec.v
Station.v
Boot.v
