(* ===== verification/Prelude.v ===== *)
(** * A verification of Bengal Tiger OS

    Bengal Tiger OS is a 32-bit x86 kernel written in C ([src/kernel]).  A
    boot loader starts [kmain] ([main.c]), which sets up the processor, the
    memory managers, the drivers, the file system, the network and the
    scheduler, and then runs an interactive shell.  This library models the
    C code as executable functions and proves the properties below about them.

    ** How the code is modelled

    A [w]-bit integer is a [Z] with its wrap-around written out ([u8], [u16],
    [u32], [s32], here).  Memory is a finite map from addresses to bytes
    ([Memory]); static arrays that are only reached by index are lists.  A
    function that changes state passes it explicitly, in one of two monads:
    [ST S A] ([Prelude]) for total code, and [PM S A] ([Partial]) for code
    that may not return or that may fault, where [None] means that the fuel of
    a loop ran out or that an array was accessed out of bounds.  Characters
    are bytes and a C string is the list of its characters ([Common], [Text]).

    Hardware is not code: port instructions ([Ports], and [LongPorts] in
    [Pci]), memory-mapped registers and the memory a card writes ([Board] in
    [Nic]), CPUID and the A20 line ([Processor] in [Cpu]) are type classes.
    What the code relies on of a device is a class of laws beside them
    ([Uart], [UartTx], [PciSpace], [E1000Laws], [KeepsDma], [FastGate], ...),
    each with an instance that shows the laws can hold; theorems are proved
    for every instance.  Link-time addresses ([bss_end], static pools, the
    layout of the card's rings, the stubs of [isr.s]) are parameters.

    ** Files, the code they model, and what is proved

    Shared: [Prelude], [Ports], [Partial], [Preserve] (what a computation
    leaves as it is), [Memory] ([memset], [memcpy], [memcmp] of [common.c] with
    their word-wise loops), [Common] (numbers and strings of [common.c]),
    [Text], [Array] (arrays edited in place, with [strcpy] and [strcat] of
    [common.c] on arrays of a fixed size), [Ring] (the ring buffers of
    [keyboard.c] and [serial.c] as bounded queues).

    Memory: [Pmm] (frame bitmap of [paging.c], [multiboot.h]): allocation
    gives the lowest free frame, and initialisation frees only available
    memory.  [Heap], [HeapInv], [HeapSpec], [HeapRun] ([heap.c]): the block
    list in memory refines an allocator of disjoint regions ([Allocator]), in
    every reachable state.  [Paging], [PagingSpec] ([paging.c]): the tables
    are a partial map of pages.  [Boot] (phase 2 of [kmain] in [main.c]): the
    three start in one memory and agree with each other.

    Storage: [Disk] ([disk.c]); [Fat], [FatFile] ([fat.c]) with [FatSpec],
    [FatTable], [FatAlloc], [FatFormat], [FatData], [FatChain], [FatDir],
    [FatVolume], [FatFiles]: a mounted volume refines a finite map from names
    to contents, for reading, writing and deleting, and formatting gives the
    map of the four default files.

    Tasks: [Scheduler], [SchedSpec], [SchedRun] ([scheduler.c]): the ring of
    tasks is always a list without duplicates, creation, exit and reaping
    account for all memory, and scheduling is fair.

    Network: [Net], [NetSpec], [NetRun] ([net.c]) over the interface [NetEnv]
    of a card and a clock: echo requests are answered with frames of which
    every byte is stated, the ARP cache is a bounded map, and the receive path
    returns on every frame but an echo request through a next hop that is not
    in the cache, for which its wait never ends.  [Pci] ([pci.c]): the scan finds what the configuration space
    describes.  [Nic], [NicSafe], [NicRing], [NicRun] ([nic.c]): the receive
    ring is a queue although the card fills it at any time, and no operation
    leaves its arrays whatever the card writes.

    Processor: [Descriptors] ([gdt.c], [idt.c]): every vector leads to its
    stub.  [Cpu] ([cpu.c]): the A20 check restores the memory and the gate is
    open when it is reported open.  [Pic] ([pic.c]).  [Panic], [PanicSpec]
    ([panic.c]): the crash screen shows every register.  [Isr], [IsrSpec]
    ([isr.c]): every hardware interrupt is acknowledged exactly as its line
    needs and before it is served, the timer interrupt counts the tick and switches tasks by
    round-robin, and the system calls return what they promise.

    Devices: [Serial], [SerialTx] ([serial.c]); [Timer] ([timer.c]); [Klog]
    ([klog.c]): the log keeps the end of what was written; [Rtc] ([rtc.c]):
    every valid time is read back; [Keyboard], [KeyboardSpec] ([keyboard.c]):
    typed keys arrive in order; [Font], [Vbe], [VbeSpec] ([font.c], [vbe.c]);
    [Mouse], [MouseSpec] ([mouse.c]): the pointer leaves no trail.

    User interface: [Console], [ConsoleGrid], [ConsoleSpec], [ConsolePaper],
    [ConsoleClear] (the console of [shell.c]): printing refines writing on a
    roll of paper of which the screen is a window.  [Editor], [EditorDoc],
    [EditorView] ([editor.c]): keys edit a document and the screen shows it.
    [Shell], [ShellLine], [ShellView] (the command line of [shell.c]): the
    screen shows the edited line.  [ShellExec], [ShellFiles], [ShellScript]
    (the interpreter of [shell.c]): [write] and [cat] store and show files
    from the typed line to the sectors, and scripts nest at most five deep.
    [Calc]: the calculator agrees with a reference evaluator.

    The other commands of [shell.c] run on the whole machine: the console
    writes through the ports of a hardware type [H], and the class [World] of
    [ShellInfo] gives the variables of the other components behind it and
    behind the device [D] with the disks and the heap.  [ShellInfo] has the
    commands that show tables and those that start and end tasks; [ShellNet]
    has [ifconfig], [dhcp], [ping], [top], sound, power, the table of commands
    and the main loop; [ShellGui] has the desktop and shows that every text it
    puts together fits its array.  [ShellNetSpec]: [ping] prints what happened
    to every request and the right summary, and stops at the first control-C
    it reads.  [ShellIfSpec]: [ifconfig] sets the addresses it is given, shows
    the result character by character, and refuses what is not an address.  [Station] has the machines of the witnesses.

    ** Fuel and bounds

    Loops with a counter of their own have exactly that bound (100000 reads
    of a status port, 32 frames of one poll).  Loops over the heap's blocks and the ring of tasks take
    the number of blocks or tasks as fuel, and the theorems show that it is
    enough; the walk of a cluster chain takes the number of clusters, as the
    code does.  The calculator needs fuel linear in the text.  Executing a
    line takes five levels of nesting, because [cmd_sh] refuses the fifth.
    Waits for hardware take any fuel: a theorem about them says how much is
    enough, or that no fuel is when the wait does not end.  The waits of [ping]
    poll at most 25 times, because each poll halts until a tick has passed.

    ** Not modelled

    The phases of [kmain] other than the memory phase call initialisers of
    components whose states the model keeps apart; each is modelled in its
    component.  The interrupts of a machine come at the points where the code
    waits: [sleep_ms], [hlt] and the polling loops take what the handlers do
    there as a parameter, and [Isr] has the handlers.  The network stack sends
    through its interface [NetEnv]; what it sends while [Isr] runs the driver
    is not a transmission of that driver, whose [nic_send_packet] is modelled
    and verified in [Nic] on its own.  Signed overflow in [calc] wraps.  [fat_load_file] and
    [fat_save_file] are unused wrappers.  [boot.s] and [isr.s] are assembly,
    and the port and flag instructions of [common.h] are the classes above.
    The interrupt flag is modelled where code depends on it
    ([Timer], [Panic]); elsewhere a critical section is a sequence of steps
    that only hardware interleaves with. *)

(** ** This file

    Machine integers, loops and the shared list, option and arithmetic lemmas
    used by every component. *)

From stdpp Require Export base tactics decidable numbers option list gmap.
From Stdlib Require Export ZArith Lia.

(** * Notations and hint databases *)

Declare Scope kernel_scope.
Delimit Scope kernel_scope with kernel.
#[global] Open Scope Z_scope.

Create HintDb kernel.
Create HintDb word.
Create Rewrite HintDb word.
Create Rewrite HintDb kernel.

(** [lia] with division and modulo by constants turned into equations. *)
Ltac zlia := Z.to_euclidean_division_equations; lia.

(** Splits the first [if]/[match] scrutinee found in the goal. *)
Ltac case_goal :=
  match goal with
  | |- context [match ?x with _ => _ end] => destruct x eqn:?
  end.

(** Same for a hypothesis. *)
Ltac case_hyp H :=
  match type of H with
  | context [match ?x with _ => _ end] => destruct x eqn:?
  end.

(** Turns the boolean comparisons of the context into propositions. *)
Ltac bool_to_prop :=
  cbv beta in *;
  repeat match goal with
  | H : (_ <? _) = true |- _ => apply Z.ltb_lt in H
  | H : (_ <? _) = false |- _ => apply Z.ltb_ge in H
  | H : (_ <=? _) = true |- _ => apply Z.leb_le in H
  | H : (_ <=? _) = false |- _ => apply Z.leb_gt in H
  | H : (_ =? _) = true |- _ => apply Z.eqb_eq in H
  | H : (_ =? _) = false |- _ => apply Z.eqb_neq in H
  | H : (_ && _)%bool = true |- _ => apply andb_true_iff in H; destruct H
  | H : (_ || _)%bool = false |- _ => apply orb_false_iff in H; destruct H
  | H : negb _ = true |- _ => apply negb_true_iff in H
  | H : negb _ = false |- _ => apply negb_false_iff in H
  end.

(** * Machine integers

    A w-bit unsigned integer is a [Z] kept in [0, 2^w) by an explicit
    reduction; [s32] reads a 32-bit pattern as a signed [int32_t]. *)

Definition u8 (x : Z) : Z := x mod 256.
Definition u16 (x : Z) : Z := x mod 65536.
Definition u32 (x : Z) : Z := x mod 4294967296.
Definition u64 (x : Z) : Z := x mod 18446744073709551616.
Definition s32 (x : Z) : Z :=
  let y := u32 x in if y <? 2147483648 then y else y - 4294967296.
Definition s8 (x : Z) : Z :=
  let y := u8 x in if y <? 128 then y else y - 256.

Definition is_u8 (x : Z) : Prop := 0 <= x < 256.
Definition is_u16 (x : Z) : Prop := 0 <= x < 65536.
Definition is_u32 (x : Z) : Prop := 0 <= x < 4294967296.

Lemma u8_range x : is_u8 (u8 x).
Proof. unfold is_u8, u8. zlia. Qed.
Lemma u16_range x : is_u16 (u16 x).
Proof. unfold is_u16, u16. zlia. Qed.
Lemma u32_range x : is_u32 (u32 x).
Proof. unfold is_u32, u32. zlia. Qed.
Lemma u8_id x : 0 <= x < 256 -> u8 x = x.
Proof. apply Z.mod_small. Qed.
Lemma u16_id x : 0 <= x < 65536 -> u16 x = x.
Proof. apply Z.mod_small. Qed.
Lemma u32_id x : 0 <= x < 4294967296 -> u32 x = x.
Proof. apply Z.mod_small. Qed.
Lemma u32_u32 x : u32 (u32 x) = u32 x.
Proof. apply u32_id, u32_range. Qed.
Lemma u32_add_l x y : u32 (u32 x + y) = u32 (x + y).
Proof. unfold u32. by rewrite Zplus_mod_idemp_l. Qed.
Lemma u32_sub_cancel a b : u32 (u32 (a + b) - a) = u32 b.
Proof. unfold u32. rewrite Zminus_mod_idemp_l. f_equal. lia. Qed.
Lemma s32_id x : -2147483648 <= x < 2147483648 -> s32 x = x.
Proof.
  intros H. unfold s32. destruct (decide (0 <= x)).
  - rewrite u32_id by lia. destruct (Z.ltb_spec x 2147483648); lia.
  - replace (u32 x) with (x + 4294967296) by (unfold u32; zlia).
    destruct (Z.ltb_spec (x + 4294967296) 2147483648); lia.
Qed.

#[export] Hint Resolve u8_range u16_range u32_range : word.
#[export] Hint Rewrite u32_u32 u32_add_l : word.

(** Unfolds the width predicates so that [lia] sees the bounds. *)
Ltac unfold_widths := unfold is_u8, is_u16, is_u32 in *.

(** Removes a 32-bit reduction whose argument [lia] can bound. *)
Ltac u32_simp :=
  repeat match goal with
  | |- context [u32 ?x] => rewrite (u32_id x) by (unfold_widths; lia)
  end.
Ltac u32_simp_in H :=
  repeat match type of H with
  | context [u32 ?x] => rewrite (u32_id x) in H by (unfold_widths; lia)
  end.

(** * Bit operations against division and modulo *)

Lemma land_1 x : Z.land x 1 = x mod 2.
Proof. by apply (Z.land_ones x 1). Qed.
Lemma land_15 x : Z.land x 15 = x mod 16.
Proof. by apply (Z.land_ones x 4). Qed.
Lemma land_1023 x : Z.land x 1023 = x mod 1024.
Proof. by apply (Z.land_ones x 10). Qed.
Lemma land_255 x : Z.land x 255 = x mod 256.
Proof. by apply (Z.land_ones x 8). Qed.
Lemma land_65535 x : Z.land x 65535 = x mod 65536.
Proof. by apply (Z.land_ones x 16). Qed.
Lemma land_4095 x : Z.land x 4095 = x mod 4096.
Proof. by apply (Z.land_ones x 12). Qed.

(** Clearing the low [k] bits rounds down to a multiple of [2^k]. *)
Lemma land_lnot_ones x k :
  0 <= k -> Z.land x (Z.lnot (2 ^ k - 1)) = x / 2 ^ k * 2 ^ k.
Proof.
  intros Hk. rewrite <- Z.ldiff_land.
  replace (2 ^ k - 1) with (Z.ones k) by (rewrite Z.ones_equiv; lia).
  by rewrite Z.ldiff_ones_r, Z.shiftr_div_pow2, Z.shiftl_mul_pow2.
Qed.

Lemma lor_disjoint_add a b : Z.land a b = 0 -> Z.lor a b = a + b.
Proof. intros H. pose proof (Z.add_lor_land a b). lia. Qed.

Lemma land_low_high a b k :
  0 <= k -> 0 <= a < 2 ^ k -> Z.land a (b * 2 ^ k) = 0.
Proof.
  intros Hk Ha. apply Z.bits_inj'. intros i Hi.
  rewrite Z.land_spec, Z.bits_0, <- Z.shiftl_mul_pow2, Z.shiftl_spec by lia.
  destruct (decide (i < k)).
  - rewrite (Z.testbit_neg_r b) by lia. by rewrite andb_false_r.
  - replace (Z.testbit a i) with false; [done|]. symmetry.
    rewrite <- (Z.mod_small a (2 ^ k)) by lia. by apply Z.mod_pow2_bits_high; lia.
Qed.

(** [a | (b << k)] is [a + b * 2^k] when [a] fits in [k] bits. *)
Lemma lor_shiftl_add a b k :
  0 <= k -> 0 <= a < 2 ^ k -> Z.lor a (Z.shiftl b k) = a + b * 2 ^ k.
Proof.
  intros Hk Ha. rewrite Z.shiftl_mul_pow2 by lia.
  apply lor_disjoint_add. by apply land_low_high.
Qed.

Lemma ldiff_land_add a b : Z.ldiff a b + Z.land a b = a.
Proof.
  rewrite <- (Z.lor_ldiff_and a b) at 3. symmetry. apply lor_disjoint_add.
  apply Z.bits_inj'. intros i Hi. rewrite !Z.land_spec, Z.ldiff_spec, Z.bits_0.
  by destruct (Z.testbit a i), (Z.testbit b i).
Qed.

Lemma land_nonneg_l a b : 0 <= a -> 0 <= Z.land a b <= a.
Proof.
  intros Ha. pose proof (ldiff_land_add a b).
  assert (0 <= Z.ldiff a b) by (apply Z.ldiff_nonneg; auto).
  assert (0 <= Z.land a b) by (apply Z.land_nonneg; auto). lia.
Qed.

(** * Loops *)

(** [for (i = lo; i < hi; i++) body]. *)
Definition for_range {S : Type} (lo hi : Z) (body : Z -> S -> S) (s : S) : S :=
  foldl (fun s i => body i s) s (seqZ lo (hi - lo)).

Lemma for_range_done {S} lo hi (body : Z -> S -> S) s :
  hi <= lo -> for_range lo hi body s = s.
Proof. intros H. unfold for_range. by rewrite seqZ_nil by lia. Qed.

Lemma for_range_step {S} lo hi (body : Z -> S -> S) s :
  lo < hi -> for_range lo hi body s = for_range (lo + 1) hi body (body lo s).
Proof.
  intros H. unfold for_range. rewrite seqZ_cons by lia. simpl.
  by replace (Z.pred (hi - lo)) with (hi - (lo + 1)) by lia.
Qed.

Lemma for_range_last {S} lo hi (body : Z -> S -> S) s :
  lo <= hi -> for_range lo (hi + 1) body s = body hi (for_range lo hi body s).
Proof.
  intros H. unfold for_range. replace (hi + 1 - lo) with ((hi - lo) + 1) by lia.
  rewrite seqZ_app, foldl_app by lia. simpl. do 2 f_equal. lia.
Qed.

(** An invariant indexed by the loop counter. *)
Lemma for_range_inv {S} (I : Z -> S -> Prop) lo hi (body : Z -> S -> S) s :
  lo <= hi -> I lo s ->
  (forall i s, lo <= i < hi -> I i s -> I (i + 1) (body i s)) ->
  I hi (for_range lo hi body s).
Proof.
  intros Hle H0 Hstep.
  revert s H0. remember (Z.to_nat (hi - lo)) as n eqn:Hn.
  revert lo Hle Hn Hstep. induction n as [|n IH]; intros lo Hle Hn Hstep s H0.
  - rewrite for_range_done by lia. by replace hi with lo by lia.
  - rewrite for_range_step by lia. apply IH; try lia.
    + intros i s' ? ?. apply Hstep; auto with lia.
    + apply Hstep; auto with lia.
Qed.

(** Two loops whose bodies agree on the states that satisfy an invariant. *)
Lemma for_range_ext {S} (I : S -> Prop) lo hi (f g : Z -> S -> S) s :
  I s -> (forall i s, lo <= i < hi -> I s -> f i s = g i s /\ I (g i s)) ->
  for_range lo hi f s = for_range lo hi g s.
Proof.
  intros H0 Hfg. destruct (Z.le_gt_cases lo hi) as [Hle|Hgt]; [|by rewrite !for_range_done by lia].
  assert (for_range lo hi f s = for_range lo hi g s /\ I (for_range lo hi g s)) as [? _]; [|done].
  remember (Z.to_nat (hi - lo)) as n eqn:Hn.
  revert lo Hle Hn Hfg s H0. induction n as [|n IH]; intros lo Hle Hn Hfg s H0.
  - by rewrite !for_range_done by lia.
  - rewrite !(for_range_step lo) by lia. destruct (Hfg lo s) as [-> HI]; [lia|done|].
    apply IH; [lia..| |done]. intros i s' Hi. apply Hfg. lia.
Qed.

(** [while (cond) body] with a bound on the number of iterations; [None]
    means that the bound was reached with the condition still true. *)
Fixpoint while_fuel {S : Type} (fuel : nat) (cond : S -> bool) (body : S -> S)
    (s : S) : option S :=
  if cond s then
    match fuel with
    | O => None
    | Datatypes.S n => while_fuel n cond body (body s)
    end
  else Some s.

(** The total-correctness rule: an invariant and a decreasing measure. *)
Lemma while_fuel_total {S} (I : S -> Prop) (mu : S -> nat) cond (body : S -> S) fuel s :
  I s -> (mu s <= fuel)%nat ->
  (forall s, I s -> cond s = true -> I (body s) /\ (mu (body s) < mu s)%nat) ->
  exists s', while_fuel fuel cond body s = Some s' /\ I s' /\ cond s' = false.
Proof.
  intros HI Hmu Hstep. revert s HI Hmu. induction fuel as [|n IH]; intros s HI Hmu; simpl.
  - destruct (cond s) eqn:Hc; [|eauto].
    destruct (Hstep s HI Hc) as [_ ?]. lia.
  - destruct (cond s) eqn:Hc; [|eauto].
    destruct (Hstep s HI Hc) as [HI' ?]. apply IH; [done|lia].
Qed.

(** * Lists indexed by [Z] *)

Section zlist.
Context {A : Type}.
Implicit Types l : list A.

(** [a[i]] with the default [d] outside of the array. *)
Definition nthZ (d : A) l (i : Z) : A :=
  if i <? 0 then d else default d (l !! Z.to_nat i).

(** [a[i] = x]; no effect outside of the array. *)
Definition updZ (i : Z) (x : A) l : list A :=
  if i <? 0 then l else <[Z.to_nat i := x]> l.

Definition lenZ l : Z := Z.of_nat (length l).

Lemma lenZ_updZ i x l : lenZ (updZ i x l) = lenZ l.
Proof. unfold lenZ, updZ. case_goal; [done|]. by rewrite length_insert. Qed.

Lemma nthZ_updZ_eq d i x l : 0 <= i < lenZ l -> nthZ d (updZ i x l) i = x.
Proof.
  unfold lenZ, nthZ, updZ. intros Hi. destruct (Z.ltb_spec i 0); [lia|].
  by rewrite list_lookup_insert_eq by lia.
Qed.

Lemma nthZ_updZ_ne d i j x l : i <> j -> nthZ d (updZ i x l) j = nthZ d l j.
Proof.
  unfold nthZ, updZ. intros Hi. destruct (Z.ltb_spec j 0); [done|].
  destruct (Z.ltb_spec i 0); [done|]. by rewrite list_lookup_insert_ne by lia.
Qed.

Lemma Forall_updZ (P : A -> Prop) i x l : Forall P l -> P x -> Forall P (updZ i x l).
Proof. intros. unfold updZ. case_goal; [done|]. by apply Forall_insert. Qed.

Lemma lenZ_nonneg l : 0 <= lenZ l.
Proof. unfold lenZ. lia. Qed.
End zlist.

#[export] Hint Rewrite @lenZ_updZ : kernel.
#[export] Hint Resolve lenZ_nonneg : kernel.

(** * Counting *)

Section count.
Context {A : Type}.

Fixpoint countb (p : A -> bool) (l : list A) : Z :=
  match l with
  | [] => 0
  | x :: l => (if p x then 1 else 0) + countb p l
  end.

Lemma countb_app p (l k : list A) : countb p (l ++ k) = countb p l + countb p k.
Proof. induction l as [|x l IH]; simpl; [lia|]. rewrite IH. lia. Qed.

Lemma countb_range p (l : list A) : 0 <= countb p l <= lenZ l.
Proof. unfold lenZ. induction l as [|x l IH]; simpl; [lia|]. destruct (p x); lia. Qed.

Lemma countb_ext p q (l : list A) :
  (forall x, x ∈ l -> p x = q x) -> countb p l = countb q l.
Proof.
  induction l as [|x l IH]; intros H; [done|]. simpl.
  rewrite (H x), IH; [done| |set_solver]. intros y Hy. apply H. set_solver.
Qed.

Lemma countb_true p (l : list A) : (forall x, x ∈ l -> p x = true) -> countb p l = lenZ l.
Proof.
  unfold lenZ. induction l as [|x l IH]; intros H; [done|]. simpl.
  rewrite (H x), IH; [lia| |set_solver]. intros y Hy. apply H. set_solver.
Qed.

(** Flipping the predicate at one element moves the count by one. *)
Lemma countb_flip p q (l : list A) x :
  NoDup l -> x ∈ l -> p x = false -> q x = true ->
  (forall y, y <> x -> p y = q y) -> countb q l = countb p l + 1.
Proof.
  intros Hnd Hin Hp Hq Hne. apply list_elem_of_split in Hin as (l1 & l2 & ->).
  apply NoDup_app in Hnd as (_ & Hd & [Hx _]%NoDup_cons).
  rewrite !countb_app. simpl. rewrite Hp, Hq.
  rewrite (countb_ext p q l1), (countb_ext p q l2); [lia| |].
  - intros y Hy. apply Hne. intros ->. done.
  - intros y Hy. apply Hne. intros ->. apply (Hd x Hy). set_solver.
Qed.
End count.

(** * Stateful code

    A computation of type [ST S A] reads and updates a state of type [S] and
    returns a value of type [A]. *)

Definition ST (S A : Type) : Type := S -> A * S.

Section st.
Context {S : Type}.

Definition st_ret {A} (x : A) : ST S A := fun s => (x, s).
Definition st_bind {A B} (m : ST S A) (k : A -> ST S B) : ST S B :=
  fun s => let '(x, s') := m s in k x s'.
Definition st_get : ST S S := fun s => (s, s).
Definition st_put (s : S) : ST S unit := fun _ => (tt, s).

(** [for (i = lo; i < hi; i++) body(i)], without early exit. *)
Definition st_for (lo hi : Z) (body : Z -> ST S unit) : ST S unit :=
  fun s => (tt, for_range lo hi (fun i s => (body i s).2) s).

(** [for (i = lo; i < hi; i++)] whose body may return from the function:
    [Some x] is [return x], [None] goes on.  The list holds the counters. *)
Fixpoint st_search {A} (idx : list Z) (body : Z -> ST S (option A)) : ST S (option A) :=
  match idx with
  | [] => st_ret None
  | i :: idx => st_bind (body i) (fun r =>
      match r with Some x => st_ret (Some x) | None => st_search idx body end)
  end.

Lemma st_bind_eq {A B} (m : ST S A) (k : A -> ST S B) s x s' :
  m s = (x, s') -> st_bind m k s = k x s'.
Proof. unfold st_bind. by intros ->. Qed.
End st.

Notation "x <~ m ;; k" := (st_bind m (fun x => k))
  (at level 100, m at next level, right associativity) : kernel_scope.
Notation "m ;;; k" := (st_bind m (fun _ => k))
  (at level 100, right associativity) : kernel_scope.
