(* ===== verification/Ports.v ===== *)
(** Ports: the port instructions of [kernel/common.h], as the interface
    between the drivers and the hardware they drive. *)

From S2P Require Import Prelude.
#[local] Open Scope kernel_scope.

(** The byte and word port instructions, on the state of the hardware. *)
Class Ports (H : Type) := {
  inb : Z -> ST H Z;
  inw : Z -> ST H Z;
  outb : Z -> Z -> ST H unit;
  outw : Z -> Z -> ST H unit
}.

(** [x & mask] used as a condition. *)
Definition bit_set (x mask : Z) : bool := negb (Z.land x mask =? 0).

(** [while (inb(port) & mask) (void)inb(data)], at most [n] times. *)
Fixpoint drain {H} `{Ports H} (n : nat) (port mask data : Z) : ST H unit :=
  match n with
  | O => st_ret tt
  | S n => st <~ inb port;;
           if bit_set st mask then inb data ;;; drain n port mask data else st_ret tt
  end.

(** A byte port instruction reads a byte. *)
Class BytePorts (H : Type) `{Ports H} := inb_byte p h : is_u8 (inb p h).1.
