(* ===== verification/Partial.v ===== *)
(** Partial: computations over a state that may run out of fuel.

    A driver that waits for its hardware loops without a bound of its own.
    Such code has type [PM S A]: it returns a value and a new state, or [None]
    when the fuel given to its loops was not enough. *)

From S2P Require Import Prelude.

Definition PM (S A : Type) : Type := S -> option (A * S).

Declare Scope partial_scope.
Delimit Scope partial_scope with partial.

Section partial.
Context {S : Type}.

Definition p_ret {A} (x : A) : PM S A := fun s => Some (x, s).
Definition p_bind {A B} (m : PM S A) (k : A -> PM S B) : PM S B :=
  fun s => match m s with Some (x, s') => k x s' | None => None end.
Definition p_get : PM S S := fun s => Some (s, s).
Definition p_mod (f : S -> S) : PM S unit := fun s => Some (tt, f s).
Definition p_none {A} : PM S A := fun _ => None.
(** A value computed by a function with fuel of its own. *)
Definition p_val {A} (o : option A) : PM S A := fun s => match o with Some x => Some (x, s) | None => None end.
(** A total computation on a part of the state. *)
Definition p_zoom {H A} (get : S -> H) (set : H -> S -> S) (m : ST H A) : PM S A :=
  fun s => let '(x, h) := m (get s) in Some (x, set h s).

(** A computation with fuel on a part of the state. *)
Definition p_part {H A} (get : S -> H) (set : H -> S -> S) (m : PM H A) : PM S A :=
  fun s => match m (get s) with Some (x, h) => Some (x, set h s) | None => None end.
(** A function with fuel on the state. *)
Definition p_step (f : S -> option S) : PM S unit :=
  fun s => match f s with Some s' => Some (tt, s') | None => None end.

(** [while (cond) body]. *)
Fixpoint p_while (fuel : nat) (cond : PM S bool) (body : PM S unit) : PM S unit :=
  match fuel with
  | O => p_none
  | Datatypes.S n => p_bind cond (fun b => if b then p_bind body (fun _ => p_while n cond body) else p_ret tt)
  end.

(** [for (x in l) body(x)]. *)
Fixpoint p_each {A} (l : list A) (body : A -> PM S unit) : PM S unit :=
  match l with [] => p_ret tt | x :: l => p_bind (body x) (fun _ => p_each l body) end.

(** Whether a computation returns, with what value and in which state. *)
Definition returns {A} (m : PM S A) (s : S) (Q : A -> S -> Prop) : Prop :=
  exists x s', m s = Some (x, s') /\ Q x s'.

Lemma returns_bind {A B} (m : PM S A) (k : A -> PM S B) s Q :
  returns m s (fun x s' => returns (k x) s' Q) -> returns (p_bind m k) s Q.
Proof. intros (x & s' & Hm & y & s'' & Hk & HQ). exists y, s''. unfold p_bind. by rewrite Hm. Qed.

Lemma returns_ret {A} (x : A) s (Q : A -> S -> Prop) : Q x s -> returns (p_ret x) s Q.
Proof. intros. by exists x, s. Qed.

Lemma returns_mono {A} (m : PM S A) s (P Q : A -> S -> Prop) :
  returns m s P -> (forall x s', P x s' -> Q x s') -> returns m s Q.
Proof. intros (x & s' & Hm & HP) HPQ. exists x, s'. auto. Qed.

(** The rule of total correctness: an invariant [I] and a measure [mu] that
    the body decreases; the condition may change the state. *)
Lemma returns_while (I : S -> Prop) (mu : S -> nat) (cond : PM S bool) (body : PM S unit) (Q : unit -> S -> Prop) fuel s :
  I s -> (mu s < fuel)%nat ->
  (forall s, I s -> returns cond s (fun b s' =>
     if b then returns body s' (fun _ s'' => I s'' /\ (mu s'' < mu s)%nat) else Q tt s')) ->
  returns (p_while fuel cond body) s Q.
Proof.
  intros HI Hmu Hstep. revert s HI Hmu. induction fuel as [|n IH]; intros s HI Hmu; [lia|].
  simpl. apply returns_bind. eapply returns_mono; [by apply Hstep|].
  intros [] s' Hb; simpl in Hb; [|by apply returns_ret].
  apply returns_bind. eapply returns_mono; [exact Hb|].
  intros _ s'' [HI'' ?]. apply IH; [done|lia].
Qed.

(** An invariant of the body of a loop over a list. *)
Lemma returns_each {A} (I : S -> Prop) (l : list A) (body : A -> PM S unit) s :
  (forall x s, I s -> returns (body x) s (fun _ s' => I s')) -> I s -> returns (p_each l body) s (fun _ s' => I s').
Proof.
  intros Hb. revert s. induction l as [|x l IH]; intros s Hs; [by apply returns_ret|]. cbn [p_each]. apply returns_bind.
  eapply returns_mono; [by apply Hb|]. intros [] s' Hs'. by apply IH.
Qed.
End partial.

(** Running on a part of the state. *)
Lemma returns_part {S H A} (get : S -> H) (set : H -> S -> S) (m : PM H A) s (Q : A -> S -> Prop) :
  returns m (get s) (fun x h => Q x (set h s)) -> returns (p_part get set m) s Q.
Proof. intros (x & h & Hm & HQ). exists x, (set h s). unfold p_part. by rewrite Hm. Qed.

Notation "x <- m ;; k" := (p_bind m (fun x => k))
  (at level 100, m at next level, right associativity) : partial_scope.
Notation "m ;; k" := (p_bind m (fun _ => k))
  (at level 100, right associativity) : partial_scope.
