(* ===== verification/Preserve.v ===== *)
(** Preserve: what a computation leaves as it is.  [preserves I m] says that
    [m], when it returns, leaves the predicate [I] of the state true; the rules
    follow the code, and the tactic [preserve] applies them. *)

From S2P Require Import Prelude Partial.
#[local] Open Scope partial_scope.

Create HintDb preserve.

Section preserve.
Context {S : Type} (I : S -> Prop).

Definition preserves {A} (m : PM S A) : Prop := forall s x s', m s = Some (x, s') -> I s -> I s'.

Lemma preserves_ret {A} (x : A) : preserves (p_ret x).
Proof. intros s y s' E. by injection E as <- <-. Qed.
Lemma preserves_get : preserves p_get.
Proof. intros s y s' E. by injection E as <- <-. Qed.
Lemma preserves_none {A} : preserves (p_none (A := A)).
Proof. intros s y s' E. discriminate. Qed.
Lemma preserves_val {A} (o : option A) : preserves (p_val o).
Proof. intros s y s'. unfold p_val. destruct o; [|done]. intros E. by injection E as <- <-. Qed.
Lemma preserves_mod f : (forall s, I s -> I (f s)) -> preserves (p_mod f).
Proof. intros Hf s y s' E. injection E as <- <-. apply Hf. Qed.
Lemma preserves_step f : (forall s s', f s = Some s' -> I s -> I s') -> preserves (p_step f).
Proof. intros Hf s y s'. unfold p_step. destruct (f s) eqn:E; [|done]. intros E'. injection E' as <- <-. by apply Hf. Qed.
Lemma preserves_bind {A B} (m : PM S A) (k : A -> PM S B) :
  preserves m -> (forall x, preserves (k x)) -> preserves (p_bind m k).
Proof.
  intros Hm Hk s y s'. unfold p_bind. destruct (m s) as [[x s1]|] eqn:E; [|done].
  intros E' Hs. eapply Hk; [exact E'|]. by eapply Hm.
Qed.
Lemma preserves_if {A} (b : bool) (m m' : PM S A) : preserves m -> preserves m' -> preserves (if b then m else m').
Proof. by destruct b. Qed.
Lemma preserves_each {A} (l : list A) (f : A -> PM S unit) : (forall x, preserves (f x)) -> preserves (p_each l f).
Proof. intros Hf. induction l as [|x l IH]; cbn [p_each]; [apply preserves_ret|by apply preserves_bind]. Qed.
Lemma preserves_while fuel (c : PM S bool) (b : PM S unit) : preserves c -> preserves b -> preserves (p_while fuel c b).
Proof.
  intros Hc Hb. induction fuel as [|n IH]; cbn [p_while]; [apply preserves_none|].
  apply preserves_bind; [done|]. intros []; [by apply preserves_bind|apply preserves_ret].
Qed.
Lemma preserves_zoom {H A} (get : S -> H) (set : H -> S -> S) (m : ST H A) :
  (forall s, I s -> I (set (m (get s)).2 s)) -> preserves (p_zoom get set m).
Proof. intros Hm s y s'. unfold p_zoom. specialize (Hm s). destruct (m (get s)). intros E. by injection E as <- <-. Qed.

(** With [returns], the predicate holds after it. *)
Lemma returns_preserves {A} (m : PM S A) s (Q : A -> S -> Prop) :
  returns m s Q -> preserves m -> I s -> returns m s (fun x s' => Q x s' /\ I s').
Proof. intros (x & s' & E & HQ) Hm Hs. exists x, s'. split; [done|]. split; [done|]. by eapply Hm. Qed.
End preserve.

Lemma preserves_part {S H A} (I : S -> Prop) (J : H -> Prop) (get : S -> H) (set : H -> S -> S) (m : PM H A) :
  preserves J m -> (forall s, I s -> J (get s)) -> (forall h s, I s -> J h -> I (set h s)) -> preserves I (p_part get set m).
Proof.
  intros Hm Hg Hs s y s'. unfold p_part. destruct (m (get s)) as [[x h]|] eqn:E; [|done].
  intros E' HI. injection E' as <- <-. apply Hs; [done|]. eapply Hm; [exact E|]. by apply Hg.
Qed.
#[export] Hint Resolve preserves_ret preserves_get preserves_none preserves_val : preserve.

(** Walks through the code. *)
Ltac preserve_step :=
  first
    [ solve [auto with preserve]
    | match goal with |- preserves _ (p_while _ _ _) => apply preserves_while end
    | match goal with |- preserves _ (p_each _ _) => apply preserves_each; intros ? end
    | apply preserves_bind; [|intros ?]
    | apply preserves_if
    | match goal with |- preserves _ (match ?x with _ => _ end) => destruct x end ].
Ltac preserve := repeat (cbv beta zeta; preserve_step).
