(* ===== verification/Memory.v ===== *)
(** Memory: the byte-addressed physical memory the kernel's C code runs on,
    and the memory routines of [kernel/common.c] ([memset], [memcpy],
    [memmove], [memcmp]) with their word-at-a-time fast paths.

    A pointer is a 32-bit address; [ld32]/[st32] are the little-endian
    accesses of the i386 target. *)

From S2P Require Import Prelude.

Abbreviation mem := (gmap Z Z).

(** * Loads and stores *)

Definition ld8 (m : mem) (a : Z) : Z := u8 (default 0 (m !! a)).
Definition st8 (m : mem) (a v : Z) : mem := <[a := u8 v]> m.

Definition ld32 (m : mem) (a : Z) : Z :=
  ld8 m a + 256 * ld8 m (a + 1) + 65536 * ld8 m (a + 2) + 16777216 * ld8 m (a + 3).
Definition st32 (m : mem) (a v : Z) : mem :=
  st8 (st8 (st8 (st8 m a v) (a + 1) (v / 256)) (a + 2) (v / 65536)) (a + 3) (v / 16777216).

Lemma ld8_range m a : is_u8 (ld8 m a).
Proof. apply u8_range. Qed.

Lemma ld8_st8 m a b v : ld8 (st8 m a v) b = if decide (a = b) then u8 v else ld8 m b.
Proof.
  unfold ld8, st8. rewrite lookup_insert. case_decide; [|done].
  simpl. apply u8_id, u8_range.
Qed.

Lemma ld8_st8_eq m a v : ld8 (st8 m a v) a = u8 v.
Proof. rewrite ld8_st8. by case_decide. Qed.

Lemma ld8_st8_ne m a b v : a <> b -> ld8 (st8 m a v) b = ld8 m b.
Proof. intros. rewrite ld8_st8. by case_decide. Qed.

Lemma ld32_range m a : is_u32 (ld32 m a).
Proof.
  unfold ld32, is_u32.
  pose proof (ld8_range m a); pose proof (ld8_range m (a + 1));
  pose proof (ld8_range m (a + 2)); pose proof (ld8_range m (a + 3)).
  unfold_widths. lia.
Qed.

Lemma ld8_st32_ne m a b v : b < a \/ a + 4 <= b -> ld8 (st32 m a v) b = ld8 m b.
Proof. intros. unfold st32. by rewrite !ld8_st8_ne by lia. Qed.

Lemma ld32_st8_ne m a b v : a < b \/ b + 4 <= a -> ld32 (st8 m a v) b = ld32 m b.
Proof. intros. unfold ld32. by rewrite !ld8_st8_ne by lia. Qed.

Lemma ld32_st32_eq m a v : ld32 (st32 m a v) a = u32 v.
Proof.
  unfold ld32, st32. rewrite !ld8_st8. repeat case_decide; try lia.
  unfold u8, u32. zlia.
Qed.

Lemma ld32_st32_ne m a b v : a + 4 <= b \/ b + 4 <= a -> ld32 (st32 m a v) b = ld32 m b.
Proof. intros. unfold ld32. by rewrite !ld8_st32_ne by lia. Qed.

Lemma ld32_ext m m' a :
  (forall i, a <= i < a + 4 -> ld8 m i = ld8 m' i) -> ld32 m a = ld32 m' a.
Proof. intros H. unfold ld32. by rewrite !H by lia. Qed.

#[export] Hint Resolve ld8_range ld32_range : word.

(** Normalises a load over a chain of stores whose addresses [lia] separates. *)
Ltac mem_simp :=
  repeat first
    [ rewrite ld32_st32_eq
    | rewrite ld8_st8_eq
    | rewrite ld32_st32_ne by lia
    | rewrite ld32_st8_ne by lia
    | rewrite ld8_st32_ne by lia
    | rewrite ld8_st8_ne by lia ].
Ltac mem_simp_in H :=
  repeat first
    [ rewrite ld32_st32_eq in H
    | rewrite ld8_st8_eq in H
    | rewrite ld32_st32_ne in H by lia
    | rewrite ld32_st8_ne in H by lia
    | rewrite ld8_st32_ne in H by lia
    | rewrite ld8_st8_ne in H by lia ].

(** * memset *)

(** The loop variables of [memset]: the memory, [d] and [len]. *)
Record cursor := Cursor { c_mem : mem; c_d : Z; c_len : Z }.

Definition memset_byte (val : Z) (c : cursor) : cursor :=
  Cursor (st8 (c_mem c) (c_d c) val) (u32 (c_d c + 1)) (c_len c - 1).

Definition memset_word (val32 : Z) (c : cursor) : cursor :=
  Cursor (st32 (c_mem c) (c_d c) val32) (u32 (c_d c + 4)) (c_len c - 4).

Definition splat (val : Z) : Z :=
  Z.lor (Z.lor (Z.lor val (u32 (Z.shiftl val 8))) (u32 (Z.shiftl val 16)))
        (u32 (Z.shiftl val 24)).

Definition memset (m : mem) (dest val len : Z) : option mem :=
  let fuel := Z.to_nat len in
  let c := Cursor m dest len in
  c ← (if 4 <=? len then
         c ← while_fuel fuel
               (fun c => negb (Z.land (c_d c) 3 =? 0) && (0 <? c_len c)) (memset_byte val) c;
         while_fuel fuel (fun c => 4 <=? c_len c) (memset_word (splat val)) c
       else Some c);
  c ← while_fuel fuel (fun c => 0 <? c_len c) (memset_byte val) c;
  Some (c_mem c).

(** Reference: one byte at a time, in address order. *)
Definition fill (m : mem) (d val len : Z) : mem :=
  for_range d (d + len) (fun a m => st8 m a val) m.

Lemma ld8_fill m d val len a :
  0 <= len ->
  ld8 (fill m d val len) a = if decide (d <= a < d + len) then u8 val else ld8 m a.
Proof.
  intros Hlen. unfold fill.
  refine (for_range_inv (fun i (m' : mem) =>
    ld8 m' a = if decide (d <= a < i) then u8 val else ld8 m a) d (d + len) _ m _ _ _).
  - lia.
  - by case_decide; [lia|].
  - intros i m' Hi IH. rewrite ld8_st8, IH. repeat case_decide; auto; lia.
Qed.

Lemma fill_app m d val k len :
  0 <= k -> 0 <= len -> fill (fill m d val k) (d + k) val len = fill m d val (k + len).
Proof.
  intros. unfold fill, for_range.
  replace (d + (k + len) - d) with (k + len) by lia.
  rewrite seqZ_app, foldl_app by lia.
  replace (d + k + len - (d + k)) with len by lia.
  by replace (d + k - d) with k by lia.
Qed.

Lemma fill_byte m d val : fill m d val 1 = st8 m d val.
Proof. unfold fill. rewrite for_range_step, for_range_done by lia. done. Qed.

Lemma splat_bytes val :
  is_u8 val -> splat val = val + 256 * val + 65536 * val + 16777216 * val.
Proof.
  intros Hv. unfold_widths. unfold splat. rewrite !Z.shiftl_mul_pow2 by lia.
  change (2 ^ 8) with 256. change (2 ^ 16) with 65536. change (2 ^ 24) with 16777216.
  u32_simp.
  rewrite (lor_disjoint_add val (val * 256)) by (apply (land_low_high _ _ 8); lia).
  rewrite (lor_disjoint_add _ (val * 65536)) by (apply (land_low_high _ _ 16); lia).
  rewrite (lor_disjoint_add _ (val * 16777216)) by (apply (land_low_high _ _ 24); lia).
  lia.
Qed.

Lemma fill_word m d val :
  is_u8 val -> st32 m d (splat val) = fill m d val 4.
Proof.
  intros Hv. rewrite splat_bytes by done. unfold_widths.
  unfold fill, for_range. replace (d + 4 - d) with 4 by lia.
  change (seqZ d 4) with [0 + d; 1 + d; 2 + d; 3 + d]. simpl.
  unfold st32, st8.
  rewrite !(Z.add_comm _ d), Z.add_0_r.
  set (S := val + 256 * val + 65536 * val + 16777216 * val).
  assert (u8 S = u8 val /\ u8 (S / 256) = u8 val /\ u8 (S / 65536) = u8 val /\
          u8 (S / 16777216) = u8 val) as (-> & -> & -> & ->); [|done].
  unfold u8, S. zlia.
Qed.

(** What every state of the three [memset] loops satisfies: the bytes before
    [d] are filled and [len] counts the rest. *)
Definition memset_inv (m : mem) (dest val len : Z) (c : cursor) : Prop :=
  exists k, 0 <= k <= len /\ c_mem c = fill m dest val k /\
            c_d c = u32 (dest + k) /\ c_len c = len - k.

Section memset_proof.
Context (m : mem) (dest val len : Z).
Context (Hdest : 0 <= dest) (Hlen : 0 <= len) (Hend : dest + len < 4294967296)
        (Hval : is_u8 val).

Lemma memset_inv_byte c :
  memset_inv m dest val len c -> 0 < c_len c ->
  memset_inv m dest val len (memset_byte val c).
Proof.
  intros (k & Hk & Hm & Hd & Hl) Hpos. exists (k + 1). simpl.
  rewrite Hm, Hd, Hl, u32_add_l. repeat split; try lia.
  - rewrite u32_id by lia. rewrite <- fill_byte. apply fill_app; lia.
  - f_equal. lia.
Qed.

Lemma memset_inv_word c :
  memset_inv m dest val len c -> 4 <= c_len c ->
  memset_inv m dest val len (memset_word (splat val) c).
Proof using Hdest Hlen Hend Hval.
  intros (k & Hk & Hm & Hd & Hl) Hpos. exists (k + 4). simpl.
  rewrite Hm, Hd, Hl, u32_add_l. repeat split; try lia.
  - rewrite u32_id by lia. rewrite fill_word by done. apply fill_app; lia.
  - f_equal. lia.
Qed.

(** Each of the loops keeps the invariant and stops within [len] rounds. *)
Lemma memset_loop cond body step c :
  0 < step ->
  (forall c, cond c = true -> step <= c_len c) ->
  (forall c, memset_inv m dest val len c -> step <= c_len c ->
     memset_inv m dest val len (body c) /\ c_len (body c) = c_len c - step) ->
  memset_inv m dest val len c ->
  exists c', while_fuel (Z.to_nat len) cond body c = Some c' /\
             memset_inv m dest val len c' /\ cond c' = false.
Proof.
  intros Hs Hc Hb HI.
  apply (while_fuel_total (memset_inv m dest val len) (fun c => Z.to_nat (c_len c))).
  - done.
  - destruct HI as (k & ? & _ & _ & ->). lia.
  - intros c' HI' Hc'. apply Hc in Hc'. destruct (Hb c' HI' Hc') as [? ->].
    split; [done|]. lia.
Qed.

Lemma memset_total : memset m dest val len = Some (fill m dest val len).
Proof using Hdest Hlen Hend Hval.
  unfold memset.
  assert (memset_inv m dest val len (Cursor m dest len)) as H0.
  { exists 0. repeat split; simpl; try lia.
    - unfold fill. by rewrite for_range_done by lia.
    - rewrite Z.add_0_r, u32_id; lia. }
  assert (forall cond c, memset_inv m dest val len c ->
    (forall c, cond c = true -> 1 <= c_len c) ->
    exists c', while_fuel (Z.to_nat len) cond (memset_byte val) c = Some c' /\
               memset_inv m dest val len c' /\ cond c' = false) as Hbytes.
  { intros. eapply (memset_loop _ _ 1); eauto with lia.
    intros. split; [|done]. apply memset_inv_byte; auto with lia. }
  assert (exists c, (if 4 <=? len then
       c ← while_fuel (Z.to_nat len)
             (fun c => negb (Z.land (c_d c) 3 =? 0) && (0 <? c_len c)) (memset_byte val)
             (Cursor m dest len);
       while_fuel (Z.to_nat len) (fun c => 4 <=? c_len c) (memset_word (splat val)) c
     else Some (Cursor m dest len)) = Some c /\ memset_inv m dest val len c) as (c & -> & HI).
  { destruct (4 <=? len); [|eauto].
    destruct (Hbytes (fun c => negb (Z.land (c_d c) 3 =? 0) && (0 <? c_len c))
                _ H0) as (c & -> & HI & _).
    { intros c Hc. bool_to_prop. lia. }
    simpl. edestruct (memset_loop (fun c => 4 <=? c_len c) (memset_word (splat val)) 4 c)
      as (c' & -> & HI' & _); [lia| | |done|eauto].
    - intros c0 Hc. bool_to_prop. lia.
    - intros c0 ? ?. split; [|done]. by apply memset_inv_word. }
  simpl. destruct (Hbytes (fun c => 0 <? c_len c) c HI) as (c' & -> & (k & ? & Hm & _ & Hl) & Hc).
  { intros c0 Hc. bool_to_prop. lia. }
  simpl. bool_to_prop. rewrite Hm. do 2 f_equal. lia.
Qed.
End memset_proof.

(** * memcpy, memmove *)

(** The loop variables of [memcpy]: the memory, [d], [s] and [len]. *)
Record cursor2 := Cursor2 { cc_mem : mem; cc_d : Z; cc_s : Z; cc_len : Z }.

(** [d--; s--; *d = *s] of the backward loop. *)
Definition copy_back (c : cursor2) : cursor2 :=
  let d := u32 (cc_d c - 1) in
  let s := u32 (cc_s c - 1) in
  Cursor2 (st8 (cc_mem c) d (ld8 (cc_mem c) s)) d s (cc_len c - 1).

(** [*d++ = *s++] *)
Definition copy_byte (c : cursor2) : cursor2 :=
  Cursor2 (st8 (cc_mem c) (cc_d c) (ld8 (cc_mem c) (cc_s c)))
          (u32 (cc_d c + 1)) (u32 (cc_s c + 1)) (cc_len c - 1).

(** [*d32++ = *s32++] *)
Definition copy_word (c : cursor2) : cursor2 :=
  Cursor2 (st32 (cc_mem c) (cc_d c) (ld32 (cc_mem c) (cc_s c)))
          (u32 (cc_d c + 4)) (u32 (cc_s c + 4)) (cc_len c - 4).

Definition memcpy (m : mem) (dest src len : Z) : option mem :=
  let fuel := Z.to_nat len in
  if (dest =? src) || (len =? 0) then Some m
  else if (src <? dest) && (dest <? u32 (src + len)) then
    c ← while_fuel fuel (fun c => negb (cc_len c =? 0)) copy_back
          (Cursor2 m (u32 (dest + len)) (u32 (src + len)) len);
    Some (cc_mem c)
  else
    let c := Cursor2 m dest src len in
    c ← (if (4 <=? len) && (Z.land dest 3 =? 0) && (Z.land src 3 =? 0)
         then while_fuel fuel (fun c => 4 <=? cc_len c) copy_word c
         else Some c);
    c ← while_fuel fuel (fun c => negb (cc_len c =? 0)) copy_byte c;
    Some (cc_mem c).

Definition memmove (m : mem) (dest src len : Z) : option mem := memcpy m dest src len.

(** Reference: every byte of the destination is the byte of the source as it
    was before the call; every other byte is unchanged. *)
Definition moved (m m' : mem) (d s len : Z) : Prop :=
  forall a, ld8 m' a = if decide (d <= a < d + len) then ld8 m (s + (a - d)) else ld8 m a.

Section memcpy_proof.
Context (m : mem) (d s len : Z).
Context (Hd : 0 <= d) (Hs : 0 <= s) (Hlen : 0 <= len)
        (Hde : d + len < 4294967296) (Hse : s + len < 4294967296).

(** Backward loop: the last bytes are copied first. *)
Definition back_inv (c : cursor2) : Prop :=
  0 <= cc_len c <= len /\ cc_d c = d + cc_len c /\ cc_s c = s + cc_len c /\
  forall a, ld8 (cc_mem c) a =
    if decide (d + cc_len c <= a < d + len) then ld8 m (s + (a - d)) else ld8 m a.

Lemma back_inv_step c :
  s < d -> back_inv c -> 0 < cc_len c -> back_inv (copy_back c).
Proof using Hd Hs Hlen Hde Hse.
  intros Hlt (Hl & Hcd & Hcs & Hm) Hpos. unfold copy_back, back_inv. simpl.
  rewrite Hcd, Hcs. u32_simp. repeat split; try lia.
  intros a. rewrite ld8_st8, !Hm.
  repeat case_decide; try lia; try reflexivity.
  rewrite u8_id by apply ld8_range. f_equal. lia.
Qed.

(** Forward loops: no byte still to be read has been overwritten. *)
Definition fwd_inv (c : cursor2) : Prop :=
  exists k, 0 <= k <= len /\ cc_len c = len - k /\ cc_d c = d + k /\ cc_s c = s + k /\
  forall a, ld8 (cc_mem c) a =
    if decide (d <= a < d + k) then ld8 m (s + (a - d)) else ld8 m a.

Lemma fwd_inv_byte c :
  d < s \/ s + len <= d -> fwd_inv c -> 0 < cc_len c -> fwd_inv (copy_byte c).
Proof using Hd Hs Hlen Hde Hse.
  intros Hov (k & Hk & Hl & Hcd & Hcs & Hm) Hpos. exists (k + 1). unfold copy_byte. simpl.
  rewrite Hcd, Hcs. u32_simp. repeat split; try lia.
  intros a. rewrite ld8_st8, !Hm.
  repeat case_decide; try lia; try reflexivity.
  rewrite u8_id by apply ld8_range. f_equal. lia.
Qed.

Lemma copy_word_bytes c :
  cc_d c + 4 <= cc_s c \/ cc_s c + 4 <= cc_d c ->
  0 <= cc_d c -> cc_d c + 4 < 4294967296 -> 0 <= cc_s c -> cc_s c + 4 < 4294967296 ->
  copy_word c = copy_byte (copy_byte (copy_byte (copy_byte c))).
Proof.
  intros Hov ? ? ? ?. destruct c as [m0 d0 s0 l0]; simpl in *.
  unfold copy_word, copy_byte; simpl. u32_simp.
  replace (d0 + 1 + 1) with (d0 + 2) by lia. replace (s0 + 1 + 1) with (s0 + 2) by lia.
  replace (d0 + 2 + 1) with (d0 + 3) by lia. replace (s0 + 2 + 1) with (s0 + 3) by lia.
  rewrite !ld8_st8_ne by lia.
  f_equal; [|lia..]. unfold ld32.
  pose proof (ld8_range m0 s0); pose proof (ld8_range m0 (s0 + 1));
  pose proof (ld8_range m0 (s0 + 2)); pose proof (ld8_range m0 (s0 + 3)).
  set (b0 := ld8 m0 s0) in *. set (b1 := ld8 m0 (s0 + 1)) in *.
  set (b2 := ld8 m0 (s0 + 2)) in *. set (b3 := ld8 m0 (s0 + 3)) in *.
  unfold_widths. unfold st32, st8.
  set (w := b0 + 256 * b1 + 65536 * b2 + 16777216 * b3).
  assert (u8 w = u8 b0 /\ u8 (w / 256) = u8 b1 /\ u8 (w / 65536) = u8 b2 /\
          u8 (w / 16777216) = u8 b3) as (-> & -> & -> & ->); [|done].
  unfold u8, w. zlia.
Qed.

Lemma fwd_inv_word c :
  d + 4 <= s \/ s + len <= d -> fwd_inv c -> 4 <= cc_len c -> fwd_inv (copy_word c).
Proof using Hd Hs Hlen Hde Hse.
  intros Hov HI Hpos. rewrite copy_word_bytes.
  - do 4 (apply fwd_inv_byte; [lia| |simpl; lia]). done.
  - destruct HI as (k & ? & ? & ? & ? & _). lia.
  - destruct HI as (k & ? & ? & ? & ? & _). lia.
  - destruct HI as (k & ? & ? & ? & ? & _). lia.
  - destruct HI as (k & ? & ? & ? & ? & _). lia.
  - destruct HI as (k & ? & ? & ? & ? & _). lia.
Qed.

Lemma copy_loop (I : cursor2 -> Prop) cond body step c :
  0 < step -> (forall c, I c -> 0 <= cc_len c <= len) ->
  (forall c, I c -> cond c = true -> step <= cc_len c) ->
  (forall c, I c -> step <= cc_len c -> I (body c) /\ cc_len (body c) = cc_len c - step) ->
  I c -> exists c', while_fuel (Z.to_nat len) cond body c = Some c' /\ I c' /\ cond c' = false.
Proof.
  intros Hst Hr Hc Hb HI.
  apply (while_fuel_total I (fun c => Z.to_nat (cc_len c))); [done| |].
  - specialize (Hr c HI). lia.
  - intros c' HI' Hc'. specialize (Hc c' HI' Hc'). specialize (Hr c' HI').
    destruct (Hb c' HI' Hc) as [? ->]. split; [done|lia].
Qed.

Lemma memcpy_back_total :
  s < d < s + len -> exists m', memcpy m d s len = Some m' /\ moved m m' d s len.
Proof using Hd Hs Hlen Hde Hse.
  intros Hov. unfold memcpy.
  destruct (Z.eqb_spec d s); [lia|]. destruct (Z.eqb_spec len 0); [lia|]. simpl.
  u32_simp. destruct (Z.ltb_spec s d); [|lia]. destruct (Z.ltb_spec d (s + len)); [|lia]. simpl.
  edestruct (copy_loop back_inv (fun c => negb (cc_len c =? 0)) copy_back 1)
    as (c & -> & (Hl & _ & _ & Hm) & Hc); [lia| | | | |].
  - intros c (? & _). lia.
  - intros c (? & _) ?. bool_to_prop. lia.
  - intros c HI ?. split; [|done]. apply back_inv_step; auto with lia.
  - repeat split; simpl; try lia. intros a. by case_decide; [lia|].
  - simpl. exists (cc_mem c). split; [done|]. bool_to_prop.
    intros a. rewrite Hm, Hc. by rewrite Z.add_0_r.
Qed.

Lemma memcpy_fwd_total :
  d < s \/ s + len <= d -> d <> s -> 0 < len ->
  exists m', memcpy m d s len = Some m' /\ moved m m' d s len.
Proof using Hd Hs Hlen Hde Hse.
  intros Hov Hne Hpos. unfold memcpy.
  destruct (Z.eqb_spec d s); [lia|]. destruct (Z.eqb_spec len 0); [lia|]. simpl.
  u32_simp. replace ((s <? d) && (d <? s + len))%bool with false by
    (symmetry; apply andb_false_iff; rewrite !Z.ltb_ge; lia).
  assert (fwd_inv (Cursor2 m d s len)) as H0.
  { exists 0. repeat split; simpl; try lia. intros a. by case_decide; [lia|]. }
  assert (exists c, (if (4 <=? len) && (Z.land d 3 =? 0) && (Z.land s 3 =? 0)
       then while_fuel (Z.to_nat len) (fun c => 4 <=? cc_len c) copy_word (Cursor2 m d s len)
       else Some (Cursor2 m d s len)) = Some c /\ fwd_inv c) as (c & -> & HI).
  { case_goal; [|eauto]. bool_to_prop.
    change 3 with (Z.ones 2) in *. rewrite Z.land_ones in * by lia. change (2 ^ 2) with 4 in *.
    assert (d + 4 <= s \/ s + len <= d) by zlia.
    edestruct (copy_loop fwd_inv (fun c => 4 <=? cc_len c) copy_word 4)
      as (c & -> & ? & _); [lia| | | |exact H0|eauto].
    - intros c (? & ? & ? & _). lia.
    - intros c _ ?. bool_to_prop. lia.
    - intros c ? ?. split; [|done]. by apply fwd_inv_word. }
  simpl.
  edestruct (copy_loop fwd_inv (fun c => negb (cc_len c =? 0)) copy_byte 1)
    as (c' & -> & (k & Hk & Hl & _ & _ & Hm) & Hc); [lia| | | |exact HI|].
  - intros c' (? & ? & ? & _). lia.
  - intros c' (? & ? & ? & _) ?. bool_to_prop. lia.
  - intros c' ? ?. split; [|done]. apply fwd_inv_byte; auto with lia.
  - simpl. exists (cc_mem c'). split; [done|]. bool_to_prop.
    intros a. rewrite Hm. by replace k with len by lia.
Qed.

Lemma memcpy_total : exists m', memcpy m d s len = Some m' /\ moved m m' d s len.
Proof using Hd Hs Hlen Hde Hse.
  destruct (decide (d = s \/ len = 0)) as [He|Hne].
  - exists m. split.
    + unfold memcpy. destruct (Z.eqb_spec d s), (Z.eqb_spec len 0); simpl; auto; lia.
    + intros a. case_decide; [|done]. destruct He as [->|]; [f_equal|]; lia.
  - destruct (decide (s < d < s + len)); [by apply memcpy_back_total|].
    apply memcpy_fwd_total; lia.
Qed.
End memcpy_proof.

(** * memcmp *)

(** [while (n--) if ( *p1 != *p2) return *p1 - *p2;] *)
Fixpoint memcmp (m : mem) (p1 p2 : Z) (n : nat) : Z :=
  match n with
  | O => 0
  | S n =>
    if ld8 m p1 =? ld8 m p2 then memcmp m (u32 (p1 + 1)) (u32 (p2 + 1)) n
    else ld8 m p1 - ld8 m p2
  end.

Lemma memcmp_zero_iff m p1 p2 n :
  0 <= p1 -> p1 + Z.of_nat n < 4294967296 -> 0 <= p2 -> p2 + Z.of_nat n < 4294967296 ->
  memcmp m p1 p2 n = 0 <-> forall i, 0 <= i < Z.of_nat n -> ld8 m (p1 + i) = ld8 m (p2 + i).
Proof.
  revert p1 p2. induction n as [|n IH]; intros p1 p2 ? ? ? ?; cbn [memcmp].
  - split; intros; lia.
  - u32_simp. destruct (Z.eqb_spec (ld8 m p1) (ld8 m p2)) as [E|E].
    + rewrite IH by lia. split.
      * intros H' i Hi. destruct (decide (i = 0)) as [->|]; [by rewrite !Z.add_0_r|].
        replace (p1 + i) with (p1 + 1 + (i - 1)) by lia.
        replace (p2 + i) with (p2 + 1 + (i - 1)) by lia. apply H'. lia.
      * intros H' i Hi. specialize (H' (i + 1) ltac:(lia)).
        by rewrite <- !Z.add_assoc, (Z.add_comm 1 i).
    + split; [lia|]. intros H'. specialize (H' 0 ltac:(lia)).
      rewrite !Z.add_0_r in H'. lia.
Qed.

(** * Blocks of bytes

    [memcpy] between memory and an array that is a local variable of the
    caller, which is modelled as a list of bytes. *)

Definition ld_bytes (m : mem) (a : Z) (n : nat) : list Z :=
  (fun i => ld8 m (a + Z.of_nat i)) <$> seq 0 n.

Fixpoint st_bytes (m : mem) (a : Z) (l : list Z) : mem :=
  match l with [] => m | x :: l => st_bytes (st8 m a x) (a + 1) l end.

Lemma ld_bytes_length m a n : length (ld_bytes m a n) = n.
Proof. unfold ld_bytes. by rewrite length_fmap, length_seq. Qed.

Lemma ld_bytes_lookup m a n i : (i < n)%nat -> ld_bytes m a n !! i = Some (ld8 m (a + Z.of_nat i)).
Proof. intros Hi. unfold ld_bytes. rewrite list_lookup_fmap, lookup_seq_lt by done. done. Qed.

Lemma ld_bytes_ext m m' a n :
  (forall x, a <= x < a + Z.of_nat n -> ld8 m x = ld8 m' x) -> ld_bytes m a n = ld_bytes m' a n.
Proof.
  intros Hm. apply list_eq. intros i. destruct (decide (i < n)%nat).
  - rewrite !ld_bytes_lookup by done. f_equal. apply Hm. lia.
  - rewrite !lookup_ge_None_2 by (rewrite ld_bytes_length; lia). done.
Qed.

Lemma ld8_st_bytes m a l x :
  ld8 (st_bytes m a l) x =
  if decide (a <= x < a + lenZ l) then u8 (nthZ 0 l (x - a)) else ld8 m x.
Proof.
  unfold lenZ. revert m a. induction l as [|y l IH]; intros m a; simpl.
  { case_decide; [lia|done]. }
  rewrite IH. destruct (decide (x = a)) as [->|Hne].
  - rewrite ld8_st8_eq, Z.sub_diag. by repeat case_decide; try lia.
  - rewrite ld8_st8_ne by done. repeat case_decide; try lia; try done.
    f_equal. unfold nthZ. destruct (Z.ltb_spec (x - (a + 1)) 0); [lia|].
    destruct (Z.ltb_spec (x - a) 0); [lia|].
    replace (Z.to_nat (x - a)) with (S (Z.to_nat (x - (a + 1)))) by lia. done.
Qed.

(** Reading back a block that was written. *)
Lemma ld_st_bytes m a l :
  Forall is_u8 l -> ld_bytes (st_bytes m a l) a (length l) = l.
Proof.
  intros Hl. apply list_eq. intros i. destruct (decide (i < length l)%nat) as [Hi|Hi].
  - rewrite ld_bytes_lookup, ld8_st_bytes by done. unfold lenZ. case_decide; [|lia].
    replace (a + Z.of_nat i - a) with (Z.of_nat i) by lia. unfold nthZ.
    destruct (Z.ltb_spec (Z.of_nat i) 0); [lia|]. rewrite Nat2Z.id.
    destruct (lookup_lt_is_Some_2 l i Hi) as [y Hy]. rewrite Hy. simpl. f_equal.
    apply u8_id. exact (proj1 (Forall_lookup _ _) Hl i y Hy).
  - rewrite !lookup_ge_None_2; [done|lia|rewrite ld_bytes_length; lia].
Qed.

Lemma ld_bytes_u8 m a n : Forall is_u8 (ld_bytes m a n).
Proof. apply Forall_fmap, Forall_true. intros i. apply ld8_range. Qed.
