(* ===== verification/Common.v ===== *)
(** Common: the byte-order helpers, utility macros and string/number routines
    of [kernel/common.h] and [kernel/common.c].

    A C string is the list of its characters before the terminating NUL (each
    in 1..255); a pointer into a string is the suffix it points at, and
    reading past the last character yields the NUL. *)

From S2P Require Import Prelude.

(** * Byte order *)

Definition bswap16 (v : Z) : Z := u16 (Z.lor (Z.shiftr v 8) (Z.shiftl v 8)).

Definition bswap32 (v : Z) : Z :=
  Z.lor (Z.lor (Z.lor
    (u32 (Z.shiftl (Z.land v 255) 24))
    (u32 (Z.shiftl (Z.land v 65280) 8)))
    (Z.shiftr (Z.land v 16711680) 8))
    (Z.shiftr (Z.land v 4278190080) 24).

Definition htons := bswap16.
Definition ntohs := bswap16.
Definition htonl := bswap32.
Definition ntohl := bswap32.

(** The value with the bytes in the opposite order. *)
Definition swapped16 (v : Z) : Z := v / 256 + 256 * (v mod 256).
Definition swapped32 (v : Z) : Z :=
  v / 16777216 + 256 * (v / 65536 mod 256) + 65536 * (v / 256 mod 256) + 16777216 * (v mod 256).

Lemma bswap16_swapped v : is_u16 v -> bswap16 v = swapped16 v.
Proof.
  unfold is_u16, bswap16, swapped16. intros H.
  rewrite Z.shiftr_div_pow2 by lia. rewrite lor_shiftl_add by (change (2 ^ 8) with 256; zlia).
  change (2 ^ 8) with 256. unfold u16. zlia.
Qed.

(** A masked field shifted into place, as division and modulo. *)
Lemma land_field v k w : 0 <= k -> 0 <= w -> Z.land v (Z.shiftl (Z.ones w) k) = v / 2 ^ k mod 2 ^ w * 2 ^ k.
Proof.
  intros Hk Hw.
  rewrite <- Z.shiftr_div_pow2, <- Z.land_ones, <- Z.shiftl_mul_pow2 by lia.
  apply Z.bits_inj'. intros i Hi.
  rewrite Z.land_spec, !Z.shiftl_spec, Z.land_spec by lia.
  destruct (decide (k <= i)).
  - rewrite Z.shiftr_spec by lia. by replace (i - k + k) with i by lia.
  - rewrite !(Z.testbit_neg_r _ (i - k)) by lia. by rewrite andb_false_r.
Qed.

Lemma bswap32_swapped v : is_u32 v -> bswap32 v = swapped32 v.
Proof.
  unfold is_u32, bswap32, swapped32. intros H.
  change 65280 with (Z.shiftl (Z.ones 8) 8). change 16711680 with (Z.shiftl (Z.ones 8) 16).
  change 4278190080 with (Z.shiftl (Z.ones 8) 24).
  rewrite land_255, !land_field, !Z.shiftl_mul_pow2, !Z.shiftr_div_pow2 by lia.
  change (2 ^ 8) with 256. change (2 ^ 16) with 65536. change (2 ^ 24) with 16777216.
  set (a := v mod 256). set (b := v / 256 mod 256). set (c := v / 65536 mod 256).
  replace (v / 16777216 mod 256) with (v / 16777216) by zlia. set (d := v / 16777216).
  assert (0 <= a < 256 /\ 0 <= b < 256 /\ 0 <= c < 256 /\ 0 <= d < 256) as (? & ? & ? & ?)
    by (unfold a, b, c, d; zlia).
  clearbody a b c d.
  rewrite (Z.div_mul d 16777216) by lia. rewrite <- (Z.mul_assoc b 256 256). change (256 * 256) with 65536.
  replace (c * 65536 / 256) with (c * 256) by (rewrite <- (Z.div_mul (c * 256) 256); f_equal; lia).
  u32_simp.
  rewrite (Z.lor_comm _ d), (Z.lor_comm _ (c * 256)), (Z.lor_comm (a * _)).
  rewrite (lor_disjoint_add (b * 65536)) by (apply (land_low_high _ _ 24); lia).
  replace (b * 65536 + a * 16777216) with ((b * 256 + a * 65536) * 256) by lia.
  rewrite (lor_disjoint_add (c * 256)); cycle 1.
  { replace ((b * 256 + a * 65536) * 256) with ((b + a * 256) * 2 ^ 16) by lia.
    apply land_low_high; lia. }
  replace (c * 256 + (b * 256 + a * 65536) * 256) with ((c + b * 256 + a * 65536) * 2 ^ 8) by lia.
  rewrite (lor_disjoint_add d) by (apply land_low_high; lia). lia.
Qed.

(** The four bytes of a 32-bit value, least significant first. *)
Definition of_bytes (a b c d : Z) : Z := a + 256 * b + 65536 * c + 16777216 * d.

Lemma of_bytes_digits a b c d :
  is_u8 a -> is_u8 b -> is_u8 c -> is_u8 d ->
  of_bytes a b c d mod 256 = a /\ of_bytes a b c d / 256 mod 256 = b /\
  of_bytes a b c d / 65536 mod 256 = c /\ of_bytes a b c d / 16777216 = d.
Proof. unfold is_u8, of_bytes. intros. repeat split; zlia. Qed.

Lemma to_bytes v :
  is_u32 v ->
  exists a b c d, is_u8 a /\ is_u8 b /\ is_u8 c /\ is_u8 d /\ v = of_bytes a b c d.
Proof.
  intros H. exists (v mod 256), (v / 256 mod 256), (v / 65536 mod 256), (v / 16777216).
  unfold is_u32, is_u8, of_bytes in *. repeat split; zlia.
Qed.

Lemma swapped32_bytes a b c d :
  is_u8 a -> is_u8 b -> is_u8 c -> is_u8 d ->
  swapped32 (of_bytes a b c d) = of_bytes d c b a.
Proof.
  intros Ha Hb Hc Hd. destruct (of_bytes_digits a b c d) as (E1 & E2 & E3 & E4); [done..|].
  unfold swapped32. by rewrite E1, E2, E3, E4.
Qed.

Lemma bswap16_range v : is_u16 (bswap16 v).
Proof. apply u16_range. Qed.

Lemma bswap32_bytes a b c d :
  is_u8 a -> is_u8 b -> is_u8 c -> is_u8 d ->
  bswap32 (of_bytes a b c d) = of_bytes d c b a.
Proof.
  intros. rewrite bswap32_swapped; [by apply swapped32_bytes|].
  unfold is_u8, is_u32, of_bytes in *. lia.
Qed.

Lemma bswap32_range v : is_u32 v -> is_u32 (bswap32 v).
Proof.
  intros (a & b & c & d & ? & ? & ? & ? & ->)%to_bytes. rewrite bswap32_bytes by done.
  unfold is_u8, is_u32, of_bytes in *. lia.
Qed.

Lemma bswap16_invol v : is_u16 v -> bswap16 (bswap16 v) = v.
Proof.
  intros H. rewrite (bswap16_swapped (bswap16 v)), bswap16_swapped by (auto using bswap16_range).
  unfold is_u16, swapped16 in *. zlia.
Qed.

Lemma bswap32_invol v : is_u32 v -> bswap32 (bswap32 v) = v.
Proof. intros (a & b & c & d & ? & ? & ? & ? & ->)%to_bytes. by rewrite !bswap32_bytes. Qed.

(** * Utility macros *)

(** [ALIGN_UP(val, align)] and [ALIGN_DOWN(val, align)] on 32-bit values. *)
Definition ALIGN_UP (val align : Z) : Z :=
  Z.land (u32 (u32 (val + align) - 1)) (Z.lnot (align - 1)).
Definition ALIGN_DOWN (val align : Z) : Z := Z.land val (Z.lnot (align - 1)).
Definition IS_POWER_OF_2 (x : Z) : bool :=
  negb (x =? 0) && (Z.land x (u32 (x - 1)) =? 0).

Lemma ALIGN_DOWN_pow2 val k :
  0 <= k -> ALIGN_DOWN val (2 ^ k) = val / 2 ^ k * 2 ^ k.
Proof. apply land_lnot_ones. Qed.

Lemma ALIGN_UP_pow2 val k :
  0 <= k -> 0 <= val -> val + 2 ^ k - 1 < 4294967296 ->
  ALIGN_UP val (2 ^ k) = (val + 2 ^ k - 1) / 2 ^ k * 2 ^ k.
Proof.
  intros Hk Hv Hb. unfold ALIGN_UP. rewrite land_lnot_ones by done.
  assert (0 < 2 ^ k) by lia.
  f_equal. f_equal. unfold u32. rewrite Zminus_mod_idemp_l. apply Z.mod_small. lia.
Qed.

(** The value is kept below the next multiple and never shrinks. *)
Lemma ALIGN_UP_bounds val k :
  0 <= k -> 0 <= val -> val + 2 ^ k - 1 < 4294967296 ->
  val <= ALIGN_UP val (2 ^ k) < val + 2 ^ k /\ (2 ^ k | ALIGN_UP val (2 ^ k)).
Proof.
  intros Hk Hv Hb. rewrite ALIGN_UP_pow2 by done. split; [|by apply Z.divide_factor_r].
  assert (0 < 2 ^ k) by lia.
  pose proof (Z.div_mod (val + 2 ^ k - 1) (2 ^ k) ltac:(lia)).
  pose proof (Z.mod_pos_bound (val + 2 ^ k - 1) (2 ^ k) ltac:(lia)). lia.
Qed.

Lemma IS_POWER_OF_2_pow k : 0 <= k < 32 -> IS_POWER_OF_2 (2 ^ k) = true.
Proof.
  intros Hk. unfold IS_POWER_OF_2.
  assert (0 < 2 ^ k) by lia. assert (2 ^ k <= 2 ^ 31) by (apply Z.pow_le_mono_r; lia).
  rewrite u32_id by lia. apply andb_true_iff. split.
  - apply negb_true_iff, Z.eqb_neq. lia.
  - apply Z.eqb_eq. replace (2 ^ k - 1) with (Z.ones k) by (rewrite Z.ones_equiv; lia).
    by rewrite Z.land_ones, Z_mod_same_full by lia.
Qed.

(** * Strings *)

(** [*s] *)
Definition ch (s : list Z) : Z := match s with [] => 0 | c :: _ => c end.

(** Characters of a well-formed string. *)
Definition is_char (c : Z) : Prop := 0 < c < 256.

Definition to_lower_ch (c : Z) : Z := if (65 <=? c) && (c <=? 90) then u8 (c + 32) else c.

Definition strlen (s : list Z) : Z := lenZ s.

Fixpoint strcmp (s1 s2 : list Z) : Z :=
  match s1 with
  | c :: s1' => if c =? ch s2 then strcmp s1' (tail s2) else c - ch s2
  | [] => 0 - ch s2
  end.

Fixpoint strncmp (s1 s2 : list Z) (n : nat) : Z :=
  match n, s1 with
  | O, _ => 0
  | S n, c :: s1' => if c =? ch s2 then strncmp s1' (tail s2) n else c - ch s2
  | S _, [] => 0 - ch s2
  end.

Fixpoint strcasecmp (s1 s2 : list Z) : Z :=
  match s1 with
  | c :: s1' =>
    if to_lower_ch c =? to_lower_ch (ch s2) then strcasecmp s1' (tail s2)
    else to_lower_ch c - to_lower_ch (ch s2)
  | [] => to_lower_ch 0 - to_lower_ch (ch s2)
  end.

Fixpoint strncasecmp (s1 s2 : list Z) (n : nat) : Z :=
  match n, s1 with
  | O, _ => 0
  | S n, c :: s1' =>
    if to_lower_ch c =? to_lower_ch (ch s2) then strncasecmp s1' (tail s2) n
    else to_lower_ch c - to_lower_ch (ch s2)
  | S _, [] => to_lower_ch 0 - to_lower_ch (ch s2)
  end.

(** The [n] bytes [strncpy] writes: the string cut at [n], padded with NULs. *)
Fixpoint strncpy (src : list Z) (n : nat) : list Z :=
  match n, src with
  | O, _ => []
  | S n, c :: src' => c :: strncpy src' n
  | S n, [] => replicate (S n) 0
  end.

(** The offset of the first occurrence of [c]; the NUL is found at the end. *)
Fixpoint strchr (s : list Z) (c : Z) : option nat :=
  match s with
  | x :: s' => if x =? c then Some 0%nat else S <$> strchr s' c
  | [] => if c =? 0 then Some 0%nat else None
  end.

Fixpoint strstr_loop (haystack needle : list Z) : option nat :=
  match haystack with
  | [] => None
  | x :: h' =>
    if (x =? ch needle) && (strncmp haystack needle (length needle) =? 0) then Some 0%nat
    else S <$> strstr_loop h' needle
  end.

Definition strstr (haystack needle : list Z) : option nat :=
  match needle with [] => Some 0%nat | _ => strstr_loop haystack needle end.

Lemma strcmp_zero_iff s1 s2 :
  Forall is_char s1 -> Forall is_char s2 -> strcmp s1 s2 = 0 <-> s1 = s2.
Proof.
  unfold is_char. intros H1. revert s2. induction H1 as [|c s1 Hc H1 IH]; intros s2 H2.
  - destruct H2 as [|d s2 Hd H2]; simpl; [done|]. split; [lia|done].
  - destruct H2 as [|d s2 Hd H2]; simpl.
    + destruct (Z.eqb_spec c 0); [lia|]. split; [lia|done].
    + destruct (Z.eqb_spec c d) as [->|]; [rewrite IH by done; split; [by intros ->|by intros [=]]|].
      split; [lia|]. intros [=]. lia.
Qed.

Lemma strncmp_zero_iff s1 s2 n :
  Forall is_char s1 -> Forall is_char s2 ->
  strncmp s1 s2 n = 0 <-> take n s1 = take n s2.
Proof.
  unfold is_char. intros H1. revert s2 n. induction H1 as [|c s1 Hc H1 IH]; intros s2 [|n] H2; try done.
  - destruct H2 as [|d s2 Hd H2]; simpl; [done|]. split; [lia|done].
  - destruct H2 as [|d s2 Hd H2]; simpl.
    + destruct (Z.eqb_spec c 0); [lia|]. split; [lia|done].
    + destruct (Z.eqb_spec c d) as [->|]; [rewrite IH by done; split; [by intros ->|by intros [=]]|].
      split; [lia|]. intros [=]. lia.
Qed.

Lemma to_lower_ch_pos c : is_char c -> 0 < to_lower_ch c.
Proof. unfold is_char, to_lower_ch. intros. case_goal; bool_to_prop; [|lia]. rewrite u8_id; lia. Qed.

Lemma strcasecmp_zero_iff s1 s2 :
  Forall is_char s1 -> Forall is_char s2 ->
  strcasecmp s1 s2 = 0 <-> (to_lower_ch <$> s1) = (to_lower_ch <$> s2).
Proof.
  intros H1. revert s2. induction H1 as [|c s1 Hc H1 IH]; intros s2 H2.
  - destruct H2 as [|d s2 Hd H2]; simpl; [done|].
    pose proof (to_lower_ch_pos d Hd). change (to_lower_ch 0) with 0. split; [lia|done].
  - pose proof (to_lower_ch_pos c Hc). destruct H2 as [|d s2 Hd H2]; simpl.
    + change (to_lower_ch 0) with 0. destruct (Z.eqb_spec (to_lower_ch c) 0); [lia|].
      split; [lia|done].
    + destruct (Z.eqb_spec (to_lower_ch c) (to_lower_ch d)) as [E|].
      * rewrite IH by done. rewrite E. split; intros H'; [by f_equal|by injection H'].
      * split; [lia|]. intros [=]. lia.
Qed.

Lemma length_strncpy src n : length (strncpy src n) = n.
Proof.
  revert src. induction n as [|n IH]; intros [|c s]; simpl; auto.
  by rewrite length_replicate.
Qed.

Lemma strstr_loop_prefix x h needle :
  Forall is_char (x :: h) -> Forall is_char needle -> needle <> [] ->
  (x =? ch needle) && (strncmp (x :: h) needle (length needle) =? 0) = true
  <-> needle `prefix_of` (x :: h).
Proof.
  intros Hh Hn Hne. rewrite andb_true_iff, !Z.eqb_eq, strncmp_zero_iff by done.
  rewrite firstn_all. split.
  - intros [_ E]. exists (drop (length needle) (x :: h)). by rewrite <- E at 1; rewrite take_drop.
  - intros [t Ht]. rewrite Ht, take_app_length. split; [|done].
    destruct needle as [|c needle]; [done|]. simpl in *. congruence.
Qed.

(** [strstr] returns the first position at which the needle occurs. *)
Lemma strstr_loop_spec h needle :
  Forall is_char h -> Forall is_char needle -> needle <> [] ->
  match strstr_loop h needle with
  | Some i => needle `prefix_of` drop i h /\
              forall j, (j < i)%nat -> ~ needle `prefix_of` drop j h
  | None => forall j, ~ needle `prefix_of` drop j h
  end.
Proof.
  intros Hh Hn Hne. induction Hh as [|x h Hx Hh IH].
  - intros j [t Ht]. rewrite drop_nil in Ht. destruct needle; done.
  - cbn [strstr_loop].
    pose proof (strstr_loop_prefix x h needle (Forall_cons_2 _ _ _ Hx Hh) Hn Hne) as Hp.
    destruct ((x =? ch needle) && _)%bool eqn:E.
    + split; [by apply Hp|lia].
    + assert (~ needle `prefix_of` x :: h) as Hnp by (intros ?; apply Hp in H; congruence).
      destruct (strstr_loop h needle) as [i|]; simpl.
      * destruct IH as [IH1 IH2]. split; [done|]. intros [|j] Hj; [done|]. apply IH2. lia.
      * intros [|j]; [done|apply IH].
Qed.

(** * Numbers *)

Definition digits : list Z :=
  [48; 49; 50; 51; 52; 53; 54; 55; 56; 57; 65; 66; 67; 68; 69; 70].

Definition isdigit (c : Z) : bool := (48 <=? c) && (c <=? 57).

Fixpoint atoi_skip (s : list Z) : list Z :=
  match s with
  | c :: s' => if (c =? 32) || (c =? 9) then atoi_skip s' else s
  | [] => []
  end.

(** [while ( *s >= '0' && s[0] <= '9') val = val * 10 + ( *s - '0')]; [int] is
    32 bits wide and wraps. *)
Fixpoint atoi_digits (s : list Z) (val : Z) : Z :=
  match s with
  | c :: s' => if isdigit c then atoi_digits s' (s32 (s32 (val * 10) + (c - 48))) else val
  | [] => val
  end.

Definition k_atoi (s : list Z) : Z :=
  let s := atoi_skip s in
  let '(sign, s) :=
    if ch s =? 45 then (-1, tail s) else if ch s =? 43 then (1, tail s) else (1, s) in
  s32 (atoi_digits s 0 * sign).

(** The digit loop of [k_utoa]: [tmp[pos++] = digits[val % base]; val /= base]. *)
Definition utoa_step (base : Z) (st : Z * list Z) : Z * list Z :=
  let '(val, tmp) := st in (val / base, tmp ++ [nthZ 0 digits (val mod base)]).

Definition k_utoa (val base : Z) : option (list Z) :=
  let base := if (base <? 2) || (16 <? base) then 10 else base in
  if val =? 0 then Some [48]
  else
    '(_, tmp) ← while_fuel 32 (fun st => 0 <? fst st) (utoa_step base) (val, []);
    Some (reverse tmp).

Definition k_itoa (val base : Z) : option (list Z) :=
  if (val <? 0) && (base =? 10) then s ← k_utoa (u32 (- val)) base; Some (45 :: s)
  else k_utoa (u32 val) base.

(** The number a digit string stands for, most significant digit first. *)
Definition digit_val (c : Z) : Z := if c <=? 57 then c - 48 else c - 55.
Definition value (base : Z) (s : list Z) : Z := foldl (fun v c => v * base + digit_val c) 0 s.

Lemma digit_val_digits d : 0 <= d < 16 -> digit_val (nthZ 0 digits d) = d.
Proof.
  intros H. assert (d ∈ seqZ 0 16) as Hin by (apply elem_of_seqZ; lia).
  clear H. revert d Hin. apply Forall_forall. repeat (apply Forall_cons; split; [done|]). constructor.
Qed.

Lemma isdigit_digits d : 0 <= d < 10 -> isdigit (nthZ 0 digits d) = true.
Proof.
  intros H. assert (d ∈ seqZ 0 10) as Hin by (apply elem_of_seqZ; lia).
  clear H. revert d Hin. apply Forall_forall. repeat (apply Forall_cons; split; [done|]). constructor.
Qed.

Lemma value_snoc base s c : value base (s ++ [c]) = value base s * base + digit_val c.
Proof. unfold value. by rewrite foldl_app. Qed.

(** Folding in a most significant digit. *)
Lemma value_cons base c s :
  value base (c :: s) = digit_val c * base ^ lenZ s + value base s.
Proof.
  unfold value. cbn [foldl]. rewrite Z.mul_0_l, Z.add_0_l.
  generalize (digit_val c). unfold lenZ. induction s as [|x s IH] using rev_ind; intros v.
  - simpl. lia.
  - rewrite !foldl_app. cbn [foldl]. rewrite IH, length_app. simpl length.
    replace (Z.of_nat (length s + 1)) with (Z.of_nat (length s) + 1) by lia.
    rewrite Z.pow_add_r by lia. lia.
Qed.

(** A value below [2^fuel] takes at most [fuel] digits; the digits found are
    those of the value, and there is no leading zero. *)
Lemma utoa_loop base fuel val tmp :
  2 <= base <= 16 -> 0 <= val < 2 ^ Z.of_nat fuel ->
  exists tmp', while_fuel fuel (fun st => 0 <? fst st) (utoa_step base) (val, tmp)
                 = Some (0, tmp ++ tmp') /\
    value base (reverse tmp') = val /\
    Forall (fun c => exists d, 0 <= d < base /\ c = nthZ 0 digits d) tmp' /\
    (length tmp' <= fuel)%nat /\
    (if decide (val = 0) then tmp' = [] else base ^ (lenZ tmp' - 1) <= val).
Proof.
  intros Hb. revert val tmp. induction fuel as [|n IH]; intros val tmp Hv.
  - change (2 ^ Z.of_nat 0) with 1 in Hv. assert (val = 0) as -> by lia. simpl. exists [].
    rewrite app_nil_r. by repeat split; auto.
  - simpl. destruct (Z.ltb_spec 0 val); cycle 1.
    { exists []. rewrite app_nil_r. assert (val = 0) as -> by lia.
      repeat split; auto; simpl; lia. }
    assert (2 ^ Z.of_nat (S n) = 2 * 2 ^ Z.of_nat n) as E
      by (rewrite Nat2Z.inj_succ, Z.pow_succ_r; lia).
    assert (val / base <= val / 2) by (apply Z.div_le_compat_l; lia).
    destruct (IH (val / base) (tmp ++ [nthZ 0 digits (val mod base)]))
      as (tmp' & -> & Hval & Hd & Hlen & Hpow).
    { split; [apply Z.div_pos; lia|]. zlia. }
    exists (nthZ 0 digits (val mod base) :: tmp').
    pose proof (Z.mod_pos_bound val base ltac:(lia)).
    pose proof (Z.div_mod val base ltac:(lia)).
    split; [by rewrite <- app_assoc|]. split; [|split; [|split]].
    + rewrite reverse_cons, value_snoc, Hval, digit_val_digits by lia. lia.
    + constructor; eauto.
    + simpl. lia.
    + rewrite decide_False by lia. unfold lenZ in *. simpl length. rewrite Nat2Z.inj_succ.
      replace (Z.succ (Z.of_nat (length tmp')) - 1) with (Z.of_nat (length tmp')) by lia.
      case_decide as E0; [subst tmp'; simpl; lia|].
      destruct (decide (length tmp' = 0%nat)) as [->|]; [simpl; lia|].
      replace (Z.of_nat (length tmp')) with (Z.of_nat (length tmp') - 1 + 1) by lia.
      rewrite Z.pow_add_r, Z.pow_1_r by lia. nia.
Qed.

(** [k_utoa] terminates, writes at most 32 digits (so its 36-byte scratch
    array is never overrun), and the digits denote the value. *)
Lemma k_utoa_digits val base :
  2 <= base <= 16 -> is_u32 val ->
  exists s, k_utoa val base = Some s /\ value base s = val /\
    Forall (fun c => exists d, 0 <= d < base /\ c = nthZ 0 digits d) s /\
    (1 <= length s <= 32)%nat /\ base ^ (lenZ s - 1) <= Z.max val 1.
Proof.
  intros Hb Hv. unfold_widths. unfold k_utoa.
  replace ((base <? 2) || (16 <? base))%bool with false
    by (symmetry; apply orb_false_iff; rewrite !Z.ltb_ge; lia).
  destruct (Z.eqb_spec val 0) as [->|].
  { exists [48]. split; [done|]. split; [done|]. split.
    2: { change (lenZ [48] - 1) with 0. rewrite Z.pow_0_r. simpl. lia. }
    constructor; [|done]. exists 0. split; [lia|done]. }
  destruct (utoa_loop base 32 val []) as (tmp' & -> & Hval & Hd & Hlen & Hpow); [lia..|].
  simpl. exists (reverse tmp'). rewrite decide_False in Hpow by lia.
  rewrite length_reverse. unfold lenZ in *. rewrite length_reverse.
  repeat split; auto; try lia.
  - by apply Forall_reverse.
  - destruct tmp'; [|simpl; lia]. unfold value in Hval. simpl in Hval. lia.
Qed.

(** Reading decimal digits back adds them to the accumulator, as long as the
    result still fits in an [int]. *)
Lemma atoi_digits_value s v :
  Forall (fun c => exists d, 0 <= d < 10 /\ c = nthZ 0 digits d) s ->
  0 <= v -> foldl (fun v c => v * 10 + digit_val c) v s < 2147483648 ->
  atoi_digits s v = foldl (fun v c => v * 10 + digit_val c) v s.
Proof.
  intros Hs. revert v. induction Hs as [|c s (d & Hd & ->) Hs IH]; intros v Hv Hb; [done|].
  cbn [atoi_digits foldl] in *. rewrite isdigit_digits, digit_val_digits in * by lia.
  assert (nthZ 0 digits d - 48 = d) as Ed.
  { rewrite <- (digit_val_digits d) at 2 by lia. unfold digit_val.
    pose proof (isdigit_digits d Hd) as Hi. unfold isdigit in Hi. bool_to_prop.
    destruct (Z.leb_spec (nthZ 0 digits d) 57); lia. }
  assert (v * 10 + d <= foldl (fun v c => v * 10 + digit_val c) (v * 10 + d) s) as Hmono.
  { clear -Hs Hv Hd. revert v d Hv Hd. induction Hs as [|c s (e & He & ->) Hs IH]; intros; [done|].
    cbn [foldl]. rewrite digit_val_digits by lia. specialize (IH (v * 10 + d) e). lia. }
  rewrite Ed, (s32_id (v * 10)), s32_id by lia. apply IH; lia.
Qed.

Lemma atoi_digit_head d s :
  0 <= d < 10 ->
  k_atoi (nthZ 0 digits d :: s) = s32 (atoi_digits (nthZ 0 digits d :: s) 0).
Proof.
  intros Hd. pose proof (isdigit_digits d Hd) as Hi. unfold isdigit in Hi. bool_to_prop.
  unfold k_atoi. cbn [atoi_skip].
  destruct (Z.eqb_spec (nthZ 0 digits d) 32); [lia|].
  destruct (Z.eqb_spec (nthZ 0 digits d) 9); [lia|]. simpl ch.
  destruct (Z.eqb_spec (nthZ 0 digits d) 45); [lia|].
  destruct (Z.eqb_spec (nthZ 0 digits d) 43); [lia|]. by rewrite Z.mul_1_r.
Qed.

(** Printing a signed number in decimal and reading it back gives the
    number, for every [int] but the most negative one. *)
Theorem k_atoi_k_itoa v :
  -2147483648 < v < 2147483648 ->
  exists s, k_itoa v 10 = Some s /\ k_atoi s = v.
Proof.
  intros Hv. unfold k_itoa. rewrite andb_true_r.
  destruct (Z.ltb_spec v 0).
  - rewrite u32_id by lia.
    destruct (k_utoa_digits (- v) 10) as (s & -> & Hval & Hd & _); [lia|unfold_widths; lia|].
    exists (45 :: s). split; [done|]. unfold k_atoi. simpl.
    rewrite atoi_digits_value; auto with lia; unfold value in Hval; rewrite Hval; [|lia].
    rewrite s32_id; lia.
  - rewrite u32_id by lia.
    destruct (k_utoa_digits v 10) as (s & -> & Hval & Hd & Hlen & _); [lia|unfold_widths; lia|].
    exists s. split; [done|]. destruct Hd as [|c s (d & Hdd & ->) Hd]; [simpl in Hlen; lia|].
    rewrite atoi_digit_head by done.
    rewrite atoi_digits_value; auto with lia; unfold value in Hval; rewrite ?Hval; try lia.
    + rewrite s32_id; lia.
    + constructor; eauto.
Qed.

Lemma k_atoi_k_itoa_witness :
  -2147483648 < -2024 < 2147483648 /\
  exists s, k_itoa (-2024) 10 = Some s /\ k_atoi s = -2024.
Proof. split; [lia|]. apply k_atoi_k_itoa. lia. Defined.
