(* ===== verification/Text.v ===== *)
(** Text: string literals of the sources as lists of characters. *)

From stdpp Require Export strings.
From Stdlib Require Strings.String Strings.Byte.
From S2P Require Import Prelude.
#[global] Open Scope Z_scope.

(** The characters of a literal, without the terminating NUL. *)
Definition str (s : string) : list Z :=
  map (fun b => Z.of_N (Byte.to_N b)) (String.list_byte_of_string s).
Arguments str s%_stdpp.

(** The characters a C escape stands for. *)
Definition NL : Z := 10.
Definition CR : Z := 13.
Definition TAB : Z := 9.
Definition BS : Z := 8.
Definition ESC : Z := 27.

(** A literal that ends a line. *)
Definition strn (s : string) : list Z := str s ++ [NL].
Arguments strn s%_stdpp.

Example str_spells : str "a~ 0" = [97; 126; 32; 48].
Proof. reflexivity. Qed.
