(* ===== verification/Array.v ===== *)
(** Array: byte arrays edited in place, as the line editors of
    [kernel/shell.c] and [kernel/editor.c] do with [memmove].  Then
    [strcpy] and [strcat] of [kernel/common.c] on an array whose size is known,
    where [None] is a store or a load past its end. *)

From S2P Require Import Prelude Memory Common Text.

(** [memmove(a + d, a + s, n)] inside of one array. *)
Definition arr_move (d s n : Z) (a : list Z) : list Z :=
  take (Z.to_nat d) a ++ take (Z.to_nat n) (drop (Z.to_nat s) a) ++ drop (Z.to_nat (d + n)) a.

(** [memcpy(a + d, src, n)] where [src] has [n] bytes. *)
Definition arr_copy (d : Z) (src a : list Z) : list Z :=
  take (Z.to_nat d) a ++ src ++ drop (Z.to_nat d + length src) a.

(** The text an array holds before position [n], with a cursor in it. *)
Definition prefix_text (n : Z) (a : list Z) : list Z := take (Z.to_nat n) a.

Section array.
Implicit Types a t : list Z.

Lemma length_arr_move d s n a :
  0 <= d -> 0 <= s -> 0 <= n -> s + n <= lenZ a -> d + n <= lenZ a -> lenZ (arr_move d s n a) = lenZ a.
Proof. unfold lenZ, arr_move. intros. rewrite !length_app, !length_take, !length_drop. lia. Qed.
Lemma length_arr_copy d src a : 0 <= d -> d + lenZ src <= lenZ a -> lenZ (arr_copy d src a) = lenZ a.
Proof. unfold lenZ, arr_copy. intros. rewrite !length_app, !length_take, !length_drop. lia. Qed.

Lemma lookup_arr_move d s n a (i : nat) :
  0 <= d -> 0 <= s -> 0 <= n -> s + n <= lenZ a -> d + n <= lenZ a ->
  arr_move d s n a !! i = a !! (if decide (d <= Z.of_nat i < d + n) then Z.to_nat (Z.of_nat i - d + s) else i).
Proof.
  unfold lenZ, arr_move. intros Hd Hs Hn Hsn Hdn. case_decide as Hin.
  - rewrite lookup_app_r, lookup_app_l by (rewrite ?length_take, ?length_drop; lia). rewrite length_take.
    rewrite lookup_take_lt, lookup_drop by lia. f_equal. lia.
  - destruct (decide (Z.of_nat i < d)).
    + by rewrite lookup_app_l, lookup_take_lt by (rewrite ?length_take; lia).
    + rewrite !lookup_app_r by (rewrite ?length_take, ?length_drop, ?length_take; lia).
      rewrite !length_take, length_drop, lookup_drop. f_equal. lia.
Qed.

Lemma lookup_updZ i x a (j : nat) :
  0 <= i < lenZ a -> updZ i x a !! j = if decide (Z.of_nat j = i) then Some x else a !! j.
Proof.
  unfold updZ, lenZ. intros Hi. rewrite (proj2 (Z.ltb_ge i 0)) by lia. case_decide as Hj.
  - subst. rewrite Nat2Z.id. apply list_lookup_insert_eq. lia.
  - apply list_lookup_insert_ne. lia.
Qed.

Lemma lookup_prefix n a (i : nat) : prefix_text n a !! i = if decide (Z.of_nat i < n) then a !! i else None.
Proof. unfold prefix_text. case_decide; [apply lookup_take_lt; lia|apply lookup_take_ge; lia]. Qed.

Lemma length_prefix n a : 0 <= n <= lenZ a -> length (prefix_text n a) = Z.to_nat n.
Proof. unfold prefix_text, lenZ. intros. rewrite length_take. lia. Qed.

(** Inserting a byte at [c] in a text of [n] bytes: the two stores of
    [memmove(a + c + 1, a + c, k); a[c] = x;], where [k] covers the text. *)
Lemma arr_insert n c x k a :
  0 <= c <= n -> n - c <= k -> c + 1 + k <= lenZ a ->
  prefix_text (n + 1) (updZ c x (arr_move (c + 1) c k a)) =
  take (Z.to_nat c) (prefix_text n a) ++ x :: drop (Z.to_nat c) (prefix_text n a).
Proof.
  intros Hc Hk Hn. apply list_eq. intros i. rewrite lookup_prefix.
  assert (Hlen : length (take (Z.to_nat c) (prefix_text n a)) = Z.to_nat c) by (rewrite length_take, length_prefix; lia).
  rewrite lookup_updZ by (rewrite length_arr_move; lia). rewrite lookup_arr_move by lia.
  destruct (decide (i < Z.to_nat c)%nat).
  - rewrite lookup_app_l, lookup_take_lt, lookup_prefix by lia. repeat case_decide; (done || lia).
  - rewrite lookup_app_r, Hlen by lia. destruct (decide (i = Z.to_nat c)) as [->|].
    + rewrite Nat.sub_diag. simpl. repeat case_decide; (done || lia).
    + replace (i - Z.to_nat c)%nat with (S (i - Z.to_nat c - 1)) by lia. simpl. rewrite lookup_drop, lookup_prefix.
      repeat case_decide; try (done || lia). f_equal. lia.
Qed.

(** Removing the byte at [c]: [memmove(a + c, a + c + 1, k)]. *)
Lemma arr_remove n c k a :
  0 <= c < n -> n - c - 1 <= k -> c + 1 + k <= lenZ a ->
  prefix_text (n - 1) (arr_move c (c + 1) k a) =
  take (Z.to_nat c) (prefix_text n a) ++ drop (S (Z.to_nat c)) (prefix_text n a).
Proof.
  intros Hc Hk Hn. apply list_eq. intros i. rewrite lookup_prefix, lookup_arr_move by lia.
  assert (Hlen : length (take (Z.to_nat c) (prefix_text n a)) = Z.to_nat c) by (rewrite length_take, length_prefix; lia).
  destruct (decide (i < Z.to_nat c)%nat).
  - rewrite lookup_app_l, lookup_take_lt, lookup_prefix by lia. repeat case_decide; (done || lia).
  - rewrite lookup_app_r, Hlen, lookup_drop, lookup_prefix by lia. repeat case_decide; try (done || lia). f_equal. lia.
Qed.

(** A store after the text leaves it. *)
Lemma prefix_upd n i x a : n <= i -> prefix_text n (updZ i x a) = prefix_text n a.
Proof. unfold prefix_text, updZ. intros. case_goal; [done|]. apply take_insert_ge. lia. Qed.
End array.


(** * Strings in arrays *)

(** [while ( ( *d++ = *src++));] from the index [i]; [src] without its NUL. *)
Fixpoint put_str (i : Z) (src : list Z) (buf : list Z) : option (list Z) :=
  if (0 <=? i) && (i <? lenZ buf) then
    match src with
    | [] => Some (updZ i 0 buf)
    | c :: src => put_str (i + 1) src (updZ i c buf)
    end
  else None.

(** [while ( *d) d++;]: the index of the first NUL. *)
Fixpoint find_nul (buf : list Z) (i : Z) : option Z :=
  match buf with [] => None | c :: buf => if c =? 0 then Some i else find_nul buf (i + 1) end.

Definition strcpy (dest src : list Z) : option (list Z) := put_str 0 src dest.
Definition strcat (dest src : list Z) : option (list Z) := i ← find_nul dest 0; put_str i src dest.

(** [strcpy(buf, t0); strcat(buf, t1); strcat(buf, t2); ...]. *)
Fixpoint strcat_all (buf : list Z) (ts : list (list Z)) : option (list Z) :=
  match ts with [] => Some buf | t :: ts => buf ← strcat buf t; strcat_all buf ts end.
Definition build (buf : list Z) (t0 : list Z) (ts : list (list Z)) : option (list Z) :=
  buf ← strcpy buf t0; strcat_all buf ts.

(** * What the arrays hold *)

(** A text without NULs. *)
Definition no_nul (t : list Z) : Prop := Forall (fun c => c <> 0) t.

(** An array of [n] bytes that holds the string [t]. *)
Definition holds_str (n : Z) (t buf : list Z) : Prop :=
  lenZ buf = n /\ no_nul t /\ exists rest, buf = t ++ 0 :: rest.

(** A store just after the prefix [pre]. *)
Lemma updZ_middle (pre : list Z) c x rest : updZ (lenZ pre) c (pre ++ x :: rest) = pre ++ c :: rest.
Proof.
  unfold updZ, lenZ. rewrite (proj2 (Z.ltb_ge _ _)) by lia. rewrite Nat2Z.id, insert_app_r_alt by lia.
  by rewrite Nat.sub_diag.
Qed.

Lemma put_str_spec src : forall pre rest,
  (length src < length rest)%nat ->
  exists rest', put_str (lenZ pre) src (pre ++ rest) = Some (pre ++ src ++ 0 :: rest') /\ S (length src + length rest') = length rest.
Proof.
  induction src as [|c src IH]; intros pre [|x rest] Hl; simpl in Hl; try lia; cbn [put_str].
  all: assert ((0 <=? lenZ pre) && (lenZ pre <? lenZ (pre ++ x :: rest)) = true) as ->
         by (apply andb_true_iff; unfold lenZ; rewrite Z.leb_le, Z.ltb_lt, length_app; simpl; lia).
  - exists rest. rewrite updZ_middle. split; [done|simpl; lia].
  - rewrite updZ_middle. destruct (IH (pre ++ [c]) rest) as (rest' & E & El); [lia|].
    exists rest'. split; [|simpl; lia]. rewrite <- app_assoc in E. simpl in E.
    replace (lenZ (pre ++ [c])) with (lenZ pre + 1) in E by (unfold lenZ; rewrite length_app; simpl; lia).
    by rewrite E, <- app_assoc.
Qed.

Lemma find_nul_spec t rest i : no_nul t -> find_nul (t ++ 0 :: rest) i = Some (i + lenZ t).
Proof.
  intros Ht. revert i. induction Ht as [|c t Hc Ht IH]; intros i; cbn [find_nul app].
  - simpl. f_equal. unfold lenZ. simpl. lia.
  - destruct (Z.eqb_spec c 0); [done|]. rewrite IH. f_equal. unfold lenZ. simpl. lia.
Qed.

Lemma strcpy_spec n buf src :
  lenZ buf = n -> no_nul src -> lenZ src < n -> exists buf', strcpy buf src = Some buf' /\ holds_str n src buf'.
Proof.
  intros Hn Hs Hl. destruct (put_str_spec src [] buf) as (rest & E & El); [unfold lenZ in *; lia|].
  eexists. split; [exact E|]. split; [unfold lenZ in *; simpl; rewrite length_app; simpl; lia|]. split; [done|]. by exists rest.
Qed.
Lemma strcat_spec n t buf src :
  holds_str n t buf -> no_nul src -> lenZ t + lenZ src < n ->
  exists buf', strcat buf src = Some buf' /\ holds_str n (t ++ src) buf'.
Proof.
  intros (Hn & Ht & rest & ->) Hs Hl. unfold strcat. rewrite find_nul_spec by done. cbn [mbind option_bind].
  destruct (put_str_spec src t (0 :: rest)) as (rest' & E & El).
  { unfold lenZ in *. rewrite length_app in Hn. simpl in *. lia. }
  eexists. split; [exact E|]. split; [unfold lenZ in *; rewrite !length_app in *; simpl in *; lia|].
  split; [by apply Forall_app|]. exists rest'. by rewrite <- app_assoc.
Qed.

Lemma strcat_all_spec n ts : forall t buf,
  holds_str n t buf -> Forall no_nul ts -> lenZ t + lenZ (concat ts) < n ->
  exists buf', strcat_all buf ts = Some buf' /\ holds_str n (t ++ concat ts) buf'.
Proof.
  induction ts as [|t1 ts IH]; intros t buf Hb Hts Hl; cbn [strcat_all concat].
  - exists buf. by rewrite app_nil_r.
  - apply Forall_cons in Hts as [H1 Hts]. cbn [concat] in Hl. unfold lenZ in *. rewrite length_app in Hl.
    destruct (strcat_spec n t buf t1) as (b & -> & Hb'); [done|done|unfold lenZ; lia|]. cbn [mbind option_bind].
    destruct (IH (t ++ t1) b) as (b' & -> & Hb''); [done|done|rewrite length_app; lia|].
    exists b'. by rewrite app_assoc.
Qed.

(** A text built by [strcpy] and [strcat] that fits with its NUL is all there. *)
Lemma build_spec n buf t0 ts :
  lenZ buf = n -> no_nul t0 -> Forall no_nul ts -> lenZ (t0 ++ concat ts) < n ->
  exists buf', build buf t0 ts = Some buf' /\ holds_str n (t0 ++ concat ts) buf'.
Proof.
  intros Hn H0 Hts Hl. unfold build. unfold lenZ in Hl. rewrite length_app in Hl.
  destruct (strcpy_spec n buf t0) as (b & -> & Hb); [done|done|unfold lenZ; lia|]. cbn [mbind option_bind].
  apply (strcat_all_spec n ts t0 b); [done|done|]. unfold lenZ. lia.
Qed.
