(* ===== verification/Ring.v ===== *)
(** Ring: the 256-entry ring buffer that [kernel/keyboard.c] (characters, key
    codes, events) and [kernel/serial.c] (received bytes) each write out, and
    its specification as a bounded first-in first-out queue.

    One slot stays empty to tell a full buffer from an empty one, so a buffer
    holds 255 entries, and an entry pushed into a full buffer is dropped. *)

From S2P Require Import Prelude.

Definition RING_SIZE : Z := 256.

(** The array with the indices of the next write and of the next read. *)
Record ring (A : Type) := RingBuf { r_buf : list A; r_head : Z; r_tail : Z }.
Arguments RingBuf {A}. Arguments r_buf {A}. Arguments r_head {A}. Arguments r_tail {A}.

Section ring.
Context {A : Type} (d : A).
Implicit Types r : ring A.

(** [(uint16_t)((i + 1) & (SIZE - 1))]. *)
Definition ring_next (i : Z) : Z := u16 (Z.land (i + 1) (RING_SIZE - 1)).

Definition ring_push (x : A) r : ring A :=
  let next := ring_next (r_head r) in
  if negb (next =? r_tail r) then RingBuf (updZ (r_head r) x (r_buf r)) next (r_tail r) else r.

Definition ring_empty r : bool := r_head r =? r_tail r.

Definition ring_pop r : option (A * ring A) :=
  if ring_empty r then None
  else Some (nthZ d (r_buf r) (r_tail r), RingBuf (r_buf r) (r_head r) (ring_next (r_tail r))).

(** ** The queue a buffer stands for *)

Record ring_wf r : Prop := {
  rw_len : lenZ (r_buf r) = RING_SIZE;
  rw_head : 0 <= r_head r < RING_SIZE;
  rw_tail : 0 <= r_tail r < RING_SIZE
}.

Definition ring_count r : Z := (r_head r - r_tail r) mod RING_SIZE.
Definition contents r : list A :=
  (fun i => nthZ d (r_buf r) ((r_tail r + i) mod RING_SIZE)) <$> seqZ 0 (ring_count r).

Lemma ring_next_mod i : ring_next i = (i + 1) mod RING_SIZE.
Proof.
  unfold ring_next, RING_SIZE. simpl. rewrite land_255. apply u16_id. zlia.
Qed.

Lemma contents_length r : lenZ (contents r) = ring_count r.
Proof. unfold lenZ, contents. rewrite length_fmap, length_seqZ. unfold ring_count, RING_SIZE. zlia. Qed.

Lemma ring_push_wf x r : ring_wf r -> ring_wf (ring_push x r).
Proof.
  intros [Hl Hh Ht]. unfold ring_push. case_goal; [|done].
  split; simpl; rewrite ?lenZ_updZ, ?ring_next_mod; unfold RING_SIZE in *; zlia.
Qed.

(** Pushing appends, unless 255 entries are waiting. *)
Lemma ring_push_contents x r :
  ring_wf r ->
  contents (ring_push x r) = if lenZ (contents r) <? RING_SIZE - 1 then contents r ++ [x] else contents r.
Proof.
  intros [Hl Hh Ht]. rewrite contents_length. unfold ring_push. rewrite ring_next_mod.
  unfold contents, ring_count, RING_SIZE in *.
  destruct (Z.eqb_spec ((r_head r + 1) mod 256) (r_tail r)) as [He|He]; simpl;
    destruct (Z.ltb_spec ((r_head r - r_tail r) mod 256) (256 - 1)) as [Hlt|Hge]; try done; try zlia.
  replace (((r_head r + 1) mod 256 - r_tail r) mod 256) with ((r_head r - r_tail r) mod 256 + 1) by zlia.
  rewrite seqZ_app, fmap_app by zlia. simpl. f_equal.
  - apply list_fmap_ext. intros i j [-> Hj]%lookup_seqZ. apply nthZ_updZ_ne. zlia.
  - replace ((r_tail r + (Z.of_nat 0 + (0 + (r_head r - r_tail r) mod 256))) mod 256) with (r_head r) by zlia.
    by rewrite nthZ_updZ_eq by lia.
Qed.

Lemma ring_empty_contents r : ring_wf r -> ring_empty r = true <-> contents r = [].
Proof.
  intros [Hl Hh Ht]. unfold ring_empty. rewrite Z.eqb_eq.
  pose proof (contents_length r) as Hc. unfold ring_count, lenZ, RING_SIZE in *. split; intros He.
  - apply length_zero_iff_nil. rewrite He, Z.sub_diag, Z.mod_0_l in Hc by lia. lia.
  - rewrite He in Hc. simpl in Hc. zlia.
Qed.

(** Popping takes the oldest entry, and fails exactly on an empty buffer. *)
Lemma ring_pop_contents r :
  ring_wf r ->
  match ring_pop r with
  | None => contents r = []
  | Some (x, r') => contents r = x :: contents r' /\ ring_wf r' /\ r_buf r' = r_buf r
  end.
Proof.
  intros Hwf. unfold ring_pop. destruct (ring_empty r) eqn:He; [by apply ring_empty_contents|].
  destruct Hwf as [Hl Hh Ht]. unfold ring_empty in He. bool_to_prop. unfold RING_SIZE in *.
  assert (Hcnt : (r_head r - (r_tail r + 1) mod 256) mod 256 = Z.pred ((r_head r - r_tail r) mod 256)) by zlia.
  split; [|split; [split; simpl; rewrite ?ring_next_mod; unfold RING_SIZE; zlia|done]].
  unfold contents, ring_count, RING_SIZE. simpl. rewrite ring_next_mod. unfold RING_SIZE. rewrite Hcnt.
  rewrite (seqZ_cons 0) by zlia. simpl. f_equal.
  - f_equal. zlia.
  - rewrite <- (fmap_add_seqZ 1 0), <- list_fmap_compose. apply list_fmap_ext.
    intros i j [-> Hj]%lookup_seqZ. simpl. f_equal. zlia.
Qed.

Lemma ring_push_room x r :
  ring_wf r -> lenZ (contents r) < RING_SIZE - 1 -> contents (ring_push x r) = contents r ++ [x].
Proof. intros Hwf Hl. rewrite ring_push_contents by done. destruct (Z.ltb_spec (lenZ (contents r)) (RING_SIZE - 1)); [done|lia]. Qed.
End ring.

(** An empty buffer. *)
Definition ring_init {A} (d : A) : ring A := RingBuf (replicate 256 d) 0 0.

Lemma ring_init_wf {A} (d : A) : ring_wf (ring_init d).
Proof. by split. Qed.
