(* ===== verification/Pmm.v ===== *)
(** Pmm: the bitmap physical-frame allocator of [kernel/paging.c] and the
    Multiboot memory map it is initialised from ([kernel/multiboot.h]).

    [bitmap] has one bit per 4 KiB frame, set when the frame is in use. *)

From S2P Require Import Prelude Memory Common.

Definition PAGE_SIZE : Z := 4096.
Definition BITMAP_SIZE : Z := 32768.
Definition HEAP_START : Z := 4194304.
Definition HEAP_MAX_SIZE : Z := 16777216.

Record pmm_state := Pmm {
  bitmap : list Z;
  total_frames : Z;
  used_frames : Z
}.

Definition set_frame (i w used : Z) (s : pmm_state) : pmm_state :=
  Pmm (updZ i w (bitmap s)) (total_frames s) used.

(** * Single frames *)

Definition frame_mask (frame : Z) : Z := Z.shiftl 1 (frame mod 32).
Definition frame_word (frame : Z) (s : pmm_state) : Z := nthZ 0 (bitmap s) (frame / 32).

Definition frame_set_used (frame : Z) (s : pmm_state) : pmm_state :=
  if frame / 32 <? BITMAP_SIZE then
    let mask := frame_mask frame in
    let w := frame_word frame s in
    if Z.land w mask =? 0
    then set_frame (frame / 32) (Z.lor w mask) (u32 (used_frames s + 1)) s
    else s
  else s.

Definition frame_set_free (frame : Z) (s : pmm_state) : pmm_state :=
  if frame / 32 <? BITMAP_SIZE then
    let mask := frame_mask frame in
    let w := frame_word frame s in
    if negb (Z.land w mask =? 0)
    then set_frame (frame / 32) (Z.land w (Z.lnot mask))
           (if 0 <? used_frames s then used_frames s - 1 else used_frames s) s
    else s
  else s.

(** * Regions and initialisation *)

Definition pmm_reserve_region (base size : Z) (s : pmm_state) : pmm_state :=
  let start_frame := ALIGN_DOWN base PAGE_SIZE / PAGE_SIZE in
  let end_addr := base + size in
  let end_addr := if 4294963200 <? end_addr then 4294963200 else end_addr in
  let end_frame := ALIGN_UP (u32 end_addr) PAGE_SIZE / PAGE_SIZE in
  for_range start_frame (Z.min end_frame (BITMAP_SIZE * 32)) frame_set_used s.

Definition full_bitmap : list Z := replicate (Z.to_nat BITMAP_SIZE) 4294967295.

(** The first address the initial allocator may hand out. *)
Definition low_limit (reserved_end : Z) : Z :=
  let min_free := ALIGN_UP reserved_end PAGE_SIZE in
  let heap_limit := HEAP_START + HEAP_MAX_SIZE in
  if min_free <? heap_limit then heap_limit else min_free.

Definition pmm_init (mem_size reserved_end : Z) : pmm_state :=
  let total := mem_size / PAGE_SIZE in
  let total := if BITMAP_SIZE * 32 <? total then BITMAP_SIZE * 32 else total in
  let min_free := low_limit reserved_end in
  for_range (min_free / PAGE_SIZE) total frame_set_free (Pmm full_bitmap total total).

(** ** The Multiboot memory map *)

Record multiboot_info_t := MultibootInfo {
  flags : Z;
  mem_lower : Z;
  mem_upper : Z;
  mmap_length : Z;
  mmap_addr : Z
}.

Definition multiboot_total_memory (mbi : multiboot_info_t) : Z :=
  if Z.testbit (flags mbi) 0 then u32 (u32 (mem_upper mbi * 1024) + u32 (mem_lower mbi * 1024))
  else 16 * 1024 * 1024.

Record multiboot_mmap_entry_t := MmapEntry {
  e_size : Z;
  e_addr : Z;
  e_len : Z;
  e_type : Z
}.

Definition ld64 (m : mem) (a : Z) : Z := ld32 m a + 4294967296 * ld32 m (a + 4).

(** The packed entry at an address. *)
Definition mmap_entry (m : mem) (entry : Z) : multiboot_mmap_entry_t :=
  MmapEntry (ld32 m entry) (ld64 m (entry + 4)) (ld64 m (entry + 12)) (ld32 m (entry + 20)).

Definition MULTIBOOT_MMAP_AVAILABLE : Z := 1.

Definition multiboot_mmap_first (mbi : multiboot_info_t) : Z :=
  if negb (Z.testbit (flags mbi) 6) || (mmap_length mbi =? 0) then 0 else mmap_addr mbi.
Definition multiboot_mmap_next (m : mem) (entry : Z) : Z :=
  u32 (entry + e_size (mmap_entry m entry) + 4).
Definition multiboot_mmap_has_more (mbi : multiboot_info_t) (entry : Z) : bool :=
  entry <? u32 (mmap_addr mbi + mmap_length mbi).

(** [while (entry && has_more(entry)) { body; entry = next(entry); }] *)
Definition mmap_foreach {S : Type} (m : mem) (mbi : multiboot_info_t)
    (body : multiboot_mmap_entry_t -> S -> S) (s : S) : option S :=
  r ← while_fuel (Z.to_nat (mmap_length mbi))
        (fun st => negb (fst st =? 0) && multiboot_mmap_has_more mbi (fst st))
        (fun st => (multiboot_mmap_next m (fst st), body (mmap_entry m (fst st)) (snd st)))
        (multiboot_mmap_first mbi, s);
  Some (snd r).

Definition e820_usable (e : multiboot_mmap_entry_t) : bool :=
  (e_type e =? MULTIBOOT_MMAP_AVAILABLE) && (e_addr e <? 4294963200).
Definition e820_start (e : multiboot_mmap_entry_t) : Z :=
  Z.land (u64 (e_addr e + PAGE_SIZE - 1)) (Z.lnot (PAGE_SIZE - 1)).
Definition e820_end (e : multiboot_mmap_entry_t) : Z :=
  let end_ := u64 (e_addr e + e_len e) in
  let end_ := if 4294963200 <? end_ then 4294963200 else end_ in
  Z.land end_ (Z.lnot (PAGE_SIZE - 1)).

(** The body of the first pass: the end of the highest available region. *)
Definition e820_highest (e : multiboot_mmap_entry_t) (highest : Z) : Z :=
  if e820_usable e then
    if (e820_start e <? e820_end e) && (highest <? e820_end e) then e820_end e else highest
  else highest.

(** The body of the second pass: free the frames of an available region. *)
Definition e820_free (e : multiboot_mmap_entry_t) (s : pmm_state) : pmm_state :=
  if e820_usable e then
    for_range (e820_start e / PAGE_SIZE) (e820_end e / PAGE_SIZE) frame_set_free s
  else s.

Definition pmm_init_mmap (m : mem) (mbi : option multiboot_info_t)
    (fallback_mem_size reserved_end : Z) : option pmm_state :=
  match mbi with
  | None => Some (pmm_init fallback_mem_size reserved_end)
  | Some mbi =>
    if negb (Z.testbit (flags mbi) 6) || (mmap_length mbi =? 0)
    then Some (pmm_init fallback_mem_size reserved_end)
    else
      highest ← mmap_foreach m mbi e820_highest 0;
      if highest =? 0 then Some (pmm_init fallback_mem_size reserved_end)
      else
        let total := u32 (highest / PAGE_SIZE) in
        s ← mmap_foreach m mbi e820_free (Pmm full_bitmap total total);
        Some (pmm_reserve_region 0 (low_limit reserved_end) s)
  end.

(** * Allocation *)

(** [for (j = 0; j < 32; j++) if (!(w & (1U << j))) ...] *)
Fixpoint scan_bits (w j : Z) (n : nat) : option Z :=
  match n with
  | O => None
  | S n => if Z.land w (Z.shiftl 1 j) =? 0 then Some j else scan_bits w (j + 1) n
  end.

(** [for (i = 0; i < BITMAP_SIZE; i++) if (bitmap[i] != 0xFFFFFFFF) ...] *)
Fixpoint scan_words (i : Z) (ws : list Z) : option Z :=
  match ws with
  | [] => None
  | w :: ws =>
    if w =? 4294967295 then scan_words (i + 1) ws
    else match scan_bits w 0 32 with
         | Some j => Some (i * 32 + j)
         | None => scan_words (i + 1) ws
         end
  end.

Definition pmm_alloc_frame (s : pmm_state) : Z * pmm_state :=
  match scan_words 0 (bitmap s) with
  | None => (0, s)
  | Some frame =>
    if total_frames s <=? frame then (0, s)
    else (u32 (frame * PAGE_SIZE),
          set_frame (frame / 32) (Z.lor (frame_word frame s) (frame_mask frame))
            (u32 (used_frames s + 1)) s)
  end.

Definition pmm_free_frame (addr : Z) (s : pmm_state) : pmm_state :=
  let frame := addr / PAGE_SIZE in
  if frame <? total_frames s then frame_set_free frame s else s.

Definition pmm_get_total_frames (s : pmm_state) : Z := total_frames s.
Definition pmm_get_used_frames (s : pmm_state) : Z := used_frames s.
Definition pmm_get_free_frames (s : pmm_state) : Z :=
  if used_frames s <=? total_frames s then total_frames s - used_frames s else 0.

(** * The allocator's invariant *)

(** The bit of a frame. *)
Definition frame_used (s : pmm_state) (f : Z) : bool :=
  Z.testbit (frame_word f s) (f mod 32).

Definition num_frames : Z := BITMAP_SIZE * 32.

Record pmm_wf (s : pmm_state) : Prop := {
  wf_len : lenZ (bitmap s) = BITMAP_SIZE;
  wf_words : Forall is_u32 (bitmap s);
  wf_total : 0 <= total_frames s <= num_frames;
  wf_above : forall f, total_frames s <= f < num_frames -> frame_used s f = true;
  wf_used : used_frames s = countb (frame_used s) (seqZ 0 (total_frames s))
}.

(** Two states that agree on every frame but one. *)
Definition frame_update (f : Z) (b : bool) (s s' : pmm_state) : Prop :=
  total_frames s' = total_frames s /\ lenZ (bitmap s') = lenZ (bitmap s) /\
  Forall is_u32 (bitmap s') /\
  forall g, 0 <= g < num_frames -> frame_used s' g = if decide (g = f) then b else frame_used s g.

Lemma frame_word_range s f : Forall is_u32 (bitmap s) -> is_u32 (frame_word f s).
Proof.
  intros H. unfold frame_word, nthZ. case_goal; [done|].
  destruct (bitmap s !! _) eqn:E; [|done]. by apply (Forall_lookup_1 _ _ _ _ H) in E.
Qed.

Lemma land_mask_zero w j : 0 <= j -> (Z.land w (Z.shiftl 1 j) =? 0) = negb (Z.testbit w j).
Proof.
  intros Hj. rewrite Z.shiftl_1_l.
  destruct (Z.testbit w j) eqn:E.
  - apply Z.eqb_neq. intros H0. assert (Z.testbit (Z.land w (2 ^ j)) j = true) as H1.
    { by rewrite Z.land_spec, E, Z.pow2_bits_true by lia. }
    by rewrite H0, Z.bits_0 in H1.
  - apply Z.eqb_eq. apply Z.bits_inj'. intros i Hi. rewrite Z.land_spec, Z.bits_0.
    destruct (decide (i = j)) as [->|]; [by rewrite E|].
    by rewrite Z.pow2_bits_false, andb_false_r by lia.
Qed.

Lemma u32_lor w j : is_u32 w -> 0 <= j < 32 -> is_u32 (Z.lor w (Z.shiftl 1 j)).
Proof.
  unfold is_u32. intros Hw Hj. rewrite Z.shiftl_1_l.
  assert (2 ^ j <= 2 ^ 31) by (apply Z.pow_le_mono_r; lia).
  split; [apply Z.lor_nonneg; lia|].
  apply (Z.log2_lt_cancel _ (2 ^ 32)); rewrite Z.log2_pow2 by lia.
  rewrite Z.log2_lor by lia. apply Z.max_lub_lt.
  - destruct (decide (w = 0)) as [->|]; [done|]. apply Z.log2_lt_pow2; lia.
  - rewrite Z.log2_pow2 by lia. lia.
Qed.

Lemma u32_clear w m : is_u32 w -> is_u32 (Z.land w m).
Proof. unfold is_u32. intros. pose proof (land_nonneg_l w m). lia. Qed.

(** Writing a word of the bitmap that differs from the old one in one bit. *)
Lemma frame_write s f b w used :
  lenZ (bitmap s) = BITMAP_SIZE -> Forall is_u32 (bitmap s) -> 0 <= f < num_frames ->
  is_u32 w ->
  (forall j, 0 <= j < 32 ->
     Z.testbit w j = if decide (j = f mod 32) then b else Z.testbit (frame_word f s) j) ->
  frame_update f b s (set_frame (f / 32) w used s).
Proof.
  unfold num_frames, BITMAP_SIZE. intros Hlen Hw Hf Hw' Hb.
  repeat split; simpl; [apply lenZ_updZ|by apply Forall_updZ|].
  intros g Hg. unfold frame_used, frame_word. simpl.
  destruct (decide (g / 32 = f / 32)) as [E|E].
  - rewrite E, nthZ_updZ_eq, Hb by zlia. unfold frame_word.
    repeat case_decide; try done; zlia.
  - rewrite nthZ_updZ_ne by lia. case_decide; [congruence|done].
Qed.

Lemma frame_set_bit s f used :
  lenZ (bitmap s) = BITMAP_SIZE -> Forall is_u32 (bitmap s) -> 0 <= f < num_frames ->
  frame_update f true s
    (set_frame (f / 32) (Z.lor (frame_word f s) (frame_mask f)) used s).
Proof.
  intros Hlen Hw Hf. apply frame_write; auto.
  - apply u32_lor; [by apply frame_word_range|zlia].
  - intros j Hj. unfold frame_mask. rewrite Z.lor_spec, Z.shiftl_1_l, Z.pow2_bits_eqb by zlia.
    destruct (Z.eqb_spec (f mod 32) j); case_decide; try lia; by rewrite ?orb_true_r, ?orb_false_r.
Qed.

Lemma frame_clear_bit s f used :
  lenZ (bitmap s) = BITMAP_SIZE -> Forall is_u32 (bitmap s) -> 0 <= f < num_frames ->
  frame_update f false s
    (set_frame (f / 32) (Z.land (frame_word f s) (Z.lnot (frame_mask f))) used s).
Proof.
  intros Hlen Hw Hf. apply frame_write; auto.
  - by apply u32_clear, frame_word_range.
  - intros j Hj. unfold frame_mask. rewrite Z.land_spec, Z.lnot_spec, Z.shiftl_1_l, Z.pow2_bits_eqb by zlia.
    destruct (Z.eqb_spec (f mod 32) j); case_decide; try lia; by rewrite ?andb_true_r, ?andb_false_r.
Qed.

Lemma frame_update_refl f s : 
  Forall is_u32 (bitmap s) -> frame_update f (frame_used s f) s s.
Proof. intros H. repeat split; auto. intros g _. by case_decide as E; [rewrite E|]. Qed.

(** The counter follows the bits. *)
Lemma count_set s s' f :
  frame_update f true s s' -> 0 <= f < total_frames s -> total_frames s <= num_frames ->
  frame_used s f = false ->
  countb (frame_used s') (seqZ 0 (total_frames s)) =
  countb (frame_used s) (seqZ 0 (total_frames s)) + 1.
Proof.
  intros (_ & _ & _ & Hu) Hf Ht Hfree.
  set (q := fun g => if decide (g = f) then true else frame_used s g).
  rewrite (countb_ext (frame_used s') q); cycle 1.
  { intros g Hg%elem_of_seqZ. apply Hu. lia. }
  apply (countb_flip _ _ _ f); unfold q.
  - apply NoDup_seqZ.
  - apply elem_of_seqZ. lia.
  - done.
  - by case_decide.
  - intros y ?. by case_decide.
Qed.

Lemma count_clear s s' f :
  frame_update f false s s' -> 0 <= f < total_frames s -> total_frames s <= num_frames ->
  frame_used s f = true ->
  countb (frame_used s') (seqZ 0 (total_frames s)) + 1 =
  countb (frame_used s) (seqZ 0 (total_frames s)).
Proof.
  intros (_ & _ & _ & Hu) Hf Ht Hfree. symmetry.
  set (q := fun g => if decide (g = f) then false else frame_used s g).
  rewrite (countb_ext (frame_used s') q); cycle 1.
  { intros g Hg%elem_of_seqZ. apply Hu. lia. }
  apply (countb_flip _ _ _ f); unfold q.
  - apply NoDup_seqZ.
  - apply elem_of_seqZ. lia.
  - by case_decide.
  - done.
  - intros y ?. by case_decide.
Qed.

Lemma pmm_count_le s : pmm_wf s -> 0 <= used_frames s <= total_frames s.
Proof.
  intros [_ _ Ht _ ->]. pose proof (countb_range (frame_used s) (seqZ 0 (total_frames s))).
  unfold lenZ in *. rewrite length_seqZ in *. lia.
Qed.

Lemma frame_set_used_spec s f :
  pmm_wf s -> 0 <= f < num_frames ->
  pmm_wf (frame_set_used f s) /\ frame_update f true s (frame_set_used f s).
Proof.
  intros Hwf Hf. destruct (Hwf) as [Hlen Hw Ht Ha Hu].
  pose proof (pmm_count_le s Hwf).
  unfold frame_set_used, num_frames, BITMAP_SIZE in *.
  destruct (Z.ltb_spec (f / 32) 32768); [|zlia].
  unfold frame_mask. rewrite land_mask_zero by zlia. fold (frame_used s f).
  destruct (frame_used s f) eqn:E; simpl.
  { split; [done|]. rewrite <- E. by apply frame_update_refl. }
  fold (frame_mask f).
  pose proof (frame_set_bit s f (u32 (used_frames s + 1)) Hlen Hw Hf) as Hup.
  set (s' := set_frame _ _ _ _) in *. split; [|done].
  assert (f < total_frames s).
  { destruct (decide (f < total_frames s)); [done|]. rewrite Ha in E by lia. done. }
  pose proof (count_set s s' f Hup ltac:(lia) ltac:(unfold num_frames, BITMAP_SIZE; lia) E) as Hc.
  destruct Hup as (Et & El & Ef & Hup).
  split; [by rewrite El|done|by rewrite Et| |].
  - intros g Hg. rewrite Et in Hg. unfold num_frames, BITMAP_SIZE in Hg.
    rewrite Hup by (unfold num_frames, BITMAP_SIZE; lia). case_decide; [done|]. apply Ha. lia.
  - rewrite Et, Hc, <- Hu. change (used_frames s') with (u32 (used_frames s + 1)).
    apply u32_id. lia.
Qed.

(** Freeing is only ever asked for frames below [total_frames]. *)
Lemma frame_set_free_spec s f :
  pmm_wf s -> 0 <= f < total_frames s ->
  pmm_wf (frame_set_free f s) /\ frame_update f false s (frame_set_free f s).
Proof.
  intros Hwf Hf. destruct (Hwf) as [Hlen Hw Ht Ha Hu].
  pose proof (pmm_count_le s Hwf).
  assert (0 <= f < num_frames) as Hf' by lia.
  unfold frame_set_free, num_frames, BITMAP_SIZE in *.
  destruct (Z.ltb_spec (f / 32) 32768); [|zlia].
  unfold frame_mask. rewrite land_mask_zero, negb_involutive by zlia. fold (frame_used s f).
  destruct (frame_used s f) eqn:E; simpl; cycle 1.
  { split; [done|]. rewrite <- E. by apply frame_update_refl. }
  fold (frame_mask f).
  set (used' := if 0 <? used_frames s then _ else _).
  pose proof (frame_clear_bit s f used' Hlen Hw Hf') as Hup.
  set (s' := set_frame _ _ _ _) in *. split; [|done].
  pose proof (count_clear s s' f Hup Hf ltac:(unfold num_frames, BITMAP_SIZE; lia) E) as Hc.
  pose proof (countb_range (frame_used s') (seqZ 0 (total_frames s))).
  destruct Hup as (Et & El & Ef & Hup).
  split; [by rewrite El|done|by rewrite Et| |].
  - intros g Hg. rewrite Et in Hg. unfold num_frames, BITMAP_SIZE in Hg.
    rewrite Hup by (unfold num_frames, BITMAP_SIZE; lia).
    case_decide; [lia|]. by apply Ha.
  - rewrite Et. change (used_frames s') with used'. unfold used'. destruct (Z.ltb_spec 0 (used_frames s)); lia.
Qed.

(** * Loops over frames *)

(** Freeing or reserving a range of frames. *)
Lemma free_range_spec s lo hi :
  pmm_wf s -> 0 <= lo -> hi <= total_frames s ->
  let s' := for_range lo hi frame_set_free s in
  pmm_wf s' /\ total_frames s' = total_frames s /\
  forall g, 0 <= g < num_frames ->
    frame_used s' g = if decide (lo <= g < hi) then false else frame_used s g.
Proof.
  intros Hwf Hlo Hhi. destruct (decide (hi <= lo)) as [|Hlt].
  { cbv zeta. rewrite for_range_done by lia. split_and!; auto. intros g _. by case_decide; [lia|]. }
  refine (for_range_inv (fun i s' => pmm_wf s' /\ total_frames s' = total_frames s /\
    forall g, 0 <= g < num_frames ->
      frame_used s' g = if decide (lo <= g < i) then false else frame_used s g) lo hi _ s _ _ _).
  - lia.
  - split_and!; auto. intros g _. by case_decide; [lia|].
  - intros i s' Hi (Hwf' & Et & Hg).
    destruct (frame_set_free_spec s' i Hwf' ltac:(lia)) as [? (Et' & _ & _ & Hu)].
    split_and!; [done|congruence|]. intros g Hr. rewrite Hu, Hg by done.
    repeat case_decide; auto; lia.
Qed.

Lemma reserve_range_spec s lo hi :
  pmm_wf s -> 0 <= lo -> hi <= num_frames ->
  let s' := for_range lo hi frame_set_used s in
  pmm_wf s' /\ total_frames s' = total_frames s /\
  forall g, 0 <= g < num_frames ->
    frame_used s' g = if decide (lo <= g < hi) then true else frame_used s g.
Proof.
  intros Hwf Hlo Hhi. destruct (decide (hi <= lo)) as [|Hlt].
  { cbv zeta. rewrite for_range_done by lia. split_and!; auto. intros g _. by case_decide; [lia|]. }
  refine (for_range_inv (fun i s' => pmm_wf s' /\ total_frames s' = total_frames s /\
    forall g, 0 <= g < num_frames ->
      frame_used s' g = if decide (lo <= g < i) then true else frame_used s g) lo hi _ s _ _ _).
  - lia.
  - split_and!; auto. intros g _. by case_decide; [lia|].
  - intros i s' Hi (Hwf' & Et & Hg).
    destruct (frame_set_used_spec s' i Hwf' ltac:(lia)) as [? (Et' & _ & _ & Hu)].
    split_and!; [done|congruence|]. intros g Hr. rewrite Hu, Hg by done.
    repeat case_decide; auto; lia.
Qed.

Lemma full_bitmap_wf total :
  0 <= total <= num_frames -> pmm_wf (Pmm full_bitmap total total).
Proof.
  intros Ht.
  assert (forall f, 0 <= f < num_frames -> frame_used (Pmm full_bitmap total total) f = true) as Hu.
  { intros f Hf. unfold frame_used, frame_word, nthZ. simpl.
    unfold num_frames, BITMAP_SIZE in Hf.
    destruct (Z.ltb_spec (f / 32) 0); [zlia|].
    unfold full_bitmap. rewrite lookup_replicate_2 by (unfold BITMAP_SIZE; zlia). simpl.
    change 4294967295 with (Z.ones 32). apply Z.ones_spec_low. zlia. }
  split; simpl.
  - unfold lenZ, full_bitmap. rewrite length_replicate. done.
  - apply Forall_replicate. done.
  - done.
  - intros f Hf. apply Hu. lia.
  - rewrite countb_true.
    + unfold lenZ. rewrite length_seqZ. lia.
    + intros f Hf%elem_of_seqZ. apply Hu. lia.
Qed.

Lemma full_bitmap_used total f :
  0 <= total <= num_frames -> 0 <= f < num_frames ->
  frame_used (Pmm full_bitmap total total) f = true.
Proof.
  intros Ht Hf. destruct (full_bitmap_wf 0) as [_ _ _ Ha _]; [done|].
  exact (Ha f Hf).
Qed.

(** Page rounding of addresses. *)
Lemma page_down a : ALIGN_DOWN a PAGE_SIZE / PAGE_SIZE = a / PAGE_SIZE.
Proof.
  change PAGE_SIZE with (2 ^ 12). rewrite ALIGN_DOWN_pow2 by lia. by rewrite Z.div_mul by lia.
Qed.

Lemma page_up a :
  0 <= a <= 4294963200 -> ALIGN_UP a PAGE_SIZE / PAGE_SIZE = (a + 4095) / PAGE_SIZE.
Proof.
  intros Ha. change PAGE_SIZE with (2 ^ 12). rewrite ALIGN_UP_pow2 by lia.
  rewrite Z.div_mul by lia. f_equal. lia.
Qed.

(** Every frame that meets the region is in use afterwards, and no other
    frame changes. *)
Lemma pmm_reserve_region_spec s base size :
  pmm_wf s -> is_u32 base -> is_u32 size ->
  let s' := pmm_reserve_region base size s in
  pmm_wf s' /\ total_frames s' = total_frames s /\
  forall g, 0 <= g < num_frames ->
    frame_used s' g =
      if decide (base / PAGE_SIZE <= g < (Z.min (base + size) 4294963200 + 4095) / PAGE_SIZE)
      then true else frame_used s g.
Proof.
  intros Hwf Hb Hs. unfold_widths. unfold pmm_reserve_region.
  rewrite page_down.
  replace (if 4294963200 <? base + size then 4294963200 else base + size)
    with (Z.min (base + size) 4294963200)
    by (destruct (Z.ltb_spec 4294963200 (base + size)); lia).
  rewrite u32_id, page_up by lia.
  assert ((Z.min (base + size) 4294963200 + 4095) / PAGE_SIZE <= num_frames)
    by (unfold PAGE_SIZE, num_frames, BITMAP_SIZE; zlia).
  rewrite Z.min_l by done.
  apply reserve_range_spec; auto. unfold PAGE_SIZE. zlia.
Qed.

Lemma low_limit_bounds reserved_end :
  0 <= reserved_end <= 4294963200 ->
  20971520 <= low_limit reserved_end /\ reserved_end <= low_limit reserved_end /\
  low_limit reserved_end <= Z.max 20971520 4294963200 /\ low_limit reserved_end mod PAGE_SIZE = 0.
Proof.
  intros Hr. unfold low_limit, HEAP_START, HEAP_MAX_SIZE.
  destruct (ALIGN_UP_bounds reserved_end 12) as [Hb Hd]; [lia..|].
  change (2 ^ 12) with 4096 in *. unfold PAGE_SIZE. apply Z.mod_divide in Hd; [|done].
  destruct (Z.ltb_spec (ALIGN_UP reserved_end 4096) (4194304 + 16777216)).
  - split_and!; try lia; done.
  - split_and!; try lia. zlia.
Qed.

Lemma pmm_init_spec mem_size reserved_end :
  is_u32 mem_size -> 0 <= reserved_end <= 4294963200 ->
  let s := pmm_init mem_size reserved_end in
  pmm_wf s /\ total_frames s = mem_size / PAGE_SIZE /\
  forall g, 0 <= g < num_frames ->
    frame_used s g = negb ((low_limit reserved_end / PAGE_SIZE <=? g) && (g <? mem_size / PAGE_SIZE)).
Proof.
  intros Hm Hr. unfold_widths. unfold pmm_init.
  assert (0 <= mem_size / PAGE_SIZE <= num_frames)
    by (unfold PAGE_SIZE, num_frames, BITMAP_SIZE; zlia).
  destruct (Z.ltb_spec (BITMAP_SIZE * 32) (mem_size / PAGE_SIZE)); [unfold num_frames in *; lia|].
  destruct (low_limit_bounds reserved_end Hr) as (? & ? & ? & ?).
  destruct (free_range_spec (Pmm full_bitmap (mem_size / PAGE_SIZE) (mem_size / PAGE_SIZE))
    (low_limit reserved_end / PAGE_SIZE) (mem_size / PAGE_SIZE)) as (Hwf & Et & Hg).
  { by apply full_bitmap_wf. }
  { unfold PAGE_SIZE. zlia. }
  { done. }
  split_and!; [done|done|]. intros g Hr'. rewrite Hg, full_bitmap_used by done.
  case_decide; destruct (Z.leb_spec (low_limit reserved_end / PAGE_SIZE) g),
    (Z.ltb_spec g (mem_size / PAGE_SIZE)); simpl; auto; lia.
Qed.

(** * The search for a free frame *)

Definition bit_of (ws : list Z) (g : Z) : bool := Z.testbit (nthZ 0 ws (g / 32)) (g mod 32).

Lemma scan_bits_spec w j n :
  0 <= j ->
  match scan_bits w j n with
  | Some k => j <= k < j + Z.of_nat n /\ Z.testbit w k = false /\
              forall i, j <= i < k -> Z.testbit w i = true
  | None => forall i, j <= i < j + Z.of_nat n -> Z.testbit w i = true
  end.
Proof.
  revert j. induction n as [|n IH]; intros j Hj; cbn [scan_bits]; [lia|].
  rewrite land_mask_zero by done. destruct (Z.testbit w j) eqn:E; simpl.
  - specialize (IH (j + 1) ltac:(lia)). destruct (scan_bits w (j + 1) n) as [k|].
    + destruct IH as (? & ? & IH). split_and!; auto; try lia.
      intros i Hi. destruct (decide (i = j)) as [->|]; [done|]. apply IH. lia.
    + intros i Hi. destruct (decide (i = j)) as [->|]; [done|]. apply IH. lia.
  - split_and!; auto; lia.
Qed.

(** A word that is not all ones has a clear bit. *)
Lemma scan_bits_full w : is_u32 w -> scan_bits w 0 32 = None -> w = 4294967295.
Proof.
  intros Hw E. pose proof (scan_bits_spec w 0 32 ltac:(lia)) as H. rewrite E in H.
  change 4294967295 with (Z.ones 32). apply Z.bits_inj'. intros i Hi.
  destruct (decide (i < 32)).
  - rewrite H, Z.ones_spec_low by lia. done.
  - rewrite Z.ones_spec_high by lia. unfold is_u32 in Hw.
    rewrite <- (Z.mod_small w (2 ^ 32)) by lia. apply Z.mod_pow2_bits_high. lia.
Qed.

Lemma bit_of_head w ws g : 0 <= g < 32 -> bit_of (w :: ws) g = Z.testbit w g.
Proof. intros H. unfold bit_of. by rewrite Z.div_small, Z.mod_small by lia. Qed.

Lemma bit_of_tail w ws g : 32 <= g -> bit_of (w :: ws) g = bit_of ws (g - 32).
Proof.
  intros H. unfold bit_of. replace ((g - 32) mod 32) with (g mod 32) by zlia.
  replace (g / 32) with ((g - 32) / 32 + 1) by zlia. f_equal.
  unfold nthZ. assert (0 <= (g - 32) / 32) by zlia.
  destruct (Z.ltb_spec ((g - 32) / 32 + 1) 0); [lia|].
  destruct (Z.ltb_spec ((g - 32) / 32) 0); [lia|].
  by replace (Z.to_nat ((g - 32) / 32 + 1)) with (S (Z.to_nat ((g - 32) / 32))) by lia.
Qed.

Lemma scan_words_spec i ws :
  Forall is_u32 ws ->
  match scan_words i ws with
  | Some f => exists g, f = i * 32 + g /\ 0 <= g < lenZ ws * 32 /\ bit_of ws g = false /\
                forall k, 0 <= k < g -> bit_of ws k = true
  | None => forall k, 0 <= k < lenZ ws * 32 -> bit_of ws k = true
  end.
Proof.
  intros Hw. revert i. induction Hw as [|w ws Hu Hw IH]; intros i; cbn [scan_words].
  { intros k Hk. unfold lenZ in Hk. simpl in Hk. lia. }
  assert (lenZ (w :: ws) = lenZ ws + 1) as El by (unfold lenZ; simpl; lia).
  assert (w = 4294967295 -> match scan_words (i + 1) ws with
    | Some f => exists g, f = i * 32 + g /\ 0 <= g < lenZ (w :: ws) * 32 /\
        bit_of (w :: ws) g = false /\ forall k, 0 <= k < g -> bit_of (w :: ws) k = true
    | None => forall k, 0 <= k < lenZ (w :: ws) * 32 -> bit_of (w :: ws) k = true
    end) as Hnext.
  { intros ->. rewrite El. specialize (IH (i + 1)).
    assert (forall k, 0 <= k < 32 -> bit_of (4294967295 :: ws) k = true) as H32.
    { intros k Hk. rewrite bit_of_head by lia. change 4294967295 with (Z.ones 32).
      by apply Z.ones_spec_low. }
    destruct (scan_words (i + 1) ws) as [f|].
    - destruct IH as (g & -> & Hg & Hf & Hk). exists (g + 32). split_and!; try lia.
      + rewrite bit_of_tail by lia. by replace (g + 32 - 32) with g by lia.
      + intros k Hk'. destruct (decide (k < 32)); [apply H32; lia|].
        rewrite bit_of_tail by lia. apply Hk. lia.
    - intros k Hk. destruct (decide (k < 32)); [apply H32; lia|].
      rewrite bit_of_tail by lia. apply IH. lia. }
  destruct (Z.eqb_spec w 4294967295); [by apply Hnext|].
  destruct (scan_bits w 0 32) as [j|] eqn:E.
  - pose proof (scan_bits_spec w 0 32 ltac:(lia)) as Hs. rewrite E in Hs.
    destruct Hs as (? & ? & Hlow). exists j. split_and!; try lia.
    + rewrite El. pose proof (lenZ_nonneg ws). lia.
    + by rewrite bit_of_head by lia.
    + intros k Hk. rewrite bit_of_head by lia. apply Hlow. lia.
  - apply scan_bits_full in E; done.
Qed.

Lemma alloc_frame_cases s :
  pmm_wf s ->
  match pmm_alloc_frame s with
  | (addr, s') =>
    (exists f, 0 <= f < total_frames s /\ frame_used s f = false /\
       (forall g, 0 <= g < f -> frame_used s g = true) /\
       addr = f * PAGE_SIZE /\ pmm_wf s' /\ frame_update f true s s' /\
       used_frames s' = used_frames s + 1)
    \/ (addr = 0 /\ s' = s /\ forall g, 0 <= g < total_frames s -> frame_used s g = true)
  end.
Proof.
  intros Hwf. destruct (Hwf) as [Hlen Hw Ht Ha Hu]. unfold pmm_alloc_frame.
  pose proof (scan_words_spec 0 (bitmap s) Hw) as Hs. rewrite Hlen in Hs.
  destruct (scan_words 0 (bitmap s)) as [f|].
  - destruct Hs as (g & -> & Hg & Hfree & Hlow). change (0 * 32 + g) with g.
    fold num_frames in Hg. change (bit_of (bitmap s) g) with (frame_used s g) in Hfree.
    destruct (Z.leb_spec (total_frames s) g).
    { rewrite Ha in Hfree by lia. done. }
    left. exists g.
    pose proof (pmm_count_le s Hwf).
    assert (g < 1048576) by (unfold num_frames, BITMAP_SIZE in *; lia).
    destruct (frame_set_used_spec s g Hwf Hg) as [Hwf' Hup].
    assert (frame_set_used g s = set_frame (g / 32) (Z.lor (frame_word g s) (frame_mask g))
              (u32 (used_frames s + 1)) s) as E.
    { unfold frame_set_used, num_frames, BITMAP_SIZE in *.
      destruct (Z.ltb_spec (g / 32) 32768); [|zlia].
      unfold frame_mask at 1. rewrite land_mask_zero by zlia. fold (frame_used s g). by rewrite Hfree. }
    rewrite E in Hwf', Hup. split_and!; auto; try lia.
    + apply u32_id. unfold PAGE_SIZE. lia.
    + simpl. apply u32_id. unfold num_frames, BITMAP_SIZE in Ht. lia.
  - right. split_and!; auto. intros g Hg. apply Hs. unfold num_frames in Ht. lia.
Qed.

(** C1: [pmm_alloc_frame] returns the lowest free frame below
    [total_frames]; it marks that frame and no other, counts it, and keeps the
    invariant; it returns 0 and changes nothing exactly when every frame is in
    use. *)
Theorem pmm_alloc_frame_spec s :
  pmm_wf s ->
  match pmm_alloc_frame s with
  | (addr, s') =>
    (exists f, 0 <= f < total_frames s /\ frame_used s f = false /\
       (forall g, 0 <= g < f -> frame_used s g = true) /\
       addr = f * PAGE_SIZE /\ pmm_wf s' /\ frame_update f true s s' /\
       used_frames s' = used_frames s + 1)
    \/ (addr = 0 /\ s' = s /\ forall g, 0 <= g < total_frames s -> frame_used s g = true)
  end.
Proof. apply alloc_frame_cases. Qed.

(** A machine with 32 MiB: 3072 frames are free after initialisation. *)
Definition pmm_example : pmm_state := pmm_init 33554432 1310720.

Lemma pmm_example_wf : pmm_wf pmm_example.
Proof. apply pmm_init_spec; unfold is_u32; lia. Qed.

Lemma pmm_alloc_frame_spec_witness :
  pmm_wf pmm_example /\ exists f, fst (pmm_alloc_frame pmm_example) = f * PAGE_SIZE /\
    frame_used pmm_example f = false.
Proof.
  split; [exact pmm_example_wf|].
  pose proof (pmm_alloc_frame_spec pmm_example pmm_example_wf) as H.
  destruct (pmm_alloc_frame pmm_example) as [a s'] eqn:E.
  destruct H as [(f & _ & Hf & _ & Ha & _)|(_ & _ & H)];
    [exact (ex_intro _ f (conj Ha Hf))|].
  specialize (H 5120). exfalso.
  assert (frame_used pmm_example 5120 = false) as E' by (vm_compute; reflexivity).
  rewrite H in E'; [discriminate E'|]. split; [lia|vm_compute; reflexivity].
Defined.

(** Giving a frame back frees that frame and no other, lowers the
    counter only if the frame was in use, keeps the invariant, and a second
    release of the same frame changes nothing. *)
Theorem pmm_free_frame_spec s f :
  pmm_wf s -> 0 <= f < total_frames s -> 
  let s' := pmm_free_frame (f * PAGE_SIZE) s in
  pmm_wf s' /\ frame_update f false s s' /\
  used_frames s' = used_frames s - (if frame_used s f then 1 else 0) /\
  pmm_free_frame (f * PAGE_SIZE) s' = s'.
Proof.
  intros Hwf Hf. destruct (frame_set_free_spec s f Hwf Hf) as [Hwf' Hup].
  unfold pmm_free_frame. rewrite Z.div_mul by done.
  destruct (Z.ltb_spec f (total_frames s)); [|lia]. cbv zeta.
  assert (total_frames (frame_set_free f s) = total_frames s) as Et by apply Hup.
  assert (frame_used (frame_set_free f s) f = false) as Ef.
  { destruct Hup as (_ & _ & _ & Hup). rewrite Hup; [by case_decide|].
    pose proof (wf_total s Hwf). lia. }
  split_and!; auto.
  - rewrite (wf_used _ Hwf'), (wf_used _ Hwf), Et.
    destruct (frame_used s f) eqn:E.
    + pose proof (count_clear s _ f Hup Hf (proj2 (wf_total s Hwf)) E). lia.
    + rewrite Z.sub_0_r. apply countb_ext. intros g Hg%elem_of_seqZ.
      destruct Hup as (_ & _ & _ & Hup). pose proof (wf_total s Hwf).
      rewrite Hup by lia. case_decide; congruence.
  - rewrite Et. destruct (Z.ltb_spec f (total_frames s)); [|lia].
    unfold frame_set_free at 1. pose proof (wf_total s Hwf).
    unfold num_frames, BITMAP_SIZE in *.
    destruct (Z.ltb_spec (f / 32) 32768); [|zlia].
    unfold frame_mask at 1. rewrite land_mask_zero, negb_involutive by zlia.
    fold (frame_used (frame_set_free f s) f). by rewrite Ef.
Qed.

Lemma pmm_free_frame_spec_witness :
  (pmm_wf pmm_example /\ 0 <= 100 < total_frames pmm_example) /\
  frame_update 100 false pmm_example (pmm_free_frame (100 * PAGE_SIZE) pmm_example).
Proof.
  assert (0 <= 100 < total_frames pmm_example) as H by (vm_compute; split; [discriminate|reflexivity]).
  split; [exact (conj pmm_example_wf H)|].
  apply (pmm_free_frame_spec pmm_example 100 pmm_example_wf H).
Defined.

(** * Initialisation from the memory map *)

(** A well-formed map in memory: entries follow each other up to [limit]. *)
Inductive mmap_table (m : mem) (limit : Z) : Z -> list multiboot_mmap_entry_t -> Prop :=
| mmap_end ptr : limit <= ptr -> mmap_table m limit ptr []
| mmap_cons ptr es :
    0 < ptr < limit ->
    ptr + e_size (mmap_entry m ptr) + 4 < 4294967296 ->
    mmap_table m limit (ptr + e_size (mmap_entry m ptr) + 4) es ->
    mmap_table m limit ptr (mmap_entry m ptr :: es).

Section mmap.
Context (m : mem) (mbi : multiboot_info_t) (es : list multiboot_mmap_entry_t).
Context (Hflag : Z.testbit (flags mbi) 6 = true)
        (Hlen : 0 < mmap_length mbi) (Haddr : 0 < mmap_addr mbi)
        (Hlim : mmap_addr mbi + mmap_length mbi < 4294967296)
        (Htab : mmap_table m (mmap_addr mbi + mmap_length mbi) (mmap_addr mbi) es).

(** The walk visits exactly the entries of the table, in order. *)
Lemma mmap_walk {S} (body : multiboot_mmap_entry_t -> S -> S) fuel ptr es' s :
  mmap_table m (mmap_addr mbi + mmap_length mbi) ptr es' -> 0 < ptr ->
  mmap_addr mbi + mmap_length mbi - ptr <= Z.of_nat fuel ->
  exists ptr', while_fuel fuel
      (fun st => negb (fst st =? 0) && multiboot_mmap_has_more mbi (fst st))
      (fun st => (multiboot_mmap_next m (fst st), body (mmap_entry m (fst st)) (snd st)))
      (ptr, s) = Some (ptr', foldl (fun s e => body e s) s es').
Proof using Hlen Haddr Hlim.
  intros Ht. revert fuel s. unfold multiboot_mmap_has_more, multiboot_mmap_next. u32_simp.
  induction Ht as [ptr Hp|ptr es' Hp Hn Ht IH]; intros fuel s Hpos Hfuel.
  - exists ptr. destruct (Z.eqb_spec ptr 0); [lia|].
    destruct fuel; simpl; destruct (Z.eqb_spec ptr 0), (Z.ltb_spec ptr (mmap_addr mbi + mmap_length mbi));
      simpl; auto; lia.
  - assert (0 <= e_size (mmap_entry m ptr)) by (simpl; apply ld32_range).
    destruct fuel as [|fuel]; [simpl in Hfuel; lia|]. cbn [while_fuel foldl fst snd].
    destruct (Z.eqb_spec ptr 0); [lia|].
    destruct (Z.ltb_spec ptr (mmap_addr mbi + mmap_length mbi)); [|lia]. simpl andb.
    rewrite (u32_id (ptr + _ + 4)) by lia. apply IH; lia.
Qed.

Lemma mmap_foreach_foldl {S} (body : multiboot_mmap_entry_t -> S -> S) s :
  mmap_foreach m mbi body s = Some (foldl (fun s e => body e s) s es).
Proof using Hflag Hlen Haddr Hlim Htab.
  unfold mmap_foreach, multiboot_mmap_first. rewrite Hflag. simpl.
  destruct (Z.eqb_spec (mmap_length mbi) 0); [lia|].
  destruct (mmap_walk body (Z.to_nat (mmap_length mbi)) (mmap_addr mbi) es s) as [p ->];
    auto; lia.
Qed.
End mmap.

Lemma e820_end_bounds e :
  0 <= e820_end e <= 4294963200 /\ e820_end e mod PAGE_SIZE = 0.
Proof.
  unfold e820_end. change (PAGE_SIZE - 1) with (2 ^ 12 - 1). rewrite land_lnot_ones by lia.
  unfold PAGE_SIZE, u64. change (2 ^ 12) with 4096.
  destruct (Z.ltb_spec 4294963200 ((e_addr e + e_len e) mod 18446744073709551616));
    split; zlia.
Qed.

Lemma e820_start_nonneg e : 0 <= e820_start e.
Proof.
  unfold e820_start. change (PAGE_SIZE - 1) with (2 ^ 12 - 1). rewrite land_lnot_ones by lia.
  unfold u64. zlia.
Qed.

(** The frames an entry offers. *)
Definition e820_covers (g : Z) (e : multiboot_mmap_entry_t) : bool :=
  e820_usable e && (e820_start e / PAGE_SIZE <=? g) && (g <? e820_end e / PAGE_SIZE).

(** The first pass bounds every non-empty available region. *)
Lemma e820_highest_bound es h :
  0 <= h <= 4294963200 -> h mod PAGE_SIZE = 0 ->
  let h' := foldl (fun s e => e820_highest e s) h es in
  h <= h' <= 4294963200 /\ h' mod PAGE_SIZE = 0 /\
  forall e, e ∈ es -> e820_usable e = true -> e820_start e < e820_end e -> e820_end e <= h'.
Proof.
  revert h. induction es as [|e es IH]; intros h Hh Hm; cbn [foldl].
  { split_and!; auto; try lia. intros e He. by apply not_elem_of_nil in He. }
  pose proof (e820_end_bounds e) as [? ?].
  assert (h <= e820_highest e h <= 4294963200 /\ e820_highest e h mod PAGE_SIZE = 0 /\
    (e820_usable e = true -> e820_start e < e820_end e -> e820_end e <= e820_highest e h))
    as (? & ? & Hb).
  { unfold e820_highest. destruct (e820_usable e); [|split_and!; auto; lia].
    destruct (Z.ltb_spec (e820_start e) (e820_end e)), (Z.ltb_spec h (e820_end e)); simpl;
      split_and!; auto; lia. }
  destruct (IH (e820_highest e h)) as (? & ? & Hes); [lia|done|].
  split_and!; auto; try lia. intros e' [->|He']%elem_of_cons ? ?; [|by apply Hes].
  specialize (Hb ltac:(done) ltac:(done)). lia.
Qed.

(** The second pass frees exactly the covered frames. *)
Lemma e820_free_all es s :
  pmm_wf s ->
  (forall e, e ∈ es -> e820_usable e = true -> e820_start e < e820_end e ->
     e820_end e / PAGE_SIZE <= total_frames s) ->
  let s' := foldl (fun s e => e820_free e s) s es in
  pmm_wf s' /\ total_frames s' = total_frames s /\
  forall g, 0 <= g < num_frames ->
    frame_used s' g = frame_used s g && negb (existsb (e820_covers g) es).
Proof.
  revert s. induction es as [|e es IH]; intros s Hwf Hb; cbn [foldl existsb].
  { split_and!; auto. intros g _. by rewrite andb_true_r. }
  assert (pmm_wf (e820_free e s) /\ total_frames (e820_free e s) = total_frames s /\
    forall g, 0 <= g < num_frames ->
      frame_used (e820_free e s) g = frame_used s g && negb (e820_covers g e)) as (Hwf' & Et & Hg).
  { unfold e820_free, e820_covers.
    destruct (e820_usable e) eqn:Eu; cbn [andb]; cycle 1.
    { split_and!; auto. intros. simpl. by rewrite andb_true_r. }
    pose proof (e820_start_nonneg e). pose proof (e820_end_bounds e) as [? ?].
    destruct (decide (e820_end e <= e820_start e)).
    - rewrite for_range_done by (unfold PAGE_SIZE; zlia). split_and!; auto. intros g _.
      replace ((e820_start e / PAGE_SIZE <=? g) && (g <? e820_end e / PAGE_SIZE))%bool with false;
        [by rewrite andb_true_r|].
      symmetry. apply andb_false_iff. rewrite Z.leb_gt, Z.ltb_ge. unfold PAGE_SIZE. zlia.
    - destruct (free_range_spec s (e820_start e / PAGE_SIZE) (e820_end e / PAGE_SIZE))
        as (? & ? & Hg); auto.
      + unfold PAGE_SIZE. zlia.
      + apply Hb; [set_solver|done|lia].
      + split_and!; auto. intros g Hr. rewrite Hg by done.
        destruct (Z.leb_spec (e820_start e / PAGE_SIZE) g), (Z.ltb_spec g (e820_end e / PAGE_SIZE));
          case_decide; try lia; by rewrite ?andb_true_r, ?andb_false_r. }
  destruct (IH (e820_free e s) Hwf') as (? & ? & Hes).
  { intros e' ? ? ?. rewrite Et. apply Hb; auto. set_solver. }
  split_and!; [done|congruence|]. intros g Hr. rewrite Hes, Hg by done.
  by rewrite negb_orb, andb_assoc.
Qed.

Definition mbi_example : multiboot_info_t := MultibootInfo 64 639 31744 24 4096.
Definition mem_example : mem :=
  st32 (st32 (st32 (st32 (st32 (st32 ∅ 4096 20) 4100 1048576) 4104 0) 4108 32505856) 4112 0) 4116 1.

(** The frames after [pmm_init_mmap] on the map [es]. *)
Lemma init_mmap_frames m mbi es fallback reserved_end :
  Z.testbit (flags mbi) 6 = true -> 0 < mmap_length mbi -> 0 < mmap_addr mbi ->
  mmap_addr mbi + mmap_length mbi < 4294967296 ->
  mmap_table m (mmap_addr mbi + mmap_length mbi) (mmap_addr mbi) es ->
  is_u32 fallback -> 0 <= reserved_end <= 4294963200 ->
  exists s, pmm_init_mmap m (Some mbi) fallback reserved_end = Some s /\ pmm_wf s /\
    if foldl (fun h e => e820_highest e h) 0 es =? 0
    then s = pmm_init fallback reserved_end
    else forall g, 0 <= g < num_frames ->
      frame_used s g = (g <? low_limit reserved_end / PAGE_SIZE) || negb (existsb (e820_covers g) es).
Proof.
  intros Hf Hl Ha Hlim Htab Hfb Hr. unfold pmm_init_mmap. rewrite Hf.
  destruct (Z.eqb_spec (mmap_length mbi) 0); [lia|]. cbn [negb orb].
  rewrite (mmap_foreach_foldl m mbi es) by done. cbn [mbind option_bind].
  destruct (e820_highest_bound es 0) as (Hh & Hm & Hes); [lia|done|].
  set (h := foldl (fun s e => e820_highest e s) 0 es) in *.
  destruct (Z.eqb_spec h 0).
  { eexists. split_and!; [done| |done]. by apply pmm_init_spec. }
  rewrite (mmap_foreach_foldl m mbi es) by done. cbn [mbind option_bind].
  assert (0 <= h / PAGE_SIZE <= num_frames) by (unfold PAGE_SIZE, num_frames, BITMAP_SIZE; zlia).
  rewrite (u32_id (h / PAGE_SIZE)) by (unfold num_frames, BITMAP_SIZE in *; lia).
  destruct (e820_free_all es (Pmm full_bitmap (h / PAGE_SIZE) (h / PAGE_SIZE)))
    as (Hwf & Et & Hg).
  { by apply full_bitmap_wf. }
  { intros e ? ? ?. simpl. apply Z.div_le_mono; [done|]. by apply Hes. }
  destruct (low_limit_bounds reserved_end Hr) as (? & ? & ? & Hal).
  destruct (pmm_reserve_region_spec _ 0 (low_limit reserved_end) Hwf) as (Hwf' & _ & Hg').
  { done. } { unfold is_u32. lia. }
  eexists. split; [done|]. split; [done|]. intros g Hrg. rewrite Hg', Hg, full_bitmap_used by done.
  rewrite Z.add_0_l, Z.min_l by lia. change (0 / PAGE_SIZE) with 0.
  replace ((low_limit reserved_end + 4095) / PAGE_SIZE) with (low_limit reserved_end / PAGE_SIZE)
    by (unfold PAGE_SIZE in *; zlia).
  case_decide; destruct (Z.ltb_spec g (low_limit reserved_end / PAGE_SIZE)); try lia; done.
Qed.

(** Whatever the map says, the frames below the limit are in use. *)
Lemma init_mmap_low m mbi es fallback reserved_end :
  (Z.testbit (flags mbi) 6 = true -> mmap_length mbi <> 0 ->
    0 < mmap_length mbi /\ 0 < mmap_addr mbi /\ mmap_addr mbi + mmap_length mbi < 4294967296 /\
    mmap_table m (mmap_addr mbi + mmap_length mbi) (mmap_addr mbi) es) ->
  is_u32 fallback -> 0 <= reserved_end <= 4294963200 ->
  exists s, pmm_init_mmap m (Some mbi) fallback reserved_end = Some s /\ pmm_wf s /\
    forall g, 0 <= g < low_limit reserved_end / PAGE_SIZE -> frame_used s g = true.
Proof.
  intros Hm Hf Hr. destruct (low_limit_bounds reserved_end Hr) as (_ & _ & Hhi & _).
  assert (low_limit reserved_end / PAGE_SIZE <= num_frames) as Hn by (unfold PAGE_SIZE, num_frames, BITMAP_SIZE; zlia).
  destruct (pmm_init_spec fallback reserved_end Hf Hr) as (Hw & _ & Hu).
  assert (forall g, 0 <= g < low_limit reserved_end / PAGE_SIZE -> frame_used (pmm_init fallback reserved_end) g = true) as Hlow.
  { intros g Hg. rewrite Hu by lia. destruct (Z.leb_spec (low_limit reserved_end / PAGE_SIZE) g); [lia|done]. }
  destruct (Z.testbit (flags mbi) 6) eqn:E6; [destruct (decide (mmap_length mbi = 0)) as [E0|E0]|].
  - exists (pmm_init fallback reserved_end). unfold pmm_init_mmap. rewrite E6, E0. done.
  - destruct (Hm eq_refl E0) as (Hl & Ha & Hlim & Htab).
    destruct (init_mmap_frames m mbi es fallback reserved_end E6 Hl Ha Hlim Htab Hf Hr) as (s & E & Hws & Hs).
    exists s. split; [exact E|]. split; [exact Hws|]. destruct (_ =? 0); [by subst s|]. intros g Hg.
    rewrite Hs by lia. by destruct (Z.ltb_spec g (low_limit reserved_end / PAGE_SIZE)); [|lia].
  - exists (pmm_init fallback reserved_end). unfold pmm_init_mmap. rewrite E6. done.
Qed.

(** ** The map in numbers *)

(** The memory of an entry: available (type 1), the whole frame [g] inside of
    it, and below the last page of the address space. *)
Definition offers (g : Z) (e : multiboot_mmap_entry_t) : Prop :=
  e_type e = 1 /\ e_addr e <= 4096 * g /\ 4096 * (g + 1) <= e_addr e + e_len e /\ 4096 * (g + 1) <= 4294963200.

(** A region that does not run past the end of the 64-bit address space. *)
Definition region_ok (e : multiboot_mmap_entry_t) : Prop :=
  0 <= e_addr e /\ 0 <= e_len e /\ e_addr e + e_len e < 18446744073709551616.

Lemma e820_covers_offers g e : region_ok e -> 0 <= g -> e820_covers g e = true <-> offers g e.
Proof.
  intros (Ha & Hl & Hs) Hg. unfold e820_covers, offers, e820_usable, MULTIBOOT_MMAP_AVAILABLE.
  destruct (Z.eqb_spec (e_type e) 1) as [->|]; cbn [andb]; [|intuition congruence].
  destruct (Z.ltb_spec (e_addr e) 4294963200); cbn [andb]; [|split; [done|lia]].
  unfold e820_start, e820_end. change (PAGE_SIZE - 1) with (2 ^ 12 - 1). rewrite !land_lnot_ones by lia. unfold PAGE_SIZE, u64.
  change (2 ^ 12) with 4096. rewrite !(Z.mod_small _ 18446744073709551616) by lia. rewrite andb_true_iff, Z.leb_le, Z.ltb_lt.
  destruct (Z.ltb_spec 4294963200 (e_addr e + e_len e)); split; intros; split_and!; zlia.
Qed.
Lemma existsb_offers g es : Forall region_ok es -> 0 <= g ->
  existsb (e820_covers g) es = true <-> exists e, e ∈ es /\ offers g e.
Proof.
  intros Hes Hg. rewrite List.existsb_exists. rewrite Forall_forall in Hes.
  split; intros (e & He & Hc); exists e.
  - apply list_elem_of_In in He. split; [done|]. by apply e820_covers_offers; [apply Hes| |].
  - split; [by apply list_elem_of_In|]. by apply e820_covers_offers; [apply Hes| |].
Qed.

Lemma e820_start_page e : e820_start e mod PAGE_SIZE = 0.
Proof.
  unfold e820_start. change (PAGE_SIZE - 1) with (2 ^ 12 - 1). rewrite land_lnot_ones by lia. by apply Z.mod_mul.
Qed.

(** The first pass finds nothing exactly when no frame is offered. *)
Lemma highest_none es : Forall region_ok es ->
  foldl (fun h e => e820_highest e h) 0 es = 0 <-> forall g e, 0 <= g -> e ∈ es -> ~ offers g e.
Proof.
  intros Hes. split.
  - intros Hz g e Hg He Ho. destruct (e820_highest_bound es 0) as (_ & _ & Hb); [lia|done|]. rewrite Hz in Hb.
    pose proof (e820_start_nonneg e) as Hs. apply e820_covers_offers in Ho; [|by eapply Forall_forall|done].
    unfold e820_covers in Ho. rewrite !andb_true_iff, Z.leb_le, Z.ltb_lt in Ho. destruct Ho as ((Hu & H1) & H2).
    specialize (Hb e He Hu). unfold PAGE_SIZE in *. zlia.
  - intros Hno. induction es as [|e es IH]; [done|]. apply Forall_cons in Hes as [He Hes]. cbn [foldl].
    assert (e820_highest e 0 = 0) as ->; [|apply IH; [done|]; intros g e' Hg He'; by apply Hno; [|right]].
    unfold e820_highest. destruct (e820_usable e) eqn:Eu; [|done].
    destruct (Z.ltb_spec (e820_start e) (e820_end e)) as [Hlt|]; [|done]. exfalso.
    pose proof (e820_start_nonneg e) as Hs. apply (Hno (e820_start e / PAGE_SIZE) e); [unfold PAGE_SIZE; zlia|left|].
    apply e820_covers_offers; [done|unfold PAGE_SIZE; zlia|]. unfold e820_covers. rewrite Eu.
    pose proof (e820_start_page e). pose proof (e820_end_bounds e) as [_ ?]. rewrite !andb_true_iff, Z.leb_le, Z.ltb_lt.
    unfold PAGE_SIZE in *. split_and!; [done|lia|zlia].
Qed.

(** The limit of the reserved memory, in bytes. *)
Lemma low_limit_frame reserved_end g : 0 <= reserved_end <= 4294963200 ->
  low_limit reserved_end / PAGE_SIZE <= g <-> reserved_end <= 4096 * g /\ 20 * 1024 * 1024 <= 4096 * g.
Proof.
  intros Hr. unfold low_limit, HEAP_START, HEAP_MAX_SIZE, PAGE_SIZE. destruct (ALIGN_UP_bounds reserved_end 12) as [Hb [k Hk]]; [lia..|].
  change (2 ^ 12) with 4096 in *. destruct (Z.ltb_spec (ALIGN_UP reserved_end 4096) (4194304 + 16777216)); zlia.
Qed.


(** A map with 31 MiB of memory from 1 MiB on and a reserved region at 64 MiB. *)
Definition mem_two_regions : mem :=
  st32 (st32 (st32 (st32 (st32 (st32 mem_example 4120 20) 4124 67108864) 4128 0) 4132 1048576) 4136 0) 4140 2.
