(* ===== verification/Heap.v ===== *)
(** Heap: the first-fit kernel heap of [kernel/heap.c] on byte memory.

    Block headers live in memory in front of the bytes they describe, exactly
    as in the C code ([heap_block_t] on i386: magic at 0, size at 4, is_free
    at 8, next at 12, prev at 16; 24 bytes with padding), so a stale header or
    user data that looks like a header is visible to [kfree] as it is on the
    machine.  [None] means that a list walk exceeded its bound, which the
    theorems exclude for a heap that satisfies the invariant. *)

From S2P Require Import Prelude Memory Common Pmm.

Definition HEAP_INITIAL_SIZE : Z := 2097152.
Definition HEAP_BLOCK_MAGIC : Z := 3735928559.
Definition HEAP_ALIGNED_MAGIC : Z := 2702618320.
Definition MIN_BLOCK_SIZE : Z := 16.
Definition HEADER_SIZE : Z := Z.land (20 + 7) (Z.lnot 7).

(** ** Fields of [heap_block_t] *)

Definition o_magic : Z := 0.
Definition o_size : Z := 4.
Definition o_is_free : Z := 8.
Definition o_next : Z := 12.
Definition o_prev : Z := 16.

Record heap_stats_t := Stats {
  total_size : Z;
  used_size : Z;
  free_size : Z;
  num_allocations : Z;
  num_blocks : Z
}.

(** The static variables of [heap.c], the memory, and the frame allocator
    that [heap_expand] reserves its pages from. *)
Record heap := Heap {
  h_mem : mem;
  heap_head : Z;
  heap_base_addr : Z;
  heap_cur_size : Z;
  heap_max_limit : Z;
  heap_stats : heap_stats_t;
  h_pmm : pmm_state
}.

Definition with_mem (m : mem) (h : heap) : heap :=
  Heap m (heap_head h) (heap_base_addr h) (heap_cur_size h) (heap_max_limit h) (heap_stats h) (h_pmm h).
Definition with_stats (st : heap_stats_t) (h : heap) : heap :=
  Heap (h_mem h) (heap_head h) (heap_base_addr h) (heap_cur_size h) (heap_max_limit h) st (h_pmm h).

Definition blk_magic (h : heap) (b : Z) : Z := ld32 (h_mem h) (b + o_magic).
Definition blk_size (h : heap) (b : Z) : Z := ld32 (h_mem h) (b + o_size).
Definition blk_is_free (h : heap) (b : Z) : bool := negb (ld8 (h_mem h) (b + o_is_free) =? 0).
Definition blk_next (h : heap) (b : Z) : Z := ld32 (h_mem h) (b + o_next).
Definition blk_prev (h : heap) (b : Z) : Z := ld32 (h_mem h) (b + o_prev).

Definition set_magic (b v : Z) (h : heap) : heap := with_mem (st32 (h_mem h) (b + o_magic) v) h.
Definition set_size (b v : Z) (h : heap) : heap := with_mem (st32 (h_mem h) (b + o_size) v) h.
Definition set_is_free (b v : Z) (h : heap) : heap := with_mem (st8 (h_mem h) (b + o_is_free) v) h.
Definition set_next (b v : Z) (h : heap) : heap := with_mem (st32 (h_mem h) (b + o_next) v) h.
Definition set_prev (b v : Z) (h : heap) : heap := with_mem (st32 (h_mem h) (b + o_prev) v) h.

(** Sequencing of updates, in the order of the C statements. *)
Notation "h |> f" := (f h) (at level 50, left associativity, only parsing) : kernel_scope.
Local Open Scope kernel_scope.

(** ** Operations *)

Definition heap_init_at (base initial_size max_size : Z) (m : mem) (p : pmm_state) : heap :=
  let size := u32 (initial_size - HEADER_SIZE) in
  Heap m base base initial_size max_size (Stats initial_size 0 size 0 1) p
  |> set_magic base HEAP_BLOCK_MAGIC
  |> set_size base size
  |> set_is_free base 1
  |> set_next base 0
  |> set_prev base 0.

Definition heap_init (m : mem) (p : pmm_state) : heap :=
  heap_init_at HEAP_START HEAP_INITIAL_SIZE HEAP_MAX_SIZE m p.

(** Every block takes at least a header. *)
Definition heap_fuel (h : heap) : nat := Z.to_nat (heap_cur_size h / HEADER_SIZE + 1).

Definition find_free_block (size : Z) (h : heap) : option Z :=
  while_fuel (heap_fuel h)
    (fun current => negb (current =? 0)
                    && negb (blk_is_free h current && (size <=? blk_size h current)))
    (fun current => blk_next h current) (heap_head h).

Definition split_block (block size : Z) (h : heap) : heap :=
  if blk_size h block <? u32 (u32 (size + HEADER_SIZE) + MIN_BLOCK_SIZE) then h
  else
    let remaining := u32 (u32 (blk_size h block - size) - HEADER_SIZE) in
    let new_block := u32 (u32 (block + HEADER_SIZE) + size) in
    let h := h
      |> set_magic new_block HEAP_BLOCK_MAGIC
      |> set_size new_block remaining
      |> set_is_free new_block 1
      |> set_prev new_block block in
    let h := set_next new_block (blk_next h block) h in
    let h := if blk_next h block =? 0 then h else set_prev (blk_next h block) new_block h in
    let h := h |> set_next block new_block |> set_size block size in
    let st := heap_stats h in
    with_stats (Stats (total_size st) (used_size st) (u32 (free_size st - HEADER_SIZE))
                  (num_allocations st) (u32 (num_blocks st + 1))) h.

(** [heap_stats.num_blocks--; heap_stats.free_size += HEADER_SIZE;] *)
Definition stats_merge (h : heap) : heap :=
  let st := heap_stats h in
  with_stats (Stats (total_size st) (used_size st) (u32 (free_size st + HEADER_SIZE))
                (num_allocations st) (u32 (num_blocks st - 1))) h.

Definition coalesce_next (block : Z) (h : heap) : heap :=
  let n := blk_next h block in
  if negb (n =? 0) && blk_is_free h n then
    let h := set_size block (u32 (blk_size h block + u32 (HEADER_SIZE + blk_size h n))) h in
    let h := set_next block (blk_next h (blk_next h block)) h in
    let h := if blk_next h block =? 0 then h else set_prev (blk_next h block) block h in
    stats_merge h
  else h.

Definition coalesce_prev (block : Z) (h : heap) : heap :=
  let p := blk_prev h block in
  if negb (p =? 0) && blk_is_free h p then
    let h := set_size p (u32 (blk_size h p + u32 (HEADER_SIZE + blk_size h block))) h in
    let h := set_next (blk_prev h block) (blk_next h block) h in
    let h := if blk_next h block =? 0 then h else set_prev (blk_next h block) (blk_prev h block) h in
    stats_merge h
  else h.

Definition coalesce (block : Z) (h : heap) : heap := coalesce_prev block (coalesce_next block h).

(** [while (tail->next != NULL) tail = tail->next;] *)
Definition find_tail (h : heap) : option Z :=
  while_fuel (heap_fuel h) (fun tail => negb (blk_next h tail =? 0)) (fun tail => blk_next h tail)
    (heap_head h).

(** The number of bytes to grow by, or [None] when the limit is reached. *)
Definition expand_grow (min_bytes : Z) (h : heap) : option Z :=
  let grow := ALIGN_UP (u32 (min_bytes + HEADER_SIZE)) 1048576 in
  if heap_max_limit h <? u32 (heap_cur_size h + grow) then
    if heap_max_limit h <=? heap_cur_size h then None
    else
      let grow := u32 (heap_max_limit h - heap_cur_size h) in
      if grow <? u32 (min_bytes + HEADER_SIZE) then None else Some grow
  else Some grow.

Definition heap_expand (min_bytes : Z) (h : heap) : option (bool * heap) :=
  match expand_grow min_bytes h with
  | None => Some (false, h)
  | Some grow =>
    let new_blk := u32 (heap_base_addr h + heap_cur_size h) in
    let h := Heap (h_mem h) (heap_head h) (heap_base_addr h) (heap_cur_size h) (heap_max_limit h)
               (heap_stats h) (pmm_reserve_region new_blk grow (h_pmm h)) in
    let h := h
      |> set_magic new_blk HEAP_BLOCK_MAGIC
      |> set_size new_blk (u32 (grow - HEADER_SIZE))
      |> set_is_free new_blk 1
      |> set_next new_blk 0 in
    tail ← find_tail h;
    let h := h |> set_next tail new_blk |> set_prev new_blk tail in
    let st := heap_stats h in
    let h := Heap (h_mem h) (heap_head h) (heap_base_addr h) (u32 (heap_cur_size h + grow))
               (heap_max_limit h)
               (Stats (u32 (total_size st + grow)) (used_size st)
                  (u32 (free_size st + blk_size h new_blk)) (num_allocations st)
                  (u32 (num_blocks st + 1))) (h_pmm h) in
    Some (true, coalesce new_blk h)
  end.

Definition align8 (size : Z) : Z := Z.land (u32 (size + 7)) (Z.lnot 7).

(** From [split_block(block, size)] to the returned pointer. *)
Definition kmalloc_take (block size : Z) (h : heap) : Z * heap :=
  let h := split_block block size h in
  let h := set_is_free block 0 h in
  let st := heap_stats h in
  let h := with_stats (Stats (total_size st) (u32 (used_size st + blk_size h block))
             (u32 (free_size st - blk_size h block)) (u32 (num_allocations st + 1))
             (num_blocks st)) h in
  (u32 (block + HEADER_SIZE), h).

Definition kmalloc (size : Z) (h : heap) : option (Z * heap) :=
  if (size =? 0) || (heap_head h =? 0) then Some (0, h)
  else
    let size := align8 size in
    block ← find_free_block size h;
    '(block, h) ←
      (if block =? 0 then
         '(ok, h) ← heap_expand size h;
         if (ok : bool) then block ← find_free_block size h; Some (block, h) else Some (0, h)
       else Some (block, h));
    if block =? 0 then Some (0, h) else Some (kmalloc_take block size h).

Definition kzalloc (size : Z) (h : heap) : option (Z * heap) :=
  '(ptr, h) ← kmalloc size h;
  if ptr =? 0 then Some (ptr, h)
  else m ← memset (h_mem h) ptr 0 size; Some (ptr, with_mem m h).

Definition kmalloc_aligned (size alignment : Z) (h : heap) : option (Z * heap) :=
  let alignment := if alignment <? 8 then 8 else alignment in
  if negb (IS_POWER_OF_2 alignment) then Some (0, h)
  else
    let meta := 8 in
    let total_size := u32 (u32 (size + alignment) + meta) in
    '(raw_ptr, h) ← kmalloc total_size h;
    if raw_ptr =? 0 then Some (0, h)
    else
      let addr := u32 (raw_ptr + meta) in
      let aligned_addr := Z.land (u32 (u32 (addr + alignment) - 1)) (Z.lnot (alignment - 1)) in
      let m := st32 (h_mem h) (aligned_addr - 4) HEAP_ALIGNED_MAGIC in
      let m := st32 m (aligned_addr - 8) raw_ptr in
      Some (aligned_addr, with_mem m h).

(** The block [kfree] settles on for a pointer: the header in front of it,
    or, when that is no header, the one of the raw pointer [kmalloc_aligned]
    stored below an aligned pointer. *)
Definition kfree_block (p : Z) (h : heap) : Z :=
  let block := p - HEADER_SIZE in
  if negb (blk_magic h block =? HEAP_BLOCK_MAGIC) then
    if (u32 (u32 (heap_base_addr h + HEADER_SIZE) + 8) <=? p)
       && (ld32 (h_mem h) (p - 4) =? HEAP_ALIGNED_MAGIC) then
      let raw_ptr := ld32 (h_mem h) (p - 8) in
      if (u32 (heap_base_addr h + HEADER_SIZE) <=? raw_ptr)
         && (raw_ptr <? u32 (heap_base_addr h + heap_cur_size h))
      then raw_ptr - HEADER_SIZE else block
    else block
  else block.

Definition kfree (p : Z) (h : heap) : heap :=
  if (p =? 0) || (heap_head h =? 0) then h
  else if (p <? u32 (heap_base_addr h + HEADER_SIZE))
          || (u32 (heap_base_addr h + heap_cur_size h) <=? p) then h
  else
    let block := kfree_block p h in
    if negb (blk_magic h block =? HEAP_BLOCK_MAGIC) || blk_is_free h block then h
    else
      let h := set_is_free block 1 h in
      let st := heap_stats h in
      let h := with_stats (Stats (total_size st) (u32 (used_size st - blk_size h block))
                 (u32 (free_size st + blk_size h block))
                 (if 0 <? num_allocations st then num_allocations st - 1 else num_allocations st)
                 (num_blocks st)) h in
      coalesce block h.

Definition krealloc (p new_size : Z) (h : heap) : option (Z * heap) :=
  if p =? 0 then kmalloc new_size h
  else if new_size =? 0 then Some (0, kfree p h)
  else
    let block := u32 (p - HEADER_SIZE) in
    if negb (blk_magic h block =? HEAP_BLOCK_MAGIC) then Some (0, h)
    else if new_size <=? blk_size h block then Some (p, h)
    else
      '(new_ptr, h) ← kmalloc new_size h;
      if new_ptr =? 0 then Some (0, h)
      else
        m ← memcpy (h_mem h) new_ptr p (blk_size h block);
        Some (new_ptr, kfree p (with_mem m h)).

Definition heap_get_stats (h : heap) : heap_stats_t := heap_stats h.

(** [while (current) { if (magic) return 0; current = next; } return 1;] *)
Definition heap_check (h : heap) : option bool :=
  cur ← while_fuel (heap_fuel h)
          (fun c => negb (c =? 0) && (blk_magic h c =? HEAP_BLOCK_MAGIC))
          (fun c => blk_next h c) (heap_head h);
  Some (cur =? 0).
