(* ===== verification/HeapInv.v ===== *)
(** HeapInv: the heap as a list of blocks, the representation of that list in
    memory, and the correctness of the primitive operations of
    [kernel/heap.c] ([find_free_block], [split_block], [coalesce],
    [heap_expand]) with respect to it. *)

From S2P Require Import Prelude Memory Common Pmm Heap.

Ltac hdr_const := change HEADER_SIZE with 24 in *.

(** * Blocks and segments *)

Record blk := Blk { b_addr : Z; b_size : Z; b_free : bool }.

Definition b_end (b : blk) : Z := b_addr b + 24 + b_size b.

(** The header of [b] in memory, with its links. *)
Definition hdr (m : mem) (b : blk) (prv nxt : Z) : Prop :=
  ld32 m (b_addr b) = HEAP_BLOCK_MAGIC /\ ld32 m (b_addr b + 4) = b_size b /\
  ld8 m (b_addr b + 8) = (if b_free b then 1 else 0) /\
  ld32 m (b_addr b + 12) = nxt /\ ld32 m (b_addr b + 16) = prv.

Definition next_of (bs : list blk) (nxt : Z) : Z :=
  match bs with [] => nxt | b :: _ => b_addr b end.

Fixpoint last_of (prv : Z) (bs : list blk) : Z :=
  match bs with [] => prv | b :: bs => last_of (b_addr b) bs end.

(** [seg m prv a bs nxt stop]: the blocks [bs] tile [a, stop); the first one
    links back to [prv] and the last one forward to [nxt]. *)
Fixpoint seg (m : mem) (prv a : Z) (bs : list blk) (nxt stop : Z) : Prop :=
  match bs with
  | [] => a = stop
  | b :: bs' =>
    b_addr b = a /\ 0 <= b_size b /\ hdr m b prv (next_of bs' nxt) /\
    seg m a (a + 24 + b_size b) bs' nxt stop
  end.

Lemma seg_le m prv a bs nxt stop : seg m prv a bs nxt stop -> a + 24 * lenZ bs <= stop.
Proof.
  unfold lenZ. revert prv a. induction bs as [|b bs IH]; intros prv a; simpl.
  - intros ->. lia.
  - intros (_ & ? & _ & H%IH). lia.
Qed.

Lemma seg_app m prv a l1 l2 nxt stop :
  seg m prv a (l1 ++ l2) nxt stop <->
  exists mid, seg m prv a l1 (next_of l2 nxt) mid /\ seg m (last_of prv l1) mid l2 nxt stop.
Proof.
  revert prv a. induction l1 as [|b l1 IH]; intros prv a; simpl.
  - split; [by eauto|]. by intros (? & <- & ?).
  - assert (next_of (l1 ++ l2) nxt = next_of l1 (next_of l2 nxt)) as E by by destruct l1.
    rewrite E. split.
    + intros (<- & ? & ? & (mid & ? & ?)%IH). exists mid. by split_and!.
    + intros (mid & (<- & ? & ? & ?) & ?). split_and!; auto. apply IH. eauto.
Qed.

Lemma seg_frame m m' prv a bs nxt stop :
  (forall x, a <= x < stop -> ld8 m' x = ld8 m x) ->
  seg m prv a bs nxt stop -> seg m' prv a bs nxt stop.
Proof.
  revert prv a. induction bs as [|b bs IH]; intros prv a Hm Hs; [done|].
  destruct Hs as (<- & Hz & (H1 & H2 & H3 & H4 & H5) & Hs).
  pose proof (seg_le _ _ _ _ _ _ Hs). pose proof (lenZ_nonneg bs).
  cbn [seg]. split_and!; auto.
  - unfold hdr. rewrite !(ld32_ext m' m) by (intros; apply Hm; lia).
    rewrite Hm by lia. done.
  - apply IH; [|done]. intros x Hx. apply Hm. lia.
Qed.

(** The blocks of a segment lie inside it and do not overlap. *)
Lemma seg_in m prv a bs nxt stop b :
  seg m prv a bs nxt stop -> b ∈ bs -> a <= b_addr b /\ b_end b <= stop /\ 0 <= b_size b.
Proof.
  revert prv a. induction bs as [|b' bs IH]; intros prv a Hs Hin; [by apply not_elem_of_nil in Hin|].
  destruct Hs as (<- & Hz & _ & Hs). pose proof (seg_le _ _ _ _ _ _ Hs). pose proof (lenZ_nonneg bs).
  apply elem_of_cons in Hin as [->|Hin]; [unfold b_end; lia|].
  destruct (IH _ _ Hs Hin) as (? & ? & ?). lia.
Qed.

Lemma seg_disjoint m prv a bs nxt stop b c :
  seg m prv a bs nxt stop -> b ∈ bs -> c ∈ bs -> b = c \/ b_end b <= b_addr c \/ b_end c <= b_addr b.
Proof.
  revert prv a. induction bs as [|b' bs IH]; intros prv a Hs Hb Hc; [by apply not_elem_of_nil in Hb|].
  destruct Hs as (Ha & Hz & _ & Hs).
  apply elem_of_cons in Hb as [->|Hb]; apply elem_of_cons in Hc as [->|Hc]; [by left| | |eauto].
  - right; left. destruct (seg_in _ _ _ _ _ _ _ Hs Hc). unfold b_end. lia.
  - right; right. destruct (seg_in _ _ _ _ _ _ _ Hs Hb). unfold b_end. lia.
Qed.

(** Replacing the tail of a segment, in memory that is unchanged before it. *)
Lemma seg_replace m m' prv a l1 l2 l2' nxt nxt' stop stop' :
  seg m prv a (l1 ++ l2) nxt stop -> next_of l2 nxt = next_of l2' nxt' ->
  (forall mid, seg m (last_of prv l1) mid l2 nxt stop -> a <= mid ->
     (forall x, a <= x < mid -> ld8 m' x = ld8 m x) /\
     seg m' (last_of prv l1) mid l2' nxt' stop') ->
  seg m' prv a (l1 ++ l2') nxt' stop'.
Proof.
  intros (mid & H1 & H2)%seg_app Hn H. pose proof (seg_le _ _ _ _ _ _ H1). pose proof (lenZ_nonneg l1).
  destruct (H mid H2 ltac:(lia)) as [Hx H2']. apply seg_app. exists mid. split; [|done].
  rewrite <- Hn. by apply (seg_frame m).
Qed.

Lemma last_of_app prv l1 l2 : last_of prv (l1 ++ l2) = last_of (last_of prv l1) l2.
Proof. revert prv. induction l1 as [|b l1 IH]; intros prv; simpl; auto. Qed.

Lemma next_of_app l1 l2 nxt : next_of (l1 ++ l2) nxt = next_of l1 (next_of l2 nxt).
Proof. by destruct l1. Qed.

(** Relinking the first block of a segment to another predecessor. *)
Definition relink (m : mem) (n p : Z) : mem := if n =? 0 then m else st32 m (n + 16) p.

Lemma relink_other m n p x : n = 0 \/ x < n + 16 \/ n + 20 <= x -> ld8 (relink m n p) x = ld8 m x.
Proof.
  intros H. unfold relink. destruct (Z.eqb_spec n 0); [done|]. apply ld8_st32_ne. lia.
Qed.

Lemma relink_ext m m' n p x :
  ld8 m x = ld8 m' x -> ld8 (relink m n p) x = ld8 (relink m' n p) x.
Proof.
  intros H. unfold relink. destruct (n =? 0); [done|]. unfold st32. rewrite !ld8_st8.
  by repeat case_decide.
Qed.

Lemma seg_relink m prv prv' a bs stop :
  0 < a -> is_u32 prv' ->
  seg m prv a bs 0 stop -> seg (relink m (next_of bs 0) prv') prv' a bs 0 stop.
Proof.
  intros Ha Hp Hs. destruct bs as [|b bs]; [done|].
  destruct Hs as (<- & Hz & (H1 & H2 & H3 & H4 & H5) & Hs).
  unfold relink. simpl next_of. destruct (Z.eqb_spec (b_addr b) 0); [lia|].
  cbn [seg]. split_and!; auto.
  - unfold hdr. mem_simp. rewrite u32_id by done. done.
  - apply (seg_frame m); [|done]. intros x Hx. apply ld8_st32_ne. lia.
Qed.

(** * The heap invariant *)

Definition used_bytes (bs : list blk) : Z :=
  foldr (fun b n => (if b_free b then 0 else b_size b) + n) 0 bs.
Definition free_bytes (bs : list blk) : Z :=
  foldr (fun b n => (if b_free b then b_size b else 0) + n) 0 bs.
Definition used_count (bs : list blk) : Z := countb (fun b => negb (b_free b)) bs.

Definition stats_of (cur : Z) (bs : list blk) : heap_stats_t :=
  Stats cur (used_bytes bs) (free_bytes bs) (used_count bs) (lenZ bs).

(** The structural part, which holds between any two statements that move
    the heap from one block list to another. *)
Record heap_ok (h : heap) (bs : list blk) : Prop := {
  ok_seg : seg (h_mem h) 0 (heap_base_addr h) bs 0 (heap_base_addr h + heap_cur_size h);
  ok_head : heap_head h = heap_base_addr h;
  ok_base : 4096 <= heap_base_addr h;
  ok_cur : heap_cur_size h <= heap_max_limit h;
  ok_lim : heap_base_addr h + heap_max_limit h < 4294967296;
  ok_stats : heap_stats h = stats_of (heap_cur_size h) bs
}.

(** No two neighbouring blocks are both free. *)
Fixpoint coalesced (bs : list blk) : Prop :=
  match bs with
  | b :: ((c :: _) as bs') => (b_free b = true -> b_free c = true -> False) /\ coalesced bs'
  | _ => True
  end.

(** Payloads are non-empty multiples of 8 bytes. *)
Definition size8 (bs : list blk) : Prop := Forall (fun b => 0 < b_size b /\ b_size b mod 8 = 0) bs.

Record heap_inv (h : heap) (bs : list blk) : Prop := {
  inv_ok : heap_ok h bs;
  inv_ne : bs <> [];
  inv_base8 : heap_base_addr h mod 8 = 0;
  inv_max8 : heap_max_limit h mod 8 = 0;
  inv_size8 : size8 bs;
  inv_coal : coalesced bs;
  inv_pmm : pmm_wf (h_pmm h)
}.

Lemma used_bytes_app l1 l2 : used_bytes (l1 ++ l2) = used_bytes l1 + used_bytes l2.
Proof. induction l1 as [|b l1 IH]; simpl; [done|]. rewrite IH. lia. Qed.
Lemma free_bytes_app l1 l2 : free_bytes (l1 ++ l2) = free_bytes l1 + free_bytes l2.
Proof. induction l1 as [|b l1 IH]; simpl; [done|]. rewrite IH. lia. Qed.
Lemma used_count_app l1 l2 : used_count (l1 ++ l2) = used_count l1 + used_count l2.
Proof. apply countb_app. Qed.
Lemma lenZ_app {A} (l1 l2 : list A) : lenZ (l1 ++ l2) = lenZ l1 + lenZ l2.
Proof. unfold lenZ. rewrite length_app. lia. Qed.
Lemma lenZ_cons {A} (x : A) l : lenZ (x :: l) = lenZ l + 1.
Proof. unfold lenZ. simpl. lia. Qed.

(** The bytes of a segment are accounted for. *)
Lemma seg_total m prv a bs nxt stop :
  seg m prv a bs nxt stop ->
  used_bytes bs + free_bytes bs + 24 * lenZ bs = stop - a /\ 0 <= used_bytes bs /\ 0 <= free_bytes bs.
Proof.
  revert prv a. induction bs as [|b bs IH]; intros prv a; simpl.
  - intros ->. unfold lenZ. simpl. lia.
  - intros (_ & Hz & _ & Hs). apply IH in Hs as (? & ? & ?). rewrite lenZ_cons.
    destruct (b_free b); lia.
Qed.

Lemma used_count_range bs : 0 <= used_count bs <= lenZ bs.
Proof. apply countb_range. Qed.

(** ** Bytes the operations must not touch *)

(** A byte handed out to a client: in the payload of a used block. *)
Definition live_byte (bs : list blk) (x : Z) : Prop :=
  exists b, b ∈ bs /\ b_free b = false /\ b_addr b + 24 <= x < b_end b.

Definition in_header (bs : list blk) (x : Z) : Prop :=
  exists b, b ∈ bs /\ b_addr b <= x < b_addr b + 24.

Lemma live_not_header m prv a bs nxt stop x :
  seg m prv a bs nxt stop -> live_byte bs x -> ~ in_header bs x.
Proof.
  intros Hs (b & Hb & _ & Hx) (c & Hc & Hx'). unfold b_end in *.
  destruct (seg_in _ _ _ _ _ _ _ Hs Hc) as (_ & _ & ?).
  destruct (seg_disjoint _ _ _ _ _ _ _ _ Hs Hb Hc) as [->|[?|?]]; unfold b_end in *; lia.
Qed.

(** Frame of an operation: it keeps the fixed parameters of the heap, and
    writes only to headers. *)
Definition header_frame (bs : list blk) (h h' : heap) : Prop :=
  forall x, ~ in_header bs x -> ld8 (h_mem h') x = ld8 (h_mem h) x.

Definition same_heap (h h' : heap) : Prop :=
  heap_head h' = heap_head h /\ heap_base_addr h' = heap_base_addr h /\
  heap_cur_size h' = heap_cur_size h /\ heap_max_limit h' = heap_max_limit h /\
  h_pmm h' = h_pmm h.

(** * Reading headers *)

Section fields.
Context (h : heap) (l1 l2 : list blk) (b : blk).
Context (Hok : heap_ok h (l1 ++ b :: l2)).

Lemma ok_mid :
  exists mid, seg (h_mem h) 0 (heap_base_addr h) l1 (b_addr b) mid /\
    seg (h_mem h) (last_of 0 l1) mid (b :: l2) 0 (heap_base_addr h + heap_cur_size h).
Proof using Hok. destruct Hok as [Hs _ _ _ _ _]. by apply seg_app in Hs. Qed.

Lemma ok_hdr : hdr (h_mem h) b (last_of 0 l1) (next_of l2 0).
Proof using Hok. destruct ok_mid as (mid & _ & H). by destruct H as (_ & _ & ? & _). Qed.

Lemma ok_bounds :
  heap_base_addr h <= b_addr b /\ 0 < b_addr b /\ 0 <= b_size b /\
  b_addr b + 24 + b_size b <= heap_base_addr h + heap_cur_size h /\
  b_addr b + 24 + b_size b < 4294967296.
Proof using Hok.
  destruct Hok as [Hs _ ? ? ? _].
  destruct (seg_in _ _ _ _ _ _ b Hs) as (? & ? & ?); [set_solver|]. unfold b_end in *. lia.
Qed.

Lemma blk_magic_ok : blk_magic h (b_addr b) = HEAP_BLOCK_MAGIC.
Proof using Hok. unfold blk_magic, o_magic. rewrite Z.add_0_r. apply ok_hdr. Qed.
Lemma blk_size_ok : blk_size h (b_addr b) = b_size b.
Proof using Hok. apply ok_hdr. Qed.
Lemma blk_free_ok : blk_is_free h (b_addr b) = b_free b.
Proof using Hok.
  destruct ok_hdr as (_ & _ & E & _). unfold blk_is_free, o_is_free. rewrite E. by destruct (b_free b).
Qed.
Lemma blk_next_ok : blk_next h (b_addr b) = next_of l2 0.
Proof using Hok. apply ok_hdr. Qed.
Lemma blk_prev_ok : blk_prev h (b_addr b) = last_of 0 l1.
Proof using Hok. apply ok_hdr. Qed.
End fields.

Lemma ok_len h bs : heap_ok h bs -> 24 * lenZ bs <= heap_cur_size h.
Proof. intros [Hs _ _ _ _ _]. apply seg_le in Hs. lia. Qed.

Lemma ok_fuel h bs : heap_ok h bs -> (length bs < heap_fuel h)%nat.
Proof.
  intros Hok. pose proof (ok_len h bs Hok). unfold heap_fuel, lenZ in *. hdr_const. zlia.
Qed.

(** * Walking the list *)

(** A walk along the [next] links stops at the first block that satisfies
    [stop], or at the end of the list. *)
Lemma walk_list h l1 l2 (stopb : Z -> bool) fuel :
  heap_ok h (l1 ++ l2) -> (length l2 <= fuel)%nat ->
  (exists k1 b k2, l2 = k1 ++ b :: k2 /\ Forall (fun c => stopb (b_addr c) = false) k1 /\
     stopb (b_addr b) = true /\
     while_fuel fuel (fun c => negb (c =? 0) && negb (stopb c)) (fun c => blk_next h c) (next_of l2 0)
       = Some (b_addr b))
  \/ (Forall (fun c => stopb (b_addr c) = false) l2 /\
     while_fuel fuel (fun c => negb (c =? 0) && negb (stopb c)) (fun c => blk_next h c) (next_of l2 0)
       = Some 0).
Proof.
  revert l1 fuel. induction l2 as [|b l2 IH]; intros l1 fuel Hok Hf.
  { right. split; [done|]. by destruct fuel. }
  destruct (ok_bounds h l1 l2 b Hok) as (_ & Hpos & _).
  destruct fuel as [|fuel]; simpl in Hf; [lia|]. cbn [while_fuel next_of].
  destruct (Z.eqb_spec (b_addr b) 0); [lia|].
  destruct (stopb (b_addr b)) eqn:E; simpl.
  { left. exists [], b, l2. by split_and!. }
  rewrite (blk_next_ok h l1 l2 b Hok).
  destruct (IH (l1 ++ [b]) fuel) as [(k1 & c & k2 & -> & ? & ? & ->)|(? & ->)].
  - by rewrite <- app_assoc.
  - lia.
  - left. exists (b :: k1), c, k2. split_and!; auto.
  - right. split; auto.
Qed.

Definition fits (size : Z) (b : blk) : bool := b_free b && (size <=? b_size b).

Lemma fits_stop h bs size b :
  heap_ok h bs -> b ∈ bs ->
  blk_is_free h (b_addr b) && (size <=? blk_size h (b_addr b)) = fits size b.
Proof.
  intros Hok (l1 & l2 & ->)%list_elem_of_split. by rewrite (blk_free_ok _ _ _ _ Hok), (blk_size_ok _ _ _ _ Hok).
Qed.

(** First fit: the first free block that is large enough, or NULL. *)
Lemma find_free_block_spec h bs size :
  heap_ok h bs -> bs <> [] ->
  (exists l1 b l2, bs = l1 ++ b :: l2 /\ Forall (fun c => fits size c = false) l1 /\
     fits size b = true /\ find_free_block size h = Some (b_addr b))
  \/ (Forall (fun c => fits size c = false) bs /\ find_free_block size h = Some 0).
Proof.
  intros Hok Hne. unfold find_free_block.
  replace (heap_head h) with (next_of bs 0); cycle 1.
  { rewrite (ok_head _ _ Hok). destruct bs as [|b bs]; [done|]. simpl.
    destruct (ok_seg _ _ Hok) as (-> & _). done. }
  pose proof (ok_fuel h bs Hok).
  destruct (walk_list h [] bs (fun c => blk_is_free h c && (size <=? blk_size h c)) (heap_fuel h))
    as [(k1 & b & k2 & -> & Hk & Hb & ->)|(Hk & ->)]; [done|lia| |].
  - left. exists k1, b, k2. split_and!; auto.
    + rewrite Forall_forall in Hk |- *. intros c Hc.
      rewrite <- (fits_stop h (k1 ++ b :: k2)) by (auto; set_solver). by apply Hk.
    + rewrite <- (fits_stop h (k1 ++ b :: k2)) by (auto; set_solver). done.
  - right. split; [|done]. rewrite Forall_forall in Hk |- *. intros c Hc.
    rewrite <- (fits_stop h bs) by auto. by apply Hk.
Qed.

(** The tail walk of [heap_expand]. *)
Lemma find_tail_spec h l b :
  heap_ok h (l ++ [b]) -> find_tail h = Some (b_addr b).
Proof.
  intros Hok. unfold find_tail. pose proof (ok_fuel h _ Hok) as Hf.
  assert (forall l1 l2 fuel, heap_ok h (l1 ++ l2 ++ [b]) -> (length l2 <= fuel)%nat ->
    while_fuel fuel (fun tail => negb (blk_next h tail =? 0)) (fun tail => blk_next h tail)
      (next_of (l2 ++ [b]) 0) = Some (b_addr b)) as H.
  { intros l1 l2. revert l1. induction l2 as [|c l2 IH]; intros l1 fuel Hok' Hfu.
    - simpl. pose proof (blk_next_ok _ _ _ _ Hok') as E. simpl in E.
      destruct fuel; simpl; rewrite E; done.
    - destruct fuel as [|fuel]; simpl in Hfu; [lia|]. cbn [while_fuel next_of app].
      rewrite (blk_next_ok h l1 (l2 ++ [b]) c) by done.
      assert (next_of (l2 ++ [b]) 0 <> 0) as Hn.
      { destruct l2 as [|d l2]; simpl.
        - destruct (ok_bounds h (l1 ++ [c]) [] b) as (_ & ? & _); [by rewrite <- app_assoc|lia].
        - destruct (ok_bounds h (l1 ++ [c]) (l2 ++ [b]) d) as (_ & ? & _);
            [by rewrite <- app_assoc|lia]. }
      destruct (Z.eqb_spec (next_of (l2 ++ [b]) 0) 0); [done|]. simpl negb. cbv iota.
      apply (IH (l1 ++ [c])); [by rewrite <- app_assoc|lia]. }
  replace (heap_head h) with (next_of (l ++ [b]) 0); cycle 1.
  { rewrite (ok_head _ _ Hok). pose proof (ok_seg _ _ Hok) as Hs.
    destruct (l ++ [b]) as [|c bs] eqn:E; [by destruct l|]. simpl. by destruct Hs as (-> & _). }
  apply (H []); [done|]. rewrite length_app in Hf. lia.
Qed.

(** * Merging two blocks *)

(** The stores of one half of [coalesce]: the size and the forward link of
    [p], and the back link of the block after. *)
Definition merge_mem (m : mem) (p sz nx : Z) : mem :=
  relink (st32 (st32 m (p + 4) sz) (p + 12) nx) nx p.

Definition merged (p b : blk) : blk := Blk (b_addr p) (b_size p + 24 + b_size b) (b_free p).

Lemma merge_seg m prv a p b l stop :
  0 < a -> stop < 4294967296 -> seg m prv a (p :: b :: l) 0 stop ->
  seg (merge_mem m (b_addr p) (b_size p + 24 + b_size b) (next_of l 0)) prv a (merged p b :: l) 0 stop.
Proof.
  intros Ha Hstop Hs. destruct Hs as (<- & Hz & (H1 & H2 & H3 & H4 & H5) & Hb).
  destruct Hb as (Hba & Hbz & _ & Hl). pose proof (seg_le _ _ _ _ _ _ Hl). pose proof (lenZ_nonneg l).
  unfold merge_mem.
  assert (0 <= next_of l 0 < 4294967296 /\ (next_of l 0 = 0 \/ b_addr b + 24 <= next_of l 0)) as [Hn Hn'].
  { destruct l as [|c l]; simpl in *; [lia|]. destruct Hl as (-> & ? & _ & Hl).
    pose proof (seg_le _ _ _ _ _ _ Hl). pose proof (lenZ_nonneg l). lia. }
  cbn [seg merged b_addr b_size b_free]. split_and!; auto; try lia.
  - unfold hdr, merged. cbn [b_addr b_size b_free].
    assert (forall m' x, b_addr p <= x -> x + 4 <= b_addr p + 24 ->
      ld32 (relink m' (next_of l 0) (b_addr p)) x = ld32 m' x) as Hr.
    { intros. apply ld32_ext. intros. apply relink_other. lia. }
    rewrite !Hr, relink_other by lia. mem_simp. rewrite !u32_id by lia. done.
  - apply (seg_relink _ (b_addr b)); [lia|unfold is_u32; lia|].
    replace (b_addr p + 24 + (b_size p + 24 + b_size b)) with (b_addr b + 24 + b_size b) by lia.
    rewrite <- Hba in Hl.
    apply (seg_frame m); [|done]. intros x Hx. rewrite !ld8_st32_ne by lia. done.
Qed.

(** Merging inside the heap. *)
Lemma merge_ok h l1 p b l :
  heap_ok h (l1 ++ p :: b :: l) -> b_free p = true -> b_free b = true ->
  let h' := stats_merge (with_mem (merge_mem (h_mem h) (b_addr p) (b_size p + 24 + b_size b)
                                     (next_of l 0)) h) in
  heap_ok h' (l1 ++ merged p b :: l) /\ same_heap h h' /\ header_frame (p :: b :: l) h h'.
Proof.
  intros Hok Hp Hb. pose proof (ok_bounds h l1 (b :: l) p Hok) as (? & ? & ? & ? & ?).
  destruct (Hok) as [Hs Hh Hbase Hc Hlim Hst]. split; [|split; [by unfold same_heap; split_and!|]].
  - split; cbn [h_mem heap_base_addr heap_cur_size heap_head heap_max_limit heap_stats
                stats_merge with_mem with_stats]; auto.
    + eapply seg_replace; [exact Hs|done|]. intros mid Hm Hle.
      split.
      * intros x Hx. destruct Hm as (<- & ? & _ & Hm). destruct Hm as (Hm1 & ? & _ & Hm).
        pose proof (seg_le _ _ _ _ _ _ Hm). pose proof (lenZ_nonneg l).
        unfold merge_mem. rewrite relink_other; [by rewrite !ld8_st32_ne by lia|].
        destruct l as [|c l]; simpl; [by left|]. destruct Hm as (-> & _). lia.
      * apply merge_seg; [lia|lia|done].
    + rewrite Hst. unfold stats_of. cbn [total_size used_size free_size num_allocations num_blocks].
      rewrite !used_bytes_app, !free_bytes_app, !used_count_app, !lenZ_app. 
      unfold used_count. cbn [used_bytes free_bytes foldr merged b_free b_size b_addr countb].
      rewrite Hp, Hb. simpl negb. cbv iota.
      destruct (seg_total _ _ _ _ _ _ Hs) as (Ht & ? & ?).
      rewrite used_bytes_app, free_bytes_app, lenZ_app in *.
      cbn [used_bytes free_bytes foldr] in *. rewrite Hp, Hb, !lenZ_cons in *.
      pose proof (lenZ_nonneg l1). pose proof (lenZ_nonneg l).
      hdr_const. f_equal; try lia; rewrite u32_id by lia; lia.
  - intros x Hx. unfold stats_merge, with_stats, with_mem. cbn [h_mem]. unfold merge_mem.
    assert (x < b_addr p \/ b_addr p + 24 <= x).
    { destruct (decide (b_addr p <= x < b_addr p + 24)); [|lia]. exfalso. apply Hx. exists p. set_solver. }
    rewrite relink_other; [by rewrite !ld8_st32_ne by lia|].
    destruct l as [|c l]; [by left|right]. simpl.
    destruct (decide (b_addr c <= x < b_addr c + 24)); [|lia].
    exfalso. apply Hx. exists c. set_solver.
Qed.

(** * [coalesce] *)

(** The used blocks, in address order: what the clients own. *)
Definition allocs (bs : list blk) : list blk := filter (fun b => b_free b = false) bs.

Lemma allocs_app l1 l2 : allocs (l1 ++ l2) = allocs l1 ++ allocs l2.
Proof. apply filter_app. Qed.
Lemma allocs_cons_free b l : b_free b = true -> allocs (b :: l) = allocs l.
Proof. intros E. apply filter_cons_False. by rewrite E. Qed.
Lemma allocs_cons_used b l : b_free b = false -> allocs (b :: l) = b :: allocs l.
Proof. intros E. by apply filter_cons_True. Qed.
Lemma elem_of_allocs b bs : b ∈ allocs bs <-> b_free b = false /\ b ∈ bs.
Proof. unfold allocs. by rewrite list_elem_of_filter. Qed.

(** A rearrangement of the free blocks: the allocated blocks stay, and only
    headers are written. *)
Record free_step (h : heap) (bs : list blk) (h' : heap) (bs' : list blk) : Prop := {
  fs_ok : heap_ok h' bs';
  fs_same : same_heap h h';
  fs_allocs : allocs bs' = allocs bs;
  fs_frame : header_frame bs h h';
  fs_headers : forall x, in_header bs' x -> in_header bs x;
  fs_size8 : size8 bs -> size8 bs'
}.

Lemma same_heap_trans h1 h2 h3 : same_heap h1 h2 -> same_heap h2 h3 -> same_heap h1 h3.
Proof. unfold same_heap. intros (-> & -> & -> & -> & ->) (-> & -> & -> & -> & ->). done. Qed.

Lemma free_step_refl h bs : heap_ok h bs -> free_step h bs h bs.
Proof. by split. Qed.

Lemma free_step_trans h1 l1 h2 l2 h3 l3 :
  free_step h1 l1 h2 l2 -> free_step h2 l2 h3 l3 -> free_step h1 l1 h3 l3.
Proof.
  intros [H1 H2 H3 H4 H5 H6] [G1 G2 G3 G4 G5 G6]. split; auto.
  - by eapply same_heap_trans.
  - congruence.
  - intros x Hx. rewrite G4, H4 by auto. done.
Qed.

Lemma merge_free_step h l1 p b l :
  heap_ok h (l1 ++ p :: b :: l) -> b_free p = true -> b_free b = true ->
  free_step h (l1 ++ p :: b :: l)
    (stats_merge (with_mem (merge_mem (h_mem h) (b_addr p) (b_size p + 24 + b_size b) (next_of l 0)) h))
    (l1 ++ merged p b :: l).
Proof.
  intros Hok Hp Hb. destruct (merge_ok h l1 p b l Hok Hp Hb) as (? & ? & Hf). split; auto.
  - rewrite !allocs_app, !allocs_cons_free by done. done.
  - intros x Hx. apply Hf. intros (c & Hc & ?). apply Hx. exists c. set_solver.
  - intros x (c & Hc & Hx). apply elem_of_app in Hc as [Hc|Hc]; [exists c; set_solver|].
    apply elem_of_cons in Hc as [->|Hc]; [exists p|exists c]; set_solver.
  - unfold size8. rewrite !Forall_app, !Forall_cons. simpl. intros (? & [? ?] & [? ?] & ?). split_and!; auto; zlia.
Qed.

Lemma h_mem_with m h : h_mem (with_mem m h) = m.
Proof. done. Qed.
Lemma with_mem_with m m' h : with_mem m (with_mem m' h) = with_mem m h.
Proof. done. Qed.

(** Unfolds the accessors of a header down to loads and stores. *)
Ltac hdr_unfold :=
  unfold set_magic, set_size, set_is_free, set_next, set_prev,
    blk_magic, blk_size, blk_is_free, blk_next, blk_prev,
    o_magic, o_size, o_is_free, o_next, o_prev in *;
  repeat first [rewrite h_mem_with in * | rewrite with_mem_with in *].

(** Two neighbours: where they are. *)
Lemma ok_neighbours h l1 p b l :
  heap_ok h (l1 ++ p :: b :: l) ->
  heap_ok h ((l1 ++ [p]) ++ b :: l) /\ b_addr b = b_addr p + 24 + b_size p /\
  0 < b_addr p /\ 0 <= b_size p /\ 0 <= b_size b /\ b_addr b + 24 + b_size b < 4294967296 /\
  0 <= next_of l 0 < 4294967296 /\ (next_of l 0 = 0 \/ b_addr b + 24 <= next_of l 0).
Proof.
  intros Hok. assert (heap_ok h ((l1 ++ [p]) ++ b :: l)) as Hok' by by rewrite <- app_assoc.
  pose proof (ok_bounds h l1 (b :: l) p Hok) as (? & ? & ? & ? & ?).
  pose proof (ok_bounds h _ l b Hok') as (? & ? & ? & ? & ?).
  destruct (ok_mid _ _ _ _ Hok) as (mid & _ & (<- & _ & _ & (Ha & _ & _ & Hl))).
  split; [done|]. split; [done|].
  enough (0 <= next_of l 0 < 4294967296 /\ (next_of l 0 = 0 \/ b_addr b + 24 <= next_of l 0)) by intuition lia.
  destruct l as [|c l]; simpl; [lia|]. destruct Hl as (Hc & _).
  assert (heap_ok h ((l1 ++ [p; b]) ++ c :: l)) as Hok2 by by rewrite <- app_assoc.
  pose proof (ok_bounds h _ l c Hok2). lia.
Qed.

Lemma coalesce_next_eq h l1 p b l :
  heap_ok h (l1 ++ p :: b :: l) -> b_free b = true ->
  coalesce_next (b_addr p) h =
  stats_merge (with_mem (merge_mem (h_mem h) (b_addr p) (b_size p + 24 + b_size b) (next_of l 0)) h).
Proof.
  intros Hok Hb. destruct (ok_neighbours h l1 p b l Hok) as (Hok' & Ea & ? & ? & ? & ? & ? & ?).
  unfold coalesce_next. rewrite (blk_next_ok _ _ _ _ Hok). cbn [next_of].
  destruct (Z.eqb_spec (b_addr b) 0); [lia|].
  rewrite (blk_free_ok _ _ _ _ Hok'), Hb. cbn [negb andb]. cbv iota.
  rewrite (blk_size_ok _ _ _ _ Hok), (blk_size_ok _ _ _ _ Hok').
  hdr_const. u32_simp. rewrite Z.add_assoc.
  pose proof (blk_next_ok _ _ _ _ Hok) as E1. pose proof (blk_next_ok _ _ _ _ Hok') as E2.
  hdr_unfold. cbn [next_of] in E1.
  set (m1 := st32 (h_mem h) (b_addr p + 4) (b_size p + 24 + b_size b)).
  assert (ld32 m1 (b_addr p + 12) = b_addr b) as -> by (unfold m1; mem_simp; done).
  assert (ld32 m1 (b_addr b + 12) = next_of l 0) as -> by (unfold m1; mem_simp; done).
  mem_simp. rewrite u32_id by lia. unfold merge_mem, relink. fold m1.
  by destruct (next_of l 0 =? 0).
Qed.

Lemma coalesce_prev_eq h l1 p b l :
  heap_ok h (l1 ++ p :: b :: l) -> b_free p = true ->
  coalesce_prev (b_addr b) h =
  stats_merge (with_mem (merge_mem (h_mem h) (b_addr p) (b_size p + 24 + b_size b) (next_of l 0)) h).
Proof.
  intros Hok Hb. destruct (ok_neighbours h l1 p b l Hok) as (Hok' & Ea & ? & ? & ? & ? & ? & ?).
  assert (blk_prev h (b_addr b) = b_addr p) as E0.
  { rewrite (blk_prev_ok _ _ _ _ Hok'). by rewrite last_of_app. }
  unfold coalesce_prev. rewrite E0.
  destruct (Z.eqb_spec (b_addr p) 0); [lia|].
  rewrite (blk_free_ok _ _ _ _ Hok), Hb. cbn [negb andb]. cbv iota.
  rewrite (blk_size_ok _ _ _ _ Hok), (blk_size_ok _ _ _ _ Hok').
  hdr_const. u32_simp. rewrite Z.add_assoc.
  pose proof (blk_next_ok _ _ _ _ Hok') as E2.
  hdr_unfold.
  set (m1 := st32 (h_mem h) (b_addr p + 4) (b_size p + 24 + b_size b)).
  assert (ld32 m1 (b_addr b + 16) = b_addr p) as -> by (unfold m1; mem_simp; done).
  assert (ld32 m1 (b_addr b + 12) = next_of l 0) as -> by (unfold m1; mem_simp; done).
  assert (ld32 (st32 m1 (b_addr p + 12) (next_of l 0)) (b_addr b + 12) = next_of l 0) as ->
    by (unfold m1; mem_simp; done).
  assert (ld32 (st32 m1 (b_addr p + 12) (next_of l 0)) (b_addr b + 16) = b_addr p) as ->
    by (unfold m1; mem_simp; done).
  unfold merge_mem, relink. fold m1. by destruct (next_of l 0 =? 0).
Qed.

Lemma coalesced_cons b l : coalesced (b :: l) -> coalesced l.
Proof. destruct l; [done|]. by intros [_ ?]. Qed.

Lemma coalesced_app l1 b l2 : coalesced (l1 ++ b :: l2) <-> coalesced (l1 ++ [b]) /\ coalesced (b :: l2).
Proof.
  induction l1 as [|c l1 IH]; [simpl; tauto|].
  destruct l1 as [|d l1]; [simpl; tauto|].
  change (coalesced ((c :: d :: l1) ++ b :: l2))
    with ((b_free c = true -> b_free d = true -> False) /\ coalesced ((d :: l1) ++ b :: l2)).
  change (coalesced ((c :: d :: l1) ++ [b]))
    with ((b_free c = true -> b_free d = true -> False) /\ coalesced ((d :: l1) ++ [b])).
  tauto.
Qed.

(** Blocks with the same flag are interchangeable. *)
Lemma coalesced_cons_flag b b' l : b_free b = b_free b' -> coalesced (b :: l) -> coalesced (b' :: l).
Proof. intros E. destruct l; [done|]. simpl. by rewrite E. Qed.

Lemma coalesced_snoc_flag l b b' : b_free b = b_free b' -> coalesced (l ++ [b]) -> coalesced (l ++ [b']).
Proof.
  intros E. induction l as [|c l IH]; [done|].
  destruct l as [|d l]; [simpl; by rewrite E|]. intros [? H]. split; [done|]. by apply IH.
Qed.

(** A used block may stand anywhere. *)
Lemma coalesced_used_cons b l : b_free b = false -> coalesced l -> coalesced (b :: l).
Proof. intros E. destruct l; [done|]. simpl. by rewrite E. Qed.

Lemma coalesced_used_snoc l b : b_free b = false -> coalesced l -> coalesced (l ++ [b]).
Proof.
  intros E. induction l as [|c l IH]; [done|].
  destruct l as [|d l]; [simpl; by rewrite E|]. intros [? H]. split; [done|]. by apply IH.
Qed.

Lemma coalesced_prefix l1 l2 : coalesced (l1 ++ l2) -> coalesced l1.
Proof.
  induction l1 as [|c l IH]; [done|].
  destruct l as [|d l]; [done|]. intros [? H]. split; [done|]. by apply IH.
Qed.
Lemma coalesced_suffix l1 l2 : coalesced (l1 ++ l2) -> coalesced l2.
Proof. induction l1 as [|c l IH]; [done|]. intros H. by apply IH, (coalesced_cons c). Qed.

Lemma coalesce_next_spec h l1 p l2 :
  heap_ok h (l1 ++ p :: l2) -> b_free p = true -> coalesced l2 ->
  exists p' l2', free_step h (l1 ++ p :: l2) (coalesce_next (b_addr p) h) (l1 ++ p' :: l2') /\
    b_addr p' = b_addr p /\ b_free p' = true /\ b_size p <= b_size p' /\ coalesced (p' :: l2').
Proof.
  intros Hok Hp Hc. destruct l2 as [|b l].
  { exists p, []. assert (coalesce_next (b_addr p) h = h) as ->.
    { unfold coalesce_next. by rewrite (blk_next_ok _ _ _ _ Hok). }
    split_and!; auto using free_step_refl. lia. }
  destruct (b_free b) eqn:Hb.
  - rewrite (coalesce_next_eq h l1 p b l) by done. exists (merged p b), l.
    destruct (ok_neighbours h l1 p b l Hok) as (_ & _ & ? & ? & ? & ? & _).
    split_and!; [by apply merge_free_step|done|done|simpl; lia|].
    by apply (coalesced_cons_flag b); [rewrite Hb|].
  - destruct (ok_neighbours h l1 p b l Hok) as (Hok' & _).
    exists p, (b :: l). assert (coalesce_next (b_addr p) h = h) as ->.
    { unfold coalesce_next. rewrite (blk_next_ok _ _ _ _ Hok). simpl next_of.
      rewrite (blk_free_ok _ _ _ _ Hok'), Hb, andb_false_r. done. }
    split_and!; auto using free_step_refl; [lia|]. split; [|done]. by rewrite Hb.
Qed.

Lemma coalesce_prev_spec h l1 p l2 :
  heap_ok h (l1 ++ p :: l2) -> b_free p = true -> coalesced l1 -> coalesced (p :: l2) ->
  exists l1' p', free_step h (l1 ++ p :: l2) (coalesce_prev (b_addr p) h) (l1' ++ p' :: l2) /\
    b_free p' = true /\ b_size p <= b_size p' /\ coalesced (l1' ++ p' :: l2).
Proof.
  intros Hok Hp Hc1 Hc2. destruct l1 as [|q l1 _] using rev_ind.
  { exists [], p. assert (coalesce_prev (b_addr p) h = h) as ->.
    { unfold coalesce_prev. by rewrite (blk_prev_ok _ _ _ _ Hok). }
    split_and!; auto using free_step_refl. lia. }
  assert (heap_ok h (l1 ++ q :: p :: l2)) as Hok' by by rewrite <- app_assoc in Hok.
  destruct (ok_neighbours h l1 q p l2 Hok') as (_ & _ & ? & ? & ? & ? & _).
  rewrite <- (app_assoc l1 [q]). simpl app. destruct (b_free q) eqn:Hq.
  - rewrite (coalesce_prev_eq h l1 q p l2) by done. exists l1, (merged q p).
    split_and!; [by apply merge_free_step|done|simpl; lia|].
    apply coalesced_app. split.
    + by apply (coalesced_snoc_flag _ q).
    + by apply (coalesced_cons_flag p); [rewrite Hp|].
  - exists (l1 ++ [q]), p. assert (coalesce_prev (b_addr p) h = h) as ->.
    { unfold coalesce_prev. rewrite (blk_prev_ok _ _ _ _ Hok), last_of_app. simpl last_of.
      rewrite (blk_free_ok _ _ _ _ Hok'), Hq, andb_false_r. done. }
    rewrite <- (app_assoc l1 [q]). simpl app.
    split_and!; auto using free_step_refl; [lia|].
    apply coalesced_app. split; [done|]. by apply coalesced_used_cons.
Qed.

(** [coalesce] restores the no-two-free-neighbours invariant around a block
    that has just become free. *)
Lemma coalesce_spec h l1 p l2 :
  heap_ok h (l1 ++ p :: l2) -> b_free p = true -> coalesced l1 -> coalesced l2 ->
  exists bs', free_step h (l1 ++ p :: l2) (coalesce (b_addr p) h) bs' /\ coalesced bs' /\
    exists c, c ∈ bs' /\ b_free c = true /\ b_size p <= b_size c.
Proof.
  intros Hok Hp H1 H2.
  destruct (coalesce_next_spec h l1 p l2 Hok Hp H2) as (p' & l2' & Hs & Ea & Hp' & Hz & Hc).
  destruct (coalesce_prev_spec _ l1 p' l2' (fs_ok _ _ _ _ Hs) Hp' H1 Hc) as (l1' & q & Hs' & Hq & Hz' & Hc').
  exists (l1' ++ q :: l2'). unfold coalesce. rewrite <- Ea. split_and!; [|done|].
  - rewrite Ea in *. by eapply free_step_trans.
  - exists q. split_and!; [set_solver|done|lia].
Qed.

(** * [split_block] *)

Lemma ok_counts h bs :
  heap_ok h bs ->
  used_bytes bs + free_bytes bs + 24 * lenZ bs = heap_cur_size h /\ 0 <= used_bytes bs /\
  0 <= free_bytes bs /\ 0 <= used_count bs <= lenZ bs /\ heap_cur_size h < 4294967296.
Proof.
  intros [Hs _ ? ? ? _]. apply seg_total in Hs as (? & ? & ?).
  pose proof (used_count_range bs). lia.
Qed.

Lemma ok_parts h l1 b l2 :
  heap_ok h (l1 ++ b :: l2) ->
  0 <= used_bytes l1 /\ 0 <= free_bytes l1 /\ 0 <= used_bytes l2 /\ 0 <= free_bytes l2.
Proof.
  intros (mid & H1 & (_ & _ & _ & H2))%ok_mid.
  apply seg_total in H1 as (_ & ? & ?). apply seg_total in H2 as (_ & ? & ?). done.
Qed.

Lemma used_count_cons b l : used_count (b :: l) = (if b_free b then 0 else 1) + used_count l.
Proof. unfold used_count. simpl. by destruct (b_free b). Qed.

Lemma used_bytes_cons b l : used_bytes (b :: l) = (if b_free b then 0 else b_size b) + used_bytes l.
Proof. done. Qed.
Lemma free_bytes_cons b l : free_bytes (b :: l) = (if b_free b then b_size b else 0) + free_bytes l.
Proof. done. Qed.
Lemma counters_nil : used_bytes [] = 0 /\ free_bytes [] = 0 /\ used_count [] = 0 /\ lenZ (A:=blk) [] = 0.
Proof. done. Qed.

(** Solves the equation on the counters after one block list replaced
    another around the block described by [ok_parts]. *)
Ltac solve_stats Hst :=
  rewrite Hst; unfold stats_of;
  cbn [total_size used_size free_size num_allocations num_blocks];
  rewrite ?used_bytes_app, ?free_bytes_app, ?used_count_app, ?lenZ_app in *;
  rewrite ?used_count_cons, ?lenZ_cons, ?used_bytes_cons, ?free_bytes_cons in *;
  rewrite ?used_bytes_app, ?free_bytes_app, ?used_count_app, ?lenZ_app in *;
  pose proof counters_nil as (? & ? & ? & ?);
  cbn [merged b_free b_size b_addr] in *;
  repeat match goal with H : b_free _ = _ |- _ => rewrite H in * end;
  f_equal; try lia; rewrite u32_id; lia.

(** Flipping the [is_free] byte of a block. *)
Definition set_flag (v : bool) (b : blk) : blk := Blk (b_addr b) (b_size b) v.

Lemma seg_set_flag m prv a b l nxt stop (v : bool) :
  seg m prv a (b :: l) nxt stop ->
  seg (st8 m (b_addr b + 8) (if v then 1 else 0)) prv a (set_flag v b :: l) nxt stop.
Proof.
  intros (<- & Hz & (H1 & H2 & H3 & H4 & H5) & Hs). cbn [seg set_flag b_addr b_size]. split_and!; auto.
  - unfold hdr. cbn [set_flag b_addr b_size b_free]. mem_simp. split_and!; auto. by destruct v.
  - apply (seg_frame m); [|done]. intros x Hx. apply ld8_st8_ne. lia.
Qed.

Lemma set_flag_ok h l1 b l2 (v : bool) st :
  heap_ok h (l1 ++ b :: l2) -> st = stats_of (heap_cur_size h) (l1 ++ set_flag v b :: l2) ->
  heap_ok (with_stats st (set_is_free (b_addr b) (if v then 1 else 0) h)) (l1 ++ set_flag v b :: l2).
Proof.
  intros Hok Hst. pose proof (ok_bounds h l1 l2 b Hok). destruct (Hok) as [Hs Hh Hbase Hc Hlim _].
  split; cbn [h_mem heap_base_addr heap_cur_size heap_head heap_max_limit heap_stats
                set_is_free with_mem with_stats]; auto.
  eapply seg_replace; [exact Hs|done|]. intros mid Hm Hle. split.
  - intros x Hx. destruct Hm as (<- & _). apply ld8_st8_ne. unfold o_is_free. lia.
  - by apply seg_set_flag.
Qed.

(** The blocks that [split_block] leaves in place of a free block. *)
Definition split_blocks (b : blk) (size : Z) : list blk :=
  if b_size b <? size + 24 + 16 then [b]
  else [Blk (b_addr b) size (b_free b);
        Blk (b_addr b + 24 + size) (b_size b - size - 24) true].

Definition split_mem (m : mem) (b n size rem nx : Z) : mem :=
  let m := st32 (st8 (st32 (st32 m n HEAP_BLOCK_MAGIC) (n + 4) rem) (n + 8) 1) (n + 16) b in
  st32 (st32 (relink (st32 m (n + 12) nx) nx n) (b + 12) n) (b + 4) size.

Lemma split_mem_other m b n size rem nx x :
  x < b \/ b + 24 <= x -> x < n \/ n + 24 <= x -> nx = 0 \/ x < nx + 16 \/ nx + 20 <= x ->
  ld8 (split_mem m b n size rem nx) x = ld8 m x.
Proof. intros. unfold split_mem. mem_simp. rewrite relink_other by done. by mem_simp. Qed.

Lemma split_seg m prv a b l stop size :
  0 < a -> stop < 4294967296 -> 0 <= size -> size + 24 <= b_size b ->
  seg m prv a (b :: l) 0 stop ->
  seg (split_mem m (b_addr b) (b_addr b + 24 + size) size (b_size b - size - 24) (next_of l 0)) prv a
    (Blk (b_addr b) size (b_free b) :: Blk (b_addr b + 24 + size) (b_size b - size - 24) true :: l) 0 stop.
Proof.
  intros Ha Hstop Hsz Hfit (<- & Hz & (H1 & H2 & H3 & H4 & H5) & Hl).
  pose proof (seg_le _ _ _ _ _ _ Hl). pose proof (lenZ_nonneg l).
  assert (0 <= next_of l 0 < 4294967296 /\ (next_of l 0 = 0 \/ next_of l 0 = b_addr b + 24 + b_size b))
    as [Hn Hn'].
  { destruct l as [|c l]; simpl in *; [lia|]. destruct Hl as (-> & ? & _ & Hl).
    pose proof (seg_le _ _ _ _ _ _ Hl). pose proof (lenZ_nonneg l). lia. }
  assert (forall m' x, x + 4 <= b_addr b + 24 + b_size b ->
    ld32 (relink m' (next_of l 0) (b_addr b + 24 + size)) x = ld32 m' x) as Hr.
  { intros. apply ld32_ext. intros. apply relink_other. lia. }
  unfold split_mem. cbn [seg b_addr b_size b_free next_of]. split_and!; auto; try lia.
  - unfold hdr. cbn [b_addr b_size b_free]. mem_simp. rewrite !Hr, relink_other by lia. mem_simp.
    rewrite !u32_id by lia. done.
  - unfold hdr. cbn [b_addr b_size b_free]. mem_simp. rewrite !Hr, relink_other by lia. mem_simp.
    rewrite !u32_id by (unfold HEAP_BLOCK_MAGIC; lia). split_and!; reflexivity.
  - replace (b_addr b + 24 + size + 24 + (b_size b - size - 24)) with (b_addr b + 24 + b_size b) by lia.
    eapply (seg_frame (relink m (next_of l 0) (b_addr b + 24 + size))).
    + intros x Hx. mem_simp. apply relink_ext. by mem_simp.
    + apply (seg_relink _ (b_addr b)); [lia|unfold is_u32; lia|done].
Qed.

(** The state [split_block] leaves when it splits. *)
Lemma split_block_eq h l1 b l2 size :
  heap_ok h (l1 ++ b :: l2) -> 0 <= size -> size + 24 + 16 <= b_size b ->
  split_block (b_addr b) size h =
  let st := heap_stats h in
  with_stats (Stats (total_size st) (used_size st) (u32 (free_size st - 24)) (num_allocations st)
                (u32 (num_blocks st + 1)))
    (with_mem (split_mem (h_mem h) (b_addr b) (b_addr b + 24 + size) size (b_size b - size - 24)
                 (next_of l2 0)) h).
Proof.
  intros Hok Hs Hfit. pose proof (ok_bounds h l1 l2 b Hok) as (? & ? & ? & ? & ?).
  assert (0 <= next_of l2 0 < 4294967296 /\ (next_of l2 0 = 0 \/ b_addr b + 24 + b_size b <= next_of l2 0))
    as [Hn Hn'].
  { destruct l2 as [|c l2]; simpl; [lia|].
    destruct (ok_neighbours h l1 b c l2 Hok) as (_ & ? & ? & ? & ? & ? & _). lia. }
  unfold split_block. rewrite (blk_size_ok _ _ _ _ Hok). unfold MIN_BLOCK_SIZE. hdr_const. u32_simp.
  destruct (Z.ltb_spec (b_size b) (size + 24 + 16)); [lia|].
  pose proof (blk_next_ok _ _ _ _ Hok) as E. hdr_unfold. rewrite Z.add_0_r.
  set (m1 := st32 (st8 _ _ _) _ _).
  assert (ld32 m1 (b_addr b + 12) = next_of l2 0) as -> by (unfold m1; mem_simp; done).
  assert (ld32 (st32 m1 (b_addr b + 24 + size + 12) (next_of l2 0)) (b_addr b + 12) = next_of l2 0) as ->
    by (unfold m1; mem_simp; done).
  unfold split_mem, relink. fold m1.
  destruct (next_of l2 0 =? 0); reflexivity.
Qed.

Lemma split_block_id h l1 b l2 size :
  heap_ok h (l1 ++ b :: l2) -> 0 <= size < 4294967256 -> b_size b < size + 24 + 16 ->
  split_block (b_addr b) size h = h.
Proof.
  intros Hok Hs Hfit. unfold split_block. rewrite (blk_size_ok _ _ _ _ Hok).
  unfold MIN_BLOCK_SIZE. hdr_const. u32_simp. by destruct (Z.ltb_spec (b_size b) (size + 24 + 16)); [|lia].
Qed.

(** What a step that serves a request may write: anything but the bytes of
    the clients and the memory outside the region the heap may grow into. *)
Definition client_byte (h : heap) (bs : list blk) (x : Z) : Prop :=
  live_byte bs x \/ x < heap_base_addr h \/ heap_base_addr h + heap_max_limit h <= x.

Definition keeps_clients (h : heap) (bs : list blk) (h' : heap) : Prop :=
  forall x, client_byte h bs x -> ld8 (h_mem h') x = ld8 (h_mem h) x.

Lemma client_not_header h bs x : heap_ok h bs -> client_byte h bs x -> ~ in_header bs x.
Proof.
  intros Hok [Hx|Hx]; [by eapply live_not_header; [apply (ok_seg _ _ Hok)|]|].
  intros (b & Hb & Hin). destruct (seg_in _ _ _ _ _ _ _ (ok_seg _ _ Hok) Hb) as (? & ? & ?).
  pose proof (ok_cur _ _ Hok). unfold b_end in *. lia.
Qed.

(** A client byte is not in a free block. *)
Lemma client_not_free h bs b x :
  heap_ok h bs -> b ∈ bs -> b_free b = true -> client_byte h bs x -> ~ b_addr b <= x < b_end b.
Proof.
  intros Hok Hb Hf [(c & Hc & Hcf & Hx)|Hx] Hin.
  - destruct (seg_disjoint _ _ _ _ _ _ _ _ (ok_seg _ _ Hok) Hb Hc) as [->|[?|?]]; [congruence|lia|].
    unfold b_end in *. lia.
  - destruct (seg_in _ _ _ _ _ _ _ (ok_seg _ _ Hok) Hb) as (? & ? & ?). pose proof (ok_cur _ _ Hok). lia.
Qed.

Lemma live_byte_allocs l1 l2 x : allocs l1 = allocs l2 -> live_byte l1 x -> live_byte l2 x.
Proof.
  intros E (b & Hb & Hf & Hx). exists b. split; [|done].
  assert (b ∈ allocs l1) as Hin by by apply elem_of_allocs. rewrite E in Hin. by apply elem_of_allocs in Hin as [_ ?].
Qed.

Lemma split_block_spec h l1 b l2 size :
  heap_ok h (l1 ++ b :: l2) -> b_free b = true -> 0 <= size <= b_size b ->
  heap_ok (split_block (b_addr b) size h) (l1 ++ split_blocks b size ++ l2) /\
  same_heap h (split_block (b_addr b) size h) /\
  keeps_clients h (l1 ++ b :: l2) (split_block (b_addr b) size h).
Proof.
  intros Hok Hb Hs. pose proof (ok_bounds h l1 l2 b Hok) as (? & ? & ? & ? & ?).
  pose proof (ok_counts h _ Hok) as Hct. pose proof (ok_parts h l1 b l2 Hok).
  pose proof (ok_lim _ _ Hok). pose proof (ok_cur _ _ Hok). pose proof (ok_base _ _ Hok).
  unfold split_blocks. destruct (Z.ltb_spec (b_size b) (size + 24 + 16)).
  { rewrite (split_block_id h l1 b l2) by (auto; lia). done. }
  rewrite (split_block_eq h l1 b l2) by (auto; lia).
  destruct (Hok) as [Hsg Hh Hbase Hc Hlim Hst]. split; [|split; [by unfold same_heap; split_and!|]].
  - split; cbn [h_mem heap_base_addr heap_cur_size heap_head heap_max_limit heap_stats
                with_mem with_stats]; auto.
    + eapply seg_replace; [exact Hsg|done|]. intros mid Hm Hle. split.
      * intros x Hx. destruct Hm as (<- & _ & _ & Hm). apply split_mem_other; [lia|lia|].
        destruct l2 as [|c l2]; [by left|right]. destruct Hm as (Hcc & _). simpl. lia.
      * apply split_seg; [lia|lia|lia|lia|done].
    + solve_stats Hst.
  - intros x Hx. pose proof (client_not_header _ _ _ Hok Hx) as Hnh.
    pose proof (client_not_free _ _ b _ Hok ltac:(set_solver) Hb Hx) as Hnf. unfold b_end in Hnf.
    apply split_mem_other; [lia|lia|].
    destruct l2 as [|c l2]; [by left|right]. simpl.
    destruct (decide (b_addr c <= x < b_addr c + 24)); [|lia].
    destruct Hnh. exists c. set_solver.
Qed.

(** * Handing a block out *)

Definition take_blocks (b : blk) (size : Z) : list blk :=
  match split_blocks b size with c :: rest => set_flag false c :: rest | [] => [] end.

Lemma kmalloc_take_spec h l1 b l2 size :
  heap_ok h (l1 ++ b :: l2) -> b_free b = true -> 0 <= size <= b_size b ->
  (kmalloc_take (b_addr b) size h).1 = b_addr b + 24 /\
  heap_ok (kmalloc_take (b_addr b) size h).2 (l1 ++ take_blocks b size ++ l2) /\
  same_heap h (kmalloc_take (b_addr b) size h).2 /\
  keeps_clients h (l1 ++ b :: l2) (kmalloc_take (b_addr b) size h).2.
Proof.
  intros Hok Hb Hs. destruct (split_block_spec h l1 b l2 size Hok Hb Hs) as (Hok1 & Hsame & Hk).
  pose proof (ok_bounds h l1 l2 b Hok) as (? & ? & ? & ? & ?).
  assert (exists c rest, split_blocks b size = c :: rest /\ b_addr c = b_addr b /\ b_free c = true)
    as (c & rest & Esp & Ea & Hc).
  { unfold split_blocks. case_goal; eauto. }
  unfold take_blocks. rewrite Esp in *. cbn [app] in *.
  unfold kmalloc_take. set (h1 := split_block _ _ _) in *. rewrite <- Ea in *.
  assert (blk_size (set_is_free (b_addr c) 0 h1) (b_addr c) = b_size c) as ->.
  { pose proof (blk_size_ok _ _ _ _ Hok1) as E. hdr_unfold. by mem_simp. }
  split; [|split; [|split]]; cbn [fst snd].
  - hdr_const. by rewrite u32_id by lia.
  - apply (set_flag_ok h1 l1 c (rest ++ l2) false); [done|].
    pose proof (ok_counts h1 _ Hok1) as Hct. pose proof (ok_parts h1 _ _ _ Hok1).
    pose proof (ok_bounds h1 _ _ _ Hok1) as (? & ? & ? & ? & ?).
    cbn [heap_stats set_is_free with_mem]. pose proof (ok_stats _ _ Hok1) as Hst. unfold set_flag.
    solve_stats Hst.
  - by eapply same_heap_trans.
  - intros x Hx. pose proof (client_not_header _ _ _ Hok Hx) as Hnh.
    rewrite <- Hk by done. cbn [h_mem with_stats set_is_free with_mem]. unfold o_is_free.
    rewrite ld8_st8_ne; [done|]. intros <-. apply Hnh. exists b. split; [set_solver|lia].
Qed.

(** * [heap_expand] *)

Lemma seg_mod8 m prv a bs nxt stop : seg m prv a bs nxt stop -> size8 bs -> (stop - a) mod 8 = 0.
Proof.
  revert prv a. induction bs as [|b bs IH]; intros prv a; simpl.
  - intros -> _. by rewrite Z.sub_diag.
  - intros (_ & _ & _ & Hs) [Hb Hbs]%Forall_cons. specialize (IH _ _ Hs Hbs). simpl in Hb. zlia.
Qed.

(** What [heap_expand] asks for, without wrap-around. *)
Lemma expand_grow_spec h bs min :
  heap_ok h bs -> size8 bs -> heap_max_limit h mod 8 = 0 -> 0 <= min ->
  min + 24 + 1048576 + heap_max_limit h <= 4294967296 ->
  match expand_grow min h with
  | Some grow => min + 24 <= grow /\ heap_cur_size h + grow <= heap_max_limit h /\ grow mod 8 = 0
  | None => heap_max_limit h < heap_cur_size h + min + 24
  end.
Proof.
  intros Hok H8 Hm8 Hmin Hb. pose proof (ok_counts h bs Hok). pose proof (ok_cur _ _ Hok).
  pose proof (lenZ_nonneg bs).
  assert (heap_cur_size h mod 8 = 0) as Hc8.
  { pose proof (seg_mod8 _ _ _ _ _ _ (ok_seg _ _ Hok) H8). by rewrite Z.add_simpl_l in *. }
  unfold expand_grow. hdr_const. rewrite (u32_id (min + 24)) by lia.
  destruct (ALIGN_UP_bounds (min + 24) 20 ltac:(lia) ltac:(lia) ltac:(lia)) as [Hg [k Hk]].
  change (2 ^ 20) with 1048576 in *. set (g := ALIGN_UP (min + 24) 1048576) in *.
  rewrite u32_id by lia. destruct (Z.ltb_spec (heap_max_limit h) (heap_cur_size h + g)); [|zlia].
  destruct (Z.leb_spec (heap_max_limit h) (heap_cur_size h)); [lia|].
  rewrite u32_id by lia.
  destruct (Z.ltb_spec (heap_max_limit h - heap_cur_size h) (min + 24)); zlia.
Qed.

(** The stores and counters of [heap_expand], up to [coalesce]. *)
Definition append_block (tail n grow : Z) (h : heap) : heap :=
  let st := heap_stats h in
  Heap (st32 (st32 (st32 (st8 (st32 (st32 (h_mem h) n HEAP_BLOCK_MAGIC) (n + 4) (grow - 24)) (n + 8) 1)
          (n + 12) 0) (tail + 12) n) (n + 16) tail)
    (heap_head h) (heap_base_addr h) (heap_cur_size h + grow) (heap_max_limit h)
    (Stats (u32 (total_size st + grow)) (used_size st) (u32 (free_size st + (grow - 24)))
       (num_allocations st) (u32 (num_blocks st + 1)))
    (pmm_reserve_region n grow (h_pmm h)).

Lemma heap_expand_eq h l t min grow :
  heap_ok h (l ++ [t]) -> expand_grow min h = Some grow -> 24 <= grow ->
  heap_cur_size h + grow <= heap_max_limit h ->
  heap_expand min h =
  let n := heap_base_addr h + heap_cur_size h in
  Some (true, coalesce n (append_block (b_addr t) n grow h)).
Proof.
  intros Hok Hg Hlo Hhi. pose proof (ok_bounds h l [] t Hok) as (? & ? & ? & ? & ?).
  pose proof (ok_counts h _ Hok). pose proof (ok_base _ _ Hok). pose proof (ok_lim _ _ Hok).
  unfold heap_expand. rewrite Hg. hdr_const. cbv zeta.
  rewrite (u32_id (heap_base_addr h + heap_cur_size h)) by lia.
  rewrite (u32_id (grow - 24)) by lia.
  set (n := heap_base_addr h + heap_cur_size h) in *.
  set (h1 := set_next n 0 _).
  assert (heap_ok h1 (l ++ [t])) as Hok1.
  { destruct Hok as [Hs ? ? ? ? ?]. split; auto.
    apply (seg_frame (h_mem h)); [|done]. intros x Hx. change (heap_base_addr h <= x < n) in Hx. unfold h1. hdr_unfold. cbn [h_mem].
    unfold n. by mem_simp. }
  rewrite (find_tail_spec h1 l t Hok1). cbn [mbind option_bind]. do 3 f_equal.
  unfold append_block, h1. hdr_unfold. cbn [h_mem heap_head heap_base_addr heap_cur_size heap_max_limit
    heap_stats h_pmm with_mem total_size used_size free_size num_allocations num_blocks].
  rewrite Z.add_0_r, (u32_id (heap_cur_size h + grow)) by lia. f_equal. f_equal.
  assert (b_addr t + 24 <= n) by (unfold n; lia).
  do 2 f_equal. by mem_simp; rewrite u32_id by lia.
Qed.

Lemma append_block_ok h l t grow :
  let n := heap_base_addr h + heap_cur_size h in
  heap_ok h (l ++ [t]) -> 24 <= grow -> heap_cur_size h + grow <= heap_max_limit h ->
  heap_ok (append_block (b_addr t) n grow h) ((l ++ [t]) ++ [Blk n (grow - 24) true]) /\
  keeps_clients h (l ++ [t]) (append_block (b_addr t) n grow h).
Proof.
  intros n Hok Hlo Hhi. pose proof (ok_bounds h l [] t Hok) as (? & ? & ? & ? & ?).
  pose proof (ok_counts h _ Hok) as Hct. pose proof (ok_parts h _ _ _ Hok).
  destruct (Hok) as [Hs Hh Hbase Hcur Hlim Hst].
  assert (b_addr t + 24 + b_size t = n) as Et.
  { apply seg_app in Hs as (mid & _ & (-> & _ & _ & Hs)). exact Hs. }
  split; [split|]; cbn [append_block h_mem heap_head heap_base_addr heap_cur_size heap_max_limit
    heap_stats h_pmm]; auto; try lia.
  - rewrite <- app_assoc. eapply seg_replace; [exact Hs|done|]. intros mid Hm Hle.
    destruct Hm as (<- & Hz & (E1 & E2 & E3 & E4 & E5) & _). split.
    { intros x Hx. by mem_simp. }
    cbn [app seg]. split_and!; auto; cbn [b_addr b_size next_of]; try lia.
    + unfold hdr. mem_simp. rewrite u32_id by lia. done.
    + unfold hdr. cbn [b_addr b_size b_free next_of]. mem_simp.
      rewrite !u32_id by (unfold HEAP_BLOCK_MAGIC; lia). split_and!; reflexivity.
  - solve_stats Hst.
  - intros x Hx. pose proof (client_not_header _ _ _ Hok Hx) as Hnh.
    assert (x < n \/ n + 24 <= x).
    { destruct Hx as [(b & Hb & _ & Hx)|Hx]; [|lia]. apply (seg_in _ _ _ _ _ _ _ Hs) in Hb as (_ & ? & _).
      unfold b_end in *. lia. }
    assert (~ b_addr t <= x < b_addr t + 24) as Ht by (intros ?; apply Hnh; exists t; set_solver).
    cbn [append_block h_mem]. by mem_simp.
Qed.
