(* ===== verification/HeapSpec.v ===== *)
(** HeapSpec: the contract of the kernel heap.

    [kmalloc], [kfree], [krealloc], [kzalloc] and [kmalloc_aligned] of
    [kernel/heap.c] preserve the heap invariant, hand out memory that no other
    client owns, and leave the bytes of every other client alone.  The
    [Allocator] class at the end states the contract without blocks or
    headers; the scheduler is proved against it. *)

From Stdlib Require Import Sorting.Sorted.
From S2P Require Import Prelude Memory Common Pmm Heap HeapInv.

(** The heap only ever grows, inside its fixed region. *)
Definition grown (h h' : heap) : Prop :=
  heap_base_addr h' = heap_base_addr h /\ heap_max_limit h' = heap_max_limit h /\
  heap_cur_size h <= heap_cur_size h'.

Lemma same_grown h h' : same_heap h h' -> grown h h'.
Proof. unfold same_heap, grown. intros (_ & -> & -> & -> & _). lia. Qed.

Lemma grown_trans h1 h2 h3 : grown h1 h2 -> grown h2 h3 -> grown h1 h3.
Proof. unfold grown. intros (-> & -> & ?) (-> & -> & ?). lia. Qed.

Lemma client_step h h' bs bs' x :
  grown h h' -> (forall y, live_byte bs y -> live_byte bs' y) ->
  client_byte h bs x -> client_byte h' bs' x.
Proof. unfold client_byte, grown. intros (-> & -> & _) Hl [?|?]; auto. Qed.

Lemma keeps_trans h1 b1 h2 b2 h3 :
  keeps_clients h1 b1 h2 -> keeps_clients h2 b2 h3 -> grown h1 h2 ->
  (forall y, live_byte b1 y -> live_byte b2 y) -> keeps_clients h1 b1 h3.
Proof.
  intros H1 H2 Hg Hl x Hx. rewrite H2 by eauto using client_step. by apply H1.
Qed.

Lemma free_step_keeps h bs h' bs' : heap_ok h bs -> free_step h bs h' bs' -> keeps_clients h bs h'.
Proof. intros Hok Hf x Hx. apply (fs_frame _ _ _ _ Hf). by apply (client_not_header h). Qed.

Lemma free_step_inv h bs h' bs' :
  heap_ok h bs -> bs <> [] -> heap_base_addr h mod 8 = 0 -> heap_max_limit h mod 8 = 0 -> size8 bs ->
  pmm_wf (h_pmm h) -> free_step h bs h' bs' -> coalesced bs' -> bs' <> [] -> heap_inv h' bs'.
Proof.
  intros Hok Hne Hb Hm H8 Hp [H1 (? & E1 & ? & E2 & E3) _ _ _ H2] Hc Hne'.
  split; auto; rewrite ?E1, ?E2, ?E3; auto.
Qed.

Lemma heap_expand_spec h bs min :
  heap_inv h bs -> 0 < min -> min mod 8 = 0 -> min + 24 + 1048576 + heap_max_limit h <= 4294967296 ->
  (exists h' bs', heap_expand min h = Some (true, h') /\ heap_inv h' bs' /\ allocs bs' = allocs bs /\
     keeps_clients h bs h' /\ grown h h' /\ exists c, c ∈ bs' /\ b_free c = true /\ min <= b_size c)
  \/ (heap_expand min h = Some (false, h) /\ heap_max_limit h < heap_cur_size h + min + 24).
Proof.
  intros [Hok Hne Hb8 Hm8 Hs8 Hco Hpm] Hmin H8 Hb.
  pose proof (expand_grow_spec h bs min Hok Hs8 Hm8 ltac:(lia) Hb) as Hg.
  destruct (expand_grow min h) as [grow|] eqn:Eg; [left|right]; cycle 1.
  { unfold heap_expand. by rewrite Eg. }
  destruct Hg as (Hg1 & Hg2 & Hg3). destruct bs as [|t l _] using rev_ind; [done|].
  rewrite (heap_expand_eq h l t min grow) by (auto; lia). cbv zeta.
  destruct (append_block_ok h l t grow Hok ltac:(lia) Hg2) as [Hok1 Hk1].
  set (n := heap_base_addr h + heap_cur_size h) in *. set (h1 := append_block _ _ _ _) in *.
  destruct (coalesce_spec h1 (l ++ [t]) (Blk n (grow - 24) true) [] Hok1) as (bs' & Hf & Hc & c & Hc1 & Hc2 & Hc3);
    [done|done|done|]. cbn [b_addr] in *.
  assert (grown h h1) as Hgr by (unfold grown, h1; cbn; lia).
  exists (coalesce n h1), bs'. split_and!; [done| | | | |].
  - pose proof (ok_bounds h l [] t Hok) as (? & ? & ? & ? & ?). pose proof (ok_counts _ _ Hok).
    pose proof (ok_lim _ _ Hok). pose proof (ok_base _ _ Hok). pose proof (lenZ_nonneg (l ++ [t])).
    apply (free_step_inv h1 ((l ++ [t]) ++ [Blk n (grow - 24) true])); auto.
    + by destruct (l ++ [t]).
    + apply Forall_app. split; [done|]. constructor; [|done]. cbn. zlia.
    + apply pmm_reserve_region_spec; [done|unfold is_u32, n; lia|unfold is_u32; lia].
    + intros ->. by apply not_elem_of_nil in Hc1.
  - rewrite (fs_allocs _ _ _ _ Hf), allocs_app, allocs_cons_free by done. by rewrite app_nil_r.
  - eapply (keeps_trans _ _ h1); [done|by eapply free_step_keeps|done|].
    intros y Hy. eapply live_byte_allocs; [|exact Hy]. rewrite (allocs_app (l ++ [t])), allocs_cons_free by done.
    by rewrite app_nil_r.
  - eapply grown_trans; [done|]. apply same_grown, Hf.
  - exists c. split_and!; [done|done|]. cbn [b_size] in Hc3. lia.
Qed.

(** The block handed out for a request of [size] bytes out of [b]. *)
Definition taken (b : blk) (size : Z) : blk :=
  Blk (b_addr b) (if b_size b <? size + 24 + 16 then b_size b else size) false.

Lemma take_blocks_split l1 b l2 size :
  b_free b = true ->
  l1 ++ take_blocks b size ++ l2 =
  l1 ++ taken b size ::
    (if b_size b <? size + 24 + 16 then [] else [Blk (b_addr b + 24 + size) (b_size b - size - 24) true]) ++ l2.
Proof. intros. unfold take_blocks, split_blocks, taken. by destruct (b_size b <? size + 24 + 16). Qed.

Lemma take_blocks_shape l1 b l2 size :
  b_free b = true -> coalesced (l1 ++ b :: l2) -> size8 (l1 ++ b :: l2) -> 0 < size -> size mod 8 = 0 ->
  allocs (l1 ++ take_blocks b size ++ l2) = allocs l1 ++ taken b size :: allocs l2 /\
  coalesced (l1 ++ take_blocks b size ++ l2) /\ size8 (l1 ++ take_blocks b size ++ l2) /\
  l1 ++ take_blocks b size ++ l2 <> [].
Proof.
  intros Hb Hc H8 Hpos Hs. rewrite take_blocks_split by done.
  apply coalesced_app in Hc as [Hc1 Hc2]. apply Forall_app in H8 as [H81 [H8b H82]%Forall_cons].
  split_and!.
  - rewrite allocs_app, allocs_cons_used by done. case_goal; [done|]. by rewrite allocs_app, allocs_cons_free.
  - apply coalesced_app. split; [by apply coalesced_used_snoc, (coalesced_prefix _ [b])|].
    apply coalesced_used_cons; [done|]. case_goal; [by apply (coalesced_cons b)|].
    by apply (coalesced_cons_flag b).
  - apply Forall_app. split; [done|]. unfold taken. case_goal; repeat constructor; cbn in *; bool_to_prop; auto; zlia.
  - by destruct l1.
Qed.

Lemma align8_spec size : 0 <= size -> size + 7 < 4294967296 ->
  size <= align8 size < size + 8 /\ align8 size mod 8 = 0.
Proof.
  intros ? ?. unfold align8. rewrite u32_id by lia.
  rewrite (land_lnot_ones _ 3) by lia. change (2 ^ 3) with 8. zlia.
Qed.

(** Addresses of blocks are multiples of 8. *)
Lemma seg_addr8 m prv a bs nxt stop b :
  seg m prv a bs nxt stop -> size8 bs -> a mod 8 = 0 -> b ∈ bs -> b_addr b mod 8 = 0.
Proof.
  intros Hs H8 Ha (l1 & l2 & ->)%list_elem_of_split.
  apply seg_app in Hs as (mid & H1 & (-> & _)). apply Forall_app in H8 as [H81 _].
  pose proof (seg_mod8 _ _ _ _ _ _ H1 H81). zlia.
Qed.

(** The step from a heap with a fitting block to the returned pointer. *)
Lemma kmalloc_serve h bs size :
  heap_inv h bs -> 0 < size -> size mod 8 = 0 -> (exists c, c ∈ bs /\ fits size c = true) ->
  exists l1 b l2 h', bs = l1 ++ b :: l2 /\ Forall (fun c => fits size c = false) l1 /\ fits size b = true /\
    find_free_block size h = Some (b_addr b) /\ kmalloc_take (b_addr b) size h = (b_addr b + 24, h') /\
    heap_inv h' (l1 ++ take_blocks b size ++ l2) /\
    allocs (l1 ++ take_blocks b size ++ l2) = allocs l1 ++ taken b size :: allocs l2 /\
    keeps_clients h bs h' /\ same_heap h h'.
Proof.
  intros [Hok Hne Hb8 Hm8 Hs8 Hco Hpm] Hsz H8 (c & Hc & Hfit).
  destruct (find_free_block_spec h bs size Hok Hne) as [(l1 & b & l2 & -> & Hl & Hb & Ef)|(Hn & _)]; cycle 1.
  { rewrite Forall_forall in Hn. by rewrite (Hn _ Hc) in Hfit. }
  pose proof Hb as Hb'. unfold fits in Hb'. bool_to_prop.
  destruct (kmalloc_take_spec h l1 b l2 size Hok ltac:(done) ltac:(lia)) as (E1 & Hok' & Hsame & Hk).
  destruct (kmalloc_take (b_addr b) size h) as [p h'] eqn:Et. cbn [fst snd] in *. subst p.
  destruct (take_blocks_shape l1 b l2 size) as (Ha & Hc' & H8' & Hne'); try done.
  exists l1, b, l2, h'. split_and!; auto. destruct Hsame as (_ & E1 & _ & E2 & E3).
  split; auto; rewrite ?E1, ?E2, ?E3; auto.
Qed.

(** Every request that does not wrap 32-bit arithmetic terminates: the
    pointer is either NULL, and then no free block fits and the heap cannot
    grow by the request, or that of a fresh block. *)
Definition request_ok (h : heap) (size : Z) : Prop :=
  0 < size /\ size + 32 + 1048576 + heap_max_limit h <= 4294967296.

Lemma kmalloc_post h bs size :
  heap_inv h bs -> request_ok h size ->
  (kmalloc size h = Some (0, h) /\ Forall (fun c => fits (align8 size) c = false) bs /\
   heap_max_limit h < heap_cur_size h + align8 size + 24)
  \/ exists b h' bs', kmalloc size h = Some (b_addr b + 24, h') /\ heap_inv h' bs' /\
     keeps_clients h bs h' /\ grown h h' /\
     b_free b = false /\ size <= b_size b /\
     exists a1 a2, allocs bs = a1 ++ a2 /\ allocs bs' = a1 ++ b :: a2.
Proof.
  intros Hinv [Hsz Hb]. pose proof Hinv as [Hok Hne _ _ _ _ _].
  pose proof (ok_counts _ _ Hok). pose proof (ok_cur _ _ Hok). pose proof (lenZ_nonneg bs).
  destruct (align8_spec size ltac:(lia) ltac:(lia)) as [Ha Ha8].
  assert (heap_head h <> 0) as Hh by (pose proof (ok_base _ _ Hok); rewrite (ok_head _ _ Hok); lia).
  unfold kmalloc. destruct (Z.eqb_spec size 0) as [?|_]; [lia|].
  destruct (Z.eqb_spec (heap_head h) 0) as [?|_]; [done|].
  cbn [orb]. cbv iota zeta. set (n := align8 size) in *.
  assert (forall b : blk, size <= b_size (taken b n) \/ b_size b < n) as Htk.
  { intros b. unfold taken. simpl. destruct (Z.ltb_spec (b_size b) (n + 24 + 16)); lia. }
  destruct (decide (Exists (fun c => fits n c = true) bs)) as [Hex|Hex].
  - right. apply Exists_exists in Hex as (c & Hc & Hfit).
    destruct (kmalloc_serve h bs n Hinv ltac:(lia) Ha8 ltac:(eauto))
      as (l1 & b & l2 & h' & -> & Hl & Hbf & -> & Et & Hi & Eal & Hk & Hs).
    pose proof (ok_bounds h l1 l2 b Hok) as (? & ? & ? & ? & ?).
    cbn [mbind option_bind]. destruct (Z.eqb_spec (b_addr b) 0); [lia|]. cbn [mbind option_bind].
    destruct (Z.eqb_spec (b_addr b) 0); [lia|]. rewrite Et.
    unfold fits in Hbf. bool_to_prop.
    exists (taken b n), h', (l1 ++ take_blocks b n ++ l2). split_and!; auto using same_grown.
    + destruct (Htk b); lia.
    + exists (allocs l1), (allocs l2). split; [|done]. by rewrite allocs_app, allocs_cons_free.
  - destruct (find_free_block_spec h bs n Hok Hne) as [(l1 & b & l2 & -> & Hl & Hb' & Ef)|(Hn & ->)].
    { destruct Hex. apply Exists_exists. exists b. set_solver. }
    cbn [mbind option_bind]. simpl Z.eqb. cbv iota.
    destruct (heap_expand_spec h bs n Hinv ltac:(lia) Ha8 ltac:(lia))
      as [(h1 & bs1 & -> & Hinv1 & Eal1 & Hk1 & Hg1 & c & Hc & Hcf & Hcz)|[-> Hfull]]; [right|left]; cycle 1.
    { by cbn [mbind option_bind]. }
    cbn [mbind option_bind].
    destruct (kmalloc_serve h1 bs1 n Hinv1 ltac:(lia) Ha8) as (l1 & b & l2 & h' & -> & Hl & Hbf & -> & Et & Hi & Eal & Hk & Hs).
    { exists c. split; [done|]. unfold fits. rewrite Hcf. by apply Z.leb_le. }
    pose proof (ok_bounds h1 l1 l2 b (inv_ok _ _ Hinv1)) as (? & ? & ? & ? & ?).
    cbn [mbind option_bind]. destruct (Z.eqb_spec (b_addr b) 0); [lia|]. rewrite Et.
    unfold fits in Hbf. bool_to_prop.
    exists (taken b n), h', (l1 ++ take_blocks b n ++ l2). split_and!; auto.
    + eapply keeps_trans; [done|done|done|]. intros y. by apply live_byte_allocs.
    + eapply grown_trans; [done|]. by apply same_grown.
    + destruct (Htk b); lia.
    + exists (allocs l1), (allocs l2). split; [|done]. rewrite <- Eal1.
      by rewrite allocs_app, allocs_cons_free.
Qed.

Lemma set_flag_free_step h l1 b l2 :
  heap_inv h (l1 ++ b :: l2) -> b_free b = false ->
  let st := heap_stats h in
  let h1 := with_stats (Stats (total_size st) (u32 (used_size st - b_size b)) (u32 (free_size st + b_size b))
                 (if 0 <? num_allocations st then num_allocations st - 1 else num_allocations st)
                 (num_blocks st)) (set_is_free (b_addr b) 1 h) in
  heap_ok h1 (l1 ++ set_flag true b :: l2) /\ same_heap h h1 /\ header_frame (l1 ++ b :: l2) h h1.
Proof.
  intros Hinv Hb st h1. pose proof (inv_ok _ _ Hinv) as Hok.
  pose proof (ok_counts _ _ Hok) as Hct. pose proof (ok_parts _ _ _ _ Hok).
  pose proof (ok_bounds _ _ _ _ Hok) as (? & ? & ? & ? & ?). split; [|split; [by unfold same_heap; split_and!|]].
  - apply (set_flag_ok h l1 b l2 true); [done|]. unfold st. pose proof (ok_stats _ _ Hok) as Hst.
    unfold set_flag. assert (num_allocations (heap_stats h) = used_count (l1 ++ b :: l2)) as -> by by rewrite Hst.
    pose proof (used_count_range l1). pose proof (used_count_range l2).
    destruct (Z.ltb_spec 0 (used_count (l1 ++ b :: l2))) as [_|Hz]; cycle 1.
    { rewrite used_count_app, used_count_cons, Hb in Hz. lia. }
    solve_stats Hst.
  - intros x Hx. unfold h1. cbn [h_mem with_stats set_is_free with_mem]. unfold o_is_free.
    apply ld8_st8_ne. intros <-. apply Hx. exists b. split; [set_solver|lia].
Qed.

(** The state in which [kfree] calls [coalesce]. *)
Definition mark_free (b : blk) (h : heap) : heap :=
  let st := heap_stats h in
  with_stats (Stats (total_size st) (u32 (used_size st - b_size b)) (u32 (free_size st + b_size b))
                (if 0 <? num_allocations st then num_allocations st - 1 else num_allocations st)
                (num_blocks st)) (set_is_free (b_addr b) 1 h).

Lemma kfree_eq h l1 b l2 :
  heap_inv h (l1 ++ b :: l2) -> b_free b = false ->
  kfree (b_addr b + 24) h = coalesce (b_addr b) (mark_free b h).
Proof.
  intros [Hok Hne Hb8 Hm8 Hs8 Hco Hpm] Hb.
  pose proof (ok_bounds _ _ _ _ Hok) as (? & ? & ? & ? & ?). pose proof (ok_counts _ _ Hok).
  pose proof (ok_base _ _ Hok). pose proof (ok_lim _ _ Hok). pose proof (ok_cur _ _ Hok).
  unfold kfree. hdr_const. u32_simp.
  assert (heap_head h <> 0) as Hh by (rewrite (ok_head _ _ Hok); lia).
  assert (0 < b_size b) as Hpos.
  { unfold size8 in Hs8. rewrite Forall_forall in Hs8. apply Hs8. set_solver. }
  destruct (Z.eqb_spec (b_addr b + 24) 0); [lia|]. destruct (Z.eqb_spec (heap_head h) 0); [done|].
  destruct (Z.ltb_spec (b_addr b + 24) (heap_base_addr h + 24)); [lia|].
  destruct (Z.leb_spec (heap_base_addr h + heap_cur_size h) (b_addr b + 24)); [lia|]. cbn [orb]. cbv iota zeta.
  assert (kfree_block (b_addr b + 24) h = b_addr b) as ->.
  { unfold kfree_block. hdr_const. rewrite Z.add_simpl_r. by rewrite (blk_magic_ok _ _ _ _ Hok), Z.eqb_refl. }
  rewrite (blk_magic_ok _ _ _ _ Hok), Z.eqb_refl, (blk_free_ok _ _ _ _ Hok), Hb. cbn [negb orb]. cbv iota.
  assert (blk_size (set_is_free (b_addr b) 1 h) (b_addr b) = b_size b) as ->; [|done].
  pose proof (blk_size_ok _ _ _ _ Hok) as E. hdr_unfold. by mem_simp.
Qed.

Lemma kfree_post h l1 b l2 :
  heap_inv h (l1 ++ b :: l2) -> b_free b = false ->
  exists bs', heap_inv (kfree (b_addr b + 24) h) bs' /\ allocs bs' = allocs l1 ++ allocs l2 /\
    header_frame (l1 ++ b :: l2) h (kfree (b_addr b + 24) h) /\
    same_heap h (kfree (b_addr b + 24) h).
Proof.
  intros Hinv Hb. rewrite (kfree_eq h l1 b l2 Hinv Hb). pose proof Hinv as [Hok Hne Hb8 Hm8 Hs8 Hco Hpm].
  destruct (set_flag_free_step h l1 b l2 Hinv Hb) as (Hok1 & Hs1 & Hf1).
  fold (mark_free b h) in *. set (h1 := mark_free b h) in *.
  destruct (coalesce_spec h1 l1 (set_flag true b) l2 Hok1) as (bs' & Hf & Hc & c & Hc1 & _); [done| | |].
  { by eapply coalesced_prefix. }
  { by eapply coalesced_cons, coalesced_suffix. }
  cbn [b_addr set_flag] in Hf. destruct (Hs1) as (_ & E1 & _ & E2 & E3).
  exists bs'. split_and!.
  - apply (free_step_inv h1 (l1 ++ set_flag true b :: l2)); auto; rewrite ?E1, ?E2, ?E3; auto.
    + by destruct l1.
    + unfold size8 in *. rewrite Forall_app, Forall_cons in *. done.
    + intros ->. by apply not_elem_of_nil in Hc1.
  - rewrite (fs_allocs _ _ _ _ Hf), allocs_app. by rewrite allocs_cons_free.
  - intros x Hx. rewrite (fs_frame _ _ _ _ Hf), Hf1; auto. intros (d & Hd & Hx'). apply Hx.
    rewrite elem_of_app, elem_of_cons in Hd. destruct Hd as [Hd|[->|Hd]]; [exists d|exists b|exists d]; set_solver.
  - eapply same_heap_trans; [done|apply Hf].
Qed.

(** * Clients *)

(** [owns h p n]: the [n] bytes at [p] were handed out and not freed. *)
Definition region (b : blk) : Z * Z := (b_addr b + 24, b_size b).
Definition regions (bs : list blk) : list (Z * Z) := region <$> allocs bs.

(** [h] is a well-formed heap whose clients own exactly the regions [rs]. *)
Definition heap_repr (h : heap) (rs : list (Z * Z)) : Prop :=
  exists bs, heap_inv h bs /\ regions bs = rs.

Definition in_region (x : Z) (r : Z * Z) : Prop := r.1 <= x < r.1 + r.2.
Definition apart (r s : Z * Z) : Prop := r.1 + r.2 <= s.1 \/ s.1 + s.2 <= r.1.

Lemma live_byte_regions bs x : live_byte bs x <-> exists r, r ∈ regions bs /\ in_region x r.
Proof.
  unfold live_byte, regions, in_region, region, b_end. split.
  - intros (b & Hb & Hf & Hx). exists (b_addr b + 24, b_size b). split; [|simpl; lia].
    apply list_elem_of_fmap. exists b. rewrite elem_of_allocs. done.
  - intros (r & (b & -> & [Hf Hb]%elem_of_allocs)%list_elem_of_fmap & Hx). exists b. simpl in Hx.
    split_and!; auto; lia.
Qed.

(** Bytes outside a set of regions that the heap may not touch: those of
    other clients and those outside the heap's reserved range. *)
Definition preserves (h : heap) (rs : list (Z * Z)) (h' : heap) : Prop :=
  forall x, (exists r, r ∈ rs /\ in_region x r) \/
       x < heap_base_addr h \/ heap_base_addr h + heap_max_limit h <= x ->
  ld8 (h_mem h') x = ld8 (h_mem h) x.

Lemma keeps_preserves h bs h' : keeps_clients h bs h' -> preserves h (regions bs) h'.
Proof. intros Hk x Hx. apply Hk. unfold client_byte. by rewrite live_byte_regions. Qed.

Lemma regions_bounds h bs r :
  heap_inv h bs -> r ∈ regions bs ->
  r.1 mod 8 = 0 /\ 0 < r.2 /\ heap_base_addr h + 24 <= r.1 /\
  r.1 + r.2 <= heap_base_addr h + heap_cur_size h.
Proof.
  intros [Hok _ Hb8 _ Hs8 _ _] (b & -> & [_ Hb]%elem_of_allocs)%list_elem_of_fmap.
  destruct (seg_in _ _ _ _ _ _ b (ok_seg _ _ Hok) Hb) as (? & ? & _).
  pose proof (seg_addr8 _ _ _ _ _ _ _ (ok_seg _ _ Hok) Hs8 Hb8 Hb).
  pose proof (proj1 (Forall_forall _ _) Hs8 _ Hb) as [? _]. unfold b_end in *. simpl. zlia.
Qed.

(** The regions are in increasing address order, a header apart. *)
Lemma regions_sorted m prv a bs nxt stop :
  seg m prv a bs nxt stop -> StronglySorted (fun r s => r.1 + r.2 + 24 <= s.1) (regions bs).
Proof.
  revert prv a. induction bs as [|b bs IH]; intros prv a Hs; [constructor|].
  destruct Hs as (<- & Hz & _ & Hs). unfold regions. destruct (b_free b) eqn:Hb.
  { rewrite allocs_cons_free by done. by eapply IH. }
  rewrite allocs_cons_used by done. constructor; [by eapply IH|].
  apply Forall_forall. intros r (c & -> & [_ Hc]%elem_of_allocs)%list_elem_of_fmap.
  destruct (seg_in _ _ _ _ _ _ _ Hs Hc) as (? & _). simpl. lia.
Qed.

Lemma regions_apart h bs a1 r a2 s :
  heap_inv h bs -> regions bs = a1 ++ r :: a2 -> s ∈ a1 ++ a2 -> apart r s.
Proof.
  intros Hinv E Hs. pose proof (regions_sorted _ _ _ _ _ _ (ok_seg _ _ (inv_ok _ _ Hinv))) as H.
  rewrite E in H. clear E. unfold apart. apply elem_of_app in Hs as [Hs|Hs].
  - right. apply list_elem_of_split in Hs as (k1 & k2 & ->). induction k1 as [|k k1 IH].
    + apply StronglySorted_inv in H as [_ H]. rewrite Forall_forall in H.
      specialize (H r ltac:(set_solver)). simpl in H. lia.
    + apply IH. by apply StronglySorted_inv in H as [H _].
  - left. induction a1 as [|k a1 IH].
    + apply StronglySorted_inv in H as [_ H]. rewrite Forall_forall in H.
      specialize (H s Hs). simpl in H. lia.
    + apply IH. by apply StronglySorted_inv in H as [H _].
Qed.

Lemma regions_of_allocs bs a1 a2 : allocs bs = a1 ++ a2 -> regions bs = (region <$> a1) ++ (region <$> a2).
Proof. unfold regions. intros ->. by rewrite fmap_app. Qed.

(** [kmalloc], seen by the clients. *)
Lemma kmalloc_client h bs size :
  heap_inv h bs -> request_ok h size ->
  (kmalloc size h = Some (0, h) /\ Forall (fun c => fits (align8 size) c = false) bs /\
   heap_max_limit h < heap_cur_size h + align8 size + 24)
  \/ exists p n h' r1 r2, kmalloc size h = Some (p, h') /\ p <> 0 /\ p mod 8 = 0 /\ size <= n /\
     heap_base_addr h + 24 <= p /\ p + n <= heap_base_addr h' + heap_cur_size h' /\
     Forall (apart (p, n)) (regions bs) /\ grown h h' /\
     regions bs = r1 ++ r2 /\ heap_repr h' (r1 ++ (p, n) :: r2) /\ preserves h (regions bs) h'.
Proof.
  intros Hinv Hreq.
  destruct (kmalloc_post h bs size Hinv Hreq) as [H|(b & h' & bs' & -> & Hinv' & Hk & Hg & Hb & Hz & a1 & a2 & E1 & E2)];
    [by left|right].
  apply regions_of_allocs in E1. apply regions_of_allocs in E2. rewrite fmap_cons in E2.
  assert (region b ∈ regions bs') as Hin by (rewrite E2; set_solver).
  destruct (regions_bounds h' bs' _ Hinv' Hin) as (? & ? & ? & ?). simpl in *.
  pose proof (ok_base _ _ (inv_ok _ _ Hinv')).
  exists (b_addr b + 24), (b_size b), h', (region <$> a1), (region <$> a2). split_and!; auto; try lia.
  - destruct Hg as (<- & _). done.
  - apply Forall_forall. intros s Hs. rewrite E1 in Hs.
    exact (regions_apart h' bs' _ _ _ s Hinv' E2 Hs).
  - by exists bs'.
  - by apply keeps_preserves.
Qed.

(** A region of the list is that of a used block. *)
Lemma regions_split bs r1 p n r2 :
  regions bs = r1 ++ (p, n) :: r2 ->
  exists l1 b l2, bs = l1 ++ b :: l2 /\ b_free b = false /\ region b = (p, n) /\
    regions l1 = r1 /\ regions l2 = r2.
Proof.
  revert r1. induction bs as [|c bs IH]; intros r1 E; [by destruct r1|].
  unfold regions in E. destruct (b_free c) eqn:Hc.
  - rewrite allocs_cons_free in E by done. destruct (IH _ E) as (l1 & b & l2 & -> & ? & ? & <- & <-).
    exists (c :: l1), b, l2. split_and!; auto. unfold regions. by rewrite allocs_cons_free.
  - rewrite allocs_cons_used in E by done. destruct r1 as [|r r1]; simpl in E.
    + injection E as E1 E2 E3. exists [], c, bs. split_and!; auto. unfold region. congruence.
    + pose proof (f_equal (hd r) E) as E0. apply (f_equal tail) in E. cbn [hd tail fmap list_fmap] in *.
      destruct (IH _ E) as (l1 & b & l2 & -> & ? & ? & <- & <-).
      exists (c :: l1), b, l2. split_and!; auto. unfold regions. rewrite allocs_cons_used by done.
      by rewrite fmap_cons, E0.
Qed.

(** [kfree], seen by the clients. *)
Lemma kfree_client h r1 p n r2 :
  heap_repr h (r1 ++ (p, n) :: r2) ->
  heap_repr (kfree p h) (r1 ++ r2) /\ preserves h (r1 ++ (p, n) :: r2) (kfree p h) /\
  same_heap h (kfree p h).
Proof.
  intros (bs & Hinv & E). destruct (regions_split _ _ _ _ _ E) as (l1 & b & l2 & -> & Hb & Er & <- & <-).
  unfold region in Er. injection Er as <- <-.
  destruct (kfree_post h l1 b l2 Hinv Hb) as (bs' & Hinv' & Ea & Hf & Hs).
  split; [|split; [rewrite <- E|done]].
  - exists bs'. split; [done|]. exact (regions_of_allocs _ _ _ Ea).
  - apply keeps_preserves. intros x Hx. apply Hf. exact (client_not_header h _ x (inv_ok _ _ Hinv) Hx).
Qed.

(** What the header of a region says. *)
Lemma region_header h rs p n :
  heap_repr h rs -> (p, n) ∈ rs -> blk_magic h (p - 24) = HEAP_BLOCK_MAGIC /\ blk_size h (p - 24) = n.
Proof.
  intros (bs & Hinv & <-) (r1 & r2 & E)%list_elem_of_split.
  destruct (regions_split _ _ _ _ _ E) as (l1 & b & l2 & -> & Hb & Er & _).
  unfold region in Er. injection Er as <- <-. rewrite Z.add_simpl_r.
  pose proof (inv_ok _ _ Hinv) as Hok. by rewrite (blk_magic_ok _ _ _ _ Hok), (blk_size_ok _ _ _ _ Hok).
Qed.

(** The invariant reads headers only, so a client may write its own bytes. *)
Lemma seg_header_frame m m' prv a bs nxt stop :
  (forall x, in_header bs x -> ld8 m' x = ld8 m x) ->
  seg m prv a bs nxt stop -> seg m' prv a bs nxt stop.
Proof.
  revert prv a. induction bs as [|b bs IH]; intros prv a Hm Hs; [done|].
  destruct Hs as (<- & Hz & (H1 & H2 & H3 & H4 & H5) & Hs).
  assert (forall x, b_addr b <= x < b_addr b + 24 -> ld8 m' x = ld8 m x) as Hb.
  { intros x Hx. apply Hm. exists b. set_solver. }
  cbn [seg]. split_and!; auto.
  - unfold hdr. rewrite !(ld32_ext m' m) by (intros; apply Hb; lia). rewrite Hb by lia. done.
  - apply IH; [|done]. intros x (c & Hc & Hx). apply Hm. exists c. set_solver.
Qed.

Lemma client_write h rs m' :
  heap_repr h rs ->
  (forall x, ~ (exists r, r ∈ rs /\ in_region x r) -> ld8 m' x = ld8 (h_mem h) x) ->
  heap_repr (with_mem m' h) rs.
Proof.
  intros (bs & [Hok ? ? ? ? ? ?] & <-) Hm. exists bs. split; [|done]. split; auto.
  destruct Hok as [Hs ? ? ? ? ?]. split; auto. eapply seg_header_frame; [|exact Hs].
  intros x Hx. apply Hm. rewrite <- live_byte_regions. intros Hl. by eapply live_not_header.
Qed.

(** A region lies below 4 GiB and above the null page. *)
Lemma repr_region h rs r :
  heap_repr h rs -> r ∈ rs -> 4096 + 24 <= r.1 /\ 0 < r.2 /\ r.1 + r.2 < 4294967296 /\
  heap_base_addr h + 24 <= r.1 /\ r.1 + r.2 <= heap_base_addr h + heap_cur_size h.
Proof.
  intros (bs & Hinv & <-) Hr. destruct (regions_bounds h bs r Hinv Hr) as (_ & ? & ? & ?).
  destruct (inv_ok _ _ Hinv). lia.
Qed.

Lemma repr_sizes h rs :
  heap_repr h rs -> 4096 <= heap_base_addr h /\ heap_cur_size h <= heap_max_limit h /\
  heap_base_addr h + heap_max_limit h < 4294967296 /\ 0 <= heap_cur_size h.
Proof.
  intros (bs & [Hok _ _ _ _ _ _] & _). pose proof (ok_counts _ _ Hok). pose proof (lenZ_nonneg bs).
  destruct Hok. lia.
Qed.

(** * Initialisation *)

(** [heap_init_at] builds a well-formed heap with one free block and no
    client, for any 8-aligned region below 4 GiB that holds at least a header
    and a payload; [heap_init] is the instance at the kernel's addresses. *)
Lemma heap_init_at_inv base initial_size max_size m p :
  4096 <= base -> base mod 8 = 0 -> 32 <= initial_size <= max_size -> initial_size mod 8 = 0 ->
  max_size mod 8 = 0 -> base + max_size < 4294967296 -> pmm_wf p ->
  let h := heap_init_at base initial_size max_size m p in
  heap_inv h [Blk base (initial_size - 24) true] /\ heap_get_stats h = Stats initial_size 0 (initial_size - 24) 0 1 /\
  (forall x, x < base \/ base + 24 <= x -> ld8 (h_mem h) x = ld8 m x).
Proof.
  intros Hb Hb8 Hi Hi8 Hm8 Hend Hp h. unfold h, heap_init_at. hdr_const.
  rewrite (u32_id (initial_size - 24)) by lia. hdr_unfold. rewrite Z.add_0_r. split_and!.
  - split; auto; cbn [with_mem heap_base_addr heap_max_limit h_pmm]; auto.
    + split; cbn [with_mem h_mem heap_base_addr heap_max_limit heap_cur_size heap_head heap_stats]; auto; try lia.
      * cbn [seg b_addr b_size next_of]. split_and!; auto; try lia.
        unfold hdr. cbn [b_addr b_size b_free]. mem_simp.
        rewrite !u32_id by (unfold HEAP_BLOCK_MAGIC; lia). split_and!; reflexivity.
      * unfold stats_of. f_equal. cbn. lia.
    + constructor; [|done]. cbn. zlia.
    + done.
  - done.
  - intros x Hx. cbn [with_mem h_mem]. by mem_simp.
Qed.

Lemma heap_init_inv m p :
  pmm_wf p -> heap_inv (heap_init m p) [Blk HEAP_START (HEAP_INITIAL_SIZE - 24) true].
Proof.
  intros Hp. apply heap_init_at_inv; unfold HEAP_START, HEAP_INITIAL_SIZE, HEAP_MAX_SIZE; auto; lia || reflexivity.
Qed.

Lemma heap_init_repr m p : pmm_wf p -> heap_repr (heap_init m p) [].
Proof. intros Hp. by exists [Blk HEAP_START (HEAP_INITIAL_SIZE - 24) true]; split; [apply heap_init_inv|]. Qed.

(** The heap of the witnesses: the kernel's, just initialised. *)
Definition heap_example : heap := heap_init ∅ pmm_example.

Lemma heap_example_inv : heap_inv heap_example [Blk HEAP_START (HEAP_INITIAL_SIZE - 24) true].
Proof. exact (heap_init_inv ∅ pmm_example pmm_example_wf). Qed.
Lemma heap_example_repr : heap_repr heap_example [].
Proof. exact (heap_init_repr ∅ pmm_example pmm_example_wf). Qed.

Lemma heap_example_request size : 0 < size -> size <= 4000000000 -> request_ok heap_example size.
Proof.
  intros ? ?. split; [done|]. change (heap_max_limit heap_example) with 16777216. lia.
Qed.

(** * kmalloc *)

(** C3: on a well-formed heap, every request that cannot wrap 32-bit
    arithmetic returns.  Either the pointer is NULL, nothing changes, no free
    block is large enough and the heap has no room to grow by the request; or
    it is 8-byte aligned, points to at least [size] bytes inside the heap that
    overlap no region of another client, the heap is well-formed again with
    that region added, and no byte of another client or outside the heap has
    changed. *)
Theorem kmalloc_correct h bs size :
  heap_inv h bs -> request_ok h size ->
  (kmalloc size h = Some (0, h) /\ Forall (fun c => fits (align8 size) c = false) bs /\
   heap_max_limit h < heap_cur_size h + align8 size + 24)
  \/ exists p n h' r1 r2, kmalloc size h = Some (p, h') /\ p <> 0 /\ p mod 8 = 0 /\ size <= n /\
     heap_base_addr h + 24 <= p /\ p + n <= heap_base_addr h' + heap_cur_size h' /\
     Forall (apart (p, n)) (regions bs) /\ grown h h' /\
     regions bs = r1 ++ r2 /\ heap_repr h' (r1 ++ (p, n) :: r2) /\ preserves h (regions bs) h'.
Proof.
  apply kmalloc_client.
Qed.

Lemma kmalloc_correct_witness :
  heap_inv heap_example [Blk HEAP_START (HEAP_INITIAL_SIZE - 24) true] /\ request_ok heap_example 100 /\
  exists p h', kmalloc 100 heap_example = Some (p, h') /\ p mod 8 = 0.
Proof.
  assert (request_ok heap_example 100) as Hr by (apply heap_example_request; lia).
  split; [exact heap_example_inv|split; [exact Hr|]].
  destruct (kmalloc_correct heap_example _ 100 heap_example_inv Hr)
    as [(E & _)|(p & n & h' & r1 & r2 & E & _ & H8 & _)].
  - exists 0, heap_example. split; [exact E|reflexivity].
  - exists p, h'. split; [exact E|exact H8].
Defined.

(** * kfree *)

(** The header of a block that [coalesce] may swallow keeps its magic and its
    free flag: this is what makes a second [kfree] harmless. *)
Lemma coalesce_next_header h l1 p l2 :
  heap_ok h (l1 ++ p :: l2) ->
  blk_magic (coalesce_next (b_addr p) h) (b_addr p) = blk_magic h (b_addr p) /\
  blk_is_free (coalesce_next (b_addr p) h) (b_addr p) = blk_is_free h (b_addr p).
Proof.
  intros Hok. destruct l2 as [|b l].
  { unfold coalesce_next. by rewrite (blk_next_ok _ _ _ _ Hok). }
  destruct (ok_neighbours h l1 p b l Hok) as (Hok' & Ea & ? & ? & ? & ? & ? & ?).
  destruct (b_free b) eqn:Hb.
  - rewrite (coalesce_next_eq h l1 p b l) by done. unfold blk_magic, blk_is_free, o_magic, o_is_free.
    cbn [stats_merge with_stats with_mem h_mem]. unfold merge_mem. rewrite Z.add_0_r.
    rewrite relink_other by lia. rewrite (ld32_ext (relink _ _ _) (h_mem h)).
    + by mem_simp.
    + intros i Hi. rewrite relink_other by lia. by mem_simp.
  - unfold coalesce_next. rewrite (blk_next_ok _ _ _ _ Hok). simpl next_of.
    by rewrite (blk_free_ok _ _ _ _ Hok'), Hb, andb_false_r.
Qed.

Lemma coalesce_prev_header h l1 p l2 :
  heap_ok h (l1 ++ p :: l2) ->
  blk_magic (coalesce_prev (b_addr p) h) (b_addr p) = blk_magic h (b_addr p) /\
  blk_is_free (coalesce_prev (b_addr p) h) (b_addr p) = blk_is_free h (b_addr p).
Proof.
  intros Hok. destruct l1 as [|q l1 _] using rev_ind.
  { unfold coalesce_prev. by rewrite (blk_prev_ok _ _ _ _ Hok). }
  assert (heap_ok h (l1 ++ q :: p :: l2)) as Hok' by by rewrite <- app_assoc in Hok.
  destruct (ok_neighbours h l1 q p l2 Hok') as (_ & Ea & ? & ? & ? & ? & ? & ?).
  destruct (b_free q) eqn:Hq.
  - rewrite (coalesce_prev_eq h l1 q p l2) by done. unfold blk_magic, blk_is_free, o_magic, o_is_free.
    cbn [stats_merge with_stats with_mem h_mem]. unfold merge_mem. rewrite Z.add_0_r.
    rewrite relink_other by lia. rewrite (ld32_ext (relink _ _ _) (h_mem h)).
    + by mem_simp.
    + intros i Hi. rewrite relink_other by lia. by mem_simp.
  - unfold coalesce_prev. rewrite (blk_prev_ok _ _ _ _ Hok), last_of_app. simpl last_of.
    by rewrite (blk_free_ok _ _ _ _ Hok'), Hq, andb_false_r.
Qed.

Lemma coalesce_header h l1 p l2 :
  heap_ok h (l1 ++ p :: l2) -> b_free p = true -> coalesced l2 ->
  blk_magic (coalesce (b_addr p) h) (b_addr p) = HEAP_BLOCK_MAGIC /\
  blk_is_free (coalesce (b_addr p) h) (b_addr p) = true.
Proof.
  intros Hok Hp Hc. destruct (coalesce_next_spec h l1 p l2 Hok Hp Hc) as (p' & l2' & Hs & Ea & _).
  destruct (coalesce_prev_header _ l1 p' l2' (fs_ok _ _ _ _ Hs)) as [E1 E2]. rewrite Ea in *.
  destruct (coalesce_next_header h l1 p l2 Hok) as [E3 E4]. unfold coalesce.
  rewrite E1, E2, E3, E4. by rewrite (blk_magic_ok _ _ _ _ Hok), (blk_free_ok _ _ _ _ Hok).
Qed.

(** A header that reads as free makes [kfree] do nothing. *)
Lemma kfree_free_noop h p :
  blk_magic h (p - HEADER_SIZE) = HEAP_BLOCK_MAGIC -> blk_is_free h (p - HEADER_SIZE) = true -> kfree p h = h.
Proof.
  intros Hm Hf. unfold kfree, kfree_block. rewrite Hm, Z.eqb_refl. cbn [negb]. cbv iota zeta.
  rewrite Hm, Hf, Z.eqb_refl. by repeat case_goal.
Qed.

Lemma kfree_twice h l1 b l2 :
  heap_inv h (l1 ++ b :: l2) -> b_free b = false ->
  kfree (b_addr b + 24) (kfree (b_addr b + 24) h) = kfree (b_addr b + 24) h.
Proof.
  intros Hinv Hb. rewrite (kfree_eq h l1 b l2 Hinv Hb).
  destruct (set_flag_free_step h l1 b l2 Hinv Hb) as (Hok1 & _). fold (mark_free b h) in *.
  destruct (coalesce_header _ l1 (set_flag true b) l2 Hok1) as [E1 E2]; [done| |].
  { eapply coalesced_cons, coalesced_suffix, (inv_coal _ _ Hinv). }
  cbn [b_addr set_flag] in *. apply kfree_free_noop; hdr_const; by rewrite Z.add_simpl_r.
Qed.

(** C4: freeing a region that a client owns gives back exactly that region,
    keeps the heap well-formed (the neighbouring free blocks are merged),
    changes no byte of any client, and a second [kfree] of the same pointer
    changes nothing; NULL and pointers outside the heap are ignored. *)
Theorem kfree_correct h r1 p n r2 :
  heap_repr h (r1 ++ (p, n) :: r2) ->
  heap_repr (kfree p h) (r1 ++ r2) /\ preserves h (r1 ++ (p, n) :: r2) (kfree p h) /\
  kfree p (kfree p h) = kfree p h /\
  (forall q, q = 0 \/ q < heap_base_addr h + 24 \/ heap_base_addr h + heap_cur_size h <= q -> kfree q h = h).
Proof.
  intros Hr. pose proof (repr_sizes _ _ Hr) as (? & ? & ? & ?).
  pose proof (repr_region _ _ (p, n) Hr ltac:(set_solver)) as (? & ? & ? & ? & ?). cbn [fst snd] in *.
  destruct (kfree_client _ _ _ _ _ Hr) as (? & ? & _).
  split_and!; auto.
  - destruct Hr as (bs & Hinv & E). destruct (regions_split _ _ _ _ _ E) as (l1 & b & l2 & -> & Hb & Er & _).
    unfold region in Er. injection Er as <- <-. exact (kfree_twice h l1 b l2 Hinv Hb).
  - intros q Hq. unfold kfree. hdr_const. u32_simp.
    destruct (Z.eqb_spec q 0); [done|]. destruct (Z.eqb_spec (heap_head h) 0); [done|].
    destruct (Z.ltb_spec q (heap_base_addr h + 24)); [done|].
    destruct (Z.leb_spec (heap_base_addr h + heap_cur_size h) q); [done|lia].
Qed.

(** A heap with one client, for the witnesses. *)
Lemma heap_example_alloc_size size :
  0 < size <= 2000000 ->
  exists p n h, kmalloc size heap_example = Some (p, h) /\ size <= n /\ heap_repr h [(p, n)] /\
    heap_max_limit h = 16777216.
Proof.
  intros Hsz.
  destruct (kmalloc_client heap_example _ size heap_example_inv (heap_example_request size ltac:(lia) ltac:(lia)))
    as [(_ & H & _)|(p & n & h & r1 & r2 & E & _ & _ & Hz & _ & _ & _ & (_ & Hm & _) & Er & Hr & _)].
  - exfalso. apply Forall_cons in H as [H _]. destruct (align8_spec size ltac:(lia) ltac:(lia)) as [? _].
    unfold fits in H. cbn [b_free b_size andb] in H. unfold HEAP_INITIAL_SIZE in H. bool_to_prop. lia.
  - change (regions [Blk HEAP_START (HEAP_INITIAL_SIZE - 24) true]) with (@nil (Z * Z)) in Er.
    symmetry in Er. apply app_nil in Er as [-> ->]. exists p, n, h. split_and!; auto.
Qed.

Lemma heap_example_alloc :
  exists p n h, kmalloc 100 heap_example = Some (p, h) /\ 100 <= n /\ heap_repr h [(p, n)] /\
    heap_max_limit h = 16777216.
Proof. by apply heap_example_alloc_size. Qed.

Lemma kfree_correct_witness :
  exists p n h, heap_repr h ([] ++ (p, n) :: []) /\ heap_repr (kfree p h) [].
Proof.
  destruct heap_example_alloc as (p & n & h & _ & _ & Hr & _).
  exists p, n, h. split; [exact Hr|]. apply (kfree_correct h [] p n [] Hr).
Defined.

(** * krealloc, kzalloc *)

Lemma preserves_region h rs h' r x :
  preserves h rs h' -> r ∈ rs -> in_region x r -> ld8 (h_mem h') x = ld8 (h_mem h) x.
Proof. intros Hp Hr Hx. apply Hp. left. eauto. Qed.



(** [kzalloc] serves the same requests as [kmalloc], and the bytes it
    returns are all zero while no byte of another client has changed. *)
Theorem kzalloc_zeroed h bs size :
  heap_inv h bs -> request_ok h size ->
  kzalloc size h = Some (0, h) \/
  exists p n h' r1 r2, kzalloc size h = Some (p, h') /\ size <= n /\ regions bs = r1 ++ r2 /\
    heap_repr h' (r1 ++ (p, n) :: r2) /\ Forall (apart (p, n)) (regions bs) /\
    (forall i, 0 <= i < size -> ld8 (h_mem h') (p + i) = 0) /\ preserves h (regions bs) h'.
Proof.
  intros Hinv Hreq. unfold kzalloc. pose proof Hreq as [? _].
  destruct (kmalloc_client h bs size Hinv Hreq)
    as [(-> & _)|(p & n & h1 & r1 & r2 & -> & Hp & _ & Hz & ? & ? & Hap & Hg & Er & Hr & Hpr)]; [by left|right].
  cbn [mbind option_bind]. destruct (Z.eqb_spec p 0); [done|].
  pose proof (repr_region _ _ (p, n) Hr ltac:(set_solver)) as (? & ? & ? & _). cbn [fst snd] in *.
  rewrite memset_total by (unfold is_u8; lia). cbn [mbind option_bind].
  exists p, n, (with_mem (fill (h_mem h1) p 0 size) h1), r1, r2. split_and!; auto.
  - apply client_write; [done|]. intros x Hx. rewrite ld8_fill by lia. case_decide; [|done].
    destruct Hx. exists (p, n). split; [set_solver|]. unfold in_region. simpl. lia.
  - intros i Hi. cbn [with_mem h_mem]. rewrite ld8_fill by lia. by case_decide; [|lia].
  - intros x Hx. rewrite <- (Hpr x) by done. cbn [with_mem h_mem]. rewrite ld8_fill by lia.
    case_decide as Hd; [exfalso|done]. destruct Hx as [(r & Hr' & Hx)|Hx].
    + rewrite Forall_forall in Hap. specialize (Hap r Hr'). unfold apart, in_region in *. cbn [fst snd] in *. lia.
    + pose proof (repr_sizes _ _ Hr). destruct Hg as (? & ? & _). lia.
Qed.

Lemma kzalloc_zeroed_witness :
  heap_inv heap_example [Blk HEAP_START (HEAP_INITIAL_SIZE - 24) true] /\ request_ok heap_example 64 /\
  exists p h', kzalloc 64 heap_example = Some (p, h').
Proof.
  assert (request_ok heap_example 64) as Hr by (apply heap_example_request; lia).
  split; [exact heap_example_inv|split; [exact Hr|]].
  destruct (kzalloc_zeroed heap_example _ 64 heap_example_inv Hr) as [E|(p & n & h' & r1 & r2 & E & _)]; eauto.
Defined.

(** * kmalloc_aligned *)

(** Rounding up to a power of two, inside the slack that is allocated. *)
Lemma aligned_addr_spec addr k :
  0 <= k -> 0 <= addr -> addr + 2 ^ k < 4294967296 ->
  let a := Z.land (u32 (u32 (addr + 2 ^ k) - 1)) (Z.lnot (2 ^ k - 1)) in
  addr <= a < addr + 2 ^ k /\ a mod 2 ^ k = 0.
Proof.
  intros Hk Ha Hb a. destruct (ALIGN_UP_bounds addr k Hk Ha ltac:(lia)) as [H1 H2].
  split; [exact H1|]. apply Z.mod_divide; [lia|exact H2].
Qed.

(** [kfree] finds the raw pointer under an aligned one. *)
Lemma kfree_aligned h p raw n :
  (exists rs, heap_repr h rs /\ (raw, n) ∈ rs) ->
  blk_magic h (p - 24) <> HEAP_BLOCK_MAGIC ->
  ld32 (h_mem h) (p - 8) = raw /\ ld32 (h_mem h) (p - 4) = HEAP_ALIGNED_MAGIC ->
  raw + 8 <= p < raw + n -> kfree p h = kfree raw h.
Proof.
  intros (rs & Hr & Hin) Hnm [E1 E2] Hp.
  pose proof (repr_region _ _ (raw, n) Hr Hin) as (? & ? & ? & ? & ?). cbn [fst snd] in *.
  pose proof (repr_sizes _ _ Hr) as (? & ? & ? & ?). destruct (region_header _ _ _ _ Hr Hin) as [Hmg _].
  assert (kfree_block p h = raw - 24) as Eb.
  { unfold kfree_block. hdr_const. destruct (Z.eqb_spec (blk_magic h (p - 24)) HEAP_BLOCK_MAGIC); [done|].
    cbn [negb]. rewrite E1, E2, Z.eqb_refl. u32_simp.
    destruct (Z.leb_spec (heap_base_addr h + 24 + 8) p); [|lia].
    destruct (Z.leb_spec (heap_base_addr h + 24) raw); [|lia].
    by destruct (Z.ltb_spec raw (heap_base_addr h + heap_cur_size h)); [|lia]. }
  assert (kfree_block raw h = raw - 24) as Eb'.
  { unfold kfree_block. hdr_const. by rewrite Hmg, Z.eqb_refl. }
  unfold kfree. rewrite Eb, Eb'. hdr_const. u32_simp.
  destruct (Z.eqb_spec p 0); [lia|]. destruct (Z.eqb_spec raw 0); [lia|].
  destruct (Z.ltb_spec p (heap_base_addr h + 24)); [lia|]. destruct (Z.ltb_spec raw (heap_base_addr h + 24)); [lia|].
  destruct (Z.leb_spec (heap_base_addr h + heap_cur_size h) p); [lia|].
  by destruct (Z.leb_spec (heap_base_addr h + heap_cur_size h) raw); [lia|].
Qed.

(** [kmalloc_aligned] with a power-of-two alignment returns NULL or a
    pointer that is a multiple of it, with [size] bytes inside a fresh region
    and the raw pointer and the tag stored below it; [kfree] of the aligned
    pointer then frees that region whenever the word 24 bytes below the
    pointer is not by accident the block magic. *)
Theorem kmalloc_aligned_correct h bs size k :
  heap_inv h bs -> 3 <= k < 32 -> 0 <= size -> request_ok h (size + 2 ^ k + 8) ->
  kmalloc_aligned size (2 ^ k) h = Some (0, h) \/
  exists p raw n h' r1 r2, kmalloc_aligned size (2 ^ k) h = Some (p, h') /\ p mod 2 ^ k = 0 /\
    regions bs = r1 ++ r2 /\ heap_repr h' (r1 ++ (raw, n) :: r2) /\ preserves h (regions bs) h' /\
    raw + 8 <= p /\ p + size <= raw + n /\
    ld32 (h_mem h') (p - 8) = raw /\ ld32 (h_mem h') (p - 4) = HEAP_ALIGNED_MAGIC /\
    (blk_magic h' (p - 24) <> HEAP_BLOCK_MAGIC -> kfree p h' = kfree raw h').
Proof.
  intros Hinv Hk Hs Hreq. pose proof Hreq as [? ?]. pose proof (inv_ok _ _ Hinv) as Hok.
  pose proof (ok_counts _ _ Hok). pose proof (ok_cur _ _ Hok). pose proof (lenZ_nonneg bs).
  assert (8 <= 2 ^ k) by (change 8 with (2 ^ 3); apply Z.pow_le_mono_r; lia).
  unfold kmalloc_aligned. destruct (Z.ltb_spec (2 ^ k) 8); [lia|].
  rewrite IS_POWER_OF_2_pow by lia. cbn [negb]. cbv iota zeta.
  rewrite (u32_id (size + 2 ^ k)), u32_id by lia.
  destruct (kmalloc_client h bs _ Hinv Hreq)
    as [(-> & _)|(raw & n & h1 & r1 & r2 & -> & Hp & _ & Hz & ? & ? & Hap & Hg & Er & Hr & Hpr)]; [by left|right].
  cbn [mbind option_bind]. destruct (Z.eqb_spec raw 0); [done|].
  pose proof (repr_region _ _ (raw, n) Hr ltac:(set_solver)) as (? & ? & ? & ? & ?).
  pose proof (repr_sizes _ _ Hr). cbn [fst snd] in *.
  rewrite (u32_id (raw + 8)) by lia.
  pose proof (aligned_addr_spec (raw + 8) k ltac:(lia) ltac:(lia) ltac:(lia)) as [Ha Hm].
  set (p := Z.land _ _) in *.
  set (h' := with_mem _ h1).
  assert (ld32 (h_mem h') (p - 8) = raw /\ ld32 (h_mem h') (p - 4) = HEAP_ALIGNED_MAGIC) as [E1 E2].
  { cbn [h' with_mem h_mem]. mem_simp. by rewrite u32_id by lia. }
  assert (forall x, ~ raw <= x < raw + n -> ld8 (h_mem h') x = ld8 (h_mem h1) x) as Hx.
  { intros x Hx. cbn [h' with_mem h_mem]. by mem_simp. }
  exists p, raw, n, h', r1, r2. split_and!; auto; try lia.
  - apply client_write; [done|]. intros x Hnx. apply Hx. intros Hin. apply Hnx.
    exists (raw, n). split; [set_solver|]. unfold in_region. simpl. lia.
  - intros x Hc. rewrite <- (Hpr x) by done. apply Hx. intros Hin. destruct Hc as [(r & Hr' & Hc)|Hc].
    + rewrite Forall_forall in Hap. specialize (Hap r Hr'). unfold apart, in_region in *. cbn [fst snd] in *. lia.
    + destruct Hg as (? & ? & _). lia.
  - intros Hnm. apply (kfree_aligned _ _ raw n); [|done|done|].
    + exists (r1 ++ (raw, n) :: r2). split; [|set_solver].
      apply client_write; [done|]. intros x Hnx. apply Hx. intros Hin. apply Hnx.
      exists (raw, n). split; [set_solver|]. unfold in_region. simpl. lia.
    + lia.
Qed.

Lemma kmalloc_aligned_correct_witness :
  heap_inv heap_example [Blk HEAP_START (HEAP_INITIAL_SIZE - 24) true] /\ 3 <= 12 < 32 /\ 0 <= 4096 /\ request_ok heap_example (4096 + 2 ^ 12 + 8) /\ exists p h', kmalloc_aligned 4096 (2 ^ 12) heap_example = Some (p, h') /\ p mod 2 ^ 12 = 0.
Proof.
  assert (request_ok heap_example (4096 + 2 ^ 12 + 8)) as Hr by (apply heap_example_request; lia).
  split; [exact heap_example_inv|]. split; [lia|]. split; [lia|]. split; [exact Hr|].
  destruct (kmalloc_aligned_correct heap_example _ 4096 12 heap_example_inv ltac:(lia) ltac:(lia) Hr)
    as [E|(p & raw & n & h' & r1 & r2 & E & Hm & _)]; [exists 0, heap_example|exists p, h'];
    (split; [exact E|]); [reflexivity|exact Hm].
Defined.
