(* ===== verification/HeapRun.v ===== *)
(** HeapRun: the heap over whole executions.

    [heap_reach] is the transition system of a kernel that calls [kmalloc],
    [kfree] and writes the memory it owns; its safety is proved by rule
    induction.  The [Allocator] class states what a client may rely on, with
    the heap as its instance.  The last section evaluates the arithmetic of
    [kmalloc] on requests outside the range the contract covers. *)

From S2P Require Import Prelude Memory Common Pmm Heap HeapInv HeapSpec.

(** * Integrity check and counters *)

Lemma heap_check_ok h bs : heap_inv h bs -> heap_check h = Some true.
Proof.
  intros [Hok Hne _ _ _ _ _]. unfold heap_check.
  replace (heap_head h) with (next_of bs 0); cycle 1.
  { rewrite (ok_head _ _ Hok). destruct bs as [|b bs]; [done|]. simpl. by destruct (ok_seg _ _ Hok) as (-> & _). }
  pose proof (ok_fuel h bs Hok).
  assert (forall fuel c, while_fuel fuel
      (fun c => negb (c =? 0) && (blk_magic h c =? HEAP_BLOCK_MAGIC)) (fun c => blk_next h c) c =
    while_fuel fuel (fun c => negb (c =? 0) && negb (negb (blk_magic h c =? HEAP_BLOCK_MAGIC)))
      (fun c => blk_next h c) c) as E.
  { induction fuel as [|fuel IH]; intros c; cbn [while_fuel]; rewrite negb_involutive; [done|].
    case_goal; [apply IH|done]. }
  rewrite E.
  destruct (walk_list h [] bs (fun c => negb (blk_magic h c =? HEAP_BLOCK_MAGIC)) (heap_fuel h))
    as [(k1 & b & k2 & -> & _ & Hb & _)|(_ & ->)]; [done|lia| |done].
  by rewrite (blk_magic_ok h k1 k2 b Hok), Z.eqb_refl in Hb.
Qed.

Definition sum_sizes (rs : list (Z * Z)) : Z := foldr (fun r n => r.2 + n) 0 rs.

Lemma used_bytes_regions bs : used_bytes bs = sum_sizes (regions bs).
Proof.
  unfold regions. induction bs as [|b bs IH]; [done|]. rewrite used_bytes_cons, IH.
  destruct (b_free b) eqn:E; [by rewrite allocs_cons_free|by rewrite allocs_cons_used].
Qed.

Lemma used_count_regions bs : used_count bs = lenZ (regions bs).
Proof.
  unfold regions. induction bs as [|b bs IH]; [done|]. rewrite used_count_cons, IH.
  destruct (b_free b) eqn:E; [by rewrite allocs_cons_free|].
  rewrite allocs_cons_used, fmap_cons, lenZ_cons by done. lia.
Qed.

Lemma repr_stats h rs :
  heap_repr h rs -> let st := heap_get_stats h in
  total_size st = heap_cur_size h /\ used_size st = sum_sizes rs /\ num_allocations st = lenZ rs /\
  used_size st + free_size st + 24 * num_blocks st = total_size st.
Proof.
  intros (bs & [Hok _ _ _ _ _ _] & <-). unfold heap_get_stats. rewrite (ok_stats _ _ Hok).
  pose proof (ok_counts _ _ Hok). cbn. rewrite <- used_bytes_regions, <- used_count_regions.
  split_and!; auto; lia.
Qed.

(** * Executions *)

Inductive heap_reach : heap -> list (Z * Z) -> Prop :=
| reach_init m p : pmm_wf p -> heap_reach (heap_init m p) []
| reach_alloc h rs size p h' :
    heap_reach h rs -> request_ok h size -> kmalloc size h = Some (p, h') -> p <> 0 ->
    heap_reach h' ((p, blk_size h' (p - HEADER_SIZE)) :: rs)
| reach_alloc_null h rs size h' :
    heap_reach h rs -> request_ok h size -> kmalloc size h = Some (0, h') -> heap_reach h' rs
| reach_free h rs rs' p n :
    heap_reach h rs -> rs ≡ₚ (p, n) :: rs' -> heap_reach (kfree p h) rs'
| reach_write h rs m' :
    heap_reach h rs ->
    (forall x, ~ (exists r, r ∈ rs /\ in_region x r) -> ld8 m' x = ld8 (h_mem h) x) ->
    heap_reach (with_mem m' h) rs.

Lemma heap_reach_repr h rs : heap_reach h rs -> exists rs', rs' ≡ₚ rs /\ heap_repr h rs'.
Proof.
  induction 1 as [m p Hp|h rs size p h' _ (rs' & Hp & Hr) Hq E Hn|h rs size h' _ (rs' & Hp & Hr) Hq E
    |h rs rs2 p n _ (rs' & Hp & Hr) Hperm|h rs m' _ (rs' & Hp & Hr) Hm].
  - exists []. split; [done|]. by apply heap_init_repr.
  - destruct Hr as (bs & Hinv & <-).
    destruct (kmalloc_client h bs size Hinv Hq) as [(E' & _)|(q & n & h1 & r1 & r2 & E' & _ & _ & _ & _ & _ & _ & _ & Er & Hr & _)];
      rewrite E in E'; injection E' as -> ->; [done|].
    destruct (region_header _ _ q n Hr ltac:(set_solver)) as [_ Hz]. hdr_const. rewrite Hz.
    exists (r1 ++ (q, n) :: r2). split; [|done]. rewrite <- Permutation_middle, <- Er. by f_equiv.
  - destruct Hr as (bs & Hinv & <-).
    destruct (kmalloc_client h bs size Hinv Hq) as [(E' & _)|(q & n & h1 & r1 & r2 & E' & Hq' & _)];
      rewrite E in E'; [injection E' as ->|by injection E' as <- _]. eexists. split; [done|]. by exists bs.
  - assert ((p, n) ∈ rs') as (c1 & c2 & ->)%list_elem_of_split.
    { rewrite Hp, Hperm. set_solver. }
    exists (c1 ++ c2). split; [|by apply (kfree_client h c1 p n c2)].
    apply (Permutation_cons_inv (a := (p, n))). by rewrite Permutation_middle, Hp, Hperm.
  - exists rs'. split; [done|]. apply client_write; [done|]. intros x Hx. apply Hm.
    intros (r & Hr' & Hx'). apply Hx. exists r. by rewrite Hp.
Qed.

(** C6: in every state reachable from [heap_init] by allocations, frees and
    writes of clients to their own regions, in any order, the regions handed
    out and not yet freed are pairwise disjoint, aligned and inside the heap,
    the integrity check succeeds, and the statistics are exact: [used_size]
    and [num_allocations] are those of the live regions, and used bytes, free
    bytes and headers add up to the heap size. *)
Theorem heap_reach_safe h rs :
  heap_reach h rs ->
  (forall r1 r r2, rs ≡ₚ r1 ++ r :: r2 -> Forall (apart r) (r1 ++ r2)) /\
  Forall (fun r => r.1 mod 8 = 0 /\ heap_base_addr h + 24 <= r.1 /\
                   r.1 + r.2 <= heap_base_addr h + heap_cur_size h) rs /\
  heap_check h = Some true /\
  let st := heap_get_stats h in
  used_size st = sum_sizes rs /\ num_allocations st = lenZ rs /\
  used_size st + free_size st + 24 * num_blocks st = total_size st.
Proof.
  intros (rs' & Hp & Hr)%heap_reach_repr. split; [|split; [|split]].
  - intros r1 r r2 E. apply Forall_forall. intros s Hs. destruct Hr as (bs & Hinv & Er).
    assert (r ∈ rs') as (c1 & c2 & ->)%list_elem_of_split by (rewrite Hp, E; set_solver).
    apply (regions_apart h bs c1 r c2 s Hinv Er).
    assert (c1 ++ c2 ≡ₚ r1 ++ r2) as ->; [|done].
    apply (Permutation_cons_inv (a := r)). by rewrite !Permutation_middle, Hp.
  - rewrite <- Hp. apply Forall_forall. intros r Hin. destruct Hr as (bs & Hinv & <-).
    destruct (regions_bounds h bs r Hinv Hin) as (? & ? & ? & ?). done.
  - destruct Hr as (bs & Hinv & _). by apply (heap_check_ok h bs).
  - destruct (repr_stats _ _ Hr) as (_ & E1 & E2 & E3). cbv zeta. split; [|split; [|done]].
    + rewrite E1. clear -Hp. induction Hp; simpl in *; lia.
    + rewrite E2. unfold lenZ. by rewrite Hp.
Qed.

Lemma heap_reach_safe_witness :
  exists h rs, heap_reach h rs /\ rs <> [] /\ heap_check h = Some true.
Proof.
  destruct heap_example_alloc as (p & n & h & E & _ & Hr & _).
  assert (p <> 0) as Hp.
  { pose proof (repr_region h _ (p, n) Hr ltac:(set_solver)) as (H & _). simpl in H. lia. }
  assert (heap_reach h [(p, blk_size h (p - HEADER_SIZE))]) as H.
  { apply (reach_alloc heap_example [] 100 p h); auto.
    - apply reach_init. exact pmm_example_wf.
    - apply heap_example_request; lia. }
  exists h, [(p, blk_size h (p - HEADER_SIZE))]. split; [exact H|split; [discriminate|]].
  apply (heap_reach_safe h _ H).
Defined.

(** * The contract as an interface *)

(** What a client of a heap may rely on.  [al_repr s rs] says that [s] is a
    good state in which the regions [rs] are handed out, [al_load] reads a
    byte. *)
Class Allocator (S : Type) := {
  al_alloc : Z -> S -> option (Z * S);
  al_zalloc : Z -> S -> option (Z * S);
  al_free : Z -> S -> S;
  al_load : S -> Z -> Z;
  al_st32 : Z -> Z -> S -> S;
  al_repr : S -> list (Z * Z) -> Prop;
  al_request : S -> Z -> Prop;
  al_alloc_law s rs n :
    al_repr s rs -> al_request s n ->
    exists p s', al_alloc n s = Some (p, s') /\
      (forall x r, r ∈ rs -> in_region x r -> al_load s' x = al_load s x) /\
      (forall k, al_request s k -> al_request s' k) /\
      ((p = 0 /\ al_repr s' rs) \/
       (p <> 0 /\ exists k rs', n <= k /\ rs' ≡ₚ (p, k) :: rs /\ Forall (apart (p, k)) rs /\ al_repr s' rs'));
  al_zalloc_law s rs n :
    al_repr s rs -> al_request s n ->
    exists p s', al_zalloc n s = Some (p, s') /\
      (forall x r, r ∈ rs -> in_region x r -> al_load s' x = al_load s x) /\
      (forall k, al_request s k -> al_request s' k) /\
      ((p = 0 /\ al_repr s' rs) \/
       (p <> 0 /\ exists k rs', n <= k /\ rs' ≡ₚ (p, k) :: rs /\ Forall (apart (p, k)) rs /\ al_repr s' rs' /\
          0 < p /\ p + k < 4294967296));
  al_st32_law s rs a v r :
    al_repr s rs -> r ∈ rs -> r.1 <= a -> a + 4 <= r.1 + r.2 ->
    al_repr (al_st32 a v s) rs /\ (forall k, al_request s k -> al_request (al_st32 a v s) k) /\
    (forall x, x < a \/ a + 4 <= x -> al_load (al_st32 a v s) x = al_load s x) /\
    al_load (al_st32 a v s) a + al_load (al_st32 a v s) (a + 1) * 256 +
      al_load (al_st32 a v s) (a + 2) * 65536 + al_load (al_st32 a v s) (a + 3) * 16777216 = u32 v;
  al_free_law s rs p k rs0 :
    al_repr s rs -> rs ≡ₚ (p, k) :: rs0 ->
    (forall x r, r ∈ rs0 -> in_region x r -> al_load (al_free p s) x = al_load s x) /\
    (forall k, al_request s k -> al_request (al_free p s) k) /\
    exists rs', rs' ≡ₚ rs0 /\ al_repr (al_free p s) rs'
}.

Lemma heap_alloc_law h rs n :
  heap_repr h rs -> request_ok h n ->
  exists p h', kmalloc n h = Some (p, h') /\
    (forall x r, r ∈ rs -> in_region x r -> ld8 (h_mem h') x = ld8 (h_mem h) x) /\
    (forall k, request_ok h k -> request_ok h' k) /\
    ((p = 0 /\ heap_repr h' rs) \/
     (p <> 0 /\ exists k rs', n <= k /\ rs' ≡ₚ (p, k) :: rs /\ Forall (apart (p, k)) rs /\ heap_repr h' rs')).
Proof.
  intros (bs & Hinv & <-) Hq. destruct (kmalloc_client h bs n Hinv Hq)
    as [(E & _)|(p & k & h' & r1 & r2 & E & Hp & _ & Hk & _ & _ & Hap & (_ & Hm & _) & Er & Hr & Hpr)].
  - exists 0, h. split_and!; auto. left. split; [done|]. by exists bs.
  - exists p, h'. split_and!; auto.
    + intros x r Hin Hx. by apply (preserves_region h (regions bs) h' r).
    + unfold request_ok. by rewrite Hm.
    + right. split; [done|]. exists k, (r1 ++ (p, k) :: r2). split_and!; auto.
      by rewrite <- Permutation_middle, <- Er.
Qed.

Lemma heap_zalloc_law h rs n :
  heap_repr h rs -> request_ok h n ->
  exists p h', kzalloc n h = Some (p, h') /\
    (forall x r, r ∈ rs -> in_region x r -> ld8 (h_mem h') x = ld8 (h_mem h) x) /\
    (forall k, request_ok h k -> request_ok h' k) /\
    ((p = 0 /\ heap_repr h' rs) \/
     (p <> 0 /\ exists k rs', n <= k /\ rs' ≡ₚ (p, k) :: rs /\ Forall (apart (p, k)) rs /\ heap_repr h' rs' /\
        0 < p /\ p + k < 4294967296)).
Proof.
  intros Hr Hq. pose proof Hq as [Hn _].
  destruct (heap_alloc_law h rs n Hr Hq) as (p & h1 & E & Hk & Hrq & Hc). unfold kzalloc. rewrite E.
  cbn [mbind option_bind]. destruct Hc as [[-> Hr1]|(Hp & k & rs' & Hnk & Hperm & Hap & Hr1)].
  { exists 0, h1. split_and!; auto. }
  destruct (Z.eqb_spec p 0); [done|]. assert ((p, k) ∈ rs') as Hin by (rewrite Hperm; set_solver).
  pose proof (repr_region _ _ _ Hr1 Hin) as (? & ? & ? & _). cbn [fst snd] in *.
  rewrite memset_total by (unfold is_u8; lia). cbn [mbind option_bind].
  exists p, (with_mem (fill (h_mem h1) p 0 n) h1). split_and!; auto.
  - intros x r Hr' Hx. rewrite <- (Hk x r) by done. cbn [with_mem h_mem]. rewrite ld8_fill by lia.
    case_decide; [|done]. rewrite Forall_forall in Hap. specialize (Hap r Hr'). unfold apart, in_region in *.
    cbn [fst snd] in *. lia.
  - right. split; [done|]. exists k, rs'. split_and!; auto; try lia.
    apply client_write; [done|]. intros x Hx. rewrite ld8_fill by lia. case_decide; [|done].
    destruct Hx. exists (p, k). split; [done|]. unfold in_region. simpl. lia.
Qed.

Lemma heap_st32_law h rs a v r :
  let h' := with_mem (st32 (h_mem h) a v) h in
  heap_repr h rs -> r ∈ rs -> r.1 <= a -> a + 4 <= r.1 + r.2 ->
  heap_repr h' rs /\ (forall k, request_ok h k -> request_ok h' k) /\
  (forall x, x < a \/ a + 4 <= x -> ld8 (h_mem h') x = ld8 (h_mem h) x) /\
  ld8 (h_mem h') a + ld8 (h_mem h') (a + 1) * 256 + ld8 (h_mem h') (a + 2) * 65536 +
    ld8 (h_mem h') (a + 3) * 16777216 = u32 v.
Proof.
  intros h' Hr Hin Hlo Hhi. split_and!; auto.
  - apply client_write; [done|]. intros x Hx. apply ld8_st32_ne.
    destruct (decide (a <= x < a + 4)); [|lia]. destruct Hx. exists r. split; [done|]. unfold in_region. lia.
  - intros x Hx. cbn [h' with_mem h_mem]. by apply ld8_st32_ne.
  - cbn [h' with_mem h_mem]. rewrite <- (ld32_st32_eq (h_mem h) a v). unfold ld32. lia.
Qed.

Lemma heap_free_law h rs p k rs0 :
  heap_repr h rs -> rs ≡ₚ (p, k) :: rs0 ->
  (forall x r, r ∈ rs0 -> in_region x r -> ld8 (h_mem (kfree p h)) x = ld8 (h_mem h) x) /\
  (forall n, request_ok h n -> request_ok (kfree p h) n) /\
  exists rs', rs' ≡ₚ rs0 /\ heap_repr (kfree p h) rs'.
Proof.
  intros Hr Hp. assert ((p, k) ∈ rs) as (r1 & r2 & ->)%list_elem_of_split by (rewrite Hp; set_solver).
  assert (r1 ++ r2 ≡ₚ rs0) as Hp'.
  { apply (Permutation_cons_inv (a := (p, k))). by rewrite Permutation_middle. }
  destruct (kfree_client h r1 p k r2 Hr) as (Hr' & Hpr & (_ & _ & _ & Hm & _)). split_and!.
  - intros x r Hin Hx. rewrite <- Hp' in Hin. apply (preserves_region h _ _ r x Hpr); [set_solver|done].
  - unfold request_ok. by rewrite Hm.
  - eauto.
Qed.

#[export] Instance heap_allocator : Allocator heap := {
  al_alloc := kmalloc;
  al_zalloc := kzalloc;
  al_free := kfree;
  al_load := fun h x => ld8 (h_mem h) x;
  al_st32 := fun a v h => with_mem (st32 (h_mem h) a v) h;
  al_repr := heap_repr;
  al_request := request_ok;
  al_alloc_law := heap_alloc_law;
  al_zalloc_law := heap_zalloc_law;
  al_st32_law := heap_st32_law;
  al_free_law := heap_free_law
}.

(** * Requests outside the contract *)

(** Adding 7 to a size of the last 7 bytes of the address space wraps, so the
    rounded size is 0. *)
Lemma align8_wrap size : 4294967289 <= size < 4294967296 -> align8 size = 0.
Proof.
  intros Hs. unfold align8. replace (u32 (size + 7)) with (size + 7 - 4294967296) by (unfold u32; zlia).
  rewrite (land_lnot_ones _ 3) by lia. change (2 ^ 3) with 8. zlia.
Qed.

(** A request of 0xFFFFFFF9 bytes or more is not refused: its size is
    rounded to 0, and [kmalloc] on a fresh heap returns a non-NULL pointer to
    an empty block. *)
Theorem kmalloc_wraps_to_empty size m p :
  pmm_wf p -> 4294967289 <= size < 4294967296 ->
  exists h', kmalloc size (heap_init m p) = Some (HEAP_START + HEADER_SIZE, h') /\
    blk_size h' HEAP_START = 0 /\ blk_is_free h' HEAP_START = false.
Proof.
  intros Hp Hs. pose proof (heap_init_inv m p Hp) as Hinv. pose proof (inv_ok _ _ Hinv) as Hok.
  set (h := heap_init m p) in *. set (b := Blk _ _ true) in *.
  unfold kmalloc. destruct (Z.eqb_spec size 0); [lia|]. change (heap_head h =? 0) with false.
  rewrite align8_wrap by done. cbn [orb]. cbv iota zeta.
  destruct (find_free_block_spec h [b] 0 Hok) as [(l1 & c & l2 & E & _ & _ & ->)|(Hn & _)]; [done| |].
  2: { apply Forall_cons in Hn as [Hn _]. discriminate. }
  assert (c = b) as -> by (destruct l1 as [|? [|? ?]]; simpl in E; congruence).
  cbn [mbind option_bind]. change (b_addr b =? 0) with false. cbv iota. cbn [mbind option_bind].
  change (b_addr b =? 0) with false. cbv iota.
  destruct (kmalloc_take_spec h [] b [] 0 Hok eq_refl) as (E1 & Hok' & _); [simpl; unfold HEAP_INITIAL_SIZE; lia|].
  destruct (kmalloc_take (b_addr b) 0 h) as [q h']. cbn [fst snd] in *. subst q. exists h'.
  rewrite take_blocks_split in Hok' by done.
  pose proof (blk_size_ok _ _ _ _ Hok') as E2. pose proof (blk_free_ok _ _ _ _ Hok') as E3.
  split; [done|]. split; [exact E2|exact E3].
Qed.

Lemma kmalloc_wraps_to_empty_witness :
  pmm_wf pmm_example /\ exists h', kmalloc 4294967295 (heap_init ∅ pmm_example) = Some (HEAP_START + HEADER_SIZE, h').
Proof.
  split; [exact pmm_example_wf|].
  destruct (kmalloc_wraps_to_empty 4294967295 ∅ pmm_example pmm_example_wf) as (h' & E & _); [lia|].
  exists h'. exact E.
Defined.
