(* ===== verification/Disk.v ===== *)
(** Disk: the ATA PIO driver and the live RAM disk of [kernel/disk.c].

    The controller is hardware: its ports are an interface ([Ports]) that the
    driver is written against.  Sector buffers are local arrays of the callers
    and are modelled as lists of 512 bytes; the RAM disk is the block of heap
    memory that [disk_enable_ramdisk] allocates. *)

From S2P Require Import Prelude Ports Memory Common Pmm Heap HeapInv HeapSpec.
#[local] Open Scope kernel_scope.

Definition SECTOR_SIZE : Z := 512.
Definition ATA_MAX_RETRIES : Z := 3.
Definition ATA_TIMEOUT : Z := 200000.
Definition RAMDISK_SECTORS : Z := 1024.
Definition ATA_STATUS_BSY : Z := 128.
Definition ATA_STATUS_DRDY : Z := 64.
Definition ATA_STATUS_DF : Z := 32.
Definition ATA_STATUS_DRQ : Z := 8.
Definition ATA_STATUS_ERR : Z := 1.
Definition ATA_TYPE_NONE : Z := 0.
Definition ATA_TYPE_ATA : Z := 1.
Definition ATA_TYPE_ATAPI : Z := 2.

Record ata_drive_t := AtaDrive {
  drive_type : Z;
  channel : Z;
  is_master : Z;
  is_lba48 : Z;
  sectors_28 : Z;
  sectors_48 : Z;
  model : list Z;
  serial : list Z;
  firmware : list Z;
  pio_mode : Z;
  dma_mode : Z;
  present : bool
}.

Definition ata_base_port (channel : Z) : Z := if channel =? 0 then 496 else 368.
Definition ata_ctrl_port (channel : Z) : Z := if channel =? 0 then 1014 else 886.

(** [trim_ata_string(str, max_len)] on the first [max_len] characters: cut at
    the first NUL, drop trailing and leading blanks. *)
Fixpoint cut_nul (s : list Z) : list Z :=
  match s with [] => [] | c :: s => if c =? 0 then [] else c :: cut_nul s end.
Fixpoint skip_blanks (s : list Z) : list Z :=
  match s with c :: s' => if c =? 32 then skip_blanks s' else s | [] => [] end.
Definition drop_last_blanks (s : list Z) : list Z := reverse (skip_blanks (reverse s)).
Definition trim_ata_string (s : list Z) : list Z := skip_blanks (drop_last_blanks (cut_nul s)).

(** The bytes of the identify words [w, w + n/2), high byte first. *)
Definition identify_chars (identify : list Z) (w n : Z) : list Z :=
  mjoin ((fun i => let x := nthZ 0 identify (w + i) in
                   [Z.land (Z.shiftr x 8) 255; Z.land x 255]) <$> seqZ 0 (n / 2)).

Definition word32 (identify : list Z) (w : Z) : Z :=
  nthZ 0 identify w + nthZ 0 identify (w + 1) * 65536.

(** What [ata_identify] stores from the 256 words it reads. *)
Definition identify_drive (dtype channel is_master : Z) (identify : list Z) : ata_drive_t :=
  let lba48 := if Z.testbit (nthZ 0 identify 83) 10 then 1 else 0 in
  let s28 := word32 identify 60 in
  let s48 := word32 identify 100 + word32 identify 102 * 4294967296 in
  AtaDrive dtype channel is_master lba48 s28
    (if lba48 =? 1 then (if s48 =? 0 then s28 else s48) else s28)
    (trim_ata_string (identify_chars identify 27 40))
    (trim_ata_string (identify_chars identify 10 20))
    (trim_ata_string (identify_chars identify 23 8))
    (Z.land (Z.shiftr (nthZ 0 identify 64) 8) 255) (Z.land (nthZ 0 identify 63) 255) true.

Section driver.
Context {H : Type} `{Ports H}.

Definition ata_delay_ch (channel : Z) : ST H unit :=
  st_for 0 4 (fun _ => inb (ata_ctrl_port channel) ;;; st_ret tt).

(** The polling loops: [while (--timeout > 0)], that is [ATA_TIMEOUT - 1]
    reads of the status register at most. *)
Fixpoint ata_poll (n : nat) (port : Z) (verdict : Z -> option Z) : ST H Z :=
  match n with
  | O => st_ret (-1)
  | S n => status <~ inb port;;
           match verdict status with
           | Some r => st_ret r
           | None => ata_poll n port verdict
           end
  end.

Definition poll_bound : nat := Z.to_nat (ATA_TIMEOUT - 1).

Definition not_bsy_verdict (status : Z) : option Z :=
  if status =? 255 then Some (-1)
  else if negb (bit_set status ATA_STATUS_BSY) then Some 0 else None.
Definition ata_wait_not_bsy (base : Z) : ST H Z := ata_poll poll_bound (base + 7) not_bsy_verdict.

Definition ready_verdict (status : Z) : option Z :=
  if status =? 255 then Some (-1)
  else if bit_set status (Z.lor ATA_STATUS_ERR ATA_STATUS_DF) then Some (-1)
  else if negb (bit_set status ATA_STATUS_BSY) && bit_set status ATA_STATUS_DRDY then Some 0 else None.
(** [ch] is the channel of the active drive, or 0. *)
Definition ata_wait_ready (ch : Z) : ST H Z := ata_poll poll_bound (ata_base_port ch + 7) ready_verdict.

Definition drq_verdict (status : Z) : option Z :=
  if bit_set status (Z.lor ATA_STATUS_ERR ATA_STATUS_DF) then Some (-1)
  else if negb (bit_set status ATA_STATUS_BSY) && bit_set status ATA_STATUS_DRQ then Some 0 else None.
Definition ata_wait_drq_ch (base : Z) : ST H Z := ata_poll poll_bound (base + 7) drq_verdict.

Definition ata_soft_reset (channel : Z) : ST H unit :=
  outb (ata_ctrl_port channel) 4 ;;; ata_delay_ch channel ;;;
  outb (ata_ctrl_port channel) 0 ;;; ata_delay_ch channel.

(** [for (i = 0; i < n; i++) a[i] = inw(base)]. *)
Fixpoint read_words (n : nat) (base : Z) : ST H (list Z) :=
  match n with
  | O => st_ret []
  | S n => w <~ inw base;; ws <~ read_words n base;; st_ret (w :: ws)
  end.
Fixpoint write_words (ws : list Z) (base : Z) : ST H unit :=
  match ws with [] => st_ret tt | w :: ws => outw base w ;;; write_words ws base end.

Definition ata_identify (channel is_master : Z) : ST H (option ata_drive_t) :=
  let base := ata_base_port channel in
  status <~ inb (base + 7);;
  if status =? 255 then st_ret None else
  outb (base + 6) (if is_master =? 0 then 176 else 160) ;;; ata_delay_ch channel ;;;
  outb (base + 2) 0 ;;; outb (base + 3) 0 ;;; outb (base + 4) 0 ;;; outb (base + 5) 0 ;;;
  outb (base + 7) 236 ;;; ata_delay_ch channel ;;;
  status <~ inb (base + 7);;
  if (status =? 0) || (status =? 255) then st_ret None else
  rc <~ ata_wait_not_bsy base;;
  if negb (rc =? 0) then st_ret None else
  cl <~ inb (base + 4);;
  ch_hi <~ inb (base + 5);;
  status <~ inb (base + 7);;
  dtype <~
    (if (cl =? 20) && (ch_hi =? 235) || (cl =? 105) && (ch_hi =? 150) || bit_set status ATA_STATUS_ERR then
       outb (base + 7) 161 ;;; ata_delay_ch channel ;;;
       rc <~ ata_wait_not_bsy base;;
       if negb (rc =? 0) then st_ret None else
       status <~ inb (base + 7);;
       st_ret (if bit_set status ATA_STATUS_ERR then None else Some ATA_TYPE_ATAPI)
     else st_ret (if (cl =? 0) && (ch_hi =? 0) then Some ATA_TYPE_ATA else None));;
  match dtype with
  | None => st_ret None
  | Some dtype =>
    rc <~ ata_wait_drq_ch base;;
    if negb (rc =? 0) then st_ret None else
    identify <~ read_words 256 base;;
    st_ret (Some (identify_drive dtype channel is_master identify))
  end.
End driver.

(** * Driver state *)

Record disk (H : Type) := Disk {
  hw : H;
  kheap : heap;
  detected_drives : list ata_drive_t;
  active_hdd : option nat;
  ramdisk_buf : Z;
  ramdisk_active : bool
}.
Arguments Disk {H}.
Arguments hw {H}.
Arguments kheap {H}.
Arguments detected_drives {H}.
Arguments active_hdd {H}.
Arguments ramdisk_buf {H}.
Arguments ramdisk_active {H}.

(** The block device that the file system is written against, the functions
    of [disk.h]: sector reads and writes with their return code (and the bytes
    of the buffer, for a read), and the choice between hard disk and RAM disk. *)
Class BlockDev (D : Type) := {
  bd_read : Z -> ST D (Z * list Z);
  bd_write : Z -> list Z -> ST D Z;
  bd_enable_ramdisk : bool -> D -> option (Z * D);
  bd_total_sectors : D -> Z;
  bd_has_hdd : D -> bool;
  bd_is_ramdisk : D -> bool
}.

Section disk.
Context {H : Type} `{Ports H}.

Definition with_hw (h : H) (d : disk H) : disk H :=
  Disk h (kheap d) (detected_drives d) (active_hdd d) (ramdisk_buf d) (ramdisk_active d).
Definition on_hw {A} (m : ST H A) : ST (disk H) A :=
  fun d => let '(x, h) := m (hw d) in (x, with_hw h d).

(** [active_hdd] as a drive. *)
Definition active_drive (d : disk H) : option ata_drive_t :=
  i ← active_hdd d; detected_drives d !! i.

(** One slot of the scan of [disk_init]; [i] counts ch = 0, 1 and, inside,
    m = 1, 0. *)
Definition probe_slot (i : Z) : ST (disk H) unit :=
  r <~ on_hw (ata_identify (i / 2) (1 - i mod 2));;
  fun d => (tt,
    match r with
    | Some tmp =>
      if present tmp && (lenZ (detected_drives d) <? 4) then
        let active :=
          match active_hdd d with
          | Some a => Some a
          | None => if (drive_type tmp =? ATA_TYPE_ATA) && ((0 <? sectors_28 tmp) || (0 <? sectors_48 tmp))
                    then Some (length (detected_drives d)) else None
          end in
        Disk (hw d) (kheap d) (detected_drives d ++ [tmp]) active (ramdisk_buf d) (ramdisk_active d)
      else d
    | None => d
    end).

Definition disk_init : ST (disk H) unit :=
  (fun d => (tt, Disk (hw d) (kheap d) [] None (ramdisk_buf d) false)) ;;; st_for 0 4 probe_slot.

Definition disk_has_hardware_hdd (d : disk H) : bool :=
  match active_drive d with Some drv => present drv | None => false end.

Definition disk_enable_ramdisk (enable : bool) (d : disk H) : option (Z * disk H) :=
  if enable then
    if ramdisk_buf d =? 0 then
      '(p, h) ← kzalloc (RAMDISK_SECTORS * SECTOR_SIZE) (kheap d);
      if p =? 0 then Some (-1, Disk (hw d) h (detected_drives d) (active_hdd d) 0 (ramdisk_active d))
      else Some (0, Disk (hw d) h (detected_drives d) (active_hdd d) p true)
    else Some (0, Disk (hw d) (kheap d) (detected_drives d) (active_hdd d) (ramdisk_buf d) true)
  else
    if negb (disk_has_hardware_hdd d) then Some (-1, d)
    else Some (0, Disk (hw d) (kheap d) (detected_drives d) (active_hdd d) (ramdisk_buf d) false).

Definition disk_is_ramdisk (d : disk H) : bool := ramdisk_active d.

Definition disk_get_total_sectors (d : disk H) : Z :=
  if ramdisk_active d then RAMDISK_SECTORS
  else match active_drive d with
       | Some drv => if present drv then
                       (if 268435455 <? sectors_48 drv then 268435455 else u32 (sectors_48 drv))
                     else 0
       | None => 0
       end.

Definition ata_disk_present (d : disk H) : bool := disk_has_hardware_hdd d || ramdisk_active d.

(** The value for the drive/head register. *)
Definition lba28_select (drv : ata_drive_t) (lba : Z) : Z :=
  Z.lor (Z.lor (if is_master drv =? 0 then 176 else 160) 64) (Z.land (Z.shiftr lba 24) 15).

Definition ata_setup_lba28 (drv : ata_drive_t) (lba : Z) : ST H Z :=
  let base := ata_base_port (channel drv) in
  rc <~ ata_wait_not_bsy base;;
  if negb (rc =? 0) then st_ret (-1) else
  outb (base + 6) (lba28_select drv lba) ;;; ata_delay_ch (channel drv) ;;;
  rc <~ ata_wait_ready (channel drv);;
  if negb (rc =? 0) then st_ret (-1) else
  outb (base + 2) 1 ;;; outb (base + 3) (Z.land lba 255) ;;;
  outb (base + 4) (Z.land (Z.shiftr lba 8) 255) ;;;
  outb (base + 5) (Z.land (Z.shiftr lba 16) 255) ;;; st_ret 0.

Definition zero_sector : list Z := replicate 512 0.

(** The bytes of 256 words in memory order. *)
Definition words_bytes (ws : list Z) : list Z := mjoin ((fun w => [u8 w; u8 (w / 256)]) <$> ws).
Fixpoint bytes_words (bs : list Z) : list Z :=
  match bs with
  | lo :: hi :: bs => lo + hi * 256 :: bytes_words bs
  | _ => []
  end.

(** One attempt of the retry loops; [None] after a soft reset. *)
Definition read_attempt (drv : ata_drive_t) (lba : Z) : ST H (option (list Z)) :=
  let base := ata_base_port (channel drv) in
  rc <~ ata_setup_lba28 drv lba;;
  if negb (rc =? 0) then ata_soft_reset (channel drv) ;;; st_ret None else
  outb (base + 7) 32 ;;;
  rc <~ ata_wait_drq_ch base;;
  if negb (rc =? 0) then ata_soft_reset (channel drv) ;;; st_ret None else
  ws <~ read_words 256 base;; st_ret (Some (words_bytes ws)).

Definition write_attempt (drv : ata_drive_t) (lba : Z) (buf : list Z) : ST H (option unit) :=
  let base := ata_base_port (channel drv) in
  rc <~ ata_setup_lba28 drv lba;;
  if negb (rc =? 0) then ata_soft_reset (channel drv) ;;; st_ret None else
  outb (base + 7) 48 ;;;
  rc <~ ata_wait_drq_ch base;;
  if negb (rc =? 0) then ata_soft_reset (channel drv) ;;; st_ret None else
  write_words (bytes_words buf) base ;;;
  outb (base + 7) 231 ;;; ata_wait_not_bsy base ;;; st_ret (Some tt).

Definition ata_read_sector (lba : Z) : ST (disk H) (Z * list Z) := fun d =>
  if ramdisk_active d then
    if (ramdisk_buf d =? 0) || (RAMDISK_SECTORS <=? lba) then ((-1, zero_sector), d)
    else ((0, ld_bytes (h_mem (kheap d)) (ramdisk_buf d + lba * SECTOR_SIZE) 512), d)
  else match active_drive d with
  | Some drv =>
    if present drv then
      (r <~ on_hw (st_search (seqZ 0 ATA_MAX_RETRIES) (fun _ => read_attempt drv lba));;
       st_ret (match r with Some buf => (0, buf) | None => (-1, zero_sector) end)) d
    else ((-1, zero_sector), d)
  | None => ((-1, zero_sector), d)
  end.

Definition ata_write_sector (lba : Z) (buf : list Z) : ST (disk H) Z := fun d =>
  if ramdisk_active d then
    if (ramdisk_buf d =? 0) || (RAMDISK_SECTORS <=? lba) then (-1, d)
    else (0, Disk (hw d) (with_mem (st_bytes (h_mem (kheap d)) (ramdisk_buf d + lba * SECTOR_SIZE) buf) (kheap d))
               (detected_drives d) (active_hdd d) (ramdisk_buf d) (ramdisk_active d))
  else match active_drive d with
  | Some drv =>
    if present drv then
      (r <~ on_hw (st_search (seqZ 0 ATA_MAX_RETRIES) (fun _ => write_attempt drv lba buf));;
       st_ret (match r with Some _ => 0 | None => -1 end)) d
    else (-1, d)
  | None => (-1, d)
  end.

(** The multi-sector calls stop at the first error. *)
Fixpoint ata_read_sectors (lba : Z) (count : nat) : ST (disk H) (Z * list Z) :=
  match count with
  | O => st_ret (0, [])
  | S n => r <~ ata_read_sector lba;;
           if negb (fst r =? 0) then st_ret (-1, snd r) else
           rs <~ ata_read_sectors (u32 (lba + 1)) n;; st_ret (fst rs, snd r ++ snd rs)
  end.
Fixpoint ata_write_sectors (lba : Z) (bufs : list (list Z)) : ST (disk H) Z :=
  match bufs with
  | [] => st_ret 0
  | buf :: bufs => rc <~ ata_write_sector lba buf;;
                   if negb (rc =? 0) then st_ret (-1) else ata_write_sectors (u32 (lba + 1)) bufs
  end.

Definition ata_get_drive_info (d : disk H) : option ata_drive_t :=
  match active_drive d with Some drv => Some drv | None => detected_drives d !! 0%nat end.
Definition ata_get_drive_count (d : disk H) : Z := lenZ (detected_drives d).
Definition ata_get_drive (index : Z) (d : disk H) : option ata_drive_t :=
  if (index <? 0) || (lenZ (detected_drives d) <=? index) then None else detected_drives d !! Z.to_nat index.
Definition ata_get_capacity (d : disk H) : Z :=
  match active_drive d with
  | Some drv => if present drv then u64 (sectors_48 drv * SECTOR_SIZE)
                else if ramdisk_active d then RAMDISK_SECTORS * SECTOR_SIZE else 0
  | None => if ramdisk_active d then RAMDISK_SECTORS * SECTOR_SIZE else 0
  end.

#[export] Instance disk_blockdev : BlockDev (disk H) := {
  bd_read := ata_read_sector;
  bd_write := ata_write_sector;
  bd_enable_ramdisk := disk_enable_ramdisk;
  bd_total_sectors := disk_get_total_sectors;
  bd_has_hdd := disk_has_hardware_hdd;
  bd_is_ramdisk := disk_is_ramdisk
}.
End disk.

(** * Reliable devices *)

(** What the file system relies on: in a good state, sectors below the size
    read back what was written last. *)
Class ReliableDev (D : Type) `{BlockDev D} := {
  rd_ok : D -> Prop;
  rd_size : D -> Z;
  rd_sector : D -> Z -> list Z;
  rd_sector_wf d lba :
    rd_ok d -> 0 <= lba < rd_size d -> length (rd_sector d lba) = 512%nat /\ Forall is_u8 (rd_sector d lba);
  rd_read_law d lba :
    rd_ok d -> 0 <= lba < rd_size d -> bd_read lba d = ((0, rd_sector d lba), d);
  rd_write_law d lba buf :
    rd_ok d -> 0 <= lba < rd_size d -> length buf = 512%nat -> Forall is_u8 buf ->
    exists d', bd_write lba buf d = (0, d') /\ rd_ok d' /\ rd_size d' = rd_size d /\
      forall l, 0 <= l < rd_size d -> rd_sector d' l = if decide (l = lba) then buf else rd_sector d l
}.

Section ramdisk.
Context {H : Type} `{Ports H}.
Implicit Types d : disk H.

Definition ramdisk_on d : Prop := ramdisk_active d = true /\ 0 < ramdisk_buf d.
Definition ramdisk_sector d (lba : Z) : list Z :=
  ld_bytes (h_mem (kheap d)) (ramdisk_buf d + lba * SECTOR_SIZE) 512.

(** The state after a write to the RAM disk. *)
Definition ramdisk_store (lba : Z) (buf : list Z) d : disk H :=
  Disk (hw d) (with_mem (st_bytes (h_mem (kheap d)) (ramdisk_buf d + lba * SECTOR_SIZE) buf) (kheap d))
    (detected_drives d) (active_hdd d) (ramdisk_buf d) (ramdisk_active d).

Lemma ramdisk_read d lba :
  ramdisk_on d -> 0 <= lba < RAMDISK_SECTORS -> ata_read_sector lba d = ((0, ramdisk_sector d lba), d).
Proof.
  intros [Ha Hb] Hl. unfold ata_read_sector. rewrite Ha. destruct (Z.eqb_spec (ramdisk_buf d) 0); [lia|].
  by destruct (Z.leb_spec RAMDISK_SECTORS lba); [lia|].
Qed.

Lemma ramdisk_write d lba buf :
  ramdisk_on d -> 0 <= lba < RAMDISK_SECTORS -> ata_write_sector lba buf d = (0, ramdisk_store lba buf d).
Proof.
  intros [Ha Hb] Hl. unfold ata_write_sector, ramdisk_store. rewrite Ha.
  destruct (Z.eqb_spec (ramdisk_buf d) 0); [lia|]. by destruct (Z.leb_spec RAMDISK_SECTORS lba); [lia|].
Qed.

Lemma ramdisk_store_sector d lba buf l :
  length buf = 512%nat -> Forall is_u8 buf ->
  ramdisk_sector (ramdisk_store lba buf d) l = if decide (l = lba) then buf else ramdisk_sector d l.
Proof.
  intros Hlen Hb. unfold ramdisk_sector, ramdisk_store, SECTOR_SIZE. cbn [kheap ramdisk_buf with_mem h_mem].
  case_decide as Hl.
  - subst l. rewrite <- Hlen. by apply ld_st_bytes.
  - apply ld_bytes_ext. intros x Hx. rewrite ld8_st_bytes. unfold lenZ. rewrite Hlen. by case_decide; [lia|].
Qed.

#[export] Program Instance ramdisk_reliable : ReliableDev (disk H) := {
  rd_ok := ramdisk_on;
  rd_size := fun _ => RAMDISK_SECTORS;
  rd_sector := ramdisk_sector
}.
Next Obligation. intros d lba _ _. split; [apply ld_bytes_length|apply ld_bytes_u8]. Qed.
Next Obligation. intros d lba Hd Hl. by apply ramdisk_read. Qed.
Next Obligation.
  intros d lba buf Hd Hl Hlen Hb. exists (ramdisk_store lba buf d). split_and!; auto; try apply Hd.
  - by apply ramdisk_write.
  - intros l _. by apply ramdisk_store_sector.
Qed.

(** A sector written to the RAM disk reads back exactly, no other
    sector changes, the write stays inside the heap region of the disk (the
    heap is well-formed afterwards with the same owners, whose bytes are
    unchanged); a sector number beyond the disk is refused, with nothing
    written. *)
Theorem ramdisk_write_read d r1 n r2 lba buf :
  ramdisk_active d = true -> heap_repr (kheap d) (r1 ++ (ramdisk_buf d, n) :: r2) ->
  RAMDISK_SECTORS * SECTOR_SIZE <= n -> 0 <= lba -> length buf = 512%nat -> Forall is_u8 buf ->
  let '(rc, d') := ata_write_sector lba buf d in
  if lba <? RAMDISK_SECTORS then
    rc = 0 /\ ata_read_sector lba d' = ((0, buf), d') /\
    (forall l, 0 <= l -> l <> lba -> (ata_read_sector l d').1 = (ata_read_sector l d).1) /\
    heap_repr (kheap d') (r1 ++ (ramdisk_buf d, n) :: r2) /\
    (forall x r, r ∈ r1 ++ r2 -> in_region x r ->
       ld8 (h_mem (kheap d')) x = ld8 (h_mem (kheap d)) x)
  else rc = -1 /\ d' = d /\ ata_read_sector lba d = ((-1, zero_sector), d).
Proof.
  intros Ha Hr Hn Hl Hlen Hb.
  assert ((ramdisk_buf d, n) ∈ r1 ++ (ramdisk_buf d, n) :: r2) as Hin by set_solver.
  pose proof (repr_region _ _ _ Hr Hin) as (? & _). cbn [fst] in *.
  assert (ramdisk_on d) as Hon by (split; [done|lia]).
  unfold RAMDISK_SECTORS, SECTOR_SIZE in Hn.
  destruct (Z.ltb_spec lba RAMDISK_SECTORS) as [Hlt|Hge].
  - rewrite ramdisk_write by auto. unfold RAMDISK_SECTORS in Hlt. split_and!.
    + done.
    + rewrite ramdisk_read by done. rewrite ramdisk_store_sector by done. by case_decide.
    + intros l Hl0 Hne. destruct (decide (l < RAMDISK_SECTORS)).
      * rewrite !ramdisk_read by (done || lia). cbn [fst]. rewrite ramdisk_store_sector by done. by case_decide.
      * unfold ata_read_sector. cbn [ramdisk_store ramdisk_active ramdisk_buf]. rewrite Ha.
        destruct (Z.leb_spec RAMDISK_SECTORS l); [|lia]. by rewrite orb_true_r.
    + apply client_write; [done|]. intros x Hx. rewrite ld8_st_bytes. unfold lenZ, SECTOR_SIZE. rewrite Hlen.
      case_decide; [|done]. destruct Hx. exists (ramdisk_buf d, n). split; [done|]. unfold in_region. simpl. lia.
    + intros x r Hir Hx. destruct Hr as (bs & Hinv & E).
      pose proof (regions_apart _ _ _ _ _ r Hinv E Hir) as Hap. cbn [ramdisk_store kheap with_mem h_mem]. rewrite ld8_st_bytes.
      unfold lenZ, SECTOR_SIZE. rewrite Hlen. case_decide; [|done]. unfold apart, in_region in *. cbn [fst snd] in *. lia.
  - unfold ata_write_sector, ata_read_sector. rewrite Ha.
    destruct (Z.leb_spec RAMDISK_SECTORS lba); [|lia]. by rewrite orb_true_r.
Qed.
End ramdisk.

(** * Ports that are always ready

    The hardware of the witnesses: every status read says "ready, data
    request", and the writes are recorded in order. *)
Definition port_log : Type := list (Z * Z).
#[export] Instance log_ports : Ports port_log := {
  inb := fun _ => st_ret 88;
  inw := fun _ => st_ret 0;
  outb := fun port v log => (tt, log ++ [(port, v)]);
  outw := fun port v log => (tt, log ++ [(port, v)])
}.

Lemma ramdisk_write_read_witness :
  exists d : disk port_log, ramdisk_active d = true /\
    ata_read_sector 7 (ata_write_sector 7 (replicate 512 65) d).2 =
      ((0, replicate 512 65), (ata_write_sector 7 (replicate 512 65) d).2).
Proof.
  destruct (heap_example_alloc_size 524288 ltac:(lia)) as (p & n & h & _ & Hn & Hr & _).
  exists (Disk [] h [] None p true). split; [reflexivity|].
  assert (Forall is_u8 (replicate 512 65)) as Hb by (apply Forall_replicate; unfold is_u8; lia).
  pose proof (ramdisk_write_read (Disk (H := port_log) [] h [] None p true) [] n [] 7 (replicate 512 65)
    eq_refl Hr Hn ltac:(lia) eq_refl Hb) as Hw.
  rewrite (surjective_pairing (ata_write_sector _ _ _)) in Hw. destruct Hw as (_ & Hw & _). exact Hw.
Defined.

(** The register file of the drive after a list of port writes. *)
Definition last_write (log : port_log) (port : Z) : Z :=
  foldl (fun v e => if fst e =? port then snd e else v) 0 log.

(** The sector address a drive decodes from its registers. *)
Definition decode_lba28 (log : port_log) (base : Z) : Z :=
  last_write log (base + 3) + last_write log (base + 4) * 256 + last_write log (base + 5) * 65536 +
  Z.land (last_write log (base + 6)) 15 * 16777216.


(** The drive/head register: four address bits under the mode bits. *)
Lemma lba28_select_bits drv lba :
  0 <= lba < 268435456 ->
  let sel := lba28_select drv lba in
  Z.land sel 15 = lba / 16777216 /\ Z.testbit sel 6 = true /\ Z.testbit sel 4 = (is_master drv =? 0).
Proof.
  intros Hl. unfold lba28_select. rewrite Z.shiftr_div_pow2 by lia. change (2 ^ 24) with 16777216.
  rewrite (land_15 (lba / 16777216)). set (q := lba / 16777216). assert (0 <= q < 16) as Hq by (unfold q; zlia).
  rewrite (Z.mod_small q) by done. clearbody q.
  assert (q = 0 \/ q = 1 \/ q = 2 \/ q = 3 \/ q = 4 \/ q = 5 \/ q = 6 \/ q = 7 \/ q = 8 \/ q = 9 \/
    q = 10 \/ q = 11 \/ q = 12 \/ q = 13 \/ q = 14 \/ q = 15) as Hc by lia.
  destruct (is_master drv =? 0); repeat destruct Hc as [->|Hc]; try subst q; vm_compute; auto.
Qed.

Lemma ata_poll_now n port verdict r (log : port_log) :
  verdict 88 = Some r -> ata_poll (S n) port verdict log = (r, log).
Proof. intros E. cbn [ata_poll]. unfold st_bind. cbn. by rewrite E. Qed.

Lemma ata_setup_lba28_log drv lba (log : port_log) :
  let base := ata_base_port (channel drv) in
  ata_setup_lba28 drv lba log =
  (0, log ++ [(base + 6, lba28_select drv lba); (base + 2, 1); (base + 3, Z.land lba 255);
              (base + 4, Z.land (Z.shiftr lba 8) 255); (base + 5, Z.land (Z.shiftr lba 16) 255)]).
Proof.
  cbv zeta. unfold ata_setup_lba28, ata_wait_not_bsy, ata_wait_ready.
  change poll_bound with (S (Z.to_nat 199998)).
  rewrite (st_bind_eq _ _ _ 0 log) by by apply ata_poll_now. cbn [negb Z.eqb].
  unfold st_bind at 1. cbn [outb log_ports]. unfold st_bind at 1. cbn [ata_delay_ch st_for].
  set (log1 := for_range 0 4 _ _).
  assert (log1 = log ++ [(ata_base_port (channel drv) + 6, lba28_select drv lba)]) as ->.
  { unfold log1, for_range. by vm_compute (seqZ _ _). }
  rewrite (st_bind_eq _ _ _ 0 (log ++ [(ata_base_port (channel drv) + 6, lba28_select drv lba)]))
    by by apply ata_poll_now.
  cbn [negb Z.eqb]. unfold st_bind, st_ret. cbn [outb log_ports]. by rewrite <- !app_assoc.
Qed.

(** On a ready drive, programming a 28-bit sector address succeeds, and
    the address, the count of one sector and the master/slave and LBA mode
    bits that the drive decodes from its registers are the ones asked for. *)
Theorem ata_setup_lba28_registers drv lba log :
  0 <= lba < 268435456 ->
  let base := ata_base_port (channel drv) in
  let '(rc, log') := ata_setup_lba28 (H := port_log) drv lba log in
  rc = 0 /\ decode_lba28 log' base = lba /\ last_write log' (base + 2) = 1 /\
  Z.testbit (last_write log' (base + 6)) 6 = true /\
  Z.testbit (last_write log' (base + 6)) 4 = (is_master drv =? 0).
Proof.
  intros Hl base. rewrite ata_setup_lba28_log. fold base.
  destruct (lba28_select_bits drv lba Hl) as (E1 & E2 & E3). set (sel := lba28_select drv lba) in *.
  assert (forall i j, (base + i =? base + j) = (i =? j)) as Eb.
  { intros. destruct (Z.eqb_spec (base + i) (base + j)), (Z.eqb_spec i j); lia. }
  unfold decode_lba28, last_write. rewrite !foldl_app. cbn [foldl fst snd].
  rewrite !Eb. cbn [Z.eqb Pos.eqb].
  rewrite E1, !land_255, !Z.shiftr_div_pow2 by lia. change (2 ^ 8) with 256. change (2 ^ 16) with 65536.
  split_and!; auto. zlia.
Qed.

Lemma ata_setup_lba28_registers_witness :
  0 <= 123456789 < 268435456 /\
  exists log, ata_setup_lba28 (AtaDrive 1 0 1 0 0 0 [] [] [] 0 0 true) 123456789 ([] : port_log) = (0, log) /\
    decode_lba28 log 496 = 123456789.
Proof.
  split; [lia|].
  pose proof (ata_setup_lba28_registers (AtaDrive 1 0 1 0 0 0 [] [] [] 0 0 true) 123456789 [] ltac:(lia)) as Hw.
  rewrite (surjective_pairing (ata_setup_lba28 _ _ _)) in Hw. destruct Hw as (Hrc & Hw & _).
  eexists. split; [|exact Hw]. rewrite <- Hrc at 1. apply surjective_pairing.
Defined.

(** * An array of sectors

    The simplest reliable device: what the file system's theorems are
    evaluated on. *)
Record array_dev := ArrayDev { ad_size : Z; ad_data : Z -> list Z }.

Definition ad_store (lba : Z) (buf : list Z) (d : array_dev) : array_dev :=
  ArrayDev (ad_size d) (fun l => if l =? lba then buf else ad_data d l).

Definition ad_in (lba : Z) (d : array_dev) : bool := (0 <=? lba) && (lba <? ad_size d).

#[export] Instance array_blockdev : BlockDev array_dev := {
  bd_read := fun lba d => if ad_in lba d then ((0, ad_data d lba), d) else ((-1, zero_sector), d);
  bd_write := fun lba buf d => if ad_in lba d then (0, ad_store lba buf d) else (-1, d);
  bd_enable_ramdisk := fun _ d => Some (0, d);
  bd_total_sectors := ad_size;
  bd_has_hdd := fun _ => true;
  bd_is_ramdisk := fun _ => false
}.

#[export] Program Instance array_reliable : ReliableDev array_dev := {
  rd_ok := fun d => forall l, length (ad_data d l) = 512%nat /\ Forall is_u8 (ad_data d l);
  rd_size := ad_size;
  rd_sector := ad_data
}.
Next Obligation. intros d lba Hd _. apply Hd. Qed.
Next Obligation.
  intros d lba Hd Hl. cbn [bd_read array_blockdev]. unfold ad_in.
  destruct (Z.leb_spec 0 lba), (Z.ltb_spec lba (ad_size d)); try lia. done.
Qed.
Next Obligation.
  intros d lba buf Hd Hl Hlen Hb. exists (ad_store lba buf d). cbn [bd_write array_blockdev]. unfold ad_in.
  destruct (Z.leb_spec 0 lba), (Z.ltb_spec lba (ad_size d)); try lia. split_and!; auto; cbn [ad_store ad_data ad_size].
  - intros l. by destruct (l =? lba).
  - intros l _. by destruct (Z.eqb_spec l lba); case_decide.
Qed.

Definition blank_disk (n : Z) : array_dev := ArrayDev n (fun _ => zero_sector).
Lemma zero_sector_wf : length zero_sector = 512%nat /\ Forall is_u8 zero_sector.
Proof. split; [apply length_replicate|]. apply Forall_replicate. unfold is_u8. lia. Qed.
Lemma blank_disk_ok n : rd_ok (blank_disk n).
Proof. intros l. exact zero_sector_wf. Qed.
