(* ===== verification/Fat.v ===== *)
(** Fat: the FAT12/FAT16 file system of [kernel/fat.c] over a block device.

    The static variables of [fat.c] are the record [fat_fs]; sectors are lists
    of 512 bytes and the packed structures ([fat_boot_t], [fat_dirent_t],
    [mbr_part_t]) are read and written at their byte offsets.  Return codes
    are those of the code (0 or -1). *)

From S2P Require Import Prelude Memory Common Pmm Heap HeapInv HeapSpec HeapRun Disk.
#[local] Open Scope kernel_scope.

Definition FAT_ATTR_VOLUME_ID : Z := 8.
Definition FAT_ATTR_ARCHIVE : Z := 32.
Definition FAT_ATTR_LFN : Z := 15.
Definition FAT_MAX_FILE_SIZE : Z := 262144.

(** * Bytes of a sector *)

Definition byte_at (buf : list Z) (i : Z) : Z := nthZ 0 buf i.
Definition rd_le16 (buf : list Z) (i : Z) : Z :=
  Z.lor (byte_at buf i) (Z.shiftl (byte_at buf (i + 1)) 8).
Definition wr_le16 (i v : Z) (buf : list Z) : list Z :=
  updZ (i + 1) (Z.land (Z.shiftr v 8) 255) (updZ i (Z.land v 255) buf).
Definition rd_le32 (buf : list Z) (i : Z) : Z := rd_le16 buf i + rd_le16 buf (i + 2) * 65536.
Definition wr_le32 (i v : Z) (buf : list Z) : list Z :=
  wr_le16 (i + 2) (Z.shiftr v 16) (wr_le16 i v buf).
(** [memcpy(buf + i, l, len)]. *)
Fixpoint wr_bytes (i : Z) (l : list Z) (buf : list Z) : list Z :=
  match l with [] => buf | x :: l => wr_bytes (i + 1) l (updZ i x buf) end.
Definition sub_bytes (buf : list Z) (i n : Z) : list Z := take (Z.to_nat n) (drop (Z.to_nat i) buf).

Record fat_boot_t := FatBoot {
  bytes_per_sector : Z;
  sectors_per_cluster : Z;
  reserved_sectors : Z;
  num_fats : Z;
  root_entries : Z;
  total_sectors_16 : Z;
  fat_size_16 : Z;
  total_sectors_32 : Z;
  vol_label : list Z
}.

Definition boot_of (sec : list Z) : fat_boot_t :=
  FatBoot (rd_le16 sec 11) (byte_at sec 13) (rd_le16 sec 14) (byte_at sec 16) (rd_le16 sec 17)
    (rd_le16 sec 19) (rd_le16 sec 22) (rd_le32 sec 32) (sub_bytes sec 43 11).

(** [total_sectors_16 ? total_sectors_16 : total_sectors_32]. *)
Definition bpb_total (b : fat_boot_t) : Z :=
  if total_sectors_16 b =? 0 then total_sectors_32 b else total_sectors_16 b.
Definition bpb_root_sectors (b : fat_boot_t) : Z := (root_entries b * 32 + 511) / 512.

Definition is_valid_bpb (sec : list Z) : bool :=
  if negb (byte_at sec 510 =? 85) || negb (byte_at sec 511 =? 170) then false else
  let b := boot_of sec in
  if negb (bytes_per_sector b =? 512) then false else
  if (sectors_per_cluster b =? 0) || negb (IS_POWER_OF_2 (sectors_per_cluster b)) then false else
  if reserved_sectors b =? 0 then false else
  if (num_fats b <? 1) || (4 <? num_fats b) then false else
  if (root_entries b =? 0) || (fat_size_16 b =? 0) then false else
  let meta := u32 (reserved_sectors b + num_fats b * fat_size_16 b + bpb_root_sectors b) in
  negb (bpb_total b <=? meta).

(** Directory entries: the 32 bytes of slot [i] of a sector, and the fields
    that the code reads. *)
Definition dirent (buf : list Z) (i : Z) : list Z := sub_bytes buf (32 * i) 32.
Definition ent_name (ent : list Z) : list Z := sub_bytes ent 0 11.
Definition ent_attr (ent : list Z) : Z := byte_at ent 11.
Definition ent_cluster (ent : list Z) : Z := Z.lor (rd_le16 ent 26) (Z.shiftl (rd_le16 ent 20) 16).
Definition ent_size (ent : list Z) : Z := rd_le32 ent 28.

(** * Names *)

Definition to_upper (c : Z) : Z := if (97 <=? c) && (c <=? 122) then c - 32 else c.

(** [while (name[i] && (!stop_dot || name[i] != '.') && j < limit)]: the
    characters stored and what is left of the name, or [None] for the early
    [return -1]. *)
Fixpoint name_part (room : nat) (stop_dot : bool) (s : list Z) : option (list Z * list Z) :=
  match room, s with
  | S room, c :: s' =>
    if stop_dot && (c =? 46) then Some ([], s)
    else if (c =? 32) || (c =? 47) then None
    else '(l, r) ← name_part room stop_dot s'; Some (to_upper c :: l, r)
  | _, _ => Some ([], s)
  end.

Fixpoint skip_lead (s : list Z) : list Z :=
  match s with c :: s' => if (c =? 47) || (c =? 32) then skip_lead s' else s | [] => [] end.
Fixpoint skip_to_dot (s : list Z) : list Z :=
  match s with c :: s' => if c =? 46 then s else skip_to_dot s' | [] => [] end.

Definition pad (n : nat) (l : list Z) : list Z := l ++ replicate (n - length l) 32.

Definition filename_to_fat (name : list Z) : option (list Z) :=
  match skip_lead name with
  | [] => None
  | name =>
    '(base, rest) ← name_part 8 true name;
    ext ← (match skip_to_dot rest with
           | _ :: rest => '(ext, _) ← name_part 3 false rest; Some ext
           | [] => Some []
           end);
    let fat_name := pad 8 base ++ pad 3 ext in
    if nthZ 0 fat_name 0 =? 32 then None else Some fat_name
  end.

Definition not_blank (c : Z) : bool := negb (c =? 32).
Definition fat_name_to_str (fat_name : list Z) : list Z :=
  let name := take 8 fat_name in
  let ext := take 3 (drop 8 fat_name) in
  filter (fun c => not_blank c = true) name ++
  (if nthZ 0 ext 0 =? 32 then [] else 46 :: filter (fun c => not_blank c = true) ext).

(** * File system state *)

Record fat_fs (D : Type) := FatFs {
  boot_sector : fat_boot_t;
  vol_lba_offset : Z;
  fat_start_sector : Z;
  root_start_sector : Z;
  root_sectors : Z;
  data_start_sector : Z;
  total_clusters : Z;
  fat_type : Z;
  fs_mounted : bool;
  dev : D
}.
Arguments FatFs {D}.
Arguments boot_sector {D}.
Arguments vol_lba_offset {D}.
Arguments fat_start_sector {D}.
Arguments root_start_sector {D}.
Arguments root_sectors {D}.
Arguments data_start_sector {D}.
Arguments total_clusters {D}.
Arguments fat_type {D}.
Arguments fs_mounted {D}.
Arguments dev {D}.

Record fat_file_t := FatFile { f_name : list Z; f_attr : Z; f_size : Z; f_first_cluster : Z }.

Record fat_fs_info_t := FsInfo {
  i_mounted : bool; i_fat_type : Z; i_is_ramdisk : bool; i_volume_start_lba : Z;
  i_bytes_per_cluster : Z; i_total_clusters : Z; i_used_clusters : Z; i_free_clusters : Z;
  i_total_bytes : Z; i_used_bytes : Z; i_free_bytes : Z; i_file_count : Z; i_label : list Z
}.

Section fat.
Context {D : Type} `{BlockDev D}.
Implicit Types fs : fat_fs D.
Abbreviation F := (ST (fat_fs D)).

Definition with_dev (d : D) fs : fat_fs D :=
  FatFs (boot_sector fs) (vol_lba_offset fs) (fat_start_sector fs) (root_start_sector fs)
    (root_sectors fs) (data_start_sector fs) (total_clusters fs) (fat_type fs) (fs_mounted fs) d.
Definition set_mounted (b : bool) fs : fat_fs D :=
  FatFs (boot_sector fs) (vol_lba_offset fs) (fat_start_sector fs) (root_start_sector fs)
    (root_sectors fs) (data_start_sector fs) (total_clusters fs) (fat_type fs) b (dev fs).

(** [ata_read_sector(lba, buf)] and [ata_write_sector(lba, buf)]. *)
Definition read_sector (lba : Z) : F (Z * list Z) :=
  fun fs => let '(r, d) := bd_read lba (dev fs) in (r, with_dev d fs).
Definition write_sector (lba : Z) (buf : list Z) : F Z :=
  fun fs => let '(rc, d) := bd_write lba buf (dev fs) in (rc, with_dev d fs).

Definition eoc_threshold fs : Z := if fat_type fs =? 12 then 4088 else 65528.
Definition eoc_marker fs : Z := if fat_type fs =? 12 then 4095 else 65535.

(** ** Mounting *)

Definition mount_at_lba (base_lba : Z) : F Z :=
  r <~ read_sector base_lba;;
  let '(rc, buf) := r in
  if negb (rc =? 0) then st_ret (-1) else
  if negb (is_valid_bpb buf) then st_ret (-1) else
  fun fs =>
    let b := boot_of buf in
    let fat_start := u32 (base_lba + reserved_sectors b) in
    let root_start := u32 (fat_start + num_fats b * fat_size_16 b) in
    let data_start := u32 (root_start + bpb_root_sectors b) in
    let data_secs := u32 (bpb_total b - u32 (data_start - base_lba)) in
    let clusters := data_secs / sectors_per_cluster b in
    let fs' := FatFs b base_lba fat_start root_start (bpb_root_sectors b) data_start clusters
                 (fat_type fs) (fs_mounted fs) (dev fs) in
    if (clusters =? 0) || (65525 <=? clusters) then (-1, fs')
    else (0, FatFs b base_lba fat_start root_start (bpb_root_sectors b) data_start clusters
               (if clusters <? 4085 then 12 else 16) true (dev fs)).

(** The FAT partition types, with a start and a length. *)
Definition mbr_candidate (mbr : list Z) (i : Z) : bool :=
  let off := 446 + 16 * i in
  let pt := byte_at mbr (off + 4) in
  (0 <? rd_le32 mbr (off + 8)) && (0 <? rd_le32 mbr (off + 12)) &&
  ((pt =? 1) || (pt =? 4) || (pt =? 6) || (pt =? 14)).

Definition try_mount_disk : F Z :=
  rc <~ mount_at_lba 0;;
  if rc =? 0 then st_ret 0 else
  r <~ read_sector 0;;
  let '(rc, mbr) := r in
  if negb (rc =? 0) then st_ret (-1) else
  if negb (byte_at mbr 510 =? 85) || negb (byte_at mbr 511 =? 170) then st_ret (-1) else
  found <~ st_search (seqZ 0 4) (fun i =>
    if mbr_candidate mbr i then
      rc <~ mount_at_lba (rd_le32 mbr (446 + 16 * i + 8));;
      st_ret (if rc =? 0 then Some 0 else None)
    else st_ret None);;
  st_ret (default (-1) found).

(** ** The file allocation table *)

Definition fat_offset fs (cluster : Z) : Z :=
  if fat_type fs =? 12 then u32 (cluster + cluster / 2) else u32 (cluster * 2).

(** The sector at [sector], followed by the next one when an entry that
    starts at [offset] crosses the border. *)
Definition read_fat_window (sector offset : Z) : F (option (list Z)) :=
  r <~ read_sector sector;;
  if negb (fst r =? 0) then st_ret None else
  if offset =? 511 then
    r2 <~ read_sector (u32 (sector + 1));;
    if negb (fst r2 =? 0) then st_ret None else st_ret (Some (snd r ++ snd r2))
  else st_ret (Some (snd r)).

Definition fat_decode fs (cluster raw : Z) : Z :=
  if fat_type fs =? 12 then
    (if Z.land cluster 1 =? 0 then Z.land raw 4095 else Z.shiftr raw 4)
  else raw.

Definition get_fat_entry (cluster : Z) : F Z := fun fs =>
  if negb (fs_mounted fs) || (cluster <? 2) then (eoc_marker fs, fs) else
  let off := fat_offset fs cluster in
  (r <~ read_fat_window (u32 (fat_start_sector fs + off / 512)) (off mod 512);;
   st_ret (match r with
           | None => eoc_marker fs
           | Some buf => fat_decode fs cluster (rd_le16 buf (off mod 512))
           end)) fs.

(** The 16 bits to store for an entry whose window holds [old]. *)
Definition fat_encode fs (cluster old value : Z) : Z :=
  if fat_type fs =? 12 then
    (if Z.land cluster 1 =? 0 then u16 (Z.lor (Z.land old 61440) (Z.land value 4095))
     else u16 (Z.lor (Z.land old 15) (Z.shiftl (Z.land value 4095) 4)))
  else u16 (Z.land value 65535).

Definition set_fat_entry (cluster value : Z) : F unit := fun fs =>
  if negb (fs_mounted fs) || (cluster <? 2) then (tt, fs) else
  let off := fat_offset fs cluster in
  let sec_off := off / 512 in
  let offset := off mod 512 in
  (r <~ read_fat_window (u32 (fat_start_sector fs + sec_off)) offset;;
   match r with
   | None => st_ret tt
   | Some buf =>
     let buf := wr_le16 offset (fat_encode fs cluster (rd_le16 buf offset) value) buf in
     st_for 0 (num_fats (boot_sector fs)) (fun f =>
       let f_sec := u32 (fat_start_sector fs + f * fat_size_16 (boot_sector fs) + sec_off) in
       write_sector f_sec (take 512 buf) ;;;
       if offset =? 511 then write_sector (u32 (f_sec + 1)) (drop 512 buf) ;;; st_ret tt
       else st_ret tt)
   end) fs.

(** [while (c >= 2 && c < eoc_threshold() && guard-- > 0)]. *)
Fixpoint free_chain (guard : nat) (c : Z) : F unit := fun fs =>
  if (2 <=? c) && (c <? eoc_threshold fs) then
    match guard with
    | O => (tt, fs)
    | S guard => (next <~ get_fat_entry c;; set_fat_entry c 0 ;;; free_chain guard next) fs
    end
  else (tt, fs).
Definition free_cluster_chain (start_cluster : Z) : F unit :=
  fun fs => free_chain (Z.to_nat (u32 (total_clusters fs + 2))) start_cluster fs.

(** First sector of a data cluster. *)
Definition cluster_sector fs (c : Z) : Z :=
  u32 (data_start_sector fs + (c - 2) * sectors_per_cluster (boot_sector fs)).

Definition zero_cluster (c : Z) : F unit := fun fs =>
  st_for 0 (sectors_per_cluster (boot_sector fs))
    (fun s => write_sector (u32 (cluster_sector fs c + s)) zero_sector ;;; st_ret tt) fs.

Definition allocate_cluster : F Z := fun fs =>
  (found <~ st_search (seqZ 2 (total_clusters fs)) (fun c =>
     e <~ get_fat_entry c;;
     if e =? 0 then
       set_fat_entry c (eoc_marker fs) ;;; zero_cluster c ;;; st_ret (Some c)
     else st_ret None);;
   st_ret (default 0 found)) fs.
End fat.
