(* ===== verification/FatFile.v ===== *)
(** FatFile: directory and file operations of [kernel/fat.c], formatting and
    initialisation, on top of the table operations of [Fat]. *)

From S2P Require Import Prelude Ports Memory Common Text Pmm Heap HeapInv HeapSpec HeapRun Disk Fat.
#[local] Open Scope kernel_scope.

(** What a directory scan does with one slot. *)
Inductive slot_kind := SlotEnd | SlotSkip | SlotFile.
Definition slot_of (ent : list Z) : slot_kind :=
  let first := byte_at ent 0 in
  if first =? 0 then SlotEnd
  else if first =? 229 then SlotSkip
  else if ent_attr ent =? FAT_ATTR_LFN then SlotSkip
  else if bit_set (ent_attr ent) FAT_ATTR_VOLUME_ID then SlotSkip
  else SlotFile.

(** One step of a nested loop: go on, leave both loops, or return a value. *)
Inductive scan (A : Type) := Next | Stop | Done (x : A).
Arguments Next {A}.
Arguments Stop {A}.
Arguments Done {A}.

Section files.
Context {D : Type} `{BlockDev D} `{Allocator D}.
Implicit Types fs : fat_fs D.
Abbreviation F := (ST (fat_fs D)).

(** The loop over the 16 slots of one sector, from slot [i]. *)
Fixpoint find_slot (n : nat) (i : Z) (fat_name buf : list Z) : scan Z :=
  match n with
  | O => Next
  | S n =>
    match slot_of (dirent buf i) with
    | SlotEnd => Stop
    | SlotSkip => find_slot n (i + 1) fat_name buf
    | SlotFile => if decide (ent_name (dirent buf i) = fat_name) then Done i
                  else find_slot n (i + 1) fat_name buf
    end
  end.

(** [find_dirent_val]: the entry, its sector and its index, or [None]. *)
Definition find_dirent_val (name : list Z) : F (option (list Z * Z * Z)) := fun fs =>
  if negb (fs_mounted fs) then (None, fs) else
  match filename_to_fat name with
  | None => (None, fs)
  | Some fat_name =>
    (found <~ st_search (seqZ 0 (root_sectors fs)) (fun s =>
       let sec := u32 (root_start_sector fs + s) in
       r <~ read_sector sec;;
       if negb (fst r =? 0) then st_ret (Some None) else
       st_ret (match find_slot 16 0 fat_name (snd r) with
               | Next => None
               | Stop => Some None
               | Done i => Some (Some (dirent (snd r) i, sec, i))
               end));;
     st_ret (default None found)) fs
  end.

Definition fat_file_exists (name : list Z) : F bool :=
  r <~ find_dirent_val name;; st_ret (match r with Some _ => true | None => false end).

Definition fat_stat_file (name : list Z) : F (option fat_file_t) :=
  r <~ find_dirent_val name;;
  st_ret (match r with
          | Some (ent, _, _) => Some (FatFile (fat_name_to_str (ent_name ent)) (ent_attr ent)
                                        (ent_size ent) (ent_cluster ent))
          | None => None
          end).

(** ** Reading *)

(** The sectors of one cluster: [n] remain, [acc] holds what was read. *)
Fixpoint read_cluster (n : nat) (sec left_ : Z) (acc : list Z) : F (option (Z * list Z)) :=
  match n with
  | O => st_ret (Some (left_, acc))
  | S n =>
    if 0 <? left_ then
      r <~ read_sector sec;;
      if negb (fst r =? 0) then st_ret None else
      let chunk := if 512 <? left_ then 512 else left_ in
      read_cluster n (u32 (sec + 1)) (left_ - chunk) (acc ++ take (Z.to_nat chunk) (snd r))
    else st_ret (Some (left_, acc))
  end.

Fixpoint read_chain (guard : nat) (cluster left_ : Z) (acc : list Z) : F (option (list Z)) := fun fs =>
  if (2 <=? cluster) && (cluster <? eoc_threshold fs) && (0 <? left_) then
    match guard with
    | O => (Some acc, fs)
    | S guard =>
      (r <~ read_cluster (Z.to_nat (sectors_per_cluster (boot_sector fs))) (cluster_sector fs cluster) left_ acc;;
       match r with
       | None => st_ret None
       | Some (left_, acc) => next <~ get_fat_entry cluster;; read_chain guard next left_ acc
       end) fs
    end
  else (Some acc, fs).

(** Return code, [*out_size] and the bytes stored in the buffer. *)
Definition fat_read_file (name : list Z) (max_len : Z) : F (Z * Z * list Z) :=
  r <~ find_dirent_val name;;
  match r with
  | None => st_ret (-1, 0, [])
  | Some (ent, _, _) =>
    let size := ent_size ent in
    if (max_len =? 0) || (size =? 0) then st_ret (0, size, []) else
    let to_read := if size <? max_len then size else max_len in
    fun fs =>
      (r <~ read_chain (Z.to_nat (u32 (total_clusters fs + 2))) (ent_cluster ent) to_read [];;
       st_ret (match r with Some data => (0, size, data) | None => (-1, size, []) end)) fs
  end.

(** ** Writing *)

(** A sector holding the next bytes of the file, padded with zeros. *)
Definition sector_of (data : list Z) : list Z :=
  take 512 data ++ replicate (512 - length data) 0.

(** The sectors of one cluster; returns what remains to write, or [None]
    for a write error. *)
Fixpoint write_cluster (n : nat) (sec : Z) (data : list Z) : F (option (list Z)) :=
  match n with
  | O => st_ret (Some data)
  | S n =>
    match data with
    | [] => st_ret (Some [])
    | _ =>
      rc <~ write_sector sec (sector_of data);;
      if negb (rc =? 0) then st_ret None
      else write_cluster n (u32 (sec + 1)) (drop 512 data)
    end
  end.

(** [while (written < len)]; the inner [option] is the bound on the number
    of iterations, which is never reached when a cluster has a sector. *)
Fixpoint write_chain (fuel : nat) (cur_c : Z) (data : list Z) : F (option Z) :=
  match data with
  | [] => st_ret (Some 0)
  | _ =>
    match fuel with
    | O => st_ret None
    | S fuel => fun fs =>
      (r <~ write_cluster (Z.to_nat (sectors_per_cluster (boot_sector fs))) (cluster_sector fs cur_c) data;;
       match r with
       | None => st_ret (Some (-1))
       | Some [] => set_fat_entry cur_c (eoc_marker fs) ;;; st_ret (Some 0)
       | Some rest =>
         next_c <~ allocate_cluster;;
         if next_c <? 2 then st_ret (Some (-1)) else
         set_fat_entry cur_c next_c ;;; write_chain fuel next_c rest
       end) fs
    end
  end.

(** The three fields that both branches of the directory update store. *)
Definition ent_store (i first_cluster len : Z) (buf : list Z) : list Z :=
  updZ (32 * i + 11) FAT_ATTR_ARCHIVE
    (wr_le32 (32 * i + 28) len
      (wr_le16 (32 * i + 20) (u16 (Z.shiftr first_cluster 16))
        (wr_le16 (32 * i + 26) (u16 first_cluster) buf))).

Definition update_dirent (dir_sec dir_idx first_cluster len : Z) : F Z :=
  r <~ read_sector dir_sec;;
  if negb (fst r =? 0) then st_ret (-1)
  else write_sector dir_sec (ent_store dir_idx first_cluster len (snd r)).

(** First free or deleted slot of a sector. *)
Fixpoint free_slot (n : nat) (i : Z) (buf : list Z) : option Z :=
  match n with
  | O => None
  | S n => let first := byte_at (dirent buf i) 0 in
           if (first =? 0) || (first =? 229) then Some i else free_slot n (i + 1) buf
  end.

Definition create_dirent (fat_name : list Z) (first_cluster len : Z) : F Z := fun fs =>
  (found <~ st_search (seqZ 0 (root_sectors fs)) (fun s =>
     let sec := u32 (root_start_sector fs + s) in
     r <~ read_sector sec;;
     if negb (fst r =? 0) then st_ret (Some (-1)) else
     match free_slot 16 0 (snd r) with
     | None => st_ret None
     | Some i =>
       let buf := wr_bytes (32 * i) fat_name (wr_bytes (32 * i) (replicate 32 0) (snd r)) in
       rc <~ write_sector sec (ent_store i first_cluster len buf);;
       st_ret (Some rc)
     end);;
   st_ret (default (-1) found)) fs.

Definition fat_write_file (name data : list Z) : F (option Z) := fun fs =>
  if negb (fs_mounted fs) then (Some (-1), fs) else
  match filename_to_fat name with
  | None => (Some (-1), fs)
  | Some fat_name =>
    (found <~ find_dirent_val name;;
     (match found with
      | Some (ent, _, _) => if 2 <=? ent_cluster ent then free_cluster_chain (ent_cluster ent) else st_ret tt
      | None => st_ret tt
      end) ;;;
     first <~
       (if 0 <? lenZ data then
          c <~ allocate_cluster;;
          if c <? 2 then st_ret (Some (-1, 0)) else
          rc <~ write_chain (length data) c data;;
          st_ret (match rc with Some rc => Some (rc, c) | None => None end)
        else st_ret (Some (0, 0)));;
     match first with
     | None => st_ret None
     | Some (rc, first_cluster) =>
       if negb (rc =? 0) then st_ret (Some (-1)) else
       rc <~ (match found with
              | Some (_, dir_sec, dir_idx) => update_dirent dir_sec dir_idx first_cluster (lenZ data)
              | None => create_dirent fat_name first_cluster (lenZ data)
              end);;
       st_ret (Some rc)
     end) fs
  end.

(** ** Removing and renaming *)

Definition fat_delete_file (name : list Z) : F Z :=
  r <~ find_dirent_val name;;
  match r with
  | None => st_ret (-1)
  | Some (ent, dir_sec, dir_idx) =>
    (if 2 <=? ent_cluster ent then free_cluster_chain (ent_cluster ent) else st_ret tt) ;;;
    r <~ read_sector dir_sec;;
    if negb (fst r =? 0) then st_ret (-1)
    else write_sector dir_sec (updZ (32 * dir_idx) 229 (snd r))
  end.

Definition fat_rename_file (old_name new_name : list Z) : F Z :=
  if strcasecmp old_name new_name =? 0 then st_ret 0 else
  ex <~ fat_file_exists new_name;;
  if (ex : bool) then st_ret (-1) else
  match filename_to_fat new_name with
  | None => st_ret (-1)
  | Some new_fat =>
    r <~ find_dirent_val old_name;;
    match r with
    | None => st_ret (-1)
    | Some (_, dir_sec, dir_idx) =>
      r <~ read_sector dir_sec;;
      if negb (fst r =? 0) then st_ret (-1)
      else write_sector dir_sec (wr_bytes (32 * dir_idx) new_fat (snd r))
    end
  end.

(** [kmalloc] and [kfree] of the temporary buffers, whose bytes are private
    to the function. *)
Definition buf_alloc (n : Z) fs : option (Z * fat_fs D) :=
  '(p, d) ← al_alloc n (dev fs); Some (p, with_dev d fs).
(** The first [n] bytes of the buffer after [data] was stored at its start;
    the rest is what the allocator left there. *)
Definition buf_bytes (p n : Z) (data : list Z) fs : list Z :=
  data ++ ((fun i => al_load (dev fs) (p + i)) <$> seqZ (lenZ data) (n - lenZ data)).
Definition buf_free (p : Z) fs : fat_fs D := with_dev (al_free p (dev fs)) fs.

Definition fat_append_file (name data : list Z) fs : option (Z * fat_fs D) :=
  if negb (fs_mounted fs) then Some (-1, fs) else
  let '(st, fs) := fat_stat_file name fs in
  match st with
  | None => let '(rc, fs) := fat_write_file name data fs in rc ← rc; Some (rc, fs)
  | Some st =>
    let total := u32 (f_size st + lenZ data) in
    if FAT_MAX_FILE_SIZE <? total then Some (-1, fs) else
    '(combined, fs) ← buf_alloc (if total =? 0 then 1 else total) fs;
    if combined =? 0 then Some (-1, fs) else
    let '((rc, _, old), fs) :=
      if 0 <? f_size st then fat_read_file name (f_size st) fs else ((0, 0, []), fs) in
    if negb (rc =? 0) then Some (-1, buf_free combined fs) else
    let '(rc, fs) := fat_write_file name (buf_bytes combined (f_size st) old fs ++ data) fs in
    rc ← rc; Some (rc, buf_free combined fs)
  end.

Definition fat_copy_file (src dst : list Z) fs : option (Z * fat_fs D) :=
  if strcasecmp src dst =? 0 then Some (0, fs) else
  let '(st, fs) := fat_stat_file src fs in
  match st with
  | None => Some (-1, fs)
  | Some st =>
    if FAT_MAX_FILE_SIZE <? f_size st then Some (-1, fs) else
    if f_size st =? 0 then
      let '(rc, fs) := fat_write_file dst [] fs in rc ← rc; Some (rc, fs)
    else
      '(buf, fs) ← buf_alloc (f_size st) fs;
      if buf =? 0 then Some (-1, fs) else
      let '((rc, _, data), fs) := fat_read_file src (f_size st) fs in
      if rc =? 0 then
        let '(rc, fs) := fat_write_file dst (buf_bytes buf (f_size st) data fs) fs in
        rc ← rc; Some (rc, buf_free buf fs)
      else Some (-1, buf_free buf fs)
  end.
End files.

(** * Volume information *)

Section info.
Context {D : Type} `{BlockDev D}.
Implicit Types fs : fat_fs D.
Abbreviation F := (ST (fat_fs D)).

(** Clusters whose entry is not zero. *)
Definition count_used : F Z := fun fs =>
  foldl (fun acc c => let '(used, fs) := acc in
           let '(e, fs) := get_fat_entry c fs in
           (if e =? 0 then used else used + 1, fs)) (0, fs) (seqZ 2 (total_clusters fs)).

(** The slots of one sector: their entries up to the end mark, and whether
    the mark was met. *)
Fixpoint list_slots (n : nat) (i : Z) (buf : list Z) : list (list Z) * bool :=
  match n with
  | O => ([], false)
  | S n =>
    match slot_of (dirent buf i) with
    | SlotEnd => ([], true)
    | SlotSkip => list_slots n (i + 1) buf
    | SlotFile => let '(l, e) := list_slots n (i + 1) buf in (dirent buf i :: l, e)
    end
  end.

(** The file entries of the root directory, in order. *)
Fixpoint root_files (secs : list Z) : F (list (list Z)) :=
  match secs with
  | [] => st_ret []
  | s :: secs => fun fs =>
    (r <~ read_sector (u32 (root_start_sector fs + s));;
     if negb (fst r =? 0) then st_ret [] else
     let '(l, stop) := list_slots 16 0 (snd r) in
     if stop then st_ret l else rest <~ root_files secs;; st_ret (l ++ rest)) fs
  end.

Definition trim_label (l : list Z) : list Z := drop_last_blanks l.

Definition fat_get_fs_info : F fat_fs_info_t := fun fs =>
  if negb (fs_mounted fs) then
    (FsInfo false 0 false 0 0 0 0 0 0 0 0 0 [], fs)
  else
    (used <~ count_used;;
     files <~ root_files (seqZ 0 (root_sectors fs));;
     let bpc := sectors_per_cluster (boot_sector fs) * 512 in
     let free := if used <=? total_clusters fs then total_clusters fs - used else 0 in
     st_ret (FsInfo true (fat_type fs) (bd_is_ramdisk (dev fs)) (vol_lba_offset fs) bpc (total_clusters fs)
       used free (u32 (total_clusters fs * bpc)) (u32 (used * bpc)) (u32 (free * bpc)) (lenZ files)
       (trim_label (vol_label (boot_sector fs))))) fs.

(** [fat_enumerate_files]: at most [max_files] names. *)
Fixpoint enum_sectors (secs : list Z) (room : Z) : F (list (list Z)) :=
  match secs with
  | [] => st_ret []
  | s :: secs => fun fs =>
    if room <=? 0 then ([], fs) else
    (r <~ read_sector (u32 (root_start_sector fs + s));;
     if negb (fst r =? 0) then st_ret [] else
     let '(l, stop) := list_slots 16 0 (snd r) in
     let names := take (Z.to_nat room) (fat_name_to_str ∘ ent_name <$> l) in
     if stop then st_ret names
     else rest <~ enum_sectors secs (room - lenZ names);; st_ret (names ++ rest)) fs
  end.
Definition fat_enumerate_files (max_files : Z) : F (list (list Z)) := fun fs =>
  if negb (fs_mounted fs) || (max_files <=? 0) then ([], fs)
  else enum_sectors (seqZ 0 (root_sectors fs)) max_files fs.
End info.

(** * Formatting *)

(** The geometry [fat_format] chooses for a disk. *)
Record geometry := Geometry {
  g_secs : Z; g_spc : Z; g_root_ents : Z; g_root_secs : Z; g_target : Z; g_fat_secs : Z
}.

Definition format_geometry (disk_secs : Z) : geometry :=
  let disk_secs := if 1048576 <? disk_secs then 1048576 else disk_secs in
  let spc := if 524288 <=? disk_secs then 16
             else if 262144 <=? disk_secs then 8
             else if 16384 <=? disk_secs then 4
             else if 8192 <=? disk_secs then 2 else 1 in
  let reserved := 1 in
  let root_ents := if disk_secs <=? 2048 then 112 else 512 in
  let r_secs := (root_ents * 32 + 511) / 512 in
  let approx_clusters := u32 (disk_secs - reserved - r_secs) / spc in
  let target := if approx_clusters <? 4085 then 12 else 16 in
  let fat_bytes := if target =? 12 then ((approx_clusters + 2) * 3 + 1) / 2 else (approx_clusters + 2) * 2 in
  let fat_secs := u16 ((fat_bytes + 511) / 512) in
  let fat_secs := if fat_secs =? 0 then 1 else fat_secs in
  let data_secs := u32 (disk_secs - reserved - 2 * fat_secs - r_secs) in
  let final_clusters := data_secs / spc in
  let target := if (target =? 16) && (final_clusters <? 4085) then 12 else target in
  Geometry disk_secs spc root_ents r_secs target fat_secs.

(** Characters of string constants. *)
Definition str_BENGALOS : list Z := [66; 69; 78; 71; 65; 76; 79; 83].
Definition str_default_label : list Z := [66; 69; 78; 71; 65; 76; 32; 79; 83; 32; 32].
Definition str_FAT (target : Z) : list Z := [70; 65; 84; 49; (if target =? 12 then 50 else 54); 32; 32; 32].

Definition label_bytes (label : list Z) : list Z :=
  match label with
  | [] => str_default_label
  | _ => let l := to_upper <$> take 11 label in l ++ replicate (11 - length l) 32
  end.

(** The boot sector that is written to sector 0. *)
Definition format_boot (g : geometry) (label : list Z) : list Z :=
  let sec := replicate 512 0 in
  let sec := wr_bytes 0 [235; 60; 144] sec in
  let sec := wr_bytes 3 str_BENGALOS sec in
  let sec := wr_le16 11 512 sec in
  let sec := updZ 13 (g_spc g) sec in
  let sec := wr_le16 14 1 sec in
  let sec := updZ 16 2 sec in
  let sec := wr_le16 17 (g_root_ents g) sec in
  let sec := if g_secs g <? 65536 then wr_le16 19 (g_secs g) sec else wr_le32 32 (g_secs g) sec in
  let sec := updZ 21 248 sec in
  let sec := wr_le16 22 (g_fat_secs g) sec in
  let sec := wr_le16 24 32 sec in
  let sec := wr_le16 26 64 sec in
  let sec := wr_le32 28 0 sec in
  let sec := updZ 36 128 sec in
  let sec := updZ 38 41 sec in
  let sec := wr_le32 39 539365425 sec in
  let sec := wr_bytes 43 (label_bytes label) sec in
  let sec := wr_bytes 54 (str_FAT (g_target g)) sec in
  updZ 511 170 (updZ 510 85 sec).

(** The first sector of a table: the two reserved entries. *)
Definition format_fat0 (target : Z) : list Z :=
  wr_bytes 0 (if target =? 12 then [248; 255; 255] else [248; 255; 255; 255]) zero_sector.

(** ** The default files *)

(** [OS_VERSION] and [OS_CODENAME] of [version.h]. *)
Definition os_version : list Z := str "1.0.0".
Definition os_codename : list Z := str "Royal Bengal".

Definition hello : list Z :=
  str "Welcome to Bengal Tiger OS v" ++ os_version ++ str " (" ++ os_codename ++ strn ")!" ++
  strn "A real-world 32-bit x86 operating system built in C & Assembly.".
Definition readme : list Z :=
  str "=== Bengal Tiger OS v" ++ os_version ++ strn " Quick Start ===" ++
  strn "  help              - Show all available shell commands" ++
  strn "  edit notes.txt    - Open full-screen text editor (^S Save, ^Q Quit)" ++
  strn "  sh demo.sh        - Execute a shell script from the filesystem" ++
  strn "  df / disk / mkfs  - View storage or format an ATA hard disk" ++
  strn "  ifconfig / dhcp   - Configure Intel E1000 / RTL8139 network" ++
  strn "  ping 10.0.2.2     - Send real ARP + ICMP Echo Requests" ++
  strn "  spawn / ps / top  - Test preemptive multitasking & task monitor" ++
  strn "  gui               - Launch graphical VBE desktop workspace".
Definition demo_sh : list Z :=
  strn "# Bengal Tiger OS Demo Script" ++
  strn "echo Running Bengal Tiger OS automated demo..." ++
  strn "info" ++
  strn "uptime" ++
  strn "calc (21 * 2) + 8" ++
  strn "df".

(** The names and contents that [seed_default_files] writes. *)
Definition default_files : list (list Z * list Z) :=
  [(str "HELLO.TXT", hello); (str "README.TXT", readme); (str "DEMO.SH", demo_sh); (str "CONFIG.CFG", str "tiger")].

Section format.
Context {D : Type} `{BlockDev D}.
Implicit Types fs : fat_fs D.
Abbreviation F := (ST (fat_fs D)).

(** [Some (-1)] at the first write error. *)
Definition write_or_fail (lba : Z) (buf : list Z) : F (option Z) :=
  rc <~ write_sector lba buf;; st_ret (if rc =? 0 then None else Some (-1)).

(** The sectors in the order they are written: both tables, then the root
    directory. *)
Definition format_tables (g : geometry) : list (Z * list Z) :=
  mjoin ((fun f => (fun s => (1 + f * g_fat_secs g + s,
                              if s =? 0 then format_fat0 (g_target g) else zero_sector))
                   <$> seqZ 0 (g_fat_secs g)) <$> [0; 1]) ++
  ((fun s => (1 + 2 * g_fat_secs g + s, zero_sector)) <$> seqZ 0 (g_root_secs g)).

Fixpoint write_all (l : list (Z * list Z)) : F Z :=
  match l with
  | [] => st_ret 0
  | (lba, buf) :: l =>
    rc <~ write_sector lba buf;; if negb (rc =? 0) then st_ret (-1) else write_all l
  end.

(** [fat_format] from the size of the disk to the mount: what it does between
    the choice of the disk and the default files. *)
Definition fat_format_volume (label : list Z) : F Z := fun fs =>
  let disk_secs := bd_total_sectors (dev fs) in
  if disk_secs <? 64 then (-1, fs) else
  let g := format_geometry disk_secs in
  (rc <~ write_all ((0, format_boot g label) :: format_tables g);;
   if negb (rc =? 0) then st_ret (-1) else
   rc <~ mount_at_lba 0;; st_ret (if rc =? 0 then 0 else -1)) fs.

(** The files are stored after a successful mount; the return codes of these
    writes are ignored. *)
Fixpoint write_files (files : list (list Z * list Z)) fs : option (fat_fs D) :=
  match files with
  | [] => Some fs
  | (name, data) :: files =>
    let '(rc, fs) := fat_write_file name data fs in _ ← rc; write_files files fs
  end.
Definition seed_default_files : fat_fs D -> option (fat_fs D) := write_files default_files.

Definition fat_format (label : list Z) (use_hardware_ata : bool) fs : option (Z * fat_fs D) :=
  let fs := set_mounted false fs in
  '(rc, d) ← bd_enable_ramdisk (negb use_hardware_ata) (dev fs);
  let fs := with_dev d fs in
  if negb (rc =? 0) then Some (-1, fs) else
  let '(rc, fs) := fat_format_volume label fs in
  if negb (rc =? 0) then Some (-1, fs) else
  fs ← seed_default_files fs; Some (0, fs).

Definition str_BENGALLIVE : list Z := [66; 69; 78; 71; 65; 76; 76; 73; 86; 69].

Definition fat_init fs : option (fat_fs D) :=
  let fs := set_mounted false fs in
  '(done, fs) ← (if bd_has_hdd (dev fs) then
                   '(_, d) ← bd_enable_ramdisk false (dev fs);
                   let '(rc, fs) := try_mount_disk (with_dev d fs) in Some (rc =? 0, fs)
                 else Some (false, fs));
  if (done : bool) then Some fs
  else '(_, fs) ← fat_format str_BENGALLIVE false fs; Some fs.
End format.
