(* ===== verification/FatSpec.v ===== *)
(** FatSpec: properties of the FAT file system that do not involve the
    contents of the disk: 8.3 names, and the geometry chosen by the formatter. *)

From S2P Require Import Prelude Memory Common Pmm Heap HeapInv HeapSpec HeapRun Disk Fat FatFile.

(** * Names *)

(** A character that [filename_to_fat] stores in the base name, or in the
    extension ([dot_ok]). *)
Definition stored_char (dot_ok : bool) (c : Z) : Prop :=
  c <> 32 /\ c <> 47 /\ to_upper c = c /\ (dot_ok = false -> c <> 46).

Lemma to_upper_idem c : to_upper (to_upper c) = to_upper c.
Proof.
  unfold to_upper. destruct (Z.leb_spec 97 c), (Z.leb_spec c 122); simpl; repeat case_goal; bool_to_prop; lia.
Qed.

Lemma to_upper_cases c : to_upper c = c \/ (97 <= c <= 122 /\ to_upper c = c - 32).
Proof. unfold to_upper. case_goal; [right|by left]. bool_to_prop. lia. Qed.

Lemma name_part_stored room stop_dot s l r :
  name_part room stop_dot s = Some (l, r) -> (length l <= room)%nat /\ Forall (stored_char (negb stop_dot)) l.
Proof.
  revert s l r. induction room as [|room IH]; intros s l r E; [injection E as <- <-; by split|].
  destruct s as [|c s]; [injection E as <- <-; split; [simpl; lia|done]|]. simpl in E.
  destruct (stop_dot && (c =? 46)) eqn:Ed; [injection E as <- <-; split; [simpl; lia|done]|].
  destruct ((c =? 32) || (c =? 47)) eqn:Eb; [done|].
  destruct (name_part room stop_dot s) as [[l' r']|] eqn:E'; [|done]. injection E as <- <-.
  destruct (IH _ _ _ E') as [Hl Hf]. split; [simpl; lia|]. constructor; [|done].
  bool_to_prop. unfold stored_char. rewrite to_upper_idem.
  destruct stop_dot; simpl in Ed; bool_to_prop;
    destruct (to_upper_cases c) as [->|[? ->]]; split_and!; auto; lia.
Qed.

(** Stored characters pass through unchanged. *)
Lemma name_part_fixed room stop_dot l r :
  Forall (stored_char (negb stop_dot)) l -> (length l <= room)%nat ->
  (r = [] \/ (stop_dot = true /\ ch r = 46)) -> name_part room stop_dot (l ++ r) = Some (l, r).
Proof.
  revert room. induction l as [|c l IH]; intros room Hf Hl Hr.
  - simpl. destruct room as [|room]; [done|]. destruct r as [|c r]; [done|].
    destruct Hr as [?|[-> Hc]]; [done|]. simpl in Hc. subst. done.
  - apply Forall_cons in Hf as [(H1 & H2 & H3 & H4) Hf]. destruct room as [|room]; simpl in Hl; [lia|].
    simpl. assert (stop_dot && (c =? 46) = false) as ->.
    { destruct stop_dot; [|done]. simpl. apply Z.eqb_neq. by apply H4. }
    destruct (Z.eqb_spec c 32), (Z.eqb_spec c 47); try done. simpl.
    rewrite IH by (done || lia). simpl. by rewrite H3.
Qed.

Lemma pad_length n l : (length l <= n)%nat -> length (pad n l) = n.
Proof. intros Hl. unfold pad. rewrite length_app, length_replicate. lia. Qed.

Lemma filter_pad n l b :
  Forall (stored_char b) l -> filter (fun c => not_blank c = true) (pad n l) = l.
Proof.
  intros Hf. unfold pad. rewrite filter_app.
  assert (forall k, filter (fun c => not_blank c = true) (replicate k 32) = []) as ->.
  { induction k as [|k IH]; [done|]. simpl. by rewrite filter_cons_False. }
  rewrite app_nil_r. induction Hf as [|c l (Hc & _) _ IH]; [done|].
  rewrite filter_cons_True, IH; [done|]. unfold not_blank. by destruct (Z.eqb_spec c 32).
Qed.

Lemma pad_first n l b :
  Forall (stored_char b) l -> (0 < n)%nat -> (nthZ 0 (pad n l) 0 =? 32) = match l with [] => true | _ => false end.
Proof.
  intros Hf Hn. unfold pad. destruct Hf as [|c l (Hc & _) _]; simpl.
  - destruct n; [lia|]. done.
  - unfold nthZ. change (Z.to_nat 0) with 0%nat. simpl. by destruct (Z.eqb_spec c 32).
Qed.

(** The printed form of a padded name. *)
Lemma fat_name_to_str_pad base ext :
  (length base <= 8)%nat -> (length ext <= 3)%nat ->
  Forall (stored_char false) base -> Forall (stored_char true) ext ->
  fat_name_to_str (pad 8 base ++ pad 3 ext) = base ++ match ext with [] => [] | _ => 46 :: ext end.
Proof.
  intros H1 H2 Hb He. pose proof (pad_length 8 base H1) as L1. pose proof (pad_length 3 ext H2) as L2.
  unfold fat_name_to_str. rewrite take_app_length' by done. rewrite drop_app_length' by done.
  rewrite (take_ge (pad 3 ext)) by lia. rewrite (filter_pad 8 base false), (filter_pad 3 ext true) by done.
  rewrite (pad_first 3 ext true) by (done || lia). by destruct ext.
Qed.

(** Whatever name the caller passes, the 8.3 name that is stored has 11
    bytes, and the name that the directory listing prints for it is accepted
    again and stored as the same 11 bytes: listing, then opening, finds the
    same file. *)
Theorem filename_to_fat_canonical name f :
  filename_to_fat name = Some f ->
  length f = 11%nat /\ filename_to_fat (fat_name_to_str f) = Some f.
Proof.
  intros E. unfold filename_to_fat in E. destruct (skip_lead name) as [|c0 s0]; [done|].
  destruct (name_part 8 true (c0 :: s0)) as [[base rest]|] eqn:E1; [|done]. cbn [mbind option_bind] in E.
  assert (exists ext, (length ext <= 3)%nat /\ Forall (stored_char true) ext /\
    (if nthZ 0 (pad 8 base ++ pad 3 ext) 0 =? 32 then None else Some (pad 8 base ++ pad 3 ext)) = Some f)
    as (ext & Hl & Hf & E').
  { destruct (skip_to_dot rest) as [|d rest'].
    - exists []. split; [simpl; lia|]. by split; [constructor|].
    - destruct (name_part 3 false rest') as [[ext r]|] eqn:E2; [|done].
      destruct (name_part_stored _ _ _ _ _ E2). by exists ext. }
  clear E. destruct (name_part_stored _ _ _ _ _ E1) as [Hbl Hbf]. simpl negb in Hbf.
  assert (base <> []) as Hne.
  { intros ->. done. }
  assert (f = pad 8 base ++ pad 3 ext) as ->.
  { destruct (nthZ 0 (pad 8 base ++ pad 3 ext) 0 =? 32); [done|congruence]. }
  split; [by rewrite length_app, !pad_length|].
  rewrite fat_name_to_str_pad by done. unfold filename_to_fat.
  assert (skip_lead (base ++ match ext with [] => [] | _ => 46 :: ext end) =
          base ++ match ext with [] => [] | _ => 46 :: ext end) as ->.
  { destruct Hbf as [|c l (H1 & H2 & _) _]; [done|]. simpl.
    by destruct (Z.eqb_spec c 47), (Z.eqb_spec c 32). }
  assert (exists c l, base ++ match ext with [] => [] | _ => 46 :: ext end = c :: l) as (c & l & Ec)
    by (destruct base; [done|simpl; eauto]).
  rewrite Ec, <- Ec. rewrite name_part_fixed; [|done|done|destruct ext; [by left|by right]].
  cbn [mbind option_bind]. destruct ext as [|e ext]; [exact E'|].
  cbn [skip_to_dot Z.eqb Pos.eqb]. rewrite <- (app_nil_r (e :: ext)) at 1.
  rewrite name_part_fixed by (done || by left). exact E'.
Qed.

(** "notes.txt" is stored as "NOTES   TXT". *)
Lemma filename_to_fat_canonical_witness :
  filename_to_fat [110; 111; 116; 101; 115; 46; 116; 120; 116] =
    Some [78; 79; 84; 69; 83; 32; 32; 32; 84; 88; 84] /\
  filename_to_fat (fat_name_to_str [78; 79; 84; 69; 83; 32; 32; 32; 84; 88; 84]) =
    Some [78; 79; 84; 69; 83; 32; 32; 32; 84; 88; 84].
Proof.
  split; [reflexivity|].
  apply (filename_to_fat_canonical [110; 111; 116; 101; 115; 46; 116; 120; 116]). reflexivity.
Defined.
