(* ===== verification/FatTable.v ===== *)
(** FatTable: correctness of the file allocation table of [kernel/fat.c].

    Over a reliable device, [get_fat_entry] and [set_fat_entry] implement an
    array of cluster entries: 12-bit entries share bytes and may cross a
    sector border, and all copies of the table are kept equal. *)

From S2P Require Import Prelude Memory Common Pmm Heap HeapInv HeapSpec HeapRun Disk Fat.
#[local] Open Scope kernel_scope.

(** * Bytes and 16-bit words *)

Lemma nthZ_nonneg_lookup {A} (d : A) l i : 0 <= i -> nthZ d l i = default d (l !! Z.to_nat i).
Proof. intros Hi. unfold nthZ. by destruct (Z.ltb_spec i 0); [lia|]. Qed.

Lemma byte_at_u8 buf i : Forall is_u8 buf -> is_u8 (byte_at buf i).
Proof.
  intros Hb. unfold byte_at, nthZ. case_goal; [unfold is_u8; lia|].
  destruct (buf !! Z.to_nat i) as [x|] eqn:E; simpl; [|unfold is_u8; lia].
  exact (proj1 (Forall_lookup _ _) Hb _ _ E).
Qed.

Lemma byte_at_app_l l1 l2 i : 0 <= i < lenZ l1 -> byte_at (l1 ++ l2) i = byte_at l1 i.
Proof.
  unfold lenZ. intros Hi. unfold byte_at. rewrite !nthZ_nonneg_lookup by lia. by rewrite lookup_app_l by lia.
Qed.
Lemma byte_at_app_r l1 l2 i : lenZ l1 <= i -> byte_at (l1 ++ l2) i = byte_at l2 (i - lenZ l1).
Proof.
  unfold lenZ. intros Hi. unfold byte_at. rewrite !nthZ_nonneg_lookup by lia.
  rewrite lookup_app_r by lia. do 2 f_equal. lia.
Qed.
Lemma byte_at_take n l i : i < Z.of_nat n -> byte_at (take n l) i = byte_at l i.
Proof.
  intros Hi. unfold byte_at, nthZ. case_goal; [done|]. bool_to_prop. by rewrite lookup_take_lt by lia.
Qed.
Lemma byte_at_drop n l i : 0 <= i -> byte_at (drop n l) i = byte_at l (Z.of_nat n + i).
Proof.
  intros Hi. unfold byte_at. rewrite !nthZ_nonneg_lookup by lia. rewrite lookup_drop. do 2 f_equal. lia.
Qed.

Lemma rd_le16_eq buf i : Forall is_u8 buf -> rd_le16 buf i = byte_at buf i + byte_at buf (i + 1) * 256.
Proof.
  intros Hb. unfold rd_le16. pose proof (byte_at_u8 buf i Hb). unfold_widths.
  rewrite lor_shiftl_add by (change (2 ^ 8) with 256; lia). done.
Qed.

Lemma byte_at_wr_le16 i v buf j :
  0 <= i -> i + 1 < lenZ buf ->
  byte_at (wr_le16 i v buf) j =
  if decide (j = i) then v mod 256 else if decide (j = i + 1) then (v / 256) mod 256 else byte_at buf j.
Proof.
  intros H0 Hi. unfold wr_le16, byte_at. rewrite !land_255, Z.shiftr_div_pow2 by lia. change (2 ^ 8) with 256.
  destruct (decide (j = i + 1)) as [->|Hj].
  - rewrite nthZ_updZ_eq by (rewrite lenZ_updZ; lia). by case_decide; [lia|].
  - rewrite nthZ_updZ_ne by lia. case_decide as Hj'; [subst; by rewrite nthZ_updZ_eq by lia|].
    by rewrite nthZ_updZ_ne by lia.
Qed.

Lemma wr_le16_length i v buf : length (wr_le16 i v buf) = length buf.
Proof.
  pose proof (lenZ_updZ (i + 1) (Z.land (Z.shiftr v 8) 255) (updZ i (Z.land v 255) buf)) as E1.
  pose proof (lenZ_updZ i (Z.land v 255) buf) as E2. unfold lenZ, wr_le16 in *. lia.
Qed.

Lemma updZ_u8 i x l : is_u8 x -> Forall is_u8 l -> Forall is_u8 (updZ i x l).
Proof. intros Hx Hl. unfold updZ. case_goal; [done|]. by apply Forall_insert. Qed.

Lemma wr_le16_u8 i v buf : Forall is_u8 buf -> Forall is_u8 (wr_le16 i v buf).
Proof.
  intros Hb. unfold wr_le16. rewrite !land_255. apply updZ_u8; [unfold is_u8; zlia|].
  apply updZ_u8; [unfold is_u8; zlia|done].
Qed.

(** * Entries as numbers *)

(** The entry whose 16-bit window is [raw], and the window after storing [v]. *)
Definition entry_of (ft cluster raw : Z) : Z :=
  if ft =? 12 then (if cluster mod 2 =? 0 then raw mod 4096 else raw / 16) else raw.
Definition window_of (ft cluster old v : Z) : Z :=
  if ft =? 12 then
    (if cluster mod 2 =? 0 then old / 4096 * 4096 + v mod 4096 else old mod 16 + v mod 4096 * 16)
  else v mod 65536.


Section table.
Context {D : Type} {BD : BlockDev D} {RD : ReliableDev D}.
Implicit Types fs : fat_fs D.

Lemma fat_decode_eq fs c raw : fat_decode fs c raw = entry_of (fat_type fs) c raw.
Proof.
  unfold fat_decode, entry_of. rewrite land_1. case_goal; [|done]. case_goal.
  - change 4095 with (Z.ones 12). by rewrite Z.land_ones by lia.
  - by rewrite Z.shiftr_div_pow2 by lia.
Qed.

Lemma fat_encode_eq fs c old v :
  is_u16 old -> fat_encode fs c old v = window_of (fat_type fs) c old v.
Proof.
  intros Ho. unfold is_u16 in Ho. unfold fat_encode, window_of. rewrite land_1.
  assert (Z.land v 4095 = v mod 4096) as -> by (by apply (Z.land_ones v 12)).
  case_goal; [case_goal|].
  - rewrite Z.lor_comm. replace (Z.land old 61440) with (Z.shiftl (old / 4096) 12).
    + rewrite lor_shiftl_add by (change (2 ^ 12) with 4096; zlia). change (2 ^ 12) with 4096.
      rewrite u16_id; zlia.
    + rewrite Z.shiftl_mul_pow2 by lia. change (2 ^ 12) with 4096.
      replace 61440 with (Z.land 65535 (Z.lnot (2 ^ 12 - 1))) by done.
      rewrite Z.land_assoc, land_65535, Z.mod_small, land_lnot_ones by lia. done.
  - assert (Z.land old 15 = old mod 16) as -> by (by apply (Z.land_ones old 4)).
    rewrite lor_shiftl_add by (change (2 ^ 4) with 16; zlia). change (2 ^ 4) with 16. rewrite u16_id; zlia.
  - rewrite land_65535, u16_id; zlia.
Qed.

(** ** The volume *)

Definition entry_offset (ft c : Z) : Z := if ft =? 12 then c + c / 2 else c * 2.

(** A mounted volume on a good device: the tables hold every cluster, and
    tables, root directory and data follow each other inside the device. *)
Record fat_wf fs : Prop := {
  wf_dev : rd_ok (dev fs);
  wf_mounted : fs_mounted fs = true;
  wf_type : fat_type fs = 12 \/ fat_type fs = 16;
  wf_start : 0 <= fat_start_sector fs;
  wf_fats : 1 <= num_fats (boot_sector fs) <= 4;
  wf_spc : 1 <= sectors_per_cluster (boot_sector fs) <= 128;
  wf_clusters : 1 <= total_clusters fs < (if fat_type fs =? 12 then 4085 else 65525);
  wf_fit : entry_offset (fat_type fs) (total_clusters fs + 1) + 2 <= fat_size_16 (boot_sector fs) * 512;
  wf_root : root_start_sector fs = fat_start_sector fs + num_fats (boot_sector fs) * fat_size_16 (boot_sector fs);
  wf_rsecs : 1 <= root_sectors fs;
  wf_data : data_start_sector fs = root_start_sector fs + root_sectors fs;
  wf_end : data_start_sector fs + total_clusters fs * sectors_per_cluster (boot_sector fs) <= rd_size (dev fs);
  wf_size : rd_size (dev fs) < 4294967296
}.

(** A data cluster of the volume. *)
Definition is_cluster fs (c : Z) : Prop := 2 <= c < total_clusters fs + 2.

(** Byte [k] of copy [f] of the table. *)
Definition table_byte fs (f k : Z) : Z :=
  byte_at (rd_sector (dev fs) (fat_start_sector fs + f * fat_size_16 (boot_sector fs) + k / 512)) (k mod 512).

Definition entry fs (f c : Z) : Z :=
  let off := entry_offset (fat_type fs) c in
  entry_of (fat_type fs) c (table_byte fs f off + table_byte fs f (off + 1) * 256).

Lemma with_dev_id fs : with_dev (dev fs) fs = fs.
Proof. by destruct fs. Qed.

Lemma wf_with_dev fs d :
  fat_wf fs -> rd_ok d -> rd_size d = rd_size (dev fs) -> fat_wf (with_dev d fs).
Proof. intros [] ? E. split; cbn; rewrite ?E; auto. Qed.

(** Offsets stay below 2^17 and inside the table. *)
Lemma offset_bounds fs c :
  fat_wf fs -> is_cluster fs c ->
  let off := entry_offset (fat_type fs) c in
  fat_offset fs c = off /\ 0 <= off < 131072 /\
  off + 1 < fat_size_16 (boot_sector fs) * 512 /\ 1 <= fat_size_16 (boot_sector fs).
Proof.
  intros Hwf [H1 H2]. pose proof (wf_fit _ Hwf) as Hf. pose proof (wf_clusters _ Hwf) as Hc.
  unfold fat_offset, entry_offset in *.
  destruct (fat_type fs =? 12); rewrite u32_id by zlia; zlia.
Qed.

(** Sectors of the tables are on the device. *)
Lemma table_sector fs f k :
  fat_wf fs -> 0 <= f < num_fats (boot_sector fs) -> 0 <= k < fat_size_16 (boot_sector fs) ->
  let l := fat_start_sector fs + f * fat_size_16 (boot_sector fs) + k in
  fat_start_sector fs <= l < root_start_sector fs /\ 0 <= l < rd_size (dev fs).
Proof.
  intros Hwf Hf Hk. destruct Hwf. cbv zeta.
  assert (f * fat_size_16 (boot_sector fs) + fat_size_16 (boot_sector fs)
    <= num_fats (boot_sector fs) * fat_size_16 (boot_sector fs)) by nia.
  assert (0 <= f * fat_size_16 (boot_sector fs)) by nia.
  assert (1 <= total_clusters fs * sectors_per_cluster (boot_sector fs)) by nia. lia.
Qed.

(** Reading the window of an entry of copy 0. *)
Lemma read_fat_window_eq fs c :
  fat_wf fs -> is_cluster fs c ->
  let off := entry_offset (fat_type fs) c in
  let l := fat_start_sector fs + off / 512 in
  read_fat_window (u32 l) (off mod 512) fs =
  (Some (rd_sector (dev fs) l ++ if off mod 512 =? 511 then rd_sector (dev fs) (l + 1) else []), fs).
Proof.
  intros Hwf Hc off l. destruct (offset_bounds fs c Hwf Hc) as (_ & Ho & Ho2 & Hz). fold off in Ho, Ho2.
  pose proof (wf_fats _ Hwf). pose proof (wf_size _ Hwf). pose proof (wf_dev _ Hwf) as Hd.
  destruct (table_sector fs 0 (off / 512) Hwf ltac:(lia) ltac:(zlia)) as [_ Hl].
  replace (fat_start_sector fs + 0 * fat_size_16 (boot_sector fs) + off / 512) with l in Hl by (unfold l; lia).
  unfold read_fat_window. rewrite (u32_id l) by lia.
  assert (forall k, 0 <= k < rd_size (dev fs) -> read_sector k fs = ((0, rd_sector (dev fs) k), fs)) as Hr.
  { intros k Hk. unfold read_sector. rewrite rd_read_law by done. by rewrite with_dev_id. }
  rewrite (st_bind_eq _ _ _ (0, rd_sector (dev fs) l) fs) by by apply Hr. cbn [fst snd Z.eqb negb].
  destruct (Z.eqb_spec (off mod 512) 511) as [E|E]; [|by rewrite app_nil_r].
  destruct (table_sector fs 0 (off / 512 + 1) Hwf ltac:(lia) ltac:(zlia)) as [_ Hl'].
  replace (fat_start_sector fs + 0 * fat_size_16 (boot_sector fs) + (off / 512 + 1)) with (l + 1) in Hl' by (unfold l; lia).
  rewrite (u32_id (l + 1)) by lia.
  rewrite (st_bind_eq _ _ _ (0, rd_sector (dev fs) (l + 1)) fs) by by apply Hr. done.
Qed.
(** The sectors under an entry are sectors. *)
Lemma window_wf fs c :
  fat_wf fs -> is_cluster fs c ->
  let off := entry_offset (fat_type fs) c in
  let l := fat_start_sector fs + off / 512 in
  length (rd_sector (dev fs) l) = 512%nat /\ Forall is_u8 (rd_sector (dev fs) l) /\
  (off mod 512 = 511 ->
     length (rd_sector (dev fs) (l + 1)) = 512%nat /\ Forall is_u8 (rd_sector (dev fs) (l + 1))).
Proof.
  intros Hwf Hc off l. destruct (offset_bounds fs c Hwf Hc) as (_ & Ho & Ho2 & Hz). fold off in Ho, Ho2.
  pose proof (wf_fats _ Hwf). pose proof (wf_dev _ Hwf) as Hd.
  destruct (table_sector fs 0 (off / 512) Hwf ltac:(lia) ltac:(zlia)) as [_ Hl].
  destruct (rd_sector_wf (dev fs) l Hd) as [H1 H2]; [unfold l; lia|].
  split; [done|]. split; [done|]. intros E.
  destruct (table_sector fs 0 (off / 512 + 1) Hwf ltac:(lia) ltac:(zlia)) as [_ Hl'].
  apply rd_sector_wf; [done|unfold l; lia].
Qed.

Lemma window_u8 fs c :
  fat_wf fs -> is_cluster fs c ->
  let off := entry_offset (fat_type fs) c in
  let l := fat_start_sector fs + off / 512 in
  let w := rd_sector (dev fs) l ++ (if off mod 512 =? 511 then rd_sector (dev fs) (l + 1) else []) in
  Forall is_u8 w /\ off mod 512 + 1 < lenZ w /\
  rd_le16 w (off mod 512) = table_byte fs 0 off + table_byte fs 0 (off + 1) * 256 /\
  is_u8 (table_byte fs 0 off) /\ is_u8 (table_byte fs 0 (off + 1)).
Proof.
  intros Hwf Hc off l w. destruct (window_wf fs c Hwf Hc) as (L1 & U1 & Hx). fold off l in L1, U1, Hx.
  destruct (offset_bounds fs c Hwf Hc) as (_ & Ho & _). fold off in Ho.
  assert (lenZ (rd_sector (dev fs) l) = 512) as Z1 by (unfold lenZ; lia).
  assert (Forall is_u8 w) as Hw.
  { unfold w. destruct (Z.eqb_spec (off mod 512) 511) as [E|E]; [|by rewrite app_nil_r].
    apply Forall_app. split; [done|]. by apply Hx. }
  assert (table_byte fs 0 off = byte_at w (off mod 512)) as E0.
  { unfold table_byte, w. rewrite byte_at_app_l by zlia. do 2 f_equal. unfold l. lia. }
  assert (table_byte fs 0 (off + 1) = byte_at w (off mod 512 + 1)) as E1.
  { unfold table_byte, w. destruct (Z.eqb_spec (off mod 512) 511) as [E|E].
    - rewrite byte_at_app_r by zlia. rewrite Z1, E. do 2 f_equal; [unfold l; zlia|zlia].
    - rewrite byte_at_app_l by zlia. do 2 f_equal; [unfold l; zlia|zlia]. }
  split; [done|]. split.
  { unfold w. rewrite lenZ_app, Z1. destruct (Z.eqb_spec (off mod 512) 511) as [E|E].
    - destruct (Hx E) as [L2 _]. unfold lenZ. rewrite L2. zlia.
    - unfold lenZ. simpl. zlia. }
  rewrite rd_le16_eq, E0, E1 by done. split_and!; auto; by apply byte_at_u8.
Qed.

Lemma get_fat_entry_eq fs c :
  fat_wf fs -> is_cluster fs c -> get_fat_entry c fs = (entry fs 0 c, fs).
Proof.
  intros Hwf Hc. pose proof Hc as [Hc1 _]. unfold get_fat_entry. rewrite (wf_mounted _ Hwf).
  destruct (Z.ltb_spec c 2); [lia|]. cbn [negb orb].
  destruct (offset_bounds fs c Hwf Hc) as (-> & _).
  rewrite (st_bind_eq _ _ _ _ _ (read_fat_window_eq fs c Hwf Hc)). unfold st_ret. f_equal.
  destruct (window_u8 fs c Hwf Hc) as (_ & _ & -> & _). by rewrite fat_decode_eq.
Qed.

(** ** Writing all copies *)

(** The device after the first [i] copies were written. *)
Definition copies_written fs (sec_off : Z) (s0 : list Z) (s1 : option (list Z)) (i : Z) (d : D) : Prop :=
  let sec f := fat_start_sector fs + f * fat_size_16 (boot_sector fs) + sec_off in
  rd_ok d /\ rd_size d = rd_size (dev fs) /\
  (forall f, 0 <= f < i -> rd_sector d (sec f) = s0) /\
  (forall f s, 0 <= f < i -> s1 = Some s -> rd_sector d (sec f + 1) = s) /\
  (forall l, 0 <= l < rd_size (dev fs) ->
     (forall f, 0 <= f < i -> l <> sec f /\ (s1 <> None -> l <> sec f + 1)) ->
     rd_sector d l = rd_sector (dev fs) l).

(** One iteration of the loop over the copies. *)
Definition write_copy fs (sec_off : Z) (s0 : list Z) (s1 : option (list Z)) (f : Z) : ST (fat_fs D) unit :=
  let f_sec := u32 (fat_start_sector fs + f * fat_size_16 (boot_sector fs) + sec_off) in
  write_sector f_sec s0 ;;;
  match s1 with
  | Some s => write_sector (u32 (f_sec + 1)) s ;;; st_ret tt
  | None => st_ret tt
  end.

Lemma write_sector_eq fs l buf :
  rd_ok (dev fs) -> 0 <= l < rd_size (dev fs) -> length buf = 512%nat -> Forall is_u8 buf ->
  exists d', write_sector l buf fs = (0, with_dev d' fs) /\ rd_ok d' /\ rd_size d' = rd_size (dev fs) /\
    forall k, 0 <= k < rd_size (dev fs) ->
      rd_sector d' k = if decide (k = l) then buf else rd_sector (dev fs) k.
Proof.
  intros Hd Hl Hlen Hb. destruct (rd_write_law (dev fs) l buf Hd Hl Hlen Hb) as (d' & E & ? & ? & ?).
  exists d'. split_and!; auto. unfold write_sector. by rewrite E.
Qed.
Section copies.
Context (fs : fat_fs D) (Hwf : fat_wf fs) (sec_off : Z) (s0 : list Z) (s1 : option (list Z)).
Context (Hoff : 0 <= sec_off < fat_size_16 (boot_sector fs)).
Context (Hs1 : s1 <> None -> sec_off + 1 < fat_size_16 (boot_sector fs)).
Context (Hl0 : length s0 = 512%nat) (Hu0 : Forall is_u8 s0).
Context (Hl1 : forall s, s1 = Some s -> length s = 512%nat /\ Forall is_u8 s).

Let sec f := fat_start_sector fs + f * fat_size_16 (boot_sector fs) + sec_off.

(** Copies do not overlap. *)
Lemma sec_apart f g : 0 <= f < g -> sec f + fat_size_16 (boot_sector fs) <= sec g.
Proof using Hoff. clear - Hoff. intros Hf. unfold sec. nia. Qed.

Lemma write_copy_step i d :
  0 <= i < num_fats (boot_sector fs) -> copies_written fs sec_off s0 s1 i d ->
  exists d', write_copy fs sec_off s0 s1 i (with_dev d fs) = (tt, with_dev d' fs) /\
    copies_written fs sec_off s0 s1 (i + 1) d'.
Proof using Hwf Hoff Hs1 Hl0 Hu0 Hl1.
  intros Hi (Hok & Hsz & H1 & H2 & H3). pose proof (wf_size _ Hwf).
  destruct (table_sector fs i sec_off Hwf Hi Hoff) as [_ Hb]. fold (sec i) in Hb.
  unfold write_copy. fold (sec i). rewrite (u32_id (sec i)) by lia.
  destruct (write_sector_eq (with_dev d fs) (sec i) s0) as (d1 & E1 & Hok1 & Hsz1 & Hr1); cbn [dev with_dev] in *;
    auto; [lia|].
  rewrite (st_bind_eq _ _ _ _ _ E1). change (with_dev d1 (with_dev d fs)) with (with_dev d1 fs).
  assert (forall f, 0 <= f < i -> sec f <> sec i /\ sec f + 1 < sec i \/ s1 = None /\ sec f < sec i) as Hap.
  { intros f Hf. pose proof (sec_apart f i Hf). destruct s1; [left|right]; [|split; [done|lia]].
    pose proof (Hs1 ltac:(done)). lia. }
  destruct s1 as [s|]; cycle 1.
  { exists d1. split; [done|]. split_and!; auto; try congruence.
    - intros f Hf. fold (sec f). destruct (decide (f = i)) as [->|].
      + rewrite Hr1 by lia. by case_decide.
      + destruct (table_sector fs f sec_off Hwf ltac:(lia) Hoff) as [_ Hb']. fold (sec f) in Hb'.
        rewrite Hr1 by lia. case_decide; [destruct (Hap f); lia|]. apply H1. lia.
    - intros l Hl Hn. rewrite Hr1 by lia. case_decide as Hd.
      + destruct (Hn i) as [Hne _]; [lia|]. done.
      + apply H3; [done|]. intros f Hf. apply Hn. lia. }
  destruct (Hl1 s eq_refl) as [Ls Us]. pose proof (Hs1 ltac:(done)) as Hlt.
  destruct (table_sector fs i (sec_off + 1) Hwf Hi ltac:(lia)) as [_ Hb2].
  replace (fat_start_sector fs + i * fat_size_16 (boot_sector fs) + (sec_off + 1)) with (sec i + 1) in Hb2
    by (unfold sec; lia).
  rewrite (u32_id (sec i + 1)) by lia.
  destruct (write_sector_eq (with_dev d1 fs) (sec i + 1) s) as (d2 & E2 & Hok2 & Hsz2 & Hr2); cbn [dev with_dev] in *;
    auto; [lia|].
  rewrite (st_bind_eq _ _ _ _ _ E2). exists d2. split; [done|]. split_and!; auto; try congruence.
  - intros f Hf. fold (sec f).
    destruct (table_sector fs f sec_off Hwf ltac:(lia) Hoff) as [_ Hb']. fold (sec f) in Hb'.
    destruct (decide (f = i)) as [->|].
    + rewrite Hr2, Hr1 by lia. repeat case_decide; try lia; done.
    + destruct (Hap f) as [?|[? _]]; [lia| |done]. rewrite Hr2, Hr1 by lia.
      repeat case_decide; try lia. apply H1. lia.
  - intros f s' Hf Es. injection Es as <-. fold (sec f).
    destruct (table_sector fs f (sec_off + 1) Hwf ltac:(lia) ltac:(lia)) as [_ Hb'].
    replace (fat_start_sector fs + f * fat_size_16 (boot_sector fs) + (sec_off + 1)) with (sec f + 1) in Hb'
      by (unfold sec; lia).
    destruct (decide (f = i)) as [->|].
    + rewrite Hr2 by lia. by case_decide.
    + destruct (Hap f) as [?|[? _]]; [lia| |done]. rewrite Hr2, Hr1 by lia.
      repeat case_decide; try lia. apply H2; [lia|done].
  - intros l Hl Hn. destruct (Hn i ltac:(lia)) as [Hn1 Hn2]. specialize (Hn2 ltac:(done)).
    fold (sec i) in Hn1, Hn2. rewrite Hr2, Hr1 by lia. repeat case_decide; try lia.
    apply H3; [done|]. intros f Hf. apply Hn. lia.
Qed.

Lemma write_copies n :
  0 <= n <= num_fats (boot_sector fs) ->
  exists d', st_for 0 n (write_copy fs sec_off s0 s1) fs = (tt, with_dev d' fs) /\
    copies_written fs sec_off s0 s1 n d'.
Proof using Hwf Hoff Hs1 Hl0 Hu0 Hl1.
  intros Hn. unfold st_for.
  enough (exists d', for_range 0 n (fun i s => (write_copy fs sec_off s0 s1 i s).2) fs = with_dev d' fs /\
    copies_written fs sec_off s0 s1 n d') as (d' & -> & ?) by eauto.
  refine (for_range_inv (fun i s => exists d', s = with_dev d' fs /\ copies_written fs sec_off s0 s1 i d')
    0 n _ fs _ _ _); [lia| |].
  - exists (dev fs). rewrite with_dev_id. split; [done|]. pose proof (wf_dev _ Hwf).
    split_and!; auto; intros; lia.
  - intros i s Hi (d & -> & Hd). destruct (write_copy_step i d ltac:(lia) Hd) as (d' & -> & Hd'). eauto.
Qed.
End copies.
(** ** [set_fat_entry] *)

Lemma copy_zero f n a b : 0 <= f -> 0 <= a -> 0 <= b < n -> b = f * n + a -> f = 0.
Proof. nia. Qed.

(** A sector of a table belongs to one copy. *)
Lemma copy_unique f g n a b : 0 <= a < n -> 0 <= b < n -> f * n + a = g * n + b -> f = g /\ a = b.
Proof.
  intros Ha Hb E. destruct (Z.lt_trichotomy f g) as [Hl|[->|Hl]]; [exfalso|lia|exfalso].
  - assert ((f + 1) * n <= g * n) by (apply Z.mul_le_mono_nonneg_r; lia). lia.
  - assert ((g + 1) * n <= f * n) by (apply Z.mul_le_mono_nonneg_r; lia). lia.
Qed.

(** The sectors of the table outside of which nothing changes. *)
Definition in_tables fs (l : Z) : Prop := fat_start_sector fs <= l < root_start_sector fs.

(** The effect on the bytes of the tables: two bytes of copy 0 change, and
    the other copies get the same sectors. *)
Definition table_updated fs (off w : Z) (d : D) : Prop :=
  let fs' := with_dev d fs in
  (forall k, 0 <= k < fat_size_16 (boot_sector fs) * 512 ->
     table_byte fs' 0 k = if decide (k = off) then w mod 256
                          else if decide (k = off + 1) then (w / 256) mod 256 else table_byte fs 0 k) /\
  (forall f k, 0 <= f < num_fats (boot_sector fs) -> 0 <= k < fat_size_16 (boot_sector fs) * 512 ->
     table_byte fs' f k = table_byte fs' 0 k \/
     (table_byte fs' f k = table_byte fs f k /\ table_byte fs' 0 k = table_byte fs 0 k)).

Lemma copies_table_updated fs c w d :
  fat_wf fs -> is_cluster fs c ->
  let off := entry_offset (fat_type fs) c in
  let l := fat_start_sector fs + off / 512 in
  let buf := wr_le16 (off mod 512) w
    (rd_sector (dev fs) l ++ if off mod 512 =? 511 then rd_sector (dev fs) (l + 1) else []) in
  let s1 := if off mod 512 =? 511 then Some (drop 512 buf) else None in
  copies_written fs (off / 512) (take 512 buf) s1 (num_fats (boot_sector fs)) d ->
  table_updated fs off w d /\
  (forall l, 0 <= l < rd_size (dev fs) -> ~ in_tables fs l -> rd_sector d l = rd_sector (dev fs) l).
Proof.
  intros Hwf Hc off l buf s1 (Hok & Hsz & H1 & H2 & H3). cbv beta zeta in H1, H2, H3.
  destruct (offset_bounds fs c Hwf Hc) as (_ & Ho & Ho2 & Hz). fold off in Ho, Ho2.
  destruct (window_u8 fs c Hwf Hc) as (_ & Hlen & _). fold off l in Hlen.
  destruct (window_wf fs c Hwf Hc) as (L1 & _ & Hx). fold off l in L1, Hx.
  set (win := rd_sector (dev fs) l ++ _) in *.
  assert (forall j, byte_at buf j = if decide (j = off mod 512) then w mod 256
    else if decide (j = off mod 512 + 1) then (w / 256) mod 256 else byte_at win j) as Hb.
  { intros j. apply byte_at_wr_le16; [zlia|exact Hlen]. }
  assert (lenZ (rd_sector (dev fs) l) = 512) as Z1 by (unfold lenZ; lia).
  pose proof (wf_fats _ Hwf) as Hnf. split; [split|].
  - intros k Hk. unfold table_byte. cbn [dev with_dev fat_start_sector boot_sector fat_size_16].
    replace (fat_start_sector fs + 0 * fat_size_16 (boot_sector fs) + k / 512) with (fat_start_sector fs + k / 512) by lia.
    destruct (decide (k / 512 = off / 512)) as [Ek|Ek]; [|destruct (decide (s1 <> None /\ k / 512 = off / 512 + 1)) as [[Es Ek']|Ek']].
    + rewrite Ek. fold l. pose proof (H1 0 ltac:(lia)) as E. cbv zeta in E. rewrite Z.mul_0_l, Z.add_0_r in E. fold l in E.
      rewrite E, byte_at_take, Hb by zlia. unfold win. rewrite byte_at_app_l by zlia.
      repeat case_decide; try zlia; done.
    + unfold s1 in Es. destruct (Z.eqb_spec (off mod 512) 511) as [Eo|]; [|done].
      pose proof (H2 0 (drop 512 buf) ltac:(lia) ltac:(done)) as E.
      cbv zeta in E. rewrite Z.mul_0_l, Z.add_0_r in E. fold l in E.
      replace (fat_start_sector fs + k / 512) with (l + 1) by (unfold l; lia).
      rewrite E, byte_at_drop, Hb by zlia. unfold win. rewrite byte_at_app_r by zlia.
      rewrite Z1. replace (Z.of_nat 512 + k mod 512 - 512) with (k mod 512) by lia.
      repeat case_decide; try zlia; done.
    + destruct (table_sector fs 0 (k / 512) Hwf ltac:(lia) ltac:(zlia)) as [_ Hl].
      rewrite H3; [|lia|].
      * case_decide; [subst; done|]. case_decide; [|done]. exfalso.
        assert (off mod 512 = 511) as Eo by zlia. apply Ek'. split; [|zlia].
        unfold s1. by rewrite (proj2 (Z.eqb_eq _ _) Eo).
      * intros f Hf. split; [|intros Es].
        -- intros E. assert (f = 0) by (apply (copy_zero f (fat_size_16 (boot_sector fs)) (off / 512) (k / 512)); zlia).
           subst f. lia.
        -- intros E. assert (off mod 512 = 511) as Eo.
           { unfold s1 in Es. by destruct (Z.eqb_spec (off mod 512) 511). }
           assert (f = 0) by (apply (copy_zero f (fat_size_16 (boot_sector fs)) (off / 512 + 1) (k / 512)); zlia).
           subst f. apply Ek'. split; [done|lia].
  - intros f k Hf Hk. unfold table_byte. cbn [dev with_dev fat_start_sector boot_sector].
    assert (0 <= k / 512 < fat_size_16 (boot_sector fs)) as Hk' by zlia.
    assert (0 <= off / 512 < fat_size_16 (boot_sector fs)) as Hof by zlia.
    assert (s1 <> None -> off / 512 + 1 < fat_size_16 (boot_sector fs)) as Hs1.
    { unfold s1. destruct (Z.eqb_spec (off mod 512) 511); [zlia|done]. }
    destruct (decide (k / 512 = off / 512)) as [->|Ek]; [left; by rewrite !H1 by lia|].
    destruct (decide (k / 512 = off / 512 + 1)) as [Ek'|Ek'].
    + destruct s1 as [s|]; [left|right].
      * rewrite Ek', !Z.add_assoc. by rewrite !(H2 _ s) by (done || lia).
      * rewrite !H3; [done| | | |]; try apply table_sector; auto; try lia; intros g Hg; split; try done; intros E.
        all: first [destruct (copy_unique 0 g (fat_size_16 (boot_sector fs)) (k / 512) (off / 512)); lia
                   |destruct (copy_unique f g (fat_size_16 (boot_sector fs)) (k / 512) (off / 512)); lia].
    + right. rewrite !H3; [done| | | |]; try apply table_sector; auto; try lia; intros g Hg; split;
        [|intros Hs| |intros Hs]; intros E.
      all: first [destruct (copy_unique 0 g (fat_size_16 (boot_sector fs)) (k / 512) (off / 512)); lia
                 |destruct (copy_unique f g (fat_size_16 (boot_sector fs)) (k / 512) (off / 512)); lia
                 |specialize (Hs1 Hs);
                  first [destruct (copy_unique 0 g (fat_size_16 (boot_sector fs)) (k / 512) (off / 512 + 1)); lia
                        |destruct (copy_unique f g (fat_size_16 (boot_sector fs)) (k / 512) (off / 512 + 1)); lia]].
  - intros k Hk Hn. apply H3; [done|]. intros f Hf.
    destruct (table_sector fs f (off / 512) Hwf Hf ltac:(zlia)) as [Ha _]. split.
    + intros ->. by apply Hn.
    + intros Es ->. assert (off mod 512 = 511) as Eo.
      { unfold s1 in Es. by destruct (Z.eqb_spec (off mod 512) 511). }
      destruct (table_sector fs f (off / 512 + 1) Hwf Hf ltac:(zlia)) as [Hb' _]. apply Hn.
      unfold in_tables. lia.
Qed.
(** What storing a window does to the entries of copy 0. *)
Lemma entry_updated ft (c c' : Z) (b b' : Z -> Z) v :
  ft = 12 \/ ft = 16 -> 2 <= c -> 2 <= c' ->
  (forall k, 0 <= b k < 256) ->
  let off := entry_offset ft c in
  let w := window_of ft c (b off + b (off + 1) * 256) v in
  (forall k, k = entry_offset ft c' \/ k = entry_offset ft c' + 1 ->
     b' k = if decide (k = off) then w mod 256
            else if decide (k = off + 1) then (w / 256) mod 256 else b k) ->
  entry_of ft c' (b' (entry_offset ft c') + b' (entry_offset ft c' + 1) * 256) =
  if decide (c' = c) then v mod (if ft =? 12 then 4096 else 65536)
  else entry_of ft c' (b (entry_offset ft c') + b (entry_offset ft c' + 1) * 256).
Proof.
  intros Hft Hc Hc' Hb off w Hb'. rewrite !Hb' by auto. unfold w, off, window_of, entry_of, entry_offset.
  pose proof (Hb (entry_offset ft c)). pose proof (Hb (entry_offset ft c + 1)).
  pose proof (Hb (entry_offset ft c')). pose proof (Hb (entry_offset ft c' + 1)).
  unfold entry_offset in *. clear Hb Hb' b'. destruct Hft as [-> | ->]; cbn [Z.eqb Pos.eqb] in *.
  - destruct (decide (c' = c)) as [->|Hne].
    + rewrite (decide_True _ _ (P := c + c / 2 = c + c / 2)) by done.
      rewrite (decide_False _ _ (P := c + c / 2 + 1 = c + c / 2)) by lia.
      rewrite (decide_True _ _ (P := c + c / 2 + 1 = c + c / 2 + 1)) by done.
      set (x := b (c + c / 2)) in *. set (y := b (c + c / 2 + 1)) in *. clearbody x y.
      destruct (Z.eqb_spec (c mod 2) 0); zlia.
    + assert (c + c / 2 <> c' + c' / 2) by zlia.
      set (x := b (c + c / 2)) in *. set (y := b (c + c / 2 + 1)) in *.
      set (x' := b (c' + c' / 2)) in *. set (y' := b (c' + c' / 2 + 1)) in *.
      destruct (decide (c' + c' / 2 = c + c / 2 + 1)) as [E1|E1].
      * (* [c'] is the odd neighbour above: it keeps the high nibble of the shared byte *)
        assert (x' = y) as Ex by (unfold x', y; by rewrite E1). clearbody x y x' y'.
        repeat case_decide; try lia.
        destruct (Z.eqb_spec (c mod 2) 0), (Z.eqb_spec (c' mod 2) 0); zlia.
      * destruct (decide (c' + c' / 2 + 1 = c + c / 2)) as [E2|E2].
        -- assert (y' = x) as Ex by (unfold y', x; by rewrite E2). clearbody x y x' y'.
           repeat case_decide; try lia.
           destruct (Z.eqb_spec (c mod 2) 0), (Z.eqb_spec (c' mod 2) 0); zlia.
        -- repeat case_decide; try lia; done.
  - destruct (decide (c' = c)) as [->|Hne].
    + rewrite (decide_True _ _ (P := c * 2 = c * 2)) by done.
      rewrite (decide_False _ _ (P := c * 2 + 1 = c * 2)) by lia.
      rewrite (decide_True _ _ (P := c * 2 + 1 = c * 2 + 1)) by done. zlia.
    + repeat case_decide; try lia; done.
Qed.
Definition entry_modulus fs : Z := if fat_type fs =? 12 then 4096 else 65536.

(** All copies of the table agree. *)
Definition mirrored fs : Prop :=
  forall f k, 0 <= f < num_fats (boot_sector fs) -> 0 <= k < fat_size_16 (boot_sector fs) * 512 ->
    table_byte fs f k = table_byte fs 0 k.

Lemma table_byte_u8 fs k :
  fat_wf fs -> 0 <= k < fat_size_16 (boot_sector fs) * 512 -> is_u8 (table_byte fs 0 k).
Proof.
  intros Hwf Hk. apply byte_at_u8. pose proof (wf_fats _ Hwf).
  destruct (table_sector fs 0 (k / 512) Hwf ltac:(lia) ltac:(zlia)) as [_ Hl].
  by apply rd_sector_wf; [apply (wf_dev _ Hwf)|].
Qed.

Lemma set_fat_entry_spec fs c v :
  fat_wf fs -> is_cluster fs c ->
  exists d, set_fat_entry c v fs = (tt, with_dev d fs) /\ fat_wf (with_dev d fs) /\
    rd_size d = rd_size (dev fs) /\
    (forall c', is_cluster fs c' ->
       entry (with_dev d fs) 0 c' = if decide (c' = c) then v mod entry_modulus fs else entry fs 0 c') /\
    (mirrored fs -> mirrored (with_dev d fs)) /\
    (forall l, 0 <= l < rd_size (dev fs) -> ~ in_tables fs l -> rd_sector d l = rd_sector (dev fs) l).
Proof.
  intros Hwf Hc. pose proof Hc as [Hc1 _]. set (off := entry_offset (fat_type fs) c).
  set (l := fat_start_sector fs + off / 512).
  set (win := rd_sector (dev fs) l ++ (if off mod 512 =? 511 then rd_sector (dev fs) (l + 1) else [])).
  destruct (window_u8 fs c Hwf Hc) as (Hu & Hlen & Hraw & Hb0 & Hb1).
  fold off l win in Hu, Hlen, Hraw, Hb0, Hb1.
  destruct (offset_bounds fs c Hwf Hc) as (Eo & Ho & Ho2 & Hz). fold off in Eo, Ho, Ho2.
  destruct (window_wf fs c Hwf Hc) as (L1 & _ & Hx). fold off l in L1, Hx.
  set (w := window_of (fat_type fs) c (rd_le16 win (off mod 512)) v).
  set (buf := wr_le16 (off mod 512) w win).
  assert (length buf = (512 + if (off mod 512 =? 511)%Z then 512 else 0)%nat) as Hbl.
  { unfold buf. rewrite wr_le16_length. unfold win. rewrite length_app, L1.
    destruct (Z.eqb_spec (off mod 512) 511) as [E|]; [|done]. destruct (Hx E) as [-> _]. done. }
  assert (Forall is_u8 buf) as Hbu by by apply wr_le16_u8.
  assert (exists d, set_fat_entry c v fs = (tt, with_dev d fs) /\
    copies_written fs (off / 512) (take 512 buf) (if off mod 512 =? 511 then Some (drop 512 buf) else None)
      (num_fats (boot_sector fs)) d) as (d & Ed & Hcw).
  { unfold set_fat_entry. rewrite (wf_mounted _ Hwf). destruct (Z.ltb_spec c 2); [lia|]. cbn [negb orb]. cbv zeta.
    rewrite Eo. rewrite (st_bind_eq _ _ _ _ _ (read_fat_window_eq fs c Hwf Hc)). fold off. fold l. fold win.
    rewrite fat_encode_eq by (rewrite Hraw; unfold_widths; lia). fold w. fold buf.
    pose proof (wf_fats _ Hwf) as Hnf.
    destruct (Z.eqb_spec (off mod 512) 511) as [E|E].
    - apply (write_copies fs Hwf (off / 512) (take 512 buf) (Some (drop 512 buf)));
        [zlia|zlia|by rewrite length_take, Hbl|by apply Forall_take| |lia].
      intros s Es. injection Es as <-. split; [by rewrite length_drop, Hbl|by apply Forall_drop].
    - apply (write_copies fs Hwf (off / 512) (take 512 buf) None);
        [zlia|done|by rewrite length_take, Hbl|by apply Forall_take|done|lia]. }
  exists d. pose proof Hcw as (Hok & Hsz & _).
  destruct (copies_table_updated fs c w d Hwf Hc Hcw) as [[Hbytes Hmir] Hout].
  split_and!; auto; [by apply wf_with_dev| |].
  - intros c' Hc'. destruct (offset_bounds fs c' Hwf Hc') as (_ & Ho' & Ho2' & _). pose proof Hc' as [Hc1' _].
    unfold entry. cbn [with_dev fat_type].
    set (b := fun k => if decide (0 <= k < fat_size_16 (boot_sector fs) * 512) then table_byte fs 0 k else 0).
    assert (forall k, 0 <= b k < 256) as Hb.
    { intros k. unfold b. case_decide; [|lia]. by apply table_byte_u8. }
    pose proof (entry_updated (fat_type fs) c c' b (table_byte (with_dev d fs) 0) v (wf_type _ Hwf) Hc1 Hc1' Hb) as He.
    fold off in He. cbv zeta in He.
    assert (b off = table_byte fs 0 off /\ b (off + 1) = table_byte fs 0 (off + 1)) as [E1 E2].
    { unfold b. by rewrite !decide_True by lia. }
    assert (b (entry_offset (fat_type fs) c') = table_byte fs 0 (entry_offset (fat_type fs) c') /\
            b (entry_offset (fat_type fs) c' + 1) = table_byte fs 0 (entry_offset (fat_type fs) c' + 1)) as [E3 E4].
    { unfold b. by rewrite !decide_True by lia. }
    rewrite E1, E2, E3, E4, <- Hraw in He. fold w in He. apply He.
    intros k Hk. rewrite Hbytes by lia. unfold b. rewrite (decide_True (P := 0 <= k < _)) by lia. done.
  - intros Hm f k Hf Hk. destruct (Hmir f k Hf Hk) as [E|[E1 E2]]; [done|].
    rewrite E1, E2. by apply Hm.
Qed.

(** On a mounted volume, storing a value in the entry of a cluster and
    reading it back gives the value modulo 2^12 (FAT12) or 2^16 (FAT16), the
    entry of every other cluster reads as before (also the neighbour that
    shares a byte, and entries across a sector border), copies of the table
    that agreed still agree, and no sector outside the tables is written. *)
Theorem fat_entry_set_get fs c v :
  fat_wf fs -> is_cluster fs c ->
  let fs' := (set_fat_entry c v fs).2 in
  fat_wf fs' /\
  get_fat_entry c fs' = (v mod entry_modulus fs, fs') /\
  (forall c', is_cluster fs c' -> c' <> c -> (get_fat_entry c' fs').1 = (get_fat_entry c' fs).1) /\
  (mirrored fs -> mirrored fs') /\
  (forall l, 0 <= l < rd_size (dev fs) -> ~ in_tables fs l -> rd_sector (dev fs') l = rd_sector (dev fs) l).
Proof.
  intros Hwf Hc. destruct (set_fat_entry_spec fs c v Hwf Hc) as (d & -> & Hwf' & _ & He & Hm & Hout).
  cbn [snd]. split_and!; auto.
  - rewrite get_fat_entry_eq by done. rewrite He by done. by case_decide.
  - intros c' Hc' Hne. rewrite !get_fat_entry_eq by done. cbn [fst]. rewrite He by done. by case_decide.
Qed.
End table.
