(* ===== verification/FatAlloc.v ===== *)
(** FatAlloc: allocation and release of cluster chains of [kernel/fat.c]. *)

From S2P Require Import Prelude Memory Common Pmm Heap HeapInv HeapSpec HeapRun Disk Fat FatTable.
#[local] Open Scope kernel_scope.

(** The volume of the witnesses: 64 sectors, 2 tables of one sector, 7 sectors
    of root directory, 54 clusters of one sector, all free. *)
Definition volume_example : fat_fs array_dev :=
  FatFs (FatBoot 512 1 1 2 112 64 1 0 []) 0 1 3 7 10 54 12 true (blank_disk 64).

Lemma volume_example_wf : fat_wf volume_example.
Proof.
  split; cbn [volume_example dev fs_mounted fat_type fat_start_sector boot_sector num_fats sectors_per_cluster
    total_clusters fat_size_16 root_start_sector root_sectors data_start_sector rd_size array_reliable ad_size blank_disk];
    cbn [Z.eqb Pos.eqb]; try lia; auto using blank_disk_ok.
  vm_compute. discriminate.
Qed.

Lemma fat_entry_set_get_witness :
  fat_wf volume_example /\ is_cluster volume_example 3 /\
  (get_fat_entry 3 (set_fat_entry 3 2748 volume_example).2).1 = 2748.
Proof.
  assert (is_cluster volume_example 3) as Hc by (unfold is_cluster; cbn; lia).
  split; [exact volume_example_wf|split; [exact Hc|]].
  destruct (fat_entry_set_get volume_example 3 2748 volume_example_wf Hc) as (_ & E & _).
  rewrite E. reflexivity.
Defined.

Section alloc.
Context {D : Type} {BD : BlockDev D} {RD : ReliableDev D}.
Implicit Types fs : fat_fs D.

(** ** Data clusters *)

Definition in_cluster fs (c l : Z) : Prop :=
  data_start_sector fs + (c - 2) * sectors_per_cluster (boot_sector fs) <= l <
  data_start_sector fs + (c - 1) * sectors_per_cluster (boot_sector fs).

Lemma cluster_bounds fs c :
  fat_wf fs -> is_cluster fs c ->
  cluster_sector fs c = data_start_sector fs + (c - 2) * sectors_per_cluster (boot_sector fs) /\
  0 <= cluster_sector fs c /\ root_start_sector fs <= cluster_sector fs c /\
  cluster_sector fs c + sectors_per_cluster (boot_sector fs) <= rd_size (dev fs).
Proof.
  intros [] [Hc1 Hc2].
  assert (0 <= (c - 2) * sectors_per_cluster (boot_sector fs)) by nia.
  assert ((c - 2) * sectors_per_cluster (boot_sector fs) + sectors_per_cluster (boot_sector fs)
    <= total_clusters fs * sectors_per_cluster (boot_sector fs)) by nia.
  assert (0 <= num_fats (boot_sector fs) * fat_size_16 (boot_sector fs)).
  { assert (0 <= fat_size_16 (boot_sector fs)); [|nia]. unfold entry_offset in *. destruct (fat_type fs =? 12); zlia. }
  unfold cluster_sector. rewrite u32_id by lia. lia.
Qed.

(** Clusters do not share sectors. *)
Lemma in_cluster_unique fs c c' l : in_cluster fs c l -> in_cluster fs c' l -> c = c'.
Proof. unfold in_cluster. intros ? ?. nia. Qed.

Lemma in_cluster_not_table fs c l : fat_wf fs -> is_cluster fs c -> in_cluster fs c l -> ~ in_tables fs l.
Proof.
  intros Hwf Hc Hl. destruct (cluster_bounds fs c Hwf Hc) as (E & _ & H & _).
  unfold in_cluster, in_tables in *. lia.
Qed.

Lemma zero_cluster_spec fs c :
  fat_wf fs -> is_cluster fs c ->
  exists d, zero_cluster c fs = (tt, with_dev d fs) /\ rd_ok d /\ rd_size d = rd_size (dev fs) /\
    (forall l, 0 <= l < rd_size (dev fs) -> in_cluster fs c l -> rd_sector d l = zero_sector) /\
    (forall l, 0 <= l < rd_size (dev fs) -> ~ in_cluster fs c l -> rd_sector d l = rd_sector (dev fs) l).
Proof.
  intros Hwf Hc. destruct (cluster_bounds fs c Hwf Hc) as (E & H0 & _ & Hend).
  pose proof (wf_spc _ Hwf) as Hspc. pose proof (wf_size _ Hwf).
  set (n := sectors_per_cluster (boot_sector fs)) in *. set (a := cluster_sector fs c) in *.
  enough (exists d, for_range 0 n
      (fun i s => ((write_sector (u32 (a + i)) zero_sector ;;; st_ret tt) s).2) fs = with_dev d fs /\
    rd_ok d /\ rd_size d = rd_size (dev fs) /\
    forall l, 0 <= l < rd_size (dev fs) ->
      rd_sector d l = if decide (a <= l < a + n) then zero_sector else rd_sector (dev fs) l) as (d & Ed & Hok & Hsz & Hd).
  { exists d. split_and!; auto.
    - unfold zero_cluster, st_for. fold a n. by rewrite Ed.
    - intros l Hl Hin. rewrite Hd by done. unfold in_cluster in Hin. fold n in Hin.
      rewrite decide_True by lia. done.
    - intros l Hl Hin. rewrite Hd by done. unfold in_cluster in Hin. fold n in Hin.
      rewrite decide_False by lia. done. }
  refine (for_range_inv (fun i s => exists d, s = with_dev d fs /\ rd_ok d /\ rd_size d = rd_size (dev fs) /\
    forall l, 0 <= l < rd_size (dev fs) ->
      rd_sector d l = if decide (a <= l < a + i) then zero_sector else rd_sector (dev fs) l) 0 n _ fs _ _ _); [lia| |].
  - exists (dev fs). rewrite with_dev_id. split; [done|]. split; [exact (wf_dev fs Hwf)|]. split; [done|].
    intros l Hl. by rewrite decide_False by lia.
  - intros i s Hi (d & -> & Hok & Hsz & Hd). rewrite (u32_id (a + i)) by lia.
    destruct (write_sector_eq (with_dev d fs) (a + i) zero_sector) as (d' & E' & Hok' & Hsz' & Hd');
      cbn [dev with_dev] in *; [done|lia|apply zero_sector_wf|apply zero_sector_wf|].
    rewrite (st_bind_eq _ _ _ _ _ E'). exists d'. split_and!; auto; [congruence|].
    intros l Hl. rewrite Hd', Hd by lia. repeat case_decide; try lia; done.
Qed.

(** ** [allocate_cluster] *)

Lemma entry_with_dev fs d c :
  (forall l, in_tables fs l -> 0 <= l < rd_size (dev fs) -> rd_sector d l = rd_sector (dev fs) l) ->
  fat_wf fs -> is_cluster fs c -> entry (with_dev d fs) 0 c = entry fs 0 c.
Proof.
  intros Hd Hwf Hc. destruct (offset_bounds fs c Hwf Hc) as (_ & Ho & Ho2 & Hz). pose proof (wf_fats _ Hwf).
  unfold entry, table_byte. cbn [with_dev fat_type dev fat_start_sector boot_sector].
  rewrite !Hd; [done|..]; apply table_sector; auto; zlia.
Qed.

Lemma mirrored_with_dev fs d :
  (forall l, in_tables fs l -> 0 <= l < rd_size (dev fs) -> rd_sector d l = rd_sector (dev fs) l) ->
  fat_wf fs -> mirrored fs -> mirrored (with_dev d fs).
Proof.
  intros Hd Hwf Hm f k Hf Hk. cbn [with_dev boot_sector] in *. pose proof (wf_fats _ Hwf).
  unfold table_byte. cbn [with_dev dev fat_start_sector boot_sector].
  rewrite !Hd; [by apply Hm|..]; apply table_sector; auto; try lia; zlia.
Qed.

(** The state after the search hit cluster [c]. *)
Definition claim_cluster (c : Z) : ST (fat_fs D) (option Z) := fun fs =>
  (set_fat_entry c (eoc_marker fs) ;;; zero_cluster c ;;; st_ret (Some c)) fs.

Lemma alloc_search fs l eoc :
  eoc = eoc_marker fs -> fat_wf fs -> (forall c, c ∈ l -> is_cluster fs c) ->
  let body c := (e <~ get_fat_entry c;;
     if e =? 0 then set_fat_entry c eoc ;;; zero_cluster c ;;; st_ret (Some c) else st_ret None) in
  (Forall (fun c => entry fs 0 c <> 0) l /\ st_search l body fs = (None, fs)) \/
  exists l1 c l2, l = l1 ++ c :: l2 /\ Forall (fun c => entry fs 0 c <> 0) l1 /\ entry fs 0 c = 0 /\
    st_search l body fs = ((Some c : option Z), (claim_cluster c fs).2).
Proof.
  intros -> Hwf Hl body. induction l as [|c l IH]; [by left|].
  cbn [st_search].
  assert (is_cluster fs c) as Hc by (apply Hl; set_solver).
  destruct (decide (entry fs 0 c = 0)) as [E|E].
  - right. exists [], c, l. split_and!; auto.
    assert (body c fs = (Some c, (claim_cluster c fs).2)) as Eb.
    { unfold body. rewrite (st_bind_eq _ _ _ _ _ (get_fat_entry_eq fs c Hwf Hc)). rewrite E. change (0 =? 0) with true. cbv iota.
      unfold claim_cluster, st_bind, st_ret. destruct (set_fat_entry c (eoc_marker fs) fs) as [u1 s1].
      cbv iota beta. by destruct (zero_cluster c s1) as [u2 s2]. }
    by rewrite (st_bind_eq _ _ _ _ _ Eb).
  - assert (body c fs = (None, fs)) as Eb.
    { unfold body. rewrite (st_bind_eq _ _ _ _ _ (get_fat_entry_eq fs c Hwf Hc)).
      by destruct (Z.eqb_spec (entry fs 0 c) 0). }
    rewrite (st_bind_eq _ _ _ _ _ Eb).
    destruct IH as [[Hf ->]|(l1 & c' & l2 & -> & Hf & E' & ->)].
    + intros c' Hc'. apply Hl. set_solver.
    + left. split; [by constructor|done].
    + right. exists (c :: l1), c', l2. split_and!; auto.
Qed.

Lemma claim_cluster_spec fs c :
  fat_wf fs -> is_cluster fs c ->
  exists d, (claim_cluster c fs).2 = with_dev d fs /\ fat_wf (with_dev d fs) /\ rd_size d = rd_size (dev fs) /\
    (forall c', is_cluster fs c' ->
       entry (with_dev d fs) 0 c' = if decide (c' = c) then eoc_marker fs else entry fs 0 c') /\
    (mirrored fs -> mirrored (with_dev d fs)) /\
    (forall l, 0 <= l < rd_size (dev fs) -> in_cluster fs c l -> rd_sector d l = zero_sector) /\
    (forall l, 0 <= l < rd_size (dev fs) -> ~ in_cluster fs c l -> ~ in_tables fs l ->
       rd_sector d l = rd_sector (dev fs) l).
Proof.
  intros Hwf Hc. destruct (set_fat_entry_spec fs c (eoc_marker fs) Hwf Hc) as (d1 & E1 & Hwf1 & Hsz1 & He1 & Hm1 & Ho1).
  destruct (zero_cluster_spec (with_dev d1 fs) c Hwf1 Hc) as (d2 & E2 & Hok2 & Hsz2 & Hz2 & Ho2).
  change (with_dev d2 (with_dev d1 fs)) with (with_dev d2 fs) in E2.
  change (in_cluster (with_dev d1 fs)) with (in_cluster fs) in *. cbn [dev with_dev] in Hsz2, Hz2, Ho2.
  assert (forall l, in_tables fs l -> 0 <= l < rd_size (dev (with_dev d1 fs)) ->
    rd_sector d2 l = rd_sector (dev (with_dev d1 fs)) l) as Hk.
  { intros l Ht Hl. apply Ho2; [done|]. intros Hin. by apply (in_cluster_not_table fs c l Hwf Hc). }
  exists d2. split_and!.
  - unfold claim_cluster. rewrite (st_bind_eq _ _ _ _ _ E1), (st_bind_eq _ _ _ _ _ E2). done.
  - apply (wf_with_dev (with_dev d1 fs) d2); auto.
  - congruence.
  - intros c' Hc'. pose proof (entry_with_dev (with_dev d1 fs) d2 c' Hk Hwf1 Hc') as Ee.
    change (with_dev d2 (with_dev d1 fs)) with (with_dev d2 fs) in Ee. rewrite Ee, He1 by done.
    case_decide; [|done]. unfold eoc_marker, entry_modulus. by destruct (fat_type fs =? 12).
  - intros Hm. exact (mirrored_with_dev (with_dev d1 fs) d2 Hk Hwf1 (Hm1 Hm)).
  - intros l Hl Hin. apply Hz2; [by rewrite Hsz1|done].
  - intros l Hl Hin Ht. rewrite Ho2 by (done || by rewrite Hsz1). by apply Ho1.
Qed.
(** [allocate_cluster] returns 0, changing nothing, exactly when no
    entry of the table is free; otherwise it takes the free cluster with the
    smallest number, marks it as the end of a chain in all copies of the
    table, fills its sectors with zeros, and changes no other entry, no
    other cluster and nothing of the directory. *)
Theorem allocate_cluster_correct fs :
  fat_wf fs ->
  let '(c, fs') := allocate_cluster fs in
  (c = 0 /\ fs' = fs /\ forall c', is_cluster fs c' -> entry fs 0 c' <> 0) \/
  (is_cluster fs c /\ entry fs 0 c = 0 /\ (forall c', 2 <= c' < c -> entry fs 0 c' <> 0) /\
   fat_wf fs' /\
   (forall c', is_cluster fs c' ->
      entry fs' 0 c' = if decide (c' = c) then eoc_marker fs else entry fs 0 c') /\
   (mirrored fs -> mirrored fs') /\
   (forall l, 0 <= l < rd_size (dev fs) -> ~ in_tables fs l ->
      rd_sector (dev fs') l = if decide (in_cluster fs c l) then zero_sector else rd_sector (dev fs) l)).
Proof.
  intros Hwf. unfold allocate_cluster.
  destruct (alloc_search fs (seqZ 2 (total_clusters fs)) (eoc_marker fs) eq_refl Hwf)
    as [[Hf E]|(l1 & c & l2 & El & Hf & Ec & E)].
  { intros c Hc. apply elem_of_seqZ in Hc. unfold is_cluster. lia. }
  - rewrite (st_bind_eq _ _ _ _ _ E). left. split_and!; [done|done|].
    intros c' [? ?]. rewrite Forall_forall in Hf. apply Hf, elem_of_seqZ. lia.
  - rewrite (st_bind_eq _ _ _ _ _ E). unfold st_ret. change (default 0 (Some c)) with c.
    assert (c ∈ seqZ 2 (total_clusters fs)) as Hin by (rewrite El; set_solver).
    apply elem_of_seqZ in Hin. assert (is_cluster fs c) as Hc by (unfold is_cluster; lia).
    destruct (claim_cluster_spec fs c Hwf Hc) as (d & -> & Hwf' & Hsz & He & Hm & Hz & Ho).
    right. split_and!; auto.
    + intros c' Hc'. rewrite Forall_forall in Hf. apply Hf.
      assert (l1 = seqZ 2 (c - 2)) as ->.
      { assert (lenZ l1 = c - 2) as Hlen.
        { pose proof (lookup_seqZ_lt 2 (total_clusters fs) (length l1)) as Hlk. rewrite El in Hlk.
          rewrite list_lookup_middle in Hlk by done.
          assert (length (seqZ 2 (total_clusters fs)) = length (l1 ++ c :: l2)) as HL by by rewrite El.
          rewrite length_seqZ, length_app in HL. simpl in HL.
          specialize (Hlk ltac:(lia)). injection Hlk as Hlk. unfold lenZ. lia. }
        replace (total_clusters fs) with ((c - 2) + (total_clusters fs - (c - 2))) in El by lia.
        rewrite seqZ_app in El by lia. symmetry. apply (f_equal (take (length l1))) in El.
        rewrite take_app_length in El. rewrite take_app_length' in El; [done|].
        rewrite length_seqZ. unfold lenZ in Hlen. lia. }
      apply elem_of_seqZ. lia.
    + intros l Hl Ht. case_decide; [by apply Hz|by apply Ho].
Qed.

(** ** Chains *)

(** [chain fs c l]: following the entries from [c] visits the clusters [l]
    and then leaves the data area. *)
Fixpoint chain fs (c : Z) (l : list Z) : Prop :=
  match l with
  | [] => ~ 2 <= c < eoc_threshold fs
  | x :: l => c = x /\ is_cluster fs x /\ chain fs (entry fs 0 x) l
  end.

Lemma chain_ext fs d c l :
  (forall x, x ∈ l -> entry (with_dev d fs) 0 x = entry fs 0 x) -> chain fs c l -> chain (with_dev d fs) c l.
Proof.
  revert c. induction l as [|x l IH]; intros c Hx; [done|]. intros (-> & Hc & Hch).
  split; [done|]. split; [done|]. rewrite Hx by set_solver. apply IH; [|done]. intros y Hy. apply Hx. set_solver.
Qed.

Lemma chain_clusters fs c l : chain fs c l -> forall x, x ∈ l -> is_cluster fs x.
Proof.
  revert c. induction l as [|y l IH]; intros c; [set_solver|]. intros (-> & Hc & Hch) x Hx.
  apply elem_of_cons in Hx as [->|Hx]; [done|]. by eapply IH.
Qed.

Lemma cluster_below_eoc fs c : fat_wf fs -> is_cluster fs c -> 2 <= c < eoc_threshold fs.
Proof.
  intros Hwf [Hc1 Hc2]. pose proof (wf_clusters _ Hwf). unfold eoc_threshold.
  destruct (fat_type fs =? 12); lia.
Qed.

Lemma chain_length fs c l : fat_wf fs -> chain fs c l -> NoDup l -> lenZ l <= total_clusters fs.
Proof.
  intros Hwf Hch Hnd. pose proof (wf_clusters _ Hwf).
  assert (l ⊆+ seqZ 2 (total_clusters fs)) as Hs.
  { apply NoDup_submseteq; [done|]. intros x Hx. apply elem_of_seqZ.
    destruct (chain_clusters _ _ _ Hch x Hx). lia. }
  apply submseteq_length in Hs. rewrite length_seqZ in Hs. unfold lenZ. lia.
Qed.

Lemma free_chain_spec guard fs c l :
  fat_wf fs -> chain fs c l -> NoDup l -> (length l <= guard)%nat ->
  exists d, free_chain guard c fs = (tt, with_dev d fs) /\ fat_wf (with_dev d fs) /\
    rd_size d = rd_size (dev fs) /\
    (forall c', is_cluster fs c' ->
       entry (with_dev d fs) 0 c' = if decide (c' ∈ l) then 0 else entry fs 0 c') /\
    (mirrored fs -> mirrored (with_dev d fs)) /\
    (forall l, 0 <= l < rd_size (dev fs) -> ~ in_tables fs l -> rd_sector d l = rd_sector (dev fs) l).
Proof.
  revert fs c guard. induction l as [|x l IH]; intros fs c guard Hwf Hch Hnd Hg.
  - exists (dev fs). rewrite with_dev_id. split_and!; auto.
    + simpl in Hch. destruct guard; simpl; destruct (Z.leb_spec 2 c), (Z.ltb_spec c (eoc_threshold fs));
        simpl; try done; lia.
  - destruct Hch as (-> & Hx & Hch). apply NoDup_cons in Hnd as [Hni Hnd].
    destruct guard as [|guard]; simpl in Hg; [lia|]. cbn [free_chain].
    pose proof (cluster_below_eoc fs x Hwf Hx) as Hb.
    destruct (Z.leb_spec 2 x), (Z.ltb_spec x (eoc_threshold fs)); try lia. cbn [andb].
    rewrite (st_bind_eq _ _ _ _ _ (get_fat_entry_eq fs x Hwf Hx)).
    destruct (set_fat_entry_spec fs x 0 Hwf Hx) as (d1 & E1 & Hwf1 & Hsz1 & He1 & Hm1 & Ho1).
    rewrite (st_bind_eq _ _ _ _ _ E1).
    destruct (IH (with_dev d1 fs) (entry fs 0 x) guard Hwf1) as (d2 & E2 & Hwf2 & Hsz2 & He2 & Hm2 & Ho2); auto.
    { apply chain_ext; [|done]. intros y Hy. rewrite He1 by (by eapply chain_clusters). case_decide; [set_solver|done]. }
    { lia. }
    change (with_dev d2 (with_dev d1 fs)) with (with_dev d2 fs) in *. cbn [dev with_dev] in Hsz2.
    exists d2. split_and!; auto; [congruence| |].
    + intros c' Hc'. rewrite He2, He1 by done.
      destruct (decide (c' = x)) as [->|Hne].
      * rewrite (decide_True (P := x ∈ x :: l)) by set_solver. rewrite decide_False by done.
        unfold entry_modulus. by destruct (fat_type fs =? 12).
      * destruct (decide (c' ∈ l)); [rewrite decide_True by set_solver|rewrite decide_False by set_solver]; done.
    + intros k Hk Ht. cbn [dev with_dev] in Ho2. rewrite Ho2 by (done || by rewrite Hsz1). by apply Ho1.
Qed.

(** Releasing a chain that ends terminates and frees exactly its
    clusters: their entries become 0, every other entry keeps its value, in
    all copies of the table, and no other sector of the disk is written. *)
Theorem free_cluster_chain_correct fs c l :
  fat_wf fs -> chain fs c l -> NoDup l ->
  let fs' := (free_cluster_chain c fs).2 in
  fat_wf fs' /\
  (forall c', is_cluster fs c' -> entry fs' 0 c' = if decide (c' ∈ l) then 0 else entry fs 0 c') /\
  (mirrored fs -> mirrored fs') /\
  (forall k, 0 <= k < rd_size (dev fs) -> ~ in_tables fs k -> rd_sector (dev fs') k = rd_sector (dev fs) k).
Proof.
  intros Hwf Hch Hnd. pose proof (chain_length _ _ _ Hwf Hch Hnd) as Hl. pose proof (wf_clusters _ Hwf) as Hc.
  unfold free_cluster_chain. rewrite u32_id by (destruct (fat_type fs =? 12); lia).
  destruct (free_chain_spec (Z.to_nat (total_clusters fs + 2)) fs c l Hwf Hch Hnd) as (d & -> & ? & _ & ? & ? & ?).
  { unfold lenZ in Hl. lia. }
  done.
Qed.
End alloc.

Lemma allocate_cluster_correct_witness :
  fat_wf volume_example /\ (allocate_cluster volume_example).1 = 2.
Proof.
  split; [exact volume_example_wf|].
  pose proof (allocate_cluster_correct volume_example volume_example_wf) as H.
  rewrite (surjective_pairing (allocate_cluster volume_example)) in H.
  destruct H as [(_ & _ & H)|([Hc _] & _ & H & _)].
  - exfalso. apply (H 2); [unfold is_cluster; cbn; lia|vm_compute; reflexivity].
  - destruct (decide (2 < (allocate_cluster volume_example).1)).
    + exfalso. apply (H 2); [lia|vm_compute; reflexivity].
    + lia.
Defined.

(** Clusters 3 and 5 chained. *)
Definition chain_example : fat_fs array_dev :=
  (set_fat_entry 5 4095 (set_fat_entry 3 5 volume_example).2).2.

Lemma free_cluster_chain_correct_witness :
  exists fs, fat_wf fs /\ chain fs 3 [3; 5] /\ NoDup [3; 5] /\
    entry (free_cluster_chain 3 fs).2 0 5 = 0.
Proof.
  assert (is_cluster volume_example 3) as H3 by (unfold is_cluster; cbn; lia).
  destruct (set_fat_entry_spec volume_example 3 5 volume_example_wf H3) as (d1 & E1 & W1 & _).
  assert (is_cluster (with_dev d1 volume_example) 5) as H5 by (unfold is_cluster; cbn; lia).
  destruct (set_fat_entry_spec (with_dev d1 volume_example) 5 4095 W1 H5) as (d2 & E2 & W2 & _ & He & _).
  set (fs := with_dev d2 (with_dev d1 volume_example)) in *.
  assert (fs = chain_example) as Efs.
  { unfold chain_example. rewrite E1. cbn [snd]. rewrite E2. reflexivity. }
  assert (chain fs 3 [3; 5]) as Hch.
  { rewrite Efs. split; [reflexivity|]. split; [unfold is_cluster; vm_compute; auto|].
    split; [vm_compute; reflexivity|]. split; [unfold is_cluster; vm_compute; auto|]. vm_compute. intros [_ H]. discriminate H. }
  assert (NoDup [3; 5]) as Hnd by (repeat constructor; set_solver).
  exists fs. split; [exact W2|]. split; [exact Hch|]. split; [exact Hnd|].
  destruct (free_cluster_chain_correct fs 3 [3; 5] W2 Hch Hnd) as (_ & H & _).
  rewrite (H 5 H5). reflexivity.
Defined.
