(* ===== verification/FatFormat.v ===== *)
(** FatFormat: formatting a disk with [fat_format] of [kernel/fat.c] produces
    a volume that mounts, with an empty directory and free clusters only. *)

From S2P Require Import Prelude Memory Common Pmm Heap HeapInv HeapSpec HeapRun Disk Fat FatFile FatTable FatAlloc.
#[local] Open Scope kernel_scope.

(** * Geometry *)

Definition g_clusters (g : geometry) : Z := (g_secs g - 1 - 2 * g_fat_secs g - g_root_secs g) / g_spc g.

(** The bounds that [mount_at_lba] and the table operations need. *)
Record geometry_ok (g : geometry) : Prop := {
  go_secs : 64 <= g_secs g <= 1048576;
  go_spc : g_spc g = 1 \/ g_spc g = 2 \/ g_spc g = 4 \/ g_spc g = 8 \/ g_spc g = 16;
  go_root : g_root_ents g = 112 /\ g_root_secs g = 7 \/ g_root_ents g = 512 /\ g_root_secs g = 32;
  go_fat : 1 <= g_fat_secs g <= 257;
  go_data : 1 + 2 * g_fat_secs g + g_root_secs g < g_secs g;
  go_clusters : 40 <= g_clusters g < 65525;
  go_target : g_target g = if g_clusters g <? 4085 then 12 else 16;
  go_fit : entry_offset (g_target g) (g_clusters g + 1) + 2 <= g_fat_secs g * 512
}.

Lemma format_geometry_ok n : 64 <= n < 4294967296 -> geometry_ok (format_geometry n).
Proof.
  intros Hn. unfold format_geometry.
  set (secs := if 1048576 <? n then 1048576 else n).
  assert (64 <= secs <= 1048576) as Hs by (unfold secs; destruct (Z.ltb_spec 1048576 n); lia).
  set (spc := if 524288 <=? secs then 16 else _).
  set (re := if secs <=? 2048 then 112 else 512). set (rs := (re * 32 + 511) / 512).
  assert ((spc = 16 /\ 524288 <= secs \/ spc = 8 /\ 262144 <= secs < 524288 \/ spc = 4 /\ 16384 <= secs < 262144 \/
           spc = 2 /\ 8192 <= secs < 16384 \/ spc = 1 /\ secs < 8192) /\
          (re = 112 /\ rs = 7 /\ secs <= 2048 \/ re = 512 /\ rs = 32 /\ 2048 < secs)) as [Hspc Hre].
  { unfold spc, rs, re. split.
    - destruct (Z.leb_spec 524288 secs), (Z.leb_spec 262144 secs), (Z.leb_spec 16384 secs),
        (Z.leb_spec 8192 secs); lia.
    - destruct (Z.leb_spec secs 2048); [left|right]; auto. }
  clearbody secs spc. clearbody rs. clearbody re. rewrite (u32_id (secs - 1 - rs)) by lia.
  set (apx := (secs - 1 - rs) / spc).
  assert (1 <= apx < 65536 /\ spc * apx <= secs - 1 - rs < spc * apx + spc) as [Ha Ha'].
  { unfold apx. destruct Hspc as [[-> ?]|[[-> ?]|[[-> ?]|[[-> ?]|[-> ?]]]]]; zlia. }
  clearbody apx.
  set (fb := if (if apx <? 4085 then 12 else 16) =? 12 then _ else _).
  assert (fb = if apx <? 4085 then ((apx + 2) * 3 + 1) / 2 else (apx + 2) * 2) as Efb
    by (unfold fb; by destruct (apx <? 4085)).
  clearbody fb. set (f := (fb + 511) / 512).
  assert (1 <= f <= 257 /\ fb <= f * 512 < fb + 512) as [Hf Hfb].
  { unfold f. rewrite Efb. destruct (Z.ltb_spec apx 4085); zlia. }
  clearbody f. rewrite (u16_id f) by lia. destruct (Z.eqb_spec f 0); [lia|].
  assert (1 + 2 * f + rs < secs) as Hd.
  { destruct (Z.ltb_spec apx 4085); subst fb; zlia. }
  rewrite (u32_id (secs - 1 - 2 * f - rs)) by lia. set (cl := (secs - 1 - 2 * f - rs) / spc).
  assert (40 <= cl < 65525 /\ cl < apx) as [Hc Hc'].
  { unfold cl. destruct Hspc as [[-> ?]|[[-> ?]|[[-> ?]|[[-> ?]|[-> ?]]]]];
      destruct (Z.ltb_spec apx 4085); subst fb; zlia. }
  set (target := if _ && _ then 12 else _).
  assert (target = if cl <? 4085 then 12 else 16) as Et.
  { unfold target. destruct (Z.ltb_spec apx 4085), (Z.ltb_spec cl 4085); try lia; done. }
  split; unfold g_clusters; cbn [g_secs g_spc g_root_ents g_root_secs g_target g_fat_secs]; fold cl; try lia; auto.
  rewrite Et. unfold entry_offset. destruct (Z.ltb_spec apx 4085), (Z.ltb_spec cl 4085); try lia; subst fb; cbn [Z.eqb Pos.eqb]; zlia.
Qed.

(** * The boot sector *)

Lemma byte_at_updZ i x l j :
  0 <= i < lenZ l -> byte_at (updZ i x l) j = if decide (j = i) then x else byte_at l j.
Proof.
  intros Hi. unfold byte_at. case_decide; [subst; by apply nthZ_updZ_eq|by apply nthZ_updZ_ne].
Qed.

Lemma lenZ_wr_le16 i v l : lenZ (wr_le16 i v l) = lenZ l.
Proof. unfold lenZ. by rewrite wr_le16_length. Qed.
Lemma lenZ_wr_le32 i v l : lenZ (wr_le32 i v l) = lenZ l.
Proof. unfold wr_le32. by rewrite !lenZ_wr_le16. Qed.
Lemma lenZ_wr_bytes i l buf : lenZ (wr_bytes i l buf) = lenZ buf.
Proof. revert i buf. induction l as [|x l IH]; intros i buf; simpl; [done|]. by rewrite IH, lenZ_updZ. Qed.
#[local] Hint Rewrite lenZ_wr_le16 lenZ_wr_le32 lenZ_wr_bytes @lenZ_updZ : kernel.

Lemma byte_at_wr_bytes i l buf j :
  0 <= i -> i + lenZ l <= lenZ buf ->
  byte_at (wr_bytes i l buf) j = if decide (i <= j < i + lenZ l) then byte_at l (j - i) else byte_at buf j.
Proof.
  unfold lenZ. revert i buf. induction l as [|x l IH]; intros i buf H0 Hl; simpl in *.
  { rewrite decide_False by lia. done. }
  assert (length (updZ i x buf) = length buf) as E by (pose proof (lenZ_updZ i x buf) as E; unfold lenZ in E; lia).
  rewrite IH by lia. rewrite byte_at_updZ by (unfold lenZ; lia).
  destruct (decide (j = i)) as [->|Hj].
  - rewrite decide_False by lia. rewrite decide_True by lia. by rewrite Z.sub_diag.
  - destruct (decide (i + 1 <= j < i + 1 + Z.of_nat (length l))).
    + rewrite decide_True by lia. unfold byte_at. rewrite !nthZ_nonneg_lookup by lia.
      replace (Z.to_nat (j - i)) with (S (Z.to_nat (j - (i + 1)))) by lia. done.
    + rewrite decide_False by lia. done.
Qed.

(** Bytes that a store does not touch, whatever the length. *)
Lemma byte_at_updZ_ne i x l j : j <> i -> byte_at (updZ i x l) j = byte_at l j.
Proof. intros Hj. unfold byte_at. by apply nthZ_updZ_ne. Qed.
Lemma byte_at_wr_le16_ne i v l j : j < i \/ i + 2 <= j -> byte_at (wr_le16 i v l) j = byte_at l j.
Proof. intros Hj. unfold wr_le16. by rewrite !byte_at_updZ_ne by lia. Qed.
Lemma byte_at_wr_bytes_ne i l buf j : j < i \/ i + lenZ l <= j -> byte_at (wr_bytes i l buf) j = byte_at buf j.
Proof.
  unfold lenZ. revert i buf. induction l as [|x l IH]; intros i buf Hj; simpl in *; [done|].
  rewrite IH by lia. apply byte_at_updZ_ne. lia.
Qed.

(** Reads one byte through a chain of stores into a sector. *)
Ltac sec_len := autorewrite with kernel; lia.
Ltac sec_step :=
  first
    [ rewrite byte_at_updZ_ne by lia
    | rewrite byte_at_wr_le16_ne by lia
    | rewrite byte_at_wr_bytes_ne by lia
    | rewrite byte_at_updZ by sec_len
    | rewrite byte_at_wr_le16 by sec_len
    | rewrite byte_at_wr_bytes by sec_len ];
  repeat first [rewrite decide_True by lia | rewrite decide_False by lia].

Lemma label_bytes_len label : lenZ (label_bytes label) = 11.
Proof.
  unfold label_bytes, lenZ. destruct label as [|c label]; [done|].
  set (t := take 11 (c :: label)). assert (length t <= 11)%nat by (unfold t; rewrite length_take; lia).
  rewrite length_app, length_replicate, length_fmap. lia.
Qed.

Section boot.
Context (g : geometry) (label : list Z).

Lemma zeros_len : lenZ (replicate 512 0) = 512.
Proof. done. Qed.
Lemma fs_type_len : lenZ (str_FAT (g_target g)) = 8.
Proof. done. Qed.
Lemma oem_len : lenZ str_BENGALOS = 8 /\ lenZ [235; 60; 144] = 3.
Proof. done. Qed.

Lemma byte_at_zeros j : byte_at (replicate 512 0) j = 0.
Proof.
  unfold byte_at, nthZ. case_goal; [done|]. destruct (replicate 512 0 !! Z.to_nat j) eqn:E; [|done].
  apply lookup_replicate in E as [-> _]. done.
Qed.

Lemma format_boot_bytes :
  let sec := format_boot g label in
  lenZ sec = 512 /\ byte_at sec 510 = 85 /\ byte_at sec 511 = 170 /\ byte_at sec 13 = g_spc g /\
  byte_at sec 16 = 2 /\
  (forall i v, (i, v) ∈ [(11, 512); (14, 1); (17, g_root_ents g); (22, g_fat_secs g)] ->
     byte_at sec i = v mod 256 /\ byte_at sec (i + 1) = v / 256 mod 256) /\
  (forall j, 19 <= j <= 20 -> byte_at sec j =
     if g_secs g <? 65536 then (if j =? 19 then g_secs g mod 256 else g_secs g / 256 mod 256) else 0) /\
  (forall j, 32 <= j <= 35 -> byte_at sec j =
     if g_secs g <? 65536 then 0 else g_secs g / 2 ^ (8 * (j - 32)) mod 256).
Proof.
  pose proof zeros_len as L0. pose proof fs_type_len as L1. pose proof oem_len as [L2 L3].
  pose proof (label_bytes_len label) as L4.
  unfold format_boot, wr_le32. cbv zeta. destruct (g_secs g <? 65536); split_and!.
  all: try (repeat sec_step; done).
  1, 5: by autorewrite with kernel.
  1, 4: intros i v Hi; rewrite !elem_of_cons, elem_of_nil in Hi;
    destruct Hi as [Hi|[Hi|[Hi|[Hi|[]]]]]; injection Hi as -> ->; split; repeat sec_step; done.
  - intros j Hj. assert (j = 19 \/ j = 20) as [-> | ->] by lia; repeat sec_step; done.
  - intros j Hj. assert (j = 32 \/ j = 33 \/ j = 34 \/ j = 35) as [-> |[-> |[-> | ->]]] by lia; repeat sec_step;
      apply byte_at_zeros.
  - intros j Hj. assert (j = 19 \/ j = 20) as [-> | ->] by lia; repeat sec_step; apply byte_at_zeros.
  - intros j Hj. assert (j = 32 \/ j = 33 \/ j = 34 \/ j = 35) as [-> |[-> |[-> | ->]]] by lia; repeat sec_step;
      rewrite ?Z.shiftr_div_pow2 by lia; change (2 ^ (8 * (32 - 32))) with 1; change (2 ^ (8 * (33 - 32))) with 256;
      change (2 ^ (8 * (34 - 32))) with 65536; change (2 ^ (8 * (35 - 32))) with 16777216;
      change (2 ^ 16) with 65536; zlia.
Qed.
End boot.

Lemma rd_le16_bytes sec i v :
  byte_at sec i = v mod 256 /\ byte_at sec (i + 1) = v / 256 mod 256 -> rd_le16 sec i = v mod 65536.
Proof.
  intros [E1 E2]. unfold rd_le16. rewrite E1, E2, lor_shiftl_add by (change (2 ^ 8) with 256; zlia).
  change (2 ^ 8) with 256. zlia.
Qed.

Lemma wr_bytes_u8 i l buf : Forall is_u8 l -> Forall is_u8 buf -> Forall is_u8 (wr_bytes i l buf).
Proof.
  intros Hl. revert i buf. induction Hl as [|x l Hx Hl IH]; intros i buf Hb; simpl; [done|].
  apply IH. by apply updZ_u8.
Qed.

Ltac u8_list := repeat (apply Forall_cons_2; [unfold is_u8; lia|]); apply Forall_nil_2.

Lemma to_upper_u8 c : is_u8 c -> is_u8 (to_upper c).
Proof. unfold is_u8, to_upper. intros ?. case_goal; bool_to_prop; lia. Qed.

Lemma label_bytes_u8 label : Forall is_u8 label -> Forall is_u8 (label_bytes label).
Proof.
  intros Hl. unfold label_bytes. destruct label as [|c label]; [repeat constructor; unfold is_u8; lia|].
  apply Forall_app. split; [|apply Forall_replicate; unfold is_u8; lia].
  apply Forall_fmap. eapply Forall_impl; [by apply Forall_take|]. apply to_upper_u8.
Qed.

Lemma format_boot_u8 g label : geometry_ok g -> Forall is_u8 label -> Forall is_u8 (format_boot g label).
Proof.
  intros Hg Hl. assert (is_u8 (g_spc g)) as Hs by (destruct (go_spc _ Hg) as [->|[->|[->|[->| ->]]]]; unfold is_u8; lia).
  assert (Forall is_u8 (replicate 512 0)) as H0 by (apply Forall_replicate; unfold is_u8; lia).
  unfold format_boot, wr_le32.
  assert (forall x, 0 <= x < 256 -> is_u8 x) as Hk by done.
  assert (Forall is_u8 (str_FAT (g_target g)) /\ Forall is_u8 str_BENGALOS /\ Forall is_u8 [235; 60; 144]) as (F1 & F2 & F3).
  { unfold str_FAT, str_BENGALOS. destruct (g_target g =? 12); split_and!; u8_list. }
  pose proof (label_bytes_u8 label Hl) as F4.
  destruct (g_secs g <? 65536);
  repeat first [assumption | apply wr_bytes_u8; [assumption|] | apply wr_le16_u8
    | apply updZ_u8; [first [assumption | apply Hk; lia]|]].
Qed.

(** What the mount code decodes from the boot sector of the formatter. *)
Lemma format_boot_decode g label :
  geometry_ok g ->
  let b := boot_of (format_boot g label) in
  is_valid_bpb (format_boot g label) = true /\ sectors_per_cluster b = g_spc g /\ reserved_sectors b = 1 /\
  num_fats b = 2 /\ root_entries b = g_root_ents g /\ fat_size_16 b = g_fat_secs g /\ bpb_total b = g_secs g /\
  bpb_root_sectors b = g_root_secs g.
Proof.
  intros Hg b. destruct (format_boot_bytes g label) as (_ & B1 & B2 & B3 & B4 & B5 & B6 & B7).
  pose proof (go_fat _ Hg). pose proof (go_secs _ Hg). pose proof (go_root _ Hg). pose proof (go_data _ Hg).
  assert (rd_le16 (format_boot g label) 11 = 512) as W1 by (rewrite (rd_le16_bytes _ 11 512); [done|apply B5; set_solver]).
  assert (rd_le16 (format_boot g label) 14 = 1) as W2 by (rewrite (rd_le16_bytes _ 14 1); [done|apply B5; set_solver]).
  assert (rd_le16 (format_boot g label) 17 = g_root_ents g) as W3.
  { rewrite (rd_le16_bytes _ 17 (g_root_ents g)); [apply Z.mod_small; lia|apply B5; set_solver]. }
  assert (rd_le16 (format_boot g label) 22 = g_fat_secs g) as W4.
  { rewrite (rd_le16_bytes _ 22 (g_fat_secs g)); [apply Z.mod_small; lia|apply B5; set_solver]. }
  assert (bpb_total b = g_secs g) as W5.
  { unfold bpb_total, b, boot_of. cbn [total_sectors_16 total_sectors_32]. unfold rd_le32.
    pose proof (B6 19 ltac:(lia)) as E1. pose proof (B6 20 ltac:(lia)) as E2.
    pose proof (B7 32 ltac:(lia)) as E3. pose proof (B7 33 ltac:(lia)) as E4.
    pose proof (B7 34 ltac:(lia)) as E5. pose proof (B7 35 ltac:(lia)) as E6.
    destruct (Z.ltb_spec (g_secs g) 65536).
    - rewrite (rd_le16_bytes _ 19 (g_secs g)) by by split. rewrite Z.mod_small by lia.
      destruct (Z.eqb_spec (g_secs g) 0); [lia|done].
    - rewrite (rd_le16_bytes _ 19 0) by by split. cbn [Z.eqb].
      change (0 mod 65536 =? 0) with true. cbv iota.
      rewrite (rd_le16_bytes _ 32 (g_secs g)).
      + rewrite (rd_le16_bytes _ (32 + 2) (g_secs g / 65536)); [zlia|].
        change (32 + 2) with 34. change (34 + 1) with 35. rewrite E5, E6.
        change (2 ^ (8 * (34 - 32))) with 65536. change (2 ^ (8 * (35 - 32))) with 16777216. split; [done|zlia].
      + change (32 + 1) with 33. rewrite E3, E4. change (2 ^ (8 * (32 - 32))) with 1.
        change (2 ^ (8 * (33 - 32))) with 256. by rewrite Z.div_1_r. }
  assert (bpb_root_sectors b = g_root_secs g) as W6.
  { unfold bpb_root_sectors, b, boot_of. cbn [root_entries]. rewrite W3.
    destruct (go_root _ Hg) as [[-> ->]|[-> ->]]; done. }
  split_and!; auto.
  unfold is_valid_bpb. rewrite B1, B2. cbn [Z.eqb Pos.eqb negb orb]. fold b. rewrite W5, W6.
  unfold b, boot_of. cbn [bytes_per_sector sectors_per_cluster reserved_sectors num_fats root_entries fat_size_16].
  rewrite W1, W2, W3, W4, B3, B4. cbn [Z.eqb Pos.eqb negb orb Z.ltb Z.compare Pos.compare Pos.compare_cont].
  assert ((g_spc g =? 0) || negb (IS_POWER_OF_2 (g_spc g)) = false) as ->
    by (destruct (go_spc _ Hg) as [->|[->|[->|[->| ->]]]]; reflexivity).
  destruct (Z.eqb_spec (g_root_ents g) 0); [lia|]. destruct (Z.eqb_spec (g_fat_secs g) 0); [lia|]. cbn [orb].
  rewrite u32_id by lia. by destruct (Z.leb_spec (g_secs g) (1 + 2 * g_fat_secs g + g_root_secs g)); [lia|].
Qed.

(** * Formatting a device *)

Lemma format_tables_lbas g :
  1 <= g_fat_secs g -> 0 <= g_root_secs g ->
  (format_tables g).*1 = seqZ 1 (2 * g_fat_secs g + g_root_secs g).
Proof.
  intros Hf Hr. unfold format_tables. rewrite fmap_app.
  assert (forall a (k : Z -> list Z) n, ((fun s => (a + s, k s)) <$> seqZ 0 n).*1 = seqZ a n) as H.
  { intros a k n. rewrite <- list_fmap_compose. change (Z.add a <$> seqZ 0 n = seqZ a n).
    by rewrite fmap_add_seqZ, Z.add_0_r. }
  cbn [fmap list_fmap mjoin list_join]. rewrite !fmap_app. cbn [fmap list_fmap]. rewrite app_nil_r, !H.
  replace (1 + 0 * g_fat_secs g) with 1 by lia.
  replace (2 * g_fat_secs g + g_root_secs g) with (g_fat_secs g + (g_fat_secs g + g_root_secs g)) by lia.
  rewrite !seqZ_app by lia. rewrite <- app_assoc. do 2 f_equal; f_equal; lia.
Qed.

Section format.
Context {D : Type} {BD : BlockDev D} {RD : ReliableDev D}.
Implicit Types fs : fat_fs D.

Lemma write_all_spec l fs :
  rd_ok (dev fs) ->
  (forall lba buf, (lba, buf) ∈ l -> 0 <= lba < rd_size (dev fs) /\ length buf = 512%nat /\ Forall is_u8 buf) ->
  NoDup (l.*1) ->
  exists d, write_all l fs = (0, with_dev d fs) /\ rd_ok d /\ rd_size d = rd_size (dev fs) /\
    (forall lba buf, (lba, buf) ∈ l -> rd_sector d lba = buf) /\
    (forall lba, 0 <= lba < rd_size (dev fs) -> lba ∉ l.*1 -> rd_sector d lba = rd_sector (dev fs) lba).
Proof.
  revert fs. induction l as [|[lba buf] l IH]; intros fs Hok Hl Hnd.
  { exists (dev fs). rewrite with_dev_id. split_and!; auto. intros lba buf Hin. by apply not_elem_of_nil in Hin. }
  apply NoDup_cons in Hnd as [Hni Hnd]. cbn [write_all].
  destruct (Hl lba buf) as (Hb & Hlen & Hu); [set_solver|].
  destruct (write_sector_eq fs lba buf Hok Hb Hlen Hu) as (d1 & E1 & Hok1 & Hsz1 & Hd1).
  rewrite (st_bind_eq _ _ _ _ _ E1). cbn [Z.eqb negb]. cbv iota.
  destruct (IH (with_dev d1 fs)) as (d2 & E2 & Hok2 & Hsz2 & Hd2 & Hd2'); [done| |done|].
  { intros a b' Hin. cbn [dev with_dev]. rewrite Hsz1. apply Hl. set_solver. }
  exists d2. split_and!; auto; [by rewrite Hsz2|..].
  - intros a b' Hin. apply elem_of_cons in Hin as [E|Hin]; [|by apply Hd2].
    injection E as -> ->. rewrite Hd2'; [|by cbn [dev with_dev]; rewrite Hsz1|done].
    cbn [dev with_dev]. rewrite Hd1 by done. by rewrite decide_True.
  - intros a Ha Hn. rewrite fmap_cons in Hn. apply not_elem_of_cons in Hn as [Hne Hn].
    rewrite Hd2' by (done || by cbn [dev with_dev]; rewrite Hsz1). cbn [dev with_dev]. rewrite Hd1 by done.
    by rewrite decide_False.
Qed.

(** A sector of a table or of the directory, as formatted. *)
Lemma format_tables_in g k :
  1 <= g_fat_secs g -> 0 <= k < 2 * g_fat_secs g + g_root_secs g ->
  (1 + k, if decide (k = 0 \/ k = g_fat_secs g) then format_fat0 (g_target g) else zero_sector) ∈ format_tables g.
Proof.
  intros Hf Hk. unfold format_tables. apply elem_of_app.
  destruct (decide (k < 2 * g_fat_secs g)) as [Hlt|Hge]; [left|right].
  - apply list_elem_of_join. destruct (decide (k < g_fat_secs g)) as [Hl|Hl].
    + eexists. split; [|apply list_elem_of_fmap; exists 0; split; [reflexivity|set_solver]].
      apply list_elem_of_fmap. exists k. split; [|apply elem_of_seqZ; lia]. apply pair_equal_spec; split; [lia|].
      destruct (Z.eqb_spec k 0); [rewrite decide_True by lia|rewrite decide_False by lia]; done.
    + eexists. split; [|apply list_elem_of_fmap; exists 1; split; [reflexivity|set_solver]].
      apply list_elem_of_fmap. exists (k - g_fat_secs g). split; [|apply elem_of_seqZ; lia]. apply pair_equal_spec; split; [lia|].
      destruct (Z.eqb_spec (k - g_fat_secs g) 0); [rewrite decide_True by lia|rewrite decide_False by lia]; done.
  - rewrite decide_False by lia. apply list_elem_of_fmap. exists (k - 2 * g_fat_secs g).
    split; [f_equal; lia|apply elem_of_seqZ; lia].
Qed.

Lemma format_fat0_wf t : length (format_fat0 t) = 512%nat /\ Forall is_u8 (format_fat0 t).
Proof.
  unfold format_fat0. destruct zero_sector_wf as [Hl Hu]. split.
  - pose proof (lenZ_wr_bytes 0 (if t =? 12 then [248; 255; 255] else [248; 255; 255; 255]) zero_sector) as E.
    unfold lenZ in E. lia.
  - apply wr_bytes_u8; [|done]. destruct (t =? 12); u8_list.
Qed.

Lemma mount_formatted g label fs :
  geometry_ok g -> rd_ok (dev fs) -> g_secs g <= rd_size (dev fs) < 4294967296 ->
  rd_sector (dev fs) 0 = format_boot g label ->
  exists fs', mount_at_lba 0 fs = (0, fs') /\ fat_wf fs' /\ dev fs' = dev fs /\
    total_clusters fs' = g_clusters g /\ fat_type fs' = g_target g /\ fat_start_sector fs' = 1 /\
    num_fats (boot_sector fs') = 2 /\ fat_size_16 (boot_sector fs') = g_fat_secs g /\
    root_start_sector fs' = 1 + 2 * g_fat_secs g /\ root_sectors fs' = g_root_secs g.
Proof.
  intros Hg Hok Hsz Hs0. destruct Hg as [G1 G2 G3 G4 G5 G6 G7 G8] eqn:EHg. clear EHg.
  pose proof (format_boot_decode g label Hg) as (V & B1 & B2 & B3 & B4 & B5 & B6 & B7).
  unfold mount_at_lba.
  assert (read_sector 0 fs = ((0, format_boot g label), fs)) as Er.
  { unfold read_sector. rewrite rd_read_law by (done || lia). by rewrite with_dev_id, Hs0. }
  rewrite (st_bind_eq _ _ _ _ _ Er). cbn [Z.eqb negb]. cbv iota. rewrite V. cbn [negb]. cbv iota zeta.
  set (b := boot_of (format_boot g label)) in *. rewrite B1, B2, B3, B5, B6, B7.
  rewrite !(u32_id (0 + 1)) by lia. rewrite (u32_id (0 + 1 + 2 * g_fat_secs g)) by lia.
  rewrite (u32_id (0 + 1 + 2 * g_fat_secs g + g_root_secs g)) by lia.
  rewrite (u32_id (0 + 1 + 2 * g_fat_secs g + g_root_secs g - 0)) by lia.
  rewrite (u32_id (g_secs g - (0 + 1 + 2 * g_fat_secs g + g_root_secs g - 0))) by lia.
  assert ((g_secs g - (0 + 1 + 2 * g_fat_secs g + g_root_secs g - 0)) / g_spc g = g_clusters g) as ->
    by (unfold g_clusters; f_equal; lia).
  destruct (Z.eqb_spec (g_clusters g) 0); [lia|]. destruct (Z.leb_spec 65525 (g_clusters g)); [lia|]. cbn [orb]. cbv iota.
  rewrite <- G7. eexists. split; [reflexivity|]. split; [|cbn; split_and!; auto; lia].
  assert (g_clusters g * g_spc g <= g_secs g - 1 - 2 * g_fat_secs g - g_root_secs g).
  { unfold g_clusters. rewrite Z.mul_comm. apply Z.mul_div_le. lia. }
  assert (fat_type (FatFs b 0 (0 + 1) (0 + 1 + 2 * g_fat_secs g) (g_root_secs g)
    (0 + 1 + 2 * g_fat_secs g + g_root_secs g) (g_clusters g) (g_target g) true (dev fs)) = g_target g) as Et by done.
  split; cbn [dev fs_mounted fat_type fat_start_sector boot_sector total_clusters root_start_sector root_sectors
    data_start_sector]; rewrite ?B1, ?B3, ?B5; auto; try lia.
  - rewrite G7. destruct (g_clusters g <? 4085); auto.
  - rewrite G7. destruct (Z.ltb_spec (g_clusters g) 4085); cbn [Z.eqb Pos.eqb]; lia.
Qed.
(** Bytes of the tables after formatting: zero from the entry of cluster 2
    on, and equal in both copies. *)
Lemma format_fat0_byte t j : (if t =? 12 then 3 else 4) <= j -> byte_at (format_fat0 t) j = 0.
Proof.
  intros Hj. unfold format_fat0. rewrite byte_at_wr_bytes_ne.
  - apply byte_at_zeros.
  - destruct (t =? 12); unfold lenZ; simpl; lia.
Qed.

Lemma formatted_table_byte g fs f k :
  fat_start_sector fs = 1 -> fat_size_16 (boot_sector fs) = g_fat_secs g -> 1 <= g_fat_secs g -> 0 <= g_root_secs g ->
  (forall lba buf, (lba, buf) ∈ format_tables g -> rd_sector (dev fs) lba = buf) ->
  0 <= f < 2 -> 0 <= k < g_fat_secs g * 512 ->
  table_byte fs f k = byte_at (if k / 512 =? 0 then format_fat0 (g_target g) else zero_sector) (k mod 512).
Proof.
  intros E1 E2 Hg Hr Hd Hf Hk. unfold table_byte. rewrite E1, E2, <- Z.add_assoc. f_equal.
  assert (0 <= k / 512 < g_fat_secs g) by zlia.
  rewrite (Hd _ _ (format_tables_in g (f * g_fat_secs g + k / 512) Hg ltac:(nia))).
  assert (f = 0 \/ f = 1) as [-> | ->] by lia; destruct (Z.eqb_spec (k / 512) 0);
    case_decide; try lia; done.
Qed.

(** Writing the boot sector, the tables and the directory. *)
Lemma write_formatted g label fs :
  geometry_ok g -> rd_ok (dev fs) -> g_secs g <= rd_size (dev fs) -> Forall is_u8 label ->
  exists d, write_all ((0, format_boot g label) :: format_tables g) fs = (0, with_dev d fs) /\
    rd_ok d /\ rd_size d = rd_size (dev fs) /\
    (forall lba buf, (lba, buf) ∈ (0, format_boot g label) :: format_tables g -> rd_sector d lba = buf).
Proof.
  intros Hg Hok Hgs Hlab. pose proof Hg as [G1 G2 G3 G4 G5 G6 G7 G8].
  destruct (format_boot_bytes g label) as (Lb & _).
  destruct (write_all_spec ((0, format_boot g label) :: format_tables g) fs Hok) as (d & Ew & Hok' & Hsz' & Hd & _);
    [| |by exists d].
  - intros lba buf Hin. apply elem_of_cons in Hin as [E|Hin].
    + injection E as -> ->. split; [lia|]. split; [unfold lenZ in Lb; lia|]. by apply format_boot_u8.
    + assert (lba ∈ (format_tables g).*1) as Hl by (apply list_elem_of_fmap; by exists (lba, buf)).
      rewrite format_tables_lbas in Hl by lia. apply elem_of_seqZ in Hl. split; [lia|].
      unfold format_tables in Hin. apply elem_of_app in Hin as [Hin|Hin].
      * apply list_elem_of_join in Hin as (l & Hin & Hl2). apply list_elem_of_fmap in Hl2 as (f & -> & _).
        apply list_elem_of_fmap in Hin as (s & E & _). injection E as -> ->.
        destruct (s =? 0); [apply format_fat0_wf|apply zero_sector_wf].
      * apply list_elem_of_fmap in Hin as (s & E & _). injection E as -> ->. apply zero_sector_wf.
  - rewrite fmap_cons, format_tables_lbas by lia. cbn [fst]. apply NoDup_cons. split; [|apply NoDup_seqZ].
    rewrite elem_of_seqZ. lia.
Qed.

(** Every entry of the new table is free. *)
Lemma formatted_entry g fs c :
  fat_wf fs -> is_cluster fs c -> fat_type fs = g_target g -> fat_size_16 (boot_sector fs) = g_fat_secs g ->
  (forall k, 0 <= k < g_fat_secs g * 512 ->
    table_byte fs 0 k = byte_at (if k / 512 =? 0 then format_fat0 (g_target g) else zero_sector) (k mod 512)) ->
  entry fs 0 c = 0.
Proof.
  intros Hwf Hc Ety Efz Htb. destruct (offset_bounds fs c Hwf Hc) as (_ & Ho & Ho2 & _). pose proof Hc as [Hc1 _].
  unfold entry. rewrite Efz in Ho2. rewrite Ety in *.
  assert (forall k, (if g_target g =? 12 then 3 else 4) <= k < g_fat_secs g * 512 -> table_byte fs 0 k = 0) as Hz.
  { intros k Hk. rewrite Htb by (destruct (g_target g =? 12); lia). destruct (Z.eqb_spec (k / 512) 0).
    - apply format_fat0_byte. replace (k mod 512) with k by (destruct (g_target g =? 12); zlia). lia.
    - apply byte_at_zeros. }
  rewrite !Hz.
  - unfold entry_of. by destruct (g_target g =? 12), (c mod 2 =? 0).
  - unfold entry_offset in *. destruct (g_target g =? 12); zlia.
  - unfold entry_offset in *. destruct (g_target g =? 12); zlia.
Qed.

(** Formatting succeeds and leaves a mounted volume with free tables and an
    empty root directory. *)
Lemma format_volume_spec label fs :
  rd_ok (dev fs) -> 64 <= bd_total_sectors (dev fs) -> bd_total_sectors (dev fs) <= rd_size (dev fs) ->
  rd_size (dev fs) < 4294967296 -> Forall is_u8 label ->
  exists fs', fat_format_volume label fs = (0, fs') /\ fat_wf fs' /\ mirrored fs' /\
    (forall c, is_cluster fs' c -> entry fs' 0 c = 0) /\
    (forall s, 0 <= s < root_sectors fs' -> rd_sector (dev fs') (root_start_sector fs' + s) = zero_sector) /\
    40 <= total_clusters fs' /\ 7 <= root_sectors fs'.
Proof.
  intros Hok Hn Hle Hsz Hlab. unfold fat_format_volume.
  destruct (Z.ltb_spec (bd_total_sectors (dev fs)) 64); [lia|]. cbv zeta.
  assert (64 <= bd_total_sectors (dev fs) < 4294967296) as Hr by lia.
  pose proof (format_geometry_ok _ Hr) as Hg.
  assert (g_secs (format_geometry (bd_total_sectors (dev fs))) <= bd_total_sectors (dev fs)) as Hgs.
  { unfold format_geometry. cbn [g_secs]. destruct (Z.ltb_spec 1048576 (bd_total_sectors (dev fs))); lia. }
  set (g := format_geometry _) in *. pose proof Hg as [G1 G2 G3 G4 G5 G6 G7 G8].
  destruct (write_formatted g label fs Hg Hok ltac:(lia) Hlab) as (d & Ew & Hok' & Hsz' & Hd).
  rewrite (st_bind_eq _ _ _ _ _ Ew). cbn [Z.eqb negb]. cbv iota.
  destruct (mount_formatted g label (with_dev d fs)) as (fs' & Em & Hwf & Ed & Etc & Ety & Efs & Enf & Efz & Ers & Erc); auto.
  { cbn [dev with_dev]. lia. }
  { cbn [dev with_dev]. apply Hd, elem_of_cons. by left. }
  rewrite (st_bind_eq _ _ _ _ _ Em). cbn [dev with_dev] in Ed.
  assert (forall lba buf, (lba, buf) ∈ format_tables g -> rd_sector (dev fs') lba = buf) as Hd'.
  { intros lba buf Hin. rewrite Ed. apply Hd, elem_of_cons. by right. }
  assert (forall f k, 0 <= f < 2 -> 0 <= k < g_fat_secs g * 512 ->
    table_byte fs' f k = byte_at (if k / 512 =? 0 then format_fat0 (g_target g) else zero_sector) (k mod 512)) as Htb.
  { intros f k Hf Hk. apply formatted_table_byte; auto; lia. }
  exists fs'. split; [done|]. split; [done|]. split; [|split; [|split; [|lia]]].
  - intros f k Hf Hk. rewrite Enf, Efz in *. rewrite !Htb by lia. done.
  - intros c Hc. apply (formatted_entry g); auto. intros k Hk. apply Htb; lia.
  - rewrite Ers, Erc. intros s Hs.
    pose proof (format_tables_in g (2 * g_fat_secs g + s) ltac:(lia) ltac:(lia)) as Hin.
    rewrite decide_False in Hin by lia. rewrite <- (Hd' _ _ Hin). f_equal. lia.
Qed.
End format.
