(* ===== verification/FatData.v ===== *)
(** FatData: the bytes of files on a FAT volume: what the sectors of a chain of
    clusters hold, and that the loops of [kernel/fat.c] that read and write a
    chain read and write these bytes. *)

From S2P Require Import Prelude Memory Common Pmm Heap HeapInv HeapSpec HeapRun Disk Fat FatFile FatTable FatAlloc.
#[local] Open Scope kernel_scope.

Section data.
Context {D : Type} {BD : BlockDev D} {RD : ReliableDev D}.
Implicit Types (fs : fat_fs D) (d : D).

Lemma read_sector_eq fs l :
  rd_ok (dev fs) -> 0 <= l < rd_size (dev fs) -> read_sector l fs = ((0, rd_sector (dev fs) l), fs).
Proof. intros Hok Hl. unfold read_sector. rewrite rd_read_law by done. by rewrite with_dev_id. Qed.

(** The bytes of [n] sectors from [a], of a cluster and of a chain. *)
Definition run_data d (a : Z) (n : nat) : list Z := mjoin (rd_sector d <$> seqZ a (Z.of_nat n)).
Definition spc fs : nat := Z.to_nat (sectors_per_cluster (boot_sector fs)).
Definition cluster_data fs (c : Z) : list Z := run_data (dev fs) (cluster_sector fs c) (spc fs).
Definition chain_data fs (l : list Z) : list Z := mjoin (cluster_data fs <$> l).

Lemma run_data_S d a n : run_data d a (S n) = rd_sector d a ++ run_data d (a + 1) n.
Proof. unfold run_data. rewrite seqZ_cons by lia. cbn. do 3 f_equal; f_equal; lia. Qed.

Lemma run_data_ext d d' a n :
  (forall l, a <= l < a + Z.of_nat n -> rd_sector d' l = rd_sector d l) -> run_data d' a n = run_data d a n.
Proof.
  intros Hx. unfold run_data. f_equal. apply list_fmap_ext. intros i l Hl.
  apply Hx. apply lookup_seqZ in Hl. lia.
Qed.

Lemma run_data_length d a n :
  rd_ok d -> 0 <= a -> a + Z.of_nat n <= rd_size d -> length (run_data d a n) = (512 * n)%nat.
Proof.
  intros Hok. revert a. induction n as [|n IH]; intros a Ha Hn; [done|].
  rewrite run_data_S, length_app, IH by lia. destruct (rd_sector_wf d a Hok) as [-> _]; lia.
Qed.

Lemma cluster_data_length fs c : fat_wf fs -> is_cluster fs c -> length (cluster_data fs c) = (512 * spc fs)%nat.
Proof.
  intros Hwf Hc. destruct (cluster_bounds fs c Hwf Hc) as (_ & ? & _ & ?). pose proof (wf_spc _ Hwf).
  apply run_data_length; [apply (wf_dev _ Hwf)|done|unfold spc; lia].
Qed.

Lemma chain_data_cons fs x l : chain_data fs (x :: l) = cluster_data fs x ++ chain_data fs l.
Proof. done. Qed.

(** ** Reading *)

Lemma read_cluster_eq n fs sec left_ acc :
  fat_wf fs -> 0 <= sec -> sec + Z.of_nat n <= rd_size (dev fs) -> 0 <= left_ ->
  read_cluster n sec left_ acc fs =
    (Some (left_ - Z.min left_ (512 * Z.of_nat n), acc ++ take (Z.to_nat left_) (run_data (dev fs) sec n)), fs).
Proof.
  intros Hwf. pose proof (wf_size _ Hwf). pose proof (wf_dev _ Hwf) as Hok.
  revert sec left_ acc. induction n as [|n IH]; intros sec left_ acc Hs Hn Hl; cbn [read_cluster].
  - unfold st_ret. rewrite firstn_nil, app_nil_r. do 3 f_equal. lia.
  - destruct (Z.ltb_spec 0 left_).
    + rewrite (st_bind_eq _ _ _ _ _ (read_sector_eq fs sec Hok ltac:(lia))). cbn [fst snd Z.eqb negb].
      cbv zeta. destruct (rd_sector_wf (dev fs) sec Hok ltac:(lia)) as [L _].
      rewrite u32_id by lia. rewrite IH by (repeat case_match; lia). rewrite run_data_S.
      rewrite take_app, L, <- app_assoc.
      set (chunk := if 512 <? left_ then 512 else left_).
      assert (take (Z.to_nat chunk) (rd_sector (dev fs) sec) = take (Z.to_nat left_) (rd_sector (dev fs) sec) /\
        Z.to_nat (left_ - chunk) = (Z.to_nat left_ - 512)%nat /\
        left_ - chunk - Z.min (left_ - chunk) (512 * Z.of_nat n) = left_ - Z.min left_ (512 * Z.of_nat (S n)))
        as (-> & -> & ->); [|done].
      unfold chunk. destruct (Z.ltb_spec 512 left_); [rewrite !take_ge by lia|]; split_and!; (done || lia).
    + replace left_ with 0 by lia. unfold st_ret. change (Z.to_nat 0) with 0%nat. rewrite take_0, app_nil_r. done.
Qed.

Lemma read_chain_eq l guard fs c left_ acc :
  fat_wf fs -> chain fs c l -> (length l <= guard)%nat -> 0 <= left_ <= lenZ (chain_data fs l) ->
  read_chain guard c left_ acc fs = (Some (acc ++ take (Z.to_nat left_) (chain_data fs l)), fs).
Proof.
  intros Hwf. revert guard c left_ acc. induction l as [|x l IH]; intros guard c left_ acc Hch Hg Hl.
  - change (lenZ (chain_data fs [])) with 0 in Hl. replace left_ with 0 by lia. rewrite app_nil_r.
    destruct guard; cbn [read_chain]; rewrite Z.ltb_irrefl, andb_false_r; done.
  - destruct Hch as (-> & Hx & Hch). destruct guard as [|guard]; [simpl in Hg; lia|]. cbn [read_chain].
    pose proof (cluster_below_eoc fs x Hwf Hx) as Hb.
    destruct (Z.leb_spec 2 x), (Z.ltb_spec x (eoc_threshold fs)); try lia. cbn [andb].
    destruct (Z.ltb_spec 0 left_).
    + destruct (cluster_bounds fs x Hwf Hx) as (_ & ? & _ & ?). pose proof (wf_spc _ Hwf).
      fold (spc fs).
      rewrite (st_bind_eq _ _ _ _ _ (read_cluster_eq (spc fs) fs (cluster_sector fs x) left_ acc Hwf
        ltac:(lia) ltac:(unfold spc; lia) ltac:(lia))).
      rewrite (st_bind_eq _ _ _ _ _ (get_fat_entry_eq fs x Hwf Hx)). fold (cluster_data fs x).
      pose proof (cluster_data_length fs x Hwf Hx) as L.
      rewrite chain_data_cons in Hl |- *. unfold lenZ in Hl. rewrite length_app, L in Hl.
      rewrite IH; [|done|simpl in Hg; lia|unfold lenZ; lia].
      rewrite take_app, L, <- app_assoc.
      replace (Z.to_nat (left_ - Z.min left_ (512 * Z.of_nat (spc fs)))) with (Z.to_nat left_ - 512 * spc fs)%nat by lia.
      done.
    + replace left_ with 0 by lia. change (Z.to_nat 0) with 0%nat. rewrite take_0, app_nil_r. done.
Qed.

(** ** Writing *)

Lemma sector_of_wf data : Forall is_u8 data -> length (sector_of data) = 512%nat /\ Forall is_u8 (sector_of data).
Proof.
  intros Hu. unfold sector_of. split.
  - rewrite length_app, length_take, length_replicate. lia.
  - apply Forall_app. split; [by apply Forall_take|]. apply Forall_replicate. unfold is_u8. lia.
Qed.

Lemma write_cluster_spec n fs sec data :
  fat_wf fs -> 0 <= sec -> sec + Z.of_nat n <= rd_size (dev fs) -> Forall is_u8 data ->
  exists d, write_cluster n sec data fs = (Some (drop (512 * n) data), with_dev d fs) /\
    rd_ok d /\ rd_size d = rd_size (dev fs) /\
    take (512 * n) data `prefix_of` run_data d sec n /\
    (forall l, 0 <= l < rd_size (dev fs) -> ~ sec <= l < sec + Z.of_nat n -> rd_sector d l = rd_sector (dev fs) l).
Proof.
  revert fs sec data. induction n as [|n IH]; intros fs sec data Hwf Hs Hn Hu.
  - exists (dev fs). rewrite with_dev_id. split_and!; auto using wf_dev, prefix_nil.
  - cbn [write_cluster]. destruct (decide (data = [])) as [->|Hne].
    { exists (dev fs). rewrite with_dev_id. split_and!; auto using wf_dev, prefix_nil. }
    destruct (sector_of_wf data Hu) as [L U]. pose proof (wf_size _ Hwf).
    destruct (write_sector_eq fs sec (sector_of data) (wf_dev _ Hwf) ltac:(lia) L U) as (d1 & E1 & Hok1 & Hsz1 & Hd1).
    destruct (IH (with_dev d1 fs) (sec + 1) (drop 512 data)) as (d & E & Hok & Hsz & Hp & Ho);
      [by apply wf_with_dev|lia|cbn [dev with_dev]; lia|by apply Forall_drop|].
    cbn [dev with_dev] in Hsz, Ho. change (with_dev d (with_dev d1 fs)) with (with_dev d fs) in E.
    exists d. split_and!; auto; [|congruence| |].
    + destruct data as [|x data]; [done|]. rewrite (st_bind_eq _ _ _ _ _ E1). cbn [Z.eqb negb].
      rewrite u32_id by lia. rewrite E, drop_drop. do 3 f_equal. lia.
    + rewrite run_data_S. rewrite Ho, Hd1, decide_True by lia.
      destruct (decide (512 <= length data)%nat).
      * replace (take (512 * S n) data) with (take 512 data ++ take (512 * n) (drop 512 data)).
        -- unfold sector_of. replace (512 - length data)%nat with 0%nat by lia. rewrite app_nil_r. by apply prefix_app.
        -- rewrite take_take_drop. f_equal. lia.
      * rewrite take_ge by lia. unfold sector_of. rewrite take_ge by lia. rewrite <- app_assoc. by eexists.
    + intros l Hl Hx. rewrite Ho by lia. rewrite Hd1 by lia. by rewrite decide_False by lia.
Qed.
End data.
