(* ===== verification/FatChain.v ===== *)
(** FatChain: growing a chain of clusters while a file is written.  The loop of
    [fat_write_file] takes clusters from the free ones, and when there are
    enough it ends with a chain that holds the data. *)

From S2P Require Import Prelude Memory Common Pmm Heap HeapInv HeapSpec HeapRun Disk Fat FatFile FatTable FatAlloc FatData.
#[local] Open Scope kernel_scope.

Section grow.
Context {D : Type} {BD : BlockDev D} {RD : ReliableDev D}.
Implicit Types (fs : fat_fs D) (d : D).

(** ** Free clusters *)

Definition free_set fs : gset Z :=
  list_to_set (filter (fun c => entry fs 0 c = 0) (seqZ 2 (total_clusters fs))).

Lemma elem_of_free fs c : c ∈ free_set fs <-> is_cluster fs c /\ entry fs 0 c = 0.
Proof.
  unfold free_set. rewrite elem_of_list_to_set, list_elem_of_filter, elem_of_seqZ. unfold is_cluster. split; intros []; split; (done || lia).
Qed.

(** The clusters that [n] bytes take. *)
Definition clusters_for fs (n : nat) : nat := (n + 512 * spc fs - 1) / (512 * spc fs).

Lemma clusters_for_more fs n :
  fat_wf fs -> (512 * spc fs < n)%nat -> clusters_for fs n = S (clusters_for fs (n - 512 * spc fs)).
Proof.
  intros Hwf Hn. pose proof (wf_spc _ Hwf). unfold clusters_for.
  replace (n + 512 * spc fs - 1)%nat with (1 * (512 * spc fs) + (n - 512 * spc fs + 512 * spc fs - 1))%nat by lia.
  rewrite Nat.div_add_l by (unfold spc; lia). lia.
Qed.

Lemma clusters_for_one fs (data : list Z) : fat_wf fs -> data <> [] -> (1 <= clusters_for fs (length data))%nat.
Proof.
  intros Hwf Hne. pose proof (wf_spc _ Hwf). assert (0 < length data)%nat by (destruct data; [done|simpl; lia]).
  unfold clusters_for. apply Nat.div_le_lower_bound; unfold spc in *; lia.
Qed.

Lemma cluster_data_ext fs d c :
  fat_wf fs -> is_cluster fs c ->
  (forall s, 0 <= s < rd_size (dev fs) -> in_cluster fs c s -> rd_sector d s = rd_sector (dev fs) s) ->
  cluster_data (with_dev d fs) c = cluster_data fs c.
Proof.
  intros Hwf Hc Hx. destruct (cluster_bounds fs c Hwf Hc) as (E & ? & _ & ?). pose proof (wf_spc _ Hwf).
  apply run_data_ext. cbn [dev with_dev]. intros s Hs. apply Hx; change (cluster_sector (with_dev d fs) c) with (cluster_sector fs c) in Hs;
    change (spc (with_dev d fs)) with (spc fs) in Hs; unfold in_cluster, spc in *; lia.
Qed.

Lemma allocate_some fs :
  fat_wf fs -> free_set fs <> ∅ ->
  exists c d, allocate_cluster fs = (c, with_dev d fs) /\ is_cluster fs c /\ entry fs 0 c = 0 /\
    fat_wf (with_dev d fs) /\ rd_size d = rd_size (dev fs) /\
    (forall c', is_cluster fs c' ->
       entry (with_dev d fs) 0 c' = if decide (c' = c) then eoc_marker fs else entry fs 0 c') /\
    (mirrored fs -> mirrored (with_dev d fs)) /\
    (forall l, 0 <= l < rd_size (dev fs) -> ~ in_cluster fs c l -> ~ in_tables fs l ->
       rd_sector d l = rd_sector (dev fs) l).
Proof.
  intros Hwf Hne. apply set_choose_L in Hne as [x Hx]. apply elem_of_free in Hx as [Hx Ex]. unfold allocate_cluster.
  destruct (alloc_search fs (seqZ 2 (total_clusters fs)) (eoc_marker fs) eq_refl Hwf)
    as [[Hf E]|(l1 & c & l2 & El & Hf & Ec & E)].
  { intros c Hc. apply elem_of_seqZ in Hc. unfold is_cluster. lia. }
  - rewrite Forall_forall in Hf. destruct (Hf x); [|done]. apply elem_of_seqZ. unfold is_cluster in Hx. lia.
  - assert (c ∈ seqZ 2 (total_clusters fs)) as Hin by (rewrite El; set_solver).
    apply elem_of_seqZ in Hin. assert (is_cluster fs c) as Hc by (unfold is_cluster; lia).
    destruct (claim_cluster_spec fs c Hwf Hc) as (d & Ed & Hwf' & Hsz & He & Hm & _ & Ho).
    exists c, d. rewrite (st_bind_eq _ _ _ _ _ E), Ed. split_and!; auto.
Qed.

(** The device [d] after [data] was written to the chain [l] from [c], whose
    other clusters were free. *)
Record written fs (c : Z) (l data : list Z) (d : D) : Prop := {
  wr_wf : fat_wf (with_dev d fs);
  wr_size : rd_size d = rd_size (dev fs);
  wr_mirrored : mirrored fs -> mirrored (with_dev d fs);
  wr_chain : chain (with_dev d fs) c l;
  wr_nodup : NoDup l;
  wr_used : Forall (fun x => entry (with_dev d fs) 0 x <> 0) l;
  wr_fresh : forall x, x ∈ l -> x = c \/ entry fs 0 x = 0;
  wr_data : data `prefix_of` chain_data (with_dev d fs) l;
  wr_entry : forall x, is_cluster fs x -> x ∉ l -> entry (with_dev d fs) 0 x = entry fs 0 x;
  wr_sector : forall s, 0 <= s < rd_size (dev fs) -> ~ in_tables fs s ->
    (forall x, x ∈ l -> ~ in_cluster fs x s) -> rd_sector d s = rd_sector (dev fs) s;
  wr_count : (length l <= clusters_for fs (length data))%nat
}.

Lemma eoc_entry fs : eoc_marker fs mod entry_modulus fs = eoc_marker fs /\ eoc_marker fs <> 0 /\ ~ 2 <= eoc_marker fs < eoc_threshold fs.
Proof. unfold eoc_marker, entry_modulus, eoc_threshold. destruct (fat_type fs =? 12); split_and!; (done || lia). Qed.

(** Writing one cluster leaves the tables alone. *)
Lemma write_one fs c data :
  fat_wf fs -> is_cluster fs c -> Forall is_u8 data ->
  exists d, write_cluster (spc fs) (cluster_sector fs c) data fs = (Some (drop (512 * spc fs) data), with_dev d fs) /\
    fat_wf (with_dev d fs) /\ rd_size d = rd_size (dev fs) /\ (mirrored fs -> mirrored (with_dev d fs)) /\
    take (512 * spc fs) data `prefix_of` cluster_data (with_dev d fs) c /\
    (forall x, is_cluster fs x -> entry (with_dev d fs) 0 x = entry fs 0 x) /\
    (forall s, 0 <= s < rd_size (dev fs) -> ~ in_cluster fs c s -> rd_sector d s = rd_sector (dev fs) s).
Proof.
  intros Hwf Hc Hu. destruct (cluster_bounds fs c Hwf Hc) as (E & ? & _ & ?). pose proof (wf_spc _ Hwf).
  destruct (write_cluster_spec (spc fs) fs (cluster_sector fs c) data Hwf) as (d & Ed & Hok & Hsz & Hp & Ho);
    [done|unfold spc; lia|done|].
  assert (forall s, 0 <= s < rd_size (dev fs) -> ~ in_cluster fs c s -> rd_sector d s = rd_sector (dev fs) s) as Hk.
  { intros s Hs Hin. apply Ho; [done|]. unfold in_cluster, spc in *. lia. }
  assert (forall s, in_tables fs s -> 0 <= s < rd_size (dev fs) -> rd_sector d s = rd_sector (dev fs) s) as Ht.
  { intros s Hs Hr. apply Hk; [done|]. intros Hin. by apply (in_cluster_not_table fs c s Hwf Hc). }
  exists d. split_and!; auto.
  - by apply wf_with_dev.
  - by apply mirrored_with_dev.
  - intros x Hx. by apply entry_with_dev.
Qed.

Lemma written_last fs c data :
  fat_wf fs -> is_cluster fs c -> data <> [] -> Forall is_u8 data -> (length data <= 512 * spc fs)%nat ->
  exists d1 d, write_cluster (spc fs) (cluster_sector fs c) data fs = (Some [], with_dev d1 fs) /\
    set_fat_entry c (eoc_marker fs) (with_dev d1 fs) = (tt, with_dev d fs) /\ written fs c [c] data d.
Proof.
  intros Hwf Hc Hne Hu Hl. destruct (write_one fs c data Hwf Hc Hu) as (d1 & E1 & W1 & S1 & M1 & P1 & N1 & O1).
  rewrite drop_ge in E1 by lia. rewrite take_ge in P1 by lia.
  destruct (set_fat_entry_spec (with_dev d1 fs) c (eoc_marker fs) W1 Hc) as (d & E & W & S & N & M & O).
  change (with_dev d (with_dev d1 fs)) with (with_dev d fs) in *. cbn [dev with_dev] in S, O.
  destruct (eoc_entry fs) as (Em & Ez & Ee).
  assert (entry (with_dev d fs) 0 c = eoc_marker fs) as Ec.
  { rewrite N, decide_True by done. exact Em. }
  exists d1, d. split; [done|]. split; [done|]. split; auto; try congruence.
  - simpl. rewrite Ec. done.
  - apply NoDup_singleton.
  - constructor; [congruence|done].
  - intros x ->%list_elem_of_singleton. by left.
  - rewrite chain_data_cons. apply prefix_app_r.
    rewrite <- (cluster_data_ext (with_dev d1 fs) d c W1 Hc) in P1; [done|].
    intros s Hs Hin. apply O; [done|]. by apply (in_cluster_not_table fs c s Hwf Hc).
  - intros x Hx Hni. rewrite N, decide_False, N1 by (done || set_solver). done.
  - intros s Hs Ht Hni. rewrite O by (done || by rewrite S1). apply O1; [done|]. apply Hni. set_solver.
  - by apply clusters_for_one.
Qed.

(** One turn of the loop: the cluster is full, the next one [c2] was taken
    from the free ones and linked. *)
Record linked fs (c c2 : Z) (data : list Z) (d : D) : Prop := {
  ln_wf : fat_wf (with_dev d fs);
  ln_size : rd_size d = rd_size (dev fs);
  ln_mirrored : mirrored fs -> mirrored (with_dev d fs);
  ln_next : is_cluster fs c2 /\ entry fs 0 c2 = 0 /\ c2 <> c;
  ln_entry : forall x, is_cluster fs x ->
    entry (with_dev d fs) 0 x = if decide (x = c) then c2 else if decide (x = c2) then eoc_marker fs else entry fs 0 x;
  ln_data : take (512 * spc fs) data `prefix_of` cluster_data (with_dev d fs) c;
  ln_sector : forall s, 0 <= s < rd_size (dev fs) -> ~ in_tables fs s -> ~ in_cluster fs c s -> ~ in_cluster fs c2 s ->
    rd_sector d s = rd_sector (dev fs) s
}.

Lemma cluster_mod fs c : fat_wf fs -> is_cluster fs c -> c mod entry_modulus fs = c.
Proof.
  intros Hwf Hc. destruct (cluster_below_eoc fs c Hwf Hc). unfold entry_modulus, eoc_threshold in *.
  destruct (fat_type fs =? 12); rewrite Z.mod_small by lia; done.
Qed.

Lemma link_next fs c data :
  fat_wf fs -> is_cluster fs c -> Forall is_u8 data -> entry fs 0 c <> 0 -> free_set fs <> ∅ ->
  exists c2 d1 d2 d,
    write_cluster (spc fs) (cluster_sector fs c) data fs = (Some (drop (512 * spc fs) data), with_dev d1 fs) /\
    allocate_cluster (with_dev d1 fs) = (c2, with_dev d2 fs) /\
    set_fat_entry c c2 (with_dev d2 fs) = (tt, with_dev d fs) /\ linked fs c c2 data d.
Proof.
  intros Hwf Hc Hu Hnz Hfree.
  destruct (write_one fs c data Hwf Hc Hu) as (d1 & E1 & W1 & S1 & M1 & P1 & N1 & O1).
  destruct (allocate_some (with_dev d1 fs) W1) as (c2 & d2 & E2 & H2 & Z2 & W2 & S2 & N2 & M2 & O2).
  { apply set_choose_L in Hfree as [x [Hx Ex]%elem_of_free]. intros HE. apply (not_elem_of_empty x (C := gset Z)).
    rewrite <- HE. apply elem_of_free. split; [done|]. by rewrite N1. }
  change (with_dev d2 (with_dev d1 fs)) with (with_dev d2 fs) in *. cbn [dev with_dev] in S2, O2.
  change (is_cluster (with_dev d1 fs)) with (is_cluster fs) in *.
  destruct (set_fat_entry_spec (with_dev d2 fs) c c2 W2 Hc) as (d & E3 & W3 & S3 & N3 & M3 & O3).
  change (with_dev d (with_dev d2 fs)) with (with_dev d fs) in *. cbn [dev with_dev] in S3, O3.
  change (is_cluster (with_dev d2 fs)) with (is_cluster fs) in *.
  change (in_tables (with_dev d2 fs)) with (in_tables fs) in *. change (in_tables (with_dev d1 fs)) with (in_tables fs) in *.
  change (in_cluster (with_dev d1 fs)) with (in_cluster fs) in *.
  assert (c2 <> c) as Hne by (intros ->; rewrite N1 in Z2 by done; done).
  exists c2, d1, d2, d. split_and!; auto. split; auto; try congruence.
  - split_and!; auto. by rewrite <- N1.
  - intros x Hx. rewrite N3 by done. case_decide; [exact (cluster_mod fs c2 Hwf H2)|].
    rewrite N2 by done. case_decide; [done|]. by apply N1.
  - change (with_dev d fs) with (with_dev d (with_dev d1 fs)). rewrite cluster_data_ext; auto.
    cbn [dev with_dev]. intros s Hs Hin. assert (~ in_tables fs s) by by apply (in_cluster_not_table fs c s Hwf Hc).
    rewrite O3, O2 by (done || (rewrite ?S2; done) || (intros Hin2; by apply Hne, (in_cluster_unique fs c2 c s))). done.
  - intros s Hs Ht Hn1 Hn2. rewrite O3, O2, O1 by (done || by rewrite ?S2, ?S1). done.
Qed.

Lemma written_cons fs c c2 data d1 l d :
  fat_wf fs -> is_cluster fs c -> entry fs 0 c <> 0 ->
  linked fs c c2 data d1 -> written (with_dev d1 fs) c2 l (drop (512 * spc fs) data) d ->
  (512 * spc fs < length data)%nat -> written fs c (c :: l) data d.
Proof.
  intros Hwf Hc Hnz [] [] Hlen.
  change (with_dev d (with_dev d1 fs)) with (with_dev d fs) in *. cbn [dev with_dev] in *.
  destruct ln_next0 as (H2 & Z2 & Hne).
  assert (forall x, x ∈ l -> x = c2 \/ x <> c /\ entry fs 0 x = 0) as Hl.
  { intros x Hx. destruct (wr_fresh0 x Hx) as [->|E]; [by left|]. destruct (decide (x = c2)); [by left|right].
    rewrite ln_entry0 in E by exact (chain_clusters _ _ _ wr_chain0 x Hx).
    unfold is_cluster in H2. repeat case_decide; (done || lia). }
  assert (c ∉ l) as Hni by (intros Hin; destruct (Hl c Hin) as [?|[? _]]; congruence).
  assert (entry (with_dev d fs) 0 c = c2) as Ec.
  { rewrite wr_entry0, ln_entry0, decide_True by done. done. }
  assert (c2 ∈ l) as Hin2.
  { destruct l as [|y l]; [|destruct wr_chain0 as (-> & _); apply list_elem_of_here].
    destruct wr_chain0. by apply (cluster_below_eoc fs). }
  split; auto; try congruence.
  - split; [done|]. split; [done|]. by rewrite Ec.
  - by constructor.
  - constructor; [|done]. rewrite Ec. unfold is_cluster in H2. lia.
  - intros x [->|Hx]%elem_of_cons; [by left|]. right. destruct (Hl x Hx) as [->|[_ ?]]; done.
  - rewrite chain_data_cons, <- (take_drop (512 * spc fs) data). destruct wr_data0 as [t ->].
    destruct ln_data0 as [u Eu]. assert (u = []) as ->.
    { apply (f_equal length) in Eu. rewrite length_app, length_take in Eu.
      rewrite (cluster_data_length (with_dev d1 fs) c) in Eu by done. change (spc (with_dev d1 fs)) with (spc fs) in Eu.
      apply nil_length_inv. lia. }
    rewrite app_nil_r in Eu. rewrite <- Eu.
    change (cluster_data (with_dev d fs) c) with (cluster_data (with_dev d (with_dev d1 fs)) c).
    rewrite (cluster_data_ext (with_dev d1 fs) d); [by exists t; rewrite <- app_assoc|done|done|].
    cbn [dev with_dev]. intros s Hs Hin. apply wr_sector0; [done| |].
    + by apply (in_cluster_not_table fs c s Hwf Hc).
    + intros x Hx Hinx. by rewrite (in_cluster_unique fs c x s Hin Hinx) in Hni.
  - intros x Hx [Hxc Hxl]%not_elem_of_cons. rewrite wr_entry0, ln_entry0 by done.
    rewrite decide_False by done. case_decide; [|done]. by subst x.
  - intros s Hs Ht Hx. rewrite wr_sector0; [|by rewrite ln_size0|done|].
    + apply ln_sector0; auto; apply Hx; [apply list_elem_of_here|by apply list_elem_of_further].
    + intros x Hxl. apply Hx. by apply list_elem_of_further.
  - rewrite clusters_for_more by done. rewrite length_drop in wr_count0. cbn [length].
    change (clusters_for (with_dev d1 fs)) with (clusters_for fs) in wr_count0. lia.
Qed.

Lemma free_set_linked fs c c2 data d :
  is_cluster fs c -> entry fs 0 c <> 0 -> linked fs c c2 data d -> size (free_set fs) = S (size (free_set (with_dev d fs))).
Proof.
  intros Hc Hnz Hl. destruct (ln_next _ _ _ _ _ Hl) as (H2 & Z2 & Hne).
  assert (free_set fs = {[c2]} ∪ free_set (with_dev d fs)) as ->.
  - apply set_eq. intros x. rewrite elem_of_union, elem_of_singleton, !elem_of_free.
    change (is_cluster (with_dev d fs) x) with (is_cluster fs x). split.
    + intros [Hx E]. destruct (decide (x = c2)); [by left|right]. split; [done|].
      rewrite (ln_entry _ _ _ _ _ Hl) by done. rewrite !decide_False by congruence. done.
    + intros [->|[Hx E]]; [done|]. split; [done|]. rewrite (ln_entry _ _ _ _ _ Hl) in E by done.
      destruct (eoc_entry fs) as (_ & He & _). unfold is_cluster in H2. repeat case_decide; (done || lia).
  - rewrite size_union, size_singleton; [done|]. apply disjoint_singleton_l. rewrite elem_of_free.
    intros [_ E]. rewrite (ln_entry _ _ _ _ _ Hl), decide_False, decide_True in E by done.
    by destruct (eoc_entry fs) as (_ & He & _).
Qed.

(** With enough free clusters the loop writes all the data. *)
Lemma write_chain_spec fuel fs c data :
  fat_wf fs -> is_cluster fs c -> entry fs 0 c <> 0 -> data <> [] -> Forall is_u8 data -> (length data <= fuel)%nat ->
  (clusters_for fs (length data) <= S (size (free_set fs)))%nat ->
  exists l d, write_chain fuel c data fs = (Some 0, with_dev d fs) /\ written fs c l data d.
Proof.
  revert fs c data. induction fuel as [|fuel IH]; intros fs c data Hwf Hc Hnz Hne Hu Hf Hn.
  { destruct data; simpl in Hf; [done|lia]. }
  destruct data as [|x data]; [done|]. cbn [write_chain]. set (dat := x :: data) in *. fold (spc fs).
  destruct (decide (length dat <= 512 * spc fs)%nat) as [Hle|Hgt].
  - destruct (written_last fs c dat Hwf Hc Hne Hu Hle) as (d1 & d & E1 & E2 & Hw).
    exists [c], d. rewrite (st_bind_eq _ _ _ _ _ E1). rewrite (st_bind_eq _ _ _ _ _ E2). done.
  - rewrite clusters_for_more in Hn by (done || lia).
    assert (free_set fs <> ∅) as Hfree.
    { intros HE. rewrite HE, size_empty in Hn.
      enough (1 <= clusters_for fs (length dat - 512 * spc fs))%nat by lia.
      pose proof (wf_spc _ Hwf). unfold clusters_for. apply Nat.div_le_lower_bound; unfold spc in *; lia. }
    destruct (link_next fs c dat Hwf Hc Hu Hnz Hfree) as (c2 & d1 & d2 & d3 & E1 & E2 & E3 & Hl).
    destruct (ln_next _ _ _ _ _ Hl) as (H2 & _). pose proof (wf_spc _ Hwf).
    destruct (IH (with_dev d3 fs) c2 (drop (512 * spc fs) dat)) as (l & d & E & Hw).
    + apply Hl.
    + done.
    + rewrite (ln_entry _ _ _ _ _ Hl) by done. destruct (eoc_entry fs) as (_ & ? & _). case_decide; [|by case_decide].
      by destruct (ln_next _ _ _ _ _ Hl) as (_ & _ & []).
    + intros E%(f_equal length). rewrite length_drop in E. change (length []) with 0%nat in E. lia.
    + by apply Forall_drop.
    + rewrite length_drop. unfold spc in *. lia.
    + rewrite length_drop. rewrite (free_set_linked fs c c2 dat d3) in Hn by done.
      change (clusters_for (with_dev d3 fs)) with (clusters_for fs). lia.
    + exists (c :: l), d. split; [|by eapply written_cons; eauto; lia].
      rewrite (st_bind_eq _ _ _ _ _ E1). destruct (drop (512 * spc fs) dat) as [|y rest] eqn:Er.
      { apply (f_equal length) in Er. rewrite length_drop in Er. change (length []) with 0%nat in Er. lia. }
      rewrite (st_bind_eq _ _ _ _ _ E2). unfold is_cluster in H2. destruct (Z.ltb_spec c2 2); [lia|].
      rewrite (st_bind_eq _ _ _ _ _ E3). exact E.
Qed.
End grow.
