(* ===== verification/FatDir.v ===== *)
(** FatDir: the root directory of a FAT volume as an array of slots, and the
    scans of [kernel/fat.c] over it: finding a name, finding a free slot and
    storing an entry. *)

From S2P Require Import Prelude Memory Common Pmm Heap HeapInv HeapSpec HeapRun Disk Fat FatFile FatTable.
From S2P Require Import FatAlloc FatFormat FatData FatChain.
#[local] Open Scope kernel_scope.

(** ** Bytes of an entry *)

Lemma byte_at_dirent buf i j : 0 <= i -> 0 <= j < 32 -> byte_at (dirent buf i) j = byte_at buf (32 * i + j).
Proof.
  intros Hi Hj. unfold dirent, sub_bytes. rewrite byte_at_take by lia. rewrite byte_at_drop by lia.
  f_equal. lia.
Qed.

Lemma byte_at_ext (l l' : list Z) :
  length l = length l' -> (forall j, 0 <= j < lenZ l -> byte_at l j = byte_at l' j) -> l = l'.
Proof.
  intros E Hx. apply list_eq_same_length with (length l); [done|done|]. intros i x y Hi Hl Hl'.
  specialize (Hx (Z.of_nat i) ltac:(unfold lenZ; lia)). unfold byte_at in Hx.
  rewrite !nthZ_nonneg_lookup, Nat2Z.id, Hl, Hl' in Hx by lia. done.
Qed.

Lemma dirent_length buf i : length buf = 512%nat -> 0 <= i < 16 -> length (dirent buf i) = 32%nat.
Proof. intros E Hi. unfold dirent, sub_bytes. rewrite length_take, length_drop, E. lia. Qed.

Lemma dirent_ext buf buf' i :
  length buf = 512%nat -> length buf' = 512%nat -> 0 <= i < 16 ->
  (forall j, 32 * i <= j < 32 * i + 32 -> byte_at buf' j = byte_at buf j) -> dirent buf' i = dirent buf i.
Proof.
  intros E E' Hi Hx. apply byte_at_ext; [by rewrite !dirent_length|].
  unfold lenZ. rewrite dirent_length by done. intros j Hj. rewrite !byte_at_dirent by lia. apply Hx. lia.
Qed.

Lemma ent_name_bytes ent (name : list Z) :
  length name = 11%nat -> length ent = 32%nat ->
  ent_name ent = name <-> forall j, 0 <= j < 11 -> byte_at ent j = byte_at name j.
Proof.
  intros En Ee. assert (length (ent_name ent) = 11%nat) as L.
  { unfold ent_name, sub_bytes. rewrite length_take, length_drop, Ee. done. }
  assert (forall j, 0 <= j < 11 -> byte_at (ent_name ent) j = byte_at ent j) as B.
  { intros j Hj. unfold ent_name, sub_bytes. rewrite byte_at_take by lia. rewrite byte_at_drop by lia. f_equal; lia. }
  split.
  - intros <- j Hj. by rewrite B.
  - intros Hx. apply byte_at_ext; [congruence|]. unfold lenZ. rewrite L. intros j Hj. rewrite B by lia. apply Hx. lia.
Qed.

(** ** Searching *)

(** A search whose body only reads. *)
Lemma st_search_pure {S A} (f : Z -> option A) (body : Z -> ST S (option A)) l s :
  (forall i, i ∈ l -> body i s = (f i, s)) ->
  (st_search l body s = (None, s) /\ forall i, i ∈ l -> f i = None) \/
  exists l1 i l2 x, l = l1 ++ i :: l2 /\ (forall j, j ∈ l1 -> f j = None) /\ f i = Some x /\
    st_search l body s = (Some x, s).
Proof.
  induction l as [|i l IH]; intros Hb; [left; split; [done|set_solver]|]. cbn [st_search].
  rewrite (st_bind_eq _ _ _ _ _ (Hb i (list_elem_of_here _ _))). destruct (f i) as [x|] eqn:Ei.
  - right. exists [], i, l, x. split_and!; auto. set_solver.
  - destruct IH as [[-> Hn]|(l1 & j & l2 & x & -> & Hn & Ej & ->)]; [set_solver| |].
    + left. split; [done|]. intros j [->|Hj]%elem_of_cons; auto.
    + right. exists (i :: l1), j, l2, x. split_and!; auto. intros k [->|Hk]%elem_of_cons; auto.
Qed.

Lemma seqZ_split (n : Z) l1 s l2 : seqZ 0 n = l1 ++ s :: l2 -> 0 <= s < n /\ forall j, j ∈ l1 <-> 0 <= j < s.
Proof.
  intros E. assert (s = Z.of_nat (length l1) /\ 0 <= s < n) as [Es Hs].
  { assert (seqZ 0 n !! length l1 = Some s) as Hl by (rewrite E; by apply list_lookup_middle).
    apply lookup_seqZ in Hl. lia. }
  split; [done|]. intros j. assert (l1 = seqZ 0 s) as ->; [|rewrite elem_of_seqZ; lia].
  replace n with (s + (n - s)) in E by lia. rewrite seqZ_app in E by lia.
  apply app_inj_1 in E as [-> _]; [done|]. rewrite length_seqZ. lia.
Qed.

Lemma find_slot_spec n i fat_name buf :
  match find_slot n i fat_name buf with
  | Done j => i <= j < i + Z.of_nat n /\ slot_of (dirent buf j) = SlotFile /\ ent_name (dirent buf j) = fat_name
  | Next => forall j, i <= j < i + Z.of_nat n ->
      slot_of (dirent buf j) = SlotFile -> ent_name (dirent buf j) <> fat_name
  | Stop => exists j, i <= j < i + Z.of_nat n /\ slot_of (dirent buf j) = SlotEnd /\
      forall j', i <= j' < j -> slot_of (dirent buf j') = SlotFile -> ent_name (dirent buf j') <> fat_name
  end.
Proof.
  revert i. induction n as [|n IH]; intros i; cbn [find_slot]; [intros; lia|]. specialize (IH (i + 1)).
  destruct (slot_of (dirent buf i)) eqn:Es; [exists i; split_and!; [lia..|done|intros; lia]| |].
  - destruct (find_slot n (i + 1) fat_name buf).
    + intros j Hj Hf. destruct (decide (j = i)); [congruence|]. apply IH; [lia|done].
    + destruct IH as (j & Hj & He & Hb). exists j. split_and!; [lia..|done|]. intros j' Hj' Hf.
      destruct (decide (j' = i)); [congruence|]. apply Hb; [lia|done].
    + destruct IH as (? & ? & ?). split_and!; (lia || done).
  - case_decide; [split_and!; [lia..|done|done]|]. destruct (find_slot n (i + 1) fat_name buf).
    + intros j Hj Hf. destruct (decide (j = i)) as [->|]; [done|]. apply IH; [lia|done].
    + destruct IH as (j & Hj & He & Hb). exists j. split_and!; [lia..|done|]. intros j' Hj' Hf.
      destruct (decide (j' = i)) as [->|]; [done|]. apply Hb; [lia|done].
    + destruct IH as (? & ? & ?). split_and!; (lia || done).
Qed.

Definition slot_free (ent : list Z) : Prop := byte_at ent 0 = 0 \/ byte_at ent 0 = 229.

Lemma free_slot_spec n i buf :
  match free_slot n i buf with
  | Some j => i <= j < i + Z.of_nat n /\ slot_free (dirent buf j) /\ forall j', i <= j' < j -> ~ slot_free (dirent buf j')
  | None => forall j, i <= j < i + Z.of_nat n -> ~ slot_free (dirent buf j)
  end.
Proof.
  revert i. induction n as [|n IH]; intros i; cbn [free_slot]; [intros; lia|]. specialize (IH (i + 1)).
  unfold slot_free in *.
  destruct (Z.eqb_spec (byte_at (dirent buf i) 0) 0); [cbn [orb]; split_and!; [lia..|by left|intros; lia]|].
  destruct (Z.eqb_spec (byte_at (dirent buf i) 0) 229); [cbn [orb]; split_and!; [lia..|by right|intros; lia]|].
  cbn [orb]. destruct (free_slot n (i + 1) buf) as [j|].
  - destruct IH as (Hj & Hf & Hb). split_and!; [lia..|done|]. intros j' Hj'.
    destruct (decide (j' = i)) as [->|]; [lia|]. apply Hb. lia.
  - intros j Hj. destruct (decide (j = i)) as [->|]; [lia|]. apply IH. lia.
Qed.

(** ** Storing an entry *)

(** The buffers differ in slot [i] only. *)
Definition same_but (i : Z) (buf buf' : list Z) : Prop :=
  length buf' = length buf /\ (Forall is_u8 buf -> Forall is_u8 buf') /\
  forall j, ~ 32 * i <= j < 32 * i + 32 -> byte_at buf' j = byte_at buf j.

Lemma same_but_trans i b1 b2 b3 : same_but i b1 b2 -> same_but i b2 b3 -> same_but i b1 b3.
Proof.
  intros (L1 & U1 & E1) (L2 & U2 & E2). split; [congruence|]. split; [auto|]. intros j Hj. rewrite E2, E1; auto.
Qed.

Lemma same_but_updZ i k x buf : 32 * i <= k < 32 * i + 32 -> is_u8 x -> same_but i buf (updZ k x buf).
Proof.
  intros Hk Hx. split; [|split].
  - pose proof (lenZ_updZ k x buf) as E. unfold lenZ in E. lia.
  - by apply updZ_u8.
  - intros j Hj. apply byte_at_updZ_ne. lia.
Qed.
Lemma same_but_wr_le16 i k v buf : 32 * i <= k < 32 * i + 31 -> same_but i buf (wr_le16 k v buf).
Proof.
  intros Hk. split; [apply wr_le16_length|]. split; [apply wr_le16_u8|].
  intros j Hj. apply byte_at_wr_le16_ne. lia.
Qed.
Lemma same_but_wr_bytes i k l buf :
  32 * i <= k -> k + lenZ l <= 32 * i + 32 -> Forall is_u8 l -> same_but i buf (wr_bytes k l buf).
Proof.
  intros Hk Hl Hu. split; [|split].
  - pose proof (lenZ_wr_bytes k l buf) as E. unfold lenZ in E. lia.
  - by apply wr_bytes_u8.
  - intros j Hj. apply byte_at_wr_bytes_ne. lia.
Qed.

Lemma ent_store_same i c len buf : same_but i buf (ent_store i c len buf).
Proof.
  unfold ent_store, wr_le32.
  eapply same_but_trans; [|apply same_but_updZ; [lia|unfold is_u8, FAT_ATTR_ARCHIVE; lia]].
  repeat (eapply same_but_trans; [|apply same_but_wr_le16; lia]). split; [done|]. split; [done|]. done.
Qed.

(** What an entry says of its file: the kind of slot, and with a name of 11
    bytes, the first cluster and the size. *)
Definition ent_is (ent name : list Z) (first size : Z) : Prop :=
  slot_of ent = SlotFile /\ ent_name ent = name /\ ent_cluster ent = first /\ ent_size ent = size.

Lemma ent_store_byte i c len buf j :
  lenZ buf = 512 -> 0 <= i < 16 -> 0 <= j < 32 ->
  byte_at (dirent (ent_store i c len buf) i) j =
  if decide (j = 11) then 32
  else if decide (j = 20) then u16 (Z.shiftr c 16) mod 256 else if decide (j = 21) then (u16 (Z.shiftr c 16) / 256) mod 256
  else if decide (j = 26) then u16 c mod 256 else if decide (j = 27) then (u16 c / 256) mod 256
  else if decide (j = 28) then len mod 256 else if decide (j = 29) then (len / 256) mod 256
  else if decide (j = 30) then (len / 65536) mod 256 else if decide (j = 31) then (len / 65536 / 256) mod 256
  else byte_at buf (32 * i + j).
Proof.
  intros L Hi Hj. rewrite byte_at_dirent by lia. unfold ent_store, wr_le32.
  assert (Z.shiftr len 16 = len / 65536) as -> by (rewrite Z.shiftr_div_pow2 by lia; done).
  rewrite byte_at_updZ by (rewrite ?lenZ_wr_le16; lia).
  rewrite !byte_at_wr_le16 by (rewrite ?lenZ_wr_le16; lia).
  repeat case_decide; try lia; done.
Qed.

Lemma ent_store_is i c len buf (name : list Z) :
  length buf = 512%nat -> Forall is_u8 buf -> 0 <= i < 16 -> 0 <= c < 65536 -> 0 <= len < 4294967296 ->
  length name = 11%nat -> byte_at name 0 <> 0 -> byte_at name 0 <> 229 ->
  (forall j, 0 <= j < 11 -> byte_at buf (32 * i + j) = byte_at name j) ->
  ent_is (dirent (ent_store i c len buf) i) name c len.
Proof.
  intros L U Hi Hc Hl Ln Hn0 Hn1 Hx. set (e := dirent _ i).
  assert (lenZ buf = 512) as L' by (unfold lenZ; lia).
  assert (forall j, 0 <= j < 11 -> byte_at e j = byte_at name j) as Hname.
  { intros j Hj. unfold e. rewrite ent_store_byte by lia. rewrite !decide_False by lia. by apply Hx. }
  assert (byte_at e 11 = 32) as Ha by (unfold e; by rewrite ent_store_byte by lia).
  assert (Forall is_u8 e) as Ue.
  { apply Forall_take, Forall_drop. by apply ent_store_same. }
  assert (length e = 32%nat) as Le by (apply dirent_length; [rewrite <- L; apply ent_store_same|lia]).
  assert (u16 (Z.shiftr c 16) = 0 /\ u16 c = c) as [Ehi Elo].
  { rewrite Z.shiftr_div_pow2 by lia. change (2 ^ 16) with 65536. rewrite Z.div_small by lia.
    split; [done|by apply u16_id]. }
  split_and!.
  - unfold slot_of, ent_attr. rewrite Hname by lia.
    destruct (Z.eqb_spec (byte_at name 0) 0); [done|]. destruct (Z.eqb_spec (byte_at name 0) 229); [done|].
    rewrite Ha. done.
  - by apply ent_name_bytes.
  - unfold ent_cluster.
    rewrite (rd_le16_bytes e 26 c), (rd_le16_bytes e 20 0) by (unfold e; rewrite !ent_store_byte by lia; rewrite ?Ehi, ?Elo; done).
    rewrite Z.mod_small by lia. change (0 mod 65536) with 0. rewrite Z.shiftl_0_l, Z.lor_0_r. done.
  - unfold ent_size, rd_le32. change (28 + 2) with 30. rewrite (rd_le16_bytes e 28 len), (rd_le16_bytes e 30 (len / 65536))
      by (unfold e; rewrite !ent_store_byte by lia; done). zlia.
Qed.

(** ** The directory of a volume *)

Section dir.
Context {D : Type} {BD : BlockDev D} {RD : ReliableDev D}.
Implicit Types (fs : fat_fs D) (d : D).

Definition slots fs : Z := 16 * root_sectors fs.
Definition dir_sec fs (k : Z) : Z := root_start_sector fs + k / 16.
Definition slot fs (k : Z) : list Z := dirent (rd_sector (dev fs) (dir_sec fs k)) (k mod 16).

(** No entry follows the end mark. *)
Definition end_ok fs : Prop :=
  forall j k, 0 <= j <= k -> k < slots fs -> byte_at (slot fs j) 0 = 0 -> byte_at (slot fs k) 0 = 0.

Lemma slot_end ent : slot_of ent = SlotEnd <-> byte_at ent 0 = 0.
Proof.
  unfold slot_of. destruct (Z.eqb_spec (byte_at ent 0) 0); [done|].
  split; [|done]. repeat case_goal; done.
Qed.
Lemma slot_file_used ent : slot_of ent = SlotFile -> ~ slot_free ent.
Proof.
  unfold slot_of, slot_free. destruct (Z.eqb_spec (byte_at ent 0) 0); [done|].
  destruct (Z.eqb_spec (byte_at ent 0) 229); [done|]. lia.
Qed.

Lemma dir_sec_range fs k :
  fat_wf fs -> 0 <= k < slots fs ->
  0 <= dir_sec fs k < rd_size (dev fs) /\ root_start_sector fs <= dir_sec fs k < data_start_sector fs.
Proof.
  intros Hwf Hk. pose proof (wf_root _ Hwf). pose proof (wf_data _ Hwf). pose proof (wf_end _ Hwf).
  pose proof (wf_clusters _ Hwf). pose proof (wf_spc _ Hwf). pose proof (wf_start _ Hwf). pose proof (wf_fats _ Hwf).
  assert (0 <= total_clusters fs * sectors_per_cluster (boot_sector fs)) by nia.
  assert (0 <= num_fats (boot_sector fs) * fat_size_16 (boot_sector fs)).
  { pose proof (wf_fit _ Hwf). assert (0 <= fat_size_16 (boot_sector fs)); [|nia].
    unfold entry_offset in *. destruct (fat_type fs =? 12); zlia. }
  unfold dir_sec, slots in *. zlia.
Qed.

Lemma read_dir fs s :
  fat_wf fs -> 0 <= s < root_sectors fs ->
  u32 (root_start_sector fs + s) = dir_sec fs (16 * s) /\
  read_sector (dir_sec fs (16 * s)) fs = ((0, rd_sector (dev fs) (dir_sec fs (16 * s))), fs).
Proof.
  intros Hwf Hs. destruct (dir_sec_range fs (16 * s) Hwf) as [Hr _]; [unfold slots; lia|].
  pose proof (wf_size _ Hwf). split; [|by apply read_sector_eq; [apply (wf_dev _ Hwf)|]].
  unfold dir_sec in *. replace (16 * s / 16) with s in * by zlia. by apply u32_id; lia.
Qed.

Lemma slot_sector fs s j :
  0 <= j < 16 -> dirent (rd_sector (dev fs) (dir_sec fs (16 * s))) j = slot fs (16 * s + j) /\
  dir_sec fs (16 * s) = dir_sec fs (16 * s + j) /\ (16 * s + j) mod 16 = j.
Proof.
  intros Hj. unfold slot, dir_sec. replace ((16 * s + j) / 16) with s by zlia.
  replace (16 * s / 16) with s by zlia. replace ((16 * s + j) mod 16) with j by zlia. done.
Qed.

(** The pure part of the scan of sector [s]. *)
Definition scan_sector fs (n : list Z) (s : Z) : option (option (list Z * Z * Z)) :=
  let sec := dir_sec fs (16 * s) in
  match find_slot 16 0 n (rd_sector (dev fs) sec) with
  | Next => None
  | Stop => Some None
  | Done i => Some (Some (dirent (rd_sector (dev fs) sec) i, sec, i))
  end.

Lemma slot_of_index fs k : slot fs k = slot fs (16 * (k / 16) + k mod 16).
Proof. f_equal. zlia. Qed.

Lemma scan_sector_spec fs n s :
  match scan_sector fs n s with
  | None => forall k, k / 16 = s -> slot_of (slot fs k) = SlotFile -> ent_name (slot fs k) <> n
  | Some None => exists k, k / 16 = s /\ byte_at (slot fs k) 0 = 0 /\
      forall k', k' / 16 = s -> k' < k -> slot_of (slot fs k') = SlotFile -> ent_name (slot fs k') <> n
  | Some (Some r) => exists k, k / 16 = s /\ slot_of (slot fs k) = SlotFile /\ ent_name (slot fs k) = n /\
      r = (slot fs k, dir_sec fs k, k mod 16)
  end.
Proof.
  pose proof (find_slot_spec 16 0 n (rd_sector (dev fs) (dir_sec fs (16 * s)))) as Hs. unfold scan_sector. cbv zeta.
  assert (forall k, k / 16 = s -> dirent (rd_sector (dev fs) (dir_sec fs (16 * s))) (k mod 16) = slot fs k) as Hk.
  { intros k <-. rewrite (slot_of_index fs k). apply slot_sector. zlia. }
  destruct (find_slot _ _ _ _) as [| |i].
  - intros k Es. rewrite <- (Hk k Es). apply Hs. zlia.
  - destruct Hs as (j & Hj & He & Hb). exists (16 * s + j).
    assert ((16 * s + j) / 16 = s) as Es by zlia. rewrite <- (Hk _ Es) at 1. destruct (slot_sector fs s j) as (_ & _ & ->); [lia|].
    split; [done|]. split; [by apply slot_end|]. intros k' Es' Hlt. rewrite <- (Hk k' Es'). apply Hb. zlia.
  - destruct Hs as (Hi & Hf & Hn). destruct (slot_sector fs s i) as (Ei & Ed & Em); [lia|].
    exists (16 * s + i). rewrite <- Ei, <- Ed, Em. split; [zlia|done].
Qed.

Lemma find_dirent_spec fs name n :
  fat_wf fs -> end_ok fs -> filename_to_fat name = Some n ->
  (exists k, 0 <= k < slots fs /\ slot_of (slot fs k) = SlotFile /\ ent_name (slot fs k) = n /\
     find_dirent_val name fs = (Some (slot fs k, dir_sec fs k, k mod 16), fs)) \/
  (find_dirent_val name fs = (None, fs) /\
   forall k, 0 <= k < slots fs -> slot_of (slot fs k) = SlotFile -> ent_name (slot fs k) <> n).
Proof.
  intros Hwf Hend En. unfold find_dirent_val. rewrite (wf_mounted _ Hwf), En. cbn [negb].
  match goal with |- context [st_search ?l ?b] => destruct (st_search_pure (scan_sector fs n) b l fs) as
    [[Es Hn]|(l1 & s & l2 & x & El & Hn & Ef & Es)] end.
  { intros s Hs. apply elem_of_seqZ in Hs.
    destruct (read_dir fs s Hwf ltac:(lia)) as [-> Er]. rewrite (st_bind_eq _ _ _ _ _ Er). done. }
  - right. rewrite (st_bind_eq _ _ _ _ _ Es). split; [done|]. intros k Hk.
    pose proof (scan_sector_spec fs n (k / 16)) as Hsc. rewrite Hn in Hsc by (apply elem_of_seqZ; unfold slots in Hk; zlia).
    by apply Hsc.
  - rewrite (st_bind_eq _ _ _ _ _ Es). apply seqZ_split in El as [Hs Hl1].
    pose proof (scan_sector_spec fs n s) as Hsc. rewrite Ef in Hsc. destruct x as [r|].
    + left. destruct Hsc as (k & Ek & Hf & Hnm & ->). exists k. split_and!; auto; unfold slots; zlia.
    + right. split; [done|]. destruct Hsc as (k & Ek & H0 & Hb). intros k' Hk' Hf'.
      destruct (decide (k' / 16 < s)) as [Hlt|Hge].
      * pose proof (scan_sector_spec fs n (k' / 16)) as Hsc'. rewrite Hn in Hsc' by (apply Hl1; zlia). by apply Hsc'.
      * destruct (decide (k' < k)); [apply Hb; [zlia|done|done]|].
        exfalso. apply (slot_file_used _ Hf'). left. apply (Hend k k'); [zlia|lia|done].
Qed.

(** The device after slot [k] of the directory became [ent]. *)
Record dir_stored fs (k : Z) (ent : list Z) (d : D) : Prop := {
  ds_ok : rd_ok d;
  ds_size : rd_size d = rd_size (dev fs);
  ds_sector : forall s, 0 <= s < rd_size (dev fs) -> ~ root_start_sector fs <= s < data_start_sector fs ->
    rd_sector d s = rd_sector (dev fs) s;
  ds_slot : forall k', 0 <= k' < slots fs -> slot (with_dev d fs) k' = if decide (k' = k) then ent else slot fs k'
}.

Lemma store_slot fs k buf :
  fat_wf fs -> 0 <= k < slots fs -> same_but (k mod 16) (rd_sector (dev fs) (dir_sec fs k)) buf ->
  exists d, write_sector (dir_sec fs k) buf fs = (0, with_dev d fs) /\ dir_stored fs k (dirent buf (k mod 16)) d.
Proof.
  intros Hwf Hk (L & U & E). destruct (dir_sec_range fs k Hwf Hk) as [Hr Hin].
  destruct (rd_sector_wf (dev fs) (dir_sec fs k) (wf_dev _ Hwf) Hr) as [L0 U0].
  destruct (write_sector_eq fs (dir_sec fs k) buf (wf_dev _ Hwf) Hr) as (d & Ew & Hok & Hsz & Hd); [congruence|auto|].
  exists d. split; [done|]. split; auto.
  - intros s Hs Hn. rewrite Hd by done. by rewrite decide_False by (intros ->; done).
  - intros k' Hk'. destruct (dir_sec_range fs k' Hwf Hk') as [Hr' _]. unfold slot.
    change (dir_sec (with_dev d fs)) with (dir_sec fs). cbn [dev with_dev]. rewrite Hd by done.
    destruct (decide (k' = k)) as [->|Hne]; [by rewrite decide_True by done|]. case_decide as Es; [|done].
    rewrite Es. apply dirent_ext; [done|congruence|zlia|]. intros j Hj. apply E. unfold dir_sec in Es. zlia.
Qed.

(** Storing in the directory does not touch tables and data. *)
Lemma dir_stored_frame fs k ent d :
  fat_wf fs -> dir_stored fs k ent d ->
  fat_wf (with_dev d fs) /\ (mirrored fs -> mirrored (with_dev d fs)) /\
  (forall c, is_cluster fs c -> entry (with_dev d fs) 0 c = entry fs 0 c) /\
  (forall c, is_cluster fs c -> cluster_data (with_dev d fs) c = cluster_data fs c).
Proof.
  intros Hwf []. pose proof (wf_data _ Hwf). pose proof (wf_rsecs _ Hwf).
  assert (forall s, in_tables fs s -> 0 <= s < rd_size (dev fs) -> rd_sector d s = rd_sector (dev fs) s) as Ht.
  { intros s Hs Hr. apply ds_sector0; [done|]. unfold in_tables in Hs. lia. }
  split_and!; [by apply wf_with_dev|by apply mirrored_with_dev|intros; by apply entry_with_dev|].
  intros c Hc. apply cluster_data_ext; auto. intros s Hs Hin. apply ds_sector0; [done|].
  destruct Hc. unfold in_cluster in Hin. pose proof (wf_spc _ Hwf). nia.
Qed.

(** ** Creating an entry *)

Definition scan_free fs (s : Z) : option Z := free_slot 16 0 (rd_sector (dev fs) (dir_sec fs (16 * s))).

Lemma scan_free_spec fs s :
  match scan_free fs s with
  | None => forall k, k / 16 = s -> ~ slot_free (slot fs k)
  | Some i => (16 * s + i) / 16 = s /\ 0 <= i < 16 /\ slot_free (slot fs (16 * s + i)) /\
      forall k, k / 16 = s -> k < 16 * s + i -> ~ slot_free (slot fs k)
  end.
Proof.
  pose proof (free_slot_spec 16 0 (rd_sector (dev fs) (dir_sec fs (16 * s)))) as Hs. unfold scan_free.
  assert (forall k, k / 16 = s -> dirent (rd_sector (dev fs) (dir_sec fs (16 * s))) (k mod 16) = slot fs k) as Hk.
  { intros k <-. rewrite (slot_of_index fs k). apply slot_sector. zlia. }
  destruct (free_slot _ _ _) as [i|].
  - destruct Hs as (Hi & Hf & Hb). destruct (slot_sector fs s i) as (Ei & _); [lia|].
    split_and!; [zlia|lia|lia|by rewrite <- Ei|]. intros k Es Hlt. rewrite <- (Hk k Es). apply Hb. zlia.
  - intros k Es. rewrite <- (Hk k Es). apply Hs. zlia.
Qed.

Definition first_free fs (k : Z) : Prop :=
  0 <= k < slots fs /\ slot_free (slot fs k) /\ forall j, 0 <= j < k -> ~ slot_free (slot fs j).

Lemma first_free_exists fs k : 0 <= k < slots fs -> slot_free (slot fs k) -> exists k', first_free fs k'.
Proof.
  intros Hk Hf.
  assert (forall n : nat, (forall j, 0 <= j < Z.of_nat n -> ~ slot_free (slot fs j)) \/
    exists k', 0 <= k' < Z.of_nat n /\ slot_free (slot fs k') /\ forall j, 0 <= j < k' -> ~ slot_free (slot fs j)) as Hn.
  { induction n as [|n [IH|(k' & ? & ? & ?)]]; [left; intros; lia| |right; exists k'; split_and!; (lia || done)].
    assert (Decision (slot_free (slot fs (Z.of_nat n)))) as Hdec by (unfold slot_free; apply _).
    destruct (decide (slot_free (slot fs (Z.of_nat n)))) as [Hfn|Hfn].
    - right. exists (Z.of_nat n). split_and!; (lia || done).
    - left. intros j Hj. destruct (decide (j = Z.of_nat n)) as [->|]; [done|]. apply IH. lia. }
  destruct (Hn (Z.to_nat (slots fs))) as [Hno|(k' & ? & ? & ?)].
  - destruct (Hno k); [lia|done].
  - exists k'. split_and!; (lia || done).
Qed.

Lemma st_search_first {S A} (body : Z -> ST S (option A)) l1 i l2 s x s' :
  (forall j, j ∈ l1 -> body j s = (None, s)) -> body i s = (Some x, s') ->
  st_search (l1 ++ i :: l2) body s = (Some x, s').
Proof.
  intros Hl Hi. induction l1 as [|j l1 IH]; cbn [st_search app].
  - by rewrite (st_bind_eq _ _ _ _ _ Hi).
  - rewrite (st_bind_eq _ _ _ _ _ (Hl j (list_elem_of_here _ _))). apply IH. set_solver.
Qed.

Definition new_entry (i : Z) (name : list Z) (c len : Z) (buf : list Z) : list Z :=
  ent_store i c len (wr_bytes (32 * i) name (wr_bytes (32 * i) (replicate 32 0) buf)).

(** A stored name: 11 bytes that do not look like a free slot. *)
Definition name_ok (n : list Z) : Prop :=
  length n = 11%nat /\ Forall is_u8 n /\ byte_at n 0 <> 0 /\ byte_at n 0 <> 229.

Lemma new_entry_ok i n c len buf :
  length buf = 512%nat -> Forall is_u8 buf -> 0 <= i < 16 -> name_ok n -> 0 <= c < 65536 -> 0 <= len < 4294967296 ->
  same_but i buf (new_entry i n c len buf) /\ ent_is (dirent (new_entry i n c len buf) i) n c len.
Proof.
  intros L U Hi (Ln & Un & N0 & N1) Hc Hl. unfold new_entry.
  set (b1 := wr_bytes (32 * i) (replicate 32 0) buf). set (b2 := wr_bytes (32 * i) n b1).
  assert (same_but i buf b1) as S1.
  { apply same_but_wr_bytes; [lia|unfold lenZ; rewrite length_replicate; lia|]. apply Forall_replicate. unfold is_u8. lia. }
  assert (same_but i b1 b2) as S2 by (apply same_but_wr_bytes; [lia|unfold lenZ; lia|done]).
  split; [eapply same_but_trans; [by eapply same_but_trans|apply ent_store_same]|].
  assert (length b1 = 512%nat) as L1 by (rewrite <- L; apply S1).
  apply ent_store_is; auto; [rewrite <- L1; apply S2|by apply S2, S1|].
  intros j Hj. unfold b2. rewrite byte_at_wr_bytes by (unfold lenZ; lia).
  rewrite decide_True by (unfold lenZ; lia). f_equal. lia.
Qed.

Lemma create_dirent_spec fs k n c len :
  fat_wf fs -> first_free fs k -> name_ok n -> 0 <= c < 65536 -> 0 <= len < 4294967296 ->
  exists ent d, create_dirent n c len fs = (0, with_dev d fs) /\ dir_stored fs k ent d /\ ent_is ent n c len.
Proof.
  intros Hwf (Hk & Hf & Hb) Hn Hc Hl. set (s := k / 16).
  destruct (dir_sec_range fs k Hwf Hk) as [Hr _].
  destruct (rd_sector_wf (dev fs) (dir_sec fs k) (wf_dev _ Hwf) Hr) as [L0 U0].
  destruct (new_entry_ok (k mod 16) n c len _ L0 U0 ltac:(zlia) Hn Hc Hl) as [Hs He].
  destruct (store_slot fs k _ Hwf Hk Hs) as (d & Ew & Hd).
  exists (dirent (new_entry (k mod 16) n c len (rd_sector (dev fs) (dir_sec fs k))) (k mod 16)), d. split; [|done].
  unfold create_dirent. replace (root_sectors fs) with (s + (1 + (root_sectors fs - s - 1))) by lia.
  rewrite seqZ_app by (unfold s, slots in *; zlia). rewrite (seqZ_cons (0 + s)) by (unfold s, slots in *; zlia).
  rewrite (st_bind_eq _ _ _ (Some 0) (with_dev d fs)); [done|].
  assert (dir_sec fs (16 * s) = dir_sec fs k) as Es by (unfold dir_sec, s; f_equal; zlia).
  apply (st_search_first _ (seqZ 0 s) (0 + s)).
  - intros j Hj%elem_of_seqZ. destruct (read_dir fs j Hwf) as [-> Er]; [unfold s, slots in *; zlia|].
    rewrite (st_bind_eq _ _ _ _ _ Er). cbn [fst snd Z.eqb negb]. fold (scan_free fs j).
    pose proof (scan_free_spec fs j) as Hsc. destruct (scan_free fs j) as [i|]; [|done].
    destruct Hsc as (E1 & E2 & Hfr & _). destruct (Hb (16 * j + i)); [unfold s in *; zlia|done].
  - destruct (read_dir fs (0 + s) Hwf) as [-> Er]; [unfold s, slots in *; zlia|].
    change (0 + s) with s in *. rewrite (st_bind_eq _ _ _ _ _ Er). cbn [fst snd Z.eqb negb]. fold (scan_free fs s).
    pose proof (scan_free_spec fs s) as Hsc. destruct (scan_free fs s) as [i|]; [|by destruct (Hsc k)].
    assert (i = k mod 16) as ->.
    { destruct Hsc as (E1 & E2 & Hfr & Hfb). destruct (Z.lt_trichotomy (16 * s + i) k) as [Hlt|[E|Hgt]].
      - destruct (Hb (16 * s + i)); [unfold s in *; zlia|done].
      - unfold s in *. zlia.
      - by destruct (Hfb k). }
    rewrite Es. fold (new_entry (k mod 16) n c len (rd_sector (dev fs) (dir_sec fs k))).
    rewrite (st_bind_eq _ _ _ _ _ Ew). done.
Qed.
End dir.
