(* ===== verification/FatVolume.v ===== *)
(** FatVolume: a FAT volume as a finite map from names to contents.  The
    invariant [volume] relates the sectors of a mounted volume to such a map;
    reading, writing, deleting and renaming files refine lookup, insertion,
    deletion and renaming in the map. *)

From S2P Require Import Prelude Memory Common Pmm Heap HeapInv HeapSpec HeapRun Disk Fat FatFile FatSpec.
From S2P Require Import FatTable FatAlloc FatFormat FatData FatChain FatDir.
#[local] Open Scope kernel_scope.

(** What the volume holds for one file: its stored name, its first cluster,
    its chain and its bytes. *)
Record inode := Inode { in_name : list Z; in_first : Z; in_chain : list Z; in_data : list Z }.

Section volume.
Context {D : Type} {BD : BlockDev D} {RD : ReliableDev D}.
Implicit Types (fs : fat_fs D) (d : D) (T : gmap Z inode).

Record file_ok fs (i : inode) : Prop := {
  fo_chain : chain fs (in_first i) (in_chain i);
  fo_nodup : NoDup (in_chain i);
  fo_used : Forall (fun x => entry fs 0 x <> 0) (in_chain i);
  fo_data : in_data i `prefix_of` chain_data fs (in_chain i)
}.

(** The data area: every file has its chain, and no two share a cluster. *)
Record data_ok fs T : Prop := {
  do_file : forall k i, T !! k = Some i -> file_ok fs i;
  do_apart : forall k k' i i' x, T !! k = Some i -> T !! k' = Some i' -> x ∈ in_chain i -> x ∈ in_chain i' -> k = k'
}.

(** The directory: the slots hold the files of the table and no others. *)
Record dir_ok fs T : Prop := {
  di_end : end_ok fs;
  di_file : forall k i, T !! k = Some i ->
    0 <= k < slots fs /\ ent_is (slot fs k) (in_name i) (in_first i) (lenZ (in_data i));
  di_none : forall k, 0 <= k < slots fs -> T !! k = None -> slot_of (slot fs k) <> SlotFile;
  di_names : forall k k' i i', T !! k = Some i -> T !! k' = Some i' -> in_name i = in_name i' -> k = k'
}.

Definition files_of T (m : gmap (list Z) (list Z)) : Prop :=
  forall n data, m !! n = Some data <-> exists k i, T !! k = Some i /\ in_name i = n /\ in_data i = data.

Definition volume fs (m : gmap (list Z) (list Z)) : Prop :=
  fat_wf fs /\ mirrored fs /\ exists T, data_ok fs T /\ dir_ok fs T /\ files_of T m.

(** ** Frames *)

Lemma chain_data_ext fs d l :
  (forall x, x ∈ l -> cluster_data (with_dev d fs) x = cluster_data fs x) ->
  chain_data (with_dev d fs) l = chain_data fs l.
Proof.
  intros Hx. unfold chain_data. f_equal. apply list_fmap_ext. intros i x Hi. apply Hx. by eapply list_elem_of_lookup_2.
Qed.

Lemma file_frame fs d i :
  (forall x, x ∈ in_chain i -> entry (with_dev d fs) 0 x = entry fs 0 x /\ cluster_data (with_dev d fs) x = cluster_data fs x) ->
  file_ok fs i -> file_ok (with_dev d fs) i.
Proof.
  intros Hx []. split; auto.
  - apply chain_ext; [|done]. intros x Hin. by apply Hx.
  - rewrite Forall_forall in *. intros x Hin. destruct (Hx x Hin) as [-> _]. auto.
  - rewrite chain_data_ext; [done|]. intros x Hin. by apply Hx.
Qed.

Lemma data_frame fs d T :
  (forall k i x, T !! k = Some i -> x ∈ in_chain i ->
     entry (with_dev d fs) 0 x = entry fs 0 x /\ cluster_data (with_dev d fs) x = cluster_data fs x) ->
  data_ok fs T -> data_ok (with_dev d fs) T.
Proof. intros Hx []. split; [|done]. intros k i Hk. apply file_frame; [|eauto]. intros x Hin. by eapply Hx. Qed.

(** A step that works on tables and data. *)
Record data_step fs d : Prop := {
  st_wf : fat_wf (with_dev d fs);
  st_size : rd_size d = rd_size (dev fs);
  st_mirrored : mirrored fs -> mirrored (with_dev d fs);
  st_dir : forall s, 0 <= s < rd_size (dev fs) -> root_start_sector fs <= s < data_start_sector fs ->
    rd_sector d s = rd_sector (dev fs) s
}.

Lemma data_step_trans fs d1 d2 : data_step fs d1 -> data_step (with_dev d1 fs) d2 -> data_step fs d2.
Proof.
  intros [] []. change (with_dev d2 (with_dev d1 fs)) with (with_dev d2 fs) in *. cbn [dev with_dev] in *.
  split; auto; [congruence|]. intros s Hs Hr. rewrite st_dir1, st_dir0; auto. by rewrite st_size0.
Qed.

Lemma data_step_slot fs d k : fat_wf fs -> data_step fs d -> 0 <= k < slots fs -> slot (with_dev d fs) k = slot fs k.
Proof.
  intros Hwf [] Hk. destruct (dir_sec_range fs k Hwf Hk). unfold slot.
  change (dir_sec (with_dev d fs)) with (dir_sec fs). cbn [dev with_dev]. by rewrite st_dir0.
Qed.

Lemma end_ok_step fs d : fat_wf fs -> data_step fs d -> end_ok fs -> end_ok (with_dev d fs).
Proof.
  intros Hwf Hs He j k Hjk Hk. change (slots (with_dev d fs)) with (slots fs) in Hk.
  rewrite !(data_step_slot fs d) by (done || lia). by apply He.
Qed.

Lemma dir_frame fs d T : fat_wf fs -> data_step fs d -> dir_ok fs T -> dir_ok (with_dev d fs) T.
Proof.
  intros Hwf Hs []. split; auto.
  - by apply end_ok_step.
  - intros k i Hk. destruct (di_file0 k i Hk) as [Hr He]. split; [done|]. by rewrite (data_step_slot fs d).
  - intros k Hk Hn. rewrite (data_step_slot fs d) by done. auto.
Qed.

(** A sector of the directory belongs to no cluster and no table. *)
Lemma dir_not_data fs s :
  fat_wf fs -> root_start_sector fs <= s < data_start_sector fs ->
  ~ in_tables fs s /\ forall c, is_cluster fs c -> ~ in_cluster fs c s.
Proof.
  intros Hwf Hs. pose proof (wf_data _ Hwf). pose proof (wf_spc _ Hwf). unfold in_tables, in_cluster.
  split; [lia|]. intros c [Hc _]. nia.
Qed.

(** ** Releasing the old chain *)

Definition release (first : Z) : ST (fat_fs D) unit :=
  if 2 <=? first then free_cluster_chain first else st_ret tt.

Lemma release_spec fs T k i :
  fat_wf fs -> data_ok fs T -> T !! k = Some i ->
  exists d, release (in_first i) fs = (tt, with_dev d fs) /\ data_step fs d /\ data_ok (with_dev d fs) (delete k T) /\
    size (free_set (with_dev d fs)) = (size (free_set fs) + length (in_chain i))%nat.
Proof.
  intros Hwf Hd Hk. destruct (do_file _ _ Hd _ _ Hk) as [Hch Hnd Hus _].
  assert (exists d, release (in_first i) fs = (tt, with_dev d fs) /\ fat_wf (with_dev d fs) /\ rd_size d = rd_size (dev fs) /\
    (forall c', is_cluster fs c' -> entry (with_dev d fs) 0 c' = if decide (c' ∈ in_chain i) then 0 else entry fs 0 c') /\
    (mirrored fs -> mirrored (with_dev d fs)) /\
    (forall l, 0 <= l < rd_size (dev fs) -> ~ in_tables fs l -> rd_sector d l = rd_sector (dev fs) l))
    as (d & E & Hwf' & Hsz & He & Hm & Ho).
  { unfold release. destruct (Z.leb_spec 2 (in_first i)).
    - pose proof (chain_length _ _ _ Hwf Hch Hnd) as Hl. pose proof (wf_clusters _ Hwf) as Hc.
      unfold free_cluster_chain. rewrite u32_id by (destruct (fat_type fs =? 12); lia).
      apply free_chain_spec; auto. unfold lenZ in Hl. lia.
    - exists (dev fs). rewrite with_dev_id. split_and!; auto. intros c' Hc'.
      destruct (in_chain i) as [|x l]; [by rewrite decide_False by set_solver|].
      destruct Hch as (E & [Hx _] & _). lia. }
  pose proof (fun x Hx => chain_clusters _ _ _ Hch x Hx) as Hcl.
  exists d. split; [done|]. split; [|split].
  - split; auto. intros s Hs Hr. apply Ho; [done|]. by apply (dir_not_data fs s Hwf).
  - destruct Hd as [Hf Ha]. apply data_frame.
    + intros k' i' x [Hne Hk']%lookup_delete_Some Hx.
      assert (is_cluster fs x) as Hc by exact (chain_clusters _ _ _ (fo_chain _ _ (Hf _ _ Hk')) x Hx).
      split; [rewrite He by done; rewrite decide_False; [done|]; intros Hx'; by apply Hne, (Ha k k' i i' x)|].
      apply cluster_data_ext; auto. intros s Hs Hin. apply Ho; [done|]. by apply (in_cluster_not_table fs x s Hwf).
    + split.
      * intros k' i' [_ Hk']%lookup_delete_Some. eauto.
      * intros k1 k2 i1 i2 x [_ H1]%lookup_delete_Some [_ H2]%lookup_delete_Some. by apply Ha.
  - rewrite <- (size_list_to_set (C := gset Z) (in_chain i) Hnd), <- size_union.
    + f_equal. apply set_eq. intros x. rewrite elem_of_union, elem_of_list_to_set, !elem_of_free.
      change (is_cluster (with_dev d fs) x) with (is_cluster fs x). split.
      * intros [Hx Ex]. rewrite He in Ex by done. case_decide; [by right|by left].
      * intros [[Hx Ex]|Hx]; (split; [auto|]); rewrite He by auto; case_decide; done.
    + intros x [_ Ex]%elem_of_free Hx%elem_of_list_to_set. rewrite Forall_forall in Hus. by apply (Hus x).
Qed.

(** ** Writing the new chain *)

Definition store_data (data : list Z) : ST (fat_fs D) (option (Z * Z)) :=
  if 0 <? lenZ data then
    c <~ allocate_cluster;;
    if c <? 2 then st_ret (Some (-1, 0)) else
    rc <~ write_chain (length data) c data;;
    st_ret (match rc with Some rc => Some (rc, c) | None => None end)
  else st_ret (Some (0, 0)).

Lemma free_set_claimed fs c d :
  is_cluster fs c -> entry fs 0 c = 0 ->
  (forall c', is_cluster fs c' -> entry (with_dev d fs) 0 c' = if decide (c' = c) then eoc_marker fs else entry fs 0 c') ->
  size (free_set fs) = S (size (free_set (with_dev d fs))).
Proof.
  intros Hc Hz He. destruct (eoc_entry fs) as (_ & Hm & _).
  assert (free_set fs = {[c]} ∪ free_set (with_dev d fs)) as ->.
  - apply set_eq. intros x. rewrite elem_of_union, elem_of_singleton, !elem_of_free.
    change (is_cluster (with_dev d fs) x) with (is_cluster fs x). split.
    + intros [Hx E]. destruct (decide (x = c)); [by left|right]. split; [done|]. by rewrite He, decide_False.
    + intros [->|[Hx E]]; [done|]. split; [done|]. rewrite He in E by done. by case_decide.
  - rewrite size_union, size_singleton; [done|]. apply disjoint_singleton_l. rewrite elem_of_free.
    intros [_ E]. by rewrite He, decide_True in E.
Qed.

(** The clusters of [l] belong to no file of the table. *)
Definition fresh_for T (l : list Z) : Prop := forall k i x, T !! k = Some i -> x ∈ in_chain i -> x ∉ l.

Lemma first_in_chain fs c l : fat_wf fs -> is_cluster fs c -> chain fs c l -> c ∈ l.
Proof.
  intros Hwf Hc. destruct l as [|y l]; [|intros (-> & _); apply list_elem_of_here].
  intros []. by apply cluster_below_eoc.
Qed.

(** The first cluster is taken and the data written from it. *)
Lemma store_chain_spec fs data :
  fat_wf fs -> data <> [] -> Forall is_u8 data -> (clusters_for fs (length data) <= size (free_set fs))%nat ->
  exists c l d, store_data data fs = (Some (0, c), with_dev d fs) /\ is_cluster fs c /\ entry fs 0 c = 0 /\
    written fs c l data d.
Proof.
  intros Hwf Hne Hu Hn. unfold store_data. pose proof (wf_spc _ Hwf) as Hspc.
  assert (0 < lenZ data) as Hpos by (destruct data; [done|unfold lenZ; simpl; lia]).
  destruct (Z.ltb_spec 0 (lenZ data)); [|lia].
  assert (1 <= clusters_for fs (length data))%nat as H1
    by (unfold clusters_for; apply Nat.div_le_lower_bound; unfold spc, lenZ in *; lia).
  destruct (allocate_some fs Hwf) as (c & d1 & E1 & Hc & Hz & W1 & S1 & N1 & M1 & O1).
  { intros HE. rewrite HE, size_empty in Hn. lia. }
  destruct (eoc_entry fs) as (_ & Hm & _).
  destruct (write_chain_spec (length data) (with_dev d1 fs) c data) as (l & d & E & W); auto.
  { rewrite N1, decide_True by done. done. }
  { rewrite <- (free_set_claimed fs c d1) by done. done. }
  exists c, l, d. split; [|split; [done|split; [done|]]].
  { rewrite (st_bind_eq _ _ _ _ _ E1). destruct Hc as [Hc _]. destruct (Z.ltb_spec c 2); [lia|].
    by rewrite (st_bind_eq _ _ _ _ _ E). }
  pose proof (first_in_chain _ _ _ (wr_wf _ _ _ _ _ W) Hc (wr_chain _ _ _ _ _ W)) as Hin.
  destruct W. change (with_dev d (with_dev d1 fs)) with (with_dev d fs) in *. cbn [dev with_dev] in *.
  split; auto; [congruence| | |].
  - intros x Hx. destruct (wr_fresh x Hx) as [->|E0]; [by left|].
    rewrite N1 in E0 by exact (chain_clusters _ _ _ wr_chain x Hx). case_decide; auto.
  - intros x Hx Hxl. rewrite wr_entry, N1, decide_False by (done || congruence). done.
  - intros s Hs Ht Hx. rewrite wr_sector; [|by rewrite S1|done|done]. apply O1; auto.
Qed.

(** What was written touches no file of the table. *)
Lemma written_frame fs T n c l data d :
  fat_wf fs -> data_ok fs T -> is_cluster fs c -> entry fs 0 c = 0 -> written fs c l data d ->
  data_step fs d /\ data_ok (with_dev d fs) T /\ file_ok (with_dev d fs) (Inode n c l data) /\ fresh_for T l.
Proof.
  intros Hwf Hd Hc Hz [].
  assert (forall x, x ∈ l -> is_cluster fs x) as Hcl by (intros x Hx; exact (chain_clusters _ _ _ wr_chain x Hx)).
  assert (fresh_for T l) as Hfr.
  { intros k i x Hk Hx Hxl. destruct (do_file _ _ Hd _ _ Hk) as [_ _ Hus _]. rewrite Forall_forall in Hus.
    apply (Hus x Hx). destruct (wr_fresh x Hxl) as [->|?]; done. }
  split_and!; auto; [split; auto| |by split].
  - intros s Hs Hr. destruct (dir_not_data fs s Hwf Hr). apply wr_sector; auto.
  - apply data_frame; [|done]. intros k i x Hk Hx.
    assert (is_cluster fs x) as Hxc by exact (chain_clusters _ _ _ (fo_chain _ _ (do_file _ _ Hd _ _ Hk)) x Hx).
    assert (x ∉ l) as Hxl by by eapply Hfr.
    split; [by apply wr_entry|]. apply cluster_data_ext; auto. intros s Hs Hin. apply wr_sector; [done| |].
    + by apply (in_cluster_not_table fs x s Hwf).
    + intros y Hy Hin'. by rewrite (in_cluster_unique fs x y s Hin Hin') in Hxl.
Qed.

(** No more free clusters go than the data takes. *)
Lemma written_room fs c l data d :
  written fs c l data d -> (size (free_set fs) <= size (free_set (with_dev d fs)) + clusters_for fs (length data))%nat.
Proof.
  intros Hw. pose proof (wr_count _ _ _ _ _ Hw) as Hc.
  assert (size (free_set fs) <= size (free_set (with_dev d fs) ∪ list_to_set l))%nat as Hs.
  { apply subseteq_size. intros x [Hx Ex]%elem_of_free. destruct (decide (x ∈ l)); [set_solver|].
    apply elem_of_union_l, elem_of_free. split; [done|]. by rewrite (wr_entry _ _ _ _ _ Hw). }
  pose proof (size_union_alt (free_set (with_dev d fs)) (list_to_set l)) as Hu.
  assert (size (list_to_set l ∖ free_set (with_dev d fs)) <= length l)%nat; [|lia].
  etransitivity; [apply (subseteq_size _ (list_to_set l)); set_solver|]. by rewrite size_list_to_set by apply Hw.
Qed.

(** The data is stored in a chain of its own and the other files stay. *)
Lemma store_data_spec fs T n data :
  fat_wf fs -> data_ok fs T -> Forall is_u8 data -> (clusters_for fs (length data) <= size (free_set fs))%nat ->
  exists c l d, store_data data fs = (Some (0, c), with_dev d fs) /\ data_step fs d /\
    data_ok (with_dev d fs) T /\ file_ok (with_dev d fs) (Inode n c l data) /\ fresh_for T l /\ 0 <= c < 65536 /\
    (size (free_set fs) <= size (free_set (with_dev d fs)) + clusters_for fs (length data))%nat.
Proof.
  intros Hwf Hd Hu Hn. destruct (decide (data = [])) as [->|Hne].
  - exists 0, [], (dev fs). rewrite with_dev_id. split_and!; auto; try lia.
    + split; rewrite ?with_dev_id; auto.
    + split; [simpl; lia|constructor|constructor|apply prefix_nil].
    + intros k i x _ _. apply not_elem_of_nil.
  - destruct (store_chain_spec fs data Hwf Hne Hu Hn) as (c & l & d & E & Hc & Hz & Hw).
    destruct (written_frame fs T n c l data d Hwf Hd Hc Hz Hw) as (? & ? & ? & ?).
    exists c, l, d. pose proof (written_room _ _ _ _ _ Hw). split_and!; auto; pose proof (cluster_below_eoc fs c Hwf Hc) as Hb;
      unfold eoc_threshold in Hb; destruct (fat_type fs =? 12); lia.
Qed.

(** ** The directory and the table of files *)

Lemma lookup_name fs T name n :
  fat_wf fs -> dir_ok fs T -> filename_to_fat name = Some n ->
  (exists k i, T !! k = Some i /\ in_name i = n /\ find_dirent_val name fs = (Some (slot fs k, dir_sec fs k, k mod 16), fs)) \/
  (find_dirent_val name fs = (None, fs) /\ forall k i, T !! k = Some i -> in_name i <> n).
Proof.
  intros Hwf [] En. destruct (find_dirent_spec fs name n Hwf di_end0 En) as [(k & Hk & Hf & Hn & E)|[E Hno]].
  - left. destruct (T !! k) as [i|] eqn:Ek; [|by destruct (di_none0 k Hk Ek)].
    exists k, i. destruct (di_file0 k i Ek) as (_ & _ & Hn' & _). split_and!; auto. congruence.
  - right. split; [done|]. intros k i Hk. destruct (di_file0 k i Hk) as (Hr & Hf & <- & _). by apply Hno.
Qed.

Lemma dir_insert fs T k i ent d :
  dir_ok fs T -> 0 <= k < slots fs -> dir_stored fs k ent d ->
  ent_is ent (in_name i) (in_first i) (lenZ (in_data i)) ->
  (forall k' i', T !! k' = Some i' -> in_name i' = in_name i -> k' = k) ->
  (forall j, 0 <= j < k -> byte_at (slot fs j) 0 <> 0) -> dir_ok (with_dev d fs) (<[k := i]> T).
Proof.
  intros [] Hk [_ _ _ Hs] He Hu Hb. split.
  - intros j k' Hj Hk'. change (slots (with_dev d fs)) with (slots fs) in Hk'. rewrite !Hs by lia.
    destruct (decide (j = k)) as [->|Hne].
    + intros E0. destruct He as [Hf _]. exfalso. apply (slot_file_used _ Hf). by left.
    + intros E0. case_decide; [subst k'; exfalso; apply (Hb j); [lia|done]|]. by apply (di_end0 j k').
  - intros k' i' [[<- <-]|[Hne Hk']]%lookup_insert_Some.
    + split; [done|]. rewrite Hs, decide_True by done. done.
    + destruct (di_file0 k' i' Hk'). split; [done|]. rewrite Hs, decide_False by done. done.
  - intros k' Hk' [Hn Hne]%lookup_insert_None. rewrite Hs, decide_False by done. auto.
  - intros k1 k2 i1 i2 [[<- <-]|[H1 E1]]%lookup_insert_Some [[<- <-]|[H2 E2]]%lookup_insert_Some En; eauto.
    symmetry. eauto.
Qed.

Lemma dir_remove fs T k i ent d :
  dir_ok fs T -> T !! k = Some i -> dir_stored fs k ent d -> byte_at ent 0 = 229 -> dir_ok (with_dev d fs) (delete k T).
Proof.
  intros [] Hk [_ _ _ Hs] He. destruct (di_file0 k i Hk) as [Hr [Hf _]]. split.
  - intros j k' Hj Hk'. change (slots (with_dev d fs)) with (slots fs) in Hk'. rewrite !Hs by lia.
    destruct (decide (j = k)) as [->|Hne]; [rewrite He; lia|]. intros E0. case_decide; [|by apply (di_end0 j k')].
    subst k'. exfalso. apply (slot_file_used _ Hf). left. by apply (di_end0 j k).
  - intros k' i' [Hne Hk']%lookup_delete_Some. destruct (di_file0 k' i' Hk'). split; [done|].
    rewrite Hs, decide_False by done. done.
  - intros k' Hk' Hn. rewrite Hs by done. destruct (decide (k' = k)) as [->|Hne].
    + unfold slot_of. rewrite He. done.
    + apply di_none0; [done|]. by rewrite lookup_delete_ne in Hn.
  - intros k1 k2 i1 i2 [_ H1]%lookup_delete_Some [_ H2]%lookup_delete_Some. eauto.
Qed.

Lemma data_insert fs T k i :
  data_ok fs (delete k T) -> file_ok fs i -> fresh_for (delete k T) (in_chain i) -> data_ok fs (<[k := i]> T).
Proof.
  intros [Hf Ha] Hi Hfr. rewrite <- (insert_delete_eq T). split.
  - intros k' i' [[<- <-]|[Hne Hk']]%lookup_insert_Some; eauto.
  - intros k1 k2 i1 i2 x [[<- <-]|[N1 E1]]%lookup_insert_Some [[<- <-]|[N2 E2]]%lookup_insert_Some H1 H2; eauto.
    + by destruct (Hfr _ _ _ E2 H2).
    + by destruct (Hfr _ _ _ E1 H1).
Qed.

Lemma data_dir_stored fs T k ent d : fat_wf fs -> dir_stored fs k ent d -> data_ok fs T -> data_ok (with_dev d fs) T.
Proof.
  intros Hwf Hs Hd. destruct (dir_stored_frame fs k ent d Hwf Hs) as (_ & _ & He & Hc).
  apply data_frame; [|done]. intros k' i x Hk Hx.
  assert (is_cluster fs x) as Hx' by exact (chain_clusters _ _ _ (fo_chain _ _ (do_file _ _ Hd _ _ Hk)) x Hx). auto.
Qed.

Lemma files_insert T m k i :
  files_of T m -> (forall k' i', T !! k' = Some i' -> in_name i' = in_name i <-> k' = k) ->
  files_of (<[k := i]> T) (<[in_name i := in_data i]> m).
Proof.
  intros Hm Hu n data. rewrite lookup_insert_Some. split.
  - intros [[<- <-]|[Hne (k' & i' & Hk' & <- & <-)%Hm]].
    + exists k, i. by rewrite lookup_insert_eq.
    + exists k', i'. rewrite lookup_insert_ne; [done|]. intros <-. apply Hne. symmetry. by apply (Hu k i').
  - intros (k' & i' & [[<- <-]|[Hne Hk']]%lookup_insert_Some & <- & <-); [by left|].
    right. split; [|apply Hm; eauto]. intros E. apply Hne. symmetry. by apply (Hu k' i').
Qed.

Lemma files_delete T m k i :
  files_of T m -> T !! k = Some i -> (forall k' i', T !! k' = Some i' -> in_name i' = in_name i -> k' = k) ->
  files_of (delete k T) (delete (in_name i) m).
Proof.
  intros Hm Hk Hu n data. rewrite lookup_delete_Some. split.
  - intros [Hne (k' & i' & Hk' & <- & <-)%Hm]. exists k', i'. rewrite lookup_delete_ne; [done|]. intros <-. congruence.
  - intros (k' & i' & [Hne Hk']%lookup_delete_Some & <- & <-). split; [|apply Hm; eauto].
    intros E. apply Hne. symmetry. by eapply Hu.
Qed.
End volume.
