(* ===== verification/FatFiles.v ===== *)
(** FatFiles: the file operations of [kernel/fat.c] on a well-formed volume
    refine the operations of a finite map from names to contents. *)

From S2P Require Import Prelude Memory Common Text Pmm Heap HeapInv HeapSpec HeapRun Disk Fat FatFile FatSpec.
From S2P Require Import FatTable FatAlloc FatFormat FatData FatChain FatDir FatVolume.
#[local] Open Scope kernel_scope.

(** ** Stored names *)

Lemma name_part_chars room stop_dot s l r :
  Forall is_char s -> name_part room stop_dot s = Some (l, r) ->
  (length l <= room)%nat /\ Forall is_char l /\ Forall is_char r.
Proof.
  revert s l r. induction room as [|room IH]; intros s l r Hs E; [injection E as <- <-; by split_and!|].
  destruct s as [|c s]; [injection E as <- <-; split_and!; [simpl; lia|done|done]|]. simpl in E.
  apply Forall_cons in Hs as [Hc Hs].
  destruct (stop_dot && (c =? 46)); [injection E as <- <-; split_and!; [simpl; lia|done|by constructor]|].
  destruct ((c =? 32) || (c =? 47)); [done|].
  destruct (name_part room stop_dot s) as [[l' r']|] eqn:E'; [|done]. injection E as <- <-.
  destruct (IH _ _ _ Hs E') as (? & ? & ?). split_and!; [simpl; lia| |done]. constructor; [|done].
  unfold is_char in *. destruct (to_upper_cases c) as [->|[? ->]]; lia.
Qed.

Lemma skip_lead_chars s : Forall is_char s -> Forall is_char (skip_lead s).
Proof. induction 1 as [|c s Hc Hs IH]; simpl; [constructor|]. case_goal; [done|by constructor]. Qed.
Lemma skip_to_dot_chars s : Forall is_char s -> Forall is_char (skip_to_dot s).
Proof. induction 1 as [|c s Hc Hs IH]; simpl; [constructor|]. case_goal; [by constructor|done]. Qed.

Lemma pad_chars n l : Forall is_char l -> Forall is_char (pad n l).
Proof. intros Hl. apply Forall_app. split; [done|]. apply Forall_replicate. unfold is_char. lia. Qed.

(** The name of a file that a caller may pass: characters of a C string,
    accepted, and not stored like a deleted entry. *)
Definition file_name (name n : list Z) : Prop :=
  Forall is_char name /\ filename_to_fat name = Some n /\ byte_at n 0 <> 229.

Lemma file_name_ok name n : file_name name n -> name_ok n.
Proof.
  intros (Hc & E & Hn). unfold filename_to_fat in E. pose proof (skip_lead_chars name Hc) as Hs.
  destruct (skip_lead name) as [|c0 s0]; [done|].
  destruct (name_part 8 true (c0 :: s0)) as [[base rest]|] eqn:E1; [|done].
  destruct (name_part_chars _ _ _ _ _ Hs E1) as (L1 & C1 & C2). cbn [mbind option_bind] in E.
  assert (exists ext, (length ext <= 3)%nat /\ Forall is_char ext /\ n = pad 8 base ++ pad 3 ext) as (ext & L2 & C3 & ->).
  { apply skip_to_dot_chars in C2. destruct (skip_to_dot rest) as [|d rest'].
    - exists []. cbn in E. case_hyp E; [done|]. injection E as <-. split_and!; [simpl; lia|constructor|done].
    - apply Forall_cons in C2 as [_ C2]. destruct (name_part 3 false rest') as [[ext r]|] eqn:E2; [|done].
      destruct (name_part_chars _ _ _ _ _ C2 E2) as (? & ? & _). cbn [mbind option_bind] in E.
      case_hyp E; [done|]. injection E as <-. by exists ext. }
  assert (Forall is_char (pad 8 base ++ pad 3 ext)) as Hall by (apply Forall_app; split; by apply pad_chars).
  assert (length (pad 8 base ++ pad 3 ext) = 11%nat) as L by (rewrite length_app, !pad_length; done).
  split; [done|]. split; [|split; [|done]].
  - eapply Forall_impl; [exact Hall|]. unfold is_char, is_u8. lia.
  - destruct (pad 8 base ++ pad 3 ext) as [|x t]; [done|]. apply Forall_cons in Hall as [Hx _].
    unfold byte_at, nthZ. simpl. unfold is_char in Hx. lia.
Qed.

Section files.
Context {D : Type} {BD : BlockDev D} {RD : ReliableDev D}.
Implicit Types (fs : fat_fs D) (d : D) (T : gmap Z inode).

(** ** Reading *)

Lemma read_file_spec fs m name n max_len :
  volume fs m -> filename_to_fat name = Some n -> 0 <= max_len ->
  fat_read_file name max_len fs =
    (match m !! n with
     | Some data => (0, lenZ data, take (Z.to_nat max_len) data)
     | None => (-1, 0, [])
     end, fs).
Proof.
  intros (Hwf & _ & T & Hd & Hdir & Hm) En Hmax. unfold fat_read_file.
  destruct (lookup_name fs T name n Hwf Hdir En) as [(k & i & Hk & Hn & E)|[E Hno]].
  - rewrite (st_bind_eq _ _ _ _ _ E). destruct (di_file _ _ Hdir _ _ Hk) as (_ & _ & _ & Ec & Es).
    destruct (do_file _ _ Hd _ _ Hk) as [Hch Hnd _ Hp].
    assert (m !! n = Some (in_data i)) as -> by (apply Hm; eauto). rewrite Es, Ec.
    destruct (Z.eqb_spec max_len 0) as [->|Hm0]; [done|].
    destruct (Z.eqb_spec (lenZ (in_data i)) 0) as [Ez|Hz].
    { cbn [orb]. unfold st_ret. destruct (in_data i) as [|x t]; [by rewrite take_nil|unfold lenZ in Ez; simpl in Ez; lia]. }
    cbn [orb]. pose proof (chain_length _ _ _ Hwf Hch Hnd) as Hl. pose proof (wf_clusters _ Hwf) as Hc.
    rewrite u32_id by (destruct (fat_type fs =? 12); lia).
    assert ((if lenZ (in_data i) <? max_len then lenZ (in_data i) else max_len) = Z.min (lenZ (in_data i)) max_len) as ->
      by (destruct (Z.ltb_spec (lenZ (in_data i)) max_len); lia).
    pose proof (prefix_length _ _ Hp) as Hpl. unfold lenZ in *.
    erewrite st_bind_eq; [|apply (read_chain_eq (in_chain i)); auto; unfold lenZ; lia].
    unfold st_ret. do 2 f_equal. cbn [app]. destruct Hp as [t ->]. rewrite take_app_le by lia.
    destruct (Z.min_spec (Z.of_nat (length (in_data i))) max_len) as [[? ->]|[? ->]]; [|done].
    rewrite !take_ge by lia. done.
  - rewrite (st_bind_eq _ _ _ _ _ E). assert (m !! n = None) as ->; [|done].
    apply eq_None_not_Some. intros [data (k & i & Hk & Hn & _)%Hm]. by apply (Hno k i).
Qed.

(** C9: on a well-formed volume a name is looked up in the map of files: a
    file that exists is read completely, or its first [max_len] bytes, with
    its size; a file that does not exist is reported.  The volume is not
    changed. *)
Theorem fat_read_file_correct fs m name n max_len :
  volume fs m -> filename_to_fat name = Some n -> 0 <= max_len ->
  fat_read_file name max_len fs =
    (match m !! n with
     | Some data => (0, lenZ data, take (Z.to_nat max_len) data)
     | None => (-1, 0, [])
     end, fs).
Proof. apply read_file_spec. Qed.

(** The size of a file. *)
Lemma stat_file_spec fs m name n :
  volume fs m -> filename_to_fat name = Some n ->
  match m !! n with
  | Some data => exists st, fat_stat_file name fs = (Some st, fs) /\ f_size st = lenZ data
  | None => fat_stat_file name fs = (None, fs)
  end.
Proof.
  intros (Hwf & _ & T & Hd & Hdir & Hm) En. unfold fat_stat_file.
  destruct (lookup_name fs T name n Hwf Hdir En) as [(k & i & Hk & Hn & E)|[E Hno]]; rewrite (st_bind_eq _ _ _ _ _ E).
  - assert (m !! n = Some (in_data i)) as -> by (apply Hm; eauto). destruct (di_file _ _ Hdir _ _ Hk) as (_ & _ & _ & _ & Es).
    eexists. by split.
  - assert (m !! n = None) as ->; [|done].
    apply eq_None_not_Some. intros [data (k & i & Hk & Hn & _)%Hm]. by apply (Hno k i).
Qed.

(** ** Writing *)

(** The data fits: enough clusters are free or come back from the old
    contents, and a new file finds a slot in the directory. *)
Definition fits fs (m : gmap (list Z) (list Z)) (n data : list Z) : Prop :=
  (clusters_for fs (length data) <=
     size (free_set fs) + match m !! n with Some old => clusters_for fs (length old) | None => 0 end)%nat /\
  (m !! n = None -> exists k, 0 <= k < slots fs /\ slot_free (slot fs k)).

Lemma chain_data_length fs l :
  fat_wf fs -> (forall x, x ∈ l -> is_cluster fs x) -> length (chain_data fs l) = (512 * spc fs * length l)%nat.
Proof.
  intros Hwf. induction l as [|x l IH]; intros Hl; [cbn; lia|].
  rewrite chain_data_cons, length_app, cluster_data_length, IH; [cbn [length]; lia|set_solver|done|set_solver].
Qed.

Lemma clusters_for_chain fs i : fat_wf fs -> file_ok fs i -> (clusters_for fs (length (in_data i)) <= length (in_chain i))%nat.
Proof.
  intros Hwf [Hch _ _ Hp]. apply prefix_length in Hp. pose proof (wf_spc _ Hwf).
  rewrite chain_data_length in Hp by (done || by eapply chain_clusters).
  assert (clusters_for fs (length (in_data i)) < S (length (in_chain i)))%nat; [|lia].
  unfold clusters_for. apply Nat.Div0.div_lt_upper_bound || apply Nat.div_lt_upper_bound; unfold spc in *; nia.
Qed.

Lemma update_dirent_spec fs k n c len :
  fat_wf fs -> 0 <= k < slots fs -> ent_name (slot fs k) = n -> name_ok n -> 0 <= c < 65536 -> 0 <= len < 4294967296 ->
  exists ent d, update_dirent (dir_sec fs k) (k mod 16) c len fs = (0, with_dev d fs) /\ dir_stored fs k ent d /\ ent_is ent n c len.
Proof.
  intros Hwf Hk En (Ln & Un & N0 & N1) Hc Hl. destruct (dir_sec_range fs k Hwf Hk) as [Hr _].
  destruct (rd_sector_wf (dev fs) (dir_sec fs k) (wf_dev _ Hwf) Hr) as [L U].
  destruct (store_slot fs k _ Hwf Hk (ent_store_same (k mod 16) c len _)) as (d & Ew & Hd).
  eexists _, d. split; [|split; [exact Hd|]].
  - unfold update_dirent. rewrite (st_bind_eq _ _ _ _ _ (read_sector_eq fs _ (wf_dev _ Hwf) Hr)). exact Ew.
  - apply ent_store_is; auto; [zlia|]. intros j Hj. rewrite <- byte_at_dirent by zlia.
    apply (ent_name_bytes _ n Ln); [apply dirent_length; [done|zlia]|exact En|done].
Qed.

(** Storing the entry of a file whose data is in place. *)
Lemma commit fs m T k i ent d :
  fat_wf fs -> mirrored fs -> data_ok fs (delete k T) -> dir_ok fs T -> files_of T m ->
  file_ok fs i -> fresh_for (delete k T) (in_chain i) -> 0 <= k < slots fs -> dir_stored fs k ent d ->
  ent_is ent (in_name i) (in_first i) (lenZ (in_data i)) ->
  (forall k' i', T !! k' = Some i' -> in_name i' = in_name i <-> k' = k) ->
  (forall j, 0 <= j < k -> byte_at (slot fs j) 0 <> 0) -> volume (with_dev d fs) (<[in_name i := in_data i]> m).
Proof.
  intros Hwf Hm Hd Hdir Hf Hi Hfr Hk Hs He Hu Hb.
  destruct (dir_stored_frame fs k ent d Hwf Hs) as (Hwf' & Hm' & _).
  split; [done|]. split; [auto|]. exists (<[k := i]> T). split; [|split].
  - eapply data_dir_stored; [done..|]. by apply data_insert.
  - eapply dir_insert; eauto. intros k' i' Hk'. by apply (Hu k' i').
  - by apply files_insert.
Qed.

(** The slots before a file are not the end mark. *)
Lemma before_file fs T k i : dir_ok fs T -> T !! k = Some i -> forall j, 0 <= j < k -> byte_at (slot fs j) 0 <> 0.
Proof.
  intros [] Hk j Hj E. destruct (di_file k i Hk) as [Hr [Hf _]]. apply (slot_file_used _ Hf). left.
  apply (di_end j k); [lia|lia|done].
Qed.

(** Writing over a file. *)
Lemma overwrite_file fs m T name n k i data :
  fat_wf fs -> mirrored fs -> data_ok fs T -> dir_ok fs T -> files_of T m ->
  filename_to_fat name = Some n -> name_ok n -> T !! k = Some i -> in_name i = n ->
  find_dirent_val name fs = (Some (slot fs k, dir_sec fs k, k mod 16), fs) ->
  Forall is_u8 data -> lenZ data < 4294967296 ->
  (clusters_for fs (length data) <= size (free_set fs) + length (in_chain i))%nat ->
  exists fs', fat_write_file name data fs = (Some 0, fs') /\ volume fs' (<[n := data]> m).
Proof.
  intros Hwf Hmir Hd Hdir Hm En Hok Hk Hn E Hu Hlen Hfit.
  unfold fat_write_file. rewrite (wf_mounted _ Hwf), En. cbn [negb]. rewrite (st_bind_eq _ _ _ _ _ E).
  destruct (di_file _ _ Hdir _ _ Hk) as (Hr & _ & Hnm & Ec & _). rewrite Ec. fold (release (in_first i)).
  destruct (release_spec fs T k i Hwf Hd Hk) as (d1 & E1 & S1 & D1 & F1). rewrite (st_bind_eq _ _ _ _ _ E1).
  fold (store_data data).
  destruct (store_data_spec (with_dev d1 fs) (delete k T) n data) as (c & l & d2 & E2 & S2 & D2 & F2 & Fr & Hc & Hroom);
    [apply S1|done|done|rewrite F1; change (clusters_for (with_dev d1 fs)) with (clusters_for fs); lia|].
  change (with_dev d2 (with_dev d1 fs)) with (with_dev d2 fs) in *.
  pose proof (data_step_trans _ _ _ S1 S2) as S3. rewrite (st_bind_eq _ _ _ _ _ E2). cbn [Z.eqb negb].
  destruct (update_dirent_spec (with_dev d2 fs) k n c (lenZ data)) as (ent & d & E3 & Hs & He);
    [apply S3|done|rewrite (data_step_slot fs d2) by done; congruence|done|done|unfold lenZ in *; lia|].
  change (dir_sec (with_dev d2 fs)) with (dir_sec fs) in E3. rewrite (st_bind_eq _ _ _ _ _ E3).
  exists (with_dev d fs). split; [done|].
  apply (commit (with_dev d2 fs) m T k (Inode n c l data) ent d); auto; try apply S3; auto.
  - by apply dir_frame.
  - intros k' i' Hk'. cbn [in_name]. split; [|intros ->; congruence]. intros Hn'.
    apply (di_names _ _ Hdir k' k i' i); [done|done|congruence].
  - intros j Hj. rewrite (data_step_slot fs d2) by (done || lia). by apply (before_file fs T k i).
Qed.

(** The directory is no part of the table. *)
Lemma free_set_stored fs k ent d : fat_wf fs -> dir_stored fs k ent d -> free_set (with_dev d fs) = free_set fs.
Proof.
  intros Hwf Hs. destruct (dir_stored_frame _ _ _ _ Hwf Hs) as (_ & _ & He & _).
  apply set_eq. intros x. rewrite !elem_of_free. split; intros [Hx Ex]; (split; [done|]); (etransitivity; [|exact Ex]); [symmetry|]; by apply He.
Qed.

(** Creating a file takes the clusters of its data and one slot. *)
Lemma create_file fs m T name n k data :
  fat_wf fs -> mirrored fs -> data_ok fs T -> dir_ok fs T -> files_of T m ->
  filename_to_fat name = Some n -> name_ok n -> (forall k i, T !! k = Some i -> in_name i <> n) ->
  find_dirent_val name fs = (None, fs) -> first_free fs k ->
  Forall is_u8 data -> lenZ data < 4294967296 -> (clusters_for fs (length data) <= size (free_set fs))%nat ->
  exists d, fat_write_file name data fs = (Some 0, with_dev d fs) /\ volume (with_dev d fs) (<[n := data]> m) /\
    (size (free_set fs) <= size (free_set (with_dev d fs)) + clusters_for fs (length data))%nat /\
    forall j, 0 <= j < slots fs -> j <> k -> slot (with_dev d fs) j = slot fs j.
Proof.
  intros Hwf Hmir Hd Hdir Hm En Hok Hno E (Hr & Hfk & Hbk) Hu Hlen Hfit.
  unfold fat_write_file. rewrite (wf_mounted _ Hwf), En. cbn [negb]. rewrite (st_bind_eq _ _ _ _ _ E).
  rewrite (st_bind_eq (st_ret tt) _ fs tt fs) by done. fold (store_data data).
  destruct (store_data_spec fs T n data Hwf Hd Hu Hfit) as (c & l & d2 & E2 & S2 & D2 & F2 & Fr & Hc & Hroom).
  rewrite (st_bind_eq _ _ _ _ _ E2). cbn [Z.eqb negb].
  assert (T !! k = None) as Ek.
  { destruct (T !! k) as [i|] eqn:Ek; [|done]. destruct (di_file _ _ Hdir _ _ Ek) as (_ & Hf & _).
    by destruct (slot_file_used _ Hf). }
  destruct (create_dirent_spec (with_dev d2 fs) k n c (lenZ data)) as (ent & d & E3 & Hs & He);
    [apply S2| |done|done|unfold lenZ in *; lia|].
  { split; [done|]. rewrite (data_step_slot fs d2) by done. split; [done|]. intros j Hj.
    rewrite (data_step_slot fs d2) by (done || lia). auto. }
  rewrite (st_bind_eq _ _ _ _ _ E3). exists d. split; [done|]. split; [|split].
  2:{ change (with_dev d fs) with (with_dev d (with_dev d2 fs)). by rewrite (free_set_stored _ k ent d (st_wf _ _ S2) Hs). }
  2:{ intros j Hj Hne. change (with_dev d fs) with (with_dev d (with_dev d2 fs)). rewrite (ds_slot _ _ _ _ Hs) by done.
      rewrite decide_False by done. by apply (data_step_slot fs d2). }
  apply (commit (with_dev d2 fs) m T k (Inode n c l data) ent d); auto; try apply S2; auto.
  - by rewrite delete_id.
  - by apply dir_frame.
  - by rewrite delete_id.
  - intros k' i' Hk'. split; [intros Hn'; by destruct (Hno k' i')|congruence].
  - intros j Hj E0. rewrite (data_step_slot fs d2) in E0 by (done || lia). apply (Hbk j Hj). by left.
Qed.

Lemma write_file_spec fs m name n data :
  volume fs m -> file_name name n -> Forall is_u8 data -> lenZ data < 4294967296 -> fits fs m n data ->
  exists fs', fat_write_file name data fs = (Some 0, fs') /\ volume fs' (<[n := data]> m).
Proof.
  intros (Hwf & Hmir & T & Hd & Hdir & Hm) Hname Hu Hlen [Hfit Hslot].
  pose proof (file_name_ok _ _ Hname) as Hok. destruct Hname as (_ & En & _).
  destruct (lookup_name fs T name n Hwf Hdir En) as [(k & i & Hk & Hn & E)|[E Hno]].
  - assert (m !! n = Some (in_data i)) as Em by (apply Hm; eauto). rewrite Em in Hfit.
    pose proof (clusters_for_chain fs i Hwf (do_file _ _ Hd _ _ Hk)). eapply overwrite_file; eauto. lia.
  - assert (m !! n = None) as Em.
    { apply eq_None_not_Some. intros [data' (k & i & Hk & Hn & _)%Hm]. by apply (Hno k i). }
    rewrite Em, Nat.add_0_r in Hfit. destruct (Hslot Em) as (k0 & Hk0 & Hf0).
    destruct (first_free_exists fs k0 Hk0 Hf0) as (k & Hff).
    destruct (create_file fs m T name n k data) as (d & Ew & Hv & _); eauto.
Qed.

(** C8: on a well-formed volume writing a file whose data fits succeeds, and
    leaves a well-formed volume whose files are those of before with this
    name bound to the data: the new contents replace the old ones and every
    other file keeps its contents. *)
Theorem fat_write_file_correct fs m name n data :
  volume fs m -> file_name name n -> Forall is_u8 data -> lenZ data < 4294967296 -> fits fs m n data ->
  exists fs', fat_write_file name data fs = (Some 0, fs') /\ volume fs' (<[n := data]> m).
Proof. apply write_file_spec. Qed.

(** ** Deleting *)

Lemma erase_slot fs k :
  fat_wf fs -> 0 <= k < slots fs ->
  exists ent d, (r <~ read_sector (dir_sec fs k);;
    if negb (fst r =? 0) then st_ret (-1) else write_sector (dir_sec fs k) (updZ (32 * (k mod 16)) 229 (snd r))) fs =
      (0, with_dev d fs) /\ dir_stored fs k ent d /\ byte_at ent 0 = 229.
Proof.
  intros Hwf Hk. destruct (dir_sec_range fs k Hwf Hk) as [Hr _].
  destruct (rd_sector_wf (dev fs) (dir_sec fs k) (wf_dev _ Hwf) Hr) as [L _].
  destruct (store_slot fs k (updZ (32 * (k mod 16)) 229 (rd_sector (dev fs) (dir_sec fs k))) Hwf Hk) as (d & E & Hs);
    [apply same_but_updZ; [lia|unfold is_u8; lia]|].
  eexists _, d. split; [|split; [exact Hs|]].
  - rewrite (st_bind_eq _ _ _ _ _ (read_sector_eq fs _ (wf_dev _ Hwf) Hr)). exact E.
  - rewrite byte_at_dirent by zlia. rewrite byte_at_updZ by (unfold lenZ; rewrite L; zlia). by rewrite decide_True by lia.
Qed.

(** C10: on a well-formed volume deleting a file removes it from the map and
    frees its clusters, and nothing else changes; deleting a name that is not
    there is reported and changes nothing. *)
Theorem fat_delete_file_correct fs m name n :
  volume fs m -> filename_to_fat name = Some n ->
  match m !! n with
  | Some data => exists fs', fat_delete_file name fs = (0, fs') /\ volume fs' (delete n m) /\
      (size (free_set fs) + clusters_for fs (length data) <= size (free_set fs'))%nat
  | None => fat_delete_file name fs = (-1, fs)
  end.
Proof.
  intros (Hwf & Hmir & T & Hd & Hdir & Hm) En. unfold fat_delete_file.
  destruct (lookup_name fs T name n Hwf Hdir En) as [(k & i & Hk & Hn & E)|[E Hno]].
  - assert (m !! n = Some (in_data i)) as -> by (apply Hm; eauto).
    destruct (di_file _ _ Hdir _ _ Hk) as (Hr & _ & Hnm & Ec & _).
    pose proof (clusters_for_chain fs i Hwf (do_file _ _ Hd _ _ Hk)).
    rewrite (st_bind_eq _ _ _ _ _ E), Ec. fold (release (in_first i)).
    destruct (release_spec fs T k i Hwf Hd Hk) as (d1 & E1 & S1 & D1 & F1). rewrite (st_bind_eq _ _ _ _ _ E1).
    destruct (erase_slot (with_dev d1 fs) k (st_wf _ _ S1) Hr) as (ent & d & E2 & Hs & H229).
    change (dir_sec (with_dev d1 fs)) with (dir_sec fs) in E2. rewrite E2.
    destruct (dir_stored_frame _ _ _ _ (st_wf _ _ S1) Hs) as (Hwf' & Hm' & He' & _).
    exists (with_dev d fs). split; [done|]. split.
    + split; [done|]. split; [by apply Hm', S1|]. exists (delete k T). split; [|split].
      * exact (data_dir_stored (with_dev d1 fs) (delete k T) k ent d (st_wf _ _ S1) Hs D1).
      * exact (dir_remove (with_dev d1 fs) T k i ent d (dir_frame _ _ _ Hwf S1 Hdir) Hk Hs H229).
      * rewrite <- Hn. apply files_delete; auto. intros k' i' Hk' Hn'. by apply (di_names _ _ Hdir k' k i' i).
    + change (with_dev d fs) with (with_dev d (with_dev d1 fs)). rewrite (free_set_stored _ k ent d (st_wf _ _ S1) Hs). lia.
  - rewrite (st_bind_eq _ _ _ _ _ E). assert (m !! n = None) as ->; [|done].
    apply eq_None_not_Some. intros [data (k & i & Hk & Hn & _)%Hm]. by apply (Hno k i).
Qed.

(** ** The empty volume *)

Lemma zero_slot fs k :
  (forall s, 0 <= s < root_sectors fs -> rd_sector (dev fs) (root_start_sector fs + s) = zero_sector) ->
  0 <= k < slots fs -> byte_at (slot fs k) 0 = 0.
Proof.
  intros Hz Hk. unfold slot, dir_sec. rewrite Hz by (unfold slots in Hk; zlia).
  rewrite byte_at_dirent by zlia. apply byte_at_zeros.
Qed.

Lemma empty_volume fs :
  fat_wf fs -> mirrored fs ->
  (forall s, 0 <= s < root_sectors fs -> rd_sector (dev fs) (root_start_sector fs + s) = zero_sector) -> volume fs ∅.
Proof.
  intros Hwf Hm Hz. split; [done|]. split; [done|]. exists ∅. split; [|split].
  - split; intros; by rewrite lookup_empty in *.
  - split; try (intros; by rewrite lookup_empty in *).
    + intros j k Hj Hk _. apply zero_slot; [done|lia].
    + intros k Hk _ Hf. apply (slot_file_used _ Hf). left. by apply zero_slot.
  - intros n data. rewrite lookup_empty. split; [done|]. intros (k & i & Hk & _). by rewrite lookup_empty in Hk.
Qed.

(** ** Formatting *)

(** The slots from [K] on have never been used. *)
Definition blank_from fs (K : Z) : Prop := forall j, K <= j < slots fs -> byte_at (slot fs j) 0 = 0.

(** A new file goes to the next unused slot at the latest. *)
Lemma write_next fs m name n data K :
  volume fs m -> file_name name n -> m !! n = None -> Forall is_u8 data -> lenZ data < 4294967296 ->
  0 <= K < slots fs -> blank_from fs K -> (clusters_for fs (length data) <= size (free_set fs))%nat ->
  exists d, fat_write_file name data fs = (Some 0, with_dev d fs) /\ volume (with_dev d fs) (<[n := data]> m) /\
    blank_from (with_dev d fs) (K + 1) /\ (size (free_set fs) <= size (free_set (with_dev d fs)) + clusters_for fs (length data))%nat.
Proof.
  intros (Hwf & Hmir & T & Hd & Hdir & Hm) Hname Hn Hu Hlen HK Hb Hfit.
  pose proof (file_name_ok _ _ Hname) as Hok. destruct Hname as (_ & En & _).
  destruct (lookup_name fs T name n Hwf Hdir En) as [(k & i & Hk & Hin & _)|[E Hno]].
  { assert (m !! n = Some (in_data i)) as Em by (apply Hm; eauto). congruence. }
  destruct (first_free_exists fs K HK) as (k & Hk); [left; apply Hb; lia|].
  destruct (create_file fs m T name n k data) as (d & Ew & Hv & Hr & Hsl); auto.
  exists d. split_and!; auto. intros j Hj. change (slots (with_dev d fs)) with (slots fs) in Hj.
  destruct Hk as (_ & _ & Hlow). assert (k <= K) as HkK.
  { destruct (Z.le_gt_cases k K); [done|]. destruct (Hlow K ltac:(lia)). left. apply Hb. lia. }
  rewrite Hsl by lia. apply Hb. lia.
Qed.

Lemma clusters_for_sectors fs n : fat_wf fs -> (clusters_for fs n <= (n + 511) / 512)%nat.
Proof.
  intros Hwf. pose proof (wf_spc _ Hwf). set (q := ((n + 511) / 512)%nat).
  assert (n <= 512 * q)%nat as Hq.
  { unfold q. pose proof (Nat.div_mod_eq (n + 511) 512). pose proof (Nat.mod_upper_bound (n + 511) 512). lia. }
  enough (clusters_for fs n < S q)%nat by lia. unfold clusters_for. apply Nat.Div0.div_lt_upper_bound. unfold spc in *. nia.
Qed.

(** A list of new files, with their stored names [ns]. *)
Lemma write_files_spec files : forall ns fs m K,
  Forall2 (fun f n => file_name f.1 n /\ Forall is_u8 f.2 /\ lenZ f.2 < 4294967296) files ns ->
  NoDup ns -> (forall n, n ∈ ns -> m !! n = None) -> volume fs m -> 0 <= K -> K + lenZ files <= slots fs -> blank_from fs K ->
  (sum_list_with (fun f => (length f.2 + 511) / 512) files <= size (free_set fs))%nat ->
  exists d, write_files files fs = Some (with_dev d fs) /\ volume (with_dev d fs) (list_to_map (zip ns (snd <$> files)) ∪ m).
Proof.
  induction files as [|[name data] files IH]; intros ns fs m K Hf Hnd Hnew Hv HK Hsl Hb Hroom.
  - inversion Hf; subst. exists (dev fs). rewrite with_dev_id. split; [done|]. cbn. by rewrite (left_id_L ∅ (∪)).
  - inversion Hf as [|? n ? ns' (Hn & Hu & Hl) Hf']; subst. apply NoDup_cons in Hnd as [Hnin Hnd]. cbn [fst snd] in Hn, Hu, Hl. cbn [sum_list_with snd] in Hroom.
    pose proof Hv as (Hwf & _). pose proof (clusters_for_sectors fs (length data) Hwf).
    unfold lenZ in Hsl. cbn [length] in Hsl.
    destruct (write_next fs m name n data K) as (d1 & E1 & Hv1 & Hb1 & Hr1); [done|done|by apply Hnew; left|done|done|lia|done|lia|].
    destruct (IH ns' (with_dev d1 fs) (<[n := data]> m) (K + 1)) as (d & E & Hv'); [done|done| |done|lia| |done|lia|].
    + intros x Hx. rewrite lookup_insert_ne by (intros ->; done). apply Hnew. by right.
    + change (slots (with_dev d1 fs)) with (slots fs). unfold lenZ. lia.
    + exists d. cbn [write_files]. rewrite E1. cbn [mbind option_bind]. split; [exact E|].
      change (list_to_map (zip (n :: ns') (snd <$> (name, data) :: files)))
        with (<[n := data]> (list_to_map (M := gmap (list Z) (list Z)) (zip ns' (snd <$> files)))).
      rewrite <- insert_union_l, insert_union_r; [exact Hv'|].
      apply not_elem_of_list_to_map_1. intros Hin. apply Hnin. apply list_elem_of_fmap in Hin as ([x y] & -> & Hin). by apply elem_of_zip_l in Hin.
Qed.

Lemma all_free fs : (forall c, is_cluster fs c -> entry fs 0 c = 0) -> size (free_set fs) = Z.to_nat (total_clusters fs).
Proof.
  intros He. assert (free_set fs = list_to_set (seqZ 2 (total_clusters fs))) as ->.
  - apply set_eq. intros x. rewrite elem_of_free, elem_of_list_to_set, elem_of_seqZ. unfold is_cluster in *. split; [lia|].
    intros Hx. split; [lia|apply He; lia].
  - by rewrite size_list_to_set, length_seqZ by apply NoDup_seqZ.
Qed.

(** The files of a new volume, by their stored names. *)
Definition new_files : gmap (list Z) (list Z) :=
  list_to_map [(str "HELLO   TXT", hello); (str "README  TXT", readme); (str "DEMO    SH ", demo_sh); (str "CONFIG  CFG", str "tiger")].

Lemma default_files_ok :
  Forall2 (fun f n => file_name f.1 n /\ Forall is_u8 f.2 /\ lenZ f.2 < 4294967296) default_files
    [str "HELLO   TXT"; str "README  TXT"; str "DEMO    SH "; str "CONFIG  CFG"].
Proof.
  assert (forall t, forallb (fun c => (1 <=? c) && (c <? 128)) t = true -> Forall is_char t /\ Forall is_u8 t) as Hc.
  { intros t Ht. rewrite <- Forall_and. apply Forall_forall. intros c Hin%list_elem_of_In. rewrite forallb_forall in Ht.
    specialize (Ht c Hin). unfold is_char, is_u8. lia. }
  repeat (constructor; [split; [split; [by apply Hc|split; [reflexivity|vm_compute; discriminate]]|split; [by apply Hc|vm_compute; reflexivity]]|]).
  constructor.
Qed.

End files.

(** ** Witnesses *)


Lemma volume_example_empty : volume volume_example ∅.
Proof.
  apply empty_volume; [exact volume_example_wf| |].
  - intros f k Hf Hk. reflexivity.
  - intros s Hs. reflexivity.
Qed.

(** "a.txt" and its contents. *)
Definition sample_name : list Z := [97; 46; 116; 120; 116].
Definition sample_stored : list Z := [65; 32; 32; 32; 32; 32; 32; 32; 84; 88; 84].
Definition sample_data : list Z := replicate 600 7.

Lemma sample_file_name : file_name sample_name sample_stored.
Proof. split; [|split; [reflexivity|vm_compute; discriminate]]. repeat (constructor; [unfold is_char; lia|]). constructor. Qed.

Lemma sample_data_u8 : Forall is_u8 sample_data.
Proof. apply Forall_replicate. unfold is_u8. lia. Qed.

Lemma sample_fits : fits volume_example ∅ sample_stored sample_data.
Proof.
  split; [vm_compute; lia|]. intros _. exists 0. split; [unfold slots; cbn; lia|]. left. reflexivity.
Qed.

(** A volume with one file. *)
Lemma sample_volume :
  exists fs, fat_write_file sample_name sample_data volume_example = (Some 0, fs) /\
    volume fs {[sample_stored := sample_data]}.
Proof.
  apply (write_file_spec volume_example ∅); [exact volume_example_empty|exact sample_file_name|exact sample_data_u8|reflexivity|exact sample_fits].
Qed.

Lemma fat_write_file_correct_witness :
  volume volume_example ∅ /\ file_name sample_name sample_stored /\ fits volume_example ∅ sample_stored sample_data /\
  exists fs', fat_write_file sample_name sample_data volume_example = (Some 0, fs') /\
    volume fs' (<[sample_stored := sample_data]> ∅).
Proof.
  split; [exact volume_example_empty|]. split; [exact sample_file_name|]. split; [exact sample_fits|].
  apply (fat_write_file_correct volume_example ∅ sample_name sample_stored sample_data).
  - exact volume_example_empty.
  - exact sample_file_name.
  - exact sample_data_u8.
  - reflexivity.
  - exact sample_fits.
Defined.

Lemma fat_read_file_correct_witness :
  exists fs, volume fs {[sample_stored := sample_data]} /\ filename_to_fat sample_name = Some sample_stored /\
    fat_read_file sample_name 1000 fs = ((0, 600, sample_data), fs).
Proof.
  destruct sample_volume as (fs & _ & Hv). exists fs. split; [exact Hv|]. split; [reflexivity|].
  rewrite (fat_read_file_correct fs _ sample_name sample_stored 1000 Hv eq_refl ltac:(lia)).
  rewrite lookup_singleton_eq. reflexivity.
Defined.

Lemma fat_delete_file_correct_witness :
  exists fs, volume fs {[sample_stored := sample_data]} /\ filename_to_fat sample_name = Some sample_stored /\
    exists fs', fat_delete_file sample_name fs = (0, fs') /\ volume fs' (delete sample_stored {[sample_stored := sample_data]}).
Proof.
  destruct sample_volume as (fs & _ & Hv). exists fs. split; [exact Hv|]. split; [reflexivity|].
  pose proof (fat_delete_file_correct fs _ sample_name sample_stored Hv eq_refl) as H.
  rewrite lookup_singleton_eq in H. destruct H as (fs' & E & Hv' & _). exists fs'. split; [exact E|exact Hv'].
Defined.
