(* ===== verification/Scheduler.v ===== *)
(** Scheduler: the preemptive round-robin scheduler of [kernel/scheduler.c].

    Task structures are records in a store indexed by their address, linked
    by the [next] and [prev] pointers of the circular list, exactly as the C
    code links them; [kernel_task] is the address of the static structure of
    task 0.  Task structures and stacks come from an [Allocator]; the initial
    register frame is written to the stack memory of the allocator.  [None]
    means that a walk around the list exceeded its bound. *)

From S2P Require Import Prelude Memory Common Pmm Heap HeapInv HeapSpec HeapRun.

Definition STACK_SIZE : Z := 8192.
Definition TASK_STRUCT_SIZE : Z := 64.
Definition MAX_TASKS : Z := 64.

Inductive task_state := READY | RUNNING | WAITING | BLOCKED | ZOMBIE.
#[export] Instance task_state_eq_dec : EqDecision task_state.
Proof. solve_decision. Defined.

Record task_t := Task {
  t_id : Z;
  t_name : list Z;
  t_state : task_state;
  t_cpu_ticks : Z;
  t_regs_ptr : Z;
  t_stack_base : Z;
  t_next : Z;
  t_prev : Z
}.

Definition set_state (s : task_state) (t : task_t) : task_t :=
  Task (t_id t) (t_name t) s (t_cpu_ticks t) (t_regs_ptr t) (t_stack_base t) (t_next t) (t_prev t).
Definition set_regs (r : Z) (t : task_t) : task_t :=
  Task (t_id t) (t_name t) (t_state t) (t_cpu_ticks t) r (t_stack_base t) (t_next t) (t_prev t).
Definition set_ticks (n : Z) (t : task_t) : task_t :=
  Task (t_id t) (t_name t) (t_state t) n (t_regs_ptr t) (t_stack_base t) (t_next t) (t_prev t).
Definition set_tnext (n : Z) (t : task_t) : task_t :=
  Task (t_id t) (t_name t) (t_state t) (t_cpu_ticks t) (t_regs_ptr t) (t_stack_base t) n (t_prev t).
Definition set_tprev (p : Z) (t : task_t) : task_t :=
  Task (t_id t) (t_name t) (t_state t) (t_cpu_ticks t) (t_regs_ptr t) (t_stack_base t) (t_next t) p.

Definition no_task : task_t := Task 0 [] READY 0 0 0 0 0.

(** The static variables of [scheduler.c]; pointers that are NULL are 0. *)
Record sched (A : Type) := Sched {
  tasks : gmap Z task_t;
  current_task : Z;
  task_head : Z;
  next_pid : Z;
  tick : Z;
  mem_of : A
}.
Arguments Sched {A}.
Arguments tasks {A}.
Arguments current_task {A}.
Arguments task_head {A}.
Arguments next_pid {A}.
Arguments tick {A}.
Arguments mem_of {A}.

Definition str_kernel : list Z := [107; 101; 114; 110; 101; 108].
Definition str_thread : list Z := [116; 104; 114; 101; 97; 100].

Section scheduler.
Context {A : Type} `{Allocator A}.
(** Addresses of the static task structure and of [task_exit]. *)
Context (kernel_task task_exit_addr : Z).
Implicit Types s : sched A.

Definition task_at s (p : Z) : task_t := default no_task (tasks s !! p).
Definition with_tasks (ts : gmap Z task_t) s : sched A :=
  Sched ts (current_task s) (task_head s) (next_pid s) (tick s) (mem_of s).
Definition with_alloc (a : A) s : sched A :=
  Sched (tasks s) (current_task s) (task_head s) (next_pid s) (tick s) a.
(** [p->field = v]. *)
Definition upd (p : Z) (f : task_t -> task_t) s : sched A :=
  with_tasks (<[p := f (task_at s p)]> (tasks s)) s.

Definition scheduler_init s : sched A :=
  Sched (<[kernel_task := Task 0 str_kernel RUNNING 0 0 0 kernel_task kernel_task]> (tasks s))
    kernel_task kernel_task 1 (tick s) (mem_of s).

(** A bound on the walks: one step per task structure. *)
Definition ring_fuel s : nat := size (tasks s).

(** [do { c++; curr = curr->next; } while (curr != task_head);] *)
Fixpoint count_tasks (fuel : nat) (curr c : Z) s : option Z :=
  let c := c + 1 in
  let curr := t_next (task_at s curr) in
  if curr =? task_head s then Some c
  else match fuel with O => None | S fuel => count_tasks fuel curr c s end.
Definition scheduler_get_task_list s : option (Z * Z) :=
  if task_head s =? 0 then Some (0, 0)
  else c ← count_tasks (ring_fuel s) (task_head s) 0 s; Some (task_head s, c).

(** The register frame that [task_create] pushes below [top], first pushed
    first: return address, eflags, cs, eip, error code, interrupt number,
    eax, ecx, edx, ebx, esp, ebp, esi, edi, ds, es, fs, gs. *)
Definition initial_frame (top entry_point : Z) : list Z :=
  let stack_esp := top - 40 in
  [task_exit_addr; 514; 8; entry_point; 0; 0; 0; 0; 0; 0; stack_esp; stack_esp; 0; 0; 16; 16; 16; 16].

(** [top--; *top = v;] for each value. *)
Fixpoint push_all (top : Z) (vs : list Z) (a : A) : Z * A :=
  match vs with
  | [] => (top, a)
  | v :: vs => push_all (top - 4) vs (al_st32 (top - 4) v a)
  end.

Definition task_name (name : option (list Z)) : list Z :=
  take 31 (match name with Some n => n | None => str_thread end).

Definition task_create (name : option (list Z)) (entry_point : Z) s : option (Z * sched A) :=
  if (entry_point =? 0) || (task_head s =? 0) then Some (0, s) else
  '(_, count) ← scheduler_get_task_list s;
  if MAX_TASKS <=? count then Some (0, s) else
  '(t, a) ← al_zalloc TASK_STRUCT_SIZE (mem_of s);
  let s := with_alloc a s in
  if t =? 0 then Some (0, s) else
  '(stack, a) ← al_zalloc STACK_SIZE (mem_of s);
  let s := with_alloc a s in
  if stack =? 0 then Some (0, with_alloc (al_free t (mem_of s)) s) else
  let top := ALIGN_DOWN (u32 (stack + STACK_SIZE)) 16 in
  let '(regs, a) := push_all top (initial_frame top entry_point) (mem_of s) in
  let head := task_head s in
  let last := t_prev (task_at s head) in
  let s := Sched (<[t := Task (next_pid s) (task_name name) READY 0 regs stack head last]> (tasks s))
             (current_task s) head (u32 (next_pid s + 1)) (tick s) a in
  let s := upd (t_prev (task_at s head)) (set_tnext t) s in
  let s := upd head (set_tprev t) s in
  Some (t, s).

(** [do { if (...) { ...; return 0; } t = t->next; } while (t != task_head);] *)
Fixpoint kill_walk (fuel : nat) (t pid : Z) s : option (Z * sched A) :=
  if (t_id (task_at s t) =? pid) && negb (bool_decide (t_state (task_at s t) = ZOMBIE)) then
    Some (0, upd t (set_state ZOMBIE) s)
  else
    let t := t_next (task_at s t) in
    if t =? task_head s then Some (-1, s)
    else match fuel with O => None | S fuel => kill_walk fuel t pid s end.
Definition task_kill (pid : Z) s : option (Z * sched A) :=
  if pid =? 0 then Some (-1, s)
  else if task_head s =? 0 then Some (-1, s)
  else kill_walk (ring_fuel s) (task_head s) pid s.

Definition scheduler_get_current s : Z := current_task s.

(** The body of the reaping loop for [curr]. *)
Definition reap (curr : Z) s : sched A :=
  if bool_decide (t_state (task_at s curr) = ZOMBIE) && negb (curr =? current_task s) then
    let s := upd (t_prev (task_at s curr)) (set_tnext (t_next (task_at s curr))) s in
    let s := upd (t_next (task_at s curr)) (set_tprev (t_prev (task_at s curr))) s in
    let stack := t_stack_base (task_at s curr) in
    let a := if stack =? 0 then mem_of s else al_free stack (mem_of s) in
    with_tasks (delete curr (tasks s)) (with_alloc (al_free curr a) s)
  else s.
(** [while (curr != task_head) { next = curr->next; ...; curr = next; }] *)
Fixpoint reap_all (fuel : nat) (curr : Z) s : option (sched A) :=
  if curr =? task_head s then Some s
  else match fuel with
  | O => None
  | S fuel => let next := t_next (task_at s curr) in reap_all fuel next (reap curr s)
  end.

Definition runnable (st : task_state) : bool := bool_decide (st = READY) || bool_decide (st = RUNNING).
(** The round-robin walk. *)
Fixpoint pick_next (fuel : nat) (p : Z) s : option Z :=
  if negb (p =? current_task s) && negb (runnable (t_state (task_at s p))) then
    match fuel with O => None | S fuel => pick_next fuel (t_next (task_at s p)) s end
  else Some p.

Definition switch_to (p : Z) s : sched A :=
  if p =? current_task s then s
  else
    let cur := current_task s in
    let s := if bool_decide (t_state (task_at s cur) = RUNNING) then upd cur (set_state READY) s else s in
    let s := Sched (tasks s) p (task_head s) (next_pid s) (tick s) (mem_of s) in
    upd p (set_state RUNNING) s.

Definition scheduler_schedule (r : Z) s : option (Z * sched A) :=
  if (current_task s =? 0) || (task_head s =? 0) then Some (r, s) else
  let s := upd (current_task s) (set_regs r) s in
  s ← reap_all (ring_fuel s) (t_next (task_at s (task_head s))) s;
  next_task ← pick_next (ring_fuel s) (t_next (task_at s (current_task s))) s;
  let next_task := if (next_task =? current_task s) &&
                      negb (runnable (t_state (task_at s (current_task s))))
                   then kernel_task else next_task in
  let s := switch_to next_task s in
  Some (t_regs_ptr (task_at s (current_task s)), s).

Definition scheduler_tick (r : Z) s : option (Z * sched A) :=
  let s := Sched (tasks s) (current_task s) (task_head s) (next_pid s) (u32 (tick s + 1)) (mem_of s) in
  let s := if current_task s =? 0 then s
           else upd (current_task s) (fun t => set_ticks (u32 (t_cpu_ticks t + 1)) t) s in
  scheduler_schedule r s.

(** [task_exit]: [None] in the first component is the idle loop of task 0;
    [r] is the register frame that the yield interrupt pushes. *)
Definition task_exit (r : Z) s : option (option Z * sched A) :=
  if (current_task s =? 0) || (t_id (task_at s (current_task s)) =? 0) then Some (None, s)
  else '(regs, s) ← scheduler_schedule r (upd (current_task s) (set_state ZOMBIE) s); Some (Some regs, s).
End scheduler.
