(* ===== verification/SchedSpec.v ===== *)
(** SchedSpec: correctness of the scheduler.

    The circular doubly-linked task list always represents a duplicate-free
    list of tasks that starts with task 0; creating, killing, reaping and
    switching tasks are operations on that list, and the memory of every task
    that is in the list, and of no other, is owned by the scheduler. *)

From S2P Require Import Prelude Memory Common Pmm Heap HeapInv HeapSpec HeapRun Scheduler.

(** * Linked segments *)

(** [linked m prv l nxt]: the tasks [l] are linked in this order; the first
    one links back to [prv] and the last one forward to [nxt]. *)
Fixpoint linked (m : gmap Z task_t) (prv : Z) (l : list Z) (nxt : Z) : Prop :=
  match l with
  | [] => True
  | a :: l' => (exists t, m !! a = Some t /\ t_prev t = prv /\ t_next t = hd nxt l') /\ linked m a l' nxt
  end.

Lemma linked_app m prv l1 l2 nxt :
  linked m prv (l1 ++ l2) nxt <-> linked m prv l1 (hd nxt l2) /\ linked m (List.last l1 prv) l2 nxt.
Proof.
  revert prv. induction l1 as [|a l1 IH]; intros prv; [simpl; tauto|]. cbn [app linked].
  rewrite IH. destruct l1 as [|b l1]; [simpl; tauto|].
  assert (forall x, List.last (a :: b :: l1) x = List.last (b :: l1) a) as E.
  { intros x. cbn [List.last]. clear. revert b. induction l1 as [|c l1 IH]; intros b; [done|]. cbn [List.last]. by rewrite IH. }
  rewrite E. cbn [app hd]. tauto.
Qed.

Lemma last_cons_ne (a x : Z) l : List.last (a :: l) x = List.last l a.
Proof. revert a x. induction l as [|b l IH]; intros a x; [done|]. cbn [List.last] in *. by rewrite IH. Qed.

Lemma last_app_cons (l1 l2 : list Z) a x : List.last (l1 ++ a :: l2) x = List.last l2 a.
Proof.
  revert x. induction l1 as [|b l1 IH]; intros x; [apply last_cons_ne|].
  change ((b :: l1) ++ a :: l2) with (b :: (l1 ++ a :: l2)). rewrite last_cons_ne. apply IH.
Qed.

Lemma last_in (l : list Z) x : List.last l x ∈ x :: l.
Proof.
  revert x. induction l as [|a l IH]; intros x; [set_solver|]. rewrite last_cons_ne. specialize (IH a). set_solver.
Qed.

(** Segments only depend on the links of their tasks. *)
Lemma linked_ext m m' prv l nxt :
  (forall a t, a ∈ l -> m !! a = Some t ->
     exists t', m' !! a = Some t' /\ t_prev t' = t_prev t /\ t_next t' = t_next t) ->
  linked m prv l nxt -> linked m' prv l nxt.
Proof.
  revert prv. induction l as [|a l IH]; intros prv Hm; [done|]. intros [(t & Ht & Hp & Hn) Hl]. split.
  - destruct (Hm a t) as (t' & ? & ? & ?); [set_solver|done|]. exists t'. split_and!; congruence.
  - apply IH; [|done]. intros b u Hb Hu. apply Hm; [set_solver|done].
Qed.

Lemma linked_insert_other m a t prv l nxt :
  a ∉ l -> linked m prv l nxt -> linked (<[a := t]> m) prv l nxt.
Proof.
  intros Ha. apply linked_ext. intros b u Hb Hu. exists u. rewrite lookup_insert_ne by set_solver. done.
Qed.

Lemma linked_delete_other m a prv l nxt : a ∉ l -> linked m prv l nxt -> linked (delete a m) prv l nxt.
Proof.
  intros Ha. apply linked_ext. intros b u Hb Hu. exists u. rewrite lookup_delete_ne by set_solver. done.
Qed.

(** Setting the back link of the first task, or the forward link of the last. *)
Lemma linked_set_prev m prv a l nxt t p :
  a ∉ l -> m !! a = Some t -> linked m prv (a :: l) nxt ->
  linked (<[a := set_tprev p t]> m) p (a :: l) nxt.
Proof.
  intros Ha Ht [(t' & Ht' & Hp & Hn) Hl]. rewrite Ht in Ht'. injection Ht' as <-. split.
  - exists (set_tprev p t). by rewrite lookup_insert_eq.
  - by apply linked_insert_other.
Qed.

Lemma linked_set_next m prv l a nxt t n :
  a ∉ l -> m !! a = Some t -> linked m prv (l ++ [a]) nxt ->
  linked (<[a := set_tnext n t]> m) prv (l ++ [a]) n.
Proof.
  intros Ha Ht Hl. apply linked_app in Hl as [H1 [(t' & Ht' & Hp & Hn) _]]. rewrite Ht in Ht'. injection Ht' as <-.
  apply linked_app. split; [by apply linked_insert_other|]. split; [|done].
  exists (set_tnext n t). by rewrite lookup_insert_eq.
Qed.

(** * The ring *)

(** The circular list through the head [k] and the tasks [l]. *)
Definition ring (m : gmap Z task_t) (k : Z) (l : list Z) : Prop := linked m (List.last l k) (k :: l) k.

Lemma ring_lookup m k l a : ring m k l -> a ∈ k :: l -> is_Some (m !! a).
Proof.
  unfold ring. generalize (List.last l k) as prv. generalize (k :: l) as l'. generalize k at 1 as nxt.
  intros nxt l'. induction l' as [|b l' IH]; intros prv Hl Ha; [set_solver|].
  destruct Hl as [(t & Ht & _) Hl]. apply elem_of_cons in Ha as [->|Ha]; [by exists t|by eapply IH].
Qed.

(** Successor and predecessor of a task in the ring. *)
Lemma ring_links m k l1 x l2 t :
  ring m k (l1 ++ x :: l2) -> m !! x = Some t ->
  t_next t = hd k l2 /\ t_prev t = List.last l1 k.
Proof.
  unfold ring. intros Hr Ht. change (k :: l1 ++ x :: l2) with ((k :: l1) ++ x :: l2) in Hr.
  apply linked_app in Hr as [_ [(t' & Ht' & Hp & Hn) _]]. rewrite Ht in Ht'. injection Ht' as <-.
  by rewrite last_cons_ne in Hp.
Qed.

Lemma ring_head m k l t : ring m k l -> m !! k = Some t -> t_next t = hd k l /\ t_prev t = List.last l k.
Proof. intros [(t' & Ht' & ? & ?) _] Ht. rewrite Ht in Ht'. injection Ht' as <-. done. Qed.

(** Inserting a new task at the tail, with the four stores of [task_create]. *)
Lemma ring_insert m k l a t :
  ring m k l -> NoDup (k :: l) -> a ∉ k :: l -> t_next t = k -> t_prev t = List.last l k ->
  forall tl m1, m1 = <[a := t]> m -> m1 !! List.last l k = Some tl ->
  forall tk m2, m2 = <[List.last l k := set_tnext a tl]> m1 -> m2 !! k = Some tk ->
  ring (<[k := set_tprev a tk]> m2) k (l ++ [a]).
Proof.
  intros Hr Hnd Ha Hn Hp tl m1 -> Htl tk m2 -> Htk.
  unfold ring. rewrite last_app_cons. cbn [List.last].
  assert (linked (<[a := t]> m) (List.last l k) (k :: l) k) as H1 by by apply linked_insert_other.
  assert (linked (<[List.last l k := set_tnext a tl]> (<[a := t]> m)) (List.last l k) (k :: l) a) as H2.
  { destruct l as [|b l _] using rev_ind.
    - cbn [List.last] in *. exact (linked_set_next _ _ [] k k tl a ltac:(set_solver) Htl H1).
    - rewrite last_app_cons in *. cbn [List.last] in *. rewrite app_comm_cons in *.
      apply (linked_set_next _ _ (k :: l) b k tl a); auto.
      apply NoDup_app in Hnd as (_ & Hd & _). intros Hin. apply (Hd b Hin). set_solver. }
  assert (List.last l k <> a) as Hne by (pose proof (last_in l k); set_solver).
  apply NoDup_cons in Hnd as [Hk Hnd].
  assert (linked (<[k := set_tprev a tk]> (<[List.last l k := set_tnext a tl]> (<[a := t]> m))) a (k :: l) a) as H3
    by by apply linked_set_prev with (prv := List.last l k).
  rewrite app_comm_cons. apply linked_app. split; [exact H3|]. rewrite last_cons_ne. split; [|done].
  exists t. rewrite lookup_insert_ne by set_solver. rewrite lookup_insert_ne by done. by rewrite lookup_insert_eq.
Qed.

(** Unlinking a task, with the two stores of the reaping loop. *)
Lemma ring_remove m k l1 x l2 tp m1 tn :
  ring m k (l1 ++ x :: l2) -> NoDup (k :: l1 ++ x :: l2) ->
  m !! List.last l1 k = Some tp -> m1 = <[List.last l1 k := set_tnext (hd k l2) tp]> m ->
  m1 !! hd k l2 = Some tn ->
  ring (delete x (<[hd k l2 := set_tprev (List.last l1 k) tn]> m1)) k (l1 ++ l2).
Proof.
  intros Hr Hnd Htp -> Htn. unfold ring in *. rewrite last_app_cons in Hr. rewrite app_comm_cons in Hr, Hnd.
  apply linked_app in Hr as [H1 [_ H2]].
  apply NoDup_app in Hnd as (Hnd1 & Hd & [Hx Hnd2]%NoDup_cons).
  assert (x ∉ k :: l1) as Hx1 by (intros Hin; apply (Hd x Hin); set_solver).
  pose proof (last_in l1 k) as Hlast.
  set (p := List.last l1 k) in *. set (n := hd k l2) in *.
  (* the tasks up to [p] now lead to [n] *)
  assert (linked (<[p := set_tnext n tp]> m) (List.last l2 x) (k :: l1) n) as H1'.
  { unfold p in *. destruct l1 as [|b l1 _] using rev_ind.
    - cbn [List.last] in *. exact (linked_set_next _ _ [] k _ tp n ltac:(set_solver) Htp H1).
    - rewrite last_app_cons in *. cbn [List.last] in *. rewrite app_comm_cons in *.
      apply (linked_set_next _ _ (k :: l1) b x tp n); auto.
      apply NoDup_app in Hnd1 as (_ & Hd1 & _). intros Hin. apply (Hd1 b Hin). set_solver. }
  destruct l2 as [|y l2].
  - (* [x] was the last task: the head links back to [p] *)
    cbn [hd List.last] in *. rewrite app_nil_r. apply linked_delete_other; [done|].
    apply NoDup_cons in Hnd1 as [Hk _]. by apply linked_set_prev with (prv := x).
  - cbn [hd] in *. assert (p <> y) as Hpy by (intros <-; apply (Hd p Hlast); set_solver).
    assert (y ∉ k :: l1) as Hy1 by (intros Hin; apply (Hd y Hin); set_solver).
    rewrite last_app_cons, last_cons_ne in *.
    apply linked_delete_other; [intros Hin; rewrite app_comm_cons in Hin; set_solver|].
    rewrite app_comm_cons. apply linked_app. split.
    + by apply linked_insert_other.
    + rewrite last_cons_ne. apply NoDup_cons in Hnd2 as [Hy2 _].
      apply linked_set_prev with (prv := x); [done|done|]. apply linked_insert_other; [|done].
      intros Hin. apply (Hd p Hlast). set_solver.
Qed.

(** Membership around a removed element. *)
Lemma mid_sub {B} (q x k : B) l1 l2 : q ∈ k :: l1 ++ l2 -> q ∈ k :: l1 ++ x :: l2.
Proof. rewrite !elem_of_cons, !elem_of_app, elem_of_cons. tauto. Qed.
Lemma mid_rest {B} (q x k : B) l1 l2 : q ∈ k :: l1 ++ x :: l2 -> q <> x -> q ∈ k :: l1 ++ l2.
Proof. rewrite !elem_of_cons, !elem_of_app, elem_of_cons. tauto. Qed.
Lemma mid_nodup {B} (x k : B) l1 l2 :
  NoDup (k :: l1 ++ x :: l2) -> NoDup (k :: l1 ++ l2) /\ x ∉ k :: l1 ++ l2.
Proof.
  rewrite !app_comm_cons. intros (H1 & H2 & [H3 H4]%NoDup_cons)%NoDup_app. split; [apply NoDup_app; split_and!; auto|].
  - intros q Hq Hq2. apply (H2 q Hq). apply elem_of_cons. by right.
  - rewrite elem_of_app. intros [Hq|Hq]; [|done]. apply (H2 x Hq), elem_of_cons. by left.
Qed.

(** * The invariant *)

(** The regions of the tasks [l]: structure and stack of each. *)
Inductive owns (m : gmap Z task_t) : list Z -> list (Z * Z) -> Prop :=
| owns_nil : owns m [] []
| owns_cons p l t k1 k2 rs :
    m !! p = Some t -> 0 < t_stack_base t -> TASK_STRUCT_SIZE <= k1 -> STACK_SIZE <= k2 -> owns m l rs ->
    owns m (p :: l) ((p, k1) :: (t_stack_base t, k2) :: rs).

Lemma owns_ext m m' l rs :
  (forall p t, p ∈ l -> m !! p = Some t -> exists t', m' !! p = Some t' /\ t_stack_base t' = t_stack_base t) ->
  owns m l rs -> owns m' l rs.
Proof.
  intros Hm Ho. induction Ho as [|p l t k1 k2 rs Ht Hs H1 H2 Ho IH]; [constructor|].
  destruct (Hm p t) as (t' & Ht' & E); [set_solver|done|]. rewrite <- E. constructor; auto; [by rewrite E|].
  apply IH. intros q u Hq Hu. apply Hm; [set_solver|done].
Qed.

Lemma owns_remove m l1 x l2 rs t :
  owns m (l1 ++ x :: l2) rs -> m !! x = Some t ->
  exists k1 k2 rs', rs ≡ₚ (t_stack_base t, k2) :: (x, k1) :: rs' /\ owns m (l1 ++ l2) rs' /\ 0 < t_stack_base t.
Proof.
  intros Ho Ht. remember (l1 ++ x :: l2) as l eqn:El. revert l1 El.
  induction Ho as [|p l u k1 k2 rs Hu Hs H1 H2 Ho IH]; intros l1 El; [by destruct l1|].
  destruct l1 as [|q l1]; simpl in El; injection El as -> ->.
  - rewrite Ht in Hu. injection Hu as <-. exists k1, k2, rs. split_and!; auto. by rewrite Permutation_swap.
  - destruct (IH l1 eq_refl) as (j1 & j2 & rs' & Hp & Ho' & ?). exists j1, j2, ((q, k1) :: (t_stack_base u, k2) :: rs').
    split_and!; auto; [|by constructor]. rewrite Hp.
    change ((q, k1) :: (t_stack_base u, k2) :: (t_stack_base t, j2) :: (x, j1) :: rs')
      with ([(q, k1); (t_stack_base u, k2)] ++ [(t_stack_base t, j2); (x, j1)] ++ rs').
    change ((t_stack_base t, j2) :: (x, j1) :: (q, k1) :: (t_stack_base u, k2) :: rs')
      with ([(t_stack_base t, j2); (x, j1)] ++ [(q, k1); (t_stack_base u, k2)] ++ rs').
    rewrite !app_assoc. f_equiv. apply Permutation_app_comm.
Qed.

Lemma owns_snoc m l rs p t k1 k2 :
  owns m l rs -> m !! p = Some t -> 0 < t_stack_base t -> TASK_STRUCT_SIZE <= k1 -> STACK_SIZE <= k2 ->
  exists rs', owns m (l ++ [p]) rs' /\ rs' ≡ₚ (t_stack_base t, k2) :: (p, k1) :: rs.
Proof.
  intros Ho Ht Hs H1 H2. induction Ho as [|q l u j1 j2 rs Hu Hus Hj1 Hj2 Ho IH].
  - exists [(p, k1); (t_stack_base t, k2)]. split; [|apply Permutation_swap]. by repeat constructor.
  - destruct IH as (rs' & Ho' & Hp). exists ((q, j1) :: (t_stack_base u, j2) :: rs'). split; [by constructor|].
    rewrite Hp. change ((q, j1) :: (t_stack_base u, j2) :: (t_stack_base t, k2) :: (p, k1) :: rs)
      with ([(q, j1); (t_stack_base u, j2)] ++ [(t_stack_base t, k2); (p, k1)] ++ rs).
    change ((t_stack_base t, k2) :: (p, k1) :: (q, j1) :: (t_stack_base u, j2) :: rs)
      with ([(t_stack_base t, k2); (p, k1)] ++ [(q, j1); (t_stack_base u, j2)] ++ rs).
    rewrite !app_assoc. f_equiv. apply Permutation_app_comm.
Qed.

(** The task pointers are start addresses of owned regions. *)
Lemma owns_in m l rs p : owns m l rs -> p ∈ l -> exists k, (p, k) ∈ rs /\ TASK_STRUCT_SIZE <= k.
Proof.
  intros Ho. induction Ho as [|q l u k1 k2 rs Hu Hs H1 H2 Ho IH]; [set_solver|].
  intros Hp. apply elem_of_cons in Hp as [->|Hp]; [exists k1; split; [set_solver|done]|].
  destruct (IH Hp) as (k & ? & ?). exists k. split; [set_solver|done].
Qed.

Section spec.
Context {A : Type} {AL : Allocator A}.
Context (kernel_task task_exit_addr : Z).
Implicit Types s : sched A.

(** [sched_ok s l rs0]: the task list is [kernel_task :: l], and the regions
    the allocator has handed out are those of [l] and [rs0]. *)
Record sched_ok s (l : list Z) (rs0 : list (Z * Z)) : Prop := {
  so_head : task_head s = kernel_task;
  so_k : kernel_task <> 0;
  so_nd : NoDup (kernel_task :: l);
  so_dom : forall p, is_Some (tasks s !! p) <-> p ∈ kernel_task :: l;
  so_ring : ring (tasks s) kernel_task l;
  so_cur : current_task s ∈ kernel_task :: l;
  so_nz : Forall (fun p => p <> 0) l;
  so_mem : exists rs rs', owns (tasks s) l rs /\ rs' ≡ₚ rs ++ rs0 /\ al_repr (mem_of s) rs';
  so_req : al_request (mem_of s) TASK_STRUCT_SIZE /\ al_request (mem_of s) STACK_SIZE;
  so_len : lenZ l < MAX_TASKS
}.

Lemma ok_lookup s l rs0 p : sched_ok s l rs0 -> p ∈ kernel_task :: l -> tasks s !! p = Some (task_at s p).
Proof.
  intros Hok Hp. destruct (proj2 (so_dom _ _ _ Hok p) Hp) as [t Ht]. unfold task_at. by rewrite Ht.
Qed.

Lemma sched_fuel s l rs0 : sched_ok s l rs0 -> ring_fuel s = S (length l).
Proof.
  intros Hok. unfold ring_fuel. rewrite <- (size_dom (D := gset Z)).
  replace (dom (tasks s)) with (list_to_set (kernel_task :: l) : gset Z).
  - rewrite size_list_to_set by apply Hok. done.
  - apply set_eq. intros p. rewrite elem_of_list_to_set, elem_of_dom. symmetry. apply (so_dom _ _ _ Hok).
Qed.

Lemma ok_nz s l rs0 p : sched_ok s l rs0 -> p ∈ kernel_task :: l -> p <> 0.
Proof.
  intros Hok Hp. apply elem_of_cons in Hp as [->|Hp]; [apply Hok|].
  exact (proj1 (Forall_forall _ _) (so_nz _ _ _ Hok) p Hp).
Qed.

(** ** Walking along the forward links *)

(** [nexts s p l q]: from [p] the links visit [l] and arrive at [q]. *)
Fixpoint nexts s (p : Z) (l : list Z) (q : Z) : Prop :=
  match l with
  | [] => p = q
  | a :: l => p = a /\ nexts s (t_next (task_at s a)) l q
  end.

Lemma nexts_app s p l1 l2 q : nexts s p (l1 ++ l2) q <-> exists r, nexts s p l1 r /\ nexts s r l2 q.
Proof.
  revert p. induction l1 as [|a l1 IH]; intros p; simpl.
  - split; [eauto|]. by intros (? & <- & ?).
  - rewrite IH. split.
    + intros (-> & r & ? & ?). eauto.
    + intros (r & [-> ?] & ?). eauto.
Qed.

Lemma linked_nexts s prv l nxt : linked (tasks s) prv l nxt -> nexts s (hd nxt l) l nxt.
Proof.
  revert prv. induction l as [|a l IH]; intros prv; [done|]. intros [(t & Ht & _ & Hn) Hl]. split; [done|].
  unfold task_at. rewrite Ht. simpl. rewrite Hn. by eapply IH.
Qed.

Lemma ok_nexts s l rs0 : sched_ok s l rs0 -> nexts s kernel_task (kernel_task :: l) kernel_task.
Proof. intros Hok. exact (linked_nexts s _ (kernel_task :: l) kernel_task (so_ring _ _ _ Hok)). Qed.

(** From the successor of a task once around the ring back to it. *)
Lemma ok_around s l rs0 l1 c l2 :
  sched_ok s l rs0 -> kernel_task :: l = l1 ++ c :: l2 ->
  nexts s (t_next (task_at s c)) (l2 ++ l1) c.
Proof.
  intros Hok E. pose proof (ok_nexts s l rs0 Hok) as Hn. rewrite E in Hn.
  apply nexts_app in Hn as (r & H1 & [-> H2]). apply nexts_app. eauto.
Qed.

Lemma count_tasks_walk s c fuel p l :
  nexts s (t_next (task_at s p)) l (task_head s) -> task_head s ∉ l -> (length l <= fuel)%nat ->
  count_tasks fuel p c s = Some (c + 1 + lenZ l).
Proof.
  revert c p fuel. induction l as [|a l IH]; intros c p fuel Hn Hh Hf; unfold lenZ in *; simpl in *.
  - destruct fuel; simpl; rewrite Hn, Z.eqb_refl; f_equal; lia.
  - destruct Hn as [Ha Hn]. destruct fuel as [|fuel]; [lia|]. cbn [count_tasks]. rewrite Ha.
    destruct (Z.eqb_spec a (task_head s)); [set_solver|].
    apply not_elem_of_cons in Hh as [_ Hh]. rewrite (IH (c + 1) a fuel Hn Hh ltac:(lia)). f_equal. lia.
Qed.

Lemma get_task_list_spec s l rs0 :
  sched_ok s l rs0 -> scheduler_get_task_list s = Some (kernel_task, 1 + lenZ l).
Proof.
  intros Hok. unfold scheduler_get_task_list. rewrite (so_head _ _ _ Hok).
  destruct (Z.eqb_spec kernel_task 0) as [E|_]; [by destruct (so_k _ _ _ Hok)|].
  pose proof (ok_nexts s l rs0 Hok) as [_ Hn]. pose proof (so_nd _ _ _ Hok) as [Hk _]%NoDup_cons.
  rewrite (count_tasks_walk s 0 _ _ l); rewrite ?(so_head _ _ _ Hok); auto.
  rewrite (sched_fuel s l rs0 Hok). lia.
Qed.

Definition first_such (f : Z -> bool) (l : list Z) (d : Z) : Z := hd d (filter (fun p => f p = true) l).

Lemma pick_next_walk s fuel p l :
  nexts s p l (current_task s) -> current_task s ∉ l -> (length l <= fuel)%nat ->
  pick_next fuel p s = Some (first_such (fun p => runnable (t_state (task_at s p))) l (current_task s)).
Proof.
  unfold first_such. revert p fuel. induction l as [|a l IH]; intros p fuel Hn Hc Hf; simpl in *.
  - subst p. destruct fuel; simpl; by rewrite Z.eqb_refl.
  - destruct Hn as [-> Hn]. destruct fuel as [|fuel]; simpl in Hf; [lia|]. cbn [pick_next].
    destruct (Z.eqb_spec a (current_task s)); [set_solver|]. cbn [negb andb].
    destruct (runnable (t_state (task_at s a))) eqn:E; cbn [negb].
    + by rewrite filter_cons_True.
    + rewrite filter_cons_False by by rewrite E. apply IH; [done|set_solver|lia].
Qed.
(** ** Updating a task without touching its links *)

Definition keeps_links (f : task_t -> task_t) : Prop :=
  forall t, t_next (f t) = t_next t /\ t_prev (f t) = t_prev t /\ t_stack_base (f t) = t_stack_base t.

Lemma task_at_upd s p f q : task_at (upd p f s) q = if decide (q = p) then f (task_at s p) else task_at s q.
Proof.
  unfold task_at at 1, upd. cbn [tasks with_tasks]. case_decide as Hq.
  - subst. by rewrite lookup_insert_eq.
  - by rewrite lookup_insert_ne by done.
Qed.

Lemma ok_upd s l rs0 p f :
  sched_ok s l rs0 -> p ∈ kernel_task :: l -> keeps_links f -> sched_ok (upd p f s) l rs0.
Proof.
  intros Hok Hp Hf. pose proof (ok_lookup s l rs0 p Hok Hp) as Hl. destruct (Hf (task_at s p)) as (Hn & Hv & Hs).
  assert (forall q t, tasks s !! q = Some t -> exists t', tasks (upd p f s) !! q = Some t' /\
    t_prev t' = t_prev t /\ t_next t' = t_next t /\ t_stack_base t' = t_stack_base t) as Hq.
  { intros q t Ht. unfold upd. cbn [tasks with_tasks]. destruct (decide (q = p)) as [->|Hne].
    - rewrite Hl in Ht. injection Ht as <-. rewrite lookup_insert_eq. eauto.
    - rewrite lookup_insert_ne by done. eauto. }
  destruct Hok as [? ? ? Hdom Hring ? ? (rs & rs' & Ho & Hperm & Hr) ? ?]. split; auto.
  - intros q. unfold upd. cbn [tasks with_tasks]. rewrite <- Hdom. destruct (decide (q = p)) as [->|Hne].
    + rewrite lookup_insert_eq, Hl. split; intros _; by eexists.
    + by rewrite lookup_insert_ne.
  - eapply linked_ext; [|exact Hring]. intros q t _ Ht. destruct (Hq q t Ht) as (t' & ? & ? & ? & ?). eauto.
  - exists rs, rs'. split_and!; auto. eapply owns_ext; [|exact Ho]. intros q t _ Ht.
    destruct (Hq q t Ht) as (t' & ? & ? & ? & ?). eauto.
Qed.

(** ** Reaping *)

(** Everything of a task but its links. *)
Definition same_info (t t' : task_t) : Prop :=
  t_id t' = t_id t /\ t_name t' = t_name t /\ t_state t' = t_state t /\ t_cpu_ticks t' = t_cpu_ticks t /\
  t_regs_ptr t' = t_regs_ptr t /\ t_stack_base t' = t_stack_base t.

Lemma same_info_trans t1 t2 t3 : same_info t1 t2 -> same_info t2 t3 -> same_info t1 t3.
Proof. unfold same_info. naive_solver congruence. Qed.

Definition reapable s (p : Z) : bool :=
  bool_decide (t_state (task_at s p) = ZOMBIE) && negb (p =? current_task s).

Lemma reap_spec s rs0 l1 x l2 :
  sched_ok s (l1 ++ x :: l2) rs0 ->
  if reapable s x then
    sched_ok (reap x s) (l1 ++ l2) rs0 /\ current_task (reap x s) = current_task s /\
    next_pid (reap x s) = next_pid s /\ tick (reap x s) = tick s /\
    forall q, q ∈ kernel_task :: l1 ++ l2 -> same_info (task_at s q) (task_at (reap x s) q)
  else reap x s = s.
Proof.
  intros Hok. unfold reapable. destruct (bool_decide _ && negb _) eqn:Ez; unfold reap; rewrite Ez; [|done].
  apply andb_true_iff in Ez as [Hz Hc]. apply negb_true_iff, Z.eqb_neq in Hc.
  pose proof (so_nd _ _ _ Hok) as Hnd. pose proof (so_ring _ _ _ Hok) as Hring.
  assert (x ∈ kernel_task :: l1 ++ x :: l2) as Hxin
    by (rewrite elem_of_cons, elem_of_app, elem_of_cons; tauto).
  destruct (mid_nodup _ _ _ _ Hnd) as [Hnd' Hxni].
  pose proof (ok_lookup s _ rs0 x Hok Hxin) as Hx.
  destruct (ring_links _ _ _ _ _ _ Hring Hx) as [Hn Hp].
  set (p := List.last l1 kernel_task) in *. set (n := hd kernel_task l2) in *.
  assert (p ∈ kernel_task :: l1) as Hpin by apply last_in.
  assert (n ∈ kernel_task :: l2) as Hnin by (unfold n; destruct l2; simpl; set_solver).
  assert (p ∈ kernel_task :: l1 ++ l2 /\ n ∈ kernel_task :: l1 ++ l2) as [Hpin2 Hnin2].
  { rewrite !elem_of_cons, !elem_of_app in *. tauto. }
  assert (x <> p) as Hxp by (intros ->; done). assert (x <> n) as Hxn by (intros ->; done).
  rewrite Hn, Hp. set (s1 := upd p (set_tnext n) s).
  assert (task_at s1 x = task_at s x) as E1 by (unfold s1; rewrite task_at_upd; by rewrite decide_False).
  rewrite E1, Hn, Hp. set (s2 := upd n (set_tprev p) s1).
  assert (task_at s2 x = task_at s x) as E2 by (unfold s2; rewrite task_at_upd; by rewrite decide_False).
  rewrite E2.
  assert (forall q, same_info (task_at s q) (task_at s2 q)) as Hinfo.
  { intros q. unfold same_info, s2. rewrite task_at_upd. unfold s1. rewrite !task_at_upd.
    destruct (decide (q = n)) as [->|_]; [destruct (decide (n = p)) as [->|_]|
      destruct (decide (q = p)) as [->|_]]; by split_and!. }
  pose proof (ok_lookup s _ rs0 p Hok (mid_sub _ _ _ _ _ Hpin2)) as Hlp.
  pose proof (ok_lookup s _ rs0 n Hok (mid_sub _ _ _ _ _ Hnin2)) as Hln.
  assert (tasks s1 !! n = Some (task_at s1 n)) as Hln1.
  { unfold task_at, s1, upd. cbn [tasks with_tasks]. destruct (decide (n = p)) as [->|].
    - by rewrite lookup_insert_eq.
    - by rewrite lookup_insert_ne, Hln by done. }
  pose proof (ring_remove (tasks s) kernel_task l1 x l2 (task_at s p) (tasks s1) (task_at s1 n) Hring Hnd Hlp eq_refl Hln1) as Hring'.
  destruct (so_mem _ _ _ Hok) as (rs & rs' & Ho & Hperm & Hrepr).
  destruct (owns_remove _ _ _ _ _ _ Ho Hx) as (k1 & k2 & rs1 & Hp1 & Ho1 & Hst).
  destruct (Z.eqb_spec (t_stack_base (task_at s x)) 0); [lia|].
  change (mem_of s2) with (mem_of s).
  destruct (al_free_law (mem_of s) rs' (t_stack_base (task_at s x)) k2 ((x, k1) :: rs1 ++ rs0) Hrepr) as (_ & Hrq1 & ra & Hpa & Hra).
  { by rewrite Hperm, Hp1. }
  destruct (al_free_law _ ra x k1 (rs1 ++ rs0) Hra Hpa) as (_ & Hrq2 & rb & Hpb & Hrb).
  split; [|split_and!; auto].
  - destruct (so_req _ _ _ Hok). pose proof (so_len _ _ _ Hok) as Hlen.
    split; cbn [with_tasks with_alloc task_head current_task tasks mem_of]; auto; try apply Hok.
    + intros q. split.
      * intros [t Ht]. apply lookup_delete_Some in Ht as [Hne Ht].
        assert (is_Some (tasks s !! q)) as Hs.
        { unfold s2, s1, upd in Ht. cbn [tasks with_tasks] in Ht.
          destruct (decide (q = n)) as [->|]; [by eexists|]. rewrite lookup_insert_ne in Ht by done.
          destruct (decide (q = p)) as [->|]; [by eexists|]. rewrite lookup_insert_ne in Ht by done. by eexists. }
        apply (so_dom _ _ _ Hok) in Hs. by apply (mid_rest _ x).
      * intros Hq. assert (q <> x) as Hne by (intros ->; done).
        rewrite lookup_delete_ne by done. apply (ring_lookup _ _ _ q Hring') in Hq.
        by rewrite lookup_delete_ne in Hq.
    + apply (mid_rest _ x); [exact (so_cur _ _ _ Hok)|]. intros E. by apply Hc.
    + pose proof (so_nz _ _ _ Hok) as Hnz. rewrite Forall_app, Forall_cons in Hnz. rewrite Forall_app. tauto.
    + exists rs1, rb. split_and!; auto. eapply owns_ext; [|exact Ho1]. intros q t Hq Ht.
      assert (q ∈ kernel_task :: l1 ++ l2) as Hq' by (apply elem_of_cons; by right).
      assert (q <> x) as Hne by (intros ->; done).
      rewrite lookup_delete_ne by done.
      destruct (ring_lookup _ _ _ q Hring' Hq') as [t' Ht']. rewrite lookup_delete_ne in Ht' by done.
      exists t'. split; [done|]. destruct (Hinfo q) as (_ & _ & _ & _ & _ & E).
      assert (tasks s2 !! q = Some t') as Ht2 by exact Ht'.
      assert (task_at s q = t) as Et by (unfold task_at; by rewrite Ht).
      assert (task_at s2 q = t') as Et2 by (unfold task_at; by rewrite Ht2).
      by rewrite Et, Et2 in E.
    + unfold lenZ in *. rewrite length_app in *. simpl in Hlen. lia.
  - intros q Hq. assert (q <> x) as Hne by (intros ->; done).
    unfold task_at at 2. cbn [with_tasks with_alloc tasks]. rewrite lookup_delete_ne by done. apply Hinfo.
Qed.
Definition survivors s (l : list Z) : list Z := filter (fun p => reapable s p = false) l.

Lemma survivors_ext s s' l :
  (forall p, p ∈ l -> reapable s' p = reapable s p) -> survivors s' l = survivors s l.
Proof.
  unfold survivors. induction l as [|p l IH]; intros Hp; [done|].
  assert (reapable s' p = reapable s p) as E by (apply Hp, elem_of_cons; by left).
  rewrite !filter_cons, E, IH; [done|]. intros q Hq. apply Hp, elem_of_cons. by right.
Qed.

(** The whole reaping loop: the zombies other than the running task leave
    the ring and their memory is released; nobody else changes. *)
Lemma reap_all_spec rs0 l2 : forall l1 s fuel,
  sched_ok s (l1 ++ l2) rs0 -> (length l2 <= fuel)%nat ->
  exists s', reap_all fuel (hd kernel_task l2) s = Some s' /\ sched_ok s' (l1 ++ survivors s l2) rs0 /\
    current_task s' = current_task s /\ next_pid s' = next_pid s /\ tick s' = tick s /\
    forall q, q ∈ kernel_task :: l1 ++ survivors s l2 -> same_info (task_at s q) (task_at s' q).
Proof.
  induction l2 as [|x l2 IH]; intros l1 s fuel Hok Hf.
  { exists s. rewrite app_nil_r in *. split; [|split_and!; auto; by rewrite ?app_nil_r].
    destruct fuel; simpl; by rewrite (so_head _ _ _ Hok), Z.eqb_refl. }
  destruct fuel as [|fuel]; simpl in Hf; [lia|]. cbn [hd reap_all].
  pose proof (so_nd _ _ _ Hok) as Hnd. destruct (mid_nodup _ _ _ _ Hnd) as [_ Hxni].
  rewrite (so_head _ _ _ Hok). destruct (Z.eqb_spec x kernel_task) as [->|_]; [by destruct Hxni; apply elem_of_cons; left|].
  assert (x ∈ kernel_task :: l1 ++ x :: l2) as Hxin
    by (rewrite elem_of_cons, elem_of_app, elem_of_cons; tauto).
  destruct (ring_links _ _ _ _ _ _ (so_ring _ _ _ Hok) (ok_lookup s _ rs0 x Hok Hxin)) as [-> _].
  pose proof (reap_spec s rs0 l1 x l2 Hok) as Hr. unfold survivors at 1 2. rewrite filter_cons.
  destruct (reapable s x) eqn:Ex.
  - destruct Hr as (Hok1 & Hc1 & Hp1 & Ht1 & Hi1). rewrite decide_False by done.
    destruct (IH l1 (reap x s) fuel Hok1 ltac:(lia)) as (s' & E & Hok' & Hc & Hp & Ht & Hi).
    assert (survivors (reap x s) l2 = survivors s l2) as Es.
    { apply survivors_ext. intros p Hp'. unfold reapable. rewrite Hc1.
      destruct (Hi1 p) as (_ & _ & -> & _); [|done]. rewrite elem_of_cons, elem_of_app. tauto. }
    rewrite Es in *. exists s'. split_and!; auto; try congruence.
    intros q Hq. eapply same_info_trans; [apply Hi1|by apply Hi].
    rewrite elem_of_cons, elem_of_app in *. unfold survivors in Hq. rewrite list_elem_of_filter in Hq. tauto.
  - rewrite Hr, decide_True by done.
    destruct (IH (l1 ++ [x]) s fuel) as (s' & E & Hok' & Hc & Hp & Ht & Hi); [by rewrite <- app_assoc|lia|].
    rewrite <- app_assoc in *. cbn [app] in *. exists s'. split_and!; auto.
Qed.

(** ** Choosing the next task *)

Definition runs s (p : Z) : bool := runnable (t_state (task_at s p)).

(** The task that round-robin selects in a state whose ring is
    [kernel_task :: l]: the first runnable one after the current task, in
    ring order; the current one if it is the only one; else task 0. *)
Definition round_robin s (after : list Z) : Z :=
  first_such (runs s) after (if runs s (current_task s) then current_task s else kernel_task).

Lemma keeps_links_regs r : keeps_links (set_regs r).
Proof. done. Qed.
Lemma keeps_links_state st : keeps_links (set_state st).
Proof. done. Qed.

Lemma switch_to_ok s l rs0 p :
  sched_ok s l rs0 -> p ∈ kernel_task :: l -> sched_ok (switch_to p s) l rs0 /\ current_task (switch_to p s) = p.
Proof.
  intros Hok Hp. unfold switch_to. destruct (Z.eqb_spec p (current_task s)) as [->|Hne]; [by split|].
  split; [|done]. set (s1 := if bool_decide _ then _ else s).
  assert (sched_ok s1 l rs0) as Hok1.
  { unfold s1. case_goal; [|done]. apply ok_upd; [done|apply (so_cur _ _ _ Hok)|apply keeps_links_state]. }
  apply ok_upd; [|done|apply keeps_links_state]. destruct Hok1. by split.
Qed.

Lemma first_such_in f l d : first_such f l d = d \/ first_such f l d ∈ l.
Proof.
  unfold first_such. destruct (filter (fun p => f p = true) l) as [|a k] eqn:E; [by left|right]. simpl.
  assert (a ∈ filter (fun p => f p = true) l) as Ha by (rewrite E; apply elem_of_cons; by left).
  by apply list_elem_of_filter in Ha as [_ ?].
Qed.

Lemma pick_next_spec s l rs0 l1 l2 :
  sched_ok s l rs0 -> kernel_task :: l = l1 ++ current_task s :: l2 ->
  exists p, pick_next (ring_fuel s) (t_next (task_at s (current_task s))) s = Some p /\
    (if (p =? current_task s) && negb (runnable (t_state (task_at s (current_task s)))) then kernel_task else p)
      = round_robin s (l2 ++ l1) /\
    round_robin s (l2 ++ l1) ∈ kernel_task :: l.
Proof.
  intros Hok E. pose proof (ok_around s l rs0 l1 _ l2 Hok E) as Hn.
  assert (current_task s ∉ l2 ++ l1) as Hni.
  { pose proof (so_nd _ _ _ Hok) as Hnd. rewrite E in Hnd. apply NoDup_app in Hnd as (_ & Hd & [Hx _]%NoDup_cons).
    rewrite elem_of_app. intros [?|Hin]; [done|]. apply (Hd _ Hin), elem_of_cons. by left. }
  assert (length (l2 ++ l1) <= ring_fuel s)%nat as Hf.
  { rewrite (sched_fuel s l rs0 Hok). apply (f_equal length) in E. rewrite length_app in *. simpl in E. lia. }
  eexists. split; [by apply pick_next_walk|]. unfold round_robin.
  change (fun p => runnable (t_state (task_at s p))) with (runs s).
  change (runnable (t_state (task_at s (current_task s)))) with (runs s (current_task s)).
  generalize (runs s). intros f.
  assert (forall d, first_such f (l2 ++ l1) d ∈ d :: kernel_task :: l) as Hin.
  { intros d. destruct (first_such_in f (l2 ++ l1) d) as [->|Hin]; [apply elem_of_cons; by left|].
    apply elem_of_cons. right. rewrite E. rewrite elem_of_app, elem_of_cons. rewrite elem_of_app in Hin. tauto. }
  split.
  - unfold first_such in *. destruct (filter (fun p => f p = true) (l2 ++ l1)) as [|a k] eqn:Ef; simpl.
    + rewrite Z.eqb_refl. by destruct (f (current_task s)).
    + assert (a ∈ filter (fun p => f p = true) (l2 ++ l1)) as Ha by (rewrite Ef; apply elem_of_cons; by left).
      apply list_elem_of_filter in Ha as [_ Ha]. destruct (Z.eqb_spec a (current_task s)) as [->|]; done.
  - set (d := if f (current_task s) then current_task s else kernel_task).
    specialize (Hin d). apply elem_of_cons in Hin as [Hd|?]; [|done]. rewrite Hd. unfold d.
    destruct (f (current_task s)); [apply (so_cur _ _ _ Hok)|apply elem_of_cons; by left].
Qed.
(** ** The scheduling step *)

Lemma keep_current s l p : p ∈ kernel_task :: l -> reapable s p = false -> p ∈ kernel_task :: survivors s l.
Proof.
  intros Hp Hr. apply elem_of_cons in Hp as [->|Hp]; apply elem_of_cons; [by left|right].
  by apply list_elem_of_filter.
Qed.

Lemma reapable_current s : reapable s (current_task s) = false.
Proof. unfold reapable. rewrite Z.eqb_refl. apply andb_false_r. Qed.

Lemma same_info_runs s s' p : same_info (task_at s p) (task_at s' p) -> runs s' p = runs s p.
Proof. intros (_ & _ & E & _). unfold runs. by rewrite E. Qed.

Lemma first_such_ext f g l d : (forall p, p ∈ l -> f p = g p) -> first_such f l d = first_such g l d.
Proof.
  unfold first_such. intros Hfg. f_equal. induction l as [|a l IH]; [done|].
  rewrite !filter_cons, (Hfg a), IH; [done| |apply elem_of_cons; by left].
  intros p Hp. apply Hfg, elem_of_cons. by right.
Qed.

(** What one task looks like after a switch from [c] to [n], the registers
    of [c] having been saved at [r]. *)
Definition switched (c n r : Z) (p : Z) (t t' : task_t) : Prop :=
  t_id t' = t_id t /\ t_name t' = t_name t /\ t_cpu_ticks t' = t_cpu_ticks t /\
  t_stack_base t' = t_stack_base t /\
  t_regs_ptr t' = (if p =? c then r else t_regs_ptr t) /\
  t_state t' = (if n =? c then t_state t
                else if p =? n then RUNNING
                else if (p =? c) && bool_decide (t_state t = RUNNING) then READY
                else t_state t).

Lemma switch_to_task s n p :
  let t := task_at s p in let t' := task_at (switch_to n s) p in
  t_id t' = t_id t /\ t_name t' = t_name t /\ t_cpu_ticks t' = t_cpu_ticks t /\
  t_stack_base t' = t_stack_base t /\ t_regs_ptr t' = t_regs_ptr t /\
  t_state t' = (if n =? current_task s then t_state t
                else if p =? n then RUNNING
                else if (p =? current_task s) && bool_decide (t_state t = RUNNING) then READY
                else t_state t).
Proof.
  cbv zeta. unfold switch_to. destruct (Z.eqb_spec n (current_task s)) as [|Hne]; [by split_and!|].
  set (s1 := if bool_decide _ then _ else s).
  rewrite task_at_upd. change (task_at (Sched _ _ _ _ _ _)) with (task_at s1).
  assert (s1 = s \/ s1 = upd (current_task s) (set_state READY) s) as H1 by (unfold s1; case_goal; auto).
  destruct (Z.eqb_spec p n) as [->|Hpn].
  - rewrite decide_True by done. cbn.
    destruct H1 as [->| ->]; [by split_and!|]. rewrite task_at_upd, decide_False by done. by split_and!.
  - rewrite decide_False by done. unfold s1. destruct (Z.eqb_spec p (current_task s)) as [->|Hpc]; cbn [andb].
    + destruct (bool_decide (t_state (task_at s (current_task s)) = RUNNING)); [|by split_and!].
      rewrite task_at_upd, decide_True by done. by split_and!.
    + destruct (bool_decide (t_state (task_at s (current_task s)) = RUNNING)); [|by split_and!].
      rewrite task_at_upd, decide_False by done. by split_and!.
Qed.

Lemma schedule_spec s l rs0 r :
  sched_ok s l rs0 ->
  exists l1 l2 s',
    kernel_task :: survivors s l = l1 ++ current_task s :: l2 /\
    let n := round_robin s (l2 ++ l1) in
    scheduler_schedule kernel_task r s = Some (if n =? current_task s then r else t_regs_ptr (task_at s n), s') /\
    sched_ok s' (survivors s l) rs0 /\ current_task s' = n /\
    next_pid s' = next_pid s /\ tick s' = tick s /\
    forall p, p ∈ kernel_task :: survivors s l ->
      switched (current_task s) n r p (task_at s p) (task_at s' p).
Proof.
  intros Hok. set (c := current_task s). set (s0 := upd c (set_regs r) s).
  pose proof (so_cur _ _ _ Hok) as Hcin. fold c in Hcin.
  assert (sched_ok s0 l rs0) as Hok0 by (apply ok_upd; [done|done|apply keeps_links_regs]).
  pose proof (ring_head _ _ _ _ (so_ring _ _ _ Hok0) (ok_lookup s0 l rs0 kernel_task Hok0 ltac:(apply elem_of_cons; by left))) as [Hhd _].
  destruct (reap_all_spec rs0 l [] s0 (ring_fuel s0) Hok0) as (s1 & E1 & Hok1 & Hc1 & Hp1 & Ht1 & Hi1).
  { rewrite (sched_fuel s0 l rs0 Hok0). lia. }
  assert (forall q, t_state (task_at s0 q) = t_state (task_at s q)) as Hst0.
  { intros q. unfold s0. rewrite task_at_upd. destruct (decide (q = c)) as [->|]; done. }
  assert (survivors s0 l = survivors s l) as Es.
  { apply survivors_ext. intros p _. unfold reapable. by rewrite Hst0. }
  cbn [app] in *. rewrite Es in *. set (k := survivors s l) in *.
  assert (c ∈ kernel_task :: k) as Hck by (apply keep_current; [done|apply reapable_current]).
  destruct (list_elem_of_split _ _ Hck) as (l1 & l2 & El).
  change (current_task s0) with c in Hc1.
  pose proof El as El'. rewrite <- Hc1 in El'.
  destruct (pick_next_spec s1 k rs0 l1 l2 Hok1 El') as (n & En & Ern & Hnin). rewrite Hc1 in *.
  assert (forall p, p ∈ kernel_task :: k -> runs s1 p = runs s p) as Hruns.
  { intros p Hp. rewrite (same_info_runs s0 s1 p (Hi1 p Hp)). unfold runs. by rewrite Hst0. }
  assert (round_robin s1 (l2 ++ l1) = round_robin s (l2 ++ l1)) as Err.
  { unfold round_robin. rewrite Hc1, Hruns by done. fold c. apply first_such_ext. intros p Hp. apply Hruns.
    rewrite El. rewrite elem_of_app in Hp. rewrite elem_of_app, elem_of_cons. tauto. }
  rewrite Err in *. exists l1, l2, (switch_to (round_robin s (l2 ++ l1)) s1). split; [done|]. cbv zeta.
  set (m := round_robin s (l2 ++ l1)) in *.
  destruct (switch_to_ok s1 k rs0 m Hok1 Hnin) as [Hok2 Hc2].
  assert (forall p, p ∈ kernel_task :: k -> switched c m r p (task_at s p) (task_at (switch_to m s1) p)) as Hsw.
  { intros p Hp. destruct (switch_to_task s1 m p) as (J1 & J2 & J3 & J4 & J5 & J6).
    destruct (Hi1 p Hp) as (I1 & I2 & I3 & I4 & I5 & I6). rewrite Hst0 in I3. rewrite Hc1, I3 in J6.
    unfold s0 in I1, I2, I4, I5, I6. rewrite task_at_upd in I1, I2, I4, I5, I6.
    destruct (Z.eqb_spec p c) as [->|Hpc].
    - rewrite decide_True in I1, I2, I4, I5, I6 by done. unfold switched. rewrite Z.eqb_refl in *. cbn in I1, I2, I4, I5, I6.
      split_and!; [congruence..| |done]. by rewrite J5, I5.
    - rewrite decide_False in I1, I2, I4, I5, I6 by done. unfold switched.
      destruct (Z.eqb_spec p c); [done|]. split_and!; congruence. }
  split; [|split_and!; auto].
  - unfold scheduler_schedule. fold c. rewrite (so_head _ _ _ Hok).
    destruct (Z.eqb_spec c 0) as [E0|_]; [by destruct (ok_nz s l rs0 c Hok Hcin)|].
    destruct (Z.eqb_spec kernel_task 0) as [E0|_]; [by destruct (so_k _ _ _ Hok)|]. cbn [orb].
    fold s0. change (task_head s0) with (task_head s). rewrite (so_head _ _ _ Hok), Hhd.
    rewrite E1. cbn [mbind option_bind]. rewrite Hc1, En. cbn [mbind option_bind].
    fold (runs s1 c) in Ern |- *. unfold runs in Ern |- *. rewrite Ern, Hc2. do 2 f_equal.
    destruct (Hsw m Hnin) as (_ & _ & _ & _ & -> & _). done.
  - unfold switch_to. case_goal; [done|]. by case_goal.
  - unfold switch_to. case_goal; [done|]. by case_goal.
Qed.
(** ** Creating a task *)

(** The little-endian word at [x]. *)
Definition al_word (a : A) (x : Z) : Z :=
  al_load a x + al_load a (x + 1) * 256 + al_load a (x + 2) * 65536 + al_load a (x + 3) * 16777216.

(** Pushing [vs] below [top] inside a region writes them at descending
    addresses, the rest of the memory and the regions staying as they are. *)
Lemma push_all_spec rs r vs : forall top a,
  al_repr a rs -> r ∈ rs -> r.1 <= top - 4 * lenZ vs -> top <= r.1 + r.2 ->
  exists a', push_all top vs a = (top - 4 * lenZ vs, a') /\ al_repr a' rs /\
    (forall k, al_request a k -> al_request a' k) /\
    (forall x, x < top - 4 * lenZ vs \/ top <= x -> al_load a' x = al_load a x) /\
    (forall i v, vs !! i = Some v -> al_word a' (top - 4 - 4 * Z.of_nat i) = u32 v).
Proof.
  induction vs as [|v vs IH]; intros top a Hr Hin Hlo Hhi.
  { exists a. unfold lenZ in *. simpl in *. split_and!; auto; [f_equal; lia|].
    intros i v Hv. by rewrite lookup_nil in Hv. }
  unfold lenZ in *. cbn [length push_all] in *.
  destruct (al_st32_law a rs (top - 4) v r Hr Hin) as (Hr1 & Hq1 & Hf1 & Hw1); [lia..|].
  destruct (IH (top - 4) (al_st32 (top - 4) v a) Hr1 Hin) as (a' & E & Hr' & Hq' & Hf' & Hw'); [lia..|].
  exists a'. rewrite E. split_and!; auto.
  - f_equal. lia.
  - intros x Hx. rewrite Hf', Hf1 by lia. done.
  - intros [|i] u Hu; cbn in Hu.
    + injection Hu as <-. unfold al_word. rewrite !Hf' by lia.
      replace (top - 4 - 4 * Z.of_nat 0) with (top - 4) by lia. exact Hw1.
    + rewrite <- (Hw' i u Hu). f_equal. lia.
Qed.

Lemma apart_fresh (p k : Z) l m rs :
  owns m l rs -> Forall (apart (p, k)) rs -> TASK_STRUCT_SIZE <= k -> p ∉ l.
Proof.
  intros Ho Ha Hk Hp. destruct (owns_in _ _ _ _ Ho Hp) as (k' & Hin & Hk').
  pose proof (proj1 (Forall_forall _ _) Ha _ Hin) as Hap. unfold apart, TASK_STRUCT_SIZE in *. simpl in *. lia.
Qed.

(** The four stores that link a new task in at the tail. *)
Lemma link_new_ok s l rs0 t tk stack k1 k2 rs rs' a np :
  sched_ok s l rs0 -> t <> 0 -> t <> kernel_task -> t ∉ l -> lenZ l + 1 < MAX_TASKS ->
  t_next tk = kernel_task -> t_prev tk = List.last l kernel_task -> t_stack_base tk = stack -> 0 < stack ->
  owns (tasks s) l rs -> rs' ≡ₚ (stack, k2) :: (t, k1) :: rs ++ rs0 -> al_repr a rs' ->
  TASK_STRUCT_SIZE <= k1 -> STACK_SIZE <= k2 ->
  al_request a TASK_STRUCT_SIZE -> al_request a STACK_SIZE ->
  let s1 := Sched (<[t := tk]> (tasks s)) (current_task s) kernel_task np (tick s) a in
  let s2 := upd (t_prev (task_at s1 kernel_task)) (set_tnext t) s1 in
  let s' := upd kernel_task (set_tprev t) s2 in
  sched_ok s' (l ++ [t]) rs0 /\
  (exists n p, task_at s' t = set_tprev p (set_tnext n tk)) /\
  (forall q, q ∈ kernel_task :: l -> same_info (task_at s q) (task_at s' q)).
Proof.
  intros Hok Ht Htk Htl Hlen Hn Hp Hst Hs0 Ho Hperm Hr Hk1 Hk2 Hq1 Hq2 s1 s2 s'.
  pose proof (so_ring _ _ _ Hok) as Hring. pose proof (so_nd _ _ _ Hok) as Hnd.
  assert (kernel_task ∈ kernel_task :: l) as Hkin by (apply elem_of_cons; by left).
  destruct (ring_head _ _ _ _ Hring (ok_lookup s l rs0 _ Hok Hkin)) as [_ Hprev].
  assert (forall q, q <> t -> task_at s1 q = task_at s q) as H1.
  { intros q Hq. unfold task_at, s1. cbn [tasks]. by rewrite lookup_insert_ne. }
  set (p := List.last l kernel_task) in *.
  assert (t_prev (task_at s1 kernel_task) = p) as Ep by (rewrite H1 by done; exact Hprev).
  assert (p ∈ kernel_task :: l) as Hpin by apply last_in.
  assert (t ∉ kernel_task :: l) as Htni by (rewrite elem_of_cons; tauto).
  assert (p <> t) as Hpt by (intros ->; done).
  assert (forall q, q ∈ kernel_task :: l -> tasks s1 !! q = Some (task_at s1 q)) as Hl1.
  { intros q Hq. assert (q <> t) as Hqt by (intros ->; done). rewrite H1 by done. unfold s1. cbn [tasks].
    rewrite lookup_insert_ne by done. by apply (ok_lookup s l rs0). }
  assert (forall q, q ∈ kernel_task :: l -> tasks s2 !! q = Some (task_at s2 q)) as Hl2.
  { intros q Hq. unfold s2. rewrite Ep, task_at_upd. unfold upd. cbn [tasks with_tasks].
    destruct (decide (q = p)) as [->|]; [by rewrite lookup_insert_eq|]. rewrite lookup_insert_ne by done. by apply Hl1. }
  assert (forall q, same_info (task_at s1 q) (task_at s' q)) as Hinfo.
  { intros q. unfold same_info, s'. rewrite task_at_upd. unfold s2. rewrite Ep, !task_at_upd.
    destruct (decide (q = kernel_task)) as [->|_];
      [destruct (decide (kernel_task = p)) as [E|_]; [rewrite <- E|]|destruct (decide (q = p)) as [->|_]];
      cbn; by repeat split. }
  assert (ring (tasks s') kernel_task (l ++ [t])) as Hring'.
  { unfold s'. apply (ring_insert (tasks s) kernel_task l t tk Hring Hnd Htni Hn Hp (task_at s1 p) (tasks s1) eq_refl (Hl1 p Hpin)
      (task_at s2 kernel_task) (tasks s2)); [|by apply Hl2]. unfold s2. by rewrite Ep. }
  assert (exists n p, task_at s' t = set_tprev p (set_tnext n tk)) as (n' & p' & Et).
  { exists (t_next (task_at s' t)), (t_prev (task_at s' t)).
    assert (task_at s1 t = tk) as E1 by (unfold task_at, s1; cbn [tasks]; by rewrite lookup_insert_eq).
    destruct (Hinfo t) as (I1 & I2 & I3 & I4 & I5 & I6). rewrite E1 in *.
    unfold set_tprev, set_tnext. revert I1 I2 I3 I4 I5 I6. clear. generalize (task_at s' t). intros [] ??????.
    cbn in *. by subst. }
  split; [|split; [eauto|]].
  - split; auto; try apply Hok.
    + rewrite app_comm_cons. apply NoDup_app. split_and!; [done| |apply NoDup_singleton].
      intros q Hq Hq'. apply list_elem_of_singleton in Hq' as ->. done.
    + intros q. split.
      * intros [u Hu]. rewrite app_comm_cons, elem_of_app, list_elem_of_singleton.
        unfold s', s2 in Hu. rewrite Ep in Hu. unfold upd, s1 in Hu. cbn [tasks with_tasks] in Hu.
        destruct (decide (q = kernel_task)) as [->|]; [by left|]. rewrite lookup_insert_ne in Hu by done.
        destruct (decide (q = p)) as [->|]; [by left|]. rewrite lookup_insert_ne in Hu by done.
        destruct (decide (q = t)) as [->|]; [by right|]. rewrite lookup_insert_ne in Hu by done.
        left. apply (so_dom _ _ _ Hok). by eexists.
      * intros Hq. by apply (ring_lookup _ _ _ q Hring').
    + rewrite app_comm_cons, elem_of_app. left. exact (so_cur _ _ _ Hok).
    + rewrite Forall_app, Forall_singleton. split; [exact (so_nz _ _ _ Hok)|done].
    + assert (t_stack_base (task_at s' t) = stack) as Es by by rewrite Et.
      assert (tasks s' !! t = Some (task_at s' t)) as Hlt.
      { destruct (ring_lookup _ _ _ t Hring') as [u Hu]; [|unfold task_at; by rewrite Hu].
        rewrite app_comm_cons, elem_of_app, list_elem_of_singleton. by right. }
      assert (owns (tasks s') l rs) as Ho'.
      { eapply owns_ext; [|exact Ho]. intros q u Hq Hu. exists (task_at s' q).
        assert (q ∈ kernel_task :: l) as Hq' by (apply elem_of_cons; by right).
        assert (q <> t) as Hqt by (intros ->; done). split.
        - destruct (ring_lookup _ _ _ q Hring') as [u' Hu']; [|unfold task_at; by rewrite Hu'].
          rewrite app_comm_cons, elem_of_app. by left.
        - destruct (Hinfo q) as (_ & _ & _ & _ & _ & ->). rewrite H1 by done. unfold task_at. by rewrite Hu. }
      destruct (owns_snoc (tasks s') l rs t (task_at s' t) k1 k2 Ho' Hlt) as (rs2 & Ho2 & Hp2); auto.
      { by rewrite Es. }
      exists rs2, rs'. split_and!; auto. by rewrite Hp2, Es, Hperm.
    + unfold lenZ in *. rewrite length_app. simpl. lia.
  - intros q Hq. assert (q <> t) as Hqt by (intros ->; done). rewrite <- (H1 q Hqt). apply Hinfo.
Qed.

Lemma stack_top stack : 0 < stack -> stack + STACK_SIZE < 4294967296 ->
  let top := ALIGN_DOWN (u32 (stack + STACK_SIZE)) 16 in
  top mod 16 = 0 /\ stack + STACK_SIZE - 16 < top <= stack + STACK_SIZE.
Proof.
  intros H1 H2. unfold STACK_SIZE in *. rewrite u32_id by lia. cbv zeta.
  pose proof (ALIGN_DOWN_pow2 (stack + 8192) 4 ltac:(lia)) as E. change (2 ^ 4) with 16 in E. rewrite E. split; [by rewrite Z.mod_mul|].
  pose proof (Z.div_mod (stack + 8192) 16 ltac:(lia)). pose proof (Z.mod_pos_bound (stack + 8192) 16 ltac:(lia)). lia.
Qed.

(** What the stack of a new task holds, as the [struct regs] at [regs] that the
    interrupt return pops: the segments, the general registers, vector and
    error code, and then the entry point, the code segment, and the flags with
    interrupts on.  The word above is the return address of the entry point. *)
Definition frame_at (a : A) (regs stack entry_point : Z) : Prop :=
  (regs + 72) mod 16 = 0 /\ stack + STACK_SIZE - 16 < regs + 72 <= stack + STACK_SIZE /\
  (fun k => al_word a (regs + 4 * k)) <$> seqZ 0 18 =
    [16; 16; 16; 16; 0; 0; u32 (regs + 32); u32 (regs + 32); 0; 0; 0; 0; 0; 0; u32 entry_point; 8; 514; u32 task_exit_addr].

(** The words that [task_create] pushes, read from the lowest address on. *)
Lemma pushed_frame (a : A) top entry_point :
  (forall i v, initial_frame task_exit_addr top entry_point !! i = Some v -> al_word a (top - 4 - 4 * Z.of_nat i) = u32 v) ->
  (fun k => al_word a (top - 72 + 4 * k)) <$> seqZ 0 18 =
    [16; 16; 16; 16; 0; 0; u32 (top - 40); u32 (top - 40); 0; 0; 0; 0; 0; 0; u32 entry_point; 8; 514; u32 task_exit_addr].
Proof.
  intros Hw. assert (forall k, (k < 18)%nat -> forall v, initial_frame task_exit_addr top entry_point !! (17 - k)%nat = Some v ->
    al_word a (top - 72 + 4 * Z.of_nat k) = u32 v) as Hk.
  { intros k Hk v Hv. rewrite <- (Hw _ _ Hv). f_equal. lia. }
  change (seqZ 0 18) with [0; 1; 2; 3; 4; 5; 6; 7; 8; 9; 10; 11; 12; 13; 14; 15; 16; 17]. cbn [fmap list_fmap].
  repeat match goal with
  | |- al_word a (top - 72 + 4 * ?j) :: _ = _ =>
    apply (f_equal2 cons); [exact (Hk (Z.to_nat j) ltac:(apply Nat.ltb_lt; reflexivity) _ eq_refl)|]
  end. reflexivity.
Qed.

(** There was no memory for the structure or for the stack. *)
Definition no_memory (a : A) : Prop :=
  exists t a1, al_zalloc TASK_STRUCT_SIZE a = Some (t, a1) /\ (t = 0 \/ exists a2, al_zalloc STACK_SIZE a1 = Some (0, a2)).

(** The static task structure is not heap memory. *)
Hypothesis Hstatic : forall (a a' : A) rs n p,
  al_repr a rs -> al_request a n -> al_zalloc n a = Some (p, a') -> p <> kernel_task.

Lemma create_spec s l rs0 name e :
  sched_ok s l rs0 -> e <> 0 ->
  exists t s', task_create task_exit_addr name e s = Some (t, s') /\
    current_task s' = current_task s /\ tick s' = tick s /\
    ((t = 0 /\ (MAX_TASKS <= 1 + lenZ l \/ no_memory (mem_of s)) /\
      sched_ok s' l rs0 /\ tasks s' = tasks s /\ next_pid s' = next_pid s) \/
     (t <> 0 /\ lenZ l + 1 < MAX_TASKS /\ sched_ok s' (l ++ [t]) rs0 /\
      next_pid s' = u32 (next_pid s + 1) /\
      (forall q, q ∈ kernel_task :: l -> same_info (task_at s q) (task_at s' q)) /\
      exists regs stack n p,
        task_at s' t = Task (next_pid s) (task_name name) READY 0 regs stack n p /\
        frame_at (mem_of s') regs stack e)).
Proof.
  intros Hok He. unfold task_create. rewrite (so_head _ _ _ Hok).
  destruct (Z.eqb_spec e 0); [done|]. destruct (Z.eqb_spec kernel_task 0) as [E|_]; [by destruct (so_k _ _ _ Hok)|].
  cbn [orb]. rewrite (get_task_list_spec s l rs0 Hok). cbn [mbind option_bind].
  destruct (Z.leb_spec MAX_TASKS (1 + lenZ l)) as [Hfull|Hfit].
  { exists 0, s. split_and!; auto. left. split_and!; auto. }
  destruct (so_mem _ _ _ Hok) as (rs & rs1 & Ho & Hperm & Hr). destruct (so_req _ _ _ Hok) as [Hq1 Hq2].
  destruct (al_zalloc_law (mem_of s) rs1 TASK_STRUCT_SIZE Hr Hq1) as (t & a1 & E1 & Hf1 & Hk1 & Hcase1).
  pose proof (Hstatic _ _ _ _ _ Hr Hq1 E1) as Htk.
  rewrite E1. cbn [mbind option_bind]. change (mem_of (with_alloc a1 s)) with a1.
  assert (forall a rs2, rs2 ≡ₚ rs1 -> al_repr a rs2 -> (forall k, al_request (mem_of s) k -> al_request a k) ->
    sched_ok (with_alloc a s) l rs0) as Hback.
  { intros a rs2 Hp2 Hr2 Hq. destruct Hok. split; auto. exists rs, rs2. split_and!; auto. by rewrite Hp2. }
  destruct Hcase1 as [[-> Hr1]|(Ht0 & k1 & rs2 & Hle1 & Hp1 & Hap1 & Hr1 & _)].
  { rewrite Z.eqb_refl. exists 0, (with_alloc a1 s). split_and!; auto. left. split_and!; auto; [|by apply (Hback a1 rs1)].
    right. exists 0, a1. auto. }
  destruct (Z.eqb_spec t 0); [done|].
  destruct (al_zalloc_law a1 rs2 STACK_SIZE Hr1 (Hk1 _ Hq2)) as (st & a2 & E2 & Hf2 & Hk2 & Hcase2).
  rewrite E2. cbn [mbind option_bind]. change (mem_of (with_alloc a2 (with_alloc a1 s))) with a2.
  destruct Hcase2 as [[-> Hr2]|(Hs0 & k2 & rs3 & Hle2 & Hp2 & Hap2 & Hr2 & Hpos & Hend)].
  { rewrite Z.eqb_refl. destruct (al_free_law a2 rs2 t k1 rs1 Hr2 Hp1) as (_ & Hkf & rsf & Hpf & Hrf).
    eexists 0, _. split_and!; auto. left. split_and!; auto; [|apply (Hback _ rsf); auto]. right. exists t, a1. eauto. }
  destruct (Z.eqb_spec st 0); [done|].
  destruct (stack_top st Hpos) as [Halign Htop]; [lia|]. cbv zeta in Halign, Htop.
  set (top := ALIGN_DOWN (u32 (st + STACK_SIZE)) 16) in *.
  set (vs := initial_frame task_exit_addr top e).
  assert (lenZ vs = 18) as Hlen by done. unfold STACK_SIZE in Htop.
  destruct (push_all_spec rs3 (st, k2) vs top a2 Hr2) as (a3 & E3 & Hr3 & Hk3 & Hf3 & Hw3).
  { rewrite Hp2. apply elem_of_cons. by left. }
  { rewrite Hlen. cbn. lia. }
  { cbn. unfold STACK_SIZE in *. lia. }
  rewrite E3, Hlen. cbn [with_alloc task_head tasks current_task next_pid tick mem_of] in *. rewrite (so_head _ _ _ Hok).
  set (tk := Task _ _ _ _ _ _ _ _).
  assert (t ∉ l) as Htl.
  { apply (apart_fresh t k1 l (tasks s) rs Ho); [|done]. rewrite Hperm, Forall_app in Hap1. tauto. }
  assert (kernel_task ∈ kernel_task :: l) as Hkin by (apply elem_of_cons; by left).
  assert (t_prev (task_at (with_alloc a2 (with_alloc a1 s)) kernel_task) = List.last l kernel_task) as Hprev.
  { exact (proj2 (ring_head _ _ _ _ (so_ring _ _ _ Hok) (ok_lookup s l rs0 _ Hok Hkin))). }
  destruct (link_new_ok s l rs0 t tk st k1 k2 rs rs3 a3 (u32 (next_pid s + 1)) Hok Ht0 Htk Htl)
    as (Hok' & (n' & p' & Et) & Hinfo); auto; try lia.
  { by rewrite Hp2, Hp1, Hperm. }
  eexists t, _. split; [reflexivity|]. split_and!; auto. right. split_and!; auto; [lia|].
  exists (top - 4 * 18), st, n', p'. split; [by rewrite Et|]. change (4 * 18) with 72. unfold frame_at.
  replace (top - 72 + 72) with top by lia. replace (top - 72 + 32) with (top - 40) by lia.
  split; [done|]. split; [done|]. by apply pushed_frame.
Qed.

Lemma kill_walk_spec s pid fuel : forall l p,
  nexts s p l (task_head s) -> task_head s ∉ tl l -> l <> [] -> (length l <= S fuel)%nat ->
  kill_walk fuel p pid s =
    Some (match filter (fun q => t_id (task_at s q) = pid /\ t_state (task_at s q) <> ZOMBIE) l with
          | [] => (-1, s)
          | q :: _ => (0, upd q (set_state ZOMBIE) s)
          end).
Proof.
  induction fuel as [|fuel IH]; intros l p Hn Hh Hl Hf; (destruct l as [|a l]; [done|]); destruct Hn as [-> Hn]; cbn [tl] in Hh;
    cbn [kill_walk]; rewrite filter_cons.
  all: destruct (Z.eqb_spec (t_id (task_at s a)) pid) as [Hid|Hid]; cbn [andb];
    [destruct (bool_decide_reflect (t_state (task_at s a) = ZOMBIE)) as [Hz|Hz]; cbn [negb];
      [rewrite decide_False by tauto|by rewrite decide_True by tauto]|rewrite decide_False by tauto].
  all: destruct l as [|b l]; [cbn in Hn; by rewrite Hn, Z.eqb_refl|]; cbn in Hf; try lia.
  all: destruct Hn as [Hb Hn]; rewrite Hb; rewrite not_elem_of_cons in Hh; destruct Hh as [Hbh Hh];
    (destruct (Z.eqb_spec b (task_head s)); [congruence|]).
  all: apply IH; [by split|done|done|cbn; lia].
Qed.
End spec.
