(* ===== verification/SchedRun.v ===== *)
(** SchedRun: what the scheduler promises to the kernel.

    The theorems of the single operations, stated on the abstract task list
    of [SchedSpec]; the transition system of all operations and its
    invariant; and fairness: a runnable task gets the processor within one
    turn of the ring. *)

From S2P Require Import Prelude Memory Common Pmm Heap HeapInv HeapSpec HeapRun Scheduler SchedSpec.

(** * Rotations of the ring *)

(** [turn R w]: [w] is the list [R] read from some position onwards, once
    around. *)
Definition turn {B} (R w : list B) : Prop := exists a b, R = a ++ b /\ w = b ++ a.

Lemma turn_app {B} (R x y : list B) : turn R (x ++ y) -> turn R (y ++ x).
Proof.
  intros (a & b & -> & E). apply List.app_eq_app in E as (l & [[-> ->]|[-> ->]]).
  - exists l, (y ++ b). by rewrite !app_assoc.
  - exists (a ++ x), l. by rewrite !app_assoc.
Qed.

Lemma turn_filter {B} (P : B -> Prop) `{forall x, Decision (P x)} (R w : list B) :
  turn R w -> turn (filter P R) (filter P w).
Proof. intros (a & b & -> & ->). exists (filter P a), (filter P b). by rewrite !filter_app. Qed.

Lemma split_unique {B} (c : B) a b a' b' :
  NoDup (a ++ c :: b) -> a ++ c :: b = a' ++ c :: b' -> a = a' /\ b = b'.
Proof.
  revert a'. induction a as [|x a IH]; intros [|y a'] Hnd E; simpl in *; simplify_eq; auto.
  - apply NoDup_cons in Hnd as [Hc _]. destruct Hc. rewrite elem_of_app, elem_of_cons. tauto.
  - apply NoDup_cons in Hnd as [Hc _]. destruct Hc. rewrite elem_of_app, elem_of_cons. tauto.
  - apply NoDup_cons in Hnd as [_ Hnd]. by destruct (IH a' Hnd) as [-> ->].
Qed.

Lemma turn_from {B} (R : list B) c W l1 l2 :
  NoDup R -> turn R (c :: W) -> R = l1 ++ c :: l2 -> W = l2 ++ l1.
Proof.
  intros Hnd (a & b & Ea & Eb) E. destruct b as [|x b].
  - cbn in Eb. subst a. rewrite app_nil_r in Ea. subst R. symmetry in E.
    destruct (split_unique c l1 l2 [] W) as [-> ->]; [by rewrite E|done|]. by rewrite app_nil_r.
  - injection Eb as <- ->. rewrite Ea in E, Hnd. destruct (split_unique c a b l1 l2 Hnd E) as [-> ->]. done.
Qed.

Section run.
Context {A : Type} {AL : Allocator A}.
Context (kernel_task task_exit_addr : Z).
Implicit Types s : sched A.
Local Notation sched_ok := (sched_ok kernel_task).
Local Notation round_robin := (round_robin kernel_task).

(** * The operations *)

(** C11: one scheduling step.  The zombies other than the running task, and
    no other task, leave the ring and their memory goes back to the
    allocator; the next task is the first runnable one after the running one
    in ring order, the running one itself if there is no other, and task 0
    when nothing is runnable; the registers of the running task are saved,
    those of the next one returned, and nothing else of any task changes. *)
Theorem scheduler_schedule_correct s l rs0 r :
  sched_ok s l rs0 ->
  exists l1 l2 s',
    kernel_task :: survivors s l = l1 ++ current_task s :: l2 /\
    let n := round_robin s (l2 ++ l1) in
    scheduler_schedule kernel_task r s = Some (if n =? current_task s then r else t_regs_ptr (task_at s n), s') /\
    sched_ok s' (survivors s l) rs0 /\ current_task s' = n /\
    next_pid s' = next_pid s /\ tick s' = tick s /\
    forall p, p ∈ kernel_task :: survivors s l ->
      switched (current_task s) n r p (task_at s p) (task_at s' p).
Proof. exact (schedule_spec kernel_task s l rs0 r). Qed.

(** The static task structure is not heap memory. *)
Hypothesis Hstatic : forall (a a' : A) rs n p,
  al_repr a rs -> al_request a n -> al_zalloc n a = Some (p, a') -> p <> kernel_task.

(** C12: creating a task never leaks and never exceeds [MAX_TASKS].  Either
    the table was full or there was no memory, it returns NULL and neither the
    task list nor the memory in use has changed; or the new task is the last of
    the list, READY, with a fresh process id, and its stack holds, word for
    word, the registers that start it at its entry point with interrupts on,
    below the return address [task_exit]. *)
Theorem task_create_correct s l rs0 name e :
  sched_ok s l rs0 -> e <> 0 ->
  exists t s', task_create task_exit_addr name e s = Some (t, s') /\
    current_task s' = current_task s /\ tick s' = tick s /\
    ((t = 0 /\ (MAX_TASKS <= 1 + lenZ l \/ no_memory (mem_of s)) /\
      sched_ok s' l rs0 /\ tasks s' = tasks s /\ next_pid s' = next_pid s) \/
     (t <> 0 /\ lenZ l + 1 < MAX_TASKS /\ sched_ok s' (l ++ [t]) rs0 /\
      next_pid s' = u32 (next_pid s + 1) /\
      (forall q, q ∈ kernel_task :: l -> same_info (task_at s q) (task_at s' q)) /\
      exists regs stack n p,
        task_at s' t = Task (next_pid s) (task_name name) READY 0 regs stack n p /\
        frame_at task_exit_addr (mem_of s') regs stack e)).
Proof. exact (create_spec kernel_task task_exit_addr Hstatic s l rs0 name e). Qed.

Lemma kill_spec s l rs0 pid :
  sched_ok s l rs0 -> pid <> 0 ->
  task_kill pid s =
    Some (match filter (fun q => t_id (task_at s q) = pid /\ t_state (task_at s q) <> ZOMBIE) (kernel_task :: l) with
          | [] => (-1, s)
          | q :: _ => (0, upd q (set_state ZOMBIE) s)
          end).
Proof.
  intros Hok Hp. unfold task_kill. rewrite (so_head _ _ _ _ Hok).
  destruct (Z.eqb_spec pid 0); [done|].
  destruct (Z.eqb_spec kernel_task 0) as [E|_]; [by destruct (so_k _ _ _ _ Hok)|].
  apply kill_walk_spec; rewrite ?(so_head _ _ _ _ Hok).
  - by apply (ok_nexts kernel_task s l rs0).
  - apply (NoDup_cons kernel_task l), (so_nd _ _ _ _ Hok).
  - done.
  - rewrite (sched_fuel kernel_task s l rs0 Hok). simpl. lia.
Qed.

(** [task_kill] makes a zombie of the first live task, in ring order,
    with the given id, and changes nothing else; it returns -1, changing
    nothing, when there is no such task or the id is 0. *)
Theorem task_kill_correct s l rs0 pid :
  sched_ok s l rs0 ->
  exists r s', task_kill pid s = Some (r, s') /\ sched_ok s' l rs0 /\
    ((r = -1 /\ s' = s /\
      (pid = 0 \/ forall q, q ∈ kernel_task :: l -> t_id (task_at s q) = pid -> t_state (task_at s q) = ZOMBIE)) \/
     (r = 0 /\ exists q, q ∈ kernel_task :: l /\ t_id (task_at s q) = pid /\ t_state (task_at s q) <> ZOMBIE /\
        s' = upd q (set_state ZOMBIE) s)).
Proof.
  intros Hok. destruct (decide (pid = 0)) as [->|Hp]; [exists (-1), s; split_and!; auto|].
  rewrite (kill_spec s l rs0 pid Hok Hp).
  destruct (filter _ (kernel_task :: l)) as [|q k] eqn:E.
  - exists (-1), s. split_and!; auto. left. split_and!; auto. right. intros q Hq Hid.
    destruct (decide (t_state (task_at s q) = ZOMBIE)) as [|Hz]; [done|].
    assert (q ∈ []) as Hin; [|by apply not_elem_of_nil in Hin]. rewrite <- E. by apply list_elem_of_filter.
  - assert (q ∈ q :: k) as Hq by (apply elem_of_cons; by left). rewrite <- E in Hq.
    apply list_elem_of_filter in Hq as [[Hid Hz] Hq]. eexists 0, _. split; [done|]. split.
    + apply ok_upd; [done|done|apply keeps_links_state].
    + right. split; [done|]. by exists q.
Qed.

(** * The transition system *)

Lemma init_ok s rs0 :
  tasks s = ∅ -> kernel_task <> 0 -> al_repr (mem_of s) rs0 ->
  al_request (mem_of s) TASK_STRUCT_SIZE -> al_request (mem_of s) STACK_SIZE ->
  sched_ok (scheduler_init kernel_task s) [] rs0.
Proof.
  intros Ht Hk Hr Hq1 Hq2. unfold scheduler_init. rewrite Ht. split; cbn; auto.
  - apply NoDup_singleton.
  - intros p. rewrite list_elem_of_singleton. destruct (decide (p = kernel_task)) as [->|Hne].
    + rewrite lookup_insert_eq. split; [done|]. by eexists.
    + rewrite lookup_insert_ne by done. rewrite lookup_empty. split; [by intros [? ?]|done].
  - split; [|done]. eexists. split; [apply lookup_insert_eq|done].
  - apply elem_of_cons. by left.
  - exists [], rs0. split_and!; [constructor|done|done].
  - unfold lenZ. simpl. unfold MAX_TASKS. lia.
Qed.

Lemma tick_ok s l rs0 :
  sched_ok s l rs0 -> sched_ok (Sched (tasks s) (current_task s) (task_head s) (next_pid s) (u32 (tick s + 1)) (mem_of s)) l rs0.
Proof. intros []. by split. Qed.

(** The state in which [scheduler_tick] enters the scheduling step. *)
Definition ticked s : sched A :=
  let s := Sched (tasks s) (current_task s) (task_head s) (next_pid s) (u32 (tick s + 1)) (mem_of s) in
  upd (current_task s) (fun t => set_ticks (u32 (t_cpu_ticks t + 1)) t) s.

Lemma ticked_ok s l rs0 r :
  sched_ok s l rs0 ->
  scheduler_tick kernel_task r s = scheduler_schedule kernel_task r (ticked s) /\ sched_ok (ticked s) l rs0 /\
  forall p, t_state (task_at (ticked s) p) = t_state (task_at s p).
Proof.
  intros Hok. unfold scheduler_tick, ticked. cbn [current_task].
  pose proof (so_cur _ _ _ _ Hok) as Hc.
  destruct (Z.eqb_spec (current_task s) 0) as [E|_]; [by destruct (ok_nz kernel_task s l rs0 _ Hok Hc)|].
  split; [done|]. split.
  - apply ok_upd; [by apply tick_ok|done|done].
  - intros p. rewrite task_at_upd. destruct (decide (p = current_task s)) as [->|]; done.
Qed.

(** The states the kernel can reach, [rs0] being the memory that other
    parts of the kernel own. *)
Inductive sched_reach (rs0 : list (Z * Z)) : sched A -> Prop :=
| reach_init s :
    tasks s = ∅ -> al_repr (mem_of s) rs0 ->
    al_request (mem_of s) TASK_STRUCT_SIZE -> al_request (mem_of s) STACK_SIZE ->
    sched_reach rs0 (scheduler_init kernel_task s)
| reach_create s name e t s' :
    sched_reach rs0 s -> task_create task_exit_addr name e s = Some (t, s') -> sched_reach rs0 s'
| reach_kill s pid r s' :
    sched_reach rs0 s -> task_kill pid s = Some (r, s') -> sched_reach rs0 s'
| reach_tick s r r' s' :
    sched_reach rs0 s -> scheduler_tick kernel_task r s = Some (r', s') -> sched_reach rs0 s'
| reach_exit s r r' s' :
    sched_reach rs0 s -> task_exit kernel_task r s = Some (r', s') -> sched_reach rs0 s'.

Lemma create_total s l rs0 name e :
  sched_ok s l rs0 -> exists t s' l', task_create task_exit_addr name e s = Some (t, s') /\ sched_ok s' l' rs0.
Proof.
  intros Hok. destruct (decide (e = 0)) as [->|He].
  { unfold task_create. cbn. eauto. }
  destruct (create_spec kernel_task task_exit_addr Hstatic s l rs0 name e Hok He)
    as (t & s' & E & _ & _ & [(_ & _ & Hok' & _)|(_ & _ & Hok' & _)]); eauto.
Qed.

Lemma kill_total s l rs0 pid :
  sched_ok s l rs0 -> exists r s', task_kill pid s = Some (r, s') /\ sched_ok s' l rs0.
Proof.
  intros Hok. destruct (decide (pid = 0)) as [->|Hp]; [unfold task_kill; cbn; eauto|].
  rewrite (kill_spec s l rs0 pid Hok Hp). destruct (filter _ _) as [|q k] eqn:E; eauto.
  eexists 0, _. split; [done|]. apply ok_upd; [done| |apply keeps_links_state].
  assert (q ∈ q :: k) as Hq by (apply elem_of_cons; by left). rewrite <- E in Hq.
  by apply list_elem_of_filter in Hq as [_ ?].
Qed.

Lemma tick_total s l rs0 r :
  sched_ok s l rs0 -> exists r' s' l', scheduler_tick kernel_task r s = Some (r', s') /\ sched_ok s' l' rs0.
Proof.
  intros Hok. destruct (ticked_ok s l rs0 r Hok) as (-> & Hok1 & _).
  destruct (schedule_spec kernel_task (ticked s) l rs0 r Hok1) as (l1 & l2 & s' & _ & -> & Hok' & _); eauto.
Qed.

Lemma exit_total s l rs0 r :
  sched_ok s l rs0 -> exists r' s' l', task_exit kernel_task r s = Some (r', s') /\ sched_ok s' l' rs0.
Proof.
  intros Hok. unfold task_exit. case_goal; [eauto|].
  assert (sched_ok (upd (current_task s) (set_state ZOMBIE) s) l rs0) as Hok1.
  { apply ok_upd; [done|apply (so_cur _ _ _ _ Hok)|apply keeps_links_state]. }
  destruct (schedule_spec kernel_task _ l rs0 r Hok1) as (l1 & l2 & s' & _ & -> & Hok' & _). cbn. eauto.
Qed.

Lemma reach_ok rs0 s : kernel_task <> 0 -> sched_reach rs0 s -> exists l, sched_ok s l rs0.
Proof.
  intros Hk. induction 1 as [s ? ? ? ?|s name e t s' _ [l Hok] E|s pid r s' _ [l Hok] E|s r r' s' _ [l Hok] E|s r r' s' _ [l Hok] E].
  - exists []. by apply init_ok.
  - destruct (create_total s l rs0 name e Hok) as (t1 & s1 & l' & E1 & Hok'). rewrite E in E1. injection E1 as -> ->. eauto.
  - destruct (kill_total s l rs0 pid Hok) as (t1 & s1 & E1 & Hok'). rewrite E in E1. injection E1 as -> ->. eauto.
  - destruct (tick_total s l rs0 r Hok) as (t1 & s1 & l' & E1 & Hok'). rewrite E in E1. injection E1 as -> ->. eauto.
  - destruct (exit_total s l rs0 r Hok) as (t1 & s1 & l' & E1 & Hok'). rewrite E in E1. injection E1 as -> ->. eauto.
Qed.

(** C13: in every reachable state the ring is well formed: it holds at most
    [MAX_TASKS] tasks without repetition, the memory in use is that of the
    tasks of the ring and of the other clients, the running task is in the
    ring, and no operation runs around the ring forever. *)
Theorem sched_reach_safe rs0 s :
  kernel_task <> 0 -> sched_reach rs0 s ->
  (exists l, sched_ok s l rs0 /\ scheduler_get_task_list s = Some (kernel_task, 1 + lenZ l) /\ 1 + lenZ l <= MAX_TASKS) /\
  (forall name e, is_Some (task_create task_exit_addr name e s)) /\ (forall pid, is_Some (task_kill pid s)) /\
  (forall r, is_Some (scheduler_tick kernel_task r s)) /\ (forall r, is_Some (task_exit kernel_task r s)).
Proof.
  intros Hk Hreach. destruct (reach_ok rs0 s Hk Hreach) as [l Hok]. split_and!.
  - exists l. split; [done|]. split; [by apply (get_task_list_spec kernel_task s l rs0)|].
    pose proof (so_len _ _ _ _ Hok). unfold MAX_TASKS in *. lia.
  - intros name e. destruct (create_total s l rs0 name e Hok) as (t & s' & l' & -> & _). eauto.
  - intros pid. destruct (kill_total s l rs0 pid Hok) as (t & s' & -> & _). eauto.
  - intros r. destruct (tick_total s l rs0 r Hok) as (t & s' & l' & -> & _). eauto.
  - intros r. destruct (exit_total s l rs0 r Hok) as (t & s' & l' & -> & _). eauto.
Qed.

(** * Fairness *)

(** A sequence of timer ticks, with the register frames they push. *)
Fixpoint run_ticks (regs : list Z) s : option (sched A) :=
  match regs with
  | [] => Some s
  | r :: regs => '(_, s) ← scheduler_tick kernel_task r s; run_ticks regs s
  end.

(** The survivors, read from the running task onwards. *)
Lemma survivors_turn s l rs0 c W :
  sched_ok s l rs0 -> reapable s c = false -> turn (kernel_task :: l) (c :: W) ->
  exists W', turn (kernel_task :: survivors s l) (c :: W') /\
    forall x y z, W = x ++ y :: z -> reapable s y = false ->
      exists x' z', W' = x' ++ y :: z' /\ (length x' <= length x)%nat.
Proof.
  intros Hok Hc Ht. set (keep := fun q => q = kernel_task \/ reapable s q = false).
  assert (forall q, Decision (keep q)) as Hdec by (intros q; unfold keep; apply _).
  pose proof (so_nd _ _ _ _ Hok) as [Hk _]%NoDup_cons.
  assert (filter keep (kernel_task :: l) = kernel_task :: survivors s l) as E.
  { rewrite filter_cons_True by by left. f_equal. unfold survivors. clear Ht Hok.
    induction l as [|a l IH]; [done|]. apply not_elem_of_cons in Hk as [Hka Hk]. rewrite !filter_cons.
    destruct (decide (keep a)) as [[->|Ha]|Ha]; [done| |].
    - rewrite decide_True by done. f_equal. by apply IH.
    - rewrite decide_False by (intros ?; apply Ha; by right). by apply IH. }
  apply (turn_filter keep) in Ht. rewrite E, filter_cons_True in Ht by by right.
  exists (filter keep W). split; [done|]. intros x y z -> Hy.
  exists (filter keep x), (filter keep z). rewrite filter_app, filter_cons_True by by right.
  split; [done|apply length_filter].
Qed.

Lemma first_such_split f (pre post : list Z) p d :
  f p = true ->
  exists n pre1 rest, first_such f (pre ++ p :: post) d = n /\ f n = true /\
    ((n = p) \/ (pre = pre1 ++ n :: rest)).
Proof.
  intros Hp. unfold first_such. induction pre as [|a pre IH]; cbn [app]; rewrite filter_cons.
  { rewrite decide_True by done. exists p, [], []. auto. }
  destruct (f a) eqn:Ea; [rewrite decide_True by done; exists a, [], pre; auto|].
  rewrite decide_False by done. destruct IH as (n & pre1 & rest & E & Hn & [->| ->]).
  - exists p, [], []. auto.
  - exists n, (a :: pre1), rest. auto.
Qed.

(** A runnable task moves towards the front of the ring with every tick. *)
Lemma tick_approaches s l rs0 r pre p post :
  sched_ok s l rs0 -> runs s p = true -> turn (kernel_task :: l) (current_task s :: pre ++ p :: post) ->
  exists r' s' l', scheduler_tick kernel_task r s = Some (r', s') /\ sched_ok s' l' rs0 /\ runs s' p = true /\
    (current_task s' = p \/
     exists pre' post', turn (kernel_task :: l') (current_task s' :: pre' ++ p :: post') /\
       (length pre' < length pre)%nat).
Proof.
  intros Hok Hp Ht. destruct (ticked_ok s l rs0 r Hok) as (-> & Hok1 & Hst).
  assert (forall q, runs (ticked s) q = runs s q) as Hruns by (intros q; unfold runs; by rewrite Hst).
  destruct (schedule_spec kernel_task (ticked s) l rs0 r Hok1) as (l1 & l2 & s' & El & Es & Hok' & Hc & _ & _ & Hsw).
  change (current_task (ticked s)) with (current_task s) in *. set (c := current_task s) in *.
  assert (reapable (ticked s) p = false) as Hpz.
  { unfold reapable. unfold runs, runnable in Hp. rewrite Hst. by destruct (t_state (task_at s p)). }
  destruct (survivors_turn (ticked s) l rs0 c (pre ++ p :: post) Hok1 (reapable_current (ticked s)) Ht) as (W & HW & Hsplit).
  destruct (Hsplit pre p post eq_refl Hpz) as (x & z & -> & Hlen).
  set (k := survivors (ticked s) l) in *.
  pose proof (turn_from _ _ _ _ _ (so_nd _ _ _ _ Hok') HW El) as Ew. rewrite <- Ew in *.
  set (n := round_robin (ticked s) (x ++ p :: z)) in *.
  eexists _, s', k. split; [exact Es|]. split; [done|].
  assert (p ∈ kernel_task :: k) as Hpin.
  { rewrite El, elem_of_app, elem_of_cons. assert (p ∈ l2 ++ l1) as Hin; [|rewrite elem_of_app in Hin; tauto].
    rewrite <- Ew, elem_of_app, elem_of_cons. tauto. }
  split.
  { destruct (Hsw p Hpin) as (_ & _ & _ & _ & _ & E). unfold runs in *. rewrite E, !Hst.
    destruct (n =? c); [done|]. destruct (p =? n); [done|]. case_goal; done. }
  destruct (first_such_split (runs (ticked s)) x z p (if runs (ticked s) c then c else kernel_task)) as (n' & x1 & x2 & En & _ & Hcase).
  { by rewrite Hruns. }
  assert (n = n') as -> by (unfold n, SchedSpec.round_robin; exact En).
  destruct Hcase as [->|Hx]; [by left|right]. rewrite Hc.
  exists x2, (z ++ c :: x1). split.
  - rewrite Hx in HW. 
    assert ((c :: x1) ++ n' :: x2 ++ p :: z = c :: (x1 ++ n' :: x2) ++ p :: z) as E1 by (cbn; by rewrite <- !app_assoc).
    assert (n' :: x2 ++ p :: z ++ c :: x1 = (n' :: x2 ++ p :: z) ++ c :: x1) as E2 by (cbn; by rewrite <- app_assoc).
    rewrite E2. apply turn_app. by rewrite E1.
  - rewrite Hx, length_app in Hlen. simpl in Hlen. lia.
Qed.

Lemma ticks_reach rs0 p m : forall s l pre post regs,
  sched_ok s l rs0 -> runs s p = true -> turn (kernel_task :: l) (current_task s :: pre ++ p :: post) ->
  (length pre < m)%nat -> (m <= length regs)%nat ->
  exists n s', (n <= m)%nat /\ run_ticks (take n regs) s = Some s' /\ current_task s' = p.
Proof.
  induction m as [|m IH]; intros s l pre post regs Hok Hr Ht Hm Hregs; [lia|].
  destruct regs as [|r regs]; simpl in Hregs; [lia|].
  destruct (tick_approaches s l rs0 r pre p post Hok Hr Ht) as (r' & s1 & l' & E & Hok1 & Hr1 & [Hc|(pre' & post' & Ht1 & Hlt)]).
  - exists 1%nat, s1. split_and!; [lia| |done]. cbn. rewrite E. done.
  - destruct (IH s1 l' pre' post' regs Hok1 Hr1 Ht1) as (n & s' & Hn & Hrun & Hc); [lia|lia|].
    exists (S n), s'. split_and!; [lia| |done]. cbn. rewrite E. exact Hrun.
Qed.

(** C14: the scheduler is fair.  Whatever else the ring holds, a task that
    is ready gets the processor after at most as many timer ticks as there
    are tasks besides task 0. *)
Theorem round_robin_fair s l rs0 p regs :
  sched_ok s l rs0 -> p ∈ kernel_task :: l -> runs s p = true -> (length l <= length regs)%nat ->
  exists n s', (n <= length l)%nat /\ run_ticks (take n regs) s = Some s' /\ current_task s' = p.
Proof.
  intros Hok Hp Hr Hlen.
  destruct (decide (current_task s = p)) as [<-|Hne]; [exists 0%nat, s; split_and!; auto; lia|].
  destruct (list_elem_of_split _ _ (so_cur _ _ _ _ Hok)) as (l1 & l2 & E).
  assert (p ∈ l2 ++ l1) as Hin.
  { rewrite E, elem_of_app, elem_of_cons in Hp. rewrite elem_of_app. destruct Hp as [?|[->|?]]; tauto. }
  destruct (list_elem_of_split _ _ Hin) as (pre & post & Ew).
  apply (ticks_reach rs0 p (length l) s l pre post regs); auto.
  - exists l1, (current_task s :: l2). split; [done|]. cbn. by rewrite Ew.
  - apply (f_equal length) in E, Ew. rewrite !length_app in *. simpl in *. lia.
Qed.
End run.

(** * The kernel's instance *)

(** With the kernel heap as the allocator, a static structure below the heap
    is never handed out. *)
Lemma heap_static (a a' : heap) rs n p :
  al_repr a rs -> al_request a n -> al_zalloc n a = Some (p, a') -> p <> 4096.
Proof.
  intros Hr Hq E. destruct (al_zalloc_law a rs n Hr Hq) as (p1 & a1 & E1 & _ & _ & Hc).
  rewrite E in E1. injection E1 as <- <-.
  destruct Hc as [[-> _]|(_ & k & rs' & _ & Hp & _ & Hr' & _)]; [lia|].
  destruct (repr_region a' rs' (p, k) Hr'); [rewrite Hp; apply elem_of_cons; by left|]. simpl in *. lia.
Qed.

Definition sched_boot : sched heap := Sched ∅ 0 0 0 0 heap_example.
Definition sched_example : sched heap := scheduler_init 4096 sched_boot.

Lemma sched_example_ok : sched_ok 4096 sched_example [] [].
Proof.
  apply init_ok; [reflexivity|lia|exact heap_example_repr| |]; apply heap_example_request;
    unfold TASK_STRUCT_SIZE, STACK_SIZE; lia.
Qed.

(** A second task, created on the example heap. *)
Lemma sched_example_create : fst <$> task_create 8192 None 65536 sched_example = Some 4194328.
Proof. vm_compute. reflexivity. Qed.

Lemma sched_example_two :
  exists s, task_create 8192 None 65536 sched_example = Some (4194328, s) /\
    sched_ok 4096 s [4194328] [] /\ runs s 4194328 = true /\ t_id (task_at s 4194328) = 1.
Proof.
  pose proof sched_example_create as E0.
  assert (65536 <> 0) as He by discriminate.
  destruct (create_spec 4096 8192 heap_static sched_example [] [] None 65536 sched_example_ok He)
    as (t & s & E & _ & _ & Hc).
  rewrite E in E0. injection E0 as ->.
  destruct Hc as [(Ht & _)|(_ & _ & Hok & _ & _ & regs & st & n & p & Et & _)]; [discriminate Ht|].
  exists s. split; [exact E|]. split; [exact Hok|]. unfold runs. rewrite Et. split; reflexivity.
Qed.

Lemma scheduler_schedule_correct_witness :
  exists s s' r, sched_ok 4096 s [4194328] [] /\ scheduler_schedule 4096 12288 s = Some (r, s').
Proof.
  destruct sched_example_two as (s & _ & Hok & _).
  destruct (scheduler_schedule_correct 4096 s [4194328] [] 12288 Hok) as (l1 & l2 & s' & _ & E & _).
  eexists s, s', _. split; [exact Hok|exact E].
Defined.

Lemma task_create_correct_witness :
  exists s regs, task_create 8192 None 65536 sched_example = Some (4194328, s) /\
    al_word (mem_of s) (regs + 56) = 65536 /\ al_word (mem_of s) (regs + 68) = 8192.
Proof.
  destruct (task_create_correct 4096 8192 heap_static sched_example [] [] None 65536 sched_example_ok)
    as (t & s & E & _ & _ & Hc); [discriminate|].
  pose proof sched_example_create as E0. rewrite E in E0. injection E0 as ->.
  destruct Hc as [(Ht & _)|(_ & _ & _ & _ & _ & regs & st & n & p & _ & _ & _ & Hw)]; [discriminate Ht|].
  exists s, regs. split; [exact E|].
  split; [exact (f_equal (fun l => nthZ 0 l 14) Hw)|exact (f_equal (fun l => nthZ 0 l 17) Hw)].
Defined.

Lemma task_kill_correct_witness :
  exists s s' r, sched_ok 4096 s [4194328] [] /\ task_kill 1 s = Some (r, s') /\ sched_ok 4096 s' [4194328] [].
Proof.
  destruct sched_example_two as (s & _ & Hok & _).
  destruct (task_kill_correct 4096 s [4194328] [] 1 Hok) as (r & s' & E & Hok' & _).
  exists s, s', r. split; [exact Hok|]. split; [exact E|exact Hok'].
Defined.

Lemma sched_reach_safe_witness :
  sched_reach 4096 8192 [] sched_example /\ is_Some (task_create 8192 None 65536 sched_example).
Proof.
  assert (sched_reach 4096 8192 [] sched_example) as Hr.
  { apply reach_init; [reflexivity|exact heap_example_repr| |]; apply heap_example_request;
      unfold TASK_STRUCT_SIZE, STACK_SIZE; lia. }
  split; [exact Hr|].
  destruct (sched_reach_safe 4096 8192 heap_static [] sched_example) as (_ & H & _); [discriminate|exact Hr|].
  exact (H None 65536).
Defined.

Lemma round_robin_fair_witness :
  exists s n s', sched_ok 4096 s [4194328] [] /\ runs s 4194328 = true /\ (n <= 1)%nat /\
    run_ticks 4096 (take n [12288]) s = Some s' /\ current_task s' = 4194328.
Proof.
  destruct sched_example_two as (s & _ & Hok & Hr & _).
  destruct (round_robin_fair 4096 s [4194328] [] 4194328 [12288] Hok) as (n & s' & Hn & E & Hc).
  - apply elem_of_cons. right. apply elem_of_cons. left. reflexivity.
  - exact Hr.
  - simpl. lia.
  - exists s, n, s'. split; [exact Hok|]. split; [exact Hr|]. split; [exact Hn|]. split; [exact E|exact Hc].
Defined.
