(* ===== verification/Paging.v ===== *)
(** Paging: the x86 page directory and page tables of [kernel/paging.c].

    The directory and the tables are pages of the memory of [Memory]; the
    kernel reaches them through its identity map, so a table pointer is a
    physical address.  The linker symbol [bss_end] and the address of the
    static pool of tables are parameters; the control registers and the
    [invlpg] instructions are recorded in the state. *)

From S2P Require Import Prelude Memory Common Pmm.

Definition PAGE_PRESENT : Z := 1.
Definition PAGE_WRITABLE : Z := 2.
Definition PAGE_USER : Z := 4.
Definition PAGE_PWT : Z := 8.
Definition PAGE_PCD : Z := 16.
Definition IDENTITY_MAP_TABLES : Z := 8.
Definition IDENTITY_MAP_SIZE : Z := IDENTITY_MAP_TABLES * 4 * 1024 * 1024.
Definition STATIC_PT_POOL_COUNT : Z := 32.

Record paging := Paging {
  pg_mem : mem;
  pg_pmm : pmm_state;
  page_dir : Z;
  static_pt_used : Z;
  cr3 : Z;
  cr0 : Z;
  invalidated : list Z
}.

Definition with_pg_mem (m : mem) (s : paging) : paging :=
  Paging m (pg_pmm s) (page_dir s) (static_pt_used s) (cr3 s) (cr0 s) (invalidated s).
Definition with_pg_pmm (p : pmm_state) (s : paging) : paging :=
  Paging (pg_mem s) p (page_dir s) (static_pt_used s) (cr3 s) (cr0 s) (invalidated s).

(** [pt[i]] and [pt[i] = v] for a table at [pt]. *)
Definition slot (pt i : Z) : Z := u32 (pt + 4 * i).
Definition get_slot (s : paging) (pt i : Z) : Z := ld32 (pg_mem s) (slot pt i).
Definition set_slot (pt i v : Z) (s : paging) : paging := with_pg_mem (st32 (pg_mem s) (slot pt i) v) s.

Definition present (e : Z) : bool := negb (Z.land e PAGE_PRESENT =? 0).
Definition frame_of (e : Z) : Z := Z.land e (Z.lnot 4095).
Definition pd_index (virt : Z) : Z := Z.shiftr virt 22.
Definition pt_index (virt : Z) : Z := Z.land (Z.shiftr virt 12) 1023.

Definition paging_invalidate (virt : Z) (s : paging) : paging :=
  Paging (pg_mem s) (pg_pmm s) (page_dir s) (static_pt_used s) (cr3 s) (cr0 s) (invalidated s ++ [virt]).

Section paging.
(** [&bss_end] and [static_pt_pool]. *)
Context (bss_end static_pt_pool : Z).

Definition alloc_page_table (s : paging) : option (Z * paging) :=
  if static_pt_used s <? STATIC_PT_POOL_COUNT then
    let pt := u32 (static_pt_pool + static_pt_used s * PAGE_SIZE) in
    m ← memset (pg_mem s) pt 0 PAGE_SIZE;
    Some (pt, Paging m (pg_pmm s) (page_dir s) (static_pt_used s + 1) (cr3 s) (cr0 s) (invalidated s))
  else
    let '(phys, p) := pmm_alloc_frame (pg_pmm s) in
    let s := with_pg_pmm p s in
    if negb (phys =? 0) && (phys <? IDENTITY_MAP_SIZE) then
      m ← memset (pg_mem s) phys 0 PAGE_SIZE;
      Some (phys, with_pg_mem m s)
    else if negb (phys =? 0) then Some (0, with_pg_pmm (pmm_free_frame phys (pg_pmm s)) s)
    else Some (0, s).

Definition kernel_end : Z := ALIGN_UP bss_end PAGE_SIZE.

(** The entries of one identity table. *)
Definition identity_table (pt pt_idx : Z) (s : paging) : paging :=
  for_range 0 1024 (fun pg_idx s =>
    let addr := pt_idx * 4 * 1024 * 1024 + pg_idx * PAGE_SIZE in
    set_slot pt pg_idx (Z.lor (Z.lor addr PAGE_PRESENT) PAGE_WRITABLE) s) s.

(** The two loops that fill the directory. *)
Definition identity_tables (dir pts : Z) (s : paging) : paging :=
  for_range 0 IDENTITY_MAP_TABLES (fun pt_idx s =>
    let pt := u32 (pts + pt_idx * 1024 * 4) in
    let s := set_slot dir pt_idx (Z.lor (Z.lor pt PAGE_PRESENT) PAGE_WRITABLE) s in
    identity_table pt pt_idx s) s.
Definition unmapped_entries (dir : Z) (s : paging) : paging :=
  for_range IDENTITY_MAP_TABLES 1024 (fun i s => set_slot dir i PAGE_WRITABLE s) s.

Definition paging_install (s : paging) : option paging :=
  let dir := kernel_end in
  let pts := u32 (kernel_end + PAGE_SIZE) in
  m ← memset (pg_mem s) dir 0 PAGE_SIZE;
  let s := Paging m (pg_pmm s) dir (static_pt_used s) (cr3 s) (cr0 s) (invalidated s) in
  let s := identity_tables dir pts s in
  let s := unmapped_entries dir s in
  Some (Paging (pg_mem s) (pg_pmm s) dir (static_pt_used s) dir (Z.lor (cr0 s) 2147483648) (invalidated s)).

(** The directory entry of a new table. *)
Definition new_pde (pt flags : Z) : Z :=
  Z.lor (Z.lor (Z.lor pt PAGE_PRESENT) PAGE_WRITABLE)
        (Z.land flags (Z.lor (Z.lor PAGE_USER PAGE_PWT) PAGE_PCD)).

Definition paging_map (virt phys flags : Z) (s : paging) : option paging :=
  if page_dir s =? 0 then Some s else
  let e := get_slot s (page_dir s) (pd_index virt) in
  let store pt s :=
    paging_invalidate virt
      (set_slot pt (pt_index virt) (Z.lor (frame_of phys) (Z.lor flags PAGE_PRESENT)) s) in
  if present e then Some (store (frame_of e) s)
  else
    '(pt, s) ← alloc_page_table s;
    if pt =? 0 then Some s
    else Some (store pt (set_slot (page_dir s) (pd_index virt) (new_pde pt flags) s)).

Definition paging_map_region (virt phys size flags : Z) (s : paging) : option paging :=
  if size =? 0 then Some s else
  let offset := Z.land phys (PAGE_SIZE - 1) in
  let v_base := ALIGN_DOWN virt PAGE_SIZE in
  let p_base := ALIGN_DOWN phys PAGE_SIZE in
  let total := ALIGN_UP (u32 (size + offset)) PAGE_SIZE in
  for_range 0 (total / PAGE_SIZE) (fun i os =>
    s ← os; paging_map (u32 (v_base + i * PAGE_SIZE)) (u32 (p_base + i * PAGE_SIZE)) flags s) (Some s).

Definition paging_unmap (virt : Z) (s : paging) : paging :=
  if page_dir s =? 0 then s else
  let e := get_slot s (page_dir s) (pd_index virt) in
  if negb (present e) then s
  else paging_invalidate virt (set_slot (frame_of e) (pt_index virt) 0 s).

Definition paging_get_physical (virt : Z) (s : paging) : Z :=
  if page_dir s =? 0 then virt else
  let e := get_slot s (page_dir s) (pd_index virt) in
  if negb (present e) then 0 else
  let p := get_slot s (frame_of e) (pt_index virt) in
  if negb (present p) then 0
  else Z.lor (frame_of p) (Z.land virt 4095).
End paging.
