(* ===== verification/PagingSpec.v ===== *)
(** PagingSpec: the page tables implement a partial map from virtual pages to
    page-table entries; mapping and unmapping a page changes that map at this
    page only, and installing the tables makes it the identity on the first
    32 MiB. *)

From S2P Require Import Prelude Memory Common Pmm Paging.

(** * Entries *)

Definition is_page (a : Z) : Prop := a mod 4096 = 0 /\ 0 < a /\ a + 4096 < 4294967296.

Lemma frame_of_eq e : frame_of e = e / 4096 * 4096.
Proof. exact (land_lnot_ones e 12 ltac:(lia)). Qed.

Lemma present_odd e : present e = Z.odd e.
Proof.
  unfold present, PAGE_PRESENT. rewrite land_1, Zmod_odd.
  by destruct (Z.odd e).
Qed.

Lemma lor_low_bound a b : 0 <= a < 4096 -> 0 <= b < 4096 -> 0 <= Z.lor a b < 4096.
Proof.
  intros Ha Hb. split; [apply Z.lor_nonneg; lia|].
  destruct (Z.eq_dec (Z.lor a b) 0) as [->|Hne]; [lia|].
  assert (0 < Z.lor a b) by (assert (0 <= Z.lor a b) by (apply Z.lor_nonneg; lia); lia).
  apply (Z.log2_lt_pow2 _ 12); [done|]. rewrite Z.log2_lor by lia.
  apply Z.max_lub_lt.
  - destruct (Z.eq_dec a 0) as [->|]; [done|]. apply Z.log2_lt_pow2; lia.
  - destruct (Z.eq_dec b 0) as [->|]; [done|]. apply Z.log2_lt_pow2; lia.
Qed.

Lemma lor_page_low p w : p mod 4096 = 0 -> 0 <= w < 4096 -> Z.lor p w = p + w.
Proof.
  intros Hp Hw. rewrite Z.lor_comm, (Z.div_mod p 4096) at 1 by lia. rewrite Hp, Z.add_0_r, (Z.mul_comm 4096).
  rewrite lor_disjoint_add; [|apply (land_low_high _ _ 12); lia]. zlia.
Qed.

Lemma odd_lor_1 w : Z.odd (Z.lor w 1) = true.
Proof. rewrite <- Z.bit0_odd, Z.lor_spec. apply orb_true_r. Qed.

(** A page address with low bits: the address, and whether it is present. *)
Lemma entry_parts p w :
  p mod 4096 = 0 -> 0 <= w < 4096 ->
  frame_of (Z.lor p w) = p /\ present (Z.lor p w) = Z.odd w.
Proof.
  intros Hp Hw. rewrite lor_page_low, frame_of_eq, present_odd by done. split; [zlia|].
  rewrite Z.odd_add. replace (Z.odd p) with false; [by destruct (Z.odd w)|].
  symmetry. rewrite (Z.div_mod p 4096), Hp, Z.add_0_r, Z.odd_mul by lia. done.
Qed.

Lemma new_pde_parts pt flags :
  pt mod 4096 = 0 -> frame_of (new_pde pt flags) = pt /\ present (new_pde pt flags) = true /\
  (is_page pt -> is_u32 (new_pde pt flags)).
Proof.
  intros Hp. unfold new_pde. rewrite <- !Z.lor_assoc.
  set (w := Z.lor PAGE_PRESENT _).
  assert (0 <= w < 4096 /\ Z.odd w = true) as [Hw Ho].
  { unfold w. rewrite Z.lor_comm. split; [|apply odd_lor_1]. apply lor_low_bound; [|done].
    apply lor_low_bound; [done|]. rewrite Z.land_comm. change (Z.lor PAGE_USER (Z.lor PAGE_PWT PAGE_PCD)) with 28.
    pose proof (land_nonneg_l 28 flags ltac:(lia)). lia. }
  destruct (entry_parts pt w Hp Hw) as [-> ->]. split_and!; auto.
  intros (_ & ? & ?). rewrite lor_page_low by done. unfold is_u32. lia.
Qed.

Lemma slot_eq pt i : is_page pt -> 0 <= i < 1024 -> slot pt i = pt + 4 * i.
Proof. intros (_ & ? & ?) ?. unfold slot. apply u32_id. lia. Qed.

Lemma slot_apart a i b j :
  is_page a -> is_page b -> 0 <= i < 1024 -> 0 <= j < 1024 -> (a <> b \/ i <> j) ->
  slot a i + 4 <= slot b j \/ slot b j + 4 <= slot a i.
Proof. intros Ha Hb Hi Hj Hne. rewrite !slot_eq by done. destruct Ha, Hb. zlia. Qed.

Lemma index_range v : is_u32 v -> 0 <= pd_index v < 1024 /\ 0 <= pt_index v < 1024.
Proof.
  unfold is_u32, pd_index, pt_index. intros Hv. rewrite !Z.shiftr_div_pow2 by lia.
  rewrite land_1023. change (2 ^ 22) with 4194304. change (2 ^ 12) with 4096. zlia.
Qed.

(** Two addresses have the same indices exactly when they are on one page. *)
Lemma index_page v w :
  is_u32 v -> is_u32 w -> (pd_index v = pd_index w /\ pt_index v = pt_index w <-> v / 4096 = w / 4096).
Proof.
  unfold is_u32, pd_index, pt_index. intros Hv Hw. rewrite !Z.shiftr_div_pow2 by lia.
  rewrite !land_1023. change (2 ^ 22) with (4096 * 1024). change (2 ^ 12) with 4096.
  rewrite <- !Z.div_div by lia. split; [|by intros ->]. intros [H1 H2].
  rewrite (Z.div_mod (v / 4096) 1024), (Z.div_mod (w / 4096) 1024) by lia. congruence.
Qed.

(** * The abstract map *)

Definition pde (s : paging) (i : Z) : Z := get_slot s (page_dir s) i.
Definition table (s : paging) (i : Z) : Z := frame_of (pde s i).

(** The page-table entry that translates [v], if the page is mapped. *)
Definition mapping (s : paging) (v : Z) : option Z :=
  if present (pde s (pd_index v)) then
    let e := get_slot s (table s (pd_index v)) (pt_index v) in
    if present e then Some e else None
  else None.

Section spec.
Context (bss_end static_pt_pool : Z).
Implicit Types s : paging.

(** A table of the static pool that is not in use yet. *)
Definition spare s (a : Z) : Prop :=
  exists j, static_pt_used s <= j < STATIC_PT_POOL_COUNT /\ a = static_pt_pool + j * PAGE_SIZE.

(** A page that the directory or a table may live on: neither a spare table
    nor a frame that the frame allocator could hand out. *)
Definition held s (a : Z) : Prop :=
  is_page a /\ ~ spare s a /\ frame_used (pg_pmm s) (a / 4096) = true.

Record paging_ok s : Prop := {
  po_dir : held s (page_dir s);
  po_table i : 0 <= i < 1024 -> present (pde s i) = true -> held s (table s i) /\ table s i <> page_dir s;
  po_inj i j : 0 <= i < 1024 -> 0 <= j < 1024 -> present (pde s i) = true -> present (pde s j) = true ->
    table s i = table s j -> i = j;
  po_pool j : 0 <= j < STATIC_PT_POOL_COUNT ->
    is_page (static_pt_pool + j * PAGE_SIZE) /\ frame_used (pg_pmm s) ((static_pt_pool + j * PAGE_SIZE) / 4096) = true;
  po_used : 0 <= static_pt_used s <= STATIC_PT_POOL_COUNT;
  po_pmm : pmm_wf (pg_pmm s)
}.

Lemma held_mono s s' a :
  held s a -> static_pt_used s <= static_pt_used s' ->
  frame_used (pg_pmm s') (a / 4096) = true -> held s' a.
Proof.
  intros (Hp & Hs & _) Hle Hu. split_and!; auto. intros (j & Hj & ->). apply Hs. exists j. split; [lia|done].
Qed.

Lemma get_physical_mapping s v :
  page_dir s <> 0 ->
  paging_get_physical v s = match mapping s v with Some e => Z.lor (frame_of e) (Z.land v 4095) | None => 0 end.
Proof.
  intros Hd. unfold paging_get_physical, mapping. destruct (Z.eqb_spec (page_dir s) 0); [done|].
  fold (pde s (pd_index v)). destruct (present (pde s (pd_index v))); [|done]. cbn [negb].
  unfold table. by destruct (present (get_slot s (frame_of (pde s (pd_index v))) (pt_index v))).
Qed.

(** ** Storing an entry *)

Lemma get_set_slot s a i b j v :
  is_page a -> is_page b -> 0 <= i < 1024 -> 0 <= j < 1024 ->
  get_slot (set_slot a i v s) b j = if decide (a = b /\ i = j) then u32 v else get_slot s b j.
Proof.
  intros Ha Hb Hi Hj. unfold get_slot, set_slot. cbn [pg_mem with_pg_mem]. case_decide as Hd.
  - destruct Hd as [-> ->]. apply ld32_st32_eq.
  - apply ld32_st32_ne. apply slot_apart; auto. destruct (decide (a = b)); [right|left]; tauto.
Qed.

(** Writing a slot of a table that is in the directory. *)
Lemma set_pte_ok s i k v :
  paging_ok s -> 0 <= i < 1024 -> present (pde s i) = true -> 0 <= k < 1024 ->
  let s' := set_slot (table s i) k v s in
  paging_ok s' /\ (forall j, 0 <= j < 1024 -> pde s' j = pde s j) /\
  forall j m, 0 <= j < 1024 -> present (pde s j) = true -> 0 <= m < 1024 ->
    get_slot s' (table s' j) m = if decide (j = i /\ m = k) then u32 v else get_slot s (table s j) m.
Proof.
  intros Hok Hi Hp Hk s'. destruct (po_table s Hok i Hi Hp) as [(Htp & _) Hne].
  destruct (po_dir s Hok) as (Hdp & _).
  assert (forall j, 0 <= j < 1024 -> pde s' j = pde s j) as Hpde.
  { intros j Hj. unfold pde. change (page_dir s') with (page_dir s). unfold s'.
    rewrite get_set_slot by done. rewrite decide_False by tauto. done. }
  assert (forall j, 0 <= j < 1024 -> table s' j = table s j) as Htab by (intros j Hj; unfold table; by rewrite Hpde).
  split_and!; auto.
  - destruct Hok as [H1 H2 H3 H4 H5 H6]. split; auto.
    + intros j Hj Hj'. rewrite Htab by done. rewrite Hpde in Hj' by done. exact (H2 j Hj Hj').
    + intros j1 j2 Hj1 Hj2. rewrite !Hpde, !Htab by done. auto.
  - intros j m Hj Hpj Hm. rewrite Htab by done. unfold s'.
    destruct (po_table s Hok j Hj Hpj) as [(Htj & _) _]. rewrite get_set_slot by done.
    destruct (decide (j = i /\ m = k)) as [[-> ->]|Hd]; [by rewrite decide_True|].
    rewrite decide_False; [done|]. intros [Ht ->]. apply Hd. split; [|done].
    symmetry. by apply (po_inj s Hok).
Qed.

Lemma mapping_set_pte s i k v w :
  paging_ok s -> 0 <= i < 1024 -> present (pde s i) = true -> 0 <= k < 1024 -> is_u32 w ->
  mapping (set_slot (table s i) k v s) w =
    if decide (pd_index w = i /\ pt_index w = k) then (if present (u32 v) then Some (u32 v) else None)
    else mapping s w.
Proof.
  intros Hok Hi Hp Hk Hw. destruct (index_range w Hw) as [Hd Ht].
  destruct (set_pte_ok s i k v Hok Hi Hp Hk) as (_ & Hpde & Hpte).
  unfold mapping. rewrite Hpde by done. destruct (present (pde s (pd_index w))) eqn:Ep.
  - rewrite Hpte by done. by case_decide.
  - rewrite decide_False; [done|]. intros [E _]. by rewrite E, Hp in Ep.
Qed.

(** ** Allocating a table *)

Lemma get_slot_fill m s a b j :
  is_page a -> is_page b -> 0 <= j < 1024 -> pg_mem s = fill m a 0 PAGE_SIZE ->
  get_slot s b j = if decide (a = b) then 0 else ld32 m (slot b j).
Proof.
  intros Ha Hb Hj Hm. unfold get_slot. rewrite Hm, slot_eq by done.
  destruct Ha as (? & ? & ?), Hb as (? & ? & ?). unfold PAGE_SIZE. case_decide as Hd.
  - subst. unfold ld32. rewrite !ld8_fill by lia. by rewrite !decide_True by lia.
  - apply ld32_ext. intros x Hx. rewrite ld8_fill by lia. rewrite decide_False by zlia. done.
Qed.

(** The invariant only depends on the directory and on what is held. *)
Lemma ok_mono s s' :
  paging_ok s -> page_dir s' = page_dir s ->
  (forall j, 0 <= j < 1024 -> pde s' j = pde s j) ->
  static_pt_used s <= static_pt_used s' <= STATIC_PT_POOL_COUNT ->
  (forall g, 0 <= g < num_frames -> frame_used (pg_pmm s) g = true -> frame_used (pg_pmm s') g = true) ->
  pmm_wf (pg_pmm s') -> paging_ok s'.
Proof.
  intros Hok Hd Hpde Hu Hf Hw.
  assert (forall a, is_page a -> frame_used (pg_pmm s) (a / 4096) = true -> frame_used (pg_pmm s') (a / 4096) = true) as Hf'.
  { intros a (? & ? & ?). apply Hf. unfold num_frames, BITMAP_SIZE. zlia. }
  assert (forall a, held s a -> held s' a) as Hh.
  { intros a Ha. apply (held_mono s); [done|lia|]. destruct Ha as (? & _ & ?). auto. }
  destruct Hok as [H1 H2 H3 H4 H5 H6]. split; auto; try (rewrite Hd; auto); try lia.
  - intros i Hi. unfold table. rewrite Hpde by done. intros Hp. destruct (H2 i Hi Hp) as [? ?]. auto.
  - intros i j Hi Hj. unfold table. rewrite !Hpde by done. auto.
  - intros j Hj. destruct (H4 j Hj) as [? ?]. auto.
Qed.

(** Neither the pool nor the memory that is mapped to itself has a page for a
    table; frame 0 counts as none. *)
Definition no_table s : Prop :=
  static_pt_used s = STATIC_PT_POOL_COUNT /\
  (frame_used (pg_pmm s) 0 = true -> forall g, 0 <= g < 8192 -> frame_used (pg_pmm s) g = true).

(** What [alloc_page_table] promises: a zeroed page that is neither the
    directory nor a table, or NULL with nothing taken. *)
Definition table_taken s (pt : Z) (s' : paging) : Prop :=
  paging_ok s' /\ page_dir s' = page_dir s /\ invalidated s' = invalidated s /\
  (forall b j, held s b -> 0 <= j < 1024 -> get_slot s' b j = get_slot s b j) /\
  ((pt = 0 /\ no_table s) \/
   (held s' pt /\ ~ held s pt /\ forall j, 0 <= j < 1024 -> get_slot s' pt j = 0)).

(** From the static pool. *)
Lemma pool_table_spec s :
  paging_ok s -> static_pt_used s < STATIC_PT_POOL_COUNT ->
  exists pt s', alloc_page_table static_pt_pool s = Some (pt, s') /\ table_taken s pt s'.
Proof.
  intros Hok Hlt. unfold alloc_page_table, table_taken. pose proof (po_used s Hok) as Hu. pose proof (po_dir s Hok) as Hdir.
  destruct (Z.ltb_spec (static_pt_used s) STATIC_PT_POOL_COUNT); [|lia].
  destruct (po_pool s Hok (static_pt_used s)) as [Hpg Hus]; [lia|]. destruct (Hpg) as (Hp0 & Hp1 & Hp2).
  set (pt := static_pt_pool + static_pt_used s * PAGE_SIZE) in *. rewrite (u32_id pt) by lia.
  rewrite memset_total by (unfold PAGE_SIZE, is_u8; lia). cbn [mbind option_bind].
  assert (~ held s pt) as Hnh by (intros (_ & Hsp & _); apply Hsp; exists (static_pt_used s); split; [lia|done]).
  set (s' := Paging _ _ _ _ _ _ _).
  assert (forall b j, held s b -> 0 <= j < 1024 -> get_slot s' b j = get_slot s b j) as Hget.
  { intros b j Hb Hj. rewrite (get_slot_fill (pg_mem s) s' pt b j) by (done || apply Hb).
    rewrite decide_False; [done|]. by intros ->. }
  assert (paging_ok s') as Hok'.
  { apply (ok_mono s); auto; cbn; try lia; [|apply Hok]. intros j Hj. apply Hget; auto. }
  exists pt, s'. split_and!; auto. right. split; [split; [exact Hpg|split; [|exact Hus]]|split; [exact Hnh|]].
  - intros (j & Hj & E). cbn in Hj. unfold pt, PAGE_SIZE in *. lia.
  - intros j Hj. rewrite (get_slot_fill (pg_mem s) s' pt pt j) by done. by rewrite decide_True.
Qed.

(** From the free frames, when the pool is used up. *)
Lemma frame_table_spec s :
  paging_ok s -> STATIC_PT_POOL_COUNT <= static_pt_used s ->
  exists pt s', alloc_page_table static_pt_pool s = Some (pt, s') /\ table_taken s pt s'.
Proof.
  intros Hok Hge. unfold alloc_page_table. pose proof (po_used s Hok) as Hu. pose proof (po_dir s Hok) as Hdir.
  destruct (Z.ltb_spec (static_pt_used s) STATIC_PT_POOL_COUNT); [lia|].
  pose proof (alloc_frame_cases (pg_pmm s) (po_pmm s Hok)) as Hcase.
  destruct (pmm_alloc_frame (pg_pmm s)) as [phys p].
  pose proof (wf_total _ (po_pmm s Hok)) as Htot. unfold table_taken, no_table.
  destruct Hcase as [(f & Hf & Hfree & Hlow & -> & Hwf & (Ht & _ & _ & Hup) & _)|(-> & -> & Hall)].
  2:{ cbn. exists 0, (with_pg_pmm (pg_pmm s) s). split_and!; auto; [apply (ok_mono s); auto; cbn; try lia; apply Hok|].
      left. split_and!; auto; [lia|]. intros _ g Hg. destruct (decide (g < total_frames (pg_pmm s))); [apply Hall; lia|].
      apply (wf_above _ (po_pmm s Hok)). unfold num_frames, BITMAP_SIZE. lia. }
  assert (forall g, 0 <= g < num_frames -> frame_used (pg_pmm s) g = true -> frame_used p g = true) as Hkeep.
  { intros g Hg Hus. rewrite Hup by done. by case_decide. }
  assert (paging_ok (with_pg_pmm p s)) as Hok1 by (apply (ok_mono s); auto; cbn; lia).
  cbn [pg_mem pg_pmm with_pg_pmm].
  destruct (Z.eqb_spec (f * PAGE_SIZE) 0) as [E0|Hf0]; cbn [negb andb].
  { exists 0, (with_pg_pmm p s). split_and!; auto. left. split_and!; auto; [lia|]. intros H0.
    assert (f = 0) as -> by (unfold PAGE_SIZE in E0; lia). congruence. }
  destruct (Z.ltb_spec (f * PAGE_SIZE) IDENTITY_MAP_SIZE) as [Hlo|Hhigh].
  - assert (is_page (f * PAGE_SIZE)) as Hpg.
    { unfold is_page, PAGE_SIZE, IDENTITY_MAP_SIZE, IDENTITY_MAP_TABLES in *. split; [|lia]. by rewrite Z.mod_mul. }
    destruct (Hpg) as (Hp0 & Hp1 & Hp2). rewrite memset_total by (unfold PAGE_SIZE, is_u8 in *; lia).
    cbn [mbind option_bind]. set (pt := f * PAGE_SIZE) in *.
    assert (pt / 4096 = f) as Edf by (unfold pt, PAGE_SIZE; by rewrite Z.div_mul).
    assert (~ held s pt) as Hnh by (intros (_ & _ & Hus); rewrite Edf in Hus; congruence).
    set (s' := with_pg_mem _ _).
    assert (forall b j, held s b -> 0 <= j < 1024 -> get_slot s' b j = get_slot s b j) as Hget.
    { intros b j Hb Hj. rewrite (get_slot_fill (pg_mem s) s' pt b j) by (done || apply Hb).
      rewrite decide_False; [done|]. by intros ->. }
    exists pt, s'. split_and!; auto.
    + apply (ok_mono s); auto; cbn; [|lia]. intros j Hj. apply Hget; auto.
    + right. split; [split; [exact Hpg|split]|split; [exact Hnh|]].
      * intros (j & Hj & _). cbn in Hj. lia.
      * cbn. rewrite Edf, Hup by lia. by rewrite decide_True.
      * intros j Hj. rewrite (get_slot_fill (pg_mem s) s' pt pt j) by done. by rewrite decide_True.
  - destruct (frame_set_free_spec p f Hwf) as [Hwf' (_ & _ & _ & Hup')]; [lia|].
    exists 0. eexists. split; [reflexivity|]. cbn [with_pg_pmm pg_pmm].
    assert (pmm_free_frame (f * PAGE_SIZE) p = frame_set_free f p) as Efr.
    { unfold pmm_free_frame. rewrite Z.div_mul by done. destruct (Z.ltb_spec f (total_frames p)); [done|lia]. }
    rewrite Efr. split_and!; auto.
    + apply (ok_mono s); auto; cbn; [lia|].
      intros g Hg Hus. rewrite Hup' by done. rewrite decide_False; [by apply Hkeep|]. intros ->. congruence.
    + left. split_and!; auto; [lia|]. intros _ g Hg. apply Hlow.
      unfold PAGE_SIZE, IDENTITY_MAP_SIZE, IDENTITY_MAP_TABLES in Hhigh. lia.
Qed.

Lemma alloc_page_table_spec s :
  paging_ok s ->
  exists pt s', alloc_page_table static_pt_pool s = Some (pt, s') /\ paging_ok s' /\
    page_dir s' = page_dir s /\ invalidated s' = invalidated s /\
    (forall b j, held s b -> 0 <= j < 1024 -> get_slot s' b j = get_slot s b j) /\
    ((pt = 0 /\ no_table s) \/
     (held s' pt /\ ~ held s pt /\ forall j, 0 <= j < 1024 -> get_slot s' pt j = 0)).
Proof.
  intros Hok. destruct (Z.lt_ge_cases (static_pt_used s) STATIC_PT_POOL_COUNT); [by apply pool_table_spec|by apply frame_table_spec].
Qed.

(** ** Mapping a page *)

Lemma add_table_ok s i pt flags :
  paging_ok s -> 0 <= i < 1024 -> present (pde s i) = false -> held s pt -> pt <> page_dir s ->
  (forall j, 0 <= j < 1024 -> present (pde s j) = true -> table s j <> pt) ->
  (forall j, 0 <= j < 1024 -> get_slot s pt j = 0) ->
  let s' := set_slot (page_dir s) i (new_pde pt flags) s in
  paging_ok s' /\ present (pde s' i) = true /\ table s' i = pt /\
  forall w, is_u32 w -> mapping s' w = mapping s w.
Proof.
  intros Hok Hi Hnp Hpt Hne Hfresh Hzero s'.
  destruct (po_dir s Hok) as (Hdp & _). destruct (Hpt) as (Hpp & _).
  destruct (new_pde_parts pt flags (proj1 Hpp)) as (Hfr & Hpr & Hu32). specialize (Hu32 Hpp).
  assert (forall j, 0 <= j < 1024 -> pde s' j = if decide (j = i) then new_pde pt flags else pde s j) as Hpde.
  { intros j Hj. unfold pde. change (page_dir s') with (page_dir s). unfold s'. rewrite get_set_slot by done.
    destruct (decide (j = i)) as [->|]; [rewrite decide_True by done; by apply u32_id|]. by rewrite decide_False by naive_solver. }
  assert (forall b j, is_page b -> b <> page_dir s -> 0 <= j < 1024 -> get_slot s' b j = get_slot s b j) as Hget.
  { intros b j Hb Hbd Hj. unfold s'. rewrite get_set_slot by done. by rewrite decide_False by naive_solver. }
  assert (table s' i = pt) as Hti by (unfold table; rewrite Hpde by done; by rewrite decide_True).
  assert (forall j, 0 <= j < 1024 -> j <> i -> table s' j = table s j) as Htj.
  { intros j Hj Hji. unfold table. rewrite Hpde by done. by rewrite decide_False. }
  split_and!; auto.
  - destruct Hok as [H1 H2 H3 H4 H5 H6]. split; auto.
    + intros j Hj. rewrite Hpde by done. destruct (decide (j = i)) as [->|Hji]; [by rewrite Hti|].
      rewrite Htj by done. apply H2, Hj.
    + intros j k Hj Hk. rewrite !Hpde by done.
      destruct (decide (j = i)) as [->|Hji], (decide (k = i)) as [->|Hki]; try done.
      * intros _ Hp. rewrite Hti, Htj by done. intros E. by destruct (Hfresh k Hk Hp).
      * intros Hp _. rewrite Hti, Htj by done. intros E. by destruct (Hfresh j Hj Hp).
      * rewrite !Htj by done. by apply H3.
  - rewrite Hpde by done. by rewrite decide_True.
  - intros w Hw. destruct (index_range w Hw) as [Hd Ht]. unfold mapping. rewrite Hpde by done.
    destruct (decide (pd_index w = i)) as [->|Hwi].
    + rewrite Hpr, Hnp, Hti. rewrite Hget by done. by rewrite Hzero.
    + rewrite Htj by done. destruct (present (pde s (pd_index w))) eqn:Ep; [|done].
      destruct (po_table s Hok (pd_index w) Hd Ep) as [(Hpg & _) Hnd]. by rewrite Hget.
Qed.

Definition page_entry (phys flags : Z) : Z := frame_of phys + Z.lor flags 1.

Lemma page_entry_parts phys flags :
  is_u32 phys -> 0 <= flags < 4096 ->
  Z.lor (frame_of phys) (Z.lor flags PAGE_PRESENT) = page_entry phys flags /\
  is_u32 (page_entry phys flags) /\ present (page_entry phys flags) = true /\
  frame_of (page_entry phys flags) = phys / 4096 * 4096.
Proof.
  intros Hp Hf. unfold is_u32 in Hp. assert (frame_of phys mod 4096 = 0) as Hm by (rewrite frame_of_eq; by rewrite Z.mod_mul).
  assert (0 <= Z.lor flags 1 < 4096) as Hw by by apply lor_low_bound.
  unfold page_entry. rewrite <- (lor_page_low (frame_of phys) _ Hm Hw).
  destruct (entry_parts (frame_of phys) (Z.lor flags 1) Hm Hw) as [-> ->]. rewrite odd_lor_1.
  split_and!; auto; [|by rewrite frame_of_eq].
  rewrite lor_page_low by done. rewrite frame_of_eq in *. unfold is_u32. zlia.
Qed.

(** The last store of [paging_map]. *)
Lemma map_store_spec s virt phys flags :
  paging_ok s -> is_u32 virt -> is_u32 phys -> 0 <= flags < 4096 -> present (pde s (pd_index virt)) = true ->
  let s' := paging_invalidate virt
    (set_slot (table s (pd_index virt)) (pt_index virt) (Z.lor (frame_of phys) (Z.lor flags PAGE_PRESENT)) s) in
  paging_ok s' /\ invalidated s' = invalidated s ++ [virt] /\ page_dir s' = page_dir s /\
  forall w, is_u32 w -> mapping s' w = if decide (w / 4096 = virt / 4096) then Some (page_entry phys flags) else mapping s w.
Proof.
  intros Hok Hv Hp Hf Hpr s'. destruct (index_range virt Hv) as [Hd Ht].
  destruct (page_entry_parts phys flags Hp Hf) as (E & Hu & Hpres & _).
  destruct (set_pte_ok s (pd_index virt) (pt_index virt) (page_entry phys flags) Hok Hd Hpr Ht) as (Hok' & _).
  unfold s'. rewrite E. split_and!; auto.
  - destruct Hok'. by split.
  - intros w Hw. change (mapping (paging_invalidate virt ?x)) with (mapping x).
    rewrite mapping_set_pte by done. rewrite (u32_id _ Hu), Hpres.
    destruct (decide (w / 4096 = virt / 4096)) as [Hpg|Hpg]; (apply (index_page w virt Hw Hv) in Hpg || rewrite <- (index_page w virt Hw Hv) in Hpg).
    + by rewrite decide_True.
    + by rewrite decide_False.
Qed.

Lemma mapping_ext s s' w :
  paging_ok s -> is_u32 w -> page_dir s' = page_dir s ->
  (forall b j, held s b -> 0 <= j < 1024 -> get_slot s' b j = get_slot s b j) -> mapping s' w = mapping s w.
Proof.
  intros Hok Hw Hd Hget. destruct (index_range w Hw) as [Hi Ht].
  assert (pde s' (pd_index w) = pde s (pd_index w)) as Hp by (unfold pde; rewrite Hd; apply Hget; [apply Hok|done]).
  unfold mapping, table. rewrite Hp. destruct (present (pde s (pd_index w))) eqn:E; [|done].
  destruct (po_table s Hok (pd_index w) Hi E) as [Hh _]. by rewrite Hget.
Qed.

Lemma map_spec s virt phys flags :
  paging_ok s -> is_u32 virt -> is_u32 phys -> 0 <= flags < 4096 ->
  exists s', paging_map static_pt_pool virt phys flags s = Some s' /\ paging_ok s' /\ page_dir s' = page_dir s /\
    ((invalidated s' = invalidated s ++ [virt] /\
      forall w, is_u32 w -> mapping s' w = if decide (w / 4096 = virt / 4096) then Some (page_entry phys flags) else mapping s w) \/
     (present (pde s (pd_index virt)) = false /\ no_table s /\ invalidated s' = invalidated s /\
      forall w, is_u32 w -> mapping s' w = mapping s w)).
Proof.
  intros Hok Hv Hp Hf. destruct (index_range virt Hv) as [Hd Ht].
  destruct (po_dir s Hok) as ((_ & Hd0 & _) & _). unfold paging_map. destruct (Z.eqb_spec (page_dir s) 0); [lia|].
  fold (pde s (pd_index virt)). destruct (present (pde s (pd_index virt))) eqn:Ep.
  { eexists. split; [reflexivity|]. destruct (map_store_spec s virt phys flags Hok Hv Hp Hf Ep) as (? & ? & ? & ?). auto 6. }
  destruct (alloc_page_table_spec s Hok) as (pt & s1 & E & Hok1 & Hdir & Hinv & Hget & Hcase).
  rewrite E. cbn [mbind option_bind].
  assert (forall w, is_u32 w -> mapping s1 w = mapping s w) as Hmap by (intros w Hw; by apply mapping_ext).
  assert (forall j, 0 <= j < 1024 -> pde s1 j = pde s j) as Hpde by (intros j Hj; unfold pde; rewrite Hdir; apply Hget; [apply Hok|done]).
  destruct Hcase as [[-> Hno]|(Hh & Hnh & Hz)]; [exists s1; rewrite Z.eqb_refl; auto 9|].
  destruct (Z.eqb_spec pt 0) as [->|_]; [destruct Hh as ((_ & ? & _) & _); lia|].
  destruct (add_table_ok s1 (pd_index virt) pt flags Hok1 Hd) as (Hok2 & Hp2 & Ht2 & Hm2); auto.
  { by rewrite Hpde. }
  { rewrite Hdir. intros ->. by destruct Hnh; apply Hok. }
  { intros j Hj. unfold table. rewrite Hpde by done. intros Hpj <-. by destruct Hnh; apply (po_table s Hok). }
  eexists. split; [reflexivity|].
  destruct (map_store_spec _ virt phys flags Hok2 Hv Hp Hf Hp2) as (Hok3 & Hi3 & Hd3 & Hm3). rewrite Ht2 in *.
  split; [exact Hok3|]. split; [by rewrite Hd3|]. left. split; [by rewrite Hi3; cbn; rewrite Hinv|].
  intros w Hw. rewrite Hm3 by done. case_decide; [done|]. by rewrite Hm2, Hmap.
Qed.

(** C19: mapping a page.  Afterwards the page translates to the given frame
    with the given flags, every other page translates as before, and the
    processor has been told to forget the page; or there was no table for its
    4 MiB, the static pool was used up and no frame below 32 MiB was free for
    one, and no translation has changed.  The tables stay well formed. *)
Theorem paging_map_correct s virt phys flags :
  paging_ok s -> is_u32 virt -> is_u32 phys -> 0 <= flags < 4096 ->
  exists s', paging_map static_pt_pool virt phys flags s = Some s' /\ paging_ok s' /\
    ((invalidated s' = invalidated s ++ [virt] /\
      (forall w, is_u32 w -> w / 4096 = virt / 4096 ->
         mapping s' w = Some (phys / 4096 * 4096 + Z.lor flags 1) /\
         paging_get_physical w s' = phys / 4096 * 4096 + w mod 4096) /\
      (forall w, is_u32 w -> w / 4096 <> virt / 4096 ->
         mapping s' w = mapping s w /\ paging_get_physical w s' = paging_get_physical w s)) \/
     (present (pde s (pd_index virt)) = false /\ no_table s /\ invalidated s' = invalidated s /\
      forall w, is_u32 w -> mapping s' w = mapping s w)).
Proof.
  intros Hok Hv Hp Hf. destruct (map_spec s virt phys flags Hok Hv Hp Hf) as (s' & E & Hok' & Hd & Hcase).
  exists s'. split; [done|]. split; [done|]. destruct Hcase as [(Hi & Hm)|?]; [left|by right].
  destruct (po_dir s Hok) as ((_ & ? & _) & _). split; [done|]. split.
  - intros w Hw Hpg. split; [rewrite Hm by done; rewrite decide_True by done; unfold page_entry; by rewrite frame_of_eq|].
    rewrite get_physical_mapping, Hm, decide_True by (done || lia).
    destruct (page_entry_parts phys flags Hp Hf) as (_ & _ & _ & ->). rewrite land_4095.
    apply lor_page_low; [by rewrite Z.mod_mul|apply Z.mod_pos_bound; lia].
  - intros w Hw Hpg. assert (mapping s' w = mapping s w) as Em by (rewrite Hm by done; by rewrite decide_False).
    split; [done|]. rewrite !get_physical_mapping by lia. by rewrite Em.
Qed.

(** Unmapping a page removes the translation of that page and of no
    other, and unmapping a page that has no table changes nothing. *)
Theorem paging_unmap_correct s virt :
  paging_ok s -> is_u32 virt ->
  let s' := paging_unmap virt s in
  paging_ok s' /\ mapping s' virt = None /\ paging_get_physical virt s' = 0 /\
  (forall w, is_u32 w -> w / 4096 <> virt / 4096 -> mapping s' w = mapping s w) /\
  (mapping s virt <> None -> invalidated s' = invalidated s ++ [virt]).
Proof.
  intros Hok Hv s'. destruct (index_range virt Hv) as [Hd Ht]. destruct (po_dir s Hok) as ((_ & Hd0 & _) & _).
  assert (paging_ok s' /\ page_dir s' = page_dir s /\ mapping s' virt = None /\
    (forall w, is_u32 w -> w / 4096 <> virt / 4096 -> mapping s' w = mapping s w) /\
    (mapping s virt <> None -> invalidated s' = invalidated s ++ [virt])) as (H1 & Hdir & H2 & H3 & H4).
  { unfold s', paging_unmap. destruct (Z.eqb_spec (page_dir s) 0); [lia|]. fold (pde s (pd_index virt)).
    destruct (present (pde s (pd_index virt))) eqn:Ep; cbn [negb].
    - destruct (set_pte_ok s (pd_index virt) (pt_index virt) 0 Hok Hd Ep Ht) as (Hok' & _). fold (table s (pd_index virt)).
      split_and!; auto; [destruct Hok'; by split| |].
      + change (mapping (paging_invalidate virt ?x)) with (mapping x). rewrite mapping_set_pte by done. by rewrite decide_True.
      + intros w Hw Hpg. change (mapping (paging_invalidate virt ?x)) with (mapping x). rewrite mapping_set_pte by done.
        rewrite <- (index_page w virt Hw Hv) in Hpg. by rewrite decide_False.
    - unfold mapping at 1 4. rewrite Ep. by split_and!. }
  split_and!; auto. rewrite get_physical_mapping by lia. by rewrite H2.
Qed.

(** ** Installing the identity map *)

Definition same_rest s s' : Prop :=
  pg_pmm s' = pg_pmm s /\ page_dir s' = page_dir s /\ static_pt_used s' = static_pt_used s /\
  cr0 s' = cr0 s /\ invalidated s' = invalidated s.

Lemma same_rest_slot s s' a i v : same_rest s s' -> same_rest s (set_slot a i v s').
Proof. done. Qed.

Lemma same_rest_trans s1 s2 s3 : same_rest s1 s2 -> same_rest s2 s3 -> same_rest s1 s3.
Proof. unfold same_rest. intros (? & ? & ? & ? & ?) (? & ? & ? & ? & ?). split_and!; congruence. Qed.

(** A loop that stores entries [lo .. hi - 1] of the page [a]. *)
Lemma store_loop s a lo hi (val : Z -> Z) :
  is_page a -> 0 <= lo <= hi -> hi <= 1024 -> (forall i, is_u32 (val i) \/ ~ lo <= i < hi) ->
  let s' := for_range lo hi (fun i s => set_slot a i (val i) s) s in
  same_rest s s' /\
  forall b j, is_page b -> 0 <= j < 1024 ->
    get_slot s' b j = if decide (a = b /\ lo <= j < hi) then val j else get_slot s b j.
Proof.
  intros Ha Hlo Hhi Hval s'.
  refine (for_range_inv (fun i s' => same_rest s s' /\ forall b j, is_page b -> 0 <= j < 1024 ->
    get_slot s' b j = if decide (a = b /\ lo <= j < i) then val j else get_slot s b j) lo hi _ s _ _ _).
  - lia.
  - split; [done|]. intros b j _ _. by rewrite decide_False by lia.
  - intros i s1 Hi [Hr IH]. split; [by apply same_rest_slot|]. intros b j Hb Hj.
    rewrite get_set_slot by (done || lia). rewrite IH by done.
    destruct (decide (a = b /\ i = j)) as [[-> ->]|Hn].
    + rewrite decide_True by lia. destruct (Hval j) as [Hu|]; [by apply u32_id|lia].
    + repeat case_decide; try done; exfalso; naive_solver lia.
Qed.

Definition id_entry (i k : Z) : Z := (i * 1024 + k) * 4096 + 3.

Lemma id_entry_eq i k :
  Z.lor (Z.lor (i * 4 * 1024 * 1024 + k * PAGE_SIZE) PAGE_PRESENT) PAGE_WRITABLE = id_entry i k.
Proof.
  rewrite <- Z.lor_assoc. change (Z.lor PAGE_PRESENT PAGE_WRITABLE) with 3. unfold id_entry, PAGE_SIZE.
  rewrite lor_page_low; [lia| |lia].
  replace (i * 4 * 1024 * 1024 + k * 4096) with ((i * 1024 + k) * 4096) by lia. by rewrite Z.mod_mul.
Qed.

Lemma identity_table_spec s pt i :
  is_page pt -> 0 <= i < 8 ->
  let s' := identity_table pt i s in
  same_rest s s' /\ forall b j, is_page b -> 0 <= j < 1024 ->
    get_slot s' b j = if decide (pt = b) then id_entry i j else get_slot s b j.
Proof.
  intros Hp Hi s'. unfold s', identity_table.
  destruct (store_loop s pt 0 1024 (fun k => Z.lor (Z.lor (i * 4 * 1024 * 1024 + k * PAGE_SIZE) PAGE_PRESENT) PAGE_WRITABLE))
    as [Hr Hg]; [done|lia|lia| |].
  { intros k. rewrite id_entry_eq. unfold is_u32, id_entry. lia. }
  split; [exact Hr|]. intros b j Hb Hj. rewrite Hg, id_entry_eq by done.
  destruct (decide (pt = b)); [by rewrite decide_True|]. by rewrite decide_False by tauto.
Qed.

(** Where [paging_install] puts the directory and the eight tables. *)
Definition id_table (i : Z) : Z := kernel_end bss_end + PAGE_SIZE * (i + 1).

(** The linker's layout: the tables follow the kernel image, which contains
    the static pool, and the frame allocator considers all of it in use. *)
Record layout_ok (p : pmm_state) : Prop := {
  lo_pmm : pmm_wf p;
  lo_end : is_page (kernel_end bss_end) /\ kernel_end bss_end + 9 * PAGE_SIZE < 4294967296;
  lo_pool : 0 < static_pt_pool /\ static_pt_pool mod 4096 = 0 /\
    static_pt_pool + STATIC_PT_POOL_COUNT * PAGE_SIZE <= kernel_end bss_end;
  lo_used g : 0 <= g < (kernel_end bss_end + 9 * PAGE_SIZE) / 4096 -> frame_used p g = true
}.

Lemma id_table_page p i : layout_ok p -> -1 <= i < 8 -> is_page (id_table i).
Proof.
  intros [_ ((Hm & ? & ?) & ?) _ _] Hi. unfold id_table, is_page, PAGE_SIZE in *. split; [|lia].
  by rewrite (Z.mul_comm 4096), Z.mod_add by lia.
Qed.

Lemma install_tables p s :
  layout_ok p -> page_dir s = kernel_end bss_end ->
  let s' := identity_tables (kernel_end bss_end) (u32 (kernel_end bss_end + PAGE_SIZE)) s in
  same_rest s s' /\
  forall i, 0 <= i < 8 -> get_slot s' (kernel_end bss_end) i = id_table i + 3 /\
    forall j, 0 <= j < 1024 -> get_slot s' (id_table i) j = id_entry i j.
Proof.
  intros Hlo Hd s'. assert (is_page (kernel_end bss_end)) as Hdp by apply Hlo.
  refine (for_range_inv (fun n s' => same_rest s s' /\
    forall i, 0 <= i < n -> get_slot s' (kernel_end bss_end) i = id_table i + 3 /\
      forall j, 0 <= j < 1024 -> get_slot s' (id_table i) j = id_entry i j) 0 IDENTITY_MAP_TABLES _ s _ _ _).
  - unfold IDENTITY_MAP_TABLES. lia.
  - split; [done|]. lia.
  - intros n s1 Hn [Hr IH]. unfold IDENTITY_MAP_TABLES in Hn.
    pose proof (id_table_page p n Hlo ltac:(lia)) as Htn. destruct (lo_end p Hlo) as [(Hm & ? & ?) Hend].
    assert (u32 (u32 (kernel_end bss_end + PAGE_SIZE) + n * 1024 * 4) = id_table n) as Ept.
    { unfold id_table, PAGE_SIZE in *. rewrite (u32_id (kernel_end bss_end + 4096)) by lia.
      rewrite u32_id; lia. }
    cbv zeta. rewrite Ept. set (s2 := set_slot _ _ _ s1).
    assert (Z.lor (Z.lor (id_table n) PAGE_PRESENT) PAGE_WRITABLE = id_table n + 3) as Ee.
    { rewrite <- Z.lor_assoc. apply lor_page_low; [apply Htn|unfold PAGE_PRESENT, PAGE_WRITABLE; cbn; lia]. }
    destruct (identity_table_spec s2 (id_table n) n Htn ltac:(lia)) as [Hr2 Hg2].
    assert (forall i j, -1 <= i < 8 -> -1 <= j < 8 -> id_table i = id_table j -> i = j) as Hinj
      by (intros i j _ _; unfold id_table, PAGE_SIZE; lia).
    assert (id_table (-1) = kernel_end bss_end) as Em1 by (unfold id_table; lia).
    split; [exact (same_rest_trans _ _ _ (same_rest_slot _ _ _ _ _ Hr) Hr2)|]. intros i Hi.
    assert (id_table n <> kernel_end bss_end) as Hne by (rewrite <- Em1; intros E; apply Hinj in E; lia).
    split.
    + rewrite Hg2, decide_False by (done || lia). unfold s2. rewrite get_set_slot by (done || lia). rewrite Ee.
      destruct (decide (i = n)) as [->|Hin].
      * rewrite decide_True by done. apply u32_id. unfold id_table, PAGE_SIZE in *. lia.
      * rewrite decide_False by naive_solver. apply IH. lia.
    + intros j Hj. pose proof (id_table_page p i Hlo ltac:(lia)) as Hti. rewrite Hg2 by done.
      destruct (decide (id_table n = id_table i)) as [E|E].
      * apply Hinj in E as ->; [done|lia|lia].
      * unfold s2. rewrite get_set_slot by (done || lia).
        rewrite decide_False; [apply IH; [destruct (decide (i = n)) as [->|]; [done|lia]|done]|].
        intros [E' _]. rewrite <- Em1 in E'. apply Hinj in E'; lia.
Qed.

Lemma unmapped_entries_spec s dir :
  is_page dir ->
  same_rest s (unmapped_entries dir s) /\
  forall b j, is_page b -> 0 <= j < 1024 ->
    get_slot (unmapped_entries dir s) b j = if decide (dir = b /\ 8 <= j < 1024) then PAGE_WRITABLE else get_slot s b j.
Proof.
  intros Hd. apply (store_loop s dir IDENTITY_MAP_TABLES 1024 (fun _ => PAGE_WRITABLE)); auto;
    unfold IDENTITY_MAP_TABLES; try lia. intros i. left. unfold is_u32, PAGE_WRITABLE. lia.
Qed.

(** The state before the loops, and what follows them. *)
Definition cleared s : paging :=
  Paging (fill (pg_mem s) (kernel_end bss_end) 0 PAGE_SIZE) (pg_pmm s) (kernel_end bss_end) (static_pt_used s)
    (cr3 s) (cr0 s) (invalidated s).
Definition switched_on s : paging :=
  Paging (pg_mem s) (pg_pmm s) (kernel_end bss_end) (static_pt_used s) (kernel_end bss_end)
    (Z.lor (cr0 s) 2147483648) (invalidated s).
Definition dir_filled s : paging :=
  unmapped_entries (kernel_end bss_end)
    (identity_tables (kernel_end bss_end) (u32 (kernel_end bss_end + PAGE_SIZE)) (cleared s)).

Lemma install_eq s :
  layout_ok (pg_pmm s) -> paging_install bss_end s = Some (switched_on (dir_filled s)).
Proof.
  intros Hlo. destruct (lo_end _ Hlo) as [(Hm & ? & ?) Hend]. unfold paging_install.
  rewrite memset_total by (unfold PAGE_SIZE, is_u8 in *; lia). reflexivity.
Qed.

Lemma dir_filled_spec s :
  layout_ok (pg_pmm s) ->
  same_rest (cleared s) (dir_filled s) /\
  (forall i, 8 <= i < 1024 -> get_slot (dir_filled s) (kernel_end bss_end) i = PAGE_WRITABLE) /\
  forall i, 0 <= i < 8 -> get_slot (dir_filled s) (kernel_end bss_end) i = id_table i + 3 /\
    forall j, 0 <= j < 1024 -> get_slot (dir_filled s) (id_table i) j = id_entry i j.
Proof.
  intros Hlo. destruct (lo_end _ Hlo) as [Hdp _]. unfold dir_filled.
  destruct (install_tables (pg_pmm s) (cleared s) Hlo eq_refl) as [Hr1 Hg1].
  generalize dependent (identity_tables (kernel_end bss_end) (u32 (kernel_end bss_end + PAGE_SIZE)) (cleared s)).
  intros s1 Hr1 Hg1. destruct (unmapped_entries_spec s1 (kernel_end bss_end) Hdp) as [Hr2 Hg2].
  split; [by apply (same_rest_trans _ s1)|]. split.
  - intros i Hi. rewrite Hg2 by (done || lia). by rewrite decide_True by lia.
  - intros i Hi. destruct (Hg1 i Hi) as [G1 G2]. split.
    + rewrite Hg2 by (done || lia). by rewrite decide_False by lia.
    + intros j Hj. pose proof (id_table_page _ i Hlo ltac:(lia)) as Hti. rewrite Hg2 by done.
      rewrite decide_False; [by apply G2|]. unfold id_table, PAGE_SIZE. lia.
Qed.

Lemma id_pde_parts p i :
  layout_ok p -> 0 <= i < 8 -> frame_of (id_table i + 3) = id_table i /\ present (id_table i + 3) = true.
Proof.
  intros Hlo Hi. destruct (id_table_page p i Hlo ltac:(lia)) as (Hm & _).
  rewrite <- (lor_page_low (id_table i) 3) by (done || lia).
  destruct (entry_parts (id_table i) 3 Hm ltac:(lia)) as [-> ->]. done.
Qed.

Lemma id_pte_parts i j : frame_of (id_entry i j) = (i * 1024 + j) * 4096 /\ present (id_entry i j) = true.
Proof.
  unfold id_entry. assert (((i * 1024 + j) * 4096) mod 4096 = 0) as Hm by by rewrite Z.mod_mul.
  rewrite <- (lor_page_low _ 3 Hm) by lia. by destruct (entry_parts _ 3 Hm ltac:(lia)) as [-> ->].
Qed.

(** A page of the kernel image or of the installed tables is held when it is
    not in the static pool. *)
Lemma layout_held s a :
  layout_ok (pg_pmm s) -> is_page a -> kernel_end bss_end <= a -> a < kernel_end bss_end + 9 * PAGE_SIZE -> held s a.
Proof.
  intros [_ [(Hdm & _) _] (? & ? & Hpool) Hu] Hp Hlo Hhi. split_and!; [done| |].
  - intros (j & Hj & ->). unfold STATIC_PT_POOL_COUNT, PAGE_SIZE in *. lia.
  - destruct Hp as (Hm & ? & _). apply Hu. unfold PAGE_SIZE in *. split; zlia.
Qed.

Lemma switched_on_pde s i :
  pde (switched_on s) i = get_slot s (kernel_end bss_end) i.
Proof. reflexivity. Qed.

(** The tables that [paging_install] fills. *)
Lemma install_table s i :
  layout_ok (pg_pmm s) -> 0 <= i < 1024 -> present (pde (switched_on (dir_filled s)) i) = true ->
  0 <= i < 8 /\ table (switched_on (dir_filled s)) i = id_table i.
Proof.
  intros Hlo Hi Hpr. destruct (dir_filled_spec s Hlo) as (_ & Hhi & Hlow). generalize dependent (dir_filled s).
  intros f Hpr Hhi Hlow. unfold table. rewrite switched_on_pde in *. destruct (decide (i < 8)).
  - split; [lia|]. destruct (Hlow i ltac:(lia)) as [-> _]. exact (proj1 (id_pde_parts _ i Hlo ltac:(lia))).
  - rewrite Hhi in Hpr by lia. done.
Qed.

Lemma install_ok s :
  layout_ok (pg_pmm s) -> 0 <= static_pt_used s <= STATIC_PT_POOL_COUNT ->
  paging_ok (switched_on (dir_filled s)).
Proof.
  intros Hlo Hu. destruct (dir_filled_spec s Hlo) as ((HP & HD & HU & _) & Hhi & Hlow).
  destruct (lo_end _ Hlo) as [Hdp Hend]. pose proof (fun i => install_table s i Hlo) as Htab.
  generalize dependent (dir_filled s). intros f HP HD HU Hhi Hlow Htab.
  change (pg_pmm (cleared s)) with (pg_pmm s) in HP. change (static_pt_used (cleared s)) with (static_pt_used s) in HU.
  assert (layout_ok (pg_pmm (switched_on f))) as Hlo' by (cbn; by rewrite HP).
  split.
  - apply layout_held; [done|done| |]; cbn; unfold PAGE_SIZE; lia.
  - intros i Hi Hp. destruct (Htab i Hi Hp) as [Hi8 ->]. split.
    + apply layout_held; [done|by apply (id_table_page _ i Hlo); lia| |]; unfold id_table, PAGE_SIZE; lia.
    + cbn. unfold id_table, PAGE_SIZE. lia.
  - intros i j Hi Hj Hpi Hpj. destruct (Htab i Hi Hpi) as [_ ->], (Htab j Hj Hpj) as [_ ->].
    unfold id_table, PAGE_SIZE. lia.
  - intros j Hj. destruct (lo_pool _ Hlo') as (H1 & H2 & H3), Hdp as (? & ? & ?).
    unfold STATIC_PT_POOL_COUNT, PAGE_SIZE in *. split.
    + unfold is_page. split; [|lia]. by rewrite Z.mod_add.
    + apply (lo_used _ Hlo'). unfold PAGE_SIZE. split; [apply Z.div_pos; lia|].
      apply Z.div_lt_upper_bound; [lia|]. zlia.
  - cbn. by rewrite HU.
  - apply Hlo'.
Qed.

Lemma switched_on_pool s : static_pt_used (switched_on s) = static_pt_used s.
Proof. reflexivity. Qed.
Lemma install_pool s : layout_ok (pg_pmm s) -> static_pt_used (switched_on (dir_filled s)) = static_pt_used s.
Proof. intros Hlo. rewrite switched_on_pool. destruct (dir_filled_spec s Hlo) as ((_ & _ & HU & _) & _). rewrite HU. reflexivity. Qed.

(** The translation after [paging_install]. *)
Lemma install_identity s :
  layout_ok (pg_pmm s) -> 0 <= static_pt_used s <= STATIC_PT_POOL_COUNT ->
  let s' := switched_on (dir_filled s) in
  paging_ok s' /\ cr3 s' = page_dir s' /\ Z.testbit (cr0 s') 31 = true /\
  (forall v, 0 <= v < IDENTITY_MAP_SIZE -> paging_get_physical v s' = v) /\
  (forall v, is_u32 v -> IDENTITY_MAP_SIZE <= v -> mapping s' v = None).
Proof.
  intros Hlo Hu s'. unfold s'. clear s'. pose proof (install_ok s Hlo Hu) as Hok.
  destruct (dir_filled_spec s Hlo) as (_ & Hhi & Hlow). destruct (po_dir _ Hok) as ((_ & Hd0 & _) & _).
  generalize dependent (dir_filled s). intros f Hok Hhi Hlow Hd0.
  split; [done|]. split; [done|]. split; [unfold switched_on; cbn [cr0]; rewrite Z.lor_spec; apply orb_true_r|].
  change IDENTITY_MAP_SIZE with 33554432.
  assert (forall v, is_u32 v -> pd_index v = v / 4194304 /\ pt_index v = v / 4096 mod 1024) as Hidx.
  { intros v _. unfold pd_index, pt_index. rewrite land_1023, !Z.shiftr_div_pow2 by lia. done. }
  split.
  - intros v Hv. destruct (Hidx v) as [Ed Et]; [unfold is_u32; lia|].
    rewrite get_physical_mapping by lia. unfold mapping, table. rewrite switched_on_pde, Ed, Et.
    destruct (Hlow (v / 4194304)) as [-> Hpt]; [zlia|]. destruct (id_pde_parts _ (v / 4194304) Hlo) as [-> ->]; [zlia|].
    change (get_slot (switched_on f)) with (get_slot f). rewrite Hpt by zlia.
    destruct (id_pte_parts (v / 4194304) (v / 4096 mod 1024)) as [Ef Ep].
    cbv zeta. rewrite Ep, Ef, land_4095.
    assert (v / 4194304 = v / 4096 / 1024) as -> by (rewrite Z.div_div by lia; done).
    rewrite lor_page_low by (by rewrite Z.mod_mul || (apply Z.mod_pos_bound; lia)). zlia.
  - intros v Hv Hge. destruct (Hidx v Hv) as [Ed _]. unfold mapping. rewrite switched_on_pde, Ed.
    unfold is_u32 in Hv. by rewrite Hhi by zlia.
Qed.
(** Writes outside of the directory and its tables change nothing. *)
Lemma paging_mem_ext lo hi m s :
  paging_ok s -> lo <= page_dir s -> page_dir s + PAGE_SIZE <= hi ->
  (forall i, 0 <= i < 1024 -> present (pde s i) = true -> lo <= table s i /\ table s i + PAGE_SIZE <= hi) ->
  (forall x, lo <= x < hi -> ld8 m x = ld8 (pg_mem s) x) ->
  paging_ok (with_pg_mem m s) /\ forall v, is_u32 v -> mapping (with_pg_mem m s) v = mapping s v.
Proof.
  intros Hok Hd1 Hd2 Ht Hx. assert (forall a i, is_page a -> lo <= a -> a + PAGE_SIZE <= hi -> 0 <= i < 1024 ->
    get_slot (with_pg_mem m s) a i = get_slot s a i) as Hg.
  { intros a i (Ham & Ha0 & Ha1) Hlo' Hhi' Hi. unfold get_slot, slot. cbn [pg_mem with_pg_mem]. unfold PAGE_SIZE in *.
    rewrite u32_id by zlia. apply ld32_ext. intros x Hxi. apply Hx. lia. }
  assert (forall i, 0 <= i < 1024 -> pde (with_pg_mem m s) i = pde s i) as Hp.
  { intros i Hi. apply Hg; [apply (po_dir _ Hok)|done..]. }
  assert (forall i, 0 <= i < 1024 -> table (with_pg_mem m s) i = table s i) as Htb by (intros i Hi; unfold table; by rewrite Hp).
  split.
  - split; [apply (po_dir _ Hok)| | |apply (po_pool _ Hok)|apply (po_used _ Hok)|apply (po_pmm _ Hok)].
    + intros i Hi Hpr. rewrite Hp in Hpr by done. rewrite Htb by done. by apply (po_table _ Hok).
    + intros i j Hi Hj Hpi Hpj. rewrite Hp in Hpi, Hpj by done. rewrite !Htb by done. by apply (po_inj _ Hok).
  - intros v Hv. unfold mapping. destruct (index_range v Hv) as [Hdi Hti]. rewrite Hp, Htb by done.
    destruct (present (pde s (pd_index v))) eqn:Epr; [|done]. destruct (Ht _ Hdi Epr) as [? ?].
    rewrite Hg; [done|apply (po_table _ Hok _ Hdi Epr)|done..].
Qed.

(** Installing the tables turns paging on with the directory in [cr3];
    the first 32 MiB translate to themselves, nothing else is mapped, and the
    tables are well formed, so that the other operations apply. *)
Theorem paging_install_identity s :
  layout_ok (pg_pmm s) -> 0 <= static_pt_used s <= STATIC_PT_POOL_COUNT ->
  exists s', paging_install bss_end s = Some s' /\ paging_ok s' /\ cr3 s' = page_dir s' /\
    Z.testbit (cr0 s') 31 = true /\
    (forall v, 0 <= v < IDENTITY_MAP_SIZE -> paging_get_physical v s' = v) /\
    (forall v, is_u32 v -> IDENTITY_MAP_SIZE <= v -> mapping s' v = None).
Proof.
  intros Hlo Hu. exists (switched_on (dir_filled s)). split; [by apply install_eq|]. by apply install_identity.
Qed.
End spec.

(** * An example machine *)

Definition pool_example : Z := 1572864.
Definition boot_example : paging := Paging ∅ pmm_example 0 0 0 17 [].

Lemma layout_example : layout_ok 2097152 pool_example pmm_example.
Proof.
  assert (kernel_end 2097152 = 2097152) as E by (vm_compute; reflexivity).
  assert (forallb (frame_used pmm_example) (seqZ 0 521) = true) as Hall by (vm_compute; reflexivity).
  split; rewrite ?E.
  - exact pmm_example_wf.
  - unfold is_page, PAGE_SIZE. repeat split; lia.
  - unfold pool_example, STATIC_PT_POOL_COUNT, PAGE_SIZE. repeat split; lia.
  - change ((2097152 + 9 * PAGE_SIZE) / 4096) with 521. intros g Hg.
    apply (proj1 (List.forallb_forall _ _) Hall). apply list_elem_of_In, elem_of_seqZ. lia.
Qed.

Lemma installed_example : exists s, paging_install 2097152 boot_example = Some s /\ paging_ok pool_example s.
Proof.
  exists (switched_on 2097152 (dir_filled 2097152 boot_example)). split.
  - exact (install_eq 2097152 pool_example boot_example layout_example).
  - apply (install_ok 2097152 pool_example boot_example layout_example). cbn. unfold STATIC_PT_POOL_COUNT. lia.
Qed.

Lemma installed_unused : exists s, paging_ok pool_example s /\ static_pt_used s = 0.
Proof.
  exists (switched_on 2097152 (dir_filled 2097152 boot_example)). split.
  - apply (install_ok 2097152 pool_example boot_example layout_example). cbn. unfold STATIC_PT_POOL_COUNT. lia.
  - exact (install_pool 2097152 pool_example boot_example layout_example).
Qed.

Lemma paging_install_identity_witness :
  layout_ok 2097152 pool_example (pg_pmm boot_example) /\
  exists s, paging_install 2097152 boot_example = Some s /\ paging_get_physical 1193046 s = 1193046.
Proof.
  split; [exact layout_example|].
  destruct (paging_install_identity 2097152 pool_example boot_example layout_example) as (s & E & _ & _ & _ & Hv & _).
  - cbn. unfold STATIC_PT_POOL_COUNT. lia.
  - exists s. split; [exact E|]. apply Hv. unfold IDENTITY_MAP_SIZE, IDENTITY_MAP_TABLES. lia.
Defined.

Lemma paging_map_correct_witness :
  exists s s', paging_ok pool_example s /\ paging_map pool_example 4244635648 4244635648 27 s = Some s' /\
    paging_get_physical 4244635649 s' = 4244635649.
Proof.
  destruct installed_unused as (s & Hok & Hu).
  destruct (paging_map_correct pool_example s 4244635648 4244635648 27 Hok) as (s' & E & Hok' & Hc).
  - unfold is_u32. lia.
  - unfold is_u32. lia.
  - lia.
  - exists s, s'. split; [exact Hok|]. split; [exact E|].
    destruct Hc as [(_ & Hw & _)|(_ & (Hp & _) & _)]; [|exfalso; rewrite Hu in Hp; discriminate Hp].
    apply (Hw 4244635649); [unfold is_u32; lia|reflexivity].
Defined.

Lemma paging_unmap_correct_witness :
  exists s, paging_ok pool_example s /\ paging_get_physical 8192 (paging_unmap 8192 s) = 0.
Proof.
  destruct installed_example as (s & _ & Hok). exists s. split; [exact Hok|].
  destruct (paging_unmap_correct pool_example s 8192 Hok) as (_ & _ & H & _).
  - unfold is_u32. lia.
  - exact H.
Defined.
