(* ===== verification/Net.v ===== *)
(** Net: the network stack of [kernel/net.c].

    Packets are byte lists; a packed header is the concatenation of its
    fields as the little-endian machine stores them, so that a field assigned
    with [htons] or [htonl] appears on the wire most significant byte first.
    The network card and the timer are an interface ([NetEnv]): what the
    stack uses of [nic.c] and [timer.c].  The receive path and the waits are
    mutually recursive (a wait polls the card, which runs the handlers, which
    may send and wait), so the functions that wait take fuel, and [None]
    means that the fuel was not enough. *)

From S2P Require Import Prelude Memory Common Text.
From S2P Require Array.

Definition ETH_TYPE_IPV4 : Z := 2048.
Definition ETH_TYPE_ARP : Z := 2054.
Definition IP_PROTO_ICMP : Z := 1.
Definition IP_PROTO_UDP : Z := 17.
Definition ARP_OP_REQUEST : Z := 1.
Definition ARP_OP_REPLY : Z := 2.
Definition ICMP_ECHO_REPLY : Z := 0.
Definition ICMP_ECHO_REQUEST : Z := 8.
Definition DHCP_SERVER_PORT : Z := 67.
Definition DHCP_CLIENT_PORT : Z := 68.
Definition DHCP_MAGIC_COOKIE : Z := 1669485411.
Definition DHCP_DISCOVER : Z := 1.
Definition DHCP_OFFER : Z := 2.
Definition DHCP_REQUEST : Z := 3.
Definition DHCP_ACK : Z := 5.
Definition NET_ARP_CACHE_SIZE : nat := 16.
Definition bcast_mac : list Z := [255; 255; 255; 255; 255; 255].
Definition BCAST_IP : Z := 4294967295.

(** * Bytes *)

Definition byte_of (p : list Z) (i : Z) : Z := nthZ 0 p i.
(** A 16- or 32-bit field of a packed structure, and its bytes in memory. *)
Definition ld16 (p : list Z) (i : Z) : Z := byte_of p i + 256 * byte_of p (i + 1).
Definition ld32_at (p : list Z) (i : Z) : Z :=
  of_bytes (byte_of p i) (byte_of p (i + 1)) (byte_of p (i + 2)) (byte_of p (i + 3)).
Definition le16 (v : Z) : list Z := [v mod 256; v / 256 mod 256].
Definition le32 (v : Z) : list Z := [v mod 256; v / 256 mod 256; v / 65536 mod 256; v / 16777216 mod 256].
(** [n] bytes of [p] from offset [i]. *)
Definition slice (p : list Z) (i n : Z) : list Z := take (Z.to_nat n) (drop (Z.to_nat i) p).
(** [memcpy(p + i, q, n)]. *)
Definition overwrite (p : list Z) (i : nat) (q : list Z) : list Z :=
  take i p ++ q ++ drop (i + length q) p.

(** * Checksums and addresses *)

Fixpoint sum_words (p : list Z) (sum : Z) : Z :=
  match p with
  | a :: b :: p => sum_words p (u32 (sum + Z.lor (Z.shiftl a 8) b))
  | [a] => u32 (sum + Z.shiftl a 8)
  | [] => sum
  end.

Definition fold_sum (sum : Z) : option Z :=
  while_fuel 3 (fun sum => negb (Z.shiftr sum 16 =? 0))
    (fun sum => u32 (Z.land sum 65535 + Z.shiftr sum 16)) sum.

(** The fold needs at most two rounds ([fold_sum_total]). *)
Definition net_checksum (p : list Z) : Z :=
  match fold_sum (sum_words p 0) with Some sum => u16 (Z.lnot sum) | None => 0 end.

Definition net_make_ip (a b c d : Z) : Z :=
  Z.lor (Z.lor (Z.lor (u32 (Z.shiftl a 24)) (Z.shiftl b 16)) (Z.shiftl c 8)) d.

(** [str] ends with its NUL, that is at the end of the list. *)
Fixpoint parse_ip_loop (str parts : list Z) (idx : Z) (has_digit : bool) : option (list Z) :=
  match str with
  | c :: str =>
    if isdigit c then
      let v := u32 (u32 (nthZ 0 parts idx * 10) + (c - 48)) in
      if 255 <? v then None else parse_ip_loop str (updZ idx v parts) idx true
    else if c =? 46 then
      if negb has_digit || (3 <=? idx) then None else parse_ip_loop str parts (idx + 1) false
    else if c =? 32 then
      if negb has_digit || negb (idx =? 3) then None else Some parts
    else None
  | [] => if negb has_digit || negb (idx =? 3) then None else Some parts
  end.

Definition net_parse_ip (str : list Z) : option Z :=
  parts ← parse_ip_loop str [0; 0; 0; 0] 0 false;
  Some (net_make_ip (u8 (nthZ 0 parts 0)) (u8 (nthZ 0 parts 1)) (u8 (nthZ 0 parts 2)) (u8 (nthZ 0 parts 3))).

Fixpoint format_octets (ip : Z) (is_ : list Z) (buf : list Z) : option (list Z) :=
  match is_ with
  | [] => Some buf
  | i :: is_ =>
    tmp ← k_utoa (u8 (Z.land (Z.shiftr ip (i * 8)) 255)) 10;
    let buf := buf ++ tmp in
    format_octets ip is_ (if 0 <? i then buf ++ [46] else buf)
  end.
Definition net_format_ip (ip : Z) : option (list Z) := format_octets ip [3; 2; 1; 0] [].

(** * State *)

Record net_config_t := NetConfig {
  configured : bool; dhcp_leased : bool;
  cfg_ip : Z; cfg_netmask : Z; cfg_gateway : Z; cfg_dns : Z; cfg_dhcp_server : Z;
  rx_eth : Z; rx_arp : Z; rx_ipv4 : Z; rx_icmp : Z; rx_udp : Z
}.
Definition no_config : net_config_t := NetConfig false false 0 0 0 0 0 0 0 0 0 0.

Record arp_entry_t := ArpEntry { ae_ip : Z; ae_mac : list Z; ae_tick : Z; ae_valid : bool }.
Definition no_arp : arp_entry_t := ArpEntry 0 [0; 0; 0; 0; 0; 0] 0 false.

(** [ping_expected_id], [ping_expected_seq], [ping_reply_*]. *)
Record ping_state := Ping { ping_received : bool; ping_id : Z; ping_seq : Z; ping_ttl : Z; ping_tick : Z }.
(** [dhcp_rx_msg_type], [dhcp_expected_xid], [dhcp_offered_*]. *)
Record dhcp_state := Dhcp {
  dhcp_msg : Z; dhcp_xid : Z; off_ip : Z; off_mask : Z; off_gw : Z; off_dns : Z; off_srv : Z
}.

Record net (E : Type) := Net {
  net_config : net_config_t;
  arp_cache : list arp_entry_t;
  ip_id_counter : Z;
  ping : ping_state;
  dhcp : dhcp_state;
  env : E
}.
Arguments Net {E}.
Arguments net_config {E}.
Arguments arp_cache {E}.
Arguments ip_id_counter {E}.
Arguments ping {E}.
Arguments dhcp {E}.
Arguments env {E}.

(** What the stack uses of the card and of the timer: whether the card is
    initialised, its address, sending a frame, the next received frame of a
    poll, reading the tick counter (which may have advanced), the tick
    frequency, and [if (irq_are_enabled()) hlt();]. *)
Class NetEnv (E : Type) := {
  nic_ready : E -> bool;
  nic_mac : E -> list Z;
  nic_send : list Z -> E -> Z * E;
  nic_next : E -> option (list Z) * E;
  ticks : E -> Z * E;
  frequency : E -> Z;
  idle : E -> E
}.

(** Computations that may run out of fuel. *)
Definition NM (E A : Type) : Type := net E -> option (A * net E).
Definition nm_ret {E A} (x : A) : NM E A := fun n => Some (x, n).
Definition nm_bind {E A B} (m : NM E A) (k : A -> NM E B) : NM E B :=
  fun n => '(x, n) ← m n; k x n.
Definition nm_get {E} : NM E (net E) := fun n => Some (n, n).
Definition nm_mod {E} (f : net E -> net E) : NM E unit := fun n => Some (tt, f n).
Definition no_fuel {E A} : NM E A := fun _ => None.
Declare Scope net_scope.
Notation "x <- m ;; k" := (nm_bind m (fun x => k)) (at level 100, m at next level, right associativity) : net_scope.
Notation "m ;; k" := (nm_bind m (fun _ => k)) (at level 100, right associativity) : net_scope.
Open Scope net_scope.

Section net.
Context {E : Type} `{NetEnv E}.

Definition with_config (c : net_config_t) (n : net E) : net E :=
  Net c (arp_cache n) (ip_id_counter n) (ping n) (dhcp n) (env n).
Definition with_arp (l : list arp_entry_t) (n : net E) : net E :=
  Net (net_config n) l (ip_id_counter n) (ping n) (dhcp n) (env n).
Definition with_ping (p : ping_state) (n : net E) : net E :=
  Net (net_config n) (arp_cache n) (ip_id_counter n) p (dhcp n) (env n).
Definition with_dhcp (d : dhcp_state) (n : net E) : net E :=
  Net (net_config n) (arp_cache n) (ip_id_counter n) (ping n) d (env n).
Definition with_env (e : E) (n : net E) : net E :=
  Net (net_config n) (arp_cache n) (ip_id_counter n) (ping n) (dhcp n) e.

Definition timer_get_ticks : NM E Z := fun n => let '(t, e) := ticks (env n) in Some (t, with_env e n).
Definition idle_cpu : NM E unit := nm_mod (fun n => with_env (idle (env n)) n).
Definition ready (n : net E) : bool := nic_ready (env n).
(** [nic_get_mac]. *)
Definition my_mac (n : net E) : list Z := if ready n then nic_mac (env n) else [0; 0; 0; 0; 0; 0].

Definition net_init (n : net E) : net E :=
  Net no_config (replicate NET_ARP_CACHE_SIZE no_arp) (ip_id_counter n) (ping n) (dhcp n) (env n).

Definition set_static (ip netmask gateway dns : Z) (c : net_config_t) : net_config_t :=
  NetConfig (negb (ip =? 0)) false ip netmask gateway dns (cfg_dhcp_server c)
    (rx_eth c) (rx_arp c) (rx_ipv4 c) (rx_icmp c) (rx_udp c).
Definition net_set_static_ip (ip netmask gateway dns : Z) (n : net E) : net E :=
  with_config (set_static ip netmask gateway dns (net_config n)) n.

Definition net_get_arp_table (n : net E) : list arp_entry_t := arp_cache n.

(** ** The ARP cache *)

(** The loop of [arp_cache_update]: the entry of [ip], or else the first free
    slot and the slot with the oldest entry. *)
Fixpoint arp_scan (ip : Z) (l : list arp_entry_t) (i : nat) (free_slot : option nat) (oldest_slot : nat)
    (oldest_tick : Z) : nat + option nat * nat :=
  match l with
  | [] => inr (free_slot, oldest_slot)
  | e :: l =>
    if ae_valid e && (ae_ip e =? ip) then inl i
    else
      let free_slot := if negb (ae_valid e) && bool_decide (free_slot = None) then Some i else free_slot in
      let '(oldest_slot, oldest_tick) :=
        if ae_valid e && (ae_tick e <? oldest_tick) then (i, ae_tick e) else (oldest_slot, oldest_tick) in
      arp_scan ip l (S i) free_slot oldest_slot oldest_tick
  end.

Definition arp_cache_update (ip : Z) (mac : list Z) : NM E unit :=
  if ip =? 0 then nm_ret tt else
  n <- nm_get;;
  let slot := match arp_scan ip (arp_cache n) 0 None 0 4294967295 with
              | inl i => i
              | inr (Some i, _) => i
              | inr (None, i) => i
              end in
  t <- timer_get_ticks;;
  nm_mod (fun n => with_arp (<[slot := ArpEntry ip (take 6 mac) t true]> (arp_cache n)) n).

Fixpoint arp_find (ip : Z) (l : list arp_entry_t) : option (list Z) :=
  match l with
  | [] => None
  | e :: l => if ae_valid e && (ae_ip e =? ip) then Some (ae_mac e) else arp_find ip l
  end.
Definition arp_cache_lookup (ip : Z) (n : net E) : option (list Z) := arp_find ip (arp_cache n).

(** ** Sending *)

Definition send_eth_frame (dst_mac : list Z) (ethertype : Z) (payload : list Z) : NM E Z :=
  n <- nm_get;;
  if negb (ready n) || (1500 <? lenZ payload) then nm_ret (-1) else
  let frame := take 6 dst_mac ++ my_mac n ++ le16 (htons ethertype) ++ payload in
  let '(r, e) := nic_send frame (env n) in
  nm_mod (with_env e);; nm_ret r.

(** The fields of [arp_pkt_t]. *)
Definition arp_packet (op : Z) (sha : list Z) (spa : Z) (tha : list Z) (tpa : Z) : list Z :=
  le16 (htons 1) ++ le16 (htons ETH_TYPE_IPV4) ++ [6; 4] ++ le16 (htons op) ++
  sha ++ le32 (htonl spa) ++ tha ++ le32 (htonl tpa).

Definition send_arp_packet (op : Z) (target_mac : list Z) (target_ip : Z) : NM E unit :=
  n <- nm_get;;
  let tha := if op =? ARP_OP_REQUEST then [0; 0; 0; 0; 0; 0] else take 6 target_mac in
  let arp := arp_packet op (my_mac n) (cfg_ip (net_config n)) tha target_ip in
  send_eth_frame (if op =? ARP_OP_REQUEST then bcast_mac else target_mac) ETH_TYPE_ARP arp;;
  nm_ret tt.

Definition route_next_hop (dst_ip : Z) (n : net E) : Z :=
  let c := net_config n in
  if dst_ip =? BCAST_IP then BCAST_IP
  else if negb (cfg_netmask c =? 0) && negb (cfg_gateway c =? 0) then
    if negb (Z.land dst_ip (cfg_netmask c) =? Z.land (cfg_ip c) (cfg_netmask c)) then cfg_gateway c else dst_ip
  else dst_ip.

(** The header of [ipv4_hdr_t] with the given checksum field. *)
Definition ipv4_header (total_len id proto src_ip dst_ip checksum : Z) : list Z :=
  [69; 0] ++ le16 (htons total_len) ++ le16 (htons id) ++ [0; 0] ++ [64; proto] ++
  le16 checksum ++ le32 (htonl src_ip) ++ le32 (htonl dst_ip).

Definition udp_header (src_port dst_port length_ : Z) : list Z :=
  le16 (htons src_port) ++ le16 (htons dst_port) ++ le16 (htons length_) ++ [0; 0].

(** [while (ok(timer_get_ticks() - start)) { nic_poll(); if (done) ...; hlt }]. *)
Fixpoint wait_while {A} (fuel : nat) (start : Z) (ok : Z -> bool) (poll : NM E unit)
    (check : net E -> option A) : NM E (option A) :=
  match fuel with
  | O => no_fuel
  | S fuel =>
    t <- timer_get_ticks;;
    if ok (u32 (t - start)) then
      poll;;
      n <- nm_get;;
      match check n with
      | Some a => nm_ret (Some a)
      | None => idle_cpu;; wait_while fuel start ok poll check
      end
    else nm_ret None
  end.

(** The loop over the frames of one poll. *)
Fixpoint poll_frames (budget : nat) (rx : list Z -> NM E unit) : NM E unit :=
  match budget with
  | O => nm_ret tt
  | S budget =>
    n <- nm_get;;
    let '(f, e) := nic_next (env n) in
    nm_mod (with_env e);;
    match f with Some d => rx d;; poll_frames budget rx | None => nm_ret tt end
  end.

(** *** The functions that may resolve an address

    [resolve ip timeout] is [net_arp_resolve]. *)
Section open.
Context (resolve : Z -> Z -> NM E (option (list Z))).

Definition bump_id (n : net E) : net E :=
  Net (net_config n) (arp_cache n) (u16 (ip_id_counter n + 1)) (ping n) (dhcp n) (env n).

Definition send_ipv4_packet (src_ip dst_ip : Z) (dst_mac_override : option (list Z)) (proto : Z)
    (payload : list Z) : NM E Z :=
  if 1500 <? 20 + lenZ payload then nm_ret (-1) else
  n <- nm_get;;
  mac <- match dst_mac_override with
         | Some m => nm_ret (Some (take 6 m))
         | None => resolve (route_next_hop dst_ip n) 800
         end;;
  match mac with
  | None => nm_ret (-1)
  | Some dst_mac =>
    n <- nm_get;;
    let total_len := u16 (20 + lenZ payload) in
    let id := ip_id_counter n in
    nm_mod bump_id;;
    let checksum := htons (net_checksum (ipv4_header total_len id proto src_ip dst_ip 0)) in
    send_eth_frame dst_mac ETH_TYPE_IPV4 (ipv4_header total_len id proto src_ip dst_ip checksum ++ payload)
  end.

Definition net_send_udp (dst_ip src_port dst_port : Z) (payload : list Z) : NM E Z :=
  if 1472 <? 8 + lenZ payload then nm_ret (-1) else
  n <- nm_get;;
  let buf := udp_header src_port dst_port (u16 (8 + lenZ payload)) ++ payload in
  send_ipv4_packet (cfg_ip (net_config n)) dst_ip (if dst_ip =? BCAST_IP then Some bcast_mac else None) IP_PROTO_UDP buf.

(** *** Receiving *)

Definition count_arp (c : net_config_t) : net_config_t :=
  NetConfig (configured c) (dhcp_leased c) (cfg_ip c) (cfg_netmask c) (cfg_gateway c) (cfg_dns c)
    (cfg_dhcp_server c) (rx_eth c) (u32 (rx_arp c + 1)) (rx_ipv4 c) (rx_icmp c) (rx_udp c).
Definition count_icmp (c : net_config_t) : net_config_t :=
  NetConfig (configured c) (dhcp_leased c) (cfg_ip c) (cfg_netmask c) (cfg_gateway c) (cfg_dns c)
    (cfg_dhcp_server c) (rx_eth c) (rx_arp c) (rx_ipv4 c) (u32 (rx_icmp c + 1)) (rx_udp c).
Definition count_udp (c : net_config_t) : net_config_t :=
  NetConfig (configured c) (dhcp_leased c) (cfg_ip c) (cfg_netmask c) (cfg_gateway c) (cfg_dns c)
    (cfg_dhcp_server c) (rx_eth c) (rx_arp c) (rx_ipv4 c) (rx_icmp c) (u32 (rx_udp c + 1)).
Definition count_ipv4 (c : net_config_t) : net_config_t :=
  NetConfig (configured c) (dhcp_leased c) (cfg_ip c) (cfg_netmask c) (cfg_gateway c) (cfg_dns c)
    (cfg_dhcp_server c) (rx_eth c) (rx_arp c) (u32 (rx_ipv4 c + 1)) (rx_icmp c) (rx_udp c).
Definition count_eth (c : net_config_t) : net_config_t :=
  NetConfig (configured c) (dhcp_leased c) (cfg_ip c) (cfg_netmask c) (cfg_gateway c) (cfg_dns c)
    (cfg_dhcp_server c) (u32 (rx_eth c + 1)) (rx_arp c) (rx_ipv4 c) (rx_icmp c) (rx_udp c).
Definition count (f : net_config_t -> net_config_t) : NM E unit := nm_mod (fun n => with_config (f (net_config n)) n).

Definition handle_arp (payload : list Z) : NM E unit :=
  if lenZ payload <? 28 then nm_ret tt
  else if negb (ntohs (ld16 payload 0) =? 1) || negb (ntohs (ld16 payload 2) =? ETH_TYPE_IPV4) then nm_ret tt
  else
    count count_arp;;
    let sender_ip := ntohl (ld32_at payload 14) in
    let target_ip := ntohl (ld32_at payload 24) in
    let oper := ntohs (ld16 payload 6) in
    let sha := slice payload 8 6 in
    arp_cache_update sender_ip sha;;
    n <- nm_get;;
    if (oper =? ARP_OP_REQUEST) && configured (net_config n) && (target_ip =? cfg_ip (net_config n))
    then send_arp_packet ARP_OP_REPLY sha sender_ip
    else nm_ret tt.

(** [payload] with the type, code and checksum of an echo reply. *)
Definition echo_reply (payload : list Z) : list Z :=
  let r := overwrite payload 0 [ICMP_ECHO_REPLY; 0; 0; 0] in
  overwrite r 2 (le16 (htons (net_checksum r))).

Definition handle_icmp (src_ip ttl : Z) (payload : list Z) : NM E unit :=
  if lenZ payload <? 8 then nm_ret tt else
  count count_icmp;;
  n <- nm_get;;
  if (byte_of payload 0 =? ICMP_ECHO_REQUEST) && configured (net_config n) then
    if 1480 <? lenZ payload then nm_ret tt
    else send_ipv4_packet (cfg_ip (net_config n)) src_ip None IP_PROTO_ICMP (echo_reply payload);; nm_ret tt
  else if byte_of payload 0 =? ICMP_ECHO_REPLY then
    if (ntohs (ld16 payload 4) =? ping_id (ping n)) && (ntohs (ld16 payload 6) =? ping_seq (ping n)) then
      t <- timer_get_ticks;;
      nm_mod (fun n => with_ping (Ping true (ping_id (ping n)) (ping_seq (ping n)) ttl t) n)
    else nm_ret tt
  else nm_ret tt.

(** What the option loop of [handle_dhcp] collects. *)
Record dhcp_opts := DhcpOpts { o_type : Z; o_mask : Z; o_gw : Z; o_dns : Z; o_srv : Z }.
Definition set_opt (code olen : Z) (data : list Z) (o : dhcp_opts) : dhcp_opts :=
  if (code =? 53) && (1 <=? olen) then DhcpOpts (byte_of data 0) (o_mask o) (o_gw o) (o_dns o) (o_srv o)
  else if (code =? 1) && (4 <=? olen) then DhcpOpts (o_type o) (ntohl (ld32_at data 0)) (o_gw o) (o_dns o) (o_srv o)
  else if (code =? 3) && (4 <=? olen) then DhcpOpts (o_type o) (o_mask o) (ntohl (ld32_at data 0)) (o_dns o) (o_srv o)
  else if (code =? 6) && (4 <=? olen) then DhcpOpts (o_type o) (o_mask o) (o_gw o) (ntohl (ld32_at data 0)) (o_srv o)
  else if (code =? 54) && (4 <=? olen) then DhcpOpts (o_type o) (o_mask o) (o_gw o) (o_dns o) (ntohl (ld32_at data 0))
  else o.

(** The loop itself; [opts] holds the [opt_len] bytes, [i] the position.
    [None] is running out of fuel, which [opt_len] rounds never do. *)
Fixpoint dhcp_options (fuel : nat) (opts : list Z) (i : Z) (o : dhcp_opts) : option dhcp_opts :=
  if i <? lenZ opts then
    match fuel with
    | O => None
    | S fuel =>
      let code := byte_of opts i in
      let i := i + 1 in
      if code =? 0 then dhcp_options fuel opts i o
      else if code =? 255 then Some o
      else if lenZ opts <=? i then Some o
      else
        let olen := byte_of opts i in
        let i := i + 1 in
        if lenZ opts <? i + olen then Some o
        else dhcp_options fuel opts (i + olen) (set_opt code olen (drop (Z.to_nat i) opts) o)
    end
  else Some o.

Definition handle_dhcp (payload : list Z) : NM E unit :=
  if lenZ payload <? 240 then nm_ret tt
  else if negb (byte_of payload 0 =? 2) then nm_ret tt
  else
    n <- nm_get;;
    if negb (ntohl (ld32_at payload 4) =? dhcp_xid (dhcp n)) then nm_ret tt
    else if negb (ntohl (ld32_at payload 236) =? DHCP_MAGIC_COOKIE) then nm_ret tt
    else if negb (bool_decide (slice payload 28 6 = my_mac n)) then nm_ret tt
    else
      let yiaddr := ntohl (ld32_at payload 16) in
      let opts := drop 240 payload in
      match dhcp_options (length opts) opts 0 (DhcpOpts 0 0 0 0 0) with
      | None => no_fuel
      | Some o =>
        if (o_type o =? DHCP_OFFER) || (o_type o =? DHCP_ACK) then
          let keep v old := if v =? 0 then old else v in
          let d := dhcp n in
          nm_mod (with_dhcp (Dhcp (o_type o) (dhcp_xid d) (keep yiaddr (off_ip d)) (keep (o_mask o) (off_mask d))
            (keep (o_gw o) (off_gw d)) (keep (o_dns o) (off_dns d)) (keep (o_srv o) (off_srv d))))
        else nm_ret tt
      end.

Definition handle_udp (payload : list Z) : NM E unit :=
  if lenZ payload <? 8 then nm_ret tt else
  let ulen := ntohs (ld16 payload 4) in
  if (ulen <? 8) || (lenZ payload <? ulen) then nm_ret tt else
  count count_udp;;
  if ntohs (ld16 payload 2) =? DHCP_CLIENT_PORT then handle_dhcp (slice payload 8 (ulen - 8)) else nm_ret tt.

Definition handle_ipv4 (eth_src payload : list Z) : NM E unit :=
  if lenZ payload <? 20 then nm_ret tt
  else if negb (Z.shiftr (byte_of payload 0) 4 =? 4) then nm_ret tt
  else
    let ihl := Z.land (byte_of payload 0) 15 * 4 in
    if (ihl <? 20) || (lenZ payload <? ihl) then nm_ret tt else
    let total_len := ntohs (ld16 payload 2) in
    if (total_len <? ihl) || (lenZ payload <? total_len) then nm_ret tt
    else if negb (net_checksum (slice payload 0 ihl) =? 0) then nm_ret tt
    else
      count count_ipv4;;
      let src_ip := ntohl (ld32_at payload 12) in
      let dst_ip := ntohl (ld32_at payload 16) in
      n <- nm_get;;
      let c := net_config n in
      (if negb (src_ip =? 0) && negb (cfg_netmask c =? 0) &&
          (Z.land src_ip (cfg_netmask c) =? Z.land (cfg_ip c) (cfg_netmask c))
       then arp_cache_update src_ip eth_src else nm_ret tt);;
      if negb (dst_ip =? BCAST_IP) && configured c && negb (dst_ip =? cfg_ip c) then nm_ret tt
      else
        let l4 := slice payload ihl (total_len - ihl) in
        if byte_of payload 9 =? IP_PROTO_ICMP then handle_icmp src_ip (byte_of payload 8) l4
        else if byte_of payload 9 =? IP_PROTO_UDP then handle_udp l4
        else nm_ret tt.

Definition net_rx_packet (data : list Z) : NM E unit :=
  if lenZ data <? 14 then nm_ret tt else
  count count_eth;;
  let ethertype := ntohs (ld16 data 12) in
  let pl := drop 14 data in
  if ethertype =? ETH_TYPE_ARP then handle_arp pl
  else if ethertype =? ETH_TYPE_IPV4 then handle_ipv4 (slice data 6 6) pl
  else nm_ret tt.

Definition nic_poll : NM E unit :=
  n <- nm_get;;
  if ready n then poll_frames 32 net_rx_packet else nm_ret tt.
End open.

(** ** Resolving an address *)

Definition ticks_per_second (n : net E) : Z := if frequency (env n) =? 0 then 100 else frequency (env n).

(** Three attempts of a request and a wait. *)
Fixpoint attempts {A} (k : nat) (once : NM E (option A)) : NM E (option A) :=
  match k with
  | O => nm_ret None
  | S k => r <- once;; match r with Some a => nm_ret (Some a) | None => attempts k once end
  end.

Fixpoint net_arp_resolve (fuel : nat) (target_ip timeout_ms : Z) {struct fuel} : NM E (option (list Z)) :=
  match fuel with
  | O => no_fuel
  | S fuel =>
    n <- nm_get;;
    if negb (ready n) then nm_ret None
    else if target_ip =? BCAST_IP then nm_ret (Some bcast_mac)
    else match arp_cache_lookup target_ip n with
    | Some mac => nm_ret (Some mac)
    | None =>
      let wait_ticks := u32 (timeout_ms * ticks_per_second n) / 1000 in
      let wait_ticks := if wait_ticks <? 5 then 5 else wait_ticks in
      let per_try := if wait_ticks / 3 =? 0 then 2 else wait_ticks / 3 in
      attempts 3
        (send_arp_packet ARP_OP_REQUEST bcast_mac target_ip;;
         start <- timer_get_ticks;;
         wait_while fuel start (fun d => d <? per_try) (nic_poll (net_arp_resolve fuel)) (arp_cache_lookup target_ip))
    end
  end.

(** ** Echo requests *)

Definition ping_packet (seq : Z) : list Z :=
  let pkt := [ICMP_ECHO_REQUEST; 0; 0; 0] ++ le16 (htons 46853) ++ le16 (htons seq) ++
             ((fun i => u8 (65 + i mod 26)) <$> seqZ 0 32) in
  overwrite pkt 2 (le16 (htons (net_checksum pkt))).

(** The result is the return code with [out_rtt_ms] and [out_ttl]. *)
Definition net_ping (fuel : nat) (dst_ip seq timeout_ms : Z) : NM E (Z * Z * Z) :=
  n <- nm_get;;
  if negb (ready n) || negb (configured (net_config n)) then nm_ret (-1, 0, 0) else
  mac <- net_arp_resolve fuel (route_next_hop dst_ip n) timeout_ms;;
  match mac with
  | None => nm_ret (-2, 0, 0)
  | Some dst_mac =>
    nm_mod (fun n => with_ping (Ping false 46853 seq (ping_ttl (ping n)) (ping_tick (ping n))) n);;
    start_tick <- timer_get_ticks;;
    n <- nm_get;;
    r <- send_ipv4_packet (net_arp_resolve fuel) (cfg_ip (net_config n)) dst_ip (Some dst_mac) IP_PROTO_ICMP (ping_packet seq);;
    if negb (r =? 0) then nm_ret (-1, 0, 0) else
    n <- nm_get;;
    let freq := ticks_per_second n in
    let max_ticks := u32 (timeout_ms * freq) / 1000 in
    let max_ticks := if max_ticks <? 2 then 2 else max_ticks in
    r <- wait_while fuel start_tick (fun d => d <=? max_ticks) (nic_poll (net_arp_resolve fuel))
           (fun n => if ping_received (ping n) then Some (ping n) else None);;
    match r with
    | Some p => nm_ret (0, u32 (u32 (ping_tick p - start_tick) * 1000) / freq, ping_ttl p)
    | None => nm_ret (-1, 0, 0)
    end
  end.

(** ** DHCP *)

(** The option bytes of a message. *)
Definition dhcp_request_options (msg_type req_ip srv_ip : Z) : list Z :=
  [53; 1; msg_type] ++
  (if (msg_type =? DHCP_REQUEST) && negb (req_ip =? 0) then [50; 4] ++ le32 (htonl req_ip) else []) ++
  (if (msg_type =? DHCP_REQUEST) && negb (srv_ip =? 0) then [54; 4] ++ le32 (htonl srv_ip) else []) ++
  [55; 3; 1; 3; 6; 255].

(** [dhcp_pkt_t]: 236 bytes of BOOTP header, the cookie, 308 of options. *)
Definition dhcp_packet (mac : list Z) (msg_type xid req_ip srv_ip : Z) : list Z :=
  let opts := dhcp_request_options msg_type req_ip srv_ip in
  [1; 1; 6; 0] ++ le32 (htonl xid) ++ [0; 0] ++ le16 (htons 32768) ++ replicate 16 0 ++
  mac ++ replicate 10 0 ++ replicate 192 0 ++ le32 (htonl DHCP_MAGIC_COOKIE) ++
  opts ++ replicate (308 - length opts) 0.

Definition send_dhcp_message (fuel : nat) (msg_type xid req_ip srv_ip : Z) : NM E Z :=
  n <- nm_get;;
  let udp_buf := udp_header DHCP_CLIENT_PORT DHCP_SERVER_PORT 556 ++
                 dhcp_packet (my_mac n) msg_type xid req_ip srv_ip in
  send_ipv4_packet (net_arp_resolve fuel) 0 BCAST_IP (Some bcast_mac) IP_PROTO_UDP udp_buf.

Definition net_dhcp_discover (fuel : nat) (timeout_ms : Z) : NM E Z :=
  n <- nm_get;;
  if negb (ready n) then nm_ret (-1) else
  t <- timer_get_ticks;;
  let xid := Z.lxor 3194621952 (u32 (t + 1)) in
  nm_mod (with_dhcp (Dhcp 0 xid 0 (net_make_ip 255 255 255 0) 0 0 0));;
  r <- send_dhcp_message fuel DHCP_DISCOVER xid 0 0;;
  if negb (r =? 0) then nm_ret (-1) else
  n <- nm_get;;
  let half_ticks := u32 (timeout_ms / 2 * ticks_per_second n) / 1000 in
  let half_ticks := if half_ticks <? 5 then 5 else half_ticks in
  let poll := nic_poll (net_arp_resolve fuel) in
  start <- timer_get_ticks;;
  wait_while fuel start (fun d => d <? half_ticks) poll
    (fun n => if (dhcp_msg (dhcp n) =? DHCP_OFFER) && negb (off_ip (dhcp n) =? 0) then Some tt else None);;
  n <- nm_get;;
  if negb (dhcp_msg (dhcp n) =? DHCP_OFFER) || (off_ip (dhcp n) =? 0) then nm_ret (-1) else
  let req_ip := off_ip (dhcp n) in
  let srv_ip := off_srv (dhcp n) in
  nm_mod (fun n => let d := dhcp n in
    with_dhcp (Dhcp 0 (dhcp_xid d) (off_ip d) (off_mask d) (off_gw d) (off_dns d) (off_srv d)) n);;
  r <- send_dhcp_message fuel DHCP_REQUEST xid req_ip srv_ip;;
  if negb (r =? 0) then nm_ret (-1) else
  start <- timer_get_ticks;;
  wait_while fuel start (fun d => d <? half_ticks) poll
    (fun n => if dhcp_msg (dhcp n) =? DHCP_ACK then Some tt else None);;
  n <- nm_get;;
  if negb (dhcp_msg (dhcp n) =? DHCP_ACK) && (req_ip =? 0) then nm_ret (-1) else
  let d := dhcp n in
  let c := net_config n in
  nm_mod (with_config (NetConfig true true
    (if off_ip d =? 0 then req_ip else off_ip d)
    (if off_mask d =? 0 then net_make_ip 255 255 255 0 else off_mask d)
    (off_gw d) (off_dns d) (off_srv d) (rx_eth c) (rx_arp c) (rx_ipv4 c) (rx_icmp c) (rx_udp c)));;
  nm_ret 0.

(** With the message for [klog_writeln("net", msg)]; [msg] is an array of 64
    bytes, and a text past its end is [None]. *)
Definition lease_message (n : net E) : option (list Z) :=
  let text := str "DHCP lease acquired: " in
  ip_str ← net_format_ip (cfg_ip (net_config n));
  msg ← Array.strcat (text ++ replicate (64 - length text) 0) ip_str;
  Some (text ++ ip_str).
Definition net_autoconfig (fuel : nat) : NM E (option (list Z)) :=
  n <- nm_get;;
  if negb (ready n) then nm_ret None else
  r <- net_dhcp_discover fuel 900;;
  if r =? 0 then fun n => msg ← lease_message n; Some (Some msg, n)
  else
    nm_mod (net_set_static_ip (net_make_ip 10 0 2 15) (net_make_ip 255 255 255 0)
                              (net_make_ip 10 0 2 2) (net_make_ip 10 0 2 3));;
    nm_ret (Some (str "No DHCP server; configured fallback 10.0.2.15/24")).
End net.
