(* ===== verification/NetSpec.v ===== *)
(** NetSpec: correctness of the network stack.

    Checksums verify themselves, addresses print and parse back, the ARP
    cache is a bounded map that evicts its oldest entry, and the bytes of the
    headers that are sent are those the protocols ask for. *)

From S2P Require Import Prelude Memory Common Net.

(** * The Internet checksum *)

Lemma word_be a b : is_u8 a -> is_u8 b -> Z.lor (Z.shiftl a 8) b = 256 * a + b.
Proof.
  unfold is_u8. intros Ha Hb. rewrite Z.lor_comm, lor_shiftl_add by (change (2 ^ 8) with 256; lia).
  change (2 ^ 8) with 256. lia.
Qed.

(** The sum of the big-endian words, an odd last byte being padded with 0. *)
Fixpoint wsum (p : list Z) : Z :=
  match p with
  | a :: b :: p => 256 * a + b + wsum p
  | [a] => 256 * a
  | [] => 0
  end.

(** Induction in steps of two elements. *)
Lemma list_ind2 {A} (P : list A -> Prop) :
  P [] -> (forall a, P [a]) -> (forall a b l, P l -> P (a :: b :: l)) -> forall l, P l.
Proof.
  intros H0 H1 H2 l. enough (P l /\ forall a, P (a :: l)) as [? _] by done.
  induction l as [|x l [IH1 IH2]]; split; auto.
Qed.

Lemma wsum_bounds p : Forall is_u8 p -> 0 <= wsum p /\ 2 * wsum p <= 65535 * (lenZ p + 1).
Proof.
  induction p as [|a|a b p IH] using list_ind2; unfold lenZ in *; simpl.
  - lia.
  - intros [Ha _]%Forall_cons. unfold is_u8 in Ha. lia.
  - intros [Ha [Hb Hp]%Forall_cons]%Forall_cons. unfold is_u8 in *. specialize (IH Hp). lia.
Qed.

Lemma sum_words_eq p s :
  Forall is_u8 p -> 0 <= s -> s + wsum p < 4294967296 -> sum_words p s = s + wsum p.
Proof.
  revert s. induction p as [|a|a b p IH] using list_ind2; intros s Hp Hs Hb; cbn [sum_words wsum] in *.
  - lia.
  - apply Forall_cons in Hp as [Ha _]. unfold is_u8 in Ha. rewrite Z.shiftl_mul_pow2 by lia.
    change (2 ^ 8) with 256. rewrite u32_id; lia.
  - apply Forall_cons in Hp as [Ha Hp]. apply Forall_cons in Hp as [Hb' Hp].
    pose proof (wsum_bounds p Hp) as [? _]. rewrite word_be by done. unfold is_u8 in *.
    rewrite u32_id by lia. rewrite IH by (done || lia). lia.
Qed.

Lemma wsum_app p q : Nat.even (length p) = true -> wsum (p ++ q) = wsum p + wsum q.
Proof.
  induction p as [|a|a b p IH] using list_ind2; simpl; intros He; [lia|done|]. rewrite IH by done. lia.
Qed.

(** The folding loop: at most three rounds, and the value modulo 65535. *)
Lemma fold_sum_total s :
  0 <= s < 4294967296 ->
  exists r, fold_sum s = Some r /\ 0 <= r < 65536 /\ r mod 65535 = s mod 65535 /\ (0 < s <-> 0 < r).
Proof.
  intros Hs. unfold fold_sum.
  destruct (while_fuel_total (fun x => 0 <= x < 4294967296 /\ x mod 65535 = s mod 65535 /\ (0 < s <-> 0 < x))
    (fun x => if x <? 65536 then 0%nat else if x <? 131071 then 1%nat else 2%nat)
    (fun sum => negb (Z.shiftr sum 16 =? 0)) (fun sum => u32 (Z.land sum 65535 + Z.shiftr sum 16)) 3 s)
    as (r & E & (Hr & Hm & Hp) & Hc).
  - auto.
  - repeat case_goal; lia.
  - intros x (Hx & Hm & Hp) Hc. rewrite Z.shiftr_div_pow2 in * by lia. rewrite land_65535. change (2 ^ 16) with 65536 in *.
    apply negb_true_iff, Z.eqb_neq in Hc. assert (65536 <= x) by zlia.
    assert (0 <= x mod 65536 + x / 65536 < 4294967296) as Hb by zlia. rewrite u32_id by done. split_and!; try lia.
    + rewrite <- Hm. rewrite (Z.div_mod x 65536) at 3 by lia.
      replace (65536 * (x / 65536) + x mod 65536) with (x mod 65536 + x / 65536 + x / 65536 * 65535) by lia.
      by rewrite Z.mod_add.
    + zlia.
    + destruct (Z.ltb_spec x 65536); [lia|]. destruct (Z.ltb_spec x 131071).
      * destruct (Z.ltb_spec (x mod 65536 + x / 65536) 65536); [lia|zlia].
      * destruct (Z.ltb_spec (x mod 65536 + x / 65536) 65536); [lia|].
        destruct (Z.ltb_spec (x mod 65536 + x / 65536) 131071); [lia|zlia].
  - exists r. rewrite E. apply negb_false_iff, Z.eqb_eq in Hc. rewrite Z.shiftr_div_pow2 in Hc by lia.
    change (2 ^ 16) with 65536 in Hc. split_and!; auto; zlia.
Qed.

(** Packets are short enough for the 32-bit sum not to wrap. *)
Lemma net_checksum_eq p :
  Forall is_u8 p -> lenZ p < 65536 ->
  exists r, net_checksum p = 65535 - r /\ 0 <= r < 65536 /\ r mod 65535 = wsum p mod 65535 /\ (0 < wsum p <-> 0 < r).
Proof.
  intros Hp Hl. pose proof (wsum_bounds p Hp) as [? ?]. unfold net_checksum.
  rewrite sum_words_eq by (done || lia).
  destruct (fold_sum_total (0 + wsum p)) as (r & -> & Hr & Hm & Hpos); [lia|].
  exists r. rewrite Z.add_0_l in *. split_and!; auto; try lia. unfold u16, Z.lnot. zlia.
Qed.

Lemma net_checksum_range p : is_u16 (net_checksum p).
Proof. unfold net_checksum. case_goal; [apply u16_range|unfold is_u16; lia]. Qed.

Lemma le16_htons v : is_u16 v -> le16 (htons v) = [v / 256; v mod 256].
Proof.
  intros Hv. unfold le16, htons. rewrite bswap16_swapped by done. unfold swapped16, is_u16 in *.
  f_equal; [zlia|]. f_equal. zlia.
Qed.

Lemma ntohs_le16 v rest : is_u16 v -> ntohs (ld16 (le16 (htons v) ++ rest) 0) = v.
Proof.
  intros Hv. rewrite le16_htons by done.
  change (ld16 ([v / 256; v mod 256] ++ rest) 0) with (v / 256 + 256 * (v mod 256)). unfold ntohs.
  rewrite bswap16_swapped by (unfold is_u16 in *; zlia). unfold swapped16, is_u16 in *. zlia.
Qed.

Lemma checksum_verifies a b :
  Forall is_u8 a -> Forall is_u8 b -> Nat.even (length a) = true -> lenZ a + lenZ b < 65534 ->
  net_checksum (a ++ le16 (htons (net_checksum (a ++ [0; 0] ++ b))) ++ b) = 0.
Proof.
  intros Ha Hb He Hl. set (c := net_checksum (a ++ [0; 0] ++ b)).
  assert (is_u16 c) as Hc by apply net_checksum_range. rewrite le16_htons by done.
  assert (Forall is_u8 [c / 256; c mod 256]) as Hc8.
  { unfold is_u16 in Hc. repeat constructor; unfold is_u8; zlia. }
  assert (forall x y, Forall is_u8 [x; y] -> Forall is_u8 (a ++ [x; y] ++ b) /\ lenZ (a ++ [x; y] ++ b) < 65536 /\
    wsum (a ++ [x; y] ++ b) = wsum a + (256 * x + y) + wsum b) as Hall.
  { intros x y Hxy. split; [by rewrite !Forall_app|]. split.
    - unfold lenZ in *. rewrite !length_app. simpl. lia.
    - rewrite wsum_app by done. cbn [app wsum]. lia. }
  destruct (Hall 0 0) as (H1 & H2 & H3); [repeat constructor; unfold is_u8; lia|].
  destruct (Hall _ _ Hc8) as (H4 & H5 & H6).
  destruct (net_checksum_eq _ H1 H2) as (r & Er & Hr & Hm & Hpos). fold c in Er.
  destruct (net_checksum_eq _ H4 H5) as (r' & -> & Hr' & Hm' & Hpos').
  pose proof (wsum_bounds a Ha) as [? _]. pose proof (wsum_bounds b Hb) as [? _].
  rewrite H3 in Hm, Hpos. rewrite H6 in Hm', Hpos'.
  assert (256 * (c / 256) + c mod 256 = c) as Ec by zlia. rewrite Ec in Hm', Hpos'.
  set (S := wsum a + wsum b) in *. replace (wsum a + (256 * 0 + 0) + wsum b) with S in * by (unfold S; lia).
  replace (wsum a + c + wsum b) with (S + c) in * by (unfold S; lia).
  assert ((S + c) mod 65535 = 0) as E0.
  { rewrite Er. replace (S + (65535 - r)) with ((S - r) + 1 * 65535) by lia. rewrite Z.mod_add by lia.
    rewrite Zminus_mod, Hm, Z.sub_diag. done. }
  assert (0 < S + c) by (destruct (Z.eq_dec S 0); lia). rewrite E0 in Hm'. zlia.
Qed.

(** Storing the checksum of a packet in its checksum field, at an even
    offset, makes the packet verify: the checksum of the whole is 0. *)
Theorem net_checksum_verifies a b :
  Forall is_u8 a -> Forall is_u8 b -> Nat.even (length a) = true -> lenZ a + lenZ b < 65534 ->
  net_checksum (a ++ le16 (htons (net_checksum (a ++ [0; 0] ++ b))) ++ b) = 0.
Proof. apply checksum_verifies. Qed.

Lemma net_checksum_verifies_witness :
  net_checksum ([69; 0; 0; 20] ++ le16 (htons (net_checksum ([69; 0; 0; 20] ++ [0; 0] ++ [192; 168; 0; 1]))) ++
    [192; 168; 0; 1]) = 0.
Proof.
  apply net_checksum_verifies.
  - repeat constructor; unfold is_u8; lia.
  - repeat constructor; unfold is_u8; lia.
  - reflexivity.
  - reflexivity.
Defined.

(** * Addresses *)

(** The value of a digit string, as long as no prefix exceeds 255. *)
Fixpoint run_digits (s : list Z) (v : Z) : option Z :=
  match s with
  | [] => Some v
  | c :: s =>
    if isdigit c then
      let v := u32 (u32 (v * 10) + (c - 48)) in if 255 <? v then None else run_digits s v
    else None
  end.

Lemma updZ_updZ (i x y : Z) l : updZ i x (updZ i y l) = updZ i x l.
Proof. unfold updZ. case_goal; [done|]. by rewrite list_insert_insert_eq. Qed.

Lemma parse_digits s : forall rest parts idx b v,
  s <> [] -> 0 <= idx < lenZ parts -> run_digits s (nthZ 0 parts idx) = Some v ->
  parse_ip_loop (s ++ rest) parts idx b = parse_ip_loop rest (updZ idx v parts) idx true.
Proof.
  induction s as [|c s IH]; intros rest parts idx b v Hs Hi Hr; [done|]. cbn [app parse_ip_loop run_digits] in *.
  destruct (isdigit c); [|done]. set (w := u32 _) in *. destruct (255 <? w); [done|].
  destruct s as [|c' s]; [cbn in *; by injection Hr as <-|].
  rewrite (IH rest (updZ idx w parts) idx true v); [by rewrite updZ_updZ|done|by rewrite lenZ_updZ|].
  by rewrite nthZ_updZ_eq.
Qed.

Lemma parse_octet_dot s rest parts idx b v :
  s <> [] -> 0 <= idx < lenZ parts -> idx < 3 -> run_digits s (nthZ 0 parts idx) = Some v ->
  parse_ip_loop (s ++ [46] ++ rest) parts idx b = parse_ip_loop rest (updZ idx v parts) (idx + 1) false.
Proof.
  intros Hs Hi Hlt Hr. rewrite (parse_digits s _ parts idx b v Hs Hi Hr). cbn [app parse_ip_loop].
  change (isdigit 46) with false. change (46 =? 46) with true. cbn [negb orb].
  by destruct (Z.leb_spec 3 idx); [lia|].
Qed.

(** Every octet prints as such a string. *)
Lemma octet_digits o :
  0 <= o < 256 -> exists s, k_utoa o 10 = Some s /\ s <> [] /\ run_digits s 0 = Some o.
Proof.
  intros Ho.
  assert (forallb (fun o => match k_utoa o 10 with
    | Some s => negb (bool_decide (s = [])) && bool_decide (run_digits s 0 = Some o) | None => false end) (seqZ 0 256) = true)
    as Hall by (vm_compute; reflexivity).
  assert (o ∈ seqZ 0 256) as Hin by (apply elem_of_seqZ; lia).
  apply list_elem_of_In in Hin. apply (proj1 (List.forallb_forall _ _) Hall) in Hin.
  destruct (k_utoa o 10) as [s|]; [|done]. apply andb_true_iff in Hin as [H1 H2].
  apply negb_true_iff, bool_decide_eq_false in H1. apply bool_decide_eq_true in H2. eauto.
Qed.

Lemma make_ip_octets ip :
  is_u32 ip ->
  net_make_ip (u8 (ip / 16777216)) (u8 (ip / 65536 mod 256)) (u8 (ip / 256 mod 256)) (u8 (ip mod 256)) = ip.
Proof.
  unfold is_u32. intros Hip. unfold net_make_ip. rewrite !Z.shiftl_mul_pow2 by lia.
  change (2 ^ 24) with 16777216. change (2 ^ 16) with 65536. change (2 ^ 8) with 256.
  rewrite !u8_id by zlia. rewrite u32_id by zlia.
  set (a := ip / 16777216). set (b := ip / 65536 mod 256). set (c := ip / 256 mod 256). set (d := ip mod 256).
  assert (ip = 16777216 * a + 65536 * b + 256 * c + d) as E by (unfold a, b, c, d; zlia).
  assert (0 <= a < 256 /\ 0 <= b < 256 /\ 0 <= c < 256 /\ 0 <= d < 256) as (? & ? & ? & ?) by (unfold a, b, c, d; zlia).
  clearbody a b c d.
  rewrite (Z.lor_comm (a * 16777216)), (lor_disjoint_add (b * 65536)) by (apply (land_low_high _ _ 24); lia).
  rewrite (Z.lor_comm _ (c * 256)), (lor_disjoint_add (c * 256)); cycle 1.
  { replace (b * 65536 + a * 16777216) with ((b + a * 256) * 2 ^ 16) by lia. apply land_low_high; lia. }
  rewrite Z.lor_comm, lor_disjoint_add; [lia|].
  replace (c * 256 + (b * 65536 + a * 16777216)) with ((c + b * 256 + a * 65536) * 2 ^ 8) by lia. apply land_low_high; lia.
Qed.

(** Printing an address and parsing the text gives the address back. *)
Theorem net_parse_format_ip ip :
  is_u32 ip -> exists s, net_format_ip ip = Some s /\ net_parse_ip s = Some ip.
Proof.
  intros Hip. assert (0 <= ip < 4294967296) as Hip' by done.
  assert (forall i, 0 <= i -> u8 (Z.land (Z.shiftr ip (i * 8)) 255) = ip / 2 ^ (i * 8) mod 256) as Hoct.
  { intros i Hi. rewrite land_255, Z.shiftr_div_pow2 by lia. apply u8_id. zlia. }
  destruct (octet_digits (ip / 16777216)) as (s3 & K3 & N3 & R3); [zlia|].
  destruct (octet_digits (ip / 65536 mod 256)) as (s2 & K2 & N2 & R2); [zlia|].
  destruct (octet_digits (ip / 256 mod 256)) as (s1 & K1 & N1 & R1); [zlia|].
  destruct (octet_digits (ip mod 256)) as (s0 & K0 & N0 & R0); [zlia|].
  exists (s3 ++ [46] ++ s2 ++ [46] ++ s1 ++ [46] ++ s0). split.
  - unfold net_format_ip. cbn [format_octets]. rewrite !Hoct by lia.
    change (2 ^ (3 * 8)) with 16777216. change (2 ^ (2 * 8)) with 65536. change (2 ^ (1 * 8)) with 256. change (2 ^ (0 * 8)) with 1.
    rewrite Z.div_1_r. replace (ip / 16777216 mod 256) with (ip / 16777216) by zlia.
    rewrite K3, K2, K1, K0. cbn. f_equal. rewrite <- !app_assoc. done.
  - unfold net_parse_ip.
    rewrite (parse_octet_dot s3 _ [0; 0; 0; 0] 0 false _ N3) by first [done|exact R3].
    rewrite (parse_octet_dot s2 _ _ (0 + 1) false _ N2) by first [done|exact R2].
    rewrite (parse_octet_dot s1 _ _ (0 + 1 + 1) false _ N1) by first [done|exact R1].
    rewrite <- (app_nil_r s0), (parse_digits s0 _ _ (0 + 1 + 1 + 1) false _ N0) by first [done|exact R0].
    exact (f_equal Some (make_ip_octets ip Hip)).
Qed.

Lemma net_parse_format_ip_witness :
  exists s, net_format_ip 167772687 = Some s /\ net_parse_ip s = Some 167772687.
Proof. apply net_parse_format_ip. unfold is_u32. lia. Defined.

(** * The ARP cache *)

(** At most one valid entry per address. *)
Record arp_wf (l : list arp_entry_t) : Prop := {
  aw_len : length l = NET_ARP_CACHE_SIZE;
  aw_tick : Forall (fun e => is_u32 (ae_tick e)) l;
  aw_one i j e f : l !! i = Some e -> l !! j = Some f -> ae_valid e = true -> ae_valid f = true ->
    ae_ip e = ae_ip f -> i = j
}.

(** Where [arp_cache_update] puts the entry of [ip]: over the entry of [ip];
    else in a free slot; else over a valid entry that is not newer than any. *)
Definition arp_slot (ip : Z) (l : list arp_entry_t) (slot : nat) : Prop :=
  exists e, l !! slot = Some e /\
    ((ae_valid e = true /\ ae_ip e = ip) \/
     (Forall (fun f => ae_valid f = true -> ae_ip f <> ip) l /\
      (ae_valid e = false \/
       (Forall (fun f => ae_valid f = true) l /\ Forall (fun f => ae_tick e <= ae_tick f) l)))).

(** The accumulators of [arp_scan] after the entries [pre]. *)
Definition scan_inv (ip : Z) (pre l : list arp_entry_t) (free : option nat) (old : nat) (tick : Z) : Prop :=
  Forall (fun f => ae_valid f = true -> ae_ip f <> ip) pre /\
  match free with
  | Some j => exists e, pre !! j = Some e /\ ae_valid e = false
  | None => Forall (fun f => ae_valid f = true) pre
  end /\
  Forall (fun f => ae_valid f = true -> tick <= ae_tick f) pre /\
  ((tick = 4294967295 /\ old = 0%nat) \/ exists e, pre !! old = Some e /\ ae_valid e = true /\ ae_tick e = tick).

Lemma Forall_snoc_2 {A} (P : A -> Prop) l x : Forall P l -> P x -> Forall P (l ++ [x]).
Proof. intros. apply Forall_app. by repeat constructor. Qed.

Lemma arp_scan_spec ip l : forall pre free old tick,
  Forall (fun e => is_u32 (ae_tick e)) l -> pre ++ l <> [] ->
  scan_inv ip pre l free old tick ->
  match arp_scan ip l (length pre) free old tick with
  | inl i => arp_slot ip (pre ++ l) i
  | inr (Some i, _) => arp_slot ip (pre ++ l) i
  | inr (None, i) => Forall (fun e => is_u32 (ae_tick e)) pre -> arp_slot ip (pre ++ l) i
  end.
Proof.
  induction l as [|e l IH]; intros pre free old tick Ht Hne (Hip & Hfree & Hmin & Hold).
  - cbn. rewrite app_nil_r in *. destruct free as [j|].
    + destruct Hfree as (e & He & Hv). exists e. auto.
    + intros Hpt. assert (exists e, pre !! old = Some e /\ ae_tick e <= tick) as (e & He & Hte).
      { destruct Hold as [[-> ->]|(e & ? & ? & <-)]; [|exists e; split; [done|lia]].
        destruct pre as [|e pre]; [done|]. exists e. apply Forall_cons in Hpt as [Hu _]. unfold is_u32 in Hu. split; [done|lia]. }
      exists e. split; [done|]. right. split; [done|]. right. split; [done|]. apply Forall_forall. intros f Hf.
      pose proof (proj1 (Forall_forall _ _) Hmin f Hf (proj1 (Forall_forall _ _) Hfree f Hf)). lia.
  - apply Forall_cons in Ht as [Hte Ht]. cbn [arp_scan].
    assert ((pre ++ e :: l) !! length pre = Some e) as Hlk by (rewrite lookup_app_r, Nat.sub_diag by lia; done).
    destruct (ae_valid e && (ae_ip e =? ip)) eqn:Em.
    { bool_to_prop. exists e. auto. }
    assert (forall x y z, scan_inv ip (pre ++ [e]) l x y z ->
      match arp_scan ip l (S (length pre)) x y z with
      | inl i => arp_slot ip (pre ++ e :: l) i
      | inr (Some i, _) => arp_slot ip (pre ++ e :: l) i
      | inr (None, i) => Forall (fun e => is_u32 (ae_tick e)) pre -> arp_slot ip (pre ++ e :: l) i
      end) as Hgo.
    { intros x y z Hinv. replace (pre ++ e :: l) with ((pre ++ [e]) ++ l) in * by by rewrite <- app_assoc.
      replace (S (length pre)) with (length (pre ++ [e])) by (rewrite length_app; simpl; lia).
      specialize (IH (pre ++ [e]) x y z Ht Hne Hinv). destruct (arp_scan ip l _ x y z) as [i|[[i|] i']]; auto.
      intros Hpre. apply IH. by apply Forall_snoc_2. }
    assert (ae_valid e = true -> ae_ip e <> ip) as Hnip.
    { intros Hv Hi. rewrite Hv, Hi, Z.eqb_refl in Em. done. }
    assert ((pre ++ [e]) !! length pre = Some e) as Hlk' by (rewrite lookup_app_r, Nat.sub_diag by lia; done).
    assert (forall j x, pre !! j = Some x -> (pre ++ [e]) !! j = Some x) as Hup
      by (intros j x Hj; by apply lookup_app_l_Some).
    destruct (ae_valid e && (ae_tick e <? tick)) eqn:Eo; apply Hgo; (split; [by apply Forall_snoc_2|]).
    + apply andb_true_iff in Eo as [Hv Hlt%Z.ltb_lt]. rewrite Hv. cbn [negb andb]. split; [|split].
      * destruct free as [j|]; [destruct Hfree as (x & Hx & ?); exists x; auto|]. by apply Forall_snoc_2.
      * apply Forall_snoc_2; [|intros _; lia].
        eapply Forall_impl; [exact Hmin|]. cbn. intros f Hf Hvf. specialize (Hf Hvf). lia.
      * right. by exists e.
    + split; [|split].
      * destruct (ae_valid e) eqn:Hv; cbn [negb andb].
        { destruct free as [j|]; [destruct Hfree as (x & Hx & ?); exists x; auto|]. by apply Forall_snoc_2. }
        destruct free as [j|]; cbn; [destruct Hfree as (x & Hx & ?); exists x; auto|]. by exists e.
      * apply Forall_snoc_2; [done|]. intros Hv. rewrite Hv in Eo. by apply Z.ltb_ge in Eo.
      * destruct Hold as [?|(x & Hx & ? & ?)]; [by left|right; exists x; auto].
Qed.

Lemma arp_find_spec ip l :
  match arp_find ip l with
  | Some mac => exists i e, l !! i = Some e /\ ae_valid e = true /\ ae_ip e = ip /\ ae_mac e = mac
  | None => Forall (fun e => ae_valid e = true -> ae_ip e <> ip) l
  end.
Proof.
  induction l as [|e l IH]; [constructor|]. cbn [arp_find].
  destruct (ae_valid e && (ae_ip e =? ip)) eqn:Em.
  - bool_to_prop. by exists 0%nat, e.
  - destruct (arp_find ip l).
    + destruct IH as (i & f & ? & ? & ? & ?). by exists (S i), f.
    + constructor; [|done]. intros Hv Hi. by rewrite Hv, Hi, Z.eqb_refl in Em.
Qed.

(** In a well-formed cache the lookup finds the entry of an address. *)
Lemma arp_find_at ip l i e :
  arp_wf l -> l !! i = Some e -> ae_valid e = true -> ae_ip e = ip -> arp_find ip l = Some (ae_mac e).
Proof.
  intros Hwf Hi Hv He. pose proof (arp_find_spec ip l) as Hf. destruct (arp_find ip l).
  - destruct Hf as (j & f & Hj & Hvf & Hif & <-). assert (i = j) as -> by (eapply (aw_one l Hwf); eauto; congruence).
    congruence.
  - destruct ((proj1 (Forall_lookup _ _) Hf i e Hi) Hv He).
Qed.

Lemma arp_insert_wf ip l slot mac t :
  arp_wf l -> arp_slot ip l slot -> is_u32 t -> arp_wf (<[slot := ArpEntry ip mac t true]> l).
Proof.
  intros [Hlen Ht Hone] (e & He & Hc) Hu. split.
  - by rewrite length_insert.
  - by apply Forall_insert.
  - intros i j f g Hi Hj Hvf Hvg E.
    assert (forall k x, k <> slot -> l !! k = Some x -> ae_valid x = true -> ae_ip x <> ip) as Hother.
    { intros k x Hk Hx Hvx Hix. destruct Hc as [[Hv Hie]|[Hall _]].
      - apply Hk. eapply Hone; eauto. congruence.
      - exact (proj1 (Forall_lookup _ _) Hall k x Hx Hvx Hix). }
    rewrite list_lookup_insert_Some in Hi. rewrite list_lookup_insert_Some in Hj.
    destruct Hi as [(<- & <- & _)|[Hni Hi]], Hj as [(<- & <- & _)|[Hnj Hj]]; [done|..].
    + exfalso. by eapply (Hother j g); auto.
    + exfalso. by eapply (Hother i f); auto.
    + eapply Hone; eauto.
Qed.

(** The slot that [arp_cache_update] chooses. *)
Definition chosen_slot (ip : Z) (l : list arp_entry_t) : nat :=
  match arp_scan ip l 0 None 0 4294967295 with inl i => i | inr (Some i, _) => i | inr (None, i) => i end.

Lemma update_slot ip l : arp_wf l -> arp_slot ip l (chosen_slot ip l).
Proof.
  intros Hwf. assert (l <> []) as Hne by (intros E0; pose proof (aw_len _ Hwf) as Hl; by rewrite E0 in Hl).
  assert (scan_inv ip [] l None 0 4294967295) as Hinv by (split_and!; auto using Forall_nil_2).
  pose proof (arp_scan_spec ip l [] None 0 4294967295 (aw_tick _ Hwf) Hne Hinv) as Hs. cbn [length app] in Hs.
  unfold chosen_slot. destruct (arp_scan ip l 0 None 0 4294967295) as [i|[[i|] i']]; [exact Hs|exact Hs|].
  apply Hs. constructor.
Qed.

Section cache.
Context {E : Type} `{NetEnv E}.

(** C20: after [arp_cache_update] the address resolves to the new hardware
    address, in a cache that still holds at most one entry per address; its
    entry has the time of the clock, and the entries of the other addresses are
    those from before, with their times; any other address resolves as before,
    unless the cache was full and its entry was the oldest one, which was
    evicted. *)
Theorem arp_cache_update_correct ip mac (n : net E) :
  arp_wf (arp_cache n) -> ip <> 0 -> is_u32 (ticks (env n)).1 ->
  exists n', arp_cache_update ip mac n = Some (tt, n') /\ arp_wf (arp_cache n') /\
    arp_cache_lookup ip n' = Some (take 6 mac) /\ net_config n' = net_config n /\
    ArpEntry ip (take 6 mac) (ticks (env n)).1 true ∈ arp_cache n' /\
    (forall e, e ∈ arp_cache n' -> ae_valid e = true -> ae_ip e <> ip -> e ∈ arp_cache n) /\
    forall ip', ip' <> ip ->
      arp_cache_lookup ip' n' = arp_cache_lookup ip' n \/
      (arp_cache_lookup ip' n' = None /\ Forall (fun f => ae_valid f = true) (arp_cache n) /\
       exists e, e ∈ arp_cache n /\ ae_ip e = ip' /\ Forall (fun f => ae_tick e <= ae_tick f) (arp_cache n)).
Proof.
  intros Hwf Hip Ht. unfold arp_cache_update, nm_bind, nm_get, nm_mod, timer_get_ticks, arp_cache_lookup. cbn.
  destruct (Z.eqb_spec ip 0); [done|]. cbn. destruct (ticks (env n)) as [t e1]. cbn in *.
  set (l := arp_cache n) in *. change (match arp_scan ip l 0 None 0 4294967295 with inl i => i | inr (Some i, _) => i | inr (None, i) => i end)
    with (chosen_slot ip l). set (slot := chosen_slot ip l).
  assert (arp_slot ip l slot) as Hslot by by apply update_slot.
  pose proof (arp_insert_wf ip l slot (take 6 mac) t Hwf Hslot Ht) as Hwf'.
  destruct (Hslot) as (e & He & Hc). pose proof (lookup_lt_Some _ _ _ He) as Hlt.
  eexists. split; [reflexivity|]. cbn [arp_cache with_arp with_env net_config]. fold l. fold slot. split; [done|]. split_and!; [|done|..].
  - by apply (arp_find_at ip _ slot _ Hwf' (list_lookup_insert_eq _ _ _ Hlt)).
  - apply (list_elem_of_lookup_2 _ slot). by apply list_lookup_insert_eq.
  - intros x Hx _ Hne. apply list_elem_of_lookup_1 in Hx as [i Hx]. rewrite list_lookup_insert_Some in Hx.
    destruct Hx as [(_ & <- & _)|[_ Hx]]; [by destruct Hne|]. by eapply list_elem_of_lookup_2.
  - intros ip' Hne. set (l' := <[slot := _]> l) in *.
    pose proof (arp_find_spec ip' l') as Hf'. pose proof (arp_find_spec ip' l) as Hf.
    destruct (arp_find ip' l') as [m'|] eqn:E'.
    + left. destruct Hf' as (i & x & Hx & Hv & Hi & <-). unfold l' in Hx. rewrite list_lookup_insert_Some in Hx.
      destruct Hx as [(_ & <- & _)|[_ Hx]]; [by destruct Hne|]. symmetry. by apply (arp_find_at ip' l i x).
    + destruct (arp_find ip' l) as [m|] eqn:El; [|by left]. destruct Hf as (i & x & Hx & Hv & Hi & <-).
      destruct (decide (i = slot)) as [->|Hns].
      * rewrite He in Hx. injection Hx as ->. destruct Hc as [[_ ?]|[_ [?|[Hall Hmin]]]]; [congruence|congruence|].
        right. split; [done|]. split; [done|]. exists x. split; [by apply list_elem_of_lookup_2 in He|done].
      * exfalso. assert (l' !! i = Some x) as Hx' by (unfold l'; by rewrite list_lookup_insert_ne by done).
        exact (proj1 (Forall_lookup _ _) Hf' i x Hx' Hv Hi).
Qed.
End cache.

(** * Fields on the wire *)

Lemma le16_u8 v : Forall is_u8 (le16 v).
Proof. repeat apply Forall_cons_2; auto using Forall_nil_2; unfold is_u8; zlia. Qed.
Lemma le32_u8 v : Forall is_u8 (le32 v).
Proof. repeat apply Forall_cons_2; auto using Forall_nil_2; unfold is_u8; zlia. Qed.

(** A field that was stored with [htonl] or [htons] reads back. *)
Lemma ntohl_of_le32 v :
  is_u32 v ->
  let w := htonl v in
  ntohl (of_bytes (w mod 256) (w / 256 mod 256) (w / 65536 mod 256) (w / 16777216 mod 256)) = v.
Proof.
  intros Hv w. assert (is_u32 w) as Hw by by apply bswap32_range.
  replace (of_bytes _ _ _ _) with w by (unfold of_bytes, is_u32 in *; zlia). by apply bswap32_invol.
Qed.
Lemma ntohs_of_le16 v : is_u16 v -> let w := htons v in ntohs (w mod 256 + 256 * (w / 256 mod 256)) = v.
Proof.
  intros Hv w. assert (is_u16 w) as Hw by by apply bswap16_range.
  replace (w mod 256 + _) with w by (unfold is_u16 in *; zlia). by apply bswap16_invol.
Qed.

(** Numbers on the wire, most significant byte first. *)
Definition be16 (v : Z) : list Z := [v / 256; v mod 256].
Definition be32 (v : Z) : list Z := [v / 16777216; v / 65536 mod 256; v / 256 mod 256; v mod 256].

Lemma le32_htonl v : is_u32 v -> le32 (htonl v) = be32 v.
Proof.
  intros (a & b & c & d & Ha & Hb & Hc & Hd & ->)%to_bytes. unfold htonl. rewrite bswap32_bytes by done.
  unfold le32, be32, of_bytes, is_u8 in *. repeat (f_equal; try zlia).
Qed.

(** The rule of RFC 1071 for a received packet: the one's complement sum of
    its big-endian 16-bit words is all ones, that is, the sum is a multiple
    of 65535 and not 0. *)
Definition sums_to_ones (p : list Z) : Prop := 0 < wsum p /\ wsum p mod 65535 = 0.

Lemma checksum_sums p : Forall is_u8 p -> lenZ p < 65536 -> net_checksum p = 0 -> sums_to_ones p.
Proof.
  intros Hp Hl E. destruct (net_checksum_eq p Hp Hl) as (r & Er & Hr & Hm & Hpos).
  assert (r = 65535) as -> by lia. split; [by apply Hpos|]. by rewrite <- Hm.
Qed.

(** A packet into which [net_checksum] was stored sums to ones. *)
Lemma stored_sums a b :
  Forall is_u8 a -> Forall is_u8 b -> Nat.even (length a) = true -> lenZ a + lenZ b < 65534 ->
  exists ck, le16 (htons (net_checksum (a ++ [0; 0] ++ b))) = be16 ck /\ is_u16 ck /\ sums_to_ones (a ++ be16 ck ++ b).
Proof.
  intros Ha Hb He Hl. pose proof (checksum_verifies a b Ha Hb He Hl) as Hv.
  set (ck := net_checksum (a ++ [0; 0] ++ b)) in *. exists ck. assert (is_u16 ck) as Hck by apply net_checksum_range.
  rewrite le16_htons in Hv by done. rewrite le16_htons by done. split_and!; [done|done|]. apply checksum_sums; [..|done].
  - rewrite !Forall_app. split_and!; [done| |done]. unfold be16, is_u16 in *.
    repeat apply Forall_cons_2; auto using Forall_nil_2; unfold is_u8; zlia.
  - unfold lenZ in *. rewrite !length_app. unfold be16. simpl. lia.
Qed.

(** The twenty bytes of a header built by [send_ipv4_packet]: version 4 and
    five words, service 0, the length, the identification, no fragment, 64
    hops, the protocol, a checksum that makes the header sum to ones, and the
    two addresses. *)
Lemma ipv4_header_wire total id proto src dst :
  is_u16 total -> is_u16 id -> is_u8 proto -> is_u32 src -> is_u32 dst ->
  exists ck, let h := [69; 0] ++ be16 total ++ be16 id ++ [0; 0; 64; proto] ++ be16 ck ++ be32 src ++ be32 dst in
  ipv4_header total id proto src dst (htons (net_checksum (ipv4_header total id proto src dst 0))) = h /\
  is_u16 ck /\ sums_to_ones h.
Proof.
  intros Ht Hi Hp Hs Hd.
  set (a := [69; 0] ++ le16 (htons total) ++ le16 (htons id) ++ [0; 0] ++ [64; proto]).
  set (b := le32 (htonl src) ++ le32 (htonl dst)).
  destruct (stored_sums a b) as (ck & Eck & Hck & Hsum).
  - unfold a. rewrite !Forall_app. split_and!; auto using le16_u8; repeat apply Forall_cons_2; auto using Forall_nil_2;
      unfold is_u8 in *; lia.
  - unfold b. rewrite Forall_app. auto using le32_u8.
  - reflexivity.
  - reflexivity.
  - exists ck. cbv zeta.
    assert (a ++ be16 ck ++ b = [69; 0] ++ be16 total ++ be16 id ++ [0; 0; 64; proto] ++ be16 ck ++ be32 src ++ be32 dst) as Eh.
    { unfold a, b. rewrite !le16_htons, !le32_htonl by done. reflexivity. }
    rewrite Eh in Hsum. split_and!; [|done|done]. rewrite <- Eh, <- Eck. reflexivity.
Qed.

(** An echo reply: type and code 0, a checksum that makes it sum to ones, and
    the identifier, sequence number and data of the request. *)
Lemma echo_reply_wire p :
  Forall is_u8 p -> 8 <= lenZ p <= 1480 ->
  exists ck, echo_reply p = [0; 0] ++ be16 ck ++ drop 4 p /\ is_u16 ck /\ sums_to_ones (echo_reply p).
Proof.
  intros Hp Hl. unfold lenZ in Hl. destruct p as [|b0 [|b1 [|b2 [|b3 p]]]]; simpl in Hl; try lia.
  repeat apply Forall_cons in Hp as [? Hp].
  assert (echo_reply (b0 :: b1 :: b2 :: b3 :: p) =
    [0; 0] ++ le16 (htons (net_checksum ([0; 0] ++ [0; 0] ++ p))) ++ p) as -> by reflexivity.
  destruct (stored_sums [0; 0] p) as (ck & -> & Hck & Hs); [|done|reflexivity|unfold lenZ; simpl; lia|].
  - repeat apply Forall_cons_2; auto using Forall_nil_2; unfold is_u8; lia.
  - by exists ck.
Qed.

Lemma echo_reply_spec p :
  Forall is_u8 p -> 8 <= lenZ p <= 1480 ->
  length (echo_reply p) = length p /\ byte_of (echo_reply p) 0 = ICMP_ECHO_REPLY /\
  byte_of (echo_reply p) 1 = 0 /\ drop 4 (echo_reply p) = drop 4 p /\ net_checksum (echo_reply p) = 0.
Proof.
  intros Hp Hl. unfold lenZ in Hl. destruct p as [|b0 [|b1 [|b2 [|b3 p]]]]; simpl in Hl; try lia.
  repeat apply Forall_cons in Hp as [? Hp].
  assert (echo_reply (b0 :: b1 :: b2 :: b3 :: p) =
    [0; 0] ++ le16 (htons (net_checksum ([0; 0] ++ [0; 0] ++ p))) ++ p) as -> by reflexivity.
  split_and!; try reflexivity. apply checksum_verifies; [|done|reflexivity|unfold lenZ; simpl; lia].
  repeat apply Forall_cons_2; auto using Forall_nil_2; unfold is_u8; lia.
Qed.
