(* ===== verification/NetRun.v ===== *)
(** NetRun: the handlers of the network stack at work.

    Echo requests and ARP requests are answered; the receive path returns on
    every frame but an echo request of a host whose next hop is not in the
    ARP cache; and what such a frame does: with the clock stopped, as it is
    while the card's handlers run with interrupts disabled, the wait for an
    unanswered ARP request never ends. *)

From S2P Require Import Prelude Memory Common Net NetSpec.

Section handlers.
Context {E : Type} `{NetEnv E}.
Implicit Types n : net E.

(** * Sending over a resolved address *)

Lemma send_ipv4_sends resolve src dst ovr proto payload n mac n1 :
  20 + lenZ payload <= 1500 -> ready n1 = true ->
  (match ovr with Some m => mac = take 6 m /\ n1 = n | None => resolve (route_next_hop dst n) 800 n = Some (Some mac, n1) end) ->
  let total := u16 (20 + lenZ payload) in
  let h := ipv4_header total (ip_id_counter n1) proto src dst
             (htons (net_checksum (ipv4_header total (ip_id_counter n1) proto src dst 0))) in
  let frame := take 6 mac ++ nic_mac (env n1) ++ le16 (htons ETH_TYPE_IPV4) ++ h ++ payload in
  send_ipv4_packet resolve src dst ovr proto payload n =
    Some ((nic_send frame (env n1)).1, with_env (nic_send frame (env n1)).2 (bump_id n1)).
Proof.
  intros Hl Hr Hres total h frame. unfold send_ipv4_packet. destruct (Z.ltb_spec 1500 (20 + lenZ payload)); [lia|].
  unfold nm_bind, nm_get, nm_mod, nm_ret. cbn [mbind option_bind].
  assert (forall k : option (list Z) -> NM E Z,
    ('(x, n') ← (match ovr with Some m => fun n => Some (Some (take 6 m), n) | None => resolve (route_next_hop dst n) 800 end) n; k x n')
      = k (Some mac) n1) as ->.
  { intros k. destruct ovr as [m|]; [destruct Hres as [-> ->]; done|]. by rewrite Hres. }
  fold total. fold h. unfold send_eth_frame, nm_bind, nm_get, nm_mod, nm_ret. cbn [mbind option_bind].
  change (ready (bump_id n1)) with (ready n1). rewrite Hr. cbn [negb orb].
  assert (lenZ (h ++ payload) = 20 + lenZ payload) as Elen by (unfold lenZ; rewrite length_app; change (length h) with 20%nat; lia).
  rewrite Elen. destruct (Z.ltb_spec 1500 (20 + lenZ payload)); [lia|].
  unfold my_mac. change (ready (bump_id n1)) with (ready n1). rewrite Hr. change (env (bump_id n1)) with (env n1).
  fold frame. by destruct (nic_send frame (env n1)).
Qed.

(** An address in the cache resolves at once. *)
Lemma resolve_cached fuel ip timeout n mac :
  ready n = true -> ip <> BCAST_IP -> arp_cache_lookup ip n = Some mac ->
  net_arp_resolve (S fuel) ip timeout n = Some (Some mac, n).
Proof.
  intros Hr Hb Hl. cbn [net_arp_resolve]. unfold nm_bind, nm_get, nm_ret. cbn [mbind option_bind].
  rewrite Hr. cbn [negb]. destruct (Z.eqb_spec ip BCAST_IP); [done|]. by rewrite Hl.
Qed.

(** C21: an echo request for this host, from a host whose next hop is in the
    ARP cache, is answered with exactly one frame, of which every byte is
    stated: the Ethernet header to that next hop from this card with the
    type of IPv4; the IPv4 header of version 4 and five words, with the right
    total length, the next identification, no fragment, 64 hops, protocol
    ICMP, this host as source and the sender as destination; and the ICMP
    echo reply of type and code 0 with the identifier, sequence number and
    data of the request.  Both checksums are right by the rule of RFC 1071:
    the big-endian words of the header, and of the reply, sum to all ones.
    Besides the card only the identification and the count of ICMP packets
    change. *)
Theorem icmp_echo_answered fuel src_ip ttl payload n mac :
  ready n = true -> configured (net_config n) = true -> Forall is_u8 payload -> 8 <= lenZ payload <= 1480 ->
  byte_of payload 0 = ICMP_ECHO_REQUEST -> is_u32 src_ip -> is_u32 (cfg_ip (net_config n)) -> is_u16 (ip_id_counter n) ->
  route_next_hop src_ip n <> BCAST_IP -> arp_cache_lookup (route_next_hop src_ip n) n = Some mac ->
  exists hck rck n', handle_icmp (net_arp_resolve (S fuel)) src_ip ttl payload n = Some (tt, n') /\
    let h := [69; 0] ++ be16 (20 + lenZ payload) ++ be16 (ip_id_counter n) ++ [0; 0; 64; 1] ++ be16 hck ++
             be32 (cfg_ip (net_config n)) ++ be32 src_ip in
    let r := [0; 0] ++ be16 rck ++ drop 4 payload in
    env n' = (nic_send (take 6 mac ++ nic_mac (env n) ++ [8; 0] ++ h ++ r) (env n)).2 /\
    is_u16 hck /\ sums_to_ones h /\ is_u16 rck /\ sums_to_ones r /\
    arp_cache n' = arp_cache n /\ ip_id_counter n' = (ip_id_counter n + 1) mod 65536 /\ ping n' = ping n /\ dhcp n' = dhcp n.
Proof.
  intros Hr Hc Hp Hl H0 Hs Hip Hid Hb Hlk.
  destruct (echo_reply_spec payload Hp Hl) as (R1 & _). destruct (echo_reply_wire payload Hp Hl) as (rck & Er & Hrck & Hrs).
  set (n1 := with_config (count_icmp (net_config n)) n).
  assert (lenZ (echo_reply payload) = lenZ payload) as El by (unfold lenZ; by rewrite R1).
  assert (is_u16 (20 + lenZ payload)) as Hu by (unfold is_u16; lia).
  destruct (ipv4_header_wire (20 + lenZ payload) (ip_id_counter n1) IP_PROTO_ICMP (cfg_ip (net_config n)) src_ip)
    as (hck & Eh & Hhck & Hhs); [done|done|unfold is_u8, IP_PROTO_ICMP; lia|done|done|].
  set (h := ipv4_header _ _ _ _ _ _) in *.
  assert (handle_icmp (net_arp_resolve (S fuel)) src_ip ttl payload n =
    Some (tt, with_env (nic_send (take 6 mac ++ nic_mac (env n) ++ [8; 0] ++ h ++ echo_reply payload) (env n)).2 (bump_id n1))) as E1.
  { unfold handle_icmp. destruct (Z.ltb_spec (lenZ payload) 8); [lia|].
    unfold nm_bind at 1, count, nm_mod. cbn [mbind option_bind]. fold n1.
    unfold nm_bind at 1, nm_get. cbn [mbind option_bind]. rewrite H0, Z.eqb_refl. change (configured (net_config n1)) with (configured (net_config n)). rewrite Hc.
    cbn [andb]. destruct (Z.ltb_spec 1480 (lenZ payload)); [lia|]. unfold nm_bind at 1.
    rewrite (send_ipv4_sends (net_arp_resolve (S fuel)) _ src_ip None IP_PROTO_ICMP (echo_reply payload) n1 mac n1);
      [|rewrite El; lia|exact Hr|by apply resolve_cached].
    rewrite El, (u16_id (20 + lenZ payload)) by exact Hu. reflexivity. }
  exists hck, rck. eexists. split; [exact E1|]. cbv zeta. rewrite <- Er. rewrite Eh. split_and!; auto.
Qed.

(** ** Answering ARP *)

(** Reading the clock does not change the card. *)
Class StableClock : Prop := {
  sc_ready e : nic_ready (ticks e).2 = nic_ready e;
  sc_mac e : nic_mac (ticks e).2 = nic_mac e
}.

Lemma update_lookup ip mac n :
  arp_wf (arp_cache n) -> ip <> 0 -> is_u32 (ticks (env n)).1 ->
  exists n', arp_cache_update ip mac n = Some (tt, n') /\ arp_cache_lookup ip n' = Some (take 6 mac) /\
    net_config n' = net_config n /\ env n' = (ticks (env n)).2.
Proof.
  intros Hwf Hip Ht. unfold arp_cache_update, nm_bind, nm_get, nm_mod, timer_get_ticks, arp_cache_lookup. cbn.
  destruct (Z.eqb_spec ip 0); [done|]. cbn. destruct (ticks (env n)) as [t e1]. cbn in *.
  pose proof (update_slot ip (arp_cache n) Hwf) as Hslot.
  destruct (Hslot) as (e & He & _). apply lookup_lt_Some in He.
  eexists. split; [reflexivity|]. cbn. split; [|done].
  by apply (arp_find_at ip _ _ _ (arp_insert_wf ip _ _ (take 6 mac) t Hwf Hslot Ht) (list_lookup_insert_eq _ _ _ He)).
Qed.

(** A well-formed ARP request for this host's address is answered with
    one frame to the sender, an ARP reply that maps the address to this
    card's hardware address, and the sender's own mapping is learned. *)
Theorem arp_request_answered `{!StableClock} payload n :
  ready n = true -> length (nic_mac (env n)) = 6%nat -> configured (net_config n) = true -> arp_wf (arp_cache n) ->
  is_u32 (ticks (env n)).1 -> 28 <= lenZ payload ->
  ntohs (ld16 payload 0) = 1 -> ntohs (ld16 payload 2) = ETH_TYPE_IPV4 -> ntohs (ld16 payload 6) = ARP_OP_REQUEST ->
  ntohl (ld32_at payload 24) = cfg_ip (net_config n) -> ntohl (ld32_at payload 14) <> 0 ->
  let sha := slice payload 8 6 in
  let spa := ntohl (ld32_at payload 14) in
  let reply := arp_packet ARP_OP_REPLY (nic_mac (env n)) (cfg_ip (net_config n)) sha spa in
  exists n', handle_arp payload n = Some (tt, n') /\ arp_cache_lookup spa n' = Some sha /\ lenZ reply = 28 /\
    env n' = (nic_send (sha ++ nic_mac (env n) ++ [8; 6] ++ reply) (ticks (env n)).2).2.
Proof.
  intros Hr Hm Hc Hwf Ht Hl H1 H2 H3 H4 H5 sha spa reply.
  assert (length sha = 6%nat) as Hsha.
  { unfold sha, slice. rewrite length_take, length_drop. unfold lenZ in Hl. lia. }
  assert (take 6 sha = sha) as Etk by (apply take_ge; lia).
  assert (lenZ reply = 28) as Hlen.
  { unfold reply, arp_packet, lenZ. rewrite !length_app, Hm, Hsha. done. }
  destruct (update_lookup spa sha (with_config (count_arp (net_config n)) n)) as (n1 & E1 & L1 & C1 & V1);
    [done|done|done|]. rewrite Etk in L1. cbn [net_config with_config env] in C1, V1.
  set (sent := nic_send (sha ++ nic_mac (env n) ++ [8; 6] ++ reply) (ticks (env n)).2).
  exists (with_env sent.2 n1). split; [|split; [exact L1|split; [done|reflexivity]]].
  - unfold handle_arp. destruct (Z.ltb_spec (lenZ payload) 28); [lia|]. rewrite H1, H2, !Z.eqb_refl. cbn [negb orb].
    unfold nm_bind at 1, count, nm_mod. cbn [mbind option_bind]. fold sha. fold spa.
    unfold nm_bind at 1. rewrite E1. cbn [mbind option_bind]. unfold nm_bind at 1, nm_get. cbn [mbind option_bind].
    rewrite H3, H4, C1. cbn [count_arp configured cfg_ip]. rewrite Hc, !Z.eqb_refl. cbn [andb].
    unfold send_arp_packet, nm_bind at 1, nm_get. cbn [mbind option_bind]. change (ARP_OP_REPLY =? ARP_OP_REQUEST) with false.
    cbv iota. unfold nm_bind at 1, send_eth_frame, nm_bind at 1, nm_get. cbn [mbind option_bind].
    assert (ready n1 = true) as Hr1 by (unfold ready; rewrite V1, sc_ready; exact Hr).
    unfold my_mac. rewrite Hr1, Etk, C1, V1, sc_mac. cbn [count_arp cfg_ip]. fold reply. rewrite Hlen.
    change (1500 <? 28) with false. cbn [negb orb].
    change (le16 (htons ETH_TYPE_ARP)) with [8; 6].
    fold sent. destruct sent as [r e2]. reflexivity.
Qed.

(** * The receive path returns *)

Definition nm_total {A} (m : NM E A) : Prop := forall n, is_Some (m n).

Lemma total_ret {A} (x : A) : nm_total (nm_ret x).
Proof. intros n. by eexists. Qed.
Lemma total_get : nm_total (nm_get (E := E)).
Proof. intros n. by eexists. Qed.
Lemma total_mod f : nm_total (nm_mod (E := E) f).
Proof. intros n. by eexists. Qed.
Lemma total_ticks : nm_total timer_get_ticks.
Proof. intros n. unfold timer_get_ticks. destruct (ticks (env n)). by eexists. Qed.
Lemma total_bind {A B} (m : NM E A) (k : A -> NM E B) : nm_total m -> (forall x, nm_total (k x)) -> nm_total (nm_bind m k).
Proof. intros Hm Hk n. unfold nm_bind. destruct (Hm n) as [[x n'] ->]. apply Hk. Qed.

(** Decomposes a computation that is built from total ones. *)
Ltac total :=
  repeat first
    [ apply total_ret | apply total_get | apply total_mod | apply total_ticks | assumption
    | apply total_bind; [|intros ?]
    | match goal with |- nm_total (match ?x with _ => _ end) => destruct x eqn:? end
    | progress cbv zeta ].

Lemma dhcp_options_total opts : forall fuel i o,
  Forall is_u8 opts -> 0 <= i -> lenZ opts - i <= Z.of_nat fuel -> is_Some (dhcp_options fuel opts i o).
Proof.
  induction fuel as [|fuel IH]; intros i o Hu Hi Hf; cbn [dhcp_options];
    (destruct (Z.ltb_spec i (lenZ opts)); [|by eexists]); [lia|].
  assert (0 <= byte_of opts (i + 1)) as Hb.
  { unfold byte_of, nthZ. case_goal; [done|]. destruct (opts !! _) eqn:Ex; [|done].
    apply (Forall_lookup_1 _ _ _ _ Hu) in Ex. unfold is_u8 in Ex. cbn. unfold id. lia. }
  repeat case_goal; try (by eexists); apply IH; auto; lia.
Qed.

Lemma arp_update_total ip mac : nm_total (arp_cache_update ip mac).
Proof. unfold arp_cache_update. total. Qed.

Lemma eth_total mac ty p : nm_total (send_eth_frame mac ty p).
Proof. unfold send_eth_frame. total. Qed.

Lemma arp_send_total op mac ip : nm_total (send_arp_packet op mac ip).
Proof. unfold send_arp_packet. total; apply eth_total. Qed.

Lemma handle_arp_total p : nm_total (handle_arp p).
Proof. unfold handle_arp, count. total; first [apply arp_update_total|apply arp_send_total]. Qed.

Lemma slice_u8 p i k : Forall is_u8 p -> Forall is_u8 (slice p i k).
Proof. intros Hp. unfold slice. by apply Forall_take, Forall_drop. Qed.

Lemma handle_dhcp_total p : Forall is_u8 p -> nm_total (handle_dhcp p).
Proof.
  intros Hp. unfold handle_dhcp. total.
  destruct (dhcp_options_total (drop 240 p) (length (drop 240 p)) 0 (DhcpOpts 0 0 0 0 0)) as [o Ho];
    [by apply Forall_drop|lia|unfold lenZ; lia|]. congruence.
Qed.

Lemma handle_udp_total p : Forall is_u8 p -> nm_total (handle_udp p).
Proof. intros Hp. unfold handle_udp, count. total. by apply handle_dhcp_total, slice_u8. Qed.

(** The next hop towards [ip] is known without asking. *)
Definition hop_known (ip : Z) n : Prop :=
  route_next_hop ip n = BCAST_IP \/ is_Some (arp_cache_lookup (route_next_hop ip n) n).

Lemma resolve_known fuel ip timeout n :
  ip = BCAST_IP \/ is_Some (arp_cache_lookup ip n) -> is_Some (net_arp_resolve (S fuel) ip timeout n).
Proof.
  intros Hk. cbn [net_arp_resolve]. unfold nm_bind, nm_get, nm_ret. cbn [mbind option_bind].
  destruct (negb (ready n)); [by eexists|]. destruct (Z.eqb_spec ip BCAST_IP); [by eexists|].
  destruct Hk as [?|[mac ->]]; [done|by eexists].
Qed.

Lemma send_ipv4_returns fuel src dst proto p n :
  hop_known dst n -> is_Some (send_ipv4_packet (net_arp_resolve (S fuel)) src dst None proto p n).
Proof.
  intros Hk. unfold send_ipv4_packet. case_goal; [by eexists|]. unfold nm_bind at 1, nm_get. cbn [mbind option_bind].
  unfold nm_bind at 1. destruct (resolve_known fuel _ 800 n Hk) as [[mac n1] ->]. cbn [mbind option_bind].
  match goal with |- is_Some (?m n1) => enough (nm_total m) by auto end. total; apply eth_total.
Qed.

Lemma handle_icmp_returns fuel src ttl p n :
  (byte_of p 0 = ICMP_ECHO_REQUEST -> configured (net_config n) = true -> hop_known src n) ->
  is_Some (handle_icmp (net_arp_resolve (S fuel)) src ttl p n).
Proof.
  intros Hk. unfold handle_icmp. case_goal; [by eexists|]. unfold nm_bind at 1, count, nm_mod. cbn [mbind option_bind].
  set (n1 := with_config _ n). unfold nm_bind at 1, nm_get. cbn [mbind option_bind].
  destruct (Z.eqb_spec (byte_of p 0) ICMP_ECHO_REQUEST) as [He|]; cbn [andb].
  - destruct (configured (net_config n1)) eqn:Hc.
    + case_goal; [by eexists|]. unfold nm_bind. destruct (send_ipv4_returns fuel (cfg_ip (net_config n1)) src IP_PROTO_ICMP (echo_reply p) n1) as [[r n2] ->].
      * exact (Hk He Hc).
      * by eexists.
    + rewrite He. by eexists.
  - match goal with |- is_Some (?m n1) => enough (nm_total m) by auto end. total.
Qed.

(** The sender of a frame is on this host's own network. *)
Definition on_link (ip : Z) n : Prop :=
  ip <> 0 /\ cfg_netmask (net_config n) <> 0 /\
  Z.land ip (cfg_netmask (net_config n)) = Z.land (cfg_ip (net_config n)) (cfg_netmask (net_config n)).

(** A sender on the own network is learned before its packet is handled. *)
Lemma learned_known ip mac n :
  on_link ip n -> arp_wf (arp_cache n) -> is_u32 (ticks (env n)).1 ->
  exists n', arp_cache_update ip mac n = Some (tt, n') /\ net_config n' = net_config n /\ hop_known ip n'.
Proof.
  intros (H0 & Hm & Hl) Hwf Ht. destruct (update_lookup ip mac n Hwf H0 Ht) as (n' & Eu & L & C & _).
  exists n'. split_and!; [done|done|]. unfold hop_known, route_next_hop. rewrite C, Hl, Z.eqb_refl. cbn [negb].
  destruct (Z.eqb_spec ip BCAST_IP); [by left|]. right.
  destruct (negb _ && negb _); rewrite L; by eexists.
Qed.

Lemma byte_of_slice p i k : 0 <= i -> 0 < k -> byte_of (slice p i k) 0 = byte_of p i.
Proof.
  intros Hi Hk. unfold byte_of, nthZ, slice. destruct (Z.ltb_spec i 0); [lia|]. change (0 <? 0) with false. cbv iota.
  change (Z.to_nat 0) with 0%nat. rewrite lookup_take_lt by lia. rewrite lookup_drop. do 2 f_equal. lia.
Qed.
(** The address of the sender of a packet, and that it asks for an echo. *)
Definition sender (p : list Z) : Z := ntohl (ld32_at p 12).
Definition asks_echo (p : list Z) : Prop :=
  byte_of p 9 = 1 /\ byte_of p (4 * (byte_of p 0 mod 16)) = 8.

Lemma handle_ipv4_returns fuel eth_src p n :
  Forall is_u8 p -> arp_wf (arp_cache n) -> is_u32 (ticks (env n)).1 ->
  (asks_echo p -> configured (net_config n) = true -> on_link (sender p) n \/ hop_known (sender p) n) ->
  is_Some (handle_ipv4 (net_arp_resolve (S fuel)) eth_src p n).
Proof.
  intros Hp Hwf Ht Hk. unfold handle_ipv4. case_goal; [by eexists|]. case_goal; [by eexists|]. cbv zeta.
  set (ihl := Z.land (byte_of p 0) 15 * 4). assert (ihl = 4 * (byte_of p 0 mod 16)) as Eihl.
  { unfold ihl. change 15 with (Z.ones 4). rewrite Z.land_ones by lia. change (2 ^ 4) with 16. lia. }
  case_goal; [by eexists|]. case_goal; [by eexists|]. case_goal; [by eexists|].
  unfold nm_bind at 1, count, nm_mod. cbn [mbind option_bind]. fold (sender p). set (n1 := with_config _ n).
  unfold nm_bind at 1, nm_get. cbn [mbind option_bind]. change (net_config n1) with (count_ipv4 (net_config n)).
  cbn [count_ipv4 cfg_netmask cfg_ip configured].
  set (l4 := slice p ihl _).
  assert (forall n2, net_config n2 = net_config n1 -> (asks_echo p -> configured (net_config n) = true -> hop_known (sender p) n2) ->
    is_Some ((if negb (ntohl (ld32_at p 16) =? BCAST_IP) && configured (net_config n) &&
         negb (ntohl (ld32_at p 16) =? cfg_ip (net_config n)) then nm_ret tt
      else if byte_of p 9 =? IP_PROTO_ICMP then handle_icmp (net_arp_resolve (S fuel)) (sender p) (byte_of p 8) l4
      else if byte_of p 9 =? IP_PROTO_UDP then handle_udp l4 else nm_ret tt) n2)) as Hrest.
  { intros n2 C2 Hh. case_goal; [by eexists|]. destruct (Z.eqb_spec (byte_of p 9) IP_PROTO_ICMP) as [H9|].
    - apply handle_icmp_returns. intros H8 Hc. rewrite C2 in Hc. apply Hh; [|exact Hc]. split; [exact H9|].
      rewrite <- Eihl. unfold l4 in H8. destruct (Z.lt_ge_cases ihl (ntohs (ld16 p 2))).
      + rewrite byte_of_slice in H8; [exact H8|unfold ihl; zlia|lia].
      + unfold slice in H8. replace (Z.to_nat _) with 0%nat in H8 by lia. done.
    - case_goal; [|by eexists]. by apply handle_udp_total, slice_u8. }
  unfold nm_bind at 1. destruct (negb (sender p =? 0) && _ && _) eqn:Hl.
  - destruct (learned_known (sender p) eth_src n1) as (n2 & -> & C2 & K2); [|done|done|].
    + unfold on_link. cbn. lia.
    + cbn [mbind option_bind]. by apply Hrest.
  - cbn [nm_ret mbind option_bind]. apply Hrest; [done|]. intros He Hc. destruct (Hk He Hc) as [(L1 & L2 & L3)|Hh]; [|exact Hh].
    exfalso. lia.
Qed.

Lemma ipv4_type data : Forall is_u8 data -> ntohs (ld16 data 12) = ETH_TYPE_IPV4 -> byte_of data 12 = 8 /\ byte_of data 13 = 0.
Proof.
  intros Hd. assert (forall i, is_u8 (byte_of data i)) as Hb.
  { intros i. unfold byte_of, nthZ. case_goal; [unfold is_u8; lia|]. destruct (data !! _) eqn:Ex; [|unfold is_u8; cbn; lia].
    exact (Forall_lookup_1 _ _ _ _ Hd Ex). }
  pose proof (Hb 12) as H12. pose proof (Hb 13) as H13. unfold ld16, ntohs, ETH_TYPE_IPV4, is_u8 in *.
  change (12 + 1) with 13. rewrite bswap16_swapped by (unfold is_u16; lia). unfold swapped16. zlia.
Qed.

(** C22: whatever bytes a received frame holds, the receive path returns,
    without waiting even once ([net_arp_resolve] has the fuel for no wait):
    every length field is checked before it is used, the DHCP option loop
    cannot run past the packet, and the only frame that might have to wait
    is an echo request whose sender is neither on this host's own network
    (then its address has just been learned from the frame itself) nor
    reached through a next hop that is in the ARP cache.  What such a frame
    does is stated separately: the wait never ends. *)
Theorem net_rx_packet_returns data n :
  Forall is_u8 data -> arp_wf (arp_cache n) -> is_u32 (ticks (env n)).1 ->
  (byte_of data 12 = 8 -> byte_of data 13 = 0 -> asks_echo (drop 14 data) -> configured (net_config n) = true ->
   on_link (sender (drop 14 data)) n \/ hop_known (sender (drop 14 data)) n) ->
  is_Some (net_rx_packet (net_arp_resolve 1) data n).
Proof.
  intros Hd Hwf Ht Hk. unfold net_rx_packet. case_goal; [by eexists|]. cbv zeta.
  unfold nm_bind at 1, count, nm_mod. cbn [mbind option_bind]. case_goal; [apply handle_arp_total|].
  destruct (Z.eqb_spec (ntohs (ld16 data 12)) ETH_TYPE_IPV4) as [Ht4|]; [|by eexists].
  apply handle_ipv4_returns; [by apply Forall_drop|done|done|]. destruct (ipv4_type data Hd Ht4). by apply Hk.
Qed.
End handlers.

(** * A wire with a clock *)

(** A card that records the frames it sends and delivers those of its inbox,
    and a clock that advances by [w_step] ticks every time it is read. *)
Record wire := Wire { w_mac : list Z; w_sent : list (list Z); w_inbox : list (list Z); w_clock : Z; w_step : Z }.
#[export] Instance wire_env : NetEnv wire := {
  nic_ready _ := true;
  nic_mac := w_mac;
  nic_send f w := (0, Wire (w_mac w) (w_sent w ++ [f]) (w_inbox w) (w_clock w) (w_step w));
  nic_next w := match w_inbox w with
                | [] => (None, w)
                | f :: fs => (Some f, Wire (w_mac w) (w_sent w) fs (w_clock w) (w_step w))
                end;
  ticks w := (w_clock w, Wire (w_mac w) (w_sent w) (w_inbox w) (u32 (w_clock w + w_step w)) (w_step w));
  frequency _ := 100;
  idle w := w
}.
#[export] Instance wire_clock : StableClock (E := wire).
Proof. by split. Qed.

(** ** With the clock stopped *)

(** Nothing arrives and no time passes. *)
Definition quiet (n : net wire) : Prop :=
  w_inbox (env n) = [] /\ w_step (env n) = 0 /\ is_u32 (w_clock (env n)).

Lemma quiet_ticks n : quiet n -> timer_get_ticks n = Some (w_clock (env n), n).
Proof.
  intros (Hi & Hs & Hc). unfold timer_get_ticks. cbn. rewrite Hs, Z.add_0_r, u32_id by exact Hc.
  destruct n as [c a i p d [m s inb cl st]]. cbn in *. by subst.
Qed.

Lemma quiet_poll resolve n : quiet n -> nic_poll resolve n = Some (tt, n).
Proof.
  intros (Hi & _). unfold nic_poll, nm_bind, nm_get. cbn. unfold nm_bind, nm_get, nm_mod. cbn. rewrite Hi.
  by destruct n.
Qed.

Lemma quiet_wait {A} resolve limit (check : net wire -> option A) n : forall fuel,
  quiet n -> check n = None -> 0 < limit ->
  wait_while fuel (w_clock (env n)) (fun d => d <? limit) (nic_poll resolve) check n = None.
Proof.
  induction fuel as [|fuel IH]; intros Hq Hc Hl; [done|]. cbn [wait_while].
  unfold nm_bind at 1. rewrite quiet_ticks by done. cbn [mbind option_bind]. rewrite Z.sub_diag. change (u32 0) with 0.
  destruct (Z.ltb_spec 0 limit); [|lia]. unfold nm_bind at 1. rewrite quiet_poll by done. cbn [mbind option_bind].
  unfold nm_bind at 1, nm_get. cbn [mbind option_bind]. rewrite Hc.
  unfold nm_bind, idle_cpu, nm_mod. cbn. replace (with_env (env n) n) with n by by destruct n. by apply IH.
Qed.

(** Sending leaves a quiet state quiet and the cache as it is. *)
Lemma quiet_send_arp op mac ip n :
  quiet n -> exists n', send_arp_packet op mac ip n = Some (tt, n') /\ quiet n' /\ arp_cache n' = arp_cache n /\
    w_clock (env n') = w_clock (env n).
Proof.
  intros Hq. unfold send_arp_packet, send_eth_frame, nm_bind, nm_get, nm_mod, nm_ret. cbn.
  case_goal; eexists; (split; [reflexivity|]); done.
Qed.

Lemma quiet_resolve fuel ip timeout n :
  quiet n -> ip <> BCAST_IP -> arp_cache_lookup ip n = None -> net_arp_resolve fuel ip timeout n = None.
Proof.
  intros Hq Hb Hl. destruct fuel as [|fuel]; [done|]. cbn [net_arp_resolve].
  unfold nm_bind at 1, nm_get. cbn [mbind option_bind negb ready nic_ready wire_env].
  destruct (Z.eqb_spec ip BCAST_IP); [done|]. rewrite Hl. cbv zeta.
  set (limit := if _ / 3 =? 0 then 2 else _).
  assert (0 < limit) as Hlim.
  { unfold limit. set (w := if _ <? 5 then 5 else _). assert (5 <= w) by (unfold w; destruct (Z.ltb_spec (u32 (timeout * ticks_per_second n) / 1000) 5); lia).
    clearbody w. destruct (Z.eqb_spec (w / 3) 0); [lia|]. zlia. }
  clearbody limit. cbn [attempts].
  match goal with |- nm_bind ?m _ _ = _ => assert (m n = None) as Hm; [|unfold nm_bind at 1; by rewrite Hm] end.
  unfold nm_bind at 1.
  destruct (quiet_send_arp ARP_OP_REQUEST bcast_mac ip n Hq) as (n1 & -> & Hq1 & Ha & Hc). cbn [mbind option_bind].
  unfold nm_bind at 1. rewrite quiet_ticks by done. cbn [mbind option_bind].
  rewrite quiet_wait; [done|done| |done]. unfold arp_cache_lookup in *. by rewrite Ha.
Qed.

(** C23: answering an echo request can hang the kernel.  The handlers run
    with interrupts disabled, so no tick is counted while they run; when the
    next hop of the sender is not in the ARP cache and does not answer, the
    wait of [net_arp_resolve] never ends, whatever the fuel. *)
Theorem icmp_echo_hangs fuel src_ip ttl payload (n : net wire) :
  quiet n -> configured (net_config n) = true -> 8 <= lenZ payload <= 1480 -> byte_of payload 0 = ICMP_ECHO_REQUEST ->
  Forall is_u8 payload ->
  route_next_hop src_ip n <> BCAST_IP -> arp_cache_lookup (route_next_hop src_ip n) n = None ->
  handle_icmp (net_arp_resolve fuel) src_ip ttl payload n = None.
Proof.
  intros Hq Hc Hl H0 Hu Hb Hlk. unfold handle_icmp. destruct (Z.ltb_spec (lenZ payload) 8); [lia|].
  unfold nm_bind at 1, count, nm_mod. cbn [mbind option_bind]. unfold nm_bind at 1, nm_get. cbn [mbind option_bind].
  rewrite H0, Z.eqb_refl. cbn [net_config with_config count_icmp configured]. rewrite Hc. cbn [andb].
  destruct (Z.ltb_spec 1480 (lenZ payload)); [lia|]. unfold nm_bind at 1, send_ipv4_packet.
  destruct (echo_reply_spec payload Hu Hl) as (El & _). unfold lenZ at 1. rewrite El. fold (lenZ payload).
  destruct (Z.ltb_spec 1500 (20 + lenZ payload)); [lia|]. unfold nm_bind at 1, nm_get. cbn [mbind option_bind].
  unfold nm_bind at 1. rewrite quiet_resolve; [done|done|done|exact Hlk].
Qed.

(** * Examples *)

Definition mac_example : list Z := [82; 84; 0; 18; 52; 86].
Definition gateway_mac : list Z := [82; 85; 10; 0; 2; 2].
Definition cfg_example : net_config_t :=
  NetConfig true false (net_make_ip 10 0 2 15) (net_make_ip 255 255 255 0) (net_make_ip 10 0 2 2) 0 0 0 0 0 0 0.

(** A configured host whose cache holds [l] entries. *)
Definition host (l : list arp_entry_t) (inbox : list (list Z)) (step : Z) : net wire :=
  Net cfg_example (l ++ replicate (16 - length l) no_arp) 1 (Ping false 0 0 0 0) (Dhcp 0 0 0 0 0 0 0)
    (Wire mac_example [] inbox 1000 step).
Definition gateway_entry : arp_entry_t := ArpEntry (net_make_ip 10 0 2 2) gateway_mac 900 true.
Definition echo_example : list Z := [8; 0; 247; 255; 0; 0; 0; 0].

Lemma u8_example : Forall is_u8 echo_example.
Proof. repeat apply Forall_cons_2; try apply Forall_nil_2; unfold is_u8; lia. Qed.

Lemma host_cache_wf l inbox step :
  length l = 1%nat -> Forall (fun e => is_u32 (ae_tick e)) l -> arp_wf (arp_cache (host l inbox step)).
Proof.
  intros Hl Ht. destruct l as [|e0 [|]]; try done. apply Forall_cons in Ht as [Ht _]. split.
  - reflexivity.
  - cbn. apply Forall_cons_2; [done|]. repeat apply Forall_cons_2; try apply Forall_nil_2; cbn; unfold is_u32; lia.
  - assert (forall i e, arp_cache (host [e0] inbox step) !! i = Some e -> ae_valid e = true -> i = 0%nat) as Hz.
    { intros [|i] e He Hv; [done|]. change (replicate 15 no_arp !! i = Some e) in He.
      apply lookup_replicate in He as [-> _]. done. }
    intros i j e f Hi Hj Hvi Hvj _. by rewrite (Hz i e Hi Hvi), (Hz j f Hj Hvj).
Qed.

Lemma arp_cache_update_correct_witness :
  exists n', arp_cache_update 167772680 gateway_mac (host [gateway_entry] [] 1) = Some (tt, n') /\
    arp_cache_lookup 167772680 n' = Some gateway_mac /\ ArpEntry 167772680 gateway_mac 1000 true ∈ arp_cache n'.
Proof.
  destruct (arp_cache_update_correct 167772680 gateway_mac (host [gateway_entry] [] 1)) as (n' & E & _ & L & _ & I & _).
  - apply host_cache_wf; [reflexivity|]. apply Forall_cons_2; [unfold is_u32; cbn; lia|apply Forall_nil_2].
  - discriminate.
  - unfold is_u32. cbn. lia.
  - exists n'. split; [exact E|]. split; [exact L|exact I].
Defined.

(** The gateway forwards an echo request of 8.8.8.8: the bytes of the answer,
    with their checksums, on the wire. *)
Lemma icmp_echo_answered_witness :
  exists hck rck n', handle_icmp (net_arp_resolve 1) (net_make_ip 8 8 8 8) 64 echo_example (host [gateway_entry] [] 1) = Some (tt, n') /\
    hck = 24258 /\ rck = 65535 /\
    w_sent (env n') = [[82; 85; 10; 0; 2; 2; 82; 84; 0; 18; 52; 86; 8; 0] ++
      [69; 0; 0; 28; 0; 1; 0; 0; 64; 1] ++ be16 hck ++ [10; 0; 2; 15; 8; 8; 8; 8] ++ [0; 0] ++ be16 rck ++ [0; 0; 0; 0]].
Proof.
  destruct (icmp_echo_answered 0 (net_make_ip 8 8 8 8) 64 echo_example (host [gateway_entry] [] 1) gateway_mac)
    as (hck & rck & n' & E & En & Hh & Sh & Hr & Sr & _);
    [reflexivity|reflexivity|exact u8_example|unfold lenZ; cbn; lia|reflexivity| | | |discriminate|reflexivity|].
  1-3: unfold is_u32, is_u16; vm_compute; split; [discriminate|reflexivity].
  exists hck, rck, n'. split; [exact E|]. destruct Sh as [_ Sh], Sr as [Sr0 Sr]. unfold is_u16 in *.
  assert (forall ck a b, Nat.even (length a) = true -> wsum (a ++ be16 ck ++ b) = wsum a + ck + wsum b) as W.
  { intros ck a b Ha. rewrite wsum_app by done. cbn [app wsum be16]. zlia. }
  change (wsum (([69; 0; 0; 28; 0; 1; 0; 0; 64; 1] ++ be16 hck ++ [10; 0; 2; 15; 8; 8; 8; 8])) mod 65535 = 0) in Sh.
  change (0 < wsum ([0; 0] ++ be16 rck ++ [0; 0; 0; 0])) in Sr0.
  change (wsum ([0; 0] ++ be16 rck ++ [0; 0; 0; 0]) mod 65535 = 0) in Sr.
  rewrite W in Sh, Sr, Sr0 by reflexivity. cbn [wsum] in Sh, Sr, Sr0. split; [zlia|].
  split; [zlia|rewrite En; reflexivity].
Defined.

Definition arp_request_example : list Z :=
  arp_packet ARP_OP_REQUEST gateway_mac (net_make_ip 10 0 2 2) [0; 0; 0; 0; 0; 0] (net_make_ip 10 0 2 15).

Lemma arp_request_answered_witness :
  exists n', handle_arp arp_request_example (host [no_arp] [] 1) = Some (tt, n') /\
    arp_cache_lookup (net_make_ip 10 0 2 2) n' = Some gateway_mac.
Proof.
  destruct (arp_request_answered arp_request_example (host [no_arp] [] 1)) as (n' & E & L & _);
    [reflexivity|reflexivity|reflexivity| | |vm_compute; discriminate|reflexivity|reflexivity|reflexivity|reflexivity|discriminate|].
  - apply host_cache_wf; [reflexivity|]. apply Forall_cons_2; [unfold is_u32; cbn; lia|apply Forall_nil_2].
  - unfold is_u32. cbn. lia.
  - exists n'. split; [exact E|exact L].
Defined.

Lemma icmp_echo_hangs_witness :
  handle_icmp (net_arp_resolve 1000) (net_make_ip 8 8 8 8) 64 echo_example (host [no_arp] [] 0) = None.
Proof.
  apply icmp_echo_hangs; [|reflexivity|unfold lenZ; cbn; lia|reflexivity|exact u8_example|discriminate|reflexivity].
  split; [reflexivity|]. split; [reflexivity|]. unfold is_u32. cbn. lia.
Defined.

(** ** A DHCP server that stops after its offer *)

Definition dhcp_reply_frame (msg xid ip : Z) : list Z :=
  let body := [2; 1; 6; 0] ++ le32 (htonl xid) ++ replicate 8 0 ++ le32 (htonl ip) ++ replicate 8 0 ++
              mac_example ++ replicate 202 0 ++ le32 (htonl DHCP_MAGIC_COOKIE) ++ [53; 1; msg; 255] in
  let udp := udp_header 67 68 (8 + lenZ body) ++ body in
  let h c := ipv4_header (20 + lenZ udp) 7 IP_PROTO_UDP (net_make_ip 10 0 2 2) BCAST_IP c in
  mac_example ++ gateway_mac ++ [8; 0] ++ h (htons (net_checksum (h 0))) ++ udp.

(** An echo request of [ip] to this host, forwarded by the gateway. *)
Definition echo_frame (ip : Z) : list Z :=
  let h c := ipv4_header 28 7 IP_PROTO_ICMP ip (net_make_ip 10 0 2 15) c in
  mac_example ++ gateway_mac ++ [8; 0] ++ h (htons (net_checksum (h 0))) ++ echo_example.

(** A host that waits for the answer with transaction number 5. *)
Definition waiting : net wire := with_dhcp (Dhcp 0 5 0 0 0 0 0) (host [no_arp] [] 1).

(** The offer of a DHCP server goes through the option loop; the echo request
    of a host behind the gateway is answered since the gateway is in the
    cache, that of a neighbour since the neighbour has just been learned. *)
Lemma net_rx_packet_returns_witness :
  (exists n', net_rx_packet (net_arp_resolve 1) (dhcp_reply_frame DHCP_OFFER 5 (net_make_ip 10 0 2 77)) waiting = Some (tt, n') /\
     dhcp_msg (dhcp n') = DHCP_OFFER /\ off_ip (dhcp n') = net_make_ip 10 0 2 77) /\
  (exists n', net_rx_packet (net_arp_resolve 1) (echo_frame (net_make_ip 8 8 8 8)) (host [gateway_entry] [] 1) = Some (tt, n') /\
     length (w_sent (env n')) = 1%nat) /\
  (exists n', net_rx_packet (net_arp_resolve 1) (echo_frame (net_make_ip 10 0 2 9)) (host [no_arp] [] 0) = Some (tt, n') /\
     length (w_sent (env n')) = 1%nat).
Proof.
  assert (forall p, forallb (fun b => (0 <=? b) && (b <? 256)) p = true -> Forall is_u8 p) as U.
  { intros p Hp. apply Forall_forall. intros x Hx. apply list_elem_of_In in Hx. rewrite forallb_forall in Hp.
    specialize (Hp x Hx). unfold is_u8. lia. }
  assert (forall l : list arp_entry_t, length l = 1%nat -> Forall (fun e => is_u32 (ae_tick e)) l -> forall s, arp_wf (arp_cache (host l [] s))) as W
    by (intros; by apply host_cache_wf).
  assert (Forall (fun e => is_u32 (ae_tick e)) [no_arp] /\ Forall (fun e => is_u32 (ae_tick e)) [gateway_entry]) as [F1 F2]
    by (split; (apply Forall_cons_2; [unfold is_u32; cbn; lia|apply Forall_nil_2])).
  split; [|split].
  - destruct (net_rx_packet_returns (dhcp_reply_frame DHCP_OFFER 5 (net_make_ip 10 0 2 77)) waiting) as [[[] n'] E].
    + apply U. vm_compute. reflexivity.
    + exact (W [no_arp] eq_refl F1 1).
    + unfold is_u32. cbn. lia.
    + intros _ _ [H9 _]. discriminate H9.
    + exists n'. split; [exact E|]. vm_compute in E. injection E as <-. split; reflexivity.
  - destruct (net_rx_packet_returns (echo_frame (net_make_ip 8 8 8 8)) (host [gateway_entry] [] 1)) as [[[] n'] E].
    + apply U. vm_compute. reflexivity.
    + exact (W [gateway_entry] eq_refl F2 1).
    + unfold is_u32. cbn. lia.
    + intros _ _ _ _. right. right. exists gateway_mac. vm_compute. reflexivity.
    + exists n'. split; [exact E|]. vm_compute in E. injection E as <-. reflexivity.
  - destruct (net_rx_packet_returns (echo_frame (net_make_ip 10 0 2 9)) (host [no_arp] [] 0)) as [[[] n'] E].
    + apply U. vm_compute. reflexivity.
    + exact (W [no_arp] eq_refl F1 0).
    + unfold is_u32. cbn. lia.
    + intros _ _ _ _. left. vm_compute. split; [discriminate|]. split; [discriminate|reflexivity].
    + exists n'. split; [exact E|]. vm_compute in E. injection E as <-. reflexivity.
Defined.

Definition unconfigured (inbox : list (list Z)) : net wire :=
  net_init (host [no_arp] inbox 1).

(** [net_dhcp_discover] reports success and configures the host with
    the offered address although the server never acknowledged the request. *)
Theorem dhcp_accepts_without_ack :
  exists n', net_dhcp_discover 100 900
      (unconfigured [dhcp_reply_frame DHCP_OFFER (Z.lxor 3194621952 1001) (net_make_ip 10 0 2 77)]) = Some (0, n') /\
    dhcp_msg (dhcp n') = 0 /\ configured (net_config n') = true /\ dhcp_leased (net_config n') = true /\
    cfg_ip (net_config n') = net_make_ip 10 0 2 77.
Proof. eexists. split; [vm_compute; reflexivity|]. vm_compute. auto. Qed.
