(* ===== verification/Serial.v ===== *)
(** Serial: the 16550 UART driver of [kernel/serial.c].

    The state holds the static variables of the file and the hardware behind
    the ports.  Characters are bytes.  The loops that wait for the device take
    fuel; the one that waits for the transmitter has its own limit. *)

From S2P Require Import Prelude Ports Partial Common Ring.
#[local] Open Scope partial_scope.

Definition COM1_PORT : Z := 1016.
Definition SERIAL_RX_RING_SIZE : Z := 256.
Definition SERIAL_DATA : Z := 0.
Definition SERIAL_INTR_ENABLE : Z := 1.
Definition SERIAL_FIFO_CTRL : Z := 2.
Definition SERIAL_LINE_CTRL : Z := 3.
Definition SERIAL_MODEM_CTRL : Z := 4.
Definition SERIAL_LINE_STAT : Z := 5.
Definition SERIAL_SCRATCH : Z := 7.
Definition SERIAL_DLL : Z := 0.
Definition SERIAL_DLM : Z := 1.
Definition SERIAL_LCR_8BIT : Z := 3.
Definition SERIAL_LCR_DLAB : Z := 128.
Definition SERIAL_LSR_DR : Z := 1.
Definition SERIAL_LSR_THRE : Z := 32.
Definition SERIAL_FCR_ENABLE : Z := 1.
Definition SERIAL_FCR_CLEAR_RX : Z := 2.
Definition SERIAL_FCR_CLEAR_TX : Z := 4.
Definition SERIAL_FCR_TRIG_14 : Z := 192.
Definition SERIAL_MCR_DTR : Z := 1.
Definition SERIAL_MCR_RTS : Z := 2.
Definition SERIAL_MCR_OUT2 : Z := 8.

Record serial (H : Type) := SerialPort {
  default_port : Z;
  serial_present : bool;
  serial_rx_ring : ring Z;
  serial_hw : H
}.
Arguments SerialPort {H}. Arguments default_port {H}. Arguments serial_present {H}.
Arguments serial_rx_ring {H}. Arguments serial_hw {H}.

Definition set_hw {H} (h : H) (s : serial H) : serial H :=
  SerialPort (default_port s) (serial_present s) (serial_rx_ring s) h.
Definition set_rx {H} (r : ring Z) (s : serial H) : serial H :=
  SerialPort (default_port s) (serial_present s) r (serial_hw s).
Definition set_port {H} (p : Z) (s : serial H) : serial H :=
  SerialPort p (serial_present s) (serial_rx_ring s) (serial_hw s).
Definition set_present {H} (b : bool) (s : serial H) : serial H :=
  SerialPort (default_port s) b (serial_rx_ring s) (serial_hw s).

Section driver.
Context {H : Type} `{Ports H}.

Definition in8 (p : Z) : PM (serial H) Z := p_zoom serial_hw set_hw (inb p).
Definition out8 (p v : Z) : PM (serial H) unit := p_zoom serial_hw set_hw (outb p v).

Definition serial_rx_push (c : Z) (s : serial H) : serial H := set_rx (ring_push c (serial_rx_ring s)) s.

Definition serial_divisor (baud : Z) : Z :=
  let divisor := if 0 <? baud then u16 (115200 / baud) else 1 in
  if divisor =? 0 then 1 else divisor.

Definition serial_init (fuel : nat) (port baud : Z) : PM (serial H) unit :=
  p_mod (fun s => if default_port s =? 0 then set_port port s else s);;
  let divisor := serial_divisor baud in
  out8 (port + SERIAL_INTR_ENABLE) 0;;
  out8 (port + SERIAL_LINE_CTRL) SERIAL_LCR_DLAB;;
  out8 (port + SERIAL_DLL) (u8 (Z.land divisor 255));;
  out8 (port + SERIAL_DLM) (u8 (Z.land (Z.shiftr divisor 8) 255));;
  out8 (port + SERIAL_LINE_CTRL) SERIAL_LCR_8BIT;;
  out8 (port + SERIAL_FIFO_CTRL)
    (Z.lor (Z.lor (Z.lor SERIAL_FCR_ENABLE SERIAL_FCR_CLEAR_RX) SERIAL_FCR_CLEAR_TX) SERIAL_FCR_TRIG_14);;
  out8 (port + SERIAL_MODEM_CTRL) (Z.lor (Z.lor SERIAL_MCR_DTR SERIAL_MCR_RTS) SERIAL_MCR_OUT2);;
  out8 (port + SERIAL_SCRATCH) 90;;
  scratch <- in8 (port + SERIAL_SCRATCH);;
  if scratch =? 90 then
    p_mod (set_present true);;
    p_while fuel (lsr <- in8 (port + SERIAL_LINE_STAT);; p_ret (bit_set lsr SERIAL_LSR_DR))
      (in8 (port + SERIAL_DATA);; p_ret tt);;
    out8 (port + SERIAL_INTR_ENABLE) 1
  else
    lsr <- in8 (port + SERIAL_LINE_STAT);;
    p_mod (set_present (negb (lsr =? 255)));;
    if negb (lsr =? 255) then out8 (port + SERIAL_INTR_ENABLE) 1 else p_ret tt.

(** The wait for the transmitter: [while (timeout-- > 0 && !ready)]. *)
Fixpoint wait_thre (timeout : nat) (port : Z) : PM (serial H) unit :=
  match timeout with
  | O => p_ret tt
  | S n => lsr <- in8 (port + SERIAL_LINE_STAT);;
           if bit_set lsr SERIAL_LSR_THRE then p_ret tt else wait_thre n port
  end.

Definition thre_timeout : nat := Z.to_nat 100000.

(** [absent] is the guard [!serial_present && port == default_port]. *)
Definition absent (port : Z) (s : serial H) : bool := negb (serial_present s) && (port =? default_port s).

(** The part of [serial_write_char] after the recursive call, with the guard;
    the recursive call writes a carriage return, which takes no other. *)
Definition serial_put (port c : Z) : PM (serial H) unit :=
  s <- p_get;;
  if absent port s then p_ret tt
  else wait_thre thre_timeout port;; out8 (port + SERIAL_DATA) (u8 c).

Definition serial_write_char (port c : Z) : PM (serial H) unit :=
  s <- p_get;;
  if absent port s then p_ret tt
  else
    (if c =? 10 then serial_put port 13 else p_ret tt);;
    wait_thre thre_timeout port;; out8 (port + SERIAL_DATA) (u8 c).

Definition serial_write_str_port (port : Z) (str : list Z) : PM (serial H) unit :=
  p_each str (serial_write_char port).

Definition serial_write_str (str : list Z) : PM (serial H) unit :=
  s <- p_get;;
  if negb (default_port s =? 0) && serial_present s
  then serial_write_str_port (default_port s) str else p_ret tt.

Definition serial_has_data (port : Z) : PM (serial H) bool :=
  s <- p_get;;
  if absent port s then p_ret false
  else lsr <- in8 (port + SERIAL_LINE_STAT);;
       if lsr =? 255 then p_ret false else p_ret (bit_set lsr SERIAL_LSR_DR).

Definition serial_read_char (fuel : nat) (port : Z) : PM (serial H) Z :=
  p_while fuel (b <- serial_has_data port;; p_ret (negb b)) (p_ret tt);;
  in8 (port + SERIAL_DATA).

(** The loop that [serial_poll_rx] and [serial_irq_handler] share. *)
Definition serial_receive (fuel : nat) (port : Z) : PM (serial H) unit :=
  p_while fuel (serial_has_data port)
    (c <- in8 (port + SERIAL_DATA);; p_mod (serial_rx_push c)).

Definition serial_poll_rx (fuel : nat) : PM (serial H) unit :=
  s <- p_get;;
  if (default_port s =? 0) || negb (serial_present s) then p_ret tt
  else serial_receive fuel (default_port s).

Definition serial_irq_handler (fuel : nat) : PM (serial H) unit :=
  s <- p_get;;
  if (default_port s =? 0) || negb (serial_present s) then p_ret tt
  else serial_receive fuel (default_port s).

(** [None] is the return code 0; [Some c] is 1 with [c] in [*out_ch]. *)
Definition serial_pop_rx_char (fuel : nat) : PM (serial H) (option Z) :=
  serial_poll_rx fuel;;
  s <- p_get;;
  match ring_pop 0 (serial_rx_ring s) with
  | None => p_ret None
  | Some (c, r) => p_mod (set_rx r);; p_ret (Some c)
  end.

(** The digits of the ["0x00000000"] buffer, filled from the right. *)
Fixpoint hex_digits (n : nat) (val : Z) (acc : list Z) : list Z :=
  match n with
  | O => acc
  | S n => hex_digits n (Z.shiftr val 4) (nthZ 0 digits (Z.land val 15) :: acc)
  end.
Definition hex_text (val : Z) : list Z := 48 :: 120 :: hex_digits 8 val [].

Definition serial_write_hex (port val : Z) : PM (serial H) unit :=
  serial_write_str_port port (hex_text val).

Definition serial_write_int (port val : Z) : PM (serial H) unit :=
  buf <- p_val (k_itoa val 10);; serial_write_str_port port buf.
End driver.

(** * The receiver as a queue

    What the driver relies on of a 16550: the line status tells whether a
    received byte waits (and is not the 0xFF of an absent device), reading the
    status takes nothing away, and reading the data register takes the oldest
    byte.  No byte arrives in the middle of a read. *)
Class Uart (H : Type) `{Ports H} := {
  is_uart : Z -> bool;
  rx_fifo : Z -> H -> list Z;
  uart_status port h : is_uart port = true -> exists v h', inb (port + SERIAL_LINE_STAT) h = (v, h') /\ v <> 255 /\
    bit_set v SERIAL_LSR_DR = bool_decide (rx_fifo port h <> []) /\ rx_fifo port h' = rx_fifo port h;
  uart_data port h c l : is_uart port = true -> rx_fifo port h = c :: l ->
    exists h', inb (port + SERIAL_DATA) h = (c, h') /\ rx_fifo port h' = l
}.

(** Pushing a list into a ring keeps what fits. *)
Lemma ring_push_list {A} (d : A) l r :
  ring_wf r ->
  let r' := foldl (fun r c => ring_push c r) r l in
  ring_wf r' /\ contents d r' = take 255 (contents d r ++ l).
Proof.
  revert r. induction l as [|c l IH]; intros r Hwf; simpl.
  - split; [done|]. rewrite app_nil_r, take_ge; [done|].
    pose proof (contents_length d r). unfold ring_count, RING_SIZE, lenZ in *. zlia.
  - destruct (IH (ring_push c r)) as [Hwf' Hc]; [by apply ring_push_wf|]. split; [done|].
    rewrite Hc, ring_push_contents by done.
    pose proof (contents_length d r) as Hn. unfold ring_count, RING_SIZE, lenZ in *.
    destruct (Z.ltb_spec (Z.of_nat (length (contents d r))) (256 - 1)).
    + by rewrite <- app_assoc.
    + rewrite !take_app_le, !take_ge by zlia. done.
Qed.

Section spec.
Context {H : Type} `{Uart H}.

(** The bytes on their way to the console: in the ring, then in the device. *)
Definition pending (s : serial H) : list Z :=
  contents 0 (serial_rx_ring s) ++ rx_fifo (default_port s) (serial_hw s).

(** A driver in service. *)
Definition serial_ok (s : serial H) : Prop :=
  default_port s <> 0 /\ is_uart (default_port s) = true /\ serial_present s = true /\ ring_wf (serial_rx_ring s).

Lemma serial_has_data_spec s port :
  is_uart port = true -> serial_present s = true ->
  returns (serial_has_data port) s (fun b s' =>
    b = bool_decide (rx_fifo port (serial_hw s) <> []) /\ default_port s' = default_port s /\
    serial_present s' = true /\ serial_rx_ring s' = serial_rx_ring s /\
    rx_fifo port (serial_hw s') = rx_fifo port (serial_hw s)).
Proof.
  intros Hu Hp. destruct (uart_status port (serial_hw s) Hu) as (v & h' & Hin & Hv & Hb & Hf).
  unfold returns, serial_has_data, absent, in8, p_zoom, p_bind, p_get. simpl. rewrite Hp. simpl. rewrite Hin.
  destruct (Z.eqb_spec v 255); [done|]. unfold p_ret. rewrite Hb. eauto 10.
Qed.

(** Receiving empties the device into the ring, in order; what does not fit
    is lost. *)
Lemma serial_receive_spec s fuel :
  serial_ok s -> (length (rx_fifo (default_port s) (serial_hw s)) < fuel)%nat ->
  returns (serial_receive fuel (default_port s)) s (fun _ s' =>
    serial_ok s' /\ default_port s' = default_port s /\ rx_fifo (default_port s) (serial_hw s') = [] /\
    contents 0 (serial_rx_ring s') = take 255 (pending s)).
Proof.
  intros Hok Hfuel. pose proof Hok as (Hd & Hu & Hp & Hr). set (port := default_port s) in *.
  apply (returns_while
    (fun s1 => serial_ok s1 /\ default_port s1 = port /\
       take 255 (contents 0 (serial_rx_ring s1) ++ rx_fifo port (serial_hw s1)) = take 255 (pending s))
    (fun s1 => length (rx_fifo port (serial_hw s1)))); [done|done|].
  intros s1 ((Hd1 & Hu1 & Hp1 & Hr1) & Hport & Hq).
  eapply returns_mono; [by apply serial_has_data_spec|].
  intros b s2 (-> & Hd2 & Hp2 & Hr2 & Hf2).
  destruct (rx_fifo port (serial_hw s1)) as [|c l] eqn:Hf.
  - rewrite bool_decide_eq_false_2 by (intros Hn; by apply Hn). unfold serial_ok. rewrite Hd2, Hp2, Hr2.
    split_and!; try done. rewrite app_nil_r in Hq. rewrite <- Hq, take_ge; [done|].
    pose proof (contents_length 0 (serial_rx_ring s1)). unfold ring_count, RING_SIZE, lenZ in *. zlia.
  - rewrite bool_decide_eq_true_2 by done.
    destruct (uart_data port (serial_hw s2) c l Hu Hf2) as (h' & Hin & Hl).
    unfold returns, in8, p_zoom, p_bind, p_mod. rewrite Hin. eexists _, _. split; [done|]. simpl.
    rewrite Hl. split; [|lia]. unfold serial_ok. simpl. rewrite Hd2, Hp2, Hr2.
    split_and!; try done; [by apply ring_push_wf|].
    rewrite <- Hq, ring_push_contents by done.
    pose proof (contents_length 0 (serial_rx_ring s1)) as Hn. unfold ring_count, RING_SIZE, lenZ in *.
    destruct (Z.ltb_spec (Z.of_nat (length (contents 0 (serial_rx_ring s1)))) (256 - 1)).
    + by rewrite <- app_assoc.
    + by rewrite !take_app_le by zlia.
Qed.

(** Taking a character: bytes come out in the order they arrived. *)
Lemma serial_pop_spec s fuel :
  serial_ok s -> (length (pending s) <= 255)%nat -> (length (pending s) < fuel)%nat ->
  returns (serial_pop_rx_char fuel) s (fun o s' =>
    serial_ok s' /\ match o with None => pending s = [] /\ pending s' = [] | Some c => pending s = c :: pending s' end).
Proof.
  intros Hok Hlen Hfuel. pose proof Hok as (Hd & Hu & Hp & Hr).
  unfold serial_pop_rx_char. apply returns_bind. unfold serial_poll_rx. apply returns_bind.
  exists s, s. split; [done|]. rewrite Hp. apply Z.eqb_neq in Hd as ->. simpl.
  assert (Hf : (length (rx_fifo (default_port s) (serial_hw s)) < fuel)%nat).
  { unfold pending in Hfuel. rewrite length_app in Hfuel. lia. }
  eapply returns_mono; [by apply serial_receive_spec|].
  intros _ s1 ((Hd1 & Hu1 & Hp1 & Hr1) & Hport & Hf1 & Hc1). rewrite take_ge in Hc1 by lia.
  apply returns_bind. exists s1, s1. split; [done|].
  pose proof (ring_pop_contents 0 (serial_rx_ring s1) Hr1) as Hpop.
  destruct (ring_pop 0 (serial_rx_ring s1)) as [[c r]|].
  - destruct Hpop as (Hcr & Hwf & _). apply returns_bind. eexists _, _. split; [done|].
    apply returns_ret. split; [done|]. unfold pending at 2. simpl. rewrite Hport, Hf1, app_nil_r. congruence.
  - apply returns_ret. split; [done|]. unfold pending at 2. rewrite Hport, Hf1, Hpop. split; [congruence|done].
Qed.
End spec.

(** A device that delivers a given text on COM1. *)
Record uart := UartDev { uart_rx : list Z; uart_tx : list (Z * Z) }.
#[export] Instance uart_ports : Ports uart := {
  inb p h := if p =? COM1_PORT + SERIAL_LINE_STAT then (if decide (uart_rx h = []) then 32 else 33, h)
             else if p =? COM1_PORT + SERIAL_DATA then (hd 0 (uart_rx h), UartDev (tail (uart_rx h)) (uart_tx h))
             else (0, h);
  inw p h := (0, h);
  outb p v h := (tt, UartDev (uart_rx h) (uart_tx h ++ [(p, v)]));
  outw p v h := (tt, h)
}.

#[export] Program Instance uart_laws : Uart uart := {
  is_uart p := p =? COM1_PORT;
  rx_fifo p h := uart_rx h
}.
Next Obligation.
  intros port [rx tx] Hp%Z.eqb_eq. subst. simpl. destruct rx; eexists _, _; split_and!; done.
Qed.
Next Obligation.
  intros port [rx tx] c l Hp%Z.eqb_eq Hl. subst. simpl in *. subst. by eexists.
Qed.
