(* ===== verification/SerialTx.v ===== *)
(** SerialTx: what the serial driver of [Serial] transmits. *)

From S2P Require Import Prelude Ports Partial Common Ring Serial.
#[local] Open Scope partial_scope.

(** What the writers rely on of a 16550: a byte written to the data register
    is sent, and neither reading a port nor writing a port outside of the
    device sends anything. *)
Class UartTx (H : Type) `{Ports H} := {
  sent : Z -> H -> list Z;
  tx_read port p h : sent port (inb p h).2 = sent port h;
  tx_write port v h : sent port (outb (port + SERIAL_DATA) v h).2 = sent port h ++ [v];
  tx_other port p v h : p < port \/ port + 8 <= p -> sent port (outb p v h).2 = sent port h
}.

Section tx.
Context {H : Type} `{UartTx H}.
Implicit Types u : serial H.

(** Only the hardware changes, and [l] is sent on [port]. *)
Definition sends (port : Z) (l : list Z) u u' : Prop :=
  exists h', u' = set_hw h' u /\ sent port h' = sent port (serial_hw u) ++ l.

Lemma sends_refl port u : sends port [] u u.
Proof. exists (serial_hw u). rewrite app_nil_r. by destruct u. Qed.
Lemma sends_trans port l l' u u' u'' : sends port l u u' -> sends port l' u' u'' -> sends port (l ++ l') u u''.
Proof.
  intros (h & -> & Hh) (h' & -> & Hh'). exists h'. split; [done|]. rewrite Hh'. simpl. by rewrite Hh, app_assoc.
Qed.
Lemma sends_state port l u u' : sends port l u u' ->
  default_port u' = default_port u /\ serial_present u' = serial_present u /\ serial_rx_ring u' = serial_rx_ring u.
Proof. by intros (h & -> & _). Qed.

Lemma wait_thre_sends port n u : returns (wait_thre n port) u (fun _ u' => sends port [] u u').
Proof.
  revert u. induction n as [|n IH]; intros u; [by apply returns_ret, sends_refl|]. cbn [wait_thre].
  unfold returns, p_bind, in8, p_zoom. pose proof (tx_read port (port + SERIAL_LINE_STAT) (serial_hw u)) as Hr.
  destruct (inb (port + SERIAL_LINE_STAT) (serial_hw u)) as [v h]. simpl in Hr.
  assert (Hs : sends port [] u (set_hw h u)) by (exists h; by rewrite app_nil_r).
  case_goal; [by eexists _, _|]. destruct (IH (set_hw h u)) as ([] & u' & -> & Hu').
  eexists _, _. split; [done|]. by apply (sends_trans _ [] [] _ _ _ Hs).
Qed.

Lemma out_sends port v u : returns (out8 (port + SERIAL_DATA) v) u (fun _ u' => sends port [v] u u').
Proof.
  unfold returns, out8, p_zoom. pose proof (tx_write port v (serial_hw u)) as Hw.
  destruct (outb (port + SERIAL_DATA) v (serial_hw u)) as [[] h]. eexists _, _. split; [done|]. by exists h.
Qed.

(** A byte goes out once the transmitter is ready, or after the limit. *)
Lemma put_sends port v u :
  returns (wait_thre thre_timeout port;; out8 (port + SERIAL_DATA) v) u (fun _ u' => sends port [v] u u').
Proof.
  generalize thre_timeout. intros n. apply returns_bind. eapply returns_mono; [apply wait_thre_sends|]. intros [] u' Hs.
  eapply returns_mono; [apply out_sends|]. intros [] u'' Hs'. by apply (sends_trans _ [] [v] _ _ _ Hs).
Qed.

(** A new line is sent as a carriage return and a line feed. *)
Definition on_wire (c : Z) : list Z := if c =? 10 then [13; 10] else [c].

(** With the device there, a character is sent; without it, nothing happens. *)
Lemma write_char_sends port c u : is_u8 c ->
  returns (serial_write_char port c) u (fun _ u' => sends port (if absent port u then [] else on_wire c) u u').
Proof.
  intros Hc. unfold serial_write_char. apply returns_bind. exists u, u. split; [done|].
  destruct (absent port u) eqn:Ha; [by apply returns_ret, sends_refl|]. rewrite (u8_id c Hc). unfold on_wire.
  destruct (Z.eqb_spec c 10) as [-> |].
  - apply returns_bind. unfold serial_put. apply returns_bind. exists u, u. split; [done|]. rewrite Ha.
    eapply returns_mono; [apply put_sends|]. intros [] u1 Hu1.
    eapply returns_mono; [apply put_sends|]. intros [] u2 Hu2. by apply (sends_trans _ [13] [10] _ _ _ Hu1).
  - apply returns_bind, returns_ret, put_sends.
Qed.

Lemma absent_sends port port' l u u' : sends port l u u' -> absent port' u' = absent port' u.
Proof. intros (h & -> & _). done. Qed.

Lemma write_chars_sends port str u : Forall is_u8 str -> absent port u = false ->
  returns (serial_write_str_port port str) u (fun _ u' => sends port (str ≫= on_wire) u u').
Proof.
  intros Hs. revert u. induction Hs as [|c str Hc Hs IH]; intros u Ha; [by apply returns_ret, sends_refl|].
  unfold serial_write_str_port. cbn [p_each]. apply returns_bind. eapply returns_mono; [by apply write_char_sends|].
  intros [] u1 Hu1. rewrite Ha in Hu1. eapply returns_mono; [apply IH; by rewrite (absent_sends _ _ _ _ _ Hu1)|].
  intros [] u2 Hu2. rewrite bind_cons. by eapply sends_trans.
Qed.

(** A string goes to the default port, when its device is there. *)
Definition str_on_wire u (str : list Z) : list Z :=
  if negb (default_port u =? 0) && serial_present u then str ≫= on_wire else [].

Lemma write_str_sends str u : Forall is_u8 str ->
  returns (serial_write_str str) u (fun _ u' => sends (default_port u) (str_on_wire u str) u u').
Proof.
  intros Hs. unfold serial_write_str, str_on_wire. apply returns_bind. exists u, u. split; [done|].
  destruct (serial_present u) eqn:Hp; [|rewrite andb_false_r; by apply returns_ret, sends_refl].
  rewrite andb_true_r. destruct (negb _); [|by apply returns_ret, sends_refl].
  apply write_chars_sends; [done|]. unfold absent. by rewrite Hp.
Qed.
End tx.

(** Writing always returns, and keeps what the port instructions keep. *)
Section keeps.
Context {H : Type} `{Ports H} (I : H -> Prop).
Context (in_keeps : forall p h, I h -> I (inb p h).2) (out_keeps : forall p v h, I h -> I (outb p v h).2).
Implicit Types u : serial H.
#[local] Notation good u := (I (serial_hw u)).

Lemma in8_keeps p u : good u -> returns (in8 p) u (fun _ u' => good u').
Proof using in_keeps.
  intros Hu. unfold returns, in8, p_zoom. pose proof (in_keeps p _ Hu). destruct (inb p (serial_hw u)). by eexists _, _.
Qed.
Lemma out8_keeps p v u : good u -> returns (out8 p v) u (fun _ u' => good u').
Proof using out_keeps.
  intros Hu. unfold returns, out8, p_zoom. pose proof (out_keeps p v _ Hu). destruct (outb p v (serial_hw u)). by eexists _, _.
Qed.
Lemma wait_keeps k port u : good u -> returns (wait_thre k port) u (fun _ u' => good u').
Proof using in_keeps.
  revert u. induction k as [|k IH]; intros u Hu; [by apply returns_ret|]. cbn [wait_thre]. apply returns_bind.
  eapply returns_mono; [by apply in8_keeps|]. intros v u' Hu'. cbv beta. case_goal; [by apply returns_ret|]. by apply IH.
Qed.
Lemma put_keeps port c u : good u -> returns (wait_thre thre_timeout port;; out8 (port + SERIAL_DATA) c) u (fun _ u' => good u').
Proof using in_keeps out_keeps.
  generalize thre_timeout. intros k Hu. apply returns_bind. eapply returns_mono; [by apply wait_keeps|]. intros [] u' Hu'.
  by apply out8_keeps.
Qed.
Lemma write_char_keeps port c u : good u -> returns (serial_write_char port c) u (fun _ u' => good u').
Proof using in_keeps out_keeps.
  intros Hu. unfold serial_write_char. apply returns_bind. exists u, u. split; [done|]. case_goal; [by apply returns_ret|].
  apply returns_bind. eapply (returns_mono _ _ (fun _ u' => good u')); [|intros [] u' Hu'; by apply put_keeps].
  case_goal; [|by apply returns_ret]. unfold serial_put. apply returns_bind. exists u, u. split; [done|].
  case_goal; [by apply returns_ret|]. by apply put_keeps.
Qed.
Lemma write_chars_keeps port msg u : good u -> returns (serial_write_str_port port msg) u (fun _ u' => good u').
Proof using in_keeps out_keeps. intros Hu. by apply (returns_each (fun u => good u)); [intros; apply write_char_keeps|]. Qed.
Lemma write_str_keeps msg u : good u -> returns (serial_write_str msg) u (fun _ u' => good u').
Proof using in_keeps out_keeps.
  intros Hu. unfold serial_write_str. apply returns_bind. exists u, u. split; [done|].
  case_goal; [|by apply returns_ret]. by apply write_chars_keeps.
Qed.
End keeps.

#[export] Program Instance uart_tx_laws : UartTx uart := {
  sent port h := (filter (fun e => e.1 = port + SERIAL_DATA) (uart_tx h)).*2
}.
Next Obligation. intros port p [rx tx]. simpl. by repeat case_goal. Qed.
Next Obligation. intros port v [rx tx]. simpl. rewrite filter_app, fmap_app. f_equal. by rewrite filter_cons_True. Qed.
Next Obligation.
  intros port p v [rx tx] Hp. simpl. rewrite filter_app, filter_cons_False, filter_nil, app_nil_r; [done|].
  unfold SERIAL_DATA. simpl. lia.
Qed.
