(* ===== verification/Timer.v ===== *)
(** Timer: the programmable interval timer of [kernel/timer.c]: the tick and
    second counters, the sleeps and the printed uptime. *)

From S2P Require Import Prelude Ports Partial.
#[local] Open Scope partial_scope.

Definition PIT_FREQUENCY : Z := 1193182.
Definition TIMER_HZ : Z := 100.
Definition TIMER_DIVISOR : Z := PIT_FREQUENCY / TIMER_HZ.
Definition PIT_CHANNEL0 : Z := 64.
Definition PIT_CHANNEL2 : Z := 66.
Definition PIT_COMMAND : Z := 67.
Definition PC_SPEAKER_PORT : Z := 97.
Definition PIT_CMD_CHANNEL0 : Z := 0.
Definition PIT_CMD_CHANNEL2 : Z := 128.
Definition PIT_CMD_LOHIBYTE : Z := 48.
Definition PIT_CMD_MODE3 : Z := 6.

Record timer_state_t := TimerState { ticks : Z; seconds : Z; frequency : Z }.

Definition timer_get_ticks (t : timer_state_t) : Z := ticks t.
Definition timer_get_seconds (t : timer_state_t) : Z := seconds t.
Definition timer_get_ms (t : timer_state_t) : Z := u32 (ticks t * (1000 / TIMER_HZ)).

Definition timer_handler (t : timer_state_t) : timer_state_t :=
  let n := u32 (ticks t + 1) in
  TimerState n (if n mod TIMER_HZ =? 0 then u32 (seconds t + 1) else seconds t) (frequency t).

(** ** The printed uptime *)

Definition digit (n : Z) : Z := 48 + n mod 10.

Definition timer_format_uptime (t : timer_state_t) : list Z :=
  let total_seconds := seconds t in
  let days := total_seconds / 86400 in
  let hours := total_seconds mod 86400 / 3600 in
  let minutes := total_seconds mod 3600 / 60 in
  let secs := total_seconds mod 60 in
  (if 0 <? days then
     (if 100 <=? days then [digit (days / 100)] else []) ++ (if 10 <=? days then [digit (days / 10)] else []) ++
     [digit days; 100; 32]
   else []) ++
  [digit (hours / 10); digit hours; 58; digit (minutes / 10); digit minutes; 58; digit (secs / 10); digit secs].

(** ** Sleeping *)

(** The timer, the interrupt flag and the hardware. *)
Record clock (H : Type) := Clock { timer_state : timer_state_t; irqs_on : bool; clock_hw : H }.
Arguments Clock {H}. Arguments timer_state {H}. Arguments irqs_on {H}. Arguments clock_hw {H}.

Section clock.
Context {H : Type} `{Ports H}.

Definition ck_in (p : Z) : PM (clock H) Z :=
  p_zoom clock_hw (fun h s => Clock (timer_state s) (irqs_on s) h) (inb p).
Definition ck_out (p v : Z) : PM (clock H) unit :=
  p_zoom clock_hw (fun h s => Clock (timer_state s) (irqs_on s) h) (outb p v).
Definition set_timer (t : timer_state_t) (s : clock H) : clock H := Clock t (irqs_on s) (clock_hw s).

Definition timer_init : PM (clock H) unit :=
  p_mod (set_timer (TimerState 0 0 TIMER_HZ));;
  ck_out PIT_COMMAND (Z.lor (Z.lor PIT_CMD_CHANNEL0 PIT_CMD_LOHIBYTE) PIT_CMD_MODE3);;
  let divisor := u16 TIMER_DIVISOR in
  ck_out PIT_CHANNEL0 (u8 (Z.land divisor 255));;
  ck_out PIT_CHANNEL0 (u8 (Z.land (Z.shiftr divisor 8) 255)).

(** [for (i = 0; i < n; i++) inb(0x80)]. *)
Fixpoint io_delay (n : nat) : PM (clock H) unit :=
  match n with O => p_ret tt | S n => ck_in 128;; io_delay n end.

(** [while (ticks - start < n) hlt]: a halted processor is woken by an
    interrupt, and [wake] is what its handlers do. *)
Definition sleep_ms (wake : PM (clock H) unit) (fuel : nat) (ms : Z) : PM (clock H) unit :=
  if ms =? 0 then p_ret tt else
  s <- p_get;;
  if negb (irqs_on s) then io_delay (Z.to_nat (u32 (ms * 1000)))
  else
    let start := ticks (timer_state s) in
    let ticks_to_wait := ms / (1000 / TIMER_HZ) in
    let ticks_to_wait := if ticks_to_wait =? 0 then 1 else ticks_to_wait in
    p_while fuel (s <- p_get;; p_ret (u32 (ticks (timer_state s) - start) <? ticks_to_wait)) wake.

Definition sleep_s (wake : PM (clock H) unit) (fuel : nat) (secs : Z) : PM (clock H) unit :=
  sleep_ms wake fuel (u32 (secs * 1000)).

Definition speaker_beep (wake : PM (clock H) unit) (fuel : nat) (freq_hz duration_ms : Z) : PM (clock H) unit :=
  if (freq_hz <? 20) || (20000 <? freq_hz) || (duration_ms =? 0) then p_ret tt else
  let div := PIT_FREQUENCY / freq_hz in
  ck_out PIT_COMMAND (Z.lor (Z.lor PIT_CMD_CHANNEL2 PIT_CMD_LOHIBYTE) PIT_CMD_MODE3);;
  ck_out PIT_CHANNEL2 (u8 (Z.land div 255));;
  ck_out PIT_CHANNEL2 (u8 (Z.land (Z.shiftr div 8) 255));;
  tmp <- ck_in PC_SPEAKER_PORT;;
  (if negb (Z.land tmp 3 =? 3) then ck_out PC_SPEAKER_PORT (u8 (Z.lor tmp 3)) else p_ret tt);;
  sleep_ms wake fuel duration_ms;;
  tmp <- ck_in PC_SPEAKER_PORT;;
  ck_out PC_SPEAKER_PORT (u8 (Z.land tmp 252)).
End clock.

(** * Properties *)

(** [n] timer interrupts. *)
Definition tick_n (n : nat) (t : timer_state_t) : timer_state_t := Nat.iter n timer_handler t.

(** As long as the counter does not wrap, the seconds are those of the ticks. *)
Lemma seconds_of_ticks n f :
  Z.of_nat n < 4294967296 -> tick_n n (TimerState 0 0 f) = TimerState (Z.of_nat n) (Z.of_nat n / TIMER_HZ) f.
Proof.
  induction n as [|n IH]; intros Hn; [done|]. simpl. rewrite IH by lia. unfold timer_handler. simpl.
  unfold TIMER_HZ. rewrite (u32_id (Z.of_nat n + 1)) by lia.
  replace (Z.pos (Pos.of_succ_nat n)) with (Z.of_nat n + 1) by lia.
  assert ((if (Z.of_nat n + 1) mod 100 =? 0 then u32 (Z.of_nat n / 100 + 1) else Z.of_nat n / 100) =
          (Z.of_nat n + 1) / 100) as ->; [|f_equal; lia].
  destruct (Z.eqb_spec ((Z.of_nat n + 1) mod 100) 0); [rewrite u32_id by zlia|]; zlia.
Qed.

(** The clock fields of the uptime, read back as a number, are the seconds
    of the day. *)
Definition two_digits (a b : Z) : Z := 10 * (a - 48) + (b - 48).
Lemma uptime_clock t :
  0 <= seconds t ->
  exists pre h1 h2 m1 m2 s1 s2, timer_format_uptime t = pre ++ [h1; h2; 58; m1; m2; 58; s1; s2] /\
    3600 * two_digits h1 h2 + 60 * two_digits m1 m2 + two_digits s1 s2 = seconds t mod 86400 /\
    two_digits h1 h2 < 24 /\ two_digits m1 m2 < 60 /\ two_digits s1 s2 < 60.
Proof.
  intros Ht. unfold timer_format_uptime. do 7 eexists. split; [reflexivity|]. unfold two_digits, digit.
  set (x := seconds t) in *. clearbody x.
  assert (Hd : forall z, 0 <= z < 100 -> 10 * (48 + z / 10 mod 10 - 48) + (48 + z mod 10 - 48) = z) by (intros; zlia).
  rewrite !Hd by zlia. zlia.
Qed.
