(* ===== verification/Klog.v ===== *)
(** Klog: the kernel log of [kernel/klog.c], a bounded text buffer that drops
    its oldest line when it is full, and the lines that go to the log and to
    the serial port. *)

From S2P Require Import Prelude Ports Partial Common Ring Serial Timer.

Definition KLOG_BUFFER_SIZE : Z := 8192.

(** [klog_buf] and [klog_len]. *)
Record log := Log { klog_buf : list Z; klog_len : Z }.

(** [memmove(buf, buf + d, n)] on an array. *)
Definition move_down (buf : list Z) (d n : Z) : list Z :=
  take (Z.to_nat n) (drop (Z.to_nat d) buf) ++ drop (Z.to_nat n) buf.

(** [buf[len++] = c; buf[len] = 0]. *)
Definition put_char (c : Z) (l : log) : log :=
  Log (updZ (klog_len l + 1) 0 (updZ (klog_len l) c (klog_buf l))) (u32 (klog_len l + 1)).

(** The loop that looks for the end of the first line. *)
Fixpoint first_newline (fuel : nat) (i : Z) (buf : list Z) : option Z :=
  match fuel with
  | O => None
  | S n => if nthZ 0 buf i =? 10 then Some (i + 1) else first_newline n (i + 1) buf
  end.
Definition drop_count (buf : list Z) : Z :=
  default 256 (first_newline (Z.to_nat (KLOG_BUFFER_SIZE / 2)) 0 buf).

Definition klog_append_char (c : Z) (l : log) : log :=
  if klog_len l <? KLOG_BUFFER_SIZE - 1 then put_char c l
  else
    let d := drop_count (klog_buf l) in
    let remain := u32 (klog_len l - d) in
    put_char c (Log (move_down (klog_buf l) d remain) remain).

Definition klog_init (l : log) : log := Log (replicate (Z.to_nat KLOG_BUFFER_SIZE) 0) 0.
Definition klog_write (msg : list Z) (l : log) : log := foldl (fun l c => klog_append_char c l) l msg.
Definition klog_write_hex (val : Z) (l : log) : log := klog_write (hex_text val) l.
Definition klog_write_int (val : Z) (l : log) : option log :=
  buf ← k_itoa val 10; Some (klog_write buf l).
Definition klog_get_buffer (l : log) : list Z * Z := (klog_buf l, klog_len l).
Definition klog_clear (l : log) : log := klog_init l.

(** The time stamp of a line: seconds, right aligned, and hundredths. *)
Definition klog_prefix (ms : Z) : option (list Z) :=
  let sec := ms / 1000 in
  let rem := ms mod 1000 / 10 in
  sbuf ← k_utoa sec 10;
  Some ([91] ++ replicate (4 - length sbuf) 32 ++ sbuf ++ [46; 48 + rem / 10 mod 10; 48 + rem mod 10; 93; 32]).

Section writeln.
Context {H : Type} `{Ports H}.

(** The log, the timer and the serial port. *)
Record klog := Klog { k_log : log; k_timer : timer_state_t; k_serial : serial H }.

Definition both (msg : list Z) : PM klog unit :=
  fun s => match serial_write_str msg (k_serial s) with
           | Some (_, c) => Some (tt, Klog (klog_write msg (k_log s)) (k_timer s) c)
           | None => None
           end.

(** A null pointer is [None]; the empty string counts as no subsystem. *)
Definition klog_writeln (subsys msg : option (list Z)) : PM klog unit :=
  fun s =>
  match klog_prefix (timer_get_ms (k_timer s)) with
  | None => None
  | Some prefix =>
    p_each ([prefix] ++ match subsys with Some (c :: t) => [c :: t; [58; 32]] | _ => [] end ++
            match msg with Some m => [m] | None => [] end ++ [[10]]) both s
  end.
End writeln.

(** * What the log holds *)

Definition text (l : log) : list Z := take (Z.to_nat (klog_len l)) (klog_buf l).

Record log_ok (l : log) : Prop := {
  lo_size : lenZ (klog_buf l) = KLOG_BUFFER_SIZE;
  lo_len : 0 <= klog_len l < KLOG_BUFFER_SIZE;
  lo_nul : nthZ 0 (klog_buf l) (klog_len l) = 0
}.

Lemma text_length l : log_ok l -> lenZ (text l) = klog_len l.
Proof. intros [Hs Hl _]. unfold text, lenZ in *. rewrite length_take. lia. Qed.

Lemma put_char_spec c l :
  lenZ (klog_buf l) = KLOG_BUFFER_SIZE -> 0 <= klog_len l < KLOG_BUFFER_SIZE - 1 ->
  log_ok (put_char c l) /\ text (put_char c l) = text l ++ [c].
Proof.
  intros Hs Hl. unfold KLOG_BUFFER_SIZE in *. unfold put_char. rewrite u32_id by lia. split; [split; simpl|].
  - by rewrite !lenZ_updZ.
  - unfold KLOG_BUFFER_SIZE. lia.
  - apply nthZ_updZ_eq. rewrite lenZ_updZ. lia.
  - unfold text, lenZ in *. cbn [klog_buf klog_len].
    replace (Z.to_nat (klog_len l + 1)) with (S (Z.to_nat (klog_len l))) by lia.
    rewrite (take_S_r _ _ c).
    + f_equal. unfold updZ. destruct (Z.ltb_spec (klog_len l + 1) 0), (Z.ltb_spec (klog_len l) 0); try lia.
      rewrite !take_insert_ge by lia. done.
    + unfold updZ. destruct (Z.ltb_spec (klog_len l + 1) 0), (Z.ltb_spec (klog_len l) 0); try lia.
      rewrite list_lookup_insert_ne by lia. apply list_lookup_insert_eq. lia.
Qed.

Lemma first_newline_range n i buf d : first_newline n i buf = Some d -> i < d <= i + Z.of_nat n.
Proof.
  revert i. induction n as [|n IH]; intros i Hd; [done|]. cbn [first_newline] in Hd.
  destruct (nthZ 0 buf i =? 10); [injection Hd as <-; lia|]. apply IH in Hd. lia.
Qed.

Lemma drop_count_range buf : 1 <= drop_count buf <= 4096.
Proof.
  unfold drop_count. destruct (first_newline _ 0 buf) as [d|] eqn:Hd; simpl; [|lia].
  apply first_newline_range in Hd. unfold KLOG_BUFFER_SIZE in Hd. change (8192 / 2) with 4096 in Hd. lia.
Qed.

(** A full log loses its oldest line, or 256 characters when no line ends in
    its first half. *)
Lemma append_spec c l :
  log_ok l ->
  log_ok (klog_append_char c l) /\
  text (klog_append_char c l) =
    (if klog_len l <? KLOG_BUFFER_SIZE - 1 then text l else drop (Z.to_nat (drop_count (klog_buf l))) (text l)) ++ [c].
Proof.
  intros Hok. pose proof Hok as [Hs Hl _]. unfold klog_append_char.
  destruct (Z.ltb_spec (klog_len l) (KLOG_BUFFER_SIZE - 1)) as [Hlt|Hge]; [apply put_char_spec; [done|lia]|].
  pose proof (drop_count_range (klog_buf l)) as Hd. set (d := drop_count (klog_buf l)) in *. clearbody d.
  unfold KLOG_BUFFER_SIZE in *. rewrite u32_id by lia.
  assert (Hlen : lenZ (move_down (klog_buf l) d (klog_len l - d)) = 8192).
  { unfold lenZ, move_down in *. rewrite length_app, length_take, !length_drop. lia. }
  destruct (put_char_spec c (Log (move_down (klog_buf l) d (klog_len l - d)) (klog_len l - d))) as [Hok' Ht].
  { done. } { unfold KLOG_BUFFER_SIZE. simpl. lia. }
  split; [done|]. rewrite Ht. f_equal. unfold text, move_down, lenZ in *. simpl.
  rewrite take_app_length'.
  - rewrite skipn_firstn_comm. f_equal. lia.
  - rewrite length_take, length_drop. lia.
Qed.

(** [k] is what is left of [whole]: its last [n] characters at least. *)
Definition keeps (whole k : list Z) (n : Z) : Prop :=
  exists lost, whole = lost ++ k /\ (lost = [] \/ n <= lenZ k).

Lemma append_keeps c l whole :
  log_ok l -> keeps whole (text l) 4096 ->
  log_ok (klog_append_char c l) /\ keeps (whole ++ [c]) (text (klog_append_char c l)) 4096.
Proof.
  intros Hok (lost & -> & Hlost). destruct (append_spec c l Hok) as [Hok' Ht]. split; [done|]. rewrite Ht.
  pose proof (text_length l Hok) as Hlen. pose proof (lo_len _ Hok) as Hl. unfold KLOG_BUFFER_SIZE in *.
  destruct (Z.ltb_spec (klog_len l) (8192 - 1)).
  - exists lost. split; [by rewrite <- app_assoc|]. destruct Hlost as [->|]; [by left|right].
    unfold lenZ in *. rewrite length_app. simpl. lia.
  - pose proof (drop_count_range (klog_buf l)). set (d := drop_count _) in *. clearbody d.
    exists (lost ++ take (Z.to_nat d) (text l)). split.
    + by rewrite <- !app_assoc, (app_assoc (take _ _)), take_drop.
    + right. unfold lenZ in *. rewrite length_app, length_drop. simpl. lia.
Qed.

(** C25: the log is the end of everything that was written.  Starting from
    an empty log, after any messages the buffer holds a proper string, within
    its bounds, that is the last part of the messages put together: all of
    it, or at least its last 4096 characters. *)
Theorem klog_keeps_the_end msgs l0 :
  let l := foldl (fun l m => klog_write m l) (klog_init l0) msgs in
  log_ok l /\ keeps (mjoin msgs) (text l) 4096.
Proof.
  assert (Hgen : forall msg l whole, log_ok l -> keeps whole (text l) 4096 ->
    log_ok (klog_write msg l) /\ keeps (whole ++ msg) (text (klog_write msg l)) 4096).
  { induction msg as [|c msg IH]; intros l whole Hok Hk; [by rewrite app_nil_r|].
    destruct (append_keeps c l whole Hok Hk) as [Hok1 Hk1].
    destruct (IH _ _ Hok1 Hk1) as [Hok2 Hk2]. split; [done|]. by rewrite <- app_assoc in Hk2. }
  assert (Hmsgs : forall msgs l whole, log_ok l -> keeps whole (text l) 4096 ->
    let l' := foldl (fun l m => klog_write m l) l msgs in
    log_ok l' /\ keeps (whole ++ mjoin msgs) (text l') 4096).
  { clear msgs l0. induction msgs as [|m msgs IH]; intros l whole Hok Hk; simpl; [by rewrite app_nil_r|].
    destruct (Hgen m l whole Hok Hk) as [Hok1 Hk1].
    destruct (IH _ _ Hok1 Hk1) as [Hok2 Hk2]. split; [done|]. by rewrite <- app_assoc in Hk2. }
  apply (Hmsgs msgs (klog_init l0) []); [|by exists []; auto].
  split; [done|by compute|]. done.
Qed.
