(* ===== verification/Rtc.v ===== *)
(** Rtc: the CMOS real-time clock of [kernel/rtc.c].

    The clock keeps its fields in binary or in BCD and its hours in 24- or
    12-hour form, as bits of status register B say; [rtc_read_time] decodes
    all four, and reads twice to avoid a value torn by an update. *)

From S2P Require Import Prelude Ports.
#[local] Open Scope kernel_scope.

Definition CMOS_ADDRESS : Z := 112.
Definition CMOS_DATA : Z := 113.
Definition CMOS_SECONDS : Z := 0.
Definition CMOS_MINUTES : Z := 2.
Definition CMOS_HOURS : Z := 4.
Definition CMOS_WEEKDAY : Z := 6.
Definition CMOS_DAY : Z := 7.
Definition CMOS_MONTH : Z := 8.
Definition CMOS_YEAR : Z := 9.
Definition CMOS_STATUS_A : Z := 10.
Definition CMOS_STATUS_B : Z := 11.
Definition CMOS_CENTURY : Z := 50.
Definition CMOS_STAT_A_UIP : Z := 128.
Definition CMOS_STAT_B_24HR : Z := 2.

Record rtc_time_t := RtcTime {
  seconds : Z; minutes : Z; hours : Z; day : Z; month : Z; year : Z; weekday : Z
}.

(** The eight clock registers as read: s, m, h, d, mo, y, w, c. *)
Record rtc_raw := RtcRaw { rs : Z; rm : Z; rh : Z; rd : Z; rmo : Z; ry : Z; rw : Z; rc : Z }.
#[export] Instance rtc_raw_eq_dec : EqDecision rtc_raw.
Proof. solve_decision. Defined.

Definition bcd_to_bin (bcd : Z) : Z := u8 (Z.land bcd 15 + Z.shiftr bcd 4 * 10).

Section rtc.
Context {H : Type} `{Ports H}.

Definition cmos_read (reg : Z) : ST H Z :=
  outb CMOS_ADDRESS (Z.land reg 127) ;;; inb 128 ;;; inb CMOS_DATA.

Fixpoint wait_uip (timeout : nat) : ST H unit :=
  match timeout with
  | O => st_ret tt
  | S n => a <~ cmos_read CMOS_STATUS_A;;
           if bit_set a CMOS_STAT_A_UIP then inb 128 ;;; wait_uip n else st_ret tt
  end.
Definition cmos_wait_uip : ST H unit := wait_uip (Z.to_nat 100000).

(** The result is [rtc_available]. *)
Definition rtc_init : ST H bool :=
  status_b <~ cmos_read CMOS_STATUS_B;; st_ret (negb (status_b =? 255)).

Definition read_raw : ST H rtc_raw :=
  cmos_wait_uip ;;;
  s <~ cmos_read CMOS_SECONDS;; m <~ cmos_read CMOS_MINUTES;; h <~ cmos_read CMOS_HOURS;;
  d <~ cmos_read CMOS_DAY;; mo <~ cmos_read CMOS_MONTH;; y <~ cmos_read CMOS_YEAR;;
  w <~ cmos_read CMOS_WEEKDAY;; c <~ cmos_read CMOS_CENTURY;;
  st_ret (RtcRaw s m h d mo y w c).

(** [do ... while (--attempts > 0 && first != second)]: the second reading of
    the last round. *)
Fixpoint read_stable (attempts : nat) : ST H rtc_raw :=
  a <~ read_raw;; b <~ read_raw;;
  match attempts with
  | S n => if decide (a = b) then st_ret b else read_stable n
  | O => st_ret b
  end.

(** The decoding of the second reading. *)
Definition rtc_decode (status_b : Z) (r : rtc_raw) : rtc_time_t :=
  let is_bcd := negb (bit_set status_b 4) in
  let is_24hr := bit_set status_b CMOS_STAT_B_24HR in
  let pm := negb is_24hr && bit_set (rh r) 128 in
  let conv v := if is_bcd then bcd_to_bin v else v in
  let s2 := conv (rs r) in
  let m2 := conv (rm r) in
  let h2 := conv (Z.land (rh r) 127) in
  let d2 := conv (rd r) in
  let mo2 := conv (rmo r) in
  let y2 := conv (ry r) in
  let w2 := conv (rw r) in
  let c2 := if is_bcd then (if negb (rc r =? 0) && negb (rc r =? 255) then bcd_to_bin (rc r) else 0) else rc r in
  let h2 := if negb is_24hr then (if pm then u8 (h2 mod 12 + 12) else if h2 =? 12 then 0 else h2) else h2 in
  RtcTime (if s2 <? 60 then s2 else 0) (if m2 <? 60 then m2 else 0) (if h2 <? 24 then h2 else 0)
    (if (1 <=? d2) && (d2 <=? 31) then d2 else 1) (if (1 <=? mo2) && (mo2 <=? 12) then mo2 else 1)
    (if (19 <=? c2) && (c2 <=? 21) then u16 (c2 * 100 + y2)
     else if 70 <=? y2 then u16 (1900 + y2) else u16 (2000 + y2)) w2.

(** [None] is the return code 0. *)
Definition rtc_read_time (rtc_available : bool) : ST H (option rtc_time_t) :=
  if negb rtc_available then st_ret None else
  r <~ read_stable 4;;
  status_b <~ cmos_read CMOS_STATUS_B;;
  st_ret (Some (rtc_decode status_b r)).
End rtc.

Definition rtc_format_time (t : rtc_time_t) : list Z :=
  [48 + hours t / 10; 48 + hours t mod 10; 58; 48 + minutes t / 10; 48 + minutes t mod 10; 58;
   48 + seconds t / 10; 48 + seconds t mod 10].
Definition rtc_format_date (t : rtc_time_t) : list Z :=
  [48 + year t / 1000 mod 10; 48 + year t / 100 mod 10; 48 + year t / 10 mod 10; 48 + year t mod 10; 45;
   48 + month t / 10; 48 + month t mod 10; 45; 48 + day t / 10; 48 + day t mod 10].
Definition rtc_format_datetime (t : rtc_time_t) : list Z := rtc_format_date t ++ [32] ++ rtc_format_time t.
Definition rtc_is_present (rtc_available : bool) : bool := rtc_available.

(** * Decoding is the inverse of the clock's encoding *)

Record time_ok (t : rtc_time_t) : Prop := {
  to_s : 0 <= seconds t < 60;
  to_m : 0 <= minutes t < 60;
  to_h : 0 <= hours t < 24;
  to_d : 1 <= day t <= 31;
  to_mo : 1 <= month t <= 12;
  to_y : 1900 <= year t < 2200;
  to_w : 1 <= weekday t <= 7
}.

(** How a clock stores a time, in the mode of status register B. *)
Definition bcd (v : Z) : Z := v / 10 * 16 + v mod 10.
Definition hour12 (h : Z) : Z := if h mod 12 =? 0 then 12 else h mod 12.
Definition rtc_encode (status_b : Z) (t : rtc_time_t) : rtc_raw :=
  let enc v := if bit_set status_b 4 then v else bcd v in
  let h := if bit_set status_b CMOS_STAT_B_24HR then enc (hours t)
           else enc (hour12 (hours t)) + (if 12 <=? hours t then 128 else 0) in
  RtcRaw (enc (seconds t)) (enc (minutes t)) h (enc (day t)) (enc (month t)) (enc (year t mod 100))
    (enc (weekday t)) (enc (year t / 100)).

Lemma bcd_roundtrip v : 0 <= v < 100 -> bcd_to_bin (bcd v) = v.
Proof.
  intros Hv. unfold bcd_to_bin, bcd. change 15 with (Z.ones 4).
  rewrite Z.land_ones, Z.shiftr_div_pow2, u8_id by zlia. simpl. zlia.
Qed.

Lemma land_127 x : Z.land x 127 = x mod 128.
Proof. by apply (Z.land_ones x 7). Qed.
Lemma bit_128 x : 0 <= x < 256 -> bit_set x 128 = (128 <=? x).
Proof.
  intros Hx. assert (Hall : forallb (fun x => Bool.eqb (bit_set x 128) (128 <=? x)) (seqZ 0 256) = true) by done.
  rewrite forallb_forall in Hall. apply eqb_prop, Hall. apply list_elem_of_In, elem_of_seqZ. lia.
Qed.

(** The hour field, as a finite check over the hours. *)
Definition decode_hour (bin h24 : bool) (rh : Z) : Z :=
  let h2 := if bin then Z.land rh 127 else bcd_to_bin (Z.land rh 127) in
  if h24 then h2 else if bit_set rh 128 then u8 (h2 mod 12 + 12) else if h2 =? 12 then 0 else h2.
Definition encode_hour (bin h24 : bool) (h : Z) : Z :=
  let enc v := if bin then v else bcd v in
  if h24 then enc h else enc (hour12 h) + (if 12 <=? h then 128 else 0).

Lemma hour_roundtrip bin h24 h : 0 <= h < 24 -> decode_hour bin h24 (encode_hour bin h24 h) = h.
Proof.
  intros Hh. assert (Hall : forallb (fun h => decode_hour bin h24 (encode_hour bin h24 h) =? h) (seqZ 0 24) = true)
    by (by destruct bin, h24).
  rewrite forallb_forall in Hall. apply Z.eqb_eq, Hall. apply list_elem_of_In, elem_of_seqZ. lia.
Qed.

Lemma rtc_decode_encode status_b t : time_ok t -> rtc_decode status_b (rtc_encode status_b t) = t.
Proof.
  intros [Hs Hm Hh Hd Hmo Hy Hw]. destruct t as [s m h d mo y w]. simpl in *.
  pose proof (hour_roundtrip (bit_set status_b 4) (bit_set status_b CMOS_STAT_B_24HR) h Hh) as Hhr.
  unfold rtc_decode, rtc_encode. simpl.
  assert (Hround : forall v, 0 <= v < 100 -> (if negb (bit_set status_b 4) then bcd_to_bin (if bit_set status_b 4 then v else bcd v)
    else if bit_set status_b 4 then v else bcd v) = v).
  { intros v Hv. destruct (bit_set status_b 4); simpl; [done|by apply bcd_roundtrip]. }
  rewrite !Hround by zlia.
  assert (Hcent : (if negb (bit_set status_b 4) then
      if negb ((if bit_set status_b 4 then y / 100 else bcd (y / 100)) =? 0) && negb ((if bit_set status_b 4 then y / 100 else bcd (y / 100)) =? 255)
      then bcd_to_bin (if bit_set status_b 4 then y / 100 else bcd (y / 100)) else 0
    else if bit_set status_b 4 then y / 100 else bcd (y / 100)) = y / 100).
  { destruct (bit_set status_b 4); simpl; [done|].
    assert (y / 100 = 19 \/ y / 100 = 20 \/ y / 100 = 21) as [-> | [-> | ->]] by zlia; done. }
  rewrite Hcent. clear Hcent Hround.
  rewrite (proj2 (Z.ltb_lt s 60)), (proj2 (Z.ltb_lt m 60)) by lia.
  rewrite (proj2 (Z.leb_le 1 d)), (proj2 (Z.leb_le d 31)), (proj2 (Z.leb_le 1 mo)), (proj2 (Z.leb_le mo 12)) by lia.
  rewrite (proj2 (Z.leb_le 19 (y / 100))), (proj2 (Z.leb_le (y / 100) 21)) by zlia. simpl.
  replace (u16 (y / 100 * 100 + y mod 100)) with y by (rewrite u16_id by zlia; zlia).
  unfold decode_hour, encode_hour in Hhr.
  destruct (bit_set status_b 4), (bit_set status_b CMOS_STAT_B_24HR); simpl in *; rewrite Hhr, (proj2 (Z.ltb_lt h 24)) by lia; done.
Qed.

(** ** Reading a clock *)

(** What the driver relies on of the CMOS: reading the data port gives the
    register selected by the last write to the address port, and neither the
    delay port nor reading changes the registers. *)
Class Cmos (H : Type) `{Ports H} := {
  cmos_reg : H -> Z -> Z;
  cmos_selected : H -> Z;
  cmos_select h reg : exists h', outb CMOS_ADDRESS reg h = (tt, h') /\
    cmos_selected h' = reg /\ cmos_reg h' = cmos_reg h;
  cmos_delay h : exists v h', inb 128 h = (v, h') /\
    cmos_selected h' = cmos_selected h /\ cmos_reg h' = cmos_reg h;
  cmos_data h : exists h', inb CMOS_DATA h = (cmos_reg h (cmos_selected h), h') /\ cmos_reg h' = cmos_reg h
}.

Section device.
Context {H : Type} `{Cmos H}.

Lemma cmos_read_spec reg h : 0 <= reg < 128 ->
  exists h', cmos_read reg h = (cmos_reg h reg, h') /\ cmos_reg h' = cmos_reg h.
Proof.
  intros Hr. unfold cmos_read, st_bind. rewrite land_127, Z.mod_small by lia.
  destruct (cmos_select h reg) as (h1 & -> & Hs1 & Hr1).
  destruct (cmos_delay h1) as (v & h2 & -> & Hs2 & Hr2).
  destruct (cmos_data h2) as (h3 & -> & Hr3). exists h3. split; congruence.
Qed.

(** The registers hold [r], and no update is in progress. *)
Definition holds (h : H) (r : rtc_raw) : Prop :=
  bit_set (cmos_reg h CMOS_STATUS_A) CMOS_STAT_A_UIP = false /\
  r = RtcRaw (cmos_reg h CMOS_SECONDS) (cmos_reg h CMOS_MINUTES) (cmos_reg h CMOS_HOURS) (cmos_reg h CMOS_DAY)
        (cmos_reg h CMOS_MONTH) (cmos_reg h CMOS_YEAR) (cmos_reg h CMOS_WEEKDAY) (cmos_reg h CMOS_CENTURY).

Lemma wait_uip_spec n h :
  bit_set (cmos_reg h CMOS_STATUS_A) CMOS_STAT_A_UIP = false ->
  exists h', wait_uip n h = (tt, h') /\ cmos_reg h' = cmos_reg h.
Proof.
  intros Hu. destruct n as [|n]; [by exists h|]. cbn [wait_uip].
  destruct (cmos_read_spec CMOS_STATUS_A h) as (h1 & Hr1 & Hreg); [by compute|].
  rewrite (st_bind_eq _ _ _ _ _ Hr1), Hu. by exists h1.
Qed.

(** One register of a device that holds [r]. *)
Ltac read_reg H1 :=
  match type of H1 with cmos_reg ?h1 = cmos_reg ?h =>
    match goal with |- context [cmos_read ?reg] =>
      let h2 := fresh "h" in let Hr := fresh "Hr" in let H2 := fresh "H" in
      destruct (cmos_read_spec reg h1) as (h2 & Hr & H2); [by compute|];
      rewrite (st_bind_eq _ _ _ _ _ Hr); rewrite H1 in H2 |- *; clear Hr; rename H2 into Hnew; clear H1; rename Hnew into H1
    end
  end.

Lemma read_raw_spec h r : holds h r -> exists h', read_raw h = (r, h') /\ cmos_reg h' = cmos_reg h.
Proof.
  intros [Hu ->]. unfold read_raw, cmos_wait_uip. destruct (wait_uip_spec (Z.to_nat 100000) h Hu) as (h0 & Hw & Hq1).
  rewrite (st_bind_eq _ _ _ _ _ Hw). clear Hw. do 8 read_reg Hq1. by eexists.
Qed.

(** C28: reading the time of a clock that holds a valid time gives that time,
    whatever its mode: binary or BCD, 24- or 12-hour. *)
Theorem rtc_reads_the_clock h t :
  time_ok t -> holds h (rtc_encode (cmos_reg h CMOS_STATUS_B) t) ->
  exists h', rtc_read_time true h = (Some t, h') /\ cmos_reg h' = cmos_reg h.
Proof.
  intros Ht Hh. destruct (read_raw_spec h _ Hh) as (h1 & Hr1 & Hq1).
  assert (Hh1 : holds h1 (rtc_encode (cmos_reg h CMOS_STATUS_B) t)) by (unfold holds in *; by rewrite Hq1).
  destruct (read_raw_spec h1 _ Hh1) as (h2 & Hr2 & Hq2).
  destruct (cmos_read_spec CMOS_STATUS_B h2) as (h3 & Hr3 & Hq3); [by compute|].
  exists h3. split; [|congruence]. unfold rtc_read_time, read_stable. simpl negb. cbv iota.
  assert (Hst : read_stable 4 h = (rtc_encode (cmos_reg h CMOS_STATUS_B) t, h2)).
  { unfold read_stable. rewrite (st_bind_eq _ _ _ _ _ Hr1), (st_bind_eq _ _ _ _ _ Hr2). by rewrite decide_True. }
  change (st_bind (read_stable 4) (fun r => st_bind (cmos_read CMOS_STATUS_B) (fun b => st_ret (Some (rtc_decode b r)))) h =
    (Some t, h3)).
  rewrite (st_bind_eq _ _ _ _ _ Hst), (st_bind_eq _ _ _ _ _ Hr3), Hq2, Hq1, rtc_decode_encode by done. done.
Qed.
End device.

(** A clock set to 2026-07-04 21:59:58, in BCD and 12-hour mode. *)
Record cmos := CmosDev { cmos_addr : Z; cmos_cells : list (Z * Z) }.
Definition cell_of (l : list (Z * Z)) (reg : Z) : Z :=
  match list_find (fun p => p.1 = reg) l with Some (_, p) => p.2 | None => 0 end.
#[export] Instance cmos_ports : Ports cmos := {
  inb p h := (if p =? CMOS_DATA then cell_of (cmos_cells h) (cmos_addr h) else 0, h);
  inw p h := (0, h);
  outb p v h := (tt, if p =? CMOS_ADDRESS then CmosDev v (cmos_cells h) else h);
  outw p v h := (tt, h)
}.
#[export] Program Instance cmos_laws : Cmos cmos := {
  cmos_reg h := cell_of (cmos_cells h);
  cmos_selected := cmos_addr
}.
Next Obligation. intros. eexists. split_and!; reflexivity. Qed.
Next Obligation. intros. eexists _, _. split_and!; reflexivity. Qed.
Next Obligation. intros. eexists. split_and!; reflexivity. Qed.

Definition sample_time : rtc_time_t := RtcTime 58 59 21 4 7 2026 7.
Definition sample_clock : cmos :=
  CmosDev 0 [(0, 88); (2, 89); (4, 137); (6, 7); (7, 4); (8, 7); (9, 38); (10, 38); (11, 0); (50, 32)].

Lemma rtc_reads_the_clock_witness :
  exists h', rtc_read_time true sample_clock = (Some sample_time, h') /\ cmos_reg h' = cmos_reg sample_clock.
Proof.
  apply (rtc_reads_the_clock sample_clock sample_time).
  - split; simpl; lia.
  - split; [reflexivity|]. vm_compute. reflexivity.
Defined.
