(* ===== verification/Pic.v ===== *)
(** Pic: the pair of 8259 interrupt controllers of [kernel/pic.c]. *)

From S2P Require Import Prelude Ports.
#[local] Open Scope kernel_scope.

Definition PIC1_COMMAND : Z := 32.
Definition PIC1_DATA : Z := 33.
Definition PIC2_COMMAND : Z := 160.
Definition PIC2_DATA : Z := 161.
Definition PIC_EOI : Z := 32.
Definition PIC_READ_ISR : Z := 11.
Definition ICW1_ICW4 : Z := 1.
Definition ICW1_INIT : Z := 16.
Definition ICW4_8086 : Z := 1.

Section pic.
Context {H : Type} `{Ports H}.

Definition io_wait : ST H unit := outb 128 0.

Definition pic_remap : ST H unit :=
  outb PIC1_COMMAND (Z.lor ICW1_INIT ICW1_ICW4) ;;; io_wait ;;;
  outb PIC2_COMMAND (Z.lor ICW1_INIT ICW1_ICW4) ;;; io_wait ;;;
  outb PIC1_DATA 32 ;;; io_wait ;;;
  outb PIC2_DATA 40 ;;; io_wait ;;;
  outb PIC1_DATA 4 ;;; io_wait ;;;
  outb PIC2_DATA 2 ;;; io_wait ;;;
  outb PIC1_DATA ICW4_8086 ;;; io_wait ;;;
  outb PIC2_DATA ICW4_8086 ;;; io_wait ;;;
  outb PIC1_DATA 0 ;;; outb PIC2_DATA 0.

Definition pic_send_eoi (irq : Z) : ST H unit :=
  (if 8 <=? irq then outb PIC2_COMMAND PIC_EOI else st_ret tt) ;;; outb PIC1_COMMAND PIC_EOI.

(** The data port of a line and its bit there. *)
Definition irq_port (irq : Z) : Z := if irq <? 8 then PIC1_DATA else PIC2_DATA.
Definition irq_bit (irq : Z) : Z := if 8 <=? irq then irq - 8 else irq.

Definition pic_mask_irq (irq : Z) : ST H unit :=
  v <~ inb (irq_port irq);; outb (irq_port irq) (u8 (Z.lor v (Z.shiftl 1 (irq_bit irq)))).

Definition pic_unmask_irq (irq : Z) : ST H unit :=
  v <~ inb (irq_port irq);; outb (irq_port irq) (u8 (Z.land v (Z.lnot (Z.shiftl 1 (irq_bit irq))))).

Definition pic_get_mask : ST H Z :=
  a <~ inb PIC1_DATA;; b <~ inb PIC2_DATA;; st_ret (u16 (Z.lor a (Z.shiftl b 8))).

Definition pic_set_mask (mask : Z) : ST H unit :=
  outb PIC1_DATA (u8 (Z.land mask 255)) ;;; outb PIC2_DATA (u8 (Z.land (Z.shiftr mask 8) 255)).

Definition pic_is_spurious_irq7 : ST H bool :=
  outb PIC1_COMMAND PIC_READ_ISR ;;; isr <~ inb PIC1_COMMAND;; st_ret (negb (bit_set isr 128)).

Definition pic_is_spurious_irq15 : ST H bool :=
  outb PIC2_COMMAND PIC_READ_ISR ;;; isr <~ inb PIC2_COMMAND;; st_ret (negb (bit_set isr 128)).

Definition pic_disable_all : ST H unit := outb PIC1_DATA 255 ;;; outb PIC2_DATA 255.
End pic.

(** * The interrupt mask *)

(** The two mask registers behind the data ports, once initialised. *)
Record pic_regs := PicRegs { imr1 : Z; imr2 : Z }.
#[export] Instance pic_ports : Ports pic_regs := {
  inb p h := (if p =? PIC1_DATA then imr1 h else if p =? PIC2_DATA then imr2 h else 0, h);
  inw p h := (0, h);
  outb p v h := (tt, if p =? PIC1_DATA then PicRegs v (imr2 h) else if p =? PIC2_DATA then PicRegs (imr1 h) v else h);
  outw p v h := (tt, h)
}.

Definition mask_of (h : pic_regs) : Z := (pic_get_mask h).1.
Definition regs_ok (h : pic_regs) : Prop := is_u8 (imr1 h) /\ is_u8 (imr2 h).

Lemma mask_bit h i : regs_ok h -> 0 <= i < 16 ->
  Z.testbit (mask_of h) i = if i <? 8 then Z.testbit (imr1 h) i else Z.testbit (imr2 h) (i - 8).
Proof.
  intros [H1 H2] Hi. unfold_widths. unfold mask_of, pic_get_mask, st_bind, st_ret. simpl.
  unfold u16. change 65536 with (2 ^ 16). rewrite Z.mod_pow2_bits_low, Z.lor_spec, Z.shiftl_spec by lia.
  destruct (Z.ltb_spec i 8).
  - rewrite (Z.testbit_neg_r _ (i - 8)) by lia. apply orb_false_r.
  - replace (Z.testbit (imr1 h) i) with false; [done|]. symmetry.
    rewrite <- (Z.mod_small (imr1 h) (2 ^ 8)) by lia. apply Z.mod_pow2_bits_high. lia.
Qed.

Lemma u8_testbit v i : 0 <= i < 8 -> Z.testbit (u8 v) i = Z.testbit v i.
Proof. intros. unfold u8. change 256 with (2 ^ 8). apply Z.mod_pow2_bits_low. lia. Qed.

Lemma one_shiftl_bit k i : 0 <= k -> 0 <= i -> Z.testbit (Z.shiftl 1 k) i = bool_decide (i = k).
Proof.
  intros. rewrite Z.shiftl_1_l, Z.pow2_bits_eqb by lia. symmetry.
  destruct (Z.eqb_spec k i); [by apply bool_decide_eq_true_2|by apply bool_decide_eq_false_2; congruence].
Qed.

(** Masking and unmasking change the bit of that line only. *)
Lemma pic_mask_spec h irq : regs_ok h -> 0 <= irq < 16 ->
  let h' := (pic_mask_irq irq h).2 in
  regs_ok h' /\ forall i, 0 <= i < 16 -> Z.testbit (mask_of h') i = (Z.testbit (mask_of h) i || bool_decide (i = irq)).
Proof.
  intros Hok Hirq. unfold pic_mask_irq, st_bind, irq_port, irq_bit. simpl.
  pose proof Hok as [H1 H2]. destruct (Z.ltb_spec irq 8), (Z.leb_spec 8 irq); try lia; simpl.
  all: split; [split; simpl; try done; apply u8_range|].
  all: intros i Hi; rewrite !mask_bit by first [done|split; simpl; first [done|apply u8_range]]; simpl.
  all: destruct (Z.ltb_spec i 8).
  all: try (rewrite u8_testbit, Z.lor_spec, one_shiftl_bit by lia; f_equal; apply bool_decide_ext; lia).
  all: by rewrite bool_decide_eq_false_2, orb_false_r by lia.
Qed.

Lemma pic_unmask_spec h irq : regs_ok h -> 0 <= irq < 16 ->
  let h' := (pic_unmask_irq irq h).2 in
  regs_ok h' /\ forall i, 0 <= i < 16 -> Z.testbit (mask_of h') i = (Z.testbit (mask_of h) i && bool_decide (i <> irq)).
Proof.
  intros Hok Hirq. unfold pic_unmask_irq, st_bind, irq_port, irq_bit. simpl.
  pose proof Hok as [H1 H2]. destruct (Z.ltb_spec irq 8), (Z.leb_spec 8 irq); try lia; simpl.
  all: split; [split; simpl; try done; apply u8_range|].
  all: intros i Hi; rewrite !mask_bit by first [done|split; simpl; first [done|apply u8_range]]; simpl.
  all: destruct (Z.ltb_spec i 8).
  all: try (rewrite u8_testbit, Z.land_spec, Z.lnot_spec, one_shiftl_bit, bool_decide_not by lia; do 2 f_equal; apply bool_decide_ext; lia).
  all: by rewrite bool_decide_eq_true_2, andb_true_r by lia.
Qed.
