(* ===== verification/Descriptors.v ===== *)
(** Descriptors: the segment descriptors of [kernel/gdt.c] and the interrupt
    gates of [kernel/idt.c], and how the processor reads them.

    The addresses of the tables and of the assembly stubs are parameters; the
    loads of the table registers and of the segment registers are fields of
    the state. *)

From S2P Require Import Prelude Ports.

(** ** Segments *)

Definition GDT_ENTRIES : Z := 3.
Definition GDT_KERNEL_CODE : Z := 8.
Definition GDT_KERNEL_DATA : Z := 16.
Definition GDT_ACCESS_PRESENT : Z := 128.
Definition GDT_ACCESS_RING0 : Z := 0.
Definition GDT_ACCESS_CODE : Z := 24.
Definition GDT_ACCESS_DATA : Z := 16.
Definition GDT_ACCESS_READ_WRITE : Z := 2.
Definition GDT_ACCESS_EXECUTABLE : Z := 8.
Definition GDT_FLAG_GRANULARITY_4K : Z := 128.
Definition GDT_FLAG_32BIT : Z := 64.
Definition GDT_KERNEL_CODE_FLAGS : Z := Z.lor GDT_FLAG_GRANULARITY_4K GDT_FLAG_32BIT.
Definition GDT_KERNEL_DATA_FLAGS : Z := Z.lor GDT_FLAG_GRANULARITY_4K GDT_FLAG_32BIT.
Definition GDT_KERNEL_CODE_ACCESS : Z :=
  Z.lor (Z.lor (Z.lor (Z.lor GDT_ACCESS_PRESENT GDT_ACCESS_RING0) GDT_ACCESS_CODE) GDT_ACCESS_READ_WRITE) GDT_ACCESS_EXECUTABLE.
Definition GDT_KERNEL_DATA_ACCESS : Z :=
  Z.lor (Z.lor (Z.lor GDT_ACCESS_PRESENT GDT_ACCESS_RING0) GDT_ACCESS_DATA) GDT_ACCESS_READ_WRITE.

Record gdt_entry_t := GdtEntry {
  limit_low : Z; g_base_low : Z; g_base_mid : Z; access : Z; granularity : Z; g_base_high : Z
}.
(** [gdt_ptr_t] and [struct idt_ptr]. *)
Record table_ptr := TablePtr { ptr_limit : Z; ptr_base : Z }.

(** The registers the loads set: the code segment and the five others. *)
Record segments := Segments { gdtr : table_ptr; cs : Z; data_segs : list Z }.
Record gdt := Gdt { gdt_entries : list gdt_entry_t; gdt_ptr : table_ptr; seg_regs : segments }.

Definition gdt_set_entry (num base limit access_ gran : Z) (g : gdt) : gdt :=
  Gdt (updZ num (GdtEntry (Z.land limit 65535) (Z.land base 65535) (Z.land (Z.shiftr base 16) 255) access_
                   (Z.lor (Z.land (Z.shiftr limit 16) 15) (Z.land gran 240)) (Z.land (Z.shiftr base 24) 255)) (gdt_entries g))
    (gdt_ptr g) (seg_regs g).

Definition gdt_load (g : gdt) : gdt :=
  Gdt (gdt_entries g) (gdt_ptr g) (Segments (gdt_ptr g) GDT_KERNEL_CODE (replicate 5 GDT_KERNEL_DATA)).

(** [gdt_at] is the address of the table. *)
Definition gdt_init (gdt_at : Z) (g : gdt) : gdt :=
  let g := Gdt (replicate (Z.to_nat GDT_ENTRIES) (GdtEntry 0 0 0 0 0 0)) (TablePtr (8 * GDT_ENTRIES - 1) gdt_at) (seg_regs g) in
  let g := gdt_set_entry 1 0 1048575 GDT_KERNEL_CODE_ACCESS GDT_KERNEL_CODE_FLAGS g in
  let g := gdt_set_entry 2 0 1048575 GDT_KERNEL_DATA_ACCESS GDT_KERNEL_DATA_FLAGS g in
  gdt_load g.

(** ** Gates *)

Definition IDT_ENTRIES : Z := 256.
Definition IDT_GATE_INT : Z := 142.
Definition IDT_GATE_USER : Z := 238.

Record idt_entry := IdtEntry { base_low : Z; sel : Z; always0 : Z; flags : Z; base_high : Z }.
Record idt_t := Idt { idt : list idt_entry; idtp : table_ptr; idtr : option table_ptr }.

Definition idt_set_gate (num base sel_ flags_ : Z) (t : idt_t) : idt_t :=
  Idt (updZ num (IdtEntry (Z.land base 65535) sel_ 0 flags_ (Z.land (Z.shiftr base 16) 65535)) (idt t)) (idtp t) (idtr t).

Section install.
(** [stub v] is the address of the stub of vector [v] in [isr.s]: [isr0] to
    [isr31], [irq0] to [irq15] for 32 to 47, and [isr128]. *)
Context (stub : Z -> Z) (idt_at : Z).

Definition idt_install (t : idt_t) : idt_t :=
  let t := Idt (replicate (Z.to_nat IDT_ENTRIES) (IdtEntry 0 0 0 0 0)) (TablePtr (8 * IDT_ENTRIES - 1) idt_at) (idtr t) in
  let t := for_range 0 32 (fun v => idt_set_gate v (stub v) 8 IDT_GATE_INT) t in
  let t := for_range 32 40 (fun v => idt_set_gate v (stub v) 8 IDT_GATE_INT) t in
  let t := for_range 40 48 (fun v => idt_set_gate v (stub v) 8 IDT_GATE_INT) t in
  let t := idt_set_gate 128 (stub 128) 8 IDT_GATE_USER t in
  Idt (idt t) (idtp t) (Some (idtp t)).
End install.

(** * How the processor reads the tables *)

(** The base, the size in bytes and the type of a segment. *)
Definition segment_base (e : gdt_entry_t) : Z := g_base_low e + 65536 * g_base_mid e + 16777216 * g_base_high e.
Definition segment_limit (e : gdt_entry_t) : Z := limit_low e + 65536 * (granularity e mod 16).
Definition segment_size (e : gdt_entry_t) : Z :=
  if bit_set (granularity e) GDT_FLAG_GRANULARITY_4K then (segment_limit e + 1) * 4096 else segment_limit e + 1.

(** Where an interrupt goes: the selector and the address, the privilege
    level that may raise it by an instruction, and whether interrupts are
    disabled on the way; [None] when the gate is not present. *)
Record target := Target { t_selector : Z; t_address : Z; t_dpl : Z; t_masks : bool }.
Definition gate_target (e : idt_entry) : option target :=
  if bit_set (flags e) 128
  then Some (Target (sel e) (base_low e + 65536 * base_high e) (flags e / 32 mod 4) (flags e mod 16 =? 14)) else None.

Lemma halves v : is_u32 v -> Z.land v 65535 + 65536 * Z.land (Z.shiftr v 16) 65535 = v.
Proof. unfold is_u32. intros Hv. rewrite !land_65535, Z.shiftr_div_pow2 by lia. change (2 ^ 16) with 65536. zlia. Qed.

(** A gate that was set leads to the address it was given. *)
Lemma set_gate_target v base sel_ flags_ t :
  is_u32 base -> 0 <= v < lenZ (idt t) ->
  gate_target <$> idt (idt_set_gate v base sel_ flags_ t) =
    updZ v (if bit_set flags_ 128 then Some (Target sel_ base (flags_ / 32 mod 4) (flags_ mod 16 =? 14)) else None)
      (gate_target <$> idt t).
Proof.
  intros Hb Hv. cbn. unfold updZ. rewrite (proj2 (Z.ltb_ge v 0)) by lia. rewrite list_fmap_insert. f_equal.
  unfold gate_target. cbn. by rewrite halves.
Qed.

(** From [t] to [t'] the gates of the vectors from [lo] to [i] were set. *)
Definition gates_in (stub : Z -> Z) (lo : Z) (t : idt_t) (i : Z) (t' : idt_t) : Prop :=
  idtp t' = idtp t /\ idtr t' = idtr t /\ lenZ (idt t') = lenZ (idt t) /\
  forall v : nat, (gate_target <$> idt t') !! v =
    if decide (lo <= Z.of_nat v < i) then Some (Some (Target 8 (stub (Z.of_nat v)) 0 true)) else (gate_target <$> idt t) !! v.
Lemma install_range (stub : Z -> Z) lo hi t :
  (forall v, is_u32 (stub v)) -> 0 <= lo <= hi -> hi <= lenZ (idt t) ->
  gates_in stub lo t hi (for_range lo hi (fun v => idt_set_gate v (stub v) 8 IDT_GATE_INT) t).
Proof.
  intros Hs Hlo Hhi. apply (for_range_inv (gates_in stub lo t)); [lia| |].
  - split_and!; [done..|]. intros v. rewrite decide_False by lia. done.
  - intros i t1 Hi (H1 & H2 & H3 & H4). split_and!; [done..| |].
    { cbn. by rewrite lenZ_updZ. }
    intros v. rewrite set_gate_target by (auto; lia). unfold updZ. rewrite (proj2 (Z.ltb_ge i 0)) by lia.
    destruct (decide (Z.of_nat v = i)) as [<-|].
    + rewrite Nat2Z.id, list_lookup_insert_eq by (rewrite length_fmap; unfold lenZ in *; lia). rewrite decide_True by lia. done.
    + rewrite list_lookup_insert_ne, H4 by lia. destruct (decide (lo <= Z.of_nat v < i)); [by rewrite decide_True by lia|by rewrite decide_False by lia].
Qed.

(** After [idt_install] the processor finds, for every exception, every
    line of the interrupt controllers and the system call, the stub of that
    vector in the kernel's code segment, with interrupts disabled on entry;
    only the system call may be raised by user code, and no other vector has
    a gate.  The register that holds the table is loaded with all 256 entries. *)
Theorem idt_install_correct stub idt_at t :
  (forall v, is_u32 (stub v)) ->
  idtr (idt_install stub idt_at t) = Some (TablePtr 2047 idt_at) /\
  forall v : nat, (v < 256)%nat -> (gate_target <$> idt (idt_install stub idt_at t)) !! v =
    Some (if decide (v < 48)%nat then Some (Target 8 (stub (Z.of_nat v)) 0 true)
          else if decide (v = 128%nat) then Some (Target 8 (stub (Z.of_nat v)) 3 true) else None).
Proof.
  intros Hs. unfold idt_install. cbv zeta. set (t0 := Idt (replicate _ _) _ _).
  assert (E0 : lenZ (idt t0) = 256) by (vm_compute; reflexivity).
  destruct (install_range stub 0 32 t0 Hs) as (P1 & _ & L1 & G1); [lia..|]. set (t1 := for_range 0 32 _ t0) in *.
  destruct (install_range stub 32 40 t1 Hs) as (P2 & _ & L2 & G2); [lia..|]. set (t2 := for_range 32 40 _ t1) in *.
  destruct (install_range stub 40 48 t2 Hs) as (P3 & _ & L3 & G3); [lia..|]. set (t3 := for_range 40 48 _ t2) in *.
  clearbody t1 t2 t3. split; [cbn; by rewrite P3, P2, P1|]. intros v Hv. cbn [idt].
  rewrite set_gate_target by (auto; lia). unfold updZ. cbn [Z.ltb Z.compare]. change (Z.to_nat 128) with 128%nat.
  destruct (decide (v = 128%nat)) as [->|Hne].
  { rewrite list_lookup_insert_eq by (rewrite length_fmap; unfold lenZ in *; lia). by rewrite decide_False by lia. }
  rewrite list_lookup_insert_ne, G3, G2, G1 by lia.
  destruct (decide (v < 48)%nat).
  - destruct (decide (40 <= Z.of_nat v < 48)); [done|]. destruct (decide (32 <= Z.of_nat v < 40)); [done|]. by rewrite decide_True by lia.
  - rewrite !decide_False by lia. cbn [t0 idt]. rewrite list_lookup_fmap, lookup_replicate_2 by (vm_compute in Hv |- *; lia). done.
Qed.

Definition sample_stub (v : Z) : Z := u32 (1048576 + 16 * v).
Lemma idt_install_correct_witness :
  (gate_target <$> idt (idt_install sample_stub 4096 (Idt [] (TablePtr 0 0) None))) !! 33%nat = Some (Some (Target 8 1049104 0 true)).
Proof.
  destruct (idt_install_correct sample_stub 4096 (Idt [] (TablePtr 0 0) None)) as [_ G]; [intros v; apply u32_range|].
  rewrite G by lia. reflexivity.
Defined.

(** A descriptor gives back the base and the limit it was made from. *)
Lemma set_entry_reads num base limit access_ gran g :
  is_u32 base -> 0 <= limit < 1048576 -> 0 <= num < lenZ (gdt_entries g) ->
  exists e, gdt_entries (gdt_set_entry num base limit access_ gran g) !! Z.to_nat num = Some e /\
    segment_base e = base /\ segment_limit e = limit /\ access e = access_.
Proof.
  unfold is_u32. intros Hb Hl Hn. cbn. unfold updZ. rewrite (proj2 (Z.ltb_ge num 0)) by lia.
  eexists. split; [apply list_lookup_insert_eq; unfold lenZ in *; lia|]. unfold segment_base, segment_limit. cbn.
  rewrite !Z.shiftr_div_pow2, !land_65535, !land_255 by lia. change (2 ^ 16) with 65536. change (2 ^ 24) with 16777216.
  split_and!; [zlia| |done]. change 15 with (Z.ones 4). change 240 with (Z.shiftl 15 4).
  assert (Z.lor (Z.land (limit / 65536) (Z.ones 4)) (Z.land gran (Z.shiftl 15 4)) mod 16 = limit / 65536) as ->; [|zlia].
  rewrite (Z.land_ones (limit / 65536)) by lia. change (2 ^ 4) with 16. apply Z.bits_inj'. intros i Hi. change 16 with (2 ^ 4).
  destruct (decide (i < 4)).
  - rewrite Z.mod_pow2_bits_low, Z.lor_spec, Z.land_spec, Z.shiftl_spec by lia.
    rewrite (Z.testbit_neg_r 15 (i - 4)), andb_false_r, orb_false_r, Z.mod_pow2_bits_low by lia. done.
  - rewrite Z.mod_pow2_bits_high by lia. symmetry. rewrite <- (Z.mod_small (limit / 65536) (2 ^ 4)) by zlia.
    by apply Z.mod_pow2_bits_high; lia.
Qed.

(** [gdt_init] leaves the processor with two flat segments of 4 GiB: code
    (present, ring 0, executable, readable) in [cs] and data (present, ring 0,
    writable) in the others. *)
Lemma gdt_init_flat gdt_at g :
  let g' := gdt_init gdt_at g in
  seg_regs g' = Segments (TablePtr 23 gdt_at) (8 * 1) (replicate 5 (8 * 2)) /\
  (fun e => (segment_base e, segment_size e, access e)) <$> gdt_entries g' =
    [(0, 1, 0); (0, 4294967296, 154); (0, 4294967296, 146)].
Proof. split; reflexivity. Qed.
