(* ===== verification/Cpu.v ===== *)
(** Cpu: the processor set-up of [kernel/cpu.c]: the A20 gate, the CPUID
    information, the floating-point unit and SSE.

    The gate forces bit 20 of every address to 0 while it is closed, so a
    memory access goes through [gated].  The keyboard controller method waits
    for the controller; its loops take fuel. *)

From S2P Require Import Prelude Ports Partial Memory.
#[local] Open Scope partial_scope.

Record cpu_info_t := CpuInfo {
  vendor : list Z; brand : list Z; family : Z; model : Z; stepping : Z; features_ecx : Z; features_edx : Z;
  has_cpuid : bool; has_fpu : bool; has_sse : bool; has_sse2 : bool; has_msr : bool; has_apic : bool
}.
Definition no_info : cpu_info_t := CpuInfo (replicate 13 0) (replicate 49 0) 0 0 0 0 0 false false false false false false.

Definition CPUID_FEAT_EDX_FPU : Z := 2 ^ 0.
Definition CPUID_FEAT_EDX_MSR : Z := 2 ^ 5.
Definition CPUID_FEAT_EDX_APIC : Z := 2 ^ 9.
Definition CPUID_FEAT_EDX_SSE : Z := 2 ^ 25.
Definition CPUID_FEAT_EDX_SSE2 : Z := 2 ^ 26.

(** The processor and the board: the A20 line, whether the ID flag can be
    toggled, and what CPUID answers in eax, ebx, ecx and edx. *)
Class Processor (H : Type) := {
  a20_line : H -> bool;
  id_flag : H -> bool;
  cpuid : Z -> H -> Z * Z * Z * Z
}.

(** The information, the memory, the hardware, the control registers and the
    flags, and whether the floating-point unit has been initialised. *)
Record cpu (H : Type) := Cpu {
  cpu_info : cpu_info_t; c_mem : mem; c_hw : H; c_cr0 : Z; c_cr4 : Z; c_eflags : Z; c_fpu : bool
}.
Arguments Cpu {H}. Arguments cpu_info {H}. Arguments c_mem {H}. Arguments c_hw {H}. Arguments c_cr0 {H}.
Arguments c_cr4 {H}. Arguments c_eflags {H}. Arguments c_fpu {H}.

Section cpu.
Context {H : Type} `{Ports H} `{Processor H}.
Implicit Types s : cpu H.

Definition with_info i s : cpu H := Cpu i (c_mem s) (c_hw s) (c_cr0 s) (c_cr4 s) (c_eflags s) (c_fpu s).
Definition with_c_mem m s : cpu H := Cpu (cpu_info s) m (c_hw s) (c_cr0 s) (c_cr4 s) (c_eflags s) (c_fpu s).
Definition with_c_hw h s : cpu H := Cpu (cpu_info s) (c_mem s) h (c_cr0 s) (c_cr4 s) (c_eflags s) (c_fpu s).

Definition cin (p : Z) : PM (cpu H) Z := p_zoom c_hw with_c_hw (inb p).
Definition cout (p v : Z) : PM (cpu H) unit := p_zoom c_hw with_c_hw (outb p v).

(** A memory access through the gate. *)
Definition gated s (a : Z) : Z := if a20_line (c_hw s) then a else Z.land a (Z.lnot 1048576).
Definition load32 (a : Z) : PM (cpu H) Z := s <- p_get;; p_ret (ld32 (c_mem s) (gated s a)).
Definition store32 (a v : Z) : PM (cpu H) unit := p_mod (fun s => with_c_mem (st32 (c_mem s) (gated s a) v) s).

(** The delay loop has no effect. *)
Definition a20_enable_fast : PM (cpu H) bool :=
  v <- cin 146;;
  if bit_set v 2 then p_ret true else
  cout 146 (Z.lor v 2);;
  v <- cin 146;;
  p_ret (bit_set v 2).

(** [while (timeout-- && busy(inb(0x64)));]: the value [timeout] has then.
    Once it has run out, [timeout] is -1 and no longer stops a loop. *)
Fixpoint kbc_wait (fuel : nat) (busy : Z -> bool) (timeout : Z) : PM (cpu H) Z :=
  match fuel with
  | O => p_none
  | S fuel =>
    if timeout =? 0 then p_ret (-1)
    else v <- cin 100;; if busy v then kbc_wait fuel busy (timeout - 1) else p_ret (timeout - 1)
  end.
Definition in_full (v : Z) : bool := bit_set v 2.
Definition out_empty (v : Z) : bool := negb (bit_set v 1).

Definition a20_enable_keyboard (fuel : nat) : PM (cpu H) bool :=
  t <- kbc_wait fuel in_full 10000;;
  cout 100 173;;
  t <- kbc_wait fuel in_full t;;
  cout 100 208;;
  t <- kbc_wait fuel out_empty t;;
  output <- cin 96;;
  t <- kbc_wait fuel in_full t;;
  cout 100 209;;
  t <- kbc_wait fuel in_full t;;
  cout 96 (Z.lor output 2);;
  t <- kbc_wait fuel in_full t;;
  cout 100 174;;
  t <- kbc_wait fuel in_full t;;
  cout 100 208;;
  kbc_wait fuel out_empty t;;
  output <- cin 96;;
  p_ret (bit_set output 2).

Definition addr_low : Z := 32256.
Definition addr_high : Z := 1080832.
Definition a20_check : PM (cpu H) bool :=
  saved_low <- load32 addr_low;;
  saved_high <- load32 addr_high;;
  store32 addr_low 11162880;;
  store32 addr_high 4283804415;;
  v <- load32 addr_low;;
  let enabled := v =? 11162880 in
  store32 addr_high saved_high;;
  store32 addr_low saved_low;;
  p_ret enabled.

Definition a20_enable (fuel : nat) : PM (cpu H) Z :=
  b <- a20_check;;
  if b : bool then p_ret 1 else
  fast <- a20_enable_fast;;
  b <- (if fast : bool then a20_check else p_ret false);;
  if b : bool then p_ret 1 else
  kbc <- a20_enable_keyboard fuel;;
  b <- (if kbc : bool then a20_check else p_ret false);;
  if b : bool then p_ret 1 else p_ret 0.

(** Only a processor with CPUID lets the ID flag (bit 21) be toggled. *)
Definition cpu_detect_cpuid : PM (cpu H) bool :=
  s <- p_get;;
  let old := c_eflags s in
  let new := if id_flag (c_hw s) then Z.lxor old (2 ^ 21) else old in
  p_mod (fun s => Cpu (cpu_info s) (c_mem s) (c_hw s) (c_cr0 s) (c_cr4 s) new (c_fpu s));;
  p_ret (negb (new =? old)).

Definition bytes32 (v : Z) : list Z := [v mod 256; v / 256 mod 256; v / 65536 mod 256; v / 16777216 mod 256].

(** Leaf 1: the signature and the features. *)
Definition add_features (r : Z * Z * Z * Z) (i : cpu_info_t) : cpu_info_t :=
  let '(f_eax, _, ecx, edx) := r in
  let fam := Z.land (Z.shiftr f_eax 8) 15 in
  let mod_ := Z.land (Z.shiftr f_eax 4) 15 in
  let fam := if fam =? 15 then fam + Z.land (Z.shiftr f_eax 20) 255 else fam in
  let mod_ := if 6 <=? fam then Z.lor mod_ (Z.land (Z.shiftr f_eax 12) 240) else mod_ in
  CpuInfo (vendor i) (brand i) fam mod_ (Z.land f_eax 15) ecx edx (has_cpuid i)
    (bit_set edx CPUID_FEAT_EDX_FPU) (bit_set edx CPUID_FEAT_EDX_SSE) (bit_set edx CPUID_FEAT_EDX_SSE2)
    (bit_set edx CPUID_FEAT_EDX_MSR) (bit_set edx CPUID_FEAT_EDX_APIC).
Definition set_brand (b : list Z) (i : cpu_info_t) : cpu_info_t :=
  CpuInfo (vendor i) b (family i) (model i) (stepping i) (features_ecx i) (features_edx i)
    (has_cpuid i) (has_fpu i) (has_sse i) (has_sse2 i) (has_msr i) (has_apic i).
Definition set_vendor (v : list Z) (i : cpu_info_t) : cpu_info_t :=
  CpuInfo v (brand i) (family i) (model i) (stepping i) (features_ecx i) (features_edx i)
    (has_cpuid i) (has_fpu i) (has_sse i) (has_sse2 i) (has_msr i) (has_apic i).
Definition set_cpuid (b : bool) (i : cpu_info_t) : cpu_info_t :=
  CpuInfo (vendor i) (brand i) (family i) (model i) (stepping i) (features_ecx i) (features_edx i)
    b (has_fpu i) (has_sse i) (has_sse2 i) (has_msr i) (has_apic i).

Definition four (r : Z * Z * Z * Z) : list Z :=
  let '(a, b, c, d) := r in bytes32 a ++ bytes32 b ++ bytes32 c ++ bytes32 d.

Definition cpu_query_features : PM (cpu H) unit :=
  s <- p_get;;
  let h := c_hw s in
  if negb (has_cpuid (cpu_info s)) then p_mod (with_info no_info) else
  let '(eax, ebx, ecx, edx) := cpuid 0 h in
  let i := set_vendor (bytes32 ebx ++ bytes32 edx ++ bytes32 ecx ++ [0]) (cpu_info s) in
  let i := if 1 <=? eax then add_features (cpuid 1 h) i else i in
  let i := set_brand (replicate 49 0) i in
  let '(eax, _, _, _) := cpuid 2147483648 h in
  let i := if 2147483652 <=? eax
           then set_brand (four (cpuid 2147483650 h) ++ four (cpuid 2147483651 h) ++ four (cpuid 2147483652 h) ++ [0]) i else i in
  p_mod (with_info i).

Definition fpu_init : PM (cpu H) unit :=
  p_mod (fun s => Cpu (cpu_info s) (c_mem s) (c_hw s) (Z.lor (Z.land (c_cr0 s) (Z.lnot 4)) 2) (c_cr4 s) (c_eflags s) true).

Definition sse_enable : PM (cpu H) Z :=
  s <- p_get;;
  if negb (has_sse (cpu_info s)) && negb (has_sse2 (cpu_info s)) then p_ret 0 else
  p_mod (fun s => Cpu (cpu_info s) (c_mem s) (c_hw s) (c_cr0 s) (Z.lor (Z.lor (c_cr4 s) 512) 1024) (c_eflags s) (c_fpu s));;
  p_ret 1.

Definition cpu_init (fuel : nat) : PM (cpu H) unit :=
  p_mod (with_info no_info);;
  a20_enable fuel;;
  b <- cpu_detect_cpuid;;
  p_mod (fun s => with_info (set_cpuid b (cpu_info s)) s);;
  cpu_query_features;;
  s <- p_get;;
  (if has_fpu (cpu_info s) then fpu_init else p_ret tt);;
  if has_sse (cpu_info s) || has_sse2 (cpu_info s) then sse_enable;; p_ret tt else p_ret tt.

Definition cpu_get_vendor s : list Z := vendor (cpu_info s).
Definition cpu_get_brand s : list Z := brand (cpu_info s).
End cpu.

(** * The A20 gate *)

Section a20.
Context {H : Type} `{Ports H} `{Processor H}.
Implicit Types s : cpu H.

Definition same_memory s s' : Prop := forall a, ld8 (c_mem s') a = ld8 (c_mem s) a.

(** Writing back a word that was read puts its bytes back. *)
Lemma ld8_put_back m m0 a b : ld8 (st32 m a (ld32 m0 a)) b = if decide (a <= b < a + 4) then ld8 m0 b else ld8 m b.
Proof.
  destruct (decide (a <= b < a + 4)) as [Hb|Hb]; [|by apply ld8_st32_ne; lia].
  pose proof (ld8_range m0 a). pose proof (ld8_range m0 (a + 1)). pose proof (ld8_range m0 (a + 2)). pose proof (ld8_range m0 (a + 3)).
  unfold_widths. unfold st32, ld32. rewrite !ld8_st8.
  assert (b = a \/ b = a + 1 \/ b = a + 2 \/ b = a + 3) as [-> |[-> |[-> | ->]]] by lia;
    repeat first [rewrite decide_True by lia|rewrite decide_False by lia]; unfold u8; zlia.
Qed.

(** The check finds out whether the gate is open, and restores the memory:
    while the gate is closed both addresses are the same cell. *)
Lemma a20_check_spec s : returns a20_check s (fun b s' =>
  b = a20_line (c_hw s) /\ c_hw s' = c_hw s /\ cpu_info s' = cpu_info s /\ same_memory s s').
Proof.
  unfold returns, a20_check, load32, store32, p_bind, p_get, p_ret, p_mod, gated, same_memory. cbn.
  destruct (a20_line (c_hw s)); (eexists _, _; split; [reflexivity|]); cbn.
  - rewrite ld32_st32_ne, ld32_st32_eq by (unfold addr_low, addr_high; lia). split_and!; [done..|]. intros b.
    rewrite !ld8_put_back. repeat case_decide; try done. rewrite !ld8_st32_ne by lia. done.
  - change (Z.land addr_high (Z.lnot 1048576)) with addr_low. change (Z.land addr_low (Z.lnot 1048576)) with addr_low.
    rewrite ld32_st32_eq. split_and!; [done..|]. intros b. rewrite !ld8_put_back. repeat case_decide; try done.
    rewrite !ld8_st32_ne by lia. done.
Qed.

(** Nothing but the check touches the memory. *)
Definition on_ports {A} (m : PM (cpu H) A) : Prop :=
  forall s x s', m s = Some (x, s') -> c_mem s' = c_mem s.
Lemma on_ports_ret {A} (x : A) : on_ports (p_ret x).
Proof. intros s y s' E. by injection E as <- <-. Qed.
Lemma on_ports_bind {A B} (m : PM (cpu H) A) (k : A -> PM (cpu H) B) : on_ports m -> (forall x, on_ports (k x)) -> on_ports (p_bind m k).
Proof.
  intros Hm Hk s y s' E. unfold p_bind in E. destruct (m s) as [[x s1]|] eqn:E1; [|done].
  rewrite (Hk _ _ _ _ E). by eapply Hm.
Qed.
Lemma on_ports_in p : on_ports (cin p).
Proof. intros s x s' E. unfold cin, p_zoom in E. destruct (inb p (c_hw s)). by injection E as <- <-. Qed.
Lemma on_ports_out p v : on_ports (cout p v).
Proof. intros s x s' E. unfold cout, p_zoom in E. destruct (outb p v (c_hw s)). by injection E as <- <-. Qed.
Lemma on_ports_wait fuel busy t : on_ports (kbc_wait fuel busy t).
Proof.
  revert t. induction fuel as [|fuel IH]; intros t; cbn [kbc_wait]; [by intros s x s'|]. case_goal; [apply on_ports_ret|].
  apply on_ports_bind; [apply on_ports_in|]. intros v. case_goal; [apply IH|apply on_ports_ret].
Qed.
Ltac on_ports_go :=
  repeat first [apply on_ports_in|apply on_ports_out|apply on_ports_wait|apply on_ports_ret
               |apply on_ports_bind; [|intros ?]|case_goal].
Lemma on_ports_keyboard fuel : on_ports (a20_enable_keyboard fuel).
Proof. unfold a20_enable_keyboard. on_ports_go. Qed.
Lemma on_ports_fast : on_ports a20_enable_fast.
Proof. unfold a20_enable_fast. on_ports_go. Qed.

(** The method behind port [0x92]: bit 1 of the port is the line. *)
Class FastGate : Prop := {
  fg_read h : bit_set (inb 146 h).1 2 = a20_line h /\ a20_line (inb 146 h).2 = a20_line h;
  fg_write v h : a20_line (outb 146 v h).2 = bit_set v 2
}.

(** One attempt: a method, then the check. *)
Lemma attempt_spec (m : PM (cpu H) bool) s s1 ok r s2 :
  on_ports m -> m s = Some (ok, s1) ->
  (if ok : bool then a20_check else p_ret false) s1 = Some (r, s2) ->
  same_memory s s2 /\ (r = true -> a20_line (c_hw s2) = true).
Proof.
  intros Hm E1 E2. apply Hm in E1. destruct ok.
  - destruct (a20_check_spec s1) as (b & s3 & E3 & Hb & Hh & _ & Hsame). rewrite E3 in E2. injection E2 as <- <-.
    split; [intros a; rewrite Hsame; by rewrite E1|]. intros ->. by rewrite Hh.
  - injection E2 as <- <-. split; [intros a; by rewrite E1|done].
Qed.
End a20.

Lemma fast_opens {H} `{Ports H} `{Processor H} `{!FastGate (H := H)} (s : cpu H) :
  returns a20_enable_fast s (fun ok s' => ok = true /\ a20_line (c_hw s') = true).
Proof.
  unfold returns, a20_enable_fast, p_bind, cin, cout, p_zoom, p_ret. destruct (fg_read (c_hw s)) as [Hb Hl].
  destruct (inb 146 (c_hw s)) as [v h]. cbn in *. destruct (bit_set v 2); [eexists _, _; split; [done|]; cbn; split; congruence|]. cbn.
  pose proof (fg_write (Z.lor v 2) h) as Hw. destruct (outb 146 (Z.lor v 2) h) as [[] h1]. cbn in *.
  destruct (fg_read h1) as [Hb1 Hl1]. destruct (inb 146 h1) as [v1 h2]. cbn in *. eexists _, _. split; [done|]. cbn.
  assert (Hset : bit_set (Z.lor v 2) 2 = true).
  { unfold bit_set. apply negb_true_iff, Z.eqb_neq. intros E. apply (f_equal (fun x => Z.testbit x 1)) in E.
    rewrite Z.land_spec, Z.lor_spec in E. change (Z.testbit 2 1) with true in E. by rewrite orb_true_r in E. }
  rewrite Hb1, Hl1, Hw. by rewrite Hset.
Qed.

(** [a20_enable] changes no byte of the memory, and answers 1 only when
    the A20 line is open on return.  On a board where bit 1 of port [0x92]
    controls the line it always answers 1, without the keyboard controller. *)
Theorem a20_enable_correct {H} `{Ports H} `{Processor H} fuel (s : cpu H) :
  (forall r s', a20_enable fuel s = Some (r, s') -> same_memory s s' /\ (r = 0 \/ r = 1 /\ a20_line (c_hw s') = true)) /\
  (FastGate (H := H) -> returns (a20_enable fuel) s (fun r s' => r = 1 /\ a20_line (c_hw s') = true /\ same_memory s s')).
Proof.
  destruct (a20_check_spec s) as (b & s1 & E1 & Hb & Hh & _ & Hs1). split.
  - intros r s' E. unfold a20_enable, p_bind in E. rewrite E1 in E. destruct b.
    { injection E as <- <-. split; [done|]. right. by rewrite Hh. }
    destruct (a20_enable_fast s1) as [[ok s2]|] eqn:E2; [|done]. destruct ((if ok then a20_check else p_ret false) s2) as [[b3 s3]|] eqn:E3; [|done].
    destruct (attempt_spec _ _ _ _ _ _ on_ports_fast E2 E3) as [Hs3 Hl3].
    assert (Hs : same_memory s s3) by (intros a; by rewrite Hs3, Hs1). destruct b3; [injection E as <- <-; auto|].
    destruct (a20_enable_keyboard fuel s3) as [[ok' s4]|] eqn:E4; [|done].
    destruct ((if ok' then a20_check else p_ret false) s4) as [[b5 s5]|] eqn:E5; [|done].
    destruct (attempt_spec _ _ _ _ _ _ (on_ports_keyboard fuel) E4 E5) as [Hs5 Hl5].
    assert (Hs' : same_memory s s5) by (intros a; by rewrite Hs5, Hs). destruct b5; injection E as <- <-; auto.
  - intros Hg. unfold returns, a20_enable, p_bind. rewrite E1. destruct b.
    { eexists _, _. split; [reflexivity|]. split_and!; [done|by rewrite Hh|done]. }
    destruct (fast_opens s1) as (ok & s2 & E2 & -> & Hl2). rewrite E2. pose proof (on_ports_fast _ _ _ E2) as Em.
    destruct (a20_check_spec s2) as (b3 & s3 & E3 & Hb3 & Hh3 & _ & Hs3). rewrite E3, Hb3, Hl2.
    eexists _, _. split; [reflexivity|]. split_and!; [done|by rewrite Hh3|]. intros a. by rewrite Hs3, Em, Hs1.
Qed.

(** A board with a fast gate that is closed. *)
Module SampleCpu.
Record board := Board { line : bool }.
#[export] Instance board_ports : Ports board := {
  inb p b := (if p =? 146 then (if line b then 2 else 0) else 2, b);
  inw _ b := (0, b);
  outb p v b := (tt, if p =? 146 then Board (bit_set v 2) else b);
  outw _ _ b := (tt, b)
}.
#[export] Instance board_processor : Processor board := {
  a20_line := line; id_flag _ := true; cpuid _ _ := (0, 0, 0, 0)
}.
#[export] Instance board_gate : FastGate (H := board).
Proof. split; [intros []; by split; [cbn; case_goal|]|done]. Qed.
Definition cold : cpu board := Cpu no_info {[32256 := 77; 1080833 := 99]} (Board false) 17 0 2 false.
End SampleCpu.
Import SampleCpu.

Lemma a20_enable_correct_witness :
  exists s', a20_enable 5 cold = Some (1, s') /\ a20_line (c_hw s') = true /\ ld8 (c_mem s') 32256 = 77 /\ ld8 (c_mem s') 1080833 = 99.
Proof.
  destruct (a20_enable_correct 5 cold) as [_ Hg]. destruct (Hg board_gate) as (r & s' & E & -> & Hl & Hm).
  exists s'. split; [exact E|]. split; [exact Hl|]. rewrite !Hm. split; reflexivity.
Defined.

(** When the first wait runs out, the limit no longer bounds the others: with
    a controller whose input buffer stays full the method never returns. *)
Lemma wait_without_limit fuel t (s : cpu board) : t < 0 -> kbc_wait fuel in_full t s = None.
Proof.
  revert t s. induction fuel as [|fuel IH]; intros t s Ht; [done|]. cbn [kbc_wait]. rewrite (proj2 (Z.eqb_neq _ _)) by lia.
  unfold p_bind, cin, p_zoom. cbn. apply IH. lia.
Qed.
Lemma wait_runs_out fuel t (s : cpu board) : 0 <= t ->
  kbc_wait fuel in_full t s = None \/ exists s', kbc_wait fuel in_full t s = Some (-1, s').
Proof.
  revert t s. induction fuel as [|fuel IH]; intros t s Ht; [by left|]. cbn [kbc_wait].
  destruct (Z.eqb_spec t 0); [right; by exists s|]. unfold p_bind, cin, p_zoom. cbn. apply IH. lia.
Qed.
Theorem keyboard_method_hangs fuel (s : cpu board) : a20_enable_keyboard fuel s = None.
Proof.
  unfold a20_enable_keyboard, p_bind at 1. destruct (wait_runs_out fuel 10000 s) as [->|[s1 ->]]; [lia|done|].
  unfold p_bind at 1, cout at 1, p_zoom. cbn [outb board_ports]. unfold p_bind at 1. by rewrite wait_without_limit by lia.
Qed.
