(* ===== verification/Pci.v ===== *)
(** Pci: the scan of the PCI bus of [kernel/pci.c] through the configuration
    ports, and the table of the functions it found. *)

From S2P Require Import Prelude Ports Text.
#[local] Open Scope kernel_scope.

(** The double-word port instructions of [common.h]. *)
Class LongPorts (H : Type) := { port_inl : Z -> ST H Z; port_outl : Z -> Z -> ST H unit }.

Definition PCI_CONFIG_ADDRESS : Z := 3320.
Definition PCI_CONFIG_DATA : Z := 3324.
Definition PCI_CONFIG_ENABLE : Z := 2147483648.
Definition PCI_MAX_DEVICES : Z := 64.

Record pci_device_t := PciDev {
  pd_bus : Z; pd_device : Z; pd_function : Z; vendor_id : Z; device_id : Z; class_code : Z; subclass : Z;
  prog_if : Z; revision : Z; header_type : Z; pd_irq : Z; bar : list Z
}.

Definition pci_get_vendor_name (vendor : Z) : list Z :=
  if vendor =? 32902 then str "Intel"
  else if vendor =? 4130 then str "AMD"
  else if vendor =? 4318 then str "NVIDIA"
  else if vendor =? 4098 then str "AMD/ATI"
  else if vendor =? 4332 then str "Realtek"
  else if vendor =? 5348 then str "Broadcom"
  else if vendor =? 6900 then str "Red Hat (VirtIO)"
  else if vendor =? 33006 then str "VirtualBox"
  else if vendor =? 5549 then str "VMware"
  else str "Unknown".

Definition class_names : list (list Z) :=
  [str "Unclassified"; str "Mass Storage Controller"; str "Network Controller"; str "Display Controller";
   str "Multimedia Controller"; str "Memory Controller"; str "Bridge"; str "Communication Controller";
   str "System Peripheral"; str "Input Device"; str "Docking Station"; str "Processor"; str "Serial Bus Controller";
   str "Wireless Controller"; str "Intelligent Controller"; str "Satellite"; str "Encryption Controller";
   str "Signal Processing"].
Definition pci_get_class_name (code : Z) : list Z :=
  if code =? 255 then str "Unknown" else if (0 <=? code) && (code <=? 17) then nthZ [] class_names code else str "Reserved".

(** The address of a register of the configuration space. *)
Definition config_address (bus device func offset : Z) : Z :=
  Z.lor (Z.lor (Z.lor (Z.lor (Z.shiftl bus 16) (Z.shiftl device 11)) (Z.shiftl func 8)) (Z.land offset 252)) PCI_CONFIG_ENABLE.

Section pci.
Context {H : Type} `{LongPorts H}.

Definition pci_config_read (bus device func offset : Z) : ST H Z :=
  port_outl PCI_CONFIG_ADDRESS (config_address bus device func offset) ;;; port_inl PCI_CONFIG_DATA.
Definition pci_config_write (bus device func offset value : Z) : ST H unit :=
  port_outl PCI_CONFIG_ADDRESS (config_address bus device func offset) ;;; port_outl PCI_CONFIG_DATA value.

Fixpoint read_bars (bus device func : Z) (bars : list Z) : ST H (list Z) :=
  match bars with
  | [] => st_ret []
  | b :: bars => v <~ pci_config_read bus device func (16 + b * 4);; l <~ read_bars bus device func bars;; st_ret (v :: l)
  end.

(** The fields of a function that answered [data] at offset 0. *)
Definition read_function (bus device func data : Z) : ST H pci_device_t :=
  cls <~ pci_config_read bus device func 8;;
  hdr <~ pci_config_read bus device func 12;;
  bars <~ read_bars bus device func (seqZ 0 6);;
  irq <~ pci_config_read bus device func 60;;
  st_ret (PciDev bus device func (Z.land data 65535) (Z.land (Z.shiftr data 16) 65535)
    (Z.land (Z.shiftr cls 24) 255) (Z.land (Z.shiftr cls 16) 255) (Z.land (Z.shiftr cls 8) 255) (Z.land cls 255)
    (Z.land (Z.shiftr hdr 16) 255) (Z.land irq 255) bars).

(** The loop over the functions; [devs] is the table so far. *)
Fixpoint check_functions (bus device : Z) (funcs : list Z) (devs : list pci_device_t) : ST H (list pci_device_t) :=
  match funcs with
  | [] => st_ret devs
  | func :: funcs =>
    data <~ pci_config_read bus device func 0;;
    if Z.land data 65535 =? 65535 then check_functions bus device funcs devs
    else if PCI_MAX_DEVICES <=? lenZ devs then st_ret devs
    else
      dev <~ read_function bus device func data;;
      let devs := devs ++ [dev] in
      if (func =? 0) && negb (bit_set (header_type dev) 128) then st_ret devs
      else check_functions bus device funcs devs
  end.

Definition pci_check_device (bus device : Z) (devs : list pci_device_t) : ST H (list pci_device_t) :=
  data <~ pci_config_read bus device 0 0;;
  if Z.land data 65535 =? 65535 then st_ret devs else check_functions bus device (seqZ 0 8) devs.

Fixpoint check_devices (bus : Z) (devices : list Z) (devs : list pci_device_t) : ST H (list pci_device_t) :=
  match devices with
  | [] => st_ret devs
  | d :: devices => devs <~ pci_check_device bus d devs;; check_devices bus devices devs
  end.
Fixpoint check_buses (buses : list Z) (devs : list pci_device_t) : ST H (list pci_device_t) :=
  match buses with
  | [] => st_ret devs
  | b :: buses => devs <~ check_devices b (seqZ 0 32) devs;; check_buses buses devs
  end.
Definition pci_init : ST H (list pci_device_t) := check_buses (seqZ 0 256) [].
End pci.

(** The table is the list of its used entries. *)
Definition pci_get_device_count (devs : list pci_device_t) : Z := lenZ devs.
Definition pci_get_device (devs : list pci_device_t) (index : Z) : option pci_device_t :=
  if lenZ devs <=? index then None else devs !! Z.to_nat index.
Definition pci_find_device (devs : list pci_device_t) (vendor device : Z) : option pci_device_t :=
  snd <$> list_find (fun d => vendor_id d = vendor /\ device_id d = device) devs.
Definition pci_find_device_by_class (devs : list pci_device_t) (cls sub : Z) : option pci_device_t :=
  snd <$> list_find (fun d => class_code d = cls /\ subclass d = sub) devs.

(** * What the scan finds *)

(** A machine whose configuration ports give access to the registers
    [pci_reg]: reading the data port gives the register selected by the
    address port, and changes no register. *)
Class PciSpace (H : Type) `{LongPorts H} := {
  pci_reg : H -> Z -> Z;
  pci_read_law h a : exists h', (port_outl PCI_CONFIG_ADDRESS a ;;; port_inl PCI_CONFIG_DATA) h = (pci_reg h a, h') /\
    pci_reg h' = pci_reg h
}.

(** The function at an address, as its registers describe it. *)
Definition function_at (reg : Z -> Z) (bus device func : Z) : option pci_device_t :=
  let r off := reg (config_address bus device func off) in
  if Z.land (r 0) 65535 =? 65535 then None
  else Some (PciDev bus device func (Z.land (r 0) 65535) (Z.land (Z.shiftr (r 0) 16) 65535)
    (Z.land (Z.shiftr (r 8) 24) 255) (Z.land (Z.shiftr (r 8) 16) 255) (Z.land (Z.shiftr (r 8) 8) 255) (Z.land (r 8) 255)
    (Z.land (Z.shiftr (r 12) 16) 255) (Z.land (r 60) 255) ((fun b => r (16 + b * 4)) <$> seqZ 0 6)).

(** The functions of a device: none without function 0, function 0 alone
    when it says so, or all that answer. *)
Definition functions_of (reg : Z -> Z) (bus device : Z) : list pci_device_t :=
  match function_at reg bus device 0 with
  | None => []
  | Some d => if bit_set (header_type d) 128 then omap (function_at reg bus device) (seqZ 0 8) else [d]
  end.
Definition functions_on_bus (reg : Z -> Z) (bus : Z) : list pci_device_t := seqZ 0 32 ≫= functions_of reg bus.
Definition all_functions (reg : Z -> Z) : list pci_device_t := seqZ 0 256 ≫= functions_on_bus reg.

Section scan.
Context {H : Type} `{PciSpace H}.
Implicit Types h : H.

(** A computation that only reads registers and gives [x]. *)
Definition gives {A} (m : ST H A) (reg : Z -> Z) (x : A) : Prop :=
  forall h, pci_reg h = reg -> exists h', m h = (x, h') /\ pci_reg h' = reg.

Lemma gives_read reg bus device func off : gives (pci_config_read bus device func off) reg (reg (config_address bus device func off)).
Proof. intros h <-. apply pci_read_law. Qed.
Lemma gives_ret {A} reg (x : A) : gives (st_ret x) reg x.
Proof. intros h E. by exists h. Qed.
Lemma gives_bind {A B} reg (m : ST H A) (k : A -> ST H B) x y : gives m reg x -> gives (k x) reg y -> gives (st_bind m k) reg y.
Proof.
  intros Hm Hk h E. destruct (Hm h E) as (h1 & E1 & R1). rewrite (st_bind_eq _ _ _ _ _ E1). by apply Hk.
Qed.

Lemma gives_bars reg bus device func l :
  gives (read_bars bus device func l) reg ((fun b => reg (config_address bus device func (16 + b * 4))) <$> l).
Proof.
  induction l as [|b l IH]; cbn [read_bars]; [apply gives_ret|]. eapply gives_bind; [apply gives_read|].
  eapply gives_bind; [exact IH|]. apply gives_ret.
Qed.

Lemma gives_function reg bus device func d :
  function_at reg bus device func = Some d ->
  gives (read_function bus device func (reg (config_address bus device func 0))) reg d.
Proof.
  unfold function_at. cbv zeta. destruct (_ =? 65535); [done|]. intros E. injection E as <-. unfold read_function.
  repeat (eapply gives_bind; [first [apply gives_read|apply gives_bars]|]). apply gives_ret.
Qed.

(** The first 64. *)
Definition cap (l : list pci_device_t) : list pci_device_t := take (Z.to_nat PCI_MAX_DEVICES) l.
Lemma cap_full devs l : PCI_MAX_DEVICES <= lenZ devs -> cap (devs ++ l) = cap devs.
Proof. intros Hl. unfold cap, lenZ in *. apply take_app_le. lia. Qed.
Lemma cap_app devs l : cap (cap devs ++ l) = cap (devs ++ l).
Proof.
  unfold cap. rewrite !take_app, take_take, Nat.min_id, length_take. f_equal. 
  destruct (decide (length devs <= Z.to_nat PCI_MAX_DEVICES)%nat).
  - f_equal. lia.
  - replace (Z.to_nat PCI_MAX_DEVICES - length devs)%nat with 0%nat by lia.
    replace (Z.to_nat PCI_MAX_DEVICES - Z.to_nat PCI_MAX_DEVICES `min` length devs)%nat with 0%nat by lia. done.
Qed.

Lemma cap_short devs : lenZ devs <= PCI_MAX_DEVICES -> cap devs = devs.
Proof. intros Hl. unfold cap, lenZ in *. apply take_ge. lia. Qed.
Lemma cap_length l : lenZ (cap l) <= PCI_MAX_DEVICES.
Proof. unfold cap, lenZ. rewrite length_take. change PCI_MAX_DEVICES with 64. lia. Qed.
#[local] Hint Resolve cap_length gives_ret : core.

(** A function that does not answer is skipped; one that answers is entered
    in the table while there is room. *)
Lemma gives_absent reg bus device func funcs devs r :
  function_at reg bus device func = None -> gives (check_functions bus device funcs devs) reg r ->
  gives (check_functions bus device (func :: funcs) devs) reg r.
Proof.
  unfold function_at. cbv zeta. destruct (_ =? 65535) eqn:E; [|done]. intros _ Hk. cbn [check_functions].
  eapply gives_bind; [apply gives_read|]. cbv beta. by rewrite E.
Qed.

Lemma gives_present reg bus device func funcs devs d r :
  function_at reg bus device func = Some d -> lenZ devs < PCI_MAX_DEVICES ->
  gives (if (func =? 0) && negb (bit_set (header_type d) 128) then st_ret (devs ++ [d])
         else check_functions bus device funcs (devs ++ [d])) reg r ->
  gives (check_functions bus device (func :: funcs) devs) reg r.
Proof.
  intros Hd Hl Hk. pose proof (gives_function _ _ _ _ _ Hd) as Hf. unfold function_at in Hd. cbv zeta in Hd.
  destruct (_ =? 65535) eqn:E; [done|]. cbn [check_functions].
  eapply gives_bind; [apply gives_read|]. cbv beta. rewrite E, (proj2 (Z.leb_gt _ _)) by lia.
  eapply gives_bind; [exact Hf|]. exact Hk.
Qed.

Lemma gives_full reg bus device func funcs devs d :
  function_at reg bus device func = Some d -> PCI_MAX_DEVICES <= lenZ devs ->
  gives (check_functions bus device (func :: funcs) devs) reg devs.
Proof.
  intros Hd Hl. unfold function_at in Hd. cbv zeta in Hd. destruct (_ =? 65535) eqn:E; [done|]. cbn [check_functions].
  eapply gives_bind; [apply gives_read|]. cbv beta. rewrite E, (proj2 (Z.leb_le _ _)) by lia. apply gives_ret.
Qed.

(** The functions after function 0. *)
Lemma gives_functions reg bus device funcs devs :
  Forall (fun f => f <> 0) funcs -> lenZ devs <= PCI_MAX_DEVICES ->
  gives (check_functions bus device funcs devs) reg (cap (devs ++ omap (function_at reg bus device) funcs)).
Proof.
  intros Hf. revert devs. induction Hf as [|f funcs Hf0 Hf IH]; intros devs Hl.
  { cbn. rewrite app_nil_r, cap_short by done. apply gives_ret. }
  destruct (function_at reg bus device f) as [d|] eqn:Ed; cbn [omap list_omap]; rewrite Ed.
  2:{ eapply gives_absent; eauto. }
  destruct (decide (lenZ devs < PCI_MAX_DEVICES)) as [Hlt|Hge].
  - eapply gives_present; [done..|]. rewrite (proj2 (Z.eqb_neq _ _) Hf0). cbn [andb].
    rewrite (cons_middle d devs (omap _ funcs)), (app_assoc devs).
    apply IH. unfold lenZ in *. rewrite length_app. cbn. lia.
  - rewrite cap_full, cap_short by lia. eapply gives_full; [done|lia].
Qed.

Lemma gives_device reg bus device devs :
  lenZ devs <= PCI_MAX_DEVICES ->
  gives (pci_check_device bus device devs) reg (cap (devs ++ functions_of reg bus device)).
Proof.
  intros Hl. unfold pci_check_device, functions_of. eapply gives_bind; [apply gives_read|]. cbv beta.
  destruct (function_at reg bus device 0) as [d|] eqn:Ed.
  2:{ unfold function_at in Ed. cbv zeta in Ed. destruct (_ =? 65535); [|done]. rewrite app_nil_r, cap_short by done. apply gives_ret. }
  pose proof Ed as Ed'. unfold function_at in Ed'. cbv zeta in Ed'. destruct (_ =? 65535); [done|]. clear Ed'.
  change (seqZ 0 8) with (0 :: seqZ 1 7).
  destruct (decide (lenZ devs < PCI_MAX_DEVICES)) as [Hlt|Hge].
  2:{ rewrite cap_full, cap_short by lia. eapply gives_full; [done|lia]. }
  assert (lenZ (devs ++ [d]) <= PCI_MAX_DEVICES) by (unfold lenZ in *; rewrite length_app; cbn; lia).
  eapply gives_present; [done..|]. cbn [Z.eqb andb]. destruct (bit_set (header_type d) 128); cbn [negb].
  - cbn [omap list_omap]. rewrite Ed.
    rewrite (cons_middle d devs (omap _ (seqZ 1 7))), (app_assoc devs).
    apply gives_functions; [|done]. apply Forall_forall. intros f Hin. apply elem_of_seqZ in Hin. lia.
  - rewrite cap_short by done. apply gives_ret.
Qed.

Lemma gives_devices reg bus devices devs :
  lenZ devs <= PCI_MAX_DEVICES ->
  gives (check_devices bus devices devs) reg (cap (devs ++ (devices ≫= functions_of reg bus))).
Proof.
  revert devs. induction devices as [|d devices IH]; intros devs Hl; cbn [check_devices mbind list_bind].
  { rewrite app_nil_r, cap_short by done. apply gives_ret. }
  eapply gives_bind; [by apply gives_device|]. rewrite app_assoc, <- (cap_app (devs ++ _)). by apply IH.
Qed.

Lemma gives_buses reg buses devs :
  lenZ devs <= PCI_MAX_DEVICES ->
  gives (check_buses buses devs) reg (cap (devs ++ (buses ≫= functions_on_bus reg))).
Proof.
  revert devs. induction buses as [|b buses IH]; intros devs Hl; cbn [check_buses mbind list_bind].
  { rewrite app_nil_r, cap_short by done. apply gives_ret. }
  eapply gives_bind; [by apply gives_devices|]. rewrite app_assoc, <- (cap_app (devs ++ _)). by apply IH.
Qed.

Lemma pci_init_spec reg : gives pci_init reg (cap (all_functions reg)).
Proof. apply (gives_buses reg (seqZ 0 256) []). done. Qed.
End scan.

(** The address of a register: the enable bit, the bus, the device, the
    function and the register, each in its own bits. *)
Lemma config_address_fields bus device func reg :
  0 <= bus < 256 -> 0 <= device < 32 -> 0 <= func < 8 -> 0 <= reg < 64 ->
  config_address bus device func (4 * reg) = 2147483648 + bus * 65536 + device * 2048 + func * 256 + 4 * reg.
Proof.
  intros Hb Hd Hf Hr. unfold config_address, PCI_CONFIG_ENABLE.
  assert (Z.land (4 * reg) 252 = 4 * reg) as ->.
  { replace (4 * reg) with (Z.shiftl reg 2) by (rewrite Z.shiftl_mul_pow2 by lia; lia). change 252 with (Z.shiftl 63 2).
    rewrite <- Z.shiftl_land. change 63 with (Z.ones 6). rewrite Z.land_ones by lia. rewrite Z.mod_small by (change (2 ^ 6) with 64; lia). done. }
  rewrite !Z.shiftl_mul_pow2 by lia.
  rewrite (Z.lor_comm (bus * 2 ^ 16)), (lor_disjoint_add (device * 2 ^ 11)) by (apply land_low_high; lia).
  rewrite (Z.lor_comm _ (func * 2 ^ 8)), (lor_disjoint_add (func * 2 ^ 8)); cycle 1.
  { replace (device * 2 ^ 11 + bus * 2 ^ 16) with ((device + bus * 32) * 2 ^ 11) by lia. apply land_low_high; lia. }
  rewrite (Z.lor_comm _ (4 * reg)), (lor_disjoint_add (4 * reg)); cycle 1.
  { replace (func * 2 ^ 8 + (device * 2 ^ 11 + bus * 2 ^ 16)) with ((func + device * 8 + bus * 256) * 2 ^ 8) by lia. apply land_low_high; lia. }
  change 2147483648 with (1 * 2 ^ 31). rewrite lor_disjoint_add by (apply land_low_high; lia). lia.
Qed.

(** C37: the scan of the bus gives exactly the functions the configuration
    space describes, in the order of bus, device and function, up to the 64
    the table holds: a function other than 0 is looked for only when
    function 0 answers and says the device has several. The scan changes no
    register, and [pci_find_device_by_class] on its table finds a device
    exactly when one of these functions has the class.  The registers are
    addressed as the bus wants it: the enable bit 31, the bus in bits 16 to 23,
    the device in bits 11 to 15, the function in bits 8 to 10 and the register
    in bits 2 to 7. *)
Theorem pci_init_finds {H} `{PciSpace H} (h : H) :
  exists h', pci_init h = (cap (all_functions (pci_reg h)), h') /\ pci_reg h' = pci_reg h /\
    (forall cls sub, pci_find_device_by_class (fst (pci_init h)) cls sub = None <->
      Forall (fun d => ~ (class_code d = cls /\ subclass d = sub)) (cap (all_functions (pci_reg h)))) /\
    forall bus device func reg, 0 <= bus < 256 -> 0 <= device < 32 -> 0 <= func < 8 -> 0 <= reg < 64 ->
      config_address bus device func (4 * reg) = 2147483648 + bus * 65536 + device * 2048 + func * 256 + 4 * reg.
Proof.
  destruct (pci_init_spec (pci_reg h) h eq_refl) as (h' & E & R). exists h'. split_and!; [done..| |exact config_address_fields].
  intros cls sub. rewrite E. cbn [fst]. unfold pci_find_device_by_class. rewrite fmap_None. apply list_find_None.
Qed.

(** A machine with a host bridge (0:0.0), a network card (0:3.0) and a
    device with functions 0 and 2 (1:5). *)
Module SamplePci.
Record machine := Machine { regs : gmap Z Z; selected : Z }.
#[export] Instance long_ports : LongPorts machine := {
  port_inl p m := ((if p =? PCI_CONFIG_DATA then default 4294967295 (regs m !! selected m) else 4294967295), m);
  port_outl p v m :=
    (tt, if p =? PCI_CONFIG_ADDRESS then Machine (regs m) v
         else if p =? PCI_CONFIG_DATA then Machine (<[selected m := v]> (regs m)) (selected m) else m)
}.
#[export] Program Instance pci_space : PciSpace machine := {
  pci_reg m a := default 4294967295 (regs m !! a)
}.
Next Obligation. intros m a. by exists (Machine (regs m) a). Qed.

Definition entry (bus device func id cls hdr : Z) : list (Z * Z) :=
  (fun p => (config_address bus device func (fst p), snd p)) <$>
    [(0, id); (8, cls * 65536); (12, hdr * 65536); (16, 4276092928); (60, 11)].
Definition machine0 : machine :=
  Machine (list_to_map (entry 0 0 0 306675846 1536 0 ++ entry 0 3 0 269385862 512 0 ++
    entry 1 5 0 269385862 512 128 ++ entry 1 5 2 269385862 256 0 ++ entry 2 1 3 269385862 256 0)) 0.
End SamplePci.
Import SamplePci.

Lemma pci_init_finds_witness :
  (fun d => (pd_bus d, pd_device d, pd_function d, class_code d)) <$> fst (pci_init machine0) =
    [(0, 0, 0, 6); (0, 3, 0, 2); (1, 5, 0, 2); (1, 5, 2, 1)] /\
  pci_find_device_by_class (fst (pci_init machine0)) 3 0 = None.
Proof.
  destruct (pci_init_finds machine0) as (h' & E & R & F & _). split.
  - rewrite E. cbn [fst]. vm_compute. reflexivity.
  - apply F. assert (X : forallb (fun d => negb (class_code d =? 3)) (cap (all_functions (pci_reg machine0))) = true)
      by (vm_compute; reflexivity).
    apply Forall_forall. intros d Hd [Hc _]. rewrite forallb_forall in X. apply list_elem_of_In in Hd. specialize (X d Hd).
    rewrite Hc in X. discriminate X.
Defined.
