(* ===== verification/Nic.v ===== *)
(** Nic: the network card driver of [kernel/nic.c], an Intel E1000 with rings
    of descriptors and a Realtek RTL8139 with a receive buffer.

    The rings and buffers are memory the card writes by itself, so they are
    part of the state of the board: every access of the driver to them first
    lets the card do what it likes ([card_run]).  An access outside of an
    array is [None].  The interrupt flag that [nic_send_packet] and [nic_poll]
    save and clear is not part of the state: inside of them only the card
    runs beside the driver, which is what [card_run] says. *)

From S2P Require Import Prelude Ports Partial Text Array Memory Serial Klog Pic Paging Pci.
#[local] Open Scope partial_scope.

Definition NIC_NONE : Z := 0.
Definition NIC_E1000 : Z := 1.
Definition NIC_RTL8139 : Z := 2.
Definition INTEL_VENDOR_ID : Z := 32902.
Definition e1000_ids : list Z := [4110; 4111; 4307].
Definition RTL8139_VENDOR_ID : Z := 4332.
Definition RTL8139_DEVICE_ID : Z := 33081.

Definition E1000_CTRL : Z := 0.
Definition E1000_STATUS : Z := 8.
Definition E1000_EERD : Z := 20.
Definition E1000_ICR : Z := 192.
Definition E1000_IMS : Z := 208.
Definition E1000_IMC : Z := 216.
Definition E1000_RCTL : Z := 256.
Definition E1000_TCTL : Z := 1024.
Definition E1000_TIPG : Z := 1040.
Definition E1000_RDBAL : Z := 10240.
Definition E1000_RDBAH : Z := 10244.
Definition E1000_RDLEN : Z := 10248.
Definition E1000_RDH : Z := 10256.
Definition E1000_RDT : Z := 10264.
Definition E1000_TDBAL : Z := 14336.
Definition E1000_TDBAH : Z := 14340.
Definition E1000_TDLEN : Z := 14344.
Definition E1000_TDH : Z := 14352.
Definition E1000_TDT : Z := 14360.
Definition E1000_MTA : Z := 20992.
Definition E1000_RAL0 : Z := 21504.
Definition E1000_RAH0 : Z := 21508.
Definition E1000_CTRL_SLU : Z := 2 ^ 6.
Definition E1000_CTRL_RST : Z := 2 ^ 26.
Definition E1000_RCTL_EN : Z := 2 ^ 1.
Definition E1000_RCTL_SBP : Z := 2 ^ 2.
Definition E1000_RCTL_BAM : Z := 2 ^ 15.
Definition E1000_RCTL_BSIZE_2048 : Z := 0.
Definition E1000_RCTL_SECRC : Z := 2 ^ 26.
Definition E1000_TCTL_EN : Z := 2 ^ 1.
Definition E1000_TCTL_PSP : Z := 2 ^ 3.
Definition E1000_TX_CMD_EOP : Z := 1.
Definition E1000_TX_CMD_IFCS : Z := 2.
Definition E1000_TX_CMD_RS : Z := 8.
Definition E1000_NUM_RX_DESC : Z := 32.
Definition E1000_NUM_TX_DESC : Z := 8.
Definition E1000_PKT_BUF_SIZE : Z := 2048.

Definition RTL_MAC0 : Z := 0.
Definition RTL_TSD0 : Z := 16.
Definition RTL_TSAD0 : Z := 32.
Definition RTL_RBSTART : Z := 48.
Definition RTL_CMD : Z := 55.
Definition RTL_CAPR : Z := 56.
Definition RTL_CBR : Z := 58.
Definition RTL_IMR : Z := 60.
Definition RTL_ISR : Z := 62.
Definition RTL_RCR : Z := 68.
Definition RTL_CONFIG1 : Z := 82.
Definition RTL_RX_RING_SIZE : Z := 8192.

Record e1000_rx_desc_t := RxDesc { rd_addr : Z; rd_length : Z; rd_checksum : Z; rd_status : Z; rd_errors : Z; rd_special : Z }.
Record e1000_tx_desc_t :=
  TxDesc { td_addr : Z; td_length : Z; td_cso : Z; td_cmd : Z; td_status : Z; td_css : Z; td_special : Z }.

(** The memory shared with the cards. *)
Record dma_t := Dma {
  e1000_rx_descs : list e1000_rx_desc_t;
  e1000_tx_descs : list e1000_tx_desc_t;
  e1000_rx_bufs : list (list Z);
  e1000_tx_bufs : list (list Z);
  rtl_rx_buf : list Z;
  rtl_tx_bufs : list (list Z)
}.
Definition with_rx_descs l d := Dma l (e1000_tx_descs d) (e1000_rx_bufs d) (e1000_tx_bufs d) (rtl_rx_buf d) (rtl_tx_bufs d).
Definition with_tx_descs l d := Dma (e1000_rx_descs d) l (e1000_rx_bufs d) (e1000_tx_bufs d) (rtl_rx_buf d) (rtl_tx_bufs d).
Definition with_tx_bufs l d := Dma (e1000_rx_descs d) (e1000_tx_descs d) (e1000_rx_bufs d) l (rtl_rx_buf d) (rtl_tx_bufs d).
Definition with_rtl_rx l d := Dma (e1000_rx_descs d) (e1000_tx_descs d) (e1000_rx_bufs d) (e1000_tx_bufs d) l (rtl_tx_bufs d).
Definition with_rtl_tx l d := Dma (e1000_rx_descs d) (e1000_tx_descs d) (e1000_rx_bufs d) (e1000_tx_bufs d) (rtl_rx_buf d) l.

Record nic_state_t := NicState {
  initialized : bool; driver_type : Z; driver_name : list Z; io_base : Z; mmio_phys : Z; mmio_base : Z; nic_irq : Z;
  mac : list Z; link_up : Z; tx_packets : Z; rx_packets : Z; tx_bytes : Z; rx_bytes : Z
}.

(** The addresses the linker gave the static arrays. *)
Record layout := Layout { a_rx_descs : Z; a_tx_descs : Z; a_rx_bufs : Z; a_tx_bufs : Z; a_rtl_rx : Z; a_rtl_tx : Z }.

(** A board with a card: its registers in memory, the memory shared with it,
    and what the card does before the next access to that memory. *)
Class Board (B : Type) := {
  mmio_read32 : Z -> ST B Z;
  mmio_write32 : Z -> Z -> ST B unit;
  board_dma : B -> dma_t;
  set_dma : dma_t -> B -> B;
  card_run : B -> B
}.

(** [a[i]], [a + off .. a + off + n] and [memcpy(a, src, n)], inside of the
    array only. *)
Definition lookupZ {A} (l : list A) (i : Z) : option A := if i <? 0 then None else l !! Z.to_nat i.
Definition bytes_at (l : list Z) (off n : Z) : option (list Z) :=
  if (0 <=? off) && (0 <=? n) && (off + n <=? lenZ l) then Some (take (Z.to_nat n) (drop (Z.to_nat off) l)) else None.
Definition copy_to (src l : list Z) : option (list Z) := if lenZ src <=? lenZ l then Some (arr_copy 0 src l) else None.
(** [memcpy] of [n] bytes into a local array of [cap] bytes. *)
Definition copy_local (cap : Z) (l : list Z) (off n : Z) : option (list Z) := if n <=? cap then bytes_at l off n else None.

Section nic.
Context {B : Type} `{Ports B} `{LongPorts B} `{Board B} {R : Type}.

(** The state of the driver; the log shares the board with it, and [stack]
    is the state of the code that gets the frames. *)
Record nic := Nic {
  nic_state : nic_state_t; e1000_rx_cur : Z; e1000_tx_cur : Z; rtl_rx_offset : Z; rtl_tx_cur : Z;
  nic_pages : paging; nic_log : klog (H := B); stack : R
}.
Implicit Types n : nic.

Definition board n : B := serial_hw (k_serial (nic_log n)).
Definition with_board (b : B) n : nic :=
  Nic (nic_state n) (e1000_rx_cur n) (e1000_tx_cur n) (rtl_rx_offset n) (rtl_tx_cur n) (nic_pages n)
    (Klog (k_log (nic_log n)) (k_timer (nic_log n)) (set_hw b (k_serial (nic_log n)))) (stack n).
Definition with_state (s : nic_state_t) n : nic :=
  Nic s (e1000_rx_cur n) (e1000_tx_cur n) (rtl_rx_offset n) (rtl_tx_cur n) (nic_pages n) (nic_log n) (stack n).
Definition with_rx_cur (i : Z) n : nic :=
  Nic (nic_state n) i (e1000_tx_cur n) (rtl_rx_offset n) (rtl_tx_cur n) (nic_pages n) (nic_log n) (stack n).
Definition with_tx_cur (i : Z) n : nic :=
  Nic (nic_state n) (e1000_rx_cur n) i (rtl_rx_offset n) (rtl_tx_cur n) (nic_pages n) (nic_log n) (stack n).
Definition with_rtl_rx_offset (i : Z) n : nic :=
  Nic (nic_state n) (e1000_rx_cur n) (e1000_tx_cur n) i (rtl_tx_cur n) (nic_pages n) (nic_log n) (stack n).
Definition with_rtl_tx_cur (i : Z) n : nic :=
  Nic (nic_state n) (e1000_rx_cur n) (e1000_tx_cur n) (rtl_rx_offset n) i (nic_pages n) (nic_log n) (stack n).
Definition with_pages (p : paging) n : nic :=
  Nic (nic_state n) (e1000_rx_cur n) (e1000_tx_cur n) (rtl_rx_offset n) (rtl_tx_cur n) p (nic_log n) (stack n).
Definition with_log l n : nic :=
  Nic (nic_state n) (e1000_rx_cur n) (e1000_tx_cur n) (rtl_rx_offset n) (rtl_tx_cur n) (nic_pages n) l (stack n).

(** An instruction on the board. *)
Definition hw {A} (m : ST B A) : PM nic A := p_zoom board with_board m.
(** A load from, and a store to, the memory shared with the card. *)
Definition shared : PM nic dma_t :=
  p_mod (fun n => with_board (card_run (board n)) n);; n <- p_get;; p_ret (board_dma (board n)).
Definition put_shared (d : dma_t) : PM nic unit := p_mod (fun n => with_board (set_dma d (board n)) n).

Definition rx_desc (i : Z) : PM nic e1000_rx_desc_t := d <- shared;; p_val (lookupZ (e1000_rx_descs d) i).
Definition set_rx_desc (i : Z) (f : e1000_rx_desc_t -> e1000_rx_desc_t) : PM nic unit :=
  d <- shared;; x <- p_val (lookupZ (e1000_rx_descs d) i);; put_shared (with_rx_descs (updZ i (f x) (e1000_rx_descs d)) d).
Definition tx_desc (i : Z) : PM nic e1000_tx_desc_t := d <- shared;; p_val (lookupZ (e1000_tx_descs d) i).
Definition set_tx_desc (i : Z) (f : e1000_tx_desc_t -> e1000_tx_desc_t) : PM nic unit :=
  d <- shared;; x <- p_val (lookupZ (e1000_tx_descs d) i);; put_shared (with_tx_descs (updZ i (f x) (e1000_tx_descs d)) d).

(** [memset(bufs[i], 0, send_len); memcpy(bufs[i], data, length)]. *)
Definition fill_row (bufs : list (list Z)) (i send_len : Z) (data : list Z) : option (list (list Z)) :=
  row ← lookupZ bufs i;
  row ← copy_to (replicate (Z.to_nat send_len) 0) row;
  row ← copy_to data row;
  Some (updZ i row bufs).

(** ** The E1000 *)

Definition e1000_write32 (reg val : Z) : PM nic unit :=
  n <- p_get;; hw (mmio_write32 (mmio_base (nic_state n) + reg) val).
Definition e1000_read32 (reg : Z) : PM nic Z := n <- p_get;; hw (mmio_read32 (mmio_base (nic_state n) + reg)).

Fixpoint eeprom_wait (k : nat) : PM nic (option Z) :=
  match k with
  | O => p_ret None
  | S k => v <- e1000_read32 E1000_EERD;; if bit_set v 16 then p_ret (Some (u16 (Z.shiftr v 16))) else eeprom_wait k
  end.
(** The word read, or [None] for the result [-1]. *)
Definition e1000_read_eeprom (addr : Z) : PM nic (option Z) :=
  e1000_write32 E1000_EERD (Z.lor 1 (Z.shiftl addr 8));; eeprom_wait (Z.to_nat 10000).

(** The six bytes of the address, from the EEPROM or the receive address
    registers. *)
Definition mac_of_words (w0 w1 w2 : Z) : list Z :=
  [u8 w0; u8 (Z.shiftr w0 8); u8 w1; u8 (Z.shiftr w1 8); u8 w2; u8 (Z.shiftr w2 8)].
Definition mac_of_registers : PM nic (list Z) :=
  ral <- e1000_read32 E1000_RAL0;;
  rah <- e1000_read32 E1000_RAH0;;
  p_ret [u8 ral; u8 (Z.shiftr ral 8); u8 (Z.shiftr ral 16); u8 (Z.shiftr ral 24); u8 rah; u8 (Z.shiftr rah 8)].
Definition e1000_mac : PM nic (list Z) :=
  w0 <- e1000_read_eeprom 0;;
  match w0 with None => mac_of_registers | Some w0 =>
  w1 <- e1000_read_eeprom 1;;
  match w1 with None => mac_of_registers | Some w1 =>
  w2 <- e1000_read_eeprom 2;;
  match w2 with None => mac_of_registers | Some w2 =>
  if Z.lor (Z.lor w0 w1) w2 =? 0 then mac_of_registers else p_ret (mac_of_words w0 w1 w2)
  end end end.

Definition pack_bytes (b0 b1 b2 b3 : Z) : Z :=
  Z.lor (Z.lor (Z.lor b0 (Z.shiftl b1 8)) (Z.shiftl b2 16)) (Z.shiftl b3 24).
Definition program_mac (m : list Z) : PM nic unit :=
  e1000_write32 E1000_RAL0 (pack_bytes (nthZ 0 m 0) (nthZ 0 m 1) (nthZ 0 m 2) (nthZ 0 m 3));;
  e1000_write32 E1000_RAH0 (Z.lor (Z.lor (nthZ 0 m 4) (Z.shiftl (nthZ 0 m 5) 8)) (2 ^ 31)).

Definition update_state (f : nic_state_t -> nic_state_t) : PM nic unit := p_mod (fun n => with_state (f (nic_state n)) n).
Definition set_driver (type : Z) (name : list Z) (io phys base irq : Z) (s : nic_state_t) : nic_state_t :=
  NicState (initialized s) type name io phys base irq (mac s) (link_up s) (tx_packets s) (rx_packets s) (tx_bytes s) (rx_bytes s).
Definition set_mac (m : list Z) (s : nic_state_t) : nic_state_t :=
  NicState (initialized s) (driver_type s) (driver_name s) (io_base s) (mmio_phys s) (mmio_base s) (nic_irq s) m (link_up s)
    (tx_packets s) (rx_packets s) (tx_bytes s) (rx_bytes s).
Definition set_up (s : nic_state_t) : nic_state_t :=
  NicState true (driver_type s) (driver_name s) (io_base s) (mmio_phys s) (mmio_base s) (nic_irq s) (mac s) 1
    (tx_packets s) (rx_packets s) (tx_bytes s) (rx_bytes s).
Definition count_tx (len : Z) (s : nic_state_t) : nic_state_t :=
  NicState (initialized s) (driver_type s) (driver_name s) (io_base s) (mmio_phys s) (mmio_base s) (nic_irq s) (mac s) (link_up s)
    (u32 (tx_packets s + 1)) (rx_packets s) (u32 (tx_bytes s + len)) (rx_bytes s).
Definition count_rx (len : Z) (s : nic_state_t) : nic_state_t :=
  NicState (initialized s) (driver_type s) (driver_name s) (io_base s) (mmio_phys s) (mmio_base s) (nic_irq s) (mac s) (link_up s)
    (tx_packets s) (u32 (rx_packets s + 1)) (tx_bytes s) (u32 (rx_bytes s + len)).

Definition unmask_nic : PM nic unit :=
  n <- p_get;;
  let irq := nic_irq (nic_state n) in
  if (0 <? irq) && (irq <? 16) then
    (if 8 <=? irq then hw (pic_unmask_irq 2) else p_ret tt);; hw (pic_unmask_irq irq)
  else p_ret tt.

(** [cmd |= bits] in the command register of a device. *)
Definition enable_device (dev : pci_device_t) (bits : Z) : PM nic unit :=
  cmd <- hw (pci_config_read (pd_bus dev) (pd_device dev) (pd_function dev) 4);;
  hw (pci_config_write (pd_bus dev) (pd_device dev) (pd_function dev) 4 (Z.lor cmd bits)).

(** The statements of [e1000_init_device] up to the link; the delay loop
    has no effect. *)
Definition e1000_reset : PM nic unit :=
  e1000_write32 E1000_IMC 4294967295;;
  ctrl <- e1000_read32 E1000_CTRL;;
  e1000_write32 E1000_CTRL (Z.lor ctrl E1000_CTRL_RST);;
  e1000_write32 E1000_IMC 4294967295;;
  e1000_read32 E1000_ICR;;
  ctrl <- e1000_read32 E1000_CTRL;;
  let ctrl := Z.lor ctrl E1000_CTRL_SLU in
  let ctrl := Z.land ctrl (4294967295 - 2 ^ 3) in
  let ctrl := Z.land ctrl (4294967295 - 2 ^ 31) in
  e1000_write32 E1000_CTRL ctrl;;
  p_each (seqZ 0 128) (fun i => e1000_write32 (E1000_MTA + i * 4) 0).

Section init.
Context (L : layout) (static_pt_pool : Z).

Definition rx_ring_init : PM nic unit :=
  p_each (seqZ 0 E1000_NUM_RX_DESC) (fun i =>
    set_rx_desc i (fun _ => RxDesc (a_rx_bufs L + i * E1000_PKT_BUF_SIZE) 0 0 0 0 0));;
  p_mod (with_rx_cur 0);;
  e1000_write32 E1000_RDBAL (a_rx_descs L);;
  e1000_write32 E1000_RDBAH 0;;
  e1000_write32 E1000_RDLEN (16 * E1000_NUM_RX_DESC);;
  e1000_write32 E1000_RDH 0;;
  e1000_write32 E1000_RDT (E1000_NUM_RX_DESC - 1);;
  e1000_write32 E1000_RCTL
    (Z.lor (Z.lor (Z.lor (Z.lor E1000_RCTL_EN E1000_RCTL_SBP) E1000_RCTL_BAM) E1000_RCTL_BSIZE_2048) E1000_RCTL_SECRC).

Definition tx_ring_init : PM nic unit :=
  p_each (seqZ 0 E1000_NUM_TX_DESC) (fun i =>
    set_tx_desc i (fun _ => TxDesc (a_tx_bufs L + i * E1000_PKT_BUF_SIZE) 0 0 0 1 0 0));;
  p_mod (with_tx_cur 0);;
  e1000_write32 E1000_TDBAL (a_tx_descs L);;
  e1000_write32 E1000_TDBAH 0;;
  e1000_write32 E1000_TDLEN (16 * E1000_NUM_TX_DESC);;
  e1000_write32 E1000_TDH 0;;
  e1000_write32 E1000_TDT 0;;
  e1000_write32 E1000_TIPG 6299658;;
  e1000_write32 E1000_TCTL (Z.lor (Z.lor (Z.lor E1000_TCTL_EN E1000_TCTL_PSP) (Z.shiftl 15 4)) (Z.shiftl 64 12)).

Definition e1000_init_device (dev : pci_device_t) : PM nic Z :=
  let bar0 := nthZ 0 (bar dev) 0 in
  if bit_set bar0 1 then p_ret (-1) else
  let phys := Z.land bar0 4294967280 in
  if phys =? 0 then p_ret (-1) else
  p_part nic_pages with_pages (p_step (paging_map_region static_pt_pool phys phys (128 * 1024)
    (Z.lor (Z.lor (Z.lor PAGE_PRESENT PAGE_WRITABLE) PAGE_PCD) PAGE_PWT)));;
  enable_device dev 7;;
  update_state (fun s => set_driver NIC_E1000 (str "Intel PRO/1000 (E1000)") (io_base s) phys phys (pd_irq dev) s);;
  e1000_reset;;
  m <- e1000_mac;;
  update_state (set_mac m);;
  program_mac m;;
  rx_ring_init;;
  tx_ring_init;;
  e1000_write32 E1000_IMS (Z.lor (Z.lor (Z.lor 128 4) 64) 16);;
  unmask_nic;;
  e1000_read32 E1000_STATUS;;
  update_state set_up;;
  p_ret 0.
End init.

(** [while (!(status & 1) && timeout-- > 0);]: the value [timeout] has then. *)
Fixpoint tx_wait (idx : Z) (timeout : nat) : PM nic Z :=
  x <- tx_desc idx;;
  if bit_set (td_status x) 1 then p_ret (Z.of_nat timeout)
  else match timeout with O => p_ret (-1) | S t => tx_wait idx t end.

(** [length] is the length of [data]. *)
Definition pad_length (length_ : Z) : Z := if length_ <? 60 then 60 else length_.
Definition e1000_send (L : layout) (data : list Z) : PM nic Z :=
  if 1518 <? lenZ data then p_ret (-1) else
  n <- p_get;;
  let idx := e1000_tx_cur n in
  timeout <- tx_wait idx (Z.to_nat 100000);;
  if timeout <=? 0 then p_ret (-1) else
  let send_len := pad_length (lenZ data) in
  d <- shared;;
  rows <- p_val (fill_row (e1000_tx_bufs d) idx send_len data);;
  put_shared (with_tx_bufs rows d);;
  set_tx_desc idx (fun x =>
    TxDesc (a_tx_bufs L + idx * E1000_PKT_BUF_SIZE) send_len (td_cso x)
      (Z.lor (Z.lor E1000_TX_CMD_EOP E1000_TX_CMD_IFCS) E1000_TX_CMD_RS) 0 (td_css x) (td_special x));;
  let next := (idx + 1) mod E1000_NUM_TX_DESC in
  p_mod (with_tx_cur next);;
  e1000_write32 E1000_TDT next;;
  update_state (count_tx send_len);;
  p_ret 0.

(** The copy of a frame into [pkt]: empty when [copy_len] becomes 0. *)
Definition copy_frame (cur err len : Z) : PM nic (list Z) :=
  let copy_len := if len <=? 1600 then len else 0 in
  if (err =? 0) && (14 <=? copy_len) then
    d <- shared;; row <- p_val (lookupZ (e1000_rx_bufs d) cur);; p_val (copy_local 1600 row 0 copy_len)
  else p_ret [].

(** One round of the loop of [e1000_poll_rx] up to [net_rx_packet], when the
    descriptor [cur] is done: the frame, empty when it is dropped. *)
Definition e1000_take (cur : Z) : PM nic (list Z) :=
  x <- rx_desc cur;;
  let err := rd_errors x in
  x <- rx_desc cur;;
  let len := rd_length x in
  pkt <- copy_frame cur err len;;
  set_rx_desc cur (fun x => RxDesc (rd_addr x) (rd_length x) (rd_checksum x) 0 (rd_errors x) (rd_special x));;
  p_mod (with_rx_cur ((cur + 1) mod E1000_NUM_RX_DESC));;
  e1000_write32 E1000_RDT cur;;
  p_ret pkt.

Section receive.
(** [net_rx_packet]. *)
Context (net_rx_packet : list Z -> PM nic unit).

Fixpoint e1000_poll_rx (budget : nat) : PM nic unit :=
  n <- p_get;;
  x <- rx_desc (e1000_rx_cur n);;
  if bit_set (rd_status x) 1 then
    match budget with
    | O => p_ret tt
    | S budget =>
      pkt <- e1000_take (e1000_rx_cur n);;
      (if 14 <=? lenZ pkt then update_state (count_rx (lenZ pkt));; net_rx_packet pkt else p_ret tt);;
      e1000_poll_rx budget
    end
  else p_ret tt.

(** ** The RTL8139 *)

Definition rtl_port (n : nic) (reg : Z) : Z := u16 (io_base (nic_state n) + reg).

Fixpoint rtl8139_poll_rx (budget : nat) : PM nic unit :=
  n <- p_get;;
  let io := io_base (nic_state n) in
  c <- hw (inb (u16 (io + RTL_CMD)));;
  if bit_set c 1 then p_ret tt else
  match budget with
  | O => p_ret tt
  | S budget =>
    d <- shared;;
    hdr <- p_val (bytes_at (rtl_rx_buf d) (rtl_rx_offset n) 4);;
    let status := Z.lor (nthZ 0 hdr 0) (Z.shiftl (nthZ 0 hdr 1) 8) in
    let pkt_len := Z.lor (nthZ 0 hdr 2) (Z.shiftl (nthZ 0 hdr 3) 8) in
    if negb (bit_set status 1) || (pkt_len <? 18) || (1536 <? pkt_len) then
      cbr <- hw (inw (u16 (io + RTL_CBR)));;
      p_mod (with_rtl_rx_offset (cbr mod RTL_RX_RING_SIZE));;
      hw (outw (u16 (io + RTL_CAPR)) (u16 (cbr mod RTL_RX_RING_SIZE - 16)))
    else
      let frame_len := pkt_len - 4 in
      d <- shared;;
      pkt <- p_val (copy_local 1536 (rtl_rx_buf d) (rtl_rx_offset n + 4) frame_len);;
      let offset := u16 (Z.land (rtl_rx_offset n + pkt_len + 4 + 3) 4294967292) mod RTL_RX_RING_SIZE in
      p_mod (with_rtl_rx_offset offset);;
      hw (outw (u16 (io + RTL_CAPR)) (u16 (offset - 16)));;
      update_state (count_rx frame_len);;
      net_rx_packet pkt;;
      rtl8139_poll_rx budget
  end.

(** ** The interface of the driver *)

Definition rtl_ack : PM nic Z :=
  n <- p_get;;
  isr <- hw (inw (rtl_port n RTL_ISR));;
  (if isr =? 0 then p_ret tt else hw (outw (rtl_port n RTL_ISR) isr));;
  p_ret isr.

Definition nic_poll : PM nic unit :=
  n <- p_get;;
  if negb (initialized (nic_state n)) then p_ret tt else
  if driver_type (nic_state n) =? NIC_E1000 then e1000_read32 E1000_ICR;; e1000_poll_rx 32
  else if driver_type (nic_state n) =? NIC_RTL8139 then rtl_ack;; rtl8139_poll_rx 32
  else p_ret tt.

Definition nic_handle_irq (irq : Z) : PM nic unit :=
  n <- p_get;;
  if negb (initialized (nic_state n)) || negb (irq =? nic_irq (nic_state n)) then p_ret tt else
  if driver_type (nic_state n) =? NIC_E1000 then
    icr <- e1000_read32 E1000_ICR;; if icr =? 0 then p_ret tt else e1000_poll_rx 32
  else if driver_type (nic_state n) =? NIC_RTL8139 then
    isr <- rtl_ack;; if isr =? 0 then p_ret tt else rtl8139_poll_rx 32
  else p_ret tt.
End receive.

Fixpoint reset_wait (io : Z) (k : nat) : PM nic unit :=
  match k with
  | O => p_ret tt
  | S k => c <- hw (inb (u16 (io + RTL_CMD)));; if bit_set c 16 then reset_wait io k else p_ret tt
  end.
Fixpoint rtl_mac (io : Z) (idx : list Z) : PM nic (list Z) :=
  match idx with
  | [] => p_ret []
  | i :: idx => b <- hw (inb (u16 (io + RTL_MAC0 + i)));; l <- rtl_mac io idx;; p_ret (b :: l)
  end.

Definition rtl8139_init_device (L : layout) (dev : pci_device_t) : PM nic Z :=
  let io := u16 (Z.land (nthZ 0 (bar dev) 0) 4294967292) in
  if io =? 0 then p_ret (-1) else
  enable_device dev 5;;
  update_state (fun s => set_driver NIC_RTL8139 (str "Realtek RTL8139") io (mmio_phys s) (mmio_base s) (pd_irq dev) s);;
  hw (outb (u16 (io + RTL_CONFIG1)) 0);;
  hw (outb (u16 (io + RTL_CMD)) 16);;
  reset_wait io (Z.to_nat 100000);;
  m <- rtl_mac io (seqZ 0 6);;
  update_state (set_mac m);;
  d <- shared;;
  put_shared (with_rtl_rx (replicate (length (rtl_rx_buf d)) 0) d);;
  p_mod (with_rtl_rx_offset 0);;
  p_mod (with_rtl_tx_cur 0);;
  hw (port_outl (u16 (io + RTL_RBSTART)) (a_rtl_rx L));;
  hw (outw (u16 (io + RTL_IMR)) 5);;
  hw (port_outl (u16 (io + RTL_RCR)) 143);;
  hw (outb (u16 (io + RTL_CMD)) 12);;
  unmask_nic;;
  update_state set_up;;
  p_ret 0.

Definition rtl8139_send (L : layout) (data : list Z) : PM nic Z :=
  if 1518 <? lenZ data then p_ret (-1) else
  let send_len := pad_length (lenZ data) in
  n <- p_get;;
  let slot := rtl_tx_cur n in
  d <- shared;;
  rows <- p_val (fill_row (rtl_tx_bufs d) slot send_len data);;
  put_shared (with_rtl_tx rows d);;
  hw (port_outl (rtl_port n (RTL_TSAD0 + slot * 4)) (a_rtl_tx L + slot * 2048));;
  hw (port_outl (rtl_port n (RTL_TSD0 + slot * 4)) send_len);;
  p_mod (with_rtl_tx_cur (Z.land (slot + 1) 3));;
  update_state (count_tx send_len);;
  p_ret 0.

(** The state [memset] and [strcpy] leave at the start of [nic_init]. *)
Definition no_nic : nic_state_t := NicState false NIC_NONE (str "None") 0 0 0 0 (replicate 6 0) 0 0 0 0 0.
Definition nic_says (m : list Z) : PM nic unit := p_part nic_log with_log (klog_writeln (Some (str "nic")) (Some m)).

Section api.
Context (L : layout) (static_pt_pool : Z) (devs : list pci_device_t).

Fixpoint probe_e1000 (ids : list Z) : PM nic bool :=
  match ids with
  | [] => p_ret false
  | i :: ids =>
    match pci_find_device devs INTEL_VENDOR_ID i with
    | None => probe_e1000 ids
    | Some dev =>
      rc <- e1000_init_device L static_pt_pool dev;;
      if rc =? 0 then nic_says (str "Initialized Intel PRO/1000 (E1000) Ethernet");; p_ret true else probe_e1000 ids
    end
  end.

Definition nic_init : PM nic Z :=
  update_state (fun _ => no_nic);;
  found <- probe_e1000 e1000_ids;;
  if found : bool then p_ret 0 else
  found <- match pci_find_device devs RTL8139_VENDOR_ID RTL8139_DEVICE_ID with
           | Some dev => rc <- rtl8139_init_device L dev;; p_ret (rc =? 0)
           | None => p_ret false
           end;;
  if found : bool then nic_says (str "Initialized Realtek RTL8139 Ethernet");; p_ret 0
  else nic_says (str "No supported Ethernet controller detected");; p_ret (-1).

(** A null pointer is [None]. *)
Definition nic_send_packet (data : option (list Z)) : PM nic Z :=
  n <- p_get;;
  match data with
  | None => p_ret (-1)
  | Some data =>
    if negb (initialized (nic_state n)) || (lenZ data =? 0) then p_ret (-1)
    else if driver_type (nic_state n) =? NIC_E1000 then e1000_send L data
    else if driver_type (nic_state n) =? NIC_RTL8139 then rtl8139_send L data
    else p_ret (-1)
  end.
End api.

(** The bytes stored through [mac_out]. *)
Definition nic_get_mac (n : nic) : list Z := if initialized (nic_state n) then mac (nic_state n) else replicate 6 0.
End nic.
Arguments nic B R : clear implicits.
