(* ===== verification/NicSafe.v ===== *)
(** NicSafe: the network card driver of [Nic] stays inside of its arrays,
    whatever the card writes into the memory they share. *)

From S2P Require Import Prelude Ports Partial Text Array Memory Common Serial SerialTx Timer Klog Pic Pmm Paging PagingSpec Pci Nic.
#[local] Open Scope partial_scope.

(** The sizes of the arrays and the widths of what they hold. *)
Record dma_ok (d : dma_t) : Prop := {
  do_rx : lenZ (e1000_rx_descs d) = E1000_NUM_RX_DESC;
  do_rx_length : Forall (fun x => is_u16 (rd_length x)) (e1000_rx_descs d);
  do_tx : lenZ (e1000_tx_descs d) = E1000_NUM_TX_DESC;
  do_rx_bufs : lenZ (e1000_rx_bufs d) = E1000_NUM_RX_DESC /\ Forall (fun r => lenZ r = E1000_PKT_BUF_SIZE) (e1000_rx_bufs d);
  do_tx_bufs : lenZ (e1000_tx_bufs d) = E1000_NUM_TX_DESC /\ Forall (fun r => lenZ r = E1000_PKT_BUF_SIZE) (e1000_tx_bufs d);
  do_rtl_rx : lenZ (rtl_rx_buf d) = RTL_RX_RING_SIZE + 16 + 1536 /\ Forall is_u8 (rtl_rx_buf d);
  do_rtl_tx : lenZ (rtl_tx_bufs d) = 4 /\ Forall (fun r => lenZ r = 2048) (rtl_tx_bufs d)
}.

(** What the driver relies on of the board: no instruction and nothing the
    card does changes the sizes. *)
Class KeepsDma (B : Type) `{Ports B, LongPorts B, Board B} := {
  kd_set d b : board_dma (set_dma d b) = d;
  kd_run b : dma_ok (board_dma b) -> dma_ok (board_dma (card_run b));
  kd_read32 a b : dma_ok (board_dma b) -> dma_ok (board_dma (mmio_read32 a b).2);
  kd_write32 a v b : dma_ok (board_dma b) -> dma_ok (board_dma (mmio_write32 a v b).2);
  kd_inb p b : dma_ok (board_dma b) -> dma_ok (board_dma (inb p b).2);
  kd_inw p b : dma_ok (board_dma b) -> dma_ok (board_dma (inw p b).2);
  kd_inl p b : dma_ok (board_dma b) -> dma_ok (board_dma (port_inl p b).2);
  kd_outb p v b : dma_ok (board_dma b) -> dma_ok (board_dma (outb p v b).2);
  kd_outw p v b : dma_ok (board_dma b) -> dma_ok (board_dma (outw p v b).2);
  kd_outl p v b : dma_ok (board_dma b) -> dma_ok (board_dma (port_outl p v b).2)
}.

(** ** Arrays *)

Lemma lookupZ_in {A} (l : list A) i : 0 <= i < lenZ l -> exists x, lookupZ l i = Some x /\ x ∈ l.
Proof.
  unfold lookupZ, lenZ. intros Hi. rewrite (proj2 (Z.ltb_ge _ _)) by lia.
  destruct (lookup_lt_is_Some_2 l (Z.to_nat i)) as [x E]; [lia|]. exists x. split; [done|]. by eapply list_elem_of_lookup_2.
Qed.
Lemma bytes_at_in l off n : 0 <= off -> 0 <= n -> off + n <= lenZ l ->
  bytes_at l off n = Some (take (Z.to_nat n) (drop (Z.to_nat off) l)).
Proof. intros. unfold bytes_at. by rewrite !(proj2 (Z.leb_le _ _)) by lia. Qed.
Lemma copy_to_in src l : lenZ src <= lenZ l -> copy_to src l = Some (arr_copy 0 src l) /\ lenZ (arr_copy 0 src l) = lenZ l.
Proof. intros. unfold copy_to. rewrite (proj2 (Z.leb_le _ _)) by lia. split; [done|]. apply length_arr_copy; lia. Qed.

Lemma fill_row_in bufs i send_len data k :
  0 <= i < lenZ bufs -> Forall (fun r => lenZ r = 2048) bufs -> 0 <= send_len <= 2048 -> lenZ data <= 2048 -> lenZ bufs = k ->
  exists rows, fill_row bufs i send_len data = Some rows /\ lenZ rows = k /\ Forall (fun r => lenZ r = 2048) rows.
Proof.
  intros Hi Hb Hs Hd Hk. unfold fill_row. destruct (lookupZ_in bufs i Hi) as (row & -> & Hin). cbn [mbind option_bind].
  rewrite Forall_forall in Hb. pose proof (Hb row Hin) as Hrow. cbv beta in Hrow.
  destruct (copy_to_in (replicate (Z.to_nat send_len) 0) row) as [-> Hr]; [unfold lenZ in *; rewrite length_replicate; lia|].
  cbn [mbind option_bind]. destruct (copy_to_in data (arr_copy 0 (replicate (Z.to_nat send_len) 0) row)) as [-> Hr']; [lia|].
  cbn [mbind option_bind]. eexists. split; [done|]. split; [by rewrite lenZ_updZ|].
  apply Forall_updZ; [by apply Forall_forall|lia].
Qed.

Section safe.
Context {B : Type} `{KeepsDma B} {R : Type} (static_pt_pool : Z).
Implicit Types n : nic B R.

Record nic_ok n : Prop := {
  no_rx_cur : 0 <= e1000_rx_cur n < E1000_NUM_RX_DESC;
  no_tx_cur : 0 <= e1000_tx_cur n < E1000_NUM_TX_DESC;
  no_rtl_rx : 0 <= rtl_rx_offset n < RTL_RX_RING_SIZE;
  no_rtl_tx : 0 <= rtl_tx_cur n < 4;
  no_pages : paging_ok static_pt_pool (nic_pages n);
  no_dma : dma_ok (board_dma (board n))
}.

(** [m] returns from a good state, in a good state, with a value in [P]. *)
Definition safe {A} (P : A -> Prop) (m : PM (nic B R) A) : Prop :=
  forall n, nic_ok n -> returns m n (fun x n' => nic_ok n' /\ P x).
Definition any {A} (_ : A) : Prop := True.

Lemma safe_ret {A} (P : A -> Prop) x : P x -> safe P (p_ret x).
Proof. intros Hx n Hn. by apply returns_ret. Qed.
Lemma safe_bind {A C} (P : A -> Prop) (Q : C -> Prop) m k :
  safe P m -> (forall x, P x -> safe Q (k x)) -> safe Q (p_bind m k).
Proof.
  intros Hm Hk n Hn. apply returns_bind. eapply returns_mono; [by apply Hm|]. intros x n' [Hn' Hx]. by apply Hk.
Qed.
Lemma safe_any {A} (P : A -> Prop) m : safe P m -> safe any m.
Proof. intros Hm n Hn. eapply returns_mono; [by apply Hm|]. by intros x n' [? _]. Qed.
Lemma safe_get : safe nic_ok p_get.
Proof. intros n Hn. by exists n, n. Qed.
Lemma safe_mod f : (forall n, nic_ok n -> nic_ok (f n)) -> safe any (p_mod f).
Proof. intros Hf n Hn. exists tt, (f n). split; [done|]. split; [by apply Hf|done]. Qed.
Lemma safe_val {A} (P : A -> Prop) o x : o = Some x -> P x -> safe P (p_val o).
Proof. intros -> Hx n Hn. by exists x, n. Qed.
Lemma safe_each {A} (l : list A) body : (forall x, x ∈ l -> safe any (body x)) -> safe any (p_each l body).
Proof.
  induction l as [|x l IH]; intros Hl; cbn [p_each]; [by apply safe_ret|].
  eapply safe_bind; [apply Hl; by left|]. intros _ _. apply IH. intros y Hy. apply Hl. by right.
Qed.

Lemma nic_ok_board b n : dma_ok (board_dma b) -> nic_ok n -> nic_ok (with_board b n).
Proof. intros Hb []. by split. Qed.
Lemma safe_hw {A} (m : ST B A) : (forall b, dma_ok (board_dma b) -> dma_ok (board_dma (m b).2)) -> safe any (hw m).
Proof.
  intros Hm n Hn. unfold hw, p_zoom, returns. pose proof (Hm (board n) (no_dma n Hn)) as Hb.
  destruct (m (board n)) as [x b]. exists x, (with_board b n). split; [done|]. split; [by apply nic_ok_board|done].
Qed.
Lemma safe_shared : safe dma_ok shared.
Proof.
  intros n Hn. eexists _, _. split; [reflexivity|]. split; [apply nic_ok_board; [|done]|]; by apply kd_run, no_dma.
Qed.
Lemma safe_put d : dma_ok d -> safe any (put_shared d).
Proof. intros Hd. apply safe_mod. intros n Hn. apply nic_ok_board; [|done]. by rewrite kd_set. Qed.

Lemma safe_update f : safe any (update_state f).
Proof. apply safe_mod. intros n []. by split. Qed.

(** Sequences of instructions. *)
Definition keeps_dma {A} (m : ST B A) : Prop := forall b, dma_ok (board_dma b) -> dma_ok (board_dma (m b).2).
Lemma keeps_dma_bind {A C} (m : ST B A) (k : A -> ST B C) : keeps_dma m -> (forall x, keeps_dma (k x)) -> keeps_dma (st_bind m k).
Proof. intros Hm Hk b Hb. unfold st_bind. specialize (Hm b Hb). destruct (m b) as [x b']. by apply Hk. Qed.

Lemma keeps_unmask irq : keeps_dma (pic_unmask_irq irq).
Proof. apply keeps_dma_bind; [intros b; apply kd_inb|intros v b; apply kd_outb]. Qed.
Lemma keeps_config_read bus dev func off : keeps_dma (pci_config_read bus dev func off).
Proof. apply keeps_dma_bind; [intros b; apply kd_outl|intros v b; apply kd_inl]. Qed.
Lemma keeps_config_write bus dev func off v : keeps_dma (pci_config_write bus dev func off v).
Proof. apply keeps_dma_bind; [intros b; apply kd_outl|intros x b; apply kd_outl]. Qed.

Lemma safe_read32 reg : safe any (e1000_read32 reg).
Proof. eapply safe_bind; [apply safe_get|]. intros n _. apply safe_hw, kd_read32. Qed.
Lemma safe_write32 reg v : safe any (e1000_write32 reg v).
Proof. eapply safe_bind; [apply safe_get|]. intros n _. apply safe_hw, kd_write32. Qed.
Lemma safe_inb p : safe any (hw (inb p)).
Proof. apply safe_hw, kd_inb. Qed.
Lemma safe_inw p : safe any (hw (inw p)).
Proof. apply safe_hw, kd_inw. Qed.
Lemma safe_outb p v : safe any (hw (outb p v)).
Proof. apply safe_hw. intros b. apply kd_outb. Qed.
Lemma safe_outw p v : safe any (hw (outw p v)).
Proof. apply safe_hw. intros b. apply kd_outw. Qed.
Lemma safe_outl p v : safe any (hw (port_outl p v)).
Proof. apply safe_hw. intros b. apply kd_outl. Qed.
End safe.

(** The database of the rules; [safe_go] takes a sequence apart. *)
Create HintDb safe.
#[export] Hint Extern 0 (safe _ _ _) =>
  first [apply safe_get|apply safe_shared|apply safe_update|apply safe_read32|apply safe_write32|apply safe_inb|apply safe_inw|
         apply safe_outb|apply safe_outw|apply safe_outl] : safe.
Ltac safe_step := eapply safe_bind; [solve [eauto with safe]|].
Ltac safe_go := repeat (lazymatch goal with |- safe _ _ (p_bind _ _) => safe_step; intros ? ? end); cbv zeta.

Section driver.
Context {B : Type} `{KeepsDma B} {R : Type} (static_pt_pool : Z).
#[local] Notation nic_ok := (nic_ok static_pt_pool).
#[local] Notation safe := (safe static_pt_pool).
Implicit Types n : nic B R.

(** ** Descriptors *)

Lemma safe_rx_desc i : 0 <= i < E1000_NUM_RX_DESC -> safe (fun x => is_u16 (rd_length x)) (rx_desc (B := B) (R := R) i).
Proof.
  intros Hi. unfold rx_desc. safe_go. match goal with Hd : dma_ok ?d |- _ => destruct Hd as [D1 D2 _ _ _ _ _] end.
  destruct (lookupZ_in (e1000_rx_descs x) i) as (y & E & Hin); [lia|]. eapply safe_val; [exact E|].
  rewrite Forall_forall in D2. by apply D2.
Qed.
Lemma safe_set_rx_desc i f : 0 <= i < E1000_NUM_RX_DESC -> (forall x, is_u16 (rd_length x) -> is_u16 (rd_length (f x))) ->
  safe any (set_rx_desc (B := B) (R := R) i f).
Proof.
  intros Hi Hf. unfold set_rx_desc. safe_go. match goal with Hd : dma_ok ?d |- _ => destruct Hd as [D1 D2 D3 D4 D5 D6 D7] end.
  destruct (lookupZ_in (e1000_rx_descs x) i) as (y & E & Hin); [lia|].
  eapply safe_bind; [eapply (safe_val _ (fun z => z = y)); [exact E|done]|]. intros ? ->. apply safe_put. split; try done.
  - cbn. by rewrite lenZ_updZ.
  - cbn. apply Forall_updZ; [done|]. rewrite Forall_forall in D2. by apply Hf, D2.
Qed.
Lemma safe_tx_desc i : 0 <= i < E1000_NUM_TX_DESC -> safe any (tx_desc (B := B) (R := R) i).
Proof.
  intros Hi. unfold tx_desc. safe_go. match goal with Hd : dma_ok ?d |- _ => destruct Hd as [_ _ D3 _ _ _ _] end.
  destruct (lookupZ_in (e1000_tx_descs x) i) as (y & E & Hin); [lia|]. by eapply safe_val.
Qed.
Lemma safe_set_tx_desc i f : 0 <= i < E1000_NUM_TX_DESC -> safe any (set_tx_desc (B := B) (R := R) i f).
Proof.
  intros Hi. unfold set_tx_desc. safe_go. match goal with Hd : dma_ok ?d |- _ => destruct Hd as [D1 D2 D3 D4 D5 D6 D7] end.
  destruct (lookupZ_in (e1000_tx_descs x) i) as (y & E & Hin); [lia|].
  eapply safe_bind; [eapply (safe_val _ (fun z => z = y)); [exact E|done]|]. intros ? ->. apply safe_put. split; try done.
  cbn. by rewrite lenZ_updZ.
Qed.


(** ** Sending *)

Lemma safe_tx_wait idx k : 0 <= idx < E1000_NUM_TX_DESC -> safe any (tx_wait (B := B) (R := R) idx k).
Proof.
  intros Hi. induction k as [|k IH]; cbn [tx_wait]; (eapply safe_bind; [by apply safe_tx_desc|]); intros x _;
    (destruct (bit_set _ 1); [by apply safe_ret|]); [by apply safe_ret|apply IH].
Qed.

Definition rc_ok (rc : Z) : Prop := rc = 0 \/ rc = -1.
Lemma pad_length_range (data : list Z) : lenZ data <= 1518 -> 0 <= pad_length (lenZ data) <= 2048 /\ lenZ data <= 2048.
Proof. intros. unfold pad_length, lenZ in *. case_goal; lia. Qed.

Lemma safe_e1000_send L data : safe rc_ok (e1000_send (B := B) (R := R) L data).
Proof.
  unfold e1000_send. destruct (Z.ltb_spec 1518 (lenZ data)) as [|Hlen]; [by apply safe_ret; right|].
  destruct (pad_length_range data Hlen) as [Hpad Hd]. safe_step. intros n Hn. pose proof (no_tx_cur _ n Hn) as Hcur. cbv zeta.
  generalize (Z.to_nat 100000). intros k. eapply safe_bind; [by apply safe_tx_wait|]. intros t _.
  destruct (t <=? 0); [by apply safe_ret; right|]. safe_step. intros d Hd'.
  destruct (do_tx_bufs d Hd') as [Hl Hr].
  destruct (fill_row_in (e1000_tx_bufs d) (e1000_tx_cur n) (pad_length (lenZ data)) data E1000_NUM_TX_DESC) as (rows & E & Hl' & Hr'); try done; try lia.
  eapply safe_bind; [eapply (safe_val _ (fun r => r = rows)); [exact E|done]|]. intros ? ->.
  eapply safe_bind; [apply safe_put; destruct Hd'; by split|]. intros [] _.
  eapply safe_bind; [by apply safe_set_tx_desc|]. intros [] _.
  eapply safe_bind; [apply safe_mod; intros n' []; split; try done; cbn; apply Z.mod_pos_bound; done|]. intros [] _.
  safe_go. apply safe_ret. by left.
Qed.

Lemma safe_rtl8139_send L data : safe rc_ok (rtl8139_send (B := B) (R := R) L data).
Proof.
  unfold rtl8139_send. destruct (Z.ltb_spec 1518 (lenZ data)) as [|Hlen]; [by apply safe_ret; right|].
  destruct (pad_length_range data Hlen) as [Hpad Hd]. cbv zeta. safe_step. intros n Hn. pose proof (no_rtl_tx _ n Hn) as Hcur.
  safe_step. intros d Hd'. destruct (do_rtl_tx d Hd') as [Hl Hr].
  destruct (fill_row_in (rtl_tx_bufs d) (rtl_tx_cur n) (pad_length (lenZ data)) data 4) as (rows & E & Hl' & Hr'); try done; try lia.
  eapply safe_bind; [eapply (safe_val _ (fun r => r = rows)); [exact E|done]|]. intros ? ->.
  eapply safe_bind; [apply safe_put; destruct Hd'; by split|]. intros [] _. safe_go.
  eapply safe_bind; [apply safe_mod; intros n' []; split; try done; cbn|].
  { pose proof (Z.land_ones (rtl_tx_cur n + 1) 2). change (Z.ones 2) with 3 in *. zlia. }
  intros [] _. safe_go. apply safe_ret. by left.
Qed.

Lemma safe_nic_send_packet L data : safe rc_ok (nic_send_packet (B := B) (R := R) L data).
Proof.
  unfold nic_send_packet. safe_step. intros n _. destruct data as [data|]; [|by apply safe_ret; right].
  repeat (case_goal; [first [apply safe_e1000_send|apply safe_rtl8139_send|by apply safe_ret; right]|]). by apply safe_ret; right.
Qed.

(** ** Receiving *)

Lemma safe_e1000_take cur : 0 <= cur < E1000_NUM_RX_DESC -> safe any (e1000_take (B := B) (R := R) cur).
Proof.
  intros Hi. unfold e1000_take. eapply safe_bind; [by apply safe_rx_desc|]. intros x _. cbv zeta.
  eapply safe_bind; [by apply safe_rx_desc|]. intros y Hy. unfold is_u16 in Hy.
  eapply (safe_bind _ any).
  - unfold copy_frame. cbv zeta. destruct ((_ =? 0) && (14 <=? _)) eqn:Eg; [|by apply safe_ret]. safe_step. intros d Hd.
    destruct (do_rx_bufs d Hd) as [Hl Hr]. destruct (lookupZ_in (e1000_rx_bufs d) cur) as (row & E & Hin); [lia|].
    rewrite Forall_forall in Hr. pose proof (Hr row Hin) as Hrow. cbv beta in Hrow. change E1000_PKT_BUF_SIZE with 2048 in Hrow.
    eapply safe_bind; [eapply (safe_val _ (fun r => r = row)); [exact E|done]|]. intros ? ->.
    eapply safe_val; [|done]. unfold copy_local. destruct (Z.leb_spec (rd_length y) 1600); bool_to_prop; [|lia].
    rewrite (proj2 (Z.leb_le _ _)) by lia. apply bytes_at_in; lia.
  - intros pkt _. eapply safe_bind; [apply safe_set_rx_desc; [done|by intros z]|]. intros [] _.
    eapply safe_bind; [apply safe_mod; intros n' []; split; try done; cbn; apply Z.mod_pos_bound; done|]. intros [] _.
    safe_go. by apply safe_ret.
Qed.

(** The bytes of a header. *)
Lemma word_range a b : is_u8 a -> is_u8 b -> 0 <= Z.lor a (Z.shiftl b 8) < 65536.
Proof. unfold is_u8. intros Ha Hb. rewrite lor_shiftl_add by lia. change (2 ^ 8) with 256. lia. Qed.
Lemma nth_u8 l i : Forall is_u8 l -> is_u8 (nthZ 0 l i).
Proof.
  intros Hl. unfold nthZ. case_goal; [done|]. destruct (l !! Z.to_nat i) eqn:E; [|done]. by eapply Forall_lookup_1 in E.
Qed.
Hint Resolve word_range nth_u8 Forall_take Forall_drop : safe.

Section receive.
Context (rx : list Z -> PM (nic B R) unit) (rx_safe : forall pkt, safe any (rx pkt)).

Lemma safe_e1000_poll_rx budget : safe any (e1000_poll_rx rx budget).
Proof using All.
  induction budget as [|k IH]; cbn [e1000_poll_rx]; safe_step; intros n Hn; pose proof (no_rx_cur _ n Hn) as Hc;
    (eapply safe_bind; [by apply safe_rx_desc|]); intros x _; (destruct (bit_set _ 1); [|by apply safe_ret]); [by apply safe_ret|].
  eapply safe_bind; [by apply safe_e1000_take|]. intros pkt _. eapply (safe_bind _ any); [|by intros []].
  case_goal; [|by apply safe_ret]. safe_go. apply rx_safe.
Qed.

Lemma safe_rtl_offset o n : 0 <= o < RTL_RX_RING_SIZE -> nic_ok n -> nic_ok (with_rtl_rx_offset o n).
Proof. intros Ho []. by split. Qed.

Lemma safe_rtl8139_poll_rx budget : safe any (rtl8139_poll_rx rx budget).
Proof using All.
  induction budget as [|k IH]; cbn [rtl8139_poll_rx]; safe_step; intros n Hn; cbv zeta; safe_step; intros c _;
    (destruct (bit_set c 1); [by apply safe_ret|]); [by apply safe_ret|].
  safe_step. intros d Hd. destruct (do_rtl_rx d Hd) as [Hl Hu]. pose proof (no_rtl_rx _ n Hn) as Ho.
  unfold RTL_RX_RING_SIZE in Hl, Ho. eapply safe_bind; [eapply (safe_val _ (Forall is_u8)); [apply bytes_at_in; lia|]|].
  { by apply Forall_take, Forall_drop. }
  intros hdr Hhdr. destruct (word_range (nthZ 0 hdr 2) (nthZ 0 hdr 3)) as [Hp0 Hp1]; [eauto with safe..|].
  set (pkt_len := Z.lor _ _) in *. clearbody pkt_len. destruct (_ || _ || _) eqn:Eg.
  { safe_step. intros cbr _. eapply safe_bind; [apply safe_mod; intros; apply safe_rtl_offset; [apply Z.mod_pos_bound|]; done|].
    intros [] _. apply safe_outw. }
  bool_to_prop. safe_step. intros d' Hd'. destruct (do_rtl_rx d' Hd') as [Hl' _]. unfold RTL_RX_RING_SIZE in Hl'.
  eapply safe_bind; [eapply (safe_val _ any); [|done]|].
  { unfold copy_local. rewrite (proj2 (Z.leb_le _ _)) by lia. apply bytes_at_in; lia. }
  intros pkt _. eapply safe_bind; [apply safe_mod; intros; apply safe_rtl_offset; [apply Z.mod_pos_bound|]; done|].
  intros [] _. safe_go. apply IH.
Qed.

Lemma safe_rtl_ack : safe any (rtl_ack (B := B) (R := R)).
Proof.
  unfold rtl_ack. safe_go. eapply (safe_bind _ any); [case_goal; [by apply safe_ret|apply safe_outw]|]. intros [] _. by apply safe_ret.
Qed.

Lemma safe_nic_poll : safe any (nic_poll rx).
Proof using All.
  unfold nic_poll. generalize 32%nat. intros k. safe_step. intros n _. case_goal; [by apply safe_ret|]. case_goal; [safe_go; apply safe_e1000_poll_rx|].
  case_goal; [|by apply safe_ret]. eapply safe_bind; [apply safe_rtl_ack|]. intros isr _. apply safe_rtl8139_poll_rx.
Qed.

Lemma safe_nic_handle_irq irq : safe any (nic_handle_irq rx irq).
Proof using All.
  unfold nic_handle_irq. generalize 32%nat. intros k. safe_step. intros n _. case_goal; [by apply safe_ret|]. case_goal.
  - safe_go. case_goal; [by apply safe_ret|]. apply safe_e1000_poll_rx.
  - case_goal; [|by apply safe_ret]. eapply safe_bind; [apply safe_rtl_ack|]. intros isr _.
    case_goal; [by apply safe_ret|]. apply safe_rtl8139_poll_rx.
Qed.
End receive.
End driver.

(** ** The log *)

Section log.
Context {B : Type} `{KeepsDma B}.
Implicit Types u : serial B.
#[local] Notation good u := (dma_ok (board_dma (serial_hw u))).

Lemma good_str msg u : good u -> returns (serial_write_str msg) u (fun _ u' => good u').
Proof. apply (write_str_keeps (fun b => dma_ok (board_dma b))); [apply kd_inb|apply kd_outb]. Qed.

Lemma good_writeln sub msg (k : klog) : good (k_serial k) ->
  returns (klog_writeln sub msg) k (fun _ k' => good (k_serial k')).
Proof.
  intros Hk. unfold klog_writeln, returns. unfold klog_prefix.
  destruct (k_utoa_digits (timer_get_ms (k_timer k) / 1000) 10) as (s & -> & _); [lia| |].
  { unfold timer_get_ms. pose proof (u32_range (Timer.ticks (k_timer k) * (1000 / TIMER_HZ))) as Hr. unfold is_u32 in *. zlia. }
  cbn [mbind option_bind]. apply (returns_each (fun k => good (k_serial k))); [|done]. intros m k' Hk'.
  unfold returns, both. destruct (good_str m (k_serial k') Hk') as ([] & u & -> & Hu). by eexists _, _.
Qed.
End log.

(** ** Setting up *)

Section init.
Context {B : Type} `{KeepsDma B} {R : Type} (L : layout) (static_pt_pool : Z).
#[local] Notation nic_ok := (nic_ok static_pt_pool).
#[local] Notation safe := (safe static_pt_pool).
Implicit Types n : nic B R.

Lemma safe_each_write l (a v : Z -> Z) : safe any (p_each l (fun i => e1000_write32 (B := B) (R := R) (a i) (v i))).
Proof. apply safe_each. intros i _. apply safe_write32. Qed.

Lemma safe_eeprom_wait k : safe any (eeprom_wait (B := B) (R := R) k).
Proof. induction k as [|k IH]; cbn [eeprom_wait]; [by apply safe_ret|]. safe_step. intros v _. by case_goal; [apply safe_ret|]. Qed.
Lemma safe_read_eeprom addr : safe any (e1000_read_eeprom (B := B) (R := R) addr).
Proof. unfold e1000_read_eeprom. generalize (Z.to_nat 10000). intros k. safe_go. apply safe_eeprom_wait. Qed.
Lemma safe_mac_of_registers : safe any (mac_of_registers (B := B) (R := R)).
Proof. unfold mac_of_registers. safe_go. by apply safe_ret. Qed.
Lemma safe_e1000_mac : safe any (e1000_mac (B := B) (R := R)).
Proof.
  unfold e1000_mac.
  do 3 (eapply safe_bind; [apply safe_read_eeprom|]; intros [?|] _; [|apply safe_mac_of_registers]).
  case_goal; [apply safe_mac_of_registers|by apply safe_ret].
Qed.
Lemma safe_unmask_nic : safe any (unmask_nic (B := B) (R := R)).
Proof.
  unfold unmask_nic. safe_go. case_goal; [|by apply safe_ret]. eapply (safe_bind _ any).
  - case_goal; [apply safe_hw, keeps_unmask|by apply safe_ret].
  - intros [] _. apply safe_hw, keeps_unmask.
Qed.
Lemma safe_enable_device dev bits : safe any (enable_device (B := B) (R := R) dev bits).
Proof.
  unfold enable_device. eapply safe_bind; [apply safe_hw, keeps_config_read|]. intros cmd _. apply safe_hw, keeps_config_write.
Qed.
Lemma safe_e1000_reset : safe any (e1000_reset (B := B) (R := R)).
Proof. unfold e1000_reset. generalize (seqZ 0 128). intros l. safe_go. apply (safe_each_write l). Qed.

Lemma safe_rx_ring_init : safe any (rx_ring_init (B := B) (R := R) L).
Proof.
  unfold rx_ring_init. eapply safe_bind.
  { apply safe_each. intros i Hi. apply elem_of_seqZ in Hi. apply safe_set_rx_desc; [lia|done]. }
  intros [] _. eapply safe_bind; [apply safe_mod; intros n []; by split|]. intros [] _. safe_go. apply safe_write32.
Qed.
Lemma safe_tx_ring_init : safe any (tx_ring_init (B := B) (R := R) L).
Proof.
  unfold tx_ring_init. eapply safe_bind.
  { apply safe_each. intros i Hi. apply elem_of_seqZ in Hi. apply safe_set_tx_desc. lia. }
  intros [] _. eapply safe_bind; [apply safe_mod; intros n []; by split|]. intros [] _. safe_go. apply safe_write32.
Qed.

(** Mapping the registers. *)
Lemma map_region_ok virt phys size flags s : paging_ok static_pt_pool s -> 0 <= flags < 4096 ->
  exists s', paging_map_region static_pt_pool virt phys size flags s = Some s' /\ paging_ok static_pt_pool s'.
Proof.
  intros Hs Hf. unfold paging_map_region. case_goal; [by exists s|]. cbv zeta.
  set (k := _ / PAGE_SIZE). destruct (Z.le_gt_cases k 0); [rewrite for_range_done by lia; by exists s|].
  apply (for_range_inv (fun _ os => exists s', os = Some s' /\ paging_ok static_pt_pool s')); [lia|by exists s|].
  intros i os _ (s1 & -> & Hs1). cbn [mbind option_bind].
  destruct (map_spec static_pt_pool s1 (u32 (ALIGN_DOWN virt PAGE_SIZE + i * PAGE_SIZE)) (u32 (ALIGN_DOWN phys PAGE_SIZE + i * PAGE_SIZE)) flags)
    as (s2 & E & Hs2 & _); auto using u32_range. by exists s2.
Qed.
Lemma safe_map_region virt phys size flags : 0 <= flags < 4096 ->
  safe any (p_part (nic_pages (B := B) (R := R)) with_pages (p_step (paging_map_region static_pt_pool virt phys size flags))).
Proof.
  intros Hf n Hn. destruct (map_region_ok virt phys size flags (nic_pages n) (no_pages _ n Hn) Hf) as (s' & E & Hs').
  unfold returns, p_part, p_step. rewrite E. eexists _, _. split; [done|]. split; [|done]. destruct Hn. by split.
Qed.

Lemma safe_says m : safe any (nic_says (B := B) (R := R) m).
Proof.
  intros n Hn. unfold nic_says. apply returns_part. eapply returns_mono; [apply good_writeln, Hn|].
  intros [] k Hk. split; [|done]. destruct Hn. by split.
Qed.

Lemma safe_e1000_init_device dev : safe any (e1000_init_device (B := B) (R := R) L static_pt_pool dev).
Proof.
  unfold e1000_init_device. cbv zeta. case_goal; [by apply safe_ret|]. case_goal; [by apply safe_ret|].
  eapply safe_bind; [by apply safe_map_region|]. intros [] _. eapply safe_bind; [apply safe_enable_device|]. intros [] _.
  safe_step. intros [] _. eapply safe_bind; [apply safe_e1000_reset|]. intros [] _.
  eapply safe_bind; [apply safe_e1000_mac|]. intros m _. safe_step. intros [] _.
  eapply (safe_bind _ any); [unfold program_mac; safe_go; apply safe_write32|]. intros [] _.
  eapply safe_bind; [apply safe_rx_ring_init|]. intros [] _. eapply safe_bind; [apply safe_tx_ring_init|]. intros [] _.
  safe_step. intros [] _. eapply safe_bind; [apply safe_unmask_nic|]. intros [] _. safe_go. by apply safe_ret.
Qed.

Lemma safe_reset_wait io k : safe any (reset_wait (B := B) (R := R) io k).
Proof. induction k as [|k IH]; cbn [reset_wait]; [by apply safe_ret|]. safe_step. intros v _. by case_goal; [|apply safe_ret]. Qed.
Lemma safe_rtl_mac io l : safe any (rtl_mac (B := B) (R := R) io l).
Proof.
  induction l as [|i l IH]; cbn [rtl_mac]; [by apply safe_ret|]. safe_step. intros b _.
  eapply safe_bind; [apply IH|]. intros m _. by apply safe_ret.
Qed.

Lemma safe_rtl8139_init_device dev : safe any (rtl8139_init_device (B := B) (R := R) L dev).
Proof.
  unfold rtl8139_init_device. generalize (Z.to_nat 100000). intros k. cbv zeta. case_goal; [by apply safe_ret|].
  eapply safe_bind; [apply safe_enable_device|]. intros [] _. safe_go. eapply safe_bind; [apply safe_reset_wait|]. intros [] _.
  eapply safe_bind; [apply safe_rtl_mac|]. intros m _. safe_step. intros [] _. safe_step. intros d Hd.
  eapply safe_bind; [apply safe_put; destruct Hd as [? ? ? ? ? [Hl Hu] ?]; split; try done|].
  { cbn. split; [unfold lenZ in *; by rewrite length_replicate|]. by apply Forall_replicate. }
  intros [] _. do 2 (eapply safe_bind; [apply safe_mod; intros n []; by split|]; intros [] _).
  safe_go. eapply safe_bind; [apply safe_unmask_nic|]. intros [] _. safe_go. by apply safe_ret.
Qed.

Lemma safe_probe devs ids : safe any (probe_e1000 (B := B) (R := R) L static_pt_pool devs ids).
Proof.
  induction ids as [|i ids IH]; cbn [probe_e1000]; [by apply safe_ret|]. case_goal; [|apply IH].
  eapply safe_bind; [apply safe_e1000_init_device|]. intros rc _. case_goal; [|apply IH].
  eapply safe_bind; [apply safe_says|]. intros [] _. by apply safe_ret.
Qed.

Lemma safe_nic_init devs : safe rc_ok (nic_init (B := B) (R := R) L static_pt_pool devs).
Proof.
  unfold nic_init. safe_step. intros [] _. eapply safe_bind; [apply safe_probe|]. intros [] _; [by apply safe_ret; left|].
  eapply (safe_bind _ any).
  - case_goal; [|by apply safe_ret]. eapply safe_bind; [apply safe_rtl8139_init_device|]. intros rc _. by apply safe_ret.
  - intros [] _; (eapply safe_bind; [apply safe_says|]); intros [] _; apply safe_ret; [by left|by right].
Qed.
End init.
