(* ===== verification/NicRing.v ===== *)
(** NicRing: the receive ring of the E1000 driver of [Nic], shared with a card
    that fills descriptors while the driver empties them. *)

From stdpp Require Import relations.
From S2P Require Import Prelude Ports Partial Text Array Memory Serial Klog Pic Paging Pci Nic.
#[local] Open Scope partial_scope.

(** ** Arrays *)

Section arrays.
Context {A : Type}.
Implicit Types l : list A.

Lemma lookupZ_updZ_eq l i x : 0 <= i < lenZ l -> lookupZ (updZ i x l) i = Some x.
Proof.
  unfold lookupZ, updZ, lenZ. intros Hi. rewrite (proj2 (Z.ltb_ge i 0)) by lia. apply list_lookup_insert_eq. lia.
Qed.
Lemma lookupZ_updZ_ne l i j x : i <> j -> lookupZ (updZ i x l) j = lookupZ l j.
Proof.
  unfold lookupZ, updZ. intros Hij. destruct (Z.ltb_spec j 0), (Z.ltb_spec i 0); try done. apply list_lookup_insert_ne. lia.
Qed.
Lemma lookupZ_lt l i x : lookupZ l i = Some x -> 0 <= i < lenZ l.
Proof. unfold lookupZ, lenZ. case_goal; [done|]. intros E%lookup_lt_Some. bool_to_prop. lia. Qed.
End arrays.

(** ** The card *)

(** A frame as the card delivers it, with its error bits. *)
Definition delivery : Type := Z * list Z.

(** Descriptor [i] is done and holds the frame; or it is not done. *)
Definition holds (d : dma_t) (i : Z) (f : delivery) : Prop :=
  exists x row, lookupZ (e1000_rx_descs d) i = Some x /\ bit_set (rd_status x) 1 = true /\ rd_errors x = f.1 /\
    rd_length x = lenZ f.2 /\ lookupZ (e1000_rx_bufs d) i = Some row /\ lenZ f.2 <= lenZ row /\ take (length f.2) row = f.2.
Definition free (d : dma_t) (i : Z) : Prop :=
  exists x row, lookupZ (e1000_rx_descs d) i = Some x /\ bit_set (rd_status x) 1 = false /\ lookupZ (e1000_rx_bufs d) i = Some row.

(** The receive side of the card, as its manual describes it: it has a head
    and a tail, and while they differ it may write the frame that arrives
    into the descriptor at the head.  [accepted] is the history of these
    frames. *)
Class E1000Rx (B : Type) `{Board B} := {
  e1000_base : Z;
  rdh : B -> Z;
  rdt : B -> Z;
  accepted : B -> list delivery
}.
Definition same_rx {B} `{E1000Rx B} (b b' : B) : Prop :=
  rdh b' = rdh b /\ accepted b' = accepted b /\
  e1000_rx_descs (board_dma b') = e1000_rx_descs (board_dma b) /\ e1000_rx_bufs (board_dma b') = e1000_rx_bufs (board_dma b).
Definition arrives {B} `{E1000Rx B} (b b' : B) : Prop :=
  exists f, rdh b <> rdt b /\ holds (board_dma b') (rdh b) f /\ rdh b' = (rdh b + 1) mod E1000_NUM_RX_DESC /\ rdt b' = rdt b /\
    accepted b' = accepted b ++ [f] /\
    forall i, i <> rdh b -> lookupZ (e1000_rx_descs (board_dma b')) i = lookupZ (e1000_rx_descs (board_dma b)) i /\
      lookupZ (e1000_rx_bufs (board_dma b')) i = lookupZ (e1000_rx_bufs (board_dma b)) i.
Class E1000Laws (B : Type) `{E1000Rx B} := {
  ec_run b : rtc arrives b (card_run b);
  ec_set d b : board_dma (set_dma d b) = d /\ rdh (set_dma d b) = rdh b /\ rdt (set_dma d b) = rdt b /\ accepted (set_dma d b) = accepted b;
  ec_read a b : same_rx b (mmio_read32 a b).2 /\ rdt (mmio_read32 a b).2 = rdt b;
  ec_rdt v b : same_rx b (mmio_write32 (e1000_base + E1000_RDT) v b).2 /\ rdt (mmio_write32 (e1000_base + E1000_RDT) v b).2 = v
}.

(** The frames that are passed on: without errors, and of a length between a
    header and the local buffer. *)
Definition passed (f : delivery) : option (list Z) :=
  if (f.1 =? 0) && (14 <=? lenZ f.2) && (lenZ f.2 <=? 1600) then Some f.2 else None.
Definition good (l : list delivery) : list (list Z) := omap passed l.

Lemma good_app l l' : good (l ++ l') = good l ++ good l'.
Proof. apply omap_app. Qed.
Lemma good_prefix l l' : l `prefix_of` l' -> good l `prefix_of` good l'.
Proof. intros [k ->]. rewrite good_app. by eexists. Qed.

Section ring.
Context {B : Type} `{E1000Laws B}.
Implicit Types (b : B) (l p : list delivery).

(** The ring: [l] has been taken out of it and [p] waits in it from [cur] on;
    the tail leaves room for [room] descriptors. *)
Record ring_at b (cur room : Z) l p : Prop := {
  ra_cur : 0 <= cur < E1000_NUM_RX_DESC;
  ra_room : lenZ p <= room <= 31;
  ra_head : rdh b = (cur + lenZ p) mod E1000_NUM_RX_DESC;
  ra_tail : rdt b = (cur + room) mod E1000_NUM_RX_DESC;
  ra_history : accepted b = l ++ p;
  ra_full (j : nat) f : p !! j = Some f -> holds (board_dma b) ((cur + Z.of_nat j) mod E1000_NUM_RX_DESC) f;
  ra_free j : lenZ p <= j < E1000_NUM_RX_DESC -> free (board_dma b) ((cur + j) mod E1000_NUM_RX_DESC)
}.

Lemma slot_ne cur j k : 0 <= j < 32 -> 0 <= k < 32 -> j <> k -> (cur + j) mod 32 <> (cur + k) mod 32.
Proof. zlia. Qed.

Lemma holds_ext d d' i f :
  lookupZ (e1000_rx_descs d') i = lookupZ (e1000_rx_descs d) i -> lookupZ (e1000_rx_bufs d') i = lookupZ (e1000_rx_bufs d) i ->
  holds d i f -> holds d' i f.
Proof. intros E1 E2. unfold holds. by rewrite E1, E2. Qed.
Lemma free_ext d d' i :
  lookupZ (e1000_rx_descs d') i = lookupZ (e1000_rx_descs d) i -> lookupZ (e1000_rx_bufs d') i = lookupZ (e1000_rx_bufs d) i ->
  free d i -> free d' i.
Proof. intros E1 E2. unfold free. by rewrite E1, E2. Qed.

(** A frame that arrives goes behind those that wait. *)
Lemma ring_arrives b b' cur room l p : ring_at b cur room l p -> arrives b b' -> exists f, ring_at b' cur room l (p ++ [f]).
Proof.
  intros [Hc Hr Hh Ht Ha Hf He] (f & Hne & Hhold & Hh' & Ht' & Ha' & Hsame). exists f. unfold E1000_NUM_RX_DESC in *.
  assert (0 <= lenZ p) by (unfold lenZ; lia). assert (Hlt : lenZ p < room).
  { destruct (decide (lenZ p = room)) as [E|]; [|lia]. rewrite Hh, Ht, E in Hne. done. }
  assert (El : lenZ (p ++ [f]) = lenZ p + 1) by (unfold lenZ; rewrite length_app; simpl; lia).
  split; unfold E1000_NUM_RX_DESC; rewrite ?El; try lia.
  - rewrite Hh', Hh. zlia.
  - by rewrite Ha', Ha, app_assoc.
  - intros j g Hj. destruct (decide (j < length p)%nat).
    + rewrite lookup_app_l in Hj by lia. assert (Hj' : (cur + Z.of_nat j) mod 32 <> rdh b).
      { rewrite Hh. apply slot_ne; unfold lenZ in *; lia. }
      destruct (Hsame _ Hj') as [E1 E2]. eapply holds_ext; [exact E1|exact E2|]. by apply Hf.
    + rewrite lookup_app_r in Hj by lia. apply list_lookup_singleton_Some in Hj.
      destruct Hj as [Hj <-]. replace ((cur + Z.of_nat j) mod 32) with (rdh b); [done|]. rewrite Hh. unfold lenZ. do 2 f_equal. lia.
  - intros j Hj. assert (Hj' : (cur + j) mod 32 <> rdh b) by (rewrite Hh; apply slot_ne; lia).
    destruct (Hsame _ Hj') as [E1 E2]. eapply free_ext; [exact E1|exact E2|]. apply He. lia.
Qed.

Lemma ring_run b cur room l p : ring_at b cur room l p -> exists q, ring_at (card_run b) cur room l (p ++ q).
Proof.
  intros Hb. pose proof (ec_run b) as Hr. revert p Hb. induction Hr as [b|b b1 b2 Hs _ IH]; intros p Hb.
  - exists []. by rewrite app_nil_r.
  - destruct (ring_arrives _ _ _ _ _ _ Hb Hs) as [f Hf]. destruct (IH _ Hf) as [q Hq]. exists (f :: q).
    by rewrite (cons_middle f p q), app_assoc.
Qed.

(** Taking the first frame out leaves one descriptor less for the card, until
    the tail is moved. *)
Lemma ring_clear b cur l f p x :
  ring_at b cur 31 l (f :: p) -> lookupZ (e1000_rx_descs (board_dma b)) cur = Some x ->
  let y := RxDesc (rd_addr x) (rd_length x) (rd_checksum x) 0 (rd_errors x) (rd_special x) in
  ring_at (set_dma (with_rx_descs (updZ cur y (e1000_rx_descs (board_dma b))) (board_dma b)) b)
    ((cur + 1) mod E1000_NUM_RX_DESC) 30 (l ++ [f]) p.
Proof.
  intros [Hc Hr Hh Ht Ha Hf He] Hx y. set (d' := with_rx_descs _ _). destruct (ec_set d' b) as (Ed & Eh & Et & Ea).
  assert (El : lenZ (f :: p) = lenZ p + 1) by (unfold lenZ; simpl; lia). unfold E1000_NUM_RX_DESC in *. rewrite El in *.
  assert (0 <= lenZ p) by (unfold lenZ; lia).
  assert (Hsame : forall i, i <> cur -> lookupZ (e1000_rx_descs d') i = lookupZ (e1000_rx_descs (board_dma b)) i /\
    lookupZ (e1000_rx_bufs d') i = lookupZ (e1000_rx_bufs (board_dma b)) i).
  { intros i Hi. split; [by apply lookupZ_updZ_ne|done]. }
  assert (Hs : forall j, ((cur + 1) mod 32 + j) mod 32 = (cur + (j + 1)) mod 32) by (intros; zlia).
  split; unfold E1000_NUM_RX_DESC; rewrite ?Hs; try lia.
  - zlia.
  - by rewrite Et.
  - rewrite Ea, Ha, <- app_assoc. done.
  - intros j g Hj. rewrite Hs, Ed. pose proof (lookup_lt_Some _ _ _ Hj).
    destruct (Hsame ((cur + (Z.of_nat j + 1)) mod 32)) as [E1 E2]; [unfold lenZ in *; zlia|].
    eapply holds_ext; [exact E1|exact E2|]. replace (Z.of_nat j + 1) with (Z.of_nat (S j)) by lia. by apply Hf.
  - intros j Hj. rewrite Hs, Ed. destruct (decide (j = 31)) as [->|].
    + replace ((cur + (31 + 1)) mod 32) with cur by zlia. destruct (Hf 0%nat f eq_refl) as (x' & row & _ & _ & _ & _ & Hrow & _).
      replace ((cur + Z.of_nat 0) mod 32) with cur in Hrow by zlia. exists y, row.
      split; [apply lookupZ_updZ_eq; by eapply lookupZ_lt|done].
    + destruct (Hsame ((cur + (j + 1)) mod 32)) as [E1 E2]; [zlia|]. eapply free_ext; [exact E1|exact E2|]. apply He. lia.
Qed.

(** The tail moves behind the descriptor just emptied. *)
Lemma ring_tail b b' cur cur' l p :
  ring_at b cur' 30 l p -> 0 <= cur < E1000_NUM_RX_DESC -> cur' = (cur + 1) mod E1000_NUM_RX_DESC ->
  same_rx b b' -> rdt b' = cur -> ring_at b' cur' 31 l p.
Proof.
  intros [Hc Hr Hh Ht Ha Hf He] Hcur -> (Eh & Ea & Ed & Eb) Et. unfold E1000_NUM_RX_DESC in *.
  split; unfold E1000_NUM_RX_DESC; rewrite ?Eh, ?Ea; try done; try lia.
  - rewrite Et. zlia.
  - intros j g Hj. eapply holds_ext; [by rewrite Ed|by rewrite Eb|]. by apply Hf.
  - intros j Hj. eapply free_ext; [by rewrite Ed|by rewrite Eb|]. by apply He.
Qed.

Lemma ring_same b b' cur room l p : ring_at b cur room l p -> same_rx b b' -> rdt b' = rdt b -> ring_at b' cur room l p.
Proof.
  intros [Hc Hr Hh Ht Ha Hf He] (Eh & Ea & Ed & Eb) Et. split; rewrite ?Eh, ?Ea, ?Et; try done.
  - intros j g Hj. eapply holds_ext; [by rewrite Ed|by rewrite Eb|]. by apply Hf.
  - intros j Hj. eapply free_ext; [by rewrite Ed|by rewrite Eb|]. by apply He.
Qed.

(** What the driver sees in the descriptor at [cur]. *)
Definition seen (x : e1000_rx_desc_t) p : Prop :=
  match p with
  | [] => bit_set (rd_status x) 1 = false
  | f :: _ => bit_set (rd_status x) 1 = true /\ rd_errors x = f.1 /\ rd_length x = lenZ f.2
  end.
Lemma ring_seen b cur room l p : ring_at b cur room l p ->
  exists x, lookupZ (e1000_rx_descs (board_dma b)) cur = Some x /\ seen x p.
Proof.
  intros [Hc Hr Hh Ht Ha Hf He]. unfold E1000_NUM_RX_DESC in *. destruct p as [|f p].
  - destruct (He 0) as (x & row & Hx & Hs & _); [unfold lenZ; simpl; lia|]. exists x. replace ((cur + 0) mod 32) with cur in Hx by zlia. done.
  - destruct (Hf 0%nat f eq_refl) as (x & row & Hx & Hs & He' & Hl & _). exists x.
    replace ((cur + Z.of_nat 0) mod 32) with cur in Hx by zlia. done.
Qed.
Lemma ring_bytes b cur room l f p : ring_at b cur room l (f :: p) ->
  exists row, lookupZ (e1000_rx_bufs (board_dma b)) cur = Some row /\ lenZ f.2 <= lenZ row /\ take (length f.2) row = f.2.
Proof.
  intros [Hc _ _ _ _ Hf _]. unfold E1000_NUM_RX_DESC in *. destruct (Hf 0%nat f eq_refl) as (x & row & _ & _ & _ & _ & Hrow & ?).
  replace ((cur + Z.of_nat 0) mod 32) with cur in Hrow by zlia. by exists row.
Qed.

(** ** The driver *)

Context {R : Type}.
Implicit Types n : nic B R.

Definition ring n l p : Prop := mmio_base (nic_state n) = e1000_base /\ ring_at (board n) (e1000_rx_cur n) 31 l p.

Lemma shared_ring n cur room l p : ring_at (board n) cur room l p ->
  returns shared n (fun d n' => exists q, n' = with_board (card_run (board n)) n /\ d = board_dma (board n') /\
    ring_at (board n') cur room l (p ++ q)).
Proof. intros Hn. destruct (ring_run _ _ _ _ _ Hn) as [q Hq]. eexists _, _. split; [reflexivity|]. by exists q. Qed.

Lemma rx_desc_ring n cur room l p : ring_at (board n) cur room l p ->
  returns (rx_desc cur) n (fun x n' => exists b q, n' = with_board b n /\ ring_at b cur room l (p ++ q) /\ seen x (p ++ q)).
Proof.
  intros Hn. apply returns_bind. eapply returns_mono; [by apply shared_ring|]. intros d n' (q & -> & -> & Hq).
  destruct (ring_seen _ _ _ _ _ Hq) as (x & E & Hx). cbn in *. exists x, (with_board (card_run (board n)) n). split; [by rewrite E|].
  by exists (card_run (board n)), q.
Qed.

(** The bytes the driver copies are those of the frame. *)
Lemma copy_frame_ring n cur room l f p : ring_at (board n) cur room l (f :: p) ->
  returns (copy_frame cur f.1 (lenZ f.2)) n (fun pkt n' => exists b q, n' = with_board b n /\
    ring_at b cur room l (f :: p ++ q) /\ pkt = default [] (passed f)).
Proof.
  intros Hn. unfold copy_frame, passed. destruct (Z.leb_spec (lenZ f.2) 1600).
  2:{ rewrite andb_false_r. apply returns_ret. exists (board n), []. rewrite app_nil_r, andb_false_r. split; [by destruct n as [? ? ? ? ? ? [? ? []] ?]|done]. }
  rewrite andb_true_r. destruct (_ && _) eqn:Eg.
  2:{ apply returns_ret. exists (board n), []. rewrite app_nil_r. split; [by destruct n as [? ? ? ? ? ? [? ? []] ?]|done]. }
  apply returns_bind. eapply returns_mono; [by apply shared_ring|]. intros d n' (q & -> & -> & Hq).
  destruct (ring_bytes _ _ _ _ _ _ Hq) as (row & E & Hl & Ht). exists f.2, (with_board (card_run (board n)) n). cbn in *. bool_to_prop.
  unfold p_bind, p_val. rewrite E. unfold copy_local, bytes_at. rewrite !(proj2 (Z.leb_le _ _)) by lia. cbn [andb].
  unfold lenZ. rewrite Nat2Z.id, drop_0, Ht. split; [done|]. by exists (card_run (board n)), q.
Qed.

(** One round takes the first frame out of the ring. *)
Lemma take_ring n l f p : ring n l (f :: p) ->
  returns (e1000_take (e1000_rx_cur n)) n (fun pkt n' => stack n' = stack n /\ pkt = default [] (passed f) /\
    exists q, ring n' (l ++ [f]) (p ++ q)).
Proof.
  intros [Hb Hn]. pose proof (ra_cur _ _ _ _ _ Hn) as Hcur. unfold e1000_take. remember (e1000_rx_cur n) as cur eqn:Ec.
  apply returns_bind. eapply returns_mono; [by apply rx_desc_ring|]. intros x n1 (b1 & q1 & -> & K1 & _ & -> & _).
  apply returns_bind. eapply returns_mono; [by apply (rx_desc_ring (with_board b1 n) cur 31 l)|].
  intros y n2 (b2 & q2 & -> & K2 & _ & _ & ->). apply returns_bind.
  eapply returns_mono; [exact (copy_frame_ring (with_board b2 n) cur 31 l f ((p ++ q1) ++ q2) K2)|].
  intros pkt n3 (b3 & q3 & -> & K3 & ->). apply returns_bind. unfold set_rx_desc. apply returns_bind.
  eapply returns_mono; [exact (shared_ring (with_board b3 n) cur 31 l _ K3)|]. intros d n4 (q4 & -> & -> & K4).
  destruct (ring_seen _ _ _ _ _ K4) as (z & Ez & _). apply returns_bind. eexists z, _. split; [unfold p_val; by rewrite Ez|].
  eexists _, _. split; [reflexivity|]. pose proof (ring_clear _ _ _ _ _ _ K4 Ez) as K5. cbv zeta in K5.
  set (b5 := set_dma _ _) in *. clearbody b5. apply returns_bind. eexists _, _. split; [reflexivity|].
  apply returns_bind. destruct (ec_rdt cur b5) as [Hs Ht].
  unfold returns, e1000_write32, p_bind, p_get, hw, p_zoom. cbn. rewrite Hb.
  destruct (mmio_write32 (e1000_base + E1000_RDT) cur b5) as [[] b6] eqn:E6. cbn in *.
  eexists _, _. split; [reflexivity|]. eexists _, _. split; [reflexivity|]. split; [done|]. split; [done|].
  exists (((q1 ++ q2) ++ q3) ++ q4). split; [done|]. cbn. rewrite !app_assoc in *. by eapply ring_tail.
Qed.

(** ** Polling *)

Context (log : R -> list (list Z)).

(** The frames handed over are the good ones taken out, in order. *)
Definition in_order n l p : Prop := ring n l p /\ log (stack n) = good l.
(** The ring may only advance. *)
Definition later l n' : Prop := exists l' p', in_order n' l' p' /\ l `prefix_of` l'.

(** What the driver asks of [net_rx_packet]: it takes the frame, and may use
    the driver (send, or poll again) while it does so. *)
Definition takes_frames (rx : list Z -> PM (nic B R) unit) : Prop :=
  forall pkt n l p, ring n l p -> log (stack n) ++ [pkt] = good l ->
    returns (rx pkt) n (fun _ n' => later l n' /\ accepted (board n) `prefix_of` accepted (board n')).

Lemma accepted_of n l p : ring n l p -> accepted (board n) = l ++ p.
Proof. intros [_ Hn]. by destruct Hn. Qed.

Lemma poll_ring rx k n l p : takes_frames rx -> in_order n l p ->
  returns (e1000_poll_rx rx k) n (fun _ n' => accepted (board n) `prefix_of` accepted (board n') /\
    exists l' p', in_order n' l' p' /\ l `prefix_of` l' /\ (p' = [] \/ (length l + k <= length l')%nat)).
Proof.
  intros Hrx. revert n l p. induction k as [|k IH]; intros n l p [[Hb Hn] Hlog]; cbn [e1000_poll_rx].
  all: apply returns_bind; exists n, n; (split; [done|]); apply returns_bind; (eapply returns_mono; [by apply rx_desc_ring|]);
    intros x n1 (b & q & -> & Hq & Hx).
  all: assert (Hpre : accepted (board n) `prefix_of` accepted b) by
    (rewrite (ra_history _ _ _ _ _ Hn), (ra_history _ _ _ _ _ Hq), app_assoc; by eexists).
  all: destruct (p ++ q) as [|f r]; cbn [seen] in Hx; [|destruct Hx as [Hx _]]; rewrite Hx.
  1,3: apply returns_ret; split; [done|]; exists l, []; split_and!; [by split|done|by left].
  1: apply returns_ret; split; [done|]; exists l, (f :: r); split_and!; [by split|done|right; lia].
  apply returns_bind. eapply returns_mono; [by apply (take_ring (with_board b n) l f r)|].
  intros pkt n2 (Es & -> & q2 & K2). cbn [stack with_board] in Es. apply returns_bind.
  assert (Hpre2 : accepted b `prefix_of` accepted (board n2)).
  { rewrite (accepted_of _ _ _ K2), (ra_history _ _ _ _ _ Hq), <- app_assoc. exists q2. by rewrite <- app_assoc. }
  assert (Hgood : good (l ++ [f]) = log (stack n2) ++ option_list (passed f)).
  { by rewrite good_app, Es, Hlog. }
  eapply (returns_mono _ _ (fun _ n3 => later (l ++ [f]) n3 /\ accepted (board n2) `prefix_of` accepted (board n3))).
  - destruct (passed f) as [g|] eqn:Ef; cbn [default option_list] in *.
    + unfold passed in Ef. destruct (_ && _) eqn:Eg; [|done]. injection Ef as <-. bool_to_prop. unfold id. rewrite (proj2 (Z.leb_le _ _)) by lia.
      apply returns_bind. eexists _, _. split; [reflexivity|].
      refine (Hrx f.2 (with_state (count_rx (lenZ f.2) (nic_state n2)) n2) (l ++ [f]) (r ++ q2) K2 _). symmetry. exact Hgood.
    + cbn. apply returns_ret. split; [|done]. exists (l ++ [f]), (r ++ q2). rewrite app_nil_r in Hgood. by split; [split|].
  - intros [] n3 ((l3 & p3 & K3 & Hl3) & Hpre3). eapply returns_mono; [by eapply IH|].
    intros [] n4 (Hpre4 & l4 & p4 & K4 & Hl4 & Hcase). split; [by do 3 (etrans; [eassumption|])|].
    exists l4, p4. split; [done|]. split; [etrans; [|exact Hl4]; etrans; [|exact Hl3]; by eexists|].
    destruct Hcase; [by left|right]. apply prefix_length in Hl3. rewrite length_app in Hl3. simpl in Hl3. lia.
Qed.

(** When a poll returns, every frame accepted before it has been handed over
    or dropped, and what was handed over was accepted. *)
Lemma poll_delivers rx n l p : takes_frames rx -> in_order n l p ->
  returns (e1000_poll_rx rx 32) n (fun _ n' => exists l' p', in_order n' l' p' /\
    good (accepted (board n)) `prefix_of` log (stack n') /\ log (stack n') `prefix_of` good (accepted (board n'))).
Proof.
  intros Hrx Hn. eapply returns_mono; [by eapply poll_ring|]. intros [] n' (Hpre & l' & p' & [K1 K2] & Hl & Hcase).
  exists l', p'. split; [by split|]. rewrite K2. destruct Hn as [Hn _]. pose proof (accepted_of _ _ _ Hn) as E.
  pose proof (accepted_of _ _ _ K1) as E'. split; apply good_prefix; [|rewrite E'; by eexists].
  destruct Hcase as [->|Hlen]; [by rewrite E', app_nil_r in Hpre|].
  destruct Hn as [_ [_ Hr _ _ _ _ _]]. destruct (prefix_weak_total (accepted (board n)) l' (accepted (board n'))) as [?|Hp]; try done.
  - rewrite E'. by eexists.
  - apply prefix_length in Hp. rewrite E, length_app in Hp. unfold lenZ in Hr. lia.
Qed.
End ring.
