(* ===== verification/NicRun.v ===== *)
(** NicRun: what the network card driver does on a board, and a sample
    board with an E1000 that has frames on the wire. *)

From stdpp Require Import relations.
From S2P Require Import Prelude Ports Partial Text Array Memory Ring Serial Timer Klog Pmm Pic Paging PagingSpec Pci Nic NicSafe NicRing.
#[local] Open Scope partial_scope.

(** C35: the E1000 receive ring is a queue.  Frames that the card accepts
    while the driver works are handed to [net_rx_packet] once each, in the
    order of their arrival, except those with errors or of a length outside of
    14 to 1600; and one call of [nic_poll] hands over every frame the card had
    accepted before it, even when [net_rx_packet] itself sends or polls. *)
Theorem e1000_receives_in_order {B} `{Ports B} `{E1000Laws B} {R} (log : R -> list (list Z)) (rx : list Z -> PM (nic B R) unit) n l p :
  takes_frames log rx -> in_order log n l p -> initialized (nic_state n) = true -> driver_type (nic_state n) = NIC_E1000 ->
  returns (nic_poll rx) n (fun _ n' => exists l' p', in_order log n' l' p' /\
    good (accepted (board n)) `prefix_of` log (stack n') /\ log (stack n') `prefix_of` good (accepted (board n'))).
Proof.
  intros Hrx [[Hb Hn] Hlog] Hi Ht. unfold nic_poll. apply returns_bind. exists n, n. split; [done|]. rewrite Hi, Ht. cbn [negb].
  rewrite Z.eqb_refl. apply returns_bind. unfold returns at 1, e1000_read32, p_bind, p_get, hw, p_zoom.
  destruct (ec_read (mmio_base (nic_state n) + E1000_ICR) (board n)) as [Hs Hr].
  destruct (mmio_read32 (mmio_base (nic_state n) + E1000_ICR) (board n)) as [v b]. cbn in Hs, Hr.
  eexists v, (with_board b n). split; [done|]. pose proof (ring_same _ _ _ _ _ _ Hn Hs Hr) as Hn'.
  destruct Hs as (_ & Ea & _). rewrite <- Ea. by apply (poll_delivers log rx (with_board b n) l p).
Qed.

(** C36: no access of the driver leaves its arrays, whatever the card writes
    into the rings and buffers they share and whatever is sent.  From a state
    with the indices in range, every operation of the driver returns, keeps
    the indices in range and the page tables well formed, and answers 0 or -1;
    [net_rx_packet] may be any code that does the same. *)
Theorem nic_stays_in_bounds {B} `{KeepsDma B} {R} L static_pt_pool (rx : list Z -> PM (nic B R) unit) n :
  let ok := nic_ok static_pt_pool in
  (forall pkt n, ok n -> returns (rx pkt) n (fun _ n' => ok n')) -> ok n ->
  (forall devs, returns (nic_init L static_pt_pool devs) n (fun rc n' => ok n' /\ (rc = 0 \/ rc = -1))) /\
  (forall data, returns (nic_send_packet L data) n (fun rc n' => ok n' /\ (rc = 0 \/ rc = -1))) /\
  returns (nic_poll rx) n (fun _ n' => ok n') /\
  (forall irq, returns (nic_handle_irq rx irq) n (fun _ n' => ok n')).
Proof.
  intros ok Hrx Hn. assert (Hs : forall pkt, safe static_pt_pool any (rx pkt)).
  { intros pkt m Hm. eapply returns_mono; [by apply Hrx|]. done. }
  split_and!; [intros devs; by apply safe_nic_init|intros data; by apply safe_nic_send_packet| |intros irq];
    (eapply (returns_mono _ _ (fun x n' => ok n' /\ any x)); [|by intros x n' [? _]]);
    [by apply safe_nic_poll|by apply safe_nic_handle_irq].
Qed.

(** ** A sample board *)

Module SampleNic.
Record card := Card {
  c_dma : dma_t; c_rdh : Z; c_rdt : Z; c_enabled : bool; c_wire : list delivery; c_accepted : list delivery
}.
Definition base : Z := 4273733632.

(** The card accepts the next frame of the wire when it may. *)
Definition accept (x : e1000_rx_desc_t) (row : list Z) (f : delivery) (w : list delivery) (c : card) : card :=
  let d := c_dma c in
  Card (Dma (updZ (c_rdh c) (RxDesc (rd_addr x) (lenZ f.2) 0 3 f.1 0) (e1000_rx_descs d)) (e1000_tx_descs d)
            (updZ (c_rdh c) (arr_copy 0 f.2 row) (e1000_rx_bufs d)) (e1000_tx_bufs d) (rtl_rx_buf d) (rtl_tx_bufs d))
    ((c_rdh c + 1) mod E1000_NUM_RX_DESC) (c_rdt c) (c_enabled c) w (c_accepted c ++ [f]).
Definition run (c : card) : card :=
  match c_wire c, lookupZ (e1000_rx_descs (c_dma c)) (c_rdh c), lookupZ (e1000_rx_bufs (c_dma c)) (c_rdh c) with
  | f :: w, Some x, Some row =>
    if c_enabled c && negb (c_rdh c =? c_rdt c) && (lenZ f.2 <=? 2048) && (lenZ f.2 <=? lenZ row) then accept x row f w c else c
  | _, _, _ => c
  end.

#[export] Instance card_ports : Ports card := {
  inb _ c := (0, c); inw _ c := (0, c); outb _ _ c := (tt, c); outw _ _ c := (tt, c)
}.
#[export] Instance card_long_ports : LongPorts card := { port_inl _ c := (0, c); port_outl _ _ c := (tt, c) }.
#[export] Instance card_board : Board card := {
  mmio_read32 a c := ((if a =? base + E1000_EERD then Z.lor 16 (Z.shiftl 4660 16) else 0), c);
  mmio_write32 a v c :=
    (tt, if a =? base + E1000_RDH then Card (c_dma c) v (c_rdt c) (c_enabled c) (c_wire c) (c_accepted c)
         else if a =? base + E1000_RDT then Card (c_dma c) (c_rdh c) v (c_enabled c) (c_wire c) (c_accepted c)
         else if a =? base + E1000_RCTL then Card (c_dma c) (c_rdh c) (c_rdt c) (bit_set v E1000_RCTL_EN) (c_wire c) (c_accepted c)
         else c);
  board_dma := c_dma;
  set_dma d c := Card d (c_rdh c) (c_rdt c) (c_enabled c) (c_wire c) (c_accepted c);
  card_run := run
}.
#[export] Instance card_rx : E1000Rx card := { e1000_base := base; rdh := c_rdh; rdt := c_rdt; accepted := c_accepted }.

Lemma run_arrives c : rtc arrives c (run c).
Proof.
  unfold run. destruct (c_wire c) as [|f w]; [done|]. destruct (lookupZ _ (c_rdh c)) as [x|] eqn:Ex; [|done].
  destruct (lookupZ (e1000_rx_bufs _) _) as [row|] eqn:Er; [|done]. destruct (_ && _) eqn:Eg; [|done]. bool_to_prop.
  apply rtc_once. exists f. split; [done|]. split; [|split; [done|]; split; [done|]; split; [done|]].
  - pose proof (lookupZ_lt _ _ _ Ex). pose proof (lookupZ_lt _ _ _ Er). eexists _, (arr_copy 0 f.2 row).
    split; [by apply lookupZ_updZ_eq|]. do 3 (split; [done|]). split; [by apply lookupZ_updZ_eq|].
    split; [rewrite length_arr_copy; lia|]. unfold arr_copy. change (Z.to_nat 0) with 0%nat. rewrite take_0. cbn [app]. by rewrite take_app_length.
  - intros i Hi. split; by apply lookupZ_updZ_ne.
Qed.
#[export] Program Instance card_laws : E1000Laws card.
Next Obligation. apply run_arrives. Qed.
Next Obligation. done. Qed.
Next Obligation. done. Qed.
Next Obligation. intros v b. split; [by repeat split|done]. Qed.

Lemma run_ok c : dma_ok (c_dma c) -> dma_ok (c_dma (run c)).
Proof.
  intros Hd. unfold run. destruct (c_wire c) as [|f w]; [done|]. destruct (lookupZ _ (c_rdh c)) as [x|] eqn:Ex; [|done].
  destruct (lookupZ (e1000_rx_bufs _) _) as [row|] eqn:Er; [|done]. destruct (_ && _) eqn:Eg; [|done]. bool_to_prop.
  destruct Hd as [D1 D2 D3 [D4 D4'] D5 D6 D7]. split; try done; cbn.
  - by rewrite lenZ_updZ.
  - apply Forall_updZ; [done|]. cbn. unfold is_u16, lenZ in *. lia.
  - rewrite lenZ_updZ. split; [done|]. apply Forall_updZ; [done|]. rewrite length_arr_copy by lia.
    unfold lookupZ in Er. case_hyp Er; [done|]. exact (Forall_lookup_1 _ _ _ _ D4' Er).
Qed.
#[export] Program Instance card_keeps : KeepsDma card.
Solve Obligations with (intros; cbn; repeat case_goal; done).
Next Obligation. apply run_ok. Qed.

(** A good frame, one with an error, and the shortest good frame. *)
Definition frames : list delivery := [(0, seqZ 0 60); (1, seqZ 0 20); (0, replicate 14 255)].
Definition dma0 : dma_t :=
  Dma (replicate 32 (RxDesc 0 0 0 0 0 0)) (replicate 8 (TxDesc 0 0 0 0 0 0 0)) (replicate 32 (replicate (Z.to_nat 2048) 0))
    (replicate 8 (replicate (Z.to_nat 2048) 0)) (replicate (Z.to_nat 9744) 0) (replicate 4 (replicate (Z.to_nat 2048) 0)).
Lemma dma0_ok : dma_ok dma0.
Proof.
  split; cbn [dma0 e1000_rx_descs e1000_tx_descs e1000_rx_bufs e1000_tx_bufs rtl_rx_buf rtl_tx_bufs]; try split;
    first [by vm_compute|apply Forall_replicate; by vm_compute].
Qed.
Definition layout0 : layout := Layout 65536 69632 73728 139264 155648 167936.
Definition boot (s : paging) : nic card (list (list Z)) :=
  Nic no_nic 0 0 0 0 s
    (Klog (Log [] 0) (TimerState 0 0 100) (SerialPort 1016 false (ring_init 0) (Card dma0 0 0 false frames []))) [].
Definition device : pci_device_t := PciDev 0 3 0 32902 4110 2 0 0 0 0 11 [base; 0; 0; 0; 0; 0].

(** The driver after [nic_init]; the card has accepted the frames by then. *)
Definition started : nic card (list (list Z)) :=
  match nic_init layout0 0 [device] (boot boot_example) with Some (_, n) => n | None => boot boot_example end.

(** A handler that keeps the frames. *)
Definition keep (pkt : list Z) : PM (nic card (list (list Z))) unit :=
  p_mod (fun n => Nic (nic_state n) (e1000_rx_cur n) (e1000_tx_cur n) (rtl_rx_offset n) (rtl_tx_cur n) (nic_pages n) (nic_log n)
    (stack n ++ [pkt])).
Lemma keep_takes : takes_frames (fun l => l) keep.
Proof.
  intros pkt n l p Hn Hg. eexists _, _. split; [reflexivity|]. split; [|done]. exists l, p. by split; [split|].
Qed.
Lemma keep_safe pool pkt (n : nic card (list (list Z))) : nic_ok pool n -> returns (keep pkt) n (fun _ n' => nic_ok pool n').
Proof. intros []. eexists _, _. split; [reflexivity|]. by split. Qed.

Definition free_b (d : dma_t) (i : Z) : bool :=
  match lookupZ (e1000_rx_descs d) i, lookupZ (e1000_rx_bufs d) i with
  | Some x, Some _ => negb (bit_set (rd_status x) 1)
  | _, _ => false
  end.
Lemma free_b_free d i : free_b d i = true -> free d i.
Proof. unfold free_b, free. repeat case_goal; try done. intros E%negb_true_iff. eauto. Qed.
Definition holds_b (d : dma_t) (i : Z) (f : delivery) : bool :=
  match lookupZ (e1000_rx_descs d) i, lookupZ (e1000_rx_bufs d) i with
  | Some x, Some row => bit_set (rd_status x) 1 && (rd_errors x =? f.1) && (rd_length x =? lenZ f.2) &&
      (lenZ f.2 <=? lenZ row) && bool_decide (take (length f.2) row = f.2)
  | _, _ => false
  end.
Lemma holds_b_holds d i f : holds_b d i f = true -> holds d i f.
Proof.
  unfold holds_b, holds. destruct (lookupZ _ i) as [x|]; [|done]. destruct (lookupZ _ i) as [row|]; [|done]. intros E.
  apply andb_true_iff in E as [E E4%bool_decide_eq_true]. bool_to_prop. by exists x, row.
Qed.

Lemma started_ring : in_order (fun l => l) started [] frames.
Proof.
  split; [split|by vm_compute]; [by vm_compute|].
  assert (Ea : forallb (free_b (board_dma (board started))) (seqZ 3 29) = true) by (vm_compute; reflexivity).
  assert (Eh : forallb (fun j => holds_b (board_dma (board started)) j (nthZ (A := delivery) (0, []) frames j)) (seqZ 0 3) = true) by (vm_compute; reflexivity).
  replace (e1000_rx_cur started) with 0 by (vm_compute; reflexivity). rewrite forallb_forall in Ea, Eh.
  unfold E1000_NUM_RX_DESC in *. split; unfold E1000_NUM_RX_DESC; try (by vm_compute); try (vm_compute; lia).
  - intros j f Hj. pose proof (lookup_lt_Some _ _ _ Hj) as Hl. change (length frames) with 3%nat in Hl.
    rewrite Z.mod_small by lia. apply holds_b_holds. specialize (Eh (Z.of_nat j)). cbv beta in Eh. unfold nthZ in Eh.
    rewrite (proj2 (Z.ltb_ge _ _)), Nat2Z.id, Hj in Eh by lia. apply Eh, list_elem_of_In, elem_of_seqZ. lia.
  - intros j Hj. change (lenZ frames) with 3 in Hj. rewrite Z.mod_small by lia.
    apply free_b_free, Ea, list_elem_of_In, elem_of_seqZ. lia.
Qed.
End SampleNic.
Import SampleNic.

Lemma e1000_receives_in_order_witness :
  exists n', nic_poll keep started = Some (tt, n') /\ [seqZ 0 60; replicate 14 255] `prefix_of` stack n'.
Proof.
  destruct (e1000_receives_in_order (fun l => l) keep started [] frames keep_takes started_ring eq_refl eq_refl)
    as ([] & n' & E & l' & p' & _ & Hpre & _).
  exists n'. split; [exact E|exact Hpre].
Defined.

Lemma nic_stays_in_bounds_witness :
  exists s n' rc, paging_ok pool_example s /\ nic_init layout0 pool_example [device] (boot s) = Some (rc, n') /\
    nic_ok pool_example n'.
Proof.
  destruct installed_example as (s & _ & Hs). exists s.
  assert (Hb : nic_ok pool_example (boot s)).
  { split; try done. exact dma0_ok. }
  destruct (nic_stays_in_bounds layout0 pool_example keep (boot s)) as (Hi & _ & _ & _).
  { intros pkt n Hn. by apply keep_safe. }
  { exact Hb. }
  destruct (Hi [device]) as (rc & n' & E & Hn & _). by exists n', rc.
Defined.

(** The transmit ring has eight descriptors and the driver fills all eight:
    when the card has sent none of them, the tail is back at the head, which
    for the card means that there is nothing to send. *)
Definition tail_writes (k : nat) : option (list Z) :=
  snd <$> nat_rect (fun _ => option (nic card (list (list Z)) * list Z)) (Some (started, []))
    (fun _ r => '(n, l) ← r; '(rc, n) ← nic_send_packet layout0 (Some (replicate 60 1)) n;
                Some (n, l ++ [if rc =? 0 then e1000_tx_cur n else -1])) k.
Example eight_frames_fill_the_ring : tail_writes 8 = Some [1; 2; 3; 4; 5; 6; 7; 0].
Proof. vm_compute. reflexivity. Qed.
