(* ===== verification/Font.v ===== *)
(** Font: the 8x16 glyphs of [kernel/font.c], one byte per row, the most
    significant bit leftmost. *)

From S2P Require Import Prelude.

Definition FONT_WIDTH : Z := 8.
Definition FONT_HEIGHT : Z := 16.
Definition FONT_FIRST_CHAR : Z := 32.
Definition FONT_LAST_CHAR : Z := 126.
Definition FONT_NUM_CHARS : Z := FONT_LAST_CHAR - FONT_FIRST_CHAR + 1.

Definition font_8x16 : list (list Z) :=
  [ [0; 0; 0; 0; 0; 0; 0; 0; 0; 0; 0; 0; 0; 0; 0; 0];
    [0; 0; 24; 60; 60; 60; 24; 24; 24; 0; 24; 24; 0; 0; 0; 0];
    [0; 102; 102; 102; 36; 0; 0; 0; 0; 0; 0; 0; 0; 0; 0; 0];
    [0; 0; 0; 36; 36; 126; 36; 36; 36; 126; 36; 36; 0; 0; 0; 0];
    [0; 8; 62; 73; 72; 56; 14; 9; 73; 62; 8; 8; 0; 0; 0; 0];
    [0; 0; 49; 74; 74; 52; 8; 8; 22; 41; 41; 70; 0; 0; 0; 0];
    [0; 0; 28; 34; 34; 20; 24; 41; 69; 66; 70; 57; 0; 0; 0; 0];
    [0; 24; 24; 24; 8; 0; 0; 0; 0; 0; 0; 0; 0; 0; 0; 0];
    [0; 0; 4; 8; 16; 16; 16; 16; 16; 16; 8; 4; 0; 0; 0; 0];
    [0; 0; 32; 16; 8; 8; 8; 8; 8; 8; 16; 32; 0; 0; 0; 0];
    [0; 0; 0; 8; 73; 42; 28; 119; 28; 42; 73; 8; 0; 0; 0; 0];
    [0; 0; 0; 8; 8; 8; 127; 8; 8; 8; 0; 0; 0; 0; 0; 0];
    [0; 0; 0; 0; 0; 0; 0; 0; 0; 24; 24; 24; 8; 16; 0; 0];
    [0; 0; 0; 0; 0; 0; 126; 0; 0; 0; 0; 0; 0; 0; 0; 0];
    [0; 0; 0; 0; 0; 0; 0; 0; 0; 24; 24; 24; 0; 0; 0; 0];
    [0; 0; 2; 2; 4; 4; 8; 8; 16; 16; 32; 32; 0; 0; 0; 0];
    [0; 0; 60; 66; 70; 74; 82; 98; 66; 66; 66; 60; 0; 0; 0; 0];
    [0; 0; 24; 56; 24; 24; 24; 24; 24; 24; 24; 126; 0; 0; 0; 0];
    [0; 0; 60; 66; 66; 2; 4; 8; 16; 32; 64; 126; 0; 0; 0; 0];
    [0; 0; 60; 66; 66; 2; 28; 2; 2; 66; 66; 60; 0; 0; 0; 0];
    [0; 0; 4; 12; 20; 36; 68; 68; 126; 4; 4; 4; 0; 0; 0; 0];
    [0; 0; 126; 64; 64; 64; 124; 2; 2; 2; 66; 60; 0; 0; 0; 0];
    [0; 0; 28; 32; 64; 64; 124; 66; 66; 66; 66; 60; 0; 0; 0; 0];
    [0; 0; 126; 2; 2; 4; 4; 8; 8; 16; 16; 16; 0; 0; 0; 0];
    [0; 0; 60; 66; 66; 66; 60; 66; 66; 66; 66; 60; 0; 0; 0; 0];
    [0; 0; 60; 66; 66; 66; 66; 62; 2; 2; 4; 56; 0; 0; 0; 0];
    [0; 0; 0; 24; 24; 0; 0; 0; 0; 24; 24; 0; 0; 0; 0; 0];
    [0; 0; 0; 24; 24; 0; 0; 0; 0; 24; 24; 8; 16; 0; 0; 0];
    [0; 0; 0; 2; 4; 8; 16; 32; 16; 8; 4; 2; 0; 0; 0; 0];
    [0; 0; 0; 0; 0; 126; 0; 0; 0; 126; 0; 0; 0; 0; 0; 0];
    [0; 0; 0; 64; 32; 16; 8; 4; 8; 16; 32; 64; 0; 0; 0; 0];
    [0; 0; 60; 66; 66; 2; 4; 8; 8; 0; 8; 8; 0; 0; 0; 0];
    [0; 0; 60; 66; 66; 78; 82; 86; 74; 78; 64; 60; 0; 0; 0; 0];
    [0; 0; 24; 36; 66; 66; 66; 126; 66; 66; 66; 66; 0; 0; 0; 0];
    [0; 0; 124; 66; 66; 66; 124; 66; 66; 66; 66; 124; 0; 0; 0; 0];
    [0; 0; 28; 34; 64; 64; 64; 64; 64; 64; 34; 28; 0; 0; 0; 0];
    [0; 0; 120; 68; 66; 66; 66; 66; 66; 66; 68; 120; 0; 0; 0; 0];
    [0; 0; 126; 64; 64; 64; 124; 64; 64; 64; 64; 126; 0; 0; 0; 0];
    [0; 0; 126; 64; 64; 64; 124; 64; 64; 64; 64; 64; 0; 0; 0; 0];
    [0; 0; 28; 34; 64; 64; 64; 78; 66; 66; 34; 30; 0; 0; 0; 0];
    [0; 0; 66; 66; 66; 66; 126; 66; 66; 66; 66; 66; 0; 0; 0; 0];
    [0; 0; 126; 24; 24; 24; 24; 24; 24; 24; 24; 126; 0; 0; 0; 0];
    [0; 0; 6; 2; 2; 2; 2; 2; 2; 66; 66; 60; 0; 0; 0; 0];
    [0; 0; 66; 68; 72; 80; 96; 80; 72; 68; 66; 66; 0; 0; 0; 0];
    [0; 0; 64; 64; 64; 64; 64; 64; 64; 64; 64; 126; 0; 0; 0; 0];
    [0; 0; 66; 102; 90; 90; 66; 66; 66; 66; 66; 66; 0; 0; 0; 0];
    [0; 0; 66; 66; 98; 82; 74; 70; 66; 66; 66; 66; 0; 0; 0; 0];
    [0; 0; 60; 66; 66; 66; 66; 66; 66; 66; 66; 60; 0; 0; 0; 0];
    [0; 0; 124; 66; 66; 66; 124; 64; 64; 64; 64; 64; 0; 0; 0; 0];
    [0; 0; 60; 66; 66; 66; 66; 66; 66; 74; 68; 58; 0; 0; 0; 0];
    [0; 0; 124; 66; 66; 66; 124; 72; 68; 66; 66; 66; 0; 0; 0; 0];
    [0; 0; 60; 66; 64; 32; 24; 4; 2; 66; 66; 60; 0; 0; 0; 0];
    [0; 0; 255; 24; 24; 24; 24; 24; 24; 24; 24; 24; 0; 0; 0; 0];
    [0; 0; 66; 66; 66; 66; 66; 66; 66; 66; 66; 60; 0; 0; 0; 0];
    [0; 0; 66; 66; 66; 66; 36; 36; 36; 24; 24; 24; 0; 0; 0; 0];
    [0; 0; 66; 66; 66; 66; 66; 66; 90; 90; 102; 66; 0; 0; 0; 0];
    [0; 0; 66; 66; 36; 36; 24; 24; 36; 36; 66; 66; 0; 0; 0; 0];
    [0; 0; 129; 66; 36; 24; 24; 24; 24; 24; 24; 24; 0; 0; 0; 0];
    [0; 0; 126; 2; 4; 8; 16; 32; 64; 64; 64; 126; 0; 0; 0; 0];
    [0; 0; 30; 16; 16; 16; 16; 16; 16; 16; 16; 30; 0; 0; 0; 0];
    [0; 0; 64; 64; 32; 32; 16; 16; 8; 8; 4; 4; 0; 0; 0; 0];
    [0; 0; 120; 8; 8; 8; 8; 8; 8; 8; 8; 120; 0; 0; 0; 0];
    [0; 24; 36; 66; 0; 0; 0; 0; 0; 0; 0; 0; 0; 0; 0; 0];
    [0; 0; 0; 0; 0; 0; 0; 0; 0; 0; 0; 0; 0; 255; 0; 0];
    [0; 16; 8; 4; 0; 0; 0; 0; 0; 0; 0; 0; 0; 0; 0; 0];
    [0; 0; 0; 0; 0; 60; 2; 62; 66; 66; 66; 62; 0; 0; 0; 0];
    [0; 0; 64; 64; 64; 92; 98; 66; 66; 66; 98; 92; 0; 0; 0; 0];
    [0; 0; 0; 0; 0; 60; 66; 64; 64; 64; 66; 60; 0; 0; 0; 0];
    [0; 0; 2; 2; 2; 62; 66; 66; 66; 66; 70; 58; 0; 0; 0; 0];
    [0; 0; 0; 0; 0; 60; 66; 126; 64; 64; 66; 60; 0; 0; 0; 0];
    [0; 0; 12; 18; 16; 16; 124; 16; 16; 16; 16; 16; 0; 0; 0; 0];
    [0; 0; 0; 0; 0; 58; 68; 68; 68; 56; 64; 60; 66; 66; 60; 0];
    [0; 0; 64; 64; 64; 92; 98; 66; 66; 66; 66; 66; 0; 0; 0; 0];
    [0; 0; 24; 24; 0; 56; 24; 24; 24; 24; 24; 60; 0; 0; 0; 0];
    [0; 0; 6; 6; 0; 14; 6; 6; 6; 6; 6; 6; 70; 70; 60; 0];
    [0; 0; 64; 64; 64; 68; 72; 80; 96; 80; 72; 68; 0; 0; 0; 0];
    [0; 0; 56; 24; 24; 24; 24; 24; 24; 24; 24; 60; 0; 0; 0; 0];
    [0; 0; 0; 0; 0; 118; 73; 73; 73; 73; 73; 73; 0; 0; 0; 0];
    [0; 0; 0; 0; 0; 92; 98; 66; 66; 66; 66; 66; 0; 0; 0; 0];
    [0; 0; 0; 0; 0; 60; 66; 66; 66; 66; 66; 60; 0; 0; 0; 0];
    [0; 0; 0; 0; 0; 92; 98; 66; 66; 66; 98; 92; 64; 64; 64; 0];
    [0; 0; 0; 0; 0; 58; 70; 66; 66; 66; 70; 58; 2; 2; 2; 0];
    [0; 0; 0; 0; 0; 92; 98; 64; 64; 64; 64; 64; 0; 0; 0; 0];
    [0; 0; 0; 0; 0; 62; 64; 64; 60; 2; 2; 124; 0; 0; 0; 0];
    [0; 0; 16; 16; 16; 124; 16; 16; 16; 16; 18; 12; 0; 0; 0; 0];
    [0; 0; 0; 0; 0; 66; 66; 66; 66; 66; 70; 58; 0; 0; 0; 0];
    [0; 0; 0; 0; 0; 66; 66; 66; 36; 36; 24; 24; 0; 0; 0; 0];
    [0; 0; 0; 0; 0; 65; 65; 73; 73; 73; 73; 54; 0; 0; 0; 0];
    [0; 0; 0; 0; 0; 66; 36; 24; 24; 24; 36; 66; 0; 0; 0; 0];
    [0; 0; 0; 0; 0; 66; 66; 66; 66; 70; 58; 2; 2; 66; 60; 0];
    [0; 0; 0; 0; 0; 126; 4; 8; 16; 32; 64; 126; 0; 0; 0; 0];
    [0; 0; 6; 8; 8; 8; 8; 48; 8; 8; 8; 8; 6; 0; 0; 0];
    [0; 0; 24; 24; 24; 24; 24; 24; 24; 24; 24; 24; 0; 0; 0; 0];
    [0; 0; 96; 16; 16; 16; 16; 12; 16; 16; 16; 16; 96; 0; 0; 0];
    [0; 0; 0; 0; 0; 0; 0; 0; 0; 0; 0; 0; 0; 0; 0; 0] ].

Lemma font_size : lenZ font_8x16 = FONT_NUM_CHARS /\ Forall (fun g => length g = 16%nat) font_8x16.
Proof. split; [done|]. by repeat constructor. Qed.
