(* ===== verification/Vbe.v ===== *)
(** Vbe: the linear framebuffer of [kernel/vbe.c].

    The framebuffer is a region of the memory of [Memory] at
    [vbe_fb.virt_addr], which [vbe_init] maps at its own physical address.
    Colours are [0x00RRGGBB] and are packed for the hardware by the bit
    positions of their components.  All coordinates are 32-bit and wrap. *)

From S2P Require Import Prelude Memory Common Font Pmm Paging.

Definition FB_TYPE_RGB : Z := 1.
Definition VBE_BLACK : Z := 0.
Definition VBE_YELLOW : Z := 16777045.
Definition VBE_WHITE : Z := 16777215.

Definition vbe_palette : list Z :=
  [0; 170; 43520; 43690; 11141120; 11141290; 11162880; 11184810;
   5592405; 5592575; 5635925; 5636095; 16733525; 16733695; 16777045; 16777215].

Record vbe_fb_t := VbeFb {
  initialized : bool;
  fb_type : Z;
  width : Z;
  height : Z;
  pitch : Z;
  bpp : Z;
  phys_addr : Z;
  virt_addr : Z;
  red_pos : Z;
  red_size : Z;
  green_pos : Z;
  green_size : Z;
  blue_pos : Z;
  blue_size : Z
}.

(** The global variables of the file, with the memory. *)
Record vbe := Vbe { vbe_fb : vbe_fb_t; vbe_fg_color : Z; vbe_bg_color : Z; vbe_mem : mem }.

Definition with_vmem (m : mem) (s : vbe) : vbe := Vbe (vbe_fb s) (vbe_fg_color s) (vbe_bg_color s) m.

Definition standard_layout (fb : vbe_fb_t) : bool :=
  (red_pos fb =? 16) && (green_pos fb =? 8) && (blue_pos fb =? 0).

Definition pack_hw_color (fb : vbe_fb_t) (rgb : Z) : Z :=
  if standard_layout fb then rgb
  else
    let r := Z.land (Z.shiftr rgb 16) 255 in
    let g := Z.land (Z.shiftr rgb 8) 255 in
    let b := Z.land rgb 255 in
    Z.lor (Z.lor (u32 (Z.shiftl r (red_pos fb))) (u32 (Z.shiftl g (green_pos fb))))
          (u32 (Z.shiftl b (blue_pos fb))).

Definition unpack_hw_color (fb : vbe_fb_t) (hw : Z) : Z :=
  if standard_layout fb then Z.land hw 16777215
  else
    let r := Z.land (Z.shiftr hw (red_pos fb)) 255 in
    let g := Z.land (Z.shiftr hw (green_pos fb)) 255 in
    let b := Z.land (Z.shiftr hw (blue_pos fb)) 255 in
    Z.lor (Z.lor (Z.shiftl r 16) (Z.shiftl g 8)) b.

(** The address of a pixel of [n] bytes: [base + y * pitch + x * n]. *)
Definition pixel_addr (fb : vbe_fb_t) (n x y : Z) : Z :=
  u32 (virt_addr fb + u32 (y * pitch fb) + u32 (x * n)).

Definition off_screen (fb : vbe_fb_t) (x y : Z) : bool :=
  negb (initialized fb) || (width fb <=? x) || (height fb <=? y).

Definition vbe_putpixel (x y color : Z) (s : vbe) : vbe :=
  let fb := vbe_fb s in
  if off_screen fb x y then s
  else
    let hw := pack_hw_color fb color in
    if bpp fb =? 32 then with_vmem (st32 (vbe_mem s) (pixel_addr fb 4 x y) hw) s
    else if bpp fb =? 24 then
      let p := pixel_addr fb 3 x y in
      let m := st8 (vbe_mem s) p (Z.land hw 255) in
      let m := st8 m (p + 1) (Z.land (Z.shiftr hw 8) 255) in
      with_vmem (st8 m (p + 2) (Z.land (Z.shiftr hw 16) 255)) s
    else s.

Definition vbe_getpixel (x y : Z) (s : vbe) : Z :=
  let fb := vbe_fb s in
  if off_screen fb x y then 0
  else if bpp fb =? 32 then unpack_hw_color fb (ld32 (vbe_mem s) (pixel_addr fb 4 x y))
  else if bpp fb =? 24 then
    let p := pixel_addr fb 3 x y in
    let m := vbe_mem s in
    unpack_hw_color fb (Z.lor (Z.lor (ld8 m p) (Z.shiftl (ld8 m (p + 1)) 8)) (Z.shiftl (ld8 m (p + 2)) 16))
  else 0.

(** One row of [vbe_fill_rect] at 32 bits per pixel, and otherwise. *)
Definition fill_row32 (hw x w y : Z) (s : vbe) : vbe :=
  for_range 0 w (fun col s => with_vmem (st32 (vbe_mem s) (pixel_addr (vbe_fb s) 4 (x + col) y) hw) s) s.
Definition fill_row (color x w y : Z) (s : vbe) : vbe :=
  for_range 0 w (fun col s => vbe_putpixel (u32 (x + col)) y color s) s.

Definition vbe_fill_rect (x y w h color : Z) (s : vbe) : vbe :=
  let fb := vbe_fb s in
  if negb (initialized fb) || (w =? 0) || (h =? 0) then s
  else if (width fb <=? x) || (height fb <=? y) then s
  else
    let w := if width fb <? u32 (x + w) then u32 (width fb - x) else w in
    let h := if height fb <? u32 (y + h) then u32 (height fb - y) else h in
    if bpp fb =? 32 then
      let hw := pack_hw_color fb color in
      for_range 0 h (fun row s => fill_row32 hw x w (u32 (y + row)) s) s
    else for_range 0 h (fun row s => fill_row color x w (u32 (y + row)) s) s.

Definition vbe_draw_rect (x y w h color thickness : Z) (s : vbe) : vbe :=
  if negb (initialized (vbe_fb s)) || (thickness =? 0) || (w =? 0) || (h =? 0) then s
  else
    let thickness := if h / 2 <? thickness then h / 2 else thickness in
    let thickness := if w / 2 <? thickness then w / 2 else thickness in
    let thickness := if thickness =? 0 then 1 else thickness in
    let s := vbe_fill_rect x y w thickness color s in
    let s := if thickness <? h then vbe_fill_rect x (u32 (y + h - thickness)) w thickness color s else s in
    if u32 (2 * thickness) <? h then
      let s := vbe_fill_rect x (u32 (y + thickness)) thickness (u32 (h - 2 * thickness)) color s in
      if thickness <? w
      then vbe_fill_rect (u32 (x + w - thickness)) (u32 (y + thickness)) thickness (u32 (h - 2 * thickness)) color s
      else s
    else s.

Definition vbe_draw_hline (x y len color : Z) (s : vbe) : vbe := vbe_fill_rect x y len 1 color s.
Definition vbe_draw_vline (x y len color : Z) (s : vbe) : vbe := vbe_fill_rect x y 1 len color s.

Definition vbe_clear_color (color : Z) (s : vbe) : vbe :=
  if negb (initialized (vbe_fb s)) then s
  else vbe_fill_rect 0 0 (width (vbe_fb s)) (height (vbe_fb s)) color s.
Definition vbe_clear (s : vbe) : vbe := vbe_clear_color (vbe_bg_color s) s.

Definition vbe_scroll_region (top_y region_h lines bg_color : Z) (s : vbe) : option vbe :=
  let fb := vbe_fb s in
  if negb (initialized fb) || (lines =? 0) || (region_h =? 0) then Some s
  else if height fb <=? top_y then Some s
  else
    let region_h := if height fb <? u32 (top_y + region_h) then u32 (height fb - top_y) else region_h in
    if region_h <=? lines then Some (vbe_fill_rect 0 top_y (width fb) region_h bg_color s)
    else
      let base := virt_addr fb in
      let copy_lines := u32 (region_h - lines) in
      m ← memcpy (vbe_mem s) (u32 (base + u32 (top_y * pitch fb)))
            (u32 (base + u32 (u32 (top_y + lines) * pitch fb))) (u32 (copy_lines * pitch fb));
      Some (vbe_fill_rect 0 (u32 (top_y + copy_lines)) (width fb) lines bg_color (with_vmem m s)).

Definition vbe_scroll (lines : Z) (s : vbe) : option vbe :=
  vbe_scroll_region 0 (height (vbe_fb s)) lines (vbe_bg_color s) s.

Definition glyph_index (c : Z) : Z :=
  let index := u8 c - FONT_FIRST_CHAR in
  if (index <? 0) || (FONT_NUM_CHARS <=? index) then 0 else index.
Definition glyph (c : Z) : list Z := nthZ [] font_8x16 (glyph_index c).

(** Whether the pixel in column [col] of a glyph row is set. *)
Definition glyph_bit (bits col : Z) : bool := negb (Z.land bits (Z.shiftl 1 (7 - col)) =? 0).

Definition draw_row32 (bits hw_fg hw_bg x y : Z) (s : vbe) : vbe :=
  for_range 0 FONT_WIDTH (fun col s =>
    with_vmem (st32 (vbe_mem s) (pixel_addr (vbe_fb s) 4 (x + col) y)
      (if glyph_bit bits col then hw_fg else hw_bg)) s) s.
Definition draw_row (bits fg bg x y : Z) (s : vbe) : vbe :=
  for_range 0 FONT_WIDTH (fun col s =>
    vbe_putpixel (u32 (x + col)) y (if glyph_bit bits col then fg else bg) s) s.

Definition vbe_draw_char (x y c fg bg : Z) (s : vbe) : vbe :=
  let fb := vbe_fb s in
  if negb (initialized fb) then s
  else if (width fb <? u32 (x + FONT_WIDTH)) || (height fb <? u32 (y + FONT_HEIGHT)) then s
  else if bpp fb =? 32 then
    for_range 0 FONT_HEIGHT (fun row s =>
      draw_row32 (nthZ 0 (glyph c) row) (pack_hw_color fb fg) (pack_hw_color fb bg) x (u32 (y + row)) s) s
  else for_range 0 FONT_HEIGHT (fun row s => draw_row (nthZ 0 (glyph c) row) fg bg x (u32 (y + row)) s) s.

(** A new line of text: the cursor row moves down, or the screen up. *)
Definition next_line (cur_y : Z) (s : vbe) : option (Z * vbe) :=
  let cur_y := u32 (cur_y + FONT_HEIGHT) in
  if height (vbe_fb s) <? u32 (cur_y + FONT_HEIGHT)
  then s ← vbe_scroll FONT_HEIGHT s; Some (u32 (cur_y - FONT_HEIGHT), s)
  else Some (cur_y, s).

Fixpoint draw_string_loop (x cur_x cur_y : Z) (str : list Z) (fg bg : Z) (s : vbe) : option vbe :=
  match str with
  | [] => Some s
  | c :: str =>
    if c =? 10 then '(cur_y, s) ← next_line cur_y s; draw_string_loop x x cur_y str fg bg s
    else if c =? 13 then draw_string_loop x x cur_y str fg bg s
    else
      let s := vbe_draw_char cur_x cur_y c fg bg s in
      let cur_x := u32 (cur_x + FONT_WIDTH) in
      if width (vbe_fb s) <? u32 (cur_x + FONT_WIDTH)
      then '(cur_y, s) ← next_line cur_y s; draw_string_loop x x cur_y str fg bg s
      else draw_string_loop x cur_x cur_y str fg bg s
  end.

Definition vbe_draw_string (x y : Z) (str : list Z) (fg bg : Z) (s : vbe) : option vbe :=
  if negb (initialized (vbe_fb s)) then Some s else draw_string_loop x x y str fg bg s.

Definition vbe_puts (x y : Z) (str : list Z) (s : vbe) : option vbe :=
  vbe_draw_string x y str (vbe_fg_color s) (vbe_bg_color s) s.

Definition vbe_vga_to_rgb (vga_color : Z) : Z :=
  if vga_color <? 16 then nthZ 0 vbe_palette vga_color else VBE_WHITE.

Definition vbe_is_active (s : vbe) : bool := initialized (vbe_fb s).

Definition no_fb : vbe_fb_t := VbeFb false 0 0 0 0 0 0 0 0 0 0 0 0 0.

Section init.
Context (static_pt_pool : Z).

(** The memory of [s] is that of the page tables [p]: [vbe_init] maps the
    region and clears it. *)
Definition vbe_init (mbi_flags fb_addr fb_pitch fb_width fb_height fb_bpp fbtype
    rpos rsize gpos gsize bpos bsize : Z) (p : paging) (s : vbe) : option (Z * paging * vbe) :=
  let fail := Some (0, p, Vbe no_fb (vbe_fg_color s) (vbe_bg_color s) (vbe_mem s)) in
  if negb (Z.testbit mbi_flags 12) then fail
  else if negb (fbtype =? FB_TYPE_RGB) then fail
  else if negb (fb_bpp =? 24) && negb (fb_bpp =? 32) then fail
  else if (fb_addr =? 0) || (4294901760 <? fb_addr) then fail
  else if (fb_width =? 0) || (fb_height =? 0) || (fb_pitch =? 0) then fail
  else
    let pick (size a b : Z) := if negb (size =? 0) then a else b in
    let fb := VbeFb true fbtype fb_width fb_height fb_pitch fb_bpp (u32 fb_addr) (u32 fb_addr)
                (pick rsize rpos 16) (pick rsize rsize 8) (pick gsize gpos 8) (pick gsize gsize 8)
                (pick bsize bpos 0) (pick bsize bsize 8) in
    p ← paging_map_region static_pt_pool (virt_addr fb) (phys_addr fb) (u32 (fb_pitch * fb_height))
          (Z.lor PAGE_PRESENT PAGE_WRITABLE) p;
    let s := vbe_clear (Vbe fb (vbe_fg_color s) (vbe_bg_color s) (pg_mem p)) in
    Some (1, with_pg_mem (vbe_mem s) p, s).
End init.
