(* ===== verification/VbeSpec.v ===== *)
(** VbeSpec: what the framebuffer operations of [Vbe] do to the picture.

    The picture is the function [vbe_getpixel] of the coordinates.  A
    framebuffer as a boot loader describes it ([fb_ok]) has rows long enough
    for its pixels, fits in the address space, and keeps the three colour
    components in disjoint bytes. *)

From S2P Require Import Prelude Memory Common Font Pmm Paging Vbe.

Definition pixel_bytes (fb : vbe_fb_t) : Z := bpp fb / 8.
Definition apart (p q : Z) : Prop := p + 8 <= q \/ q + 8 <= p.

Record fb_ok (fb : vbe_fb_t) : Prop := {
  fo_init : initialized fb = true;
  fo_bpp : bpp fb = 32 \/ bpp fb = 24;
  fo_virt : 0 <= virt_addr fb;
  fo_width : 0 < width fb < 16777216;
  fo_height : 0 < height fb < 16777216;
  fo_pitch : width fb * pixel_bytes fb <= pitch fb;
  fo_size : virt_addr fb + pitch fb * height fb < 4294967296;
  fo_red : 0 <= red_pos fb <= bpp fb - 8;
  fo_green : 0 <= green_pos fb <= bpp fb - 8;
  fo_blue : 0 <= blue_pos fb <= bpp fb - 8;
  fo_rg : apart (red_pos fb) (green_pos fb);
  fo_rb : apart (red_pos fb) (blue_pos fb);
  fo_gb : apart (green_pos fb) (blue_pos fb)
}.

Definition on_screen (fb : vbe_fb_t) (x y : Z) : Prop := 0 <= x < width fb /\ 0 <= y < height fb.
Definition is_color (c : Z) : Prop := 0 <= c < 16777216.

(** ** Colours *)

Lemma byte_bits_high r i : 0 <= r < 256 -> 8 <= i -> Z.testbit r i = false.
Proof.
  intros Hr Hi. rewrite <- (Z.mod_small r (2 ^ 8)) by lia. apply Z.mod_pow2_bits_high. lia.
Qed.

(** Reading back one lane of three bytes shifted to disjoint positions. *)
Lemma lane r g b p q t :
  0 <= r < 256 -> 0 <= g < 256 -> 0 <= b < 256 -> 0 <= p -> 0 <= q -> 0 <= t -> apart p q -> apart p t ->
  Z.land (Z.shiftr (Z.lor (Z.lor (Z.shiftl r p) (Z.shiftl g q)) (Z.shiftl b t)) p) 255 = r.
Proof.
  intros Hr Hg Hb Hp Hq Ht Hpq Hpt. unfold apart in *. change 255 with (Z.ones 8). apply Z.bits_inj'. intros i Hi.
  rewrite Z.land_spec, Z.shiftr_spec, !Z.lor_spec, !Z.shiftl_spec, Z.testbit_ones_nonneg by lia.
  destruct (Z.ltb_spec i 8).
  - replace (Z.testbit g (i + p - q)) with false.
    2:{ symmetry. destruct (decide (i + p - q < 0)); [by apply Z.testbit_neg_r|apply byte_bits_high; lia]. }
    replace (Z.testbit b (i + p - t)) with false.
    2:{ symmetry. destruct (decide (i + p - t < 0)); [by apply Z.testbit_neg_r|apply byte_bits_high; lia]. }
    rewrite !orb_false_r, andb_true_r. f_equal. lia.
  - rewrite andb_false_r. symmetry. apply byte_bits_high; lia.
Qed.

Lemma rgb_bytes c : is_color c ->
  Z.lor (Z.lor (Z.shiftl (Z.land (Z.shiftr c 16) 255) 16) (Z.shiftl (Z.land (Z.shiftr c 8) 255) 8)) (Z.land c 255) = c.
Proof.
  intros Hc. unfold is_color in Hc. rewrite !land_255, !Z.shiftr_div_pow2 by lia. simpl.
  rewrite (Z.lor_comm (Z.lor _ _)), (Z.lor_comm (Z.shiftl (c / 65536 mod 256) 16)), Z.lor_assoc.
  rewrite (lor_shiftl_add (c mod 256) _ 8) by zlia. rewrite lor_shiftl_add by zlia. simpl. zlia.
Qed.

Lemma lor_bound a b k : 0 <= k -> 0 <= a < 2 ^ k -> 0 <= b < 2 ^ k -> 0 <= Z.lor a b < 2 ^ k.
Proof.
  intros Hk Ha Hb. split; [apply Z.lor_nonneg; lia|].
  destruct (Z.eq_dec (Z.lor a b) 0) as [->|]; [lia|].
  assert (0 <= Z.lor a b) by (apply Z.lor_nonneg; lia).
  apply Z.log2_lt_pow2; [lia|]. rewrite Z.log2_lor by lia. apply Z.max_lub_lt.
  - destruct (Z.eq_dec a 0) as [->|]; [|apply Z.log2_lt_pow2; lia]. simpl. destruct (Z.eq_dec k 0) as [->|]; [|lia].
    exfalso. change (2 ^ 0) with 1 in *. assert (b = 0) as -> by lia. done.
  - destruct (Z.eq_dec b 0) as [->|]; [|apply Z.log2_lt_pow2; lia]. simpl. destruct (Z.eq_dec k 0) as [->|]; [|lia].
    exfalso. change (2 ^ 0) with 1 in *. assert (a = 0) as -> by lia. done.
Qed.

Lemma shiftl_byte r p k : 0 <= r < 256 -> 0 <= p <= k - 8 -> 0 <= Z.shiftl r p < 2 ^ k.
Proof.
  intros Hr Hp. rewrite Z.shiftl_mul_pow2 by lia. replace k with (k - 8 - p + 8 + p) by lia.
  rewrite !Z.pow_add_r by lia. change (2 ^ 8) with 256.
  assert (0 < 2 ^ p) by (apply Z.pow_pos_nonneg; lia). assert (0 < 2 ^ (k - 8 - p)) by (apply Z.pow_pos_nonneg; lia). nia.
Qed.

Section fb.
Context (fb : vbe_fb_t) (Hfb : fb_ok fb).

Lemma bpp_le : 24 <= bpp fb <= 32.
Proof. destruct (fo_bpp _ Hfb); lia. Qed.

Lemma shiftl_u32 r p : 0 <= r < 256 -> 0 <= p <= bpp fb - 8 -> u32 (Z.shiftl r p) = Z.shiftl r p.
Proof.
  intros Hr Hp. pose proof bpp_le. apply u32_id. change 4294967296 with (2 ^ 32). apply shiftl_byte; lia.
Qed.

Lemma color_bytes c : 0 <= Z.land c 255 < 256.
Proof. rewrite land_255. zlia. Qed.

Lemma pack_bound c : is_color c -> 0 <= pack_hw_color fb c < 2 ^ bpp fb.
Proof.
  intros Hc. pose proof bpp_le. unfold pack_hw_color. case_goal.
  - unfold is_color in Hc. split; [lia|]. apply Z.lt_le_trans with (2 ^ 24); [simpl; lia|]. apply Z.pow_le_mono_r; lia.
  - destruct Hfb. rewrite !shiftl_u32 by (done || apply color_bytes).
    repeat apply lor_bound; try lia; apply shiftl_byte; (done || apply color_bytes).
Qed.

(** A colour survives packing and unpacking. *)
Lemma unpack_pack c : is_color c -> unpack_hw_color fb (pack_hw_color fb c) = c.
Proof.
  intros Hc. unfold unpack_hw_color, pack_hw_color. destruct (standard_layout fb).
  - change 16777215 with (Z.ones 24). rewrite Z.land_ones by lia. unfold is_color in Hc. by apply Z.mod_small.
  - destruct Hfb. rewrite !shiftl_u32 by (done || apply color_bytes).
    set (r := Z.land (Z.shiftr c 16) 255). set (g := Z.land (Z.shiftr c 8) 255). set (b := Z.land c 255).
    pose proof (color_bytes (Z.shiftr c 16)). pose proof (color_bytes (Z.shiftr c 8)). pose proof (color_bytes c).
    rewrite lane by (done || lia).
    replace (Z.land (Z.shiftr _ (green_pos fb)) 255) with g.
    2:{ rewrite (Z.lor_comm (Z.shiftl r _)). symmetry. apply lane; try done; unfold apart in *; lia. }
    replace (Z.land (Z.shiftr _ (blue_pos fb)) 255) with b.
    2:{ rewrite Z.lor_comm, Z.lor_assoc. symmetry. apply lane; try done; unfold apart in *; lia. }
    by apply rgb_bytes.
Qed.

(** ** Addresses *)

Lemma pixel_addr_eq x y :
  on_screen fb x y -> pixel_addr fb (pixel_bytes fb) x y = virt_addr fb + y * pitch fb + x * pixel_bytes fb /\
  virt_addr fb + y * pitch fb + x * pixel_bytes fb + pixel_bytes fb <= virt_addr fb + (y + 1) * pitch fb <= 4294967296.
Proof.
  intros [Hx Hy]. pose proof Hfb as [_ Hb Hv Hw Hh Hp Hs _ _ _ _ _ _].
  assert (3 <= pixel_bytes fb <= 4) by (unfold pixel_bytes; destruct Hb as [-> | ->]; done).
  assert (y * pitch fb + pitch fb <= pitch fb * height fb) by nia.
  assert (x * pixel_bytes fb + pixel_bytes fb <= pitch fb) by nia.
  assert (0 <= y * pitch fb) by nia. assert (0 <= x * pixel_bytes fb) by nia.
  split; [|lia]. unfold pixel_addr. rewrite (u32_id (y * _)), (u32_id (x * _)), u32_id by lia. lia.
Qed.

Lemma pixel_apart x y x' y' :
  on_screen fb x y -> on_screen fb x' y' -> (x, y) <> (x', y') ->
  let a := pixel_addr fb (pixel_bytes fb) x y in let a' := pixel_addr fb (pixel_bytes fb) x' y' in
  a + pixel_bytes fb <= a' \/ a' + pixel_bytes fb <= a.
Proof.
  intros Hs Hs' Hne. destruct (pixel_addr_eq x y Hs) as [-> H1]. destruct (pixel_addr_eq x' y' Hs') as [-> H2]. simpl.
  pose proof Hfb as [_ Hb Hv Hw Hh Hp _ _ _ _ _ _ _]. destruct Hs, Hs'.
  assert (3 <= pixel_bytes fb <= 4) by (unfold pixel_bytes; destruct Hb as [-> | ->]; done).
  assert (0 <= x * pixel_bytes fb) by (apply Z.mul_nonneg_nonneg; lia).
  assert (0 <= x' * pixel_bytes fb) by (apply Z.mul_nonneg_nonneg; lia).
  assert (0 <= pitch fb) by nia.
  destruct (Z.lt_trichotomy y y') as [|[<-|]].
  - left. assert ((y + 1) * pitch fb <= y' * pitch fb) by (apply Z.mul_le_mono_nonneg_r; lia). lia.
  - assert (x <> x') by congruence. assert (x < x' \/ x' < x) as [|] by lia.
    + left. assert ((x + 1) * pixel_bytes fb <= x' * pixel_bytes fb) by (apply Z.mul_le_mono_nonneg_r; lia). lia.
    + right. assert ((x' + 1) * pixel_bytes fb <= x * pixel_bytes fb) by (apply Z.mul_le_mono_nonneg_r; lia). lia.
  - right. assert ((y' + 1) * pitch fb <= y * pitch fb) by (apply Z.mul_le_mono_nonneg_r; lia). lia.
Qed.
End fb.

(** ** One pixel *)

Definition raw_store (fb : vbe_fb_t) (m : mem) (a hw : Z) : mem :=
  if bpp fb =? 32 then st32 m a hw
  else st8 (st8 (st8 m a (Z.land hw 255)) (a + 1) (Z.land (Z.shiftr hw 8) 255)) (a + 2) (Z.land (Z.shiftr hw 16) 255).
Definition raw_load (fb : vbe_fb_t) (m : mem) (a : Z) : Z :=
  if bpp fb =? 32 then ld32 m a
  else Z.lor (Z.lor (ld8 m a) (Z.shiftl (ld8 m (a + 1)) 8)) (Z.shiftl (ld8 m (a + 2)) 16).

Lemma raw_load_store fb m a hw : fb_ok fb -> 0 <= hw < 2 ^ bpp fb -> raw_load fb (raw_store fb m a hw) a = hw.
Proof.
  intros Hfb Hhw. unfold raw_load, raw_store. destruct (fo_bpp _ Hfb) as [Hb|Hb]; rewrite Hb in *; simpl.
  - rewrite ld32_st32_eq. by apply u32_id.
  - rewrite !(ld8_st8_ne _ (a + 2)), !(ld8_st8_ne _ (a + 1) a), !ld8_st8_eq by lia.
    rewrite !land_255, !Z.shiftr_div_pow2 by lia. rewrite !u8_id by zlia.
    rewrite (lor_shiftl_add (hw mod 256) _ 8), (lor_shiftl_add _ _ 16) by zlia.
    change (2 ^ 24) with 16777216 in Hhw. simpl. zlia.
Qed.

Lemma raw_load_store_ne fb m a a' hw :
  fb_ok fb -> a + pixel_bytes fb <= a' \/ a' + pixel_bytes fb <= a ->
  raw_load fb (raw_store fb m a hw) a' = raw_load fb m a'.
Proof.
  intros Hfb Ha. unfold raw_load, raw_store. unfold pixel_bytes in Ha.
  destruct (fo_bpp _ Hfb) as [Hb|Hb]; rewrite Hb in *; simpl in *.
  - by apply ld32_st32_ne.
  - change (24 / 8) with 3 in Ha. rewrite !ld8_st8_ne by lia. done.
Qed.

Lemma raw_store_frame fb m a hw b :
  fb_ok fb -> b < a \/ a + pixel_bytes fb <= b -> ld8 (raw_store fb m a hw) b = ld8 m b.
Proof.
  intros Hfb Ha. unfold raw_store. unfold pixel_bytes in Ha.
  destruct (fo_bpp _ Hfb) as [Hb|Hb]; rewrite Hb in *; simpl in *.
  - by apply ld8_st32_ne.
  - change (24 / 8) with 3 in Ha. rewrite !ld8_st8_ne by lia. done.
Qed.

Section picture.
Implicit Types s : vbe.

Definition vbe_ok s : Prop := fb_ok (vbe_fb s).

(** The bytes of memory outside of the framebuffer. *)
Definition outside (fb : vbe_fb_t) (a : Z) : Prop :=
  a < virt_addr fb \/ virt_addr fb + pitch fb * height fb <= a.
(** Only the picture changes from [s] to [s']. *)
Definition only_picture s s' : Prop :=
  vbe_fb s' = vbe_fb s /\ vbe_fg_color s' = vbe_fg_color s /\ vbe_bg_color s' = vbe_bg_color s /\
  forall a, outside (vbe_fb s) a -> ld8 (vbe_mem s') a = ld8 (vbe_mem s) a.
(** From [s] to [s'] the picture changes to [f] and nothing else changes. *)
Definition repaint s s' (f : Z -> Z -> Z) : Prop :=
  only_picture s s' /\ forall x y, on_screen (vbe_fb s) x y -> vbe_getpixel x y s' = f x y.

Lemma only_picture_refl s : only_picture s s.
Proof. done. Qed.
Lemma only_picture_trans s1 s2 s3 : only_picture s1 s2 -> only_picture s2 s3 -> only_picture s1 s3.
Proof.
  intros (H1 & H2 & H3 & H4) (G1 & G2 & G3 & G4). split_and!; try congruence.
  intros a Ha. rewrite G4, H4; [done..|]. by rewrite H1.
Qed.

Lemma on_screen_b fb x y : fb_ok fb -> on_screen fb x y -> off_screen fb x y = false.
Proof.
  intros Hok [Hx Hy]. unfold off_screen. rewrite (fo_init _ Hok). simpl.
  destruct (Z.leb_spec (width fb) x), (Z.leb_spec (height fb) y); (done || lia).
Qed.
Lemma off_screen_b fb x y : 0 <= x -> 0 <= y -> ~ on_screen fb x y -> off_screen fb x y = true.
Proof.
  intros Hx Hy Hs. unfold off_screen, on_screen in *.
  destruct (Z.leb_spec (width fb) x), (Z.leb_spec (height fb) y), (initialized fb); try done; lia.
Qed.

Definition addr_of s x y : Z := pixel_addr (vbe_fb s) (pixel_bytes (vbe_fb s)) x y.

Lemma putpixel_raw s x y c :
  vbe_ok s -> on_screen (vbe_fb s) x y ->
  vbe_putpixel x y c s =
  with_vmem (raw_store (vbe_fb s) (vbe_mem s) (addr_of s x y) (pack_hw_color (vbe_fb s) c)) s.
Proof.
  intros Hok Hs. unfold vbe_putpixel, raw_store, addr_of, pixel_bytes. rewrite on_screen_b by done.
  by destruct (fo_bpp _ Hok) as [-> | ->].
Qed.

Lemma getpixel_raw s x y :
  vbe_ok s -> on_screen (vbe_fb s) x y ->
  vbe_getpixel x y s = unpack_hw_color (vbe_fb s) (raw_load (vbe_fb s) (vbe_mem s) (addr_of s x y)).
Proof.
  intros Hok Hs. unfold vbe_getpixel, raw_load, addr_of, pixel_bytes. rewrite on_screen_b by done.
  by destruct (fo_bpp _ Hok) as [-> | ->].
Qed.

(** Writing a pixel changes that pixel and nothing else. *)
Lemma putpixel_spec s x y c :
  vbe_ok s -> on_screen (vbe_fb s) x y -> is_color c ->
  repaint s (vbe_putpixel x y c s)
    (fun x' y' => if decide (x' = x /\ y' = y) then c else vbe_getpixel x' y' s).
Proof.
  intros Hok Hs Hc. rewrite putpixel_raw by done. split; [split_and!; try done|].
  - intros a Ha. simpl. apply raw_store_frame; [done|]. unfold addr_of.
    destruct (pixel_addr_eq _ Hok x y Hs) as [-> Hend].
    destruct Hs as [Hx Hy]. pose proof Hok as [_ Hb Hv Hw Hh Hp Hsz _ _ _ _ _ _]. unfold outside in Ha.
    assert (3 <= pixel_bytes (vbe_fb s)) by (unfold pixel_bytes; destruct Hb as [-> | ->]; done).
    assert (0 <= pitch (vbe_fb s)) by nia.
    assert ((y + 1) * pitch (vbe_fb s) <= height (vbe_fb s) * pitch (vbe_fb s)) by (apply Z.mul_le_mono_nonneg_r; lia).
    assert (0 <= y * pitch (vbe_fb s)) by (apply Z.mul_nonneg_nonneg; lia).
    assert (0 <= x * pixel_bytes (vbe_fb s)) by (apply Z.mul_nonneg_nonneg; lia). lia.
  - intros x' y' Hs'. rewrite !getpixel_raw by done. unfold addr_of. simpl. case_decide as He.
    + destruct He as [-> ->]. rewrite raw_load_store by (done || by apply pack_bound). by apply unpack_pack.
    + rewrite raw_load_store_ne; [done..|]. apply pixel_apart; [done..|]. intros [= -> ->]. auto.
Qed.

Lemma putpixel_off s x y c : 0 <= x -> 0 <= y -> ~ on_screen (vbe_fb s) x y -> vbe_putpixel x y c s = s.
Proof. intros. unfold vbe_putpixel. by rewrite off_screen_b. Qed.

(** ** Rectangles *)

Lemma repaint_refl s : repaint s s (fun x y => vbe_getpixel x y s).
Proof. done. Qed.

(** Painting [g] over [f]. *)
Lemma repaint_step s s1 s2 (f g h : Z -> Z -> Z) :
  repaint s s1 f -> repaint s1 s2 g ->
  (forall x y, on_screen (vbe_fb s) x y -> vbe_getpixel x y s1 = f x y -> g x y = h x y) -> repaint s s2 h.
Proof.
  intros [H1 Hf] [H2 Hg] Hh. split; [by eapply only_picture_trans|].
  intros x y Hs. destruct H1 as (Hfb & _). rewrite Hg by (by rewrite Hfb). auto.
Qed.

Lemma repaint_ok s s' f : repaint s s' f -> vbe_ok s -> vbe_ok s'.
Proof. intros [(Hfb & _) _]. unfold vbe_ok. by rewrite Hfb. Qed.
Lemma repaint_fb s s' f : repaint s s' f -> vbe_fb s' = vbe_fb s.
Proof. by intros [(Hfb & _) _]. Qed.

(** The colour of a point after the rectangle at [x], [y] has been painted
    with [f], which takes the column and the row inside of it. *)
Definition over_rect (x y w h : Z) (f : Z -> Z -> Z) s (x' y' : Z) : Z :=
  if decide (x <= x' < x + w /\ y <= y' < y + h) then f (x' - x) (y' - y) else vbe_getpixel x' y' s.

(** The loops of [vbe_fill_rect] and [vbe_draw_char], pixel by pixel and at
    32 bits per pixel. *)
Definition paint_row (f : Z -> Z) (x w y : Z) s : vbe :=
  for_range 0 w (fun col s => vbe_putpixel (u32 (x + col)) y (f col) s) s.
Definition paint_row32 (f : Z -> Z) (x w y : Z) s : vbe :=
  for_range 0 w (fun col s => with_vmem (st32 (vbe_mem s) (pixel_addr (vbe_fb s) 4 (x + col) y) (f col)) s) s.
Definition paint_rows (f : Z -> Z -> Z) (x w y h : Z) s : vbe :=
  for_range 0 h (fun row s => paint_row (fun col => f col row) x w (u32 (y + row)) s) s.

Lemma over_rect_empty x y w h f s : w <= 0 \/ h <= 0 -> repaint s s (over_rect x y w h f s).
Proof.
  intros He. eapply repaint_step; [apply repaint_refl..|]. intros x' y' _ _. unfold over_rect.
  by rewrite decide_False by lia.
Qed.

Lemma paint_row_fb f x w y s : vbe_fb (paint_row f x w y s) = vbe_fb s.
Proof.
  destruct (Z.le_gt_cases 0 w); [|unfold paint_row; by rewrite for_range_done by lia].
  apply (for_range_inv (fun _ s1 => vbe_fb s1 = vbe_fb s)); [done..|].
  intros j s1 _ <-. unfold vbe_putpixel. by repeat case_goal.
Qed.

Lemma paint_row_spec s f x w y :
  vbe_ok s -> (forall i, is_color (f i)) -> 0 <= x -> 0 <= w -> x + w <= width (vbe_fb s) ->
  0 <= y < height (vbe_fb s) ->
  repaint s (paint_row f x w y s) (over_rect x y w 1 (fun col _ => f col) s).
Proof.
  intros Hok Hc Hx Hw Hxw Hy. pose proof (fo_width _ Hok).
  refine (for_range_inv (fun i s1 => repaint s s1 (over_rect x y i 1 (fun col _ => f col) s)) 0 w _ s _ _ _);
    [done|by apply over_rect_empty; lia|].
  intros i s1 Hi H1. rewrite u32_id by lia. pose proof (repaint_fb _ _ _ H1) as Hfb.
  eapply repaint_step; [exact H1|apply putpixel_spec; [by eapply repaint_ok| |done]|].
  { rewrite Hfb. unfold on_screen. lia. }
  intros x' y' _ Heq. cbv beta. rewrite Heq. unfold over_rect. repeat case_decide; try done; try lia. f_equal. lia.
Qed.

(** The fast path does the same. *)
Lemma paint_row32_eq s f x w y :
  vbe_ok s -> bpp (vbe_fb s) = 32 -> 0 <= x -> x + w <= width (vbe_fb s) -> 0 <= y < height (vbe_fb s) ->
  paint_row32 (fun col => pack_hw_color (vbe_fb s) (f col)) x w y s = paint_row f x w y s.
Proof.
  intros Hok Hb Hx Hxw Hy. pose proof (fo_width _ Hok).
  apply (for_range_ext (fun s1 => vbe_fb s1 = vbe_fb s)); [done|].
  intros i s1 Hi Hfb. rewrite u32_id by lia.
  assert (on_screen (vbe_fb s1) (x + i) y) by (rewrite Hfb; unfold on_screen; lia).
  assert (vbe_ok s1) by (unfold vbe_ok; by rewrite Hfb).
  rewrite putpixel_raw by done. unfold raw_store, addr_of, pixel_bytes. rewrite Hfb, Hb. done.
Qed.

Lemma paint_rows_spec s f x y w h :
  vbe_ok s -> (forall i j, is_color (f i j)) -> 0 <= x -> 0 <= w -> x + w <= width (vbe_fb s) ->
  0 <= y -> 0 <= h -> y + h <= height (vbe_fb s) ->
  repaint s (paint_rows f x w y h s) (over_rect x y w h f s).
Proof.
  intros Hok Hc Hx Hw Hxw Hy Hh Hyh. pose proof (fo_height _ Hok).
  refine (for_range_inv (fun i s1 => repaint s s1 (over_rect x y w i f s)) 0 h _ s _ _ _);
    [done|by apply over_rect_empty; lia|].
  intros i s1 Hi H1. rewrite u32_id by lia. pose proof (repaint_fb _ _ _ H1) as Hfb.
  eapply repaint_step; [exact H1|apply paint_row_spec; rewrite ?Hfb; try (done || lia); by eapply repaint_ok|].
  intros x' y' _ Heq. unfold over_rect in *. rewrite Heq. repeat case_decide; try done; try lia. f_equal; lia.
Qed.

Lemma paint_rows32_eq s f x y w h :
  vbe_ok s -> bpp (vbe_fb s) = 32 -> 0 <= x -> x + w <= width (vbe_fb s) -> 0 <= y -> y + h <= height (vbe_fb s) ->
  for_range 0 h (fun row s1 =>
    paint_row32 (fun col => pack_hw_color (vbe_fb s) (f col row)) x w (u32 (y + row)) s1) s = paint_rows f x w y h s.
Proof.
  intros Hok Hb Hx Hxw Hy Hyh. pose proof (fo_height _ Hok).
  apply (for_range_ext (fun s1 => vbe_fb s1 = vbe_fb s)); [done|].
  intros i s1 Hi Hfb. rewrite <- Hfb, u32_id by lia. split; [|apply paint_row_fb].
  apply (paint_row32_eq s1 (fun col => f col i)); rewrite ?Hfb; try done; try lia. unfold vbe_ok. by rewrite Hfb.
Qed.

(** Filling clips the rectangle to the screen, by either path. *)
Lemma fill_rect_rows s x y w h c :
  vbe_ok s -> 0 <= x -> 0 <= y -> 0 < w -> 0 < h -> x + w < 4294967296 -> y + h < 4294967296 ->
  x < width (vbe_fb s) -> y < height (vbe_fb s) ->
  vbe_fill_rect x y w h c s =
  paint_rows (fun _ _ => c) x (Z.min w (width (vbe_fb s) - x)) y (Z.min h (height (vbe_fb s) - y)) s.
Proof.
  intros Hok Hx Hy Hw Hh Hxw Hyh Hxs Hys. pose proof (fo_width _ Hok). pose proof (fo_height _ Hok).
  unfold vbe_fill_rect. rewrite (fo_init _ Hok). rewrite (proj2 (Z.eqb_neq w 0)), (proj2 (Z.eqb_neq h 0)) by lia.
  rewrite (proj2 (Z.leb_gt _ x)), (proj2 (Z.leb_gt _ y)) by lia. simpl. rewrite !u32_id by lia.
  replace (if width (vbe_fb s) <? x + w then _ else w) with (Z.min w (width (vbe_fb s) - x))
    by (destruct (Z.ltb_spec (width (vbe_fb s)) (x + w)); lia).
  replace (if height (vbe_fb s) <? y + h then _ else h) with (Z.min h (height (vbe_fb s) - y))
    by (destruct (Z.ltb_spec (height (vbe_fb s)) (y + h)); lia).
  destruct (Z.eqb_spec (bpp (vbe_fb s)) 32) as [Hb|]; [|done].
  apply (paint_rows32_eq s (fun _ _ => c)); (done || lia).
Qed.

Lemma fill_rect_spec s x y w h c :
  vbe_ok s -> is_color c -> 0 <= x -> 0 <= y -> 0 <= w -> 0 <= h -> x + w < 4294967296 -> y + h < 4294967296 ->
  repaint s (vbe_fill_rect x y w h c s) (over_rect x y w h (fun _ _ => c) s).
Proof.
  intros Hok Hc Hx Hy Hw Hh Hxw Hyh.
  destruct (decide (w = 0 \/ h = 0 \/ width (vbe_fb s) <= x \/ height (vbe_fb s) <= y)) as [Hno|Hyes].
  - replace (vbe_fill_rect x y w h c s) with s.
    + eapply repaint_step; [apply repaint_refl..|]. intros x' y' [? ?] _. unfold over_rect. by rewrite decide_False by lia.
    + unfold vbe_fill_rect. destruct (Z.eqb_spec w 0), (Z.eqb_spec h 0), (initialized (vbe_fb s)); try done. simpl.
      destruct (Z.leb_spec (width (vbe_fb s)) x), (Z.leb_spec (height (vbe_fb s)) y); (done || lia).
  - rewrite fill_rect_rows by (done || lia).
    eapply repaint_step; [apply repaint_refl|apply paint_rows_spec; (done || lia)|].
    intros x' y' [? ?] _. unfold over_rect. repeat case_decide; (done || lia).
Qed.

(** ** Characters *)

(** The picture of a character. *)
Definition cell (c fg bg : Z) (col row : Z) : Z := if glyph_bit (nthZ 0 (glyph c) row) col then fg else bg.

Lemma draw_char_spec s x y c fg bg :
  vbe_ok s -> is_color fg -> is_color bg -> 0 <= x -> 0 <= y ->
  x + FONT_WIDTH <= width (vbe_fb s) -> y + FONT_HEIGHT <= height (vbe_fb s) ->
  repaint s (vbe_draw_char x y c fg bg s) (over_rect x y FONT_WIDTH FONT_HEIGHT (cell c fg bg) s).
Proof.
  intros Hok Hfg Hbg Hx Hy Hxw Hyh. pose proof (fo_width _ Hok). pose proof (fo_height _ Hok).
  replace (vbe_draw_char x y c fg bg s) with (paint_rows (cell c fg bg) x FONT_WIDTH y FONT_HEIGHT s).
  { apply paint_rows_spec; try done. intros i j. unfold cell. by case_goal. }
  assert (FONT_WIDTH = 8 /\ FONT_HEIGHT = 16) as [? ?] by done.
  unfold vbe_draw_char. rewrite (fo_init _ Hok). rewrite !u32_id by lia.
  rewrite (proj2 (Z.ltb_ge _ _) Hxw), (proj2 (Z.ltb_ge _ _) Hyh). cbn [negb orb].
  destruct (Z.eqb_spec (bpp (vbe_fb s)) 32) as [Hb|]; [|unfold paint_rows, paint_row, draw_row, cell; reflexivity].
  rewrite <- paint_rows32_eq by done. unfold paint_row32, draw_row32, cell.
  apply (for_range_ext (fun _ => True)); [done|]. intros row s1 _ _. split; [|done].
  apply (for_range_ext (fun _ => True)); [done|]. intros col s2 _ _. split; [|done]. by destruct (glyph_bit _ _).
Qed.

(** ** Scrolling *)

Lemma raw_load_ext fb m m' a a' :
  fb_ok fb -> (forall i, 0 <= i < pixel_bytes fb -> ld8 m (a + i) = ld8 m' (a' + i)) ->
  raw_load fb m a = raw_load fb m' a'.
Proof.
  intros Hfb Hext. unfold raw_load, ld32, pixel_bytes in *.
  pose proof (Hext 0) as H0. rewrite !Z.add_0_r in H0.
  destruct (fo_bpp _ Hfb) as [Hb|Hb]; rewrite Hb in *; simpl; rewrite H0, !Hext by (split; [lia|reflexivity]); done.
Qed.

(** The picture after the rows from [top] have moved up by [lines]. *)
Definition moved_up (top rows lines : Z) s (x y : Z) : Z :=
  if decide (top <= y < top + rows) then vbe_getpixel x (y + lines) s else vbe_getpixel x y s.

Lemma move_rows s top rows lines :
  vbe_ok s -> 0 <= top -> 0 <= rows -> 0 <= lines -> top + rows + lines <= height (vbe_fb s) ->
  let fb := vbe_fb s in
  exists m, memcpy (vbe_mem s) (virt_addr fb + top * pitch fb) (virt_addr fb + (top + lines) * pitch fb) (rows * pitch fb) = Some m /\
    repaint s (with_vmem m s) (moved_up top rows lines s).
Proof.
  intros Hok Ht Hr Hl Hh. cbv zeta. pose proof Hok as [_ Hb Hv Hw _ Hp Hsz _ _ _ _ _ _]. set (fb := vbe_fb s) in *.
  assert (Hpb : 3 <= pixel_bytes fb <= 4) by (unfold pixel_bytes; destruct Hb as [-> | ->]; done).
  assert (0 <= pitch fb) by nia.
  assert (0 <= top * pitch fb) by (apply Z.mul_nonneg_nonneg; lia).
  assert (0 <= rows * pitch fb) by (apply Z.mul_nonneg_nonneg; lia).
  assert (0 <= lines * pitch fb) by (apply Z.mul_nonneg_nonneg; lia).
  assert ((top + rows + lines) * pitch fb <= height fb * pitch fb) by (apply Z.mul_le_mono_nonneg_r; lia).
  destruct (memcpy_total (vbe_mem s) (virt_addr fb + top * pitch fb)
    (virt_addr fb + (top + lines) * pitch fb) (rows * pitch fb)) as (m & Hm & Hmoved); try lia.
  exists m. split; [done|]. split; [split_and!; try done|].
  - intros a Ha. unfold outside in Ha. fold fb in Ha. simpl vbe_mem. rewrite Hmoved, decide_False; [done|lia].
  - intros x y Hs. assert (vbe_ok (with_vmem m s)) by done. rewrite getpixel_raw by done.
    change (on_screen fb x y) in Hs.
    unfold moved_up, addr_of. simpl. fold fb. destruct (pixel_addr_eq fb Hok x y Hs) as [Ha [Ha1 _]].
    assert (0 <= x * pixel_bytes fb) by (apply Z.mul_nonneg_nonneg; unfold on_screen in Hs; lia).
    case_decide as Hy.
    + assert (Hs' : on_screen fb x (y + lines)) by (unfold on_screen in *; lia).
      rewrite getpixel_raw by done. unfold addr_of. fold fb. f_equal. apply raw_load_ext; [done|]. intros i Hi.
      destruct (pixel_addr_eq fb Hok x (y + lines) Hs') as [Ha' _]. rewrite Ha, Ha', Hmoved.
      assert (top * pitch fb <= y * pitch fb) by (apply Z.mul_le_mono_nonneg_r; lia).
      assert ((y + 1) * pitch fb <= (top + rows) * pitch fb) by (apply Z.mul_le_mono_nonneg_r; lia).
      rewrite decide_True by lia. f_equal. lia.
    + rewrite getpixel_raw by done. unfold addr_of. fold fb. f_equal. apply raw_load_ext; [done|]. intros i Hi.
      rewrite Ha, Hmoved, decide_False; [done|]. intros [Hlo Hhi].
      assert (y < top \/ top + rows <= y) as [|] by lia.
      * assert ((y + 1) * pitch fb <= top * pitch fb) by (apply Z.mul_le_mono_nonneg_r; lia). lia.
      * assert ((top + rows) * pitch fb <= y * pitch fb) by (apply Z.mul_le_mono_nonneg_r; lia). lia.
Qed.

(** Scrolling moves the rows of the region up and blanks the last ones. *)
Lemma scroll_region_spec s top h lines bg :
  vbe_ok s -> is_color bg -> 0 <= top -> 0 < lines < h -> top + h <= height (vbe_fb s) ->
  exists s', vbe_scroll_region top h lines bg s = Some s' /\
    repaint s s' (fun x y => if decide (top + (h - lines) <= y < top + h) then bg
                             else moved_up top (h - lines) lines s x y).
Proof.
  intros Hok Hbg Ht Hl Hh. pose proof Hok as [_ Hb Hv Hw Hhh Hp Hsz _ _ _ _ _ _].
  assert (Hpb : 3 <= pixel_bytes (vbe_fb s) <= 4) by (unfold pixel_bytes; destruct Hb as [-> | ->]; done).
  assert (0 <= pitch (vbe_fb s)) by nia.
  assert (forall k, 0 <= k <= height (vbe_fb s) -> 0 <= k * pitch (vbe_fb s) <= height (vbe_fb s) * pitch (vbe_fb s)) as Hk.
  { intros k ?. split; [apply Z.mul_nonneg_nonneg|apply Z.mul_le_mono_nonneg_r]; lia. }
  pose proof (Hk top). pose proof (Hk (top + lines)). pose proof (Hk (h - lines)).
  unfold vbe_scroll_region. rewrite (fo_init _ Hok), (proj2 (Z.eqb_neq lines 0)), (proj2 (Z.eqb_neq h 0)) by lia.
  rewrite (proj2 (Z.leb_gt _ top)) by lia. simpl. rewrite (u32_id (top + h)) by lia.
  rewrite (proj2 (Z.ltb_ge _ (top + h))) by lia. rewrite (proj2 (Z.leb_gt h lines)) by lia.
  rewrite (u32_id (h - lines)), (u32_id (top + lines)), !(u32_id (_ * pitch _)), !u32_id by lia.
  destruct (move_rows s top (h - lines) lines) as (m & Hm & Hmv); [done|lia..|]. simpl in Hm. rewrite Hm. simpl.
  eexists. split; [done|]. pose proof (repaint_ok _ _ _ Hmv Hok) as Hok1.
  eapply repaint_step; [exact Hmv|apply fill_rect_spec; (done || lia)|].
  intros x y Hs Heq. unfold over_rect. rewrite Heq. unfold on_screen in Hs. repeat case_decide; (done || lia).
Qed.
End picture.
