(* ===== verification/Mouse.v ===== *)
(** Mouse: the PS/2 mouse of [kernel/mouse.c]: the controller handshake, the
    packet decoder and the pointer drawn on the framebuffer.

    The pointer keeps the pixels it covers in [cursor_save].  The framebuffer
    is that of [Vbe], the ports those of [Ports]. *)

From S2P Require Import Prelude Ports Memory Common Font Pmm Paging Vbe Pic.
#[local] Open Scope kernel_scope.

Definition PS2_DATA_PORT : Z := 96.
Definition PS2_STATUS_PORT : Z := 100.
Definition PS2_COMMAND_PORT : Z := 100.
Definition PS2_CMD_READ_CONFIG : Z := 32.
Definition PS2_CMD_WRITE_CONFIG : Z := 96.
Definition PS2_CMD_DISABLE_PORT2 : Z := 167.
Definition PS2_CMD_ENABLE_PORT2 : Z := 168.
Definition PS2_CMD_DISABLE_PORT1 : Z := 173.
Definition PS2_CMD_ENABLE_PORT1 : Z := 174.
Definition PS2_MOUSE_CMD_SET_DEFAULTS : Z := 246.
Definition PS2_MOUSE_CMD_ENABLE : Z := 244.
Definition PS2_MOUSE_CMD_SET_SAMPLE : Z := 243.
Definition PS2_MOUSE_CMD_GET_DEV_ID : Z := 242.
Definition PS2_ACK : Z := 250.
Definition PS2_MOUSE_ID_WHEEL : Z := 3.
Definition PS2_MOUSE_ID_5BUTTON : Z := 4.
Definition MOUSE_PKT_LEFT_BUTTON : Z := 1.
Definition MOUSE_PKT_RIGHT_BUTTON : Z := 2.
Definition MOUSE_PKT_MIDDLE_BUTTON : Z := 4.
Definition MOUSE_PKT_X_SIGN : Z := 16.
Definition MOUSE_PKT_Y_SIGN : Z := 32.
Definition MOUSE_PKT_X_OVERFLOW : Z := 64.
Definition MOUSE_PKT_Y_OVERFLOW : Z := 128.
Definition MOUSE_CURSOR_WIDTH : Z := 12.
Definition MOUSE_CURSOR_HEIGHT : Z := 19.
Definition MOUSE_BTN_LEFT : Z := 1.
Definition MOUSE_BTN_RIGHT : Z := 2.
Definition MOUSE_BTN_MIDDLE : Z := 4.

Record mouse_state_t := MouseState {
  mx : Z; my : Z; buttons : Z; wheel_delta : Z; mouse_present : bool; has_wheel : bool;
  packet_index : Z; packet : list Z; packet_size : Z;
  cursor_save : list Z; cursor_old_x : Z; cursor_old_y : Z; cursor_dirty : bool; cursor_visible : bool
}.

(** [cursor_bitmap], each row as the 16-bit word the code makes of it. *)
Definition cursor_bitmap : list (Z * Z) :=
  [(128, 0); (192, 0); (224, 0); (240, 0); (248, 0); (252, 0); (254, 0); (255, 0); (255, 128); (255, 192);
   (255, 224); (240, 224); (224, 224); (192, 112); (128, 112); (0, 56); (0, 56); (0, 28); (0, 28)].
Definition cursor_bits (row : Z) : Z :=
  let '(a, b) := nthZ (0, 0) cursor_bitmap row in u16 (Z.lor (Z.shiftl a 8) b).
Definition cursor_bit (row col : Z) : bool := Z.testbit (cursor_bits row) (15 - col).

Definition is_edge (row col : Z) : bool :=
  (row =? 0) || (row =? MOUSE_CURSOR_HEIGHT - 1) || (col =? 0) || (col =? MOUSE_CURSOR_WIDTH - 1) ||
  existsb (fun dr => existsb (fun dc => negb (cursor_bit (row + dr) (col + dc))) [-1; 0; 1]) [-1; 0; 1].

(** ** The packet decoder *)

Definition set_packet (i : Z) (p : list Z) (m : mouse_state_t) : mouse_state_t :=
  MouseState (mx m) (my m) (buttons m) (wheel_delta m) (mouse_present m) (has_wheel m) i p (packet_size m)
    (cursor_save m) (cursor_old_x m) (cursor_old_y m) (cursor_dirty m) (cursor_visible m).
Definition set_pos (x y : Z) (dirty : bool) (m : mouse_state_t) : mouse_state_t :=
  MouseState x y (buttons m) (wheel_delta m) (mouse_present m) (has_wheel m) (packet_index m) (packet m) (packet_size m)
    (cursor_save m) (cursor_old_x m) (cursor_old_y m) dirty (cursor_visible m).
Definition set_buttons (b w : Z) (m : mouse_state_t) : mouse_state_t :=
  MouseState (mx m) (my m) b w (mouse_present m) (has_wheel m) (packet_index m) (packet m) (packet_size m)
    (cursor_save m) (cursor_old_x m) (cursor_old_y m) (cursor_dirty m) (cursor_visible m).

(** A movement byte with its sign bit: [d |= 0xFFFFFF00] when negative. *)
Definition delta (flags sign d : Z) : Z := if bit_set flags sign then s32 (Z.lor d 4294967040) else d.

Definition clamp (v max : Z) : Z :=
  let v := if v <? 0 then 0 else v in if s32 max <=? v then s32 max - 1 else v.

Definition move_pointer (fb : vbe_fb_t) (pkt : list Z) (m : mouse_state_t) : mouse_state_t :=
  let flags := nthZ 0 pkt 0 in
  let dx := delta flags MOUSE_PKT_X_SIGN (nthZ 0 pkt 1) in
  let dy := s32 (- delta flags MOUSE_PKT_Y_SIGN (nthZ 0 pkt 2)) in
  let max_w := if initialized fb then width fb else 800 in
  let max_h := if initialized fb then height fb else 600 in
  set_pos (clamp (s32 (mx m + dx)) max_w) (clamp (s32 (my m + dy)) max_h)
    (if initialized fb then true else cursor_dirty m) m.

Definition pkt_buttons (flags : Z) : Z :=
  Z.lor (Z.lor (if bit_set flags MOUSE_PKT_LEFT_BUTTON then MOUSE_BTN_LEFT else 0)
               (if bit_set flags MOUSE_PKT_RIGHT_BUTTON then MOUSE_BTN_RIGHT else 0))
        (if bit_set flags MOUSE_PKT_MIDDLE_BUTTON then MOUSE_BTN_MIDDLE else 0).

Definition pkt_wheel (b : Z) : Z :=
  let d := s8 (Z.land b 15) in if bit_set d 8 then s8 (Z.lor d 240) else d.

(** [mouse_handler] on the byte it has read. *)
Definition mouse_byte (fb : vbe_fb_t) (data : Z) (m : mouse_state_t) : mouse_state_t :=
  if negb (mouse_present m) then m
  else if (packet_index m =? 0) && negb (bit_set data 8) then m
  else
    let m := set_packet (u8 (packet_index m + 1)) (updZ (packet_index m) data (packet m)) m in
    if packet_size m <=? packet_index m then
      let m := set_packet 0 (packet m) m in
      let pkt := packet m in
      let flags := nthZ 0 pkt 0 in
      let m := if bit_set flags (Z.lor MOUSE_PKT_X_OVERFLOW MOUSE_PKT_Y_OVERFLOW) then m else move_pointer fb pkt m in
      set_buttons (pkt_buttons flags) (if 4 <=? packet_size m then pkt_wheel (nthZ 0 pkt 3) else wheel_delta m) m
    else m.

(** ** The pointer on the screen *)

Definition set_save (l : list Z) (m : mouse_state_t) : mouse_state_t :=
  MouseState (mx m) (my m) (buttons m) (wheel_delta m) (mouse_present m) (has_wheel m) (packet_index m) (packet m)
    (packet_size m) l (cursor_old_x m) (cursor_old_y m) (cursor_dirty m) (cursor_visible m).
Definition set_shown (x y : Z) (m : mouse_state_t) : mouse_state_t :=
  MouseState (mx m) (my m) (buttons m) (wheel_delta m) (mouse_present m) (has_wheel m) (packet_index m) (packet m)
    (packet_size m) (cursor_save m) x y (cursor_dirty m) true.
Definition set_visible (b : bool) (m : mouse_state_t) : mouse_state_t :=
  MouseState (mx m) (my m) (buttons m) (wheel_delta m) (mouse_present m) (has_wheel m) (packet_index m) (packet m)
    (packet_size m) (cursor_save m) (cursor_old_x m) (cursor_old_y m) (cursor_dirty m) b.
Definition set_dirty (b : bool) (m : mouse_state_t) : mouse_state_t :=
  set_pos (mx m) (my m) b m.

Definition save_index (row col : Z) : Z := row * MOUSE_CURSOR_WIDTH + col.

(** A body run at every position of the pointer image. *)
Definition for_cursor {S} (body : Z -> Z -> S -> S) (s : S) : S :=
  for_range 0 MOUSE_CURSOR_HEIGHT (fun row s => for_range 0 MOUSE_CURSOR_WIDTH (fun col s => body row col s) s) s.

(** The first loop nest of [mouse_draw_cursor].  Its [break]s at the right and
    bottom edges skip exactly the positions off the screen. *)
Definition save_under (x y : Z) (v : vbe) (save : list Z) : list Z :=
  for_cursor (fun row col save =>
    if (s32 (height (vbe_fb v)) <=? y + row) || (s32 (width (vbe_fb v)) <=? x + col) then save
    else updZ (save_index row col) (vbe_getpixel (u32 (x + col)) (u32 (y + row)) v) save) save.

Definition outside_screen (fb : vbe_fb_t) (x y : Z) : bool :=
  (x <? 0) || (s32 (width fb) <=? x) || (y <? 0) || (s32 (height fb) <=? y).

(** The second one. *)
Definition paint_cursor (x y : Z) (v : vbe) : vbe :=
  for_cursor (fun row col v =>
    if outside_screen (vbe_fb v) (x + col) (y + row) then v
    else if cursor_bit row col
      then vbe_putpixel (u32 (x + col)) (u32 (y + row)) (if is_edge row col then VBE_WHITE else VBE_BLACK) v
      else v) v.

Definition mouse_draw_cursor (mv : mouse_state_t * vbe) : mouse_state_t * vbe :=
  let '(m, v) := mv in
  if negb (initialized (vbe_fb v)) || negb (mouse_present m) then mv
  else if outside_screen (vbe_fb v) (mx m) (my m) then mv
  else (set_shown (mx m) (my m) (set_save (save_under (mx m) (my m) v (cursor_save m)) m), paint_cursor (mx m) (my m) v).

Definition restore_under (x y : Z) (save : list Z) (v : vbe) : vbe :=
  for_cursor (fun row col v =>
    if outside_screen (vbe_fb v) (x + col) (y + row) then v
    else vbe_putpixel (u32 (x + col)) (u32 (y + row)) (nthZ 0 save (save_index row col)) v) v.

Definition mouse_erase_cursor (mv : mouse_state_t * vbe) : mouse_state_t * vbe :=
  let '(m, v) := mv in
  if negb (initialized (vbe_fb v)) || negb (cursor_visible m) then mv
  else (set_visible false m, restore_under (cursor_old_x m) (cursor_old_y m) (cursor_save m) v).

Definition mouse_update_cursor (mv : mouse_state_t * vbe) : mouse_state_t * vbe :=
  let '(m, v) := mv in
  if negb (initialized (vbe_fb v)) || negb (mouse_present m) || negb (cursor_dirty m) then mv
  else
    let m := set_dirty false m in
    if cursor_visible m && (mx m =? cursor_old_x m) && (my m =? cursor_old_y m) then (m, v)
    else mouse_draw_cursor (mouse_erase_cursor (m, v)).

(** ** The controller *)

Section controller.
Context {H : Type} `{Ports H}.

(** [while (--timeout > 0) if (ready) return 0; return -1], from 100000. *)
Fixpoint ps2_wait (n : nat) (ready : Z -> bool) : ST H bool :=
  match n with
  | O => st_ret false
  | S n => st <~ inb PS2_STATUS_PORT;; if ready st then st_ret true else ps2_wait n ready
  end.
Definition ps2_timeout : nat := Z.to_nat 99999.
Definition ps2_wait_output : ST H bool := ps2_wait ps2_timeout (fun st => bit_set st 1).
Definition ps2_wait_input : ST H bool := ps2_wait ps2_timeout (fun st => negb (bit_set st 2)).

Definition ps2_flush_output : ST H unit := drain 64 PS2_STATUS_PORT 1 PS2_DATA_PORT.

Definition ps2_read_config : ST H Z :=
  ok <~ ps2_wait_input;;
  if negb ok then st_ret 0 else
  outb PS2_COMMAND_PORT PS2_CMD_READ_CONFIG ;;;
  ok <~ ps2_wait_output;;
  if negb ok then st_ret 0 else inb PS2_DATA_PORT.

Definition ps2_write_config (config : Z) : ST H unit :=
  ok <~ ps2_wait_input;;
  if negb ok then st_ret tt else
  outb PS2_COMMAND_PORT PS2_CMD_WRITE_CONFIG ;;;
  ok <~ ps2_wait_input;;
  if negb ok then st_ret tt else outb PS2_DATA_PORT config.

(** The configuration byte with the keyboard, and the mouse, enabled. *)
Definition restored_config (config : Z) (enable_mouse_irq : bool) : Z :=
  let config := Z.land (Z.lor config 1) (Z.lnot 16) in
  u8 (if enable_mouse_irq then Z.land (Z.lor config 2) (Z.lnot 32) else config).

Definition ps2_restore_keyboard (enable_mouse_irq : bool) : ST H unit :=
  config <~ ps2_read_config;;
  ps2_write_config (restored_config config enable_mouse_irq) ;;;
  ok <~ ps2_wait_input;;
  (if ok then outb PS2_COMMAND_PORT PS2_CMD_ENABLE_PORT1 else st_ret tt) ;;;
  ps2_flush_output.

Definition mouse_send_cmd (cmd : Z) : ST H Z :=
  ok <~ ps2_wait_input;;
  if negb ok then st_ret (-1) else
  outb PS2_COMMAND_PORT 212 ;;;
  ok <~ ps2_wait_input;;
  if negb ok then st_ret (-1) else
  outb PS2_DATA_PORT cmd ;;;
  ok <~ ps2_wait_output;;
  if negb ok then st_ret (-1) else
  resp <~ inb PS2_DATA_PORT;;
  st_ret (if resp =? PS2_ACK then 0 else -2).

(** A list of commands whose answers are ignored. *)
Fixpoint send_all (cmds : list Z) : ST H unit :=
  match cmds with [] => st_ret tt | c :: cmds => mouse_send_cmd c ;;; send_all cmds end.

(** Whether the device reports a wheel: the 200, 100, 80 sample rates. *)
Definition probe_wheel : ST H bool :=
  send_all [PS2_MOUSE_CMD_SET_SAMPLE; 200; PS2_MOUSE_CMD_SET_SAMPLE; 100; PS2_MOUSE_CMD_SET_SAMPLE; 80] ;;;
  rc <~ mouse_send_cmd PS2_MOUSE_CMD_GET_DEV_ID;;
  if rc <? 0 then st_ret false else
  ok <~ ps2_wait_output;;
  if negb ok then st_ret false else
  id <~ inb PS2_DATA_PORT;;
  st_ret ((id =? PS2_MOUSE_ID_WHEEL) || (id =? PS2_MOUSE_ID_5BUTTON)).

(** The handshake of [mouse_init]: whether the mouse is in service, and
    whether a wheel was found. *)
Definition mouse_handshake : ST H (bool * bool) :=
  let bail_out wheel := ps2_restore_keyboard false ;;; st_ret (false, wheel) in
  ok <~ ps2_wait_input;;
  if negb ok then st_ret (false, false) else
  outb PS2_COMMAND_PORT PS2_CMD_DISABLE_PORT1 ;;;
  ok <~ ps2_wait_input;;
  if negb ok then bail_out false else
  outb PS2_COMMAND_PORT PS2_CMD_DISABLE_PORT2 ;;;
  ps2_flush_output ;;;
  ok <~ ps2_wait_input;;
  if negb ok then bail_out false else
  outb PS2_COMMAND_PORT PS2_CMD_ENABLE_PORT2 ;;;
  config <~ ps2_read_config;;
  if bit_set config 32 then bail_out false else
  rc <~ mouse_send_cmd PS2_MOUSE_CMD_SET_DEFAULTS;;
  if rc <? 0 then bail_out false else
  wheel <~ probe_wheel;;
  send_all [PS2_MOUSE_CMD_SET_SAMPLE; 100] ;;;
  rc <~ mouse_send_cmd PS2_MOUSE_CMD_ENABLE;;
  if rc <? 0 then bail_out wheel else
  ps2_restore_keyboard true ;;;
  pic_unmask_irq 2 ;;; pic_unmask_irq 12 ;;;
  st_ret (true, wheel).

(** The state after [memset] and the wheel probe. *)
Definition fresh_mouse (x y : Z) (present wheel : bool) : mouse_state_t :=
  MouseState x y 0 0 present wheel 0 [0; 0; 0; 0] (if wheel then 4 else 3) (replicate 228 0) (-1) (-1) false false.

Definition mouse_init (v : vbe) : ST H (mouse_state_t * vbe) :=
  r <~ mouse_handshake;;
  let '(in_service, wheel) := r in
  if negb in_service then st_ret (fresh_mouse 0 0 false wheel, v)
  else
    let fb := vbe_fb v in
    let '(x, y) := if initialized fb then (s32 (width fb / 2), s32 (height fb / 2)) else (400, 300) in
    let m := fresh_mouse x y true wheel in
    st_ret (if initialized fb then mouse_draw_cursor (m, v) else (m, v)).

Definition mouse_handler (fb : vbe_fb_t) (m : mouse_state_t) : ST H mouse_state_t :=
  status <~ inb PS2_STATUS_PORT;;
  if negb (bit_set status 1) then st_ret m else
  data <~ inb PS2_DATA_PORT;;
  st_ret (mouse_byte fb data m).
End controller.

Definition mouse_get_x (m : mouse_state_t) : Z := mx m.
Definition mouse_get_y (m : mouse_state_t) : Z := my m.
Definition mouse_get_buttons (m : mouse_state_t) : Z := buttons m.
Definition mouse_is_present (m : mouse_state_t) : bool := mouse_present m.
