(* ===== verification/MouseSpec.v ===== *)
(** MouseSpec: the mouse of [Mouse].  The decoder keeps its packet buffer in
    bounds and the pointer on the screen, and the pointer image never damages
    the picture under it. *)

From S2P Require Import Prelude Ports Memory Common Font Pmm Paging Vbe VbeSpec Pic Mouse.

(** ** The decoder *)

(** The size of the area the pointer moves in. *)
Definition area (fb : vbe_fb_t) : Z * Z := if initialized fb then (width fb, height fb) else (800, 600).

Record mouse_ok (fb : vbe_fb_t) (m : mouse_state_t) : Prop := {
  mo_size : packet_size m = 3 \/ packet_size m = 4;
  mo_index : 0 <= packet_index m < packet_size m;
  mo_packet : length (packet m) = 4%nat /\ Forall is_u8 (packet m);
  mo_save : length (cursor_save m) = 228%nat;
  mo_x : 0 <= mx m < (area fb).1;
  mo_y : 0 <= my m < (area fb).2
}.

Lemma clamp_range v max : 0 < max < 2147483648 -> 0 <= clamp v max < max.
Proof.
  intros. unfold clamp. rewrite s32_id by lia. destruct (Z.ltb_spec v 0); case_goal; bool_to_prop; lia.
Qed.

(** Whatever byte arrives, the decoder stays in bounds and the pointer on the
    screen. *)
Lemma mouse_byte_ok fb data m :
  0 < (area fb).1 < 2147483648 -> 0 < (area fb).2 < 2147483648 -> is_u8 data ->
  mouse_ok fb m -> mouse_ok fb (mouse_byte fb data m).
Proof.
  intros Hw Hh Hd Hok. unfold mouse_byte. case_goal; [done|]. case_goal; [done|].
  pose proof Hok as [Hsz Hi [Hl Hu] Hs Hx Hy]. rewrite u8_id by lia.
  assert (Hpkt : length (updZ (packet_index m) data (packet m)) = 4%nat /\ Forall is_u8 (updZ (packet_index m) data (packet m))).
  { split; [|by apply Forall_updZ]. pose proof (lenZ_updZ (packet_index m) data (packet m)) as He. unfold lenZ in He. lia. }
  case_goal; simpl in *; bool_to_prop; [|split; simpl; try done; lia].
  unfold move_pointer. destruct (bit_set (nthZ 0 _ 0) _); split; simpl; try done; try lia.
  - replace (if initialized fb then width fb else 800) with (area fb).1 by (unfold area; by case_goal). by apply clamp_range.
  - replace (if initialized fb then height fb else 600) with (area fb).2 by (unfold area; by case_goal). by apply clamp_range.
Qed.

(** ** The pointer image *)

(** An invariant over the positions of the image, in the order of the loops. *)
Lemma for_cursor_inv {S} (I : Z -> S -> Prop) (body : Z -> Z -> S -> S) s :
  I 0 s ->
  (forall row col s, 0 <= row < 19 -> 0 <= col < 12 -> I (save_index row col) s -> I (save_index row col + 1) (body row col s)) ->
  I 228 (for_cursor body s).
Proof.
  intros H0 Hstep. unfold save_index, MOUSE_CURSOR_WIDTH in Hstep.
  refine (for_range_inv (fun row s => I (row * 12) s) 0 19 _ s _ _ _); [done..|].
  intros row s1 Hrow H1. replace ((row + 1) * 12) with (row * 12 + 12) by lia.
  refine (for_range_inv (fun col s => I (row * 12 + col) s) 0 12 _ s1 _ _ _); [done|by rewrite Z.add_0_r|].
  intros col s2 Hcol H2. rewrite Z.add_assoc. auto.
Qed.

(** The area of the image drawn at [x], [y]. *)
Definition under (x y x' y' : Z) : Prop := x <= x' < x + 12 /\ y <= y' < y + 19.
#[export] Instance under_dec x y x' y' : Decision (under x y x' y').
Proof. unfold under. apply _. Defined.

Section image.
Context (v : vbe) (Hok : vbe_ok v) (x y : Z) (Hx : 0 <= x < width (vbe_fb v)) (Hy : 0 <= y < height (vbe_fb v)).

Lemma outside_screen_spec fb a b :
  fb_ok fb -> outside_screen fb a b = negb (bool_decide (0 <= a < width fb /\ 0 <= b < height fb)).
Proof.
  intros Hfb. pose proof (fo_width _ Hfb). pose proof (fo_height _ Hfb). unfold outside_screen.
  rewrite !s32_id by lia. destruct (Z.ltb_spec a 0), (Z.leb_spec (width fb) a), (Z.ltb_spec b 0), (Z.leb_spec (height fb) b);
    simpl; symmetry; rewrite ?negb_true_iff, ?negb_false_iff; first [apply bool_decide_eq_false_2; lia|apply bool_decide_eq_true_2; lia].
Qed.

(** [save_under] stores the pixel of every position on the screen. *)
Definition saved (save : list Z) (f : Z -> Z -> Z) : Prop :=
  forall x' y', on_screen (vbe_fb v) x' y' -> under x y x' y' -> nthZ 0 save (save_index (y' - y) (x' - x)) = f x' y'.

Lemma save_under_spec save : length save = 228%nat ->
  length (save_under x y v save) = 228%nat /\ saved (save_under x y v save) (fun x' y' => vbe_getpixel x' y' v).
Proof using Hok Hx Hy.
  intros Hl. pose proof (fo_width _ Hok). pose proof (fo_height _ Hok).
  assert (lenZ (save_under x y v save) = 228 /\ forall row col, 0 <= row < 19 -> 0 <= col < 12 -> save_index row col < 228 ->
    on_screen (vbe_fb v) (x + col) (y + row) -> nthZ 0 (save_under x y v save) (save_index row col) = vbe_getpixel (x + col) (y + row) v) as [Hlen Hs].
  2:{ split; [unfold lenZ in Hlen; lia|]. intros x' y' Hon [Hx' Hy'].
      rewrite Hs; [by rewrite !Zplus_minus|lia|lia|unfold save_index, MOUSE_CURSOR_WIDTH; lia|by rewrite !Zplus_minus]. }
  refine (for_cursor_inv (fun k save => lenZ save = 228 /\ forall row col, 0 <= row < 19 -> 0 <= col < 12 -> save_index row col < k ->
    on_screen (vbe_fb v) (x + col) (y + row) -> nthZ 0 save (save_index row col) = vbe_getpixel (x + col) (y + row) v) _ save _ _).
  - split; [unfold lenZ; lia|]. unfold save_index, MOUSE_CURSOR_WIDTH. lia.
  - unfold save_index, MOUSE_CURSOR_WIDTH. intros row col s1 Hrow Hcol [Hl1 H1]. rewrite !s32_id by lia.
    split; [case_goal; [done|]; by rewrite lenZ_updZ|]. intros row' col' Hrow' Hcol' Hk Hon.
    destruct (decide (row' = row /\ col' = col)) as [[-> ->]|Hne].
    + unfold on_screen in Hon. destruct (Z.leb_spec (height (vbe_fb v)) (y + row)), (Z.leb_spec (width (vbe_fb v)) (x + col)); try lia.
      simpl. rewrite nthZ_updZ_eq by lia. by rewrite !u32_id by lia.
    + case_goal; [|rewrite nthZ_updZ_ne by lia]; apply H1; (done || lia).
Qed.

Lemma getpixel_color (w : vbe) a b : vbe_ok w -> on_screen (vbe_fb w) a b -> is_color (vbe_getpixel a b w).
Proof.
  clear. intros Hw Hs. rewrite getpixel_raw by done. unfold unpack_hw_color, is_color. destruct (standard_layout _).
  - change 16777215 with (Z.ones 24). rewrite Z.land_ones by lia. zlia.
  - change 16777216 with (2 ^ 24). pose proof (fun c => color_bytes c) as Hb.
    repeat apply lor_bound; try lia; try (apply shiftl_byte; [apply Hb|lia]).
    match goal with |- 0 <= Z.land ?c 255 < _ => pose proof (Hb c); lia end.
Qed.

(** Painting the image only touches the area under it. *)
Lemma paint_cursor_spec (w : vbe) : vbe_fb w = vbe_fb v ->
  only_picture w (paint_cursor x y w) /\
  forall x' y', on_screen (vbe_fb v) x' y' -> ~ under x y x' y' -> vbe_getpixel x' y' (paint_cursor x y w) = vbe_getpixel x' y' w.
Proof using Hok Hx Hy.
  intros Hfb. pose proof (fo_width _ Hok). pose proof (fo_height _ Hok).
  refine (for_cursor_inv (fun _ w1 => only_picture w w1 /\ forall x' y', on_screen (vbe_fb v) x' y' -> ~ under x y x' y' ->
    vbe_getpixel x' y' w1 = vbe_getpixel x' y' w) _ w _ _); [done|].
  intros row col w1 Hrow Hcol [Hp H1]. pose proof Hp as (Hfb1 & _). rewrite Hfb in Hfb1.
  rewrite outside_screen_spec by (by rewrite Hfb1). case_bool_decide as Hon; simpl; [|done]. case_goal; [|done].
  rewrite !u32_id by (rewrite Hfb1 in Hon; lia).
  assert (Hok1 : vbe_ok w1) by (unfold vbe_ok; by rewrite Hfb1).
  destruct (putpixel_spec w1 (x + col) (y + row) (if is_edge row col then VBE_WHITE else VBE_BLACK)) as [Hp2 H2]; [done..|by case_goal|].
  split; [by eapply only_picture_trans|]. intros x' y' Hs Hu. rewrite H2 by (by rewrite Hfb1).
  rewrite decide_False; [auto|]. unfold under in Hu. lia.
Qed.

(** Restoring puts the saved pixels back. *)
Lemma restore_under_spec (w : vbe) save :
  vbe_fb w = vbe_fb v ->
  (forall x' y', on_screen (vbe_fb v) x' y' -> under x y x' y' -> is_color (nthZ 0 save (save_index (y' - y) (x' - x)))) ->
  repaint w (restore_under x y save w)
    (fun x' y' => if decide (under x y x' y') then nthZ 0 save (save_index (y' - y) (x' - x)) else vbe_getpixel x' y' w).
Proof using Hok Hx Hy.
  intros Hfb Hcol. pose proof (fo_width _ Hok). pose proof (fo_height _ Hok).
  set (g k := fun x' y' => if decide (under x y x' y' /\ save_index (y' - y) (x' - x) < k)
                           then nthZ 0 save (save_index (y' - y) (x' - x)) else vbe_getpixel x' y' w).
  assert (Hg : repaint w (restore_under x y save w) (g 228)).
  2:{ eapply repaint_step; [exact Hg|apply repaint_refl|]. intros x' y' _ Heq. cbv beta. rewrite Heq. unfold g, under, save_index, MOUSE_CURSOR_WIDTH.
      repeat case_decide; (done || lia). }
  refine (for_cursor_inv (fun k w1 => repaint w w1 (g k)) _ w _ _).
  - eapply repaint_step; [apply repaint_refl..|]. intros x' y' _ _. unfold g. rewrite decide_False; [done|].
    unfold under, save_index, MOUSE_CURSOR_WIDTH. lia.
  - intros row col w1 Hrow Hc H1. pose proof (repaint_fb _ _ _ H1) as Hfb1. rewrite Hfb in Hfb1.
    assert (Hok1 : vbe_ok w1) by (unfold vbe_ok; by rewrite Hfb1).
    rewrite outside_screen_spec by done. case_bool_decide as Hon; simpl.
    + rewrite !u32_id by (rewrite Hfb1 in Hon; lia).
      eapply repaint_step; [exact H1|apply putpixel_spec; [done..|]|].
      * replace row with (y + row - y) by lia. replace col with (x + col - x) by lia.
        apply Hcol; [by rewrite <- Hfb1|unfold under; lia].
      * intros x' y' _ Heq. cbv beta. rewrite Heq. unfold g, under, save_index, MOUSE_CURSOR_WIDTH.
        repeat case_decide; try done; try lia. f_equal. lia.
    + eapply repaint_step; [exact H1|apply repaint_refl|]. intros x' y' Hs Heq. cbv beta. rewrite Heq. rewrite Hfb, <- Hfb1 in Hs. unfold g, under, save_index, MOUSE_CURSOR_WIDTH, on_screen in *.
      repeat case_decide; try done; lia.
Qed.
End image.

#[local] Arguments for_cursor : simpl never.
#[local] Arguments paint_cursor : simpl never.
#[local] Arguments save_under : simpl never.
#[local] Arguments restore_under : simpl never.

(** ** The picture under the pointer *)

(** The picture is [p], apart from the pointer when it is shown, and the
    pixels the pointer covers are those it has saved. *)
Definition shown (m : mouse_state_t) (v : vbe) (p : Z -> Z -> Z) : Prop :=
  if cursor_visible m then
    on_screen (vbe_fb v) (cursor_old_x m) (cursor_old_y m) /\
    saved v (cursor_old_x m) (cursor_old_y m) (cursor_save m) p /\
    (forall x y, on_screen (vbe_fb v) x y -> is_color (p x y)) /\
    forall x y, on_screen (vbe_fb v) x y -> ~ under (cursor_old_x m) (cursor_old_y m) x y -> vbe_getpixel x y v = p x y
  else forall x y, on_screen (vbe_fb v) x y -> vbe_getpixel x y v = p x y.

Lemma erase_spec m v p :
  vbe_ok v -> mouse_ok (vbe_fb v) m -> shown m v p ->
  let '(m', v') := mouse_erase_cursor (m, v) in
  only_picture v v' /\ mouse_ok (vbe_fb v) m' /\ cursor_visible m' = false /\
  mouse_present m' = mouse_present m /\
  forall x y, on_screen (vbe_fb v) x y -> vbe_getpixel x y v' = p x y.
Proof.
  intros Hok Hm Hsh. unfold mouse_erase_cursor, shown in *. rewrite (fo_init _ Hok). simpl.
  destruct (cursor_visible m) eqn:Hvis; simpl; [|done].
  destruct Hsh as ([Hx Hy] & Hsv & Hcol & Hout).
  destruct (restore_under_spec v Hok _ _ Hx Hy v (cursor_save m)) as [Hp Hpix]; [done| |].
  { intros x' y' Hs Hu. rewrite (Hsv x' y') by done. auto. }
  split_and!; try done; [by destruct Hm; split|].
  intros x y Hs. rewrite Hpix by done. case_decide; auto.
Qed.

Lemma draw_spec m v p :
  vbe_ok v -> mouse_ok (vbe_fb v) m -> cursor_visible m = false ->
  (forall x y, on_screen (vbe_fb v) x y -> vbe_getpixel x y v = p x y) ->
  let '(m', v') := mouse_draw_cursor (m, v) in
  only_picture v v' /\ mouse_ok (vbe_fb v) m' /\ shown m' v' p.
Proof.
  intros Hok Hm Hvis Hp. unfold mouse_draw_cursor. rewrite (fo_init _ Hok). simpl.
  destruct (mouse_present m); simpl; [|unfold shown; by rewrite Hvis].
  rewrite outside_screen_spec by done. case_bool_decide as Hon; simpl; [|unfold shown; by rewrite Hvis].
  destruct Hon as [Hx Hy].
  destruct (save_under_spec v Hok _ _ Hx Hy (cursor_save m) (mo_save _ _ Hm)) as [Hl Hsv].
  destruct (paint_cursor_spec v Hok _ _ Hx Hy v eq_refl) as [Hpp Hout]. pose proof Hpp as (Hfb & _).
  set (v1 := paint_cursor _ _ v) in *. set (sv := save_under _ _ v _) in *. clearbody v1 sv.
  split_and!; [done|by destruct Hm; split|]. unfold shown. simpl. rewrite Hfb. split_and!; [done| | |].
  - intros x' y' Hs Hu. rewrite Hfb in Hs. rewrite Hsv by done. auto.
  - intros x y Hs. rewrite <- Hp by done. by apply getpixel_color.
  - intros x y Hs Hu. rewrite Hout by done. auto.
Qed.

(** ** Runs *)

(** A byte arrives from the mouse, or the kernel redraws the pointer. *)
Inductive mouse_event := Byte (b : Z) | Redraw.

Definition mouse_step (e : mouse_event) (mv : mouse_state_t * vbe) : mouse_state_t * vbe :=
  match e with
  | Byte b => (mouse_byte (vbe_fb mv.2) b mv.1, mv.2)
  | Redraw => mouse_update_cursor mv
  end.
Definition mouse_run (es : list mouse_event) (mv : mouse_state_t * vbe) : mouse_state_t * vbe :=
  foldl (fun mv e => mouse_step e mv) mv es.
Definition byte_event (e : mouse_event) : Prop := match e with Byte b => is_u8 b | Redraw => True end.

Lemma mouse_byte_shown fb b m v p : shown m v p -> shown (mouse_byte fb b m) v p.
Proof.
  intros Hs. unfold mouse_byte. case_goal; [done|]. case_goal; [done|]. case_goal; [|done].
  by destruct (bit_set (nthZ 0 _ 0) _).
Qed.

Lemma area_ok v : vbe_ok v -> 0 < (area (vbe_fb v)).1 < 2147483648 /\ 0 < (area (vbe_fb v)).2 < 2147483648.
Proof.
  intros Hok. unfold area. rewrite (fo_init _ Hok). pose proof (fo_width _ Hok). pose proof (fo_height _ Hok). simpl. lia.
Qed.

Lemma mouse_step_ok e m v p :
  vbe_ok v -> mouse_ok (vbe_fb v) m -> shown m v p -> byte_event e ->
  let '(m', v') := mouse_step e (m, v) in only_picture v v' /\ mouse_ok (vbe_fb v) m' /\ shown m' v' p.
Proof.
  intros Hok Hm Hsh He. destruct e as [b|].
  - destruct (area_ok v Hok). split_and!; [done|by apply mouse_byte_ok|by apply mouse_byte_shown].
  - unfold mouse_step, mouse_update_cursor. rewrite (fo_init _ Hok). cbn [negb orb].
    destruct (mouse_present m) eqn:Hpres; cbn [negb orb]; [|done]. destruct (cursor_dirty m); cbn [negb orb]; [|done].
    assert (Hm' : mouse_ok (vbe_fb v) (set_dirty false m)) by (by destruct Hm; split).
    cbv zeta. destruct (cursor_visible (set_dirty false m) && _ && _); [done|].
    pose proof (erase_spec (set_dirty false m) v p Hok Hm' Hsh) as Her.
    destruct (mouse_erase_cursor (set_dirty false m, v)) as [m1 v1]. destruct Her as (Hp1 & Hm1 & Hv1 & _ & Hpix).
    pose proof Hp1 as (Hfb1 & _).
    pose proof (draw_spec m1 v1 p) as Hdr. rewrite Hfb1 in Hdr.
    destruct (mouse_draw_cursor (m1, v1)) as [m2 v2].
    destruct Hdr as (Hp2 & Hm2 & Hs2); [unfold vbe_ok; by rewrite Hfb1|done..|].
    split_and!; [by eapply only_picture_trans|done|done].
Qed.

Lemma mouse_run_ok es m v p :
  vbe_ok v -> mouse_ok (vbe_fb v) m -> shown m v p -> Forall byte_event es ->
  let '(m', v') := mouse_run es (m, v) in only_picture v v' /\ mouse_ok (vbe_fb v) m' /\ shown m' v' p.
Proof.
  intros Hok Hm Hsh Hes. revert m v Hok Hm Hsh. induction Hes as [|e es He Hes IH]; intros m v Hok Hm Hsh; [done|].
  unfold mouse_run. simpl. pose proof (mouse_step_ok e m v p Hok Hm Hsh He) as Hst.
  destruct (mouse_step e (m, v)) as [m1 v1]. destruct Hst as (Hp1 & Hm1 & Hs1). pose proof Hp1 as (Hfb1 & _).
  specialize (IH m1 v1). rewrite Hfb1 in IH. fold (mouse_run es (m1, v1)). destruct (mouse_run es (m1, v1)) as [m2 v2].
  destruct IH as (Hp2 & Hm2 & Hs2); [unfold vbe_ok; by rewrite Hfb1|done..|].
  split_and!; [by eapply only_picture_trans|done|done].
Qed.

(** C26: the mouse pointer leaves no trail.  Whatever bytes the mouse sends
    and however often the pointer is redrawn, it stays on the screen, the
    packet buffer is never overrun, and erasing the pointer gives back the
    picture as it was, with no byte outside of the framebuffer touched. *)
Theorem mouse_leaves_no_trail es m v :
  vbe_ok v -> mouse_ok (vbe_fb v) m -> cursor_visible m = false -> Forall byte_event es ->
  let '(m1, v1) := mouse_run es (m, v) in
  let '(m2, v2) := mouse_erase_cursor (m1, v1) in
  on_screen (vbe_fb v) (mx m1) (my m1) /\ 0 <= packet_index m1 < packet_size m1 /\ packet_size m1 <= 4 /\
  only_picture v v2 /\ forall x y, on_screen (vbe_fb v) x y -> vbe_getpixel x y v2 = vbe_getpixel x y v.
Proof.
  intros Hok Hm Hvis Hes.
  pose proof (mouse_run_ok es m v (fun x y => vbe_getpixel x y v) Hok Hm) as Hrun.
  destruct (mouse_run es (m, v)) as [m1 v1]. destruct Hrun as (Hp1 & Hm1 & Hs1); [unfold shown; by rewrite Hvis|done|].
  pose proof Hp1 as (Hfb1 & _).
  pose proof (erase_spec m1 v1 (fun x y => vbe_getpixel x y v)) as Her. rewrite Hfb1 in Her.
  destruct (mouse_erase_cursor (m1, v1)) as [m2 v2].
  destruct Her as (Hp2 & _ & _ & _ & Hpix); [unfold vbe_ok; by rewrite Hfb1|done|done|].
  pose proof (mo_x _ _ Hm1) as Hx. pose proof (mo_y _ _ Hm1) as Hy. pose proof (mo_index _ _ Hm1). pose proof (mo_size _ _ Hm1).
  unfold area in Hx, Hy. rewrite (fo_init _ Hok) in Hx, Hy. split_and!; try done; try lia. by eapply only_picture_trans.
Qed.

(** A 16 by 20 framebuffer and a mouse in its corner. *)
Definition small_screen : vbe :=
  Vbe (VbeFb true 1 16 20 64 32 1048576 1048576 16 8 8 8 0 8) VBE_YELLOW VBE_BLACK ∅.

Lemma small_screen_ok : vbe_ok small_screen.
Proof. split; simpl; unfold pixel_bytes, apart; simpl; try done; try lia; by left. Qed.

Lemma mouse_leaves_no_trail_witness :
  let es := [Byte 8; Byte 5; Byte 0; Redraw; Byte 24; Byte 251; Byte 255; Redraw] in
  let '(m1, v1) := mouse_run es (fresh_mouse 8 10 true false, small_screen) in
  let '(m2, v2) := mouse_erase_cursor (m1, v1) in
  on_screen (vbe_fb small_screen) (mx m1) (my m1) /\ 0 <= packet_index m1 < packet_size m1 /\ packet_size m1 <= 4 /\
  only_picture small_screen v2 /\
  forall x y, on_screen (vbe_fb small_screen) x y -> vbe_getpixel x y v2 = vbe_getpixel x y small_screen.
Proof.
  apply (mouse_leaves_no_trail _ (fresh_mouse 8 10 true false) small_screen); [exact small_screen_ok| |reflexivity|].
  - split; simpl; try done; try lia. split; [done|]. repeat apply Forall_cons_2; try apply Forall_nil_2; unfold is_u8; lia.
  - repeat apply Forall_cons_2; try apply Forall_nil_2; unfold byte_event, is_u8; (done || lia).
Defined.
