(* ===== verification/Keyboard.v ===== *)
(** Keyboard: the unified input of [kernel/keyboard.c]: the PS/2 scan-code
    decoder, the parser of the terminal escape sequences that arrive on the
    serial line, and the three queues they fill.

    Characters are bytes.  The state holds the static variables of the file,
    the serial driver (whose hardware also answers at the keyboard's ports)
    and the mouse, whose pointer the waits redraw. *)

From S2P Require Import Prelude Ports Partial Memory Common Ring Serial Font Pmm Paging Vbe Pic Mouse.
#[local] Open Scope partial_scope.

Definition KB_DATA_PORT : Z := 96.
Definition KB_STATUS_PORT : Z := 100.
Definition SC_ENTER : Z := 28.
Definition SC_LEFT_CTRL : Z := 29.
Definition SC_LEFT_SHIFT : Z := 42.
Definition SC_RIGHT_SHIFT : Z := 54.
Definition SC_LEFT_ALT : Z := 56.
Definition SC_CAPS_LOCK : Z := 58.
Definition SC_F1 : Z := 59.
Definition SC_F2 : Z := 60.
Definition SC_F3 : Z := 61.
Definition SC_F10 : Z := 68.
Definition SC_NUM_LOCK : Z := 69.
Definition SC_SCROLL_LOCK : Z := 70.
Definition SC_HOME : Z := 71.
Definition SC_UP : Z := 72.
Definition SC_PAGE_UP : Z := 73.
Definition SC_LEFT : Z := 75.
Definition SC_RIGHT : Z := 77.
Definition SC_END : Z := 79.
Definition SC_DOWN : Z := 80.
Definition SC_PAGE_DOWN : Z := 81.
Definition SC_DELETE : Z := 83.
Definition SC_F11 : Z := 87.
Definition SC_F12 : Z := 88.
Definition SC_RELEASE_BIT : Z := 128.
Definition KEY_NONE : Z := 0.
Definition KEY_SPECIAL_UP : Z := 1001.
Definition KEY_SPECIAL_DOWN : Z := 1002.
Definition KEY_SPECIAL_LEFT : Z := 1003.
Definition KEY_SPECIAL_RIGHT : Z := 1004.
Definition KEY_SPECIAL_HOME : Z := 1005.
Definition KEY_SPECIAL_END : Z := 1006.
Definition KEY_SPECIAL_DELETE : Z := 1007.
Definition KEY_SPECIAL_PGUP : Z := 1008.
Definition KEY_SPECIAL_PGDN : Z := 1009.
Definition KEY_SPECIAL_F1 : Z := 1010.
Definition KEY_SPECIAL_F2 : Z := 1011.
Definition CTRL_KEY (c : Z) : Z := Z.land c 31.

Record keyboard_modifiers_t := Modifiers {
  shift : bool; ctrl : bool; alt : bool; caps : bool; num : bool; scroll : bool; reserved : Z
}.
Record keycode_t := Keycode { ascii : Z; scancode : Z; mods : keyboard_modifiers_t }.

Record keyboard := Keyboard {
  kb_modifiers : keyboard_modifiers_t;
  key_buffer : ring Z;
  keycode_buffer : ring keycode_t;
  event_buffer : ring Z;
  e0_prefix : bool;
  ansi_state : Z;
  ansi_param : Z
}.

Definition scancode_lower : list Z :=
  [0; 27; 49; 50; 51; 52; 53; 54; 55; 56; 57; 48; 45; 61; 8;
   9; 113; 119; 101; 114; 116; 121; 117; 105; 111; 112; 91; 93; 10;
   0; 97; 115; 100; 102; 103; 104; 106; 107; 108; 59; 39; 96;
   0; 92; 122; 120; 99; 118; 98; 110; 109; 44; 46; 47; 0; 42;
   0; 32; 0; 0; 0; 0; 0; 0; 0; 0; 0; 0; 0; 0; 0;
   55; 56; 57; 45; 52; 53; 54; 43; 49; 50; 51; 48; 46;
   0; 0; 0; 0; 0].

Definition scancode_upper : list Z :=
  [0; 27; 33; 64; 35; 36; 37; 94; 38; 42; 40; 41; 95; 43; 8;
   9; 81; 87; 69; 82; 84; 89; 85; 73; 79; 80; 123; 125; 10;
   0; 65; 83; 68; 70; 71; 72; 74; 75; 76; 58; 34; 126;
   0; 124; 90; 88; 67; 86; 66; 78; 77; 60; 62; 63; 0; 42;
   0; 32; 0; 0; 0; 0; 0; 0; 0; 0; 0; 0; 0; 0; 0;
   55; 56; 57; 45; 52; 53; 54; 43; 49; 50; 51; 48; 46;
   0; 0; 0; 0; 0].

Definition with_mods (x : keyboard_modifiers_t) (k : keyboard) : keyboard :=
  Keyboard x (key_buffer k) (keycode_buffer k) (event_buffer k) (e0_prefix k) (ansi_state k) (ansi_param k).
Definition with_e0 (b : bool) (k : keyboard) : keyboard :=
  Keyboard (kb_modifiers k) (key_buffer k) (keycode_buffer k) (event_buffer k) b (ansi_state k) (ansi_param k).
Definition with_ansi (st p : Z) (k : keyboard) : keyboard :=
  Keyboard (kb_modifiers k) (key_buffer k) (keycode_buffer k) (event_buffer k) (e0_prefix k) st p.
Definition with_keys (r : ring Z) (k : keyboard) : keyboard :=
  Keyboard (kb_modifiers k) r (keycode_buffer k) (event_buffer k) (e0_prefix k) (ansi_state k) (ansi_param k).
Definition with_codes (r : ring keycode_t) (k : keyboard) : keyboard :=
  Keyboard (kb_modifiers k) (key_buffer k) r (event_buffer k) (e0_prefix k) (ansi_state k) (ansi_param k).
Definition with_events (r : ring Z) (k : keyboard) : keyboard :=
  Keyboard (kb_modifiers k) (key_buffer k) (keycode_buffer k) r (e0_prefix k) (ansi_state k) (ansi_param k).

Definition event_push (ev : Z) (k : keyboard) : keyboard := with_events (ring_push ev (event_buffer k)) k.
Definition buffer_push (ch : Z) (k : keyboard) : keyboard := with_keys (ring_push ch (key_buffer k)) k.
Definition keycode_push (key : keycode_t) (k : keyboard) : keyboard := with_codes (ring_push key (keycode_buffer k)) k.

(** ** The scan-code decoder *)

Definition scancode_to_ascii (m : keyboard_modifiers_t) (scancode : Z) : Z :=
  if 128 <=? scancode then 0 else
  let use_upper := if shift m then negb (caps m) else caps m in
  let lower := nthZ 0 scancode_lower scancode in
  let upper := nthZ 0 scancode_upper scancode in
  if (97 <=? lower) && (lower <=? 122) then
    if ctrl m then CTRL_KEY lower else if use_upper then upper else lower
  else if shift m then upper else lower.

(** The first [switch] of [keyboard_handler]: the modifiers after the key, or
    [None] for another key. *)
Definition modifier_key (key : Z) (released : bool) (m : keyboard_modifiers_t) : option keyboard_modifiers_t :=
  let '(Modifiers sh ct al ca nu sc rs) := m in
  if (key =? SC_LEFT_SHIFT) || (key =? SC_RIGHT_SHIFT) then Some (Modifiers (negb released) ct al ca nu sc rs)
  else if key =? SC_LEFT_CTRL then Some (Modifiers sh (negb released) al ca nu sc rs)
  else if key =? SC_LEFT_ALT then Some (Modifiers sh ct (negb released) ca nu sc rs)
  else if key =? SC_CAPS_LOCK then Some (if released then m else Modifiers sh ct al (negb ca) nu sc rs)
  else if key =? SC_NUM_LOCK then Some (if released then m else Modifiers sh ct al ca (negb nu) sc rs)
  else if key =? SC_SCROLL_LOCK then Some (if released then m else Modifiers sh ct al ca nu (negb sc) rs)
  else None.

(** The navigation cases that both later [switch]es share. *)
Definition nav_event (key : Z) : option Z :=
  if key =? SC_UP then Some KEY_SPECIAL_UP
  else if key =? SC_DOWN then Some KEY_SPECIAL_DOWN
  else if key =? SC_LEFT then Some KEY_SPECIAL_LEFT
  else if key =? SC_RIGHT then Some KEY_SPECIAL_RIGHT
  else if key =? SC_HOME then Some KEY_SPECIAL_HOME
  else if key =? SC_END then Some KEY_SPECIAL_END
  else if key =? SC_DELETE then Some KEY_SPECIAL_DELETE
  else if key =? SC_PAGE_UP then Some KEY_SPECIAL_PGUP
  else if key =? SC_PAGE_DOWN then Some KEY_SPECIAL_PGDN
  else None.

Definition extended_key (key : Z) (k : keyboard) : keyboard :=
  if key =? SC_ENTER then event_push 10 (buffer_push 10 k)
  else if key =? 53 then event_push 47 (buffer_push 47 k)
  else match nav_event key with Some ev => event_push ev k | None => k end.

(** The rest of the handler, for the key itself. *)
Definition plain_key (key : Z) (k : keyboard) : keyboard :=
  if key =? SC_F1 then event_push KEY_SPECIAL_F1 k
  else if key =? SC_F2 then event_push KEY_SPECIAL_F2 k
  else if (SC_F3 <=? key) && (key <=? SC_F10) then k
  else if (key =? SC_F11) || (key =? SC_F12) then k
  else
    let c := scancode_to_ascii (kb_modifiers k) key in
    if negb (c =? 0)
    then event_push c (keycode_push (Keycode c key (kb_modifiers k)) (buffer_push c k))
    else k.

(** [keyboard_handler] on the byte read from the data port. *)
Definition keyboard_scancode (sc : Z) (k : keyboard) : keyboard :=
  if sc =? 224 then with_e0 true k
  else
    let is_ext := e0_prefix k in
    let k := with_e0 false k in
    let released := bit_set sc SC_RELEASE_BIT in
    let key := Z.land sc 127 in
    match modifier_key key released (kb_modifiers k) with
    | Some m => with_mods m k
    | None =>
      if released then k
      else if is_ext then extended_key key k
      else if negb (num (kb_modifiers k)) then
        match nav_event key with Some ev => event_push ev k | None => plain_key key k end
      else plain_key key k
    end.

(** ** The escape-sequence parser *)

Definition serial_char (c : Z) : Z :=
  let c := if c =? 13 then 10 else c in if c =? 127 then 8 else c.

(** [ESC \[ param ~] and [ESC \[ letter]. *)
Definition tilde_event (param : Z) : option Z :=
  if (param =? 49) || (param =? 55) then Some KEY_SPECIAL_HOME
  else if param =? 51 then Some KEY_SPECIAL_DELETE
  else if (param =? 52) || (param =? 56) then Some KEY_SPECIAL_END
  else if param =? 53 then Some KEY_SPECIAL_PGUP
  else if param =? 54 then Some KEY_SPECIAL_PGDN
  else None.
Definition letter_event (c : Z) : option Z :=
  if c =? 65 then Some KEY_SPECIAL_UP
  else if c =? 66 then Some KEY_SPECIAL_DOWN
  else if c =? 67 then Some KEY_SPECIAL_RIGHT
  else if c =? 68 then Some KEY_SPECIAL_LEFT
  else if c =? 72 then Some KEY_SPECIAL_HOME
  else if c =? 70 then Some KEY_SPECIAL_END
  else None.
Definition push_opt (o : option Z) (k : keyboard) : keyboard :=
  match o with Some ev => event_push ev k | None => k end.

(** The body of the loop of [pump_serial_events]. *)
Definition ansi_char (c : Z) (k : keyboard) : keyboard :=
  let emit c k := let c := serial_char c in event_push c (buffer_push c k) in
  if ansi_state k =? 0 then
    if c =? 27 then with_ansi 1 (ansi_param k) k else emit c k
  else if ansi_state k =? 1 then
    if (c =? 91) || (c =? 79) then with_ansi 2 0 k
    else emit c (with_ansi 0 (ansi_param k) (event_push 27 k))
  else if ansi_state k =? 2 then
    if (48 <=? c) && (c <=? 57) then with_ansi 2 c k
    else if c =? 126 then with_ansi 0 (ansi_param k) (push_opt (tilde_event (ansi_param k)) k)
    else with_ansi 0 (ansi_param k) (push_opt (letter_event c) k)
  else k.

(** ** The operations *)

Record input (H : Type) := Input { kb : keyboard; com : serial H; pointer : mouse_state_t * vbe }.
Arguments Input {H}. Arguments kb {H}. Arguments com {H}. Arguments pointer {H}.

Section input.
Context {H : Type} `{Ports H}.

Definition on_kb (f : keyboard -> keyboard) : PM (input H) unit :=
  p_mod (fun s => Input (f (kb s)) (com s) (pointer s)).
Definition on_com {A} (m : PM (serial H) A) : PM (input H) A :=
  fun s => match m (com s) with Some (x, c) => Some (x, Input (kb s) c (pointer s)) | None => None end.
Definition on_hw {A} (m : ST H A) : PM (input H) A :=
  on_com (p_zoom serial_hw set_hw m).

(** The queues are emptied by their indices; the arrays keep their bytes. *)
Definition reset_ring {A} (r : ring A) : ring A := RingBuf (r_buf r) 0 0.
Definition reset_keyboard (k : keyboard) : keyboard :=
  Keyboard (Modifiers false false false false true false (reserved (kb_modifiers k)))
    (reset_ring (key_buffer k)) (reset_ring (keycode_buffer k)) (reset_ring (event_buffer k)) false 0 (ansi_param k).

Definition keyboard_init : PM (input H) unit :=
  on_kb reset_keyboard;; on_hw (drain 64 KB_STATUS_PORT 1 KB_DATA_PORT).
Definition keyboard_install : PM (input H) unit := keyboard_init.

Definition keyboard_handler : PM (input H) unit :=
  sc <- on_hw (inb KB_DATA_PORT);; on_kb (keyboard_scancode sc).

(** [while (serial_pop_rx_char(&c)) ...]; [fuel] bounds the characters of one
    call and [rx] the bytes of one poll. *)
Fixpoint pump_serial_events (fuel rx : nat) : PM (input H) unit :=
  match fuel with
  | O => p_none
  | S fuel =>
    o <- on_com (serial_pop_rx_char rx);;
    match o with
    | None => p_ret tt
    | Some c => on_kb (ansi_char c);; pump_serial_events fuel rx
    end
  end.

Definition input_poll_event (fuel rx : nat) : PM (input H) Z :=
  pump_serial_events fuel rx;;
  s <- p_get;;
  (if ansi_state (kb s) =? 1 then
     more <- on_com (serial_has_data COM1_PORT);;
     if more then p_ret tt else on_kb (fun k => event_push 27 (with_ansi 0 (ansi_param k) k))
   else p_ret tt);;
  s <- p_get;;
  match ring_pop 0 (event_buffer (kb s)) with
  | None => p_ret KEY_NONE
  | Some (ev, r) => on_kb (with_events r);; p_ret ev
  end.

Definition update_pointer : PM (input H) unit :=
  p_mod (fun s => Input (kb s) (com s) (mouse_update_cursor (pointer s))).

(** The waits.  [interrupt] is what happens while the processor is halted:
    the handlers that run before it resumes. *)
Section wait.
Context (interrupt : PM (input H) unit).

Fixpoint input_wait_event (fuel rx : nat) : PM (input H) Z :=
  match fuel with
  | O => p_none
  | S n =>
    ev <- input_poll_event fuel rx;;
    if negb (ev =? KEY_NONE) then p_ret ev
    else update_pointer;; interrupt;; input_wait_event n rx
  end.

Fixpoint keyboard_getchar (fuel rx : nat) : PM (input H) Z :=
  match fuel with
  | O => p_none
  | S n =>
    pump_serial_events fuel rx;;
    s <- p_get;;
    match ring_pop 0 (key_buffer (kb s)) with
    | Some (ch, r) => on_kb (with_keys r);; p_ret ch
    | None => update_pointer;; interrupt;; keyboard_getchar n rx
    end
  end.
End wait.

Definition keyboard_has_key (fuel rx : nat) : PM (input H) bool :=
  pump_serial_events fuel rx;; s <- p_get;; p_ret (negb (ring_empty (key_buffer (kb s)))).

Definition keyboard_getchar_nonblock (fuel rx : nat) : PM (input H) Z :=
  pump_serial_events fuel rx;;
  s <- p_get;;
  match ring_pop 0 (key_buffer (kb s)) with
  | None => p_ret 0
  | Some (ch, r) => on_kb (with_keys r);; p_ret ch
  end.

Definition no_keycode : keycode_t := Keycode 0 0 (Modifiers false false false false false false 0).
Definition keyboard_get_keycode : PM (input H) (option keycode_t) :=
  s <- p_get;;
  match ring_pop no_keycode (keycode_buffer (kb s)) with
  | None => p_ret None
  | Some (key, r) => on_kb (with_codes r);; p_ret (Some key)
  end.
End input.

Definition keyboard_is_shift_pressed (k : keyboard) : bool := shift (kb_modifiers k).
Definition keyboard_is_ctrl_pressed (k : keyboard) : bool := ctrl (kb_modifiers k).
Definition keyboard_is_alt_pressed (k : keyboard) : bool := alt (kb_modifiers k).
Definition keyboard_is_caps_on (k : keyboard) : bool := caps (kb_modifiers k).
