(* ===== verification/KeyboardSpec.v ===== *)
(** KeyboardSpec: the input path of [Keyboard] from the wire to the reader.

    Text typed on the keyboard is what the reader gets, and the escape
    sequences a terminal sends for the keys it has come out as those keys, in
    order, through the queues of [Ring] and the receiver of [Serial]. *)

From S2P Require Import Prelude Ports Partial Memory Common Ring Serial Font Pmm Paging Vbe Pic Mouse Keyboard.
#[local] Open Scope partial_scope.

(** ** The queues of the keyboard *)

Definition events (k : keyboard) : list Z := contents 0 (event_buffer k).
Definition chars (k : keyboard) : list Z := contents 0 (key_buffer k).
Definition kb_wf (k : keyboard) : Prop :=
  ring_wf (event_buffer k) /\ ring_wf (key_buffer k) /\ ring_wf (keycode_buffer k).

Lemma event_push_spec ev k :
  kb_wf k -> (length (events k) < 255)%nat ->
  kb_wf (event_push ev k) /\ events (event_push ev k) = events k ++ [ev].
Proof.
  intros (He & Hk & Hc) Hl. split; [split_and!; [by apply ring_push_wf|done|done]|].
  apply ring_push_room; [done|]. unfold events, lenZ, RING_SIZE in *. lia.
Qed.

Lemma buffer_push_spec c k :
  kb_wf k -> (length (chars k) < 255)%nat ->
  kb_wf (buffer_push c k) /\ chars (buffer_push c k) = chars k ++ [c].
Proof.
  intros (He & Hk & Hc) Hl. split; [split_and!; [done|by apply ring_push_wf|done]|].
  apply ring_push_room; [done|]. unfold chars, lenZ, RING_SIZE in *. lia.
Qed.

(** From [k] to [k'] the text [cs] has been typed and the events [evs] have
    been reported, with the parser at rest before and after. *)
Definition delivers (k k' : keyboard) (cs evs : list Z) : Prop :=
  kb_wf k' /\ ansi_state k' = 0 /\ chars k' = chars k ++ cs /\ events k' = events k ++ evs.

Lemma delivers_trans k1 k2 k3 cs1 cs2 es1 es2 :
  delivers k1 k2 cs1 es1 -> delivers k2 k3 cs2 es2 -> delivers k1 k3 (cs1 ++ cs2) (es1 ++ es2).
Proof. intros (_ & _ & H1 & H2) (? & ? & H3 & H4). split_and!; try done; rewrite ?H3, ?H4, ?H1, ?H2; by rewrite <- app_assoc. Qed.

(** ** Escape sequences *)

(** What a terminal sends for a key: the character itself, or the VT100
    sequence of a navigation key. *)
Definition term_encode (ev : Z) : list Z :=
  if ev =? KEY_SPECIAL_UP then [27; 91; 65]
  else if ev =? KEY_SPECIAL_DOWN then [27; 91; 66]
  else if ev =? KEY_SPECIAL_RIGHT then [27; 91; 67]
  else if ev =? KEY_SPECIAL_LEFT then [27; 91; 68]
  else if ev =? KEY_SPECIAL_HOME then [27; 91; 72]
  else if ev =? KEY_SPECIAL_END then [27; 91; 70]
  else if ev =? KEY_SPECIAL_DELETE then [27; 91; 51; 126]
  else if ev =? KEY_SPECIAL_PGUP then [27; 91; 53; 126]
  else if ev =? KEY_SPECIAL_PGDN then [27; 91; 54; 126]
  else [ev].
(** The navigation keys a terminal has, and the characters other than the
    ones it uses itself (escape, carriage return, delete) and NUL. *)
Definition is_special (ev : Z) : bool := (1001 <=? ev) && (ev <=? 1009).
Definition encodable (ev : Z) : bool :=
  is_special ev || ((1 <=? ev) && (ev <? 256) && negb (ev =? 13) && negb (ev =? 27) && negb (ev =? 127)).
Definition feed (cs : list Z) (k : keyboard) : keyboard := foldl (fun k c => ansi_char c k) k cs.

Lemma special_cases ev : is_special ev = true ->
  ev ∈ [KEY_SPECIAL_UP; KEY_SPECIAL_DOWN; KEY_SPECIAL_LEFT; KEY_SPECIAL_RIGHT; KEY_SPECIAL_HOME; KEY_SPECIAL_END;
        KEY_SPECIAL_DELETE; KEY_SPECIAL_PGUP; KEY_SPECIAL_PGDN].
Proof.
  unfold is_special. intros H. bool_to_prop. assert (ev ∈ seqZ 1001 9) by (apply elem_of_seqZ; lia). done.
Qed.

(** A navigation key. *)
Lemma feed_special ev k : is_special ev = true -> ansi_state k = 0 ->
  exists p, feed (term_encode ev) k = with_ansi 0 p (event_push ev k).
Proof.
  intros Hs%special_cases Hst. destruct k as [m kr cr er e0 st pa]. simpl in Hst. subst st.
  repeat (apply elem_of_cons in Hs as [->|Hs]; [eexists; reflexivity|]). by apply not_elem_of_nil in Hs.
Qed.

(** A character. *)
Lemma feed_char c k : encodable c = true -> is_special c = false -> ansi_state k = 0 ->
  feed (term_encode c) k = event_push c (buffer_push c k).
Proof.
  intros He Hn Hst. unfold encodable in He. rewrite Hn in He. simpl in He. bool_to_prop.
  assert (term_encode c = [c]) as ->.
  { unfold term_encode, KEY_SPECIAL_UP, KEY_SPECIAL_DOWN, KEY_SPECIAL_RIGHT, KEY_SPECIAL_LEFT, KEY_SPECIAL_HOME,
      KEY_SPECIAL_END, KEY_SPECIAL_DELETE, KEY_SPECIAL_PGUP, KEY_SPECIAL_PGDN.
    repeat (rewrite (proj2 (Z.eqb_neq c _)) by lia). done. }
  unfold feed, ansi_char, serial_char. simpl. rewrite Hst. simpl.
  rewrite (proj2 (Z.eqb_neq c 27)), (proj2 (Z.eqb_neq c 13)), (proj2 (Z.eqb_neq c 127)) by done. done.
Qed.

Definition plain (evs : list Z) : list Z := filter (fun ev => is_special ev = false) evs.

Lemma feed_one ev k :
  kb_wf k -> ansi_state k = 0 -> encodable ev = true -> (length (events k) < 255)%nat -> (length (chars k) < 255)%nat ->
  delivers k (feed (term_encode ev) k) (plain [ev]) [ev].
Proof.
  intros Hwf Hst He Hle Hlc. unfold plain. rewrite filter_cons, filter_nil.
  destruct (is_special ev) eqn:Hs; case_decide; try done.
  - destruct (feed_special ev k Hs Hst) as [p ->].
    destruct (event_push_spec ev k Hwf Hle) as [Hwf' Hev]. split_and!; try done. by rewrite app_nil_r.
  - rewrite feed_char by done. destruct (buffer_push_spec ev k Hwf Hlc) as [Hwf1 Hc1].
    destruct (event_push_spec ev (buffer_push ev k) Hwf1 Hle) as [Hwf2 He2]. split_and!; done.
Qed.

(** Any text of characters and navigation keys that fits the queues. *)
Lemma feed_all evs k :
  kb_wf k -> ansi_state k = 0 -> forallb encodable evs = true ->
  (length (events k) + length evs <= 255)%nat -> (length (chars k) + length evs <= 255)%nat ->
  delivers k (feed (evs ≫= term_encode) k) (plain evs) evs.
Proof.
  revert k. induction evs as [|ev evs IH]; intros k Hwf Hst Henc Hle Hlc.
  - split_and!; try done; by rewrite app_nil_r.
  - simpl in *. apply andb_prop in Henc as [He Henc].
    unfold feed. rewrite foldl_app. fold (feed (term_encode ev) k).
    pose proof (feed_one ev k Hwf Hst He) as Hd.
    assert (H1 : delivers k (feed (term_encode ev) k) (plain [ev]) [ev]) by (apply Hd; lia).
    pose proof H1 as (Hwf1 & Hst1 & Hc1 & He1).
    assert (Hp : (length (plain [ev]) <= 1)%nat) by (apply (length_filter (fun ev => is_special ev = false) [ev])).
    replace (plain (ev :: evs)) with (plain [ev] ++ plain evs) by (unfold plain; by rewrite <- filter_app).
    apply (delivers_trans _ _ _ _ _ [ev] evs H1), IH; try done; rewrite ?He1, ?Hc1, length_app; simpl; lia.
Qed.

Lemma encode_length evs : (length evs <= length (evs ≫= term_encode))%nat.
Proof.
  induction evs as [|ev evs IH]; [done|]. rewrite bind_cons, length_app. cbn [length].
  assert (1 <= length (term_encode ev))%nat; [|lia]. unfold term_encode. repeat case_goal; simpl; lia.
Qed.

(** ** From the serial line *)

Section serial_input.
Context {H : Type} `{Uart H}.
Implicit Types s : input H.

Lemma on_kb_returns f s (Q : unit -> input H -> Prop) :
  Q tt (Input (f (kb s)) (com s) (pointer s)) -> returns (on_kb f) s Q.
Proof. intros HQ. by eexists _, _. Qed.

(** Pumping runs the parser over every byte that has arrived. *)
Lemma pump_spec fuel rx s :
  serial_ok (com s) -> (length (pending (com s)) <= 255)%nat -> (length (pending (com s)) < rx)%nat ->
  (length (pending (com s)) < fuel)%nat ->
  returns (pump_serial_events fuel rx) s (fun _ s' =>
    serial_ok (com s') /\ pending (com s') = [] /\ pointer s' = pointer s /\ kb s' = feed (pending (com s)) (kb s)).
Proof.
  revert s. induction fuel as [|fuel IH]; intros s Hok Hlen Hrx Hfuel; [lia|]. simpl. apply returns_bind.
  destruct (serial_pop_spec (com s) rx Hok Hlen Hrx) as (o & c' & Hpop & Hok' & Hpend).
  exists o, (Input (kb s) c' (pointer s)). split; [unfold on_com; by rewrite Hpop|].
  destruct o as [c|].
  - apply returns_bind, on_kb_returns. simpl.
    eapply returns_mono; [apply IH; simpl; rewrite Hpend in *; simpl in *; (done || lia)|].
    intros _ s' (? & ? & ? & Hkb). split_and!; try done. rewrite Hkb, Hpend. done.
  - apply returns_ret. destruct Hpend as [Hp Hp']. split_and!; try done. simpl. by rewrite Hp.
Qed.

(** [n] events read one after the other. *)
Fixpoint poll_events (n fuel rx : nat) : PM (input H) (list Z) :=
  match n with
  | O => p_ret []
  | S n => ev <- input_poll_event fuel rx;; evs <- poll_events n fuel rx;; p_ret (ev :: evs)
  end.

Lemma poll_event_spec fuel rx s :
  serial_ok (com s) -> (length (pending (com s)) <= 255)%nat -> (length (pending (com s)) < rx)%nat ->
  (length (pending (com s)) < fuel)%nat ->
  let k := feed (pending (com s)) (kb s) in
  kb_wf k -> ansi_state k = 0 ->
  returns (input_poll_event fuel rx) s (fun ev s' =>
    serial_ok (com s') /\ pending (com s') = [] /\ kb_wf (kb s') /\ ansi_state (kb s') = 0 /\
    match events k with [] => ev = KEY_NONE /\ events (kb s') = [] | e :: es => ev = e /\ events (kb s') = es end).
Proof.
  intros Hok Hlen Hrx Hfuel k Hwf Hst. unfold input_poll_event. apply returns_bind.
  eapply returns_mono; [by apply pump_spec|]. intros _ s1 (Hok1 & Hp1 & _ & Hkb1). fold k in Hkb1.
  apply returns_bind. exists s1, s1. split; [done|]. rewrite Hkb1, Hst. simpl. apply returns_bind, returns_ret.
  apply returns_bind. exists s1, s1. split; [done|]. rewrite Hkb1. pose proof Hwf as (He & Hk & Hc).
  pose proof (ring_pop_contents 0 (event_buffer k) He) as Hpop. unfold events.
  destruct (ring_pop 0 (event_buffer k)) as [[ev r]|].
  - destruct Hpop as (-> & Hr & _). apply returns_bind, on_kb_returns, returns_ret. simpl. rewrite Hkb1.
    split_and!; done.
  - rewrite Hpop. apply returns_ret. rewrite Hkb1. split_and!; done.
Qed.

Lemma poll_events_spec evs fuel rx s :
  serial_ok (com s) -> pending (com s) = [] -> kb_wf (kb s) -> ansi_state (kb s) = 0 -> events (kb s) = evs ->
  (0 < rx)%nat -> (0 < fuel)%nat ->
  returns (poll_events (length evs) fuel rx) s (fun out s' =>
    out = evs /\ events (kb s') = [] /\ serial_ok (com s') /\ pending (com s') = [] /\ kb_wf (kb s') /\ ansi_state (kb s') = 0).
Proof.
  revert s. induction evs as [|ev evs IH]; intros s Hok Hp Hwf Hst Hev Hrx Hfuel; simpl; [by apply returns_ret|].
  apply returns_bind.
  eapply returns_mono; [apply poll_event_spec; rewrite ?Hp; simpl; (done || lia)|].
  rewrite Hp. simpl. rewrite Hev. intros e s1 (Hok1 & Hp1 & Hwf1 & Hst1 & -> & Hev1).
  apply returns_bind. eapply returns_mono; [by apply IH|]. intros out s2 (-> & ?). by apply returns_ret.
Qed.

(** C24: keys pressed on a serial terminal arrive.  When the bytes waiting on
    the line are what a terminal sends for the keys [evs], and no more than
    the 255 the buffers hold, polling returns exactly those keys in order and
    then reports that there is none. *)
Theorem serial_keys_arrive evs fuel rx s :
  serial_ok (com s) -> kb_wf (kb s) -> ansi_state (kb s) = 0 -> events (kb s) = [] -> chars (kb s) = [] ->
  forallb encodable evs = true -> evs <> [] -> pending (com s) = evs ≫= term_encode ->
  (length (pending (com s)) <= 255)%nat -> (length (pending (com s)) < rx)%nat -> (length (pending (com s)) < fuel)%nat ->
  exists s' s'', poll_events (length evs) fuel rx s = Some (evs, s') /\
    input_poll_event fuel rx s' = Some (KEY_NONE, s'').
Proof.
  intros Hok Hwf Hst Hev Hch Henc Hne Hpend Hlen Hrx Hfuel.
  assert (Hle : (length evs <= length (pending (com s)))%nat) by (rewrite Hpend; apply encode_length).
  destruct (feed_all evs (kb s)) as (Hwf1 & Hst1 & _ & Hev1); [done..|rewrite Hev; simpl; lia|rewrite Hch; simpl; lia|].
  rewrite Hev, <- Hpend in *. simpl in Hev1. destruct evs as [|ev evs]; [done|]. cbn [length poll_events].
  destruct (poll_event_spec fuel rx s) as (e & s1 & He & Hok1 & Hp1 & Hwf2 & Hst2 & Hq); [done..|].
  rewrite Hev1 in Hq. destruct Hq as [-> Hq].
  destruct (poll_events_spec evs fuel rx s1) as (out & s2 & Hpoll & -> & Hq2 & Hok2 & Hp2 & Hwf3 & Hst3); [done..|lia|lia|].
  destruct (poll_event_spec fuel rx s2) as (e & s3 & He3 & _ & _ & _ & _ & Hlast); rewrite ?Hp2; simpl; try done; try lia.
  rewrite Hp2 in Hlast. simpl in Hlast. rewrite Hq2 in Hlast. destruct Hlast as [-> _].
  exists s2, s3. split; [|done]. unfold p_bind. rewrite He, Hpoll. done.
Qed.
End serial_input.

(** A machine with [rx] waiting on the serial line. *)
Definition idle_keyboard : keyboard :=
  Keyboard (Modifiers false false false false true false 0) (ring_init 0) (ring_init no_keycode) (ring_init 0) false 0 0.
Definition console_at (rx : list Z) : input uart :=
  Input idle_keyboard (SerialPort COM1_PORT true (ring_init 0) (UartDev rx []))
    (fresh_mouse 0 0 false false, Vbe no_fb VBE_YELLOW VBE_BLACK ∅).

Lemma idle_keyboard_wf : kb_wf idle_keyboard.
Proof. split_and!; apply ring_init_wf. Qed.

Lemma serial_keys_arrive_witness :
  let evs := [104; KEY_SPECIAL_LEFT; KEY_SPECIAL_DELETE; 105; 10] in
  exists s' s'', poll_events 5 100 100 (console_at (evs ≫= term_encode)) = Some (evs, s') /\
    input_poll_event 100 100 s' = Some (KEY_NONE, s'').
Proof.
  apply (serial_keys_arrive [104; KEY_SPECIAL_LEFT; KEY_SPECIAL_DELETE; 105; 10]); try reflexivity.
  - split_and!; [done..|apply ring_init_wf].
  - exact idle_keyboard_wf.
  - done.
  - vm_compute. lia.
  - vm_compute. lia.
  - vm_compute. lia.
Defined.

(** ** From the keyboard *)

(** The scan codes of pressing and releasing the key of a character, with
    the left shift key where the character needs it. *)
Definition key_of (table : list Z) (c : Z) : option Z :=
  (fun i => Z.of_nat i) ∘ fst <$> list_find (fun x => x = c) table.
Definition strokes (c : Z) : list Z :=
  match key_of scancode_lower c with
  | Some sc => [sc; sc + 128]
  | None => match key_of scancode_upper c with
            | Some sc => [SC_LEFT_SHIFT; sc; sc + 128; SC_LEFT_SHIFT + 128]
            | None => []
            end
  end.
Definition type_keys (scs : list Z) (k : keyboard) : keyboard := foldl (fun k sc => keyboard_scancode sc k) k scs.

Lemma type_keys_app a b k : type_keys (a ++ b) k = type_keys b (type_keys a k).
Proof. apply foldl_app. Qed.

(** The printable characters, backspace, tab and newline. *)
Definition typable : list Z := [8; 9; 10] ++ seqZ 32 95.

(** No key held down, caps lock off and num lock on, as after
    [keyboard_init]. *)
Definition at_rest (k : keyboard) : Prop :=
  (exists sc r, kb_modifiers k = Modifiers false false false false true sc r) /\ e0_prefix k = false.

(** Every one of them is on the keyboard: its strokes report exactly it. *)
Lemma type_char c : c ∈ typable ->
  forall sc r kr cr er st pa,
    let m := Modifiers false false false false true sc r in
    exists kc, type_keys (strokes c) (Keyboard m kr cr er false st pa) =
      Keyboard m (ring_push c kr) (ring_push kc cr) (ring_push c er) false st pa.
Proof.
  intros Hc. assert (Hall : Forall (fun c => forall sc r kr cr er st pa,
    let m := Modifiers false false false false true sc r in
    exists kc, type_keys (strokes c) (Keyboard m kr cr er false st pa) =
      Keyboard m (ring_push c kr) (ring_push kc cr) (ring_push c er) false st pa) typable).
  { unfold typable. repeat (apply Forall_cons_2; [intros; eexists; reflexivity|]). apply Forall_nil_2. }
  rewrite Forall_forall in Hall. by apply Hall.
Qed.

Lemma type_text_spec text k :
  at_rest k -> kb_wf k -> Forall (fun c => c ∈ typable) text ->
  (length (events k) + length text <= 255)%nat -> (length (chars k) + length text <= 255)%nat ->
  let k' := type_keys (text ≫= strokes) k in
  at_rest k' /\ kb_wf k' /\ ansi_state k' = ansi_state k /\ chars k' = chars k ++ text /\ events k' = events k ++ text.
Proof.
  intros Hr Hwf Ht. revert k Hr Hwf. induction Ht as [|c text Hc Ht IH]; intros k Hr Hwf Hle Hlc.
  - simpl. by rewrite !app_nil_r.
  - destruct k as [m kr cr er e0 st pa]. destruct Hr as [(sc & r & Hm) He0]. simpl in Hm, He0. subst m e0.
    destruct (type_char c Hc sc r kr cr er st pa) as [kc Hk]. simpl in Hk.
    rewrite bind_cons, type_keys_app, Hk.
    set (k1 := Keyboard _ (ring_push c kr) _ _ _ _ _). pose proof Hwf as (Hwe & Hwk & Hwc). simpl in *.
    assert (Hc1 : chars k1 = contents 0 kr ++ [c]).
    { apply ring_push_room; [done|]. unfold chars, lenZ, RING_SIZE in *. simpl in *. lia. }
    assert (He1 : events k1 = contents 0 er ++ [c]).
    { apply ring_push_room; [done|]. unfold events, lenZ, RING_SIZE in *. simpl in *. lia. }
    unfold events, chars in Hle, Hlc. simpl in Hle, Hlc.
    destruct (IH k1) as (Hr2 & Hwf2 & Hst2 & Hc2 & He2).
    + split; [by exists sc, r|done].
    + split_and!; by apply ring_push_wf.
    + rewrite He1, length_app. simpl. lia.
    + rewrite Hc1, length_app. simpl. lia.
    + split_and!; try done; rewrite ?Hc2, ?He2, ?Hc1, ?He1; unfold chars, events; simpl; by rewrite <- app_assoc.
Qed.

(** [n] characters read one after the other. *)
Fixpoint get_chars {H} `{Ports H} (n fuel rx : nat) : PM (input H) (list Z) :=
  match n with
  | O => p_ret []
  | S n => c <- keyboard_getchar_nonblock fuel rx;; cs <- get_chars n fuel rx;; p_ret (c :: cs)
  end.

Section typed.
Context {H : Type} `{Uart H}.
Implicit Types s : input H.

Lemma getchar_spec fuel rx s c cs :
  serial_ok (com s) -> pending (com s) = [] -> kb_wf (kb s) -> chars (kb s) = c :: cs -> (0 < rx)%nat -> (0 < fuel)%nat ->
  returns (keyboard_getchar_nonblock fuel rx) s (fun x s' =>
    x = c /\ serial_ok (com s') /\ pending (com s') = [] /\ kb_wf (kb s') /\ chars (kb s') = cs).
Proof.
  intros Hok Hp Hwf Hc Hrx Hfuel. unfold keyboard_getchar_nonblock. apply returns_bind.
  eapply returns_mono; [apply pump_spec; rewrite ?Hp; simpl; (done || lia)|].
  rewrite Hp. simpl. intros _ s1 (Hok1 & Hp1 & _ & Hkb). apply returns_bind. exists s1, s1. split; [done|]. rewrite Hkb.
  pose proof Hwf as (He & Hk & Hcr). pose proof (ring_pop_contents 0 (key_buffer (kb s)) Hk) as Hpop.
  unfold chars in Hc. destruct (ring_pop 0 (key_buffer (kb s))) as [[x r]|]; [|congruence].
  destruct Hpop as (Hx & Hr & _). rewrite Hx in Hc. injection Hc as -> Hcs.
  apply returns_bind, on_kb_returns, returns_ret. simpl. rewrite Hkb. split_and!; done.
Qed.

Lemma get_chars_spec text fuel rx s :
  serial_ok (com s) -> pending (com s) = [] -> kb_wf (kb s) -> chars (kb s) = text -> (0 < rx)%nat -> (0 < fuel)%nat ->
  returns (get_chars (length text) fuel rx) s (fun out s' => out = text /\ chars (kb s') = []).
Proof.
  revert s. induction text as [|c text IH]; intros s Hok Hp Hwf Hc Hrx Hfuel; simpl; [by apply returns_ret|].
  apply returns_bind. eapply returns_mono; [by apply getchar_spec|].
  intros x s1 (-> & Hok1 & Hp1 & Hwf1 & Hc1). apply returns_bind. eapply returns_mono; [by apply IH|].
  intros out s2 [-> ?]. by apply returns_ret.
Qed.

(** What is typed is what is read.  Pressing and releasing the keys of
    any text of at most 255 typable characters, with shift where a character
    needs it, and then reading as many characters gives the text, and the
    modifiers are as before. *)
Theorem typed_text_is_read text fuel rx s :
  serial_ok (com s) -> pending (com s) = [] -> at_rest (kb s) -> kb_wf (kb s) -> events (kb s) = [] -> chars (kb s) = [] ->
  Forall (fun c => c ∈ typable) text -> (length text <= 255)%nat -> (0 < rx)%nat -> (0 < fuel)%nat ->
  let s1 := Input (type_keys (text ≫= strokes) (kb s)) (com s) (pointer s) in
  at_rest (kb s1) /\ exists s', get_chars (length text) fuel rx s1 = Some (text, s') /\ chars (kb s') = [].
Proof.
  intros Hok Hp Hr Hwf He Hc Ht Hl Hrx Hfuel s1.
  destruct (type_text_spec text (kb s) Hr Hwf Ht) as (Hr1 & Hwf1 & _ & Hc1 & _); [rewrite He; simpl; lia|rewrite Hc; simpl; lia|].
  split; [done|]. rewrite Hc in Hc1. simpl in Hc1.
  destruct (get_chars_spec text fuel rx s1) as (out & s' & Hg & -> & Hs'); try done. by exists s'.
Qed.
End typed.

Lemma typed_text_is_read_witness :
  let text := [72; 105; 32; 36; 123; 126; 125; 8; 10] in
  let s1 := Input (type_keys (text ≫= strokes) idle_keyboard) (com (console_at [])) (pointer (console_at [])) in
  at_rest (kb s1) /\ exists s', get_chars 9 10 10 s1 = Some (text, s') /\ chars (kb s') = [].
Proof.
  apply (typed_text_is_read [72; 105; 32; 36; 123; 126; 125; 8; 10] 10 10 (console_at [])); try reflexivity; try lia.
  - split_and!; [done..|apply ring_init_wf].
  - split; [by eexists _, _|done].
  - exact idle_keyboard_wf.
  - apply (bool_decide_unpack _). vm_compute. exact I.
  - simpl. lia.
Defined.
