(* ===== verification/Calc.v ===== *)
(** Calc: the integer calculator of [kernel/shell.c] ([calc_parse_factor],
    [calc_parse_term], [calc_parse_expr] and the [calc] command).

    The context is the rest of the text and the error code.  [int] arithmetic
    is 32 bits wide and wraps, as the instructions of the processor do; a sum
    or product that overflows is undefined in C, and the build does not ask
    for wrapping, so the results beyond 32 bits are those of a compiler that
    uses these instructions.  The division instruction raises a processor
    exception when the quotient does not fit, which is the outcome [Trap].
    The parser is recursive on the text, so it takes fuel, and [NoFuel] means
    that it was not enough; [calc_total] shows that four steps per character
    and three more always are. *)

From S2P Require Import Prelude Common.

Record calc_ctx_t := Ctx { rest : list Z; err : Z }.

Inductive outcome :=
| Done (v : Z) (c : calc_ctx_t)
| Trap
| NoFuel.

Definition bind_out (o : outcome) (k : Z -> calc_ctx_t -> outcome) : outcome :=
  match o with Done v c => k v c | Trap => Trap | NoFuel => NoFuel end.
Notation "' ( v , c ) <- o ; k" := (bind_out o (fun v c => k)) (at level 100, v name, c name, o at next level, right associativity).

Fixpoint skip_ws (s : list Z) : list Z :=
  match s with c :: s' => if (c =? 32) || (c =? 9) then skip_ws s' else s | [] => [] end.
Definition calc_skip_ws (c : calc_ctx_t) : calc_ctx_t := Ctx (skip_ws (rest c)) (err c).

(** [c->s[c->pos]], which is NUL at the end, and [c->pos++]. *)
Definition peek (c : calc_ctx_t) : Z := ch (rest c).
Definition advance (c : calc_ctx_t) : calc_ctx_t := Ctx (tail (rest c)) (err c).
Definition set_err (e : Z) (c : calc_ctx_t) : calc_ctx_t := Ctx (rest c) e.

Definition hex_val (c : Z) : option Z :=
  if (48 <=? c) && (c <=? 57) then Some (c - 48)
  else if (97 <=? c) && (c <=? 102) then Some (10 + (c - 97))
  else if (65 <=? c) && (c <=? 70) then Some (10 + (c - 65))
  else None.

(** The digit loops: the value, the rest, and whether there was a digit. *)
Fixpoint calc_hex (s : list Z) (val : Z) (got : bool) : Z * list Z * bool :=
  match s with
  | c :: s' => match hex_val c with
               | Some d => calc_hex s' (s32 (Z.lor (Z.shiftl val 4) d)) true
               | None => (val, s, got)
               end
  | [] => (val, [], got)
  end.
Fixpoint calc_dec (s : list Z) (val : Z) (got : bool) : Z * list Z * bool :=
  match s with
  | c :: s' => if isdigit c then calc_dec s' (s32 (s32 (val * 10) + (c - 48))) true else (val, s, got)
  | [] => (val, [], got)
  end.

Definition calc_number (c : calc_ctx_t) : outcome :=
  let s := rest c in
  let '(val, r, got) :=
    if (ch s =? 48) && ((ch (tail s) =? 120) || (ch (tail s) =? 88))
    then calc_hex (tail (tail s)) 0 false
    else calc_dec s 0 false in
  Done val (Ctx r (if got then err c else 1)).

Definition is_mul_op (op : Z) : bool := (op =? 42) || (op =? 47) || (op =? 37).
Definition is_add_op (op : Z) : bool := (op =? 43) || (op =? 45).

(** [left op= right] for [*], [/] and [%]; [None] is the exception. *)
Definition mul_step (op left right : Z) : option Z :=
  if op =? 42 then Some (s32 (left * right))
  else if (left =? -2147483648) && (right =? -1) then None
  else if op =? 47 then Some (Z.quot left right) else Some (Z.rem left right).

Fixpoint calc_parse_factor (n : nat) (c : calc_ctx_t) : outcome :=
  match n with
  | O => NoFuel
  | S n =>
    let c := calc_skip_ws c in
    if peek c =? 43 then calc_parse_factor n (advance c)
    else if peek c =? 45 then '(v, c) <- calc_parse_factor n (advance c); Done (s32 (- v)) c
    else if peek c =? 40 then
      '(v, c) <- calc_parse_expr n (advance c);
      let c := calc_skip_ws c in
      Done v (if peek c =? 41 then advance c else set_err 1 c)
    else calc_number c
  end
with calc_parse_term (n : nat) (c : calc_ctx_t) : outcome :=
  match n with
  | O => NoFuel
  | S n => '(left, c) <- calc_parse_factor n c; term_loop n left c
  end
with term_loop (n : nat) (left : Z) (c : calc_ctx_t) : outcome :=
  match n with
  | O => NoFuel
  | S n =>
    if negb (err c =? 0) then Done left c
    else
      let c := calc_skip_ws c in
      let op := peek c in
      if negb (is_mul_op op) then Done left c
      else
        '(right, c) <- calc_parse_factor n (advance c);
        if negb (op =? 42) && (right =? 0) then Done 0 (set_err 2 c)
        else match mul_step op left right with Some v => term_loop n v c | None => Trap end
  end
with calc_parse_expr (n : nat) (c : calc_ctx_t) : outcome :=
  match n with
  | O => NoFuel
  | S n => '(left, c) <- calc_parse_term n c; expr_loop n left c
  end
with expr_loop (n : nat) (left : Z) (c : calc_ctx_t) : outcome :=
  match n with
  | O => NoFuel
  | S n =>
    if negb (err c =? 0) then Done left c
    else
      let c := calc_skip_ws c in
      let op := peek c in
      if negb (is_add_op op) then Done left c
      else
        '(right, c) <- calc_parse_term n (advance c);
        expr_loop n (s32 (if op =? 43 then left + right else left - right)) c
  end.

(** The answer of the [calc] command: a value, or one of its two error
    messages. *)
Inductive answer := Value (v : Z) | DivisionByZero | SyntaxError | Crash | OutOfFuel.

Definition calc_command (n : nat) (args : list Z) : answer :=
  match calc_parse_expr n (Ctx args 0) with
  | Trap => Crash
  | NoFuel => OutOfFuel
  | Done res c =>
    let c := calc_skip_ws c in
    let e := if negb (peek c =? 0) && (err c =? 0) then 1 else err c in
    if e =? 2 then DivisionByZero else if negb (e =? 0) then SyntaxError else Value res
  end.

Definition calc_fuel (args : list Z) : nat := (4 * length args + 3)%nat.

(** * The parser always returns *)

Lemma skip_ws_length s : (length (skip_ws s) <= length s)%nat.
Proof. induction s as [|c s IH]; simpl; [lia|]. case_goal; simpl; lia. Qed.
Lemma calc_hex_length s v g v' r g' : calc_hex s v g = (v', r, g') -> (length r <= length s)%nat.
Proof.
  revert v g. induction s as [|c s IH]; intros v g Hc; simpl in *; [injection Hc; intros; subst; done|].
  destruct (hex_val c); [apply IH in Hc; lia|]. injection Hc as <- <- <-. simpl. lia.
Qed.
Lemma calc_dec_length s v g v' r g' : calc_dec s v g = (v', r, g') -> (length r <= length s)%nat.
Proof.
  revert v g. induction s as [|c s IH]; intros v g Hc; simpl in *; [injection Hc; intros; subst; done|].
  destruct (isdigit c); [apply IH in Hc; lia|]. injection Hc as <- <- <-. simpl. lia.
Qed.

(** The outcome is an answer, and the text left is at most [l] long. *)
Definition within (l : nat) (o : outcome) : Prop :=
  match o with Done _ c => (length (rest c) <= l)%nat | Trap => True | NoFuel => False end.

Lemma within_bind l l' o k :
  within l o -> (forall v c, (length (rest c) <= l)%nat -> within l' (k v c)) -> within l' (bind_out o k).
Proof. intros Ho Hk. destruct o; simpl in *; auto. Qed.
Lemma within_mono l l' o : within l o -> (l <= l')%nat -> within l' o.
Proof. destruct o; simpl; [lia|done..]. Qed.

Lemma peek_length c x : peek c = x -> x <> 0 -> (length (rest (advance c)) < length (rest c))%nat.
Proof. unfold peek, advance. destruct (rest c); simpl; [congruence|lia]. Qed.

Lemma calc_number_within c : within (length (rest c)) (calc_number c).
Proof.
  unfold calc_number. match goal with |- within _ (let '(_, _) := ?x in _) => destruct x as [[v r] g] eqn:He end. simpl.
  case_hyp He; [apply calc_hex_length in He|by apply calc_dec_length in He].
  destruct (rest c) as [|? [|? ?]]; simpl in *; lia.
Qed.

Lemma parsers_within n :
  (forall c l, (length (rest c) <= l)%nat -> (4 * l + 1 <= n)%nat -> within l (calc_parse_factor n c)) /\
  (forall c l, (length (rest c) <= l)%nat -> (4 * l + 2 <= n)%nat -> within l (calc_parse_term n c)) /\
  (forall v c l, (length (rest c) <= l)%nat -> (4 * l + 1 <= n)%nat -> within l (term_loop n v c)) /\
  (forall c l, (length (rest c) <= l)%nat -> (4 * l + 3 <= n)%nat -> within l (calc_parse_expr n c)) /\
  (forall v c l, (length (rest c) <= l)%nat -> (4 * l + 1 <= n)%nat -> within l (expr_loop n v c)).
Proof.
  induction n as [|n (IHf & IHt & IHtl & IHe & IHel)]; [split_and!; intros; lia|].
  assert (Hskip : forall c, (length (rest (calc_skip_ws c)) <= length (rest c))%nat) by (intros c; apply skip_ws_length).
  split_and!.
  - intros c l Hc Hn. cbn [calc_parse_factor]. pose proof (Hskip c) as Hs. set (c1 := calc_skip_ws c) in *. clearbody c1.
    destruct (Z.eqb_spec (peek c1) 43) as [H1|]; [apply peek_length in H1; [|done]; eapply (within_mono (l - 1)); [apply IHf|]; lia|].
    destruct (Z.eqb_spec (peek c1) 45) as [H1|].
    { apply peek_length in H1; [|done]. eapply (within_bind (l - 1)); [apply IHf; lia|]. intros v c2 ?. simpl. lia. }
    destruct (Z.eqb_spec (peek c1) 40) as [H1|].
    { apply peek_length in H1; [|done]. eapply (within_bind (l - 1)); [apply IHe; lia|]. intros v c2 Hc2. simpl.
      pose proof (Hskip c2). destruct (peek (calc_skip_ws c2) =? 41); unfold advance, set_err; cbn [rest]; [|lia].
      destruct (rest (calc_skip_ws c2)); simpl in *; lia. }
    eapply within_mono; [apply calc_number_within|lia].
  - intros c l Hc Hn. cbn [calc_parse_term]. eapply (within_bind l); [apply IHf; lia|]. intros v c2 ?. apply IHtl; lia.
  - intros v c l Hc Hn. cbn [term_loop]. case_goal; [done|]. pose proof (Hskip c) as Hs.
    set (c1 := calc_skip_ws c) in *. clearbody c1. destruct (is_mul_op (peek c1)) eqn:Hop; simpl; [|lia].
    assert (peek c1 <> 0) as Hp by (intros Hz; rewrite Hz in Hop; done). apply (peek_length c1 _ eq_refl) in Hp.
    eapply (within_bind (l - 1)); [apply IHf; lia|]. intros r c2 Hc2. case_goal; [simpl; lia|].
    destruct (mul_step (peek c1) v r); [|done]. eapply (within_mono (l - 1)); [apply IHtl|]; lia.
  - intros c l Hc Hn. cbn [calc_parse_expr]. eapply (within_bind l); [apply IHt; lia|]. intros v c2 ?. apply IHel; lia.
  - intros v c l Hc Hn. cbn [expr_loop]. case_goal; [done|]. pose proof (Hskip c) as Hs.
    set (c1 := calc_skip_ws c) in *. clearbody c1. destruct (is_add_op (peek c1)) eqn:Hop; simpl; [|lia].
    assert (peek c1 <> 0) as Hp by (intros Hz; rewrite Hz in Hop; done). apply (peek_length c1 _ eq_refl) in Hp.
    eapply (within_bind (l - 1)); [apply IHt; lia|]. intros r c2 Hc2. eapply (within_mono (l - 1)); [apply IHel|]; lia.
Qed.

Lemma calc_total args : calc_command (calc_fuel args) args <> OutOfFuel.
Proof.
  unfold calc_command, calc_fuel. destruct (parsers_within (4 * length args + 3)) as (_ & _ & _ & He & _).
  specialize (He (Ctx args 0) (length args)). destruct (calc_parse_expr _ _); simpl in *; [|done|].
  - destruct (_ =? 2); [done|]. destruct (negb (_ =? 0)); done.
  - exfalso. apply He; lia.
Qed.

(** * The value of a printed expression *)

(** More fuel does not change an answer. *)
Definition agrees (o o' : outcome) : Prop := o = NoFuel \/ o = o'.

Lemma calc_agrees_bind o o' k k' :
  agrees o o' -> (forall v c, agrees (k v c) (k' v c)) -> agrees (bind_out o k) (bind_out o' k').
Proof. intros [-> | ->] Hk; [by left|]. destruct o'; [apply Hk|by right|by left]. Qed.
Lemma calc_agrees_refl o : agrees o o.
Proof. by right. Qed.

Lemma parsers_mono n :
  (forall c, agrees (calc_parse_factor n c) (calc_parse_factor (S n) c)) /\
  (forall c, agrees (calc_parse_term n c) (calc_parse_term (S n) c)) /\
  (forall v c, agrees (term_loop n v c) (term_loop (S n) v c)) /\
  (forall c, agrees (calc_parse_expr n c) (calc_parse_expr (S n) c)) /\
  (forall v c, agrees (expr_loop n v c) (expr_loop (S n) v c)).
Proof.
  induction n as [|n (IHf & IHt & IHtl & IHe & IHel)]; [split_and!; by left|]. split_and!.
  - intros c. cbn [calc_parse_factor]. repeat (case_goal; [try (apply IHf || (apply calc_agrees_bind; [apply IHf || apply IHe|intros; apply calc_agrees_refl]))|]).
    apply calc_agrees_refl.
  - intros c. cbn [calc_parse_term]. apply calc_agrees_bind; [apply IHf|intros; apply IHtl].
  - intros v c. cbn [term_loop]. case_goal; [apply calc_agrees_refl|]. case_goal; [apply calc_agrees_refl|].
    apply calc_agrees_bind; [apply IHf|]. intros r c2. case_goal; [apply calc_agrees_refl|]. case_goal; [apply IHtl|apply calc_agrees_refl].
  - intros c. cbn [calc_parse_expr]. apply calc_agrees_bind; [apply IHt|intros; apply IHel].
  - intros v c. cbn [expr_loop]. case_goal; [apply calc_agrees_refl|]. case_goal; [apply calc_agrees_refl|].
    apply calc_agrees_bind; [apply IHt|]. intros r c2. apply IHel.
Qed.

(** Expressions, and the value the C operators give them. *)
Inductive binop := Add | Sub | Mul | Div | Mod.
Inductive expr :=
| Num (n : Z)
| Neg (e : expr)
| Bin (o : binop) (a b : expr).

Definition op_char (o : binop) : Z := match o with Add => 43 | Sub => 45 | Mul => 42 | Div => 47 | Mod => 37 end.
Definition is_product (o : binop) : bool := match o with Add | Sub => false | _ => true end.

(** [None] where C has no value: a divisor of 0, or a quotient out of range. *)
Definition apply_op (o : binop) (a b : Z) : option Z :=
  match o with
  | Add => Some (s32 (a + b))
  | Sub => Some (s32 (a - b))
  | Mul => Some (s32 (a * b))
  | Div => if (b =? 0) || ((a =? -2147483648) && (b =? -1)) then None else Some (Z.quot a b)
  | Mod => if (b =? 0) || ((a =? -2147483648) && (b =? -1)) then None else Some (Z.rem a b)
  end.
Fixpoint eval (e : expr) : option Z :=
  match e with
  | Num n => if (0 <=? n) && (n <? 2147483648) then Some n else None
  | Neg e => v ← eval e; Some (s32 (- v))
  | Bin o a b => x ← eval a; y ← eval b; apply_op o x y
  end.

(** The text of an expression, with the parentheses its place needs: level 0
    is an [expr], 1 a [term], 2 a [factor]. *)
Definition dec (n : Z) : list Z := default [] (k_utoa n 10).
Definition spaced (o : binop) : list Z := [32; op_char o; 32].
Definition paren (b : bool) (s : list Z) : list Z := if b then [40] ++ s ++ [41] else s.
Fixpoint print (lvl : nat) (e : expr) : list Z :=
  match e with
  | Num n => dec n
  | Neg e => [45] ++ print 2 e
  | Bin o a b =>
    if is_product o then paren (bool_decide (1 < lvl)%nat) (print 1 a ++ spaced o ++ print 2 b)
    else paren (bool_decide (0 < lvl)%nat) (print 0 a ++ spaced o ++ print 1 b)
  end.

(** ** Numbers *)

(** A text that can follow a number: it does not go on with one. *)
Definition ends (k : list Z) : Prop := isdigit (ch k) = false /\ ch k <> 120 /\ ch k <> 88.

Lemma calc_dec_app ds k v g :
  Forall (fun c => isdigit c = true) ds -> isdigit (ch k) = false ->
  calc_dec (ds ++ k) v g = (atoi_digits ds v, k, match ds with [] => g | _ => true end).
Proof.
  intros Hds Hk. revert v g. induction Hds as [|c ds Hc Hds IH]; intros v g; simpl.
  - destruct k as [|c k]; [done|]. simpl in *. by rewrite Hk.
  - rewrite Hc, IH. by destruct ds.
Qed.

Lemma dec_spec n : 0 <= n < 2147483648 ->
  exists d ds, dec n = d :: ds /\ Forall (fun c => isdigit c = true) (d :: ds) /\ atoi_digits (d :: ds) 0 = n.
Proof.
  intros Hn. unfold dec. destruct (k_utoa_digits n 10) as (s & -> & Hval & Hd & Hlen & _); [lia|unfold_widths; lia|].
  destruct s as [|d ds]; [simpl in Hlen; lia|]. exists d, ds. split; [done|]. split.
  - eapply Forall_impl; [exact Hd|]. intros c (x & Hx & ->). by apply isdigit_digits.
  - rewrite (atoi_digits_value (d :: ds) 0 Hd); [exact Hval|lia|]. unfold value in Hval. lia.
Qed.

Lemma digit_not_special c : isdigit c = true -> c <> 32 /\ c <> 9 /\ c <> 43 /\ c <> 45 /\ c <> 40 /\ c <> 120 /\ c <> 88.
Proof. unfold isdigit. intros H. bool_to_prop. lia. Qed.

Lemma factor_number m n k : 0 <= n < 2147483648 -> ends k ->
  calc_parse_factor (S m) (Ctx (dec n ++ k) 0) = Done n (Ctx k 0).
Proof.
  intros Hn (Hk & Hx & HX). destruct (dec_spec n Hn) as (d & ds & -> & Hds & Hval).
  pose proof (Forall_inv Hds) as Hd. destruct (digit_not_special d Hd) as (H1 & H2 & H3 & H4 & H5 & _ & _).
  cbn [calc_parse_factor]. unfold calc_skip_ws, peek, calc_number. simpl rest. simpl skip_ws.
  rewrite (proj2 (Z.eqb_neq d 32) H1), (proj2 (Z.eqb_neq d 9) H2). cbn [orb rest err ch].
  rewrite (proj2 (Z.eqb_neq d 43) H3), (proj2 (Z.eqb_neq d 45) H4), (proj2 (Z.eqb_neq d 40) H5).
  assert (Hnx : ch (tail (d :: ds ++ k)) <> 120 /\ ch (tail (d :: ds ++ k)) <> 88).
  { simpl. destruct ds as [|d' ds']; [done|]. simpl. apply Forall_inv_tail, Forall_inv in Hds. by apply digit_not_special. }
  destruct Hnx as [Hn1 Hn2]. rewrite (proj2 (Z.eqb_neq _ _) Hn1), (proj2 (Z.eqb_neq _ _) Hn2), andb_false_r.
  change (d :: ds ++ k) with ((d :: ds) ++ k). rewrite calc_dec_app by done. by rewrite Hval.
Qed.

(** ** Expressions *)

(** [f] gives [o] once it has enough fuel. *)
Definition ev (f : nat -> outcome) (o : outcome) : Prop := exists n0, forall n, (n0 <= n)%nat -> f n = o.

Lemma ev_step (f g : nat -> outcome) o : (forall n, f (S n) = g n) -> ev g o -> ev f o.
Proof. intros Hfg [n0 Hg]. exists (S n0). intros [|n] Hn; [lia|]. rewrite Hfg. apply Hg. lia. Qed.
Lemma ev_bind f v c k o : ev f (Done v c) -> ev (fun n => k n v c) o -> ev (fun n => bind_out (f n) (k n)) o.
Proof. intros [n1 H1] [n2 H2]. exists (n1 + n2)%nat. intros n Hn. rewrite H1 by lia. simpl. apply H2. lia. Qed.
Lemma ev_const o : ev (fun _ => o) o.
Proof. by exists O. Qed.

Lemma skip_ws_idem s : skip_ws (skip_ws s) = skip_ws s.
Proof. induction s as [|c s IH]; simpl; [done|]. destruct ((c =? 32) || (c =? 9)) eqn:Hc; [done|]. simpl. by rewrite Hc. Qed.

Lemma factor_skip n s : calc_parse_factor n (Ctx (32 :: s) 0) = calc_parse_factor n (Ctx s 0).
Proof. by destruct n. Qed.
Lemma term_skip n s : calc_parse_term n (Ctx (32 :: s) 0) = calc_parse_term n (Ctx s 0).
Proof. destruct n; [done|]. cbn [calc_parse_term]. by rewrite factor_skip. Qed.
Lemma expr_loop_skip n v s : expr_loop n v (Ctx (skip_ws s) 0) = expr_loop n v (Ctx s 0).
Proof. destruct n; [done|]. cbn [expr_loop]. unfold calc_skip_ws. simpl rest. by rewrite skip_ws_idem. Qed.

Definition no_mul (k : list Z) : Prop := is_mul_op (ch (skip_ws k)) = false.

Lemma term_loop_stops v k : no_mul k -> ev (fun n => term_loop n v (Ctx k 0)) (Done v (Ctx (skip_ws k) 0)).
Proof.
  intros Hk. exists 1%nat. intros [|n] Hn; [lia|]. cbn [term_loop]. unfold calc_skip_ws, peek. simpl. unfold no_mul in Hk. by rewrite Hk.
Qed.

Section printed.
Context (e : expr) (v : Z).

(** What the three parsers do with the three forms of a printed expression. *)
Definition factor_ok : Prop := forall k, ends k ->
  ev (fun n => calc_parse_factor n (Ctx (print 2 e ++ k) 0)) (Done v (Ctx k 0)).
Definition term_ok : Prop := forall k o, ends k ->
  ev (fun n => term_loop n v (Ctx k 0)) o -> ev (fun n => calc_parse_term n (Ctx (print 1 e ++ k) 0)) o.
Definition expr_ok : Prop := forall k o, ends k -> no_mul k ->
  ev (fun n => expr_loop n v (Ctx k 0)) o -> ev (fun n => calc_parse_expr n (Ctx (print 0 e ++ k) 0)) o.

Lemma term_of_factor : print 1 e = print 2 e -> factor_ok -> term_ok.
Proof.
  intros Hp Hf k o Hk Ho. rewrite Hp. eapply ev_step; [reflexivity|]. exact (ev_bind _ _ _ _ _ (Hf k Hk) Ho).
Qed.
Lemma expr_of_term : print 0 e = print 1 e -> term_ok -> expr_ok.
Proof.
  intros Hp Ht k o Hk Hm Ho. rewrite Hp. eapply ev_step; [reflexivity|].
  eapply ev_bind; [apply Ht; [done|by apply term_loop_stops]|].
  destruct Ho as [n0 Ho]. exists n0. intros n Hn. rewrite expr_loop_skip. auto.
Qed.
Lemma factor_of_expr : print 2 e = [40] ++ print 0 e ++ [41] -> expr_ok -> factor_ok.
Proof.
  intros Hp He k Hk. rewrite Hp, <- !app_assoc. eapply ev_step; [reflexivity|].
  eapply (ev_bind _ v (Ctx ([41] ++ k) 0)); [|apply ev_const].
  apply He; [done|done|]. exists 1%nat. intros [|n] Hn; [lia|]. done.
Qed.
End printed.

Lemma mul_step_apply o x y v :
  is_product o = true -> apply_op o x y = Some v ->
  is_mul_op (op_char o) = true /\ (negb (op_char o =? 42) && (y =? 0)) = false /\ mul_step (op_char o) x y = Some v.
Proof.
  intros Hp Ha. unfold mul_step. destruct o; try done; simpl in *.
  - destruct (y =? 0); [done|]. destruct ((x =? -2147483648) && (y =? -1)); [done|]. by split_and!.
  - destruct (y =? 0); [done|]. destruct ((x =? -2147483648) && (y =? -1)); [done|]. by split_and!.
Qed.

Lemma term_product o a b x y v :
  is_product o = true -> apply_op o x y = Some v -> term_ok a x -> factor_ok b y -> term_ok (Bin o a b) v.
Proof.
  intros Hp Hop Ha Hb k r Hk Hr. destruct (mul_step_apply o x y v Hp Hop) as (Hm & Hz & Hs).
  assert (print 1 (Bin o a b) = print 1 a ++ spaced o ++ print 2 b) as -> by (simpl; by rewrite Hp).
  rewrite <- !app_assoc. apply Ha; [done|]. eapply ev_step.
  { intros n. cbn [term_loop]. unfold calc_skip_ws, peek, advance, spaced. simpl.
    assert (Hsp : (op_char o =? 32) || (op_char o =? 9) = false) by (by destruct o). rewrite Hsp. simpl. rewrite Hm. simpl.
    rewrite factor_skip. reflexivity. }
  eapply ev_bind; [by apply Hb|]. cbv beta. rewrite Hz, Hs. exact Hr.
Qed.

Lemma expr_sum o a b x y v :
  is_product o = false -> apply_op o x y = Some v -> expr_ok a x -> term_ok b y -> expr_ok (Bin o a b) v.
Proof.
  intros Hp Hop Ha Hb k r Hk Hm Hr.
  assert (print 0 (Bin o a b) = print 0 a ++ spaced o ++ print 1 b) as -> by (simpl; by rewrite Hp).
  rewrite <- !app_assoc. apply Ha; [done|by destruct o|]. eapply ev_step.
  { intros n. cbn [expr_loop]. unfold calc_skip_ws, peek, advance, spaced. simpl.
    assert (Hsp : (op_char o =? 32) || (op_char o =? 9) = false) by (by destruct o). rewrite Hsp. simpl.
    assert (is_add_op (op_char o) = true) as -> by (by destruct o). simpl. rewrite term_skip. reflexivity. }
  eapply ev_bind; [apply Hb; [done|by apply term_loop_stops]|]. cbv beta.
  assert (s32 (if op_char o =? 43 then x + y else x - y) = v) as -> by (destruct o; try done; simpl in *; congruence).
  destruct Hr as [n0 Hr]. exists n0. intros n Hn. rewrite expr_loop_skip. auto.
Qed.

Lemma printed_ok e v : eval e = Some v -> factor_ok e v /\ term_ok e v /\ expr_ok e v.
Proof.
  revert v. induction e as [n|e IH|o a IHa b IHb]; intros v Hv; simpl in Hv.
  - destruct ((0 <=? n) && (n <? 2147483648)) eqn:Hn; [|done]. injection Hv as <-. bool_to_prop.
    assert (Hf : factor_ok (Num n) n) by (intros k Hk; exists 1%nat; intros [|m] Hm; [lia|]; by apply factor_number).
    assert (Ht : term_ok (Num n) n) by (by apply term_of_factor). split_and!; [done..|by apply expr_of_term].
  - destruct (eval e) as [x|]; [|done]. injection Hv as <-. destruct (IH x eq_refl) as (Hf & _ & _).
    assert (Hfn : factor_ok (Neg e) (s32 (- x))).
    { intros k Hk. eapply ev_step; [reflexivity|]. eapply ev_bind; [by apply Hf|]. apply ev_const. }
    assert (Ht : term_ok (Neg e) (s32 (- x))) by (by apply term_of_factor). split_and!; [done..|by apply expr_of_term].
  - destruct (eval a) as [x|]; [|done]. destruct (eval b) as [y|]; [|done]. simpl in Hv.
    destruct (IHa x eq_refl) as (Hfa & Hta & Hea). destruct (IHb y eq_refl) as (Hfb & Htb & Heb).
    destruct (is_product o) eqn:Hp.
    + assert (Ht : term_ok (Bin o a b) v) by (by eapply term_product).
      assert (He : expr_ok (Bin o a b) v) by (apply expr_of_term; [simpl; by rewrite Hp|done]).
      split_and!; try done. apply factor_of_expr; [simpl; by rewrite Hp|done].
    + assert (He : expr_ok (Bin o a b) v) by (by eapply expr_sum).
      assert (Hf : factor_ok (Bin o a b) v) by (apply factor_of_expr; [simpl; by rewrite Hp|done]).
      split_and!; try done. apply term_of_factor; [simpl; by rewrite Hp|done].
Qed.

Lemma expr_mono n m c o : calc_parse_expr n c = o -> o <> NoFuel -> (n <= m)%nat -> calc_parse_expr m c = o.
Proof.
  intros Hn Ho Hm. induction Hm as [|m Hm IH]; [done|].
  destruct (parsers_mono m) as (_ & _ & _ & Hmono & _). destruct (Hmono c); congruence.
Qed.

(** The text "(0-2147483647-1)/-1". *)
Definition divide_error : list Z := [40; 48; 45; 50; 49; 52; 55; 52; 56; 51; 54; 52; 55; 45; 49; 41; 47; 45; 49].

(** C27: the calculator always answers within its fuel, and its answer for
    the text of any expression is the value the expression has in 32-bit
    arithmetic, with the precedences, the left associativity, the unary minus
    and the parentheses of C.  One division is not guarded against: the most
    negative number by -1, which the processor answers with a divide error. *)
Theorem calc_evaluates args e v :
  calc_command (calc_fuel args) args <> OutOfFuel /\
  (eval e = Some v -> calc_command (calc_fuel (print 0 e)) (print 0 e) = Value v) /\
  calc_command (calc_fuel divide_error) divide_error = Crash.
Proof.
  split; [apply calc_total|]. split; [|vm_compute; reflexivity]. intros Hv. pose proof (calc_total (print 0 e)) as Htot.
  destruct (printed_ok e v Hv) as (_ & _ & He).
  destruct (He [] (Done v (Ctx [] 0))) as [n0 Hn]; [done|done|exists 1%nat; intros [|n] Hn; [lia|done]|].
  rewrite app_nil_r in Hn. unfold calc_command in *.
  set (m := calc_fuel (print 0 e)) in *. clearbody m.
  destruct (calc_parse_expr m (Ctx (print 0 e) 0)) eqn:Hm; [..|done].
  - pose proof (expr_mono _ (n0 + m) _ _ Hm ltac:(done) ltac:(lia)) as Hm'. rewrite Hn in Hm' by lia. injection Hm' as <- <-. done.
  - pose proof (expr_mono _ (n0 + m) _ _ Hm ltac:(done) ltac:(lia)) as Hm'. rewrite Hn in Hm' by lia. done.
Qed.

Lemma calc_evaluates_witness :
  let e := Bin Sub (Bin Mul (Bin Add (Num 12) (Num 8)) (Neg (Num 5))) (Bin Mod (Num 17) (Num 5)) in
  calc_command (calc_fuel (print 0 e)) (print 0 e) = Value (-102).
Proof.
  apply (proj1 (proj2 (calc_evaluates [] (Bin Sub (Bin Mul (Bin Add (Num 12) (Num 8)) (Neg (Num 5))) (Bin Mod (Num 17) (Num 5))) (-102)))).
  reflexivity.
Defined.
