(* ===== verification/Console.v ===== *)
(** Console: the text console of [kernel/shell.c]: the grid of cells, the
    cursor, scrolling and printing, drawn on the framebuffer or in the VGA text
    memory and copied to the serial line.

    The state holds the static variables of the console, the framebuffer (with
    the memory the VGA text buffer is in), the serial driver (whose hardware
    answers at every port), and what the top bar reads of the network, the disk
    and the clock.  Characters are bytes. *)

From S2P Require Import Prelude Ports Partial Memory Common Text Ring Serial Font Pmm Paging Vbe Rtc Net.
#[local] Open Scope partial_scope.

Definition VGA_MEMORY : Z := 753664.
Definition MAX_GRID_COLS : Z := 200.
Definition MAX_GRID_ROWS : Z := 100.
Definition VBE_TOPBAR_HEIGHT : Z := 28.

Record console_cell_t := Cell { cell_ch : Z; cell_attr : Z }.

Definition shell_theme_palette : list Z :=
  [856343; 2060267; 3055683; 3786191; 14300723; 9000933; 13801762; 13226457;
   7239297; 5809919; 4176208; 5690589; 16273737; 12356863; 16754263; 15791868].

(** The cursor's colours. *)
Definition CURSOR_FG : Z := 856343.
Definition CURSOR_BG : Z := 16754263.

(** The 16-bit cells of the VGA text memory. *)
Definition vga_load (m : mem) (i : Z) : Z := ld8 m (VGA_MEMORY + 2 * i) + 256 * ld8 m (VGA_MEMORY + 2 * i + 1).
Definition vga_store (m : mem) (i v : Z) : mem :=
  st8 (st8 m (VGA_MEMORY + 2 * i) (u8 v)) (VGA_MEMORY + 2 * i + 1) (u8 (v / 256)).
Definition vga_entry (ch attr : Z) : Z := Z.lor (u8 ch) (Z.shiftl attr 8).

Record console (H : Type) := Con {
  shadow_grid : list (list console_cell_t);
  con_cols : Z;
  con_rows : Z;
  cur_x : Z;
  cur_y : Z;
  drawn_cur_x : Z;
  drawn_cur_y : Z;
  cur_visible : bool;
  default_attr : Z;
  con_vbe : vbe;
  con_ser : serial H;
  con_net : net_config_t;      (* net_config *)
  con_ramdisk : bool;          (* disk_is_ramdisk() *)
  con_rtc : bool;              (* rtc_available *)
  con_stack : rtc_time_t       (* what an uninitialised rtc_time_t holds *)
}.
Arguments Con {H}. Arguments shadow_grid {H}. Arguments con_cols {H}. Arguments con_rows {H}.
Arguments cur_x {H}. Arguments cur_y {H}. Arguments drawn_cur_x {H}. Arguments drawn_cur_y {H}.
Arguments cur_visible {H}. Arguments default_attr {H}. Arguments con_vbe {H}. Arguments con_ser {H}.
Arguments con_net {H}. Arguments con_ramdisk {H}. Arguments con_rtc {H}. Arguments con_stack {H}.

Section setters.
Context {H : Type}.
Implicit Types s : console H.

Definition set_grid g s : console H :=
  Con g (con_cols s) (con_rows s) (cur_x s) (cur_y s) (drawn_cur_x s) (drawn_cur_y s) (cur_visible s)
    (default_attr s) (con_vbe s) (con_ser s) (con_net s) (con_ramdisk s) (con_rtc s) (con_stack s).
Definition set_size cols rows s : console H :=
  Con (shadow_grid s) cols rows (cur_x s) (cur_y s) (drawn_cur_x s) (drawn_cur_y s) (cur_visible s)
    (default_attr s) (con_vbe s) (con_ser s) (con_net s) (con_ramdisk s) (con_rtc s) (con_stack s).
Definition set_cur x y s : console H :=
  Con (shadow_grid s) (con_cols s) (con_rows s) x y (drawn_cur_x s) (drawn_cur_y s) (cur_visible s)
    (default_attr s) (con_vbe s) (con_ser s) (con_net s) (con_ramdisk s) (con_rtc s) (con_stack s).
Definition set_drawn x y s : console H :=
  Con (shadow_grid s) (con_cols s) (con_rows s) (cur_x s) (cur_y s) x y (cur_visible s)
    (default_attr s) (con_vbe s) (con_ser s) (con_net s) (con_ramdisk s) (con_rtc s) (con_stack s).
Definition set_visible v s : console H :=
  Con (shadow_grid s) (con_cols s) (con_rows s) (cur_x s) (cur_y s) (drawn_cur_x s) (drawn_cur_y s) v
    (default_attr s) (con_vbe s) (con_ser s) (con_net s) (con_ramdisk s) (con_rtc s) (con_stack s).
Definition set_vbe v s : console H :=
  Con (shadow_grid s) (con_cols s) (con_rows s) (cur_x s) (cur_y s) (drawn_cur_x s) (drawn_cur_y s) (cur_visible s)
    (default_attr s) v (con_ser s) (con_net s) (con_ramdisk s) (con_rtc s) (con_stack s).
Definition set_ser u s : console H :=
  Con (shadow_grid s) (con_cols s) (con_rows s) (cur_x s) (cur_y s) (drawn_cur_x s) (drawn_cur_y s) (cur_visible s)
    (default_attr s) (con_vbe s) u (con_net s) (con_ramdisk s) (con_rtc s) (con_stack s).
Definition set_vga (m : mem) s : console H := set_vbe (with_vmem m (con_vbe s)) s.
End setters.

Definition no_cell : console_cell_t := Cell 0 0.
Definition grid_get (g : list (list console_cell_t)) (row col : Z) : console_cell_t := nthZ no_cell (nthZ [] g row) col.
Definition grid_set (g : list (list console_cell_t)) (row col : Z) (c : console_cell_t) : list (list console_cell_t) :=
  updZ row (updZ col c (nthZ [] g row)) g.

Section console.
Context {H : Type} `{Ports H}.
Implicit Types s : console H.

Definition active s : bool := vbe_is_active (con_vbe s).

Definition ser_putc (c : Z) : PM (console H) unit := p_part con_ser set_ser (serial_write_char COM1_PORT c).
Definition ser_puts (str : list Z) : PM (console H) unit := p_part con_ser set_ser (serial_write_str str).
Definition con_in (p : Z) : PM (console H) Z := p_part con_ser set_ser (in8 p).
Definition con_out (p v : Z) : PM (console H) unit := p_part con_ser set_ser (out8 p v).

Definition vga_hw_set_cursor (x y : Z) (visible : bool) : PM (console H) unit :=
  if negb visible then con_out 980 10;; con_out 981 32
  else
    con_out 980 10;;
    a <- con_in 981;; con_out 981 (u8 (Z.lor (Z.land a 192) 13));;
    con_out 980 11;;
    b <- con_in 981;; con_out 981 (u8 (Z.lor (Z.land b 224) 15));;
    let pos := u16 (y * 80 + x) in
    con_out 980 15;; con_out 981 (u8 (Z.land pos 255));;
    con_out 980 14;; con_out 981 (u8 (Z.land (Z.shiftr pos 8) 255)).

(** [ch ? ch : ' ']. *)
Definition shown (ch : Z) : Z := if ch =? 0 then 32 else ch.
Definition attr_fg (attr : Z) : Z := nthZ 0 shell_theme_palette (Z.land attr 15).
Definition attr_bg (attr : Z) : Z := nthZ 0 shell_theme_palette (Z.land (Z.shiftr attr 4) 15).

Definition vbe_render_cell_raw (col row ch attr : Z) s : console H :=
  let px := u32 (col * FONT_WIDTH) in
  let py := u32 (VBE_TOPBAR_HEIGHT + row * FONT_HEIGHT) in
  set_vbe (vbe_draw_char px py (shown ch) (attr_fg attr) (attr_bg attr) (con_vbe s)) s.

(** The bounds test on a cell of the grid. *)
Definition in_grid (col row : Z) s : bool :=
  (0 <=? col) && (col <? con_cols s) && (0 <=? row) && (row <? con_rows s).

Definition vbe_undraw_cursor s : console H :=
  if negb (active s) then s
  else
    let s := if in_grid (drawn_cur_x s) (drawn_cur_y s) s then
               let cell := grid_get (shadow_grid s) (drawn_cur_y s) (drawn_cur_x s) in
               vbe_render_cell_raw (drawn_cur_x s) (drawn_cur_y s) (cell_ch cell) (cell_attr cell) s
             else s in
    set_drawn (-1) (-1) s.

Definition vbe_draw_cursor_at (col row : Z) s : console H :=
  if negb (active s) || negb (cur_visible s) then s
  else if negb (in_grid col row s) then s
  else
    let cell := grid_get (shadow_grid s) row col in
    let px := u32 (col * FONT_WIDTH) in
    let py := u32 (VBE_TOPBAR_HEIGHT + row * FONT_HEIGHT) in
    set_drawn col row
      (set_vbe (vbe_draw_char px py (shown (cell_ch cell)) CURSOR_FG CURSOR_BG (con_vbe s)) s).

Definition console_cols s : Z := con_cols s.
Definition console_rows s : Z := con_rows s.

Definition draw_text (x y : Z) (t : list Z) (fg bg : Z) : PM (console H) unit :=
  p_step (fun s => v ← vbe_draw_string x y t fg bg (con_vbe s); Some (set_vbe v s)).

(** The text in the middle of the top bar. *)
Definition topbar_mid s : option (list Z) :=
  (fun net => net ++ (if con_ramdisk s then str "  |  FS: RAMDisk" else str "  |  FS: ATA HDD")) <$>
  (if configured (con_net s) then (fun ip_s => str "NET: " ++ ip_s) <$> net_format_ip (cfg_ip (con_net s))
   else Some (str "NET: offline")).

Definition console_refresh_topbar : PM (console H) unit :=
  s <- p_get;;
  if negb (active s) then p_ret tt
  else
    let w := width (vbe_fb (con_vbe s)) in
    p_mod (fun s => set_vbe (vbe_fill_rect 0 0 w (VBE_TOPBAR_HEIGHT - 2) 1448738 (con_vbe s)) s);;
    p_mod (fun s => set_vbe (vbe_fill_rect 0 (VBE_TOPBAR_HEIGHT - 2) w 2 16743168 (con_vbe s)) s);;
    draw_text 12 6 (str "BENGAL TIGER OS v1.0.0") 16754263 1448738;;
    mid <- p_val (topbar_mid s);;
    let mid_x := Z.quot (s32 w - strlen mid * FONT_WIDTH) 2 in
    (if 220 <? mid_x then draw_text (u32 mid_x) 6 mid 9147550 1448738 else p_ret tt);;
    rt <- p_zoom (fun s => serial_hw (con_ser s)) (fun h s => set_ser (set_hw h (con_ser s)) s)
            (rtc_read_time (con_rtc s));;
    let clk := rtc_format_time (default (con_stack s) rt) ++ str " UTC" in
    let rx := s32 w - strlen clk * FONT_WIDTH - 12 in
    if 0 <? rx then draw_text (u32 rx) 6 clk 5690589 1448738 else p_ret tt.

Definition console_put_cell (col row ch attr : Z) s : console H :=
  if negb (in_grid col row s) then s
  else
    let s := set_grid (grid_set (shadow_grid s) row col (Cell ch attr)) s in
    if active s then
      let s := if (col =? drawn_cur_x s) && (row =? drawn_cur_y s) then set_drawn (-1) (-1) s else s in
      vbe_render_cell_raw col row ch attr s
    else set_vga (vga_store (vbe_mem (con_vbe s)) (row * 80 + col) (vga_entry ch attr)) s.

Definition clamp (v n : Z) : Z := let v := if v <? 0 then 0 else v in if n <=? v then n - 1 else v.

Definition console_set_cursor (col row : Z) (visible : bool) : PM (console H) unit :=
  s <- p_get;;
  let col := clamp col (con_cols s) in
  let row := clamp row (con_rows s) in
  p_mod (fun s => set_visible visible (set_cur col row s));;
  if active s then
    p_mod vbe_undraw_cursor;;
    if visible then p_mod (vbe_draw_cursor_at col row) else p_ret tt
  else vga_hw_set_cursor col row visible.

(** The loops over the rows and columns of the grid. *)
Definition fill_cells (attr cols : Z) (row : list console_cell_t) : list console_cell_t :=
  for_range 0 cols (fun c row => updZ c (Cell 32 attr) row) row.
Definition clear_grid (attr rows cols : Z) (g : list (list console_cell_t)) : list (list console_cell_t) :=
  for_range 0 rows (fun r g => updZ r (fill_cells attr cols (nthZ [] g r)) g) g.

Definition console_clear_cells (attr : Z) : PM (console H) unit :=
  p_mod (set_drawn (-1) (-1));;
  p_mod (fun s => set_grid (clear_grid attr (con_rows s) (con_cols s) (shadow_grid s)) s);;
  s <- p_get;;
  (if active s then
     let fb := vbe_fb (con_vbe s) in
     p_mod (fun s => set_vbe (vbe_fill_rect 0 VBE_TOPBAR_HEIGHT (width fb)
                               (u32 (height fb - VBE_TOPBAR_HEIGHT)) (attr_bg attr) (con_vbe s)) s);;
     console_refresh_topbar
   else
     p_mod (fun s => set_vga (for_range 0 (80 * 25) (fun i m => vga_store m i (vga_entry 32 attr))
                               (vbe_mem (con_vbe s))) s));;
  console_set_cursor 0 0 true.

(** [memcpy(shadow_grid[r], shadow_grid[r + 1], con_cols * sizeof(console_cell_t))]. *)
Definition copy_row (cols r : Z) (g : list (list console_cell_t)) : list (list console_cell_t) :=
  updZ r (take (Z.to_nat cols) (nthZ [] g (r + 1)) ++ drop (Z.to_nat cols) (nthZ [] g r)) g.
Definition scroll_grid (attr rows cols : Z) (g : list (list console_cell_t)) : list (list console_cell_t) :=
  let g := for_range 0 (rows - 1) (copy_row cols) g in
  updZ (rows - 1) (fill_cells attr cols (nthZ [] g (rows - 1))) g.

Definition vga_scroll (attr : Z) (m : mem) : mem :=
  let m := for_range 0 (80 * 24) (fun i m => vga_store m i (vga_load m (i + 80))) m in
  for_range 0 80 (fun c m => vga_store m (24 * 80 + c) (vga_entry 32 attr)) m.

Definition console_scroll_up : PM (console H) unit :=
  p_mod (fun s => if active s then vbe_undraw_cursor s else s);;
  p_mod (fun s => set_grid (scroll_grid (default_attr s) (con_rows s) (con_cols s) (shadow_grid s)) s);;
  s <- p_get;;
  if active s then
    let region_h := u32 (con_rows s * FONT_HEIGHT) in
    p_step (fun s => v ← vbe_scroll_region VBE_TOPBAR_HEIGHT region_h FONT_HEIGHT
                           (nthZ 0 shell_theme_palette 0) (con_vbe s); Some (set_vbe v s))
  else p_mod (fun s => set_vga (vga_scroll (default_attr s) (vbe_mem (con_vbe s))) s).

(** [while (cur_y >= con_rows)], which takes at most [cur_y] rounds. *)
Definition scroll_into_view : PM (console H) unit :=
  s <- p_get;;
  p_while (S (Z.to_nat (cur_y s)))
    (s <- p_get;; p_ret (con_rows s <=? cur_y s))
    (console_scroll_up;; p_mod (fun s => set_cur (cur_x s) (cur_y s - 1) s)).

(** What a character other than a tab does to the cursor and the grid. *)
Definition write_char_step (c color : Z) s : console H :=
  if c =? NL then set_cur 0 (cur_y s + 1) s
  else if c =? CR then set_cur 0 (cur_y s) s
  else if c =? BS then
    let s := if 0 <? cur_x s then set_cur (cur_x s - 1) (cur_y s) s
             else if 0 <? cur_y s then set_cur (con_cols s - 1) (cur_y s - 1) s else s in
    console_put_cell (cur_x s) (cur_y s) 32 (default_attr s) s
  else if 32 <=? c then
    let s := console_put_cell (cur_x s) (cur_y s) c color s in
    let s := set_cur (cur_x s + 1) (cur_y s) s in
    if con_cols s <=? cur_x s then set_cur 0 (cur_y s + 1) s else s
  else s.

(** [console_write_char_color] without the serial copy, for any character but
    a tab: the body the tab's recursive calls run with a space. *)
Definition write_char_tail (c color : Z) : PM (console H) unit :=
  p_mod (fun s => if active s then vbe_undraw_cursor s else s);;
  p_mod (write_char_step c color);;
  scroll_into_view;;
  s <- p_get;; console_set_cursor (cur_x s) (cur_y s) true.

Definition console_write_char_color (c color : Z) (mirror_serial : bool) : PM (console H) unit :=
  (if mirror_serial then if c =? BS then ser_puts [BS; 32; BS] else ser_putc c else p_ret tt);;
  if c =? TAB then
    p_mod (fun s => if active s then vbe_undraw_cursor s else s);;
    s <- p_get;;
    p_each (replicate (Z.to_nat (4 - Z.land (cur_x s) 3)) 32) (fun sp => write_char_tail sp color)
  else write_char_tail c color.

Definition shell_clear : PM (console H) unit :=
  s <- p_get;;
  console_clear_cells (default_attr s);;
  ser_puts ([ESC] ++ str "[2J" ++ [ESC] ++ str "[H").

Definition shell_putchar (c : Z) : PM (console H) unit :=
  s <- p_get;; console_write_char_color c (default_attr s) true.
Definition shell_print (t : list Z) : PM (console H) unit :=
  p_each t (fun c => s <- p_get;; console_write_char_color c (default_attr s) true).
Definition shell_print_color (t : list Z) (color : Z) : PM (console H) unit :=
  p_each t (fun c => console_write_char_color c color true).
Definition shell_print_int (num : Z) : PM (console H) unit :=
  buf <- p_val (k_itoa num 10);; shell_print buf.
Definition shell_print_hex (num : Z) : PM (console H) unit :=
  shell_print (str "0x");;
  buf <- p_val (k_utoa num 16);;
  (if strlen buf <? 2 then shell_print (str "0") else p_ret tt);;
  shell_print buf.

(** The digits of [print_hex_pad], from the right. *)
Fixpoint hex_pad (digits_ : nat) (val : Z) (acc : list Z) : list Z :=
  match digits_ with
  | O => acc
  | S n => hex_pad n (Z.shiftr val 4) (nthZ 0 (str "0123456789ABCDEF") (Z.land val 15) :: acc)
  end.
Definition print_hex_pad (val : Z) (digits_ : nat) : PM (console H) unit := shell_print (hex_pad digits_ val []).
End console.
