(* ===== verification/ConsoleGrid.v ===== *)
(** ConsoleGrid: the grid of the console, and its picture on the screen.

    The grid operations are described cell by cell; the picture is described
    by a function that gives the colour of a pixel from its cell. *)

From S2P Require Import Prelude Ports Partial Memory Common Text Ring Serial Font Pmm Paging Vbe VbeSpec Rtc Net Console.

(** * The grid *)

Definition grid_wf (g : list (list console_cell_t)) : Prop :=
  lenZ g = MAX_GRID_ROWS /\ forall r, 0 <= r < MAX_GRID_ROWS -> lenZ (nthZ [] g r) = MAX_GRID_COLS.

(** Two grids agree on the cells in use. *)
Definition grid_is (rows cols : Z) (g : list (list console_cell_t)) (f : Z -> Z -> console_cell_t) : Prop :=
  forall r c, 0 <= r < rows -> 0 <= c < cols -> grid_get g r c = f r c.

Section grid.
Implicit Types g : list (list console_cell_t).

(** Replacing a row by one of the same length. *)
Lemma row_set_wf g r row : grid_wf g -> lenZ row = MAX_GRID_COLS -> grid_wf (updZ r row g).
Proof.
  intros [Hl Hr] Hrow. split; [by rewrite lenZ_updZ|]. intros r' Hr'.
  destruct (decide (r = r')) as [->|]; [by rewrite nthZ_updZ_eq by (rewrite Hl; done)|].
  rewrite nthZ_updZ_ne by done. auto.
Qed.
Lemma row_set_get g r row r' c :
  grid_wf g -> 0 <= r < MAX_GRID_ROWS ->
  grid_get (updZ r row g) r' c = if decide (r' = r) then nthZ no_cell row c else grid_get g r' c.
Proof.
  intros [Hl _] Hr. unfold grid_get. case_decide as Hd; [subst; by rewrite nthZ_updZ_eq by (rewrite Hl; done)|].
  by rewrite nthZ_updZ_ne by done.
Qed.

Lemma grid_set_wf g r c x : grid_wf g -> 0 <= r < MAX_GRID_ROWS -> grid_wf (grid_set g r c x).
Proof. intros Hg Hr. apply row_set_wf; [done|]. rewrite lenZ_updZ. by apply Hg. Qed.
Lemma grid_get_set g r c x r' c' :
  grid_wf g -> 0 <= r < MAX_GRID_ROWS -> 0 <= c < MAX_GRID_COLS ->
  grid_get (grid_set g r c x) r' c' = if decide (r' = r /\ c' = c) then x else grid_get g r' c'.
Proof.
  intros Hg Hr Hc. unfold grid_set. rewrite row_set_get by done. destruct (decide (r' = r)) as [->|].
  - destruct (decide (c' = c)) as [->|].
    + rewrite decide_True by done. apply nthZ_updZ_eq. by rewrite (proj2 Hg).
    + rewrite decide_False by tauto. by rewrite nthZ_updZ_ne by done.
  - by rewrite decide_False by tauto.
Qed.

Lemma fill_cells_spec attr cols row :
  0 <= cols <= lenZ row ->
  lenZ (fill_cells attr cols row) = lenZ row /\
  forall c, 0 <= c -> nthZ no_cell (fill_cells attr cols row) c = if decide (c < cols) then Cell 32 attr else nthZ no_cell row c.
Proof.
  intros Hc.
  refine (for_range_inv (fun i r => lenZ r = lenZ row /\ forall c, 0 <= c -> nthZ no_cell r c =
    if decide (c < i) then Cell 32 attr else nthZ no_cell row c) 0 cols _ row _ _ _); [lia| |].
  - split; [done|]. intros c Hc'. by rewrite decide_False by lia.
  - intros i r Hi [Hl Hr]. rewrite lenZ_updZ. split; [done|]. intros c Hc'.
    destruct (decide (c = i)) as [->|].
    + rewrite nthZ_updZ_eq by lia. by rewrite decide_True by lia.
    + rewrite nthZ_updZ_ne, Hr by done. repeat case_decide; (done || lia).
Qed.

Lemma clear_grid_spec attr rows cols g :
  grid_wf g -> 0 <= rows <= MAX_GRID_ROWS -> 0 <= cols <= MAX_GRID_COLS ->
  grid_wf (clear_grid attr rows cols g) /\ grid_is rows cols (clear_grid attr rows cols g) (fun _ _ => Cell 32 attr).
Proof.
  intros Hg Hr Hc. unfold grid_is.
  apply (for_range_inv (fun i g1 => grid_wf g1 /\ forall r c, 0 <= r < i -> 0 <= c < cols -> grid_get g1 r c = Cell 32 attr));
    [lia|split; [done|lia]|].
  intros i g1 Hi [Hg1 Hget]. assert (Hrow : lenZ (nthZ [] g1 i) = MAX_GRID_COLS) by (apply Hg1; lia).
  destruct (fill_cells_spec attr cols (nthZ [] g1 i)) as [Hl Hf]; [lia|].
  split; [apply row_set_wf; [done|congruence]|]. intros r c Hr' Hc'. rewrite row_set_get by (done || lia).
  case_decide; [rewrite Hf, decide_True by lia; done|apply Hget; lia].
Qed.

Lemma nthZ_take_app {A} (d : A) n l l' i :
  0 <= i < n -> n <= lenZ l -> nthZ d (take (Z.to_nat n) l ++ l') i = nthZ d l i.
Proof.
  intros Hi Hn. unfold nthZ, lenZ in *. destruct (Z.ltb_spec i 0); [lia|].
  by rewrite lookup_app_l, lookup_take_lt by (rewrite ?length_take; lia).
Qed.

Lemma copy_row_spec cols r g :
  grid_wf g -> 0 <= cols <= MAX_GRID_COLS -> 0 <= r -> r + 1 < MAX_GRID_ROWS ->
  grid_wf (copy_row cols r g) /\
  forall r' c, 0 <= c < cols -> grid_get (copy_row cols r g) r' c = grid_get g (if decide (r' = r) then r + 1 else r') c.
Proof.
  intros Hg Hc Hr Hr1. pose proof (proj2 Hg (r + 1)) as Hl1. pose proof (proj2 Hg r) as Hl. unfold lenZ in *. unfold copy_row.
  split.
  - apply row_set_wf; [done|]. unfold lenZ. rewrite length_app, length_take, length_drop. unfold MAX_GRID_ROWS in *. lia.
  - intros r' c Hc'. rewrite row_set_get by (done || lia). case_decide; [|done]. apply nthZ_take_app; [done|].
    unfold lenZ, MAX_GRID_ROWS in *. lia.
Qed.

Lemma scroll_grid_spec attr rows cols g :
  grid_wf g -> 0 < rows <= MAX_GRID_ROWS -> 0 <= cols <= MAX_GRID_COLS ->
  grid_wf (scroll_grid attr rows cols g) /\
  grid_is rows cols (scroll_grid attr rows cols g)
    (fun r c => if decide (r = rows - 1) then Cell 32 attr else grid_get g (r + 1) c).
Proof.
  intros Hg Hr Hc. unfold scroll_grid.
  set (g1 := for_range 0 (rows - 1) (copy_row cols) g).
  assert (grid_wf g1 /\ forall r c, 0 <= c < cols -> grid_get g1 r c =
    grid_get g (if decide (0 <= r < rows - 1) then r + 1 else r) c) as [Hg1 Hget].
  { refine (for_range_inv (fun i g1 => grid_wf g1 /\ forall r c, 0 <= c < cols -> grid_get g1 r c =
      grid_get g (if decide (0 <= r < i) then r + 1 else r) c) 0 (rows - 1) _ g _ _ _); [lia| |].
    - split; [done|]. intros r c _. by rewrite decide_False by lia.
    - intros i g2 Hi [Hg2 Hget]. destruct (copy_row_spec cols i g2) as [Hw Hcp]; [done|lia..|].
      split; [done|]. intros r c Hc'. rewrite Hcp, Hget by done. f_equal. repeat case_decide; lia. }
  clearbody g1. assert (Hrow : lenZ (nthZ [] g1 (rows - 1)) = MAX_GRID_COLS) by (apply Hg1; lia).
  destruct (fill_cells_spec attr cols (nthZ [] g1 (rows - 1))) as [Hl Hf]; [lia|].
  split; [apply row_set_wf; [done|congruence]|]. intros r c Hr' Hc'. rewrite row_set_get by (done || lia).
  case_decide; [rewrite Hf, decide_True by lia; done|]. rewrite Hget by done. by rewrite decide_True by lia.
Qed.
End grid.

(** * The picture *)

(** [pic v rows cols f]: the pixel in column [x] and row [y] of the cell at
    [row], [col] has the colour [f row col x y]. *)
Definition pic (v : vbe) (rows cols : Z) (f : Z -> Z -> Z -> Z -> Z) : Prop :=
  forall row col x y, 0 <= row < rows -> 0 <= col < cols -> 0 <= x < FONT_WIDTH -> 0 <= y < FONT_HEIGHT ->
  vbe_getpixel (col * FONT_WIDTH + x) (VBE_TOPBAR_HEIGHT + row * FONT_HEIGHT + y) v = f row col x y.

(** The text area is on the screen. *)
Record fits (v : vbe) (rows cols : Z) : Prop := {
  ft_ok : vbe_ok v;
  ft_width : cols * FONT_WIDTH <= width (vbe_fb v);
  ft_height : VBE_TOPBAR_HEIGHT + rows * FONT_HEIGHT <= height (vbe_fb v);
  ft_bar : 320 <= width (vbe_fb v)
}.

Lemma fits_picture v v' rows cols : fits v rows cols -> only_picture v v' -> fits v' rows cols.
Proof. intros [H1 H2 H3 H4] (Hfb & _). split; unfold vbe_ok in *; by rewrite Hfb. Qed.

Lemma pic_ext v rows cols f g :
  pic v rows cols f ->
  (forall row col x y, 0 <= row < rows -> 0 <= col < cols -> 0 <= x < FONT_WIDTH -> 0 <= y < FONT_HEIGHT -> f row col x y = g row col x y) ->
  pic v rows cols g.
Proof. intros Hf Heq row col x y Hr Hc Hx Hy. rewrite <- Heq by done. by apply Hf. Qed.

Ltac font := change FONT_WIDTH with 8 in *; change FONT_HEIGHT with 16 in *; change VBE_TOPBAR_HEIGHT with 28 in *.

Lemma cell_on_screen v rows cols row col x y :
  fits v rows cols -> 0 <= row < rows -> 0 <= col < cols -> 0 <= x < FONT_WIDTH -> 0 <= y < FONT_HEIGHT ->
  on_screen (vbe_fb v) (col * FONT_WIDTH + x) (VBE_TOPBAR_HEIGHT + row * FONT_HEIGHT + y).
Proof. intros [_ Hw Hh _] ????. font. unfold on_screen. lia. Qed.

(** Drawing a character in a cell paints that cell. *)
Lemma draw_cell v rows cols f row col c fg bg :
  fits v rows cols -> pic v rows cols f -> is_color fg -> is_color bg -> 0 <= row < rows -> 0 <= col < cols ->
  let v' := vbe_draw_char (u32 (col * FONT_WIDTH)) (u32 (VBE_TOPBAR_HEIGHT + row * FONT_HEIGHT)) c fg bg v in
  only_picture v v' /\
  pic v' rows cols (fun r k => if decide (r = row /\ k = col) then cell c fg bg else f r k).
Proof.
  intros Hf Hp Hfg Hbg Hr Hc. pose proof Hf as [Hok Hw Hh _]. pose proof (fo_width _ Hok). pose proof (fo_height _ Hok).
  cbv zeta. font. rewrite !u32_id by lia.
  destruct (draw_char_spec v (col * 8) (28 + row * 16) c fg bg) as [Hpic Hpx]; try done; font; [lia..|].
  split; [done|]. intros r k x y Hr' Hk Hx Hy. font. rewrite Hpx by (by apply (cell_on_screen v rows cols)).
  unfold over_rect. font. case_decide as Hin.
  - rewrite decide_True by lia. f_equal; lia.
  - rewrite decide_False by lia. by apply Hp.
Qed.

(** Painting above the text area leaves it. *)
Lemma pic_above v v' rows cols f g :
  fits v rows cols -> pic v rows cols f -> repaint v v' g ->
  (forall x y, VBE_TOPBAR_HEIGHT <= y -> g x y = vbe_getpixel x y v) -> pic v' rows cols f.
Proof.
  intros Hf Hp [_ Hpx] Hg row col x y Hr Hc Hx Hy. rewrite Hpx by (by apply (cell_on_screen v rows cols)).
  rewrite Hg by (font; lia). by apply Hp.
Qed.

(** Scrolling by a line of text. *)
Lemma scroll_cells v rows cols f bg :
  fits v rows cols -> pic v rows cols f -> is_color bg -> 1 < rows ->
  exists v', vbe_scroll_region VBE_TOPBAR_HEIGHT (u32 (rows * FONT_HEIGHT)) FONT_HEIGHT bg v = Some v' /\
    only_picture v v' /\
    pic v' rows cols (fun r c => if decide (r = rows - 1) then fun _ _ => bg else f (r + 1) c).
Proof.
  intros Hf Hp Hbg Hr. pose proof Hf as [Hok Hw Hh _]. pose proof (fo_height _ Hok). font. rewrite u32_id by lia.
  destruct (scroll_region_spec v 28 (rows * 16) 16 bg) as (v' & -> & Hpic & Hpx); [done|done|lia..|].
  exists v'. split; [done|]. split; [done|]. intros r c x y Hr' Hc Hx Hy. font.
  rewrite Hpx by (by apply (cell_on_screen v rows cols)). unfold moved_up.
  destruct (decide (r = rows - 1)) as [->|]; [by rewrite decide_True by lia|].
  rewrite decide_False, decide_True by lia.
  replace (28 + r * 16 + y + 16) with (28 + (r + 1) * 16 + y) by lia. apply Hp; font; lia.
Qed.

(** Filling the text area. *)
Lemma fill_cells_pic v rows cols bg :
  fits v rows cols -> 0 < rows -> is_color bg ->
  let v' := vbe_fill_rect 0 VBE_TOPBAR_HEIGHT (width (vbe_fb v)) (u32 (height (vbe_fb v) - VBE_TOPBAR_HEIGHT)) bg v in
  only_picture v v' /\ pic v' rows cols (fun _ _ _ _ => bg).
Proof.
  intros Hf Hr Hbg. pose proof Hf as [Hok Hw Hh _]. pose proof (fo_width _ Hok). pose proof (fo_height _ Hok).
  cbv zeta. font. rewrite u32_id by lia.
  destruct (fill_rect_spec v 0 28 (width (vbe_fb v)) (height (vbe_fb v) - 28) bg) as [Hpic Hpx]; [done|done|lia..|].
  split; [done|]. intros r c x y Hr' Hc Hx Hy. rewrite Hpx by (by apply (cell_on_screen v rows cols)).
  unfold over_rect. font. by rewrite decide_True by lia.
Qed.

(** The space character has no pixel set. *)
Lemma space_blank fg bg x y : 0 <= x < FONT_WIDTH -> 0 <= y < FONT_HEIGHT -> cell 32 fg bg x y = bg.
Proof.
  intros _ Hy. font. assert (Hz : forallb (fun y => nthZ 0 (glyph 32) y =? 0) (seqZ 0 16) = true) by done.
  rewrite forallb_forall in Hz. specialize (Hz y). rewrite <- list_elem_of_In, elem_of_seqZ in Hz.
  unfold cell, glyph_bit. rewrite (proj1 (Z.eqb_eq _ _) (Hz ltac:(lia))). done.
Qed.

(** ** Text above the text area *)

Lemma draw_string_above v x y t fg bg :
  vbe_ok v -> is_color fg -> is_color bg -> 0 <= x -> 0 <= y -> Forall (fun c => c <> 10 /\ c <> 13) t ->
  x + (lenZ t + 1) * FONT_WIDTH <= width (vbe_fb v) -> y + FONT_HEIGHT <= height (vbe_fb v) ->
  exists v' g, vbe_draw_string x y t fg bg v = Some v' /\ repaint v v' g /\
    forall x' y', y + FONT_HEIGHT <= y' -> g x' y' = vbe_getpixel x' y' v.
Proof.
  intros Hok Hfg Hbg Hx Hy Ht Hw Hh. unfold vbe_draw_string. rewrite (fo_init _ Hok). simpl negb. cbv iota.
  assert (exists v' g, draw_string_loop x x y t fg bg v = Some v' /\ repaint v v' g /\
    forall x' y', y + FONT_HEIGHT <= y' -> g x' y' = vbe_getpixel x' y' v) as Hgoal; [|exact Hgoal].
  assert (Hloop : forall cx v, vbe_ok v -> 0 <= cx -> cx + (lenZ t + 1) * FONT_WIDTH <= width (vbe_fb v) ->
    y + FONT_HEIGHT <= height (vbe_fb v) ->
    exists v' g, draw_string_loop x cx y t fg bg v = Some v' /\ repaint v v' g /\
      forall x' y', y + FONT_HEIGHT <= y' -> g x' y' = vbe_getpixel x' y' v); [|by apply Hloop].
  clear v Hok Hw Hh. induction Ht as [|c t [Hn Hcr] Ht IH]; intros cx v Hok Hcx Hw Hh.
  { exists v, (fun x y => vbe_getpixel x y v). split; [done|]. split; [apply repaint_refl|done]. }
  pose proof (fo_width _ Hok). font. unfold lenZ in *. cbn [length] in Hw. cbn [draw_string_loop].
  apply Z.eqb_neq in Hn as ->. apply Z.eqb_neq in Hcr as ->.
  pose proof (draw_char_spec v cx y c fg bg) as Hd. font.
  specialize (Hd Hok Hfg Hbg Hcx Hy ltac:(lia) Hh). set (v1 := vbe_draw_char cx y c fg bg v) in *. clearbody v1.
  pose proof (repaint_ok _ _ _ Hd Hok) as Hok1. pose proof (repaint_fb _ _ _ Hd) as Hfb.
  rewrite (u32_id (cx + 8)) by lia. rewrite (u32_id (cx + 8 + 8)) by lia. rewrite Hfb, (proj2 (Z.ltb_ge _ _)) by lia.
  destruct (IH (cx + 8) v1) as (v' & g & Hv' & Hrep & Hg); [done|lia|rewrite Hfb; lia|by rewrite Hfb|].
  exists v', (fun x' y' => if decide (16 + y <= y') then vbe_getpixel x' y' v else g x' y'). split; [done|].
  split; [|intros x' y' Hy'; by rewrite decide_True by lia].
  eapply repaint_step; [exact Hd|exact Hrep|]. intros x' y' _ Heq. cbv beta. case_decide; [|done].
  rewrite Hg, Heq by lia. unfold over_rect. by rewrite decide_False by lia.
Qed.
