(* ===== verification/ConsoleSpec.v ===== *)
(** ConsoleSpec: what is on the screen is what was printed.

    The console of [Console] is described as a window on a roll of paper:
    printing writes on the paper, and when the pen leaves the window the window
    moves down.  The picture on the framebuffer, or the VGA text memory, always
    shows the window, with the cursor at the pen; and what is printed goes out
    on the serial line as well. *)

From S2P Require Import Prelude Ports Partial Memory Common Text Ring Serial SerialTx Font Pmm Paging.
From S2P Require Import Vbe VbeSpec Rtc Net Console ConsoleGrid.
#[local] Open Scope partial_scope.

(** * The VGA text memory *)

Section vga.
Implicit Types m : mem.

Lemma vga_load_range m i : 0 <= vga_load m i < 65536.
Proof.
  unfold vga_load. pose proof (ld8_range m (VGA_MEMORY + 2 * i)). pose proof (ld8_range m (VGA_MEMORY + 2 * i + 1)).
  unfold_widths. lia.
Qed.

Lemma vga_load_store m i v j : vga_load (vga_store m i v) j = if decide (j = i) then u16 v else vga_load m j.
Proof.
  unfold vga_load, vga_store. case_decide as Hj.
  - subst. rewrite ld8_st8_ne, !ld8_st8_eq by lia. unfold u8, u16. zlia.
  - rewrite !ld8_st8_ne by lia. done.
Qed.

(** Filling a run of cells. *)
Lemma vga_fill m lo n v j :
  0 <= n ->
  vga_load (for_range 0 n (fun i m => vga_store m (lo + i) v) m) j =
  if decide (lo <= j < lo + n) then u16 v else vga_load m j.
Proof.
  intros Hn. revert j.
  refine (for_range_inv (fun i m1 => forall j, vga_load m1 j = if decide (lo <= j < lo + i) then u16 v else vga_load m j)
    0 n _ m _ _ _); [done|intros j; by rewrite decide_False by lia|].
  intros i m1 Hi Hm j. rewrite vga_load_store, Hm. repeat case_decide; (done || lia).
Qed.

Lemma vga_scroll_spec attr m j : 0 <= j < 2000 ->
  vga_load (vga_scroll attr m) j = if decide (j < 1920) then vga_load m (j + 80) else u16 (vga_entry 32 attr).
Proof.
  intros Hj. unfold vga_scroll.
  set (m1 := for_range 0 (80 * 24) (fun i m => vga_store m i (vga_load m (i + 80))) m).
  assert (forall j, 0 <= j < 2000 -> vga_load m1 j = vga_load m (if decide (j < 1920) then j + 80 else j)) as H1.
  { refine (for_range_inv (fun i m1 => forall j, 0 <= j < 2000 -> vga_load m1 j = vga_load m (if decide (j < i) then j + 80 else j))
      0 (80 * 24) _ m _ _ _); [lia|intros k Hk; by rewrite decide_False by lia|].
    intros i m2 Hi Hm k Hk. rewrite vga_load_store. case_decide as Hki.
    - subst k. rewrite Hm by lia. rewrite u16_id by apply vga_load_range. f_equal. repeat case_decide; lia.
    - rewrite Hm by lia. f_equal. repeat case_decide; lia. }
  clearbody m1. rewrite vga_fill by lia. case_decide as Hin.
  - by rewrite decide_False by lia.
  - rewrite H1 by lia. by rewrite !decide_True by lia.
Qed.
End vga.

(** * The screen shows the grid *)

(** The picture of a cell, with the cursor drawn at [dx], [dy]. *)
Definition face (g : list (list console_cell_t)) (dx dy row col : Z) : Z -> Z -> Z :=
  let c := grid_get g row col in
  if decide (row = dy /\ col = dx) then cell (shown (cell_ch c)) CURSOR_FG CURSOR_BG
  else cell (shown (cell_ch c)) (attr_fg (cell_attr c)) (attr_bg (cell_attr c)).

(** The word of a cell in the VGA text memory. *)
Definition vga_word (c : console_cell_t) : Z := u16 (vga_entry (cell_ch c) (cell_attr c)).

(** A clock field is a byte. *)
Definition clock_bytes (t : rtc_time_t) : Prop := is_u8 (hours t) /\ is_u8 (minutes t) /\ is_u8 (seconds t).

Section screen.
Context {H : Type} `{UartTx H}.
Implicit Types s : console H.

Record con_ok s : Prop := {
  co_cols : 0 < con_cols s <= MAX_GRID_COLS;
  co_rows : 1 < con_rows s <= MAX_GRID_ROWS;
  co_grid : grid_wf (shadow_grid s);
  co_attr : default_attr s = 7;
  co_stack : clock_bytes (con_stack s);
  co_drawn : drawn_cur_x s = -1 /\ drawn_cur_y s = -1 \/ active s = true /\ in_grid (drawn_cur_x s) (drawn_cur_y s) s = true;
  co_dev : if active s then fits (con_vbe s) (con_rows s) (con_cols s) else con_cols s = 80 /\ con_rows s = 25
}.

Definition shows s : Prop :=
  if active s then pic (con_vbe s) (con_rows s) (con_cols s) (face (shadow_grid s) (drawn_cur_x s) (drawn_cur_y s))
  else forall r c, 0 <= r < con_rows s -> 0 <= c < con_cols s ->
       vga_load (vbe_mem (con_vbe s)) (r * 80 + c) = vga_word (grid_get (shadow_grid s) r c).

Lemma attr_fg_color a : is_color (attr_fg a).
Proof.
  unfold attr_fg. pose proof (Z.land_ones a 4). change (Z.ones 4) with 15 in *. rewrite H2 by lia.
  assert (Hall : forallb (fun i => (0 <=? nthZ 0 shell_theme_palette i) && (nthZ 0 shell_theme_palette i <? 16777216)) (seqZ 0 16) = true) by done.
  rewrite forallb_forall in Hall. specialize (Hall (a mod 2 ^ 4)). rewrite <- list_elem_of_In, elem_of_seqZ in Hall.
  unfold is_color. change (2 ^ 4) with 16 in *. specialize (Hall ltac:(zlia)). lia.
Qed.
Lemma attr_bg_color a : is_color (attr_bg a).
Proof. apply (attr_fg_color (Z.shiftr a 4)). Qed.
Lemma cursor_colors : is_color CURSOR_FG /\ is_color CURSOR_BG.
Proof. by compute. Qed.

Lemma in_gridP col row s : reflect (0 <= row < con_rows s /\ 0 <= col < con_cols s) (in_grid col row s).
Proof. unfold in_grid. apply iff_reflect. rewrite !andb_true_iff, !Z.leb_le, !Z.ltb_lt. lia. Qed.

Context (rows cols : Z).

(** The console shows the cells [g], and prints next at [x], [y]. *)
Record screen s (g : Z -> Z -> console_cell_t) (x y : Z) : Prop := {
  sc_ok : con_ok s;
  sc_shows : shows s;
  sc_rows : con_rows s = rows;
  sc_cols : con_cols s = cols;
  sc_grid : grid_is rows cols (shadow_grid s) g;
  sc_x : cur_x s = x;
  sc_y : cur_y s = y
}.
Definition undrawn s : Prop := drawn_cur_x s = -1 /\ drawn_cur_y s = -1.

Lemma screen_cur s g x y x' y' : screen s g x y -> screen (set_cur x' y' s) g x' y'.
Proof. intros [[] ? ? ? ?]. split; try done. Qed.
Lemma screen_ser s g x y u : screen s g x y -> screen (set_ser u s) g x y.
Proof. intros [[] ? ? ? ?]. split; try done. Qed.
Lemma screen_visible s g x y b : screen s g x y -> screen (set_visible b s) g x y.
Proof. intros [[] ? ? ? ?]. split; try done. Qed.
Lemma screen_ext s g g' x y :
  screen s g x y -> (forall r c, 0 <= r < rows -> 0 <= c < cols -> g r c = g' r c) -> screen s g' x y.
Proof. intros [] Hg. split; try done. intros r c Hr Hc. rewrite <- Hg by done. auto. Qed.

(** A new picture, grid and cursor, drawn on the framebuffer. *)
Lemma screen_paint s s' g :
  con_ok s -> active s = true -> con_rows s = rows -> con_cols s = cols ->
  con_rows s' = rows -> con_cols s' = cols -> default_attr s' = default_attr s -> con_stack s' = con_stack s ->
  grid_wf (shadow_grid s') -> undrawn s' \/ in_grid (drawn_cur_x s') (drawn_cur_y s') s' = true ->
  only_picture (con_vbe s) (con_vbe s') ->
  pic (con_vbe s') rows cols (face (shadow_grid s') (drawn_cur_x s') (drawn_cur_y s')) ->
  grid_is rows cols (shadow_grid s') g -> screen s' g (cur_x s') (cur_y s').
Proof.
  intros [Hcols Hrows Hgr Hat Hst Hdr Hdev] Ha Hr Hc Hr' Hc' Hat' Hst' Hg Hd Hon Hpic Hgi.
  assert (Ha' : active s' = true) by (unfold active, vbe_is_active in *; by rewrite (proj1 Hon)).
  split; try done.
  - split; [rewrite Hc', <- Hc; done|rewrite Hr', <- Hr; done|done|congruence|by rewrite Hst'|destruct Hd; [by left|by right]|].
    rewrite Ha', Hr', Hc'. rewrite Ha, Hr, Hc in Hdev. by eapply fits_picture.
  - unfold shows. by rewrite Ha', Hr', Hc'.
Qed.

(** The same, in the VGA text memory. *)
Lemma screen_store s s' g :
  con_ok s -> active s = false -> active s' = false -> con_rows s = rows -> con_cols s = cols ->
  con_rows s' = rows -> con_cols s' = cols -> default_attr s' = default_attr s -> con_stack s' = con_stack s ->
  grid_wf (shadow_grid s') -> undrawn s' ->
  (forall r c, 0 <= r < 25 -> 0 <= c < 80 ->
     vga_load (vbe_mem (con_vbe s')) (r * 80 + c) = vga_word (grid_get (shadow_grid s') r c)) ->
  grid_is rows cols (shadow_grid s') g -> screen s' g (cur_x s') (cur_y s').
Proof.
  intros [Hcols Hrows Hgr Hat Hst Hdr Hdev] Ha Ha' Hr Hc Hr' Hc' Hat' Hst' Hg Hd Hv Hgi. rewrite Ha in Hdev.
  split; try done.
  - split; [rewrite Hc', <- Hc; done|rewrite Hr', <- Hr; done|done|congruence|by rewrite Hst'|by left|].
    rewrite Ha', Hr', Hc', <- Hr, <- Hc. done.
  - unfold shows. rewrite Ha'. destruct Hdev as [HC HR]. intros r c Hr1 Hc1. apply Hv; congruence || lia.
Qed.

(** ** The cursor *)

Lemma undraw_spec s g x y :
  screen s g x y -> let s' := vbe_undraw_cursor s in
  screen s' g x y /\ undrawn s' /\ con_ser s' = con_ser s /\ active s' = active s.
Proof.
  intros Hs. pose proof Hs as [Hok Hsh Hr Hc Hg <- <-]. pose proof Hok as [Hcols Hrows Hgr Hat Hst Hdr Hdev].
  cbv zeta. unfold vbe_undraw_cursor.
  destruct (active s) eqn:Ha; simpl negb; cbv iota; [|by destruct Hdr as [Hd|[? _]]].
  unfold shows in Hsh. rewrite Ha in Hsh. destruct (in_gridP (drawn_cur_x s) (drawn_cur_y s) s) as [Hin|Hin].
  - unfold vbe_render_cell_raw. set (ce := grid_get (shadow_grid s) (drawn_cur_y s) (drawn_cur_x s)).
    destruct (draw_cell (con_vbe s) (con_rows s) (con_cols s) _ (drawn_cur_y s) (drawn_cur_x s) (shown (cell_ch ce))
      (attr_fg (cell_attr ce)) (attr_bg (cell_attr ce)) Hdev Hsh (attr_fg_color _) (attr_bg_color _)) as [Hon Hpic]; [tauto..|].
    set (v := vbe_draw_char _ _ _ _ _ _) in *. clearbody v.
    split_and!; try done; [|unfold active, vbe_is_active in *; simpl; by rewrite (proj1 Hon)].
    apply (screen_paint s (set_drawn (-1) (-1) (set_vbe v s)) g); try done; [by left|]. rewrite <- Hr, <- Hc.
    eapply pic_ext; [exact Hpic|]. intros r k px py Hr' Hk _ _.
    unfold face. simpl. rewrite (decide_False (P := r = -1 /\ k = -1)) by lia. case_decide as Hd; [|done].
    destruct Hd as [-> ->]. done.
  - assert (Hd : undrawn s) by (destruct Hdr as [?|[_ Hin']]; [done|]; destruct (in_gridP (drawn_cur_x s) (drawn_cur_y s) s); done).
    split_and!; try done. apply (screen_paint s (set_drawn (-1) (-1) s) g); try done; [by left|]. simpl.
    destruct Hd as [Hdx Hdy]. rewrite Hdx, Hdy in Hsh. by rewrite <- Hr, <- Hc.
Qed.

(** [if (vbe_is_active()) vbe_undraw_cursor();] *)
Lemma undraw_if_spec s g x y :
  screen s g x y -> let s' := if active s then vbe_undraw_cursor s else s in
  screen s' g x y /\ undrawn s' /\ con_ser s' = con_ser s.
Proof.
  intros Hs. destruct (undraw_spec s g x y Hs) as (Hs1 & Hud & Hser & _). destruct (active s) eqn:Ha; [done|].
  split_and!; try done. by destruct (co_drawn _ (sc_ok _ _ _ _ Hs)) as [?|[? _]]; [|congruence].
Qed.

(** The cursor is drawn at [x], [y]. *)
Lemma draw_cursor_spec s g x y col row :
  screen s g x y -> undrawn s -> active s = true -> cur_visible s = true -> 0 <= row < rows -> 0 <= col < cols ->
  let s' := vbe_draw_cursor_at col row s in
  screen s' g x y /\ drawn_cur_x s' = col /\ drawn_cur_y s' = row /\ con_ser s' = con_ser s.
Proof.
  intros Hs [Hdx Hdy] Ha Hv Hrow Hcol. pose proof Hs as [Hok Hsh Hr Hc Hg <- <-].
  pose proof Hok as [Hcols Hrows Hgr Hat Hst Hdr Hdev].
  cbv zeta. unfold vbe_draw_cursor_at. rewrite Ha, Hv. simpl negb. cbv iota.
  destruct (in_gridP col row s) as [Hin|Hin]; [|exfalso; apply Hin; lia]. cbn [orb negb].
  set (ce := grid_get (shadow_grid s) row col). unfold shows in Hsh. rewrite Ha in Hsh, Hdev.
  destruct (draw_cell (con_vbe s) (con_rows s) (con_cols s) _ row col (shown (cell_ch ce)) CURSOR_FG CURSOR_BG Hdev Hsh
    (proj1 cursor_colors) (proj2 cursor_colors)) as [Hon Hpic]; [tauto..|].
  set (v := vbe_draw_char _ _ _ _ _ _) in *. clearbody v. split_and!; try done.
  apply (screen_paint s (set_drawn col row (set_vbe v s)) g); try done; [right; change (in_grid col row s = true); by destruct (in_gridP col row s)|].
  rewrite <- Hr, <- Hc. eapply pic_ext; [exact Hpic|]. intros r k px py Hr' Hk _ _. unfold face. simpl.
  rewrite Hdx, Hdy. rewrite (decide_False (P := r = -1 /\ k = -1)) by lia. case_decide as Hd; [|done].
  destruct Hd as [-> ->]. done.
Qed.

(** ** A cell *)

Definition put (g : Z -> Z -> console_cell_t) (row col : Z) (c : console_cell_t) (r k : Z) : console_cell_t :=
  if decide (r = row /\ k = col) then c else g r k.

Lemma grid_is_set gr g row col c :
  grid_wf gr -> 0 <= row < rows -> rows <= MAX_GRID_ROWS -> 0 <= col < cols -> cols <= MAX_GRID_COLS ->
  grid_is rows cols gr g -> grid_is rows cols (grid_set gr row col c) (put g row col c).
Proof.
  intros Hg Hr HR Hc HC Hgi r k Hr' Hk. rewrite grid_get_set by (done || lia). unfold put.
  case_decide; [done|]. auto.
Qed.

Lemma put_cell_spec s g x y col row ch attr :
  screen s g x y -> 0 <= row < rows -> 0 <= col < cols ->
  let s' := console_put_cell col row ch attr s in
  screen s' (put g row col (Cell ch attr)) x y /\ con_ser s' = con_ser s /\ active s' = active s /\ (undrawn s -> undrawn s').
Proof.
  intros Hs Hrow Hcol. pose proof Hs as [Hok Hsh Hr Hc Hg <- <-]. pose proof Hok as [Hcols Hrows Hgr Hat Hst Hdr Hdev].
  rewrite Hr in Hrows. rewrite Hc in Hcols.
  assert (Hgs : grid_wf (grid_set (shadow_grid s) row col (Cell ch attr))) by (apply grid_set_wf; [done|lia]).
  assert (Hgi : grid_is rows cols (grid_set (shadow_grid s) row col (Cell ch attr)) (put g row col (Cell ch attr)))
    by (apply grid_is_set; (done || lia)).
  cbv zeta. unfold console_put_cell. destruct (in_gridP col row s) as [Hin|Hin]; [|exfalso; apply Hin; lia]. simpl negb. cbv iota.
  change (active (set_grid (grid_set (shadow_grid s) row col (Cell ch attr)) s)) with (active s).
  unfold shows in Hsh. destruct (active s) eqn:Ha.
  - unfold vbe_render_cell_raw. simpl. rewrite Hr, Hc in *.
    destruct (draw_cell (con_vbe s) rows cols _ row col (shown ch) (attr_fg attr) (attr_bg attr) Hdev Hsh
      (attr_fg_color _) (attr_bg_color _)) as [Hon Hpic]; [tauto..|].
    destruct ((col =? drawn_cur_x s) && (row =? drawn_cur_y s)) eqn:Hcur; simpl;
      set (v := vbe_draw_char _ _ _ _ _ _) in *; clearbody v;
      (split_and!; [|done|unfold active, vbe_is_active in *; simpl; by rewrite (proj1 Hon)|intros Hud; first [exact Hud | by split]]).
    + apply (screen_paint s (set_vbe v (set_drawn (-1) (-1) (set_grid _ s)))); try done; [by left|]. simpl.
      eapply pic_ext; [exact Hpic|]. intros r k px py Hr' Hk _ _. unfold face. simpl.
      rewrite (decide_False (P := r = -1 /\ k = -1)) by lia. rewrite grid_get_set by (done || lia).
      case_decide; [done|]. by rewrite decide_False by lia.
    + apply (screen_paint s (set_vbe v (set_grid _ s))); try done; simpl; [destruct Hdr as [?|[_ ?]]; auto|].
      eapply pic_ext; [exact Hpic|]. intros r k px py Hr' Hk _ _. unfold face. simpl.
      rewrite grid_get_set by (done || lia). case_decide; [|done].
      by rewrite (decide_False (P := r = drawn_cur_y s /\ k = drawn_cur_x s)) by lia.
  - assert (Hd : undrawn s) by (by destruct Hdr as [?|[? _]]). split_and!; try done.
    apply (screen_store s (set_vga _ (set_grid _ s))); try done. simpl. intros r k Hr' Hk.
    rewrite vga_load_store, grid_get_set by (done || (unfold MAX_GRID_ROWS, MAX_GRID_COLS in *; lia)).
    destruct (decide (r = row /\ k = col)) as [[-> ->]|]; [by rewrite decide_True by lia|].
    rewrite decide_False by lia. apply Hsh; lia.
Qed.

(** ** Scrolling *)

Definition blank : console_cell_t := Cell 32 7.
Definition scrolled (g : Z -> Z -> console_cell_t) (r c : Z) : console_cell_t :=
  if decide (r = rows - 1) then blank else g (r + 1) c.

Lemma blank_face fg x y : 0 <= x < FONT_WIDTH -> 0 <= y < FONT_HEIGHT ->
  cell (shown 32) fg (attr_bg 7) x y = nthZ 0 shell_theme_palette 0.
Proof. intros. change (shown 32) with 32. by rewrite space_blank. Qed.

Lemma scroll_up_spec s g x y :
  screen s g x y ->
  returns console_scroll_up s (fun _ s' => screen s' (scrolled g) x y /\ undrawn s' /\ con_ser s' = con_ser s).
Proof.
  intros Hs. unfold console_scroll_up. apply returns_bind. eexists _, _. split; [done|].
  destruct (undraw_if_spec s g x y Hs) as (Hs1 & Hud & <-). set (s1 := if active s then _ else _) in *. clearbody s1.
  clear s Hs. pose proof Hs1 as [Hok Hsh Hr Hc Hg <- <-]. pose proof Hok as [Hcols Hrows Hgr Hat Hst Hdr Hdev].
  apply returns_bind. eexists _, _. split; [done|]. apply returns_bind. eexists _, _. split; [done|]. simpl.
  rewrite Hat, Hr, Hc in *. destruct (scroll_grid_spec 7 rows cols (shadow_grid s1)) as [Hwf Hget]; [done|lia..|].
  assert (Hgi : grid_is rows cols (scroll_grid 7 rows cols (shadow_grid s1)) (scrolled g)).
  { intros r c Hr' Hc'. rewrite Hget by done. unfold scrolled. case_decide; [done|]. apply Hg; lia. }
  unfold shows in Hsh. change (active (set_grid _ s1)) with (active s1). destruct (active s1) eqn:Ha; rewrite ?Hr, ?Hc in *.
  - destruct (scroll_cells (con_vbe s1) rows cols _ (nthZ 0 shell_theme_palette 0) Hdev Hsh) as (v & Hv & Hon & Hpic);
      [by compute|lia|].
    unfold returns, p_step. simpl. rewrite Hv. simpl. eexists _, _. split; [done|]. split_and!; try done.
    apply (screen_paint s1 (set_vbe v (set_grid _ s1))); try done; [by left|]. simpl.
    eapply pic_ext; [exact Hpic|]. intros r c px py Hr' Hc' Hpx Hpy. destruct Hud as [Hdx Hdy]. simpl. unfold face.
    rewrite Hdx, Hdy, Hget by done. rewrite !(decide_False (P := _ = -1 /\ _ = -1)) by lia.
    case_decide; [by rewrite blank_face|done].
  - eexists _, _. split; [done|]. split_and!; try done.
    apply (screen_store s1 (set_vga _ (set_grid _ s1))); try done. simpl. rewrite Hat. destruct Hdev as [-> ->]. intros r c Hr' Hc'.
    rewrite vga_scroll_spec by lia. rewrite Hget by done. destruct (decide (r = 25 - 1)) as [->|].
    + by rewrite decide_False by lia.
    + rewrite decide_True by lia. replace (r * 80 + c + 80) with ((r + 1) * 80 + c) by lia. apply Hsh; lia.
Qed.

Lemma scroll_into_view_spec s g x y :
  screen s g x y -> undrawn s -> 0 <= y <= rows ->
  returns scroll_into_view s (fun _ s' => con_ser s' = con_ser s /\ undrawn s' /\
    if decide (y = rows) then screen s' (scrolled g) x (rows - 1) else screen s' g x y).
Proof.
  intros Hs Hud Hy. unfold scroll_into_view. apply returns_bind. eexists _, _. split; [done|].
  pose proof (co_rows _ (sc_ok _ _ _ _ Hs)) as Hrows. rewrite (sc_rows _ _ _ _ Hs) in Hrows. rewrite (sc_y _ _ _ _ Hs).
  cbn [p_while]. apply returns_bind, returns_bind. eexists _, _. split; [done|]. apply returns_ret.
  rewrite (sc_rows _ _ _ _ Hs), (sc_y _ _ _ _ Hs). case_decide as Hd.
  - rewrite (proj2 (Z.leb_le _ _)) by lia. apply returns_bind, returns_bind.
    eapply returns_mono; [by apply scroll_up_spec|]. intros [] s1 (Hs1 & Hud1 & <-).
    eexists _, _. split; [done|]. destruct (Z.to_nat y) as [|n] eqn:Hn; [lia|]. cbn [p_while].
    pose proof (screen_cur _ _ _ _ (cur_x s1) (cur_y s1 - 1) Hs1) as Hs2. rewrite (sc_x _ _ _ _ Hs1), (sc_y _ _ _ _ Hs1), Hd in Hs2.
    rewrite (sc_x _ _ _ _ Hs1), (sc_y _ _ _ _ Hs1), Hd.
    apply returns_bind, returns_bind. eexists _, _. split; [done|]. apply returns_ret.
    rewrite (sc_rows _ _ _ _ Hs2), (sc_y _ _ _ _ Hs2), (proj2 (Z.leb_gt _ _)) by lia. by apply returns_ret.
  - rewrite (proj2 (Z.leb_gt _ _)) by lia. by apply returns_ret.
Qed.

(** ** Placing the cursor *)

(** Only the hardware behind the ports changes, and nothing is sent. *)
Definition quiet s s' : Prop := exists u, s' = set_ser u s /\ sends COM1_PORT [] (con_ser s) u.

Lemma quiet_refl s : quiet s s.
Proof. exists (con_ser s). split; [by destruct s|apply sends_refl]. Qed.
Lemma quiet_trans s1 s2 s3 : quiet s1 s2 -> quiet s2 s3 -> quiet s1 s3.
Proof. intros (u & -> & Hu) (w & -> & Hw). exists w. split; [done|]. by apply (sends_trans _ [] [] _ _ _ Hu). Qed.
Lemma quiet_bind {A B} (m : PM (console H) A) (k : A -> PM (console H) B) s :
  returns m s (fun _ s' => quiet s s') -> (forall x s', returns (k x) s' (fun _ s'' => quiet s' s'')) ->
  returns (p_bind m k) s (fun _ s' => quiet s s').
Proof.
  intros Hm Hk. apply returns_bind. eapply returns_mono; [exact Hm|]. intros x s' Hq.
  eapply returns_mono; [apply Hk|]. intros y s'' Hq'. exact (quiet_trans _ _ _ Hq Hq').
Qed.

Lemma con_in_quiet p s : returns (con_in p) s (fun _ s' => quiet s s').
Proof.
  unfold returns, con_in, p_part, in8, p_zoom. pose proof (tx_read COM1_PORT p (serial_hw (con_ser s))) as Hr.
  destruct (inb p (serial_hw (con_ser s))) as [v h]. eexists _, _. split; [done|]. eexists. split; [done|].
  exists h. by rewrite app_nil_r.
Qed.
Lemma con_out_quiet p v s : p < COM1_PORT -> returns (con_out p v) s (fun _ s' => quiet s s').
Proof.
  intros Hp. unfold returns, con_out, p_part, out8, p_zoom.
  pose proof (tx_other COM1_PORT p v (serial_hw (con_ser s)) (or_introl Hp)) as Hr.
  destruct (outb p v (serial_hw (con_ser s))) as [[] h]. eexists _, _. split; [done|]. eexists. split; [done|].
  exists h. by rewrite app_nil_r.
Qed.

Lemma hw_cursor_quiet x y b s : returns (vga_hw_set_cursor x y b) s (fun _ s' => quiet s s').
Proof.
  unfold vga_hw_set_cursor. destruct b; simpl;
    repeat (apply quiet_bind; [first [apply con_in_quiet | by apply con_out_quiet] | intros ? ?]); by apply con_out_quiet.
Qed.

(** The cursor is on the screen where the console prints next. *)
Definition cursor_shown s : Prop := active s = true -> drawn_cur_x s = cur_x s /\ drawn_cur_y s = cur_y s.

Lemma clamp_id v n : 0 <= v < n -> clamp v n = v.
Proof. intros. unfold clamp. rewrite (proj2 (Z.ltb_ge v 0)), (proj2 (Z.leb_gt n v)) by lia. done. Qed.
Lemma cell_clamp_range v n : 0 < n -> 0 <= clamp v n < n.
Proof. intros. unfold clamp. destruct (Z.ltb_spec v 0), (Z.leb_spec n 0), (Z.leb_spec n v); lia. Qed.

Lemma set_cursor_spec s g x y col row :
  screen s g x y ->
  returns (console_set_cursor col row true) s (fun _ s' =>
    screen s' g (clamp col cols) (clamp row rows) /\ cursor_shown s' /\ sends COM1_PORT [] (con_ser s) (con_ser s')).
Proof.
  intros Hs. unfold console_set_cursor. apply returns_bind. eexists _, _. split; [done|]. cbv beta zeta.
  pose proof (co_cols _ (sc_ok _ _ _ _ Hs)) as HC. pose proof (co_rows _ (sc_ok _ _ _ _ Hs)) as HR.
  rewrite (sc_rows _ _ _ _ Hs), (sc_cols _ _ _ _ Hs) in *.
  set (cx := clamp col cols) in *. set (cy := clamp row rows) in *.
  assert (0 <= cx < cols) by (apply cell_clamp_range; lia). assert (0 <= cy < rows) by (apply cell_clamp_range; lia).
  apply returns_bind. eexists _, _. split; [done|].
  pose proof (screen_visible _ _ _ _ true (screen_cur _ _ _ _ cx cy Hs)) as Hs1.
  change (con_ser s) with (con_ser (set_visible true (set_cur cx cy s))).
  assert (Hv : cur_visible (set_visible true (set_cur cx cy s)) = true) by done.
  change (active s) with (active (set_visible true (set_cur cx cy s))).
  set (s1 := set_visible true (set_cur cx cy s)) in *. clearbody s1. clear s Hs.
  destruct (active s1) eqn:Ha.
  - apply returns_bind. eexists _, _. split; [done|].
    destruct (undraw_spec s1 g cx cy Hs1) as (Hs2 & Hud & Hser & Hact). simpl in *.
    assert (Hv2 : cur_visible (vbe_undraw_cursor s1) = true) by (unfold vbe_undraw_cursor; by repeat case_goal).
    destruct (draw_cursor_spec (vbe_undraw_cursor s1) g cx cy cx cy) as (Hs3 & Hx & Hy & Hser3); [done|done|congruence|done..|].
    eexists _, _. split; [done|]. split; [done|]. split.
    + intros _. rewrite Hx, Hy, (sc_x _ _ _ _ Hs3), (sc_y _ _ _ _ Hs3). done.
    + simpl in Hser3. rewrite Hser3, Hser. apply sends_refl.
  - eapply returns_mono; [apply hw_cursor_quiet|]. intros [] s2 (u & -> & Hu). split; [by apply screen_ser|].
    split; [|done]. intros Ha2. unfold active in *. simpl in Ha2. congruence.
Qed.
End screen.
