(* ===== verification/ConsolePaper.v ===== *)
(** ConsolePaper: the console as a window on a roll of paper. *)

From S2P Require Import Prelude Ports Partial Memory Common Text Ring Serial SerialTx Font Pmm Paging.
From S2P Require Import Vbe VbeSpec Rtc Net Console ConsoleGrid ConsoleSpec.
#[local] Open Scope partial_scope.

(** The paper, the line at the top of the window, and the pen. *)
Record paper := Paper { ink : Z -> Z -> console_cell_t; top : Z; pen_x : Z; pen_y : Z }.

Section paper.
Context (rows cols : Z).
Implicit Types p : paper.

Definition move (x y : Z) p : paper := Paper (ink p) (top p) x y.
Definition write_at (c : console_cell_t) p : paper :=
  Paper (put (ink p) (pen_y p) (pen_x p) c) (top p) (pen_x p) (pen_y p).
(** The pen goes on to the next place of the line, or to the next line. *)
Definition advance p : paper :=
  if cols <=? pen_x p + 1 then move 0 (pen_y p + 1) p else move (pen_x p + 1) (pen_y p) p.
(** Back by one place, though not above the window. *)
Definition retreat p : paper :=
  if 0 <? pen_x p then move (pen_x p - 1) (pen_y p) p
  else if top p <? pen_y p then move (cols - 1) (pen_y p - 1) p else p.

Definition pen_step (c color : Z) p : paper :=
  if c =? NL then move 0 (pen_y p + 1) p
  else if c =? CR then move 0 (pen_y p) p
  else if c =? BS then write_at blank (retreat p)
  else if 32 <=? c then advance (write_at (Cell c color) p)
  else p.

(** The window follows the pen. *)
Definition follow p : paper := Paper (ink p) (Z.max (top p) (pen_y p - rows + 1)) (pen_x p) (pen_y p).

Definition paper_char (c color : Z) p : paper :=
  if c =? TAB then Nat.iter (Z.to_nat (4 - pen_x p mod 4)) (fun p => follow (pen_step 32 color p)) p
  else follow (pen_step c color p).

Definition paper_print (t : list (Z * Z)) p : paper := foldl (fun p ca => paper_char ca.1 ca.2 p) p t.

(** The pen is in the window, and the paper below the window is blank. *)
Record paper_wf p : Prop := {
  pw_x : 0 <= pen_x p < cols;
  pw_y : top p <= pen_y p < top p + rows;
  pw_blank l k : top p + rows <= l -> 0 <= k < cols -> ink p l k = blank
}.

Definition window p (r c : Z) : console_cell_t := ink p (top p + r) c.

(** After a step the pen may be one line below the window. *)
Record pen_ok p : Prop := {
  po_x : 0 <= pen_x p < cols;
  po_y : top p <= pen_y p <= top p + rows;
  po_blank l k : top p + rows <= l -> 0 <= k < cols -> ink p l k = blank
}.

Lemma pen_step_ok c color p : paper_wf p -> pen_ok (pen_step c color p).
Proof.
  intros [Hx Hy Hb].
  assert (Hput : forall ce l k, top p + rows <= l -> 0 <= k < cols -> put (ink p) (pen_y p) (pen_x p) ce l k = blank)
    by (intros; unfold put; rewrite decide_False by lia; auto).
  unfold pen_step. repeat case_goal; [split; simpl; try exact Hb; lia..| | |split; simpl; try exact Hb; lia].
  - unfold retreat. repeat case_goal; split; simpl; try lia; intros l k Hl Hk; unfold put; rewrite decide_False by lia; auto.
  - unfold advance. simpl. case_goal; split; simpl; try apply Hput; lia.
Qed.

Lemma follow_wf p : 0 < rows -> pen_ok p -> paper_wf (follow p).
Proof. intros Hr [Hx Hy Hb]. split; simpl; try lia. intros l k Hl Hk. apply Hb; lia. Qed.
End paper.

Section refinement.
Context {H : Type} `{UartTx H} (rows cols : Z).
Implicit Types s : console H.

Definition on_paper s p : Prop := screen rows cols s (window p) (pen_x p) (pen_y p - top p).

(** What the grid and the cursor do is what the pen does. *)
Lemma write_step_spec s p c color :
  on_paper s p -> undrawn s -> paper_wf rows cols p -> 0 <= c ->
  let s' := write_char_step c color s in
  on_paper s' (pen_step cols c color p) /\ undrawn s' /\ con_ser s' = con_ser s.
Proof.
  intros Hs Hud [Hx Hy Hb] Hc. cbv zeta. unfold write_char_step, pen_step.
  assert (Hput : forall s1 p1 ce, on_paper s1 p1 -> undrawn s1 -> 0 <= pen_x p1 < cols -> 0 <= pen_y p1 - top p1 < rows ->
    let s' := console_put_cell (cur_x s1) (cur_y s1) (cell_ch ce) (cell_attr ce) s1 in
    on_paper s' (write_at ce p1) /\ undrawn s' /\ con_ser s' = con_ser s1).
  { intros s1 p1 ce Hs1 Hud1 Hx1 Hy1. pose proof Hs1 as [_ _ _ _ _ HX HY]. rewrite HX, HY. cbv zeta.
    destruct (put_cell_spec rows cols s1 _ _ _ (pen_x p1) (pen_y p1 - top p1) (cell_ch ce) (cell_attr ce) Hs1) as (Hs2 & ? & _ & Hud2); [lia..|].
    split_and!; [|auto|done]. eapply screen_ext; [exact Hs2|]. intros r k Hr Hk. unfold window. simpl. unfold put. destruct ce.
    repeat case_decide; try done; lia. }
  pose proof Hs as [Hok _ HR HC _ HX HY].
  destruct (c =? NL); [|destruct (c =? CR); [|destruct (c =? BS); [|destruct (32 <=? c)]]]; try done.
  - split_and!; try done. rewrite HY. unfold on_paper. simpl.
    replace (pen_y p + 1 - top p) with (pen_y p - top p + 1) by lia. by eapply screen_cur.
  - split_and!; try done. rewrite HY. by eapply screen_cur.
  - set (s1 := if 0 <? cur_x s then _ else _).
    assert (on_paper s1 (retreat cols p) /\ undrawn s1 /\ con_ser s1 = con_ser s /\ default_attr s1 = 7) as (Hs1 & Hud1 & Hser1 & Hat).
    { subst s1. unfold retreat. rewrite HX, HY, HC. pose proof (co_attr _ Hok).
      destruct (Z.ltb_spec 0 (pen_x p)); [split_and!; try done; by eapply screen_cur|].
      destruct (Z.ltb_spec 0 (pen_y p - top p)), (Z.ltb_spec (top p) (pen_y p)); try lia; [|by split_and!].
      split_and!; try done. unfold on_paper. simpl. replace (pen_y p - 1 - top p) with (pen_y p - top p - 1) by lia. by eapply screen_cur. }
    rewrite Hat, <- Hser1. apply (Hput s1 _ blank); try done; unfold retreat; repeat case_goal; simpl; lia.
  - destruct (Hput s p (Cell c color) Hs Hud) as (Hs1 & Hud1 & Hser1); [lia..|]. simpl in Hs1, Hud1, Hser1.
    set (s1 := console_put_cell (cur_x s) (cur_y s) c color s) in *. clearbody s1. pose proof Hs1 as [_ _ _ HC1 _ HX1 HY1].
    simpl. rewrite HX1, HY1, HC1. unfold advance. simpl. destruct (Z.leb_spec cols (pen_x p + 1)).
    + split_and!; try done. unfold on_paper. simpl. replace (pen_y p + 1 - top p) with (pen_y p - top p + 1) by lia. by do 2 eapply screen_cur.
    + split_and!; try done. by eapply screen_cur.
Qed.

(** One character: the window follows the pen, and the cursor is drawn there. *)
Lemma write_tail_spec s p c color :
  on_paper s p -> paper_wf rows cols p -> 0 <= c ->
  let p' := follow rows (pen_step cols c color p) in
  returns (write_char_tail c color) s (fun _ s' =>
    on_paper s' p' /\ paper_wf rows cols p' /\ cursor_shown s' /\ sends COM1_PORT [] (con_ser s) (con_ser s')).
Proof.
  intros Hs Hp Hc. cbv zeta. pose proof (co_rows _ (sc_ok _ _ _ _ _ _ Hs)) as Hrows.
  rewrite (sc_rows _ _ _ _ _ _ Hs) in Hrows.
  pose proof (pen_step_ok rows cols c color p Hp) as Hpo. pose proof (follow_wf rows cols _ ltac:(lia) Hpo) as Hpf.
  unfold write_char_tail. apply returns_bind. eexists _, _. split; [done|].
  destruct (undraw_if_spec rows cols s _ _ _ Hs) as (Hs1 & Hud & <-). set (s1 := if active s then _ else _) in *. clearbody s1.
  apply returns_bind. eexists _, _. split; [done|].
  destruct (write_step_spec s1 p c color Hs1 Hud Hp Hc) as (Hs2 & Hud2 & <-).
  set (p2 := pen_step cols c color p) in *. set (s2 := write_char_step c color s1) in *. clearbody p2 s2.
  clear s s1 Hs Hs1 Hud Hp. destruct Hpo as [Hx Hy Hb].
  apply returns_bind. eapply returns_mono; [apply (scroll_into_view_spec rows cols s2 _ _ _ Hs2 Hud2); lia|].
  intros [] s3 (<- & Hud3 & Hs3).
  assert (Hs3' : on_paper s3 (follow rows p2)).
  { unfold on_paper, window, follow. simpl. case_decide as Hd.
    - replace (pen_y p2 - Z.max (top p2) (pen_y p2 - rows + 1)) with (rows - 1) by lia.
      eapply screen_ext; [exact Hs3|]. intros r k Hr Hk. unfold scrolled, window. case_decide.
      + symmetry. apply Hb; lia.
      + f_equal. lia.
    - replace (Z.max (top p2) (pen_y p2 - rows + 1)) with (top p2) by lia. done. }
  pose proof Hpf as [Hfx Hfy _]. apply returns_bind. eexists _, _. split; [done|].
  eapply returns_mono; [apply (set_cursor_spec rows cols s3 _ _ _ (cur_x s3) (cur_y s3) Hs3')|].
  intros [] s4 (Hs4 & Hcur & Hsend). rewrite (sc_x _ _ _ _ _ _ Hs3'), (sc_y _ _ _ _ _ _ Hs3'), !clamp_id in Hs4 by lia.
  split_and!; done.
Qed.

Lemma spaces_spec n s p color :
  on_paper s p -> paper_wf rows cols p -> cursor_shown s \/ (0 < n)%nat ->
  let p' := Nat.iter n (fun p => follow rows (pen_step cols 32 color p)) p in
  returns (p_each (replicate n 32) (fun sp => write_char_tail sp color)) s (fun _ s' =>
    on_paper s' p' /\ paper_wf rows cols p' /\ cursor_shown s' /\ sends COM1_PORT [] (con_ser s) (con_ser s')).
Proof.
  cbv zeta. revert s p. induction n as [|n IH]; intros s p Hs Hp Hcur.
  { apply returns_ret. split_and!; try done; [destruct Hcur; [done|lia]|apply sends_refl]. }
  cbn [replicate p_each]. rewrite Nat.iter_succ_r. apply returns_bind.
  eapply returns_mono; [apply (write_tail_spec s p 32 color Hs Hp); lia|]. intros [] s1 (Hs1 & Hp1 & Hcur1 & Hsend1).
  eapply returns_mono; [apply (IH s1 _ Hs1 Hp1); by left|]. intros [] s2 (Hs2 & Hp2 & Hcur2 & Hsend2).
  split_and!; try done. by apply (sends_trans _ [] [] _ _ _ Hsend1).
Qed.

(** ** The serial copy *)

(** What a console character sends on the serial line: a backspace erases. *)
Definition echo (c : Z) : list Z := if c =? BS then [BS; 32; BS] else on_wire c.

(** The serial driver is in service on COM1. *)
Definition com1_ready s : Prop := default_port (con_ser s) = COM1_PORT /\ serial_present (con_ser s) = true.
Lemma com1_sends s s' l : com1_ready s -> sends COM1_PORT l (con_ser s) (con_ser s') -> com1_ready s'.
Proof. intros [Hd Hp] Hs. destruct (sends_state _ _ _ _ Hs) as (E1 & E2 & _). split; congruence. Qed.

Lemma ser_puts_spec t s : com1_ready s -> Forall is_u8 t ->
  returns (ser_puts t) s (fun _ s' => exists u, s' = set_ser u s /\ sends COM1_PORT (t ≫= on_wire) (con_ser s) u).
Proof.
  intros [Hd Hp] Ht. unfold ser_puts, returns, p_part.
  destruct (write_str_sends t (con_ser s) Ht) as (x & u & -> & Hu). eexists _, _. split; [done|]. exists u. split; [done|].
  unfold str_on_wire in Hu. rewrite Hd, Hp in Hu. done.
Qed.

Lemma ser_putc_spec c s : com1_ready s -> is_u8 c ->
  returns (ser_putc c) s (fun _ s' => exists u, s' = set_ser u s /\ sends COM1_PORT (on_wire c) (con_ser s) u).
Proof.
  intros [Hd Hp] Hc. unfold ser_putc, returns, p_part.
  destruct (write_char_sends COM1_PORT c (con_ser s) Hc) as (x & u & -> & Hu). eexists _, _. split; [done|]. exists u. split; [done|].
  unfold absent in Hu. by rewrite Hp in Hu.
Qed.

Lemma mirror_spec c s : com1_ready s -> is_u8 c ->
  returns (if c =? BS then ser_puts [BS; 32; BS] else ser_putc c) s (fun _ s' =>
    exists u, s' = set_ser u s /\ sends COM1_PORT (echo c) (con_ser s) u).
Proof.
  intros Hr Hc. unfold echo. destruct (c =? BS).
  - apply (ser_puts_spec [BS; 32; BS]); [done|]. repeat (apply Forall_cons_2; [by compute|]). apply Forall_nil_2.
  - by apply ser_putc_spec.
Qed.

(** ** Printing *)

Record printed s (l : list Z) s' (p' : paper) : Prop := {
  pr_paper : on_paper s' p';
  pr_wf : paper_wf rows cols p';
  pr_cursor : cursor_shown s';
  pr_ready : com1_ready s';
  pr_sent : sends COM1_PORT l (con_ser s) (con_ser s')
}.

Lemma write_char_spec s p c color :
  on_paper s p -> paper_wf rows cols p -> com1_ready s -> is_u8 c ->
  returns (console_write_char_color c color true) s (fun _ s' => printed s (echo c) s' (paper_char rows cols c color p)).
Proof.
  intros Hs Hp Hr Hc. unfold console_write_char_color. apply returns_bind.
  eapply returns_mono; [by apply mirror_spec|]. intros [] s1 (u & -> & Hu).
  assert (Hs1 : on_paper (set_ser u s) p) by (by apply screen_ser).
  assert (Hr1 : com1_ready (set_ser u s)) by (by eapply com1_sends).
  assert (Hend : forall s1 s', on_paper s1 p -> con_ser s1 = u -> on_paper s' (paper_char rows cols c color p) ->
    paper_wf rows cols (paper_char rows cols c color p) -> cursor_shown s' -> sends COM1_PORT [] (con_ser s1) (con_ser s') ->
    printed s (echo c) s' (paper_char rows cols c color p)).
  { intros s1 s' _ Hser ? ? ? Hsend. rewrite Hser in Hsend.
    assert (Hall : sends COM1_PORT (echo c) (con_ser s) (con_ser s')).
    { rewrite <- (app_nil_r (echo c)). by eapply sends_trans. }
    split; try done. by eapply com1_sends. }
  unfold paper_char in Hend |- *. destruct (c =? TAB).
  - apply returns_bind. eexists _, _. split; [done|]. apply returns_bind. eexists _, _. split; [done|].
    destruct (undraw_if_spec rows cols _ _ _ _ Hs1) as (Hs1' & _ & Hser). set (s1 := if active _ then _ else _) in *. clearbody s1.
    rewrite (sc_x _ _ _ _ _ _ Hs1'). change 3 with (Z.ones 2). rewrite Z.land_ones by lia. change (2 ^ 2) with 4.
    eapply returns_mono; [apply (spaces_spec _ s1 p color Hs1' Hp); right; zlia|].
    intros [] s2 (Hs2 & Hp2 & Hc2 & Hsend). by eapply Hend.
  - unfold is_u8 in Hc. eapply returns_mono; [apply (write_tail_spec _ p c color Hs1 Hp); lia|].
    intros [] s2 (Hs2 & Hp2 & Hc2 & Hsend). by eapply Hend.
Qed.

Lemma printed_trans s1 s2 s3 l l' p2 p3 :
  printed s1 l s2 p2 -> printed s2 l' s3 p3 -> printed s1 (l ++ l') s3 p3.
Proof. intros [_ _ _ _ Hs] [????Hs']. split; try done. by eapply sends_trans. Qed.

(** A text in one colour. *)
Definition in_color (color : Z) (t : list Z) : list (Z * Z) := (fun c => (c, color)) <$> t.

Lemma print_spec (m : Z -> PM (console H) unit) color t s p :
  (forall s c, con_ok s -> m c s = console_write_char_color c color true s) ->
  on_paper s p -> paper_wf rows cols p -> com1_ready s -> cursor_shown s -> Forall is_u8 t ->
  returns (p_each t m) s (fun _ s' =>
    printed s (t ≫= echo) s' (paper_print rows cols (in_color color t) p)).
Proof.
  intros Hm Hs Hp Hr Hcur Ht. revert s p Hs Hp Hr Hcur. induction Ht as [|c t Hc Ht IH]; intros s p Hs Hp Hr Hcur.
  { apply returns_ret. split; try done. apply sends_refl. }
  cbn [p_each]. apply returns_bind. unfold returns at 1. rewrite Hm by (exact (sc_ok _ _ _ _ _ _ Hs)).
  fold (returns (console_write_char_color c color true) s
    (fun _ s' => returns (p_each t m) s' (fun _ s'' =>
      printed s ((c :: t) ≫= echo) s'' (paper_print rows cols (in_color color (c :: t)) p)))).
  eapply returns_mono; [by apply write_char_spec|]. intros [] s1 Hs1. pose proof Hs1 as [Hp1 Hw1 Hc1 Hr1 _].
  eapply returns_mono; [by apply IH|]. intros [] s2 Hs2. rewrite bind_cons. by eapply printed_trans.
Qed.
End refinement.
