(* ===== verification/ConsoleClear.v ===== *)
(** ConsoleClear: the top bar, clearing the screen, and printing on a clear
    screen. *)

From S2P Require Import Prelude Ports Partial Memory Common Text Ring Serial SerialTx Font Pmm Paging.
From S2P Require Import Vbe VbeSpec Rtc Net Console ConsoleGrid ConsoleSpec ConsolePaper.
#[local] Open Scope partial_scope.

(** * Texts without line breaks *)

Definition plain (c : Z) : Prop := c <> 10 /\ c <> 13.

Lemma str_plain t : forallb (fun c => negb (c =? 10) && negb (c =? 13)) t = true -> Forall plain t.
Proof.
  intros Ht. rewrite forallb_forall in Ht. apply Forall_forall. intros c Hc%list_elem_of_In%Ht.
  apply andb_true_iff in Hc as [H1%negb_true_iff H2%negb_true_iff]. apply Z.eqb_neq in H1, H2. done.
Qed.

Lemma digit_plain base c : 2 <= base <= 16 -> (exists d, 0 <= d < base /\ c = nthZ 0 digits d) -> plain c.
Proof.
  intros Hb (d & Hd & ->). assert (Hall : forallb (fun c => negb (c =? 10) && negb (c =? 13)) digits = true) by done.
  pose proof (str_plain _ Hall) as Hp. rewrite Forall_lookup in Hp. unfold nthZ. case_goal; [lia|].
  destruct (digits !! Z.to_nat d) as [c|] eqn:Hl; [by eapply Hp|]. apply lookup_ge_None in Hl. simpl in Hl. lia.
Qed.

Lemma format_ip_plain ip : exists t, net_format_ip ip = Some t /\ Forall plain t.
Proof.
  assert (Hloop : forall l buf, Forall plain buf -> exists t, format_octets ip l buf = Some t /\ Forall plain t).
  { intros l. induction l as [|i l IH]; intros buf Hbuf; [by exists buf|]. cbn [format_octets].
    destruct (k_utoa_digits (u8 (Z.land (Z.shiftr ip (i * 8)) 255)) 10) as (t & -> & _ & Ht & _); [lia| |].
    { pose proof (u8_range (Z.land (Z.shiftr ip (i * 8)) 255)). unfold_widths. lia. }
    cbn. apply IH. assert (Hall : Forall plain (buf ++ t)).
    { apply Forall_app. split; [done|]. eapply Forall_impl; [exact Ht|]. intros c Hc. by apply (digit_plain 10). }
    case_goal; [|done]. apply Forall_app. split; [done|]. by apply str_plain. }
  by apply Hloop.
Qed.

(** The digits of a clock field are no line breaks. *)
Lemma format_time_plain t : clock_bytes t -> Forall plain (rtc_format_time t).
Proof.
  intros (Hh & Hm & Hs). unfold is_u8 in *. unfold rtc_format_time.
  repeat (apply Forall_cons_2; [unfold plain; zlia|]). apply Forall_nil_2.
Qed.

Lemma rtc_read_present {H} `{Ports H} :
  rtc_read_time true = st_bind (read_stable 4) (fun r => st_bind (cmos_read CMOS_STATUS_B) (fun b =>
    st_ret (Some (rtc_decode b r)))).
Proof. reflexivity. Qed.

Section clock.
Context {H : Type} `{BytePorts H}.

Lemma cmos_read_byte reg h : is_u8 (cmos_read reg h).1.
Proof.
  unfold cmos_read, st_bind. destruct (outb _ _ h) as [[] h1]. destruct (inb 128 h1) as [v h2]. apply inb_byte.
Qed.

Definition raw_bytes (r : rtc_raw) : Prop := is_u8 (rh r) /\ is_u8 (rm r) /\ is_u8 (rs r).

Lemma read_raw_bytes h : raw_bytes (read_raw h).1.
Proof.
  unfold read_raw. unfold st_bind at 1. destruct (cmos_wait_uip h) as [[] h0].
  do 8 (unfold st_bind at 1;
    match goal with |- context [cmos_read ?r ?h] =>
      let Hb := fresh "Hb" in pose proof (cmos_read_byte r h) as Hb; destruct (cmos_read r h); simpl in Hb end).
  by split_and!.
Qed.

Lemma read_stable_bytes n h : raw_bytes (read_stable n h).1.
Proof.
  revert h. induction n as [|n IH]; intros h; cbn [read_stable]; unfold st_bind;
    destruct (read_raw h) as [a h1]; pose proof (read_raw_bytes h1) as Hb; destruct (read_raw h1) as [b h2]; simpl in *; [done|].
  case_decide; [done|apply IH].
Qed.

Lemma rtc_decode_bytes b r : is_u8 (rh r) -> is_u8 (rm r) -> is_u8 (rs r) -> clock_bytes (rtc_decode b r).
Proof.
  intros Hh Hm Hs. unfold clock_bytes, rtc_decode, is_u8 in *. cbv beta zeta. cbn [hours minutes seconds].
  assert (Hconv : forall v, 0 <= v < 256 -> 0 <= (if negb (bit_set b 4) then bcd_to_bin v else v) < 256).
  { intros v Hv. case_goal; [apply u8_range|done]. }
  pose proof (Hconv _ Hm). pose proof (Hconv _ Hs).
  assert (Hl : 0 <= Z.land (rh r) 127 < 256) by (rewrite land_127; zlia). pose proof (Hconv _ Hl) as Hh'.
  set (h2 := if negb (bit_set b 4) then bcd_to_bin (Z.land (rh r) 127) else Z.land (rh r) 127) in *. clearbody h2.
  split; [|split; case_goal; lia].
  match goal with |- context [if ?x <? 24 then _ else 0] => 
    assert (0 <= x) by (repeat case_goal; try lia; apply u8_range); destruct (Z.ltb_spec x 24) end; lia.
Qed.

Lemma rtc_read_bytes avail h t : (rtc_read_time avail h).1 = Some t -> clock_bytes t.
Proof.
  destruct avail; [|done]. rewrite rtc_read_present. unfold st_bind.
  pose proof (read_stable_bytes 4 h) as (Hh & Hm & Hs). destruct (read_stable 4 h) as [r h1].
  destruct (cmos_read CMOS_STATUS_B h1) as [b h2]. unfold st_ret. simpl. intros [= <-]. by apply rtc_decode_bytes.
Qed.
End clock.

(** * The top bar *)

Section bar.
Context {H : Type} `{UartTx H} `{!BytePorts H} (rows cols : Z).
Implicit Types s : console H.

(** The text area has the picture [f] and everything else is as in [s]. *)
Record barred s (f : Z -> Z -> Z -> Z -> Z) s' : Prop := {
  ba_state : exists v u, s' = set_vbe v (set_ser u s) /\ only_picture (con_vbe s) v /\ sends COM1_PORT [] (con_ser s) u;
  ba_pic : pic (con_vbe s') rows cols f
}.

Lemma barred_refl s f : pic (con_vbe s) rows cols f -> barred s f s.
Proof.
  intros Hp. split; [|done]. exists (con_vbe s), (con_ser s). split; [by destruct s|]. split; [done|apply sends_refl].
Qed.

(** Painting above the text area. *)
Lemma barred_paint s f s1 v g :
  barred s f s1 -> fits (con_vbe s) rows cols -> repaint (con_vbe s1) v g ->
  (forall x y, VBE_TOPBAR_HEIGHT <= y -> g x y = vbe_getpixel x y (con_vbe s1)) -> barred s f (set_vbe v s1).
Proof.
  intros [(v1 & u & -> & Hon & Hu) Hp] Hf Hrep Hg. split.
  - exists v, u. split; [done|]. split; [|done]. eapply only_picture_trans; [exact Hon|]. apply Hrep.
  - simpl in *. eapply pic_above; [|exact Hp|exact Hrep|exact Hg]. by eapply fits_picture.
Qed.

Lemma barred_fits s f s1 : barred s f s1 -> fits (con_vbe s) rows cols ->
  fits (con_vbe s1) rows cols /\ vbe_fb (con_vbe s1) = vbe_fb (con_vbe s).
Proof. intros [(v & u & -> & Hon & _) _] Hf. split; [by eapply fits_picture|apply Hon]. Qed.

Lemma bar_fill s f s1 y h c :
  barred s f s1 -> fits (con_vbe s) rows cols -> is_color c -> 0 <= y -> 0 <= h -> y + h <= VBE_TOPBAR_HEIGHT ->
  barred s f (set_vbe (vbe_fill_rect 0 y (width (vbe_fb (con_vbe s))) h c (con_vbe s1)) s1).
Proof.
  intros Hb Hf Hc Hy Hh Hyh. destruct (barred_fits _ _ _ Hb Hf) as [Hf1 Hfb]. pose proof (fo_width _ (ft_ok _ _ _ Hf1)) as Hw.
  rewrite Hfb in Hw. font. eapply barred_paint; [done|done|apply fill_rect_spec; (exact (ft_ok _ _ _ Hf1) || done || lia)|].
  intros x' y' Hy'. unfold over_rect. font. by rewrite decide_False by lia.
Qed.

Lemma bar_text s f s1 x t fg bg :
  barred s f s1 -> fits (con_vbe s) rows cols -> 0 < rows -> is_color fg -> is_color bg -> 0 <= x -> Forall plain t ->
  x + (lenZ t + 1) * FONT_WIDTH <= width (vbe_fb (con_vbe s)) ->
  returns (draw_text x 6 t fg bg) s1 (fun _ s2 => barred s f s2).
Proof.
  intros Hb Hf Hr Hfg Hbg Hx Ht Hw. destruct (barred_fits _ _ _ Hb Hf) as [Hf1 Hfb]. pose proof (ft_height _ _ _ Hf1).
  font. destruct (draw_string_above (con_vbe s1) x 6 t fg bg) as (v & g & Hv & Hrep & Hg); try done;
    [exact (ft_ok _ _ _ Hf1)|font; by rewrite Hfb|font; lia|].
  unfold returns, draw_text, p_step. rewrite Hv. simpl. eexists _, _. split; [done|].
  eapply barred_paint; [done|done|exact Hrep|]. intros x' y' Hy'. font. apply Hg. lia.
Qed.

(** Reading a device other than the serial port. *)
Lemma rtc_quiet avail h : sent COM1_PORT (rtc_read_time avail h).2 = sent COM1_PORT h.
Proof.
  assert (Hcm : forall reg h, sent COM1_PORT (cmos_read reg h).2 = sent COM1_PORT h).
  { clear h. intros reg h. unfold cmos_read, st_bind.
    pose proof (tx_other COM1_PORT CMOS_ADDRESS (Z.land reg 127) h ltac:(left; done)) as Ho.
    destruct (outb CMOS_ADDRESS _ h) as [[] h1]. pose proof (tx_read COM1_PORT 128 h1) as Hi. destruct (inb 128 h1) as [v h2].
    rewrite tx_read. simpl in *. congruence. }
  assert (Hw : forall n h, sent COM1_PORT (wait_uip n h).2 = sent COM1_PORT h).
  { clear h. intros n. induction n as [|n IH]; intros h; [done|]. cbn [wait_uip]. unfold st_bind at 1.
    pose proof (Hcm CMOS_STATUS_A h) as Ha. destruct (cmos_read CMOS_STATUS_A h) as [a h1]. case_goal; [|done].
    unfold st_bind. pose proof (tx_read COM1_PORT 128 h1) as Hi. destruct (inb 128 h1) as [v h2]. rewrite IH. simpl in *. congruence. }
  assert (Hraw : forall h, sent COM1_PORT (read_raw h).2 = sent COM1_PORT h).
  { clear h. intros h. unfold read_raw, cmos_wait_uip. unfold st_bind at 1.
    pose proof (Hw (Z.to_nat 100000) h) as Hh. destruct (wait_uip _ h) as [[] h0]. simpl in Hh.
    do 8 (unfold st_bind at 1;
      match goal with |- context [cmos_read ?r ?h] =>
        let Hb := fresh "Hb" in pose proof (Hcm r h) as Hb; destruct (cmos_read r h); simpl in Hb end). simpl. congruence. }
  assert (Hst : forall n h, sent COM1_PORT (read_stable n h).2 = sent COM1_PORT h).
  { clear h. intros n. induction n as [|n IH]; intros h; cbn [read_stable]; unfold st_bind; pose proof (Hraw h);
      destruct (read_raw h) as [a h1]; pose proof (Hraw h1); destruct (read_raw h1) as [b h2]; simpl in *; [congruence|].
    case_decide; [simpl; congruence|rewrite IH; congruence]. }
  destruct avail; [|done]. rewrite rtc_read_present. unfold st_bind.
  pose proof (Hst 4%nat h) as Hs4. destruct (read_stable 4 h) as [r h1]. pose proof (Hcm CMOS_STATUS_B h1) as Hb.
  destruct (cmos_read CMOS_STATUS_B h1) as [b h2]. simpl in *. congruence.
Qed.

Lemma bar_clock s f s1 :
  barred s f s1 -> clock_bytes (con_stack s) ->
  returns (p_zoom (fun s => serial_hw (con_ser s)) (fun h s => set_ser (set_hw h (con_ser s)) s) (rtc_read_time (con_rtc s))) s1
    (fun rt s2 => barred s f s2 /\ clock_bytes (default (con_stack s) rt)).
Proof.
  intros [(v & u & -> & Hon & Hu) Hp] Hb. unfold returns, p_zoom. simpl.
  pose proof (rtc_quiet (con_rtc s) (serial_hw u)) as Hq. pose proof (rtc_read_bytes (con_rtc s) (serial_hw u)) as Ht.
  destruct (rtc_read_time (con_rtc s) (serial_hw u)) as [rt h]. eexists _, _. split; [done|]. simpl in *. split.
  - split; [|done]. exists v, (set_hw h u). split; [done|]. split; [done|]. apply (sends_trans _ [] [] _ _ _ Hu).
    exists h. by rewrite app_nil_r.
  - destruct rt as [t|]; [by apply Ht|done].
Qed.

Lemma topbar_mid_plain s : exists t, topbar_mid s = Some t /\ Forall plain t.
Proof.
  unfold topbar_mid. destruct (format_ip_plain (cfg_ip (con_net s))) as (ip & Hip & Hpl). rewrite Hip.
  destruct (configured (con_net s)); (eexists; split; [reflexivity|]);
    repeat apply Forall_app_2; try exact Hpl; try (by apply str_plain); case_goal; by apply str_plain.
Qed.

Lemma refresh_topbar_spec s f :
  active s = true -> fits (con_vbe s) rows cols -> 0 < rows -> pic (con_vbe s) rows cols f -> clock_bytes (con_stack s) ->
  returns console_refresh_topbar s (fun _ s' => barred s f s').
Proof.
  intros Ha Hf Hr Hp Hbar. pose proof (fo_width _ (ft_ok _ _ _ Hf)) as Hw. pose proof (ft_bar _ _ _ Hf) as H320.
  unfold console_refresh_topbar. apply returns_bind. eexists _, _. split; [done|]. rewrite Ha. simpl negb. cbv iota.
  apply returns_bind. eexists _, _. split; [done|]. apply returns_bind. eexists _, _. split; [done|].
  pose proof (bar_fill s f s 0 (VBE_TOPBAR_HEIGHT - 2) 1448738 (barred_refl _ _ Hp) Hf ltac:(done) ltac:(done) ltac:(done) ltac:(done)) as Hb1.
  pose proof (bar_fill s f _ (VBE_TOPBAR_HEIGHT - 2) 2 16743168 Hb1 Hf ltac:(done) ltac:(done) ltac:(done) ltac:(done)) as Hb2.
  match goal with |- returns _ ?x _ => set (s2 := x) in *; change s2 with x in Hb2; fold s2 in Hb2; clearbody s2 end. clear Hb1.
  apply returns_bind. eapply returns_mono; [apply (bar_text s f s2); try done; [by apply str_plain|]|].
  { change (lenZ (str "BENGAL TIGER OS v1.0.0")) with 22. font. lia. }
  intros [] s3 Hb3. cbv beta in Hb3. destruct (topbar_mid_plain s) as (mid & Hmid & Hplain).
  apply returns_bind. eexists _, _. split; [unfold p_val; by rewrite Hmid|]. cbv beta zeta.
  rewrite (s32_id (width _)) by lia. apply returns_bind.
  eapply (returns_mono _ _ (fun _ s4 => barred s f s4)).
  { destruct (Z.ltb_spec 220 ((width (vbe_fb (con_vbe s)) - strlen mid * FONT_WIDTH) ÷ 2)) as [Hmx|]; [|by apply returns_ret].
    unfold strlen in *. font. pose proof (lenZ_nonneg mid). rewrite u32_id by zlia.
    apply (bar_text s f s3); try done; font; zlia. }
  intros [] s4 Hb4. cbv beta in Hb4. apply returns_bind. eapply returns_mono; [by apply (bar_clock s f s4)|].
  intros rt s5 [Hb5 Hck]. cbv beta zeta in *. destruct (Z.ltb_spec 0 (width (vbe_fb (con_vbe s)) -
    strlen (rtc_format_time (default (con_stack s) rt) ++ str " UTC") * FONT_WIDTH - 12)) as [Hrx|]; [|by apply returns_ret].
  unfold strlen in *. set (clk := rtc_format_time _ ++ str " UTC") in *. change (lenZ clk) with 12 in *. font. rewrite u32_id by lia.
  apply (bar_text s f s5); try done; [lia| |change (lenZ clk) with 12; font; lia].
  apply Forall_app_2; [by apply format_time_plain|by apply str_plain].
Qed.

(** * Clearing *)

Lemma clear_cells_spec s :
  con_ok s -> con_rows s = rows -> con_cols s = cols ->
  returns (console_clear_cells (default_attr s)) s (fun _ s' =>
    screen rows cols s' (fun _ _ => blank) 0 0 /\ cursor_shown s' /\ sends COM1_PORT [] (con_ser s) (con_ser s')).
Proof.
  intros Hok HR HC. pose proof Hok as [Hcols Hrows Hgr Hat Hbar Hdr Hdev]. rewrite Hat, HR, HC in *.
  destruct (clear_grid_spec 7 rows cols (shadow_grid s) Hgr) as [Hwf Hblank]; [lia..|].
  unfold console_clear_cells. apply returns_bind. eexists _, _. split; [done|]. apply returns_bind. eexists _, _. split; [done|].
  simpl. rewrite HR, HC. apply returns_bind. eexists _, _. split; [done|].
  set (s1 := set_grid (clear_grid 7 rows cols (shadow_grid s)) (set_drawn (-1) (-1) s)).
  apply returns_bind. eapply (returns_mono _ _ (fun _ s2 =>
    screen rows cols s2 (fun _ _ => blank) (cur_x s2) (cur_y s2) /\ sends COM1_PORT [] (con_ser s) (con_ser s2))).
  2:{ intros [] s2 [Hs2 Hsend]. eapply returns_mono; [apply (set_cursor_spec rows cols s2 _ _ _ 0 0 Hs2)|].
      intros [] s3 (Hs3 & Hcur & Hsend3). rewrite !clamp_id in Hs3 by lia. split_and!; try done.
      by apply (sends_trans _ [] [] _ _ _ Hsend). }
  change (active s1) with (active s). destruct (active s) eqn:Ha.
  - apply returns_bind. eexists _, _. split; [done|].
    destruct (fill_cells_pic (con_vbe s) rows cols (attr_bg 7) Hdev ltac:(lia) (attr_bg_color 7)) as [Hon Hpic].
    change (con_vbe s1) with (con_vbe s) in *. set (v := vbe_fill_rect _ _ _ _ _ _) in *. clearbody v.
    assert (Hface : pic v rows cols (face (shadow_grid s1) (-1) (-1))).
    { eapply pic_ext; [exact Hpic|]. intros r c x y Hr Hc Hx Hy. unfold face. rewrite decide_False by lia.
      simpl. rewrite Hblank by done. simpl. symmetry. by apply (space_blank). }
    eapply returns_mono; [apply (refresh_topbar_spec (set_vbe v s1) (face (shadow_grid s1) (-1) (-1)))|]; try done.
    + unfold active, vbe_is_active in *. simpl. by rewrite (proj1 Hon).
    + by eapply fits_picture.
    + lia.
    + intros [] s2 [(v2 & u & -> & Hon2 & Hu) Hpic2]. split; [|done].
      apply (screen_paint rows cols s (set_vbe v2 (set_ser u (set_vbe v s1)))); try done; [by left|].
      by eapply only_picture_trans.
  - eexists _, _. split; [done|]. split; [|apply sends_refl]. destruct Hdev as [HC80 HR25].
    apply (screen_store rows cols s (set_vga _ s1)); try done. intros r c Hr Hc. simpl. rewrite Hblank by lia.
    rewrite (for_range_ext (fun _ => True) 0 (80 * 25) _ (fun i m => vga_store m (0 + i) (vga_entry 32 7))) by done.
    rewrite vga_fill by lia. by rewrite decide_True by lia.
Qed.

Definition clear_code : list Z := [ESC] ++ str "[2J" ++ [ESC] ++ str "[H".
Definition fresh_paper : paper := Paper (fun _ _ => blank) 0 0 0.

Lemma shell_clear_spec s :
  con_ok s -> con_rows s = rows -> con_cols s = cols -> com1_ready s ->
  returns shell_clear s (fun _ s' => printed rows cols s clear_code s' fresh_paper).
Proof.
  intros Hok HR HC Hcom. pose proof (co_rows _ Hok). pose proof (co_cols _ Hok).
  unfold shell_clear. apply returns_bind. eexists _, _. split; [done|]. apply returns_bind.
  eapply returns_mono; [by apply clear_cells_spec|]. intros [] s1 (Hs1 & Hcur & Hsend).
  pose proof (com1_sends _ _ _ Hcom Hsend) as Hcom1.
  eapply returns_mono; [apply (ser_puts_spec clear_code s1 Hcom1)|].
  { repeat (apply Forall_cons_2; [by compute|]). apply Forall_nil_2. }
  intros [] s2 (u & -> & Hu). pose proof (sends_trans _ _ _ _ _ _ Hsend Hu) as Hall.
  split; [by apply screen_ser|split; simpl; (lia || done)|done|by eapply com1_sends|done].
Qed.

(** ** A line of text on a clear screen *)

(** Characters that print. *)
Definition printable (c : Z) : Prop := 32 <= c < 256.

Lemma paper_line color t p :
  paper_wf rows cols p -> Forall printable t -> pen_x p + lenZ t < cols ->
  let p' := paper_print rows cols (in_color color t) p in
  top p' = top p /\ pen_x p' = pen_x p + lenZ t /\ pen_y p' = pen_y p /\
  forall l k, ink p' l k = if decide (l = pen_y p /\ pen_x p <= k < pen_x p + lenZ t) then Cell (nthZ 0 t (k - pen_x p)) color
                           else ink p l k.
Proof.
  intros Hp Ht. revert p Hp. induction Ht as [|c t Hc Ht IH]; intros p Hp Hfit; cbv zeta.
  { unfold lenZ. simpl. split_and!; try done; [lia|]. intros l k. by rewrite decide_False by lia. }
  unfold printable in Hc. unfold lenZ in *. cbn [length] in *.
  change (paper_print rows cols (in_color color (c :: t)) p) with
    (paper_print rows cols (in_color color t) (paper_char rows cols c color p)).
  assert (Hp1 : paper_char rows cols c color p = Paper (put (ink p) (pen_y p) (pen_x p) (Cell c color)) (top p) (pen_x p + 1) (pen_y p)).
  { unfold paper_char, pen_step, NL, CR, BS, TAB. destruct (Z.eqb_spec c 9), (Z.eqb_spec c 10), (Z.eqb_spec c 13), (Z.eqb_spec c 8); try lia.
    rewrite (proj2 (Z.leb_le 32 c)) by lia. unfold advance, follow, move, write_at. simpl.
    rewrite (proj2 (Z.leb_gt cols _)) by lia. simpl. f_equal. pose proof (pw_y _ _ _ Hp). lia. }
  rewrite Hp1. clear Hp1. destruct Hp as [Hx Hy Hb].
  match goal with |- context [paper_print _ _ _ ?q] => set (p1 := q) end.
  destruct (IH p1) as (-> & -> & -> & Hink); [split; simpl; try lia|simpl; lia|].
  { intros l k Hl Hk. unfold put. rewrite decide_False by lia. auto. }
  simpl. split_and!; try lia. intros l k. rewrite Hink. simpl. unfold put.
  destruct (decide (l = pen_y p /\ pen_x p + 1 <= k < pen_x p + 1 + Z.of_nat (length t))) as [Hin|Hin].
  - rewrite decide_True by lia. f_equal. unfold nthZ. destruct (Z.ltb_spec (k - (pen_x p + 1)) 0), (Z.ltb_spec (k - pen_x p) 0); try lia.
    replace (Z.to_nat (k - pen_x p)) with (S (Z.to_nat (k - (pen_x p + 1)))) by lia. done.
  - destruct (decide (l = pen_y p /\ k = pen_x p)) as [[-> ->]|].
    + rewrite !decide_True by lia. by rewrite Z.sub_diag.
    + by rewrite decide_False by lia.
Qed.

(** Printing in one colour: [shell_print] uses the default one. *)
Lemma shell_print_spec t s p :
  on_paper rows cols s p -> paper_wf rows cols p -> com1_ready s -> cursor_shown s -> Forall is_u8 t ->
  returns (shell_print t) s (fun _ s' => printed rows cols s (t ≫= echo) s' (paper_print rows cols (in_color 7 t) p)).
Proof.
  intros. apply print_spec; try done. intros s1 c Hok. unfold p_bind, p_get. by rewrite (co_attr _ Hok).
Qed.
Lemma shell_print_color_spec t color s p :
  on_paper rows cols s p -> paper_wf rows cols p -> com1_ready s -> cursor_shown s -> Forall is_u8 t ->
  returns (shell_print_color t color) s (fun _ s' =>
    printed rows cols s (t ≫= echo) s' (paper_print rows cols (in_color color t) p)).
Proof. intros. by apply print_spec. Qed.

(** C29: the console refines a roll of paper.  Printing a text in a colour
    does to the grid and the cursor what writing it with a pen does to the
    window on the paper; the framebuffer, or the VGA text memory, shows the
    window with the cursor at the pen; and the text goes out on the serial
    line. *)
Theorem console_prints_on_paper t color s p :
  on_paper rows cols s p -> paper_wf rows cols p -> com1_ready s -> cursor_shown s -> Forall is_u8 t ->
  returns (shell_print_color t color) s (fun _ s' =>
    let p' := paper_print rows cols (in_color color t) p in
    shows s' /\ cursor_shown s' /\ screen rows cols s' (window p') (pen_x p') (pen_y p' - top p') /\
    sends COM1_PORT (t ≫= echo) (con_ser s) (con_ser s')).
Proof.
  intros. eapply returns_mono; [by apply shell_print_color_spec|]. intros [] s' [Hp Hw Hcur Hr Hs].
  split_and!; try done. apply Hp.
Qed.

(** Clearing the screen and printing a line of text shows that text at
    the start of the first row and blanks everywhere else, with the cursor
    after the text, whatever was on the screen before. *)
Theorem clear_then_print s t :
  con_ok s -> con_rows s = rows -> con_cols s = cols -> com1_ready s ->
  Forall printable t -> lenZ t < cols ->
  returns (shell_clear;; shell_print t) s (fun _ s' =>
    shows s' /\ cursor_shown s' /\
    screen rows cols s' (fun r c => if decide (r = 0 /\ c < lenZ t) then Cell (nthZ 0 t c) 7 else blank) (lenZ t) 0 /\
    sends COM1_PORT (clear_code ++ (t ≫= echo)) (con_ser s) (con_ser s')).
Proof.
  intros Hok HR HC Hcom Ht Hlen. apply returns_bind. eapply returns_mono; [by apply shell_clear_spec|].
  intros [] s1 Hs1. pose proof Hs1 as [Hp1 Hw1 Hcur1 Hr1 _].
  eapply returns_mono; [apply (shell_print_spec t s1 fresh_paper); try done|].
  { eapply Forall_impl; [exact Ht|]. unfold printable, is_u8. lia. }
  intros [] s2 Hs2. destruct (printed_trans rows cols _ _ _ _ _ _ _ Hs1 Hs2) as [Hp2 Hw2 Hcur2 Hr2 Hsend].
  destruct (paper_line 7 t fresh_paper Hw1 Ht) as (Htop & Hx & Hy & Hink); [simpl; lia|].
  unfold on_paper in Hp2. rewrite Htop, Hx, Hy in Hp2. simpl in Hp2.
  split_and!; try done; [apply Hp2|]. eapply screen_ext; [exact Hp2|]. intros r c Hr Hc.
  unfold window. rewrite Htop, Hink. simpl. rewrite Z.sub_0_r. repeat case_decide; (done || lia).
Qed.
End bar.

(** * A console to try it on *)

(** A machine whose ports read as ready and log what is written. *)
Definition tty : Type := list (Z * Z).
#[export] Instance tty_ports : Ports tty := {
  inb p h := (32, h);
  inw p h := (32, h);
  outb p v h := (tt, h ++ [(p, v)]);
  outw p v h := (tt, h)
}.
#[export] Program Instance tty_tx : UartTx tty := {
  sent port h := (filter (fun e => e.1 = port + SERIAL_DATA) h).*2
}.
Next Obligation. done. Qed.
Next Obligation. intros port v h. unfold tty in *. simpl. rewrite filter_app, fmap_app. f_equal. by rewrite filter_cons_True. Qed.
Next Obligation.
  intros port p v h Hp. unfold tty in *. simpl. rewrite filter_app, filter_cons_False, filter_nil, app_nil_r; [done|].
  unfold SERIAL_DATA. simpl. lia.
Qed.
#[export] Instance tty_bytes : BytePorts tty.
Proof. intros p h. by compute. Qed.

Definition empty_grid : list (list console_cell_t) := replicate 100 (replicate 200 no_cell).
Definition com1 : serial tty := SerialPort COM1_PORT true (ring_init 0) [].
Definition midnight : rtc_time_t := RtcTime 0 0 0 1 1 2026 1.

(** A 640x480 framebuffer, and the VGA text mode. *)
Definition vga_fb : vbe_fb_t := VbeFb true 1 640 480 2560 32 3758096384 3758096384 16 8 8 8 0 8.
Definition sample_console (fb : vbe_fb_t) (rows cols : Z) : console tty :=
  Con empty_grid cols rows 0 0 (-1) (-1) true 7 (Vbe fb 0 0 ∅) com1 no_config true false midnight.

Lemma nthZ_replicate {A} (d x : A) n i : 0 <= i < Z.of_nat n -> nthZ d (replicate n x) i = x.
Proof. intros Hi. unfold nthZ. case_goal; [lia|]. by rewrite lookup_replicate_2 by lia. Qed.
Lemma empty_grid_wf : grid_wf empty_grid.
Proof. split; [done|]. intros r Hr. unfold empty_grid. by rewrite nthZ_replicate by (simpl; unfold MAX_GRID_ROWS in *; lia). Qed.
Lemma empty_grid_get r c : 0 <= r < 100 -> 0 <= c < 200 -> grid_get empty_grid r c = no_cell.
Proof. intros Hr Hc. unfold grid_get, empty_grid. rewrite !nthZ_replicate by (simpl; lia). done. Qed.

Lemma sample_fb_ok : con_ok (sample_console vga_fb 28 80).
Proof.
  split; simpl; try (unfold MAX_GRID_COLS, MAX_GRID_ROWS; lia); [apply empty_grid_wf|by compute|].
  split; [|by compute..]. split; try (by compute); [by left|..]; unfold apart; simpl; lia.
Qed.
Lemma sample_vga_ok : con_ok (sample_console no_fb 25 80).
Proof. split; simpl; try (unfold MAX_GRID_COLS, MAX_GRID_ROWS; lia); [apply empty_grid_wf|by compute]. Qed.

Lemma clear_then_print_witness :
  returns (shell_clear;; shell_print (str "Ready")) (sample_console vga_fb 28 80) (fun _ s' =>
    shows s' /\ cursor_shown s' /\
    screen 28 80 s' (fun r c => if decide (r = 0 /\ c < 5) then Cell (nthZ 0 (str "Ready") c) 7 else blank) 5 0 /\
    sends COM1_PORT (clear_code ++ (str "Ready" ≫= echo)) com1 (con_ser s')).
Proof.
  apply (clear_then_print 28 80 (sample_console vga_fb 28 80) (str "Ready")).
  - exact sample_fb_ok.
  - reflexivity.
  - reflexivity.
  - split; reflexivity.
  - repeat (apply Forall_cons_2; [by compute|]). apply Forall_nil_2.
  - reflexivity.
Defined.

(** The paper the VGA console starts on. *)
Definition start_paper : paper := Paper (fun l _ => if decide (l < 25) then no_cell else blank) 0 0 0.

Lemma sample_vga_screen : screen 25 80 (sample_console no_fb 25 80) (window start_paper) 0 0.
Proof.
  split; try reflexivity.
  - exact sample_vga_ok.
  - intros r c Hr Hc. simpl. rewrite empty_grid_get by (simpl in *; lia). reflexivity.
  - intros r c Hr Hc. simpl. rewrite empty_grid_get by lia. unfold window. simpl. by rewrite decide_True by lia.
Qed.

Lemma console_prints_on_paper_witness :
  returns (shell_print_color (str "a" ++ [TAB; NL; BS]) 10) (sample_console no_fb 25 80) (fun _ s' =>
    let p' := paper_print 25 80 (in_color 10 (str "a" ++ [TAB; NL; BS])) start_paper in
    shows s' /\ cursor_shown s' /\ screen 25 80 s' (window p') (pen_x p') (pen_y p' - top p') /\
    sends COM1_PORT ((str "a" ++ [TAB; NL; BS]) ≫= echo) com1 (con_ser s')).
Proof.
  apply (console_prints_on_paper 25 80 (str "a" ++ [TAB; NL; BS]) 10 (sample_console no_fb 25 80) start_paper).
  - exact sample_vga_screen.
  - split; simpl; try lia. intros l k Hl Hk. by rewrite decide_False by lia.
  - split; reflexivity.
  - intros Ha. discriminate Ha.
  - repeat (apply Forall_cons_2; [by compute|]). apply Forall_nil_2.
Defined.
