(* ===== verification/Panic.v ===== *)
(** Panic: the crash screens of [kernel/panic.c], in the VGA text memory, on
    the framebuffer and on the serial line.

    The functions end in a loop of [hlt]; the outcome [Halts] stands for it. *)

From S2P Require Import Prelude Ports Partial Memory Common Text Ring Serial Font Pmm Paging Vbe Rtc Net Console ConsoleSpec.
#[local] Open Scope partial_scope.

(** The saved registers of [common.h]. *)
Record regs := Regs {
  r_gs : Z; r_fs : Z; r_es : Z; r_ds : Z;
  r_edi : Z; r_esi : Z; r_ebp : Z; r_esp : Z; r_ebx : Z; r_edx : Z; r_ecx : Z; r_eax : Z;
  r_int_no : Z; r_err_code : Z;
  r_eip : Z; r_cs : Z; r_eflags : Z; r_useresp : Z; r_ss : Z
}.

Definition exception_names : list (list Z) :=
  [str "Division By Zero (#DE)"; str "Debug (#DB)"; str "Non-Maskable Interrupt (#NMI)"; str "Breakpoint (#BP)";
   str "Into Detected Overflow (#OF)"; str "Bound Range Exceeded (#BR)"; str "Invalid Opcode (#UD)";
   str "Device Not Available (#NM)"; str "Double Fault (#DF)"; str "Coprocessor Segment Overrun"; str "Invalid TSS (#TS)";
   str "Segment Not Present (#NP)"; str "Stack-Segment Fault (#SS)"; str "General Protection Fault (#GP)";
   str "Page Fault (#PF)"; str "Reserved Exception 15"; str "x87 Floating-Point Error (#MF)"; str "Alignment Check (#AC)";
   str "Machine Check (#MC)"; str "SIMD Floating-Point (#XM)"; str "Virtualization Exception (#VE)";
   str "Control Protection (#CP)"; str "Reserved"; str "Reserved"; str "Reserved"; str "Reserved"; str "Reserved";
   str "Reserved"; str "Reserved"; str "Reserved"; str "Security Exception (#SX)"; str "Reserved"].

Definition PANIC_COLOR_HEADER : Z := 79.
Definition PANIC_COLOR_TEXT : Z := 78.
Definition PANIC_COLOR_LABEL : Z := 71.
Definition PANIC_VBE_BG : Z := 5769224.
Definition PANIC_VBE_BANNER : Z := 8917265.
Definition PANIC_VBE_WHITE : Z := 16777215.
Definition PANIC_VBE_YELLOW : Z := 16772693.
Definition PANIC_VBE_GREY : Z := 14540253.

Definition hex_chars : list Z := str "0123456789ABCDEF".

(** The loop fills the eight digits from the right. *)
Fixpoint hex32_digits (n : nat) (value : Z) (acc : list Z) : list Z :=
  match n with
  | O => acc
  | S n => hex32_digits n (Z.shiftr value 4) (nthZ 0 hex_chars (Z.land value 15) :: acc)
  end.
Definition format_hex32 (value : Z) : list Z := str "0x" ++ hex32_digits 8 value [].

Inductive outcome := Returns | Halts.

(** The framebuffer with the memory the text buffer is in, the serial driver
    and the register that holds the address of a page fault. *)
Record crash (H : Type) := Crash { x_vbe : vbe; x_ser : serial H; x_cr2 : Z; x_interrupts : bool }.
Arguments Crash {H}. Arguments x_vbe {H}. Arguments x_ser {H}. Arguments x_cr2 {H}. Arguments x_interrupts {H}.

Section panic.
Context {H : Type} `{Ports H}.
Implicit Types s : crash H.

Definition set_x_vbe (v : vbe) s : crash H := Crash v (x_ser s) (x_cr2 s) (x_interrupts s).
Definition set_x_ser (u : serial H) s : crash H := Crash (x_vbe s) u (x_cr2 s) (x_interrupts s).
Definition cli : PM (crash H) unit := p_mod (fun s => Crash (x_vbe s) (x_ser s) (x_cr2 s) false).
Definition say (m : list Z) : PM (crash H) unit := p_part x_ser set_x_ser (serial_write_str m).
Definition say_hex (v : Z) : PM (crash H) unit := p_part x_ser set_x_ser (serial_write_hex COM1_PORT v).

(** The loop over the text buffer. *)
Fixpoint put_text (text : list Z) (offset attr : Z) (m : mem) : mem :=
  match text with
  | [] => m
  | c :: text =>
    if negb (c =? 10) && (offset <? 80 * 25) then put_text text (offset + 1) attr (vga_store m offset (vga_entry c attr))
    else put_text text offset attr m
  end.
Definition panic_draw_str (text : list Z) (row col attr fg bg : Z) : PM (crash H) unit :=
  p_mod (fun s => set_x_vbe (with_vmem (put_text text (row * 80 + col) attr (vbe_mem (x_vbe s))) (x_vbe s)) s);;
  s <- p_get;;
  if vbe_is_active (x_vbe s) then
    p_part x_vbe set_x_vbe (p_step (vbe_draw_string (u32 (col * 8 + 16)) (u32 (row * (16 + 2) + 16)) text fg bg))
  else p_ret tt.
Definition panic_draw_hex (val row col : Z) : PM (crash H) unit :=
  panic_draw_str (format_hex32 val) row col PANIC_COLOR_TEXT PANIC_VBE_YELLOW PANIC_VBE_BG.

Definition rule : list Z := replicate 80 61.
Definition panic_begin_screen (title : list Z) : PM (crash H) unit :=
  p_mod (fun s => set_x_vbe (with_vmem (for_range 0 (80 * 25) (fun i m =>
    vga_store m (0 + i) (vga_entry 32 PANIC_COLOR_TEXT)) (vbe_mem (x_vbe s))) (x_vbe s)) s);;
  p_mod (fun s => if vbe_is_active (x_vbe s)
    then set_x_vbe (vbe_fill_rect 0 0 (width (vbe_fb (x_vbe s))) 68 PANIC_VBE_BANNER (vbe_clear_color PANIC_VBE_BG (x_vbe s))) s else s);;
  panic_draw_str rule 0 0 PANIC_COLOR_HEADER PANIC_VBE_WHITE PANIC_VBE_BANNER;;
  panic_draw_str title 1 14 PANIC_COLOR_HEADER PANIC_VBE_WHITE PANIC_VBE_BANNER;;
  panic_draw_str rule 2 0 PANIC_COLOR_HEADER PANIC_VBE_WHITE PANIC_VBE_BANNER.

(** A label in grey, a heading in white and a value in yellow. *)
Definition label (text : list Z) (row col : Z) : PM (crash H) unit :=
  panic_draw_str text row col PANIC_COLOR_LABEL PANIC_VBE_GREY PANIC_VBE_BG.
Definition heading (text : list Z) (row col : Z) : PM (crash H) unit :=
  panic_draw_str text row col PANIC_COLOR_LABEL PANIC_VBE_WHITE PANIC_VBE_BG.
Definition value (text : list Z) (row col : Z) : PM (crash H) unit :=
  panic_draw_str text row col PANIC_COLOR_TEXT PANIC_VBE_YELLOW PANIC_VBE_BG.

(** A null pointer is [None]. *)
Definition kernel_panic (message : option (list Z)) : PM (crash H) outcome :=
  cli;;
  say (NL :: str "!!! KERNEL PANIC: ");;
  say (default (str "(null)") message);;
  say (str " !!!" ++ [NL]);;
  panic_begin_screen (str "BENGAL TIGER OS v1.0.0 - KERNEL PANIC");;
  heading (str "FATAL ERROR:") 4 2;;
  value (default (str "Unknown error") message) 5 4;;
  label (str "System halted safely. Please reboot the machine.") 16 2;;
  p_ret Halts.

Definition kernel_panic_at (message file : option (list Z)) (line : Z) : PM (crash H) outcome :=
  cli;;
  line_str <- p_val (k_itoa line 10);;
  say (NL :: str "!!! KERNEL PANIC at ");;
  say (default (str "?") file);;
  say (str ":");;
  say line_str;;
  say (str " -> ");;
  say (default (str "?") message);;
  say (str " !!!" ++ [NL]);;
  panic_begin_screen (str "BENGAL TIGER OS v1.0.0 - KERNEL PANIC");;
  heading (str "FATAL ERROR:") 4 2;;
  value (default (str "Assertion failure") message) 5 4;;
  label (str "File:") 7 2;;
  value (default (str "?") file) 7 10;;
  label (str "Line:") 8 2;;
  value line_str 8 10;;
  label (str "System halted safely. Please reboot the machine.") 14 2;;
  p_ret Halts.

Definition draw_registers (r : regs) : PM (crash H) unit :=
  label (str "EAX:") 7 4;; panic_draw_hex (r_eax r) 7 9;;
  label (str "EBX:") 7 22;; panic_draw_hex (r_ebx r) 7 27;;
  label (str "ECX:") 7 40;; panic_draw_hex (r_ecx r) 7 45;;
  label (str "EDX:") 7 58;; panic_draw_hex (r_edx r) 7 63;;
  label (str "ESI:") 8 4;; panic_draw_hex (r_esi r) 8 9;;
  label (str "EDI:") 8 22;; panic_draw_hex (r_edi r) 8 27;;
  label (str "EBP:") 8 40;; panic_draw_hex (r_ebp r) 8 45;;
  label (str "ESP:") 8 58;; panic_draw_hex (r_esp r) 8 63;;
  label (str "EIP:") 9 4;; panic_draw_hex (r_eip r) 9 9;;
  label (str "CS:") 9 22;; panic_draw_hex (r_cs r) 9 27;;
  label (str "EFLAGS:") 9 40;; panic_draw_hex (r_eflags r) 9 48.

Definition draw_page_fault (r : regs) : PM (crash H) unit :=
  s <- p_get;;
  let cr2 := x_cr2 s in
  say (str "CR2=");;
  say_hex cr2;;
  say [NL];;
  heading (str "PAGE FAULT ADDRESS (CR2):") 11 2;;
  panic_draw_hex cr2 11 28;;
  label (str "Error code:") 12 2;;
  panic_draw_hex (r_err_code r) 12 15.

Definition exception_handler (r : regs) : PM (crash H) outcome :=
  if r_int_no r <? 32 then
    let name := nthZ [] exception_names (r_int_no r) in
    cli;;
    say (NL :: str "!!! CPU EXCEPTION: ");;
    say name;;
    say (str " EIP=");;
    say_hex (r_eip r);;
    say (str " ERR=");;
    say_hex (r_err_code r);;
    say (str " !!!" ++ [NL]);;
    panic_begin_screen (str "BENGAL TIGER OS v1.0.0 - CPU EXCEPTION");;
    heading (str "EXCEPTION:") 4 2;;
    value name 4 14;;
    heading (str "REGISTER DUMP:") 6 2;;
    draw_registers r;;
    (if r_int_no r =? 14 then draw_page_fault r else p_ret tt);;
    label (str "The system has been halted safely. Please restart your computer.") 15 2;;
    p_ret Halts
  else p_ret Returns.
End panic.
