(* ===== verification/PanicSpec.v ===== *)
(** PanicSpec: what a crash leaves on the text screen. *)

From S2P Require Import Prelude Ports Partial Memory Common Text Ring Serial SerialTx Font Pmm Paging Vbe Rtc Net Console ConsoleSpec Panic.
#[local] Open Scope partial_scope.

(** ** Texts on the screen *)

(** A text drawn at an offset of the screen with an attribute. *)
Record drawn := Drawn { d_text : list Z; d_off : Z; d_attr : Z }.
Definition do_draw (m : mem) (d : drawn) : mem := put_text (d_text d) (d_off d) (d_attr d) m.
Definition d_end (d : drawn) : Z := d_off d + lenZ (d_text d).
Definition plain (t : list Z) : Prop := Forall (fun c => is_u8 c /\ c <> 10) t.

(** The texts lie one behind the other, from [lo] to the end of the screen. *)
Fixpoint in_sequence (lo : Z) (l : list drawn) : Prop :=
  match l with
  | [] => lo <= 80 * 25
  | d :: l => lo <= d_off d /\ plain (d_text d) /\ 0 <= d_attr d < 256 /\ in_sequence (d_end d) l
  end.

Lemma entry_char c attr : is_u8 c -> 0 <= attr < 256 -> u16 (vga_entry c attr) mod 256 = c.
Proof.
  unfold is_u8. intros Hc Ha. unfold vga_entry. rewrite (u8_id c Hc), lor_shiftl_add by lia. change (2 ^ 8) with 256.
  rewrite u16_id by lia. zlia.
Qed.

Lemma put_text_load t off attr m i :
  plain t -> off + lenZ t <= 80 * 25 ->
  vga_load (put_text t off attr m) i =
    if decide (off <= i < off + lenZ t) then u16 (vga_entry (nthZ 0 t (i - off)) attr) else vga_load m i.
Proof.
  intros Ht. revert off m. induction Ht as [|c t [Hc Hn] Ht IH]; intros off m Hoff.
  { rewrite decide_False by (unfold lenZ; cbn; lia). done. }
  assert (El : lenZ (c :: t) = lenZ t + 1) by (unfold lenZ; cbn; lia). assert (0 <= lenZ t) by (unfold lenZ; lia).
  cbn [put_text]. rewrite (proj2 (Z.eqb_neq _ _) Hn), (proj2 (Z.ltb_lt _ _)) by lia. cbn [negb andb].
  rewrite IH, vga_load_store, El by lia. destruct (decide (i = off)) as [->|].
  - rewrite decide_False, decide_True by lia. by rewrite Z.sub_diag.
  - destruct (decide (off + 1 <= i < off + 1 + lenZ t)); [rewrite decide_True by lia|by rewrite !decide_False by lia].
    do 2 f_equal. unfold nthZ. rewrite !(proj2 (Z.ltb_ge _ _)) by lia.
    replace (Z.to_nat (i - off)) with (S (Z.to_nat (i - (off + 1)))) by lia. done.
Qed.

(** The characters on the screen from an offset on. *)
Definition text_at (m : mem) (off n : Z) : list Z := (fun i => vga_load m (off + i) mod 256) <$> seqZ 0 n.
Lemma text_at_ext m m' off n : (forall i, off <= i < off + n -> vga_load m' i = vga_load m i) -> text_at m' off n = text_at m off n.
Proof. intros E. apply list_fmap_ext. intros k i Hi. apply lookup_seqZ in Hi as [-> Hk]. rewrite E by lia. done. Qed.
Lemma text_at_put t off attr m : plain t -> 0 <= attr < 256 -> off + lenZ t <= 80 * 25 ->
  text_at (put_text t off attr m) off (lenZ t) = t.
Proof.
  intros Ht Ha Hoff. apply list_eq. intros k. unfold text_at. rewrite list_lookup_fmap. destruct (decide (k < length t)%nat) as [Hk|Hk].
  - rewrite lookup_seqZ_lt by (unfold lenZ; lia). cbn [fmap option_fmap option_map]. rewrite put_text_load by done.
    rewrite decide_True by (unfold lenZ; lia). destruct (lookup_lt_is_Some_2 t k Hk) as [c Hc]. rewrite Hc. f_equal.
    replace (off + (0 + Z.of_nat k) - off) with (Z.of_nat k) by lia. unfold nthZ. rewrite (proj2 (Z.ltb_ge _ _)), Nat2Z.id, Hc by lia.
    apply entry_char; [|done]. by destruct (Forall_lookup_1 _ _ _ _ Ht Hc).
  - rewrite lookup_seqZ_ge by (unfold lenZ; lia). symmetry. apply lookup_ge_None. lia.
Qed.

(** Texts in sequence do not overlap: all of them can be read. *)
Lemma draws_before l lo m i : in_sequence lo l -> i < lo -> vga_load (foldl do_draw m l) i = vga_load m i.
Proof.
  revert lo m. induction l as [|d l IH]; intros lo m Hl Hi; [done|]. destruct Hl as (Hlo & Hp & Ha & Hl). cbn [foldl].
  assert (Hb : d_end d <= 80 * 25).
  { clear -Hl. revert Hl. generalize (d_end d). induction l as [|e l IH]; intros x; [done|]. intros (? & _ & _ & Hl). apply IH in Hl.
    unfold d_end, lenZ in *. lia. }
  unfold d_end in *. assert (0 <= lenZ (d_text d)) by (unfold lenZ; lia). rewrite (IH _ _ Hl) by lia.
  unfold do_draw. rewrite put_text_load by done. by rewrite decide_False by lia.
Qed.
Lemma in_sequence_end lo l : in_sequence lo l -> lo <= 80 * 25.
Proof. revert lo. induction l as [|e l IH]; intros x; [done|]. intros (? & _ & _ & Hl). apply IH in Hl. unfold d_end, lenZ in *. lia. Qed.

Lemma draws_show l lo m d : in_sequence lo l -> d ∈ l -> text_at (foldl do_draw m l) (d_off d) (lenZ (d_text d)) = d_text d.
Proof.
  revert lo m. induction l as [|e l IH]; intros lo m Hl Hd; [by apply elem_of_nil in Hd|]. destruct Hl as (Hlo & Hp & Ha & Hl). cbn [foldl].
  apply elem_of_cons in Hd as [->|Hd]; [|by eapply IH]. pose proof (in_sequence_end _ _ Hl). unfold d_end in *.
  rewrite (text_at_ext (do_draw m e)); [by apply text_at_put|]. intros i Hi. apply (draws_before l (d_end e)); [done|]. unfold d_end. lia.
Qed.

(** ** Numbers *)

(** The value of hexadecimal digits. *)
Definition hex_value (t : list Z) : Z := foldl (fun v c => 16 * v + (if c <? 65 then c - 48 else c - 55)) 0 t.
Lemma hex_digit d : 0 <= d < 16 ->
  let c := nthZ 0 hex_chars d in (if c <? 65 then c - 48 else c - 55) = d /\ is_u8 c /\ c <> 10.
Proof.
  intros Hd. assert (Ha : forallb (fun d => let c := nthZ 0 hex_chars d in
    (((if c <? 65 then c - 48 else c - 55) =? d) && (0 <=? c) && (c <? 256) && negb (c =? 10))%bool) (seqZ 0 16) = true) by (vm_compute; reflexivity).
  rewrite forallb_forall in Ha. specialize (Ha d). cbv zeta in Ha |- *.
  assert (Hin : In d (seqZ 0 16)) by (apply list_elem_of_In, elem_of_seqZ; lia). specialize (Ha Hin).
  apply andb_true_iff in Ha as [Ha Hn]. bool_to_prop. unfold is_u8. auto.
Qed.

Lemma hex32_value n v acc :
  0 <= v < 16 ^ Z.of_nat n ->
  exists ds, hex32_digits n v acc = ds ++ acc /\ hex_value ds = v /\ length ds = n /\ plain ds.
Proof.
  revert v acc. induction n as [|n IH]; intros v acc Hv.
  { exists []. cbn in Hv. split_and!; [done| |done|constructor]. cbn. lia. }
  replace (16 ^ Z.of_nat (S n)) with (16 * 16 ^ Z.of_nat n) in Hv by (rewrite Nat2Z.inj_succ, Z.pow_succ_r; lia).
  cbn [hex32_digits]. rewrite land_15, Z.shiftr_div_pow2 by lia. change (2 ^ 4) with 16.
  destruct (IH (v / 16) (nthZ 0 hex_chars (v mod 16) :: acc)) as (ds & E & Hval & Hl & Hp); [zlia|].
  destruct (hex_digit (v mod 16)) as (Hd & Hu & Hn); [zlia|].
  exists (ds ++ [nthZ 0 hex_chars (v mod 16)]). split_and!.
  - by rewrite E, <- app_assoc.
  - unfold hex_value in *. rewrite foldl_app, Hval. cbn [foldl]. rewrite Hd. zlia.
  - rewrite length_app, Hl. cbn. lia.
  - apply Forall_app. split; [done|]. by apply Forall_singleton.
Qed.

(** A number is printed with eight digits that denote it. *)
Lemma format_hex32_spec v : is_u32 v ->
  exists ds, format_hex32 v = [48; 120] ++ ds /\ hex_value ds = v /\ length ds = 8%nat /\ plain (format_hex32 v) /\ lenZ (format_hex32 v) = 10.
Proof.
  intros Hv. destruct (hex32_value 8 v []) as (ds & E & Hval & Hl & Hp); [exact Hv|]. exists ds. unfold format_hex32. rewrite E, app_nil_r.
  split_and!; try done.
  - apply Forall_app. split; [|done]. repeat constructor; (done || lia).
  - unfold lenZ. rewrite length_app, Hl. done.
Qed.

(** ** The screens *)

Section screens.
Context {H : Type} `{Ports H}.
Implicit Types s : crash H.

Definition text_mode s : Prop := vbe_is_active (x_vbe s) = false.
Definition screen s : mem := vbe_mem (x_vbe s).

(** In text mode [m] draws the texts [l] and nothing else. *)
Definition draws (l : list drawn) (m : PM (crash H) unit) : Prop :=
  forall s, text_mode s -> returns m s (fun _ s' => text_mode s' /\ x_cr2 s' = x_cr2 s /\ x_interrupts s' = x_interrupts s /\
    screen s' = foldl do_draw (screen s) l).

Lemma draws_nothing : draws [] (p_ret tt).
Proof. intros s Hs. by apply returns_ret. Qed.
Lemma draws_bind l l' m k : draws l m -> draws l' k -> draws (l ++ l') (m;; k).
Proof.
  intros Hm Hk s Hs. apply returns_bind. eapply returns_mono; [by apply Hm|]. intros [] s1 (Hs1 & Ec & Ei & E1).
  eapply returns_mono; [by apply Hk|]. intros [] s2 (Hs2 & Ec2 & Ei2 & E2). by rewrite E2, E1, foldl_app, Ec2, Ei2.
Qed.
Lemma draws_str t row col attr fg bg : draws [Drawn t (row * 80 + col) attr] (panic_draw_str t row col attr fg bg).
Proof.
  intros s Hs. apply returns_bind. eexists _, _. split; [reflexivity|]. apply returns_bind. eexists _, _. split; [reflexivity|].
  assert (E : forall m, vbe_is_active (with_vmem m (x_vbe s)) = false) by (intros; exact Hs).
  cbn [x_vbe set_x_vbe]. rewrite E. by apply returns_ret.
Qed.
Lemma draws_ser (m : PM (serial H) unit) : (forall u, returns m u (fun _ _ => True)) -> draws [] (p_part x_ser set_x_ser m).
Proof. intros Hm s Hs. apply returns_part. eapply returns_mono; [apply Hm|]. by intros [] u _. Qed.
Lemma draws_say t : draws [] (say t).
Proof. apply draws_ser. intros u. by apply (write_str_keeps (fun _ => True)). Qed.
Lemma draws_say_hex v : draws [] (say_hex v).
Proof. apply draws_ser. intros u. by apply (write_chars_keeps (fun _ => True)). Qed.

Lemma draws_cons d l m k : draws [d] m -> draws l k -> draws (d :: l) (m;; k).
Proof. apply (draws_bind [d] l). Qed.
Lemma draws_skip l m k : draws [] m -> draws l k -> draws l (m;; k).
Proof. apply (draws_bind [] l). Qed.

(** A sequence of statements against a table of texts. *)
Ltac draws_go :=
  unfold heading, label, value, panic_draw_hex;
  repeat lazymatch goal with
  | |- draws _ (p_bind (say _) _) => apply draws_skip; [apply draws_say|]
  | |- draws _ (p_bind (say_hex _) _) => apply draws_skip; [apply draws_say_hex|]
  | |- draws (_ :: _) (p_bind _ _) => apply draws_cons; [apply draws_str|]
  | |- draws _ (panic_draw_str _ _ _ _ _ _) => apply draws_str
  end.

Definition lab (t : list Z) (row col : Z) : drawn := Drawn t (row * 80 + col) PANIC_COLOR_LABEL.
Definition val (t : list Z) (row col : Z) : drawn := Drawn t (row * 80 + col) PANIC_COLOR_TEXT.
Definition hex (v row col : Z) : drawn := val (format_hex32 v) row col.

Definition banner (title : list Z) : list drawn :=
  [Drawn rule 0 PANIC_COLOR_HEADER; Drawn title 94 PANIC_COLOR_HEADER; Drawn rule 160 PANIC_COLOR_HEADER].
Definition register_table (r : regs) : list drawn :=
  [lab (str "EAX:") 7 4; hex (r_eax r) 7 9; lab (str "EBX:") 7 22; hex (r_ebx r) 7 27;
   lab (str "ECX:") 7 40; hex (r_ecx r) 7 45; lab (str "EDX:") 7 58; hex (r_edx r) 7 63;
   lab (str "ESI:") 8 4; hex (r_esi r) 8 9; lab (str "EDI:") 8 22; hex (r_edi r) 8 27;
   lab (str "EBP:") 8 40; hex (r_ebp r) 8 45; lab (str "ESP:") 8 58; hex (r_esp r) 8 63;
   lab (str "EIP:") 9 4; hex (r_eip r) 9 9; lab (str "CS:") 9 22; hex (r_cs r) 9 27;
   lab (str "EFLAGS:") 9 40; hex (r_eflags r) 9 48].
Definition fault_table (r : regs) (cr2 : Z) : list drawn :=
  [lab (str "PAGE FAULT ADDRESS (CR2):") 11 2; hex cr2 11 28; lab (str "Error code:") 12 2; hex (r_err_code r) 12 15].
Definition exception_table (r : regs) (cr2 : Z) : list drawn :=
  banner (str "BENGAL TIGER OS v1.0.0 - CPU EXCEPTION") ++
  [lab (str "EXCEPTION:") 4 2; val (nthZ [] exception_names (r_int_no r)) 4 14; lab (str "REGISTER DUMP:") 6 2] ++
  register_table r ++ (if r_int_no r =? 14 then fault_table r cr2 else []) ++
  [lab (str "The system has been halted safely. Please restart your computer.") 15 2].

Lemma draws_registers r : draws (register_table r) (draw_registers r).
Proof. unfold draw_registers, register_table. draws_go. Qed.
Lemma draws_page_fault r s : text_mode s -> returns (draw_page_fault r) s (fun _ s' => text_mode s' /\ x_cr2 s' = x_cr2 s /\
  x_interrupts s' = x_interrupts s /\ screen s' = foldl do_draw (screen s) (fault_table r (x_cr2 s))).
Proof.
  intros Hs. apply returns_bind. eexists _, _. split; [reflexivity|]. cbv zeta.
  assert (Hd : forall cr2, draws (fault_table r cr2) (say (str "CR2=");; say_hex cr2;; say [NL];;
    heading (str "PAGE FAULT ADDRESS (CR2):") 11 2;; panic_draw_hex cr2 11 28;; label (str "Error code:") 12 2;;
    panic_draw_hex (r_err_code r) 12 15)) by (intros cr2; unfold fault_table; draws_go).
  exact (Hd (x_cr2 s) s Hs).
Qed.

(** The blank screen. *)
Definition blank (m : mem) : mem := for_range 0 (80 * 25) (fun i m => vga_store m (0 + i) (vga_entry 32 PANIC_COLOR_TEXT)) m.
Lemma begin_screen title s : text_mode s -> returns (panic_begin_screen title) s (fun _ s' => text_mode s' /\ x_cr2 s' = x_cr2 s /\
  x_interrupts s' = x_interrupts s /\ screen s' = foldl do_draw (blank (screen s)) (banner title)).
Proof.
  intros Hs. set (s1 := set_x_vbe (with_vmem (blank (screen s)) (x_vbe s)) s).
  assert (H1 : text_mode s1) by exact Hs. apply returns_bind. exists tt, s1. split; [done|].
  apply returns_bind. exists tt, s1. split; [unfold p_mod; by rewrite H1|].
  assert (Hd : draws (banner title) (panic_draw_str rule 0 0 PANIC_COLOR_HEADER PANIC_VBE_WHITE PANIC_VBE_BANNER;;
    panic_draw_str title 1 14 PANIC_COLOR_HEADER PANIC_VBE_WHITE PANIC_VBE_BANNER;;
    panic_draw_str rule 2 0 PANIC_COLOR_HEADER PANIC_VBE_WHITE PANIC_VBE_BANNER)) by (unfold banner; draws_go).
  exact (Hd s1 H1).
Qed.

(** A state in text mode with these values; [m] takes it to another. *)
Definition at_ (cr2 : Z) (i : bool) (m : mem) s : Prop := text_mode s /\ x_cr2 s = cr2 /\ x_interrupts s = i /\ screen s = m.
Lemma draws_then {A} l p (k : PM (crash H) A) cr2 i m s Q :
  draws l p -> at_ cr2 i m s -> (forall s', at_ cr2 i (foldl do_draw m l) s' -> returns k s' Q) -> returns (p;; k) s Q.
Proof.
  intros Hp (Hs & <- & <- & <-) Hk. apply returns_bind. eapply returns_mono; [by apply Hp|]. intros [] s' Hs'. by apply Hk.
Qed.
Lemma begin_then {A} title (k : PM (crash H) A) cr2 i m s Q :
  at_ cr2 i m s -> (forall s', at_ cr2 i (foldl do_draw (blank m) (banner title)) s' -> returns k s' Q) ->
  returns (panic_begin_screen title;; k) s Q.
Proof.
  intros (Hs & <- & <- & <-) Hk. apply returns_bind. eapply returns_mono; [by apply begin_screen|]. intros [] s' Hs'. by apply Hk.
Qed.
Ltac says := eapply draws_then; [first [apply draws_say|apply draws_say_hex]|eassumption|]; cbn [foldl]; intros ? ?.

Lemma exception_draws r s : text_mode s -> r_int_no r < 32 ->
  returns (exception_handler r) s (fun o s' => o = Halts /\ x_interrupts s' = false /\
    screen s' = foldl do_draw (blank (screen s)) (exception_table r (x_cr2 s))).
Proof.
  intros Hs Hi. unfold exception_handler. rewrite (proj2 (Z.ltb_lt _ _) Hi). cbv zeta. apply returns_bind.
  exists tt, (Crash (x_vbe s) (x_ser s) (x_cr2 s) false). split; [done|]. set (s0 := Crash _ _ _ _).
  assert (Ht : at_ (x_cr2 s) false (screen s) s0) by done. clearbody s0.
  generalize dependent (x_cr2 s). generalize (screen s). clear s Hs. intros m cr2 Ht.
  do 7 says. eapply begin_then; [eassumption|]. intros s1 K1.
  eapply (draws_then [lab _ 4 2]); [apply draws_str|exact K1|]. intros s2 K2.
  eapply (draws_then [val _ 4 14]); [apply draws_str|exact K2|]. intros s3 K3.
  eapply (draws_then [lab _ 6 2]); [apply draws_str|exact K3|]. intros s4 K4.
  eapply draws_then; [apply draws_registers|exact K4|]. intros s5 K5.
  match type of K5 with at_ _ _ ?x _ => set (m5 := x) in K5 end.
  apply returns_bind. eapply (returns_mono _ _ (fun _ => at_ cr2 false (foldl do_draw m5 (if r_int_no r =? 14 then fault_table r cr2 else [])))).
  { destruct (_ =? 14); [|apply returns_ret; exact K5]. destruct K5 as (Ht5 & E5 & Ei5 & Es5).
    eapply returns_mono; [by apply draws_page_fault|]. intros [] s9 (? & ? & ? & Es'). rewrite E5, Es5 in *. by split_and!; try congruence. }
  intros [] s6 K6. eapply (draws_then [lab _ 15 2]); [apply draws_str|exact K6|]. intros s7 (_ & _ & Ei & Es).
  apply returns_ret. split_and!; [done..|]. rewrite Es. unfold exception_table, m5. clear.
  generalize do_draw. intros f. rewrite !foldl_app. reflexivity.
Qed.

(** ** What the screen tells *)

Definition words (r : regs) (cr2 : Z) : list (Z * Z * Z) :=
  [(r_eax r, 7, 9); (r_ebx r, 7, 27); (r_ecx r, 7, 45); (r_edx r, 7, 63); (r_esi r, 8, 9); (r_edi r, 8, 27);
   (r_ebp r, 8, 45); (r_esp r, 8, 63); (r_eip r, 9, 9); (r_cs r, 9, 27); (r_eflags r, 9, 48)] ++
  (if r_int_no r =? 14 then [(cr2, 11, 28); (r_err_code r, 12, 15)] else []).
Definition regs_ok (r : regs) : Prop :=
  Forall is_u32 [r_edi r; r_esi r; r_ebp r; r_esp r; r_ebx r; r_edx r; r_ecx r; r_eax r; r_err_code r; r_eip r; r_cs r; r_eflags r].

Lemma plain_b t : forallb (fun c => (0 <=? c) && (c <? 256) && negb (c =? 10)) t = true -> plain t.
Proof.
  intros Ht. apply Forall_forall. intros c Hc. rewrite forallb_forall in Ht. specialize (Ht c (proj1 (list_elem_of_In _ _) Hc)).
  apply andb_true_iff in Ht as [Ht ?]. bool_to_prop. unfold is_u8. lia.
Qed.
Lemma name_plain i : 0 <= i < 32 -> plain (nthZ [] exception_names i) /\ lenZ (nthZ [] exception_names i) <= 30.
Proof.
  intros Hi. assert (Ha : forallb (fun i => let t := nthZ [] exception_names i in
    (forallb (fun c => (0 <=? c) && (c <? 256) && negb (c =? 10)) t && (lenZ t <=? 30))%bool) (seqZ 0 32) = true) by (vm_compute; reflexivity).
  rewrite forallb_forall in Ha. specialize (Ha i). cbv zeta in Ha.
  assert (Hin : In i (seqZ 0 32)) by (apply list_elem_of_In, elem_of_seqZ; lia). specialize (Ha Hin). apply andb_true_iff in Ha as [Hp Hl].
  split; [by apply plain_b|]. bool_to_prop. lia.
Qed.

Lemma hex_plain v : is_u32 v -> plain (format_hex32 v) /\ lenZ (format_hex32 v) = 10.
Proof. intros Hv. by destruct (format_hex32_spec v Hv) as (ds & _ & _ & _ & ? & ?). Qed.

(** One text of a table: its place, its characters and its colour. *)
Lemma in_seq_cons lo t off attr l len :
  lo <= off -> plain t -> lenZ t = len -> 0 <= attr < 256 -> in_sequence (off + len) l -> in_sequence lo (Drawn t off attr :: l).
Proof. intros ? ? <- ? ?. refine (conj _ (conj _ (conj _ _))); done. Qed.
Ltac seq_text := apply plain_b; vm_compute; reflexivity.
Ltac seq_step :=
  lazymatch goal with
  | |- in_sequence _ (hex ?v _ _ :: _) =>
    eapply (in_seq_cons _ _ _ _ _ 10); [lia|by apply hex_plain|by apply hex_plain|done|]
  | |- in_sequence _ (_ :: _) => eapply in_seq_cons; [lia|seq_text|vm_compute; reflexivity|done|]
  | |- in_sequence _ [] => cbn; lia
  end.

Lemma fault_in_sequence r cr2 l lo : is_u32 (r_err_code r) -> is_u32 cr2 -> lo <= 880 -> in_sequence 1000 l ->
  in_sequence lo ((if r_int_no r =? 14 then fault_table r cr2 else []) ++ l).
Proof.
  intros He Hc Hlo Hl. assert (Hw : forall x, x <= 1000 -> in_sequence x l).
  { intros x Hx. destruct l as [|d l]; [cbn; lia|]. destruct Hl as (? & ?). split; [lia|done]. }
  destruct (_ =? 14); [|apply Hw; lia]. unfold fault_table. cbn [app]. repeat seq_step. apply Hw. lia.
Qed.
Lemma table_in_sequence r cr2 : regs_ok r -> is_u32 cr2 -> 0 <= r_int_no r < 32 -> in_sequence 0 (exception_table r cr2).
Proof.
  intros Hr Hc Hi. unfold regs_ok in Hr. rewrite !Forall_cons in Hr. destruct Hr as (? & ? & ? & ? & ? & ? & ? & ? & ? & ? & ? & ? & _).
  destruct (name_plain _ Hi) as [Hp Hl]. unfold exception_table, banner, register_table. cbn [app].
  do 4 seq_step. unfold val at 1. eapply in_seq_cons; [lia|exact Hp|reflexivity|done|]. do 23 seq_step.
  apply fault_in_sequence; [done..|lia|]. do 2 seq_step.
Qed.

Lemma words_in_table r cr2 v row col : regs_ok r -> is_u32 cr2 -> (v, row, col) ∈ words r cr2 ->
  hex v row col ∈ exception_table r cr2 /\ is_u32 v.
Proof.
  intros Hr Hc. unfold regs_ok in Hr. rewrite !Forall_cons in Hr. destruct Hr as (? & ? & ? & ? & ? & ? & ? & ? & ? & ? & ? & ? & _).
  unfold words, exception_table. rewrite !elem_of_app. intros [Hin|Hin].
  - split; [right; right; left|]; unfold register_table; repeat (apply elem_of_cons in Hin as [Hin|Hin]; [injection Hin as -> -> ->|]);
      try (by apply elem_of_nil in Hin); done || (repeat first [left|right]).
  - destruct (_ =? 14); [|by apply elem_of_nil in Hin]. split; [right; right; right; left|]; unfold fault_table;
      repeat (apply elem_of_cons in Hin as [Hin|Hin]; [injection Hin as -> -> ->|]);
      try (by apply elem_of_nil in Hin); done || (repeat first [left|right]).
Qed.
End screens.

(** The screen of a crash tells what happened.  In text mode the handler
    of any processor exception stops the machine with interrupts off; its
    screen has the name of the exception in row 4, and in the table below every
    register (with the faulting address and the error code after a page fault)
    as [0x] and eight digits that denote exactly its value. *)
Theorem exception_screen_tells {H} `{Ports H} r (s : crash H) :
  text_mode s -> regs_ok r -> is_u32 (x_cr2 s) -> 0 <= r_int_no r < 32 ->
  returns (exception_handler r) s (fun o s' => o = Halts /\ x_interrupts s' = false /\
    let name := nthZ [] exception_names (r_int_no r) in text_at (screen s') (4 * 80 + 14) (lenZ name) = name /\
    forall v row col, (v, row, col) ∈ words r (x_cr2 s) ->
      take 2 (text_at (screen s') (row * 80 + col) 10) = str "0x" /\ hex_value (drop 2 (text_at (screen s') (row * 80 + col) 10)) = v).
Proof.
  intros Hs Hr Hc Hi. eapply returns_mono; [apply exception_draws; [done|lia]|]. intros o s' (-> & Hf & Hscr).
  pose proof (table_in_sequence r (x_cr2 s) Hr Hc Hi) as Hseq.
  assert (Hshow : forall d, d ∈ exception_table r (x_cr2 s) -> text_at (screen s') (d_off d) (lenZ (d_text d)) = d_text d).
  { intros d Hd. rewrite Hscr. by eapply draws_show. }
  split; [done|]. split; [exact Hf|]. cbv zeta. split.
  - apply (Hshow (val (nthZ [] exception_names (r_int_no r)) 4 14)). do 4 right. left.
  - intros v row col Hin. destruct (words_in_table r (x_cr2 s) v row col Hr Hc Hin) as [Ht Hv]. apply Hshow in Ht.
    cbn [hex val d_off d_text] in Ht. destruct (format_hex32_spec v Hv) as (ds & E & Hval & _ & _ & El). rewrite El in Ht.
    rewrite Ht, E. by split.
Qed.

(** A page fault at address [0xDEADBEEF]. *)
Definition sample_fault : regs := Regs 16 16 16 16 1 2 3 4 5 6 7 8 14 2 1052672 8 514 0 0.
Definition sample_crash : crash uart :=
  Crash (Vbe no_fb 0 0 ∅) (SerialPort COM1_PORT true (ring_init 0) (UartDev [] [])) 3735928559 true.
Lemma exception_screen_tells_witness :
  exists s', exception_handler sample_fault sample_crash = Some (Halts, s') /\
    text_at (screen s') 334 16 = str "Page Fault (#PF)" /\ hex_value (drop 2 (text_at (screen s') 908 10)) = 3735928559.
Proof.
  destruct (exception_screen_tells sample_fault sample_crash) as (o & s' & E & -> & _ & Hn & Hw).
  - reflexivity.
  - repeat constructor; vm_compute; (reflexivity || discriminate).
  - vm_compute. split; [discriminate|reflexivity].
  - cbn. lia.
  - exists s'. split; [exact E|]. split; [exact Hn|]. apply (Hw 3735928559 11 28). apply elem_of_app. right. left.
Defined.
