(* ===== verification/Editor.v ===== *)
(** Editor: the full-screen text editor of [kernel/editor.c].

    The buffer is the array of [EDITOR_MAX_BUF] bytes that [editor_open] takes
    from the heap.  A session also has the console it draws on and the file
    system; its keys are the events [input_wait_event] gives, in order. *)

From S2P Require Import Prelude Ports Partial Memory Common Text Array Ring Serial Font Pmm Heap.
From S2P Require Import HeapInv HeapSpec HeapRun Disk Fat FatFile Paging Vbe Rtc Net Pic Mouse.
From S2P Require Import Keyboard Console.
#[local] Open Scope partial_scope.

Definition EDITOR_MAX_BUF : Z := 32768.

Record editor_state_t := Ed {
  filename : list Z;
  ed_buf : list Z;
  ed_len : Z;
  ed_cursor : Z;
  row_offset : Z;
  col_offset : Z;
  dirty : bool;
  quit_confirm : bool;
  status : list Z
}.

Definition ed_at (ed : editor_state_t) (i : Z) : Z := nthZ 0 (ed_buf ed) i.
Definition set_cursor (c : Z) (ed : editor_state_t) : editor_state_t :=
  Ed (filename ed) (ed_buf ed) (ed_len ed) c (row_offset ed) (col_offset ed) (dirty ed) (quit_confirm ed) (status ed).
Definition set_status (t : list Z) (ed : editor_state_t) : editor_state_t :=
  Ed (filename ed) (ed_buf ed) (ed_len ed) (ed_cursor ed) (row_offset ed) (col_offset ed) (dirty ed) (quit_confirm ed) t.
Definition set_offsets (r c : Z) (ed : editor_state_t) : editor_state_t :=
  Ed (filename ed) (ed_buf ed) (ed_len ed) (ed_cursor ed) r c (dirty ed) (quit_confirm ed) (status ed).
Definition set_flags (d q : bool) (ed : editor_state_t) : editor_state_t :=
  Ed (filename ed) (ed_buf ed) (ed_len ed) (ed_cursor ed) (row_offset ed) (col_offset ed) d q (status ed).
(** The end of an edit: a new buffer, length and cursor; [dirty] is set and
    [quit_confirm] reset. *)
Definition edited (buf : list Z) (len cursor : Z) (ed : editor_state_t) : editor_state_t :=
  Ed (filename ed) buf len cursor (row_offset ed) (col_offset ed) true false (status ed).

(** ** Positions *)

Definition editor_get_line_col (ed : editor_state_t) (pos : Z) : Z * Z :=
  for_range 0 (Z.min pos (ed_len ed)) (fun i '(line, col) =>
    if ed_at ed i =? NL then (line + 1, 0) else (line, col + 1)) (0, 0).

Definition editor_total_lines (ed : editor_state_t) : Z :=
  for_range 0 (ed_len ed) (fun i lines => if ed_at ed i =? NL then lines + 1 else lines) 1.

(** The search from position [i], at most [n] steps. *)
Fixpoint line_start_loop (n : nat) (i line target_line : Z) (ed : editor_state_t) : Z :=
  match n with
  | O => ed_len ed
  | S n =>
    if ed_at ed i =? NL then
      if line + 1 =? target_line then i + 1 else line_start_loop n (i + 1) (line + 1) target_line ed
    else line_start_loop n (i + 1) line target_line ed
  end.
Definition editor_line_start (ed : editor_state_t) (target_line : Z) : Z :=
  if target_line <=? 0 then 0 else line_start_loop (Z.to_nat (ed_len ed)) 0 0 target_line ed.

Fixpoint line_end_loop (n : nat) (i : Z) (ed : editor_state_t) : Z :=
  match n with
  | O => i
  | S n => if (i <? ed_len ed) && negb (ed_at ed i =? NL) then line_end_loop n (i + 1) ed else i
  end.
Definition editor_line_end (ed : editor_state_t) (line_start : Z) : Z :=
  line_end_loop (Z.to_nat (ed_len ed - line_start)) line_start ed.

Definition editor_move_vertical (delta_lines : Z) (ed : editor_state_t) : editor_state_t :=
  let '(cur_line, cur_col) := editor_get_line_col ed (ed_cursor ed) in
  let total := editor_total_lines ed in
  let target := cur_line + delta_lines in
  let target := if target <? 0 then 0 else target in
  let target := if total <=? target then total - 1 else target in
  let start := editor_line_start ed target in
  let end_ := editor_line_end ed start in
  let len := u32 (end_ - start) in
  set_cursor (u32 (start + (if u32 cur_col <? len then u32 cur_col else len))) ed.

(** ** Editing *)

Definition editor_insert_char (c : Z) (ed : editor_state_t) : editor_state_t :=
  if EDITOR_MAX_BUF <=? u32 (ed_len ed + 1) then set_status (str "Buffer full (32KB limit)") ed
  else
    let buf := arr_move (ed_cursor ed + 1) (ed_cursor ed) (u32 (ed_len ed - ed_cursor ed)) (ed_buf ed) in
    let buf := updZ (ed_cursor ed) c buf in
    let len := ed_len ed + 1 in
    edited (updZ len 0 buf) len (ed_cursor ed + 1) ed.

Definition editor_backspace (ed : editor_state_t) : editor_state_t :=
  if ed_cursor ed =? 0 then ed
  else
    let buf := arr_move (ed_cursor ed - 1) (ed_cursor ed) (u32 (ed_len ed - ed_cursor ed)) (ed_buf ed) in
    let len := ed_len ed - 1 in
    edited (updZ len 0 buf) len (ed_cursor ed - 1) ed.

Definition editor_delete (ed : editor_state_t) : editor_state_t :=
  if ed_len ed <=? ed_cursor ed then ed
  else
    let buf := arr_move (ed_cursor ed) (ed_cursor ed + 1) (u32 (ed_len ed - ed_cursor ed - 1)) (ed_buf ed) in
    let len := ed_len ed - 1 in
    edited (updZ len 0 buf) len (ed_cursor ed) ed.

(** ** Drawing *)

Section draw.
Context {H : Type} `{Ports H}.
Implicit Types con : console H.

(** The cells of a text from column [start], cut at [cols]. *)
Definition put_text (row start cols attr : Z) (t : list Z) con : console H :=
  for_range 0 (Z.min (lenZ t) (cols - start)) (fun i con => console_put_cell (start + i) row (nthZ 0 t i) attr con) con.

Definition editor_draw_bar (row cols : Z) (left_ right_ : list Z) (attr : Z) con : console H :=
  let con := for_range 0 cols (fun c con => console_put_cell c row 32 attr con) con in
  let con := put_text row 0 cols attr left_ con in
  let rstart := cols - strlen right_ - 1 in
  let rstart := if rstart <? 0 then 0 else rstart in
  put_text row rstart cols attr right_ con.

(** The scroll offsets that keep the cursor in the body. *)
Definition editor_scroll (cur_line cur_col body_rows cols : Z) (ed : editor_state_t) : editor_state_t :=
  let r := if cur_line <? row_offset ed then cur_line
           else if row_offset ed + body_rows <=? cur_line then cur_line - body_rows + 1 else row_offset ed in
  let c := if cur_col <? col_offset ed then cur_col
           else if col_offset ed + cols <=? cur_col then cur_col - cols + 1 else col_offset ed in
  set_offsets r c ed.

(** A character of the document as it is shown. *)
Definition body_char (ch : Z) : Z := if (ch <? 32) || (126 <? ch) then 46 else ch.

(** One row of the body; [pos] is where the row's line starts. *)
Definition editor_draw_row (ed : editor_state_t) (cols total_lines r pos : Z) con : Z * console H :=
  let doc_line := row_offset ed + r in
  let screen_row := 1 + r in
  if total_lines <=? doc_line then
    (pos, for_range 1 cols (fun c con => console_put_cell c screen_row 32 7 con) (console_put_cell 0 screen_row 126 8 con))
  else
    let end_ := editor_line_end ed pos in
    let line_len := u32 (end_ - pos) in
    let con := for_range 0 cols (fun c con =>
      let idx := u32 (col_offset ed + c) in
      let ch := if idx <? line_len then body_char (ed_at ed (u32 (pos + idx))) else 32 in
      console_put_cell c screen_row ch 15 con) con in
    (if end_ <? ed_len ed then end_ + 1 else ed_len ed, con).

Definition editor_draw_body (ed : editor_state_t) (cols body_rows : Z) con : console H :=
  (for_range 0 body_rows (fun r '(pos, con) => editor_draw_row ed cols (editor_total_lines ed) r pos con)
     (editor_line_start ed (row_offset ed), con)).2.

Definition top_left (ed : editor_state_t) : list Z :=
  str " BENGAL EDIT v1.0 | " ++ filename ed ++ (if dirty ed then str " [MODIFIED]" else []).
Definition top_right (cur_line cur_col : Z) : option (list Z) :=
  l ← k_itoa (cur_line + 1) 10; c ← k_itoa (cur_col + 1) 10; Some (str "Ln " ++ l ++ str ", Col " ++ c).
Definition help_text (ed : editor_state_t) : list Z :=
  match status ed with [] => str " ^S Save   ^Q / ESC Quit   Arrows/PgUp/PgDn Move" | t => t end.

(** The new editor state (its offsets) is returned beside the drawing. *)
Definition editor_render (ed : editor_state_t) : PM (console H) editor_state_t :=
  con <- p_get;;
  let cols := console_cols con in
  let rows := console_rows con in
  let body_rows := if rows - 2 <? 1 then 1 else rows - 2 in
  let '(cur_line, cur_col) := editor_get_line_col ed (ed_cursor ed) in
  let ed := editor_scroll cur_line cur_col body_rows cols ed in
  right_ <- p_val (top_right cur_line cur_col);;
  p_mod (editor_draw_bar 0 cols (top_left ed) right_ 48);;
  p_mod (editor_draw_body ed cols body_rows);;
  size <- p_val (k_utoa (ed_len ed) 10);;
  p_mod (editor_draw_bar (rows - 1) cols (help_text ed) (size ++ str " B") 112);;
  let screen_x := cur_col - col_offset ed in
  let screen_y := 1 + (cur_line - row_offset ed) in
  console_set_cursor screen_x screen_y true;;
  console_refresh_topbar;;
  p_ret ed.
End draw.

(** ** A session *)

Record session (H D : Type) := Session { se_con : console H; se_fs : fat_fs D }.
Arguments Session {H D}. Arguments se_con {H D}. Arguments se_fs {H D}.

Section session.
Context {H D : Type} `{Ports H} `{BlockDev D} `{Allocator D}.
Notation SE := (session H D).
Definition on_con {A} (m : PM (console H) A) : PM SE A := p_part se_con (fun c s => Session c (se_fs s)) m.
Definition on_fs {A} (m : ST (fat_fs D) A) : PM SE A := p_zoom se_fs (fun f s => Session (se_con s) f) m.

(** [^S]: the text goes to the file. *)
Definition editor_save (ed : editor_state_t) : PM SE editor_state_t :=
  rc <- on_fs (fat_write_file (filename ed) (take (Z.to_nat (ed_len ed)) (ed_buf ed)));;
  rc <- p_val rc;;
  if rc =? 0 then
    nbuf <- p_val (k_utoa (ed_len ed) 10);;
    p_ret (set_status (str " Saved " ++ nbuf ++ str " bytes to " ++ filename ed) (set_flags false false ed))
  else p_ret (set_status (str " ERROR: Failed to save file!") ed).

(** What a key other than [^S] and the quit keys does to the document. *)
Definition editor_key (key rows : Z) (ed : editor_state_t) : editor_state_t :=
  if key =? KEY_SPECIAL_LEFT then if 0 <? ed_cursor ed then set_cursor (ed_cursor ed - 1) ed else ed
  else if key =? KEY_SPECIAL_RIGHT then if ed_cursor ed <? ed_len ed then set_cursor (ed_cursor ed + 1) ed else ed
  else if key =? KEY_SPECIAL_UP then editor_move_vertical (-1) ed
  else if key =? KEY_SPECIAL_DOWN then editor_move_vertical 1 ed
  else if key =? KEY_SPECIAL_PGUP then editor_move_vertical (- (rows - 3)) ed
  else if key =? KEY_SPECIAL_PGDN then editor_move_vertical (rows - 3) ed
  else if key =? KEY_SPECIAL_HOME then
    set_cursor (editor_line_start ed (editor_get_line_col ed (ed_cursor ed)).1) ed
  else if key =? KEY_SPECIAL_END then
    set_cursor (editor_line_end ed (editor_line_start ed (editor_get_line_col ed (ed_cursor ed)).1)) ed
  else if key =? BS then editor_backspace ed
  else if key =? KEY_SPECIAL_DELETE then editor_delete ed
  else if key =? NL then editor_insert_char NL ed
  else if key =? TAB then for_range 0 4 (fun _ ed => editor_insert_char 32 ed) ed
  else if (32 <=? key) && (key <=? 126) then editor_insert_char key ed
  else ed.

(** One round of the loop after the key has been read: [None] leaves it. *)
Definition editor_step (key : Z) (ed : editor_state_t) : PM SE (option editor_state_t) :=
  let ed := set_status [] ed in
  if key =? CTRL_KEY 115 then ed <- editor_save ed;; p_ret (Some ed)
  else if (key =? CTRL_KEY 113) || (key =? 27) then
    if dirty ed && negb (quit_confirm ed) then
      p_ret (Some (set_status (str " Unsaved changes! Press ^Q/ESC again to discard, or ^S to save.")
                    (set_flags (dirty ed) true ed)))
    else p_ret None
  else s <- p_get;; p_ret (Some (editor_key key (console_rows (se_con s)) ed)).

(** The loop over the keys; without another key the session waits. *)
Fixpoint editor_loop (keys : list Z) (ed : editor_state_t) : PM SE unit :=
  ed <- on_con (editor_render ed);;
  match keys with
  | [] => p_none
  | key :: keys =>
    r <- editor_step key ed;;
    match r with Some ed => editor_loop keys ed | None => p_ret tt end
  end.

(** The state before the loop, given what the file system says. *)
Definition editor_load (name : list Z) : PM SE editor_state_t :=
  let ed := Ed (take 31 name) (replicate (Z.to_nat EDITOR_MAX_BUF) 0) 0 0 0 0 false false [] in
  ex <- on_fs (fat_file_exists name);;
  if (ex : bool) then
    r <- on_fs (fat_read_file name (EDITOR_MAX_BUF - 1));;
    let '(rc, fsize, data) := r in
    if rc =? 0 then
      let len := if fsize <? EDITOR_MAX_BUF - 1 then fsize else EDITOR_MAX_BUF - 1 in
      p_ret (Ed (filename ed) (updZ len 0 (arr_copy 0 data (ed_buf ed))) len 0 0 0 false false (str " Loaded existing file"))
    else p_ret (Ed (filename ed) (arr_copy 0 data (ed_buf ed)) 0 0 0 0 false false [])
  else p_ret (set_status (str " [New File] Press ^S to save, ^Q to quit") ed).

Definition editor_open (name keys : list Z) : PM SE Z :=
  s <- p_get;;
  if bool_decide (name = []) then p_ret (-1)
  else if negb (fs_mounted (se_fs s)) then p_ret (-1)
  else
    p <- (fun s => '(p, fs) ← buf_alloc EDITOR_MAX_BUF (se_fs s); Some (p, Session (se_con s) fs));;
    if p =? 0 then p_ret (-1)
    else
      ed <- editor_load name;;
      editor_loop keys ed;;
      p_mod (fun s => Session (se_con s) (buf_free p (se_fs s)));;
      on_con shell_clear;;
      p_ret 0.
End session.
