(* ===== verification/EditorDoc.v ===== *)
(** EditorDoc: the editor as operations on a text with a cursor.

    A document is a list of lines.  The scans of [kernel/editor.c] compute the
    line and column of a position, where a line starts and where it ends; the
    keys insert, remove and move in the text. *)

From S2P Require Import Prelude Ports Partial Memory Common Text Array Ring Serial Font Pmm Heap.
From S2P Require Import HeapInv HeapSpec HeapRun Disk Fat FatFile Paging Vbe Rtc Net Pic Mouse.
From S2P Require Import Keyboard Console Editor.

(** * Lines *)

(** The lines of a text; there is at least one. *)
Fixpoint lines (t : list Z) : list (list Z) :=
  match t with
  | [] => [[]]
  | c :: t => if c =? NL then [] :: lines t else match lines t with l :: ls => (c :: l) :: ls | [] => [[c]] end
  end.

(** The position of column [c] of line [l]. *)
Fixpoint offset (ls : list (list Z)) (l : nat) (c : Z) : Z :=
  match l, ls with
  | S l, x :: ls => lenZ x + 1 + offset ls l c
  | _, _ => c
  end.

(** The line and column reached by reading a text. *)
Definition loc_step (st : Z * Z) (c : Z) : Z * Z := if c =? NL then (st.1 + 1, 0) else (st.1, st.2 + 1).
Definition loc (t : list Z) : Z * Z := foldl loc_step (0, 0) t.

Section lines.
Implicit Types t : list Z.

Lemma lines_cons t : exists l ls, lines t = l :: ls.
Proof. destruct t as [|c t]; simpl; [eauto|]. case_goal; [eauto|]. destruct (lines t); eauto. Qed.

Lemma offset_nonneg ls l c : 0 <= c -> 0 <= offset ls l c.
Proof.
  intros Hc. revert ls. induction l as [|l IH]; intros [|y ls]; simpl; try lia.
  specialize (IH ls). pose proof (lenZ_nonneg y). lia.
Qed.

(** Reading up to column [c] of line [l] gets there. *)
Lemma loc_offset t a b l c x :
  lines t !! l = Some x -> 0 <= c <= lenZ x ->
  foldl loc_step (a, b) (take (Z.to_nat (offset (lines t) l c)) t) = (a + Z.of_nat l, match l with O => b | _ => 0 end + c).
Proof.
  revert a b l c x. induction t as [|ch t IH]; intros a b l c x Hl Hc.
  { destruct l; [|done]. injection Hl as <-. unfold lenZ in Hc. simpl in *. assert (c = 0) as -> by lia. simpl; f_equal; lia. }
  pose proof (offset_nonneg (lines t) l c ltac:(lia)) as Hpos. unfold lenZ in *.
  simpl in Hl |- *. destruct (Z.eqb_spec ch NL) as [->|Hn].
  - destruct l as [|l]; [injection Hl as <-; simpl in *; assert (c = 0) as -> by lia; simpl; f_equal; lia|].
    pose proof (offset_nonneg (lines t) l c ltac:(lia)). cbn [offset]. unfold lenZ. cbn [length].
    replace (Z.to_nat (Z.of_nat 0 + 1 + offset (lines t) l c)) with (S (Z.to_nat (offset (lines t) l c))) by lia. cbn [take foldl].
    unfold loc_step at 2. simpl. rewrite (IH (a + 1) 0 l c x Hl Hc). f_equal; [lia|]. destruct l; lia.
  - destruct (lines_cons t) as (y & ls & Hy). rewrite Hy in *. destruct l as [|l].
    + injection Hl as <-. cbn [offset]. destruct (decide (c = 0)) as [->|]; [simpl; f_equal; lia|].
      replace (Z.to_nat c) with (S (Z.to_nat (c - 1))) by lia. cbn [take foldl]. unfold loc_step at 2. rewrite (proj2 (Z.eqb_neq ch NL) Hn). simpl.
      specialize (IH a (b + 1) 0%nat (c - 1) y eq_refl). cbn [offset] in IH. simpl in Hc. rewrite IH by lia. f_equal; lia.
    + specialize (IH a (b + 1) (S l) c x Hl Hc). cbn [offset] in *. unfold lenZ in *. cbn [length].
      pose proof (offset_nonneg ls l c ltac:(lia)).
      replace (Z.to_nat (Z.of_nat (S (length y)) + 1 + offset ls l c)) with (S (Z.to_nat (Z.of_nat (length y) + 1 + offset ls l c))) by lia.
      cbn [take foldl]. unfold loc_step at 2. rewrite (proj2 (Z.eqb_neq ch NL) Hn). simpl. by rewrite IH.
Qed.

(** Every position is a column of a line. *)
Lemma offset_total t pos : 0 <= pos <= lenZ t ->
  exists l c x, lines t !! l = Some x /\ 0 <= c <= lenZ x /\ pos = offset (lines t) l c.
Proof.
  revert pos. induction t as [|ch t IH]; intros pos Hpos; unfold lenZ in *.
  { exists 0%nat, 0, []. simpl in *. split_and!; try done; lia. }
  cbn [lines]. destruct (Z.eqb_spec ch NL) as [->|Hn].
  - destruct (decide (pos = 0)) as [->|]; [exists 0%nat, 0, []; by split_and!|].
    destruct (IH (pos - 1)) as (l & c & x & Hl & Hc & Hp); [simpl in *; lia|].
    exists (S l), c, x. split_and!; try done; [lia..|]. cbn [offset]. unfold lenZ. simpl. lia.
  - destruct (lines_cons t) as (y & ls & Hy). rewrite Hy in *.
    destruct (decide (pos = 0)) as [->|]; [exists 0%nat, 0, (ch :: y); split_and!; try done; lia|].
    destruct (IH (pos - 1)) as (l & c & x & Hl & Hc & Hp); [simpl in *; lia|]. destruct l as [|l].
    + injection Hl as <-. exists 0%nat, (c + 1), (ch :: y). cbn [offset] in *. split_and!; try done; simpl; lia.
    + exists (S l), c, x. cbn [offset] in *. unfold lenZ in *. split_and!; try done; simpl; lia.
Qed.

(** A position lies in the text, and the text goes on with the rest of its line. *)
Lemma lines_drop t l x : lines t !! l = Some x ->
  lines (drop (Z.to_nat (offset (lines t) l 0)) t) = drop l (lines t) /\
  offset (lines t) l (lenZ x) <= lenZ t /\
  ((S l < length (lines t))%nat -> offset (lines t) l (lenZ x) < lenZ t).
Proof.
  revert l x. induction t as [|ch t IH]; intros l x Hl; unfold lenZ in *.
  { destruct l; [|done]. injection Hl as <-. simpl. split_and!; try done; lia. }
  simpl in Hl |- *. destruct (Z.eqb_spec ch NL) as [->|Hn].
  - destruct l as [|l]; [injection Hl as <-; simpl; split_and!; try done; lia|].
    destruct (IH l x Hl) as (E & Hle & Hlt). pose proof (offset_nonneg (lines t) l 0 ltac:(lia)).
    cbn [offset]. unfold lenZ. cbn [length].
    replace (Z.to_nat (Z.of_nat 0 + 1 + offset (lines t) l 0)) with (S (Z.to_nat (offset (lines t) l 0))) by lia. cbn [drop].
    split_and!; [done|lia|]. intros Hl'. specialize (Hlt ltac:(lia)). lia.
  - destruct (lines_cons t) as (y & ls & Hy). rewrite Hy in *. destruct l as [|l].
    + injection Hl as <-. destruct (IH 0%nat y eq_refl) as (_ & Hle & Hlt). cbn [offset] in *.
      simpl. rewrite (proj2 (Z.eqb_neq ch NL) Hn), Hy. simpl in *. split_and!; try done; [lia|]. intros Hl'. specialize (Hlt Hl'). lia.
    + destruct (IH (S l) x Hl) as (E & Hle & Hlt). cbn [offset] in *. unfold lenZ in *. cbn [length] in *.
      pose proof (offset_nonneg ls l 0 ltac:(lia)).
      replace (Z.to_nat (Z.of_nat (S (length y)) + 1 + offset ls l 0)) with (S (Z.to_nat (Z.of_nat (length y) + 1 + offset ls l 0))) by lia.
      cbn [drop]. split_and!; [done|lia|]. intros Hl'. specialize (Hlt Hl'). lia.
Qed.

(** The next line starts after the new line character. *)
Lemma offset_next ls l x : ls !! l = Some x -> offset ls (S l) 0 = offset ls l 0 + lenZ x + 1.
Proof.
  revert ls. induction l as [|l IH]; intros [|y ls] Hl; try done.
  - injection Hl as <-. cbn [offset]. replace (offset ls 0 0) with 0 by (by destruct ls). lia.
  - cbn [offset]. cbn [offset] in IH. rewrite (IH ls Hl). lia.
Qed.

(** The first line of a text is what the text starts with. *)
Lemma line_prefix t x ls i : lines t = x :: ls -> 0 <= i < lenZ x -> nthZ 0 t i = nthZ 0 x i.
Proof.
  revert x ls i. induction t as [|c t IH]; intros x ls i Hl Hi; simpl in Hl.
  { injection Hl as <- _. unfold lenZ in Hi. simpl in Hi. lia. }
  destruct (c =? NL); [injection Hl as <- _; unfold lenZ in Hi; simpl in Hi; lia|].
  destruct (lines_cons t) as (y & ls' & Hy). rewrite Hy in Hl. injection Hl as <- <-. unfold lenZ in *. simpl in Hi.
  destruct (decide (i = 0)) as [->|]; [done|]. specialize (IH y ls' (i - 1) Hy ltac:(lia)). unfold nthZ in *.
  rewrite (proj2 (Z.ltb_ge i 0)), (proj2 (Z.ltb_ge (i - 1) 0)) in * by lia.
  replace (Z.to_nat i) with (S (Z.to_nat (i - 1))) by lia. done.
Qed.

Lemma offset_add ls l c : (l < length ls)%nat -> offset ls l c = offset ls l 0 + c.
Proof.
  revert ls. induction l as [|l IH]; intros [|y ls] Hl; simpl in *; try lia. rewrite (IH ls) by lia. lia.
Qed.
End lines.

(** * The scans *)

Definition text (ed : editor_state_t) : list Z := prefix_text (ed_len ed) (ed_buf ed).

Record ed_ok (ed : editor_state_t) : Prop := {
  eo_buf : lenZ (ed_buf ed) = EDITOR_MAX_BUF;
  eo_len : 0 <= ed_len ed < EDITOR_MAX_BUF;
  eo_cursor : 0 <= ed_cursor ed <= ed_len ed
}.

(** A loop over the elements of a list is a fold. *)
Lemma for_range_list {S} (f : S -> Z -> S) d l n s :
  0 <= n <= lenZ l -> for_range 0 n (fun i s => f s (nthZ d l i)) s = foldl f s (take (Z.to_nat n) l).
Proof.
  intros Hn.
  refine (for_range_inv (fun i s1 => s1 = foldl f s (take (Z.to_nat i) l)) 0 n _ s _ _ _); [lia|done|].
  intros i s1 Hi ->. destruct (lookup_lt_is_Some_2 l (Z.to_nat i)) as [x Hx]; [unfold lenZ in *; lia|].
  replace (Z.to_nat (i + 1)) with (Datatypes.S (Z.to_nat i)) by lia.
  rewrite (take_S_r _ _ _ Hx), foldl_app. simpl. f_equal. unfold nthZ. rewrite (proj2 (Z.ltb_ge i 0)), Hx by lia. done.
Qed.

Section scans.
Context (ed : editor_state_t) (Hed : ed_ok ed).

Lemma doc_text_length : lenZ (text ed) = ed_len ed.
Proof. destruct Hed. unfold lenZ, text. rewrite length_prefix; lia. Qed.

Lemma text_at i : 0 <= i < ed_len ed -> nthZ 0 (text ed) i = ed_at ed i.
Proof.
  intros Hi. unfold ed_at, text, nthZ. case_goal; [done|]. rewrite lookup_prefix. by rewrite decide_True by lia.
Qed.
Lemma text_drop i : 0 <= i < ed_len ed -> drop (Z.to_nat i) (text ed) = ed_at ed i :: drop (Z.to_nat (i + 1)) (text ed).
Proof.
  intros Hi. pose proof doc_text_length as Hl. unfold lenZ in Hl.
  destruct (lookup_lt_is_Some_2 (text ed) (Z.to_nat i)) as [x Hx]; [lia|].
  replace (Z.to_nat (i + 1)) with (S (Z.to_nat i)) by lia. rewrite (drop_S _ _ _ Hx). f_equal.
  rewrite <- text_at by done. unfold nthZ. rewrite (proj2 (Z.ltb_ge i 0)), Hx by lia. done.
Qed.

Lemma get_line_col_loc pos : 0 <= pos <= ed_len ed -> editor_get_line_col ed pos = loc (take (Z.to_nat pos) (text ed)).
Proof.
  intros Hpos. destruct Hed as [Hb Hl Hc]. unfold editor_get_line_col, loc. rewrite Z.min_l by lia.
  rewrite <- (for_range_list loc_step 0 (text ed)) by (rewrite doc_text_length; lia).
  apply (for_range_ext (fun _ => True)); [done|]. intros i [line col] Hi _. split; [|done].
  rewrite text_at by lia. unfold loc_step. simpl. done.
Qed.

Lemma get_line_col_spec l c x : lines (text ed) !! l = Some x -> 0 <= c <= lenZ x ->
  editor_get_line_col ed (offset (lines (text ed)) l c) = (Z.of_nat l, c).
Proof.
  intros Hl Hc. pose proof (lines_drop _ _ _ Hl) as (_ & Hle & _). pose proof (lookup_lt_Some _ _ _ Hl) as Hlt.
  rewrite (offset_add _ _ (lenZ x)) in Hle by done. pose proof (offset_nonneg (lines (text ed)) l c ltac:(lia)).
  rewrite doc_text_length in Hle. rewrite get_line_col_loc by (rewrite (offset_add _ _ c) in * by done; lia).
  unfold loc. rewrite (loc_offset _ _ _ _ _ _ Hl Hc). destruct l; f_equal; lia.
Qed.

Lemma total_lines_spec : editor_total_lines ed = Z.of_nat (length (lines (text ed))).
Proof.
  unfold editor_total_lines.
  rewrite (for_range_ext (fun _ => True) 0 (ed_len ed) _
    (fun i n => (fun n c => if c =? NL then n + 1 else n) n (nthZ 0 (text ed) i))); [|done|].
  2:{ intros i n Hi _. split; [|done]. by rewrite text_at by lia. }
  destruct Hed. rewrite (for_range_list (fun n c => if c =? NL then n + 1 else n)) by (rewrite doc_text_length; lia).
  rewrite take_ge by (pose proof doc_text_length; unfold lenZ in *; lia).
  assert (Hf : forall t n, foldl (fun n c => if c =? NL then n + 1 else n) n t = n + Z.of_nat (length (lines t)) - 1).
  { intros t. induction t as [|c t IH]; intros n; simpl; [lia|]. rewrite IH. case_goal; simpl; [lia|].
    destruct (lines_cons t) as (y & ls & ->). simpl. lia. }
  rewrite Hf. lia.
Qed.

Lemma line_start_loop_spec n i line target x :
  0 <= i -> n = Z.to_nat (ed_len ed - i) -> i <= ed_len ed -> line < target ->
  lines (drop (Z.to_nat i) (text ed)) !! Z.to_nat (target - line) = Some x ->
  line_start_loop n i line target ed = i + offset (lines (drop (Z.to_nat i) (text ed))) (Z.to_nat (target - line)) 0.
Proof.
  revert i line. induction n as [|n IH]; intros i line Hi Hn Hlen Ht Hl.
  { rewrite drop_ge in Hl by (pose proof doc_text_length; unfold lenZ in *; lia). simpl in Hl.
    destruct (Z.to_nat (target - line)) as [|k] eqn:E; [lia|done]. }
  rewrite text_drop in * by lia. cbn [lines line_start_loop] in *. destruct (ed_at ed i =? NL).
  - replace (Z.to_nat (target - line)) with (S (Z.to_nat (target - (line + 1)))) in * by lia. cbn [offset lookup list_lookup] in *.
    unfold lenZ. cbn [length]. destruct (Z.eqb_spec (line + 1) target) as [E|].
    + replace (target - (line + 1)) with 0 by lia. simpl. destruct (lines_cons (drop (Z.to_nat (i + 1)) (text ed))) as (y & ls & ->). simpl. lia.
    + rewrite (IH (i + 1) (line + 1)); try done; try lia.
  - destruct (lines_cons (drop (Z.to_nat (i + 1)) (text ed))) as (y & ls & Hy). rewrite Hy in Hl.
    replace (Z.to_nat (target - line)) with (S (Z.to_nat (target - line - 1))) in * by lia.
    rewrite (IH (i + 1) line); try lia.
    + rewrite Hy. replace (Z.to_nat (target - line)) with (S (Z.to_nat (target - line - 1))) by lia. cbn [offset]. unfold lenZ. simpl. lia.
    + rewrite Hy. replace (Z.to_nat (target - line)) with (S (Z.to_nat (target - line - 1))) by lia. done.
Qed.

Lemma line_start_spec l x : lines (text ed) !! l = Some x ->
  editor_line_start ed (Z.of_nat l) = offset (lines (text ed)) l 0.
Proof.
  intros Hl. destruct Hed. unfold editor_line_start. destruct (Z.leb_spec (Z.of_nat l) 0).
  - assert (l = 0%nat) as -> by lia. by destruct (lines (text ed)).
  - rewrite (line_start_loop_spec _ 0 0 (Z.of_nat l) x); rewrite ?Z.sub_0_r, ?Nat2Z.id; try done; try lia; try (by rewrite drop_0).
Qed.

Lemma line_end_loop_spec n i :
  0 <= i -> n = Z.to_nat (ed_len ed - i) -> i <= ed_len ed ->
  line_end_loop n i ed = i + lenZ (hd [] (lines (drop (Z.to_nat i) (text ed)))).
Proof.
  revert i. induction n as [|n IH]; intros i Hi Hn Hlen.
  { rewrite drop_ge by (pose proof doc_text_length; unfold lenZ in *; lia). unfold lenZ. simpl. lia. }
  rewrite text_drop by lia. cbn [line_end_loop lines]. rewrite (proj2 (Z.ltb_lt i (ed_len ed))) by lia. simpl andb.
  destruct (ed_at ed i =? NL); [unfold lenZ; simpl; lia|]. simpl negb. cbv iota. rewrite IH by lia.
  destruct (lines_cons (drop (Z.to_nat (i + 1)) (text ed))) as (y & ls & ->). unfold lenZ. simpl. lia.
Qed.

Lemma line_end_spec l x : lines (text ed) !! l = Some x ->
  editor_line_end ed (offset (lines (text ed)) l 0) = offset (lines (text ed)) l (lenZ x).
Proof.
  intros Hl. pose proof (lines_drop _ _ _ Hl) as (Hd & Hle & _). pose proof (lookup_lt_Some _ _ _ Hl) as Hlt.
  pose proof (offset_nonneg (lines (text ed)) l 0 ltac:(lia)). pose proof (lenZ_nonneg x).
  rewrite doc_text_length in Hle. rewrite (offset_add _ _ (lenZ x)) in * by done.
  unfold editor_line_end. rewrite line_end_loop_spec by lia. rewrite Hd. f_equal. f_equal.
  rewrite (drop_S _ _ _ Hl). done.
Qed.
End scans.

(** * The keys *)

(** A text with a cursor in it. *)
Record doc := Doc { d_text : list Z; d_cur : Z }.
Definition doc_of (ed : editor_state_t) : doc := Doc (text ed) (ed_cursor ed).

(** Column [c] of line [l], or the end of the line when it is shorter. *)
Definition goto (t : list Z) (l c : Z) : Z :=
  offset (lines t) (Z.to_nat l) (Z.min c (lenZ (nthZ [] (lines t) l))).

Definition doc_vertical (delta : Z) (d : doc) : doc :=
  let '(l, c) := loc (take (Z.to_nat (d_cur d)) (d_text d)) in
  let l := Z.min (Z.max 0 (l + delta)) (Z.of_nat (length (lines (d_text d))) - 1) in
  Doc (d_text d) (goto (d_text d) l c).
Definition doc_home (d : doc) : doc :=
  Doc (d_text d) (goto (d_text d) (loc (take (Z.to_nat (d_cur d)) (d_text d))).1 0).
Definition doc_end (d : doc) : doc :=
  let l := (loc (take (Z.to_nat (d_cur d)) (d_text d))).1 in
  Doc (d_text d) (goto (d_text d) l (lenZ (nthZ [] (lines (d_text d)) l))).
Definition doc_insert (c : Z) (d : doc) : doc :=
  if lenZ (d_text d) + 1 <? EDITOR_MAX_BUF
  then Doc (take (Z.to_nat (d_cur d)) (d_text d) ++ c :: drop (Z.to_nat (d_cur d)) (d_text d)) (d_cur d + 1) else d.
Definition doc_delete (d : doc) : doc :=
  if d_cur d <? lenZ (d_text d)
  then Doc (take (Z.to_nat (d_cur d)) (d_text d) ++ drop (S (Z.to_nat (d_cur d))) (d_text d)) (d_cur d) else d.
Definition doc_backspace (d : doc) : doc :=
  if 0 <? d_cur d then doc_delete (Doc (d_text d) (d_cur d - 1)) else d.

Definition doc_key (key rows : Z) (d : doc) : doc :=
  if key =? KEY_SPECIAL_LEFT then Doc (d_text d) (Z.max 0 (d_cur d - 1))
  else if key =? KEY_SPECIAL_RIGHT then Doc (d_text d) (Z.min (lenZ (d_text d)) (d_cur d + 1))
  else if key =? KEY_SPECIAL_UP then doc_vertical (-1) d
  else if key =? KEY_SPECIAL_DOWN then doc_vertical 1 d
  else if key =? KEY_SPECIAL_PGUP then doc_vertical (- (rows - 3)) d
  else if key =? KEY_SPECIAL_PGDN then doc_vertical (rows - 3) d
  else if key =? KEY_SPECIAL_HOME then doc_home d
  else if key =? KEY_SPECIAL_END then doc_end d
  else if key =? BS then doc_backspace d
  else if key =? KEY_SPECIAL_DELETE then doc_delete d
  else if key =? NL then doc_insert NL d
  else if key =? TAB then Nat.iter 4 (doc_insert 32) d
  else if (32 <=? key) && (key <=? 126) then doc_insert key d
  else d.

(** An editor operation does to the document what [f] does, keeps the
    invariant, and marks a changed document as modified. *)
Definition refines (op : editor_state_t -> editor_state_t) (f : doc -> doc) : Prop :=
  forall ed, ed_ok ed -> ed_ok (op ed) /\ doc_of (op ed) = f (doc_of ed) /\
    (text (op ed) <> text ed -> dirty (op ed) = true) /\ (dirty ed = true -> dirty (op ed) = true).

Lemma refines_id op : (forall ed, op ed = ed) -> refines op (fun d => d).
Proof. intros Hop ed Hed. by rewrite Hop. Qed.
Lemma refines_comp op1 op2 f1 f2 : refines op1 f1 -> refines op2 f2 -> refines (fun ed => op2 (op1 ed)) (fun d => f2 (f1 d)).
Proof.
  intros H1 H2 ed Hed. destruct (H1 ed Hed) as (Ho1 & Hd1 & Hm1 & Hk1). destruct (H2 _ Ho1) as (Ho2 & Hd2 & Hm2 & Hk2).
  split_and!; [done|congruence| |auto]. intros Hne. destruct (decide (text (op1 ed) = text ed)) as [E|]; [|auto].
  apply Hm2. congruence.
Qed.

(** Moving the cursor inside of the text. *)
Lemma refines_cursor (g : editor_state_t -> Z) (f : doc -> Z) :
  (forall ed, ed_ok ed -> 0 <= g ed <= ed_len ed /\ g ed = f (doc_of ed)) ->
  refines (fun ed => set_cursor (g ed) ed) (fun d => Doc (d_text d) (f d)).
Proof.
  intros Hg ed Hed. destruct (Hg ed Hed) as [Hr He]. pose proof Hed as [Hb Hl Hc].
  split_and!; [by split|by rewrite <- He|done|done].
Qed.

Lemma insert_refines c : refines (editor_insert_char c) (doc_insert c).
Proof.
  intros ed Hed. pose proof Hed as [Hb Hl Hc]. unfold editor_insert_char, doc_insert. simpl. rewrite doc_text_length by done.
  unfold EDITOR_MAX_BUF in *. rewrite !u32_id by lia. destruct (Z.leb_spec 32768 (ed_len ed + 1)), (Z.ltb_spec (ed_len ed + 1) 32768); try lia.
  - by split_and!.
  - split_and!; try done.
    + split; simpl; unfold EDITOR_MAX_BUF; rewrite ?lenZ_updZ, ?length_arr_move by lia; try lia.
    + unfold doc_of, text. simpl. rewrite prefix_upd by lia. rewrite arr_insert by lia. done.
Qed.

Lemma remove_refines_at ed c :
  ed_ok ed -> 0 <= c < ed_len ed ->
  let ed' := edited (updZ (ed_len ed - 1) 0 (arr_move c (c + 1) (u32 (ed_len ed - c - 1)) (ed_buf ed))) (ed_len ed - 1) c ed in
  ed_ok ed' /\ doc_of ed' = Doc (take (Z.to_nat c) (text ed) ++ drop (S (Z.to_nat c)) (text ed)) c.
Proof.
  intros [Hb Hl Hc] Hc'. unfold EDITOR_MAX_BUF in *. cbv zeta. rewrite u32_id by lia. split.
  - split; simpl; unfold EDITOR_MAX_BUF; rewrite ?lenZ_updZ, ?length_arr_move by lia; lia.
  - unfold doc_of, text. simpl. rewrite prefix_upd by lia. by rewrite arr_remove by lia.
Qed.

Lemma delete_refines : refines editor_delete doc_delete.
Proof.
  intros ed Hed. pose proof Hed as [Hb Hl Hc]. unfold editor_delete, doc_delete. simpl. rewrite doc_text_length by done.
  destruct (Z.leb_spec (ed_len ed) (ed_cursor ed)), (Z.ltb_spec (ed_cursor ed) (ed_len ed)); try lia; [by split_and!|].
  destruct (remove_refines_at ed (ed_cursor ed) Hed) as [Hok Hdoc]; [lia|]. by split_and!.
Qed.

Lemma backspace_refines : refines editor_backspace doc_backspace.
Proof.
  intros ed Hed. pose proof Hed as [Hb Hl Hc]. unfold editor_backspace, doc_backspace, doc_delete. simpl. rewrite doc_text_length by done.
  destruct (Z.eqb_spec (ed_cursor ed) 0), (Z.ltb_spec 0 (ed_cursor ed)); try lia; [by split_and!|].
  rewrite (proj2 (Z.ltb_lt (ed_cursor ed - 1) (ed_len ed))) by lia.
  destruct (remove_refines_at ed (ed_cursor ed - 1) Hed) as [Hok Hdoc]; [lia|].
  replace (ed_cursor ed - 1 + 1) with (ed_cursor ed) in * by lia.
  replace (ed_len ed - (ed_cursor ed - 1) - 1) with (ed_len ed - ed_cursor ed) in * by lia. by split_and!.
Qed.

(** The cursor as a column of a line. *)
Lemma cursor_line ed : ed_ok ed -> exists l c x, lines (text ed) !! l = Some x /\ 0 <= c <= lenZ x /\
  ed_cursor ed = offset (lines (text ed)) l c /\ editor_get_line_col ed (ed_cursor ed) = (Z.of_nat l, c) /\
  loc (take (Z.to_nat (ed_cursor ed)) (text ed)) = (Z.of_nat l, c).
Proof.
  intros Hed. pose proof Hed as [_ _ Hc]. destruct (offset_total (text ed) (ed_cursor ed)) as (l & c & x & Hl & Hcx & Hp).
  { rewrite doc_text_length by done. lia. }
  exists l, c, x. rewrite <- get_line_col_loc by (done || lia). rewrite Hp. rewrite (get_line_col_spec ed Hed l c x Hl Hcx). repeat (split; [done|]). done.
Qed.

(** Where [goto] leads. *)
Lemma goto_spec ed l c x : ed_ok ed -> lines (text ed) !! l = Some x -> 0 <= c ->
  goto (text ed) (Z.of_nat l) c = offset (lines (text ed)) l 0 + Z.min c (lenZ x) /\
  0 <= offset (lines (text ed)) l 0 /\ offset (lines (text ed)) l 0 + lenZ x <= ed_len ed.
Proof.
  intros Hed Hl Hc. pose proof (lines_drop _ _ _ Hl) as (_ & Hle & _). pose proof (lookup_lt_Some _ _ _ Hl).
  rewrite doc_text_length in Hle by done. rewrite (offset_add _ _ (lenZ x)) in Hle by done.
  pose proof (offset_nonneg (lines (text ed)) l 0 ltac:(lia)).
  unfold goto, nthZ. rewrite (proj2 (Z.ltb_ge _ 0)), Nat2Z.id, Hl by lia. simpl. by rewrite (offset_add _ _ (Z.min _ _)) by done.
Qed.

Lemma vertical_refines delta : refines (editor_move_vertical delta) (doc_vertical delta).
Proof.
  assert (Heq : forall ed, ed_ok ed -> exists c, editor_move_vertical delta ed = set_cursor c ed /\ 0 <= c <= ed_len ed /\
    doc_vertical delta (doc_of ed) = Doc (text ed) c).
  { intros ed Hed. destruct (cursor_line ed Hed) as (l & c & x & Hl & Hcx & _ & Hglc & Hloc). pose proof (eo_len _ Hed).
    unfold EDITOR_MAX_BUF in *. unfold editor_move_vertical, doc_vertical. simpl. rewrite Hglc, Hloc, total_lines_spec by done.
    destruct (lines_cons (text ed)) as (y & ls & Hls). assert (Hn : (0 < length (lines (text ed)))%nat) by (rewrite Hls; simpl; lia).
    set (n := Z.of_nat (length (lines (text ed)))) in *. assert (0 < n) by (unfold n; lia).
    set (target := Z.min (Z.max 0 (Z.of_nat l + delta)) (n - 1)).
    replace (if n <=? _ then _ else _) with target
      by (subst target; destruct (Z.ltb_spec (Z.of_nat l + delta) 0); [destruct (Z.leb_spec n 0)|destruct (Z.leb_spec n (Z.of_nat l + delta))]; lia).
    assert (0 <= target < n) by lia. clearbody target.
    destruct (lookup_lt_is_Some_2 (lines (text ed)) (Z.to_nat target)) as [z Hz]; [lia|].
    destruct (goto_spec ed (Z.to_nat target) c z Hed Hz ltac:(lia)) as (Hgo & Hs & He). rewrite Z2Nat.id in Hgo by lia.
    pose proof (line_start_spec ed Hed _ _ Hz) as Hst. rewrite Z2Nat.id in Hst by lia. rewrite Hst.
    rewrite (line_end_spec ed Hed _ _ Hz). pose proof (lenZ_nonneg z). pose proof (lenZ_nonneg x).
    destruct (goto_spec ed l c x Hed Hl ltac:(lia)) as (_ & ? & ?).
    rewrite (offset_add _ _ (lenZ z)) by (by eapply lookup_lt_Some).
    set (o := offset (lines (text ed)) (Z.to_nat target) 0) in *. rewrite (u32_id c), (u32_id (o + lenZ z - o)) by lia.
    eexists. split; [done|]. rewrite u32_id by (destruct (Z.ltb_spec c (o + lenZ z - o)); lia).
    split; [destruct (Z.ltb_spec c (o + lenZ z - o)); lia|]. f_equal. rewrite Hgo. destruct (Z.ltb_spec c (o + lenZ z - o)); lia. }
  intros ed Hed. destruct (Heq ed Hed) as (c & -> & Hc & ->). pose proof Hed as [? ? ?]. split_and!; [by split|done..].
Qed.

Lemma home_refines : refines (fun ed => set_cursor (editor_line_start ed (editor_get_line_col ed (ed_cursor ed)).1) ed) doc_home.
Proof.
  apply refines_cursor. intros ed Hed. destruct (cursor_line ed Hed) as (l & c & x & Hl & Hcx & _ & -> & Hloc). simpl. rewrite Hloc. simpl.
  rewrite (line_start_spec ed Hed l x Hl). destruct (goto_spec ed l 0 x Hed Hl ltac:(lia)) as (-> & ? & ?).
  pose proof (lenZ_nonneg x). lia.
Qed.

Lemma end_refines : refines (fun ed => set_cursor (editor_line_end ed (editor_line_start ed (editor_get_line_col ed (ed_cursor ed)).1)) ed) doc_end.
Proof.
  apply (refines_cursor _ (fun d => let l := (loc (take (Z.to_nat (d_cur d)) (d_text d))).1 in goto (d_text d) l (lenZ (nthZ [] (lines (d_text d)) l)))).
  intros ed Hed. destruct (cursor_line ed Hed) as (l & c & x & Hl & Hcx & _ & -> & Hloc). simpl. rewrite Hloc. simpl.
  rewrite (line_start_spec ed Hed l x Hl), (line_end_spec ed Hed l x Hl). pose proof (lenZ_nonneg x).
  rewrite (offset_add _ _ (lenZ x)) by (by eapply lookup_lt_Some).
  replace (nthZ [] (lines (text ed)) (Z.of_nat l)) with x by (unfold nthZ; by rewrite (proj2 (Z.ltb_ge _ 0)), Nat2Z.id, Hl by lia).
  destruct (goto_spec ed l (lenZ x) x Hed Hl ltac:(lia)) as (-> & ? & ?). lia.
Qed.

Lemma left_refines : refines (fun ed => if 0 <? ed_cursor ed then set_cursor (ed_cursor ed - 1) ed else ed)
  (fun d => Doc (d_text d) (Z.max 0 (d_cur d - 1))).
Proof.
  intros ed Hed. pose proof Hed as [Hb Hl Hc]. unfold doc_of. simpl. destruct (Z.ltb_spec 0 (ed_cursor ed)); split_and!; try done; simpl.
  - split; simpl; lia.
  - f_equal. lia.
  - f_equal. lia.
Qed.
Lemma right_refines : refines (fun ed => if ed_cursor ed <? ed_len ed then set_cursor (ed_cursor ed + 1) ed else ed)
  (fun d => Doc (d_text d) (Z.min (lenZ (d_text d)) (d_cur d + 1))).
Proof.
  intros ed Hed. pose proof Hed as [Hb Hl Hc]. unfold doc_of. simpl. rewrite doc_text_length by done.
  destruct (Z.ltb_spec (ed_cursor ed) (ed_len ed)); split_and!; try done; simpl.
  - split; simpl; lia.
  - unfold text at 1. simpl. f_equal. lia.
  - f_equal. lia.
Qed.

Lemma editor_key_spec key rows : refines (editor_key key rows) (doc_key key rows).
Proof.
  unfold editor_key, doc_key.
  repeat match goal with |- refines (fun ed => if ?b then _ else _) _ => destruct b end;
    auto using left_refines, right_refines, vertical_refines, home_refines, end_refines, backspace_refines, delete_refines, insert_refines.
  - exact (refines_comp _ _ _ _ (refines_comp _ _ _ _ (refines_comp _ _ _ _ (insert_refines 32) (insert_refines 32)) (insert_refines 32)) (insert_refines 32)).
  - by apply refines_id.
Qed.

(** C30: the keys of the editor edit the document: whatever the key, the
    buffer, length and cursor stay in bounds, the text and the cursor change as
    the key says (insertion, deletion, motion by character, line and page), and
    a document that changed is marked as modified. *)
Theorem editor_key_edits key rows ed :
  ed_ok ed ->
  ed_ok (editor_key key rows ed) /\ doc_of (editor_key key rows ed) = doc_key key rows (doc_of ed) /\
  (text (editor_key key rows ed) <> text ed -> dirty (editor_key key rows ed) = true).
Proof. intros Hed. destruct (editor_key_spec key rows ed Hed) as (? & ? & ? & _). by split_and!. Qed.

Definition sample_ed : editor_state_t :=
  Ed (str "A.TXT") (str "one" ++ [NL] ++ str "second" ++ replicate (Z.to_nat (EDITOR_MAX_BUF - 10)) 0) 10 9 0 0 false false [].
Lemma sample_ed_ok : ed_ok sample_ed.
Proof. split; [vm_compute; reflexivity|by compute|by compute]. Qed.

Lemma editor_key_edits_witness :
  ed_ok (editor_key KEY_SPECIAL_UP 25 sample_ed) /\
  doc_of (editor_key KEY_SPECIAL_UP 25 sample_ed) = Doc (str "one" ++ [NL] ++ str "second") 3 /\
  (text (editor_key KEY_SPECIAL_UP 25 sample_ed) <> text sample_ed -> dirty (editor_key KEY_SPECIAL_UP 25 sample_ed) = true).
Proof.
  destruct (editor_key_edits KEY_SPECIAL_UP 25 sample_ed sample_ed_ok) as (Ho & Hd & Hm).
  split; [exact Ho|]. split; [|exact Hm]. rewrite Hd. vm_compute. reflexivity.
Defined.
