(* ===== verification/EditorView.v ===== *)
(** EditorView: what the editor draws is the document. *)

From S2P Require Import Prelude Ports Partial Memory Common Text Array Ring Serial SerialTx Font Pmm.
From S2P Require Import Heap HeapInv HeapSpec HeapRun Disk Fat FatFile Paging Vbe VbeSpec Rtc Net.
From S2P Require Import Pic Mouse Keyboard Console ConsoleGrid ConsoleSpec ConsolePaper ConsoleClear Editor EditorDoc.
#[local] Open Scope partial_scope.

(** * The picture of an editor *)

(** A bar: the left text, and the right text over it. *)
Definition bar_view (cols : Z) (left_ right_ : list Z) (attr k : Z) : console_cell_t :=
  let rstart := Z.max 0 (cols - lenZ right_ - 1) in
  if decide (rstart <= k < rstart + lenZ right_) then Cell (nthZ 0 right_ (k - rstart)) attr
  else if decide (k < lenZ left_) then Cell (nthZ 0 left_ k) attr
  else Cell 32 attr.

(** Column [k] of the row that shows line [l] of the document. *)
Definition line_view (ed : editor_state_t) (l k : Z) : console_cell_t :=
  if decide (Z.of_nat (length (lines (text ed))) <= l) then if decide (k = 0) then Cell 126 8 else Cell 32 7
  else
    let line := nthZ [] (lines (text ed)) l in
    let i := col_offset ed + k in
    Cell (if decide (i < lenZ line) then body_char (nthZ 0 line i) else 32) 15.

Definition editor_view (rows cols : Z) (ed : editor_state_t) (right_ size : list Z) (r k : Z) : console_cell_t :=
  if decide (r = 0) then bar_view cols (top_left ed) right_ 48 k
  else if decide (r = rows - 1) then bar_view cols (help_text ed) (size ++ str " B") 112 k
  else line_view ed (row_offset ed + (r - 1)) k.

Section view.
Context {H : Type} `{UartTx H} `{!BytePorts H} (rows cols : Z).
Implicit Types con : console H.

(** [con] shows [g]; from [con0] only the screen has changed. *)
Definition drawn con0 con (g : Z -> Z -> console_cell_t) (x y : Z) : Prop :=
  screen rows cols con g x y /\ con_ser con = con_ser con0.

Lemma drawn_ext con0 con g g' x y :
  drawn con0 con g x y -> (forall r k, 0 <= r < rows -> 0 <= k < cols -> g r k = g' r k) -> drawn con0 con g' x y.
Proof. intros [Hs Hser] Hg. split; [by eapply screen_ext|done]. Qed.

Lemma put_cells con0 con g x y row lo hi attr (ch : Z -> Z) :
  drawn con0 con g x y -> 0 <= row < rows -> 0 <= lo -> hi <= cols ->
  drawn con0 (for_range lo hi (fun c con => console_put_cell c row (ch c) attr con) con)
    (fun r k => if decide (r = row /\ lo <= k < hi) then Cell (ch k) attr else g r k) x y.
Proof.
  intros Hd Hr Hlo Hhi. destruct (Z.le_gt_cases hi lo).
  { rewrite for_range_done by lia. eapply drawn_ext; [exact Hd|]. intros r k _ _. by rewrite decide_False by lia. }
  refine (for_range_inv (fun i con => drawn con0 con
    (fun r k => if decide (r = row /\ lo <= k < i) then Cell (ch k) attr else g r k) x y) lo hi _ con _ _ _); [lia| |].
  { eapply drawn_ext; [exact Hd|]. intros r k _ _. by rewrite decide_False by lia. }
  intros i con1 Hi [Hs Hser]. destruct (put_cell_spec rows cols con1 _ x y i row (ch i) attr Hs) as (Hs' & Hser' & _); [lia..|].
  split; [|congruence]. eapply screen_ext; [exact Hs'|]. intros r k _ _. unfold put.
  destruct (decide (r = row /\ k = i)) as [[-> ->]|]; [by rewrite decide_True by lia|]. repeat case_decide; (done || lia).
Qed.

Lemma put_text_spec con0 con g x y row start attr t :
  drawn con0 con g x y -> 0 <= row < rows -> 0 <= start ->
  drawn con0 (put_text row start cols attr t con)
    (fun r k => if decide (r = row /\ start <= k < start + lenZ t) then Cell (nthZ 0 t (k - start)) attr else g r k) x y.
Proof.
  intros Hd Hr Hst. unfold put_text. pose proof (lenZ_nonneg t).
  destruct (Z.le_gt_cases (Z.min (lenZ t) (cols - start)) 0).
  { rewrite for_range_done by lia. eapply drawn_ext; [exact Hd|]. intros r k _ Hk. by rewrite decide_False by lia. }
  assert (Hshift : forall n con, 0 <= n -> for_range 0 n (fun i con => console_put_cell (start + i) row (nthZ 0 t i) attr con) con =
    for_range start (start + n) (fun c con => console_put_cell c row (nthZ 0 t (c - start)) attr con) con).
  { clear. intros n con Hn. revert con. pattern n. apply natlike_ind; [| |exact Hn].
    - intros con. by rewrite !for_range_done by lia.
    - intros m Hm IH con. replace (start + Z.succ m) with (start + m + 1) by lia. replace (Z.succ m) with (m + 1) by lia.
      rewrite !for_range_last by lia. rewrite IH. by replace (start + m - start) with m by lia. }
  rewrite Hshift by lia. eapply drawn_ext; [apply (put_cells con0 con g x y row start _ attr (fun c => nthZ 0 t (c - start)) Hd); lia|].
  intros r k _ Hk. cbv beta. repeat case_decide; (done || lia).
Qed.

Lemma draw_bar_spec con0 con g x y row left_ right_ attr :
  drawn con0 con g x y -> 0 <= row < rows ->
  drawn con0 (editor_draw_bar row cols left_ right_ attr con)
    (fun r k => if decide (r = row) then bar_view cols left_ right_ attr k else g r k) x y.
Proof.
  intros Hd Hr. unfold editor_draw_bar, strlen. pose proof (lenZ_nonneg right_).
  pose proof (put_cells con0 con g x y row 0 cols attr (fun _ => 32) Hd Hr ltac:(lia) ltac:(lia)) as Hd1. cbv beta in Hd1.
  pose proof (put_text_spec con0 _ _ x y row 0 attr left_ Hd1 Hr ltac:(lia)) as Hd2.
  set (rs := if cols - lenZ right_ - 1 <? 0 then 0 else cols - lenZ right_ - 1).
  assert (rs = Z.max 0 (cols - lenZ right_ - 1)) as Hrs by (unfold rs; destruct (Z.ltb_spec (cols - lenZ right_ - 1) 0); lia).
  clearbody rs. subst rs. eapply drawn_ext; [apply (put_text_spec con0 _ _ x y row _ attr right_ Hd2 Hr); lia|].
  intros r k _ Hk. unfold bar_view. rewrite Z.sub_0_r. repeat case_decide; (done || lia).
Qed.

(** ** The body *)

(** A row of the body: the line that starts at [pos], and where the next one
    starts. *)
Lemma draw_row_spec con0 con g x y ed r :
  drawn con0 con g x y -> ed_ok ed -> 0 <= row_offset ed -> 0 <= col_offset ed <= EDITOR_MAX_BUF -> 0 < cols <= 200 ->
  0 <= r -> 0 <= 1 + r < rows ->
  let l := row_offset ed + r in let n := Z.of_nat (length (lines (text ed))) in
  forall pos, (l < n -> pos = offset (lines (text ed)) (Z.to_nat l) 0) ->
  let '(pos', con') := editor_draw_row ed cols n r pos con in
  drawn con0 con' (fun r' k => if decide (r' = 1 + r) then line_view ed l k else g r' k) x y /\
  (l + 1 < n -> pos' = offset (lines (text ed)) (Z.to_nat (l + 1)) 0).
Proof.
  intros Hd Hed Hro Hco Hcols Hr Hrow l n pos Hpos. unfold editor_draw_row. fold l.
  destruct (Z.leb_spec n l) as [Hl|Hl].
  - split; [|lia]. destruct Hd as [Hs Hser].
    destruct (put_cell_spec rows cols con g x y 0 (1 + r) 126 8 Hs) as (Hs1 & Hser1 & _); [lia..|].
    assert (Hd1 : drawn con0 (console_put_cell 0 (1 + r) 126 8 con) (put g (1 + r) 0 (Cell 126 8)) x y) by (split; [done|congruence]).
    pose proof (put_cells con0 _ _ x y (1 + r) 1 cols 7 (fun _ => 32) Hd1 ltac:(lia) ltac:(lia) ltac:(lia)) as Hd2.
    eapply drawn_ext; [exact Hd2|]. intros r' k _ Hk. unfold line_view, put. fold n. repeat case_decide; (done || lia).
  - specialize (Hpos Hl). subst pos. destruct (lookup_lt_is_Some_2 (lines (text ed)) (Z.to_nat l)) as [z Hz]; [lia|].
    pose proof (lookup_lt_Some _ _ _ Hz) as Hlt. rewrite (line_end_spec ed Hed _ _ Hz).
    destruct (lines_drop _ _ _ Hz) as (Hdrop & Hle & Hlt1). rewrite doc_text_length in Hle, Hlt1 by done. rewrite (offset_add _ _ (lenZ z)) in * by done.
    set (o := offset (lines (text ed)) (Z.to_nat l) 0) in *. pose proof (lenZ_nonneg z).
    assert (0 <= o) by (apply offset_nonneg; lia). pose proof (eo_len _ Hed). unfold EDITOR_MAX_BUF in *.
    rewrite (u32_id (o + lenZ z - o)) by lia. split.
    + eapply drawn_ext; [apply (put_cells con0 con g x y (1 + r) 0 cols 15 (fun c =>
        if u32 (col_offset ed + c) <? o + lenZ z - o then body_char (ed_at ed (u32 (o + u32 (col_offset ed + c)))) else 32) Hd); lia|].
      intros r' k _ Hk. cbv beta. unfold line_view. fold n. destruct (decide (r' = 1 + r)) as [->|]; [|by rewrite decide_False by lia].
      rewrite decide_True, (decide_False (P := n <= l)) by lia. f_equal.
      replace (nthZ [] (lines (text ed)) l) with z by (unfold nthZ; by rewrite (proj2 (Z.ltb_ge l 0)), Hz by lia).
      rewrite !(u32_id (col_offset ed + k)) by lia. case_decide as Hi; [|by rewrite (proj2 (Z.ltb_ge _ _)) by lia].
      rewrite (proj2 (Z.ltb_lt _ _)), u32_id by lia. f_equal. rewrite <- text_at by lia.
      transitivity (nthZ 0 (drop (Z.to_nat o) (text ed)) (col_offset ed + k)).
      { unfold nthZ. rewrite !(proj2 (Z.ltb_ge _ 0)), lookup_drop by lia. do 2 f_equal. lia. }
      apply (line_prefix _ z (drop (S (Z.to_nat l)) (lines (text ed)))); [|lia]. by rewrite Hdrop, (drop_S _ _ _ Hz).
    + intros Hn. specialize (Hlt1 ltac:(lia)). rewrite (proj2 (Z.ltb_lt _ _)) by lia.
      replace (Z.to_nat (l + 1)) with (S (Z.to_nat l)) by lia. symmetry. by apply offset_next.
Qed.

Lemma draw_body_spec con0 con g x y ed body_rows :
  drawn con0 con g x y -> ed_ok ed -> 0 <= row_offset ed -> row_offset ed < Z.of_nat (length (lines (text ed))) ->
  0 <= col_offset ed <= EDITOR_MAX_BUF -> 0 < cols <= 200 -> 0 <= body_rows -> body_rows < rows ->
  drawn con0 (editor_draw_body ed cols body_rows con)
    (fun r k => if decide (1 <= r < 1 + body_rows) then line_view ed (row_offset ed + (r - 1)) k else g r k) x y.
Proof.
  intros Hd Hed Hro Hro' Hco Hcols Hb Hbr. unfold editor_draw_body. rewrite total_lines_spec by done.
  set (n := Z.of_nat (length (lines (text ed)))) in *.
  destruct (lookup_lt_is_Some_2 (lines (text ed)) (Z.to_nat (row_offset ed))) as [z Hz]; [lia|].
  pose proof (line_start_spec ed Hed _ _ Hz) as Hst. rewrite Z2Nat.id in Hst by lia. rewrite Hst.
  refine (proj1 (for_range_inv (fun i st => drawn con0 st.2
      (fun r k => if decide (1 <= r < 1 + i) then line_view ed (row_offset ed + (r - 1)) k else g r k) x y /\
      (row_offset ed + i < n -> st.1 = offset (lines (text ed)) (Z.to_nat (row_offset ed + i)) 0)) 0 body_rows _ _ _ _ _)); [lia| |].
  { split; [eapply drawn_ext; [exact Hd|]; intros r k _ _; by rewrite decide_False by lia|]. intros _. simpl. do 2 f_equal. lia. }
  intros i [pos con1] Hi [Hd1 Hp1]. cbn [fst snd] in *.
  pose proof (draw_row_spec con0 con1 _ x y ed i Hd1 Hed Hro Hco Hcols ltac:(lia) ltac:(lia) pos Hp1) as Hrow.
  fold n in Hrow. destruct (editor_draw_row ed cols n i pos con1) as [pos' con']. destruct Hrow as [Hd2 Hp2]. cbn [fst snd]. split.
  - eapply drawn_ext; [exact Hd2|]. intros r k _ _. cbv beta. repeat case_decide; try done; try lia. f_equal. lia.
  - intros Hl. rewrite Hp2 by lia. do 2 f_equal. lia.
Qed.

(** Refreshing the top bar leaves the text area. *)
Lemma topbar_screen con g x y :
  screen rows cols con g x y -> cursor_shown con ->
  returns console_refresh_topbar con (fun _ con' =>
    screen rows cols con' g x y /\ cursor_shown con' /\ sends COM1_PORT [] (con_ser con) (con_ser con')).
Proof.
  intros Hs Hcur. pose proof Hs as [Hok Hsh Hr Hc Hg Hx Hy]. pose proof Hok as [Hcols Hrows Hgr Hat Hst Hdr Hdev].
  unfold shows in Hsh. destruct (active con) eqn:Ha.
  - assert (Hpos : 0 < rows) by (rewrite <- Hr; lia). rewrite Hr, Hc in Hdev, Hsh.
    eapply returns_mono; [apply (refresh_topbar_spec rows cols con _ Ha Hdev Hpos Hsh Hst)|].
    intros [] con' [(v & u & -> & Hon & Hu) Hp].
    assert (Ha' : active (set_vbe v (set_ser u con)) = true) by (unfold active, vbe_is_active in *; simpl; by rewrite (proj1 Hon)).
    split; [|split; [intros _; by apply Hcur|done]]. rewrite <- Hx, <- Hy.
    apply (screen_paint rows cols con (set_vbe v (set_ser u con))); try done.
    destruct Hdr as [?|[_ ?]]; [by left|by right].
  - unfold console_refresh_topbar. apply returns_bind. eexists _, _. split; [done|]. rewrite Ha. simpl. apply returns_ret.
    split; [done|]. split; [done|apply sends_refl].
Qed.

(** The scroll offsets are in the document. *)
Record view_ok (ed : editor_state_t) : Prop := {
  vo_row : 0 <= row_offset ed;
  vo_col : 0 <= col_offset ed <= EDITOR_MAX_BUF
}.

Lemma k_itoa_nat v : 0 <= v < 4294967296 -> exists t, k_itoa v 10 = Some t.
Proof.
  intros Hv. unfold k_itoa. destruct (Z.ltb_spec v 0); [lia|]. cbn [andb]. rewrite u32_id by lia.
  destruct (k_utoa_digits v 10) as (t & Ht & _); [lia|done|]. eauto.
Qed.

Lemma editor_scroll_spec ed l c x body_rows :
  ed_ok ed -> view_ok ed -> lines (text ed) !! l = Some x -> 0 <= c <= lenZ x -> lenZ x <= EDITOR_MAX_BUF ->
  0 < body_rows -> 0 < cols ->
  let ed' := editor_scroll (Z.of_nat l) c body_rows cols ed in
  ed_ok ed' /\ view_ok ed' /\ doc_of ed' = doc_of ed /\ row_offset ed' <= Z.of_nat l < row_offset ed' + body_rows /\
  col_offset ed' <= c < col_offset ed' + cols.
Proof.
  intros [Hb Hl Hc] [Hro Hco] Hlx Hcx Hx Hbr Hcols. cbv zeta. unfold editor_scroll.
  split; [by split|]. split; [split; simpl|split; [done|simpl]];
    destruct (Z.ltb_spec (Z.of_nat l) (row_offset ed)), (Z.leb_spec (row_offset ed + body_rows) (Z.of_nat l)),
      (Z.ltb_spec c (col_offset ed)), (Z.leb_spec (col_offset ed + cols) c); lia.
Qed.

(** Drawing the editor shows the document.  After [editor_render] the
    rows of the body show the lines of the text from the scroll offset, each
    from the horizontal offset, with dots for what cannot be printed and a tilde
    below the last line; the bars are above and below; the cursor is drawn in
    the body, at the line and column of the editor's cursor, which the offsets
    have followed; and the document is unchanged. *)
Theorem editor_render_shows ed con g x y :
  screen rows cols con g x y -> cursor_shown con -> ed_ok ed -> view_ok ed -> 2 < rows ->
  returns (editor_render ed) con (fun ed' con' =>
    doc_of ed' = doc_of ed /\ ed_ok ed' /\ view_ok ed' /\
    exists l c x right_ size,
      lines (text ed') !! l = Some x /\ 0 <= c <= lenZ x /\ ed_cursor ed' = offset (lines (text ed')) l c /\
      1 <= 1 + (Z.of_nat l - row_offset ed') < rows - 1 /\ 0 <= c - col_offset ed' < cols /\
      top_right (Z.of_nat l) c = Some right_ /\ k_utoa (ed_len ed') 10 = Some size /\
      screen rows cols con' (editor_view rows cols ed' right_ size) (c - col_offset ed') (1 + (Z.of_nat l - row_offset ed')) /\
      shows con' /\ cursor_shown con' /\ sends COM1_PORT [] (con_ser con) (con_ser con')).
Proof.
  intros Hs Hcur Hed Hvw Hrows. pose proof Hs as [Hok _ HR HC _ _ _]. pose proof (co_cols _ Hok) as Hcols. rewrite HC in Hcols.
  destruct (cursor_line ed Hed) as (l & c & z & Hl & Hcz & Hpos & Hglc & _).
  assert (Hz : lenZ z <= EDITOR_MAX_BUF).
  { destruct (goto_spec ed l 0 z Hed Hl ltac:(lia)) as (_ & ? & ?). pose proof (eo_len _ Hed). lia. }
  assert (Hlen : (l < length (lines (text ed)))%nat) by (by eapply lookup_lt_Some).
  destruct (editor_scroll_spec ed l c z (rows - 2) Hed Hvw Hl Hcz Hz ltac:(lia) ltac:(lia)) as (Hed' & Hvw' & Hdoc & Hrow & Hcol).
  assert (Hl4 : Z.of_nat l <= EDITOR_MAX_BUF).
  { pose proof (offset_nonneg (lines (text ed)) l c ltac:(lia)). pose proof (eo_cursor _ Hed). pose proof (eo_len _ Hed).
    assert (Z.of_nat l <= offset (lines (text ed)) l c); [|lia]. clear -Hcz Hlen. revert Hlen. generalize (lines (text ed)).
    induction l as [|l IH]; intros [|y ls] Hlen; simpl in Hlen; try lia; cbn [offset]; [lia|].
    specialize (IH ls ltac:(lia)). pose proof (lenZ_nonneg y). lia. }
  unfold EDITOR_MAX_BUF in *. destruct (k_itoa_nat (Z.of_nat l + 1)) as [tl Htl]; [lia|]. destruct (k_itoa_nat (c + 1)) as [tc Htc]; [lia|].
  assert (Htr : exists r, top_right (Z.of_nat l) c = Some r) by (unfold top_right; rewrite Htl, Htc; simpl; eauto).
  destruct Htr as [right_ Hright].
  destruct (k_utoa_digits (ed_len ed) 10) as (size & Hsize & _); [lia|pose proof (eo_len _ Hed); unfold is_u32, EDITOR_MAX_BUF in *; lia|].
  unfold editor_render. apply returns_bind. eexists _, _. split; [done|]. unfold console_cols, console_rows. rewrite HR, HC, Hglc.
  rewrite (proj2 (Z.ltb_ge (rows - 2) 1)) by lia. set (ed' := editor_scroll (Z.of_nat l) c (rows - 2) cols ed) in *.
  assert (Hlen' : ed_len ed' = ed_len ed) by done.
  assert (Htext : text ed' = text ed /\ ed_cursor ed' = ed_cursor ed) by done. clearbody ed'. destruct Htext as [Htext Hcur'].
  pose proof Hvw' as [Hro Hco]. unfold EDITOR_MAX_BUF in *.
  assert (Hd0 : drawn con con g x y) by done.
  apply returns_bind. eexists _, _. split; [unfold p_val; by rewrite Hright|]. apply returns_bind. eexists _, _. split; [done|].
  pose proof (draw_bar_spec con _ _ x y 0 (top_left ed') right_ 48 Hd0 ltac:(lia)) as Hd1.
  apply returns_bind. eexists _, _. split; [done|].
  pose proof (draw_body_spec con _ _ x y ed' (rows - 2) Hd1 Hed' Hro ltac:(rewrite Htext; lia) Hco ltac:(unfold MAX_GRID_COLS in *; lia) ltac:(lia) ltac:(lia)) as Hd2.
  apply returns_bind. eexists _, _. split; [unfold p_val; by rewrite Hlen', Hsize|]. apply returns_bind. eexists _, _. split; [done|].
  destruct (draw_bar_spec con _ _ x y (rows - 1) (help_text ed') (size ++ str " B") 112 Hd2 ltac:(lia)) as [Hs3 Hser3].
  apply returns_bind. eapply returns_mono; [apply (set_cursor_spec rows cols _ _ _ _ (c - col_offset ed') (1 + (Z.of_nat l - row_offset ed')) Hs3)|].
  intros [] con4 (Hs4 & Hcur4 & Hsend4). rewrite !clamp_id in Hs4 by lia. rewrite Hser3 in Hsend4.
  apply returns_bind. eapply returns_mono; [by apply topbar_screen|]. intros [] con5 (Hs5 & Hcur5 & Hsend5). apply returns_ret.
  pose proof (sends_trans _ [] [] _ _ _ Hsend4 Hsend5) as Hsend.
  assert (Hview : screen rows cols con5 (editor_view rows cols ed' right_ size) (c - col_offset ed') (1 + (Z.of_nat l - row_offset ed'))).
  { eapply screen_ext; [exact Hs5|]. intros r k Hr Hk. unfold editor_view. cbv beta. repeat case_decide; try done; lia. }
  split; [done|]. split; [done|]. split; [done|]. exists l, c, z, right_, size. rewrite Htext, Hcur', Hlen'.
  repeat (split; [(done || lia)|]). split; [exact (sc_shows _ _ _ _ _ _ Hview)|]. split; [exact Hcur5|exact Hsend].
Qed.
End view.

(** The sample document on the sample console. *)
Lemma editor_render_shows_witness :
  returns (editor_render sample_ed) (sample_console no_fb 25 80) (fun ed' con' =>
    doc_of ed' = doc_of sample_ed /\ ed_ok ed' /\ view_ok ed' /\
    exists l c x right_ size,
      lines (text ed') !! l = Some x /\ 0 <= c <= lenZ x /\ ed_cursor ed' = offset (lines (text ed')) l c /\
      1 <= 1 + (Z.of_nat l - row_offset ed') < 25 - 1 /\ 0 <= c - col_offset ed' < 80 /\
      top_right (Z.of_nat l) c = Some right_ /\ k_utoa (ed_len ed') 10 = Some size /\
      screen 25 80 con' (editor_view 25 80 ed' right_ size) (c - col_offset ed') (1 + (Z.of_nat l - row_offset ed')) /\
      shows con' /\ cursor_shown con' /\ sends COM1_PORT [] com1 (con_ser con')).
Proof.
  apply (editor_render_shows 25 80 sample_ed (sample_console no_fb 25 80) (window start_paper) 0 0).
  - exact sample_vga_screen.
  - intros Ha. discriminate Ha.
  - exact sample_ed_ok.
  - split; by compute.
  - lia.
Defined.
