(* ===== verification/Shell.v ===== *)
(** Shell: the command line of [kernel/shell.c]: the line buffer, the history,
    the prompt, tab completion and the event handler.

    [shell_execute_line] and the commands behind the function keys are the
    arguments [execute], [help] and [gui]; [ShellExec] supplies the first two. *)

From S2P Require Import Prelude Ports Partial Memory Common Text Array Ring Serial Font Pmm Heap.
From S2P Require Import HeapInv HeapSpec HeapRun Disk Fat FatFile Paging Vbe Rtc Net Pic Mouse.
From S2P Require Import Keyboard Console.
#[local] Open Scope partial_scope.

Definition CMD_BUF_MAX : Z := 256.
Definition HISTORY_MAX : Z := 16.

Record shell (H D : Type) := Sh {
  sh_con : console H;
  sh_fs : fat_fs D;
  username : list Z;
  cmd_buf : list Z;
  cmd_len : Z;
  cmd_cursor : Z;
  prompt_col : Z;
  prompt_row : Z;
  history : list (list Z);
  history_count : Z;
  history_nav : Z;
  script_depth : Z
}.
Arguments Sh {H D}. Arguments sh_con {H D}. Arguments sh_fs {H D}. Arguments username {H D}. Arguments cmd_buf {H D}.
Arguments cmd_len {H D}. Arguments cmd_cursor {H D}. Arguments prompt_col {H D}. Arguments prompt_row {H D}.
Arguments history {H D}. Arguments history_count {H D}. Arguments history_nav {H D}. Arguments script_depth {H D}.

Definition builtin_cmds : list (list Z) :=
  [str "help"; str "info"; str "neofetch"; str "ver"; str "cpu"; str "date"; str "uptime"; str "dmesg";
   str "user"; str "history"; str "echo"; str "calc"; str "beep"; str "gui"; str "clear"; str "reboot";
   str "shutdown"; str "poweroff"; str "mem"; str "ps"; str "top"; str "spawn"; str "kill";
   str "ls"; str "dir"; str "cat"; str "write"; str "append"; str "edit"; str "cp"; str "mv"; str "rm";
   str "touch"; str "stat"; str "hexdump"; str "sh"; str "df"; str "disk"; str "mkfs";
   str "lspci"; str "ifconfig"; str "dhcp"; str "ping"; str "arp"; str "netstat"].

Section setters.
Context {H D : Type}.
Implicit Types s : shell H D.

Definition set_con c s : shell H D :=
  Sh c (sh_fs s) (username s) (cmd_buf s) (cmd_len s) (cmd_cursor s) (prompt_col s) (prompt_row s)
    (history s) (history_count s) (history_nav s) (script_depth s).
Definition set_fs f s : shell H D :=
  Sh (sh_con s) f (username s) (cmd_buf s) (cmd_len s) (cmd_cursor s) (prompt_col s) (prompt_row s)
    (history s) (history_count s) (history_nav s) (script_depth s).
Definition set_user u s : shell H D :=
  Sh (sh_con s) (sh_fs s) u (cmd_buf s) (cmd_len s) (cmd_cursor s) (prompt_col s) (prompt_row s)
    (history s) (history_count s) (history_nav s) (script_depth s).
Definition set_line buf len cursor s : shell H D :=
  Sh (sh_con s) (sh_fs s) (username s) buf len cursor (prompt_col s) (prompt_row s)
    (history s) (history_count s) (history_nav s) (script_depth s).
Definition set_prompt col row s : shell H D :=
  Sh (sh_con s) (sh_fs s) (username s) (cmd_buf s) (cmd_len s) (cmd_cursor s) col row
    (history s) (history_count s) (history_nav s) (script_depth s).
Definition set_history h n s : shell H D :=
  Sh (sh_con s) (sh_fs s) (username s) (cmd_buf s) (cmd_len s) (cmd_cursor s) (prompt_col s) (prompt_row s)
    h n (history_nav s) (script_depth s).
Definition set_nav n s : shell H D :=
  Sh (sh_con s) (sh_fs s) (username s) (cmd_buf s) (cmd_len s) (cmd_cursor s) (prompt_col s) (prompt_row s)
    (history s) (history_count s) n (script_depth s).
Definition set_depth n s : shell H D :=
  Sh (sh_con s) (sh_fs s) (username s) (cmd_buf s) (cmd_len s) (cmd_cursor s) (prompt_col s) (prompt_row s)
    (history s) (history_count s) (history_nav s) n.
Definition move_cursor c s : shell H D := set_line (cmd_buf s) (cmd_len s) c s.

(** [cmd_len = 0; cmd_cursor = 0; cmd_buf[0] = NUL; history_nav = -1]. *)
Definition reset_line s : shell H D := set_nav (-1) (set_line (updZ 0 0 (cmd_buf s)) 0 0 s).

(** A line taken from the history: [strcpy], [strlen], cursor at the end. *)
Definition recall (line : list Z) s : shell H D :=
  set_line (arr_copy 0 (line ++ [0]) (cmd_buf s)) (lenZ line) (lenZ line) s.

Definition history_push (line : list Z) s : shell H D :=
  if bool_decide (line = []) then s
  else if (0 <? history_count s) && (strcmp (nthZ [] (history s) (history_count s - 1)) line =? 0) then s
  else if history_count s <? HISTORY_MAX then
    set_history (updZ (history_count s) line (history s)) (history_count s + 1) s
  else
    let h := for_range 0 (HISTORY_MAX - 1) (fun i h => updZ i (nthZ [] h (i + 1)) h) (history s) in
    set_history (updZ (HISTORY_MAX - 1) line h) (history_count s) s.
End setters.

(** The string an array holds: its bytes before the first NUL. *)
Fixpoint cstr (buf : list Z) : list Z :=
  match buf with c :: buf => if c =? 0 then [] else c :: cstr buf | [] => [] end.

Section shell.
Context {H D : Type} `{Ports H} `{BlockDev D}.
Notation SH := (PM (shell H D)).
Implicit Types s : shell H D.

Definition on_con {A} (m : PM (console H) A) : SH A := p_part sh_con set_con m.
Definition on_fs {A} (m : ST (fat_fs D) A) : SH A := p_zoom sh_fs set_fs m.

Definition shell_print_prompt : SH unit :=
  s <- p_get;;
  on_con (shell_print_color (username s) 14;;
          shell_print_color (str "@bengal") 10;;
          shell_print_color (str ":") 7;;
          shell_print_color (str "~") 11;;
          shell_print_color (str "$ ") 15);;
  p_mod (fun s => set_prompt (cur_x (sh_con s)) (cur_y (sh_con s)) s).

(** The copy of the line on the serial terminal. *)
Definition redraw_serial (prev_len : Z) s : PM (console H) unit :=
  ser_putc CR;;
  ser_puts (username s);;
  ser_puts (str "@bengal:~$ ");;
  p_each (seqZ 0 (cmd_len s)) (fun i => ser_putc (nthZ 0 (cmd_buf s) i));;
  p_each (seqZ (cmd_len s) (prev_len - cmd_len s)) (fun _ => ser_putc 32);;
  let back := (if cmd_len s <? prev_len then prev_len else cmd_len s) - cmd_cursor s in
  p_each (seqZ 0 back) (fun _ => ser_putc BS).

(** Draws the cells of the line, with blanks over what it was longer before. *)
Definition redraw_cells (max_draw : Z) s : console H -> console H :=
  for_range 0 max_draw (fun i con =>
    let pos := prompt_col s + i in
    let r := prompt_row s + pos ÷ con_cols con in
    let c := Z.rem pos (con_cols con) in
    let ch := if i <? cmd_len s then nthZ 0 (cmd_buf s) i else 32 in
    console_put_cell c r ch 15 con).

Definition redraw_input_line (prev_len : Z) (sync_serial : bool) : SH unit :=
  s <- p_get;;
  let max_draw := if prev_len <? cmd_len s then cmd_len s else prev_len in
  on_con (p_mod (fun con => if active con then vbe_undraw_cursor con else con));;
  let cols := con_cols (sh_con s) in
  let total_cells := prompt_col s + max_draw + 1 in
  let needed_rows := (total_cells + cols - 1) ÷ cols in
  p_while (S (Z.to_nat (prompt_row s + needed_rows)))
    (s <- p_get;; p_ret (con_rows (sh_con s) <? prompt_row s + needed_rows))
    (on_con console_scroll_up;; p_mod (fun s => set_prompt (prompt_col s) (prompt_row s - 1) s));;
  s <- p_get;;
  on_con (p_mod (redraw_cells max_draw s));;
  let cpos := prompt_col s + cmd_cursor s in
  on_con (console_set_cursor (Z.rem cpos cols) (prompt_row s + cpos ÷ cols) true);;
  if sync_serial then on_con (redraw_serial prev_len s) else p_ret tt.

(** ** Tab completion *)

(** [while (tok_start > 0 && cmd_buf[tok_start - 1] != ' ') tok_start--]. *)
Fixpoint token_start (n : nat) (buf : list Z) (tok_start : Z) : Z :=
  match n with
  | O => tok_start
  | S n => if (0 <? tok_start) && negb (nthZ 0 buf (tok_start - 1) =? 32) then token_start n buf (tok_start - 1) else tok_start
  end.

Definition first_token (buf : list Z) (tok_start : Z) : bool :=
  forallb (fun c => c =? 32) (take (Z.to_nat tok_start) buf).

(** The names that start with the prefix, as the match table keeps them. *)
Definition match_names (names : list (list Z)) (prefix : list Z) : list (list Z) :=
  filter (fun n => strncasecmp n prefix (length prefix) =? 0) names.
Definition find_matches (is_first : bool) (prefix : list Z) (files : list (list Z)) : list (list Z) :=
  if is_first then take 48 (take 15 <$> match_names builtin_cmds prefix)
  else take 48 ((fun f => to_lower_ch <$> take 15 f) <$> match_names files prefix).

(** The length of the common prefix of two strings, at most [n]. *)
Fixpoint common_len (n : nat) (a b : list Z) : Z :=
  match n, a with
  | S n, x :: a => if x =? ch b then 1 + common_len n a (tail b) else 0
  | _, _ => 0
  end.
Definition common_prefix (m0 : list Z) (ms : list (list Z)) : Z :=
  foldl (fun common m => common_len (Z.to_nat common) m0 m) (lenZ m0) ms.

(** The prefix before the cursor is replaced by the first [n] characters of
    [m], and the rest of the line moves right. *)
Definition complete (tok_start prefix_len : Z) (m : list Z) s : shell H D :=
  let add := lenZ m - prefix_len in
  let buf := arr_move (cmd_cursor s + add) (cmd_cursor s) (u32 (cmd_len s - cmd_cursor s + 1)) (cmd_buf s) in
  set_line (arr_copy tok_start m buf) (cmd_len s + add) (cmd_cursor s + add) s.

Definition handle_tab_completion : SH unit :=
  s <- p_get;;
  let tok_start := token_start (Z.to_nat (cmd_cursor s)) (cmd_buf s) (cmd_cursor s) in
  let prefix_len := cmd_cursor s - tok_start in
  if 64 <=? prefix_len then p_ret tt
  else
    let prefix := take (Z.to_nat prefix_len) (drop (Z.to_nat tok_start) (cmd_buf s)) in
    let is_first := first_token (cmd_buf s) tok_start in
    files <- (if is_first then p_ret [] else on_fs (fat_enumerate_files 48));;
    let matches := find_matches is_first prefix files in
    let prev_len := cmd_len s in
    match matches with
    | [] => p_ret tt
    | [m] =>
      if cmd_len s + (lenZ m - prefix_len) + 2 <? CMD_BUF_MAX then
        p_mod (complete tok_start prefix_len m);;
        p_mod (fun s => if (cmd_cursor s =? cmd_len s) && (cmd_len s + 1 <? CMD_BUF_MAX)
                        then set_line (updZ (cmd_len s + 1) 0 (updZ (cmd_len s) 32 (cmd_buf s)))
                               (cmd_len s + 1) (cmd_cursor s + 1) s
                        else s);;
        redraw_input_line prev_len true
      else p_ret tt
    | m0 :: ms =>
      let common := common_prefix m0 ms in
      (if (prefix_len <? common) && (cmd_len s + (common - prefix_len) + 1 <? CMD_BUF_MAX)
       then p_mod (complete tok_start prefix_len (take (Z.to_nat common) m0)) else p_ret tt);;
      on_con (shell_putchar NL);;
      on_con (p_each matches (fun m => shell_print_color m 11;; shell_print (str "  ")));;
      on_con (shell_putchar NL);;
      shell_print_prompt;;
      redraw_input_line 0 true
    end.

(** ** Events *)

(** What the editing keys do to the line, before it is drawn again; [None]
    when the key does nothing. *)
Definition edit_backspace s : option (shell H D) :=
  if 0 <? cmd_cursor s then
    Some (set_line (arr_move (cmd_cursor s - 1) (cmd_cursor s) (u32 (cmd_len s - cmd_cursor s + 1)) (cmd_buf s))
            (cmd_len s - 1) (cmd_cursor s - 1) s)
  else None.
Definition edit_delete s : option (shell H D) :=
  if cmd_cursor s <? cmd_len s then
    Some (set_line (arr_move (cmd_cursor s) (cmd_cursor s + 1) (u32 (cmd_len s - cmd_cursor s)) (cmd_buf s))
            (cmd_len s - 1) (cmd_cursor s) s)
  else None.
Definition edit_insert (ev : Z) s : option (shell H D) :=
  if cmd_len s <? CMD_BUF_MAX - 1 then
    let buf := arr_move (cmd_cursor s + 1) (cmd_cursor s) (u32 (cmd_len s - cmd_cursor s + 1)) (cmd_buf s) in
    Some (set_line (updZ (cmd_cursor s) (u8 ev) buf) (cmd_len s + 1) (cmd_cursor s + 1) s)
  else None.
Definition edit_up s : option (shell H D) :=
  if 0 <? history_count s then
    let nav := if history_nav s <? 0 then history_count s - 1
               else if 0 <? history_nav s then history_nav s - 1 else history_nav s in
    Some (recall (nthZ [] (history s) nav) (set_nav nav s))
  else None.
Definition edit_down s : option (shell H D) :=
  if 0 <=? history_nav s then
    let nav := history_nav s + 1 in
    if history_count s <=? nav then Some (set_nav (-1) (set_line (updZ 0 0 (cmd_buf s)) 0 0 s))
    else Some (recall (nthZ [] (history s) nav) (set_nav nav s))
  else None.

Context (execute : list Z -> SH unit) (help gui : SH unit).

(** The line is drawn again after an edit; at the end of the line the serial
    terminal only gets [tail]. *)
Definition after_edit (prev_len : Z) (at_end : bool) (tail_ : PM (console H) unit) (o : option (shell H D)) : SH unit :=
  match o with
  | None => p_ret tt
  | Some s' =>
    p_mod (fun _ => s');;
    if at_end then redraw_input_line prev_len false;; on_con tail_ else redraw_input_line prev_len true
  end.

Definition shell_handle_event (ev : Z) : SH unit :=
  if ev <=? 0 then p_ret tt
  else
    s <- p_get;;
    let prev_len := cmd_len s in
    let at_end := cmd_cursor s =? cmd_len s in
    if ev =? NL then
      p_mod (fun s => move_cursor (cmd_len s) s);;
      redraw_input_line prev_len false;;
      on_con (shell_putchar NL);;
      s <- p_get;;
      let line_copy := cstr (updZ (cmd_len s) 0 (cmd_buf s)) in
      p_mod (fun s => reset_line (set_line (updZ (cmd_len s) 0 (cmd_buf s)) (cmd_len s) (cmd_cursor s) s));;
      p_mod (history_push line_copy);;
      execute line_copy;;
      shell_print_prompt
    else if ev =? CTRL_KEY 99 then
      p_mod (fun s => move_cursor (cmd_len s) s);;
      redraw_input_line prev_len false;;
      on_con (shell_print (strn "^C"));;
      p_mod reset_line;;
      shell_print_prompt
    else if ev =? CTRL_KEY 108 then
      on_con shell_clear;; shell_print_prompt;; redraw_input_line 0 true
    else if ev =? BS then after_edit prev_len at_end (ser_puts [BS; 32; BS]) (edit_backspace s)
    else if ev =? KEY_SPECIAL_DELETE then after_edit prev_len false (p_ret tt) (edit_delete s)
    else if ev =? KEY_SPECIAL_LEFT then
      after_edit prev_len false (p_ret tt) (if 0 <? cmd_cursor s then Some (move_cursor (cmd_cursor s - 1) s) else None)
    else if ev =? KEY_SPECIAL_RIGHT then
      after_edit prev_len false (p_ret tt)
        (if cmd_cursor s <? cmd_len s then Some (move_cursor (cmd_cursor s + 1) s) else None)
    else if (ev =? KEY_SPECIAL_HOME) || (ev =? CTRL_KEY 97) then
      after_edit prev_len false (p_ret tt) (Some (move_cursor 0 s))
    else if (ev =? KEY_SPECIAL_END) || (ev =? CTRL_KEY 101) then
      after_edit prev_len false (p_ret tt) (Some (move_cursor (cmd_len s) s))
    else if ev =? KEY_SPECIAL_UP then after_edit prev_len false (p_ret tt) (edit_up s)
    else if ev =? KEY_SPECIAL_DOWN then after_edit prev_len false (p_ret tt) (edit_down s)
    else if ev =? TAB then handle_tab_completion
    else if ev =? KEY_SPECIAL_F1 then
      on_con (shell_putchar NL);; help;; shell_print_prompt;; redraw_input_line 0 true
    else if ev =? KEY_SPECIAL_F2 then
      on_con (shell_putchar NL);; gui;; shell_print_prompt;; redraw_input_line 0 true
    else if (32 <=? ev) && (ev <=? 126) then after_edit prev_len at_end (ser_putc (u8 ev)) (edit_insert ev s)
    else p_ret tt.

Definition shell_handler (key : Z) : SH unit := shell_handle_event (u8 key).

(** ** Start *)

(** The name in the configuration file, up to a blank or the end of a line. *)
Fixpoint config_name (n : nat) (cfg : list Z) : list Z :=
  match n, cfg with
  | S n, c :: cfg => if (c =? 0) || (c =? NL) || (c =? CR) || (c =? 32) then [] else c :: config_name n cfg
  | _, _ => []
  end.

Definition console_size (fb : vbe_fb_t) (on : bool) : Z * Z :=
  if on then
    let cols := s32 (width fb) ÷ FONT_WIDTH in
    let rows := (s32 (height fb) - VBE_TOPBAR_HEIGHT) ÷ FONT_HEIGHT in
    let cols := if MAX_GRID_COLS <? cols then MAX_GRID_COLS else cols in
    let rows := if MAX_GRID_ROWS <? rows then MAX_GRID_ROWS else rows in
    (if cols <? 40 then 40 else cols, if rows <? 15 then 15 else rows)
  else (80, 25).

Definition banner : list Z := strn "================================================================".

Definition shell_init : SH unit :=
  p_mod (fun s => let con := sh_con s in
                  let '(cols, rows) := console_size (vbe_fb (con_vbe con)) (active con) in
                  set_con (set_size cols rows con) s);;
  p_mod reset_line;;
  r <- on_fs (fat_read_file (str "CONFIG.CFG") 31);;
  let '(rc, _, data) := r in
  p_mod (fun s => match data with
                  | c :: _ =>
                    if (rc =? 0) && negb (c =? 0)
                    then match config_name 30 data with [] => set_user (str "tiger") s | u => set_user u s end
                    else s
                  | [] => s
                  end);;
  on_con (shell_clear;;
          shell_print_color banner 14;;
          shell_print_color (strn "  Bengal Tiger OS v1.0.0 (Royal Bengal) - Ready") 14;;
          shell_print_color banner 14;;
          shell_print (strn "  Type 'help' for commands, 'info' for system summary, 'edit' to edit files,");;
          shell_print (strn "  'gui' (or F2) for graphical desktop, 'ping 10.0.2.2' to test networking." ++ [NL])).
End shell.
