(* ===== verification/ShellLine.v ===== *)
(** ShellLine: the command line as a text with a cursor and a history.

    The editing keys of [shell_handle_event] are described on the text and the
    cursor, and what is on the screen after each is the prompt's line with the
    text in it and the cursor at its place. *)

From S2P Require Import Prelude Ports Partial Memory Common Text Array Ring Serial SerialTx Font Pmm.
From S2P Require Import Heap HeapInv HeapSpec HeapRun Disk Fat FatFile Paging Vbe VbeSpec Rtc Net.
From S2P Require Import Pic Mouse Keyboard Console ConsoleGrid ConsoleSpec ConsolePaper ConsoleClear Shell.
#[local] Open Scope partial_scope.

(** * The abstract line *)

Record line := Line { l_text : list Z; l_cur : Z; l_hist : list (list Z); l_nav : Z }.

(** The history is a list of at most 16 lines, without a line twice in a row. *)
Definition remember (l : list Z) (h : list (list Z)) : list (list Z) :=
  if decide (l = [] \/ last h = Some l) then h
  else drop (length h + 1 - 16) (h ++ [l]).

Definition edit_line (ev : Z) (l : line) : line :=
  let 'Line t c h n := l in
  if ev =? BS then if decide (0 < c) then Line (take (Z.to_nat (c - 1)) t ++ drop (Z.to_nat c) t) (c - 1) h n else l
  else if ev =? KEY_SPECIAL_DELETE then
    if decide (c < lenZ t) then Line (take (Z.to_nat c) t ++ drop (S (Z.to_nat c)) t) c h n else l
  else if ev =? KEY_SPECIAL_LEFT then Line t (Z.max 0 (c - 1)) h n
  else if ev =? KEY_SPECIAL_RIGHT then Line t (Z.min (lenZ t) (c + 1)) h n
  else if (ev =? KEY_SPECIAL_HOME) || (ev =? CTRL_KEY 97) then Line t 0 h n
  else if (ev =? KEY_SPECIAL_END) || (ev =? CTRL_KEY 101) then Line t (lenZ t) h n
  else if ev =? KEY_SPECIAL_UP then
    if decide (h = []) then l
    else let n := if decide (n < 0) then lenZ h - 1 else Z.max 0 (n - 1) in
         Line (nthZ [] h n) (lenZ (nthZ [] h n)) h n
  else if ev =? KEY_SPECIAL_DOWN then
    if decide (n < 0) then l
    else if decide (lenZ h <= n + 1) then Line [] 0 h (-1)
    else Line (nthZ [] h (n + 1)) (lenZ (nthZ [] h (n + 1))) h (n + 1)
  else if decide (lenZ t < 255) then Line (take (Z.to_nat c) t ++ ev :: drop (Z.to_nat c) t) (c + 1) h n
  else l.

(** The keys that edit the line: those above and the printable characters. *)
Definition editing_key (ev : Z) : Prop :=
  ev ∈ [BS; KEY_SPECIAL_DELETE; KEY_SPECIAL_LEFT; KEY_SPECIAL_RIGHT; KEY_SPECIAL_HOME; CTRL_KEY 97; KEY_SPECIAL_END;
        CTRL_KEY 101; KEY_SPECIAL_UP; KEY_SPECIAL_DOWN] \/ 32 <= ev <= 126.

(** * The invariant *)

Section line.
Context {H D : Type}.
Implicit Types s : shell H D.

Definition hist_line (l : list Z) : Prop := lenZ l <= 255 /\ Forall is_char l.

Record line_ok s : Prop := {
  lo_buf : lenZ (cmd_buf s) = CMD_BUF_MAX;
  lo_len : 0 <= cmd_len s < CMD_BUF_MAX;
  lo_cursor : 0 <= cmd_cursor s <= cmd_len s;
  lo_text : Forall is_char (prefix_text (cmd_len s) (cmd_buf s));
  lo_hist : lenZ (history s) = HISTORY_MAX;
  lo_count : 0 <= history_count s <= HISTORY_MAX;
  lo_nav : -1 <= history_nav s < history_count s;
  lo_lines : Forall hist_line (take (Z.to_nat (history_count s)) (history s))
}.

Definition line_of s : line :=
  Line (prefix_text (cmd_len s) (cmd_buf s)) (cmd_cursor s) (take (Z.to_nat (history_count s)) (history s)) (history_nav s).

Lemma text_len s : line_ok s -> lenZ (prefix_text (cmd_len s) (cmd_buf s)) = cmd_len s.
Proof. intros []. unfold lenZ. rewrite length_prefix; unfold CMD_BUF_MAX in *; lia. Qed.
Lemma hist_len s : line_ok s -> lenZ (take (Z.to_nat (history_count s)) (history s)) = history_count s.
Proof. intros []. unfold lenZ in *. rewrite length_take. unfold HISTORY_MAX in *. lia. Qed.
Lemma hist_at s i : line_ok s -> 0 <= i < history_count s ->
  nthZ [] (take (Z.to_nat (history_count s)) (history s)) i = nthZ [] (history s) i.
Proof. intros Hok Hi. unfold nthZ. case_goal; [done|]. by rewrite lookup_take_lt by lia. Qed.
Lemma hist_line_at s i : line_ok s -> 0 <= i < history_count s -> hist_line (nthZ [] (history s) i).
Proof.
  intros Hok Hi. rewrite <- hist_at by done. pose proof (hist_len s Hok) as Hl. pose proof (lo_lines _ Hok) as Hf. rewrite Forall_lookup in Hf.
  unfold nthZ. rewrite (proj2 (Z.ltb_ge i 0)) by lia. unfold lenZ in Hl.
  destruct (lookup_lt_is_Some_2 (take (Z.to_nat (history_count s)) (history s)) (Z.to_nat i)) as [l Hl']; [lia|].
  rewrite Hl'. by eapply Hf.
Qed.

(** A text and a cursor in the buffer. *)
Lemma line_ok_set s buf len cursor t :
  line_ok s -> lenZ buf = CMD_BUF_MAX -> 0 <= len < CMD_BUF_MAX -> 0 <= cursor <= len ->
  prefix_text len buf = t -> Forall is_char t ->
  line_ok (set_line buf len cursor s) /\
  line_of (set_line buf len cursor s) = Line t cursor (l_hist (line_of s)) (history_nav s).
Proof. intros [] Hb Hl Hc Ht Hch. split; [split; simpl; try done; by rewrite Ht|]. unfold line_of. simpl. by rewrite Ht. Qed.

Lemma recall_spec s nav l :
  line_ok s -> -1 <= nav < history_count s -> hist_line l ->
  line_ok (recall l (set_nav nav s)) /\ line_of (recall l (set_nav nav s)) = Line l (lenZ l) (l_hist (line_of s)) nav.
Proof.
  intros Hok Hnav [Hlen Hch]. pose proof Hok as [Hb ? ? ? ? ? ? ?]. unfold CMD_BUF_MAX in *. pose proof (lenZ_nonneg l).
  assert (Hok' : line_ok (set_nav nav s)) by (by split).
  destruct (line_ok_set (set_nav nav s) (arr_copy 0 (l ++ [0]) (cmd_buf s)) (lenZ l) (lenZ l) l) as [Ho Hl];
    try done; unfold CMD_BUF_MAX; try lia.
  - rewrite length_arr_copy; unfold lenZ in *; rewrite ?length_app; simpl; lia.
  - unfold prefix_text, arr_copy, lenZ. simpl. rewrite Nat2Z.id, <- app_assoc. apply take_app_length.
Qed.

(** The line after a key, or the same line when the key does nothing. *)
Definition edits s (o : option (shell H D)) (l : line) : Prop :=
  match o with Some s' => line_ok s' /\ line_of s' = l | None => line_of s = l end.

Section keys.
Context s (Hok : line_ok s).
Let t := prefix_text (cmd_len s) (cmd_buf s).
Let h := take (Z.to_nat (history_count s)) (history s).

Lemma move_spec c : 0 <= c <= cmd_len s -> edits s (Some (move_cursor c s)) (Line t c h (history_nav s)).
Proof. intros Hc. destruct Hok. split; [by split|done]. Qed.

Lemma backspace_spec : edits s (edit_backspace s)
  (if decide (0 < cmd_cursor s) then Line (take (Z.to_nat (cmd_cursor s - 1)) t ++ drop (Z.to_nat (cmd_cursor s)) t) (cmd_cursor s - 1) h (history_nav s)
   else line_of s).
Proof.
  pose proof Hok as [Hb Hl Hc Ht _ _ _ _]. unfold CMD_BUF_MAX in *. unfold edit_backspace.
  destruct (Z.ltb_spec 0 (cmd_cursor s)); [rewrite decide_True by done|by rewrite decide_False by lia].
  rewrite u32_id by lia. apply line_ok_set; try done; unfold CMD_BUF_MAX; try lia.
  - rewrite length_arr_move; lia.
  - pose proof (arr_remove (cmd_len s) (cmd_cursor s - 1) (cmd_len s - cmd_cursor s + 1) (cmd_buf s)) as Hr.
    replace (cmd_cursor s - 1 + 1) with (cmd_cursor s) in Hr by lia. rewrite Hr by lia.
    by replace (S (Z.to_nat (cmd_cursor s - 1))) with (Z.to_nat (cmd_cursor s)) by lia.
  - apply Forall_app_2; [by apply Forall_take|by apply Forall_drop].
Qed.

Lemma delete_spec : edits s (edit_delete s)
  (if decide (cmd_cursor s < lenZ t) then Line (take (Z.to_nat (cmd_cursor s)) t ++ drop (S (Z.to_nat (cmd_cursor s))) t) (cmd_cursor s) h (history_nav s)
   else line_of s).
Proof.
  pose proof Hok as [Hb Hl Hc Ht _ _ _ _]. unfold CMD_BUF_MAX in *. unfold edit_delete, t. rewrite text_len by done.
  destruct (Z.ltb_spec (cmd_cursor s) (cmd_len s)); [rewrite decide_True by done|by rewrite decide_False by lia].
  rewrite u32_id by lia. apply line_ok_set; try done; unfold CMD_BUF_MAX; try lia.
  - rewrite length_arr_move; lia.
  - by rewrite arr_remove by lia.
  - apply Forall_app_2; [by apply Forall_take|by apply Forall_drop].
Qed.

Lemma insert_spec ev : 32 <= ev <= 126 -> edits s (edit_insert ev s)
  (if decide (lenZ t < 255) then Line (take (Z.to_nat (cmd_cursor s)) t ++ ev :: drop (Z.to_nat (cmd_cursor s)) t) (cmd_cursor s + 1) h (history_nav s)
   else line_of s).
Proof.
  intros Hev. pose proof Hok as [Hb Hl Hc Ht _ _ _ _]. unfold CMD_BUF_MAX in *. unfold edit_insert, t. rewrite text_len by done.
  unfold CMD_BUF_MAX. destruct (Z.ltb_spec (cmd_len s) (256 - 1)); [rewrite decide_True by done|by rewrite decide_False by lia].
  rewrite u32_id, u8_id by lia. apply line_ok_set; try done; unfold CMD_BUF_MAX; try lia.
  - rewrite lenZ_updZ, length_arr_move; lia.
  - by rewrite arr_insert by lia.
  - apply Forall_app_2; [by apply Forall_take|]. apply Forall_cons_2; [unfold is_char; lia|by apply Forall_drop].
Qed.

Lemma up_spec : edits s (edit_up s)
  (if decide (h = []) then line_of s
   else let n := if decide (history_nav s < 0) then lenZ h - 1 else Z.max 0 (history_nav s - 1) in
        Line (nthZ [] h n) (lenZ (nthZ [] h n)) h n).
Proof.
  pose proof Hok as [_ _ _ _ Hh Hn Hnav _]. pose proof (hist_len s Hok) as Hhl. unfold edit_up.
  destruct (Z.ltb_spec 0 (history_count s)).
  - rewrite decide_False by (unfold h; intros E; rewrite E in Hhl; unfold lenZ in Hhl; simpl in Hhl; lia). cbv zeta.
    set (nav := if history_nav s <? 0 then _ else _).
    assert (0 <= nav < history_count s /\ (if decide (history_nav s < 0) then lenZ h - 1 else Z.max 0 (history_nav s - 1)) = nav) as [Hnv ->].
    { subst nav. unfold h. rewrite Hhl. destruct (Z.ltb_spec (history_nav s) 0), (Z.ltb_spec 0 (history_nav s)); case_decide; lia. }
    unfold h. rewrite hist_at by done. apply recall_spec; [done|lia|]. by apply hist_line_at.
  - rewrite decide_True; [done|]. apply nil_length_inv. unfold lenZ, h in *. lia.
Qed.

Lemma down_spec : edits s (edit_down s)
  (if decide (history_nav s < 0) then line_of s
   else if decide (lenZ h <= history_nav s + 1) then Line [] 0 h (-1)
   else Line (nthZ [] h (history_nav s + 1)) (lenZ (nthZ [] h (history_nav s + 1))) h (history_nav s + 1)).
Proof.
  pose proof Hok as [Hb _ _ _ Hh Hn Hnav _]. unfold edit_down, h. rewrite hist_len by done. unfold CMD_BUF_MAX in *.
  destruct (Z.leb_spec 0 (history_nav s)); [|by rewrite decide_True by lia].
  rewrite decide_False by lia. destruct (Z.leb_spec (history_count s) (history_nav s + 1)).
  - rewrite decide_True by lia.
    destruct (line_ok_set s (updZ 0 0 (cmd_buf s)) 0 0 []) as [Ho He]; try done; unfold CMD_BUF_MAX; try lia; [by rewrite lenZ_updZ|].
    destruct Ho. split; [split; simpl in *; try done; lia|]. done.
  - rewrite decide_False by lia. rewrite hist_at by (done || lia). apply recall_spec; [done|lia|]. apply hist_line_at; (done || lia).
Qed.
End keys.

(** * The history *)

Lemma shift_spec (l : list (list Z)) : lenZ l = HISTORY_MAX ->
  for_range 0 (HISTORY_MAX - 1) (fun i h => updZ i (nthZ [] h (i + 1)) h) l = drop 1 l ++ [nthZ [] l 15].
Proof.
  intros Hl. do 16 (destruct l as [|? l]; [done|]). destruct l; [|unfold lenZ, HISTORY_MAX in Hl; simpl in Hl; lia]. reflexivity.
Qed.

Lemma history_push_spec s l :
  line_ok s -> Forall is_char l -> lenZ l <= 255 ->
  let s' := history_push l s in
  (history_nav s = -1 -> line_ok s') /\ line_of s' = Line (l_text (line_of s)) (l_cur (line_of s)) (remember l (l_hist (line_of s))) (l_nav (line_of s)).
Proof.
  intros Hok Hl Hlen. pose proof Hok as [Hb ? ? ? Hh Hn Hnav Hls]. pose proof (hist_len s Hok) as Hhl. cbv zeta.
  unfold history_push, remember. case_bool_decide as Hnil; [rewrite decide_True by auto; done|].
  simpl l_hist. set (h := take (Z.to_nat (history_count s)) (history s)) in *.
  assert (Hlast : 0 < history_count s -> last h = Some (nthZ [] (history s) (history_count s - 1))).
  { intros Hp. rewrite <- (hist_at s (history_count s - 1)) by (done || lia). fold h. unfold nthZ. rewrite (proj2 (Z.ltb_ge _ 0)) by lia.
    unfold lenZ in Hhl. destruct (lookup_lt_is_Some_2 h (Z.to_nat (history_count s - 1))) as [x Hx]; [lia|].
    rewrite last_lookup. replace (Init.Nat.pred (length h)) with (Z.to_nat (history_count s - 1)) by lia. by rewrite Hx. }
  assert (Hdup : ((0 <? history_count s) && (strcmp (nthZ [] (history s) (history_count s - 1)) l =? 0))%bool = bool_decide (last h = Some l)).
  { destruct (Z.ltb_spec 0 (history_count s)) as [Hp|Hp]; simpl.
    - rewrite (Hlast Hp). pose proof (hist_line_at s (history_count s - 1) Hok ltac:(lia)) as [_ Hc].
      pose proof (strcmp_zero_iff (nthZ [] (history s) (history_count s - 1)) l Hc Hl) as Hz.
      case_bool_decide as E; [apply Z.eqb_eq, Hz; congruence|]. apply Z.eqb_neq. intros E'%Hz. apply E. by rewrite E'.
    - symmetry. apply bool_decide_eq_false. assert (h = []) as -> by (apply nil_length_inv; unfold lenZ in Hhl; lia). done. }
  rewrite Hdup. case_bool_decide as Hd; [rewrite decide_True by auto; done|]. rewrite decide_False by tauto.
  unfold HISTORY_MAX in *. unfold lenZ in Hhl. destruct (Z.ltb_spec (history_count s) 16) as [Hlt|Hge].
  - assert (Hh' : take (Z.to_nat (history_count s + 1)) (updZ (history_count s) l (history s)) = h ++ [l]).
    { unfold updZ. rewrite (proj2 (Z.ltb_ge _ 0)) by lia. replace (Z.to_nat (history_count s + 1)) with (S (Z.to_nat (history_count s))) by lia.
      rewrite (take_S_r _ _ l) by (apply list_lookup_insert_eq; unfold lenZ in *; lia). f_equal. by rewrite take_insert_ge by lia. }
    split.
    + intros Hnv. split; try done; simpl; [by rewrite lenZ_updZ|unfold HISTORY_MAX; lia|lia|]. rewrite Hh'. apply Forall_app_2; [done|].
      apply Forall_cons_2; [done|apply Forall_nil_2].
    + unfold line_of. simpl. rewrite Hh'. by replace (length h + 1 - 16)%nat with 0%nat by lia.
  - assert (history_count s = 16) as Hc16 by lia.
    assert (Hh' : take (Z.to_nat (history_count s)) (updZ (16 - 1) l (for_range 0 (16 - 1) (fun i h => updZ i (nthZ [] h (i + 1)) h) (history s))) = drop 1 h ++ [l]).
    { pose proof (shift_spec (history s) Hh) as Hs. unfold HISTORY_MAX in Hs. rewrite Hs, Hc16. unfold h. rewrite Hc16.
      rewrite (take_ge (history s)) by (unfold lenZ in *; lia). unfold lenZ in Hh.
      assert (length (drop 1 (history s)) = 15%nat) as H15 by (rewrite length_drop; lia).
      unfold updZ. simpl (16 - 1 <? 0). cbv iota. change (Z.to_nat (16 - 1)) with 15%nat. rewrite <- H15 at 1.
      rewrite <- (Nat.add_0_r (length (drop 1 (history s)))), insert_app_r. simpl. rewrite take_ge; [done|]. rewrite length_app, length_drop. simpl. lia. }
    split.
    + intros Hnv. split; simpl; try done; try (unfold HISTORY_MAX; lia).
      * rewrite lenZ_updZ. pose proof (shift_spec (history s) Hh) as Hs. unfold HISTORY_MAX in *. rewrite Hs. unfold lenZ in *.
        rewrite length_app, length_drop. simpl. lia.
      * rewrite Hh'. apply Forall_app_2; [by apply Forall_drop|]. apply Forall_cons_2; [done|apply Forall_nil_2].
    + unfold line_of. simpl. rewrite Hh'. rewrite Hc16 in Hhl. replace (length h + 1 - 16)%nat with 1%nat by lia.
      f_equal. destruct h; [simpl in Hhl; lia|]. done.
Qed.
End line.
