(* ===== verification/ShellView.v ===== *)
(** ShellView: the command line on the screen. *)

From S2P Require Import Prelude Ports Partial Memory Common Text Array Ring Serial SerialTx Font Pmm.
From S2P Require Import Heap HeapInv HeapSpec HeapRun Disk Fat FatFile Paging Vbe VbeSpec Rtc Net.
From S2P Require Import Pic Mouse Keyboard Console ConsoleGrid ConsoleSpec ConsolePaper ConsoleClear Shell ShellLine.
#[local] Open Scope partial_scope.

(** A position [pos] counted from column 0 of row [pr], on rows of [cols] cells. *)
Lemma cell_pos cols pr pos r c : 0 < cols -> 0 <= c < cols ->
  (r = pr + pos / cols /\ c = pos mod cols) <-> (r - pr) * cols + c = pos.
Proof.
  intros Hcols Hc. split.
  - intros [-> ->]. pose proof (Z.div_mod pos cols). lia.
  - intros <-. rewrite (Z.add_comm _ c), Z.div_add, Z.mod_add by lia. rewrite Z.div_small, Z.mod_small by lia. lia.
Qed.

Section view.
Context {H D : Type} `{UartTx H} `{!BytePorts H} `{BlockDev D} (rows cols : Z).
Implicit Types s : shell H D.
Implicit Types con : console H.

(** The cells [ch 0], [ch 1], ... written from column [pc] of row [pr] on. *)
Definition overlay (g : Z -> Z -> console_cell_t) (pr pc n : Z) (ch : Z -> Z) (r c : Z) : console_cell_t :=
  let j := (r - pr) * cols + c - pc in
  if decide (0 <= j < n) then Cell (ch j) 15 else g r c.

Lemma overlay_spec con g x y pr pc n ch :
  screen rows cols con g x y -> 0 <= pr -> 0 <= pc < cols -> 0 <= n -> pr + (pc + n) / cols < rows ->
  let con' := for_range 0 n (fun i con => console_put_cell (Z.rem (pc + i) (con_cols con)) (pr + (pc + i) ÷ con_cols con) (ch i) 15 con) con in
  screen rows cols con' (overlay g pr pc n ch) x y /\ con_ser con' = con_ser con.
Proof.
  intros Hs Hpr Hpc Hn Hfit. cbv zeta.
  refine (for_range_inv (fun i con1 => screen rows cols con1 (overlay g pr pc i ch) x y /\ con_ser con1 = con_ser con) 0 n _ con _ _ _); [done| |].
  { split; [|done]. eapply screen_ext; [exact Hs|]. intros r c _ _. unfold overlay. by rewrite decide_False by lia. }
  intros i con1 Hi [Hs1 Hser]. rewrite (sc_cols _ _ _ _ _ _ Hs1). rewrite Z.quot_div_nonneg, Z.rem_mod_nonneg by lia.
  pose proof (Z.mod_pos_bound (pc + i) cols ltac:(lia)) as Hm. assert (Hd : 0 <= (pc + i) / cols <= (pc + n) / cols).
  { split; [apply Z.div_pos; lia|apply Z.div_le_mono; lia]. }
  destruct (put_cell_spec rows cols con1 _ x y ((pc + i) mod cols) (pr + (pc + i) / cols) (ch i) 15 Hs1) as (Hs2 & Hser2 & _); [lia..|].
  split; [|congruence]. eapply screen_ext; [exact Hs2|]. intros r c Hr Hc. unfold put, overlay. cbv zeta.
  pose proof (cell_pos cols pr (pc + i) r c ltac:(lia) Hc) as Hcell. destruct (decide _) as [He|Hne].
  - apply Hcell in He. rewrite decide_True by lia. f_equal. f_equal. lia.
  - assert ((r - pr) * cols + c <> pc + i) by tauto. repeat case_decide; (done || lia).
Qed.

Lemma overlay_at g pr pc n ch i :
  0 < cols -> 0 <= i < n -> overlay g pr pc n ch (pr + (pc + i) / cols) ((pc + i) mod cols) = Cell (ch i) 15.
Proof.
  intros Hcols Hi. unfold overlay. pose proof (Z.div_mod (pc + i) cols ltac:(lia)).
  replace ((pr + (pc + i) / cols - pr) * cols + (pc + i) mod cols - pc) with i by lia. by rewrite decide_True by lia.
Qed.

Lemma needed_rows total : 0 < cols -> 0 <= total -> (total + 1 + cols - 1) ÷ cols = total / cols + 1.
Proof.
  intros. rewrite Z.quot_div_nonneg by lia. replace (total + 1 + cols - 1) with (total + 1 * cols) by lia. by rewrite Z.div_add by lia.
Qed.

(** Room for the longest line. *)
Definition roomy : Prop := 0 < cols /\ 255 + 2 * cols <= rows * cols.

(** The line is on the screen: the text in white after the prompt, blanks to
    where it reached before ([prev_len]), and the cursor in it. *)
Record line_shown (prev_len : Z) s : Prop := {
  ls_prompt : 0 <= prompt_col s < cols /\ 0 <= prompt_row s;
  ls_cursor : cursor_shown (sh_con s);
  ls_ready : com1_ready (sh_con s);
  ls_screen : exists g,
    screen rows cols (sh_con s) g ((prompt_col s + cmd_cursor s) mod cols)
      (prompt_row s + (prompt_col s + cmd_cursor s) / cols) /\
    (forall i, 0 <= i < Z.max (cmd_len s) prev_len ->
       g (prompt_row s + (prompt_col s + i) / cols) ((prompt_col s + i) mod cols) =
       Cell (if decide (i < cmd_len s) then nthZ 0 (cmd_buf s) i else 32) 15) /\
    prompt_row s + (prompt_col s + Z.max (cmd_len s) prev_len) / cols < rows
}.

(** Sending any bytes on the serial line leaves the screen. *)
Definition only_serial (con con' : console H) : Prop := exists u l, con' = set_ser u con /\ sends COM1_PORT l (con_ser con) u.
Lemma only_serial_refl con : only_serial con con.
Proof. exists (con_ser con), []. split; [by destruct con|apply sends_refl]. Qed.
Lemma only_serial_trans c1 c2 c3 : only_serial c1 c2 -> only_serial c2 c3 -> only_serial c1 c3.
Proof. intros (u & l & -> & Hu) (w & l' & -> & Hw). exists w, (l ++ l'). split; [done|]. by eapply sends_trans. Qed.
Lemma only_serial_ready con con' : only_serial con con' -> com1_ready con -> com1_ready con'.
Proof. intros (u & l & -> & Hu) Hr. by eapply com1_sends. Qed.

Lemma only_serial_bind {A} (m : PM (console H) unit) (k : unit -> PM (console H) A) con :
  returns m con (fun _ con' => only_serial con con') ->
  (forall con', com1_ready con' -> returns (k tt) con' (fun _ con'' => only_serial con' con'')) ->
  com1_ready con -> returns (p_bind m k) con (fun _ con' => only_serial con con').
Proof.
  intros Hm Hk Hr. apply returns_bind. eapply returns_mono; [exact Hm|]. intros [] con1 H1'.
  eapply returns_mono; [apply Hk; by eapply only_serial_ready|]. intros x con2 H2'. by eapply only_serial_trans.
Qed.
Lemma only_serial_each {A} (f : A -> PM (console H) unit) l con :
  (forall x con, x ∈ l -> com1_ready con -> returns (f x) con (fun _ con' => only_serial con con')) ->
  com1_ready con -> returns (p_each l f) con (fun _ con' => only_serial con con').
Proof.
  intros Hf. revert con. induction l as [|x l IH]; intros con Hr; [apply returns_ret, only_serial_refl|].
  cbn [p_each]. apply only_serial_bind; [apply Hf; [apply list_elem_of_here|done]| |done].
  intros con' Hr'. apply IH; [|done]. intros y c Hy. apply Hf. by apply list_elem_of_further.
Qed.
Lemma putc_only c con : is_u8 c -> com1_ready con -> returns (ser_putc c) con (fun _ con' => only_serial con con').
Proof. intros Hc Hr. eapply returns_mono; [by apply ser_putc_spec|]. intros [] con' (u & -> & Hu). by exists u, (on_wire c). Qed.
Lemma puts_only t con : Forall is_u8 t -> com1_ready con -> returns (ser_puts t) con (fun _ con' => only_serial con con').
Proof. intros Ht Hr. eapply returns_mono; [by apply ser_puts_spec|]. intros [] con' (u & -> & Hu). by eexists u, _. Qed.

Lemma char_u8 c : is_char c -> is_u8 c.
Proof. unfold is_char, is_u8. lia. Qed.

Lemma redraw_serial_spec prev_len s con :
  line_ok s -> Forall is_u8 (username s) -> com1_ready con ->
  returns (redraw_serial prev_len s) con (fun _ con' => only_serial con con').
Proof.
  intros Hok Hu Hr. unfold redraw_serial.
  apply only_serial_bind; [by apply putc_only| |done]. intros c1 Hr1.
  apply only_serial_bind; [by apply puts_only| |done]. intros c2 Hr2.
  apply only_serial_bind; [apply puts_only; [repeat (apply Forall_cons_2; [by compute|]); apply Forall_nil_2|done]| |done]. intros c3 Hr3.
  apply only_serial_bind; [| |done].
  { apply only_serial_each; [|done]. intros i c Hi Hrc. apply putc_only; [|done]. apply elem_of_seqZ in Hi.
    pose proof (lo_text _ Hok) as Ht. rewrite Forall_lookup in Ht. pose proof (text_len s Hok) as Hl. unfold lenZ in Hl.
    destruct (lookup_lt_is_Some_2 (prefix_text (cmd_len s) (cmd_buf s)) (Z.to_nat i)) as [x Hx]; [lia|].
    pose proof (Ht _ _ Hx) as Hch. rewrite lookup_prefix, decide_True in Hx by lia. unfold nthZ.
    rewrite (proj2 (Z.ltb_ge i 0)), Hx by lia. by apply char_u8. }
  intros c4 Hr4. apply only_serial_bind; [| |done]; [|intros c5 Hr5]; (apply only_serial_each; [|done]); intros; by apply putc_only.
Qed.

(** ** Drawing the line again *)

(** [s'] is [s] with another screen, scrolled by [k] rows. *)
Definition scrolled_by (k : Z) (con : console H) s : shell H D := set_prompt (prompt_col s) (prompt_row s - k) (set_con con s).

Lemma scroll_loop s g x y needed :
  screen rows cols (sh_con s) g x y -> 0 <= prompt_row s -> 0 <= needed <= rows ->
  returns (p_while (S (Z.to_nat (prompt_row s + needed)))
      (s <- p_get;; p_ret (con_rows (sh_con s) <? prompt_row s + needed))
      (on_con console_scroll_up;; p_mod (fun s => set_prompt (prompt_col s) (prompt_row s - 1) s))) s
    (fun _ s' => exists k con' g', s' = scrolled_by k con' s /\ screen rows cols con' g' x y /\
      con_ser con' = con_ser (sh_con s) /\ 0 <= prompt_row s - k /\ prompt_row s - k + needed <= rows).
Proof.
  intros Hs Hp Hn. apply (returns_while
    (fun s1 => exists k con' g', s1 = scrolled_by k con' s /\ screen rows cols con' g' x y /\
      con_ser con' = con_ser (sh_con s) /\ 0 <= k /\ 0 <= prompt_row s - k)
    (fun s1 => Z.to_nat (prompt_row s1 + needed - rows))).
  - exists 0, (sh_con s), g. split_and!; try done; [|lia]. unfold scrolled_by. rewrite Z.sub_0_r. by destruct s.
  - pose proof (co_rows _ (sc_ok _ _ _ _ _ _ Hs)) as Hr. rewrite (sc_rows _ _ _ _ _ _ Hs) in Hr. lia.
  - intros s1 (k & con' & g' & -> & Hs' & Hser & Hk & Hpk). apply returns_bind. eexists _, _. split; [done|]. apply returns_ret.
    simpl. rewrite (sc_rows _ _ _ _ _ _ Hs'). destruct (Z.ltb_spec rows (prompt_row s - k + needed)).
    + apply returns_bind, returns_part. simpl. eapply returns_mono; [by apply (scroll_up_spec rows cols con')|].
      intros [] con2 (Hs2 & _ & Hser2). eexists _, _. split; [done|]. split; [|simpl; lia].
      exists (k + 1), con2, (scrolled rows g'). split_and!; try done; try lia; [|congruence].
      unfold scrolled_by, set_prompt. simpl. f_equal. lia.
    + exists k, con', g'. split_and!; try done; lia.
Qed.

Lemma redraw_spec s g x y prev_len sync :
  roomy -> line_ok s -> Forall is_u8 (username s) -> screen rows cols (sh_con s) g x y -> com1_ready (sh_con s) ->
  0 <= prompt_col s < cols -> 0 <= prompt_row s -> 0 <= prev_len <= 255 ->
  returns (redraw_input_line prev_len sync) s (fun _ s' =>
    line_shown prev_len s' /\ line_ok s' /\ line_of s' = line_of s /\ username s' = username s).
Proof.
  intros [Hcols Hroom] Hok Hu Hs Hr Hpc Hpr Hprev. pose proof Hok as [_ Hlen Hcur _ _ _ _ _]. unfold CMD_BUF_MAX in *.
  unfold redraw_input_line. apply returns_bind. eexists _, _. split; [done|]. cbv beta zeta.
  assert (Hmax : (if prev_len <? cmd_len s then cmd_len s else prev_len) = Z.max (cmd_len s) prev_len)
    by (destruct (Z.ltb_spec prev_len (cmd_len s)); lia).
  rewrite Hmax. set (n := Z.max (cmd_len s) prev_len) in *. rewrite (sc_cols _ _ _ _ _ _ Hs).
  rewrite needed_rows by lia. assert (Hq : 0 <= (prompt_col s + n) / cols < rows - 1).
  { split; [apply Z.div_pos; lia|]. apply Z.div_lt_upper_bound; lia. }
  apply returns_bind, returns_part. eexists _, _. split; [done|].
  destruct (undraw_if_spec rows cols _ _ _ _ Hs) as (Hs1 & _ & Hser1). set (con1 := if active _ then _ else _) in *. clearbody con1.
  apply returns_bind.
  eapply returns_mono; [apply (scroll_loop (set_con con1 s) g x y ((prompt_col s + n) / cols + 1) Hs1 Hpr); lia|].
  intros [] s2 (k & con2 & g2 & -> & Hs2 & Hser2 & Hk & Hfit). simpl in Hk, Hfit, Hser2.
  apply returns_bind. eexists _, _. split; [done|]. apply returns_bind, returns_part. eexists _, _. split; [done|]. simpl.
  destruct (overlay_spec con2 g2 x y (prompt_row s - k) (prompt_col s) n (fun i => if i <? cmd_len s then nthZ 0 (cmd_buf s) i else 32) Hs2)
    as [Hs3 Hser3]; [lia..|].
  unfold redraw_cells. simpl. match type of Hs3 with screen _ _ ?c _ _ _ => set (con3 := c) in * end. change (con_ser con3 = con_ser con2) in Hser3. clearbody con3.
  assert (Hcq : 0 <= (prompt_col s + cmd_cursor s) / cols <= (prompt_col s + n) / cols).
  { split; [apply Z.div_pos; lia|apply Z.div_le_mono; lia]. }
  rewrite Z.quot_div_nonneg, Z.rem_mod_nonneg by lia. pose proof (Z.mod_pos_bound (prompt_col s + cmd_cursor s) cols ltac:(lia)).
  apply returns_bind, returns_part. simpl.
  eapply returns_mono; [apply (set_cursor_spec rows cols con3 _ _ _ _ _ Hs3)|]. intros [] con4 (Hs4 & Hcur4 & Hsend4).
  rewrite !clamp_id in Hs4 by lia. rewrite Hser3, Hser2, Hser1 in Hsend4. pose proof (com1_sends _ _ _ Hr Hsend4) as Hr4.
  assert (Hend : forall con5, only_serial con4 con5 -> line_shown prev_len (scrolled_by k con5 s)).
  { intros con5 Hos. pose proof (only_serial_ready _ _ Hos Hr4). destruct Hos as (u & l & -> & Hu5).
    split; simpl; [lia|exact Hcur4|done|]. eexists. split; [apply screen_ser; exact Hs4|]. split; [|simpl; fold n; lia].
    intros i Hi. fold n in Hi. rewrite overlay_at by lia. f_equal. destruct (Z.ltb_spec i (cmd_len s)); case_decide; (done || lia). }
  assert (Hok' : forall con, line_ok (scrolled_by k con s)) by (intros con; destruct Hok; by split).
  destruct sync.
  - apply returns_part. simpl. eapply returns_mono; [apply redraw_serial_spec; [exact (Hok' con2)|done..]|]. intros [] con5 Hos.
    split; [by apply Hend|]. split; [apply (Hok' con5)|done].
  - apply returns_ret. split; [apply (Hend con4), only_serial_refl|]. split; [apply (Hok' con4)|done].
Qed.

(** ** Typing *)

Lemma line_shown_serial p s con' :
  line_shown p s -> only_serial (sh_con s) con' -> line_shown p (set_con con' s).
Proof.
  intros [Hp Hc Hr (g & Hs & Hg & Hfit)] Hos. pose proof (only_serial_ready _ _ Hos Hr). destruct Hos as (u & l & -> & Hu).
  split; try done. exists g. split; [by apply screen_ser|done].
Qed.

(** A key that edits the line, then the line drawn again. *)
Lemma after_edit_spec s o l at_end tail_ :
  roomy -> line_ok s -> Forall is_u8 (username s) -> line_shown 0 s -> edits s o l ->
  (match o with Some s' => sh_con s' = sh_con s /\ username s' = username s /\ prompt_col s' = prompt_col s /\ prompt_row s' = prompt_row s
   | None => True end) ->
  (forall con, com1_ready con -> returns tail_ con (fun _ con' => only_serial con con')) ->
  returns (after_edit (cmd_len s) at_end tail_ o) s (fun _ s' =>
    line_ok s' /\ line_of s' = l /\ line_shown (cmd_len s) s' /\ username s' = username s).
Proof.
  intros Hroom Hok Hu Hsh Hed Hsame Htail. pose proof Hsh as [Hp Hc Hr (g & Hs & Hg & Hfit)]. pose proof Hok as [_ Hlen _ _ _ _ _ _].
  unfold CMD_BUF_MAX in *. unfold after_edit. destruct o as [s1|].
  - destruct Hed as [Hok1 Hl1]. destruct Hsame as (E1 & E2 & E3 & E4). apply returns_bind. eexists _, _. split; [done|].
    assert (Hre : forall sync, returns (redraw_input_line (cmd_len s) sync) s1 (fun _ s' =>
      line_shown (cmd_len s) s' /\ line_ok s' /\ line_of s' = line_of s1 /\ username s' = username s1)).
    { intros sync. eapply redraw_spec; rewrite ?E1, ?E2, ?E3, ?E4; try done; lia. }
    destruct at_end.
    + apply returns_bind. eapply returns_mono; [apply Hre|]. intros [] s2 (Hsh2 & Hok2 & Hl2 & Hu2).
      apply returns_part. eapply returns_mono; [apply Htail, Hsh2|]. intros [] con' Hos.
      split_and!; [by destruct Hok2|by rewrite <- Hl1, <- Hl2|by apply line_shown_serial|simpl; congruence].
    + eapply returns_mono; [apply Hre|]. intros [] s2 (Hsh2 & Hok2 & Hl2 & Hu2).
      split; [done|]. split; [by rewrite Hl2|]. split; [done|congruence].
  - apply returns_ret. split_and!; try done. split; try done. exists g. split; [done|].
    replace (Z.max (cmd_len s) (cmd_len s)) with (Z.max (cmd_len s) 0) by lia. done.
Qed.

Lemma ctrl_keys : CTRL_KEY 97 = 1 /\ CTRL_KEY 99 = 3 /\ CTRL_KEY 101 = 5 /\ CTRL_KEY 108 = 12.
Proof. done. Qed.

(** C31: typing edits the line and shows it.  For every editing key (the
    printable characters, backspace, delete, the arrows, home, end and their
    control keys) the text, the cursor and the position in the history change
    as on the abstract line, the buffer and the cursor stay in bounds, and the
    screen shows the new line after the prompt, with blanks where the old one
    was longer and the cursor at its place. *)
Theorem typing_shows_the_line execute help gui ev s :
  roomy -> line_ok s -> Forall is_u8 (username s) -> line_shown 0 s -> editing_key ev ->
  returns (shell_handle_event execute help gui ev) s (fun _ s' =>
    line_ok s' /\ line_of s' = edit_line ev (line_of s) /\ line_shown (cmd_len s) s' /\ username s' = username s).
Proof.
  intros Hroom Hok Hu Hsh Hev. destruct ctrl_keys as (Ha & Hc & He & Hl).
  assert (Hpos : 0 < ev /\ ev <> NL /\ ev <> CTRL_KEY 99 /\ ev <> CTRL_KEY 108 /\ ev <> TAB /\ ev <> KEY_SPECIAL_F1 /\ ev <> KEY_SPECIAL_F2).
  { rewrite Hc, Hl. unfold NL, TAB, KEY_SPECIAL_F1, KEY_SPECIAL_F2.
    destruct Hev as [Hin|]; [|lia]. rewrite Ha, He in Hin. repeat (apply elem_of_cons in Hin as [->|Hin]; [by compute|]). by apply elem_of_nil in Hin. }
  destruct Hpos as (Hp & H1' & H2' & H3' & H4' & H5' & H6').
  unfold shell_handle_event. rewrite (proj2 (Z.leb_gt ev 0)) by lia. apply returns_bind. eexists _, _. split; [done|]. cbv zeta.
  rewrite (proj2 (Z.eqb_neq _ _) H1'), (proj2 (Z.eqb_neq _ _) H2'), (proj2 (Z.eqb_neq _ _) H3').
  rewrite (proj2 (Z.eqb_neq _ _) H4'), (proj2 (Z.eqb_neq _ _) H5'), (proj2 (Z.eqb_neq _ _) H6').
  assert (Hnop : forall con, com1_ready con -> returns (p_ret tt) con (fun _ con' => only_serial con con'))
    by (intros; apply returns_ret, only_serial_refl).
  pose proof Hok as [_ Hlen Hcur _ _ _ _ _]. remember (edit_line ev (line_of s)) as l eqn:HL.
  unfold edit_line, line_of in HL. rewrite text_len in HL by done. revert HL.
  destruct (ev =? BS) eqn:?.
  { intros ->. apply after_edit_spec; try done; [by apply backspace_spec|unfold edit_backspace; by destruct (_ <? _)|]. intros con Hr.
    apply puts_only; [|done]. repeat (apply Forall_cons_2; [by compute|]). apply Forall_nil_2. }
  destruct (ev =? KEY_SPECIAL_DELETE) eqn:?.
  { intros ->. apply after_edit_spec; try done; [|unfold edit_delete; by destruct (_ <? _)]. pose proof (delete_spec s Hok) as Hd. by rewrite text_len in Hd by done. }
  destruct (ev =? KEY_SPECIAL_LEFT) eqn:?.
  { intros ->. apply after_edit_spec; try done; [|by destruct (_ <? _)]. destruct (Z.ltb_spec 0 (cmd_cursor s)).
    - rewrite Z.max_r by lia. apply move_spec; (done || lia).
    - rewrite Z.max_l by lia. simpl. unfold line_of. by replace 0 with (cmd_cursor s) by lia. }
  destruct (ev =? KEY_SPECIAL_RIGHT) eqn:?.
  { intros ->. apply after_edit_spec; try done; [|by destruct (_ <? _)]. destruct (Z.ltb_spec (cmd_cursor s) (cmd_len s)).
    - rewrite Z.min_r by lia. apply move_spec; (done || lia).
    - simpl. unfold line_of. by replace (Z.min (cmd_len s) (cmd_cursor s + 1)) with (cmd_cursor s) by lia. }
  destruct ((ev =? KEY_SPECIAL_HOME) || (ev =? CTRL_KEY 97)) eqn:?; [intros ->; apply after_edit_spec; try done; apply move_spec; (done || lia)|].
  destruct ((ev =? KEY_SPECIAL_END) || (ev =? CTRL_KEY 101)) eqn:?; [intros ->; apply after_edit_spec; try done; apply move_spec; (done || lia)|].
  destruct (ev =? KEY_SPECIAL_UP) eqn:?; [intros ->; apply after_edit_spec; try done; [by apply up_spec|unfold edit_up; by destruct (_ <? _)]|].
  destruct (ev =? KEY_SPECIAL_DOWN) eqn:?; [intros ->; apply after_edit_spec; try done; [by apply down_spec|unfold edit_down; destruct (_ <=? _); [by destruct (_ <=? _)|done]]|].
  assert (Hch : 32 <= ev <= 126).
  { destruct Hev as [Hin|]; [|done]. exfalso. repeat (apply elem_of_cons in Hin as [->|Hin]; [done|]). by apply elem_of_nil in Hin. }
  rewrite (proj2 (Z.leb_le 32 ev)), (proj2 (Z.leb_le ev 126)) by lia. simpl andb. cbv iota.
  intros ->. apply after_edit_spec; try done.
  - pose proof (insert_spec s Hok ev Hch) as Hi. by rewrite text_len in Hi by done.
  - unfold edit_insert. by destruct (_ <? _).
  - intros con Hr. apply putc_only; [|done]. apply u8_range.
Qed.
End view.

(** * A shell to try it on *)

Definition unmounted : fat_fs array_dev :=
  FatFs (FatBoot 512 1 1 2 112 64 1 0 []) 0 1 3 7 10 54 12 false (ArrayDev 0 (fun _ => zero_sector)).
(** A shell before the first key, with one line in its history. *)
Definition sample_shell : shell tty array_dev :=
  Sh (sample_console no_fb 25 80) unmounted (str "tiger") (replicate 256 0) 0 0 0 0 (str "dir" :: replicate 15 []) 1 (-1) 0.

Lemma sample_shell_ok : line_ok sample_shell.
Proof.
  split; try (by compute). apply Forall_cons_2; [|apply Forall_nil_2].
  split; [by compute|]. repeat (apply Forall_cons_2; [by compute|]). apply Forall_nil_2.
Qed.
Lemma sample_shell_shown : line_shown 25 80 0 sample_shell.
Proof.
  split; simpl; [lia|intros Ha; discriminate Ha|split; reflexivity|].
  exists (window start_paper). split; [exact sample_vga_screen|]. split; [intros i Hi; lia|]. reflexivity.
Qed.

Lemma typing_shows_the_line_witness :
  returns (shell_handle_event (fun _ => p_ret tt) (p_ret tt) (p_ret tt) KEY_SPECIAL_UP) sample_shell (fun _ s' =>
    line_ok s' /\ line_of s' = Line (str "dir") 3 [str "dir"] 0 /\ line_shown 25 80 0 s' /\ username s' = str "tiger").
Proof.
  apply (typing_shows_the_line 25 80 (fun _ => p_ret tt) (p_ret tt) (p_ret tt) KEY_SPECIAL_UP sample_shell).
  - split; lia.
  - exact sample_shell_ok.
  - repeat (apply Forall_cons_2; [by compute|]). apply Forall_nil_2.
  - exact sample_shell_shown.
  - left. set_solver.
Defined.

(** The history keeps the last 16 lines: executing a line adds it at the
    end, unless it is empty or the same as the last one, and drops the oldest
    line when there are more than 16. *)
Theorem history_keeps_the_last {H D} (s : shell H D) l :
  line_ok s -> history_nav s = -1 -> Forall is_char l -> lenZ l <= 255 ->
  line_ok (history_push l s) /\ l_hist (line_of (history_push l s)) = remember l (l_hist (line_of s)) /\
  (length (remember l (l_hist (line_of s))) <= 16)%nat.
Proof.
  intros Hok Hnav Hl Hlen. destruct (history_push_spec s l Hok Hl Hlen) as [Hok' He]. split; [auto|].
  rewrite He. split; [done|]. pose proof (hist_len s Hok) as Hhl. pose proof (lo_count _ Hok). unfold HISTORY_MAX, lenZ in *.
  unfold remember. simpl. case_decide; [lia|]. rewrite length_drop, length_app. simpl. lia.
Qed.

Lemma history_keeps_the_last_witness :
  line_ok (history_push (str "ls") sample_shell) /\
  l_hist (line_of (history_push (str "ls") sample_shell)) = [str "dir"; str "ls"] /\ (2 <= 16)%nat.
Proof.
  destruct (history_keeps_the_last sample_shell (str "ls") sample_shell_ok eq_refl) as (Hok & Hh & Hn).
  - repeat (apply Forall_cons_2; [by compute|]). apply Forall_nil_2.
  - by compute.
  - split; [exact Hok|]. split; [rewrite Hh; reflexivity|exact Hn].
Defined.
