(* ===== verification/ShellExec.v ===== *)
(** ShellExec: the command interpreter of [kernel/shell.c]: how a line is
    split into a verb and its arguments, the commands on files, text and the
    history, and scripts.

    The commands that show or drive other subsystems (tasks, memory, network,
    PCI, time, sound, the desktop, the editor, power) are the argument [other],
    which gives the command of a verb. *)

From S2P Require Import Prelude Ports Partial Memory Common Text Array Ring Serial Font Pmm Heap.
From S2P Require Import HeapInv HeapSpec HeapRun Disk Fat FatFile Paging Vbe Rtc Net Pic Mouse.
From S2P Require Import Keyboard Console Shell.
From S2P Require Calc.
#[local] Open Scope partial_scope.

Definition FAT_ATTR_DIRECTORY : Z := 16.

(** ** Splitting a line *)

Definition is_blank (c : Z) : bool := (c =? 32) || (c =? TAB).
Fixpoint skip_blanks (s : list Z) : list Z :=
  match s with c :: s' => if is_blank c then skip_blanks s' else s | [] => [] end.
Fixpoint skip_spaces (s : list Z) : list Z :=
  match s with c :: s' => if c =? 32 then skip_spaces s' else s | [] => [] end.

(** The first word, in lower case and at most [n] characters, and the rest. *)
Fixpoint take_verb (n : nat) (p : list Z) : list Z * list Z :=
  match n, p with
  | S n, c :: p' => if is_blank c then ([], p) else let '(v, r) := take_verb n p' in (to_lower_ch c :: v, r)
  | _, _ => ([], p)
  end.
Definition parse_line (p : list Z) : list Z * list Z :=
  let '(verb, rest) := take_verb 31 p in (verb, skip_blanks rest).

(** A word up to a space, at most [n] characters. *)
Fixpoint take_word (n : nat) (p : list Z) : list Z * list Z :=
  match n, p with
  | S n, c :: p' => if c =? 32 then ([], p) else let '(w, r) := take_word n p' in (c :: w, r)
  | _, _ => ([], p)
  end.
Definition split_two_args (args : list Z) (max1 max2 : nat) : list Z * list Z :=
  let '(a1, p) := take_word (max1 - 1) (skip_spaces args) in
  (a1, take (max2 - 1) (skip_spaces p)).

(** The text before a redirection, without the blanks at its end. *)
Fixpoint trim_end (n : nat) (args : list Z) : nat :=
  match n with
  | O => O
  | S n => if nthZ 0 args (Z.of_nat n) =? 32 then trim_end n args else S n
  end.

Section exec.
Context {H D : Type} `{Ports H} `{BlockDev D} `{Allocator D}.
Notation SH := (PM (shell H D)).
Implicit Types s : shell H D.

Definition say (t : list Z) : SH unit := on_con (shell_print t).
Definition say_color (t : list Z) (color : Z) : SH unit := on_con (shell_print_color t color).
Definition say_int (n : Z) : SH unit := on_con (shell_print_int n).
Definition say_char (c : Z) : SH unit := on_con (shell_putchar c).

Definition sh_alloc (n : Z) : SH Z := fun s => '(p, fs) ← buf_alloc n (sh_fs s); Some (p, set_fs fs s).
Definition sh_free (p : Z) : SH unit := p_mod (fun s => set_fs (buf_free p (sh_fs s)) s).
Definition sh_write (name data : list Z) : SH Z := rc <- on_fs (fat_write_file name data);; p_val rc.
Definition sh_append (name data : list Z) : SH Z :=
  fun s => '(rc, fs) ← fat_append_file name data (sh_fs s); Some (rc, set_fs fs s).
Definition sh_copy (src dst : list Z) : SH Z :=
  fun s => '(rc, fs) ← fat_copy_file src dst (sh_fs s); Some (rc, set_fs fs s).

(** The bytes of a file read into a buffer of [n] bytes at [p]. *)
Definition sh_read (name : list Z) (p n : Z) : SH (option (list Z)) :=
  r <- on_fs (fat_read_file name n);;
  let '(rc, _, data) := r in
  s <- p_get;;
  p_ret (if rc =? 0 then Some (buf_bytes p n data (sh_fs s)) else None).

(** Blanks up to column [n] after a text. *)
Definition say_pad (t : list Z) (n : Z) : SH unit := p_each (seqZ (strlen t) (n - strlen t)) (fun _ => say_char 32).

Definition cmd_help : SH unit :=
  say_color ([NL] ++ strn "=== Bengal Tiger OS v1.0.0 Command Reference ===") 14;;
  say_color (strn "  System & Info:") 11;;
  say (strn "    help, info (neofetch), ver, cpu, date, uptime, dmesg, user [name]");;
  say (strn "    history, echo <txt> [> file], calc <expr>, beep [hz] [ms], gui");;
  say (strn "    clear, reboot, shutdown (poweroff)");;
  say_color (strn "  Memory & Multitasking:") 11;;
  say (strn "    mem          - Physical PMM & dynamic kernel heap usage");;
  say (strn "    ps / top     - Task table or live interactive process monitor");;
  say (strn "    spawn [n]    - Launch preemptive background worker task(s)");;
  say (strn "    kill <pid>   - Terminate a background task");;
  say_color (strn "  Storage & FAT12/FAT16 Filesystem:") 11;;
  say (strn "    ls (dir), cat <f>, edit <f>, write <f> <txt>, append <f> <txt>");;
  say (strn "    cp <src> <dst>, mv <old> <new>, rm <f>, touch <f>, stat <f>");;
  say (strn "    hexdump <f>, sh <script.sh>, df, disk, mkfs [label]");;
  say_color (strn "  PCI & TCP/IP Networking:") 11;;
  say (strn "    lspci        - List all PCI bus devices");;
  say (strn "    ifconfig     - View NIC/IP or set 'ifconfig <ip> <mask> <gw>'");;
  say (strn "    dhcp         - Acquire IPv4 lease via DHCPv4 (DORA)");;
  say (strn "    ping <ip>    - Send real ICMP Echo Requests & measure RTT");;
  say (strn "    arp, netstat - View ARP cache or protocol packet counters" ++ [NL]).

(** [cmd_date]: a failing read leaves what the stack held. *)
Definition cmd_date : SH unit :=
  s <- p_get;;
  rt <- on_con (p_zoom (fun c => serial_hw (con_ser c)) (fun h c => set_ser (set_hw h (con_ser c)) c)
                  (rtc_read_time (con_rtc (sh_con s))));;
  say (rtc_format_datetime (default (con_stack (sh_con s)) rt));;
  say (strn " UTC").

Definition cmd_user (args : list Z) : SH unit :=
  if bool_decide (args = []) then
    s <- p_get;;
    say (str "Current user: ");; say_color (username s) 14;; say_char NL
  else
    let name := (take_word 31 args).1 in
    p_mod (set_user name);;
    sh_write (str "CONFIG.CFG") name;;
    say (str "Active user updated to '");; say_color name 14;; say (strn "'.").

Definition cmd_history : SH unit :=
  s <- p_get;;
  p_each (seqZ 0 (history_count s)) (fun i =>
    say (str "  ");; say_int (i + 1);; say (str "  ");; say (nthZ [] (history s) i);; say_char NL).

Definition cmd_echo (args : list Z) : SH unit :=
  let '(redir, append_mode) :=
    match strstr args (str ">>") with
    | Some i => (Some i, true)
    | None => (strchr args 62, false)
    end in
  match redir with
  | None => say args;; say_char NL
  | Some i =>
    let text_len := trim_end i args in
    let fn := skip_spaces (drop (i + (if append_mode then 2 else 1)) args) in
    if bool_decide (fn = []) then say_color (strn "Missing redirection filename.") 12
    else
      tmp <- sh_alloc (u32 (Z.of_nat text_len + 2));;
      if tmp =? 0 then p_ret tt
      else
        let data := take text_len args ++ [NL] in
        rc <- (if (append_mode : bool) then sh_append fn data else sh_write fn data);;
        sh_free tmp;;
        if rc =? 0 then p_ret tt else say_color (strn "Failed to write redirected output.") 12
  end.

(** A crash of the calculator is a processor exception: the command does not
    return. *)
Definition cmd_calc (args : list Z) : SH unit :=
  if bool_decide (args = []) then say (strn "Usage: calc <expression>  (e.g. calc (12 + 8) * 5)")
  else
    match Calc.calc_command (Calc.calc_fuel args) args with
    | Calc.DivisionByZero => say_color (strn "Error: Division by zero.") 12
    | Calc.SyntaxError => say_color (strn "Error: Invalid expression syntax.") 12
    | Calc.Value res =>
      say (str "= ");; say_int res;; say (str " (");; on_con (shell_print_hex (u32 res));; say (strn ")")
    | Calc.Crash | Calc.OutOfFuel => p_none
    end.

Definition not_found (args : list Z) : SH unit := say_color (str "File not found: ") 12;; say args;; say_char NL.

Definition cmd_cat (args : list Z) : SH unit :=
  if bool_decide (args = []) then say (strn "Usage: cat <filename>")
  else
    st <- on_fs (fat_stat_file args);;
    match st with
    | None => not_found args
    | Some st =>
      if f_size st =? 0 then p_ret tt
      else
        let cap := if FAT_MAX_FILE_SIZE <? f_size st then FAT_MAX_FILE_SIZE else f_size st in
        buf <- sh_alloc (u32 (cap + 1));;
        if buf =? 0 then p_ret tt
        else
          data <- sh_read args buf cap;;
          (match data with
           | None => p_ret tt
           | Some data => say (cstr data);; if nthZ 0 data (cap - 1) =? NL then p_ret tt else say_char NL
           end);;
          sh_free buf
    end.

(** [write] and [append]: the arguments, and the line end when it fits. *)
Definition line_content (content : list Z) : list Z :=
  if strlen content + 2 <? CMD_BUF_MAX then content ++ [NL] else content.
Definition cmd_store (verb : list Z) (op : list Z -> list Z -> SH Z) (done_ fail_ args : list Z) : SH unit :=
  let '(fn, content) := split_two_args args 32 (Z.to_nat CMD_BUF_MAX) in
  if bool_decide (fn = []) then say (str "Usage: " ++ verb ++ strn " <filename> <text>")
  else
    let content := line_content content in
    rc <- op fn content;;
    if rc =? 0 then
      say_color done_ 10;; say_int (strlen content);; say (str " bytes to ");; say fn;; say_char NL
    else say_color fail_ 12.
Definition cmd_write : list Z -> SH unit := cmd_store (str "write") sh_write (str "Saved ") (strn "Failed to write file.").
Definition cmd_append : list Z -> SH unit :=
  cmd_store (str "append") sh_append (str "Appended ") (strn "Failed to append file.").

Definition cmd_touch (args : list Z) : SH unit :=
  if bool_decide (args = []) then say (strn "Usage: touch <filename>")
  else
    ex <- on_fs (fat_file_exists args);;
    if (ex : bool) then p_ret tt
    else rc <- sh_write args [];; if rc =? 0 then p_ret tt else say_color (strn "Failed to create file.") 12.

Definition cmd_rm (args : list Z) : SH unit :=
  if bool_decide (args = []) then say (strn "Usage: rm <filename>")
  else
    rc <- on_fs (fat_delete_file args);;
    if rc =? 0 then say (str "Deleted ");; say args;; say_char NL else not_found args.

(** [cp] and [mv]: two names. *)
Definition cmd_two (usage done_ fail_ : list Z) (op : list Z -> list Z -> SH Z) (args : list Z) : SH unit :=
  let '(src, dst) := split_two_args args 32 32 in
  if bool_decide (src = []) || bool_decide (dst = []) then say usage
  else
    rc <- op src dst;;
    if rc =? 0 then say done_;; say src;; say (str " -> ");; say dst;; say_char NL else say_color fail_ 12.
Definition cmd_cp : list Z -> SH unit := cmd_two (strn "Usage: cp <src> <dst>") (str "Copied ") (strn "Copy failed.") sh_copy.
Definition cmd_mv : list Z -> SH unit :=
  cmd_two (strn "Usage: mv <old> <new>") (str "Renamed ") (strn "Rename failed (check source exists and target is free).")
    (fun a b => on_fs (fat_rename_file a b)).

Definition cmd_stat (args : list Z) : SH unit :=
  if bool_decide (args = []) then say (strn "Usage: stat <filename>")
  else
    st <- on_fs (fat_stat_file args);;
    match st with
    | None => say_color (strn "File not found.") 12
    | Some st =>
      say (str "  File:    ");; say_color (f_name st) 14;; say_char NL;;
      say (str "  Size:    ");; say_int (s32 (f_size st));; say (strn " bytes");;
      say (str "  Cluster: ");; say_int (s32 (f_first_cluster st));; say_char NL;;
      say (str "  Attr:    ");; on_con (shell_print_hex (f_attr st));; say_char NL
    end.

(** ** Listings *)

(** A row of [hexdump]. *)
Definition hex_row (buf : list Z) (cap off : Z) : SH unit :=
  on_con (print_hex_pad off 4);; say (str "  ");;
  p_each (seqZ 0 16) (fun j =>
    if off + j <? cap then on_con (print_hex_pad (nthZ 0 buf (off + j)) 2);; say_char 32 else say (str "   "));;
  say (str " |");;
  p_each (seqZ 0 (Z.min 16 (cap - off))) (fun j =>
    let c := nthZ 0 buf (off + j) in say_char (if (32 <=? c) && (c <=? 126) then c else 46));;
  say (strn "|").

Definition cmd_hexdump (fname : list Z) : SH unit :=
  st <- on_fs (fat_stat_file fname);;
  match st with
  | None => not_found fname
  | Some st =>
    let cap := if 512 <? f_size st then 512 else f_size st in
    if cap =? 0 then say (strn "(empty file)")
    else
      buf <- sh_alloc cap;;
      if buf =? 0 then p_ret tt
      else
        data <- sh_read fname buf cap;;
        (match data with
         | None => p_ret tt
         | Some data =>
           p_each (seqZ 0 ((cap + 15) / 16)) (fun i => hex_row data cap (16 * i));;
           if cap <? f_size st then
             say (str "... (truncated at 512 bytes; total ");; say_int (s32 (f_size st));; say (strn " bytes)")
           else p_ret tt
         end);;
        sh_free buf
  end.

Definition cmd_df : SH unit :=
  fi <- on_fs fat_get_fs_info;;
  if negb (i_mounted fi) then say_color (strn "No filesystem mounted. Run 'mkfs' to format.") 12
  else
    say_color ([NL] ++ strn "Filesystem   Type   Total KB  Used KB   Free KB   Files  Backend") 14;;
    say (strn "-----------  -----  --------  --------  --------  -----  ----------------");;
    let lbl := match i_label fi with [] => str "BENGAL" | l => l end in
    say lbl;; say_pad lbl 13;;
    say (str "FAT");; say_int (i_fat_type fi);; say (str "  ");;
    total <- p_val (k_utoa (i_total_bytes fi / 1024) 10);; say total;; say_pad total 10;;
    used <- p_val (k_utoa (i_used_bytes fi / 1024) 10);; say used;; say_pad used 10;;
    free <- p_val (k_utoa (i_free_bytes fi / 1024) 10);; say free;; say_pad free 10;;
    count <- p_val (k_utoa (i_file_count fi) 10);; say count;; say_pad count 7;;
    say (if i_is_ramdisk fi then strn "Live RAMDisk" ++ [NL] else strn "Persistent ATA" ++ [NL]).

(** A line of [ls]. *)
Definition list_entry (ent : list Z) : SH unit :=
  let name := fat_name_to_str (ent_name ent) in
  let dir := bit_set (ent_attr ent) FAT_ATTR_DIRECTORY in
  say_color name (if dir then 11 else 14);;
  p_each (seqZ (strlen name) (14 - strlen name)) (fun _ => say (str " "));;
  sbuf <- p_val (k_utoa (ent_size ent) 10);;
  say sbuf;; say (str " B");;
  p_each (seqZ (strlen sbuf + 2) (12 - (strlen sbuf + 2))) (fun _ => say (str " "));;
  say (if dir then strn "DIR" else strn "FILE").

(** The root directory is read sector by sector as its entries are shown;
    the result is their number. *)
Fixpoint list_sectors (secs : list Z) (shown : Z) : SH Z :=
  match secs with
  | [] => p_ret shown
  | s :: secs =>
    st <- p_get;;
    r <- on_fs (read_sector (u32 (root_start_sector (sh_fs st) + s)));;
    if negb (r.1 =? 0) then p_ret shown
    else
      let '(l, stop) := list_slots 16 0 r.2 in
      p_each l list_entry;;
      if stop then p_ret (shown + lenZ l) else list_sectors secs (shown + lenZ l)
  end.

Definition fat_list_files : SH unit :=
  s <- p_get;;
  if negb (fs_mounted (sh_fs s)) then say (strn "No filesystem mounted. Run 'mkfs' to format disk.")
  else
    info <- on_fs fat_get_fs_info;;
    say_color ([NL] ++ str "Volume: ") 11;;
    say (match i_label info with [] => str "NO NAME" | l => l end);;
    say (str " (FAT");; say_int (i_fat_type info);;
    say (if i_is_ramdisk info then strn ", Live RAMDisk)" else strn ", Persistent ATA Disk)");;
    say (strn "Name          Size        Type");;
    say (strn "------------  ----------  ----");;
    shown <- list_sectors (seqZ 0 (root_sectors (sh_fs s))) 0;;
    say (strn "------------  ----------  ----");;
    say_int shown;; say (str " file(s), ");;
    say_int (s32 (i_free_bytes info / 1024));; say (str " KB free / ");;
    say_int (s32 (i_total_bytes info / 1024));; say (strn " KB total" ++ [NL]).

Definition cmd_mkfs (args : list Z) : SH unit :=
  s <- p_get;;
  let use_ata := bd_has_hdd (dev (sh_fs s)) in
  let lbl := match args with [] => if use_ata then str "BENGALHDD" else str "BENGALLIVE" | _ => args end in
  say (if use_ata then strn "Formatting hardware ATA disk as FAT..." else strn "Formatting 512KB Live RAMDisk as FAT12...");;
  rc <- (fun s => '(rc, fs) ← fat_format lbl use_ata (sh_fs s); Some (rc, set_fs fs s));;
  if rc =? 0 then
    on_con console_refresh_topbar;;
    say_color (strn "Filesystem formatted and mounted successfully.") 10;;
    cmd_df
  else say_color (strn "mkfs failed.") 12.

(** ** Scripts and lines *)

(** The next line of a script, at most 255 characters of it, and what follows
    the line ends after it. *)
Definition is_eol (c : Z) : bool := (c =? NL) || (c =? CR).
Fixpoint script_line (t : list Z) : list Z * list Z :=
  match t with c :: t' => if is_eol c then ([], t) else let '(l, r) := script_line t' in (c :: l, r) | [] => ([], []) end.
Fixpoint skip_eol (t : list Z) : list Z :=
  match t with c :: t' => if is_eol c then skip_eol t' else t | [] => [] end.

Fixpoint run_script (n : nat) (t : list Z) (execute : list Z -> SH unit) : SH unit :=
  match n, t with
  | _, [] => p_ret tt
  | O, _ => p_none
  | S n, _ =>
    let '(line, rest) := script_line t in
    let trim := skip_blanks (cstr (take 255 line)) in
    (match trim with
     | [] => p_ret tt
     | c :: _ => if c =? 35 then p_ret tt else execute trim
     end);;
    run_script n (skip_eol rest) execute
  end.

Definition cmd_sh (execute : list Z -> SH unit) (fname : list Z) : SH unit :=
  s <- p_get;;
  if 4 <=? script_depth s then say_color (strn "Maximum script nesting depth (4) exceeded.") 12
  else
    st <- on_fs (fat_stat_file fname);;
    match st with
    | None => say_color (str "Script not found: ") 12;; say fname;; say_char NL
    | Some st =>
      if (f_size st =? 0) || (16384 <? f_size st) then p_ret tt
      else
        script <- sh_alloc (u32 (f_size st + 1));;
        if script =? 0 then p_ret tt
        else
          data <- sh_read fname script (f_size st);;
          (match data with
           | None => p_ret tt
           | Some data =>
             p_mod (fun s => set_depth (script_depth s + 1) s);;
             run_script (length data) data execute;;
             p_mod (fun s => set_depth (script_depth s - 1) s)
           end);;
          sh_free script
    end.

Context (other : list Z -> list Z -> option (SH unit)).

(** [!n]: the line of the history, or [None] when there is no such line. *)
Definition expand (p : list Z) s : option (option (list Z)) :=
  match p with
  | c :: d :: _ =>
    if (c =? 33) && (49 <=? d) && (d <=? 57) then
      let idx := k_atoi (tail p) - 1 in
      Some (if (0 <=? idx) && (idx <? history_count s) then Some (nthZ [] (history s) idx) else None)
    else None
  | _ => None
  end.

Definition command (execute : list Z -> SH unit) (verb args : list Z) : SH unit :=
  let named t := bool_decide (verb = str t) in
  if named "help" then cmd_help
  else if named "ver" || named "version" then say (strn "Bengal Tiger OS v1.0.0 (Royal Bengal) - Built for 32-bit x86")
  else if named "date" then cmd_date
  else if named "user" then cmd_user args
  else if named "history" then cmd_history
  else if named "echo" then cmd_echo args
  else if named "calc" then cmd_calc args
  else if named "clear" || named "cls" then on_con shell_clear
  else if named "ls" || named "dir" then fat_list_files
  else if named "cat" then cmd_cat args
  else if named "write" then cmd_write args
  else if named "append" then cmd_append args
  else if named "touch" then cmd_touch args
  else if named "rm" || named "del" then cmd_rm args
  else if named "cp" then cmd_cp args
  else if named "mv" then cmd_mv args
  else if named "stat" then cmd_stat args
  else if named "hexdump" then if bool_decide (args = []) then say (strn "Usage: hexdump <filename>") else cmd_hexdump args
  else if named "sh" then if bool_decide (args = []) then say (strn "Usage: sh <script.sh>") else cmd_sh execute args
  else if named "df" then cmd_df
  else if named "mkfs" then cmd_mkfs args
  else match other verb args with
       | Some m => m
       | None =>
         say_color (str "Unknown command: '") 12;; say_color verb 12;;
         say_color (strn "'. Type 'help' for available commands.") 7
       end.

(** The fuel bounds the nesting of scripts. *)
Fixpoint shell_execute_line (fuel : nat) (raw_line : list Z) : SH unit :=
  match fuel with
  | O => p_none
  | S fuel =>
    let p := skip_blanks raw_line in
    match p with
    | [] => p_ret tt
    | c :: _ =>
      if c =? 35 then p_ret tt
      else
        let run p := let '(verb, args) := parse_line p in command (shell_execute_line fuel) verb args in
        s <- p_get;;
        match expand p s with
        | Some (Some line) => say_color line 8;; say_char NL;; run line
        | Some None => say_color (strn "Event not found in history.") 12
        | None => run p
        end
    end
  end.
End exec.
