(* ===== verification/ShellInfo.v ===== *)
(** ShellInfo: the commands of [kernel/shell.c] that show the state of the
    other components: [info], [cpu], [uptime], [dmesg], [mem], [ps], [lspci],
    [arp], [netstat] and [disk], and those that start and end tasks.

    The console writes through the ports of the machine [H].  The variables of
    the other components are read from [H] and, for what lives in memory or on
    the disks, from the device [D], through the class [World]. *)

From S2P Require Import Prelude Ports Partial Memory Common Text Array Ring Serial Font Pmm Heap.
From S2P Require Import HeapInv HeapSpec HeapRun Disk Fat FatFile Paging Vbe Rtc Net Pic Mouse.
From S2P Require Import Keyboard Console Shell ShellExec.
From S2P Require Scheduler Timer Klog Cpu Pci Nic.
#[local] Open Scope partial_scope.

(** What the shell uses of the other components.  [w_timer] reads the
    variables of the timer, which an interrupt may have changed just before;
    the scheduler allocates from the same memory as the file system. *)
Class World (H D E : Type) := {
  w_net : H -> net E;
  w_set_net : net E -> H -> H;
  w_keyboard : H -> keyboard;
  w_set_keyboard : keyboard -> H -> H;
  w_mouse : H -> mouse_state_t;
  w_set_mouse : mouse_state_t -> H -> H;
  w_sched : H -> Scheduler.sched D;
  w_set_sched : Scheduler.sched D -> H -> H;
  w_timer : ST H Timer.timer_state_t;
  w_set_timer : Timer.timer_state_t -> H -> H;
  w_irqs : H -> bool;
  w_set_irqs : bool -> H -> H;
  w_log : H -> Klog.log;
  w_cpu : H -> Cpu.cpu_info_t;
  w_pci : H -> list Pci.pci_device_t;
  w_nic : H -> Nic.nic_state_t;
  w_pmm : D -> pmm_state;
  w_heap : D -> heap_stats_t;
  w_drive : Z -> D -> option ata_drive_t
}.

(** The console with another [net_config]. *)
Definition set_con_net {H} (c : net_config_t) (s : console H) : console H :=
  Con (shadow_grid s) (con_cols s) (con_rows s) (cur_x s) (cur_y s) (drawn_cur_x s) (drawn_cur_y s) (cur_visible s)
    (default_attr s) (con_vbe s) (con_ser s) c (con_ramdisk s) (con_rtc s) (con_stack s).

Section info.
Context {H D E : Type} `{Ports H} `{BlockDev D} `{Allocator D} `{NetEnv E} `{W : !World H D E}.
Abbreviation SH := (PM (shell H D)).
Implicit Types s : shell H D.

Definition world s : H := serial_hw (con_ser (sh_con s)).
Definition set_world (h : H) s : shell H D := set_con (set_ser (set_hw h (con_ser (sh_con s))) (sh_con s)) s.
Definition see {X} (f : H -> X) : SH X := s <- p_get;; p_ret (f (world s)).
Definition see_dev {X} (f : D -> X) : SH X := s <- p_get;; p_ret (f (dev (sh_fs s))).
Definition read_timer : SH Timer.timer_state_t := p_zoom world set_world w_timer.

(** A 32-bit number printed with [shell_print_int((int)n)]. *)
Definition say_u32 (n : Z) : SH unit := say_int (s32 n).
Definition say_utoa (n : Z) : SH unit := t <- p_val (k_utoa n 10);; say t.
Definition say_hex (val : Z) (digits_ : nat) : SH unit := on_con (print_hex_pad val digits_).

(** [cpu_get_brand()[0] ? cpu_get_brand() : cpu_get_vendor()], as it prints. *)
Definition cpu_name (c : Cpu.cpu_info_t) : list Z :=
  match cstr (Cpu.brand c) with [] => cstr (Cpu.vendor c) | b => b end.

Definition say_ip (ip : Z) : SH unit := t <- p_val (net_format_ip ip);; say t.

Definition info_indent : list Z := replicate 17 32.

Definition cmd_info : SH unit :=
  say [NL];;
  s <- p_get;;
  say_color (str "      /\_/\      ") 14;;
  say_color (username s) 14;; say_color (strn "@bengal") 10;;
  say_color (str "     ( o.o )     ") 14;;
  say (strn "-------------------------");;
  say_color (str "      > ^ <      ") 14;;
  say_color (str "OS:      ") 11;;
  say (strn "Bengal Tiger OS v1.0.0 (Royal Bengal)");;
  say_color (str "     /|   |\     ") 14;;
  say_color (str "Kernel:  ") 11;;
  say (strn "32-bit x86 Preemptive Multitasking");;
  say_color (str "    (_|   |_)    ") 14;;
  say_color (str "CPU:     ") 11;;
  cpu <- see w_cpu;;
  say (cpu_name cpu);;
  say [NL];;
  say info_indent;;
  say_color (str "Memory:  ") 11;;
  pmm <- see_dev w_pmm;;
  say_u32 (u32 (pmm_get_free_frames pmm * 4));;
  say (str " KB free / ");;
  say_u32 (u32 (pmm_get_total_frames pmm * 4));;
  say (strn " KB total");;
  say info_indent;;
  say_color (str "Display: ") 11;;
  s <- p_get;;
  let fb := vbe_fb (con_vbe (sh_con s)) in
  (if active (sh_con s) then
     say_u32 (width fb);; say (str "x");;
     say_u32 (height fb);; say (str "x");;
     say_u32 (bpp fb);; say (strn " VBE Framebuffer")
   else say (strn "VGA 80x25 Text Mode"));;
  fi <- on_fs fat_get_fs_info;;
  say info_indent;;
  say_color (str "Storage: ") 11;;
  (if i_mounted fi then
     say (str "FAT");; say_int (i_fat_type fi);;
     say (if i_is_ramdisk fi then str " (Live RAMDisk, " else str " (ATA Disk, ");;
     say_u32 (i_free_bytes fi / 1024);;
     say (strn " KB free)")
   else say (strn "Unmounted"));;
  say info_indent;;
  say_color (str "Network: ") 11;;
  nic <- see w_nic;;
  say (Nic.driver_name nic);;
  n <- see w_net;;
  (if configured (net_config n) then
     say (str " (");; say_ip (cfg_ip (net_config n));; say (str ")")
   else p_ret tt);;
  say [NL; NL].

(** [if (flag) shell_print(name);] *)
Definition say_if (b : bool) (t : list Z) : SH unit := if b then say t else p_ret tt.

Definition cmd_cpu : SH unit :=
  c <- see w_cpu;;
  say_color ([NL] ++ strn "CPU Architecture & Features:") 14;;
  say (str "  Vendor:   ");; say (cstr (Cpu.vendor c));; say [NL];;
  (if bool_decide (cstr (Cpu.brand c) = []) then p_ret tt
   else say (str "  Brand:    ");; say (cstr (Cpu.brand c));; say [NL]);;
  say (str "  Family:   ");; say_int (Cpu.family c);;
  say (str "  Model: ");; say_int (Cpu.model c);;
  say (str "  Stepping: ");; say_int (Cpu.stepping c);; say [NL];;
  say (str "  Features: ");;
  say_if (Cpu.has_fpu c) (str "FPU ");;
  say_if (Cpu.has_sse c) (str "SSE ");;
  say_if (Cpu.has_sse2 c) (str "SSE2 ");;
  say_if (Cpu.has_msr c) (str "MSR ");;
  say_if (Cpu.has_apic c) (str "APIC ");;
  say [NL; NL].

Definition cmd_uptime : SH unit :=
  t <- read_timer;;
  let s := Timer.timer_get_seconds t in
  let d := s / 86400 in let s := s mod 86400 in
  let h := s / 3600 in let s := s mod 3600 in
  let m := s / 60 in let s := s mod 60 in
  say (str "Uptime: ");;
  (if 0 <? d then say_u32 d;; say (str "d ") else p_ret tt);;
  say_u32 h;; say (str "h ");;
  say_u32 m;; say (str "m ");;
  say_u32 s;; say (str "s (");;
  t <- read_timer;;
  say_utoa (Timer.timer_get_ticks t);;
  say (strn " ticks)").

(** [dmesg]: the log is printed up to its NUL. *)
Definition cmd_dmesg : SH unit :=
  l <- see w_log;;
  let '(buf, len) := Klog.klog_get_buffer l in
  if 0 <? len then say (cstr buf) else say (strn "(kernel log empty)").

Definition cmd_mem : SH unit :=
  hs <- see_dev w_heap;;
  pmm <- see_dev w_pmm;;
  say_color ([NL] ++ strn "Physical Memory Manager (PMM):") 14;;
  say (str "  Total RAM:   ");; say_u32 (u32 (pmm_get_total_frames pmm * 4));; say (strn " KB");;
  say (str "  Used RAM:    ");; say_u32 (u32 (pmm_get_used_frames pmm * 4));; say (strn " KB");;
  say (str "  Free RAM:    ");; say_u32 (u32 (pmm_get_free_frames pmm * 4));; say (strn " KB");;
  say_color ([NL] ++ strn "Dynamic Kernel Heap:") 14;;
  say (str "  Heap Arena:  ");; say_u32 (total_size hs / 1024);; say (strn " KB");;
  say (str "  Allocated:   ");; say_u32 (used_size hs);; say (strn " B");;
  say (str "  Free Pool:   ");; say_u32 (free_size hs / 1024);; say (strn " KB");;
  say (str "  Blocks:      ");; say_u32 (num_allocations hs);;
  say (str " active / ");; say_u32 (num_blocks hs);;
  say (strn " total" ++ [NL]).

Definition state_name (st : Scheduler.task_state) : list Z :=
  match st with
  | Scheduler.READY => str "READY" | Scheduler.RUNNING => str "RUN  " | Scheduler.WAITING => str "WAIT "
  | Scheduler.BLOCKED => str "BLOCK" | Scheduler.ZOMBIE => str "ZOMB "
  end.

(** A line of [ps]. *)
Definition ps_line (t : Scheduler.task_t) : SH unit :=
  say_u32 (Scheduler.t_id t);;
  say (if Scheduler.t_id t <? 10 then str "    " else if Scheduler.t_id t <? 100 then str "   " else str "  ");;
  say_color (state_name (Scheduler.t_state t)) (match Scheduler.t_state t with Scheduler.RUNNING => 10 | _ => 7 end);;
  say (str "  ");;
  cbuf <- p_val (k_utoa (Scheduler.t_cpu_ticks t) 10);;
  say cbuf;; say_pad cbuf 14;;
  say (Scheduler.t_name t);;
  say_char NL.
(** [for (int i = 0; i < count && curr; i++)]. *)
Fixpoint ps_lines (count : nat) (curr : Z) : SH unit :=
  match count with
  | O => p_ret tt
  | S count =>
    if curr =? 0 then p_ret tt else
    sc <- see w_sched;;
    ps_line (Scheduler.task_at sc curr);;
    sc <- see w_sched;;
    ps_lines count (Scheduler.t_next (Scheduler.task_at sc curr))
  end.
Definition cmd_ps : SH unit :=
  say_color ([NL] ++ strn "PID  State  CPU Ticks     Name") 14;;
  say (strn "---- -----  ------------  ------------------------");;
  sc <- see w_sched;;
  r <- p_val (Scheduler.scheduler_get_task_list sc);;
  ps_lines (Z.to_nat r.2) r.1;;
  say_char NL.

(** A line of [lspci]. *)
Definition lspci_line (d : Pci.pci_device_t) : SH unit :=
  say_hex (Pci.pd_bus d) 2;; say_char 58;;
  say_hex (Pci.pd_device d) 2;; say_char 46;;
  say_int (Pci.pd_function d);; say (str "      ");;
  say_hex (Pci.vendor_id d) 4;; say_char 58;;
  say_hex (Pci.device_id d) 4;; say (str "      ");;
  say_int (Pci.pd_irq d);;
  say (if Pci.pd_irq d <? 10 then str "    " else str "   ");;
  say (Pci.pci_get_vendor_name (Pci.vendor_id d));;
  say (str " - ");;
  say (Pci.pci_get_class_name (Pci.class_code d));;
  say_char NL.
Definition cmd_lspci : SH unit :=
  devs <- see w_pci;;
  say_color ([NL] ++ strn "Bus:Slot.Fn  Vendor:Device  IRQ  Vendor / Class") 14;;
  say (strn "-----------  -------------  ---  --------------------------------");;
  p_each (seqZ 0 (Pci.pci_get_device_count devs)) (fun i =>
    match Pci.pci_get_device devs i with Some d => lspci_line d | None => p_ret tt end);;
  say_char NL.

(** The six bytes of a hardware address with colons between them. *)
Definition say_mac (mac : list Z) : SH unit :=
  p_each (seqZ 0 6) (fun i => say_hex (nthZ 0 mac i) 2;; if i <? 5 then say_char 58 else p_ret tt).

(** A line of [arp]. *)
Definition arp_line (e : arp_entry_t) : SH unit :=
  t <- p_val (net_format_ip (ae_ip e));;
  say t;; say_pad t 18;;
  say_mac (ae_mac e);;
  say_char NL.
Fixpoint arp_lines (l : list arp_entry_t) (shown : Z) : SH Z :=
  match l with
  | [] => p_ret shown
  | e :: l => if ae_valid e then arp_line e;; arp_lines l (shown + 1) else arp_lines l shown
  end.
Definition cmd_arp : SH unit :=
  n <- see w_net;;
  say_color ([NL] ++ strn "IPv4 Address      MAC Address") 14;;
  say (strn "----------------  -----------------");;
  shown <- arp_lines (net_get_arp_table n) 0;;
  say_if (shown =? 0) (strn "(ARP cache empty)");;
  say_char NL.

Definition cmd_netstat : SH unit :=
  n <- see w_net;;
  nic <- see w_nic;;
  let c := net_config n in
  say_color ([NL] ++ strn "Network Protocol Statistics:") 14;;
  say (str "  Ethernet RX: ");; say_u32 (rx_eth c);; say_char NL;;
  say (str "  ARP RX:      ");; say_u32 (rx_arp c);; say_char NL;;
  say (str "  IPv4 RX:     ");; say_u32 (rx_ipv4 c);; say_char NL;;
  say (str "  ICMP RX:     ");; say_u32 (rx_icmp c);; say_char NL;;
  say (str "  UDP RX:      ");; say_u32 (rx_udp c);; say_char NL;;
  say (str "  NIC TX Pkts: ");; say_u32 (Nic.tx_packets nic);; say [NL; NL].

(** A line of [disk]. *)
Definition drive_line (i : Z) (d : ata_drive_t) : SH unit :=
  say (str "  Slot ");; say_int i;; say (str ": ");;
  say (if drive_type d =? ATA_TYPE_ATAPI then str "[ATAPI CD/DVD] " else str "[ATA HDD]      ");;
  say (Disk.model d);;
  let secs := if sectors_28 d =? 0 then u32 (sectors_48 d) else sectors_28 d in
  (if 0 <? secs then say (str " (");; say_u32 (secs / 2);; say (str " KB)") else p_ret tt);;
  say_char NL.
Fixpoint drive_lines (slots : list Z) (found : Z) : SH Z :=
  match slots with
  | [] => p_ret found
  | i :: slots =>
    o <- see_dev (w_drive i);;
    match o with
    | Some d => if Disk.present d then drive_line i d;; drive_lines slots (found + 1) else drive_lines slots found
    | None => drive_lines slots found
    end
  end.
Definition cmd_disk : SH unit :=
  say_color ([NL] ++ strn "Storage Controllers & Drives:") 14;;
  found <- drive_lines (seqZ 0 4) 0;;
  say_if (found =? 0) (strn "  No physical ATA/ATAPI drives attached.");;
  say (str "  Active FS Backend: ");;
  ram <- see_dev bd_is_ramdisk;;
  say_color (if ram then str "512KB Live RAMDisk" else str "Persistent ATA Hard Disk") 10;;
  say [NL; NL].

(** ** Tasks *)

(** An operation of the scheduler, on the memory of the machine. *)
Definition on_sched {X} (f : Scheduler.sched D -> option (X * Scheduler.sched D)) : SH X := fun s =>
  '(x, sc) ← f (Scheduler.with_alloc (dev (sh_fs s)) (w_sched (world s)));
  Some (x, set_world (w_set_sched sc (world s)) (set_fs (with_dev (Scheduler.mem_of sc) (sh_fs s)) s)).

(** The addresses of [task_exit] and of the entry point of the worker. *)
Context (task_exit_addr bg_worker_entry : Z).

Definition clamp_count (lo hi n : Z) : Z := let n := if n <? lo then lo else n in if hi <? n then hi else n.

Fixpoint spawn_tasks (n : nat) : SH unit :=
  match n with
  | O => p_ret tt
  | S n =>
    t <- on_sched (Scheduler.task_create task_exit_addr (Some (str "tiger_worker")) bg_worker_entry);;
    if t =? 0 then say_color (strn "Task table full.") 12
    else
      say_color (str "Spawned background task PID ") 10;;
      sc <- see w_sched;;
      say_u32 (Scheduler.t_id (Scheduler.task_at sc t));; say_char NL;;
      spawn_tasks n
  end.
Definition cmd_spawn (args : list Z) : SH unit :=
  let n := if bool_decide (args = []) then 1 else k_atoi args in
  spawn_tasks (Z.to_nat (clamp_count 1 8 n)).

Definition cmd_kill (args : list Z) : SH unit :=
  if bool_decide (args = []) then say (strn "Usage: kill <pid>") else
  let pid := u32 (k_atoi args) in
  if pid =? 0 then say_color (strn "Cannot kill PID 0 (kernel shell task).") 12
  else
    r <- on_sched (Scheduler.task_kill pid);;
    if r =? 0 then say (str "Terminated task PID ");; say_u32 pid;; say_char NL
    else say_color (strn "No active task with that PID.") 12.
End info.
