(* ===== verification/ShellNet.v ===== *)
(** ShellNet: the commands of [kernel/shell.c] that use the network
    ([ifconfig], [dhcp], [ping]), the monitor [top], sound and power, the
    table of the commands that [shell_execute_line] dispatches to, and the
    main loop of the shell. *)

From S2P Require Import Prelude Ports Partial Memory Common Text Array Ring Serial Font Pmm Heap.
From S2P Require Import HeapInv HeapSpec HeapRun Disk Fat FatFile Paging Vbe Rtc Net Pic Mouse.
From S2P Require Import Keyboard Console Shell ShellExec ShellInfo.
From S2P Require Scheduler Timer Nic Editor.
#[local] Open Scope partial_scope.

(** The words of [ifconfig] and of [ping], of at most [n] characters each. *)
Definition next_word (n : nat) (args : list Z) : list Z * list Z := take_word n (skip_spaces args).

(** What [ifconfig] finds in its arguments: the address, the mask and the
    gateway, or which of them is not an address. *)
Inductive if_request := SetAddress (ip mask gw : Z) | BadAddress | BadMask | BadGateway.
Definition parse_ifconfig (args : list Z) : if_request :=
  let '(t1, p) := next_word 23 args in
  let '(t2, p) := next_word 23 p in
  let '(t3, _) := next_word 23 p in
  match net_parse_ip t1 with
  | None => BadAddress
  | Some ip =>
    match (if bool_decide (t2 = []) then Some (net_make_ip 255 255 255 0) else net_parse_ip t2) with
    | None => BadMask
    | Some mask =>
      match (if bool_decide (t3 = []) then Some 0 else net_parse_ip t3) with
      | None => BadGateway
      | Some gw => SetAddress ip mask (if gw =? 0 then Z.lor (Z.land ip mask) 2 else gw)
      end
    end
  end.

(** The counters of [ping]. *)
Record ping_stats := PingStats { p_sent : Z; p_received : Z; p_rtt_sum : Z }.
Definition count_sent (st : ping_stats) : ping_stats := PingStats (p_sent st + 1) (p_received st) (p_rtt_sum st).
Definition count_reply (rtt : Z) (st : ping_stats) : ping_stats :=
  PingStats (p_sent st) (p_received st + 1) (u32 (p_rtt_sum st + rtt)).
Definition loss_percent (st : ping_stats) : Z :=
  ((p_sent st - p_received st) * 100) ÷ (if p_sent st =? 0 then 1 else p_sent st).
Definition average_rtt (st : ping_stats) : Z := p_rtt_sum st / p_received st.

Section commands.
Context {H D E : Type} `{Ports H} `{BlockDev D} `{Allocator D} `{NetEnv E} `{W : !World H D E}.
Abbreviation SH := (PM (shell H D)).
Implicit Types s : shell H D.
(** The bound of the loops that wait and of the serial bytes of one poll, and
    what the interrupt handlers do while the processor is halted. *)
Context (fuel rx : nat) (interrupt : SH unit).

(** A call of the network stack; the console reads its [net_config]. *)
Definition on_net {X} (m : NM E X) : SH X := fun s =>
  '(x, n) ← m (w_net (world s));
  let s := set_world (w_set_net n (world s)) s in
  Some (x, set_con (set_con_net (net_config n) (sh_con s)) s).
Definition poll_nic : SH unit := on_net (nic_poll (net_arp_resolve fuel)).

(** A call of the input drivers, which share the serial port and the screen
    with the console. *)
Definition on_input {X} (m : PM (input H) X) : SH X := fun s =>
  let con := sh_con s in
  '(x, i) ← m (Input (w_keyboard (world s)) (con_ser con) (w_mouse (world s), con_vbe con));
  let con := set_vbe (pointer i).2 (set_ser (com i) con) in
  let s := set_con con s in
  Some (x, set_world (w_set_mouse (pointer i).1 (w_set_keyboard (kb i) (world s))) s).
Definition poll_event : SH Z := on_input (input_poll_event fuel rx).

(** [timer_get_ticks()]. *)
Definition now : SH Z := t <- read_timer;; p_ret (Timer.timer_get_ticks t).
(** [if (irq_are_enabled()) hlt();] *)
Definition halt_until_interrupt : SH unit := on <- see w_irqs;; if on : bool then interrupt else p_ret tt.

(** [while ((timer_get_ticks() - start) < limit) { ev = input_poll_event(); ...
    nic_poll(); ... }]: whether an event ended the wait. *)
Fixpoint wait_event (k : nat) (start limit : Z) (stops : Z -> bool) : SH bool :=
  match k with
  | O => p_none
  | S k =>
    t <- now;;
    if u32 (t - start) <? limit then
      ev <- poll_event;;
      if stops ev then p_ret true
      else poll_nic;; halt_until_interrupt;; wait_event k start limit stops
    else p_ret false
  end.

(** ** ifconfig *)

Definition show_interface : SH unit :=
  nic <- see w_nic;;
  say_color ([NL] ++ str "eth0: ") 14;;
  say (Nic.driver_name nic);;
  if negb (Nic.initialized nic) then say (strn " (not present)" ++ [NL]) else
  say (if Nic.link_up nic =? 0 then strn " <DOWN>" else strn " <UP,BROADCAST,RUNNING>");;
  say (str "      MAC:     ");;
  say_mac (Nic.mac nic);;
  say (str "  IRQ: ");; say_int (Nic.nic_irq nic);; say_char NL;;
  n <- see w_net;;
  let c := net_config n in
  say (str "      inet:    ");; say_ip (cfg_ip c);;
  say (str "  netmask: ");; say_ip (cfg_netmask c);;
  say (if dhcp_leased c then strn "  (DHCP)" else strn "  (static)");;
  say (str "      gateway: ");; say_ip (cfg_gateway c);;
  say (str "  dns:     ");; say_ip (cfg_dns c);; say_char NL;;
  say (str "      RX pkts: ");; say_u32 (Nic.rx_packets nic);;
  say (str " (");; say_u32 (Nic.rx_bytes nic);; say (str " B)  ");;
  say (str "TX pkts: ");; say_u32 (Nic.tx_packets nic);;
  say (str " (");; say_u32 (Nic.tx_bytes nic);; say (strn " B)" ++ [NL]).

Definition set_interface (ip mask gw : Z) : SH unit :=
  on_net (nm_mod (net_set_static_ip ip mask gw (net_make_ip 8 8 8 8)));;
  on_con console_refresh_topbar;;
  say_color (strn "Static IPv4 configuration applied.") 10.

Definition cmd_ifconfig (args : list Z) : SH unit :=
  if bool_decide (args = []) then show_interface else
  match parse_ifconfig args with
  | BadAddress => say_color (strn "Usage: ifconfig [<ip> [netmask] [gateway]]") 12
  | BadMask => say_color (strn "Invalid subnet mask.") 12
  | BadGateway => say_color (strn "Invalid gateway IP.") 12
  | SetAddress ip mask gw => set_interface ip mask gw;; show_interface
  end.

(** ** dhcp *)

Definition cmd_dhcp : SH unit :=
  nic <- see w_nic;;
  if negb (Nic.initialized nic) then say_color (strn "No Ethernet controller detected.") 12 else
  say (strn "Sending DHCPDISCOVER on eth0...");;
  rc <- on_net (net_dhcp_discover fuel 2500);;
  if rc =? 0 then
    n <- see w_net;;
    let c := net_config n in
    say_color (str "DHCPACK bound to ") 10;;
    ip <- p_val (net_format_ip (cfg_ip c));; say_color ip 14;;
    say (str " (gateway ");; say_ip (cfg_gateway c);;
    say (str ", dns ");; say_ip (cfg_dns c);; say (strn ")");;
    on_con console_refresh_topbar
  else say_color (strn "DHCP request timed out (no DHCP server responded).") 12.

(** ** ping *)

(** The line of one request. *)
Definition ping_line (ip_str : list Z) (seq rc rtt ttl : Z) : SH unit :=
  if rc =? 0 then
    say (str "40 bytes from ");; say ip_str;;
    say (str ": icmp_seq=");; say_int seq;;
    say (str " ttl=");; say_int ttl;;
    say (str " time=");;
    (if rtt =? 0 then say (str "<1") else say_u32 rtt);;
    say (strn " ms")
  else if rc =? -2 then say_color (strn "Destination Host Unreachable (ARP timeout)") 12
  else say_color (str "Request timeout for icmp_seq ") 12;; say_int seq;; say_char NL.

(** The requests [seq, ..., count]; [todo] is how many those are. *)
Fixpoint ping_loop (todo : nat) (dst_ip : Z) (ip_str : list Z) (seq count : Z) (st : ping_stats) : SH ping_stats :=
  match todo with
  | O => p_ret st
  | S todo =>
    let st := count_sent st in
    r <- on_net (net_ping fuel dst_ip (u16 seq) 1200);;
    let '(rc, rtt, ttl) := r in
    let st := if rc =? 0 then count_reply rtt st else st in
    ping_line ip_str seq rc rtt ttl;;
    if seq <? count then
      wait_start <- now;;
      stop <- wait_event fuel wait_start 25 (fun ev => ev =? CTRL_KEY 99);;
      if stop : bool then say (strn "^C");; p_ret st
      else ping_loop todo dst_ip ip_str (seq + 1) count st
    else p_ret st
  end.

Definition ping_summary (ip_str : list Z) (st : ping_stats) : SH unit :=
  say (str "--- ");; say ip_str;; say (strn " ping statistics ---");;
  say_int (p_sent st);; say (str " packets transmitted, ");;
  say_int (p_received st);; say (str " packets received, ");;
  say_int (loss_percent st);;
  say (str "% packet loss");;
  (if 0 <? p_received st then
     say (str ", avg rtt = ");; say_u32 (average_rtt st);; say (str " ms")
   else p_ret tt);;
  say_char NL.

Definition ping_count (cnt_tok : list Z) : Z :=
  clamp_count 1 20 (if bool_decide (cnt_tok = []) then 4 else k_atoi cnt_tok).

Definition cmd_ping (args : list Z) : SH unit :=
  nic <- see w_nic;;
  if negb (Nic.initialized nic) then say_color (strn "Network interface unavailable.") 12 else
  let '(ip_tok, p) := next_word 31 args in
  let '(cnt_tok, _) := next_word 15 p in
  match net_parse_ip ip_tok with
  | None => say_color (strn "Usage: ping <ipv4> [count]   (e.g. ping 10.0.2.2)") 12
  | Some dst_ip =>
    let count := ping_count cnt_tok in
    ip_str <- p_val (net_format_ip dst_ip);;
    say (str "PING ");; say ip_str;; say (strn ": 32 data bytes");;
    st <- ping_loop (Z.to_nat count) dst_ip ip_str 1 count (PingStats 0 0 0);;
    ping_summary ip_str st
  end.

(** ** top *)

(** The blanks over the lines below the cursor. *)
Definition blank_below s : shell H D :=
  let con := sh_con s in
  set_con (for_range (cur_y con) (Z.min (con_rows con - 1) (cur_y con + 4)) (fun r con =>
    for_range 0 (con_cols con) (fun c con => console_put_cell c r 32 (default_attr con) con) con) con) s.

Definition top_stops (ev : Z) : bool := (ev =? 113) || (ev =? 81) || (ev =? 27) || (ev =? CTRL_KEY 99).

Fixpoint top_loop (k : nat) : SH unit :=
  match k with
  | O => p_none
  | S k =>
    on_con (console_set_cursor 0 0 false);;
    say_color (strn "Bengal Tiger OS - Live System Monitor (Press 'q' or ESC to quit)") 14;;
    cmd_uptime;;
    cmd_mem;;
    cmd_ps;;
    p_mod blank_below;;
    start <- now;;
    stop <- wait_event fuel start 50 top_stops;;
    if stop : bool then on_con shell_clear else top_loop k
  end.
Definition cmd_top : SH unit := on_con shell_clear;; top_loop fuel.

(** ** Sound and power *)

(** A call on the timer. *)
Definition on_clock {X} (m : PM (Timer.clock H) X) : SH X := fun s =>
  '(t, s) ← read_timer s;
  '(x, c) ← m (Timer.Clock t (w_irqs (world s)) (world s));
  Some (x, set_world (w_set_irqs (Timer.irqs_on c) (w_set_timer (Timer.timer_state c) (Timer.clock_hw c))) s).

(** What the handlers do while the beep sleeps. *)
Context (wake : PM (Timer.clock H) unit).

Definition cmd_beep (args : list Z) : SH unit :=
  let '(f_s, d_s) := split_two_args args 16 16 in
  let freq := if bool_decide (f_s = []) then 880 else k_atoi f_s in
  let dur := if bool_decide (d_s = []) then 150 else k_atoi d_s in
  let dur := if 3000 <? dur then 3000 else dur in
  on_clock (Timer.speaker_beep wake fuel (u32 freq) (u32 dur)).

(** [bg_worker_entry], the task that [spawn] starts: the counter after [n]
    rounds. *)
Fixpoint bg_worker (n : nat) (bg_worker_counter : Z) : PM (Timer.clock H) Z :=
  match n with
  | O => p_ret bg_worker_counter
  | S n => Timer.sleep_ms wake fuel 50;; bg_worker n (u32 (bg_worker_counter + 1))
  end.
Definition worker_body : Z -> PM (Timer.clock H) Z := bg_worker 600.

(** [while (1) hlt();] with the interrupts off. *)
Context (halt : SH unit).

Definition sh_in (p : Z) : SH Z := p_zoom world set_world (inb p).
Definition sh_outb (p v : Z) : SH unit := p_zoom world set_world (outb p v).
Definition sh_outw (p v : Z) : SH unit := p_zoom world set_world (outw p v).
Definition sh_cli : SH unit := p_mod (fun s => set_world (w_set_irqs false (world s)) s).

(** [while (timeout-- > 0 && (inb(0x64) & 0x02));] *)
Fixpoint wait_controller (timeout : nat) : SH unit :=
  match timeout with
  | O => p_ret tt
  | S timeout => v <- sh_in 100;; if bit_set v 2 then wait_controller timeout else p_ret tt
  end.
(** [lidt] of an empty table and the interrupt that then resets the machine. *)
Context (triple_fault : SH unit).
Definition cmd_reboot : SH unit :=
  say_color (strn "Rebooting Bengal Tiger OS...") 14;;
  sh_cli;;
  wait_controller (Z.to_nat 10000);;
  sh_outb 100 254;;
  triple_fault;;
  halt.
Definition cmd_shutdown : SH unit :=
  say_color (strn "Shutting down Bengal Tiger OS...") 14;;
  sh_outw 1540 8192;;
  sh_outw 16388 13312;;
  sh_outw 45060 8192;;
  sh_outb 244 0;;
  say (strn "It is now safe to power off your computer.");;
  sh_cli;;
  halt.

(** ** The editor *)

(** The keys that are pressed while the editor is open. *)
Context (keys : list Z).
Definition cmd_edit (args : list Z) : SH unit :=
  if bool_decide (args = []) then say (strn "Usage: edit <filename>") else
  p_part (fun s => Editor.Session (sh_con s) (sh_fs s)) (fun se s => set_fs (Editor.se_fs se) (set_con (Editor.se_con se) s))
    (Editor.editor_open args keys);;
  p_ret tt.

(** ** The table of commands *)

Context (task_exit_addr bg_worker_entry : Z) (gui : SH unit).

Definition system_command (verb args : list Z) : option (SH unit) :=
  let named t := bool_decide (verb = str t) in
  if named "info" || named "neofetch" then Some cmd_info
  else if named "cpu" then Some cmd_cpu
  else if named "uptime" then Some cmd_uptime
  else if named "dmesg" then Some cmd_dmesg
  else if named "beep" then Some (cmd_beep args)
  else if named "gui" then Some gui
  else if named "mem" || named "free" then Some cmd_mem
  else if named "ps" then Some cmd_ps
  else if named "top" then Some cmd_top
  else if named "spawn" then Some (cmd_spawn task_exit_addr bg_worker_entry args)
  else if named "kill" then Some (cmd_kill args)
  else if named "edit" then Some (cmd_edit args)
  else if named "disk" then Some cmd_disk
  else if named "lspci" then Some cmd_lspci
  else if named "ifconfig" || named "ip" then Some (cmd_ifconfig args)
  else if named "dhcp" then Some cmd_dhcp
  else if named "ping" then Some (cmd_ping args)
  else if named "arp" then Some cmd_arp
  else if named "netstat" then Some cmd_netstat
  else if named "reboot" then Some cmd_reboot
  else if named "shutdown" || named "poweroff" then Some cmd_shutdown
  else None.

(** ** The main loop *)


(** A line, with the bound on the nesting of scripts that always suffices. *)
Definition execute_line : list Z -> SH unit := shell_execute_line system_command 5.
Definition handle_event : Z -> SH unit := shell_handle_event execute_line cmd_help gui.

(** [while ((ev = input_poll_event()) != 0) shell_handle_event(ev);] *)
Fixpoint handle_events (k : nat) : SH unit :=
  match k with
  | O => p_none
  | S k => ev <- poll_event;; if ev =? 0 then p_ret tt else handle_event ev;; handle_events k
  end.

(** One round of the main loop, with [last_clock_tick] before and after. *)
Definition shell_round (last_clock_tick : Z) : SH Z :=
  handle_events fuel;;
  poll_nic;;
  t <- now;;
  last <- (if 100 <=? u32 (t - last_clock_tick) then on_con console_refresh_topbar;; p_ret t else p_ret last_clock_tick);;
  halt_until_interrupt;;
  p_ret last.
(** [shell_run] does not return; this is its first [rounds] rounds. *)
Fixpoint shell_rounds (rounds : nat) (last : Z) : SH Z :=
  match rounds with O => p_ret last | S rounds => last <- shell_round last;; shell_rounds rounds last end.
Definition shell_run (rounds : nat) : SH Z :=
  on_con console_refresh_topbar;;
  shell_print_prompt;;
  last_clock_tick <- now;;
  shell_rounds rounds last_clock_tick.
End commands.
