(* ===== verification/Isr.v ===== *)
(** Isr: the interrupt and system call dispatchers of [kernel/isr.c].

    The handlers run on the whole machine, the state of the shell with the
    components behind it ([World]).  The saved registers are in memory, at the
    address the assembly stubs pass: [r->eax] is the word at [r + 44]. *)

From S2P Require Import Prelude Ports Partial Memory Common Text Array Ring Serial Font Pmm Heap.
From S2P Require Import HeapInv HeapSpec HeapRun Disk Fat FatFile Paging Vbe Rtc Net Pic Mouse.
From S2P Require Import Keyboard Console Shell ShellExec ShellInfo ShellNet Serial.
From S2P Require Scheduler Timer Pci Nic Panic.
#[local] Open Scope partial_scope.

Definition SYS_EXIT : Z := 1.
Definition SYS_WRITE : Z := 4.
Definition SYS_GETPID : Z := 20.
Definition SYS_SLEEP : Z := 35.
Definition SYS_UPTIME : Z := 99.
Definition SYS_YIELD : Z := 158.

(** The offsets of the members of [struct regs]. *)
Definition o_ebx : Z := 32.
Definition o_edx : Z := 36.
Definition o_ecx : Z := 40.
Definition o_eax : Z := 44.
Definition o_int_no : Z := 48.

(** What the dispatchers use besides: the register with the address of a page
    fault, and the driver of the card as it is in the machine. *)
Class Card (H E : Type) := {
  w_cr2 : H -> Z;
  w_driver : serial H -> Nic.nic H (net E);
  w_set_driver : Nic.nic H (net E) -> serial H -> serial H
}.

(** A 32-bit word of the memory. *)
Definition al_ld32 {D} `{Allocator D} (d : D) (a : Z) : Z :=
  al_load d a + al_load d (a + 1) * 256 + al_load d (a + 2) * 65536 + al_load d (a + 3) * 16777216.

Section isr.
Context {H D E : Type} `{Ports H} `{Pci.LongPorts H} `{Nic.Board H} `{BlockDev D} `{Allocator D} `{NetEnv E}.
Context `{W : !World H D E} `{C : !Card H E}.
Abbreviation SH := (PM (shell H D)).
Implicit Types s : shell H D.
(** The address of the structure of task 0, the bound of the loops that wait
    or receive, and what the handlers do while [sleep_ms] halts. *)
Context (kernel_task : Z) (fuel : nat) (wake : PM (Timer.clock H) unit).

Definition word (a : Z) : SH Z := see_dev (fun d => al_ld32 d a).
Definition byte (a : Z) : SH Z := see_dev (fun d => al_load d a).
Definition set_word (a v : Z) : SH unit := p_mod (fun s => set_fs (with_dev (al_st32 a v (dev (sh_fs s))) (sh_fs s)) s).
Definition set_eax (r v : Z) : SH unit := set_word (r + o_eax) v.

(** [scheduler_schedule(r)], after [f] on the variables of the scheduler. *)
Definition reschedule (f : Scheduler.sched D -> Scheduler.sched D) (r : Z) : SH Z :=
  on_sched (fun sc => Scheduler.scheduler_schedule kernel_task r (f sc)).

(** [for (i = 0; i < len; i++) { tmp = {buf[i], NUL}; shell_print(tmp); }] *)
Definition write_bytes (buf len : Z) : SH unit :=
  p_each (seqZ 0 len) (fun i => c <- byte (u32 (buf + i));; say (cstr [c])).

Definition syscall_handler (r : Z) : SH Z :=
  syscall_num <- word (r + o_eax);;
  if syscall_num =? SYS_EXIT then
    sc <- see w_sched;;
    let cur := Scheduler.scheduler_get_current sc in
    if negb (cur =? 0) && negb (Scheduler.t_id (Scheduler.task_at sc cur) =? 0)
    then reschedule (Scheduler.upd cur (Scheduler.set_state Scheduler.ZOMBIE)) r
    else set_eax r 4294967295;; p_ret r
  else if syscall_num =? SYS_WRITE then
    buf <- word (r + o_ecx);;
    len <- word (r + o_edx);;
    (if negb (buf =? 0) && (0 <? len) && (len <=? 4096) then write_bytes buf len;; set_eax r len
     else set_eax r 4294967295);;
    p_ret r
  else if syscall_num =? SYS_GETPID then
    sc <- see w_sched;;
    let cur := Scheduler.scheduler_get_current sc in
    set_eax r (if cur =? 0 then 0 else Scheduler.t_id (Scheduler.task_at sc cur));;
    p_ret r
  else if syscall_num =? SYS_SLEEP then
    ms <- word (r + o_ebx);;
    on_clock (Timer.sleep_ms wake fuel ms);;
    set_eax r 0;;
    p_ret r
  else if syscall_num =? SYS_UPTIME then
    t <- read_timer;;
    set_eax r (Timer.timer_get_ms t);;
    p_ret r
  else if syscall_num =? SYS_YIELD then
    set_eax r 0;;
    reschedule (fun sc => sc) r
  else set_eax r 4294967295;; p_ret r.

(** The saved registers at [r]. *)
Definition frame_at (d : D) (r : Z) : Panic.regs :=
  let w k := al_ld32 d (r + 4 * k) in
  Panic.Regs (w 0) (w 1) (w 2) (w 3) (w 4) (w 5) (w 6) (w 7) (w 8) (w 9) (w 10) (w 11) (w 12) (w 13)
    (w 14) (w 15) (w 16) (w 17) (w 18).

(** [exception_handler(r)], on the screen and the serial line. *)
Definition on_crash {X} (m : PM (Panic.crash H) X) : SH X := fun s =>
  let con := sh_con s in
  '(x, c) ← m (Panic.Crash (con_vbe con) (con_ser con) (w_cr2 (world s)) (w_irqs (world s)));
  let s := set_con (set_vbe (Panic.x_vbe c) (set_ser (Panic.x_ser c) con)) s in
  Some (x, set_world (w_set_irqs (Panic.x_interrupts c) (world s)) s).

(** [None] when the processor is halted for good. *)
Definition isr_handler (r : Z) : SH (option Z) :=
  int_no <- word (r + o_int_no);;
  if int_no =? 128 then r' <- syscall_handler r;; p_ret (Some r')
  else
    regs <- see_dev (fun d => frame_at d r);;
    o <- on_crash (Panic.exception_handler regs);;
    p_ret (match o with Panic.Returns => Some r | Panic.Halts => None end).

(** ** Hardware interrupts *)

Definition on_pic {X} (m : ST H X) : SH X := p_zoom world set_world m.

Definition run_timer : SH unit :=
  t <- read_timer;; p_mod (fun s => set_world (w_set_timer (Timer.timer_handler t) (world s)) s).
Definition run_mouse : SH unit := fun s =>
  let '(m, h) := mouse_handler (vbe_fb (con_vbe (sh_con s))) (w_mouse (world s)) (world s) in
  Some (tt, set_world (w_set_mouse m h) s).

(** [nic_handle_irq(irq)]: the driver gives the frames to the network stack.
    What the stack sends meanwhile goes to the card of its own interface
    ([nic_send] of [NetEnv]): the driver that receives, and its registers, are
    not changed by it.  The driver's own [nic_send_packet] is in [Nic]. *)
Definition receive_frame (pkt : list Z) : PM (Nic.nic H (net E)) unit :=
  p_part Nic.stack (fun n c => Nic.Nic (Nic.nic_state c) (Nic.e1000_rx_cur c) (Nic.e1000_tx_cur c) (Nic.rtl_rx_offset c)
      (Nic.rtl_tx_cur c) (Nic.nic_pages c) (Nic.nic_log c) n)
    (net_rx_packet (net_arp_resolve fuel) pkt).
Definition run_nic (irq : Z) : SH unit :=
  p_part (fun s => w_driver (con_ser (sh_con s))) (fun c s => set_con (set_ser (w_set_driver c (con_ser (sh_con s))) (sh_con s)) s)
    (Nic.nic_handle_irq receive_frame irq).

(** What the [switch] does for the vector, and the frame it returns to. *)
Definition dispatch (int_no r : Z) : SH Z :=
  if int_no =? 32 then run_timer;; on_sched (Scheduler.scheduler_tick kernel_task r)
  else if int_no =? 33 then on_input keyboard_handler;; p_ret r
  else if int_no =? 36 then on_input (on_com (serial_irq_handler fuel));; p_ret r
  else if int_no =? 44 then run_mouse;; p_ret r
  else p_ret r.

Definition irq_handler (r : Z) : SH Z :=
  int_no <- word (r + o_int_no);;
  let irq := u8 (int_no - 32) in
  spurious7 <- (if irq =? 7 then on_pic pic_is_spurious_irq7 else p_ret false);;
  if spurious7 : bool then p_ret r else
  spurious15 <- (if irq =? 15 then on_pic pic_is_spurious_irq15 else p_ret false);;
  if spurious15 : bool then on_pic (outb PIC1_COMMAND PIC_EOI);; p_ret r else
  on_pic (pic_send_eoi irq);;
  int_no <- word (r + o_int_no);;
  ret_r <- dispatch int_no r;;
  run_nic irq;;
  p_ret ret_r.
End isr.
