(* ===== verification/ShellGui.v ===== *)
(** ShellGui: the graphical desktop of [kernel/shell.c], the command [gui].

    The texts it draws are put together with [strcpy] and [strcat] in arrays
    on the stack; a text that does not fit is [None] ([CString]).  [stack64]
    and [stack48] are what those arrays hold before; [strcpy] starts each text
    at the front.  Then that every text fits. *)

From S2P Require Import Prelude Ports Partial Memory Common Text Array Ring Serial Font Pmm Heap.
From S2P Require Import HeapInv HeapSpec HeapRun Disk Fat FatFile Paging Vbe Rtc Net NetSpec Pic Mouse.
From S2P Require Import Keyboard Console Shell ShellExec ShellInfo ShellNet.
From S2P Require Scheduler Timer Nic.
#[local] Open Scope partial_scope.

(** The local variables of [cmd_gui]. *)
Record gui_state := Gui {
  ping_msg : list Z; prev_btn : Z; last_mx : Z; last_my : Z; last_redraw_tick : Z; full_redraw : bool
}.
Definition set_msg (m : list Z) (g : gui_state) : gui_state :=
  Gui m (prev_btn g) (last_mx g) (last_my g) (last_redraw_tick g) true.
Definition set_prev_btn (b : Z) (g : gui_state) : gui_state :=
  Gui (ping_msg g) b (last_mx g) (last_my g) (last_redraw_tick g) (full_redraw g).

(** The initializer of [ping_msg]: the text and NULs. *)
Definition first_msg : list Z :=
  let t := str "Click [Ping Gateway] or press 'P' to test ICMP" in t ++ replicate (64 - length t) 0.

(** Whether the point is in the rectangle. *)
Definition inside (mx my x y w h : Z) : bool := (x <=? mx) && (mx <? x + w) && (y <=? my) && (my <? y + h).

Definition BG : Z := 1448738.
Definition GREY : Z := 9147550.
Definition WHITE : Z := 15791868.
Definition card_net_x : Z := 32.
Definition card_net_y : Z := 240.
Definition btn_ping_x : Z := card_net_x + 16.
Definition btn_ping_y : Z := card_net_y + 132.
Definition btn_exit_x (sw : Z) : Z := s32 sw - 160.

Section gui.
Context {H D E : Type} `{Ports H} `{BlockDev D} `{Allocator D} `{NetEnv E} `{W : !World H D E}.
Abbreviation SH := (PM (shell H D)).
Implicit Types s : shell H D.
Context (fuel rx : nat) (interrupt : SH unit) (stack64 stack48 : list Z).

Definition paint (f : vbe -> vbe) : SH unit := on_con (p_mod (fun c => set_vbe (f (con_vbe c)) c)).
Definition fill (x y w h color : Z) : SH unit := paint (vbe_fill_rect x y w h color).
(** [vbe_draw_string] of a literal or of an array. *)
Definition text (x y : Z) (t : list Z) (fg bg : Z) : SH unit := on_con (draw_text x y t fg bg).
Definition text_of (x y : Z) (buf : option (list Z)) (fg bg : Z) : SH unit := b <- p_val buf;; text x y (cstr b) fg bg.

Definition gui_draw_card (x y w h : Z) (title : list Z) (accent : Z) : SH unit :=
  fill (u32 (x + 4)) (u32 (y + 4)) w h 461327;;
  fill x y w h BG;;
  fill x y w 26 accent;;
  paint (vbe_draw_rect x y w h 3159613 1);;
  text (u32 (x + 10)) (u32 (y + 5)) title 856343 accent.

(** ** The texts *)

Definition utoa (n : Z) : option (list Z) := k_utoa n 10.

(** "Reply from <gateway> time=<rtt>ms". *)
Definition reply_text (buf : list Z) (gw rtt : Z) : option (list Z) :=
  ip_s ← net_format_ip gw; r_s ← utoa rtt;
  build buf (str "Reply from ") [ip_s; str " time="; r_s; str "ms"].
Definition memory_text (free_frames tcnt : Z) : option (list Z) :=
  nbuf ← utoa (u32 (free_frames * 4)); nbuf' ← k_itoa tcnt 10;
  build stack64 (str "Physical Free: ") [nbuf; str " KB  |  Tasks: "; nbuf'].
Definition heap_text (hs : heap_stats_t) : option (list Z) :=
  nbuf ← utoa (used_size hs / 1024); nbuf' ← utoa (total_size hs / 1024);
  build stack64 (str "Kernel Heap Used: ") [nbuf; str " KB / "; nbuf'; str " KB"].
Definition uptime_text (seconds : Z) : option (list Z) :=
  nbuf ← utoa seconds; build stack64 (str "Uptime: ") [nbuf; str " sec     "].
Definition adapter_text (name : list Z) : option (list Z) := build stack64 (str "Adapter: ") [cstr name].
Definition address_text (ip rx_packets tx_packets : Z) : option (list Z) :=
  ip_s ← net_format_ip ip; nbuf ← utoa rx_packets; nbuf' ← utoa tx_packets;
  build stack64 (str "IPv4: ") [ip_s; str "  |  RX/TX: "; nbuf; str "/"; nbuf'].
Definition volume_text (fi : fat_fs_info_t) : option (list Z) :=
  build stack64 (str "Volume: ") [match cstr (i_label fi) with [] => str "BENGAL" | l => l end;
    if i_is_ramdisk fi then str " (Live RAMDisk)" else str " (ATA Disk)"].
(** [for (int k = strlen(line); k < 22; k++) strcat(line, " ");] *)
Definition file_text (name : list Z) (st : option fat_file_t) : option (list Z) :=
  line ← build stack48 (str "  * ") [cstr name];
  match st with
  | None => Some line
  | Some f =>
    line ← strcat_all line (replicate (22 - length (cstr line)) [32]);
    nbuf ← utoa (f_size f);
    strcat_all line [nbuf; str " B"]
  end.

(** ** Drawing *)

Definition draw_frame (sw sh_ : Z) : SH unit :=
  fill 0 0 sw sh_ 988970;;
  fill 0 0 sw 30 BG;;
  fill 0 30 sw 2 16743168;;
  text 12 7 (str "Bengal Tiger OS Desktop v1.0.0") 16754263 BG;;
  fill (u32 (btn_exit_x sw)) 4 148 22 14300723;;
  text (u32 (btn_exit_x sw + 10)) 7 (str "Exit GUI [ESC]") 16777215 14300723;;
  fill 0 (u32 (sh_ - 28)) sw 28 BG;;
  text 12 (u32 (sh_ - 22)) (str "Mouse: Move & Click  |  [P] Ping Gateway  |  [ESC / Q] Return to Shell") GREY BG.

Definition draw_system : SH unit :=
  gui_draw_card 32 52 440 168 (str "SYSTEM & MEMORY MONITOR") 16754263;;
  text 48 88 (str "CPU: ") GREY BG;;
  cpu <- see w_cpu;;
  text 96 88 (cpu_name cpu) WHITE BG;;
  hs <- see_dev w_heap;;
  sc <- see w_sched;;
  tasks <- p_val (Scheduler.scheduler_get_task_list sc);;
  pmm <- see_dev w_pmm;;
  text_of 48 114 (memory_text (pmm_get_free_frames pmm) tasks.2) 5690589 BG;;
  text_of 48 140 (heap_text hs) 4176208 BG;;
  t <- read_timer;;
  text_of 48 168 (uptime_text (Timer.timer_get_seconds t)) 13226457 BG.

Definition draw_network (msg : list Z) : SH unit :=
  gui_draw_card card_net_x card_net_y 440 174 (str "NETWORK STACK (TCP/IP)") 5690589;;
  nic <- see w_nic;;
  text_of (card_net_x + 16) (card_net_y + 36) (adapter_text (Nic.driver_name nic)) WHITE BG;;
  n <- see w_net;;
  text_of (card_net_x + 16) (card_net_y + 62)
    (address_text (cfg_ip (net_config n)) (Nic.rx_packets nic) (Nic.tx_packets nic)) 4176208 BG;;
  text (card_net_x + 16) (card_net_y + 92) (cstr msg) 16754263 BG;;
  fill btn_ping_x btn_ping_y 156 24 2060267;;
  text (btn_ping_x + 12) (btn_ping_y + 4) (str "[ Ping Gateway ]") 16777215 2060267.

Fixpoint draw_files (cx cy i : Z) (files : list (list Z)) : SH unit :=
  match files with
  | [] => p_ret tt
  | name :: files =>
    st <- on_fs (fat_stat_file name);;
    text_of (cx + 16) (cy + 72 + i * 22) (file_text name st) 13226457 BG;;
    draw_files cx cy (i + 1) files
  end.
Definition draw_storage (sw : Z) : SH unit :=
  if sw <? 900 then p_ret tt else
  let cx := 500 in let cy := 52 in
  gui_draw_card cx cy (u32 (sw - cx - 32)) 362 (str "FAT FILESYSTEM EXPLORER") 4176208;;
  fi <- on_fs fat_get_fs_info;;
  text_of (cx + 16) (cy + 36) (volume_text fi) WHITE BG;;
  files <- on_fs (fat_enumerate_files 12);;
  draw_files cx cy 0 files.

(** The pointer, kept ten pixels away from the edge. *)
Definition pointer_pos (m size : Z) : Z := if m <? 0 then 0 else if u32 (size - 10) <=? u32 m then u32 (size - 10) else u32 m.
Definition draw_pointer (sw sh_ mx my : Z) : SH unit :=
  let cmx := pointer_pos mx sw in let cmy := pointer_pos my sh_ in
  fill cmx cmy 10 10 16754263;;
  paint (vbe_draw_rect cmx cmy 10 10 16777215 1).

(** ** The loop *)

(** The request to the gateway and the message about it. *)
Definition gui_ping (fail_text : list Z) (g : gui_state) : SH gui_state :=
  n <- see w_net;;
  let gw := if cfg_gateway (net_config n) =? 0 then net_make_ip 10 0 2 2 else cfg_gateway (net_config n) in
  r <- on_net (net_ping fuel gw 1 800);;
  let '(rc, rtt, _) := r in
  m <- p_val (if rc =? 0 then reply_text (ping_msg g) gw rtt else strcpy (ping_msg g) fail_text);;
  p_ret (set_msg m g).

Definition gui_redraw (sw sh_ mx my t : Z) (g : gui_state) : SH gui_state :=
  (if full_redraw g then draw_frame sw sh_ else p_ret tt);;
  draw_system;;
  draw_network (ping_msg g);;
  draw_storage sw;;
  draw_pointer sw sh_ mx my;;
  p_ret (Gui (ping_msg g) (prev_btn g) mx my t (negb (last_mx g =? mx) || negb (last_my g =? my))).

Definition gui_stops (ev : Z) : bool := (ev =? 27) || (ev =? 113) || (ev =? 81) || (ev =? CTRL_KEY 99).

(** A click with the left button: [None] leaves the desktop. *)
Definition gui_click (sw mx my : Z) (g : gui_state) : SH (option gui_state) :=
  if inside mx my (btn_exit_x sw) 4 148 22 then p_ret None
  else if inside mx my btn_ping_x btn_ping_y 156 24 then g <- gui_ping (str "Ping timed out") g;; p_ret (Some g)
  else p_ret (Some g).

(** One round: the variables after it, or [None] when it leaves the loop. *)
Definition gui_round (sw sh_ : Z) (g : gui_state) : SH (option gui_state) :=
  ev <- poll_event fuel rx;;
  if gui_stops ev then p_ret None else
  g <- (if (ev =? 112) || (ev =? 80) then gui_ping (str "Ping timed out / host unreachable") g else p_ret g);;
  poll_nic fuel;;
  m <- see w_mouse;;
  let mx := mouse_get_x m in
  let my := mouse_get_y m in
  let btns := mouse_get_buttons m in
  let left_click := bit_set btns MOUSE_BTN_LEFT && negb (bit_set (prev_btn g) MOUSE_BTN_LEFT) in
  let g := set_prev_btn btns g in
  o <- (if left_click then gui_click sw mx my g else p_ret (Some g));;
  match o with
  | None => p_ret None
  | Some g =>
    t <- now;;
    g <- (if full_redraw g || (50 <=? u32 (t - last_redraw_tick g)) || negb (mx =? last_mx g) || negb (my =? last_my g)
          then gui_redraw sw sh_ mx my t g else p_ret g);;
    halt_until_interrupt interrupt;;
    p_ret (Some g)
  end.
Fixpoint gui_loop (k : nat) (sw sh_ : Z) (g : gui_state) : SH unit :=
  match k with
  | O => p_none
  | S k => o <- gui_round sw sh_ g;; match o with None => p_ret tt | Some g => gui_loop k sw sh_ g end
  end.

Definition cmd_gui : SH unit :=
  s <- p_get;;
  if negb (active (sh_con s)) then
    say_color (strn "VBE graphical framebuffer is not active in this boot mode.") 12;;
    say (strn "Select 'Bengal Tiger OS v1.0.0' (default) in GRUB for 1024x768x32 graphics.")
  else
    let fb := vbe_fb (con_vbe (sh_con s)) in
    gui_loop fuel (width fb) (height fb) (Gui first_msg 0 (-1) (-1) 0 true);;
    on_con shell_clear;;
    say_color (strn "Returned from Graphical Desktop Workspace.") 10.
End gui.


(** * The texts fit *)

(** * Lengths of the parts *)

Lemma no_nul_str t : forallb (fun c => negb (c =? 0)) t = true -> no_nul t.
Proof.
  intros E. apply Forall_forall. intros c Hc. rewrite forallb_forall in E. apply list_elem_of_In in Hc.
  specialize (E c Hc). by destruct (Z.eqb_spec c 0).
Qed.
Lemma no_nul_cstr t : no_nul (cstr t).
Proof. induction t as [|c t IH]; cbn [cstr]; [constructor|]. destruct (Z.eqb_spec c 0); by constructor. Qed.
Lemma length_cstr t : (length (cstr t) <= length t)%nat.
Proof. induction t as [|c t IH]; cbn [cstr]; [done|]. destruct (c =? 0); simpl; lia. Qed.
Lemma no_nul_digits l : Forall isdigit l -> no_nul l.
Proof. intros Hl. eapply Forall_impl; [exact Hl|]. intros c Hc ->. done. Qed.

(** The decimal digits of a 32-bit number are at most ten. *)
Lemma utoa_text n : is_u32 n -> exists t, k_utoa n 10 = Some t /\ Forall isdigit t /\ (length t <= 10)%nat.
Proof.
  intros Hn. destruct (k_utoa_digits n 10) as (t & E & _ & Hd & _ & Hl); [lia|done|].
  exists t. split; [done|]. split.
  - eapply Forall_impl; [exact Hd|]. intros c (d & Hr & ->). by rewrite isdigit_digits.
  - unfold is_u32 in Hn. unfold lenZ in Hl. destruct (decide (length t <= 10)%nat); [done|].
    assert (10 ^ 10 <= 10 ^ (Z.of_nat (length t) - 1)) by (apply Z.pow_le_mono_r; lia). lia.
Qed.

Lemma itoa_text n : -2147483648 < n < 2147483648 -> exists t, k_itoa n 10 = Some t /\ no_nul t /\ (length t <= 11)%nat.
Proof.
  intros Hn. unfold k_itoa. destruct (Z.ltb_spec n 0) as [Hneg|Hpos]; cbn [andb Z.eqb Pos.eqb].
  - destruct (utoa_text (- n)) as (t & E & Hd & Hl); [unfold is_u32; lia|].
    exists (45 :: t). rewrite u32_id by lia. rewrite E. split; [done|]. split; [|simpl; lia]. constructor; [done|]. by apply no_nul_digits.
  - destruct (utoa_text n) as (t & E & Hd & Hl); [unfold is_u32; lia|].
    exists t. rewrite u32_id by lia. split; [done|]. split; [by apply no_nul_digits|lia].
Qed.

Lemma octet_text o : 0 <= o < 256 -> exists t, k_utoa o 10 = Some t /\ Forall isdigit t /\ (length t <= 3)%nat.
Proof.
  intros Ho. assert (Ho' : is_u32 o) by (unfold is_u32; lia).
  destruct (k_utoa_digits o 10) as (t & E & _ & _ & _ & Hl); [lia|done|].
  destruct (utoa_text o Ho') as (t' & E' & Hd & _). rewrite E' in E. injection E as ->.
  exists t. split; [done|]. split; [done|]. unfold lenZ in Hl. destruct (decide (length t <= 3)%nat); [done|].
  assert (10 ^ 3 <= 10 ^ (Z.of_nat (length t) - 1)) by (apply Z.pow_le_mono_r; lia). lia.
Qed.

(** An address is at most fifteen digits and dots. *)
Lemma format_ip_text ip : exists t, net_format_ip ip = Some t /\ no_nul t /\ (length t <= 15)%nat.
Proof.
  assert (forall i, exists t, k_utoa (u8 (Z.land (Z.shiftr ip (i * 8)) 255)) 10 = Some t /\ no_nul t /\ (length t <= 3)%nat) as Ho.
  { intros i. destruct (octet_text (u8 (Z.land (Z.shiftr ip (i * 8)) 255))) as (t & E & Hd & Hl); [unfold u8; zlia|].
    exists t. split; [done|]. split; [by apply no_nul_digits|done]. }
  destruct (Ho 3) as (t3 & E3 & N3 & L3), (Ho 2) as (t2 & E2 & N2 & L2), (Ho 1) as (t1 & E1 & N1 & L1), (Ho 0) as (t0 & E0 & N0 & L0).
  exists (t3 ++ [46] ++ t2 ++ [46] ++ t1 ++ [46] ++ t0). split; [|split].
  - unfold net_format_ip. cbn [format_octets]. rewrite E3, E2, E1, E0. cbn. f_equal. rewrite <- !app_assoc. done.
  - unfold no_nul. repeat (apply Forall_app; split); try done; by repeat constructor.
  - rewrite !length_app. simpl. lia.
Qed.

(** * The arrays *)

(** The array [o] of [n] bytes, written without leaving it, holds the string [t]. *)
Definition fits_in (n : Z) (o : option (list Z)) (t : list Z) : Prop := exists b, o = Some b /\ lenZ b = n /\ cstr b = t.

Lemma holds_cstr n t b : holds_str n t b -> cstr b = t.
Proof.
  intros (_ & Ht & rest & ->). induction Ht as [|c t Hc Ht IH]; [done|]. cbn. destruct (Z.eqb_spec c 0); [done|]. by rewrite IH.
Qed.
Lemma holds_fits n t b : holds_str n t b -> fits_in n (Some b) t.
Proof. intros Hb. exists b. split; [done|]. split; [apply Hb|by eapply holds_cstr]. Qed.

Lemma build_fits n buf t0 ts :
  lenZ buf = n -> no_nul t0 -> Forall no_nul ts -> Z.of_nat (length t0 + length (concat ts)) < n ->
  fits_in n (build buf t0 ts) (t0 ++ concat ts).
Proof.
  intros Hb H0 Hts Hl. destruct (build_spec n buf t0 ts) as (b & -> & Hh); [done..|unfold lenZ; rewrite length_app; lia|].
  by apply holds_fits.
Qed.

(** The parts of a text: literals, and strings that are known to be short. *)
Ltac parts :=
  repeat match goal with
  | |- Forall no_nul (_ :: _) => constructor
  | |- Forall no_nul [] => constructor
  | |- no_nul (cstr _) => apply no_nul_cstr
  | |- no_nul (str _) => apply no_nul_str; reflexivity
  | |- no_nul _ => first [assumption | apply no_nul_digits; assumption]
  end.
Ltac literals :=
  repeat match goal with
  | |- context [length (str ?x)] => let n := eval vm_compute in (length (str x)) in change (length (str x)) with n
  end.
Ltac short := cbn [concat]; rewrite ?length_app; literals; cbn [length]; lia.

Ltac build_text :=
  match goal with |- fits_in ?n (build ?b ?t ?ts) _ =>
    let Hb := fresh in pose proof (build_fits n b t ts) as Hb; cbn [concat] in Hb; rewrite app_nil_r in Hb;
    apply Hb; [assumption|parts..|short]
  end.

Section texts.
Context (stack64 stack48 : list Z) (H64 : lenZ stack64 = 64) (H48 : lenZ stack48 = 48).

Lemma reply_fits buf gw rtt : lenZ buf = 64 -> is_u32 rtt ->
  exists ip_s r_s, net_format_ip gw = Some ip_s /\ k_utoa rtt 10 = Some r_s /\
    fits_in 64 (reply_text buf gw rtt) (str "Reply from " ++ ip_s ++ str " time=" ++ r_s ++ str "ms").
Proof.
  intros Hb Hr. destruct (format_ip_text gw) as (ip & Ei & Ni & Li), (utoa_text rtt Hr) as (r & Er & Dr & Lr).
  exists ip, r. split; [done|]. split; [done|]. unfold reply_text, utoa. rewrite Ei, Er. cbn [mbind option_bind].
  build_text.
Qed.

(** The other texts, in the array [stack64]. *)
Lemma memory_fits free tcnt : is_u32 free -> -2147483648 < tcnt < 2147483648 ->
  exists a b, k_utoa (u32 (free * 4)) 10 = Some a /\ k_itoa tcnt 10 = Some b /\
    fits_in 64 (memory_text stack64 free tcnt) (str "Physical Free: " ++ a ++ str " KB  |  Tasks: " ++ b).
Proof using H64.
  intros Hf Ht. destruct (utoa_text (u32 (free * 4))) as (a & Ea & Da & La); [apply u32_range|].
  destruct (itoa_text tcnt Ht) as (b & Eb & Nb & Lb).
  exists a, b. split; [done|]. split; [done|]. unfold memory_text, utoa. rewrite Ea, Eb. cbn [mbind option_bind].
  build_text.
Qed.
Lemma heap_fits hs : is_u32 (used_size hs) -> is_u32 (total_size hs) ->
  exists a b, k_utoa (used_size hs / 1024) 10 = Some a /\ k_utoa (total_size hs / 1024) 10 = Some b /\
    fits_in 64 (heap_text stack64 hs) (str "Kernel Heap Used: " ++ a ++ str " KB / " ++ b ++ str " KB").
Proof using H64.
  intros Hu Ht. unfold is_u32 in *. destruct (utoa_text (used_size hs / 1024)) as (a & Ea & Da & La); [unfold is_u32; zlia|].
  destruct (utoa_text (total_size hs / 1024)) as (b & Eb & Db & Lb); [unfold is_u32; zlia|].
  exists a, b. split; [done|]. split; [done|]. unfold heap_text, utoa. rewrite Ea, Eb. cbn [mbind option_bind].
  build_text.
Qed.
Lemma uptime_fits seconds : is_u32 seconds ->
  exists a, k_utoa seconds 10 = Some a /\ fits_in 64 (uptime_text stack64 seconds) (str "Uptime: " ++ a ++ str " sec     ").
Proof using H64.
  intros Hs. destruct (utoa_text seconds Hs) as (a & Ea & Da & La).
  exists a. split; [done|]. unfold uptime_text, utoa. rewrite Ea. cbn [mbind option_bind].
  build_text.
Qed.
Lemma adapter_fits name : (length name <= 24)%nat -> fits_in 64 (adapter_text stack64 name) (str "Adapter: " ++ cstr name).
Proof using H64.
  intros Hn. pose proof (length_cstr name). unfold adapter_text.
  build_text.
Qed.
Lemma address_fits ip rx_ tx_ : is_u32 rx_ -> is_u32 tx_ ->
  exists i a b, net_format_ip ip = Some i /\ k_utoa rx_ 10 = Some a /\ k_utoa tx_ 10 = Some b /\
    fits_in 64 (address_text stack64 ip rx_ tx_) (str "IPv4: " ++ i ++ str "  |  RX/TX: " ++ a ++ str "/" ++ b).
Proof using H64.
  intros Hr Ht. destruct (format_ip_text ip) as (i & Ei & Ni & Li), (utoa_text rx_ Hr) as (a & Ea & Da & La), (utoa_text tx_ Ht) as (b & Eb & Db & Lb).
  exists i, a, b. repeat (split; [done|]). unfold address_text, utoa. rewrite Ei, Ea, Eb. cbn [mbind option_bind].
  build_text.
Qed.
Lemma volume_fits fi : (length (i_label fi) <= 12)%nat ->
  fits_in 64 (volume_text stack64 fi)
    (str "Volume: " ++ match cstr (i_label fi) with [] => str "BENGAL" | l => l end ++
     (if i_is_ramdisk fi then str " (Live RAMDisk)" else str " (ATA Disk)")).
Proof using H64.
  intros Hl. pose proof (length_cstr (i_label fi)) as Hc. pose proof (no_nul_cstr (i_label fi)) as Hn. unfold volume_text.
  set (lbl := match cstr (i_label fi) with [] => str "BENGAL" | l => l end).
  assert (no_nul lbl /\ (length lbl <= 12)%nat) as [Nl Ll].
  { unfold lbl. destruct (cstr (i_label fi)); [split; [parts|literals; lia]|split; [done|lia]]. }
  clearbody lbl. set (kind := if i_is_ramdisk fi then _ else _).
  assert (no_nul kind /\ (length kind <= 15)%nat) as [Nk Lk] by (unfold kind; destruct (i_is_ramdisk fi); split; (parts || (literals; lia))).
  clearbody kind. build_text.
Qed.

(** The line of a file: its name in a column of 22, and its size. *)
Definition file_line (name : list Z) (size : option (list Z)) : list Z :=
  let t := str "  * " ++ cstr name in
  match size with None => t | Some n => t ++ replicate (22 - length t) 32 ++ n ++ str " B" end.

Lemma concat_blanks n : concat (replicate n [32]) = replicate n 32.
Proof. induction n as [|n IH]; [done|]. cbn. by rewrite IH. Qed.

Lemma file_fits name st : (length name <= 16)%nat -> (forall f, st = Some f -> is_u32 (f_size f)) ->
  fits_in 48 (file_text stack48 name st) (file_line name (st ≫= fun f => k_utoa (f_size f) 10)).
Proof using H48.
  intros Hn Hst. pose proof (length_cstr name). pose proof (no_nul_cstr name). unfold file_text.
  destruct (build_spec 48 stack48 (str "  * ") [cstr name]) as (b & -> & Hb); [done|parts..|unfold lenZ; short|].
  cbn [concat] in Hb. rewrite app_nil_r in Hb. cbn [mbind option_bind].
  destruct st as [f|]; [|by apply holds_fits]. destruct (utoa_text (f_size f)) as (t & E & Hd & Hl); [by apply Hst|].
  cbn [option_bind mbind]. unfold utoa. rewrite E, (holds_cstr _ _ _ Hb). set (line := str "  * " ++ cstr name) in *.
  assert (length line <= 20)%nat as Hlen by (unfold line; short).
  destruct (strcat_all_spec 48 (replicate (22 - length line) [32]) line b) as (b1 & -> & Hb1); [done| |rewrite concat_blanks; unfold lenZ; rewrite length_replicate; lia|].
  { apply Forall_replicate. by repeat constructor. }
  rewrite concat_blanks in Hb1. cbn [mbind option_bind].
  destruct (strcat_all_spec 48 [t; str " B"] (line ++ replicate (22 - length line) 32) b1) as (b2 & -> & Hb2); [done|parts| |].
  { unfold lenZ. rewrite length_app, length_replicate. short. }
  cbn [concat] in Hb2. rewrite app_nil_r, <- app_assoc in Hb2. by apply holds_fits.
Qed.

(** C38: every text that the desktop builds with [strcpy] and [strcat] fits,
    with its NUL, in the array on the stack it is built in, and the array then
    holds the whole text: the reply of the gateway, the free memory and the
    number of tasks, the heap, the uptime, the adapter, the address and the
    packet counters, the volume and the lines of the files, whatever the
    numbers and the addresses are, and for names as long as their fields. *)
Theorem gui_texts_fit :
  (forall buf gw rtt, lenZ buf = 64 -> is_u32 rtt ->
     exists ip_s r_s, net_format_ip gw = Some ip_s /\ k_utoa rtt 10 = Some r_s /\
       fits_in 64 (reply_text buf gw rtt) (str "Reply from " ++ ip_s ++ str " time=" ++ r_s ++ str "ms")) /\
  (forall free tcnt, is_u32 free -> -2147483648 < tcnt < 2147483648 ->
     exists a b, k_utoa (u32 (free * 4)) 10 = Some a /\ k_itoa tcnt 10 = Some b /\
       fits_in 64 (memory_text stack64 free tcnt) (str "Physical Free: " ++ a ++ str " KB  |  Tasks: " ++ b)) /\
  (forall hs, is_u32 (used_size hs) -> is_u32 (total_size hs) ->
     exists a b, k_utoa (used_size hs / 1024) 10 = Some a /\ k_utoa (total_size hs / 1024) 10 = Some b /\
       fits_in 64 (heap_text stack64 hs) (str "Kernel Heap Used: " ++ a ++ str " KB / " ++ b ++ str " KB")) /\
  (forall seconds, is_u32 seconds ->
     exists a, k_utoa seconds 10 = Some a /\ fits_in 64 (uptime_text stack64 seconds) (str "Uptime: " ++ a ++ str " sec     ")) /\
  (forall name, (length name <= 24)%nat -> fits_in 64 (adapter_text stack64 name) (str "Adapter: " ++ cstr name)) /\
  (forall ip rx_ tx_, is_u32 rx_ -> is_u32 tx_ ->
     exists i a b, net_format_ip ip = Some i /\ k_utoa rx_ 10 = Some a /\ k_utoa tx_ 10 = Some b /\
       fits_in 64 (address_text stack64 ip rx_ tx_) (str "IPv4: " ++ i ++ str "  |  RX/TX: " ++ a ++ str "/" ++ b)) /\
  (forall fi, (length (i_label fi) <= 12)%nat ->
     fits_in 64 (volume_text stack64 fi)
       (str "Volume: " ++ match cstr (i_label fi) with [] => str "BENGAL" | l => l end ++
        (if i_is_ramdisk fi then str " (Live RAMDisk)" else str " (ATA Disk)"))) /\
  (forall name st, (length name <= 16)%nat -> (forall f, st = Some f -> is_u32 (f_size f)) ->
     fits_in 48 (file_text stack48 name st) (file_line name (st ≫= fun f => k_utoa (f_size f) 10))).
Proof using H64 H48.
  split; [exact reply_fits|]. split; [exact memory_fits|]. split; [exact heap_fits|]. split; [exact uptime_fits|].
  split; [exact adapter_fits|]. split; [exact address_fits|]. split; [exact volume_fits|exact file_fits].
Qed.
End texts.

Lemma gui_texts_fit_witness :
  fits_in 64 (reply_text first_msg 167772674 4294967295) (str "Reply from 10.0.2.2 time=4294967295ms").
Proof.
  destruct (gui_texts_fit (replicate 64 7) (replicate 48 7) eq_refl eq_refl) as [Hr _].
  destruct (Hr first_msg 167772674 4294967295 eq_refl) as (ip & r & Ei & Er & Hf); [unfold is_u32; lia|].
  vm_compute in Ei, Er. injection Ei as <-. injection Er as <-. exact Hf.
Defined.
