(* ===== verification/ShellFiles.v ===== *)
(** ShellFiles: the commands of the shell that store and show files, from the
    typed line down to the sectors of the volume and the cells of the screen. *)

From S2P Require Import Prelude Ports Partial Memory Common Text Array Ring Serial SerialTx Font Pmm.
From S2P Require Import Heap HeapInv HeapSpec HeapRun Disk Fat FatFile FatSpec FatTable FatAlloc FatFormat FatData.
From S2P Require Import FatChain FatDir FatVolume FatFiles Paging Vbe VbeSpec Rtc Net Pic Mouse Keyboard.
From S2P Require Import Console ConsoleGrid ConsoleSpec ConsolePaper ConsoleClear Shell ShellLine ShellView ShellExec.
#[local] Open Scope partial_scope.

(** * Storage: a disk beside the heap *)

(** What the commands rely on: taking memory from the heap and giving it back
    leaves the sectors of the disk. *)
Class Storage (D : Type) `{BD : BlockDev D} `{RD : !ReliableDev D} `{AL : Allocator D} := {
  sto_alloc d n p d' : rd_ok d -> al_alloc n d = Some (p, d') ->
    rd_ok d' /\ rd_size d' = rd_size d /\ forall l, rd_sector d' l = rd_sector d l;
  sto_free d p : rd_ok d -> rd_ok (al_free p d) /\ rd_size (al_free p d) = rd_size d /\
    forall l, rd_sector (al_free p d) l = rd_sector d l
}.

(** A drive and a heap with separate states. *)
Section beside.
Context {B A : Type} `{BB : BlockDev B} `{RB : !ReliableDev B} `{AA : Allocator A}.

#[export] Instance beside_dev : BlockDev (B * A) := {
  bd_read := fun lba d => let '(r, b) := bd_read lba d.1 in (r, (b, d.2));
  bd_write := fun lba buf d => let '(r, b) := bd_write lba buf d.1 in (r, (b, d.2));
  bd_enable_ramdisk := fun on d => '(r, b) ← bd_enable_ramdisk on d.1; Some (r, (b, d.2));
  bd_total_sectors := fun d => bd_total_sectors d.1;
  bd_has_hdd := fun d => bd_has_hdd d.1;
  bd_is_ramdisk := fun d => bd_is_ramdisk d.1
}.

#[export] Program Instance beside_reliable : ReliableDev (B * A) := {
  rd_ok := fun d => rd_ok d.1;
  rd_size := fun d => rd_size d.1;
  rd_sector := fun d => rd_sector d.1
}.
Next Obligation. intros d lba. apply rd_sector_wf. Qed.
Next Obligation. intros [b a] lba Hok Hl. cbn in *. by rewrite rd_read_law. Qed.
Next Obligation.
  intros [b a] lba buf Hok Hl Hlen Hu. cbn in *.
  destruct (rd_write_law b lba buf Hok Hl Hlen Hu) as (b' & -> & ? & ? & ?). by exists (b', a).
Qed.

#[export] Program Instance beside_heap : Allocator (B * A) := {
  al_alloc := fun n d => '(p, a) ← al_alloc n d.2; Some (p, (d.1, a));
  al_zalloc := fun n d => '(p, a) ← al_zalloc n d.2; Some (p, (d.1, a));
  al_free := fun p d => (d.1, al_free p d.2);
  al_load := fun d x => al_load d.2 x;
  al_st32 := fun a v d => (d.1, al_st32 a v d.2);
  al_repr := fun d rs => al_repr d.2 rs;
  al_request := fun d n => al_request d.2 n
}.
Next Obligation.
  intros [b a] rs n Hr Hq. cbn in *. destruct (al_alloc_law a rs n Hr Hq) as (p & a' & -> & ? & ? & ?).
  by exists p, (b, a').
Qed.
Next Obligation.
  intros [b a] rs n Hr Hq. cbn in *. destruct (al_zalloc_law a rs n Hr Hq) as (p & a' & -> & ? & ? & ?).
  by exists p, (b, a').
Qed.
Next Obligation. intros [b a] rs x v r. cbn. apply al_st32_law. Qed.
Next Obligation. intros [b a] rs p k rs0. cbn. apply al_free_law. Qed.

#[export] Program Instance beside_storage : Storage (B * A).
Next Obligation.
  intros [b a] n p [b' a'] Hok E. cbn in *. destruct (al_alloc n a) as [[q a1]|]; [|done].
  cbn in E. injection E as <- <- <-. done.
Qed.
Next Obligation. intros [b a] p Hok. done. Qed.
End beside.

(** * Volumes under changes of the heap *)

Section same_disk.
Context {D : Type} {BD : BlockDev D} {RD : ReliableDev D}.
Implicit Types fs : fat_fs D.

Lemma volume_same fs d m :
  rd_ok d -> rd_size d = rd_size (dev fs) -> (forall l, rd_sector d l = rd_sector (dev fs) l) ->
  volume fs m -> volume (with_dev d fs) m.
Proof.
  intros Hok Hsz Hs (Hwf & Hm & T & Hd & Hdir & Hf).
  assert (Hst : data_step fs d).
  { split; auto; [by apply wf_with_dev|]. apply mirrored_with_dev; auto. }
  split; [apply Hst|]. split; [by apply Hst|]. exists T. split; [|split; [by apply dir_frame|done]].
  apply data_frame; [|done]. intros k i x Hk Hx.
  assert (is_cluster fs x) as Hc by exact (chain_clusters _ _ _ (fo_chain _ _ (do_file _ _ Hd _ _ Hk)) x Hx).
  split; [apply entry_with_dev; auto|apply cluster_data_ext; auto].
Qed.
End same_disk.

(** * Text *)

Lemma str_u8 t : forallb (fun c => (0 <=? c) && (c <? 256)) t = true -> Forall is_u8 t.
Proof.
  intros E. apply Forall_forall. intros c Hc. rewrite forallb_forall in E. apply list_elem_of_In in Hc.
  specialize (E c Hc). unfold is_u8. bool_to_prop. lia.
Qed.

Lemma digit_u8 c : (exists d, 0 <= d < 10 /\ c = nthZ 0 digits d) -> is_u8 c.
Proof. intros (d & Hd & ->). pose proof (isdigit_digits d Hd) as Hi. unfold isdigit, is_u8 in *. bool_to_prop. lia. Qed.

(** The digits of a number. *)
Definition decimal (n : Z) : list Z := default [] (k_itoa n 10).
Lemma decimal_spec n : 0 <= n < 2147483648 -> k_itoa n 10 = Some (decimal n) /\ Forall is_u8 (decimal n).
Proof.
  intros Hn. unfold decimal, k_itoa. rewrite (proj2 (Z.ltb_ge n 0)) by lia. cbn [andb]. rewrite u32_id by lia.
  destruct (k_utoa_digits n 10) as (t & -> & _ & Ht & _); [lia|unfold_widths; lia|].
  split; [done|]. eapply Forall_impl; [exact Ht|]. apply digit_u8.
Qed.

Lemma chars_u8 t : Forall is_char t -> Forall is_u8 t.
Proof. intros Ht. eapply Forall_impl; [exact Ht|]. apply char_u8. Qed.

(** * Output of commands *)

Section output.
Context {H D : Type} `{UartTx H} `{!BytePorts H} `{BD : BlockDev D} `{RD : !ReliableDev D} `{AL : Allocator D} (rows cols : Z).
Implicit Types s : shell H D.

(** The screen shows the window on [p], and the serial line is up. *)
Record working s p : Prop := {
  wk_paper : on_paper rows cols (sh_con s) p;
  wk_wf : paper_wf rows cols p;
  wk_ready : com1_ready (sh_con s);
  wk_cursor : cursor_shown (sh_con s)
}.

(** A command that only printed the text [t]. *)
Definition said s p (t : list (Z * Z)) s' : Prop :=
  exists con, s' = set_con con s /\ working s' (paper_print rows cols t p).

Lemma said_nothing s p : working s p -> said s p [] s.
Proof. intros Hw. exists (sh_con s). split; [by destruct s|done]. Qed.
Lemma said_fs s p t s' : said s p t s' -> sh_fs s' = sh_fs s.
Proof. by intros (con & -> & _). Qed.

(** After [T], a command prints [t]. *)
Lemma con_said (m : PM (console H) unit) s0 p T s t :
  (forall con, on_paper rows cols con (paper_print rows cols T p) -> paper_wf rows cols (paper_print rows cols T p) ->
     com1_ready con -> cursor_shown con ->
     returns m con (fun _ con' => exists l, printed rows cols con l con' (paper_print rows cols t (paper_print rows cols T p)))) ->
  said s0 p T s -> returns (on_con m) s (fun _ s' => said s0 p (T ++ t) s').
Proof.
  intros Hm (con & -> & [Hp Hw Hr Hc]). apply returns_part. eapply returns_mono; [by apply Hm|].
  intros [] con' (l & [Hp' Hw' Hc' Hr' _]). exists con'. split; [done|].
  unfold paper_print in *. rewrite foldl_app. by split.
Qed.

Lemma say_spec t s0 p T s : said s0 p T s -> Forall is_u8 t -> returns (say t) s (fun _ s' => said s0 p (T ++ in_color 7 t) s').
Proof.
  intros Hs Ht. eapply con_said; [|exact Hs]. intros con Hp Hw Hr Hc.
  eapply returns_mono; [by apply (shell_print_spec rows cols t con)|]. intros ? ? Hpr. eexists. exact Hpr.
Qed.
Lemma say_color_spec t color s0 p T s :
  said s0 p T s -> Forall is_u8 t -> returns (say_color t color) s (fun _ s' => said s0 p (T ++ in_color color t) s').
Proof.
  intros Hs Ht. eapply con_said; [|exact Hs]. intros con Hp Hw Hr Hc.
  eapply returns_mono; [by apply (shell_print_color_spec rows cols t color con)|]. intros ? ? Hpr. eexists. exact Hpr.
Qed.
Lemma say_int_spec n s0 p T s :
  said s0 p T s -> 0 <= n < 2147483648 -> returns (say_int n) s (fun _ s' => said s0 p (T ++ in_color 7 (decimal n)) s').
Proof.
  intros Hs Hn. destruct (decimal_spec n Hn) as [E Hu]. eapply con_said; [|exact Hs]. intros con Hp Hw Hr Hc.
  unfold shell_print_int. apply returns_bind. exists (decimal n), con. split; [unfold p_val; by rewrite E|].
  eapply returns_mono; [by apply (shell_print_spec rows cols _ con)|]. intros ? ? Hpr. eexists. exact Hpr.
Qed.
Lemma say_char_spec c s0 p T s :
  said s0 p T s -> is_u8 c -> returns (say_char c) s (fun _ s' => said s0 p (T ++ in_color 7 [c]) s').
Proof.
  intros Hs Hu. eapply con_said; [|exact Hs]. intros con Hp Hw Hr Hc.
  unfold shell_putchar. apply returns_bind. eexists _, _. split; [done|].
  rewrite (co_attr _ (sc_ok _ _ _ _ _ _ Hp)). eapply returns_mono; [by apply (write_char_spec rows cols con)|]. intros ? ? Hpr. eexists. exact Hpr.
Qed.

Lemma in_color_app color t t' : in_color color (t ++ t') = in_color color t ++ in_color color t'.
Proof. apply fmap_app. Qed.
End output.

(** * Lines *)

(** A word on the command line. *)
Definition word (w : list Z) : Prop :=
  w <> [] /\ (length w <= 31)%nat /\ Forall (fun c => is_char c /\ is_blank c = false) w.

Lemma take_verb_word v t n :
  Forall (fun c => is_blank c = false /\ to_lower_ch c = c) v -> (length v <= n)%nat -> take_verb n (v ++ 32 :: t) = (v, 32 :: t).
Proof.
  intros Hv. revert n. induction Hv as [|c v [Hb Hl] Hv IH]; intros n Hn; cbn [app].
  - by destruct n.
  - destruct n as [|n]; [simpl in Hn; lia|]. cbn [take_verb]. rewrite Hb, IH by (simpl in Hn; lia). by rewrite Hl.
Qed.

Lemma skip_blanks_word w t : word w -> skip_blanks (w ++ t) = w ++ t /\ skip_spaces (w ++ t) = w ++ t.
Proof.
  intros (Hne & _ & Hw). destruct Hw as [|c w [_ Hc] _]; [done|]. cbn. rewrite Hc. unfold is_blank in Hc.
  by destruct (c =? 32).
Qed.

Lemma parse_line_word v w t :
  Forall (fun c => is_blank c = false /\ to_lower_ch c = c) v -> (length v <= 31)%nat -> word w ->
  parse_line (v ++ 32 :: w ++ t) = (v, w ++ t).
Proof.
  intros Hv Hl Hw. unfold parse_line. rewrite take_verb_word by done. f_equal. cbn [skip_blanks is_blank Z.eqb Pos.eqb orb].
  by apply skip_blanks_word.
Qed.

Lemma take_word_word w t n : word w -> (31 <= n)%nat -> take_word n (w ++ 32 :: t) = (w, 32 :: t).
Proof.
  intros (_ & Hl & Hw) Hn. assert (Hn' : (length w <= n)%nat) by lia. clear Hl Hn. revert n Hn'.
  induction Hw as [|c w [_ Hc] Hw IH]; intros n Hn; cbn [app].
  - by destruct n.
  - destruct n as [|n]; [simpl in Hn; lia|]. cbn [take_word]. unfold is_blank in Hc.
    destruct (c =? 32); [done|]. by rewrite IH by (simpl in Hn; lia).
Qed.

(** The text after the name: it does not start with a space. *)
Definition text_arg (t : list Z) : Prop := Forall is_char t /\ ch t <> 32.

Lemma split_two_args_word w t max2 :
  word w -> text_arg t -> (length t < max2)%nat -> split_two_args (w ++ 32 :: t) 32 max2 = (w, t).
Proof.
  intros Hw [_ Ht] Hl. unfold split_two_args. destruct (skip_blanks_word w (32 :: t) Hw) as [_ ->].
  rewrite take_word_word by (done || lia). f_equal. cbn [skip_spaces Z.eqb Pos.eqb].
  assert (skip_spaces t = t) as ->; [|apply take_ge; lia].
  destruct t as [|c t]; [done|]. cbn in *. by destruct (Z.eqb_spec c 32).
Qed.

(** * The commands *)

Section commands.
Context {H D : Type} `{UartTx H} `{!BytePorts H} `{BD : BlockDev D} `{RD : !ReliableDev D} `{AL : Allocator D} (rows cols : Z).
Context (other : list Z -> list Z -> option (PM (shell H D) unit)).
Implicit Types s : shell H D.

(** A line whose first word is the verb [v]. *)
Lemma execute_verb fuel v w t s (Q : unit -> shell H D -> Prop) :
  Forall (fun c => is_blank c = false /\ to_lower_ch c = c) v -> (length v <= 31)%nat -> ch v <> 33 -> ch v <> 35 -> v <> [] ->
  word w ->
  returns (command other (shell_execute_line other fuel) v (w ++ t)) s Q ->
  returns (shell_execute_line other (S fuel) (v ++ 32 :: w ++ t)) s Q.
Proof.
  intros Hv Hl Hb Hc Hne Hw HQ. cbn [shell_execute_line].
  assert (skip_blanks (v ++ 32 :: w ++ t) = v ++ 32 :: w ++ t) as ->.
  { destruct Hv as [|c v [Hc' _] _]; [done|]. cbn. by rewrite Hc'. }
  pose proof (parse_line_word v w t Hv Hl Hw) as Hp.
  destruct v as [|c v]; [done|]. cbn [app ch] in *. destruct (Z.eqb_spec c 35); [done|].
  apply returns_bind. eexists _, _. split; [done|]. cbv beta.
  assert (expand (c :: v ++ 32 :: w ++ t) s = None) as ->.
  { unfold expand. destruct (v ++ 32 :: w ++ t); [done|]. by destruct (Z.eqb_spec c 33). }
  by rewrite Hp.
Qed.

Lemma saved_u8 : Forall is_u8 (str "Saved ") /\ Forall is_u8 (str " bytes to ").
Proof. split; by apply str_u8. Qed.

(** C32: typing [write name text] on a mounted volume with room stores the
    text with a line end in the file, replacing what it held, leaves every
    other file, and prints how many bytes were saved under which name. *)
Theorem shell_write_stores fuel name n text s p m :
  working rows cols s p -> volume (sh_fs s) m -> word name -> file_name name n -> text_arg text -> (length text < 254)%nat ->
  FatFiles.fits (sh_fs s) m n (text ++ [NL]) ->
  returns (shell_execute_line other (S fuel) (str "write" ++ 32 :: name ++ 32 :: text)) s (fun _ s' =>
    volume (sh_fs s') (<[n := text ++ [NL]]> m) /\
    working rows cols s' (paper_print rows cols
      (in_color 10 (str "Saved ") ++ in_color 7 (decimal (lenZ text + 1) ++ str " bytes to " ++ name ++ [NL])) p)).
Proof.
  intros Hwk Hv Hw Hn Ht Hlen Hfit.
  apply execute_verb; [repeat (apply Forall_cons_2; [by compute|]); apply Forall_nil_2|by apply Nat.leb_le|done|done|done|done|].
  change (returns (cmd_write (name ++ 32 :: text)) s (fun _ s' => volume (sh_fs s') (<[n := text ++ [NL]]> m) /\
    working rows cols s' (paper_print rows cols
      (in_color 10 (str "Saved ") ++ in_color 7 (decimal (lenZ text + 1) ++ str " bytes to " ++ name ++ [NL])) p))).
  unfold cmd_write, cmd_store. rewrite split_two_args_word by (done || (unfold CMD_BUF_MAX; lia)).
  pose proof Hw as (Hne & _ & Hwc). rewrite bool_decide_false by done. cbv zeta.
  assert (line_content text = text ++ [NL]) as ->.
  { unfold line_content, strlen, lenZ, CMD_BUF_MAX. by rewrite (proj2 (Z.ltb_lt _ _)) by lia. }
  pose proof Hn as (Hnc & _). destruct (write_file_spec (sh_fs s) m name n (text ++ [NL]) Hv Hn) as (fs' & E & Hv').
  { apply Forall_app. split; [by apply chars_u8, Ht|]. by repeat constructor. }
  { unfold lenZ. rewrite length_app. simpl. lia. }
  { done. }
  apply returns_bind. exists 0, (set_fs fs' s). split.
  { unfold sh_write, p_bind, on_fs, p_zoom. by rewrite E. }
  cbn [Z.eqb]. destruct saved_u8 as [U1 U2].
  assert (S0 : said rows cols (set_fs fs' s) p [] (set_fs fs' s)) by (apply said_nothing; by destruct Hwk).
  assert (strlen (text ++ [NL]) = lenZ text + 1) as -> by (unfold strlen, lenZ; rewrite length_app; simpl; lia).
  apply returns_bind. eapply returns_mono; [by apply (say_color_spec rows cols); [exact S0|]|]. intros [] s1 S1.
  apply returns_bind. eapply returns_mono; [apply (say_int_spec rows cols); [exact S1|unfold lenZ; lia]|]. intros [] s2 S2.
  apply returns_bind. eapply returns_mono; [by apply (say_spec rows cols); [exact S2|]|]. intros [] s3 S3.
  apply returns_bind. eapply returns_mono; [apply (say_spec rows cols); [exact S3|by apply chars_u8]|]. intros [] s4 S4.
  eapply returns_mono; [by apply (say_char_spec rows cols); [exact S4|]|]. intros [] s5 S5.
  split; [by rewrite (said_fs _ _ _ _ _ _ S5)|]. destruct S5 as (con & -> & Hfin).
  rewrite !in_color_app. rewrite app_nil_l, <- !app_assoc in Hfin. exact Hfin.
Qed.

(** ** Showing a file *)

Lemma cstr_chars t : Forall is_char t -> cstr t = t.
Proof.
  induction 1 as [|c t Hc Ht IH]; [done|]. cbn. unfold is_char in Hc. destruct (Z.eqb_spec c 0); [lia|]. by rewrite IH.
Qed.

(** A text as [cat] shows it: with a line end. *)
Definition with_newline (t : list Z) : list Z := if nthZ 0 t (lenZ t - 1) =? NL then t else t ++ [NL].

Context {STO : Storage D}.

(** Reading a file into a buffer of its size. *)
Lemma read_whole fs m name n data q :
  volume fs m -> filename_to_fat name = Some n -> m !! n = Some data ->
  fat_read_file name (lenZ data) fs = ((0, lenZ data, data), fs) /\ buf_bytes q (lenZ data) data fs = data.
Proof.
  intros Hv En Em. split.
  - rewrite (read_file_spec fs m name n (lenZ data) Hv En) by apply lenZ_nonneg. rewrite Em. rewrite take_ge; [done|unfold lenZ; lia].
  - unfold buf_bytes. rewrite Z.sub_diag. cbn. apply app_nil_r.
Qed.

Lemma cat_prints data s p :
  working rows cols s p -> Forall is_char data ->
  returns (say (cstr data);; if nthZ 0 data (lenZ data - 1) =? NL then p_ret tt else say_char NL) s
    (fun _ s' => said rows cols s p (in_color 7 (with_newline data)) s').
Proof.
  intros Hw Hch. rewrite cstr_chars by done. apply returns_bind.
  eapply returns_mono; [apply (say_spec rows cols); [by apply said_nothing|by apply chars_u8]|].
  intros [] s1 S1. unfold with_newline. destruct (_ =? NL); [by apply returns_ret|].
  rewrite in_color_app. by apply (say_char_spec rows cols).
Qed.

(** C33: typing [cat name] for a text file shows its whole contents, with a
    line end added when it has none, when the heap serves the buffer; the
    files are as before. *)
Theorem shell_cat_shows fuel name n data s p m q d' :
  working rows cols s p -> volume (sh_fs s) m -> word name -> file_name name n ->
  m !! n = Some data -> data <> [] -> lenZ data <= FAT_MAX_FILE_SIZE -> Forall is_char data ->
  al_alloc (lenZ data + 1) (dev (sh_fs s)) = Some (q, d') -> q <> 0 ->
  returns (shell_execute_line other (S fuel) (str "cat" ++ 32 :: name)) s (fun _ s' =>
    volume (sh_fs s') m /\ working rows cols s' (paper_print rows cols (in_color 7 (with_newline data)) p)).
Proof.
  intros Hwk Hv Hw Hn Em Hne Hmax Hch Ea Hq. rewrite <- (app_nil_r name) at 1.
  apply execute_verb; [repeat (apply Forall_cons_2; [by compute|]); apply Forall_nil_2|by apply Nat.leb_le|done|done|done|done|].
  rewrite app_nil_r. pose proof Hw as (Hwne & _). pose proof Hn as (_ & En & _).
  change (returns (cmd_cat name) s (fun _ s' =>
    volume (sh_fs s') m /\ working rows cols s' (paper_print rows cols (in_color 7 (with_newline data)) p))).
  unfold cmd_cat. rewrite bool_decide_false by done.
  pose proof (stat_file_spec (sh_fs s) m name n Hv En) as Hst. rewrite Em in Hst. destruct Hst as (st & Est & Esz).
  apply returns_bind. exists (Some st), s. split; [unfold on_fs, p_zoom; rewrite Est; by destruct s|]. cbv beta iota. rewrite Esz.
  assert (0 < lenZ data) as Hpos by (destruct data; [done|unfold lenZ; simpl; lia]).
  destruct (Z.eqb_spec (lenZ data) 0); [lia|]. rewrite (proj2 (Z.ltb_ge _ _)) by lia. unfold FAT_MAX_FILE_SIZE in Hmax.
  rewrite u32_id by lia. destruct Hv as [Hwf Hv0] eqn:EHv. clear EHv.
  destruct (sto_alloc _ _ _ _ (wf_dev _ Hwf) Ea) as (Hok' & Hsz' & Hs').
  set (fs1 := with_dev d' (sh_fs s)). assert (Hv1 : volume fs1 m) by (by apply volume_same).
  apply returns_bind. exists q, (set_fs fs1 s). split; [unfold sh_alloc, buf_alloc; by rewrite Ea|]. cbv beta.
  destruct (Z.eqb_spec q 0); [done|].
  destruct (read_whole fs1 m name n data q Hv1 En Em) as [Er Eb].
  apply returns_bind. exists (Some data), (set_fs fs1 s). split.
  { unfold sh_read, p_bind, on_fs, p_zoom, p_get, p_ret. cbn [set_fs sh_fs]. rewrite Er. cbn [Z.eqb set_fs sh_fs]. by rewrite Eb. }
  apply returns_bind. eapply returns_mono; [apply (cat_prints data (set_fs fs1 s) p); [by destruct Hwk|done]|].
  intros [] s2 (con & -> & Hfin). eexists _, _. split; [done|]. cbn [set_con set_fs sh_fs sh_con].
  destruct (sto_free d' q Hok') as (? & ? & ?). split; [by apply (volume_same fs1)|]. by destruct Hfin.
Qed.
End commands.

(** * A shell with a disk and a heap to try it on *)

Section lift.
Context {B A : Type} `{BB : BlockDev B} `{RB : !ReliableDev B} `{AA : Allocator A}.

(** The volume [fs] on a machine with the heap [h]. *)
Definition beside (h : A) (fs : fat_fs B) : fat_fs (B * A) :=
  FatFs (boot_sector fs) (vol_lba_offset fs) (fat_start_sector fs) (root_start_sector fs) (root_sectors fs)
    (data_start_sector fs) (total_clusters fs) (fat_type fs) (fs_mounted fs) (dev fs, h).

Lemma chain_beside h fs c l : chain fs c l -> chain (beside h fs) c l.
Proof. revert c. induction l as [|x l IH]; intros c; [done|]. intros (E & Hx & Hc). split; [done|]. split; [done|]. by apply IH. Qed.

Lemma volume_beside h fs m : volume fs m -> volume (beside h fs) m.
Proof.
  intros ([] & Hm & T & [Hf Ha] & [] & Ht). split; [by split|]. split; [exact Hm|]. exists T. split; [|split; [|done]].
  - split; [|done]. intros k i Hk. destruct (Hf k i Hk). split; auto. by apply chain_beside.
  - by split.
Qed.
End lift.

Definition sample_work (fs : fat_fs array_dev) : shell tty (array_dev * heap) :=
  Sh (sample_console no_fb 25 80) (beside heap_example fs) (str "tiger") (replicate 256 0) 0 0 0 0 (replicate 16 []) 0 (-1) 0.

Lemma sample_working fs : working 25 80 (sample_work fs) start_paper.
Proof.
  split; [exact sample_vga_screen| |split; reflexivity|intros Ha; discriminate Ha].
  split; simpl; try lia. intros l k Hl Hk. by rewrite decide_False by lia.
Qed.

Lemma sample_word : word sample_name.
Proof.
  split; [done|]. split; [cbn; lia|].
  repeat (apply Forall_cons_2; [split; [unfold is_char; lia|done]|]). apply Forall_nil_2.
Qed.

Definition no_other : list Z -> list Z -> option (PM (shell tty (array_dev * heap)) unit) := fun _ _ => None.

Lemma shell_write_stores_witness :
  returns (shell_execute_line no_other 1 (str "write" ++ 32 :: sample_name ++ 32 :: str "hello")) (sample_work volume_example)
    (fun _ s' => volume (sh_fs s') (<[sample_stored := str "hello" ++ [NL]]> ∅) /\
      working 25 80 s' (paper_print 25 80
        (in_color 10 (str "Saved ") ++ in_color 7 (decimal (lenZ (str "hello") + 1) ++ str " bytes to " ++ sample_name ++ [NL]))
        start_paper)).
Proof.
  apply (shell_write_stores 25 80 no_other 0 sample_name sample_stored (str "hello") (sample_work volume_example) start_paper ∅).
  - apply sample_working.
  - apply volume_beside. exact volume_example_empty.
  - exact sample_word.
  - exact sample_file_name.
  - split; [|done]. repeat (apply Forall_cons_2; [unfold is_char; by compute|]). apply Forall_nil_2.
  - apply Nat.ltb_lt. reflexivity.
  - split; [apply Nat.leb_le; vm_compute; reflexivity|]. intros _. exists 0. split; [unfold slots; cbn; lia|]. left. reflexivity.
Defined.

Lemma shell_cat_shows_witness :
  exists fs, volume fs {[sample_stored := sample_data]} /\
    returns (shell_execute_line no_other 1 (str "cat" ++ 32 :: sample_name)) (sample_work fs) (fun _ s' =>
      volume (sh_fs s') {[sample_stored := sample_data]} /\
      working 25 80 s' (paper_print 25 80 (in_color 7 (with_newline sample_data)) start_paper)).
Proof.
  destruct sample_volume as (fs & _ & Hv). exists fs. split; [exact Hv|].
  destruct (heap_example_alloc_size 601) as (p & k & h & E & _ & Hr & _); [lia|].
  apply (shell_cat_shows 25 80 no_other 0 sample_name sample_stored sample_data (sample_work fs) start_paper
    {[sample_stored := sample_data]} p (dev fs, h)).
  - apply sample_working.
  - apply volume_beside. exact Hv.
  - exact sample_word.
  - exact sample_file_name.
  - apply lookup_singleton_eq.
  - discriminate.
  - vm_compute. discriminate.
  - apply Forall_replicate. unfold is_char. lia.
  - change (lenZ sample_data + 1) with 601. cbn [al_alloc beside_heap sample_work sh_fs beside dev snd fst heap_allocator]. rewrite E. reflexivity.
  - intros ->. pose proof (repr_region h _ (0, k) Hr ltac:(apply list_elem_of_here)) as (H0 & _). simpl in H0. lia.
Defined.
