(* ===== verification/ShellScript.v ===== *)
(** ShellScript: scripts that run scripts.  [shell_execute_line] and [cmd_sh]
    of [kernel/shell.c] call each other; the depth counter bounds the nesting,
    so that executing a line never needs more than five nested calls. *)

From S2P Require Import Prelude Ports Partial Memory Common Text Array Ring Serial Font Pmm Heap.
From S2P Require Import HeapInv HeapSpec HeapRun Disk Fat FatFile FatTable FatAlloc Paging Vbe Rtc Net.
From S2P Require Import Pic Mouse Keyboard Console ConsoleClear Shell ShellExec ShellFiles.
#[local] Open Scope partial_scope.

Create HintDb depth.

Section depth.
Context {H D : Type} `{Ports H} `{BlockDev D} `{Allocator D}.
Implicit Types s : shell H D.
Abbreviation SH := (PM (shell H D)).

(** A command that leaves the nesting depth. *)
Definition keeps {A} (m : SH A) : Prop := forall s x s', m s = Some (x, s') -> script_depth s' = script_depth s.

Lemma keeps_bind {A B} (m : SH A) (k : A -> SH B) : keeps m -> (forall x, keeps (k x)) -> keeps (p_bind m k).
Proof.
  intros Hm Hk s y s'. unfold p_bind. destruct (m s) as [[x s1]|] eqn:E; [|done].
  intros E'. rewrite (Hk _ _ _ _ E'). by eapply Hm.
Qed.
Lemma keeps_ret {A} (x : A) : keeps (p_ret x).
Proof. intros s y s' E. by injection E as <- <-. Qed.
Lemma keeps_get : keeps p_get.
Proof. intros s y s' E. by injection E as <- <-. Qed.
Lemma keeps_none {A} : keeps (p_none (A := A)).
Proof. intros s y s' E. discriminate. Qed.
Lemma keeps_val {A} (o : option A) : keeps (p_val o).
Proof. intros s y s'. unfold p_val. destruct o; [|done]. intros E. by injection E as <- <-. Qed.
Lemma keeps_each {A} (l : list A) (f : A -> SH unit) : (forall x, keeps (f x)) -> keeps (p_each l f).
Proof. intros Hf. induction l as [|x l IH]; cbn [p_each]; [apply keeps_ret|by apply keeps_bind]. Qed.
Lemma keeps_con {A} (m : PM (console H) A) : keeps (on_con m).
Proof. intros s y s'. unfold on_con, p_part. destruct (m (sh_con s)) as [[x h]|]; [|done]. intros E. by injection E as <- <-. Qed.
Lemma keeps_fs {A} (m : ST (fat_fs D) A) : keeps (on_fs m).
Proof. intros s y s'. unfold on_fs, p_zoom. destruct (m (sh_fs s)) as [x h]. intros E. by injection E as <- <-. Qed.
Lemma keeps_user name : keeps (p_mod (set_user name)).
Proof. intros s y s' E. by injection E as <- <-. Qed.
(** A function on the file system that may run out of fuel. *)
Lemma keeps_opt {A} (f : fat_fs D -> option (A * fat_fs D)) :
  keeps (fun s => '(x, fs) ← f (sh_fs s); Some (x, set_fs fs s)).
Proof. intros s y s'. destruct (f (sh_fs s)) as [[x fs]|]; [|done]. intros E. by injection E as <- <-. Qed.
Lemma keeps_free p : keeps (sh_free p).
Proof. intros s y s' E. by injection E as <- <-. Qed.
Lemma keeps_alloc n : keeps (sh_alloc n).
Proof. exact (keeps_opt (buf_alloc n)). Qed.
Lemma keeps_append name data : keeps (sh_append name data).
Proof. exact (keeps_opt (fat_append_file name data)). Qed.
Lemma keeps_copy a b : keeps (sh_copy a b).
Proof. exact (keeps_opt (fat_copy_file a b)). Qed.
Lemma keeps_write name data : keeps (sh_write name data).
Proof. apply keeps_bind; [apply keeps_fs|intros; apply keeps_val]. Qed.

Lemma keeps_if {A} (b : bool) (m m' : SH A) : keeps m -> keeps m' -> keeps (if b then m else m').
Proof. by destruct b. Qed.
End depth.
#[export] Hint Resolve keeps_ret keeps_get keeps_none keeps_val keeps_con keeps_fs keeps_user keeps_free keeps_alloc keeps_append keeps_copy keeps_write : depth.

(** Walks through the code of a command. *)
Ltac keeps_step :=
  first
    [ solve [auto with depth]
    | apply keeps_bind; [|intros ?]
    | apply keeps_each; intros ?
    | apply keeps_if
    | match goal with |- keeps (match ?x with _ => _ end) => destruct x end
    | match goal with |- keeps (let '(_, _) := ?x in _) => destruct x end ].
Ltac keeps_tac := repeat (cbv beta zeta; keeps_step).

Section commands.
Context {H D : Type} `{Ports H} `{BlockDev D} `{Allocator D}.
Implicit Types s : shell H D.

(** The commands leave the depth. *)
Lemma keeps_help : keeps (H := H) (D := D) cmd_help.
Proof. unfold cmd_help, say, say_color. keeps_tac. Qed.
Lemma keeps_date : keeps (H := H) (D := D) cmd_date.
Proof. unfold cmd_date, say. keeps_tac. Qed.
Lemma keeps_user_cmd args : keeps (H := H) (D := D) (cmd_user args).
Proof. unfold cmd_user, say, say_color, say_char. keeps_tac. Qed.
Lemma keeps_history : keeps (H := H) (D := D) cmd_history.
Proof. unfold cmd_history, say, say_int, say_char. keeps_tac. Qed.
Lemma keeps_echo args : keeps (H := H) (D := D) (cmd_echo args).
Proof. unfold cmd_echo, say, say_color, say_char. keeps_tac. Qed.
Lemma keeps_calc args : keeps (H := H) (D := D) (cmd_calc args).
Proof. unfold cmd_calc, say, say_color, say_int. keeps_tac. Qed.
Lemma keeps_cat args : keeps (H := H) (D := D) (cmd_cat args).
Proof. unfold cmd_cat, not_found, sh_read, say, say_color, say_char. keeps_tac. Qed.
Lemma keeps_store verb op d f args : (forall a b, keeps (op a b)) -> keeps (H := H) (D := D) (cmd_store verb op d f args).
Proof. intros Hop. unfold cmd_store, say, say_color, say_char, say_int. keeps_tac. Qed.
Lemma keeps_touch args : keeps (H := H) (D := D) (cmd_touch args).
Proof. unfold cmd_touch, say, say_color. keeps_tac. Qed.
Lemma keeps_rm args : keeps (H := H) (D := D) (cmd_rm args).
Proof. unfold cmd_rm, not_found, say, say_color, say_char. keeps_tac. Qed.
Lemma keeps_two u d f op args : (forall a b, keeps (op a b)) -> keeps (H := H) (D := D) (cmd_two u d f op args).
Proof. intros Hop. unfold cmd_two, say, say_color, say_char. keeps_tac. Qed.
Lemma keeps_stat args : keeps (H := H) (D := D) (cmd_stat args).
Proof. unfold cmd_stat, say, say_color, say_char, say_int. keeps_tac. Qed.
Lemma keeps_hexdump args : keeps (H := H) (D := D) (cmd_hexdump args).
Proof. unfold cmd_hexdump, hex_row, not_found, sh_read, say, say_color, say_char, say_int. keeps_tac. Qed.
Lemma keeps_df : keeps (H := H) (D := D) cmd_df.
Proof. unfold cmd_df, say_pad, say, say_color, say_char, say_int. keeps_tac. Qed.
Lemma keeps_sectors secs n : keeps (H := H) (D := D) (list_sectors secs n).
Proof.
  revert n. induction secs as [|x secs IH]; intros n; cbn [list_sectors]; [apply keeps_ret|].
  unfold list_entry, say, say_color. keeps_tac.
Qed.
Lemma keeps_ls : keeps (H := H) (D := D) fat_list_files.
Proof. unfold fat_list_files, say, say_color, say_int. keeps_tac. apply keeps_sectors. Qed.
Lemma keeps_mkfs args : keeps (H := H) (D := D) (cmd_mkfs args).
Proof. pose proof keeps_df. unfold cmd_mkfs, say, say_color. keeps_tac. apply (keeps_opt (fat_format _ _)). Qed.
End commands.
#[export] Hint Resolve keeps_help keeps_date keeps_user_cmd keeps_history keeps_echo keeps_calc keeps_cat keeps_store keeps_touch
  keeps_rm keeps_two keeps_stat keeps_hexdump keeps_df keeps_ls keeps_mkfs : depth.

(** * The recursion *)

Section recursion.
Context {H D : Type} `{Ports H} `{BlockDev D} `{Allocator D}.
Implicit Types s : shell H D.
Abbreviation SH := (PM (shell H D)).

(** Two computations that do the same at depth [d]. *)
Definition agrees {A} (d : Z) (m m' : SH A) : Prop := forall s, script_depth s = d -> m s = m' s.

Lemma agrees_refl {A} d (m : SH A) : agrees d m m.
Proof. done. Qed.
Lemma agrees_bind {A B} d d' (m : SH A) (k k' : A -> SH B) :
  (forall s x s', script_depth s = d -> m s = Some (x, s') -> script_depth s' = d') ->
  (forall x, agrees d' (k x) (k' x)) -> agrees d (p_bind m k) (p_bind m k').
Proof. intros Hm Hk s Hs. unfold p_bind. destruct (m s) as [[x s']|] eqn:E; [|done]. apply Hk. by eapply Hm. Qed.
Lemma agrees_keeps {A B} d (m : SH A) (k k' : A -> SH B) :
  keeps m -> (forall x, agrees d (k x) (k' x)) -> agrees d (p_bind m k) (p_bind m k').
Proof. intros Hm. apply agrees_bind. intros s x s' <- E. by eapply Hm. Qed.
Lemma agrees_first {A B} d (m m' : SH A) (k : A -> SH B) : agrees d m m' -> agrees d (p_bind m k) (p_bind m' k).
Proof. intros Hm s Hs. unfold p_bind. by rewrite Hm. Qed.

Lemma keeps_script n t (ex : list Z -> SH unit) : (forall l, keeps (ex l)) -> keeps (run_script n t ex).
Proof.
  intros Hex. revert t. induction n as [|n IH]; intros t; destruct t as [|c t]; cbn [run_script]; keeps_tac.
Qed.

(** One level deeper and back. *)
Definition nested (m : SH unit) : SH unit :=
  p_mod (fun s => set_depth (script_depth s + 1) s);; m;; p_mod (fun s => set_depth (script_depth s - 1) s).
Lemma keeps_nested m : keeps m -> keeps (nested m).
Proof.
  intros Hm s x s' E. unfold nested, p_bind, p_mod in E.
  destruct (m _) as [[y s1]|] eqn:E1; [|done]. injection E as <- <-. apply Hm in E1. simpl in *. lia.
Qed.

Lemma keeps_sh (ex : list Z -> SH unit) name : (forall l, keeps (ex l)) -> keeps (cmd_sh ex name).
Proof.
  intros Hex. assert (forall n t, keeps (nested (run_script n t ex))) by (intros; by apply keeps_nested, keeps_script).
  unfold nested in *. unfold cmd_sh, sh_read, say, say_color, say_char. keeps_tac.
Qed.

Lemma agrees_script d n t (ex ex' : list Z -> SH unit) :
  (forall l, keeps (ex l)) -> (forall l, agrees d (ex l) (ex' l)) -> agrees d (run_script n t ex) (run_script n t ex').
Proof.
  intros Hk Ha. revert t. induction n as [|n IH]; intros t; destruct t as [|c t]; cbn [run_script]; try done.
  destruct (script_line (c :: t)) as [line rest]. cbv zeta.
  destruct (skip_blanks (cstr (take 255 line))) as [|b trim]; [apply agrees_keeps; [auto with depth|auto]|].
  destruct (b =? 35); [apply agrees_keeps; [auto with depth|auto]|].
  intros s Hs. rewrite <- (agrees_first d _ _ _ (Ha (b :: trim)) s Hs). revert s Hs. apply agrees_keeps; auto.
Qed.

Lemma agrees_get {A} d (k k' : shell H D -> SH A) :
  (forall s, script_depth s = d -> agrees d (k s) (k' s)) -> agrees d (p_bind p_get k) (p_bind p_get k').
Proof. intros Hk s Hs. unfold p_bind, p_get. by apply Hk. Qed.

Lemma agrees_nested d (m m' : SH unit) : agrees (d + 1) m m' -> agrees d (nested m) (nested m').
Proof.
  intros Hm. apply (agrees_bind d (d + 1)).
  - intros s x s' <- E. unfold p_mod in E. by injection E as <- <-.
  - intros _. by apply agrees_first.
Qed.

Lemma agrees_sh d (ex ex' : list Z -> SH unit) name :
  (forall l, keeps (ex l)) -> (d < 4 -> forall l, agrees (d + 1) (ex l) (ex' l)) -> agrees d (cmd_sh ex name) (cmd_sh ex' name).
Proof.
  intros Hk Ha. apply agrees_get. intros s0 Hs0. rewrite Hs0.
  destruct (Z.leb_spec 4 d) as [|Hd]; [apply agrees_refl|].
  apply agrees_keeps; [auto with depth|]. intros [st|]; [|apply agrees_refl].
  destruct ((f_size st =? 0) || (16384 <? f_size st)); [apply agrees_refl|].
  apply agrees_keeps; [auto with depth|]. intros script. destruct (script =? 0); [apply agrees_refl|].
  apply agrees_keeps; [unfold sh_read; keeps_tac|]. intros [data|]; [|apply agrees_refl].
  apply agrees_first. apply (agrees_nested d), agrees_script; auto.
Qed.

Context (other : list Z -> list Z -> option (SH unit)).
Context (Hother : forall verb args m, other verb args = Some m -> keeps m).

Lemma keeps_command ex verb args : (forall l, keeps (ex l)) -> keeps (command other ex verb args).
Proof.
  intros Hex. unfold command, cmd_write, cmd_append, cmd_cp, cmd_mv, say, say_color. cbv zeta.
  repeat first [solve [auto using keeps_sh with depth] | apply keeps_if].
  destruct (other verb args) as [m|] eqn:E; [by eapply Hother|]. keeps_tac.
Qed.

Lemma agrees_if {A} d (b : bool) (m1 m2 m1' m2' : SH A) :
  agrees d m1 m1' -> agrees d m2 m2' -> agrees d (if b then m1 else m2) (if b then m1' else m2').
Proof. by destruct b. Qed.

Lemma agrees_command d ex ex' verb args :
  (forall l, keeps (ex l)) -> (d < 4 -> forall l, agrees (d + 1) (ex l) (ex' l)) ->
  agrees d (command other ex verb args) (command other ex' verb args).
Proof.
  intros Hk Ha. unfold command. cbv zeta.
  repeat match goal with
  | |- agrees _ ?m ?m' => constr_eq m m'; apply agrees_refl
  | |- agrees _ (cmd_sh _ _) _ => by apply agrees_sh
  | |- agrees _ (if _ then _ else _) _ => apply agrees_if
  end.
Qed.

Lemma keeps_line fuel line : keeps (shell_execute_line other fuel line).
Proof.
  revert line. induction fuel as [|fuel IH]; intros line; cbn [shell_execute_line]; [apply keeps_none|].
  assert (forall p, keeps (let '(verb, args) := parse_line p in command other (shell_execute_line other fuel) verb args))
    as Hrun by (intros p; destruct (parse_line p); by apply keeps_command).
  unfold say_color, say_char. keeps_tac; auto.
Qed.

(** [n] nested calls are enough from depth [5 - n] on. *)
Lemma agrees_line n f f' d line :
  0 <= d -> 4 - d < Z.of_nat n -> (1 <= n <= f)%nat -> (n <= f')%nat ->
  agrees d (shell_execute_line other f line) (shell_execute_line other f' line).
Proof.
  revert f f' d line. induction n as [|n IH]; intros f f' d line Hd Hn Hf Hf'; [lia|].
  destruct f as [|f], f' as [|f']; try lia. cbn [shell_execute_line].
  destruct (skip_blanks line) as [|c p]; [apply agrees_refl|]. destruct (c =? 35); [apply agrees_refl|].
  assert (forall p, agrees d (let '(verb, args) := parse_line p in command other (shell_execute_line other f) verb args)
    (let '(verb, args) := parse_line p in command other (shell_execute_line other f') verb args)) as Hrun.
  { intros q. destruct (parse_line q) as [verb args]. apply agrees_command; [apply keeps_line|].
    intros Hd4 l. apply IH; lia. }
  apply agrees_get. intros s0 _. destruct (expand _ s0) as [[l|]|]; [|apply agrees_refl|apply Hrun].
  apply agrees_keeps; [apply keeps_con|]. intros _. apply agrees_keeps; [apply keeps_con|]. intros _. apply Hrun.
Qed.

(** C34: executing a line never needs more than five nested calls of
    [shell_execute_line], whatever scripts the files hold, also scripts that
    call themselves: with more fuel than that the result is the same. *)
Theorem script_nesting_bounded fuel fuel' line s :
  0 <= script_depth s -> (5 <= fuel)%nat -> (5 <= fuel')%nat ->
  shell_execute_line other fuel line s = shell_execute_line other fuel' line s.
Proof.
  intros Hd Hf Hf'. apply (agrees_line 5 fuel fuel' (script_depth s)); [done|lia|lia|lia|done].
Qed.
End recursion.

(** A script that runs itself. *)
Definition loop_volume : fat_fs array_dev := (fat_write_file (str "a.sh") (strn "sh a.sh") volume_example).2.
(** The first row of the screen after a line was executed. *)
Definition first_row (r : option (unit * shell tty (array_dev * heap))) : list Z :=
  match r with
  | Some (_, s) => cell_ch <$> take 42 (nthZ [] (shadow_grid (sh_con s)) 0)
  | None => []
  end.

Lemma script_nesting_bounded_witness :
  first_row (shell_execute_line no_other 1000 (str "sh a.sh") (sample_work loop_volume)) =
    str "Maximum script nesting depth (4) exceeded.".
Proof.
  rewrite (script_nesting_bounded no_other (fun _ _ _ E => ltac:(discriminate E)) 1000 5 (str "sh a.sh") (sample_work loop_volume)).
  - vm_compute. reflexivity.
  - vm_compute. discriminate.
  - apply Nat.leb_le. reflexivity.
  - apply Nat.leb_le. reflexivity.
Defined.
