(* ===== verification/IsrSpec.v ===== *)
(** IsrSpec: what the dispatchers of [kernel/isr.c] do: which controllers get
    an end of interrupt, what a timer interrupt does, and what the system
    calls return. *)

From S2P Require Import Prelude Ports Partial Preserve Memory Common Text Array Ring Serial SerialTx Font Pmm Heap.
From S2P Require Import HeapInv HeapSpec HeapRun Disk Fat FatFile Paging Vbe VbeSpec Rtc Net Pic Mouse.
From S2P Require Import Keyboard Console ConsoleGrid ConsoleSpec ConsolePaper ConsoleClear Shell ShellExec ShellFiles ShellInfo ShellNet.
From S2P Require Import Isr Serial SerialTx Preserve.
From S2P Require Scheduler SchedSpec SchedRun Timer Klog Pci Nic Panic.
#[local] Open Scope partial_scope.

(** * The interrupt controllers *)

(** A machine that records which command ports got an end of interrupt, and
    whose controllers tell which interrupts are in service.  A card answers in its registers in memory and at ports from 256 on. *)
Class PicAck (H : Type) `{Ports H} `{Pci.LongPorts H} `{Nic.Board H} := {
  acks : H -> list Z;
  in_service : Z -> H -> Z;
  ack_isr p h : p = PIC1_COMMAND \/ p = PIC2_COMMAND -> (inb p (outb p PIC_READ_ISR h).2).1 = in_service p h;
  ack_eoi p h : p = PIC1_COMMAND \/ p = PIC2_COMMAND -> acks (outb p PIC_EOI h).2 = acks h ++ [p];
  ack_query p h : p = PIC1_COMMAND \/ p = PIC2_COMMAND -> acks (outb p PIC_READ_ISR h).2 = acks h;
  ack_in p h : acks (inb p h).2 = acks h;
  ack_inw p h : acks (inw p h).2 = acks h;
  ack_outw p v h : 256 <= p -> acks (outw p v h).2 = acks h;
  ack_read a h : acks (Nic.mmio_read32 a h).2 = acks h;
  ack_write a v h : acks (Nic.mmio_write32 a v h).2 = acks h;
  ack_dma d h : acks (Nic.set_dma d h) = acks h;
  ack_run h : acks (Nic.card_run h) = acks h
}.

(** The bit [2 ^ n] of a word. *)
Lemma bit_set_testbit x n : 0 <= n -> bit_set x (2 ^ n) = Z.testbit x n.
Proof.
  intros Hn. unfold bit_set. assert (Z.land x (2 ^ n) = if Z.testbit x n then 2 ^ n else 0) as ->.
  { apply Z.bits_inj'. intros i Hi. rewrite Z.land_spec, Z.pow2_bits_eqb by lia. destruct (Z.eqb_spec n i) as [<-|Hne].
    - rewrite andb_true_r. destruct (Z.testbit x n); [|by rewrite Z.bits_0]. by rewrite Z.pow2_bits_true.
    - rewrite andb_false_r. destruct (Z.testbit x n); [|by rewrite Z.bits_0]. rewrite Z.pow2_bits_eqb by lia. by destruct (Z.eqb_spec n i). }
  destruct (Z.testbit x n); [|done]. pose proof (Z.pow_pos_nonneg 2 n). destruct (Z.eqb_spec (2 ^ n) 0); [lia|done].
Qed.

(** ** The driver of the card sends none *)

Lemma preserves_get_bind {S A} (I : S -> Prop) (k : S -> PM S A) :
  (forall n, I n -> preserves I (k n)) -> preserves I (p_bind p_get k).
Proof. intros Hk s x s' E Hs. exact (Hk s Hs s x s' E Hs). Qed.

Section card.
Context {H E : Type} `{Ports H} `{Pci.LongPorts H} `{Nic.Board H} `{AK : !PicAck H} `{NetEnv E}.
Abbreviation nic := (Nic.nic H (net E)).
Context (l : list Z).

(** The ends of interrupt so far, and a card whose ports are from 256 on. *)
Definition acked (c : nic) : Prop := acks (Nic.board c) = l.
Definition acked_io (c : nic) : Prop :=
  acks (Nic.board c) = l /\ 256 <= Nic.io_base (Nic.nic_state c) /\ Nic.io_base (Nic.nic_state c) + 256 <= 65536.

(** Predicates that look at the board and the ports of the card only. *)
Class OnBoard (I : nic -> Prop) : Prop := {
  ob_board c h : I c -> acks h = acks (Nic.board c) -> I (Nic.with_board h c);
  ob_state f c : I c -> Nic.io_base (f (Nic.nic_state c)) = Nic.io_base (Nic.nic_state c) -> I (Nic.with_state (f (Nic.nic_state c)) c);
  ob_rx i c : I c -> I (Nic.with_rx_cur i c);
  ob_off i c : I c -> I (Nic.with_rtl_rx_offset i c);
  ob_stack n (c : nic) : I c -> I (Nic.Nic (Nic.nic_state c) (Nic.e1000_rx_cur c) (Nic.e1000_tx_cur c) (Nic.rtl_rx_offset c)
      (Nic.rtl_tx_cur c) (Nic.nic_pages c) (Nic.nic_log c) n)
}.
#[export] Instance acked_board : OnBoard acked.
Proof. split; unfold acked, Nic.board; cbn; intros; congruence. Qed.
#[export] Instance acked_io_board : OnBoard acked_io.
Proof. split; unfold acked_io, Nic.board; cbn; intros; intuition (congruence || lia). Qed.

Section board.
Context (I : nic -> Prop) `{OB : !OnBoard I}.

Lemma hw_acked {A} (m : ST H A) : (forall h, acks (m h).2 = acks h) -> preserves I (Nic.hw (R := net E) m).
Proof using OB. intros Hm. apply preserves_zoom. intros c Hc. by apply ob_board. Qed.
Lemma read32_acked a : preserves I (Nic.e1000_read32 (R := net E) a).
Proof using OB AK. unfold Nic.e1000_read32. preserve. apply hw_acked. intros. apply ack_read. Qed.
Lemma write32_acked a v : preserves I (Nic.e1000_write32 (R := net E) a v).
Proof using OB AK. unfold Nic.e1000_write32. preserve. apply hw_acked. intros. apply ack_write. Qed.
Lemma shared_acked : preserves I (Nic.shared (R := net E)).
Proof using OB AK. unfold Nic.shared. preserve. apply preserves_mod. intros c Hc. apply ob_board; [done|apply ack_run]. Qed.
Lemma put_shared_acked d : preserves I (Nic.put_shared (R := net E) d).
Proof using OB AK. apply preserves_mod. intros c Hc. apply ob_board; [done|apply ack_dma]. Qed.
#[local] Hint Resolve read32_acked write32_acked shared_acked put_shared_acked : preserve.
Lemma take_acked cur : preserves I (Nic.e1000_take (R := net E) cur).
Proof using OB AK.
  unfold Nic.e1000_take, Nic.rx_desc, Nic.copy_frame, Nic.set_rx_desc. preserve. apply preserves_mod. intros. by apply ob_rx.
Qed.
Lemma count_acked n : preserves I (Nic.update_state (R := net E) (Nic.count_rx n)).
Proof using OB. apply preserves_mod. intros c Hc. by apply (ob_state (Nic.count_rx n)). Qed.
Lemma receive_acked fuel pkt : preserves I (receive_frame (H := H) fuel pkt).
Proof using OB. apply (preserves_part I (fun _ => True)); [done|done|]. intros n c Hc _. by apply ob_stack. Qed.
#[local] Hint Resolve take_acked count_acked receive_acked : preserve.
Lemma e1000_poll_acked fuel budget : preserves I (Nic.e1000_poll_rx (receive_frame fuel) budget).
Proof using OB AK. induction budget as [|b IH]; cbn [Nic.e1000_poll_rx]; unfold Nic.rx_desc; preserve. Qed.
End board.

(** The ports of the RTL8139. *)
Lemma rtl_port_high (c : nic) reg : acked_io c -> 0 <= reg < 256 -> 256 <= u16 (Nic.io_base (Nic.nic_state c) + reg).
Proof. intros (_ & Hlo & Hhi) Hr. rewrite u16_id; lia. Qed.

Lemma rtl_ack_acked : preserves acked_io (Nic.rtl_ack (R := net E)).
Proof using AK.
  unfold Nic.rtl_ack. apply preserves_get_bind. intros c Hc. apply preserves_bind; [apply hw_acked; [apply _|]; intros; apply ack_inw|].
  intros isr. preserve. apply hw_acked; [apply _|]. intros h. apply ack_outw. apply rtl_port_high; [done|]. unfold Nic.RTL_ISR. lia.
Qed.
Lemma rtl_poll_acked fuel budget : preserves acked_io (Nic.rtl8139_poll_rx (receive_frame fuel) budget).
Proof using AK.
  induction budget as [|b IH]; cbn [Nic.rtl8139_poll_rx]; apply preserves_get_bind; intros c Hc; cbv zeta;
    (apply preserves_bind; [apply hw_acked; [apply _|]; intros; apply ack_in|]; intros v); apply preserves_if; try apply preserves_ret.
  assert (forall v, preserves acked_io (Nic.hw (R := net E) (outw (u16 (Nic.io_base (Nic.nic_state c) + Nic.RTL_CAPR)) v))) as Hout.
  { intros w. apply hw_acked; [apply _|]. intros h. apply ack_outw. apply rtl_port_high; [done|]. unfold Nic.RTL_CAPR. lia. }
  pose proof (shared_acked acked_io) as Hsh. pose proof (fun n => count_acked acked_io n) as Hcnt.
  pose proof (fun pkt => receive_acked acked_io fuel pkt) as Hrx.
  assert (Hoff : forall i, preserves acked_io (p_mod (Nic.with_rtl_rx_offset i))) by (intros; apply preserves_mod; intros; by apply ob_off).
  assert (Hinw : forall p, preserves acked_io (Nic.hw (R := net E) (inw p))) by (intros; apply hw_acked; [apply _|]; intros; apply ack_inw).
  preserve.
Qed.

(** An interrupt of the card sends no end of interrupt. *)
Lemma nic_irq_acked fuel irq (c : nic) x c' :
  Nic.nic_handle_irq (receive_frame fuel) irq c = Some (x, c') -> acked c ->
  (Nic.driver_type (Nic.nic_state c) = Nic.NIC_RTL8139 -> acked_io c) -> acked c'.
Proof using AK.
  unfold Nic.nic_handle_irq, p_bind at 1, p_get. cbv beta iota. intros Er Hc Hio.
  destruct (negb _ || negb _); [by injection Er as <- <-|]. destruct (Z.eqb_spec (Nic.driver_type (Nic.nic_state c)) Nic.NIC_E1000) as [Ht|Ht].
  - pose proof (read32_acked acked) as Hr. pose proof (e1000_poll_acked acked fuel 32) as Hp.
    eapply (preserves_bind acked) in Er; [exact (Er Hc)|apply Hr|]. intros icr. preserve.
  - destruct (Z.eqb_spec (Nic.driver_type (Nic.nic_state c)) Nic.NIC_RTL8139) as [Ht'|]; [|by injection Er as <- <-].
    pose proof rtl_ack_acked as Hr. pose proof (rtl_poll_acked fuel 32) as Hp.
    eapply (preserves_bind acked_io) in Er; [exact (proj1 (Er (Hio Ht')))|apply Hr|]. intros isr. preserve.
Qed.
End card.

(** * The whole machine *)

(** What the handlers rely on: the parts of the machine are apart, and the
    driver of the card works on the same hardware.  A card at ports has them
    from 256 on, where the bus puts them. *)
Class Assembled (H D E : Type) `{Ports H} `{Pci.LongPorts H} `{Nic.Board H} `{AK : !PicAck H} `{NetEnv E}
    `{W : !World H D E} `{C : !Card H E} := {
  as_ack_clock h : acks (w_timer h).2 = acks h;
  as_ack_timer t h : acks (w_set_timer t h) = acks h;
  as_ack_sched sc h : acks (w_set_sched sc h) = acks h;
  as_ack_keyboard k h : acks (w_set_keyboard k h) = acks h;
  as_ack_mouse m h : acks (w_set_mouse m h) = acks h;
  as_board u : acks (Nic.board (w_driver u)) = acks (serial_hw u);
  as_put_board c u : acks (serial_hw (w_set_driver c u)) = acks (Nic.board c);
  as_ports h : Nic.driver_type (w_nic h) = Nic.NIC_RTL8139 -> 256 <= Nic.io_base (w_nic h) /\ Nic.io_base (w_nic h) + 256 <= 65536;
  as_nic u : Nic.nic_state (w_driver u) = w_nic (serial_hw u);
  as_driver u : w_set_driver (w_driver u) u = u;
  as_nic_out p v h : w_nic (outb p v h).2 = w_nic h;
  as_nic_in p h : w_nic (inb p h).2 = w_nic h;
  as_nic_keyboard k h : w_nic (w_set_keyboard k h) = w_nic h;
  as_nic_mouse m h : w_nic (w_set_mouse m h) = w_nic h;
  as_nic_clock h : w_nic (w_timer h).2 = w_nic h;
  as_nic_timer t h : w_nic (w_set_timer t h) = w_nic h;
  as_nic_sched sc h : w_nic (w_set_sched sc h) = w_nic h;
  as_sched sc h : w_sched (w_set_sched sc h) = sc;
  as_sched_out p v h : w_sched (outb p v h).2 = w_sched h;
  as_sched_clock h : w_sched (w_timer h).2 = w_sched h;
  as_sched_timer t h : w_sched (w_set_timer t h) = w_sched h;
  as_timer t h : (w_timer (w_set_timer t h)).1 = t;
  as_timer_out p v h : (w_timer (outb p v h).2).1 = (w_timer h).1;
  as_timer_sched sc h : (w_timer (w_set_sched sc h)).1 = (w_timer h).1
}.

Section isr.
Context {H D E : Type} `{Ports H} `{Pci.LongPorts H} `{Nic.Board H} `{AK : !PicAck H} `{BlockDev D} `{Allocator D} `{NetEnv E}.
Context `{W : !World H D E} `{C : !Card H E} `{AS : !Assembled H D E}.
Implicit Types s : shell H D.
Context (kernel_task : Z) (fuel : nat).

(** ** The end of interrupt *)

Section kept.
Context (l : list Z).
Definition kept s : Prop := acks (world s) = l.

Lemma kept_zoom {X} (m : ST H X) : (forall h, acks (m h).2 = acks h) -> preserves kept (p_zoom (world (D := D)) set_world m).
Proof. intros Hm. apply preserves_zoom. intros s Hs. unfold kept in *. cbn. rewrite Hm. exact Hs. Qed.
Lemma kept_input {X} (m : PM (input H) X) : (forall k, preserves (fun i => acks (serial_hw (com i)) = k) m) -> preserves kept (on_input (D := D) m).
Proof using AS.
  intros Hm s x s'. unfold on_input. destruct (m _) as [[y i]|] eqn:Em; [|done]. cbn [mbind option_bind]. intros Er Hs.
  injection Er as <- <-. unfold kept. cbn. rewrite as_ack_mouse, as_ack_keyboard. exact (Hm l _ _ _ Em Hs).
Qed.
Lemma kept_sched {X} (f : Scheduler.sched D -> option (X * Scheduler.sched D)) : preserves kept (on_sched f).
Proof using AS.
  intros s x s'. unfold on_sched. destruct (f _) as [[y sc]|] eqn:Em; [|done]. cbn [mbind option_bind]. intros Er Hs.
  injection Er as <- <-. unfold kept. cbn. rewrite as_ack_sched. exact Hs.
Qed.
Lemma kept_timer : preserves kept (run_timer (D := D)).
Proof using AS.
  unfold run_timer, read_timer. apply preserves_bind; [apply kept_zoom, as_ack_clock|]. intros t. apply preserves_mod.
  intros s Hs. unfold kept. cbn. rewrite as_ack_timer. exact Hs.
Qed.
Lemma kept_mouse : preserves kept (run_mouse (D := D)).
Proof using AS.
  intros s x s'. unfold run_mouse. intros Er Hs. destruct (mouse_handler _ _ _) as [m h] eqn:Em. injection Er as <- <-.
  unfold kept. cbn. rewrite as_ack_mouse. revert Em. unfold mouse_handler, st_bind, st_ret.
  pose proof (ack_in PS2_STATUS_PORT (world s)) as Hi. destruct (inb _ _) as [v h1]. cbn in Hi. destruct (negb _).
  { intros Em. injection Em as <- <-. congruence. }
  pose proof (ack_in PS2_DATA_PORT h1) as Hi'. destruct (inb _ h1) as [w h2]. cbn in Hi'. intros Em. injection Em as <- <-. congruence.
Qed.

(** The handlers of the keyboard and of the serial line read ports only. *)
Lemma in8_kept k p : preserves (fun u => acks (serial_hw u) = k) (in8 p).
Proof using AK. unfold in8. apply preserves_zoom. intros u Hu. cbn. by rewrite ack_in. Qed.
Lemma serial_irq_kept k n : preserves (fun u => acks (serial_hw u) = k) (serial_irq_handler n).
Proof using AK.
  unfold serial_irq_handler, serial_receive, serial_has_data. pose proof (in8_kept k) as Hin.
  preserve. by apply preserves_mod.
Qed.
Lemma on_com_kept {X} k (m : PM (serial H) X) :
  preserves (fun u => acks (serial_hw u) = k) m -> preserves (fun i => acks (serial_hw (com i)) = k) (on_com m).
Proof.
  intros Hm i x i'. unfold on_com. destruct (m (com i)) as [[y u]|] eqn:Em; [|done]. intros Er Hi. injection Er as <- <-.
  exact (Hm _ _ _ Em Hi).
Qed.
Lemma keyboard_kept k : preserves (fun i => acks (serial_hw (com i)) = k) (keyboard_handler (H := H)).
Proof using AK.
  unfold keyboard_handler, on_hw. apply preserves_bind.
  - apply on_com_kept, preserves_zoom. intros u Hu. cbn. by rewrite ack_in.
  - intros sc. unfold on_kb. apply preserves_mod. by intros [].
Qed.
Lemma dispatch_kept int_no r : preserves kept (dispatch (D := D) kernel_task fuel int_no r).
Proof using AS.
  unfold dispatch. pose proof kept_timer as Ht. pose proof kept_mouse as Hm.
  pose proof (kept_sched (Scheduler.scheduler_tick kernel_task r)) as Hs.
  pose proof (kept_input _ keyboard_kept) as Hk.
  pose proof (kept_input (on_com (serial_irq_handler fuel)) (fun k => on_com_kept k _ (serial_irq_kept k fuel))) as Hc. preserve.
Qed.
Lemma nic_kept irq : preserves kept (run_nic (D := D) fuel irq).
Proof using AS.
  intros s x s'. unfold run_nic, p_part. destruct (Nic.nic_handle_irq _ _ _) as [[y c]|] eqn:Em; [|done]. intros Er Hs.
  injection Er as <- <-. unfold kept, world. cbn. rewrite (as_put_board (D := D)). fold (acked l c).
  assert (acked l (w_driver (con_ser (sh_con s)))) as Ha by (unfold acked; rewrite as_board; exact Hs).
  apply (nic_irq_acked l fuel irq _ _ _ Em Ha). intros Ht. rewrite as_nic in Ht. split; [exact Ha|].
  rewrite as_nic. by apply as_ports.
Qed.
End kept.

Lemma p_ret_bind {X Y} (x : X) (k : X -> PM (shell H D) Y) s : p_bind (p_ret x) k s = k x s.
Proof. done. Qed.
Lemma word_bind {X} a (k : Z -> PM (shell H D) X) s : p_bind (word a) k s = k (al_ld32 (dev (sh_fs s)) a) s.
Proof. done. Qed.
Lemma on_pic_bind {X Y} (m : ST H X) (k : X -> PM (shell H D) Y) s :
  p_bind (on_pic m) k s = k (m (world s)).1 (set_world (m (world s)).2 s).
Proof. unfold p_bind, on_pic, p_zoom. by destruct (m (world s)). Qed.

(** The answer of a controller to the question for a spurious interrupt. *)
Lemma query_ack p h : p = PIC1_COMMAND \/ p = PIC2_COMMAND ->
  let m := (outb p PIC_READ_ISR ;;; isr <~ inb p;; st_ret (negb (bit_set isr 128)))%kernel in
  (m h).1 = negb (Z.testbit (in_service p h) 7) /\ acks (m h).2 = acks h.
Proof using AK.
  intros Hp m. unfold m, st_bind, st_ret. pose proof (ack_isr p h Hp) as Hi. pose proof (ack_query p h Hp) as Hq.
  destruct (outb _ _ h) as [[] h1]. cbn [fst snd] in *.
  pose proof (ack_in p h1) as Ha. destruct (inb _ h1) as [v h2]. cbn [fst snd] in *. split; [|congruence].
  rewrite Hi. change 128 with (2 ^ 7). by rewrite bit_set_testbit.
Qed.
Lemma eoi_acks irq h : acks (pic_send_eoi irq h).2 = acks h ++ (if 8 <=? irq then [PIC2_COMMAND; PIC1_COMMAND] else [PIC1_COMMAND]).
Proof using AK.
  unfold pic_send_eoi, st_bind, st_ret. destruct (8 <=? irq); [|by apply ack_eoi; auto].
  pose proof (ack_eoi PIC2_COMMAND h ltac:(auto)) as H2'. destruct (outb _ _ h) as [[] h1]. cbn [snd] in H2'.
  rewrite ack_eoi, H2' by auto. by rewrite <- app_assoc.
Qed.

(** Neither the question nor the ends of interrupt change the card. *)
Lemma query_nic p h :
  w_nic ((outb p PIC_READ_ISR ;;; isr <~ inb p;; st_ret (negb (bit_set isr 128)))%kernel h).2 = w_nic h.
Proof using AS.
  unfold st_bind, st_ret. pose proof (as_nic_out p PIC_READ_ISR h) as Ho. destruct (outb _ _ h) as [[] h1]. cbn in Ho.
  pose proof (as_nic_in p h1) as Hi. destruct (inb _ h1) as [v h2]. cbn in Hi. cbn. congruence.
Qed.
Lemma eoi_nic irq h : w_nic (pic_send_eoi irq h).2 = w_nic h.
Proof using AS.
  unfold pic_send_eoi, st_bind, st_ret. destruct (8 <=? irq); [|apply as_nic_out].
  pose proof (as_nic_out PIC2_COMMAND PIC_EOI h) as Ho. destruct (outb _ _ h) as [[] h1]. cbn in Ho. by rewrite as_nic_out.
Qed.

(** A spurious interrupt: line 7 or 15, which its controller does not have in
    service. *)
Definition spurious (irq : Z) (h : H) : bool :=
  (irq =? 7) && negb (Z.testbit (in_service PIC1_COMMAND h) 7) ||
  (irq =? 15) && negb (Z.testbit (in_service PIC2_COMMAND h) 7).

(** The ends of interrupt that a line needs: none for a spurious interrupt of
    the first controller, one for the first controller for a spurious one of
    the second, and otherwise one for each controller on the way. *)
Definition line_acks (irq : Z) (h : H) : list Z :=
  if spurious irq h then (if irq =? 7 then [] else [PIC1_COMMAND])
  else if 8 <=? irq then [PIC2_COMMAND; PIC1_COMMAND] else [PIC1_COMMAND].

(** What serves the interrupt of a line: the handler of the vector, and the
    driver of the card. *)
Definition serve (int_no irq r : Z) : PM (shell H D) Z :=
  ret_r <- dispatch kernel_task fuel int_no r;; run_nic fuel irq;; p_ret ret_r.

(** Serving sends no end of interrupt. *)
Lemma serve_kept l int_no irq r : preserves (kept l) (serve int_no irq r).
Proof using AS. unfold serve. pose proof (dispatch_kept l int_no r). pose proof (nic_kept l irq). preserve. Qed.

(** The handlers of the lines other than the timer and the serial line return. *)
Lemma dispatch_returns int_no r s :
  int_no <> 32 -> int_no <> 36 -> exists s', dispatch kernel_task fuel int_no r s = Some (r, s') /\ w_nic (world s') = w_nic (world s).
Proof using AS.
  intros H32 H36. unfold dispatch. destruct (Z.eqb_spec int_no 32); [done|]. destruct (Z.eqb_spec int_no 33); [|destruct (Z.eqb_spec int_no 36); [done|]; destruct (Z.eqb_spec int_no 44)].
  - unfold p_bind, on_input, keyboard_handler, p_bind, on_hw, on_com, p_zoom, on_kb, p_mod. cbn [com kb pointer].
    change (serial_hw (con_ser (sh_con s))) with (world s). pose proof (as_nic_in KB_DATA_PORT (world s)) as Hi.
    destruct (inb _ _) as [v h]. eexists. split; [reflexivity|]. cbn. by rewrite as_nic_mouse, as_nic_keyboard.
  - unfold p_bind, run_mouse. destruct (mouse_handler _ _ _) as [m h] eqn:Em. eexists. split; [reflexivity|]. cbn. rewrite as_nic_mouse.
    revert Em. unfold mouse_handler, st_bind, st_ret. pose proof (as_nic_in PS2_STATUS_PORT (world s)) as Hi.
    destruct (inb _ _) as [v h1]. cbn in Hi. destruct (negb _); [intros Em; injection Em as <- <-; exact Hi|].
    pose proof (as_nic_in PS2_DATA_PORT h1) as Hi'. destruct (inb _ h1) as [w h2]. cbn in Hi'. intros Em. injection Em as <- <-. congruence.
  - by exists s.
Qed.

(** The end of interrupt comes first. *)
Lemma eoi_first irq r s :
  let h1 := (pic_send_eoi irq (world s)).2 in
  p_bind (on_pic (pic_send_eoi irq)) (fun _ =>
    int_no <- word (r + o_int_no);; ret_r <- dispatch kernel_task fuel int_no r;; run_nic fuel irq;; p_ret ret_r) s =
  serve (al_ld32 (dev (sh_fs s)) (r + o_int_no)) irq r (set_world h1 s).
Proof. intros h1. rewrite on_pic_bind, word_bind. reflexivity. Qed.

Lemma irq_order r s :
  let int_no := al_ld32 (dev (sh_fs s)) (r + o_int_no) in
  let irq := u8 (int_no - 32) in
  exists h1, acks h1 = acks (world s) ++ line_acks irq (world s) /\ w_nic h1 = w_nic (world s) /\
    irq_handler kernel_task fuel r s =
      if spurious irq (world s) then Some (r, set_world h1 s) else serve int_no irq r (set_world h1 s).
Proof using AS.
  intros int_no irq. unfold irq_handler. rewrite word_bind. cbv zeta. fold int_no. fold irq. unfold line_acks, spurious.
  destruct (Z.eqb_spec irq 7) as [->|_]; [|destruct (Z.eqb_spec irq 15) as [->|_]]; cbn [andb orb Z.eqb Pos.eqb].
  - rewrite on_pic_bind. destruct (query_ack PIC1_COMMAND (world s)) as [E1 E2]; [auto|].
    pose proof (query_nic PIC1_COMMAND (world s)) as E3. fold pic_is_spurious_irq7 in E1, E2, E3. rewrite E1. rewrite orb_false_r.
    destruct (negb _).
    + eexists. split; [rewrite app_nil_r; exact E2|]. split; [exact E3|reflexivity].
    + rewrite p_ret_bind, eoi_first. eexists. split; [|split; [|reflexivity]].
      * rewrite eoi_acks. cbn. by rewrite E2.
      * rewrite eoi_nic. exact E3.
  - rewrite p_ret_bind, on_pic_bind. destruct (query_ack PIC2_COMMAND (world s)) as [E1 E2]; [auto|].
    pose proof (query_nic PIC2_COMMAND (world s)) as E3. fold pic_is_spurious_irq15 in E1, E2, E3. rewrite E1.
    destruct (negb _).
    + rewrite on_pic_bind. eexists. split; [|split; [|reflexivity]].
      * rewrite ack_eoi by auto. cbn. by rewrite E2.
      * rewrite as_nic_out. exact E3.
    + rewrite eoi_first. eexists. split; [|split; [|reflexivity]].
      * rewrite eoi_acks. cbn. by rewrite E2.
      * rewrite eoi_nic. exact E3.
  - rewrite !p_ret_bind, eoi_first. eexists. split; [apply eoi_acks|]. split; [apply eoi_nic|reflexivity].
Qed.

Lemma set_world_same s : set_con (set_ser (con_ser (sh_con s)) (sh_con s)) s = s.
Proof. by destruct s as [[]]. Qed.
(** A card on another line does not see the interrupt. *)
Lemma run_nic_other {Y} irq (k : unit -> PM (shell H D) Y) s :
  (Nic.initialized (w_nic (world s)) = true -> Nic.nic_irq (w_nic (world s)) <> irq) -> p_bind (run_nic fuel irq) k s = k tt s.
Proof using AS.
  intros Hn. unfold p_bind, run_nic, p_part, Nic.nic_handle_irq, p_bind, p_get. rewrite as_nic. fold (world s).
  assert (negb (Nic.initialized (w_nic (world s))) || negb (irq =? Nic.nic_irq (w_nic (world s))) = true) as ->.
  { destruct (Nic.initialized _); [|done]. destruct (Z.eqb_spec irq (Nic.nic_irq (w_nic (world s)))) as [E'|]; [|done].
    by destruct (Hn eq_refl). }
  unfold p_ret. rewrite as_driver. by rewrite set_world_same.
Qed.

(** C16: the dispatcher acknowledges every hardware interrupt exactly once,
    and before it is served: whatever the handlers and the driver of the card
    do, even if they never return, they start on a machine whose controllers
    have got the ends of interrupt that the line needs, in that order, and
    they send no other; a spurious interrupt is not served.  The handler of
    every line but the timer's and the serial line's returns, when the card
    is on another line, to the frame it interrupted. *)
Theorem irq_acknowledged r s :
  let int_no := al_ld32 (dev (sh_fs s)) (r + o_int_no) in
  let irq := u8 (int_no - 32) in
  exists h1, acks h1 = acks (world s) ++ line_acks irq (world s) /\
    irq_handler kernel_task fuel r s =
      (if spurious irq (world s) then Some (r, set_world h1 s) else serve int_no irq r (set_world h1 s)) /\
    (forall r' s', irq_handler kernel_task fuel r s = Some (r', s') -> acks (world s') = acks h1) /\
    (int_no <> 32 -> int_no <> 36 -> (Nic.initialized (w_nic (world s)) = true -> Nic.nic_irq (w_nic (world s)) <> irq) ->
     exists s', irq_handler kernel_task fuel r s = Some (r, s')).
Proof using AS.
  intros int_no irq. destruct (irq_order r s) as (h1 & Ha & Hn & ->). fold int_no. fold irq. exists h1. split; [exact Ha|].
  split; [reflexivity|]. destruct (spurious irq (world s)); (split; [intros r' s' Er|intros H32 H36 Hc]).
  - by injection Er as <- <-.
  - by eexists.
  - by apply (serve_kept (acks h1) int_no irq r _ _ _ Er).
  - destruct (dispatch_returns int_no r (set_world h1 s) H32 H36) as (s' & Ed & Ed'). exists s'.
    unfold serve. unfold p_bind at 1. rewrite Ed. cbn [mbind option_bind]. rewrite run_nic_other; [done|].
    rewrite Ed'. cbn. by rewrite Hn.
Qed.

(** ** The timer interrupt *)

Definition sched_of s : Scheduler.sched D := Scheduler.with_alloc (dev (sh_fs s)) (w_sched (world s)).

Lemma on_sched_run {X Y} (f : Scheduler.sched D -> option (X * Scheduler.sched D)) (k : X -> PM (shell H D) Y) x sc s :
  f (sched_of s) = Some (x, sc) ->
  p_bind (on_sched f) k s = k x (set_world (w_set_sched sc (world s)) (set_fs (with_dev (Scheduler.mem_of sc) (sh_fs s)) s)).
Proof. intros Ef. unfold p_bind, on_sched. fold (sched_of s). by rewrite Ef. Qed.
Lemma run_timer_bind {Y} (k : unit -> PM (shell H D) Y) s :
  p_bind run_timer k s = k tt (set_world (w_set_timer (Timer.timer_handler (w_timer (world s)).1) (w_timer (world s)).2) s).
Proof. unfold p_bind, run_timer, read_timer, p_zoom, p_bind. by destruct (w_timer (world s)). Qed.
Lemma ticked_regs (sc : Scheduler.sched D) p :
  Scheduler.t_regs_ptr (Scheduler.task_at (SchedRun.ticked sc) p) = Scheduler.t_regs_ptr (Scheduler.task_at sc p).
Proof.
  unfold SchedRun.ticked. rewrite SchedSpec.task_at_upd. by destruct (decide _) as [->|].
Qed.
(** The machine after the handler of the timer line. *)
Definition timed (sc : Scheduler.sched D) s : shell H D :=
  set_world (w_set_sched sc (w_set_timer (Timer.timer_handler (w_timer (world s)).1) (w_timer (world s)).2))
    (set_fs (with_dev (Scheduler.mem_of sc) (sh_fs s)) s).
Lemma dispatch_timer r x sc s :
  Scheduler.scheduler_tick kernel_task r (sched_of s) = Some (x, sc) -> dispatch kernel_task fuel 32 r s = Some (x, timed sc s).
Proof using AS.
  intros Es. unfold dispatch. cbn [Z.eqb Pos.eqb]. rewrite run_timer_bind. set (s1 := set_world _ s).
  assert (sched_of s1 = sched_of s) as E1 by (unfold sched_of; cbn; by rewrite as_sched_timer, as_sched_clock).
  unfold on_sched. fold (sched_of s1). rewrite E1, Es. reflexivity.
Qed.

(** C15: a timer interrupt returns.  It acknowledges the first controller,
    counts the tick, reaps the terminated tasks and resumes the task that
    round-robin selects, from the registers that were saved for it. *)
Theorem timer_interrupt r s l rs0 :
  let sc := sched_of s in
  al_ld32 (dev (sh_fs s)) (r + o_int_no) = 32 ->
  SchedSpec.sched_ok kernel_task sc l rs0 ->
  (Nic.initialized (w_nic (world s)) = true -> Nic.nic_irq (w_nic (world s)) <> 0) ->
  exists l1 l2 s',
    kernel_task :: SchedSpec.survivors (SchedRun.ticked sc) l = l1 ++ Scheduler.current_task sc :: l2 /\
    let n := SchedSpec.round_robin kernel_task (SchedRun.ticked sc) (l2 ++ l1) in
    irq_handler kernel_task fuel r s =
      Some (if n =? Scheduler.current_task sc then r else Scheduler.t_regs_ptr (Scheduler.task_at sc n), s') /\
    SchedSpec.sched_ok kernel_task (sched_of s') (SchedSpec.survivors (SchedRun.ticked sc) l) rs0 /\
    Scheduler.current_task (sched_of s') = n /\
    Scheduler.tick (sched_of s') = u32 (Scheduler.tick sc + 1) /\
    (w_timer (world s')).1 = Timer.timer_handler (w_timer (world s)).1 /\
    acks (world s') = acks (world s) ++ [PIC1_COMMAND].
Proof using AS.
  intros sc Hi Hok Hn. destruct (SchedRun.ticked_ok kernel_task sc l rs0 r Hok) as (Et & Hok1 & _).
  destruct (SchedSpec.schedule_spec kernel_task (SchedRun.ticked sc) l rs0 r Hok1) as (l1 & l2 & sc' & El & Es & Hok' & Hc & _ & Htk & _).
  rewrite <- Et in Es. set (n := SchedSpec.round_robin _ _ _) in *. set (c := Scheduler.current_task _) in *.
  set (s1 := set_world (pic_send_eoi 0 (world s)).2 s). exists l1, l2, (timed sc' s1). split; [exact El|]. split.
  - unfold irq_handler. rewrite word_bind. cbv zeta. rewrite Hi. change (u8 (32 - 32)) with 0. cbn [Z.eqb Pos.eqb].
    rewrite !p_ret_bind, on_pic_bind, word_bind. fold s1. change (dev (sh_fs s1)) with (dev (sh_fs s)). rewrite Hi.
    unfold p_bind at 1. erewrite dispatch_timer; [|unfold sched_of; cbn; rewrite as_sched_out; exact Es].
    cbn [mbind option_bind]. rewrite run_nic_other.
    + unfold p_ret. fold n. by rewrite ticked_regs.
    + unfold timed. cbn. by rewrite as_nic_sched, as_nic_timer, as_nic_clock, as_nic_out.
  - fold n. assert (sched_of (timed sc' s1) = sc') as -> by (unfold sched_of; cbn; rewrite as_sched; by destruct sc').
    split; [exact Hok'|]. split; [exact Hc|]. split; [exact Htk|]. unfold timed. cbn. split.
    + by rewrite as_timer_sched, as_timer, as_timer_out.
    + by rewrite as_ack_sched, as_ack_timer, as_ack_clock, ack_eoi by auto.
Qed.
End isr.


(** * The system calls *)

(** The size of [struct regs]. *)
Definition REGS_SIZE : Z := 76.

Section syscall.
Context {H D E : Type} `{UT : UartTx H} `{Pci.LongPorts H} `{Nic.Board H} `{BlockDev D} `{Allocator D} `{NetEnv E}.
Context `{W : !World H D E} `{C : !Card H E} (rows cols : Z).
Implicit Types s : shell H D.
Context (kernel_task : Z) (fuel : nat) (wake : PM (Timer.clock H) unit).
Abbreviation memory s := (dev (sh_fs s)).

(** The registers at [r] are in a block of the heap. *)
Definition frame_in (d : D) (r : Z) : Prop :=
  exists rs b, al_repr d rs /\ b ∈ rs /\ b.1 <= r /\ r + REGS_SIZE <= b.1 + b.2.

(** The memory [d] with [v] in the saved [eax]. *)
Definition answer (r v : Z) (d d' : D) : Prop :=
  al_ld32 d' (r + o_eax) = u32 v /\ frame_in d' r /\
  forall x, x < r + o_eax \/ r + o_eax + 4 <= x -> al_load d' x = al_load d x.

Lemma st32_answer r v d : frame_in d r -> answer r v d (al_st32 (r + o_eax) v d).
Proof.
  intros (rs & b & Hr & Hb & Hlo & Hhi). unfold REGS_SIZE, o_eax in *.
  destruct (al_st32_law d rs (r + 44) v b Hr Hb) as (Hr' & _ & Hx & Hw); [lia..|].
  split; [exact Hw|]. split; [by exists rs, b|exact Hx].
Qed.

(** The saved registers that [set_eax] changes. *)
Lemma set_eax_spec r v s :
  frame_in (memory s) r -> returns (set_eax r v) s (fun _ s' => sh_con s' = sh_con s /\ answer r v (memory s) (memory s')).
Proof. intros Hf. eexists tt, _. split; [reflexivity|]. split; [done|]. by apply st32_answer. Qed.
Lemma fail_spec r v s :
  frame_in (memory s) r ->
  returns (set_eax r v;; p_ret r) s (fun r' s' => r' = r /\ sh_con s' = sh_con s /\ answer r v (memory s) (memory s')).
Proof.
  intros Hf. apply returns_bind. eapply returns_mono; [by apply set_eax_spec|]. intros [] s' Hs. by apply returns_ret.
Qed.

(** ** write *)

(** The bytes from [buf] on, without the terminators. *)
Definition shown (d : D) (buf len : Z) : list Z :=
  filter (fun c => c <> 0) ((fun i => al_load d (u32 (buf + i))) <$> seqZ 0 len).

Lemma cstr_one c : cstr [c] = filter (fun c => c <> 0) [c].
Proof. rewrite filter_cons, filter_nil. cbn. by destruct (Z.eqb_spec c 0); case_decide. Qed.
Lemma filter_first (c : Z) l : filter (fun c => c <> 0) (c :: l) = filter (fun c => c <> 0) [c] ++ filter (fun c => c <> 0) l.
Proof. by rewrite <- filter_app. Qed.
Lemma write_bytes_spec buf len s p :
  working rows cols s p -> (forall i, 0 <= i < len -> is_u8 (al_load (memory s) (u32 (buf + i)))) ->
  returns (write_bytes buf len) s (fun _ s' => said rows cols s p (in_color 7 (shown (memory s) buf len)) s').
Proof using UT.
  intros Hw Hu. unfold write_bytes, shown.
  assert (forall l s1 T, Forall (fun i => 0 <= i < len) l -> said rows cols s p T s1 ->
    returns (p_each l (fun i => c <- byte (u32 (buf + i));; say (cstr [c]))) s1 (fun _ s' =>
      said rows cols s p (T ++ in_color 7 (filter (fun c => c <> 0) ((fun i => al_load (memory s) (u32 (buf + i))) <$> l))) s')) as Hl.
  { intros l. induction l as [|i l IH]; intros s1 T Hl Hs; cbn [p_each].
    - apply returns_ret. by rewrite app_nil_r.
    - inversion_clear Hl as [|? ? Hi Hl']. apply returns_bind. unfold byte, see_dev. cbn [p_bind p_get p_ret].
      apply returns_bind. eexists _, s1. split; [reflexivity|]. rewrite (said_fs _ _ _ _ _ _ Hs), cstr_one.
      eapply returns_mono; [apply (say_spec rows cols _ s p T s1 Hs)|].
      { apply Forall_forall. intros x [_ Hx]%list_elem_of_filter. apply list_elem_of_singleton in Hx as ->. by apply Hu. }
      intros [] s2 Hs2. eapply returns_mono; [by apply (IH s2 _ Hl' Hs2)|]. intros [] s3 Hs3.
      rewrite fmap_cons, filter_first. unfold in_color in *. by rewrite fmap_app, app_assoc. }
  eapply returns_mono; [apply (Hl (seqZ 0 len) s []); [|by apply said_nothing]|done].
  apply Forall_forall. intros i Hi%elem_of_seqZ. lia.
Qed.

(** ** exit and yield *)

(** After [f] on its tasks, the scheduler switches to the task that round-robin
    selects. *)
Lemma reschedule_spec f r s l rs0 :
  SchedSpec.sched_ok kernel_task (f (sched_of s)) l rs0 ->
  returns (reschedule kernel_task f r) s (fun r' s' =>
    exists l1 l2 sc', let sc := f (sched_of s) in let c := Scheduler.current_task sc in
      let n := SchedSpec.round_robin kernel_task sc (l2 ++ l1) in
      kernel_task :: SchedSpec.survivors sc l = l1 ++ c :: l2 /\
      r' = (if n =? c then r else Scheduler.t_regs_ptr (Scheduler.task_at sc n)) /\
      SchedSpec.sched_ok kernel_task sc' (SchedSpec.survivors sc l) rs0 /\ Scheduler.current_task sc' = n /\
      world s' = w_set_sched sc' (world s) /\ memory s' = Scheduler.mem_of sc').
Proof.
  intros Hok. destruct (SchedSpec.schedule_spec kernel_task (f (sched_of s)) l rs0 r Hok)
    as (l1 & l2 & sc' & El & Es & Hok' & Hc & _).
  unfold returns, reschedule, on_sched. fold (sched_of s). rewrite Es. cbn [mbind option_bind].
  eexists _, _. split; [reflexivity|]. exists l1, l2, sc'. done.
Qed.

(** The zombie is not selected unless it is the kernel. *)
Lemma zombie_leaves (sc : Scheduler.sched D) after :
  Scheduler.t_state (Scheduler.task_at sc (Scheduler.current_task sc)) = Scheduler.ZOMBIE ->
  Scheduler.current_task sc <> kernel_task -> SchedSpec.round_robin kernel_task sc after <> Scheduler.current_task sc.
Proof.
  intros Hz Hk. unfold SchedSpec.round_robin. assert (SchedSpec.runs sc (Scheduler.current_task sc) = false) as Hc.
  { unfold SchedSpec.runs. by rewrite Hz. }
  rewrite Hc. unfold SchedSpec.first_such. destruct (filter _ after) as [|x l] eqn:El; [cbn; congruence|]. cbn. intros ->.
  assert (Scheduler.current_task sc ∈ filter (fun p => SchedSpec.runs sc p = true) after) as Hin by (rewrite El; left).
  apply list_elem_of_filter in Hin as [Hr _]. congruence.
Qed.

(** The numbers the handler knows. *)
Definition known_calls : list Z := [SYS_EXIT; SYS_WRITE; SYS_GETPID; SYS_SLEEP; SYS_UPTIME; SYS_YIELD].

(** ** The calls one by one *)

Lemma returns_word {X} a (k : Z -> PM (shell H D) X) s Q : returns (k (al_ld32 (memory s) a)) s Q -> returns (p_bind (word a) k) s Q.
Proof. done. Qed.
Lemma returns_see {X Y} (f : H -> X) (k : X -> PM (shell H D) Y) s Q : returns (k (f (world s))) s Q -> returns (p_bind (see f) k) s Q.
Proof. done. Qed.
Abbreviation call r s v Q := (returns (syscall_handler kernel_task fuel wake r) s (fun r' s' =>
  r' = r /\ answer r v (memory s) (memory s') /\ Q s')).
Abbreviation current s := (Scheduler.current_task (w_sched (world s))).
Abbreviation pid_of s := (Scheduler.t_id (Scheduler.task_at (w_sched (world s)) (current s))).

Lemma finish v r s v' :
  frame_in (memory s) r -> u32 v' = u32 v ->
  returns (set_eax r v';; p_ret r) s (fun r' s' => r' = r /\ answer r v (memory s) (memory s') /\ sh_con s' = sh_con s).
Proof.
  intros Hf Ev. eapply returns_mono; [by apply fail_spec|]. intros r' s' (-> & Hc & Ha & Hf' & Hx). split; [done|]. split; [|done].
  split; [by rewrite Ha|done].
Qed.
Lemma sys_getpid r s :
  frame_in (memory s) r -> al_ld32 (memory s) (r + o_eax) = SYS_GETPID -> current s <> 0 ->
  call r s (pid_of s) (fun s' => sh_con s' = sh_con s).
Proof.
  intros Hf En Hc. apply returns_word. rewrite En. cbn [Z.eqb Pos.eqb SYS_GETPID SYS_EXIT SYS_WRITE]. apply returns_see. cbv zeta.
  unfold Scheduler.scheduler_get_current. destruct (Z.eqb_spec (current s) 0) as [|_]; [done|]. by apply finish.
Qed.
Lemma sys_uptime r s :
  frame_in (memory s) r -> al_ld32 (memory s) (r + o_eax) = SYS_UPTIME ->
  call r s (10 * Timer.ticks (w_timer (world s)).1) (fun s' => world s' = (w_timer (world s)).2).
Proof.
  intros Hf En. apply returns_word. rewrite En. cbn [Z.eqb Pos.eqb SYS_GETPID SYS_EXIT SYS_WRITE SYS_SLEEP SYS_UPTIME].
  unfold read_timer. apply returns_bind. unfold returns at 1, p_zoom. destruct (w_timer (world s)) as [t h]. cbn [fst snd].
  eexists _, _. split; [reflexivity|].
  eapply returns_mono; [apply (finish (10 * Timer.ticks t) r (set_world h s)); [exact Hf|]|].
  - unfold Timer.timer_get_ms. rewrite u32_u32. f_equal. change (1000 / Timer.TIMER_HZ) with 10. lia.
  - intros r' s' (-> & Ha & Hc). split; [done|]. split; [exact Ha|]. unfold world. by rewrite Hc.
Qed.
Lemma sys_write r s p :
  let buf := al_ld32 (memory s) (r + o_ecx) in let len := al_ld32 (memory s) (r + o_edx) in
  working rows cols s p -> frame_in (memory s) r -> al_ld32 (memory s) (r + o_eax) = SYS_WRITE ->
  buf <> 0 -> 0 < len <= 4096 -> (forall i, 0 <= i < len -> is_u8 (al_load (memory s) (u32 (buf + i)))) ->
  call r s len (fun s' => working rows cols s' (paper_print rows cols (in_color 7 (shown (memory s) buf len)) p)).
Proof using UT.
  intros buf len Hw Hf En Hb Hl Hu. apply returns_word. rewrite En. cbn [Z.eqb Pos.eqb SYS_EXIT SYS_WRITE].
  do 2 apply returns_word. fold buf len.
  assert (negb (buf =? 0) && (0 <? len) && (len <=? 4096) = true) as -> by (bool_to_prop; lia).
  apply returns_bind, returns_bind. eapply returns_mono; [by apply (write_bytes_spec buf len s p)|].
  intros [] s1 (con & -> & Hw1). eapply returns_mono; [by apply set_eax_spec|].
  intros [] s2 [Hc Ha]. apply returns_ret. split; [done|]. split; [exact Ha|]. destruct Hw1. split; rewrite ?Hc; assumption.
Qed.
Lemma sys_fails r s :
  let num := al_ld32 (memory s) (r + o_eax) in
  let buf := al_ld32 (memory s) (r + o_ecx) in let len := al_ld32 (memory s) (r + o_edx) in
  frame_in (memory s) r ->
  num ∉ known_calls \/ num = SYS_WRITE /\ (buf = 0 \/ ~ 0 < len <= 4096) \/ num = SYS_EXIT /\ pid_of s = 0 ->
  call r s (-1) (fun s' => sh_con s' = sh_con s).
Proof.
  intros num buf len Hf [Hn|[[En Hb]|[En Hp]]]; apply returns_word; fold num.
  - unfold known_calls in Hn. rewrite !not_elem_of_cons in Hn. destruct Hn as (H1' & H2' & H3' & H4' & H5' & H6' & _).
    rewrite !(proj2 (Z.eqb_neq num _)) by assumption. by apply finish.
  - rewrite En. cbn [Z.eqb Pos.eqb SYS_EXIT SYS_WRITE]. do 2 apply returns_word. fold buf len.
    assert (negb (buf =? 0) && (0 <? len) && (len <=? 4096) = false) as ->.
    { apply not_true_iff_false. intros Hx. bool_to_prop. destruct Hb; lia. }
    by apply finish.
  - rewrite En. cbn [Z.eqb Pos.eqb SYS_EXIT]. apply returns_see. cbv zeta. unfold Scheduler.scheduler_get_current. rewrite Hp.
    rewrite andb_false_r. by apply finish.
Qed.
Lemma sys_exit r s l rs0 :
  al_ld32 (memory s) (r + o_eax) = SYS_EXIT -> pid_of s <> 0 -> current s <> kernel_task ->
  SchedSpec.sched_ok kernel_task (sched_of s) l rs0 ->
  returns (syscall_handler kernel_task fuel wake r) s (fun r' s' => exists n sc', n <> current s /\
    r' = Scheduler.t_regs_ptr (Scheduler.task_at (w_sched (world s)) n) /\
    world s' = w_set_sched sc' (world s) /\ memory s' = Scheduler.mem_of sc' /\ Scheduler.current_task sc' = n /\
    exists l', SchedSpec.sched_ok kernel_task sc' l' rs0).
Proof.
  intros En Hp Hk Hok. apply returns_word. rewrite En. cbn [Z.eqb Pos.eqb SYS_EXIT]. apply returns_see. cbv zeta.
  unfold Scheduler.scheduler_get_current. pose proof (SchedSpec.so_cur _ _ _ _ Hok) as Hc.
  pose proof (SchedSpec.ok_nz kernel_task _ l rs0 _ Hok Hc) as Hz. change (Scheduler.current_task (sched_of s)) with (current s) in *.
  rewrite (proj2 (Z.eqb_neq (current s) 0) Hz), (proj2 (Z.eqb_neq (pid_of s) 0) Hp). cbn [negb andb].
  eapply returns_mono; [apply (reschedule_spec _ r s l rs0)|].
  - apply SchedSpec.ok_upd; [exact Hok|exact Hc|apply SchedSpec.keeps_links_state].
  - intros r' s' (l1 & l2 & sc' & _ & -> & Hok' & En' & Hw & Hm). eexists _, sc'.
    match type of En' with _ = ?n => assert (n <> current s) as Hne end.
    { apply (zombie_leaves (Scheduler.upd (current s) (Scheduler.set_state Scheduler.ZOMBIE) (sched_of s))); [|exact Hk].
      cbn [Scheduler.current_task Scheduler.upd Scheduler.with_tasks]. rewrite SchedSpec.task_at_upd. by rewrite decide_True. }
    split; [exact Hne|]. split; [|by eauto 6].
    match goal with |- context [?a =? ?b] => rewrite (proj2 (Z.eqb_neq a b) Hne) end.
    rewrite SchedSpec.task_at_upd. by rewrite decide_False.
Qed.

(** C17: the system calls.  [getpid] and [uptime] return the number of the task
    and the milliseconds since the start; [write] puts the bytes of a buffer of
    1 to 4096 bytes on the console and returns their number; a bad buffer, an
    unknown number and an [exit] of task 0 return -1 and print nothing.  No
    call changes other memory than the saved [eax].  The [exit] of another
    task terminates it and resumes a different one from its saved registers. *)
Theorem syscall_results r s p :
  let d := memory s in
  let num := al_ld32 d (r + o_eax) in
  let buf := al_ld32 d (r + o_ecx) in
  let len := al_ld32 d (r + o_edx) in
  let cur := Scheduler.current_task (w_sched (world s)) in
  let pid := Scheduler.t_id (Scheduler.task_at (w_sched (world s)) cur) in
  let call v (Q : shell H D -> Prop) := returns (syscall_handler kernel_task fuel wake r) s (fun r' s' =>
    r' = r /\ answer r v d (memory s') /\ Q s') in
  working rows cols s p -> frame_in d r ->
  (num = SYS_GETPID -> cur <> 0 -> call pid (fun s' => sh_con s' = sh_con s)) /\
  (num = SYS_UPTIME -> call (10 * Timer.ticks (w_timer (world s)).1) (fun s' => world s' = (w_timer (world s)).2)) /\
  (num = SYS_WRITE -> buf <> 0 -> 0 < len <= 4096 -> (forall i, 0 <= i < len -> is_u8 (al_load d (u32 (buf + i)))) ->
     call len (fun s' => working rows cols s' (paper_print rows cols (in_color 7 (shown d buf len)) p))) /\
  (num ∉ known_calls \/ num = SYS_WRITE /\ (buf = 0 \/ ~ 0 < len <= 4096) \/ num = SYS_EXIT /\ pid = 0 ->
     call (-1) (fun s' => sh_con s' = sh_con s)) /\
  (forall l rs0, num = SYS_EXIT -> pid <> 0 -> cur <> kernel_task -> SchedSpec.sched_ok kernel_task (sched_of s) l rs0 ->
     returns (syscall_handler kernel_task fuel wake r) s (fun r' s' => exists n sc', n <> cur /\
       r' = Scheduler.t_regs_ptr (Scheduler.task_at (w_sched (world s)) n) /\
       world s' = w_set_sched sc' (world s) /\ memory s' = Scheduler.mem_of sc' /\ Scheduler.current_task sc' = n /\
       exists l', SchedSpec.sched_ok kernel_task sc' l' rs0)).
Proof using UT.
  intros d num buf len cur pid call Hw Hf. split_and!.
  - by apply sys_getpid.
  - by apply sys_uptime.
  - by apply sys_write.
  - by apply sys_fails.
  - intros l rs0. apply sys_exit.
Qed.
End syscall.
