(* ===== verification/ShellNetSpec.v ===== *)
(** ShellNetSpec: what [ifconfig] and [ping] of [kernel/shell.c] do. *)

From S2P Require Import Prelude Ports Partial Preserve Memory Common Text Array Ring Serial SerialTx Font Pmm.
From S2P Require Import Heap HeapInv HeapSpec HeapRun Disk Fat FatFile Paging Vbe VbeSpec Rtc Net NetSpec.
From S2P Require Import Pic Mouse Keyboard Console ConsoleGrid ConsoleSpec ConsolePaper ConsoleClear Shell ShellExec.
From S2P Require Import ShellFiles ShellInfo ShellNet Serial SerialTx Preserve.
From S2P Require Timer Nic.
#[local] Open Scope partial_scope.

(** * What printing preserves *)

Section serial.
Context {H : Type} `{Ports H} (J : serial H -> Prop).
Context (in_J : forall p u, J u -> J (set_hw (inb p (serial_hw u)).2 u)).
Context (out_J : forall p v u, J u -> J (set_hw (outb p v (serial_hw u)).2 u)).

Lemma in8_J p : preserves J (in8 p).
Proof using in_J. apply preserves_zoom. intros u. apply in_J. Qed.
Lemma out8_J p v : preserves J (out8 p v).
Proof using out_J. apply preserves_zoom. intros u. apply out_J. Qed.
#[local] Hint Resolve in8_J out8_J : preserve.

Lemma wait_thre_J n port : preserves J (wait_thre n port).
Proof using in_J. induction n as [|n IH]; cbn [wait_thre]; preserve. Qed.
#[local] Hint Resolve wait_thre_J : preserve.
Lemma write_char_J port c : preserves J (serial_write_char port c).
Proof using in_J out_J. unfold serial_write_char, serial_put. generalize thre_timeout. intros n. preserve. Qed.
#[local] Hint Resolve write_char_J : preserve.
Lemma write_str_J t : preserves J (serial_write_str t).
Proof using in_J out_J. unfold serial_write_str, serial_write_str_port. preserve. Qed.
#[local] Hint Resolve write_str_J : preserve.

(** ** The console *)

Abbreviation I := (fun s : console H => J (con_ser s)).

Lemma con_part_J {A} (m : PM (serial H) A) : preserves J m -> preserves I (p_part con_ser set_ser m).
Proof. intros Hm. by apply (preserves_part I J). Qed.
Lemma con_mod_J (f : console H -> console H) : (forall s, con_ser (f s) = con_ser s) -> preserves I (p_mod f).
Proof. intros Hf. apply preserves_mod. intros s. by rewrite Hf. Qed.
#[local] Hint Resolve con_part_J : preserve.

Lemma con_in_J p : preserves I (con_in p).
Proof using in_J. unfold con_in. auto with preserve. Qed.
Lemma con_out_J p v : preserves I (con_out p v).
Proof using out_J. unfold con_out. auto with preserve. Qed.
#[local] Hint Resolve con_in_J con_out_J : preserve.

Lemma ser_undraw (s : console H) : con_ser (vbe_undraw_cursor s) = con_ser s.
Proof. unfold vbe_undraw_cursor, vbe_render_cell_raw. by repeat case_goal. Qed.
Lemma ser_draw_cursor c r (s : console H) : con_ser (vbe_draw_cursor_at c r s) = con_ser s.
Proof. unfold vbe_draw_cursor_at. repeat case_goal; try done; simpl; rewrite ?ser_undraw; done. Qed.
Lemma ser_put_cell c r ch a (s : console H) : con_ser (console_put_cell c r ch a s) = con_ser s.
Proof. unfold console_put_cell, vbe_render_cell_raw. by repeat case_goal. Qed.
Lemma ser_step c color (s : console H) : con_ser (write_char_step c color s) = con_ser s.
Proof. unfold write_char_step. repeat (case_goal; simpl; rewrite ?ser_put_cell; try done). Qed.

Ltac same_ser := apply con_mod_J; intros ?; cbv beta; repeat case_goal; rewrite ?ser_undraw, ?ser_draw_cursor, ?ser_put_cell, ?ser_step; done.

Lemma hw_cursor_J x y b : preserves I (vga_hw_set_cursor x y b).
Proof using in_J out_J. unfold vga_hw_set_cursor. preserve. Qed.
#[local] Hint Resolve hw_cursor_J : preserve.
Lemma set_cursor_J x y b : preserves I (console_set_cursor x y b).
Proof using in_J out_J. unfold console_set_cursor. preserve; same_ser. Qed.
#[local] Hint Resolve set_cursor_J : preserve.
Lemma draw_text_J x y t fg bg : preserves I (draw_text (H := H) x y t fg bg).
Proof. apply preserves_step. intros s s'. destruct (vbe_draw_string x y t fg bg (con_vbe s)); [|done]. cbn. by intros [= <-]. Qed.
#[local] Hint Resolve draw_text_J : preserve.
Lemma scroll_up_J : preserves I (console_scroll_up (H := H)).
Proof.
  unfold console_scroll_up. preserve; try same_ser. apply preserves_step. intros ? s'.
  destruct (vbe_scroll_region _ _ _ _ _); [|done]. cbn. by intros [= <-].
Qed.
#[local] Hint Resolve scroll_up_J : preserve.
Lemma into_view_J : preserves I (scroll_into_view (H := H)).
Proof. unfold scroll_into_view. preserve. same_ser. Qed.
#[local] Hint Resolve into_view_J : preserve.
Lemma char_tail_J c color : preserves I (write_char_tail c color).
Proof using in_J out_J. unfold write_char_tail. preserve; same_ser. Qed.
#[local] Hint Resolve char_tail_J : preserve.
Lemma char_color_J c color b : preserves I (console_write_char_color c color b).
Proof using in_J out_J. unfold console_write_char_color, ser_puts, ser_putc. preserve. same_ser. Qed.
#[local] Hint Resolve char_color_J : preserve.

Lemma shell_putchar_J c : preserves I (shell_putchar c).
Proof using in_J out_J. unfold shell_putchar. preserve. Qed.
Lemma shell_print_J t : preserves I (shell_print t).
Proof using in_J out_J. unfold shell_print. preserve. Qed.
Lemma shell_print_color_J t color : preserves I (shell_print_color t color).
Proof using in_J out_J. unfold shell_print_color. preserve. Qed.
#[local] Hint Resolve shell_putchar_J shell_print_J shell_print_color_J : preserve.
Lemma shell_print_int_J n : preserves I (shell_print_int n).
Proof using in_J out_J. unfold shell_print_int. preserve. Qed.
Lemma print_hex_pad_J v n : preserves I (print_hex_pad v n).
Proof using in_J out_J. unfold print_hex_pad. preserve. Qed.

(** ** The top bar *)

(** What a computation on the hardware alone leaves. *)
Definition st_keeps {A} (K : H -> Prop) (m : ST H A) : Prop := forall h, K h -> K (m h).2.
Lemma st_keeps_bind {A B} K (m : ST H A) (k : A -> ST H B) : st_keeps K m -> (forall x, st_keeps K (k x)) -> st_keeps K (st_bind m k).
Proof. intros Hm Hk h Hh. unfold st_bind. specialize (Hm h Hh). destruct (m h) as [x h']. by apply Hk. Qed.
Lemma st_keeps_ret {A} K (x : A) : st_keeps K (st_ret x).
Proof. by intros h. Qed.
Lemma st_keeps_if {A} K (b : bool) (m m' : ST H A) : st_keeps K m -> st_keeps K m' -> st_keeps K (if b then m else m').
Proof. by destruct b. Qed.

Section clock.
Context (K : H -> Prop) (in_K : forall p, st_keeps K (inb p)) (out_K : forall p v, st_keeps K (outb p v)).
#[local] Hint Resolve in_K out_K st_keeps_ret : preserve.
Ltac keep := repeat first [solve [auto with preserve] | apply st_keeps_bind; [|intros ?] | apply st_keeps_if].
Lemma cmos_read_K reg : st_keeps K (cmos_read reg).
Proof using in_K out_K. unfold cmos_read. keep. Qed.
#[local] Hint Resolve cmos_read_K : preserve.
Lemma wait_uip_K n : st_keeps K (wait_uip n).
Proof using in_K out_K. induction n as [|n IH]; cbn [wait_uip]; keep. Qed.
#[local] Hint Resolve wait_uip_K : preserve.
Lemma read_raw_K : st_keeps K read_raw.
Proof using in_K out_K. unfold read_raw, cmos_wait_uip. generalize (Z.to_nat 100000). intros n. keep. Qed.
#[local] Hint Resolve read_raw_K : preserve.
Lemma read_stable_K n : st_keeps K (read_stable n).
Proof using in_K out_K. induction n as [|n IH]; cbn [read_stable]; keep. destruct (decide _); keep. Qed.
#[local] Hint Resolve read_stable_K : preserve.
Lemma rtc_read_K b : st_keeps K (rtc_read_time b).
Proof using in_K out_K. unfold rtc_read_time. generalize 4%nat. intros n. keep. Qed.
End clock.

(** The clock is read through the ports too. *)
Lemma zoom_J {A} (m : ST H A) : (forall u, J u -> J (set_hw (m (serial_hw u)).2 u)) ->
  preserves I (p_zoom (fun s => serial_hw (con_ser s)) (fun h s => set_ser (set_hw h (con_ser s)) s) m).
Proof. intros Hm. apply preserves_zoom. intros s. apply Hm. Qed.
Lemma clock_J b u : J u -> J (set_hw (rtc_read_time b (serial_hw u)).2 u).
Proof using in_J out_J.
  intros HJ. apply (rtc_read_K (fun h => J (set_hw h u))).
  - intros p h Hh. apply (in_J p (set_hw h u) Hh).
  - intros p v h Hh. apply (out_J p v (set_hw h u) Hh).
  - by destruct u.
Qed.
Lemma refresh_topbar_J : preserves I console_refresh_topbar.
Proof using in_J out_J.
  unfold console_refresh_topbar. apply preserves_bind; [apply preserves_get|]. intros s. generalize (topbar_mid s). intros mid.
  pose proof (fun b => zoom_J _ (clock_J b)) as Hz. preserve; same_ser.
Qed.
End serial.

(** * Printing with a machine around the console *)

Section spoken.
Context {H D : Type} `{UT : UartTx H} `{BlockDev D} `{Allocator D} (rows cols : Z).
Implicit Types s : shell H D.

(** A property of the serial driver and of the machine behind it that the port
    instructions preserve. *)
Context (J : serial H -> Prop).
Context (in_J : forall p u, J u -> J (set_hw (inb p (serial_hw u)).2 u)).
Context (out_J : forall p v u, J u -> J (set_hw (outb p v (serial_hw u)).2 u)).

Definition ser s : serial H := con_ser (sh_con s).

(** The text [T] has been printed since [s0], and [J] holds. *)
Definition spoke s0 p (T : list (Z * Z)) s : Prop := said rows cols s0 p T s /\ J (ser s).

Lemma spoke_con (m : PM (console H) unit) s0 p T s T' :
  preserves (fun c => J (con_ser c)) m -> spoke s0 p T s ->
  returns (on_con m) s (fun _ s' => said rows cols s0 p T' s') -> returns (on_con m) s (fun _ s' => spoke s0 p T' s').
Proof.
  intros Hm [_ HJ] Hr. apply (returns_preserves (fun s => J (ser s))); [done| |done].
  by apply (preserves_part _ (fun c => J (con_ser c))).
Qed.

Lemma say_spoke t s0 p T s : spoke s0 p T s -> Forall is_u8 t -> returns (say t) s (fun _ s' => spoke s0 p (T ++ in_color 7 t) s').
Proof using UT in_J out_J.
  intros Hs Ht. apply (spoke_con _ s0 p T); [by apply shell_print_J|done|]. apply say_spec; [apply Hs|done].
Qed.
Lemma say_color_spoke t color s0 p T s :
  spoke s0 p T s -> Forall is_u8 t -> returns (say_color t color) s (fun _ s' => spoke s0 p (T ++ in_color color t) s').
Proof using UT in_J out_J.
  intros Hs Ht. apply (spoke_con _ s0 p T); [by apply shell_print_color_J|done|]. apply say_color_spec; [apply Hs|done].
Qed.
Lemma say_char_spoke c s0 p T s : spoke s0 p T s -> is_u8 c -> returns (say_char c) s (fun _ s' => spoke s0 p (T ++ in_color 7 [c]) s').
Proof using UT in_J out_J.
  intros Hs Hc. apply (spoke_con _ s0 p T); [by apply shell_putchar_J|done|]. apply say_char_spec; [apply Hs|done].
Qed.

(** The digits of a signed number. *)
Lemma itoa_u8 n : -2147483648 <= n < 2147483648 -> k_itoa n 10 = Some (decimal n) /\ Forall is_u8 (decimal n).
Proof.
  intros Hn. destruct (Z.ltb_spec n 0) as [Hneg|]; [|apply decimal_spec; lia].
  unfold decimal, k_itoa. rewrite (proj2 (Z.ltb_lt n 0)) by lia. cbn [andb Z.eqb Pos.eqb]. rewrite u32_id by lia.
  destruct (k_utoa_digits (- n) 10) as (t & -> & _ & Ht & _); [lia|unfold_widths; lia|].
  split; [done|]. constructor; [unfold is_u8; lia|]. eapply Forall_impl; [exact Ht|]. apply digit_u8.
Qed.
Lemma say_int_spoke n s0 p T s :
  spoke s0 p T s -> -2147483648 <= n < 2147483648 -> returns (say_int n) s (fun _ s' => spoke s0 p (T ++ in_color 7 (decimal n)) s').
Proof using UT in_J out_J.
  intros Hs Hn. destruct (itoa_u8 n Hn) as [E Hu]. destruct (say_spoke (decimal n) s0 p T s Hs Hu) as ([] & s' & E' & Hs').
  exists tt, s'. split; [|done]. unfold say_int, shell_print_int, on_con, p_part, p_bind, p_val. rewrite E. exact E'.
Qed.
Lemma say_hex_spoke v n s0 p T s :
  spoke s0 p T s -> returns (say_hex v n) s (fun _ s' => spoke s0 p (T ++ in_color 7 (hex_pad n v [])) s').
Proof using UT in_J out_J.
  intros Hs. apply (say_spoke _ s0 p T s Hs). generalize (@nil Z) (Forall_nil_2 is_u8). revert v.
  induction n as [|n IH]; intros v acc Ha; cbn [hex_pad]; [done|]. apply IH. constructor; [|done].
  rewrite land_15. assert (0 <= v mod 16 < 16) as Hv by zlia. revert Hv. generalize (v mod 16). intros x Hx.
  assert (x ∈ seqZ 0 16) as Hin by (apply elem_of_seqZ; lia). apply list_elem_of_In in Hin.
  assert (forallb (fun x => (0 <=? nthZ 0 (str "0123456789ABCDEF") x) && (nthZ 0 (str "0123456789ABCDEF") x <? 256)) (seqZ 0 16) = true)
    as Hall by (vm_compute; reflexivity).
  apply (proj1 (List.forallb_forall _ _) Hall) in Hin. unfold is_u8. bool_to_prop. lia.
Qed.
End spoken.

(** * The machine between two texts *)

Section machine.
Context {H D E : Type} `{UT : UartTx H} `{BlockDev D} `{Allocator D} `{NetEnv E} `{W : !World H D E} (rows cols : Z).
Implicit Types s : shell H D.

(** Only the machine, the received bytes and the network configuration differ. *)
Definition env_step s s' : Prop :=
  exists u c, s' = set_con (set_con_net c (set_ser u (sh_con s))) s /\
    default_port u = default_port (ser s) /\ serial_present u = serial_present (ser s).

Lemma env_step_refl s : env_step s s.
Proof. exists (ser s), (con_net (sh_con s)). split; [|done]. by destruct s as [[]]. Qed.
Lemma env_step_trans s1 s2 s3 : env_step s1 s2 -> env_step s2 s3 -> env_step s1 s3.
Proof. intros (u & c & -> & E1 & E2) (u' & c' & -> & E3 & E4). exists u', c'. split; [done|]. by rewrite E3, E4. Qed.
(** A step of the machine alone. *)
Lemma env_step_world h s : env_step s (set_world h s).
Proof. exists (set_hw h (ser s)), (con_net (sh_con s)). split; [|done]. by destruct s as [[]]. Qed.

Lemma screen_net c con g x y : screen rows cols con g x y -> screen rows cols (set_con_net (H := H) c con) g x y.
Proof. intros [[] ?]. by split. Qed.

(** What the screen shows stays. *)
Lemma env_step_said s0 p T s s' : said rows cols s0 p T s -> env_step s s' -> said rows cols s0 p T s'.
Proof.
  intros (con & -> & [Hp Hw [Hd Hs] Hc]) (u & c & -> & Hd' & Hs'). eexists. split; [reflexivity|].
  split; [by apply screen_net, screen_ser|done|split; [rewrite <- Hd; exact Hd'|rewrite <- Hs; exact Hs']|exact Hc].
Qed.

(** A call of the network stack. *)
Lemma on_net_step {X} (m : NM E X) x n s :
  m (w_net (world s)) = Some (x, n) ->
  returns (on_net m) s (fun y s' => y = x /\ env_step s s' /\ ser s' = set_hw (w_set_net n (world s)) (ser s) /\
    con_net (sh_con s') = net_config n).
Proof.
  intros E1. unfold returns, on_net. rewrite E1. cbn [mbind option_bind]. eexists _, _. split; [reflexivity|].
  split; [done|]. split; [|done]. eexists _, _. split; [reflexivity|done].
Qed.

Lemma see_step {X} (f : H -> X) s : see f s = Some (f (world s), s).
Proof. done. Qed.
End machine.

(** * ping *)

(** A 32-bit number divided by at least 100. *)
Lemma rtt_bound v freq : 100 <= freq -> 0 <= u32 v / freq < 42949673.
Proof.
  intros Hf. pose proof (u32_range v) as Hv. unfold is_u32 in Hv. split; [apply Z.div_pos; lia|].
  apply Z.div_lt_upper_bound; [lia|]. nia.
Qed.

(** The text of a session: the answers [(rc, rtt, ttl)] to the requests. *)
Definition answer_line (ip_str : list Z) (seq : Z) (a : Z * Z * Z) : list (Z * Z) :=
  let '(rc, rtt, ttl) := a in
  if rc =? 0 then
    in_color 7 (str "40 bytes from " ++ ip_str ++ str ": icmp_seq=" ++ decimal seq ++ str " ttl=" ++ decimal ttl ++
      str " time=" ++ (if rtt =? 0 then str "<1" else decimal rtt) ++ strn " ms")
  else if rc =? -2 then in_color 12 (strn "Destination Host Unreachable (ARP timeout)")
  else in_color 12 (str "Request timeout for icmp_seq ") ++ in_color 7 (decimal seq ++ [NL]).
Fixpoint answer_lines (ip_str : list Z) (seq : Z) (l : list (Z * Z * Z)) : list (Z * Z) :=
  match l with [] => [] | a :: l => answer_line ip_str seq a ++ answer_lines ip_str (seq + 1) l end.

(** The statistics of a session. *)
Definition replies (l : list (Z * Z * Z)) : list Z := (fun a => a.1.2) <$> filter (fun a => a.1.1 = 0) l.
Definition sumZ (l : list Z) : Z := foldr Z.add 0 l.
Definition summary_text (ip_str : list Z) (l : list (Z * Z * Z)) : list (Z * Z) :=
  let sent := lenZ l in
  let received := lenZ (replies l) in
  in_color 7 (str "--- " ++ ip_str ++ strn " ping statistics ---" ++
    decimal sent ++ str " packets transmitted, " ++ decimal received ++ str " packets received, " ++
    decimal ((sent - received) * 100 / sent) ++ str "% packet loss" ++
    (if 0 <? received then str ", avg rtt = " ++ decimal (sumZ (replies l) / received) ++ str " ms" else []) ++ [NL]).

(** The counters after the answers [l]. *)
Definition counted (l : list (Z * Z * Z)) : ping_stats := PingStats (lenZ l) (lenZ (replies l)) (u32 (sumZ (replies l))).

Lemma replies_app l l' : replies (l ++ l') = replies l ++ replies l'.
Proof. unfold replies. by rewrite filter_app, fmap_app. Qed.
Lemma sumZ_app l l' : sumZ (l ++ l') = sumZ l + sumZ l'.
Proof. induction l as [|x l IH]; simpl; lia. Qed.
Lemma counted_snoc l rc rtt ttl :
  counted (l ++ [(rc, rtt, ttl)]) = (if rc =? 0 then count_reply rtt (count_sent (counted l)) else count_sent (counted l)).
Proof.
  unfold counted, count_reply, count_sent. rewrite replies_app. unfold replies at 2 4. rewrite filter_cons. cbn [fst snd].
  destruct (Z.eqb_spec rc 0) as [->|Hrc].
  - rewrite decide_True by done. cbn. rewrite sumZ_app, u32_add_l. unfold lenZ. rewrite !length_app. cbn. f_equal; [lia|lia|f_equal; lia].
  - rewrite decide_False by done. cbn. rewrite !app_nil_r. unfold lenZ. rewrite !length_app. cbn. f_equal. lia.
Qed.
Lemma replies_length l : 0 <= lenZ (replies l) <= lenZ l.
Proof. unfold replies, lenZ. rewrite length_fmap. pose proof (length_filter (fun a : Z * Z * Z => a.1.1 = 0) l). lia. Qed.

Lemma replies_sum l : Forall (fun a => 0 <= a.1.2 < 100000000) l -> 0 <= sumZ (replies l) <= 100000000 * lenZ (replies l).
Proof.
  induction 1 as [|a l Ha Hl IH]; [done|]. unfold replies, lenZ in *. rewrite filter_cons. case_decide; [|done].
  cbn [fmap list_fmap sumZ foldr length] in *. unfold sumZ in IH. rewrite Nat2Z.inj_succ. lia.
Qed.

Lemma format_ip_u8 ip ip_str : net_format_ip ip = Some ip_str -> Forall is_u8 ip_str.
Proof.
  assert (Ho : forall i, exists t, k_utoa (u8 (Z.land (Z.shiftr ip (i * 8)) 255)) 10 = Some t /\ Forall is_u8 t).
  { intros i. destruct (k_utoa_digits (u8 (Z.land (Z.shiftr ip (i * 8)) 255)) 10) as (t & E1 & _ & Ht & _);
      [lia|unfold is_u32, u8; zlia|]. exists t. split; [done|]. eapply Forall_impl; [exact Ht|]. apply digit_u8. }
  destruct (Ho 3) as (t3 & E3 & N3), (Ho 2) as (t2 & E2 & N2), (Ho 1) as (t1 & E1 & N1), (Ho 0) as (t0 & E0 & N0).
  unfold net_format_ip. cbn [format_octets]. rewrite E3, E2, E1, E0. cbn. intros [= <-].
  repeat (apply Forall_app; split); try done; by repeat constructor.
Qed.

(** The number of requests: four, or the number given, between 1 and 20. *)
Definition requests (tok : list Z) : Z := Z.max 1 (Z.min 20 (if decide (tok = []) then 4 else k_atoi tok)).
Lemma ping_count_requests tok : ping_count tok = requests tok.
Proof.
  unfold ping_count, clamp_count, requests. destruct (decide (tok = [])) as [->|Hne]; [done|].
  rewrite bool_decide_eq_false_2 by done. generalize (k_atoi tok). intros n.
  destruct (Z.ltb_spec n 1); [change (20 <? 1) with false; cbv iota; lia|]. destruct (Z.ltb_spec 20 n); lia.
Qed.

Section ping.
Context {H D E : Type} `{UT : UartTx H} `{BlockDev D} `{Allocator D} `{NetEnv E} `{W : !World H D E} (rows cols : Z).
Implicit Types s : shell H D.
Context (fuel rx : nat) (interrupt : PM (shell H D) unit).
(** [J q] holds of a machine in service whose keys to come are [q]. *)
Context (J : list Z -> serial H -> Prop).
Context (in_J : forall q p u, J q u -> J q (set_hw (inb p (serial_hw u)).2 u)).
Context (out_J : forall q p v u, J q u -> J q (set_hw (outb p v (serial_hw u)).2 u)).

(** ** Waiting *)

(** A clock that the timer shows, that stands still while the input and the
    card are polled, and that a halt moves on.  A poll of the input takes the
    next key, and there is none when no key is to come. *)
Context (clock : H -> Z).
Record ticking : Prop := {
  tk_timer q u : J q u -> Timer.ticks (w_timer (serial_hw u)).1 = u32 (clock (serial_hw u)) /\
    clock (w_timer (serial_hw u)).2 = clock (serial_hw u) /\ J q (set_hw (w_timer (serial_hw u)).2 u);
  tk_poll q s : J q (ser s) -> returns (poll_event fuel rx) s (fun ev s' =>
    ev = hd KEY_NONE q /\ env_step s s' /\ J (tl q) (ser s') /\ clock (world s') = clock (world s));
  tk_nic q s : J q (ser s) -> returns (poll_nic fuel) s (fun _ s' =>
    env_step s s' /\ J q (ser s') /\ clock (world s') = clock (world s));
  tk_halt q s : J q (ser s) -> returns (halt_until_interrupt interrupt) s (fun _ s' =>
    env_step s s' /\ J q (ser s') /\ clock (world s) < clock (world s') <= clock (world s) + 2147483648)
}.
Context (Htick : ticking).

Lemma now_step q s : J q (ser s) ->
  returns now s (fun t s' => t = u32 (clock (world s)) /\ env_step s s' /\ J q (ser s') /\ clock (world s') = clock (world s)).
Proof using Htick.
  intros HJ. destruct (tk_timer Htick q (ser s) HJ) as (Et & Ec & HJ'). unfold returns, now, read_timer, p_bind, p_zoom.
  change (serial_hw (ser s)) with (world s) in *. destruct (w_timer (world s)) as [t h]. simpl in *.
  eexists _, _. split; [reflexivity|]. split; [exact Et|]. split; [apply env_step_world|]. done.
Qed.

(** What a wait reads of the keys [q] and leaves: a key that stops it is the
    last it reads and the first such key; a wait that is not stopped reads
    none, at least one key when there is any. *)
Definition reads (stops : Z -> bool) (q : list Z) (stop : bool) (l q' : list Z) : Prop :=
  q = l ++ q' /\
  if stop then exists l0 c, l = l0 ++ [c] /\ stops c = true /\ Forall (fun c => stops c = false) l0
  else Forall (fun c => stops c = false) l /\ (q' = [] \/ l <> []).

(** A poll that does not stop, and what follows it. *)
Lemma reads_next (stops : Z -> bool) q stop l q' :
  stops (hd KEY_NONE q) = false -> reads stops (tl q) stop l q' -> exists l', reads stops q stop l' q'.
Proof.
  destruct q as [|c q]; cbn [hd tl]; intros Hc [El Hr]; [exists l; by split|]. exists (c :: l). split; [cbn; by f_equal|].
  destruct stop.
  - destruct Hr as (l0 & c' & -> & Hs & Hl). exists (c :: l0), c'. split; [done|]. split; [done|by constructor].
  - split; [by constructor; [|apply Hr]|by right].
Qed.

(** A wait of [limit] ticks that began at the tick [t0] ends; it has polled the
    input if there was any time. *)
Lemma wait_event_step k t0 limit stops q s :
  stops KEY_NONE = false ->
  0 <= limit <= 2147483648 -> J q (ser s) -> t0 <= clock (world s) < t0 + limit + 2147483648 ->
  (Z.to_nat (t0 + limit - clock (world s)) < k)%nat ->
  returns (wait_event fuel rx interrupt k (u32 t0) limit stops) s (fun stop s' => env_step s s' /\
    exists l q', J q' (ser s') /\ (clock (world s) < t0 + limit -> reads stops q stop l q') /\
      (t0 + limit <= clock (world s) -> stop = false /\ l = [] /\ q' = q)).
Proof using Htick.
  intros HN Hl. revert q s. induction k as [|k IH]; intros q s HJ Hc Hk; [lia|]. cbn [wait_event].
  apply returns_bind. eapply returns_mono; [by apply (now_step q)|]. intros t s1 (-> & Hs1 & HJ1 & Hc1). cbv beta.
  assert (u32 (u32 (clock (world s)) - u32 t0) = clock (world s) - t0) as ->.
  { replace (clock (world s)) with (t0 + (clock (world s) - t0)) at 1 by lia. unfold u32. rewrite <- Zminus_mod.
    rewrite Z.mod_small; lia. }
  destruct (Z.ltb_spec (clock (world s) - t0) limit) as [Hlt|].
  2:{ apply returns_ret. split; [done|]. exists [], q. split; [done|]. split; [lia|done]. }
  apply returns_bind. eapply returns_mono; [by apply (tk_poll Htick q)|]. intros ev s2 (-> & Hs2 & HJ2 & Hc2). cbv beta.
  destruct (stops (hd KEY_NONE q)) eqn:Est.
  - apply returns_ret. split; [by eapply env_step_trans|]. destruct q as [|c q]; [cbn in Est; congruence|]. cbn in *.
    exists [c], q. split; [done|]. split; [|lia]. intros _. split; [done|]. by exists [], c.
  - apply returns_bind. eapply returns_mono; [by apply (tk_nic Htick (tl q))|]. intros [] s3 (Hs3 & HJ3 & Hc3). cbv beta.
    apply returns_bind. eapply returns_mono; [by apply (tk_halt Htick (tl q))|]. intros [] s4 (Hs4 & HJ4 & Hc4). cbv beta.
    eapply returns_mono; [apply (IH (tl q)); [done|lia|lia]|]. intros b s5 (Hs5 & l & q' & HJ5 & Hr & Hd).
    split; [repeat (eapply env_step_trans; [eassumption|]); apply env_step_refl|].
    destruct (Z.lt_ge_cases (clock (world s4)) (t0 + limit)) as [Hin|Hout].
    + destruct (reads_next stops q b l q' Est (Hr Hin)) as (l' & Hl'). exists l', q'. split; [done|]. split; [done|lia].
    + destruct (Hd Hout) as (-> & -> & ->). destruct q as [|c q].
      * exists [], []. split; [done|]. split; [|lia]. intros _. split; [done|]. split; [constructor|by left].
      * exists [c], q. split; [done|]. split; [|lia]. intros _. split; [done|]. split; [by constructor|by right].
Qed.

(** ** The session *)

(** The network answers the request [seq] to [dst] with [answer seq]. *)
Context (dst : Z) (answer : Z -> Z * Z * Z).
Record answering : Prop := {
  an_ping q u seq : J q u -> 1 <= seq <= 20 -> exists n,
    net_ping fuel dst (u16 seq) 1200 (w_net (serial_hw u)) = Some (answer seq, n) /\ J q (set_hw (w_set_net n (serial_hw u)) u);
  an_rtt seq : 1 <= seq <= 20 -> 0 <= (answer seq).1.2 < 100000000;
  an_ttl seq : 1 <= seq <= 20 -> is_u8 (answer seq).2
}.
Context (Hnet : answering).

Abbreviation spoke q := (spoke rows cols (J q)).

Lemma say_q q t s0 p T s : spoke q s0 p T s -> Forall is_u8 t -> returns (say t) s (fun _ s' => spoke q s0 p (T ++ in_color 7 t) s').
Proof using UT in_J out_J. apply say_spoke; auto. Qed.
Lemma say_int_q q n s0 p T s : spoke q s0 p T s -> -2147483648 <= n < 2147483648 ->
  returns (say_int n) s (fun _ s' => spoke q s0 p (T ++ in_color 7 (decimal n)) s').
Proof using UT in_J out_J. apply say_int_spoke; auto. Qed.
Lemma say_color_q q t color s0 p T s : spoke q s0 p T s -> Forall is_u8 t ->
  returns (say_color t color) s (fun _ s' => spoke q s0 p (T ++ in_color color t) s').
Proof using UT in_J out_J. apply say_color_spoke; auto. Qed.
Lemma say_char_q q c s0 p T s : spoke q s0 p T s -> is_u8 c -> returns (say_char c) s (fun _ s' => spoke q s0 p (T ++ in_color 7 [c]) s').
Proof using UT in_J out_J. apply say_char_spoke; auto. Qed.

(** One text after the other. *)
Ltac speak L :=
  eapply L; [eassumption|first [by apply str_u8|assumption|lia|by compute]].
Ltac one_say L := apply returns_bind; eapply returns_mono; [speak L|]; intros [] ? ?; cbv beta.
Ltac say1 := one_say say_q.
Ltac say_int1 := one_say say_int_q.
Ltac say_color1 := one_say say_color_q.
Ltac say_char1 := one_say say_char_q.

(** The texts printed one after the other make up the text. *)
Ltac same_text := unfold strn; rewrite ?in_color_app, <- ?app_assoc; reflexivity.

Ltac end_text H :=
  revert H; match goal with |- spoke _ _ _ ?a _ -> spoke _ _ _ ?b _ => assert (a = b) as -> by same_text end; done.

Lemma say_rtt_spoke q rtt s0 p T s : spoke q s0 p T s -> 0 <= rtt < 100000000 ->
  returns (if rtt =? 0 then say (str "<1") else say_u32 rtt) s (fun _ s' =>
    spoke q s0 p (T ++ in_color 7 (if rtt =? 0 then str "<1" else decimal rtt)) s').
Proof using UT in_J out_J.
  intros Hs Hr. destruct (rtt =? 0); [speak say_q|].
  unfold say_u32. rewrite s32_id by lia. speak say_int_q.
Qed.

Lemma ping_line_spoke q ip_str seq s0 p T s :
  spoke q s0 p T s -> Forall is_u8 ip_str -> 1 <= seq <= 20 ->
  returns (let '(rc, rtt, ttl) := answer seq in ping_line ip_str seq rc rtt ttl) s (fun _ s' =>
    spoke q s0 p (T ++ answer_line ip_str seq (answer seq)) s').
Proof using UT in_J out_J Hnet.
  intros Hs Hip Hseq. pose proof (an_rtt Hnet seq Hseq) as Hrtt. pose proof (an_ttl Hnet seq Hseq) as Httl.
  destruct (answer seq) as [[rc rtt] ttl]. simpl in Hrtt, Httl. unfold is_u8 in Httl. unfold ping_line, answer_line.
  destruct (rc =? 0); [|destruct (rc =? -2)].
  - say1. say1. say1. say_int1. say1. say_int1. say1.
    one_say say_rtt_spoke.
    eapply returns_mono; [speak say_q|]. intros [] s9 Hs9. cbv beta in Hs9.
    end_text Hs9.
  - speak say_color_q.
  - say_color1. say_int1. eapply returns_mono; [speak say_char_q|]. intros [] s3 Hs3. cbv beta in Hs3.
    end_text Hs3.
Qed.

Context (Hfuel : (25 < fuel)%nat).

(** The answers to the [k] requests from [seq] on. *)
Definition answers (seq k : Z) : list (Z * Z * Z) := answer <$> seqZ seq k.
Lemma answers_cons seq k : 0 < k -> answers seq k = answer seq :: answers (seq + 1) (k - 1).
Proof. intros Hk. unfold answers. rewrite seqZ_cons by lia. cbn. do 3 f_equal; lia. Qed.

Definition stop_text (stopped : bool) : list (Z * Z) := if stopped then in_color 7 (strn "^C") else [].

(** Control-C. *)
Abbreviation ctrl_c := (CTRL_KEY 99).

(** What a session reads of the keys to come: up to the first control-C if it
    is stopped by it in the pause after [k] requests, and no control-C
    otherwise; every pause reads a key if there is one. *)
Definition session_reads (k : Z) (q : list Z) (stopped : bool) (l q' : list Z) : Prop :=
  q = l ++ q' /\
  if stopped then exists l0, l = l0 ++ [ctrl_c] /\ ctrl_c ∉ l0 /\ k - 1 <= lenZ l0
  else ctrl_c ∉ l /\ (q' = [] \/ k - 1 <= lenZ l).

Lemma no_ctrl_c l : Forall (fun c => (c =? ctrl_c) = false) l -> ctrl_c ∉ l.
Proof. intros Hl Hin. rewrite Forall_forall in Hl. specialize (Hl _ Hin). by rewrite Z.eqb_refl in Hl. Qed.

(** The first pause, and the rest of the session. *)
Lemma session_step k q l q1 stopped l' q' :
  1 <= k -> reads (fun ev => ev =? ctrl_c) q false l q1 -> session_reads k q1 stopped l' q' -> session_reads (k + 1) q stopped (l ++ l') q'.
Proof.
  intros Hk (-> & Hl & Hne) (-> & Hr). split; [by rewrite app_assoc|]. apply no_ctrl_c in Hl.
  assert (l' ++ q' = [] \/ 1 <= lenZ l) as Hlen.
  { destruct Hne as [Hq|Hq]; [by left|right]. unfold lenZ. destruct l; [done|]. cbn. lia. }
  destruct stopped.
  - destruct Hr as (l0 & -> & Hn & Hle). exists (l ++ l0). split; [by rewrite app_assoc|]. split; [set_solver|].
    destruct Hlen as [Hq|Hlen]; [by destruct l0|]. unfold lenZ in *. rewrite length_app. lia.
  - destruct Hr as (Hn & Hle). split; [set_solver|]. destruct Hlen as [[_ ->]%app_eq_nil|Hlen]; [by left|].
    destruct Hle as [->|Hle]; [by left|]. right. unfold lenZ in *. rewrite length_app. lia.
Qed.

Lemma ping_loop_spoke ip_str s0 p count : Forall is_u8 ip_str -> count <= 20 -> forall todo seq l T q s,
  spoke q s0 p T s -> 1 <= seq -> seq + Z.of_nat todo = count + 1 -> (0 < todo)%nat ->
  returns (ping_loop fuel rx interrupt todo dst ip_str seq count (counted l)) s (fun st s' =>
    exists k (stopped : bool) r q', 1 <= k <= Z.of_nat todo /\ (if stopped then k < Z.of_nat todo else k = Z.of_nat todo) /\
      session_reads k q stopped r q' /\
      st = counted (l ++ answers seq k) /\ spoke q' s0 p (T ++ answer_lines ip_str seq (answers seq k) ++ stop_text stopped) s').
Proof using UT in_J out_J Hnet Htick Hfuel.
  intros Hip Hc todo. induction todo as [|todo IH]; intros seq l T q s Hs Hseq Hsum Hpos; [lia|]. cbn [ping_loop].
  assert (Hrange : 1 <= seq <= 20) by lia.
  destruct (an_ping Hnet q (ser s) seq (proj2 Hs) Hrange) as (n & En & HJn). apply returns_bind.
  eapply returns_mono; [by apply on_net_step|]. intros r s1 (-> & Hs1 & Eser & _). cbv beta.
  assert (Hs1' : spoke q s0 p T s1) by (split; [eapply env_step_said; [apply Hs|done]|by rewrite Eser]).
  pose proof (ping_line_spoke q ip_str seq s0 p T s1 Hs1' Hip Hrange) as Hline.
  pose proof (counted_snoc l (answer seq).1.1 (answer seq).1.2 (answer seq).2) as Hcount.
  assert (Hone : answer_lines ip_str seq (answers seq 1) = answer_line ip_str seq (answer seq)).
  { rewrite answers_cons by lia. cbn. by rewrite app_nil_r. }
  assert (Eone : l ++ answers seq 1 = l ++ [answer seq]) by (rewrite answers_cons by lia; done).
  destruct (answer seq) as [[rc rtt] ttl] eqn:Ea. cbn [fst snd] in Hcount. rewrite <- Hcount.
  apply returns_bind. eapply returns_mono; [exact Hline|]. intros [] s2 Hs2. cbv beta in Hs2 |- *.
  destruct (Z.ltb_spec seq count) as [Hlt|Hge].
  2:{ apply returns_ret. exists 1, false, [], q. split; [lia|]. split; [lia|]. rewrite Eone, Hone. cbn [stop_text]. rewrite app_nil_r.
      split; [|done]. split; [done|]. split; [set_solver|right; done]. }
  apply returns_bind. eapply returns_mono; [apply (now_step q); apply Hs2|]. intros t s3 (-> & Hs3 & HJ3 & Hc3). cbv beta.
  apply returns_bind. eapply returns_mono; [apply (wait_event_step fuel (clock (world s2)) 25 _ q); [done|lia|exact HJ3|lia|lia]|].
  intros b s4 (Hs4 & l1 & q1 & HJ4 & Hr & _). specialize (Hr ltac:(lia)). cbv beta.
  assert (Hs4' : spoke q1 s0 p (T ++ answer_line ip_str seq (rc, rtt, ttl)) s4).
  { split; [|done]. eapply env_step_said; [|exact Hs4]. eapply env_step_said; [apply Hs2|exact Hs3]. }
  destruct b.
  - say1. apply returns_ret. exists 1, true, l1, q1. split; [lia|]. split; [lia|]. rewrite Eone, Hone. split; [|split; [done|]].
    + destruct Hr as (-> & l0 & c & -> & Hc' & Hl0). split; [done|]. exists l0. apply Z.eqb_eq in Hc' as ->.
      split; [done|]. split; [by apply no_ctrl_c|]. unfold lenZ. lia.
    + cbn [stop_text]. by rewrite app_assoc.
  - eapply returns_mono; [apply (IH (seq + 1) (l ++ [(rc, rtt, ttl)]) _ q1 s4 Hs4'); lia|].
    intros st s5 (k & stopped & r' & q' & Hk & Hst & Hsr & -> & Hs5). exists (k + 1), stopped, (l1 ++ r'), q'.
    split; [lia|]. split; [destruct stopped; lia|]. split; [eapply session_step; [lia|exact Hr|exact Hsr]|].
    assert (answers seq (k + 1) = (rc, rtt, ttl) :: answers (seq + 1) k) as ->.
    { rewrite (answers_cons seq), Ea by lia. by replace (k + 1 - 1) with k by lia. }
    split; [by rewrite <- app_assoc|]. cbn [answer_lines]. by rewrite <- !app_assoc in Hs5 |- *.
Qed.

(** ** The summary *)

Lemma answers_length seq k : 0 <= k -> lenZ (answers seq k) = k.
Proof. intros Hk. unfold answers, lenZ. rewrite length_fmap, length_seqZ. lia. Qed.

Lemma answers_rtt k : 0 <= k <= 20 -> Forall (fun a => 0 <= a.1.2 < 100000000) (answers 1 k).
Proof using Hnet.
  clear Hfuel. intros Hk. unfold answers. apply Forall_fmap, Forall_forall. intros x Hx. apply elem_of_seqZ in Hx. apply (an_rtt Hnet). lia.
Qed.

Lemma ping_summary_spoke q ip_str l s0 p T s :
  spoke q s0 p T s -> Forall is_u8 ip_str -> 1 <= lenZ l <= 20 -> Forall (fun a => 0 <= a.1.2 < 100000000) l ->
  returns (ping_summary ip_str (counted l)) s (fun _ s' => spoke q s0 p (T ++ summary_text ip_str l) s').
Proof using UT in_J out_J.
  clear Hfuel Hnet Htick. intros Hs Hip Hlen Hrtt. pose proof (replies_length l) as Hr. pose proof (replies_sum l Hrtt) as Hsum.
  unfold ping_summary, summary_text, counted, loss_percent, average_rtt. cbn [p_sent p_received p_rtt_sum].
  rewrite (proj2 (Z.eqb_neq (lenZ l) 0)) by lia. rewrite Z.quot_div_nonneg by nia. rewrite (u32_id (sumZ _)) by nia.
  set (loss := (lenZ l - lenZ (replies l)) * 100 / lenZ l).
  assert (Hloss : 0 <= loss <= 100).
  { unfold loss. split; [apply Z.div_pos; nia|]. apply Z.div_le_upper_bound; nia. }
  clearbody loss. say1. say1. say1. say_int1. say1. say_int1. say1. say_int1. say1.
  destruct (Z.ltb_spec 0 (lenZ (replies l))) as [Hpos|].
  - assert (Havg : 0 <= sumZ (replies l) / lenZ (replies l) <= 100000000).
    { split; [apply Z.div_pos; lia|]. apply Z.div_le_upper_bound; lia. }
    unfold say_u32. rewrite s32_id by lia. set (avg := sumZ (replies l) / _) in *. clearbody avg.
    apply returns_bind. say1. say_int1. eapply returns_mono; [speak say_q|].
    intros [] s2 Hs2. cbv beta in Hs2. eapply returns_mono; [speak say_char_q|].
    intros [] s3 Hs3. cbv beta in Hs3.
    end_text Hs3.
  - apply returns_bind, returns_ret. eapply returns_mono; [speak say_char_q|].
    intros [] s3 Hs3. cbv beta in Hs3.
    end_text Hs3.
Qed.

(** ** The command *)

(** The first line. *)
Definition ping_header (ip_str : list Z) : list (Z * Z) := in_color 7 (str "PING " ++ ip_str ++ strn ": 32 data bytes").

End ping.
