(* ===== verification/ShellIfSpec.v ===== *)
(** ShellIfSpec: [ifconfig] of [kernel/shell.c] sets the address it is given. *)

From S2P Require Import Prelude Ports Partial Memory Common Text Array Ring Serial SerialTx Font Pmm.
From S2P Require Import Heap HeapInv HeapSpec HeapRun Disk Fat FatFile Paging Vbe VbeSpec Rtc Net NetSpec.
From S2P Require Import Pic Mouse Keyboard Console ConsoleGrid ConsoleSpec ConsolePaper ConsoleClear Shell ShellExec.
From S2P Require Import ShellFiles ShellInfo ShellNet ShellGui ShellNetSpec Serial SerialTx Preserve.
From S2P Require Nic.
#[local] Open Scope partial_scope.

(** * The arguments *)

(** A word that ends at a space or at the end of the line. *)
Lemma next_word_plain n w t :
  Forall (fun c => c <> 32) w -> (length w <= n)%nat -> w <> [] ->
  next_word n (w ++ 32 :: t) = (w, 32 :: t) /\ next_word n w = (w, []).
Proof.
  intros Hw Hn Hne. assert (forall r, skip_spaces (w ++ r) = w ++ r) as Hs.
  { intros r. destruct Hw as [|c w Hc _]; [done|]. cbn. by destruct (Z.eqb_spec c 32). }
  unfold next_word. rewrite Hs. rewrite <- (app_nil_r w) at 3. rewrite Hs, app_nil_r. clear Hs Hne.
  revert n Hn. induction Hw as [|c w Hc Hw IH]; intros n Hn; [by destruct n|].
  destruct n as [|n]; [simpl in Hn; lia|]. cbn [app take_word]. destruct (Z.eqb_spec c 32); [done|].
  destruct (IH n) as [-> ->]; [simpl in Hn; lia|done].
Qed.

(** ** Dotted addresses *)

(** One of the four numbers of an address: digits with a value of at most 255. *)
Definition digits_value (o : list Z) : Z := foldl (fun v c => 10 * v + (c - 48)) 0 o.
Definition octet (o : list Z) : Prop := o <> [] /\ Forall (fun c => 48 <= c <= 57) o /\ digits_value o <= 255.

(** The text [w] is an address in dotted form, and [ip] is its value. *)
Definition dotted (w : list Z) (ip : Z) : Prop :=
  exists o1 o2 o3 o4, w = o1 ++ [46] ++ o2 ++ [46] ++ o3 ++ [46] ++ o4 /\ octet o1 /\ octet o2 /\ octet o3 /\ octet o4 /\
    ip = digits_value o1 * 16777216 + digits_value o2 * 65536 + digits_value o3 * 256 + digits_value o4.

Lemma digits_from o v : Forall (fun c => 48 <= c <= 57) o -> 0 <= v -> v <= foldl (fun v c => 10 * v + (c - 48)) v o.
Proof. intros Ho. revert v. induction Ho as [|c o Hc Ho IH]; intros v Hv; cbn; [lia|]. specialize (IH (10 * v + (c - 48))). lia. Qed.
Lemma octet_range o : octet o -> 0 <= digits_value o < 256.
Proof. intros (_ & Ho & Hv). pose proof (digits_from o 0 Ho). unfold digits_value in *. lia. Qed.

(** The parser reads such digits. *)
Lemma isdigit_iff c : isdigit c = true <-> 48 <= c <= 57.
Proof. unfold isdigit. bool_to_prop. lia. Qed.
Lemma run_digits_value o v : Forall (fun c => 48 <= c <= 57) o -> 0 <= v <= 255 ->
  foldl (fun v c => 10 * v + (c - 48)) v o <= 255 -> run_digits o v = Some (foldl (fun v c => 10 * v + (c - 48)) v o).
Proof.
  intros Ho. revert v. induction Ho as [|c o Hc Ho IH]; intros v Hv Hle; cbn [run_digits foldl] in *; [done|].
  rewrite (proj2 (isdigit_iff c) Hc). pose proof (digits_from o (10 * v + (c - 48)) Ho) as Hm.
  replace (u32 (u32 (v * 10) + (c - 48))) with (10 * v + (c - 48)) by (unfold u32; zlia).
  destruct (Z.ltb_spec 255 (10 * v + (c - 48))); [lia|]. apply IH; lia.
Qed.
Lemma run_octet o : octet o -> run_digits o 0 = Some (digits_value o).
Proof. intros (_ & Ho & Hv). apply run_digits_value; [done|lia|done]. Qed.

Lemma make_ip_value a b c d : is_u8 a -> is_u8 b -> is_u8 c -> is_u8 d ->
  net_make_ip (u8 a) (u8 b) (u8 c) (u8 d) = a * 16777216 + b * 65536 + c * 256 + d.
Proof.
  unfold is_u8. intros Ha Hb Hc Hd. set (ip := a * 16777216 + b * 65536 + c * 256 + d).
  replace a with (ip / 16777216) by (unfold ip; zlia). replace b with (ip / 65536 mod 256) by (unfold ip; zlia).
  replace c with (ip / 256 mod 256) by (unfold ip; zlia). replace d with (ip mod 256) by (unfold ip; zlia).
  apply make_ip_octets. unfold is_u32, ip. lia.
Qed.

Lemma parse_dotted w ip : dotted w ip -> net_parse_ip w = Some ip.
Proof.
  intros (o1 & o2 & o3 & o4 & -> & H1 & H2 & H3 & H4 & ->).
  pose proof (octet_range o1 H1). pose proof (octet_range o2 H2). pose proof (octet_range o3 H3). pose proof (octet_range o4 H4).
  rewrite <- make_ip_value by (unfold is_u8; lia). unfold net_parse_ip.
  rewrite (parse_octet_dot o1 _ [0; 0; 0; 0] 0 false _ (proj1 H1)) by first [done|exact (run_octet o1 H1)].
  rewrite (parse_octet_dot o2 _ _ (0 + 1) false _ (proj1 H2)) by first [done|exact (run_octet o2 H2)].
  rewrite (parse_octet_dot o3 _ _ (0 + 1 + 1) false _ (proj1 H3)) by first [done|exact (run_octet o3 H3)].
  rewrite <- (app_nil_r o4), (parse_digits o4 _ _ (0 + 1 + 1 + 1) false _ (proj1 H4)) by first [done|exact (run_octet o4 H4)].
  rewrite app_nil_r. reflexivity.
Qed.

(** Octets with dots between them. *)
Fixpoint join_dots (os : list (list Z)) : list Z :=
  match os with [] => [] | [o] => o | o :: os => o ++ 46 :: join_dots os end.

(** What the parser accepts: [pre] is the part of the octet [idx] read so far. *)
Lemma parse_loop_sound str : forall parts idx pre p',
  Forall (fun c => c <> 32) str -> length parts = 4%nat -> 0 <= idx <= 3 -> Forall (fun c => 48 <= c <= 57) pre ->
  nthZ 0 parts idx = digits_value pre -> digits_value pre <= 255 -> (forall j, idx < j -> nthZ 0 parts j = 0) ->
  parse_ip_loop str parts idx (negb (bool_decide (pre = []))) = Some p' ->
  exists os, Z.of_nat (length os) = 4 - idx /\ pre ++ str = join_dots os /\ Forall octet os /\
    p' = take (Z.to_nat idx) parts ++ (digits_value <$> os).
Proof.
  induction str as [|c str IH]; intros parts idx pre p' Hs Hl Hi Hpre Hv Hle Hz; cbn [parse_ip_loop].
  - destruct (decide (pre = [])) as [->|Hne]; [done|]. rewrite (bool_decide_eq_false_2 _ Hne). cbn [negb orb].
    destruct (Z.eqb_spec idx 3) as [->|]; [|done]. cbn [negb]. intros [= <-]. exists [pre]. cbn. rewrite app_nil_r.
    split; [done|]. split; [done|]. split; [by repeat constructor|].
    destruct parts as [|a [|b [|c [|d [|]]]]]; try done. cbn in Hv. cbn. by rewrite <- Hv.
  - apply Forall_cons in Hs as [Hc Hs]. destruct (isdigit c) eqn:Hd.
    + apply isdigit_iff in Hd. rewrite Hv. pose proof (digits_from pre 0 Hpre ltac:(lia)) as Hp0. fold (digits_value pre) in Hp0.
      replace (u32 (u32 (digits_value pre * 10) + (c - 48))) with (digits_value (pre ++ [c]))
        by (unfold digits_value at 1; rewrite foldl_app; cbn; fold (digits_value pre); unfold u32; zlia).
      destruct (Z.ltb_spec 255 (digits_value (pre ++ [c]))); [done|]. intros Er.
      destruct (IH (updZ idx (digits_value (pre ++ [c])) parts) idx (pre ++ [c]) p') as (os & Hlo & Eo & Ho & Ep);
        [done|unfold updZ; case_goal; by rewrite ?length_insert|done|by apply Forall_snoc_2
        |apply nthZ_updZ_eq; unfold lenZ; lia|done|intros j Hj; rewrite nthZ_updZ_ne by lia; auto|by destruct pre|].
      exists os. split; [done|]. split; [by rewrite <- Eo, <- app_assoc|]. split; [done|]. rewrite Ep. f_equal. unfold updZ.
      case_goal; [done|]. by rewrite take_insert_ge by lia.
    + destruct (Z.eqb_spec c 46) as [->|]; [|destruct (Z.eqb_spec c 32); done].
      destruct (decide (pre = [])) as [->|Hne]; [done|]. rewrite (bool_decide_eq_false_2 _ Hne). cbn [negb orb].
      destruct (Z.leb_spec 3 idx); [done|]. intros Er.
      destruct (IH parts (idx + 1) [] p') as (os & Hlo & Eo & Ho & Ep); [done|done|lia|constructor|apply Hz; lia|by compute|intros; apply Hz; lia|done|].
      exists (pre :: os). cbn [length]. split; [lia|]. split; [|split; [by repeat constructor|]].
      * destruct os as [|o os]; [cbn in Hlo; lia|]. change (pre ++ 46 :: str = pre ++ 46 :: join_dots (o :: os)). by rewrite <- Eo.
      * rewrite Ep. replace (Z.to_nat (idx + 1)) with (S (Z.to_nat idx)) by lia. cbn [fmap list_fmap].
        erewrite take_S_r; [by rewrite <- app_assoc|]. unfold nthZ in Hv. destruct (Z.ltb_spec idx 0); [lia|].
        destruct (parts !! Z.to_nat idx) eqn:Ex; [cbn in Hv; by subst|]. apply lookup_ge_None in Ex. lia.
Qed.

(** The parser accepts exactly the dotted addresses. *)
Lemma parse_iff w ip : Forall (fun c => c <> 32) w -> net_parse_ip w = Some ip <-> dotted w ip.
Proof.
  intros Hw. split; [|apply parse_dotted]. unfold net_parse_ip. destruct (parse_ip_loop _ _ _ _) as [p'|] eqn:Er; [|done].
  apply (parse_loop_sound w [0; 0; 0; 0] 0 []) in Er as (os & Hl & Eo & Ho & ->);
    [|done|done|lia|constructor|done|by compute|intros j Hj; unfold nthZ; case_goal; [done|]; by destruct (Z.to_nat j) as [|[|[|[|]]]]].
  destruct os as [|o1 [|o2 [|o3 [|o4 [|]]]]]; cbn in Hl; try lia.
  repeat (apply Forall_cons in Ho as [? Ho]). cbn [take app fmap list_fmap mbind option_bind Z.to_nat]. intros [= <-].
  exists o1, o2, o3, o4. split; [exact Eo|]. do 4 (split; [done|]).
  apply make_ip_value; unfold is_u8; by apply octet_range.
Qed.

(** ** The words of the command *)

(** A word of at most 23 characters, and the rest of a line. *)
Definition arg_word (w : list Z) : Prop := w <> [] /\ (length w <= 23)%nat /\ Forall (fun c => c <> 32) w.
Definition more (w : list Z) : list Z := if decide (w = []) then [] else 32 :: w.

(** What the three words ask for; an empty one is not given. *)
Definition asks_for (t1 t2 t3 : list Z) : if_request :=
  match net_parse_ip t1 with
  | None => BadAddress
  | Some ip =>
    match (if bool_decide (t2 = []) then Some (net_make_ip 255 255 255 0) else net_parse_ip t2) with
    | None => BadMask
    | Some mask =>
      match (if bool_decide (t3 = []) then Some 0 else net_parse_ip t3) with
      | None => BadGateway
      | Some gw => SetAddress ip mask (if gw =? 0 then Z.lor (Z.land ip mask) 2 else gw)
      end
    end
  end.

Lemma next_more w r : w = [] /\ r = [] \/ arg_word w -> next_word 23 (more w ++ more r) = (w, more r).
Proof.
  unfold more at 1. intros [[-> ->]|(Hn & Hl & Hs)]; [done|]. rewrite decide_False by done. unfold more. destruct (decide (r = [])) as [->|].
  - rewrite app_nil_r. exact (proj2 (next_word_plain 23 w [] Hs Hl Hn)).
  - exact (proj1 (next_word_plain 23 w r Hs Hl Hn)).
Qed.

Lemma parse_words w1 w2 w3 : arg_word w1 -> w2 = [] /\ w3 = [] \/ arg_word w2 -> w3 = [] \/ arg_word w3 ->
  parse_ifconfig (w1 ++ more w2 ++ more w3) = asks_for w1 w2 w3.
Proof.
  intros H1 H2 H3. unfold parse_ifconfig.
  assert (next_word 23 (w1 ++ more w2 ++ more w3) = (w1, more w2 ++ more w3)) as ->.
  { destruct H1 as (Hn & Hl & Hs). destruct (decide (w2 = [])) as [->|Hne].
    - destruct H2 as [[_ ->]|[? _]]; [|done]. unfold more. cbn [decide app]. rewrite decide_True by done. rewrite app_nil_r.
      exact (proj2 (next_word_plain 23 w1 [] Hs Hl Hn)).
    - unfold more at 1 3. rewrite decide_False by done. exact (proj1 (next_word_plain 23 w1 (w2 ++ more w3) Hs Hl Hn)). }
  rewrite (next_more w2 w3 H2).
  assert (next_word 23 (more w3) = (w3, [])) as ->; [|reflexivity].
  pose proof (next_more w3 []) as Hx. change (more []) with (@nil Z) in Hx. rewrite app_nil_r in Hx. apply Hx. by destruct H3 as [->|]; auto.
Qed.

(** An optional word: the address [v], or the default if it is not given. *)
Definition given (w : list Z) (dflt v : Z) : Prop := if decide (w = []) then v = dflt else dotted w v.

(** Which request the words are. *)
Lemma parse_none w : arg_word w -> (forall ip, ~ dotted w ip) -> net_parse_ip w = None.
Proof.
  intros (_ & _ & Hs) Hb. destruct (net_parse_ip w) as [ip|] eqn:Ep; [|done]. apply parse_iff in Ep; [|done]. by destruct (Hb ip).
Qed.
Lemma parse_given w dflt v : given w dflt v -> (if bool_decide (w = []) then Some dflt else net_parse_ip w) = Some v.
Proof.
  unfold given. destruct (decide (w = [])) as [->|Hne]; [by intros ->|]. intros Hd. rewrite bool_decide_eq_false_2 by done.
  by apply parse_dotted.
Qed.
Lemma asks_set ip mask gw w1 w2 w3 : dotted w1 ip -> given w2 4294967040 mask -> given w3 0 gw ->
  asks_for w1 w2 w3 = SetAddress ip mask (if gw =? 0 then Z.lor (Z.land ip mask) 2 else gw).
Proof.
  intros D1 D2 D3. unfold asks_for. rewrite (parse_dotted w1 ip D1). change (net_make_ip 255 255 255 0) with 4294967040.
  by rewrite (parse_given w2 _ mask D2), (parse_given w3 _ gw D3).
Qed.
Lemma asks_bad_address w1 w2 w3 : arg_word w1 -> (forall ip, ~ dotted w1 ip) -> asks_for w1 w2 w3 = BadAddress.
Proof. intros H1 B1. unfold asks_for. by rewrite (parse_none w1 H1 B1). Qed.
Lemma asks_bad_mask ip w1 w2 w3 : dotted w1 ip -> w2 <> [] -> arg_word w2 -> (forall mask, ~ dotted w2 mask) -> asks_for w1 w2 w3 = BadMask.
Proof.
  intros D1 N2 H2 B2. unfold asks_for. rewrite (parse_dotted w1 ip D1), (bool_decide_eq_false_2 (w2 = []) N2).
  by rewrite (parse_none w2 H2 B2).
Qed.
Lemma asks_bad_gateway ip mask w1 w2 w3 : dotted w1 ip -> given w2 4294967040 mask -> w3 <> [] -> arg_word w3 ->
  (forall gw, ~ dotted w3 gw) -> asks_for w1 w2 w3 = BadGateway.
Proof.
  intros D1 D2 N3 H3 B3. unfold asks_for. rewrite (parse_dotted w1 ip D1). change (net_make_ip 255 255 255 0) with 4294967040.
  rewrite (parse_given w2 _ mask D2), (bool_decide_eq_false_2 (w3 = []) N3). by rewrite (parse_none w3 H3 B3).
Qed.

(** * The command *)

(** The fields of [nic_state] have their widths. *)
Record nic_typed (n : Nic.nic_state_t) : Prop := {
  nt_name : Forall is_u8 (Nic.driver_name n);
  nt_irq : is_u8 (Nic.nic_irq n);
  nt_counters : is_u32 (Nic.rx_packets n) /\ is_u32 (Nic.rx_bytes n) /\ is_u32 (Nic.tx_packets n) /\ is_u32 (Nic.tx_bytes n)
}.

(** The network stack and the card are parts of the machine of their own: the
    stack holds what was put there, whatever goes over the ports. *)
Class NetPart (H D E : Type) `{Ports H} `{NetEnv E} `{W : !World H D E} : Prop := {
  np_get n h : w_net (w_set_net n h) = n;
  np_in p h : w_net (inb p h).2 = w_net h;
  np_out p v h : w_net (outb p v h).2 = w_net h;
  np_nic_put n h : w_nic (w_set_net n h) = w_nic h;
  np_nic_in p h : w_nic (inb p h).2 = w_nic h;
  np_nic_out p v h : w_nic (outb p v h).2 = w_nic h;
  np_nic h : nic_typed (w_nic h)
}.

Section ifconfig.
Context {H D E : Type} `{UT : UartTx H} `{BP : !BytePorts H} `{BlockDev D} `{Allocator D} `{NetEnv E} `{W : !World H D E}.
Context `{NP : !NetPart H D E} (rows cols : Z).
Implicit Types s : shell H D.

(** The network stack is in the state [n] and the card in the state [nic]. *)
Definition net_is (n : net E) (nic : Nic.nic_state_t) (u : serial H) : Prop := w_net (serial_hw u) = n /\ w_nic (serial_hw u) = nic.
Abbreviation spoke n nic := (spoke rows cols (net_is n nic)).

Lemma net_is_in n nic p (u : serial H) : net_is n nic u -> net_is n nic (set_hw (inb p (serial_hw u)).2 u).
Proof using NP. unfold net_is. simpl. by rewrite np_in, np_nic_in. Qed.
Lemma net_is_out n nic p v (u : serial H) : net_is n nic u -> net_is n nic (set_hw (outb p v (serial_hw u)).2 u).
Proof using NP. unfold net_is. simpl. by rewrite np_out, np_nic_out. Qed.

(** The top bar is not a part of the text. *)
Lemma topbar_spoke n nic s0 p T s : spoke n nic s0 p T s -> returns (on_con console_refresh_topbar) s (fun _ s' => spoke n nic s0 p T s').
Proof using BP NP UT.
  intros Hs. apply (spoke_con rows cols (net_is n nic) _ s0 p T); [apply refresh_topbar_J; [apply net_is_in|apply net_is_out]|done|].
  destruct Hs as [(con & -> & [Hp Hw Hr Hc]) _]. apply returns_part. cbn [sh_con set_con] in *. unfold on_paper in Hp.
  pose proof (sc_ok _ _ _ _ _ _ Hp) as Hok. pose proof Hok as [_ Hrows _ _ Hst Hdr Hdev]. pose proof (sc_shows _ _ _ _ _ _ Hp) as Hsh.
  pose proof (sc_rows _ _ _ _ _ _ Hp) as HR. pose proof (sc_cols _ _ _ _ _ _ Hp) as HC. unfold shows in Hsh.
  destruct (active con) eqn:Ha.
  - rewrite HR, HC in *. eapply returns_mono; [apply (refresh_topbar_spec rows cols con); try eassumption; lia|].
    intros [] con' [(v & u & -> & Hon & Hu) Hpic]. exists (set_vbe v (set_ser u con)). split; [done|].
    split; [|done|by eapply com1_sends|by intros _; apply Hc].
    unfold on_paper. rewrite <- (sc_x _ _ _ _ _ _ Hp), <- (sc_y _ _ _ _ _ _ Hp).
    apply (screen_paint rows cols con (set_vbe v (set_ser u con))); try done.
    + apply Hok.
    + destruct Hdr as [[]|[_ Hd]]; [by left|by right].
    + apply (sc_grid _ _ _ _ _ _ Hp).
  - unfold console_refresh_topbar. apply returns_bind. eexists _, _. split; [done|]. rewrite Ha. cbn [negb].
    apply returns_ret. exists con. split; [done|]. by split.
Qed.

(** ** What [ifconfig] shows *)

(** An address in dotted form, and a hardware address. *)
Definition ip_text (ip : Z) : list Z :=
  decimal (ip / 16777216 mod 256) ++ [46] ++ decimal (ip / 65536 mod 256) ++ [46] ++ decimal (ip / 256 mod 256) ++ [46] ++ decimal (ip mod 256).
Definition hex2 (v : Z) : list Z :=
  let digit k := nthZ 0 (str "0123456789ABCDEF") k in [digit (v / 16 mod 16); digit (v mod 16)].
Definition mac_text (mac : list Z) : list Z :=
  let b i := hex2 (nthZ 0 mac i) in
  b 0 ++ [58] ++ b 1 ++ [58] ++ b 2 ++ [58] ++ b 3 ++ [58] ++ b 4 ++ [58] ++ b 5.

(** The lines about the card [nic] and the configuration [c]; the counters are
    shown as signed numbers. *)
Definition interface_text (nic : Nic.nic_state_t) (c : net_config_t) : list (Z * Z) :=
  in_color 14 ([NL] ++ str "eth0: ") ++
  in_color 7 (Nic.driver_name nic ++
    if Nic.initialized nic then
      (if Nic.link_up nic =? 0 then strn " <DOWN>" else strn " <UP,BROADCAST,RUNNING>") ++
      str "      MAC:     " ++ mac_text (Nic.mac nic) ++ str "  IRQ: " ++ decimal (Nic.nic_irq nic) ++ [NL] ++
      str "      inet:    " ++ ip_text (cfg_ip c) ++ str "  netmask: " ++ ip_text (cfg_netmask c) ++
      (if dhcp_leased c then strn "  (DHCP)" else strn "  (static)") ++
      str "      gateway: " ++ ip_text (cfg_gateway c) ++ str "  dns:     " ++ ip_text (cfg_dns c) ++ [NL] ++
      str "      RX pkts: " ++ decimal (s32 (Nic.rx_packets nic)) ++ str " (" ++ decimal (s32 (Nic.rx_bytes nic)) ++ str " B)  " ++
      str "TX pkts: " ++ decimal (s32 (Nic.tx_packets nic)) ++ str " (" ++ decimal (s32 (Nic.tx_bytes nic)) ++ strn " B)" ++ [NL]
    else strn " (not present)" ++ [NL]).

Lemma octet_decimal o : 0 <= o < 256 -> k_utoa o 10 = Some (decimal o).
Proof.
  intros Ho. destruct (decimal_spec o) as [Ed _]; [lia|]. rewrite <- Ed. unfold k_itoa.
  rewrite (proj2 (Z.ltb_ge o 0)) by lia. cbn [andb]. by rewrite u32_id by (unfold is_u32; lia).
Qed.
Lemma format_ip_is ip : net_format_ip ip = Some (ip_text ip).
Proof.
  assert (forall i, 0 <= i -> k_utoa (u8 (Z.land (Z.shiftr ip (i * 8)) 255)) 10 = Some (decimal (ip / 2 ^ (i * 8) mod 256))) as Ho.
  { intros i Hi. rewrite land_255, Z.shiftr_div_pow2 by lia. rewrite u8_id by (unfold is_u8; zlia). apply octet_decimal. zlia. }
  unfold net_format_ip. cbn [format_octets]. rewrite !Ho by lia.
  change (2 ^ (3 * 8)) with 16777216. change (2 ^ (2 * 8)) with 65536. change (2 ^ (1 * 8)) with 256. change (2 ^ (0 * 8)) with 1.
  rewrite Z.div_1_r. cbn. unfold ip_text. by rewrite <- !app_assoc.
Qed.
Lemma hex_pad_two v : hex_pad 2 v [] = hex2 v.
Proof. cbn [hex_pad]. rewrite !land_15, Z.shiftr_div_pow2 by lia. reflexivity. Qed.

Abbreviation inn n nic := (net_is_in n nic).
Abbreviation out n nic := (net_is_out n nic).
Lemma ip_spoke ip n nic s0 p T s : spoke n nic s0 p T s ->
  returns (say_ip ip) s (fun _ s' => spoke n nic s0 p (T ++ in_color 7 (ip_text ip)) s').
Proof using NP UT.
  intros Hs. unfold say_ip. apply returns_bind. exists (ip_text ip), s. split; [unfold p_val; by rewrite format_ip_is|].
  apply (say_spoke rows cols _ (inn n nic) (out n nic)); [done|]. by eapply format_ip_u8, format_ip_is.
Qed.
Lemma u32_spoke v n nic s0 p T s : spoke n nic s0 p T s -> is_u32 v ->
  returns (say_u32 v) s (fun _ s' => spoke n nic s0 p (T ++ in_color 7 (decimal (s32 v))) s').
Proof using NP UT.
  intros Hs Hv. apply (say_int_spoke rows cols _ (inn n nic) (out n nic)); [done|].
  pose proof (u32_range v) as Hr. unfold s32, is_u32 in *. destruct (Z.ltb_spec (u32 v) 2147483648); lia.
Qed.
Lemma hex_spoke v n nic s0 p T s : spoke n nic s0 p T s ->
  returns (say_hex v 2) s (fun _ s' => spoke n nic s0 p (T ++ in_color 7 (hex2 v)) s').
Proof using NP UT. intros Hs. rewrite <- hex_pad_two. by apply (say_hex_spoke rows cols _ (inn n nic) (out n nic)). Qed.
Lemma say_n t n nic s0 p T s : spoke n nic s0 p T s -> Forall is_u8 t -> returns (say t) s (fun _ s' => spoke n nic s0 p (T ++ in_color 7 t) s').
Proof using NP UT. apply say_spoke; [apply net_is_in|apply net_is_out]. Qed.
Lemma say_char_n c n nic s0 p T s : spoke n nic s0 p T s -> is_u8 c -> returns (say_char c) s (fun _ s' => spoke n nic s0 p (T ++ in_color 7 [c]) s').
Proof using NP UT. apply say_char_spoke; [apply net_is_in|apply net_is_out]. Qed.
Lemma say_color_n t c n nic s0 p T s : spoke n nic s0 p T s -> Forall is_u8 t ->
  returns (say_color t c) s (fun _ s' => spoke n nic s0 p (T ++ in_color c t) s').
Proof using NP UT. apply say_color_spoke; [apply net_is_in|apply net_is_out]. Qed.
Lemma say_int_n v n nic s0 p T s : spoke n nic s0 p T s -> -2147483648 <= v < 2147483648 ->
  returns (say_int v) s (fun _ s' => spoke n nic s0 p (T ++ in_color 7 (decimal v)) s').
Proof using NP UT. apply say_int_spoke; [apply net_is_in|apply net_is_out]. Qed.

(** Walks through a command that prints. *)
Ltac text_u8 := first [assumption | by apply str_u8 | by compute | lia | case_goal; by apply str_u8].
Ltac print_step :=
  lazymatch goal with
  | |- returns (say_ip _) _ _ => eapply ip_spoke; eassumption
  | |- returns (say_u32 _) _ _ => eapply u32_spoke; [eassumption|assumption]
  | |- returns (say_hex _ _) _ _ => eapply hex_spoke; eassumption
  | |- returns (say_int _) _ _ => eapply say_int_n; [eassumption|lia]
  | |- returns (say_char _) _ _ => eapply say_char_n; [eassumption|by compute]
  | |- returns (say_color _ _) _ _ => eapply say_color_n; [eassumption|text_u8]
  | |- returns (say _) _ _ => eapply say_n; [eassumption|text_u8]
  end.
Ltac print1 := apply returns_bind; eapply returns_mono; [print_step|]; intros [] ? ?; cbv beta zeta.
Ltac print_last := eapply returns_mono; [print_step|].
Ltac same_text := rewrite ?in_color_app, <- ?app_assoc; reflexivity.
Ltac end_text H :=
  revert H; cbv beta; match goal with |- ShellNetSpec.spoke _ _ _ _ _ ?a _ -> ShellNetSpec.spoke _ _ _ _ _ ?b _ => assert (a = b) as -> by same_text end; done.

Lemma mac_spoke mac n nic s0 p T s : spoke n nic s0 p T s ->
  returns (say_mac mac) s (fun _ s' => spoke n nic s0 p (T ++ in_color 7 (mac_text mac)) s').
Proof using NP UT.
  intros Hs. unfold say_mac. change (seqZ 0 6) with [0; 1; 2; 3; 4; 5]. cbn [p_each Z.ltb Z.compare Pos.compare Pos.compare_cont].
  do 5 (apply returns_bind; print1; print_last; intros [] ? ?; cbv beta). apply returns_bind. print1. do 2 apply returns_ret.
  unfold mac_text. match goal with Hx : ShellNetSpec.spoke _ _ _ _ _ _ ?s' |- ShellNetSpec.spoke _ _ _ _ _ _ ?s' => end_text Hx end.
Qed.

Lemma show_interface_spoke n nic s0 p T s : nic_typed nic -> spoke n nic s0 p T s ->
  returns show_interface s (fun _ s' => spoke n nic s0 p (T ++ interface_text nic (net_config n)) s').
Proof using NP UT.
  intros [Hname Hirq (Hrp & Hrb & Htp & Htb)] Hs. unfold is_u8 in Hirq. pose proof (proj2 (proj2 Hs)) as En. unfold show_interface.
  apply returns_bind. eexists _, _. split; [apply see_step|]. cbv beta. unfold world. change (con_ser (sh_con s)) with (ser s). rewrite En.
  print1. print1. unfold interface_text. destruct (Nic.initialized nic); cbn [negb].
  - print1. print1.
    apply returns_bind. eapply returns_mono; [eapply mac_spoke; eassumption|]. intros [] ? ?. cbv beta.
    print1. print1. print1. apply returns_bind. eexists _, _. split; [apply see_step|]. cbv beta zeta.
    match goal with Hx : ShellNetSpec.spoke _ _ _ _ _ _ ?s' |- context [w_net (world ?s')] =>
      pose proof (proj1 (proj2 Hx)) as En'; unfold world; change (con_ser (sh_con s')) with (ser s'); rewrite En' end.
    do 19 print1. print_last. intros [] s9 Hs9. end_text Hs9.
  - print_last. intros [] s9 Hs9. end_text Hs9.
Qed.

(** ** The command *)

(** The stack [n] with a static configuration and the name server 8.8.8.8. *)
Definition with_static (ip mask gw : Z) (n : net E) : net E :=
  let c := net_config n in
  Net (NetConfig (negb (ip =? 0)) false ip mask gw 134744072 (cfg_dhcp_server c) (rx_eth c) (rx_arp c) (rx_ipv4 c) (rx_icmp c) (rx_udp c))
    (arp_cache n) (ip_id_counter n) (ping n) (dhcp n) (env n).

Lemma quiet_start s p : working rows cols s p -> spoke (w_net (world s)) (w_nic (world s)) s p [] s.
Proof. intros Hw. split; [by apply said_nothing|done]. Qed.

Lemma ifconfig_sets args ip mask gw s p :
  working rows cols s p -> args <> [] -> parse_ifconfig args = SetAddress ip mask gw ->
  returns (cmd_ifconfig args) s (fun _ s' =>
    let n' := with_static ip mask gw (w_net (world s)) in
    w_net (world s') = n' /\
    said rows cols s p (in_color 10 (strn "Static IPv4 configuration applied.") ++ interface_text (w_nic (world s)) (net_config n')) s').
Proof using BP NP UT.
  intros Hw Hne Hp. unfold cmd_ifconfig. rewrite bool_decide_eq_false_2, Hp by done. unfold set_interface. cbv zeta.
  set (n := with_static ip mask gw (w_net (world s))). set (nic := w_nic (world s)).
  apply returns_bind, returns_bind. eapply returns_mono; [by apply (on_net_step _ tt n s)|]. intros [] s1 (_ & Hs1 & Es1 & _). cbv beta.
  assert (Hs1p : spoke n nic s p [] s1).
  { split; [eapply env_step_said; [by apply said_nothing|done]|]. unfold net_is. rewrite Es1. split; [apply np_get|apply np_nic_put]. }
  apply returns_bind. eapply returns_mono; [by apply topbar_spoke|]. intros [] s2 Hs2. cbv beta.
  print_last. intros [] s3 Hs3. cbv beta in Hs3.
  eapply returns_mono; [apply (show_interface_spoke n nic s p _ s3 (np_nic _) Hs3)|].
  intros [] s4 [Hs4 [Hn4 _]]. split; [exact Hn4|]. exact Hs4.
Qed.

(** What a command that says no leaves. *)
Abbreviation refused args text s p := (returns (cmd_ifconfig args) s (fun _ s' =>
  w_net (world s') = w_net (world s) /\ said rows cols s p (in_color 12 (strn text)) s')).
Lemma ifconfig_says text args s p :
  working rows cols s p -> cmd_ifconfig args s = say_color (strn text) 12 s -> Forall is_u8 (strn text) -> refused args text s p.
Proof using NP UT.
  intros Hw Ec Ht. unfold returns. rewrite Ec. pose proof (quiet_start s p Hw) as Hs.
  change (returns (say_color (strn text) 12) s (fun _ s' => w_net (world s') = w_net (world s) /\ said rows cols s p (in_color 12 (strn text)) s')).
  print_last. intros [] s' [Hs' [Hn _]]. split; [exact Hn|exact Hs'].
Qed.

(** C40: [ifconfig] without arguments shows the state of the card, the
    configuration and the counters, every character of which is stated, and
    changes nothing.  With an address in dotted form, and a mask and a gateway
    in dotted form or left out, it configures the network stack with exactly
    those: the mask is 255.255.255.0 if it is left out, the gateway is the
    host 2 of the network if it is left out or 0.0.0.0, the name server becomes
    8.8.8.8, the configuration is marked as static, nothing else of the stack
    changes, and the command reports the change and shows the new
    configuration.  A first, second or third word that is not four numbers of
    at most 255 with dots between them is refused with a message of its own
    and leaves the network stack as it was. *)
Theorem ifconfig_configures s p :
  working rows cols s p ->
  let n := w_net (world s) in
  let nic := w_nic (world s) in
  let refused args text := returns (cmd_ifconfig args) s (fun _ s' =>
    w_net (world s') = n /\ said rows cols s p (in_color 12 (strn text)) s') in
  returns (cmd_ifconfig []) s (fun _ s' => w_net (world s') = n /\ said rows cols s p (interface_text nic (net_config n)) s') /\
  forall w1 w2 w3, arg_word w1 -> w2 = [] /\ w3 = [] \/ arg_word w2 -> w3 = [] \/ arg_word w3 ->
  let args := w1 ++ more w2 ++ more w3 in
  (forall ip mask gw, dotted w1 ip -> given w2 4294967040 mask -> given w3 0 gw ->
     returns (cmd_ifconfig args) s (fun _ s' =>
       let n' := with_static ip mask (if gw =? 0 then Z.lor (Z.land ip mask) 2 else gw) n in
       w_net (world s') = n' /\
       said rows cols s p (in_color 10 (strn "Static IPv4 configuration applied.") ++ interface_text nic (net_config n')) s')) /\
  ((forall ip, ~ dotted w1 ip) -> refused args "Usage: ifconfig [<ip> [netmask] [gateway]]"%string) /\
  (forall ip, dotted w1 ip -> w2 <> [] -> (forall mask, ~ dotted w2 mask) -> refused args "Invalid subnet mask."%string) /\
  (forall ip mask, dotted w1 ip -> given w2 4294967040 mask -> w3 <> [] -> (forall gw, ~ dotted w3 gw) ->
     refused args "Invalid gateway IP."%string).
Proof using BP NP UT.
  intros Hw n nic refused. split.
  { unfold cmd_ifconfig. rewrite bool_decide_eq_true_2 by done. eapply returns_mono;
      [apply (show_interface_spoke n nic s p [] s (np_nic _)); by apply quiet_start|]. intros [] s' [Hs' [Hn _]]. by split. }
  intros w1 w2 w3 A1 A2 A3 args. pose proof (parse_words w1 w2 w3 A1 A2 A3) as Hp. fold args in Hp.
  assert (args <> []) as Hne by (destruct A1 as [Hn1 _]; unfold args; by destruct w1).
  assert (cmd_ifconfig args s = match asks_for w1 w2 w3 with
    | BadAddress => say_color (strn "Usage: ifconfig [<ip> [netmask] [gateway]]") 12 s
    | BadMask => say_color (strn "Invalid subnet mask.") 12 s
    | BadGateway => say_color (strn "Invalid gateway IP.") 12 s
    | SetAddress ip mask gw => (set_interface ip mask gw;; show_interface) s end) as Ec.
  { unfold cmd_ifconfig. rewrite bool_decide_eq_false_2, Hp by done. by destruct (asks_for w1 w2 w3). }
  split_and!.
  - intros ip mask gw D1 D2 D3. apply ifconfig_sets; [done|done|]. rewrite Hp. by apply asks_set.
  - intros B1. apply ifconfig_says; [done| |by apply str_u8]. rewrite Ec. by rewrite (asks_bad_address w1 w2 w3 A1 B1).
  - intros ip D1 N2 B2. apply ifconfig_says; [done| |by apply str_u8]. rewrite Ec. rewrite (asks_bad_mask ip w1 w2 w3); [done|done|done|by destruct A2 as [[? _]|]|done].
  - intros ip mask D1 D2 N3 B3. apply ifconfig_says; [done| |by apply str_u8]. rewrite Ec.
    rewrite (asks_bad_gateway ip mask w1 w2 w3); [done..| |done]. by destruct A3.
Qed.
End ifconfig.
