(* ===== verification/Station.v ===== *)
(** Station: a machine to run the commands of [ShellNet] on, with a terminal,
    a card on a wire that nothing answers on, and a clock, and one with interrupt
    controllers for the dispatchers of [Isr]; they show that what the theorems
    assume of the machine can hold. *)

From S2P Require Import Prelude Ports Partial Memory Common Text Array Ring Serial SerialTx Font Pmm.
From S2P Require Import Heap HeapInv HeapSpec HeapRun Disk Fat FatFile Paging Vbe VbeSpec Rtc Net NetSpec NetRun.
From S2P Require Import Pic Mouse Keyboard KeyboardSpec Console ConsoleGrid ConsoleSpec ConsolePaper ConsoleClear Shell ShellExec.
From S2P Require Import ShellView ShellFiles ShellInfo ShellNet ShellGui ShellNetSpec ShellIfSpec Isr IsrSpec Serial SerialTx Preserve.
From S2P Require Scheduler SchedSpec SchedRun Timer Klog Cpu Pci Nic.
#[local] Open Scope partial_scope.

Definition store : Type := array_dev * heap.

Record station := Station {
  st_tty : tty; st_net : net wire; st_kb : keyboard; st_mouse : mouse_state_t; st_sched : Scheduler.sched store;
  st_clock : Z; st_irqs : bool
}.
Definition on_tty {A} (m : ST tty A) : ST station A := fun h =>
  let '(x, t) := m (st_tty h) in
  (x, Station t (st_net h) (st_kb h) (st_mouse h) (st_sched h) (st_clock h) (st_irqs h)).
Definition put_net (n : net wire) (h : station) : station :=
  Station (st_tty h) n (st_kb h) (st_mouse h) (st_sched h) (st_clock h) (st_irqs h).
Definition put_clock (c : Z) (h : station) : station :=
  Station (st_tty h) (st_net h) (st_kb h) (st_mouse h) (st_sched h) c (st_irqs h).

#[export] Instance station_ports : Ports station := {
  inb p := on_tty (inb p); inw p := on_tty (inw p); outb p v := on_tty (outb p v); outw p v := on_tty (outw p v)
}.
#[export] Program Instance station_tx : UartTx station := { sent port h := sent port (st_tty h) }.
Next Obligation. intros port p h. exact (tx_read port p (st_tty h)). Qed.
Next Obligation. intros port v h. exact (tx_write port v (st_tty h)). Qed.
Next Obligation. intros port p v h Hp. exact (tx_other port p v (st_tty h) Hp). Qed.
#[export] Instance station_bytes : BytePorts station.
Proof. intros p h. exact (tty_bytes p (st_tty h)). Qed.

#[export] Instance station_world : World station store wire := {
  w_net := st_net;
  w_set_net := put_net;
  w_keyboard := st_kb;
  w_set_keyboard k h := Station (st_tty h) (st_net h) k (st_mouse h) (st_sched h) (st_clock h) (st_irqs h);
  w_mouse := st_mouse;
  w_set_mouse m h := Station (st_tty h) (st_net h) (st_kb h) m (st_sched h) (st_clock h) (st_irqs h);
  w_sched := st_sched;
  w_set_sched sc h := Station (st_tty h) (st_net h) (st_kb h) (st_mouse h) sc (st_clock h) (st_irqs h);
  w_timer h := (Timer.TimerState (u32 (st_clock h)) (st_clock h / 100) 100, h);
  w_set_timer t h := put_clock (Timer.ticks t) h;
  w_irqs := st_irqs;
  w_set_irqs b h := Station (st_tty h) (st_net h) (st_kb h) (st_mouse h) (st_sched h) (st_clock h) b;
  w_log h := Klog.Log [] 0;
  w_cpu h := Cpu.no_info;
  w_pci h := [];
  w_nic h := Nic.NicState true Nic.NIC_E1000 (str "Intel PRO/1000 (E1000)") 0 0 0 11 mac_example 1 0 0 0 0;
  w_pmm d := h_pmm d.2;
  w_heap d := heap_stats d.2;
  w_drive i d := None
}.

#[export] Instance station_net : NetPart station store wire.
Proof.
  split; [done..|]. intros h. cbn. split; [by apply str_u8|unfold is_u8; cbn; lia|].
  unfold is_u32. cbn. lia.
Qed.

(** ** A wire without an answer *)

Definition target : Z := net_make_ip 10 0 2 2.

(** The gateway is not in the cache, nothing arrives, and the clock moves on
    by ten seconds whenever it is read. *)
Record deaf (n : net wire) : Prop := {
  de_config : net_config n = cfg_example;
  de_cache : arp_cache_lookup target n = None;
  de_inbox : w_inbox (env n) = [];
  de_step : w_step (env n) = 1000;
  de_clock : is_u32 (w_clock (env n))
}.
Lemma deaf_poll resolve n : deaf n -> nic_poll resolve n = Some (tt, n).
Proof.
  intros [_ _ Hi _ _]. unfold nic_poll, nm_bind, nm_get. cbn. unfold nm_bind, nm_get, nm_mod. cbn. rewrite Hi.
  by destruct n.
Qed.
(** The next reading of the clock. *)
Definition later (n : net wire) : net wire :=
  with_env (Wire (w_mac (env n)) (w_sent (env n)) (w_inbox (env n)) (u32 (w_clock (env n) + 1000)) 1000) n.
Lemma deaf_ticks n : deaf n -> timer_get_ticks n = Some (w_clock (env n), later n).
Proof. intros [_ _ _ Hs _]. unfold timer_get_ticks, later. cbn. by rewrite Hs. Qed.
Lemma deaf_later n : deaf n -> deaf (later n).
Proof. intros [Hc Ha Hi Hs Ht]. split; [done..|apply u32_range]. Qed.

Lemma deaf_send_arp op mac ip n : deaf n -> exists n', send_arp_packet op mac ip n = Some (tt, n') /\ deaf n'.
Proof.
  intros [Hc Ha Hi Hs Ht]. unfold send_arp_packet, send_eth_frame, nm_bind, nm_get, nm_mod, nm_ret. cbn.
  case_goal; eexists; (split; [reflexivity|]); done.
Qed.

(** A wait ends with the first reading of the clock. *)
Lemma deaf_wait {A} fuel limit poll (check : net wire -> option A) n : deaf n -> 0 < limit <= 1000 ->
  wait_while (S fuel) (w_clock (env n)) (fun d => d <? limit) poll check (later n) = Some (None, later (later n)).
Proof.
  intros Hd Hl. cbn [wait_while]. unfold nm_bind at 1. rewrite deaf_ticks by by apply deaf_later. cbn [mbind option_bind].
  assert (u32 (w_clock (env (later n)) - w_clock (env n)) = 1000) as ->.
  { cbn. apply (u32_sub_cancel (w_clock (env n)) 1000). }
  by destruct (Z.ltb_spec 1000 limit); [lia|].
Qed.
Lemma deaf_attempts fuel k limit poll n : deaf n -> 0 < limit <= 1000 ->
  exists n', attempts k (nm_bind (send_arp_packet ARP_OP_REQUEST bcast_mac target) (fun _ =>
      nm_bind timer_get_ticks (fun start => wait_while (S fuel) start (fun d => d <? limit) poll (arp_cache_lookup target)))) n =
    Some (None, n') /\ deaf n'.
Proof.
  intros Hd Hl. revert n Hd. induction k as [|k IH]; intros n Hd; [by eexists|]. cbn [attempts].
  destruct (deaf_send_arp ARP_OP_REQUEST bcast_mac target n Hd) as (n1 & E1 & H1).
  match goal with |- context [nm_bind ?m _ n] => assert (m n = Some (None, later (later n1))) as Hm end.
  { unfold nm_bind at 1. rewrite E1. cbn [mbind option_bind]. unfold nm_bind at 1. rewrite deaf_ticks by done. cbn [mbind option_bind].
    by apply deaf_wait. }
  unfold nm_bind at 1. rewrite Hm. cbn [mbind option_bind]. apply IH. by do 2 apply deaf_later.
Qed.

Lemma deaf_resolve fuel n : deaf n -> exists n', net_arp_resolve (S (S fuel)) target 1200 n = Some (None, n') /\ deaf n'.
Proof.
  intros Hd. remember (S fuel) as f eqn:Ef. cbn [net_arp_resolve]. unfold nm_bind at 1, nm_get.
  cbn [mbind option_bind negb ready nic_ready wire_env]. destruct (Z.eqb_spec target BCAST_IP) as [E|]; [discriminate E|].
  rewrite (de_cache n Hd). cbv zeta. subst f.
  change (let wait_ticks := u32 (1200 * ticks_per_second n) / 1000 in wait_ticks) with 120.
  change (u32 (1200 * ticks_per_second n) / 1000) with 120. change (120 <? 5) with false. cbv iota.
  change (120 / 3 =? 0) with false. cbv iota. change (120 / 3) with 40.
  apply deaf_attempts; [done|lia].
Qed.
Lemma deaf_ping fuel seq n : deaf n -> exists n', net_ping (S (S fuel)) target seq 1200 n = Some ((-2, 0, 0), n') /\ deaf n'.
Proof.
  intros Hd. destruct (deaf_resolve fuel n Hd) as (n' & E & Hd'). exists n'. split; [|done]. revert E. generalize (S (S fuel)). intros f E.
  unfold net_ping. unfold nm_bind at 1, nm_get. cbn [mbind option_bind]. cbn [ready nic_ready wire_env negb orb].
  rewrite (de_config n Hd). cbn [configured cfg_example negb].
  assert (route_next_hop target n = target) as -> by (unfold route_next_hop; rewrite (de_config n Hd); reflexivity).
  unfold nm_bind at 1. by rewrite E.
Qed.

(** ** A shell with an empty text screen *)

Section blank.
Context {H D : Type} `{UartTx H} `{BlockDev D} `{Allocator D}.
Definition blank_shell (u : serial H) (fs : fat_fs D) : shell H D :=
  Sh (Con empty_grid 80 25 0 0 (-1) (-1) true 7 (Vbe no_fb 0 0 ∅) u cfg_example true false midnight)
    fs (str "tiger") (replicate 256 0) 0 0 0 0 (replicate 16 []) 0 (-1) 0.
Lemma blank_ready u fs : default_port u = COM1_PORT -> serial_present u = true -> working 25 80 (blank_shell u fs) start_paper.
Proof.
  intros Hd Hs. split; [| |by split|intros Ha; discriminate Ha].
  - split; try reflexivity.
    + split; simpl; try (unfold MAX_GRID_COLS, MAX_GRID_ROWS; lia); [apply empty_grid_wf|by compute].
    + intros r c Hr Hc. simpl. rewrite empty_grid_get by (simpl in *; lia). reflexivity.
    + intros r c Hr Hc. simpl. rewrite empty_grid_get by lia. unfold window. simpl. by rewrite decide_True by lia.
  - split; simpl; try lia. intros l k Hl Hk. by rewrite decide_False by lia.
Qed.
End blank.

(** ** The station at rest *)

(** The keys [q] have been typed, nothing arrives, and the interrupts are on. *)
Definition calm (q : list Z) (u : serial station) : Prop :=
  default_port u = COM1_PORT /\ serial_present u = true /\ serial_rx_ring u = ring_init 0 /\
  (ring_wf (event_buffer (st_kb (serial_hw u))) /\ events (st_kb (serial_hw u)) = q /\ ansi_state (st_kb (serial_hw u)) = 0) /\
  st_irqs (serial_hw u) = true /\ deaf (st_net (serial_hw u)).

(** The timer interrupt. *)
Definition clock_interrupt : PM (shell station store) unit :=
  p_mod (fun s => set_world (put_clock (st_clock (world s) + 1) (world s)) s).

Lemma calm_in q p u : calm q u -> calm q (set_hw (inb p (serial_hw u)).2 u).
Proof. done. Qed.
Lemma calm_out q p v u : calm q u -> calm q (set_hw (outb p v (serial_hw u)).2 u).
Proof. done. Qed.

(** Nothing waits on the serial line. *)
Lemma calm_pump f r k hw m :
  pump_serial_events (S f) (S r) (Input k (SerialPort COM1_PORT true (ring_init 0) hw) m) =
    Some (tt, Input (H := station) k (SerialPort COM1_PORT true (ring_init 0) hw) m).
Proof. destruct hw. reflexivity. Qed.

Lemma calm_poll f r q (s : shell station store) : calm q (ser s) ->
  returns (poll_event (S f) (S r)) s (fun ev s' =>
    ev = hd KEY_NONE q /\ env_step s s' /\ calm (tl q) (ser s') /\ st_clock (world s') = st_clock (world s)).
Proof.
  intros (Hd & Hp & Hr & (Hw & He & Ha) & Hi & Hn).
  destruct s as [[g cc cr cx cy dx dy cv da v [port pres ring hw] cn crd crt cst] fs u b l c pc pr h hc hn sd].
  unfold ser in *. cbn in Hd, Hp, Hr, Hw, He, Ha, Hi, Hn. subst pres ring port. destruct hw as [tty_ net_ kb_ mouse_ sched_ clk irq].
  cbn in Hw, He, Ha, Hi, Hn. pose proof (ring_pop_contents 0 (event_buffer kb_) Hw) as Hc. unfold events in He.
  unfold returns, poll_event, on_input, input_poll_event, p_bind at 1. cbn [sh_con con_ser con_vbe].
  change (w_keyboard (world _)) with kb_. rewrite calm_pump. unfold p_bind, p_get. cbn [kb]. rewrite Ha. cbn [Z.eqb p_ret kb].
  destruct (ring_pop 0 (event_buffer kb_)) as [[ev rg]|]; eexists _, _; (split; [cbn; reflexivity|]).
  - destruct Hc as (Hc & Hw' & _). rewrite Hc in He. subst q. split; [done|].
    split; [exists (SerialPort COM1_PORT true (ring_init 0) (Station tty_ net_ (with_events rg kb_) mouse_ sched_ clk irq)), cn; by split|]. done.
  - rewrite Hc in He. subst q. split; [done|].
    split; [exists (SerialPort COM1_PORT true (ring_init 0) (Station tty_ net_ kb_ mouse_ sched_ clk irq)), cn; by split|]. done.
Qed.

Lemma station_ticking f r : ticking (S f) (S r) clock_interrupt calm st_clock.
Proof.
  split.
  - intros q u Hu. by destruct u.
  - intros q s Hs. by apply calm_poll.
  - intros q s Hs. pose proof Hs as (_ & _ & _ & _ & _ & Hn). eapply returns_mono.
    { apply on_net_step. apply (deaf_poll _ (w_net (world s))). exact Hn. }
    intros [] s' (_ & He & Es & _). split; [exact He|]. unfold world. change (con_ser (sh_con s')) with (ser s'). by rewrite Es.
  - intros q s Hs. pose proof Hs as (_ & _ & _ & _ & Hi & _). eexists tt, _. split.
    { unfold halt_until_interrupt, p_bind. rewrite see_step. cbn [w_irqs station_world]. unfold world at 1.
      change (con_ser (sh_con s)) with (ser s). rewrite Hi. reflexivity. }
    split; [apply env_step_world|]. split; [exact Hs|]. cbn. lia.
Qed.
Lemma station_answering f : answering (D := store) (S (S f)) calm target (fun _ => (-2, 0, 0)).
Proof.
  split; [|by compute|by compute]. intros q u seq Hu Hseq. destruct Hu as (Hd & Hp & Hr & Hk & Hi & Hn).
  destruct (deaf_ping f (u16 seq) _ Hn) as (n & E & Hn'). exists n. split; [exact E|]. done.
Qed.

(** The station after the keys with the scan codes [scs]. *)
Definition station_at (scs : list Z) : station :=
  Station [] (host [] [] 1000) (type_keys scs idle_keyboard) (fresh_mouse 0 0 false false)
    (Scheduler.Sched ∅ 0 0 0 0 (blank_disk 0, heap_example)) 0 true.
Definition station0 : station := station_at [].
Definition shell_at (scs : list Z) : shell station store :=
  blank_shell (SerialPort COM1_PORT true (ring_init 0) (station_at scs)) (beside heap_example unmounted).
Definition station_shell : shell station store := shell_at [].
Lemma deaf_host : deaf (host [] [] 1000).
Proof. split; try reflexivity. unfold is_u32. cbn. lia. Qed.
Lemma station_calm : calm [] (ser station_shell).
Proof.
  do 3 (split; [reflexivity|]). split; [|split; [reflexivity|exact deaf_host]].
  split; [apply idle_keyboard_wf|]. split; vm_compute; reflexivity.
Qed.

(** The control key is held and C is pressed. *)
Definition ctrl_c_strokes : list Z := [29; 46].
Lemma ctrl_c_calm : calm [3] (ser (shell_at ctrl_c_strokes)).
Proof.
  do 3 (split; [reflexivity|]). split; [|split; [reflexivity|exact deaf_host]].
  split; [|split; vm_compute; reflexivity].
  apply (ring_push_wf 3 (event_buffer idle_keyboard)), idle_keyboard_wf.
Qed.
Lemma station_ready scs : working 25 80 (shell_at scs) start_paper.
Proof. by apply blank_ready. Qed.

(** ** The witnesses *)


(** An address with a mask, of which the gateway and the text follow, and a
    mask that is none. *)
Lemma ifconfig_configures_witness :
  returns (cmd_ifconfig (str "10.1.2.3 255.255.0.0")) station_shell (fun _ s' =>
    net_config (w_net (world s')) = NetConfig true false 167838211 4294901760 167837698 134744072 0 0 0 0 0 0 /\
    said 25 80 station_shell start_paper
      (in_color 10 (strn "Static IPv4 configuration applied.") ++ in_color 14 ([NL] ++ str "eth0: ") ++
       in_color 7 (strn "Intel PRO/1000 (E1000) <UP,BROADCAST,RUNNING>" ++
         strn "      MAC:     52:54:00:12:34:56  IRQ: 11" ++
         strn "      inet:    10.1.2.3  netmask: 255.255.0.0  (static)" ++
         strn "      gateway: 10.1.0.2  dns:     8.8.8.8" ++
         strn "      RX pkts: 0 (0 B)  TX pkts: 0 (0 B)" ++ [NL])) s') /\
  returns (cmd_ifconfig (str "10.1.2.3 255.255.256.0")) station_shell (fun _ s' =>
    w_net (world s') = w_net (world station_shell) /\
    said 25 80 station_shell start_paper (in_color 12 (strn "Invalid subnet mask.")) s').
Proof.
  assert (forall w, (0 < length w <= 23)%nat -> forallb (fun c => negb (c =? 32)) w = true -> arg_word w) as Hword.
  { intros w Hl Hf. split; [by destruct w; [cbn in Hl; lia|]|]. split; [lia|]. apply Forall_forall. intros c Hc%list_elem_of_In ->.
    rewrite forallb_forall in Hf. by specialize (Hf _ Hc). }
  destruct (ifconfig_configures (D := store) 25 80 station_shell start_paper (station_ready [])) as (_ & Hc).
  assert (dotted (str "10.1.2.3") 167838211) as Hip.
  { exists [49; 48], [49], [50], [51]. split; [reflexivity|]. do 4 (split; [split; [done|]; split; [by apply Forall_forall; intros c Hc'; set_unfold; lia|by compute]|]). reflexivity. }
  split.
  - destruct (Hc (str "10.1.2.3") (str "255.255.0.0") []) as [Hs _];
      [apply Hword; [cbn; lia|reflexivity]|right; apply Hword; [cbn; lia|reflexivity]|by left|].
    eapply returns_mono; [apply (Hs 167838211 4294901760 0 Hip); [|reflexivity]|].
    + exists [50; 53; 53], [50; 53; 53], [48], [48]. split; [reflexivity|].
      do 4 (split; [split; [done|]; split; [by apply Forall_forall; intros c Hc'; set_unfold; lia|by compute]|]). reflexivity.
    + intros [] s' [Hn Hsaid]. rewrite Hn. split; [reflexivity|]. exact Hsaid.
  - destruct (Hc (str "10.1.2.3") (str "255.255.256.0") []) as (_ & _ & Hm & _);
      [apply Hword; [cbn; lia|reflexivity]|right; apply Hword; [cbn; lia|reflexivity]|by left|].
    apply (Hm 167838211 Hip); [done|]. intros m Hd%parse_dotted. vm_compute in Hd. discriminate Hd.
Defined.


(** * A station with interrupts *)

(** The station, the ends of interrupt so far, what the two controllers have
    in service, the timer, and the variables of the driver. *)
Record rig := Rig {
  rg_station : station; rg_acks : list Z; rg_service1 : Z; rg_service2 : Z; rg_timer : Timer.timer_state_t;
  rg_dma : Nic.dma_t; rg_vars : Z * Z * Z * Z * paging * Klog.log * Timer.timer_state_t
}.
Definition put_station (st : station) (g : rig) : rig :=
  Rig st (rg_acks g) (rg_service1 g) (rg_service2 g) (rg_timer g) (rg_dma g) (rg_vars g).
Definition put_timer (t : Timer.timer_state_t) (g : rig) : rig :=
  Rig (rg_station g) (rg_acks g) (rg_service1 g) (rg_service2 g) t (rg_dma g) (rg_vars g).
Definition put_dma (d : Nic.dma_t) (g : rig) : rig :=
  Rig (rg_station g) (rg_acks g) (rg_service1 g) (rg_service2 g) (rg_timer g) d (rg_vars g).
Definition put_vars v (g : rig) : rig :=
  Rig (rg_station g) (rg_acks g) (rg_service1 g) (rg_service2 g) (rg_timer g) (rg_dma g) v.
Definition add_acks (l : list Z) (g : rig) : rig :=
  Rig (rg_station g) (rg_acks g ++ l) (rg_service1 g) (rg_service2 g) (rg_timer g) (rg_dma g) (rg_vars g).
Definition on_station {A} (m : ST station A) : ST rig A := fun g => let '(x, st) := m (rg_station g) in (x, put_station st g).

Definition is_ack (p v : Z) : bool := ((p =? PIC1_COMMAND) || (p =? PIC2_COMMAND)) && (v =? PIC_EOI).

#[export] Instance rig_ports : Ports rig := {
  inb p g := if p =? PIC1_COMMAND then (rg_service1 g, g) else if p =? PIC2_COMMAND then (rg_service2 g, g) else on_station (inb p) g;
  inw p := on_station (inw p);
  outb p v g := on_station (outb p v) (add_acks (if is_ack p v then [p] else []) g);
  outw p v := on_station (outw p v)
}.
#[export] Instance rig_long : Pci.LongPorts rig := { port_inl p g := (4294967295, g); port_outl p v g := (tt, g) }.
#[export] Instance rig_board : Nic.Board rig := {
  mmio_read32 a g := (0, g); mmio_write32 a v g := (tt, g); board_dma := rg_dma; set_dma := put_dma; card_run g := g
}.
#[export] Program Instance rig_tx : UartTx rig := { sent port g := sent port (rg_station g) }.
Next Obligation. intros port p g. cbn. by destruct (p =? PIC1_COMMAND), (p =? PIC2_COMMAND). Qed.
Next Obligation. intros port v g. exact (tx_write port v (rg_station g)). Qed.
Next Obligation. intros port p v g Hp. exact (tx_other port p v (rg_station g) Hp). Qed.

#[export] Program Instance rig_ack : PicAck rig := {
  acks := rg_acks; in_service p g := if p =? PIC1_COMMAND then rg_service1 g else rg_service2 g
}.
Next Obligation. by intros p g [-> | ->]. Qed.
Next Obligation. by intros p g [-> | ->]. Qed.
Next Obligation. intros p g [-> | ->]; apply app_nil_r. Qed.
Next Obligation. intros p g. cbn. by destruct (p =? PIC1_COMMAND), (p =? PIC2_COMMAND). Qed.
Next Obligation. done. Qed.
Next Obligation. done. Qed.
Next Obligation. done. Qed.
Next Obligation. done. Qed.
Next Obligation. done. Qed.
Next Obligation. done. Qed.

#[export] Instance rig_world : World rig store wire := {
  w_net g := w_net (D := store) (rg_station g);
  w_set_net n g := put_station (w_set_net (D := store) n (rg_station g)) g;
  w_keyboard g := w_keyboard (D := store) (rg_station g);
  w_set_keyboard k g := put_station (w_set_keyboard (D := store) k (rg_station g)) g;
  w_mouse g := w_mouse (D := store) (rg_station g);
  w_set_mouse m g := put_station (w_set_mouse (D := store) m (rg_station g)) g;
  w_sched g := w_sched (rg_station g);
  w_set_sched sc g := put_station (w_set_sched sc (rg_station g)) g;
  w_timer g := (rg_timer g, g);
  w_set_timer := put_timer;
  w_irqs g := w_irqs (D := store) (rg_station g);
  w_set_irqs b g := put_station (w_set_irqs (D := store) b (rg_station g)) g;
  w_log g := w_log (D := store) (rg_station g);
  w_cpu g := w_cpu (D := store) (rg_station g);
  w_pci g := w_pci (D := store) (rg_station g);
  w_nic g := w_nic (D := store) (rg_station g);
  w_pmm := w_pmm (H := station);
  w_heap := w_heap (H := station);
  w_drive := w_drive (H := station)
}.
#[export] Instance rig_card : Card rig wire := {
  w_cr2 g := 0;
  w_driver u := let g := serial_hw u in let '(rx, tx, off, rtx, pages, log, tm) := rg_vars g in
    Nic.Nic (w_nic (D := store) g) rx tx off rtx pages (Klog.Klog log tm u) (w_net (D := store) g);
  w_set_driver c _ := let u := Klog.k_serial (Nic.nic_log c) in
    set_hw (put_vars (Nic.e1000_rx_cur c, Nic.e1000_tx_cur c, Nic.rtl_rx_offset c, Nic.rtl_tx_cur c, Nic.nic_pages c,
        Klog.k_log (Nic.nic_log c), Klog.k_timer (Nic.nic_log c))
      (w_set_net (D := store) (Nic.stack c) (serial_hw u))) u
}.
#[export] Instance rig_assembled : Assembled rig store wire.
Proof.
  split; try done.
  - intros u. cbn. by destruct (rg_vars (serial_hw u)) as [[[[[[? ?] ?] ?] ?] ?] ?].
  - intros u. cbn. by destruct (rg_vars (serial_hw u)) as [[[[[[? ?] ?] ?] ?] ?] ?].
  - intros [port pres ring [[] ? ? ? ? ? [[[[[[? ?] ?] ?] ?] ?] ?]]]. reflexivity.
Qed.

(** ** The rig with a frame of registers in its memory *)

Definition rig0 : rig :=
  Rig station0 [] 0 0 (Timer.TimerState 41 0 100) (Nic.Dma [] [] [] [] [] [])
    (0, 0, 0, 0, Paging ∅ pmm_example 0 0 0 0 [], Klog.Log [] 0, Timer.TimerState 41 0 100).
Definition rig_shell (h : heap) : shell rig store :=
  blank_shell (SerialPort COM1_PORT true (ring_init 0)
      (w_set_sched (Scheduler.scheduler_init 4096 (Scheduler.Sched ∅ 0 0 0 0 (blank_disk 0, h))) rig0))
    (beside h unmounted).

(** Registers at [p], in a block of the heap, with the words [ws] at their
    offsets. *)
Definition set_words (p : Z) (ws : list (Z * Z)) (h : heap) : heap := foldr (fun w h => al_st32 (p + w.1) w.2 h) h ws.
Lemma set_words_spec p k ws h :
  al_repr h [(p, k)] -> Forall (fun w => 0 <= w.1 /\ w.1 + 4 <= k) ws ->
  al_repr (set_words p ws h) [(p, k)] /\ (forall n, al_request h n -> al_request (set_words p ws h) n).
Proof.
  intros Hr. induction ws as [|[o v] ws IH]; intros Hw; [done|]. inversion_clear Hw as [|? ? Ho Hw']. cbn in Ho.
  destruct (IH Hw') as [Hr' Hq]. cbn [set_words foldr fst snd] in *. fold (set_words p ws h).
  destruct (al_st32_law (set_words p ws h) [(p, k)] (p + o) v (p, k) Hr') as (Hr2 & Hq2 & _); [left|cbn; lia..|].
  split; [exact Hr2|]. intros n Hn. by apply Hq2, Hq.
Qed.
Lemma last_word p k o v ws h :
  al_repr h [(p, k)] -> Forall (fun w => 0 <= w.1 /\ w.1 + 4 <= k) ((o, v) :: ws) -> al_ld32 (set_words p ((o, v) :: ws) h) (p + o) = u32 v.
Proof.
  intros Hr Hw. inversion_clear Hw as [|? ? Ho Hw']. cbn in Ho. destruct (set_words_spec p k ws h Hr Hw') as [Hr' _].
  cbn [set_words foldr fst snd]. fold (set_words p ws h).
  by destruct (al_st32_law (set_words p ws h) [(p, k)] (p + o) v (p, k) Hr') as (_ & _ & _ & Hv); [left|cbn; lia..|].
Qed.
Lemma frame_block : exists p k h, 128 <= k /\ al_repr h [(p, k)] /\ forall n, 0 < n <= 4000000000 -> al_request h n.
Proof.
  destruct (heap_example_alloc_size 128 ltac:(lia)) as (p & k & h & _ & Hk & Hr & Hm). exists p, k, h. split; [exact Hk|].
  split; [exact Hr|]. intros n Hn. split; [lia|]. rewrite Hm. lia.
Qed.
Lemma rig_sched_ok h rs : al_repr h rs -> (forall n, 0 < n <= 4000000000 -> al_request h n) ->
  SchedSpec.sched_ok 4096 (sched_of (rig_shell h)) [] rs.
Proof.
  intros Hr Hq. apply (SchedRun.init_ok (A := store) 4096 (Scheduler.Sched ∅ 0 0 0 0 (blank_disk 0, h)) rs);
    [reflexivity|lia|exact Hr|apply Hq..]; unfold Scheduler.TASK_STRUCT_SIZE, Scheduler.STACK_SIZE; lia.
Qed.

(** ** The witnesses *)

(** A spurious interrupt on line 15, and one of the mouse. *)
Lemma irq_acknowledged_witness :
  (exists r' s', irq_handler 4096 10 8192 (rig_shell (set_words 8192 [(o_int_no, 47)] heap_example)) = Some (r', s') /\
    acks (world s') = [PIC1_COMMAND]) /\
  exists r' s', irq_handler 4096 10 8192 (rig_shell (set_words 8192 [(o_int_no, 44)] heap_example)) = Some (r', s') /\
    acks (world s') = [PIC2_COMMAND; PIC1_COMMAND].
Proof.
  split.
  - destruct (irq_acknowledged 4096 10 8192 (rig_shell (set_words 8192 [(o_int_no, 47)] heap_example))) as (h1 & Ha & _ & Hk & Hr).
    destruct Hr as [s' Er]; [vm_compute; discriminate|vm_compute; discriminate|vm_compute; discriminate|].
    exists 8192, s'. split; [exact Er|]. rewrite (Hk _ _ Er), Ha. vm_compute. reflexivity.
  - destruct (irq_acknowledged 4096 10 8192 (rig_shell (set_words 8192 [(o_int_no, 44)] heap_example))) as (h1 & Ha & _ & Hk & Hr).
    destruct Hr as [s' Er]; [vm_compute; discriminate|vm_compute; discriminate|vm_compute; discriminate|].
    exists 8192, s'. split; [exact Er|]. rewrite (Hk _ _ Er), Ha. vm_compute. reflexivity.
Defined.

Lemma timer_interrupt_witness :
  exists p h s', irq_handler 4096 10 p (rig_shell h) = Some (p, s') /\ acks (world s') = [PIC1_COMMAND] /\
    (w_timer (World := rig_world) (world s')).1 = Timer.TimerState 42 0 100.
Proof.
  destruct frame_block as (p & k & h & Hk & Hr & Hq). exists p, (set_words p [(o_int_no, 32)] h).
  assert (Forall (fun w : Z * Z => 0 <= w.1 /\ w.1 + 4 <= k) [(o_int_no, 32)]) as Hw.
  { constructor; [|constructor]. cbn. unfold o_int_no. lia. }
  destruct (set_words_spec p k _ h Hr Hw) as [Hr' Hq'].
  destruct (timer_interrupt 4096 10 p (rig_shell (set_words p [(o_int_no, 32)] h)) [] [(p, k)])
    as (l1 & l2 & s' & El & E & _ & _ & _ & Ht & Ha).
  - exact (last_word p k o_int_no 32 [] h Hr Hw).
  - apply rig_sched_ok; [exact Hr'|]. intros n Hn. apply Hq', Hq, Hn.
  - intros _. discriminate.
  - exists s'. split; [|split; [exact Ha|exact Ht]]. rewrite E. f_equal. f_equal.
    change ([4096] = l1 ++ 4096 :: l2) in El. apply (f_equal length) in El. rewrite length_app in El. cbn in El.
    destruct l1 as [|? ?]; [|cbn in El; lia]. destruct l2 as [|? ?]; [|cbn in El; lia]. reflexivity.
Defined.

Lemma syscall_results_witness :
  exists p h, returns (syscall_handler 4096 10 p_none p) (rig_shell h) (fun r' s' =>
    r' = p /\ al_ld32 (dev (sh_fs s')) (p + o_eax) = 410).
Proof.
  destruct frame_block as (p & k & h & Hk & Hr & Hq). exists p, (set_words p [(o_eax, SYS_UPTIME)] h).
  assert (Forall (fun w : Z * Z => 0 <= w.1 /\ w.1 + 4 <= k) [(o_eax, SYS_UPTIME)]) as Hw.
  { constructor; [|constructor]. cbn. unfold o_eax. lia. }
  destruct (set_words_spec p k _ h Hr Hw) as [Hr' _].
  destruct (syscall_results 25 80 4096 10 p_none p (rig_shell (set_words p [(o_eax, SYS_UPTIME)] h)) start_paper) as (_ & Hu & _).
  - by apply blank_ready.
  - exists [(p, k)], (p, k). split; [exact Hr'|]. split; [left|]. cbn. unfold REGS_SIZE. lia.
  - eapply returns_mono; [apply Hu; exact (last_word p k o_eax SYS_UPTIME [] h Hr Hw)|].
    intros r' s' (-> & (Ha & _) & _). split; [reflexivity|exact Ha].
Defined.
