(* ===== verification/Boot.v ===== *)
(** Boot: phase 2 of [kmain] in [kernel/main.c], which brings up the frame
    allocator, paging and the heap, in that order and in the same memory. *)

From S2P Require Import Prelude Memory Common Pmm Heap HeapInv HeapSpec Paging PagingSpec.

(** What phase 2 leaves: the frame allocator, the page tables, the heap and
    the memory they are in. *)
Record booted := Booted { bo_paging : paging; bo_heap : heap }.

Lemma bind_steps {A B C} (o : option A) (f : A -> option B) (g : B -> C) a b :
  o = Some a -> f a = Some b -> (o ≫= fun a => f a ≫= fun b => Some (g b)) = Some (g b).
Proof. intros -> E. cbn. by rewrite E. Qed.

Section boot.
(** [bss_end], where the kernel image ends, and [static_pt_pool] in it. *)
Context (bss_end static_pt_pool : Z).

Definition boot_heap_base : Z :=
  let heap_base := ALIGN_UP (u32 (bss_end + 65536)) 1048576 in
  if heap_base <? HEAP_START then HEAP_START else heap_base.

(** The heap writes to the memory with the tables, and takes frames from the
    allocator that paging takes its tables from. *)
Definition boot_memory (mboot : multiboot_info_t) (m : mem) (cr0 : Z) : option booted :=
  let total_mem_bytes := multiboot_total_memory mboot in
  p ← pmm_init_mmap m (Some mboot) total_mem_bytes (u32 (boot_heap_base + HEAP_INITIAL_SIZE));
  s ← paging_install bss_end (Paging m p 0 0 0 cr0 []);
  let h := heap_init_at boot_heap_base HEAP_INITIAL_SIZE HEAP_MAX_SIZE (pg_mem s) (pg_pmm s) in
  Some (Booted (with_pg_mem (h_mem h) s) h).

Lemma boot_memory_eq m mbi cr0 p s :
  pmm_init_mmap m (Some mbi) (multiboot_total_memory mbi) (u32 (boot_heap_base + HEAP_INITIAL_SIZE)) = Some p ->
  paging_install bss_end (Paging m p 0 0 0 cr0 []) = Some s ->
  let h := heap_init_at boot_heap_base HEAP_INITIAL_SIZE HEAP_MAX_SIZE (pg_mem s) (pg_pmm s) in
  boot_memory mbi m cr0 = Some (Booted (with_pg_mem (h_mem h) s) h).
Proof.
  intros Ep Es. exact (bind_steps _ (fun p => paging_install bss_end (Paging m p 0 0 0 cr0 []))
    (fun s => let h := heap_init_at boot_heap_base HEAP_INITIAL_SIZE HEAP_MAX_SIZE (pg_mem s) (pg_pmm s) in
      Booted (with_pg_mem (h_mem h) s) h) p s Ep Es).
Qed.

(** ** What it needs *)

(** The kernel image ends below 16 MiB less 64 KiB, with the pool of tables
    in it, at a page boundary. *)
Record image_ok : Prop := {
  im_end : 0 < bss_end <= 16711680;
  im_pool : 0 < static_pt_pool /\ static_pt_pool mod 4096 = 0 /\
    static_pt_pool + STATIC_PT_POOL_COUNT * PAGE_SIZE <= kernel_end bss_end
}.

(** A memory map of the boot loader, if it gives one. *)
Definition mmap_ok (m : mem) (mbi : multiboot_info_t) (es : list multiboot_mmap_entry_t) : Prop :=
  Z.testbit (flags mbi) 6 = true -> mmap_length mbi <> 0 ->
    0 < mmap_length mbi /\ 0 < mmap_addr mbi /\ mmap_addr mbi + mmap_length mbi < 4294967296 /\
    mmap_table m (mmap_addr mbi + mmap_length mbi) (mmap_addr mbi) es.

(** ** Where things are *)

(** The tables are between the image and the heap, and the heap, grown to its
    limit, is inside of the identity map. *)
Lemma boot_layout : image_ok ->
  kernel_end bss_end mod 4096 = 0 /\ bss_end <= kernel_end bss_end /\
  kernel_end bss_end + 9 * PAGE_SIZE <= boot_heap_base /\ HEAP_START <= boot_heap_base /\
  boot_heap_base mod 4096 = 0 /\ boot_heap_base + HEAP_MAX_SIZE <= IDENTITY_MAP_SIZE.
Proof.
  intros [He _]. destruct (ALIGN_UP_bounds bss_end 12) as [Hk Hkm]; [lia..|].
  destruct (ALIGN_UP_bounds (u32 (bss_end + 65536)) 20) as [Hb Hbm]; [rewrite ?u32_id by lia; lia..|].
  rewrite u32_id in * by lia. change (2 ^ 12) with 4096 in *. change (2 ^ 20) with 1048576 in *.
  unfold kernel_end, boot_heap_base, PAGE_SIZE, HEAP_START, HEAP_MAX_SIZE, IDENTITY_MAP_SIZE, IDENTITY_MAP_TABLES.
  rewrite (u32_id (bss_end + 65536)) by lia. destruct Hkm as [a Ea], Hbm as [b Eb].
  destruct (Z.ltb_spec (ALIGN_UP (bss_end + 65536) 1048576) 4194304); split_and!; zlia.
Qed.

Lemma total_memory_u32 mbi : is_u32 (multiboot_total_memory mbi).
Proof. unfold multiboot_total_memory. destruct (Z.testbit _ _); [apply u32_range|unfold is_u32; lia]. Qed.

(** The frames of everything up to the first heap are in use. *)
Lemma boot_frames m mbi es : image_ok -> mmap_ok m mbi es ->
  exists p, pmm_init_mmap m (Some mbi) (multiboot_total_memory mbi) (u32 (boot_heap_base + HEAP_INITIAL_SIZE)) = Some p /\
    layout_ok bss_end static_pt_pool p /\
    forall g, 0 <= g < (boot_heap_base + HEAP_INITIAL_SIZE) / PAGE_SIZE -> frame_used p g = true.
Proof.
  intros Him Hmm. destruct (boot_layout Him) as (Hk1 & Hk2 & Hk3 & Hb1 & Hb2 & Hb3). destruct Him as [He Hpool].
  unfold HEAP_INITIAL_SIZE, HEAP_MAX_SIZE, HEAP_START, IDENTITY_MAP_SIZE, IDENTITY_MAP_TABLES in *. rewrite u32_id by lia.
  destruct (init_mmap_low m mbi es (multiboot_total_memory mbi) (boot_heap_base + 2097152) Hmm (total_memory_u32 mbi)) as (p & E & Hw & Hu);
    [lia|].
  destruct (low_limit_bounds (boot_heap_base + 2097152)) as (_ & Hl & _); [lia|].
  assert (forall g, 0 <= g < (boot_heap_base + 2097152) / PAGE_SIZE -> frame_used p g = true) as Hg.
  { intros g Hg. apply Hu. split; [lia|]. eapply Z.lt_le_trans; [apply Hg|]. apply Z.div_le_mono; [done|exact Hl]. }
  exists p. split; [exact E|]. split; [|exact Hg]. unfold PAGE_SIZE in *. split; [exact Hw| |exact Hpool|].
  - unfold is_page, PAGE_SIZE. lia.
  - intros g Hgr. apply Hg. unfold PAGE_SIZE in Hgr. zlia.
Qed.

(** The heap. *)
Lemma boot_heap m p : image_ok -> pmm_wf p ->
  let h := heap_init_at boot_heap_base HEAP_INITIAL_SIZE HEAP_MAX_SIZE m p in
  heap_inv h [Blk boot_heap_base (HEAP_INITIAL_SIZE - 24) true] /\
  (forall x, x < boot_heap_base \/ boot_heap_base + 24 <= x -> ld8 (h_mem h) x = ld8 m x) /\ h_pmm h = p.
Proof.
  intros Him Hp h. destruct (boot_layout Him) as (_ & _ & _ & Hb1 & Hb2 & Hb3).
  destruct (heap_init_at_inv boot_heap_base HEAP_INITIAL_SIZE HEAP_MAX_SIZE m p) as (Hinv & _ & Hx); [..|by split];
    unfold HEAP_START, HEAP_MAX_SIZE, HEAP_INITIAL_SIZE, IDENTITY_MAP_SIZE, IDENTITY_MAP_TABLES in *; try zlia. exact Hp.
Qed.

(** What paging leaves, and where its tables are. *)
Lemma boot_tables s0 : layout_ok bss_end static_pt_pool (pg_pmm s0) -> 0 <= static_pt_used s0 <= STATIC_PT_POOL_COUNT ->
  exists s, paging_install bss_end s0 = Some s /\ pg_pmm s = pg_pmm s0 /\ page_dir s = kernel_end bss_end /\
    paging_ok static_pt_pool s /\ cr3 s = page_dir s /\ Z.testbit (cr0 s) 31 = true /\
    (forall v, 0 <= v < IDENTITY_MAP_SIZE -> paging_get_physical v s = v) /\
    (forall v, is_u32 v -> IDENTITY_MAP_SIZE <= v -> mapping s v = None) /\
    (forall i, 0 <= i < 1024 -> present (pde s i) = true ->
      kernel_end bss_end <= table s i /\ table s i + PAGE_SIZE <= kernel_end bss_end + 9 * PAGE_SIZE).
Proof.
  intros Hlo Hu. exists (switched_on bss_end (dir_filled bss_end s0)). split; [by apply (install_eq bss_end static_pt_pool)|].
  destruct (install_identity bss_end static_pt_pool s0 Hlo Hu) as (Hok & Hc3 & Hc0 & Hid & Hno).
  pose proof (fun i => install_table bss_end static_pt_pool s0 i Hlo) as Htab.
  destruct (dir_filled_spec bss_end static_pt_pool s0 Hlo) as ((HP & _) & _). change (pg_pmm (cleared bss_end s0)) with (pg_pmm s0) in HP.
  generalize dependent (dir_filled bss_end s0). intros f Hok Hc3 Hc0 Hid Hno Htab HP.
  split_and!; [exact HP|reflexivity|done..|]. intros i Hi Hpr. destruct (Htab i Hi Hpr) as [Hi8 ->]. unfold id_table, PAGE_SIZE. lia.
Qed.

(** C18: after phase 2 the three memory managers agree.  The boot sequence
    returns; the frames of the kernel, its page tables and the first heap are
    in use; paging is on, translates the first 32 MiB to themselves and maps
    nothing else; the heap is one free block, which even at its limit is inside
    of that range; and the header of the heap has not touched the tables. *)
Theorem boot_memory_ok m mbi es cr0_ :
  image_ok -> mmap_ok m mbi es ->
  exists b, boot_memory mbi m cr0_ = Some b /\
    let s := bo_paging b in let h := bo_heap b in
    pg_mem s = h_mem h /\ pg_pmm s = h_pmm h /\
    paging_ok static_pt_pool s /\ cr3 s = page_dir s /\ Z.testbit (cr0 s) 31 = true /\
    (forall v, 0 <= v < IDENTITY_MAP_SIZE -> paging_get_physical v s = v) /\
    (forall v, is_u32 v -> IDENTITY_MAP_SIZE <= v -> mapping s v = None) /\
    heap_inv h [Blk boot_heap_base (HEAP_INITIAL_SIZE - 24) true] /\
    boot_heap_base + HEAP_MAX_SIZE <= IDENTITY_MAP_SIZE /\
    (forall g, 0 <= g < (boot_heap_base + HEAP_INITIAL_SIZE) / PAGE_SIZE -> frame_used (h_pmm h) g = true).
Proof.
  intros Him Hmm. destruct (boot_frames m mbi es Him Hmm) as (p & Ep & Hlo & Hg).
  destruct (boot_layout Him) as (Hk1 & Hk2 & Hk3 & Hb1 & Hb2 & Hb3). pose proof Him as [He _].
  destruct (boot_tables (Paging m p 0 0 0 cr0_ [])) as (s & Es & Epm & Ed & Hok & Hc3 & Hc0 & Hid & Hno & Htab);
    [exact Hlo|cbn; unfold STATIC_PT_POOL_COUNT; lia|].
  pose proof (boot_memory_eq m mbi cr0_ p s Ep Es) as Eb. cbn [pg_pmm] in Epm. cbv zeta in Eb. rewrite Epm in Eb.
  destruct (boot_heap (pg_mem s) p Him (lo_pmm _ _ _ Hlo)) as (Hinv & Hx & Hpm).
  generalize dependent (heap_init_at boot_heap_base HEAP_INITIAL_SIZE HEAP_MAX_SIZE (pg_mem s) p). intros h Eb Hinv Hx Hpm.
  eexists. split; [exact Eb|]. cbn [bo_paging bo_heap]. rewrite Hpm.
  destruct (paging_mem_ext static_pt_pool (kernel_end bss_end) (kernel_end bss_end + 9 * PAGE_SIZE) (h_mem h) s Hok) as [Hok' Hmap];
    [unfold PAGE_SIZE in *; lia..|exact Htab|intros x Hxr; apply Hx; lia|].
  split_and!; [reflexivity|exact Epm|exact Hok'|exact Hc3|exact Hc0| | |exact Hinv|exact Hb3|exact Hg].
  - intros v Hv. pose proof (Hid v Hv) as Hi. revert Hi. rewrite !get_physical_mapping.
    + rewrite Hmap; [done|]. unfold is_u32, IDENTITY_MAP_SIZE, IDENTITY_MAP_TABLES in *. lia.
    + cbn. rewrite Ed. lia.
    + rewrite Ed. lia.
  - intros v Hv Hge. rewrite Hmap by exact Hv. by apply Hno.
Qed.
End boot.

(** ** A machine with 32 MiB *)

Lemma boot_memory_ok_witness :
  exists b, boot_memory 2097152 mbi_example mem_example 17 = Some b /\
    paging_get_physical 1193046 (bo_paging b) = 1193046 /\ heap_base_addr (bo_heap b) = boot_heap_base 2097152.
Proof.
  destruct (boot_memory_ok 2097152 pool_example mem_example mbi_example [mmap_entry mem_example 4096] 17)
    as (b & E & _ & _ & _ & _ & _ & Hid & _ & Hinv & _).
  - assert (kernel_end 2097152 = 2097152) as Ek by (vm_compute; reflexivity).
    split; [lia|]. rewrite Ek. unfold pool_example, STATIC_PT_POOL_COUNT, PAGE_SIZE. split_and!; [lia|reflexivity|lia].
  - intros _ _. cbn [mmap_length mmap_addr mbi_example]. split_and!; [lia..|].
    apply mmap_cons; [simpl; lia|vm_compute; reflexivity|]. apply mmap_end. vm_compute. discriminate.
  - exists b. split; [exact E|]. split; [apply Hid; unfold IDENTITY_MAP_SIZE, IDENTITY_MAP_TABLES; lia|].
    destruct (ok_seg _ _ (inv_ok _ _ Hinv)) as (Hs & _). symmetry. exact Hs.
Defined.
